(* ===== verification/_CoqProject ===== *)
-Q . S2P
Prelude.v
PhlQueue.v
PhlDef.v
DispState.v
DispApi.v
DispThread.v
DispModule.v
DispSample.v
DispInv.v
DispApiInv.v
DispThreadInv.v
DispFuel.v
DispLeave.v
DispReach.v
DispOrder.v
DispTheorems.v
DispSend.v
DispEngine.v
DispEngineInv.v
DispEngineThm.v
MsgHub.v
MsgHubThm.v
DataPath.v
DataPathThm.v
DispCtrl.v
DispCtrlThm.v
RxReorder.v
RxReorderInv.v
RxReorderThm.v
RxRing.v
RxRingThm.v
TxRing.v
TxRingInv.v
TxPlan.v
TxSys.v
TxSysInv.v
TxSysThm.v
TxPcie.v
TxPcieInv.v
TxPcieOk.v
TxThm.v
StaInfo.v
StaInv.v
StaOps.v
StaThm.v
IeBuf.v
IeSearch.v
IeSearchThm.v
IeEditThm.v
IeParse.v
IeParseThm.v
IeRsn.v
IeRsnThm.v
IeAttr.v
IeAttrThm.v
IeRate.v
IeChan.v
IeBss.v
IeThm.v
FwOfld.v
FwReq.v
FwReqThm.v
FwOfldInv.v
PktOfld.v
PktOfldInv.v
PktOfldThm.v
PktOfldErr.v
PktFrame.v
PktSend.v
SerMac.v
SerCmd.v
SerInv.v
SerThm.v
SerFlow.v
SecRc4.v
SecTkip.v
SecRecv.v
SecDefrag.v
RxMsdu.v
RxValid.v
