(* ===== verification/Prelude.v ===== *)
(** * Verification of the rtl8852be driver

    The program is a Linux driver for the RTL8852BE wireless chip.  Its PHL
    layer (src/phl) sits between the 802.11 core (src/core, src/os_dep) and the
    chip (src/phl/hal_g6).  The development models the parts of PHL that keep
    the layer's own state and carry its control flow and data flow, and of the
    core the functions that read and write what other stations send:

    - queues, flags and bitmaps, used by all of them (phl_util.c, phl_util.h,
      phl_list.h): this file and [PhlQueue];
    - message identifiers and attributes (phl_def.h): [PhlDef];
    - the command dispatcher (phl_cmd_dispatcher.c), which serialises commands
      by a token and hands messages to modules in two phases: [DispState] (the
      structs), [DispApi] (the calls other threads and modules make),
      [DispThread] (the thread), [DispModule] (modules, start and stop);
    - the dispatch engine (phl_cmd_dispatch_engine.c), one dispatcher per band
      behind one shared thread: [DispEngine];
    - the message hub (phl_msg_hub.c): [MsgHub];
    - the data path (controller part of phl_tx.c, handlers of
      hci/phl_trx_pcie.c), which modules pause, resume and reset, and what starts
      and stops it besides (phl_init.c, phl_ecsa.c): [DataPath];
    - the dispatcher's controller module (phl_cmd_dispr_controller.c), which
      turns messages into data-path commands: [DispCtrl];
    - error recovery: the module (phl_cmd_ser.c, fed by the interrupt handler of
      phl_init.c): [SerCmd]; the mailboxes it shares with the firmware and the
      handshake (hal_g6/mac/mac_ax/ser.c, hal_g6/hal_ser.c): [SerMac];
    - receive reordering and block-ack sessions (phl_rx.c, phl_rx_agg.c):
      [RxReorder];
    - the receive ring, packet descriptors, power-save tracking and statistics
      (phl_rx.c, pointer arithmetic of phl_tx.c): [RxRing];
    - the transmit rings, flow control and transmit handler (phl_tx.c,
      hci/phl_trx_pcie.c): [TxRing], with its threads in [TxSys];
    - transmission over PCIe (hci/phl_trx_pcie.c, index registers of
      hal_g6/rtl8852b/pci/hal_trx_8852be.c): [TxPcie];
    - stations and their identifiers (phl_sta.c), which own transmit rings and
      reorder buffers: [StaInfo];
    - the information elements of management frames (src/core/rtw_ieee80211.c,
      with the rate tests of rtw_wlan_util.c and the channel table of rtw_rf.c):
      [IeBuf] (objects of bytes), [IeSearch] (searching and editing), [IeParse]
      (the element parser), [IeRsn] (the WPA and RSN elements), [IeAttr] (WPS,
      P2P and WFD attributes, stored networks), [IeRate], [IeChan];
    - packets offloaded to the firmware: the entries and requests of stations
      and the packets themselves (phl_pkt_ofld.c): [PktOfld]; the commands, their
      states and identifiers in the MAC layer (hal_g6/mac/mac_ax/fwofld.c, the
      firmware's messages in fwcmd.c, the wrappers of hal_g6/hal_api_mac.c):
      [FwOfld]; lists of register accesses that are offloaded (fwofld.c): [FwReq];
    - software encryption (src/core/rtw_security.c): [SecRc4] (the stream
      cipher, the checksum, WEP, and the frames and keys), [SecTkip] (Michael,
      key mixing, TKIP, packet numbers);
    - the checks of a received data frame (src/core/rtw_recv.c): [SecRecv]
      (decryption, Michael check, port, replays, duplicates, with the CCMP and
      GCMP routines of rtw_security.c), [SecDefrag] (reassembly, and the order of
      the checks), [RxMsdu] (aggregates, and the conversion to Ethernet),
      [RxValid] (the validation of headers, of unprotected and of management
      frames, with [rtw_bip_verify] of rtw_security.c).

    The components meet where the code makes them meet: modules and the
    controller ([DispCtrl]) run inside the dispatcher and command the data path;
    so does error recovery ([SerCmd]), whose hardware steps the MAC layer answers;
    the data path decides whether the transmit and receive handlers run; the
    transmit handler ([TxRing]) hands requests to the bus layer through the
    interface [TxRing.HciTx], whose laws [TxRing.HciTxOk] the PCIe layer proves
    ([TxPcieOk]) and against which the rings are verified ([TxSysThm]).  In the
    same way the offloading of packets uses the MAC layer through
    [PktOfld.HalOfld], with the laws [PktOfldInv.HalOfldOk], which [PktOfldThm]
    proves of the MAC layer.

    ** Conventions

    A C struct is a record and a C function a Rocq function of the same name
    that takes the state and returns it.  A pointer into a pool is the index of
    its element; a list queue is the list of what it links, with its counter.
    Integers are [Z]; where width matters the wrap-around is written out ([u8],
    [u16], [u32], [u64]).  Spin locks make each operation atomic and are not
    represented, except in the receive ring, whose reader takes no lock: there
    writer and reader are two threads that interleave at every access
    ([RxRing.prod_step], [RxRing.cons_step]).  A use of freed memory or an index
    out of bounds sets a flag ([d_ub], [eng_ub]).  The element functions read
    untrusted bytes: there every access goes through a small monad ([IeBuf.res])
    whose result is a value, [Oob] for an access outside the object, or [Fuel]
    for a loop that has not ended; a pointer is an offset into its object.

    Code reached through function pointers is not known here.  The dispatcher
    and the hub carry a list of responses ([d_env], [h_env]): each callback
    takes the next one, which says what it returns and which calls it makes
    back into the component, so a theorem for every list is a theorem for every
    behaviour of modules, requests and receivers.  Other threads are calls at
    any point of a run ([reach], [eng_reach], [hub_reach], [rx_step]).

    The hardware of the PCIe layer moves its read index over the descriptors
    it was given by an amount the environment chooses before each look at the
    register ([hc_moves]); whether filling a page succeeds and whether the core
    driver takes a request back are further inputs.  Its index registers are
    cleared with a reset of transmission ([hw_reset]).

    The firmware answers offload commands by messages.  How each command fares,
    what the firmware answers to it and when the messages arrive are inputs
    ([FwOfld.outcomes], [FwOfld.moves]); the theorems that need it assume
    firmware that answers a command in the order reception, response, completion,
    and may stop at any point ([FwOfldInv.outcome_ok]).  [PktOfldThm.fw_answer] is
    such a firmware.

    During error recovery the firmware moves between the driver's register
    polls ([SerMac.fw_acts]); which messages arrive and in which order is open.

    The CCMP and GCMP transforms are vendored code (src/core/crypto) and
    parameters of [SecRecv]; the theorems about the receive path hold for any.
    Received frames arrive with any contents and lengths.

    Loops that are not structural take fuel.  [op_fuel], [req_fuel] and
    [hub_fuel] are computed from the state and from the size of the remaining
    responses; [token_ops_complete], [leave_hdl_returns_all],
    [eng_stop_complete], [hub_turn_drains] and [hub_stop_completes] show that
    this is enough.  The loops of the reorder window turn at most once per slot
    or, when frames are released up to a sequence number, once per number; the
    transmit handler serves a ring for as many requests as its status counted,
    which is the fuel of [handle_loop] ([tx_turn_terminates]).  The loops over
    elements advance by two bytes or more and get the length as fuel, which the
    safety lemmas of [IeSearchThm], [IeParseThm] and [IeEditThm] show to be
    enough; the loops over attributes need not end, so their fuel is an argument
    and [p2p_attr_bounds] and [attr_loops_forever] say when they do.

    ** What the theorems show

    - [DispInv], [DispApiInv], [DispThreadInv], [DispReach]: the invariant of a
      dispatcher and that every operation keeps it; [DispFuel], [DispLeave]:
      its loops end; [DispTheorems]: conservation of descriptors, exclusivity
      of the token, no lost wake-up, resumption and cancellation;
      [DispSend]: what an accepted message gets, to whom and in which order;
      [DispOrder]: the order in which a message reaches modules;
    - [DispEngineInv], [DispEngineThm]: the same over all bands, and that
      stopping completes;
    - [MsgHubThm]: conservation, delivery order, termination;
    - [DataPathThm]: a pause is respected over the life of the driver
      ([life_step]: the data path with starts, stops, resets and the channel
      switch), as far as what sets a direction running respects it; while the
      driver runs ([dp_step], which error recovery is verified over too) a pause
      lasts, is undone by its resume, and completes; [DispCtrlThm]: the controller runs the command of each event
      and holds stops back during error recovery;
    - [SerInv]: what the steps of error recovery do and hold; [SerThm]: the
      invariant of the module, that giving up is final and that pending messages
      are resumed; [SerFlow]: the whole handshake through the three layers, its
      timeout, and what goes wrong in it;
    - [RxReorderInv], [RxReorderThm]: in-order delivery, conservation of frames,
      progress, block-ack requests, end of a session;
    - [RxRingThm]: the ring is a bounded first-in first-out queue, also for two
      unsynchronised threads; conservation of descriptors; statistics;
    - [TxRingInv], [TxPlan] (the plan of a turn in closed form), [TxSysInv],
      [TxSysThm]: the invariant of the transmit path for any bus layer;
      [TxPcieInv], [TxPcieOk]: pages, descriptors and tags of the PCIe layer and
      that it meets the interface; [TxThm]: conservation and order of requests,
      the plan, termination of a turn, soundness of descriptors, what a turn of
      a channel does, and what a reset returns;
    - [StaInv], [StaOps], [StaThm]: bitmaps, tables, queues and rings agree on
      who owns an identifier; the outcomes of an allocation; a role gives all
      its stations back;
    - [IeSearchThm], [IeEditThm], [IeParseThm], [IeRsnThm], [IeAttrThm]: what the
      element functions do on an encoded list of elements or attributes, and
      that they stay inside the object on any bytes, the parser inside its
      range; [IeBss]: edits of a stored network implement those of a list of
      elements; [IeThm]: the parser against the grammar of elements and its
      reads, the RSN round trip, removal as a filter, attributes, channel
      settings;
    - [FwReqThm]: the request buffers hold what was accepted and are sent as
      such; [FwOfldInv]: bitmap, counters and command state agree; [PktOfldInv],
      [PktOfldThm]: identifiers are distinct in every run; [PktFrame]: the packets
      are the frames they should be; [PktSend]: what the firmware gets, and that
      an answered command completes; [PktOfldErr]: requests are undone by
      cancellation, and what a failed command and the last identifier break.
    - the second part of [SecRc4]: the checksum is the bit-serial CRC-32 and
      detects a changed byte, the cipher's state stays a permutation, WEP round
      trip; of [SecTkip]: the key mixing is injective, Michael against its
      definition, TKIP round trip and detection of changes, packet numbers; of
      [SecRecv]: replays and duplicates are refused, the Michael check,
      countermeasures, the port; of [SecDefrag]: reassembly, what a reassembled
      frame has passed, the conservation of frames, and where the code falls
      short; of [RxMsdu]: what becomes of an aggregate, subframe by subframe, that
      reads stay in the buffer, and that an injected aggregate is not delivered;
      of [RxValid]: what a header that passes says, what passes in the clear
      (EAPOL, and MSDUs without an LLC header that look like it), which
      management frames reach the dispatcher and under which key they were
      deciphered, the check of group management frames, and the fragment that is
      freed twice.

    ** Not modelled

    The custom dispatch sequence and the dedicated-thread mode of the
    dispatcher, which this configuration does not compile; debug output; the
    attachment of physical-layer status to frames (end of phl_rx.c); the pool of
    firmware commands, the receive half of the PCIe layer, its page contents and
    its latency workaround; the chip layer beyond the descriptor indices and the
    offload commands, of which the efuse dump, command offload, the copy of
    read values and the reset of the packet table after WoWLAN (phl_wow.c, not
    compiled by default) are left out, and error recovery, without its register dumps,
    interrupt masks and error injection; the core driver beyond the
    information elements, software encryption (without key installation, TDLS
    and SIV) and the receive checks (without mesh, TDLS, WDS, statistics and the
    hand-over to the network stack), and the operating-system layer, which call the modelled
    functions; of rtw_ieee80211.c the printing functions, rtw_generate_ie and the
    multi-AP element; the remaining
    modules of PHL, which are clients of the dispatcher.  Memory is sequentially
    consistent, and an allocation fails or succeeds by a parameter. *)

From Stdlib Require Export ZArith Lia.
From stdpp Require Export base gmap list numbers option sorting.

(** [lia] also knows the defining equations of [/] and [mod]. *)
Ltac Zify.zify_post_hook ::= Z.to_euclidean_division_equations.

Declare Scope phl_scope.
Delimit Scope phl_scope with phl.
Open Scope Z_scope.
Open Scope phl_scope.

(** ** Machine integers *)

(** Truncation of a C value to an unsigned type of the given width. *)
Definition u8 (x : Z) : Z := x mod 2 ^ 8.
Definition u16 (x : Z) : Z := x mod 2 ^ 16.
Definition u32 (x : Z) : Z := x mod 2 ^ 32.
Definition u64 (x : Z) : Z := x mod 2 ^ 64.

Lemma u32_small x : 0 <= x < 2 ^ 32 -> u32 x = x.
Proof. intros H. unfold u32. apply Z.mod_small. lia. Qed.

(** A C integer used as a condition. *)
Definition z_true (x : Z) : bool := negb (x =? 0).

(** [BITn] of rtw_general_def.h. *)
Definition BIT (n : Z) : Z := Z.shiftl 1 n.

(** ** Status flags ([SET/TEST/CLEAR_STATUS_FLAG] of phl_util.h) *)

Definition SET_STATUS_FLAG (status flags : Z) : Z := Z.lor status flags.
Definition TEST_STATUS_FLAG (status flags : Z) : bool := Z.land status flags =? flags.
Definition CLEAR_STATUS_FLAG (status flags : Z) : Z := Z.land status (Z.lnot flags).

(** ** Module bitmaps ([_add_bitmap_bit] and friends of phl_util.h) *)

(** One byte of a bitmap with bit [id] set or cleared. *)
Definition byte_set_bit (id b : Z) : Z := Z.lor b (BIT (id mod 8)).
Definition byte_clr_bit (id b : Z) : Z := Z.land b (Z.lnot (BIT (id mod 8))).

(** An index outside the array is outside the C object: the list is left
    unchanged here, and the operations that can do it record the fact. *)
Definition _add_bitmap_bit (bitmap : list Z) (arr : list Z) : list Z :=
  foldl (fun bm id => alter (byte_set_bit id) (Z.to_nat (id / 8)) bm) bitmap arr.

Definition _clr_bitmap_bit (bitmap : list Z) (arr : list Z) : list Z :=
  foldl (fun bm id => alter (byte_clr_bit id) (Z.to_nat (id / 8)) bm) bitmap arr.

Definition _chk_bitmap_bit (bitmap : list Z) (id : Z) : Z :=
  Z.land (nth (Z.to_nat (id / 8)) bitmap 0) (BIT (id mod 8)).

Definition _and_bitmaps (ref_bitmap bitmap : list Z) : list Z :=
  zip_with Z.land bitmap ref_bitmap.

(** Bit [id] of a bitmap, as the abstract set the bitmap stands for. *)
Definition bit_in (bitmap : list Z) (id : Z) : bool :=
  Z.testbit (nth (Z.to_nat (id / 8)) bitmap 0) (id mod 8).

(** ** Automation *)

(** Databases of the development: constants to unfold ([phl_const]),
    projections of updated records to simplify ([phl_upd]), flag and bitmap
    equations ([phl_bits]) and invariant-preservation lemmas ([phl_inv]). *)
Create HintDb phl_const.
Create Rewrite HintDb phl_bits.
Create HintDb phl_inv.

Ltac inv_some :=
  repeat match goal with
  | H : Some _ = Some _ |- _ => injection H as H
  | H : (_, _) = (_, _) |- _ => injection H as ? ?
  | H : Some _ = None |- _ => discriminate H
  | H : None = Some _ |- _ => discriminate H
  end; subst.

(** Case analysis on the conditions of a translated C function. *)
Ltac case_if :=
  match goal with
  | |- context [if ?b then _ else _] => let E := fresh "E" in destruct b eqn:E
  end.

Ltac case_if_in H :=
  match type of H with
  | context [if ?b then _ else _] => let E := fresh "E" in destruct b eqn:E
  end.

(** ** Flags *)

Lemma BIT_pow2 n : 0 <= n -> BIT n = 2 ^ n.
Proof. intros. unfold BIT. rewrite Z.shiftl_1_l. reflexivity. Qed.

Lemma testbit_BIT n m : 0 <= n -> Z.testbit (BIT n) m = (n =? m).
Proof. intros. rewrite BIT_pow2 by lia. apply Z.pow2_bits_eqb. lia. Qed.

Lemma land_BIT s n : 0 <= n -> Z.land s (BIT n) = if Z.testbit s n then BIT n else 0.
Proof.
  intros Hn. apply Z.bits_inj'. intros m Hm.
  rewrite Z.land_spec, testbit_BIT by lia.
  destruct (Z.eqb_spec n m) as [->|Hne].
  - destruct (Z.testbit s m) eqn:E; simpl.
    + rewrite testbit_BIT by lia. symmetry. apply Z.eqb_refl.
    + symmetry. apply Z.bits_0.
  - rewrite andb_false_r. destruct (Z.testbit s n).
    + rewrite testbit_BIT by lia. symmetry. apply Z.eqb_neq. lia.
    + symmetry. apply Z.bits_0.
Qed.

Lemma BIT_pos n : 0 <= n -> 0 < BIT n.
Proof. intros. rewrite BIT_pow2 by lia. apply Z.pow_pos_nonneg; lia. Qed.

Lemma test_flag_bit s n : 0 <= n -> TEST_STATUS_FLAG s (BIT n) = Z.testbit s n.
Proof.
  intros Hn. unfold TEST_STATUS_FLAG. rewrite land_BIT by lia.
  pose proof (BIT_pos n Hn).
  destruct (Z.testbit s n); [apply Z.eqb_refl | apply Z.eqb_neq; lia].
Qed.

Lemma testbit_set_flag s n m :
  0 <= n -> Z.testbit (SET_STATUS_FLAG s (BIT n)) m = Z.testbit s m || (n =? m).
Proof.
  intros. unfold SET_STATUS_FLAG. rewrite Z.lor_spec, testbit_BIT by lia. reflexivity.
Qed.

Lemma testbit_clear_flag s n m :
  0 <= n -> 0 <= m ->
  Z.testbit (CLEAR_STATUS_FLAG s (BIT n)) m = Z.testbit s m && negb (n =? m).
Proof.
  intros. unfold CLEAR_STATUS_FLAG.
  rewrite Z.land_spec, Z.lnot_spec, testbit_BIT by lia. reflexivity.
Qed.

(** Normal form for flag goals: every test is a [Z.testbit], every update is
    pushed through it and comparisons of literal bit numbers are computed. *)
Ltac flags :=
  autounfold with phl_const in *;
  repeat first
    [ rewrite test_flag_bit in * by lia
    | rewrite testbit_set_flag in * by lia
    | rewrite testbit_clear_flag in * by lia
    | rewrite Z.testbit_0_l in *
    | progress change (0 =? 0) with true in * ];
  repeat match goal with
  | |- context [Z.eqb (Zpos ?a) (Zpos ?b)] =>
      let v := eval vm_compute in (Z.eqb (Zpos a) (Zpos b)) in
      change (Z.eqb (Zpos a) (Zpos b)) with v
  | |- context [Z.eqb 0 (Zpos ?b)] => change (Z.eqb 0 (Zpos b)) with false
  | |- context [Z.eqb (Zpos ?b) 0] => change (Z.eqb (Zpos b) 0) with false
  | H : context [Z.eqb (Zpos ?a) (Zpos ?b)] |- _ =>
      let v := eval vm_compute in (Z.eqb (Zpos a) (Zpos b)) in
      change (Z.eqb (Zpos a) (Zpos b)) with v in H
  | H : context [Z.eqb 0 (Zpos ?b)] |- _ => change (Z.eqb 0 (Zpos b)) with false in H
  | H : context [Z.eqb (Zpos ?b) 0] |- _ => change (Z.eqb (Zpos b) 0) with false in H
  end;
  rewrite ?orb_false_r, ?orb_true_r, ?andb_true_r, ?andb_false_r in *;
  simpl negb in *.

(** ** Bitmaps *)

Lemma z_true_land_BIT x n : 0 <= n -> z_true (Z.land x (BIT n)) = Z.testbit x n.
Proof.
  intros Hn. unfold z_true. rewrite land_BIT by lia. pose proof (BIT_pos n Hn).
  destruct (Z.testbit x n); [|reflexivity].
  replace (BIT n =? 0) with false by lia. reflexivity.
Qed.

Lemma chk_bitmap_bit_true bm id : z_true (_chk_bitmap_bit bm id) = bit_in bm id.
Proof.
  unfold _chk_bitmap_bit, bit_in. apply z_true_land_BIT.
  apply Z.mod_pos_bound; lia.
Qed.

Lemma nth_alter {A} (f : A -> A) (l : list A) i j d :
  nth j (alter f i l) d =
  if decide (i = j) then (if decide (j < length l)%nat then f (nth j l d) else d) else nth j l d.
Proof.
  rewrite !nth_lookup. rewrite list_lookup_alter.
  repeat case_decide; subst; try reflexivity.
  - destruct (l !! j) eqn:E; [reflexivity|].
    apply lookup_ge_None in E. lia.
  - rewrite (lookup_ge_None_2 l j) by lia. reflexivity.
Qed.

Lemma byte_index_eq a b :
  0 <= a -> 0 <= b -> Z.to_nat (a / 8) = Z.to_nat (b / 8) -> a mod 8 = b mod 8 -> a = b.
Proof. intros Ha Hb H1 H2. apply Z2Nat.inj in H1; lia. Qed.

Section bitmap.
Context (bm : list Z).

Lemma length_alter_bitmap (f : Z -> Z) i : length (alter f i bm) = length bm.
Proof. apply length_alter. Qed.

Lemma bit_in_set a b :
  0 <= a < 8 * Z.of_nat (length bm) -> 0 <= b ->
  bit_in (alter (byte_set_bit a) (Z.to_nat (a / 8)) bm) b = bit_in bm b || (a =? b).
Proof.
  intros Ha Hb. unfold bit_in. rewrite nth_alter.
  destruct (decide (Z.to_nat (a / 8) = Z.to_nat (b / 8))) as [Hi|Hi].
  - rewrite decide_True by (rewrite <- Hi; lia).
    unfold byte_set_bit. rewrite Z.lor_spec, testbit_BIT by lia. f_equal.
    destruct (Z.eqb_spec a b) as [->|]; [apply Z.eqb_refl|].
    apply Z.eqb_neq. intros ?. apply byte_index_eq in Hi; lia.
  - replace (a =? b) with false; [now rewrite orb_false_r|].
    symmetry. apply Z.eqb_neq. intros ->. lia.
Qed.

Lemma bit_in_clr a b :
  0 <= a -> 0 <= b ->
  bit_in (alter (byte_clr_bit a) (Z.to_nat (a / 8)) bm) b = bit_in bm b && negb (a =? b).
Proof.
  intros Ha Hb. unfold bit_in. rewrite nth_alter.
  destruct (decide (Z.to_nat (a / 8) = Z.to_nat (b / 8))) as [Hi|Hi].
  - destruct (decide (Z.to_nat (b / 8) < length bm)%nat).
    + unfold byte_clr_bit. rewrite Z.land_spec, Z.lnot_spec, testbit_BIT by lia. do 2 f_equal.
      destruct (Z.eqb_spec a b) as [->|]; [apply Z.eqb_refl|].
      apply Z.eqb_neq. intros ?. apply byte_index_eq in Hi; lia.
    + rewrite (nth_overflow bm) by lia. rewrite Z.testbit_0_l. reflexivity.
  - replace (a =? b) with false; [now rewrite andb_true_r|].
    symmetry. apply Z.eqb_neq. intros ->. lia.
Qed.
End bitmap.

Lemma add_bitmap_bit_length bm arr : length (_add_bitmap_bit bm arr) = length bm.
Proof.
  unfold _add_bitmap_bit. revert bm. induction arr as [|a arr IH]; intros bm; simpl; [done|].
  rewrite IH. apply length_alter.
Qed.

Lemma clr_bitmap_bit_length bm arr : length (_clr_bitmap_bit bm arr) = length bm.
Proof.
  unfold _clr_bitmap_bit. revert bm. induction arr as [|a arr IH]; intros bm; simpl; [done|].
  rewrite IH. apply length_alter.
Qed.

Lemma bit_in_add_bitmap bm arr b :
  Forall (fun a => 0 <= a < 8 * Z.of_nat (length bm)) arr -> 0 <= b ->
  bit_in (_add_bitmap_bit bm arr) b = bit_in bm b || existsb (Z.eqb b) arr.
Proof.
  unfold _add_bitmap_bit. revert bm. induction arr as [|a arr IH]; intros bm Harr Hb; simpl.
  - now rewrite orb_false_r.
  - inversion_clear Harr. rewrite IH; [|by rewrite length_alter|done].
    rewrite bit_in_set by done. rewrite (Z.eqb_sym b a).
    destruct (bit_in bm b), (a =? b); reflexivity.
Qed.

Lemma bit_in_clr_bitmap bm arr b :
  Forall (fun a => 0 <= a) arr -> 0 <= b ->
  bit_in (_clr_bitmap_bit bm arr) b = bit_in bm b && negb (existsb (Z.eqb b) arr).
Proof.
  unfold _clr_bitmap_bit. revert bm. induction arr as [|a arr IH]; intros bm Harr Hb; simpl.
  - now rewrite andb_true_r.
  - inversion_clear Harr. rewrite IH by done.
    rewrite bit_in_clr by done. rewrite (Z.eqb_sym b a).
    destruct (bit_in bm b), (a =? b); reflexivity.
Qed.

Lemma and_bitmaps_length ref bm :
  length ref = length bm -> length (_and_bitmaps ref bm) = length bm.
Proof. intros H. unfold _and_bitmaps. rewrite length_zip_with. lia. Qed.

Lemma bit_in_and_bitmaps ref bm b :
  length ref = length bm -> bit_in (_and_bitmaps ref bm) b = bit_in bm b && bit_in ref b.
Proof.
  intros Hlen. unfold bit_in, _and_bitmaps. rewrite !nth_lookup, lookup_zip_with.
  set (i := Z.to_nat (b / 8)).
  destruct (bm !! i) as [x|] eqn:Ex; simpl.
  - destruct (lookup_lt_is_Some_2 ref i) as [y Hy].
    { apply lookup_lt_Some in Ex. lia. }
    rewrite Hy. simpl. apply Z.land_spec.
  - now rewrite Z.testbit_0_l.
Qed.

(** ** Lists used as arrays *)

(** [upd f i l] applies [f] to element [i]; an array element the code
    addresses by index. *)
Lemma lookup_alter_same {A} (f : A -> A) (l : list A) i x :
  l !! i = Some x -> alter f i l !! i = Some (f x).
Proof. intros H. rewrite list_lookup_alter, decide_True by done. by rewrite H. Qed.

Lemma lookup_alter_other {A} (f : A -> A) (l : list A) i j :
  i <> j -> alter f i l !! j = l !! j.
Proof. intros H. by rewrite list_lookup_alter, decide_False by done. Qed.

Lemma elem_of_option_list {A} (o : option A) x : x ∈ option_list o <-> o = Some x.
Proof.
  destruct o as [y|]; simpl.
  - rewrite list_elem_of_singleton. split; [by intros ->|by intros [= ->]].
  - rewrite elem_of_nil. done.
Qed.

Lemma elem_of_rev {A} (l : list A) x : x ∈ rev l <-> x ∈ l.
Proof. by rewrite !list_elem_of_In, <- in_rev. Qed.

(** Solves permutation goals between concatenations by moving every atom of
    the right-hand side in place. *)
Ltac perm_solve := solve_Permutation || (simpl; solve_Permutation).
