(* ===== verification/PhlQueue.v ===== *)
(** * The PHL queue (src/phl/phl_util.c, src/phl/phl_util.h)

    [struct phl_queue] is an intrusive doubly linked list with an element
    count and a lock.  It is modelled by the list of the linked nodes, in the
    order of the [next] pointers, and the count, which the code keeps
    separately and tests separately ([!list_empty && cnt > 0]).  The node type
    is a parameter: the components use it at pool indices and module handles.
    The spinlock makes each operation atomic and has no state of its own.

    Also here: the two elapsed-time helpers of phl_util.c, and the notion of a
    descriptor pool split over several queues that the dispatcher and the
    message hub share. *)

From S2P Require Import Prelude.

Inductive list_pos := _first | _tail.

Record phl_queue (A : Type) := mkQueue { q_queue : list A; q_cnt : Z }.
Arguments mkQueue {A} _ _.
Arguments q_queue {A} _.
Arguments q_cnt {A} _.

(** ** Operations *)

Section ops.
Context {A : Type} `{EqDecision A}.

Definition pq_init : phl_queue A := mkQueue [] 0.

Definition pq_reset (q : phl_queue A) : phl_queue A := mkQueue [] 0.

(** Always returns [true] in the code. *)
Definition pq_push (q : phl_queue A) (obj : A) (pos : list_pos) : phl_queue A :=
  match pos with
  | _first => mkQueue (obj :: q_queue q) (q_cnt q + 1)
  | _tail => mkQueue (q_queue q ++ [obj]) (q_cnt q + 1)
  end.

(** The guard every reader of a queue uses. *)
Definition pq_nonempty (q : phl_queue A) : bool :=
  match q_queue q with [] => false | _ => 0 <? q_cnt q end.

(** [None] is the [false] return, with [*obj] left [NULL]. *)
Definition pq_pop (q : phl_queue A) (pos : list_pos) : option A * phl_queue A :=
  if pq_nonempty q then
    match pos, q_queue q with
    | _first, x :: l => (Some x, mkQueue l (q_cnt q - 1))
    | _tail, x :: l =>
        (Some (List.last (x :: l) x), mkQueue (removelast (x :: l)) (q_cnt q - 1))
    | _, [] => (None, q)
    end
  else (None, q).

Definition pq_get_front (q : phl_queue A) : option A :=
  if pq_nonempty q then head (q_queue q) else None.

Definition pq_get_tail (q : phl_queue A) : option A :=
  if pq_nonempty q then last (q_queue q) else None.

(** The node after [cur]; [None] when the list head is reached. *)
Fixpoint next_in (l : list A) (cur : A) : option A :=
  match l with
  | x :: l' => if decide (x = cur) then head l' else next_in l' cur
  | [] => None
  end.

Definition pq_get_next (q : phl_queue A) (cur_obj : option A) : option A :=
  match cur_obj with None => None | Some c => next_in (q_queue q) c end.

Definition pq_get_prev (q : phl_queue A) (cur_obj : option A) : option A :=
  match cur_obj with None => None | Some c => next_in (rev (q_queue q)) c end.

(** [list_del] of a node that is linked in the queue. *)
Fixpoint list_del_node (l : list A) (obj : A) : list A :=
  match l with
  | x :: l' => if decide (x = obj) then l' else x :: list_del_node l' obj
  | [] => []
  end.

Definition pq_del_node (q : phl_queue A) (obj : option A) : phl_queue A :=
  match obj with
  | None => q
  | Some o => mkQueue (list_del_node (q_queue q) o) (q_cnt q - 1)
  end.

(** [search_fun] may be [NULL], in which case nothing is hit. *)
Definition pq_search_node (q : phl_queue A) (bdel : bool)
    (search_fun : option (A -> bool)) : option A * phl_queue A :=
  if pq_nonempty q then
    let hit x := match search_fun with Some f => f x | None => false end in
    match List.find hit (q_queue q) with
    | Some x => (Some x, if bdel then pq_del_node q (Some x) else q)
    | None => (None, q)
    end
  else (None, q).

(** Walks to the first node the predicate accepts and links [input] before
    it; at the tail when there is none. *)
Fixpoint insert_before (l : list A) (pred : A -> bool) (input : A) : list A :=
  match l with
  | x :: l' => if pred x then input :: x :: l' else x :: insert_before l' pred input
  | [] => [input]
  end.

Definition pq_insert (q : phl_queue A) (input : A)
    (pq_predicate : option (A -> A -> bool)) : phl_queue A :=
  let pred obj := match pq_predicate with Some p => p input obj | None => false end in
  mkQueue (insert_before (q_queue q) pred input) (q_cnt q + 1).
End ops.

(** ** Elapsed time *)

(** [now] is the value the clock read returns; all values are [u32]. *)
Definition phl_get_passing_time_us (now start : Z) : Z :=
  if now =? start then 0
  else if start <? now then u32 (now - start)
  else u32 (u32 (0xffffffff - start) + now).

Definition phl_get_passing_time_ms (now start : Z) : Z :=
  if now =? start then 0
  else if start <? now then u32 (now - start)
  else u32 (u32 (0xffffffff - start) + now).

(** ** Laws *)

(** The count agrees with the linked nodes. *)
Definition pq_wf {A} (q : phl_queue A) : Prop := q_cnt q = Z.of_nat (length (q_queue q)).

Section laws.
Context {A : Type} `{EqDecision A}.
Implicit Types (q : phl_queue A) (l : list A) (x : A).

Lemma pq_init_wf : pq_wf (pq_init (A := A)).
Proof. reflexivity. Qed.

Lemma pq_push_wf q x pos : pq_wf q -> pq_wf (pq_push q x pos).
Proof. unfold pq_wf. destruct pos; simpl; rewrite ?length_app; simpl; lia. Qed.

Lemma pq_push_perm q x pos : q_queue (pq_push q x pos) ≡ₚ x :: q_queue q.
Proof. destruct pos; simpl; [done|]. by rewrite Permutation_app_comm. Qed.

Lemma pq_push_length q x pos : length (q_queue (pq_push q x pos)) = S (length (q_queue q)).
Proof. apply (Permutation_length (pq_push_perm q x pos)). Qed.

Lemma pq_nonempty_wf q :
  pq_wf q -> pq_nonempty q = match q_queue q with [] => false | _ => true end.
Proof.
  unfold pq_wf, pq_nonempty. intros H. destruct (q_queue q) as [|x l]; simpl in *; [done|lia].
Qed.

Lemma pq_pop_first q :
  pq_wf q ->
  pq_pop q _first =
  match q_queue q with
  | [] => (None, q)
  | x :: l => (Some x, mkQueue l (q_cnt q - 1))
  end.
Proof.
  intros H. unfold pq_pop. rewrite pq_nonempty_wf by done. by destruct (q_queue q).
Qed.

Lemma pq_pop_None q pos q' : pq_pop q pos = (None, q') -> q' = q.
Proof.
  unfold pq_pop. destruct (pq_nonempty q); [|intros [= <-]; done].
  destruct pos, (q_queue q); intros [=]; congruence.
Qed.

Lemma pq_pop_Some q q' x :
  pq_pop q _first = (Some x, q') -> q_queue q = x :: q_queue q' /\ q_cnt q' = q_cnt q - 1.
Proof.
  unfold pq_pop. destruct (pq_nonempty q); [|done].
  destruct (q_queue q) as [|y l]; [done|]. intros [= -> <-]. simpl. done.
Qed.

Lemma pq_pop_Some_wf q q' x : pq_wf q -> pq_pop q _first = (Some x, q') -> pq_wf q'.
Proof.
  intros Hwf H. apply pq_pop_Some in H as [H1 H2]. unfold pq_wf in *.
  rewrite H1 in Hwf. simpl in Hwf. lia.
Qed.

Lemma pq_pop_empty q q' : pq_wf q -> pq_pop q _first = (None, q') -> q_queue q = [].
Proof.
  intros Hwf. rewrite pq_pop_first by done. by destruct (q_queue q).
Qed.

(** A queue used with [_tail] pushes and [_first] pops is first-in
    first-out. *)
Lemma pq_push_pop_fifo q x :
  pq_wf q ->
  fst (pq_pop (pq_push q x _tail) _first) = Some (default x (head (q_queue q))) /\
  q_queue (snd (pq_pop (pq_push q x _tail) _first)) = tail (q_queue q ++ [x]).
Proof.
  intros H. rewrite pq_pop_first by (by apply pq_push_wf).
  simpl. destruct (q_queue q); simpl; done.
Qed.

Lemma list_del_node_perm l x : x ∈ l -> l ≡ₚ x :: list_del_node l x.
Proof.
  induction l as [|y l IH]; simpl; intros Hin; [by apply elem_of_nil in Hin|].
  case_decide as Hd; [by subst|].
  apply elem_of_cons in Hin as [->|Hin]; [done|].
  rewrite (IH Hin) at 1. apply Permutation_swap.
Qed.

Lemma list_del_node_id l x : x ∉ l -> list_del_node l x = l.
Proof.
  induction l as [|y l IH]; simpl; intros Hin; [done|].
  apply not_elem_of_cons in Hin as [H1 H2]. rewrite decide_False by done. by rewrite IH.
Qed.

Lemma list_del_node_length l x :
  x ∈ l -> Z.of_nat (length (list_del_node l x)) = Z.of_nat (length l) - 1.
Proof.
  intros Hin. pose proof (Permutation_length (list_del_node_perm l x Hin)) as H1.
  simpl in H1. lia.
Qed.

Lemma list_del_node_length_le l x : (length (list_del_node l x) <= length l)%nat.
Proof. induction l as [|y l IH]; simpl; [done|]. case_decide; simpl; lia. Qed.

Lemma list_del_node_subset l x : list_del_node l x ⊆ l.
Proof.
  induction l as [|y l IH]; simpl; [done|]. case_decide; set_solver.
Qed.

Lemma insert_before_perm l pred x : insert_before l pred x ≡ₚ x :: l.
Proof.
  induction l as [|y l IH]; simpl; [done|]. destruct (pred y); [done|].
  rewrite IH. apply Permutation_swap.
Qed.

Lemma pq_insert_perm q x p : q_queue (pq_insert q x p) ≡ₚ x :: q_queue q.
Proof. apply insert_before_perm. Qed.

Lemma pq_insert_wf q x p : pq_wf q -> pq_wf (pq_insert q x p).
Proof. unfold pq_wf. intros H. rewrite pq_insert_perm. simpl. lia. Qed.

Lemma pq_del_node_wf q x : pq_wf q -> x ∈ q_queue q -> pq_wf (pq_del_node q (Some x)).
Proof. unfold pq_wf. simpl. intros H Hin. rewrite list_del_node_length by done. lia. Qed.

Lemma pq_search_node_Some q b f x q' :
  pq_search_node q b (Some f) = (Some x, q') ->
  x ∈ q_queue q /\ f x = true /\ q' = if b then pq_del_node q (Some x) else q.
Proof.
  unfold pq_search_node. destruct (pq_nonempty q); [|done].
  destruct (List.find f (q_queue q)) eqn:E; [|done]. intros [= -> <-].
  apply List.find_some in E as [H1 H2]. apply list_elem_of_In in H1. done.
Qed.

Lemma pq_search_node_None q b f q' :
  pq_wf q -> pq_search_node q b (Some f) = (None, q') ->
  q' = q /\ Forall (fun x => f x = false) (q_queue q).
Proof.
  intros Hwf. unfold pq_search_node. rewrite pq_nonempty_wf by done.
  destruct (q_queue q) as [|y l] eqn:Eq.
  - intros [= <-]. done.
  - rewrite <- Eq. destruct (List.find f (q_queue q)) eqn:E; [done|]. intros [= <-].
    split; [done|]. apply Forall_forall. intros x Hx.
    eapply List.find_none in E; [exact E|]. by apply list_elem_of_In.
Qed.
End laws.

#[global] Arguments pq_push {A} _ _ _ : simpl never.
#[global] Arguments pq_pop {A} _ _ : simpl never.
#[global] Arguments pq_insert {A} _ _ _ : simpl never.
#[global] Arguments pq_nonempty {A} _ : simpl never.

#[export] Hint Resolve pq_init_wf pq_push_wf pq_insert_wf pq_pop_Some_wf : phl_inv.

(** ** Descriptor pools *)

(** The [n] descriptors of a static pool are split over the given lists: each
    of them is in exactly one list, exactly once. *)
Definition pool_split (n : nat) (parts : list (list nat)) : Prop :=
  concat parts ≡ₚ seq 0 n.

Lemma pool_split_NoDup n parts : pool_split n parts -> NoDup (concat parts).
Proof. unfold pool_split. intros ->. apply NoDup_seq. Qed.

Lemma pool_split_lt n parts i : pool_split n parts -> i ∈ concat parts -> (i < n)%nat.
Proof. unfold pool_split. intros ->. rewrite elem_of_seq. lia. Qed.

Lemma pool_split_length n parts : pool_split n parts -> length (concat parts) = n.
Proof. unfold pool_split. intros ->. apply length_seq. Qed.

(** ** Theorems about the code *)

(** The elapsed time is exact unless the clock has wrapped, when it is one too
    small. *)
Lemma phl_get_passing_time_wrap now start :
  0 <= start < 2 ^ 32 -> 0 <= now < 2 ^ 32 ->
  phl_get_passing_time_us now start =
    (if now <? start then (now - start - 1) mod 2 ^ 32 else (now - start) mod 2 ^ 32).
Proof.
  intros Hs Hn. unfold phl_get_passing_time_us, u32.
  destruct (Z.eqb_spec now start), (Z.ltb_spec start now), (Z.ltb_spec now start);
    lia.
Qed.
