(* ===== verification/PhlDef.v ===== *)
(** * Messages, module identifiers and status codes
    (src/phl/phl_def.h, src/phl/phl_status.h, src/phl/phl_cmd_dispatch.h)

    A message identifier is a [u32] with three fields: indicator flags in byte
    3, the identifier of the sending module in byte 2 and the event in bytes 0
    and 1.  The field macros are translated as written; the theorems at the end
    state what they promise to the dispatcher and the message hub. *)

From S2P Require Import Prelude.

(** ** Status codes *)

Inductive rtw_phl_status :=
| RTW_PHL_STATUS_SUCCESS | RTW_PHL_STATUS_FAILURE | RTW_PHL_STATUS_RESOURCE
| RTW_PHL_STATUS_HAL_INIT_FAILURE | RTW_PHL_STATUS_PENDING | RTW_PHL_STATUS_FRAME_DROP
| RTW_PHL_STATUS_INVALID_PARAM | RTW_PHL_STATUS_CMD_TIMEOUT | RTW_PHL_STATUS_CMD_ERROR
| RTW_PHL_STATUS_CMD_DROP | RTW_PHL_STATUS_CMD_CANNOT_IO | RTW_PHL_STATUS_CMD_SUCCESS
| RTW_PHL_STATUS_UNEXPECTED_ERROR | RTW_PHL_STATUS_CANNOT_IO.

#[export] Instance rtw_phl_status_eq_dec : EqDecision rtw_phl_status.
Proof. solve_decision. Defined.

Inductive phl_mdl_ret_code :=
| MDL_RET_SUCCESS | MDL_RET_FAIL | MDL_RET_IGNORE | MDL_RET_PENDING | MDL_RET_CANNOT_IO.

#[export] Instance phl_mdl_ret_code_eq_dec : EqDecision phl_mdl_ret_code.
Proof. solve_decision. Defined.

(** ** Module identifiers ([enum phl_module_id]) *)

Definition PHL_MDL_PHY_MGNT : Z := 1.
Definition PHL_BK_MDL_ROLE_START : Z := 10.
Definition PHL_BK_MDL_ROLE_END : Z := 40.
Definition PHL_MDL_POWER_MGNT : Z := 41.
Definition PHL_BK_MDL_MDRY_END : Z := 70.
Definition PHL_BK_MDL_OPT_END : Z := 127.
Definition PHL_BK_MDL_END : Z := 128.
Definition PHL_FG_MDL_START : Z := 129.
Definition PHL_MDL_ID_MAX : Z := 255.

(** [enum phl_bk_module_priority]. *)
Definition PHL_MDL_PRI_ROLE : Z := 0.
Definition PHL_MDL_PRI_OPTIONAL : Z := 1.
Definition PHL_MDL_PRI_MANDATORY : Z := 2.
Definition PHL_MDL_PRI_MAX : Z := 3.

Definition IS_DISPR_CTRL (mdl_id : Z) : bool := mdl_id <? PHL_BK_MDL_ROLE_START.

(** ** Events ([enum phl_msg_evt_id], those the modelled code names) *)

Definition MSG_EVT_PHY_ON : Z := 1.
Definition MSG_EVT_PHY_IDLE : Z := 2.
Definition MSG_EVT_DEV_CANNOT_IO : Z := 58.
Definition MSG_EVT_DEV_RESUME_IO : Z := 59.
Definition MSG_EVT_MAX : Z := 0x7fff.

(** [enum phl_msg_indicator] and [enum phl_msg_opt]. *)
Definition MSG_INDC_PRE_PHASE : Z := BIT 0.
Definition MSG_INDC_FAIL : Z := BIT 1.
Definition MSG_INDC_CANCEL : Z := BIT 2.
Definition MSG_INDC_CANNOT_IO : Z := BIT 3.

Definition MSG_OPT_SKIP_NOTIFY_OPT_MDL : Z := BIT 0.
Definition MSG_OPT_BLIST_PRESENT : Z := BIT 1.
Definition MSG_OPT_CLR_SNDR_MSG_IF_PENDING : Z := BIT 2.
Definition MSG_OPT_SEND_IN_ABORT : Z := BIT 3.
Definition MSG_OPT_PENDING_DURING_CANNOT_IO : Z := BIT 4.

#[export] Hint Unfold
  PHL_MDL_PHY_MGNT PHL_BK_MDL_ROLE_START PHL_BK_MDL_ROLE_END PHL_MDL_POWER_MGNT
  PHL_BK_MDL_MDRY_END PHL_BK_MDL_OPT_END PHL_BK_MDL_END PHL_FG_MDL_START PHL_MDL_ID_MAX
  PHL_MDL_PRI_ROLE PHL_MDL_PRI_OPTIONAL PHL_MDL_PRI_MANDATORY PHL_MDL_PRI_MAX
  MSG_EVT_PHY_ON MSG_EVT_PHY_IDLE MSG_EVT_DEV_CANNOT_IO MSG_EVT_DEV_RESUME_IO MSG_EVT_MAX
  MSG_INDC_PRE_PHASE MSG_INDC_FAIL MSG_INDC_CANCEL MSG_INDC_CANNOT_IO
  MSG_OPT_SKIP_NOTIFY_OPT_MDL MSG_OPT_BLIST_PRESENT MSG_OPT_CLR_SNDR_MSG_IF_PENDING
  MSG_OPT_SEND_IN_ABORT MSG_OPT_PENDING_DURING_CANNOT_IO : phl_const.

(** ** Message identifiers *)

Definition MSG_MDL_ID_FIELD (msg_id : Z) : Z := Z.land (Z.shiftr msg_id 16) 0xFF.
Definition MSG_EVT_ID_FIELD (msg_id : Z) : Z := Z.land msg_id 0xFFFF.
Definition MSG_INDC_FIELD (msg_id : Z) : Z := Z.land (Z.shiftr msg_id 24) 0xFF.

Definition SET_MSG_MDL_ID_FIELD (msg_id id : Z) : Z :=
  Z.lor (Z.land msg_id 0xFF00FFFF) (u32 (Z.shiftl id 16)).
Definition SET_MSG_EVT_ID_FIELD (msg_id id : Z) : Z :=
  Z.lor (Z.land msg_id 0xFFFF0000) id.
Definition SET_MSG_INDC_FIELD (msg_id indc : Z) : Z :=
  Z.lor (Z.land msg_id (Z.lnot (u32 (Z.shiftl indc 24)))) (u32 (Z.shiftl indc 24)).
Definition CLEAR_MSG_INDC_FIELD (msg_id indc : Z) : Z :=
  Z.land msg_id (Z.lnot (Z.shiftl indc 24)).

(** ** Structures *)

(** Buffers and the reserved pointers are opaque addresses. *)
Record phl_msg := mkMsg {
  msg_id : Z; band_idx : Z; inbuf : Z; outbuf : Z; inlen : Z; outlen : Z; rsvd0 : Z }.

Definition zero_msg : phl_msg := mkMsg 0 0 0 0 0 0 0.

Definition set_msg_id (v : Z) (m : phl_msg) : phl_msg :=
  mkMsg v (band_idx m) (inbuf m) (outbuf m) (inlen m) (outlen m) (rsvd0 m).
Definition set_rsvd0 (v : Z) (m : phl_msg) : phl_msg :=
  mkMsg (msg_id m) (band_idx m) (inbuf m) (outbuf m) (inlen m) (outlen m) v.

(** [id_arr = None] is a [NULL] array. *)
Record msg_notify_map := mkNotify { id_arr : option (list Z); notify_len : Z }.

(** [completion] tells whether the function pointer is set; what the function
    does when it is called is the environment's choice. *)
Record msg_completion_routine := mkCompletion { completion : bool; completion_priv : Z }.

Record phl_msg_attribute := mkAttr {
  attr_opt : Z; attr_notify : msg_notify_map; attr_completion : msg_completion_routine }.

Definition zero_attr : phl_msg_attribute :=
  mkAttr 0 (mkNotify None 0) (mkCompletion false 0).

(** ** Field laws *)

Lemma land_ones_mod x n : 0 <= n -> Z.land x (Z.ones n) = x mod 2 ^ n.
Proof. apply Z.land_ones. Qed.

Lemma mdl_field_range m : 0 <= MSG_MDL_ID_FIELD m < 256.
Proof.
  unfold MSG_MDL_ID_FIELD. change 0xFF with (Z.ones 8). rewrite Z.land_ones by lia.
  apply Z.mod_pos_bound. lia.
Qed.

Lemma evt_field_range m : 0 <= MSG_EVT_ID_FIELD m < 65536.
Proof.
  unfold MSG_EVT_ID_FIELD. change 0xFFFF with (Z.ones 16). rewrite Z.land_ones by lia.
  apply Z.mod_pos_bound. lia.
Qed.

Lemma testbit_ones_const k n : 0 <= n -> Z.testbit (Z.ones n) k = (0 <=? k) && (k <? n).
Proof. apply Z.testbit_ones. Qed.

(** Two identifiers with the same bits 16 to 23 name the same module. *)
Lemma mdl_field_ext a b :
  (forall k, 16 <= k < 24 -> Z.testbit a k = Z.testbit b k) ->
  MSG_MDL_ID_FIELD a = MSG_MDL_ID_FIELD b.
Proof.
  intros H. unfold MSG_MDL_ID_FIELD. apply Z.bits_inj'. intros k Hk.
  change 0xFF with (Z.ones 8).
  rewrite !Z.land_spec, !Z.shiftr_spec, testbit_ones_const by lia.
  destruct (Z.ltb_spec k 8); [|now rewrite !andb_false_r].
  rewrite H by lia. reflexivity.
Qed.

Lemma evt_field_ext a b :
  (forall k, 0 <= k < 16 -> Z.testbit a k = Z.testbit b k) ->
  MSG_EVT_ID_FIELD a = MSG_EVT_ID_FIELD b.
Proof.
  intros H. unfold MSG_EVT_ID_FIELD. apply Z.bits_inj'. intros k Hk.
  change 0xFFFF with (Z.ones 16).
  rewrite !Z.land_spec, testbit_ones_const by lia.
  destruct (Z.ltb_spec k 16); [|now rewrite !andb_false_r].
  rewrite H by lia. reflexivity.
Qed.

Lemma testbit_u32_shiftl x n k :
  0 <= n <= 32 -> 0 <= k ->
  Z.testbit (u32 (Z.shiftl x n)) k = (k <? 32) && (n <=? k) && Z.testbit x (k - n).
Proof.
  intros Hn Hk. unfold u32. rewrite <- Z.land_ones by lia.
  rewrite Z.land_spec, Z.shiftl_spec, testbit_ones_const by lia.
  destruct (Z.ltb_spec k 32), (Z.leb_spec n k), (Z.leb_spec 0 k); simpl; try lia;
    rewrite ?andb_false_r, ?andb_true_r; try reflexivity.
  apply Z.testbit_neg_r. lia.
Qed.

(** The indicator updates leave bits 0 to 23 alone. *)
Lemma set_indc_low m i k :
  0 <= k < 24 -> Z.testbit (SET_MSG_INDC_FIELD m i) k = Z.testbit m k.
Proof.
  intros Hk. unfold SET_MSG_INDC_FIELD.
  rewrite Z.lor_spec, Z.land_spec, Z.lnot_spec, testbit_u32_shiftl by lia.
  replace (24 <=? k) with false by lia. rewrite andb_false_r. simpl.
  now rewrite orb_false_r, andb_true_r.
Qed.

Lemma clear_indc_low m i k :
  0 <= k < 24 -> Z.testbit (CLEAR_MSG_INDC_FIELD m i) k = Z.testbit m k.
Proof.
  intros Hk. unfold CLEAR_MSG_INDC_FIELD.
  rewrite Z.land_spec, Z.lnot_spec, Z.shiftl_spec_low by lia. simpl.
  now rewrite andb_true_r.
Qed.

Lemma set_indc_mdl m i : MSG_MDL_ID_FIELD (SET_MSG_INDC_FIELD m i) = MSG_MDL_ID_FIELD m.
Proof. apply mdl_field_ext. intros. apply set_indc_low. lia. Qed.

Lemma set_indc_evt m i : MSG_EVT_ID_FIELD (SET_MSG_INDC_FIELD m i) = MSG_EVT_ID_FIELD m.
Proof. apply evt_field_ext. intros. apply set_indc_low. lia. Qed.

Lemma clear_indc_mdl m i : MSG_MDL_ID_FIELD (CLEAR_MSG_INDC_FIELD m i) = MSG_MDL_ID_FIELD m.
Proof. apply mdl_field_ext. intros. apply clear_indc_low. lia. Qed.

Lemma clear_indc_evt m i : MSG_EVT_ID_FIELD (CLEAR_MSG_INDC_FIELD m i) = MSG_EVT_ID_FIELD m.
Proof. apply evt_field_ext. intros. apply clear_indc_low. lia. Qed.

#[export] Hint Rewrite set_indc_mdl set_indc_evt clear_indc_mdl clear_indc_evt : phl_bits.
