(* ===== verification/DispState.v ===== *)
(** * State of a command dispatcher (src/phl/phl_cmd_dispatcher.c, lines 15 to 214)

    One record per C structure.  Pool elements ([msg_ex_pool],
    [token_req_ex_pool]) are linked into queues by their index; background
    modules are allocated objects and are named by a handle into [d_heap], so
    that a handle whose object was freed is recognisable.

    Function pointers.  Modules, command requests and completion routines are
    outside the dispatcher.  The model keeps whether a pointer is set, logs every
    call in [d_trace] and takes what the callee does from [d_env]: a return
    code and the dispatcher API calls it (or another thread meanwhile) makes.
    Theorems quantify over all [d_env].

    Two fields have no counterpart in C: [d_wake] counts the semaphore signals
    given to the background thread and not yet consumed, and [d_ub] is raised
    when the C code would leave the defined behaviour (an access outside an
    array, through a freed module, or the erasure of a linked list node). *)

From S2P Require Import Prelude PhlQueue PhlDef.

Definition MAX_PHL_MSG_NUM : nat := 24.
Definition MAX_CMD_REQ_NUM : nat := 8.
Definition MODL_MASK_LEN : nat := 16.

(** [enum phl_msg_status]. *)
Definition MSG_STATUS_ENQ : Z := BIT 0.
Definition MSG_STATUS_RUN : Z := BIT 1.
Definition MSG_STATUS_NOTIFY_COMPLETE : Z := BIT 2.
Definition MSG_STATUS_CANCEL : Z := BIT 3.
Definition MSG_STATUS_PRE_PHASE : Z := BIT 4.
Definition MSG_STATUS_FAIL : Z := BIT 5.
Definition MSG_STATUS_OWNER_BK_MDL : Z := BIT 6.
Definition MSG_STATUS_OWNER_REQ : Z := BIT 7.
Definition MSG_STATUS_CLR_SNDR_MSG_IF_PENDING : Z := BIT 8.
Definition MSG_STATUS_PENDING : Z := BIT 9.
Definition MSG_STATUS_FOR_ABORT : Z := BIT 10.
Definition MSG_STATUS_PENDING_DURING_CANNOT_IO : Z := BIT 11.

(** [enum cmd_req_status]. *)
Definition REQ_STATUS_ENQ : Z := BIT 0.
Definition REQ_STATUS_RUN : Z := BIT 1.
Definition REQ_STATUS_CANCEL : Z := BIT 2.
Definition REQ_STATUS_LAST_PERMIT : Z := BIT 3.
Definition REQ_STATUS_PREPARE : Z := BIT 4.

(** [enum phl_mdl_status]. *)
Definition MDL_INIT : Z := BIT 0.
Definition MDL_STARTED : Z := BIT 1.

(** [enum dispatcher_status]. *)
Definition DISPR_INIT : Z := BIT 0.
Definition DISPR_STARTED : Z := BIT 1.
Definition DISPR_SHALL_STOP : Z := BIT 2.
Definition DISPR_MSGQ_INIT : Z := BIT 3.
Definition DISPR_REQ_INIT : Z := BIT 4.
Definition DISPR_NOTIFY_IDLE : Z := BIT 5.
Definition DISPR_CLR_PEND_MSG : Z := BIT 6.
Definition DISPR_CTRL_PRESENT : Z := BIT 7.
Definition DISPR_WAIT_ABORT_MSG_DONE : Z := BIT 8.
Definition DISPR_CANNOT_IO : Z := BIT 9.

#[export] Hint Unfold
  MSG_STATUS_ENQ MSG_STATUS_RUN MSG_STATUS_NOTIFY_COMPLETE MSG_STATUS_CANCEL
  MSG_STATUS_PRE_PHASE MSG_STATUS_FAIL MSG_STATUS_OWNER_BK_MDL MSG_STATUS_OWNER_REQ
  MSG_STATUS_CLR_SNDR_MSG_IF_PENDING MSG_STATUS_PENDING MSG_STATUS_FOR_ABORT
  MSG_STATUS_PENDING_DURING_CANNOT_IO
  REQ_STATUS_ENQ REQ_STATUS_RUN REQ_STATUS_CANCEL REQ_STATUS_LAST_PERMIT REQ_STATUS_PREPARE
  MDL_INIT MDL_STARTED
  DISPR_INIT DISPR_STARTED DISPR_SHALL_STOP DISPR_MSGQ_INIT DISPR_REQ_INIT DISPR_NOTIFY_IDLE
  DISPR_CLR_PEND_MSG DISPR_CTRL_PRESENT DISPR_WAIT_ABORT_MSG_DONE DISPR_CANNOT_IO : phl_const.

(** [enum token_op_type]. *)
Inductive token_op_type :=
| TOKEN_OP_NONE
| TOKEN_OP_ADD_CMD_REQ | TOKEN_OP_FREE_CMD_REQ | TOKEN_OP_CANCEL_CMD_REQ
| TOKEN_OP_RENEW_CMD_REQ.

(** ** Background modules *)

(** [struct phl_bk_module_ops]: which pointers are set. *)
Record phl_bk_module_ops := mkOps {
  op_init : bool; op_deinit : bool; op_start : bool; op_stop : bool;
  op_msg_hdlr : bool; op_set_info : bool; op_query_info : bool }.

Record phl_bk_module := mkBkModule {
  bm_status : Z;
  bm_id : Z;
  bm_ops : phl_bk_module_ops }.

Definition set_bm_status (v : Z) (m : phl_bk_module) : phl_bk_module :=
  mkBkModule v (bm_id m) (bm_ops m).
Definition set_bm_id (v : Z) (m : phl_bk_module) : phl_bk_module :=
  mkBkModule (bm_status m) v (bm_ops m).
Definition set_bm_ops (v : phl_bk_module_ops) (m : phl_bk_module) : phl_bk_module :=
  mkBkModule (bm_status m) (bm_id m) v.

Definition zero_ops : phl_bk_module_ops := mkOps false false false false false false false.
Definition zero_bk_module : phl_bk_module := mkBkModule 0 0 zero_ops.

(** A [struct phl_bk_module *]: the embedded controller or an allocated
    module. *)
Inductive mdl_ref := RefCtrl | RefMdl (h : nat).

#[export] Instance mdl_ref_eq_dec : EqDecision mdl_ref.
Proof. solve_decision. Defined.

(** ** Messages *)

Record phl_dispr_msg_ex := mkMsgEx {
  mx_status : Z;
  mx_idx : Z;
  mx_msg : phl_msg;
  mx_premap : list Z;
  mx_postmap : list Z;
  mx_completion : msg_completion_routine;
  mx_module : option mdl_ref }.

Definition set_mx_status (v : Z) (m : phl_dispr_msg_ex) : phl_dispr_msg_ex :=
  mkMsgEx v (mx_idx m) (mx_msg m) (mx_premap m) (mx_postmap m) (mx_completion m) (mx_module m).
Definition set_mx_idx (v : Z) (m : phl_dispr_msg_ex) : phl_dispr_msg_ex :=
  mkMsgEx (mx_status m) v (mx_msg m) (mx_premap m) (mx_postmap m) (mx_completion m) (mx_module m).
Definition set_mx_msg (v : phl_msg) (m : phl_dispr_msg_ex) : phl_dispr_msg_ex :=
  mkMsgEx (mx_status m) (mx_idx m) v (mx_premap m) (mx_postmap m) (mx_completion m) (mx_module m).
Definition set_mx_premap (v : list Z) (m : phl_dispr_msg_ex) : phl_dispr_msg_ex :=
  mkMsgEx (mx_status m) (mx_idx m) (mx_msg m) v (mx_postmap m) (mx_completion m) (mx_module m).
Definition set_mx_postmap (v : list Z) (m : phl_dispr_msg_ex) : phl_dispr_msg_ex :=
  mkMsgEx (mx_status m) (mx_idx m) (mx_msg m) (mx_premap m) v (mx_completion m) (mx_module m).
Definition set_mx_completion (v : msg_completion_routine) (m : phl_dispr_msg_ex) : phl_dispr_msg_ex :=
  mkMsgEx (mx_status m) (mx_idx m) (mx_msg m) (mx_premap m) (mx_postmap m) v (mx_module m).
Definition set_mx_module (v : option mdl_ref) (m : phl_dispr_msg_ex) : phl_dispr_msg_ex :=
  mkMsgEx (mx_status m) (mx_idx m) (mx_msg m) (mx_premap m) (mx_postmap m) (mx_completion m) v.

Definition empty_map : list Z := replicate MODL_MASK_LEN 0.

Definition zero_msg_ex : phl_dispr_msg_ex :=
  mkMsgEx 0 0 zero_msg empty_map empty_map (mkCompletion false 0) None.

(** ** Command requests *)

(** [struct phl_cmd_token_req]: [priv] and [role] are opaque; the function
    pointers are kept as set or not. *)
Record phl_cmd_token_req := mkReq {
  req_module_id : Z; req_priv : Z; req_role : Z;
  req_acquired : bool; req_abort : bool; req_msg_hdlr : bool;
  req_set_info : bool; req_query_info : bool }.

Definition zero_req : phl_cmd_token_req := mkReq 0 0 0 false false false false false.

Record phl_token_op_info := mkOpInfo { op_used : bool; op_type : token_op_type; op_data : Z }.

Definition zero_op_info : phl_token_op_info := mkOpInfo false TOKEN_OP_NONE 0.

Record phl_cmd_token_req_ex := mkReqEx {
  rx_idx : Z;
  rx_status : Z;
  rx_req : phl_cmd_token_req;
  rx_add_req_info : phl_token_op_info;
  rx_free_req_info : phl_token_op_info }.

Definition set_rx_idx (v : Z) (r : phl_cmd_token_req_ex) : phl_cmd_token_req_ex :=
  mkReqEx v (rx_status r) (rx_req r) (rx_add_req_info r) (rx_free_req_info r).
Definition set_rx_status (v : Z) (r : phl_cmd_token_req_ex) : phl_cmd_token_req_ex :=
  mkReqEx (rx_idx r) v (rx_req r) (rx_add_req_info r) (rx_free_req_info r).
Definition set_rx_req (v : phl_cmd_token_req) (r : phl_cmd_token_req_ex) : phl_cmd_token_req_ex :=
  mkReqEx (rx_idx r) (rx_status r) v (rx_add_req_info r) (rx_free_req_info r).
Definition set_rx_add_req_info (v : phl_token_op_info) (r : phl_cmd_token_req_ex) : phl_cmd_token_req_ex :=
  mkReqEx (rx_idx r) (rx_status r) (rx_req r) v (rx_free_req_info r).
Definition set_rx_free_req_info (v : phl_token_op_info) (r : phl_cmd_token_req_ex) : phl_cmd_token_req_ex :=
  mkReqEx (rx_idx r) (rx_status r) (rx_req r) (rx_add_req_info r) v.

Definition zero_req_ex : phl_cmd_token_req_ex :=
  mkReqEx 0 0 zero_req zero_op_info zero_op_info.

(** A [struct phl_token_op_info *]: [add_req_info] or [free_req_info] of a
    request, or [renew_req_info] of the dispatcher. *)
Inductive op_ref := OpAdd (k : nat) | OpFree (k : nat) | OpRenew.

#[export] Instance op_ref_eq_dec : EqDecision op_ref.
Proof. solve_decision. Defined.

(** ** The environment *)

(** Dispatcher API calls a callee or another thread can make.  The list
    carried by [ASend] is what the completion routine does if the call itself
    runs it. *)
Inductive api_call :=
| ASend (msg : phl_msg) (attr : option phl_msg_attribute) (msg_hdl : option Z)
        (nested : list api_call)
| ACancelMsg (msg_hdl : option Z)
| AClrPendingMsg
| AAddTokenReq (req : option phl_cmd_token_req) (req_hdl : option Z)
| ACancelTokenReq (req_hdl : option Z)
| AFreeToken (req_hdl : option Z)
| ANotifyDevIo (mdl_id : Z) (allow_io : bool)
| ANotifyShallStop.

Record cb_resp := mkResp { cb_ret : phl_mdl_ret_code; cb_calls : list api_call }.

(** Calls out of the dispatcher. *)
Inductive event :=
| EvCompletion (i : nat) (msg_id : Z)
| EvAcquired (k : nat) (module_id : Z)
| EvAbort (k : nat) (module_id : Z)
| EvReqMsg (k : nat) (msg_id : Z)
| EvReqInfo (k : nat)
| EvMdlInit (m : mdl_ref) | EvMdlDeinit (m : mdl_ref)
| EvMdlStart (m : mdl_ref) | EvMdlStop (m : mdl_ref)
| EvMdlMsg (m : mdl_ref) (msg_id : Z)
| EvMdlInfo (m : mdl_ref).

(** ** The dispatcher *)

Record cmd_dispatcher := mkDispr {
  d_idx : Z;
  d_status : Z;
  d_module_q : list (phl_queue nat);
  d_heap : gmap nat phl_bk_module;
  d_next : nat;
  d_msg_ex_pool : list phl_dispr_msg_ex;
  d_msg_wait_q : phl_queue nat;
  d_msg_idle_q : phl_queue nat;
  d_msg_pend_q : phl_queue nat;
  d_token_req_ex_pool : list phl_cmd_token_req_ex;
  d_token_req_wait_q : phl_queue nat;
  d_token_req_idle_q : phl_queue nat;
  d_token_op_q : phl_queue op_ref;
  d_token_cnt : Z;
  d_cur_cmd_req : option nat;
  d_bitmap : list Z;
  d_basemap : list Z;
  d_mdl_info : list Z;
  d_controller : phl_bk_module;
  d_renew_req_info : phl_token_op_info;
  d_exclusive_mdl : Z;
  d_wake : Z;
  d_env : list cb_resp;
  d_trace : list event;
  d_ub : bool }.

Definition set_d_idx (v : Z) (d : cmd_dispatcher) : cmd_dispatcher :=
  mkDispr v (d_status d) (d_module_q d) (d_heap d) (d_next d) (d_msg_ex_pool d) (d_msg_wait_q d) (d_msg_idle_q d) (d_msg_pend_q d) (d_token_req_ex_pool d) (d_token_req_wait_q d) (d_token_req_idle_q d) (d_token_op_q d) (d_token_cnt d) (d_cur_cmd_req d) (d_bitmap d) (d_basemap d) (d_mdl_info d) (d_controller d) (d_renew_req_info d) (d_exclusive_mdl d) (d_wake d) (d_env d) (d_trace d) (d_ub d).
Definition set_d_status (v : Z) (d : cmd_dispatcher) : cmd_dispatcher :=
  mkDispr (d_idx d) v (d_module_q d) (d_heap d) (d_next d) (d_msg_ex_pool d) (d_msg_wait_q d) (d_msg_idle_q d) (d_msg_pend_q d) (d_token_req_ex_pool d) (d_token_req_wait_q d) (d_token_req_idle_q d) (d_token_op_q d) (d_token_cnt d) (d_cur_cmd_req d) (d_bitmap d) (d_basemap d) (d_mdl_info d) (d_controller d) (d_renew_req_info d) (d_exclusive_mdl d) (d_wake d) (d_env d) (d_trace d) (d_ub d).
Definition set_d_module_q (v : list (phl_queue nat)) (d : cmd_dispatcher) : cmd_dispatcher :=
  mkDispr (d_idx d) (d_status d) v (d_heap d) (d_next d) (d_msg_ex_pool d) (d_msg_wait_q d) (d_msg_idle_q d) (d_msg_pend_q d) (d_token_req_ex_pool d) (d_token_req_wait_q d) (d_token_req_idle_q d) (d_token_op_q d) (d_token_cnt d) (d_cur_cmd_req d) (d_bitmap d) (d_basemap d) (d_mdl_info d) (d_controller d) (d_renew_req_info d) (d_exclusive_mdl d) (d_wake d) (d_env d) (d_trace d) (d_ub d).
Definition set_d_heap (v : gmap nat phl_bk_module) (d : cmd_dispatcher) : cmd_dispatcher :=
  mkDispr (d_idx d) (d_status d) (d_module_q d) v (d_next d) (d_msg_ex_pool d) (d_msg_wait_q d) (d_msg_idle_q d) (d_msg_pend_q d) (d_token_req_ex_pool d) (d_token_req_wait_q d) (d_token_req_idle_q d) (d_token_op_q d) (d_token_cnt d) (d_cur_cmd_req d) (d_bitmap d) (d_basemap d) (d_mdl_info d) (d_controller d) (d_renew_req_info d) (d_exclusive_mdl d) (d_wake d) (d_env d) (d_trace d) (d_ub d).
Definition set_d_next (v : nat) (d : cmd_dispatcher) : cmd_dispatcher :=
  mkDispr (d_idx d) (d_status d) (d_module_q d) (d_heap d) v (d_msg_ex_pool d) (d_msg_wait_q d) (d_msg_idle_q d) (d_msg_pend_q d) (d_token_req_ex_pool d) (d_token_req_wait_q d) (d_token_req_idle_q d) (d_token_op_q d) (d_token_cnt d) (d_cur_cmd_req d) (d_bitmap d) (d_basemap d) (d_mdl_info d) (d_controller d) (d_renew_req_info d) (d_exclusive_mdl d) (d_wake d) (d_env d) (d_trace d) (d_ub d).
Definition set_d_msg_ex_pool (v : list phl_dispr_msg_ex) (d : cmd_dispatcher) : cmd_dispatcher :=
  mkDispr (d_idx d) (d_status d) (d_module_q d) (d_heap d) (d_next d) v (d_msg_wait_q d) (d_msg_idle_q d) (d_msg_pend_q d) (d_token_req_ex_pool d) (d_token_req_wait_q d) (d_token_req_idle_q d) (d_token_op_q d) (d_token_cnt d) (d_cur_cmd_req d) (d_bitmap d) (d_basemap d) (d_mdl_info d) (d_controller d) (d_renew_req_info d) (d_exclusive_mdl d) (d_wake d) (d_env d) (d_trace d) (d_ub d).
Definition set_d_msg_wait_q (v : phl_queue nat) (d : cmd_dispatcher) : cmd_dispatcher :=
  mkDispr (d_idx d) (d_status d) (d_module_q d) (d_heap d) (d_next d) (d_msg_ex_pool d) v (d_msg_idle_q d) (d_msg_pend_q d) (d_token_req_ex_pool d) (d_token_req_wait_q d) (d_token_req_idle_q d) (d_token_op_q d) (d_token_cnt d) (d_cur_cmd_req d) (d_bitmap d) (d_basemap d) (d_mdl_info d) (d_controller d) (d_renew_req_info d) (d_exclusive_mdl d) (d_wake d) (d_env d) (d_trace d) (d_ub d).
Definition set_d_msg_idle_q (v : phl_queue nat) (d : cmd_dispatcher) : cmd_dispatcher :=
  mkDispr (d_idx d) (d_status d) (d_module_q d) (d_heap d) (d_next d) (d_msg_ex_pool d) (d_msg_wait_q d) v (d_msg_pend_q d) (d_token_req_ex_pool d) (d_token_req_wait_q d) (d_token_req_idle_q d) (d_token_op_q d) (d_token_cnt d) (d_cur_cmd_req d) (d_bitmap d) (d_basemap d) (d_mdl_info d) (d_controller d) (d_renew_req_info d) (d_exclusive_mdl d) (d_wake d) (d_env d) (d_trace d) (d_ub d).
Definition set_d_msg_pend_q (v : phl_queue nat) (d : cmd_dispatcher) : cmd_dispatcher :=
  mkDispr (d_idx d) (d_status d) (d_module_q d) (d_heap d) (d_next d) (d_msg_ex_pool d) (d_msg_wait_q d) (d_msg_idle_q d) v (d_token_req_ex_pool d) (d_token_req_wait_q d) (d_token_req_idle_q d) (d_token_op_q d) (d_token_cnt d) (d_cur_cmd_req d) (d_bitmap d) (d_basemap d) (d_mdl_info d) (d_controller d) (d_renew_req_info d) (d_exclusive_mdl d) (d_wake d) (d_env d) (d_trace d) (d_ub d).
Definition set_d_token_req_ex_pool (v : list phl_cmd_token_req_ex) (d : cmd_dispatcher) : cmd_dispatcher :=
  mkDispr (d_idx d) (d_status d) (d_module_q d) (d_heap d) (d_next d) (d_msg_ex_pool d) (d_msg_wait_q d) (d_msg_idle_q d) (d_msg_pend_q d) v (d_token_req_wait_q d) (d_token_req_idle_q d) (d_token_op_q d) (d_token_cnt d) (d_cur_cmd_req d) (d_bitmap d) (d_basemap d) (d_mdl_info d) (d_controller d) (d_renew_req_info d) (d_exclusive_mdl d) (d_wake d) (d_env d) (d_trace d) (d_ub d).
Definition set_d_token_req_wait_q (v : phl_queue nat) (d : cmd_dispatcher) : cmd_dispatcher :=
  mkDispr (d_idx d) (d_status d) (d_module_q d) (d_heap d) (d_next d) (d_msg_ex_pool d) (d_msg_wait_q d) (d_msg_idle_q d) (d_msg_pend_q d) (d_token_req_ex_pool d) v (d_token_req_idle_q d) (d_token_op_q d) (d_token_cnt d) (d_cur_cmd_req d) (d_bitmap d) (d_basemap d) (d_mdl_info d) (d_controller d) (d_renew_req_info d) (d_exclusive_mdl d) (d_wake d) (d_env d) (d_trace d) (d_ub d).
Definition set_d_token_req_idle_q (v : phl_queue nat) (d : cmd_dispatcher) : cmd_dispatcher :=
  mkDispr (d_idx d) (d_status d) (d_module_q d) (d_heap d) (d_next d) (d_msg_ex_pool d) (d_msg_wait_q d) (d_msg_idle_q d) (d_msg_pend_q d) (d_token_req_ex_pool d) (d_token_req_wait_q d) v (d_token_op_q d) (d_token_cnt d) (d_cur_cmd_req d) (d_bitmap d) (d_basemap d) (d_mdl_info d) (d_controller d) (d_renew_req_info d) (d_exclusive_mdl d) (d_wake d) (d_env d) (d_trace d) (d_ub d).
Definition set_d_token_op_q (v : phl_queue op_ref) (d : cmd_dispatcher) : cmd_dispatcher :=
  mkDispr (d_idx d) (d_status d) (d_module_q d) (d_heap d) (d_next d) (d_msg_ex_pool d) (d_msg_wait_q d) (d_msg_idle_q d) (d_msg_pend_q d) (d_token_req_ex_pool d) (d_token_req_wait_q d) (d_token_req_idle_q d) v (d_token_cnt d) (d_cur_cmd_req d) (d_bitmap d) (d_basemap d) (d_mdl_info d) (d_controller d) (d_renew_req_info d) (d_exclusive_mdl d) (d_wake d) (d_env d) (d_trace d) (d_ub d).
Definition set_d_token_cnt (v : Z) (d : cmd_dispatcher) : cmd_dispatcher :=
  mkDispr (d_idx d) (d_status d) (d_module_q d) (d_heap d) (d_next d) (d_msg_ex_pool d) (d_msg_wait_q d) (d_msg_idle_q d) (d_msg_pend_q d) (d_token_req_ex_pool d) (d_token_req_wait_q d) (d_token_req_idle_q d) (d_token_op_q d) v (d_cur_cmd_req d) (d_bitmap d) (d_basemap d) (d_mdl_info d) (d_controller d) (d_renew_req_info d) (d_exclusive_mdl d) (d_wake d) (d_env d) (d_trace d) (d_ub d).
Definition set_d_cur_cmd_req (v : option nat) (d : cmd_dispatcher) : cmd_dispatcher :=
  mkDispr (d_idx d) (d_status d) (d_module_q d) (d_heap d) (d_next d) (d_msg_ex_pool d) (d_msg_wait_q d) (d_msg_idle_q d) (d_msg_pend_q d) (d_token_req_ex_pool d) (d_token_req_wait_q d) (d_token_req_idle_q d) (d_token_op_q d) (d_token_cnt d) v (d_bitmap d) (d_basemap d) (d_mdl_info d) (d_controller d) (d_renew_req_info d) (d_exclusive_mdl d) (d_wake d) (d_env d) (d_trace d) (d_ub d).
Definition set_d_bitmap (v : list Z) (d : cmd_dispatcher) : cmd_dispatcher :=
  mkDispr (d_idx d) (d_status d) (d_module_q d) (d_heap d) (d_next d) (d_msg_ex_pool d) (d_msg_wait_q d) (d_msg_idle_q d) (d_msg_pend_q d) (d_token_req_ex_pool d) (d_token_req_wait_q d) (d_token_req_idle_q d) (d_token_op_q d) (d_token_cnt d) (d_cur_cmd_req d) v (d_basemap d) (d_mdl_info d) (d_controller d) (d_renew_req_info d) (d_exclusive_mdl d) (d_wake d) (d_env d) (d_trace d) (d_ub d).
Definition set_d_basemap (v : list Z) (d : cmd_dispatcher) : cmd_dispatcher :=
  mkDispr (d_idx d) (d_status d) (d_module_q d) (d_heap d) (d_next d) (d_msg_ex_pool d) (d_msg_wait_q d) (d_msg_idle_q d) (d_msg_pend_q d) (d_token_req_ex_pool d) (d_token_req_wait_q d) (d_token_req_idle_q d) (d_token_op_q d) (d_token_cnt d) (d_cur_cmd_req d) (d_bitmap d) v (d_mdl_info d) (d_controller d) (d_renew_req_info d) (d_exclusive_mdl d) (d_wake d) (d_env d) (d_trace d) (d_ub d).
Definition set_d_mdl_info (v : list Z) (d : cmd_dispatcher) : cmd_dispatcher :=
  mkDispr (d_idx d) (d_status d) (d_module_q d) (d_heap d) (d_next d) (d_msg_ex_pool d) (d_msg_wait_q d) (d_msg_idle_q d) (d_msg_pend_q d) (d_token_req_ex_pool d) (d_token_req_wait_q d) (d_token_req_idle_q d) (d_token_op_q d) (d_token_cnt d) (d_cur_cmd_req d) (d_bitmap d) (d_basemap d) v (d_controller d) (d_renew_req_info d) (d_exclusive_mdl d) (d_wake d) (d_env d) (d_trace d) (d_ub d).
Definition set_d_controller (v : phl_bk_module) (d : cmd_dispatcher) : cmd_dispatcher :=
  mkDispr (d_idx d) (d_status d) (d_module_q d) (d_heap d) (d_next d) (d_msg_ex_pool d) (d_msg_wait_q d) (d_msg_idle_q d) (d_msg_pend_q d) (d_token_req_ex_pool d) (d_token_req_wait_q d) (d_token_req_idle_q d) (d_token_op_q d) (d_token_cnt d) (d_cur_cmd_req d) (d_bitmap d) (d_basemap d) (d_mdl_info d) v (d_renew_req_info d) (d_exclusive_mdl d) (d_wake d) (d_env d) (d_trace d) (d_ub d).
Definition set_d_renew_req_info (v : phl_token_op_info) (d : cmd_dispatcher) : cmd_dispatcher :=
  mkDispr (d_idx d) (d_status d) (d_module_q d) (d_heap d) (d_next d) (d_msg_ex_pool d) (d_msg_wait_q d) (d_msg_idle_q d) (d_msg_pend_q d) (d_token_req_ex_pool d) (d_token_req_wait_q d) (d_token_req_idle_q d) (d_token_op_q d) (d_token_cnt d) (d_cur_cmd_req d) (d_bitmap d) (d_basemap d) (d_mdl_info d) (d_controller d) v (d_exclusive_mdl d) (d_wake d) (d_env d) (d_trace d) (d_ub d).
Definition set_d_exclusive_mdl (v : Z) (d : cmd_dispatcher) : cmd_dispatcher :=
  mkDispr (d_idx d) (d_status d) (d_module_q d) (d_heap d) (d_next d) (d_msg_ex_pool d) (d_msg_wait_q d) (d_msg_idle_q d) (d_msg_pend_q d) (d_token_req_ex_pool d) (d_token_req_wait_q d) (d_token_req_idle_q d) (d_token_op_q d) (d_token_cnt d) (d_cur_cmd_req d) (d_bitmap d) (d_basemap d) (d_mdl_info d) (d_controller d) (d_renew_req_info d) v (d_wake d) (d_env d) (d_trace d) (d_ub d).
Definition set_d_wake (v : Z) (d : cmd_dispatcher) : cmd_dispatcher :=
  mkDispr (d_idx d) (d_status d) (d_module_q d) (d_heap d) (d_next d) (d_msg_ex_pool d) (d_msg_wait_q d) (d_msg_idle_q d) (d_msg_pend_q d) (d_token_req_ex_pool d) (d_token_req_wait_q d) (d_token_req_idle_q d) (d_token_op_q d) (d_token_cnt d) (d_cur_cmd_req d) (d_bitmap d) (d_basemap d) (d_mdl_info d) (d_controller d) (d_renew_req_info d) (d_exclusive_mdl d) v (d_env d) (d_trace d) (d_ub d).
Definition set_d_env (v : list cb_resp) (d : cmd_dispatcher) : cmd_dispatcher :=
  mkDispr (d_idx d) (d_status d) (d_module_q d) (d_heap d) (d_next d) (d_msg_ex_pool d) (d_msg_wait_q d) (d_msg_idle_q d) (d_msg_pend_q d) (d_token_req_ex_pool d) (d_token_req_wait_q d) (d_token_req_idle_q d) (d_token_op_q d) (d_token_cnt d) (d_cur_cmd_req d) (d_bitmap d) (d_basemap d) (d_mdl_info d) (d_controller d) (d_renew_req_info d) (d_exclusive_mdl d) (d_wake d) v (d_trace d) (d_ub d).
Definition set_d_trace (v : list event) (d : cmd_dispatcher) : cmd_dispatcher :=
  mkDispr (d_idx d) (d_status d) (d_module_q d) (d_heap d) (d_next d) (d_msg_ex_pool d) (d_msg_wait_q d) (d_msg_idle_q d) (d_msg_pend_q d) (d_token_req_ex_pool d) (d_token_req_wait_q d) (d_token_req_idle_q d) (d_token_op_q d) (d_token_cnt d) (d_cur_cmd_req d) (d_bitmap d) (d_basemap d) (d_mdl_info d) (d_controller d) (d_renew_req_info d) (d_exclusive_mdl d) (d_wake d) (d_env d) v (d_ub d).
Definition set_d_ub (v : bool) (d : cmd_dispatcher) : cmd_dispatcher :=
  mkDispr (d_idx d) (d_status d) (d_module_q d) (d_heap d) (d_next d) (d_msg_ex_pool d) (d_msg_wait_q d) (d_msg_idle_q d) (d_msg_pend_q d) (d_token_req_ex_pool d) (d_token_req_wait_q d) (d_token_req_idle_q d) (d_token_op_q d) (d_token_cnt d) (d_cur_cmd_req d) (d_bitmap d) (d_basemap d) (d_mdl_info d) (d_controller d) (d_renew_req_info d) (d_exclusive_mdl d) (d_wake d) (d_env d) (d_trace d) v.

(** ** Access to pool elements, module objects and map entries *)

Definition mx (d : cmd_dispatcher) (i : nat) : phl_dispr_msg_ex :=
  nth i (d_msg_ex_pool d) zero_msg_ex.
Definition upd_mx (f : phl_dispr_msg_ex -> phl_dispr_msg_ex) (i : nat) (d : cmd_dispatcher) :=
  set_d_msg_ex_pool (alter f i (d_msg_ex_pool d)) d.

Definition rx (d : cmd_dispatcher) (k : nat) : phl_cmd_token_req_ex :=
  nth k (d_token_req_ex_pool d) zero_req_ex.
Definition upd_rx (f : phl_cmd_token_req_ex -> phl_cmd_token_req_ex) (k : nat)
    (d : cmd_dispatcher) :=
  set_d_token_req_ex_pool (alter f k (d_token_req_ex_pool d)) d.

Definition mx_set_flag (flag : Z) (m : phl_dispr_msg_ex) : phl_dispr_msg_ex :=
  set_mx_status (SET_STATUS_FLAG (mx_status m) flag) m.
Definition mx_clear_flag (flag : Z) (m : phl_dispr_msg_ex) : phl_dispr_msg_ex :=
  set_mx_status (CLEAR_STATUS_FLAG (mx_status m) flag) m.
Definition mx_map_id (f : Z -> Z) (m : phl_dispr_msg_ex) : phl_dispr_msg_ex :=
  set_mx_msg (set_msg_id (f (msg_id (mx_msg m))) (mx_msg m)) m.

Definition rx_set_flag (flag : Z) (r : phl_cmd_token_req_ex) : phl_cmd_token_req_ex :=
  set_rx_status (SET_STATUS_FLAG (rx_status r) flag) r.
Definition rx_clear_flag (flag : Z) (r : phl_cmd_token_req_ex) : phl_cmd_token_req_ex :=
  set_rx_status (CLEAR_STATUS_FLAG (rx_status r) flag) r.

Definition d_set_flag (flag : Z) (d : cmd_dispatcher) : cmd_dispatcher :=
  set_d_status (SET_STATUS_FLAG (d_status d) flag) d.
Definition d_clear_flag (flag : Z) (d : cmd_dispatcher) : cmd_dispatcher :=
  set_d_status (CLEAR_STATUS_FLAG (d_status d) flag) d.

Definition mxid (d : cmd_dispatcher) (i : nat) : Z := msg_id (mx_msg (mx d i)).
Definition mx_test (d : cmd_dispatcher) (i : nat) (flag : Z) : bool :=
  TEST_STATUS_FLAG (mx_status (mx d i)) flag.
Definition rx_test (d : cmd_dispatcher) (k : nat) (flag : Z) : bool :=
  TEST_STATUS_FLAG (rx_status (rx d k)) flag.
Definition d_test (d : cmd_dispatcher) (flag : Z) : bool := TEST_STATUS_FLAG (d_status d) flag.

(** Records an access the C standard leaves undefined. *)
Definition raise_ub (b : bool) (d : cmd_dispatcher) : cmd_dispatcher :=
  set_d_ub (d_ub d || b) d.

Definition log (ev : event) (d : cmd_dispatcher) : cmd_dispatcher :=
  set_d_trace (d_trace d ++ [ev]) d.

(** Dereference of a module pointer; a freed module reads as zeros and is
    recorded by the functions that dereference. *)
Definition get_bk (d : cmd_dispatcher) (m : mdl_ref) : phl_bk_module :=
  match m with
  | RefCtrl => d_controller d
  | RefMdl h => default zero_bk_module (d_heap d !! h)
  end.
Definition dangling (d : cmd_dispatcher) (m : mdl_ref) : bool :=
  match m with
  | RefCtrl => false
  | RefMdl h => match d_heap d !! h with Some _ => false | None => true end
  end.
Definition upd_bk (f : phl_bk_module -> phl_bk_module) (m : mdl_ref) (d : cmd_dispatcher) :=
  match m with
  | RefCtrl => set_d_controller (f (d_controller d)) d
  | RefMdl h => set_d_heap (alter f h (d_heap d)) d
  end.

(** [mdl_info] has [PHL_MDL_ID_MAX] entries. *)
Definition GET_CUR_PENDING_EVT (d : cmd_dispatcher) (mdl_id : Z) : Z :=
  nth (Z.to_nat mdl_id) (d_mdl_info d) 0.
Definition SET_CUR_PENDING_EVT (d : cmd_dispatcher) (mdl_id evt_id : Z) : cmd_dispatcher :=
  set_d_mdl_info (<[Z.to_nat mdl_id := evt_id]> (d_mdl_info d)) d.

Definition IS_EXCL_MDL (d : cmd_dispatcher) (mdl : Z) : bool := d_exclusive_mdl d =? mdl.

Definition GEN_VALID_HDL (idx : Z) : Z := u32 (Z.lor (BIT 31) (u32 idx)).
Definition IS_HDL_VALID (hdl : Z) : bool := z_true (Z.land hdl (BIT 31)).
Definition GET_IDX_FROM_HDL (hdl : Z) : Z := u8 (Z.land hdl 0xFF).

(** [_chk_bitmap_bit(obj->bitmap, id)]: [basemap] follows [bitmap] in the
    structure, so an identifier above 127 reads [basemap]. *)
Definition obj_chk_bitmap (d : cmd_dispatcher) (id : Z) : Z :=
  _chk_bitmap_bit (d_bitmap d ++ d_basemap d) id.
