(* ===== verification/DispApi.v ===== *)
(** * Message and request pools, and the dispatcher API
    (src/phl/phl_cmd_dispatcher.c)

    The functions other modules and other threads call on a dispatcher:
    [dispr_send_msg], [dispr_cancel_msg], [dispr_add_token_req], ... with the
    pool functions they are made of.  None of them runs a module or a request;
    the only function pointer they can reach is a completion routine, through
    [push_back_idle_msg], and it is the argument [K] of the functions that can
    reach it. *)

From S2P Require Import Prelude PhlQueue PhlDef DispState.

(** What running a completion routine does to the dispatcher. *)
Abbreviation kont := (event -> cmd_dispatcher -> cmd_dispatcher).

Definition _get_mdl_priority (id : Z) : Z :=
  if id <? PHL_BK_MDL_ROLE_START then PHL_MDL_PRI_MAX
  else if id <=? PHL_BK_MDL_ROLE_END then PHL_MDL_PRI_ROLE
  else if id <=? PHL_BK_MDL_MDRY_END then PHL_MDL_PRI_MANDATORY
  else if id <=? PHL_BK_MDL_OPT_END then PHL_MDL_PRI_OPTIONAL
  else PHL_MDL_PRI_MAX.

Definition _is_bitmap_empty (bitmap : list Z) : bool := forallb (fun b => b =? 0) bitmap.

Definition notify_bk_thread (d : cmd_dispatcher) : cmd_dispatcher :=
  set_d_wake (d_wake d + 1) d.

(** ** Token operations *)

Definition op_info_of (d : cmd_dispatcher) (r : op_ref) : phl_token_op_info :=
  match r with
  | OpAdd k => rx_add_req_info (rx d k)
  | OpFree k => rx_free_req_info (rx d k)
  | OpRenew => d_renew_req_info d
  end.

Definition set_op_info (v : phl_token_op_info) (r : op_ref) (d : cmd_dispatcher) :=
  match r with
  | OpAdd k => upd_rx (set_rx_add_req_info v) k d
  | OpFree k => upd_rx (set_rx_free_req_info v) k d
  | OpRenew => set_d_renew_req_info v d
  end.

Definition pop_front_token_op_info (d : cmd_dispatcher) : option op_ref * cmd_dispatcher :=
  let '(r, q) := pq_pop (d_token_op_q d) _first in (r, set_d_token_op_q q d).

Definition push_back_token_op_info (d : cmd_dispatcher) (op_info : op_ref)
    (type : token_op_type) (data : Z) : bool * cmd_dispatcher :=
  if op_used (op_info_of d op_info) then (false, d)
  else
    let d := set_op_info (mkOpInfo true type data) op_info d in
    let d := set_d_token_op_q (pq_push (d_token_op_q d) op_info _tail) d in
    (true, notify_bk_thread d).

Definition dispr_enqueue_token_op_info (d : cmd_dispatcher) (op_info : op_ref)
    (type : token_op_type) (data : Z) : bool * cmd_dispatcher :=
  push_back_token_op_info d op_info type data.

Definition on_abort_msg_complete (d : cmd_dispatcher) : cmd_dispatcher :=
  let d := d_clear_flag DISPR_WAIT_ABORT_MSG_DONE d in
  snd (dispr_enqueue_token_op_info d OpRenew TOKEN_OP_RENEW_CMD_REQ 0xff).

(** ** The message pool *)

Definition reset_msg_ex (m : phl_dispr_msg_ex) : phl_dispr_msg_ex :=
  mkMsgEx 0 (mx_idx m) zero_msg empty_map empty_map (mkCompletion false 0) None.

Definition pop_front_idle_msg (d : cmd_dispatcher) : option nat * cmd_dispatcher :=
  match pq_pop (d_msg_idle_q d) _first with
  | (Some i, q) => (Some i, upd_mx reset_msg_ex i (set_d_msg_idle_q q d))
  | (None, q) => (None, set_d_msg_idle_q q d)
  end.

Definition push_back_idle_msg (K : kont) (d : cmd_dispatcher) (i : nat) : cmd_dispatcher :=
  let d :=
    if mx_test d i MSG_STATUS_NOTIFY_COMPLETE && completion (mx_completion (mx d i)) then
      let d := if mx_test d i MSG_STATUS_CANCEL
               then upd_mx (mx_map_id (fun id => SET_MSG_INDC_FIELD id MSG_INDC_CANCEL)) i d
               else d in
      let d := K (EvCompletion i (mxid d i)) d in
      upd_mx (mx_clear_flag MSG_STATUS_NOTIFY_COMPLETE) i d
    else d in
  let d := if mx_test d i MSG_STATUS_FOR_ABORT then on_abort_msg_complete d else d in
  let d := upd_mx (set_mx_status 0) i d in
  let mdl := MSG_MDL_ID_FIELD (mxid d i) in
  let d := if GET_CUR_PENDING_EVT d mdl =? MSG_EVT_ID_FIELD (mxid d i)
           then SET_CUR_PENDING_EVT d mdl MSG_EVT_MAX else d in
  let d := upd_mx (mx_map_id (fun _ => 0)) i d in
  set_d_msg_idle_q (pq_push (d_msg_idle_q d) i _tail) d.

Definition pop_front_wait_msg (d : cmd_dispatcher) : option nat * cmd_dispatcher :=
  match pq_pop (d_msg_wait_q d) _first with
  | (Some i, q) =>
      let d := set_d_msg_wait_q q d in
      let d := upd_mx (mx_set_flag MSG_STATUS_RUN) i d in
      let d := upd_mx (mx_clear_flag MSG_STATUS_ENQ) i d in
      (Some i, upd_mx (mx_clear_flag MSG_STATUS_PENDING) i d)
  | (None, q) => (None, set_d_msg_wait_q q d)
  end.

(** The flag updates shared by the three enqueuing functions. *)
Definition mark_enq (d : cmd_dispatcher) (i : nat) : cmd_dispatcher :=
  let d := upd_mx (mx_set_flag MSG_STATUS_ENQ) i d in
  upd_mx (mx_clear_flag MSG_STATUS_RUN) i d.

Definition push_back_wait_msg (d : cmd_dispatcher) (i : nat) : cmd_dispatcher :=
  let d := mark_enq d i in
  let d := set_d_msg_wait_q (pq_push (d_msg_wait_q d) i _tail) d in
  notify_bk_thread d.

Definition is_higher_priority (d : cmd_dispatcher) (input obj : nat) : bool :=
  IS_DISPR_CTRL (MSG_MDL_ID_FIELD (mxid d input)) &&
  negb (IS_DISPR_CTRL (MSG_MDL_ID_FIELD (mxid d obj))).

Definition insert_msg_by_priority (d : cmd_dispatcher) (i : nat) : cmd_dispatcher :=
  let d := mark_enq d i in
  let d := set_d_msg_wait_q (pq_insert (d_msg_wait_q d) i (Some (is_higher_priority d))) d in
  notify_bk_thread d.

Definition pop_front_pending_msg (d : cmd_dispatcher) : option nat * cmd_dispatcher :=
  let '(r, q) := pq_pop (d_msg_pend_q d) _first in (r, set_d_msg_pend_q q d).

Definition push_back_pending_msg (d : cmd_dispatcher) (i : nat) : cmd_dispatcher :=
  let d := mark_enq d i in
  let d := if mx_test d i MSG_STATUS_CLR_SNDR_MSG_IF_PENDING
           then SET_CUR_PENDING_EVT d (MSG_MDL_ID_FIELD (mxid d i)) (MSG_EVT_ID_FIELD (mxid d i))
           else d in
  set_d_msg_pend_q (pq_push (d_msg_pend_q d) i _tail) d.

(** The body of the [while] of [clear_pending_msg]; the loop runs once per
    pending message, which bounds it. *)
Fixpoint clear_pending_loop (fuel : nat) (d : cmd_dispatcher) : cmd_dispatcher :=
  match fuel with
  | O => d
  | S fuel =>
      match pop_front_pending_msg d with
      | (Some i, d) =>
          let d := if IS_DISPR_CTRL (MSG_EVT_ID_FIELD (mxid d i))
                   then insert_msg_by_priority d i else push_back_wait_msg d i in
          clear_pending_loop fuel d
      | (None, d) => d
      end
  end.

Definition clear_pending_msg (d : cmd_dispatcher) : cmd_dispatcher :=
  if negb (d_test d DISPR_CLR_PEND_MSG) then d
  else
    let d := d_clear_flag DISPR_CLR_PEND_MSG d in
    clear_pending_loop (length (q_queue (d_msg_pend_q d))) d.

Definition cancel_msg (d : cmd_dispatcher) (i : nat) : cmd_dispatcher :=
  let d := upd_mx (set_mx_premap empty_map) i d in
  let d := upd_mx (set_mx_postmap empty_map) i d in
  upd_mx (mx_set_flag MSG_STATUS_CANCEL) i d.

(** The maps of a message are arrays of [MODL_MASK_LEN] bytes. *)
Definition add_maps (d : cmd_dispatcher) (i : nat) (ids : list Z) : cmd_dispatcher :=
  let d := upd_mx (fun m => set_mx_premap (_add_bitmap_bit (mx_premap m) ids) m) i d in
  let d := upd_mx (fun m => set_mx_postmap (_add_bitmap_bit (mx_postmap m) ids) m) i d in
  raise_ub (existsb (fun id => PHL_BK_MDL_END <=? id) ids) d.

Definition clr_maps (d : cmd_dispatcher) (i : nat) (ids : list Z) : cmd_dispatcher :=
  let d := upd_mx (fun m => set_mx_premap (_clr_bitmap_bit (mx_premap m) ids) m) i d in
  let d := upd_mx (fun m => set_mx_postmap (_clr_bitmap_bit (mx_postmap m) ids) m) i d in
  raise_ub (existsb (fun id => PHL_BK_MDL_END <=? id) ids) d.

Definition set_maps (d : cmd_dispatcher) (i : nat) (map : list Z) : cmd_dispatcher :=
  upd_mx (set_mx_postmap map) i (upd_mx (set_mx_premap map) i d).

Definition set_msg_bitmap (d : cmd_dispatcher) (i : nat) (mdl_id : Z) : cmd_dispatcher :=
  let d := set_maps d i (d_bitmap d) in
  if z_true (obj_chk_bitmap d mdl_id) then add_maps d i [mdl_id] else d.

Definition set_msg_custom_bitmap (d : cmd_dispatcher) (i : nat) (opt : Z)
    (id_arr : list Z) (len : Z) (mdl_id : Z) : cmd_dispatcher :=
  let ids := take (Z.to_nat len) id_arr in
  let d := if z_true (Z.land opt MSG_OPT_SKIP_NOTIFY_OPT_MDL)
           then set_maps d i (d_basemap d) else d in
  let d := if z_true (Z.land opt MSG_OPT_BLIST_PRESENT)
           then clr_maps d i ids else add_maps d i ids in
  let d := raise_ub (Z.of_nat (length id_arr) <? len) d in
  if z_true (obj_chk_bitmap d mdl_id) then add_maps d i [mdl_id] else d.

(** ** The request pool *)

Definition reset_req_ex (r : phl_cmd_token_req_ex) : phl_cmd_token_req_ex :=
  mkReqEx (rx_idx r) 0 zero_req zero_op_info zero_op_info.

(** The two [phl_token_op_info] of the request are zeroed, links included. *)
Definition op_linked (d : cmd_dispatcher) (k : nat) : bool :=
  existsb (fun r => bool_decide (r = OpAdd k) || bool_decide (r = OpFree k))
    (q_queue (d_token_op_q d)).

Definition pop_front_idle_req (d : cmd_dispatcher) : option nat * cmd_dispatcher :=
  match pq_pop (d_token_req_idle_q d) _first with
  | (Some k, q) =>
      let d := raise_ub (op_linked d k) d in
      (Some k, upd_rx reset_req_ex k (set_d_token_req_idle_q q d))
  | (None, q) => (None, set_d_token_req_idle_q q d)
  end.

Definition push_back_idle_req (d : cmd_dispatcher) (k : nat) : cmd_dispatcher :=
  let d := upd_rx (set_rx_status 0) k d in
  let d := SET_CUR_PENDING_EVT d (req_module_id (rx_req (rx d k))) MSG_EVT_MAX in
  set_d_token_req_idle_q (pq_push (d_token_req_idle_q d) k _tail) d.

Definition pop_front_wait_req (d : cmd_dispatcher) : option nat * cmd_dispatcher :=
  match pq_pop (d_token_req_wait_q d) _first with
  | (Some k, q) =>
      let d := set_d_token_req_wait_q q d in
      let d := upd_rx (rx_set_flag REQ_STATUS_PREPARE) k d in
      (Some k, upd_rx (rx_clear_flag REQ_STATUS_ENQ) k d)
  | (None, q) => (None, set_d_token_req_wait_q q d)
  end.

Definition push_back_wait_req (d : cmd_dispatcher) (k : nat) : cmd_dispatcher :=
  let d := set_d_token_req_wait_q (pq_push (d_token_req_wait_q d) k _tail) d in
  upd_rx (rx_set_flag REQ_STATUS_ENQ) k d.

Definition chk_module_ops (ops : option phl_bk_module_ops) : bool :=
  match ops with
  | None => false
  | Some o => op_init o && op_deinit o && op_msg_hdlr o && op_set_info o &&
              op_query_info o && op_start o && op_stop o
  end.

Definition chk_cmd_req_ops (req : option phl_cmd_token_req) : bool :=
  match req with
  | None => false
  | Some r => (PHL_FG_MDL_START <=? req_module_id r) && req_abort r && req_acquired r &&
              req_msg_hdlr r && req_set_info r && req_query_info r
  end.

(** ** Sending messages *)

(** Identifier of the running request and the whole status word. *)
Definition get_cur_cmd_req_id (d : cmd_dispatcher) : Z * Z :=
  match d_cur_cmd_req d with
  | None => (PHL_MDL_ID_MAX, 0)
  | Some k =>
      let st := rx_status (rx d k) in
      if negb (rx_test d k REQ_STATUS_RUN) || rx_test d k REQ_STATUS_CANCEL
      then (PHL_MDL_ID_MAX, st)
      else (req_module_id (rx_req (rx d k)), st)
  end.

Definition search_mdl (d : cmd_dispatcher) (id : Z) (h : nat) : bool :=
  bm_id (get_bk d (RefMdl h)) =? id.

(** [pq_search_node(.., search_mdl)] with the dereference of each node it
    visits. *)
Fixpoint visits_dangling (d : cmd_dispatcher) (id : Z) (l : list nat) : bool :=
  match l with
  | [] => false
  | h :: l => dangling d (RefMdl h) || (negb (search_mdl d id h) && visits_dangling d id l)
  end.

(** The queues are searched in turn until one has the module; the flag tells
    whether a freed node was read on the way. *)
Fixpoint search_queues (d : cmd_dispatcher) (id : Z) (qs : list (phl_queue nat)) :
    option nat * bool :=
  match qs with
  | [] => (None, false)
  | q :: qs =>
      let bad := pq_nonempty q && visits_dangling d id (q_queue q) in
      match fst (pq_search_node q false (Some (search_mdl d id))) with
      | Some h => (Some h, bad)
      | None => let '(r, bad') := search_queues d id qs in (r, bad || bad')
      end
  end.

Definition get_module_by_id (d : cmd_dispatcher) (id : Z) : option mdl_ref * cmd_dispatcher :=
  if IS_DISPR_CTRL id then
    if negb (d_test d DISPR_CTRL_PRESENT) then (None, d) else (Some RefCtrl, d)
  else if negb (z_true (obj_chk_bitmap d id)) then (None, d)
  else
    let '(r, bad) := search_queues d id (d_module_q d) in
    (RefMdl <$> r, raise_ub bad d).

(** The [if (attr)] block of [dispr_send_msg]. *)
Definition send_msg_attr (d : cmd_dispatcher) (i : nat) (attr : phl_msg_attribute)
    (module_id : Z) : cmd_dispatcher :=
  let d := set_msg_custom_bitmap d i (attr_opt attr)
             (default [] (id_arr (attr_notify attr))) (notify_len (attr_notify attr)) module_id in
  let d :=
    if completion (attr_completion attr) then
      let d := upd_mx (mx_set_flag MSG_STATUS_NOTIFY_COMPLETE) i d in
      upd_mx (set_mx_completion (attr_completion attr)) i d
    else d in
  let d := if TEST_STATUS_FLAG (attr_opt attr) MSG_OPT_CLR_SNDR_MSG_IF_PENDING
           then upd_mx (mx_set_flag MSG_STATUS_CLR_SNDR_MSG_IF_PENDING) i d else d in
  if TEST_STATUS_FLAG (attr_opt attr) MSG_OPT_PENDING_DURING_CANNOT_IO
  then upd_mx (mx_set_flag MSG_STATUS_PENDING_DURING_CANNOT_IO) i d else d.

(** The module lookup of [dispr_send_msg]. *)
Definition send_msg_owner (d : cmd_dispatcher) (i : nat) (module_id cur_req_id req_status : Z) :
    cmd_dispatcher :=
  match get_module_by_id d module_id with
  | (Some m, d) =>
      let d := upd_mx (set_mx_module (Some m)) i d in
      upd_mx (mx_set_flag MSG_STATUS_OWNER_BK_MDL) i d
  | (None, d) =>
      if (cur_req_id =? module_id) ||
         ((cur_req_id =? PHL_MDL_ID_MAX) && TEST_STATUS_FLAG req_status REQ_STATUS_LAST_PERMIT)
      then upd_mx (mx_set_flag MSG_STATUS_OWNER_REQ) i d else d
  end.

Definition send_not_allowed (d : cmd_dispatcher) (module_id cur_req_id req_status : Z) : bool :=
  negb (IS_DISPR_CTRL module_id) &&
  negb (z_true (obj_chk_bitmap d module_id)) &&
  ((negb (cur_req_id =? PHL_MDL_ID_MAX) && negb (cur_req_id =? module_id)) ||
   ((cur_req_id =? PHL_MDL_ID_MAX) && (req_status =? 0)) ||
   ((cur_req_id =? PHL_MDL_ID_MAX) &&
    negb (TEST_STATUS_FLAG req_status REQ_STATUS_LAST_PERMIT))).

(** The descriptor between its allocation and its queueing. *)
Definition send_msg_fill (d : cmd_dispatcher) (i : nat) (msg : phl_msg)
    (attr : option phl_msg_attribute) (module_id cur_req_id req_status : Z) : cmd_dispatcher :=
  let d := upd_mx (set_mx_msg msg) i d in
  let d := set_msg_bitmap d i module_id in
  let d := match attr with Some a => send_msg_attr d i a module_id | None => d end in
  send_msg_owner d i module_id cur_req_id req_status.

Definition dispr_send_msg (K : kont) (d : cmd_dispatcher) (msg : phl_msg)
    (attr : option phl_msg_attribute) (msg_hdl : option Z) :
    rtw_phl_status * option Z * cmd_dispatcher :=
  let module_id := MSG_MDL_ID_FIELD (msg_id msg) in
  let '(cur_req_id, req_status) := get_cur_cmd_req_id d in
  if negb (d_test d DISPR_STARTED) then (RTW_PHL_STATUS_UNEXPECTED_ERROR, msg_hdl, d)
  else if d_test d DISPR_SHALL_STOP then (RTW_PHL_STATUS_UNEXPECTED_ERROR, msg_hdl, d)
  else if match attr with
          | Some a => bool_decide (id_arr (attr_notify a) = None) &&
                      z_true (notify_len (attr_notify a))
          | None => false
          end
  then (RTW_PHL_STATUS_INVALID_PARAM, msg_hdl, d)
  else if send_not_allowed d module_id cur_req_id req_status
  then (RTW_PHL_STATUS_INVALID_PARAM, msg_hdl, d)
  else
    match pop_front_idle_msg d with
    | (None, d) => (RTW_PHL_STATUS_RESOURCE, msg_hdl, d)
    | (Some i, d) =>
        let msg_hdl := (fun _ => 0) <$> msg_hdl in
        let d := send_msg_fill d i msg attr module_id cur_req_id req_status in
        let last_permit := mx_test d i MSG_STATUS_OWNER_REQ &&
                           TEST_STATUS_FLAG req_status REQ_STATUS_LAST_PERMIT in
        if last_permit &&
           match attr with
           | None => true
           | Some a => negb (TEST_STATUS_FLAG (attr_opt a) MSG_OPT_SEND_IN_ABORT)
           end
        then
          let d := upd_mx (mx_map_id (fun id => SET_MSG_INDC_FIELD id MSG_INDC_FAIL)) i d in
          (RTW_PHL_STATUS_FAILURE, msg_hdl, push_back_idle_msg K d i)
        else
          let d := if last_permit then
                     d_set_flag DISPR_WAIT_ABORT_MSG_DONE
                       (upd_mx (mx_set_flag MSG_STATUS_FOR_ABORT) i d)
                   else d in
          let d := upd_mx (mx_set_flag MSG_STATUS_PRE_PHASE) i d in
          let d := if IS_DISPR_CTRL module_id
                   then insert_msg_by_priority d i else push_back_wait_msg d i in
          (RTW_PHL_STATUS_SUCCESS, (fun _ => GEN_VALID_HDL (mx_idx (mx d i))) <$> msg_hdl, d)
    end.

Definition dispr_cancel_msg (d : cmd_dispatcher) (msg_hdl : option Z) :
    rtw_phl_status * option Z * cmd_dispatcher :=
  match msg_hdl with
  | None => (RTW_PHL_STATUS_UNEXPECTED_ERROR, msg_hdl, d)
  | Some hdl =>
      if negb (d_test d DISPR_STARTED) then (RTW_PHL_STATUS_UNEXPECTED_ERROR, msg_hdl, d)
      else if negb (IS_HDL_VALID hdl) || (Z.of_nat MAX_PHL_MSG_NUM <=? GET_IDX_FROM_HDL hdl)
      then (RTW_PHL_STATUS_FAILURE, msg_hdl, d)
      else
        let i := Z.to_nat (GET_IDX_FROM_HDL hdl) in
        if negb (mx_test d i MSG_STATUS_ENQ) && negb (mx_test d i MSG_STATUS_RUN)
        then (RTW_PHL_STATUS_FAILURE, Some 0, d)
        else (RTW_PHL_STATUS_SUCCESS, Some 0, cancel_msg d i)
  end.

Definition dispr_clr_pending_msg (d : cmd_dispatcher) : cmd_dispatcher :=
  notify_bk_thread (d_set_flag DISPR_CLR_PEND_MSG d).

(** ** Requesting the command token *)

Definition dispr_add_token_req (d : cmd_dispatcher) (req : option phl_cmd_token_req)
    (req_hdl : option Z) : rtw_phl_status * option Z * cmd_dispatcher :=
  match req, req_hdl with
  | Some r, Some _ =>
      if negb (d_test d DISPR_STARTED) || negb (chk_cmd_req_ops req)
      then (RTW_PHL_STATUS_UNEXPECTED_ERROR, req_hdl, d)
      else if d_test d DISPR_SHALL_STOP then (RTW_PHL_STATUS_UNEXPECTED_ERROR, req_hdl, d)
      else
        match pop_front_idle_req d with
        | (None, d) => (RTW_PHL_STATUS_RESOURCE, req_hdl, d)
        | (Some k, d) =>
            let d := upd_rx (set_rx_req r) k d in
            let d := push_back_wait_req d k in
            let hdl := GEN_VALID_HDL (rx_idx (rx d k)) in
            let stat :=
              if bool_decide (pq_get_front (d_token_op_q d) = None) && (d_token_cnt d =? 0)
              then RTW_PHL_STATUS_SUCCESS else RTW_PHL_STATUS_PENDING in
            let d := snd (dispr_enqueue_token_op_info d (OpAdd k) TOKEN_OP_ADD_CMD_REQ
                            (rx_idx (rx d k))) in
            (stat, Some hdl, d)
        end
  | _, _ => (RTW_PHL_STATUS_UNEXPECTED_ERROR, req_hdl, d)
  end.

Definition req_hdl_invalid (hdl : Z) : bool :=
  negb (IS_HDL_VALID hdl) || (Z.of_nat MAX_CMD_REQ_NUM <=? GET_IDX_FROM_HDL hdl).

Definition dispr_cancel_token_req (d : cmd_dispatcher) (req_hdl : option Z) :
    rtw_phl_status * cmd_dispatcher :=
  match req_hdl with
  | None => (RTW_PHL_STATUS_UNEXPECTED_ERROR, d)
  | Some hdl =>
      if negb (d_test d DISPR_STARTED) then (RTW_PHL_STATUS_UNEXPECTED_ERROR, d)
      else if req_hdl_invalid hdl then (RTW_PHL_STATUS_FAILURE, d)
      else
        let k := Z.to_nat (GET_IDX_FROM_HDL hdl) in
        if negb (rx_test d k REQ_STATUS_ENQ) && negb (rx_test d k REQ_STATUS_RUN) &&
           negb (rx_test d k REQ_STATUS_PREPARE)
        then (RTW_PHL_STATUS_FAILURE, d)
        else
          let d := upd_rx (rx_set_flag REQ_STATUS_CANCEL) k d in
          match dispr_enqueue_token_op_info d (OpFree k) TOKEN_OP_CANCEL_CMD_REQ
                  (rx_idx (rx d k)) with
          | (true, d) => (RTW_PHL_STATUS_SUCCESS, d)
          | (false, d) => (RTW_PHL_STATUS_FAILURE, d)
          end
  end.

Definition dispr_free_token (d : cmd_dispatcher) (req_hdl : option Z) :
    rtw_phl_status * cmd_dispatcher :=
  match req_hdl with
  | None => (RTW_PHL_STATUS_UNEXPECTED_ERROR, d)
  | Some hdl =>
      if negb (d_test d DISPR_STARTED) then (RTW_PHL_STATUS_UNEXPECTED_ERROR, d)
      else if bool_decide (d_cur_cmd_req d = None) || (d_token_cnt d =? 0) || req_hdl_invalid hdl
      then (RTW_PHL_STATUS_FAILURE, d)
      else
        let k := Z.to_nat (GET_IDX_FROM_HDL hdl) in
        if negb (rx_test d k REQ_STATUS_RUN) && negb (rx_test d k REQ_STATUS_PREPARE)
        then (RTW_PHL_STATUS_FAILURE, d)
        else
          let d := upd_rx (rx_set_flag REQ_STATUS_CANCEL) k d in
          match dispr_enqueue_token_op_info d (OpFree k) TOKEN_OP_FREE_CMD_REQ
                  (rx_idx (rx d k)) with
          | (true, d) => (RTW_PHL_STATUS_SUCCESS, d)
          | (false, d) => (RTW_PHL_STATUS_FAILURE, d)
          end
  end.

(** ** Device I/O status and stop notifications *)

(** A message with the given sender and event and a zeroed attribute; its
    completion pointer is [NULL], so the continuation is never used. *)
Definition bk_msg (mdl evt : Z) : phl_msg :=
  set_msg_id (SET_MSG_EVT_ID_FIELD (SET_MSG_MDL_ID_FIELD 0 mdl) evt) zero_msg.

Definition send_bk_msg_phy_on (K : kont) (d : cmd_dispatcher) : cmd_dispatcher :=
  snd (dispr_send_msg K d (bk_msg PHL_MDL_POWER_MGNT MSG_EVT_PHY_ON) (Some zero_attr) None).

Definition send_bk_msg_phy_idle (K : kont) (d : cmd_dispatcher) : cmd_dispatcher :=
  snd (dispr_send_msg K d (bk_msg PHL_MDL_POWER_MGNT MSG_EVT_PHY_IDLE) (Some zero_attr) None).

Definition send_dev_io_status_change (K : kont) (d : cmd_dispatcher) (allow_io : bool) :
    rtw_phl_status * cmd_dispatcher :=
  let event := if allow_io then MSG_EVT_DEV_RESUME_IO else MSG_EVT_DEV_CANNOT_IO in
  let '(sts, _, d) := dispr_send_msg K d (bk_msg PHL_MDL_PHY_MGNT event) (Some zero_attr) None in
  (sts, d).

Definition dispr_notify_dev_io_status (K : kont) (d : cmd_dispatcher) (mdl_id : Z)
    (allow_io : bool) : rtw_phl_status * cmd_dispatcher :=
  if negb allow_io then
    if negb (d_test d DISPR_CANNOT_IO) then
      let d := d_set_flag DISPR_CANNOT_IO d in
      let d := set_d_exclusive_mdl mdl_id d in
      send_dev_io_status_change K d allow_io
    else (RTW_PHL_STATUS_SUCCESS, d)
  else
    if d_test d DISPR_CANNOT_IO then
      let d := d_clear_flag DISPR_CANNOT_IO d in
      let d := set_d_exclusive_mdl PHL_MDL_ID_MAX d in
      let '(status, d) := send_dev_io_status_change K d allow_io in
      (status, dispr_clr_pending_msg d)
    else (RTW_PHL_STATUS_SUCCESS, d).

Definition dispr_notify_shall_stop (d : cmd_dispatcher) : cmd_dispatcher :=
  if negb (d_test d DISPR_SHALL_STOP)
  then dispr_clr_pending_msg (d_set_flag DISPR_SHALL_STOP d) else d.

(** ** Queries *)

Definition dispr_is_fg_empty (d : cmd_dispatcher) : bool :=
  if pq_nonempty (d_token_req_wait_q d) then false
  else if bool_decide (is_Some (pq_get_front (d_token_op_q d))) || (0 <? d_token_cnt d)
  then false
  else true.

Definition dispr_get_cur_cmd_req (d : cmd_dispatcher) : rtw_phl_status * option nat :=
  if negb (d_test d (Z.lor DISPR_INIT DISPR_STARTED))
  then (RTW_PHL_STATUS_UNEXPECTED_ERROR, None)
  else
    match d_cur_cmd_req d with
    | None => (RTW_PHL_STATUS_FAILURE, None)
    | Some k =>
        if negb (rx_test d k REQ_STATUS_RUN) || rx_test d k REQ_STATUS_CANCEL
        then (RTW_PHL_STATUS_FAILURE, None)
        else (RTW_PHL_STATUS_SUCCESS, Some k)
    end.

(** ** The environment's calls *)

(** Every call of the environment, with its nested completion routine. *)
Fixpoint exec_call (c : api_call) (d : cmd_dispatcher) {struct c} : cmd_dispatcher :=
  match c with
  | ASend msg attr msg_hdl nested =>
      snd (dispr_send_msg
             (fun ev d => foldl (fun d c => exec_call c d) (log ev d) nested)
             d msg attr msg_hdl)
  | ACancelMsg msg_hdl => snd (dispr_cancel_msg d msg_hdl)
  | AClrPendingMsg => dispr_clr_pending_msg d
  | AAddTokenReq req req_hdl => snd (dispr_add_token_req d req req_hdl)
  | ACancelTokenReq req_hdl => snd (dispr_cancel_token_req d req_hdl)
  | AFreeToken req_hdl => snd (dispr_free_token d req_hdl)
  | ANotifyDevIo mdl_id allow_io =>
      snd (dispr_notify_dev_io_status (fun _ d => d) d mdl_id allow_io)
  | ANotifyShallStop => dispr_notify_shall_stop d
  end.

Definition exec_calls (l : list api_call) (d : cmd_dispatcher) : cmd_dispatcher :=
  foldl (fun d c => exec_call c d) d l.

(** A call through a function pointer: logged, then the next response of the
    environment; without one the callee returns success and does nothing. *)
Definition callback (ev : event) (d : cmd_dispatcher) : phl_mdl_ret_code * cmd_dispatcher :=
  let d := log ev d in
  match d_env d with
  | [] => (MDL_RET_SUCCESS, d)
  | r :: env => (cb_ret r, exec_calls (cb_calls r) (set_d_env env d))
  end.

Definition cbk : kont := fun ev d => snd (callback ev d).
