(* ===== verification/DispThread.v ===== *)
(** * The dispatcher's background thread and module management
    (src/phl/phl_cmd_dispatcher.c)

    Message dispatch through the module priorities, the token state machine,
    the loop and leave handlers of the thread, and the start/stop and
    registration functions.  Everything here may call modules and requests,
    through [callback].  While a handler runs, modules are neither registered
    nor deregistered, so walking a module queue by [pq_get_front] and
    [pq_get_next] is walking its list. *)

From S2P Require Import Prelude PhlQueue PhlDef DispState DispApi.

(** ** Message dispatch *)

Definition STOP_DISPATCH_MSG (ret : phl_mdl_ret_code) : bool :=
  negb (bool_decide (ret = MDL_RET_SUCCESS)) && negb (bool_decide (ret = MDL_RET_IGNORE)).

Definition is_special_msg (d : cmd_dispatcher) (i : nat) : bool :=
  let mdl_id := MSG_MDL_ID_FIELD (mxid d i) in
  let evt := MSG_EVT_ID_FIELD (mxid d i) in
  d_test d DISPR_CANNOT_IO &&
  (IS_EXCL_MDL d mdl_id || (evt =? MSG_EVT_DEV_CANNOT_IO) || (evt =? MSG_EVT_DEV_RESUME_IO) ||
   (evt =? MSG_EVT_PHY_ON) || (evt =? MSG_EVT_PHY_IDLE)).

Definition set_indc (indc : Z) (i : nat) (d : cmd_dispatcher) : cmd_dispatcher :=
  upd_mx (mx_map_id (fun id => SET_MSG_INDC_FIELD id indc)) i d.

Definition is_msg_canceled (d : cmd_dispatcher) (i : nat) : bool * cmd_dispatcher :=
  let pending_evt := GET_CUR_PENDING_EVT d (MSG_MDL_ID_FIELD (mxid d i)) in
  if negb (d_test d DISPR_STARTED) || mx_test d i MSG_STATUS_CANCEL then (true, d)
  else if negb (pending_evt =? MSG_EVT_MAX) &&
          negb (pending_evt =? MSG_EVT_ID_FIELD (mxid d i))
  then (true, upd_mx (mx_set_flag MSG_STATUS_CANCEL) i d)
  else if d_test d DISPR_SHALL_STOP
  then (true, upd_mx (mx_set_flag MSG_STATUS_CANCEL) i (set_indc MSG_INDC_CANNOT_IO i d))
  else if d_test d DISPR_CANNOT_IO then
    if is_special_msg d i then (false, set_indc MSG_INDC_CANNOT_IO i d)
    else if negb (mx_test d i MSG_STATUS_PENDING_DURING_CANNOT_IO)
    then (true, set_indc MSG_INDC_CANNOT_IO i (upd_mx (mx_set_flag MSG_STATUS_CANCEL) i d))
    else (false, upd_mx (mx_set_flag MSG_STATUS_PENDING) i d)
  else (false, d).

(** Which map the message is in ([true] for [premap]); the pre-phase
    indicator of the message follows. *)
Definition get_msg_bitmap (d : cmd_dispatcher) (i : nat) : bool * cmd_dispatcher :=
  if mx_test d i MSG_STATUS_PRE_PHASE
  then (true, set_indc MSG_INDC_PRE_PHASE i d)
  else (false, upd_mx (mx_map_id (fun id => CLEAR_MSG_INDC_FIELD id MSG_INDC_PRE_PHASE)) i d).

Definition msg_map (d : cmd_dispatcher) (i : nat) (pre : bool) : list Z :=
  if pre then mx_premap (mx d i) else mx_postmap (mx d i).

Definition cur_req_hdl (d : cmd_dispatcher) (i : nat) : cmd_dispatcher :=
  match d_cur_cmd_req d with
  | None => d
  | Some k =>
      if negb (rx_test d k REQ_STATUS_RUN) || rx_test d k REQ_STATUS_CANCEL then d
      else if mx_test d i MSG_STATUS_FOR_ABORT then d
      else snd (callback (EvReqMsg k (mxid d i)) d)
  end.

(** [ex->module] is dereferenced only under the flag that says it is set. *)
Definition notify_msg_fail (d : cmd_dispatcher) (i : nat) (ret : phl_mdl_ret_code) :
    cmd_dispatcher :=
  let d := upd_mx (mx_set_flag MSG_STATUS_FAIL) i d in
  let d := set_indc MSG_INDC_FAIL i d in
  let d := if bool_decide (ret = MDL_RET_CANNOT_IO) then set_indc MSG_INDC_CANNOT_IO i d else d in
  let d :=
    if mx_test d i MSG_STATUS_OWNER_BK_MDL then
      let m := default RefCtrl (mx_module (mx d i)) in
      if IS_DISPR_CTRL (MSG_MDL_ID_FIELD (mxid d i)) ||
         z_true (obj_chk_bitmap d (bm_id (get_bk d m)))
      then snd (callback (EvMdlMsg m (mxid d i)) (raise_ub (dangling d m) d))
      else raise_ub (dangling d m) d
    else d in
  if mx_test d i MSG_STATUS_OWNER_REQ then cur_req_hdl d i else d.

Definition mdl_addr (m : mdl_ref) : Z :=
  match m with RefCtrl => 1 | RefMdl h => Z.of_nat h + 2 end.

Definition feed_mdl_msg (d : cmd_dispatcher) (mdl : mdl_ref) (i : nat) :
    phl_mdl_ret_code * cmd_dispatcher :=
  let d := raise_ub (dangling d mdl) d in
  let '(ret, d) := callback (EvMdlMsg mdl (mxid d i)) d in
  let d :=
    match ret with
    | MDL_RET_FAIL | MDL_RET_CANNOT_IO =>
        let d := upd_mx (fun m => set_mx_msg (set_rsvd0 (mdl_addr mdl) (mx_msg m)) m) i d in
        notify_msg_fail d i ret
    | MDL_RET_PENDING => upd_mx (mx_set_flag MSG_STATUS_PENDING) i d
    | _ =>
        let id := bm_id (get_bk d mdl) in
        if z_true (Z.land (MSG_INDC_FIELD (mxid d i)) MSG_INDC_PRE_PHASE)
        then upd_mx (fun m => set_mx_premap (_clr_bitmap_bit (mx_premap m) [id]) m) i d
        else upd_mx (fun m => set_mx_postmap (_clr_bitmap_bit (mx_postmap m) [id]) m) i d
    end in
  (ret, d).

(** The inner [do .. while] over one module queue. *)
Fixpoint feed_queue (pre : bool) (i : nat) (l : list nat) (d : cmd_dispatcher) :
    bool * cmd_dispatcher :=
  match l with
  | [] => (false, d)
  | h :: l =>
      let m := RefMdl h in
      let d := raise_ub (dangling d m) d in
      if negb (z_true (_chk_bitmap_bit (msg_map d i pre) (bm_id (get_bk d m)))) ||
         negb (TEST_STATUS_FLAG (bm_status (get_bk d m)) MDL_STARTED)
      then feed_queue pre i l d
      else
        let '(ret, d) := feed_mdl_msg d m i in
        if STOP_DISPATCH_MSG ret then (true, d) else feed_queue pre i l d
  end.

(** One turn of the priority loop: the sender first, then the queue. *)
Definition feed_priority (pre : bool) (i : nat) (owner : option mdl_ref)
    (owner_id priority p : Z) (d : cmd_dispatcher) : bool * cmd_dispatcher :=
  let '(stop, d) :=
    if (priority =? p) && z_true (_chk_bitmap_bit (msg_map d i pre) owner_id) then
      let '(ret, d) := feed_mdl_msg d (default RefCtrl owner) i in
      (STOP_DISPATCH_MSG ret, d)
    else (false, d) in
  if stop then (true, d)
  else
    let q := nth (Z.to_nat p) (d_module_q d) pq_init in
    let l := if pq_nonempty q then q_queue q else [] in
    feed_queue pre i (if pre then l else rev l) d.

Fixpoint feed_priorities (pre : bool) (i : nat) (owner : option mdl_ref)
    (owner_id priority : Z) (ps : list Z) (d : cmd_dispatcher) : cmd_dispatcher :=
  match ps with
  | [] => d
  | p :: ps =>
      match feed_priority pre i owner owner_id priority p d with
      | (true, d) => d
      | (false, d) => feed_priorities pre i owner owner_id priority ps d
      end
  end.

(** Common to the two phase handlers: the sender and its priority. *)
Definition phase_hdl (pre : bool) (ps : list Z) (d : cmd_dispatcher) (i : nat) : cmd_dispatcher :=
  let owner := mx_module (mx d i) in
  let d := raise_ub (match owner with Some m => dangling d m | None => false end) d in
  let owner_id := match owner with Some m => bm_id (get_bk d m) | None => PHL_MDL_ID_MAX end in
  let priority := if owner_id <=? PHL_BK_MDL_END then _get_mdl_priority owner_id
                  else PHL_MDL_PRI_MAX in
  feed_priorities pre i owner owner_id priority ps d.

Definition msg_pre_phase_hdl (d : cmd_dispatcher) (i : nat) : cmd_dispatcher :=
  phase_hdl true [PHL_MDL_PRI_MANDATORY; PHL_MDL_PRI_OPTIONAL; PHL_MDL_PRI_ROLE] d i.

Definition msg_post_phase_hdl (d : cmd_dispatcher) (i : nat) : cmd_dispatcher :=
  phase_hdl false [PHL_MDL_PRI_ROLE; PHL_MDL_PRI_OPTIONAL; PHL_MDL_PRI_MANDATORY] d i.

Definition _notify_dispr_controller (d : cmd_dispatcher) (i : nat) : cmd_dispatcher :=
  if negb (d_test d DISPR_CTRL_PRESENT) then d else snd (feed_mdl_msg d RefCtrl i).

(** [MSG_REDIRECT_CHK]. *)
Inductive redirect := RecycleMsg | RescheduleMsg | ContinueMsg.

Definition MSG_REDIRECT_CHK (d : cmd_dispatcher) (i : nat) : redirect :=
  if mx_test d i MSG_STATUS_FAIL || mx_test d i MSG_STATUS_CANCEL then RecycleMsg
  else if mx_test d i MSG_STATUS_PENDING then RescheduleMsg
  else ContinueMsg.

Definition recycle (d : cmd_dispatcher) (i : nat) : cmd_dispatcher := push_back_idle_msg cbk d i.

Definition reschedule (d : cmd_dispatcher) (i : nat) : cmd_dispatcher :=
  if mx_test d i MSG_STATUS_PENDING then push_back_pending_msg d i else push_back_wait_msg d i.

Definition redirect_or (d : cmd_dispatcher) (i : nat) (k : cmd_dispatcher -> cmd_dispatcher) :
    cmd_dispatcher :=
  match MSG_REDIRECT_CHK d i with
  | RecycleMsg => recycle d i
  | RescheduleMsg => reschedule d i
  | ContinueMsg => k d
  end.

Definition msg_dispatch (d : cmd_dispatcher) (i : nat) : cmd_dispatcher :=
  let '(pre, d) := get_msg_bitmap d i in
  redirect_or d i (fun d =>
  let d := _notify_dispr_controller d i in
  redirect_or d i (fun d =>
  let d := if z_true (Z.land (MSG_INDC_FIELD (mxid d i)) MSG_INDC_PRE_PHASE) &&
              negb (_is_bitmap_empty (msg_map d i pre))
           then msg_pre_phase_hdl d i else d in
  redirect_or d i (fun d =>
  if _is_bitmap_empty (msg_map d i pre) then
    let d := upd_mx (mx_clear_flag MSG_STATUS_PRE_PHASE) i d in
    let '(pre, d) := get_msg_bitmap d i in
    let d := if negb (_is_bitmap_empty (msg_map d i pre)) then msg_post_phase_hdl d i else d in
    redirect_or d i (fun d =>
    if _is_bitmap_empty (msg_map d i pre)
    then recycle (cur_req_hdl d i) i
    else recycle (upd_mx (mx_set_flag MSG_STATUS_CANCEL) i d) i)
  else recycle (upd_mx (mx_set_flag MSG_STATUS_CANCEL) i d) i))).

(** ** Command requests *)

(** One iteration of the [for] over the message pool in
    [deregister_cur_cmd_req]. *)
Definition cancel_req_msg (module_id : Z) (d : cmd_dispatcher) (i : nat) : cmd_dispatcher :=
  if negb (module_id =? MSG_MDL_ID_FIELD (mxid d i)) then d
  else
    let d := upd_mx (mx_clear_flag MSG_STATUS_OWNER_REQ) i d in
    let d := cancel_msg d i in
    if mx_test d i MSG_STATUS_PENDING
    then clear_pending_msg (dispr_clr_pending_msg d) else d.

Definition deregister_cur_cmd_req (d : cmd_dispatcher) (notify : bool) : cmd_dispatcher :=
  match d_cur_cmd_req d with
  | None => d
  | Some k =>
      let module_id := req_module_id (rx_req (rx d k)) in
      let d := upd_rx (rx_clear_flag REQ_STATUS_RUN) k d in
      let d := foldl (cancel_req_msg module_id) d (seq 0 MAX_PHL_MSG_NUM) in
      let d :=
        if notify then
          let d := upd_rx (rx_set_flag REQ_STATUS_LAST_PERMIT) k d in
          let d := snd (callback (EvAbort k module_id) d) in
          upd_rx (rx_clear_flag REQ_STATUS_LAST_PERMIT) k d
        else d in
      let d := push_back_idle_req d k in
      let d := set_d_token_cnt (d_token_cnt d - 1) d in
      set_d_cur_cmd_req None d
  end.

Definition register_cur_cmd_req (d : cmd_dispatcher) (k : nat) : bool * cmd_dispatcher :=
  let d := upd_rx (rx_set_flag REQ_STATUS_RUN) k d in
  let d := upd_rx (rx_clear_flag REQ_STATUS_PREPARE) k d in
  let d := set_d_cur_cmd_req (Some k) d in
  let d := set_d_token_cnt (d_token_cnt d + 1) d in
  let '(ret, d) := callback (EvAcquired k (req_module_id (rx_req (rx d k)))) d in
  if bool_decide (ret = MDL_RET_FAIL)
  then (false, deregister_cur_cmd_req d false)
  else (true, d).

(** The [do .. while(!register_cur_cmd_req(..))] loop; a turn that repeats it
    has used up a waiting request. *)
Fixpoint dispr_process_token_req (fuel : nat) (d : cmd_dispatcher) :
    rtw_phl_status * cmd_dispatcher :=
  if negb (d_test d DISPR_STARTED) then (RTW_PHL_STATUS_UNEXPECTED_ERROR, d)
  else if d_test d DISPR_SHALL_STOP then (RTW_PHL_STATUS_FAILURE, d)
  else if 0 <? d_token_cnt d then (RTW_PHL_STATUS_FAILURE, d)
  else if d_test d DISPR_WAIT_ABORT_MSG_DONE then (RTW_PHL_STATUS_FAILURE, d)
  else
    match pop_front_wait_req d with
    | (None, d) =>
        if negb (d_test d DISPR_NOTIFY_IDLE)
        then (RTW_PHL_STATUS_SUCCESS, send_bk_msg_phy_idle cbk (d_set_flag DISPR_NOTIFY_IDLE d))
        else (RTW_PHL_STATUS_SUCCESS, d)
    | (Some k, d) =>
        let d := if d_test d DISPR_NOTIFY_IDLE
                 then send_bk_msg_phy_on cbk (d_clear_flag DISPR_NOTIFY_IDLE d) else d in
        match register_cur_cmd_req d k with
        | (true, d) => (RTW_PHL_STATUS_SUCCESS, d)
        | (false, d) =>
            match fuel with
            | O => (RTW_PHL_STATUS_SUCCESS, d)
            | S fuel => dispr_process_token_req fuel d
            end
        end
    end.

(** API calls still to come, nested ones included: the environment's budget,
    which bounds the loops that callbacks can prolong. *)
Fixpoint call_size (c : api_call) : nat :=
  match c with
  | ASend _ _ _ nested => S (foldr (fun c n => call_size c + n)%nat O nested)
  | _ => 1
  end.

Definition calls_size (l : list api_call) : nat := foldr (fun c n => call_size c + n)%nat O l.
Definition env_size (d : cmd_dispatcher) : nat :=
  foldr (fun r n => calls_size (cb_calls r) + n)%nat O (d_env d).

Definition req_fuel (d : cmd_dispatcher) : nat :=
  (length (q_queue (d_token_req_wait_q d)) + env_size d)%nat.

Definition process_token_req (d : cmd_dispatcher) : rtw_phl_status * cmd_dispatcher :=
  dispr_process_token_req (req_fuel d) d.

Definition _handle_token_op_info (d : cmd_dispatcher) (r : op_ref) : cmd_dispatcher :=
  let op := op_info_of d r in
  let k := Z.to_nat (op_data op) in
  match op_type op with
  | TOKEN_OP_NONE => d
  | TOKEN_OP_RENEW_CMD_REQ | TOKEN_OP_ADD_CMD_REQ => snd (process_token_req d)
  | TOKEN_OP_FREE_CMD_REQ =>
      if Z.of_nat MAX_CMD_REQ_NUM <=? op_data op then d
      else if negb (rx_test d k REQ_STATUS_RUN) then d
      else snd (process_token_req (deregister_cur_cmd_req d false))
  | TOKEN_OP_CANCEL_CMD_REQ =>
      if Z.of_nat MAX_CMD_REQ_NUM <=? op_data op then d
      else if rx_test d k REQ_STATUS_ENQ then
        let d := set_d_token_req_wait_q (pq_del_node (d_token_req_wait_q d) (Some k)) d in
        let d := snd (callback (EvAbort k (req_module_id (rx_req (rx d k)))) d) in
        push_back_idle_req d k
      else if rx_test d k REQ_STATUS_RUN
      then snd (process_token_req (deregister_cur_cmd_req d true))
      else d
  end.

Fixpoint token_op_hanler (fuel : nat) (d : cmd_dispatcher) : cmd_dispatcher :=
  match fuel with
  | O => d
  | S fuel =>
      match pop_front_token_op_info d with
      | (None, d) => d
      | (Some r, d) =>
          let d := _handle_token_op_info d r in
          let op := op_info_of d r in
          let d := set_op_info (mkOpInfo false (op_type op) (op_data op)) r d in
          token_op_hanler fuel d
      end
  end.

(** One operation per queued entry and per API call the handlers make. *)
Definition op_fuel (d : cmd_dispatcher) : nat :=
  S (length (q_queue (d_token_op_q d)) + env_size d).

(** ** The thread *)

Definition dispr_thread_loop_hdl (d : cmd_dispatcher) : cmd_dispatcher :=
  let d := clear_pending_msg d in
  let d := token_op_hanler (op_fuel d) d in
  match pop_front_wait_msg d with
  | (None, d) => d
  | (Some i, d) =>
      match is_msg_canceled d i with
      | (true, d) => push_back_idle_msg cbk d i
      | (false, d) =>
          let d := upd_mx (fun m => set_mx_premap (_and_bitmaps (d_bitmap d) (mx_premap m)) m) i d in
          let d := upd_mx (fun m => set_mx_postmap (_and_bitmaps (d_bitmap d) (mx_postmap m)) m) i d in
          msg_dispatch d i
      end
  end.

(** The two inner loops of [clear_waiting_msg]. *)
Fixpoint pend_to_wait (fuel : nat) (d : cmd_dispatcher) : cmd_dispatcher :=
  match fuel with
  | O => d
  | S fuel =>
      match pop_front_pending_msg d with
      | (None, d) => d
      | (Some i, d) => pend_to_wait fuel (push_back_wait_msg d i)
      end
  end.

Fixpoint wait_to_idle (fuel : nat) (d : cmd_dispatcher) : cmd_dispatcher :=
  match fuel with
  | O => d
  | S fuel =>
      match pop_front_wait_msg d with
      | (None, d) => d
      | (Some i, d) => wait_to_idle fuel (push_back_idle_msg cbk d i)
      end
  end.

(** [None] when the outer loop is still running after [fuel] turns. *)
Fixpoint clear_waiting_msg (fuel : nat) (d : cmd_dispatcher) : option cmd_dispatcher :=
  if q_cnt (d_msg_idle_q d) =? Z.of_nat MAX_PHL_MSG_NUM then Some d
  else
    match fuel with
    | O => None
    | S fuel =>
        let d := pend_to_wait (length (q_queue (d_msg_pend_q d))) d in
        let d := wait_to_idle (length (q_queue (d_msg_wait_q d)) + env_size d)%nat d in
        clear_waiting_msg fuel d
    end.

Fixpoint wait_req_to_idle (fuel : nat) (d : cmd_dispatcher) : cmd_dispatcher :=
  match fuel with
  | O => d
  | S fuel =>
      match pop_front_wait_req d with
      | (None, d) => d
      | (Some k, d) =>
          let d := snd (callback (EvAbort k (req_module_id (rx_req (rx d k)))) d) in
          wait_req_to_idle fuel (push_back_idle_req d k)
      end
  end.

Fixpoint clear_wating_req (fuel : nat) (d : cmd_dispatcher) : option cmd_dispatcher :=
  if q_cnt (d_token_req_idle_q d) =? Z.of_nat MAX_CMD_REQ_NUM then Some d
  else
    match fuel with
    | O => None
    | S fuel =>
        let d := wait_req_to_idle (length (q_queue (d_token_req_wait_q d)) + env_size d)%nat d in
        clear_wating_req fuel d
    end.

Definition dispr_thread_leave_hdl (fuel : nat) (d : cmd_dispatcher) : option cmd_dispatcher :=
  let d := deregister_cur_cmd_req d true in
  d ← clear_waiting_msg fuel d;
  clear_wating_req fuel d.

Definition cancel_all_cmd_req (d : cmd_dispatcher) : cmd_dispatcher :=
  foldl (fun d k => if z_true (rx_status (rx d k))
                    then upd_rx (rx_set_flag REQ_STATUS_CANCEL) k d else d)
    d (seq 0 MAX_CMD_REQ_NUM).

Definition cancel_running_msg (d : cmd_dispatcher) : cmd_dispatcher :=
  foldl (fun d i => if mx_test d i MSG_STATUS_RUN then cancel_msg d i else d)
    d (seq 0 MAX_PHL_MSG_NUM).
