(* ===== verification/DispModule.v ===== *)
(** * Life cycle of a dispatcher and of its background modules
    (src/phl/phl_cmd_dispatcher.c)

    Initialisation of the pools, start and stop of a dispatcher, registration
    of background modules and the information requests that go to a module or
    to the running command request.  Memory allocation can fail: the outcome of
    each [_os_mem_alloc] is an argument [alloc_ok]. *)

From S2P Require Import Prelude PhlQueue PhlDef DispState DispApi DispThread.

(** ** Pools *)

Definition init_dispr_msg_pool (d : cmd_dispatcher) : cmd_dispatcher :=
  if d_test d DISPR_MSGQ_INIT then d
  else
    let d := set_d_msg_idle_q pq_init d in
    let d := set_d_msg_wait_q pq_init d in
    let d := set_d_msg_pend_q pq_init d in
    let d := set_d_msg_ex_pool (replicate MAX_PHL_MSG_NUM zero_msg_ex) d in
    let d := foldl (fun d i => push_back_idle_msg cbk (upd_mx (set_mx_idx (Z.of_nat i)) i d) i)
               d (seq 0 MAX_PHL_MSG_NUM) in
    d_set_flag DISPR_MSGQ_INIT d.

Definition deinit_dispr_msg_pool (d : cmd_dispatcher) : cmd_dispatcher :=
  if negb (d_test d DISPR_MSGQ_INIT) then d else d_clear_flag DISPR_MSGQ_INIT d.

Definition init_cmd_req_pool (d : cmd_dispatcher) : cmd_dispatcher :=
  if d_test d DISPR_REQ_INIT then d
  else
    let d := set_d_token_req_wait_q pq_init d in
    let d := set_d_token_req_idle_q pq_init d in
    let d := set_d_token_op_q pq_init d in
    let d := set_d_token_req_ex_pool (replicate MAX_CMD_REQ_NUM zero_req_ex) d in
    let d := foldl (fun d k =>
                      let d := upd_rx (set_rx_idx (Z.of_nat k)) k d in
                      set_d_token_req_idle_q (pq_push (d_token_req_idle_q d) k _tail) d)
               d (seq 0 MAX_CMD_REQ_NUM) in
    d_set_flag DISPR_REQ_INIT d.

Definition deinit_cmd_req_pool (d : cmd_dispatcher) : cmd_dispatcher :=
  d_clear_flag DISPR_REQ_INIT d.

Definition init_dispr_mdl_mgnt_info (d : cmd_dispatcher) : cmd_dispatcher :=
  foldl (fun d i => SET_CUR_PENDING_EVT d (Z.of_nat i) MSG_EVT_MAX)
    d (seq 0 (Z.to_nat PHL_MDL_ID_MAX)).

(** ** One module *)

Definition bk_test (d : cmd_dispatcher) (m : mdl_ref) (flag : Z) : bool :=
  TEST_STATUS_FLAG (bm_status (get_bk d m)) flag.
Definition bk_set_flag (flag : Z) (b : phl_bk_module) : phl_bk_module :=
  set_bm_status (SET_STATUS_FLAG (bm_status b) flag) b.
Definition bk_clear_flag (flag : Z) (b : phl_bk_module) : phl_bk_module :=
  set_bm_status (CLEAR_STATUS_FLAG (bm_status b) flag) b.

Definition bk_module_init (d : cmd_dispatcher) (m : mdl_ref) : bool * cmd_dispatcher :=
  let d := raise_ub (dangling d m) d in
  if bk_test d m MDL_INIT then (false, d)
  else
    let '(ret, d) := callback (EvMdlInit m) d in
    if bool_decide (ret = MDL_RET_SUCCESS) then (true, upd_bk (bk_set_flag MDL_INIT) m d)
    else (false, d).

Definition bk_module_deinit (d : cmd_dispatcher) (m : mdl_ref) : cmd_dispatcher :=
  let d := raise_ub (dangling d m) d in
  let d := if bk_test d m MDL_INIT then snd (callback (EvMdlDeinit m) d) else d in
  upd_bk (bk_clear_flag MDL_INIT) m d.

Definition bk_module_start (d : cmd_dispatcher) (m : mdl_ref) : bool * cmd_dispatcher :=
  let d := raise_ub (dangling d m) d in
  if negb (bk_test d m MDL_INIT) || bk_test d m MDL_STARTED then (false, d)
  else
    let '(ret, d) := callback (EvMdlStart m) d in
    if bool_decide (ret = MDL_RET_SUCCESS) then (true, upd_bk (bk_set_flag MDL_STARTED) m d)
    else (false, d).

Definition bk_module_stop (d : cmd_dispatcher) (m : mdl_ref) : bool * cmd_dispatcher :=
  let d := raise_ub (dangling d m) d in
  if negb (bk_test d m MDL_STARTED) then (false, d)
  else
    let d := upd_bk (bk_clear_flag MDL_STARTED) m d in
    let '(ret, d) := callback (EvMdlStop m) d in
    (bool_decide (ret = MDL_RET_SUCCESS), d).

(** ** The controller *)

Definition all_ops : phl_bk_module_ops := mkOps true true true true true true true.

(** [dispr_ctrl_hook_ops] sets every pointer. *)
Definition _register_dispr_controller (d : cmd_dispatcher) : rtw_phl_status * cmd_dispatcher :=
  let d := upd_bk (set_bm_ops all_ops) RefCtrl d in
  let d := upd_bk (set_bm_id PHL_MDL_PHY_MGNT) RefCtrl d in
  let '(ok, d) := bk_module_init d RefCtrl in
  (if ok then RTW_PHL_STATUS_SUCCESS else RTW_PHL_STATUS_FAILURE, d).

Definition _deregister_dispr_controller (d : cmd_dispatcher) : cmd_dispatcher :=
  bk_module_deinit d RefCtrl.

Definition _start_dispr_controller (d : cmd_dispatcher) : rtw_phl_status * cmd_dispatcher :=
  let '(ok, d) := bk_module_start d RefCtrl in
  if ok then (RTW_PHL_STATUS_SUCCESS, d_set_flag DISPR_CTRL_PRESENT d)
  else (RTW_PHL_STATUS_FAILURE, d).

Definition _stop_dispr_controller (d : cmd_dispatcher) : rtw_phl_status * cmd_dispatcher :=
  let d := d_clear_flag DISPR_CTRL_PRESENT d in
  let '(ok, d) := bk_module_stop d RefCtrl in
  (if ok then RTW_PHL_STATUS_SUCCESS else RTW_PHL_STATUS_FAILURE, d).

(** ** Starting and stopping *)

(** The zeroed object [_os_mem_alloc] returns. *)
Definition zero_dispatcher : cmd_dispatcher :=
  mkDispr 0 0 [] ∅ 0 [] pq_init pq_init pq_init [] pq_init pq_init pq_init 0 None
    empty_map empty_map (replicate (Z.to_nat PHL_MDL_ID_MAX) 0) zero_bk_module zero_op_info 0
    0 [] [] false.

Definition dispr_init (env : list cb_resp) (idx : Z) (alloc_ok : bool) :
    rtw_phl_status * option cmd_dispatcher :=
  if negb alloc_ok then (RTW_PHL_STATUS_RESOURCE, None)
  else
    let d := set_d_env env zero_dispatcher in
    let d := set_d_idx idx d in
    let d := set_d_token_cnt 0 d in
    let d := set_d_module_q (replicate (Z.to_nat PHL_MDL_PRI_MAX) pq_init) d in
    let d := d_set_flag DISPR_INIT d in
    let d := d_set_flag DISPR_NOTIFY_IDLE d in
    let '(_, d) := _register_dispr_controller d in
    (RTW_PHL_STATUS_SUCCESS, Some d).

Definition dispr_start (d : cmd_dispatcher) : rtw_phl_status * cmd_dispatcher :=
  if d_test d DISPR_STARTED then (RTW_PHL_STATUS_UNEXPECTED_ERROR, d)
  else
    let d := init_dispr_msg_pool d in
    let d := init_cmd_req_pool d in
    let d := init_dispr_mdl_mgnt_info d in
    let d := set_d_renew_req_info zero_op_info d in
    let d := set_d_wake 0 d in
    let d := set_d_exclusive_mdl PHL_MDL_ID_MAX d in
    let d := d_set_flag DISPR_STARTED d in
    let '(_, d) := _start_dispr_controller d in
    (RTW_PHL_STATUS_SUCCESS, d).

Definition is_dispr_started (d : cmd_dispatcher) : bool := d_test d DISPR_STARTED.

Definition dispr_thread_stop_prior_hdl (d : cmd_dispatcher) : cmd_dispatcher :=
  let d := d_clear_flag DISPR_STARTED d in
  let '(_, d) := _stop_dispr_controller d in
  let d := cancel_all_cmd_req d in
  cancel_running_msg d.

Definition dispr_thread_stop_post_hdl (d : cmd_dispatcher) : cmd_dispatcher :=
  let d := deinit_dispr_msg_pool d in
  let d := deinit_cmd_req_pool d in
  let d := set_d_token_cnt 0 d in
  set_d_wake 0 d.

(** In the shared-thread mode that is built, [dispr_stop] itself stops no
    thread. *)
Definition dispr_stop (d : cmd_dispatcher) : rtw_phl_status * cmd_dispatcher :=
  if negb (d_test d DISPR_STARTED) then (RTW_PHL_STATUS_UNEXPECTED_ERROR, d)
  else (RTW_PHL_STATUS_SUCCESS,
        dispr_thread_stop_post_hdl (dispr_thread_stop_prior_hdl d)).

(** [None] is the freed object. *)
Definition dispr_deinit (d : cmd_dispatcher) : rtw_phl_status * option cmd_dispatcher :=
  if negb (d_test d DISPR_INIT) then (RTW_PHL_STATUS_SUCCESS, Some d)
  else
    let '(_, d) := dispr_stop d in
    let d := _deregister_dispr_controller d in
    (RTW_PHL_STATUS_SUCCESS, None).

(** ** Registering modules *)

Definition upd_module_q (f : phl_queue nat -> phl_queue nat) (p : Z) (d : cmd_dispatcher) :=
  set_d_module_q (alter f (Z.to_nat p) (d_module_q d)) d.

Definition module_q (d : cmd_dispatcher) (p : Z) : phl_queue nat :=
  nth (Z.to_nat p) (d_module_q d) pq_init.

Definition add_obj_bitmap (id : Z) (d : cmd_dispatcher) : cmd_dispatcher :=
  set_d_bitmap (_add_bitmap_bit (d_bitmap d) [id]) d.
Definition add_obj_basemap (id : Z) (d : cmd_dispatcher) : cmd_dispatcher :=
  set_d_basemap (_add_bitmap_bit (d_basemap d) [id]) d.
Definition clr_obj_maps (id : Z) (d : cmd_dispatcher) : cmd_dispatcher :=
  set_d_basemap (_clr_bitmap_bit (d_basemap d) [id])
    (set_d_bitmap (_clr_bitmap_bit (d_bitmap d) [id]) d).

(** [_chk_bitmap_bit(obj->bitmap, id) == true] compares the masked byte with
    1. *)
Definition dispr_register_module (d : cmd_dispatcher) (id : Z)
    (ops : option phl_bk_module_ops) (alloc_ok : bool) : rtw_phl_status * cmd_dispatcher :=
  let priority := _get_mdl_priority id in
  if negb (d_test d DISPR_INIT) || (priority =? PHL_MDL_PRI_MAX) ||
     negb (chk_module_ops ops) || (obj_chk_bitmap d id =? 1)
  then (RTW_PHL_STATUS_FAILURE, d)
  else if negb alloc_ok then (RTW_PHL_STATUS_FAILURE, d)
  else
    let h := d_next d in
    let m := RefMdl h in
    let d := set_d_next (S h) d in
    let d := set_d_heap (<[h := mkBkModule 0 id (default zero_ops ops)]> (d_heap d)) d in
    let d := upd_module_q (fun q => pq_push q h _tail) priority d in
    let '(ret, d) := bk_module_init d m in
    let '(ret, d) :=
      if ret && d_test d DISPR_STARTED then
        let '(ret, d) := bk_module_start d m in
        let d := if ret then add_obj_bitmap id d else d in
        let d := if ret && negb (priority =? PHL_MDL_PRI_OPTIONAL)
                 then add_obj_basemap id d else d in
        (ret, d)
      else (ret, d) in
    if ret then (RTW_PHL_STATUS_SUCCESS, d)
    else
      let d := bk_module_deinit d m in
      (RTW_PHL_STATUS_FAILURE, set_d_heap (delete h (d_heap d)) d).

Definition dispr_deregister_module (d : cmd_dispatcher) (id : Z) :
    rtw_phl_status * cmd_dispatcher :=
  let priority := _get_mdl_priority id in
  if negb (d_test d DISPR_INIT) || (priority =? PHL_MDL_PRI_MAX)
  then (RTW_PHL_STATUS_FAILURE, d)
  else
    let q := module_q d priority in
    let d := raise_ub (pq_nonempty q && visits_dangling d id (q_queue q)) d in
    match pq_search_node q true (Some (search_mdl d id)) with
    | (Some h, q') =>
        let d := upd_module_q (fun _ => q') priority d in
        let d := clr_obj_maps (bm_id (get_bk d (RefMdl h))) d in
        let '(_, d) := bk_module_stop d (RefMdl h) in
        let d := bk_module_deinit d (RefMdl h) in
        (RTW_PHL_STATUS_SUCCESS, set_d_heap (delete h (d_heap d)) d)
    | (None, _) => (RTW_PHL_STATUS_FAILURE, d)
    end.

(** Walks of all module queues, lowest priority index first. *)
Definition all_modules (d : cmd_dispatcher) : list (Z * nat) :=
  concat (imap (fun p q => map (fun h => (Z.of_nat p, h)) (if pq_nonempty q then q_queue q else []))
            (d_module_q d)).

Definition dispr_module_init (d : cmd_dispatcher) : rtw_phl_status * cmd_dispatcher :=
  if negb (d_test d DISPR_INIT) then (RTW_PHL_STATUS_FAILURE, d)
  else (RTW_PHL_STATUS_SUCCESS,
        foldl (fun d '(_, h) => snd (bk_module_init d (RefMdl h))) d (all_modules d)).

(** The [while (pq_pop(..))] loops empty every queue. *)
Definition dispr_module_deinit (d : cmd_dispatcher) : rtw_phl_status * cmd_dispatcher :=
  if negb (d_test d DISPR_INIT) then (RTW_PHL_STATUS_FAILURE, d)
  else
    (RTW_PHL_STATUS_SUCCESS,
     foldl (fun d '(p, h) =>
              let d := upd_module_q (fun q => snd (pq_pop q _first)) p d in
              let d := bk_module_deinit d (RefMdl h) in
              set_d_heap (delete h (d_heap d)) d)
       d (all_modules d)).

Definition dispr_module_start (d : cmd_dispatcher) : rtw_phl_status * cmd_dispatcher :=
  if negb (d_test d DISPR_STARTED) then (RTW_PHL_STATUS_UNEXPECTED_ERROR, d)
  else
    (RTW_PHL_STATUS_SUCCESS,
     foldl (fun d '(p, h) =>
              let '(ret, d) := bk_module_start d (RefMdl h) in
              let id := bm_id (get_bk d (RefMdl h)) in
              let d := if ret then add_obj_bitmap id d else d in
              if ret && negb (p =? PHL_MDL_PRI_OPTIONAL) then add_obj_basemap id d else d)
       d (all_modules d)).

Definition dispr_module_stop (d : cmd_dispatcher) : rtw_phl_status * cmd_dispatcher :=
  if negb (d_test d DISPR_STARTED) then (RTW_PHL_STATUS_UNEXPECTED_ERROR, d)
  else
    (RTW_PHL_STATUS_SUCCESS,
     foldl (fun d '(_, h) =>
              let d := clr_obj_maps (bm_id (get_bk d (RefMdl h))) d in
              snd (bk_module_stop d (RefMdl h)))
       d (all_modules d)).

(** ** Information requests *)

Definition sts_of_ret (ret : phl_mdl_ret_code) : rtw_phl_status :=
  if bool_decide (ret = MDL_RET_SUCCESS) then RTW_PHL_STATUS_SUCCESS else RTW_PHL_STATUS_FAILURE.

Definition dispr_set_cur_cmd_info (d : cmd_dispatcher) : rtw_phl_status * cmd_dispatcher :=
  match dispr_get_cur_cmd_req d with
  | (RTW_PHL_STATUS_SUCCESS, Some k) =>
      let '(ret, d) := callback (EvReqInfo k) d in (sts_of_ret ret, d)
  | _ => (RTW_PHL_STATUS_FAILURE, d)
  end.

Definition dispr_query_cur_cmd_info (d : cmd_dispatcher) : rtw_phl_status * cmd_dispatcher :=
  match dispr_get_cur_cmd_req d with
  | (RTW_PHL_STATUS_SUCCESS, Some k) =>
      let '(ret, d) := callback (EvReqInfo k) d in (sts_of_ret ret, d)
  | _ => (RTW_PHL_STATUS_FAILURE, d)
  end.

Definition dispr_get_bk_module_handle (d : cmd_dispatcher) (id : Z) :
    rtw_phl_status * option nat * cmd_dispatcher :=
  let priority := _get_mdl_priority id in
  if negb (d_test d DISPR_INIT) || (priority =? PHL_MDL_PRI_MAX) ||
     negb (z_true (obj_chk_bitmap d id))
  then (RTW_PHL_STATUS_FAILURE, None, d)
  else
    let q := module_q d priority in
    let d := raise_ub (pq_nonempty q && visits_dangling d id (q_queue q)) d in
    match fst (pq_search_node q false (Some (search_mdl d id))) with
    | Some h => (RTW_PHL_STATUS_SUCCESS, Some h, d)
    | None => (RTW_PHL_STATUS_FAILURE, None, d)
    end.

Definition dispr_set_bk_module_info (d : cmd_dispatcher) (h : nat) :
    rtw_phl_status * cmd_dispatcher :=
  let d := raise_ub (dangling d (RefMdl h)) d in
  if negb (bk_test d (RefMdl h) MDL_INIT) then (RTW_PHL_STATUS_FAILURE, d)
  else let '(ret, d) := callback (EvMdlInfo (RefMdl h)) d in (sts_of_ret ret, d).

Definition dispr_query_bk_module_info (d : cmd_dispatcher) (h : nat) :
    rtw_phl_status * cmd_dispatcher :=
  let d := raise_ub (dangling d (RefMdl h)) d in
  if negb (bk_test d (RefMdl h) MDL_INIT) then (RTW_PHL_STATUS_FAILURE, d)
  else let '(ret, d) := callback (EvMdlInfo (RefMdl h)) d in (sts_of_ret ret, d).

(** The source of message [i]: the running request or the background module
    that sent it.  [msg] is the one the dispatcher handed out, so [i] is its
    descriptor. *)
Definition src_info (d : cmd_dispatcher) (i : nat) : rtw_phl_status * cmd_dispatcher :=
  let id := MSG_MDL_ID_FIELD (mxid d i) in
  let cur_req_id := fst (get_cur_cmd_req_id d) in
  if negb (d_test d DISPR_INIT) ||
     (negb (z_true (obj_chk_bitmap d id)) && negb (cur_req_id =? id))
  then (RTW_PHL_STATUS_FAILURE, d)
  else
    let '(ret, d) :=
      if cur_req_id =? id then
        match d_cur_cmd_req d with
        | Some k => callback (EvReqInfo k) d
        | None => (MDL_RET_FAIL, raise_ub true d)
        end
      else if mx_test d i MSG_STATUS_OWNER_BK_MDL then
        let m := default RefCtrl (mx_module (mx d i)) in
        callback (EvMdlInfo m) (raise_ub (dangling d m) d)
      else (MDL_RET_FAIL, d) in
    (if bool_decide (ret = MDL_RET_FAIL) then RTW_PHL_STATUS_FAILURE
     else RTW_PHL_STATUS_SUCCESS, d).

Definition dispr_set_src_info (d : cmd_dispatcher) (i : nat) := src_info d i.
Definition dispr_query_src_info (d : cmd_dispatcher) (i : nat) := src_info d i.

(** [NULL] is [None]. *)
Definition disp_query_mdl_id (d : cmd_dispatcher) (bk_mdl : option mdl_ref) : Z * cmd_dispatcher :=
  match bk_mdl with
  | Some m => (bm_id (get_bk d m), raise_ub (dangling d m) d)
  | None => (PHL_MDL_ID_MAX, d)
  end.
