(* ===== verification/DispSample.v ===== *)
(** * Concrete dispatchers

    The states at which theorems and findings are evaluated. *)

From S2P Require Import Prelude PhlQueue PhlDef DispState DispApi DispThread DispModule.

(** Initialised, started, with role module 10, mandatory module 41 and
    optional module 71 registered. *)
Definition booted : cmd_dispatcher :=
  match dispr_init [] 0 true with (_, Some d) => d | _ => zero_dispatcher end.
Definition started : cmd_dispatcher := snd (dispr_start booted).
Definition with_modules : cmd_dispatcher :=
  foldl (fun d id => snd (dispr_register_module d id (Some all_ops) true)) started [10; 41; 71].

(** A message of module [mdl] and what [dispr_send_msg] makes of it. *)
Definition sample_msg (mdl evt : Z) : phl_msg := bk_msg mdl evt.
Definition sample_call (mdl evt : Z) : api_call := ASend (sample_msg mdl evt) None (Some 0) [].
Definition with_msg : cmd_dispatcher := exec_call (sample_call 10 100) with_modules.

Definition sample_req (id : Z) : phl_cmd_token_req := mkReq id 0 0 true true true true true.

(** Two requests were added and the thread ran once: the first one runs. *)
Definition with_req : cmd_dispatcher :=
  let d := exec_call (AAddTokenReq (Some (sample_req 130)) (Some 0)) started in
  let d := exec_call (AAddTokenReq (Some (sample_req 131)) (Some 0)) d in
  dispr_thread_loop_hdl (set_d_wake (d_wake d - 1) d).

(** The controller asked for the message to wait, and then for it to go on. *)
Definition with_pending : cmd_dispatcher :=
  let d := set_d_env [mkResp MDL_RET_PENDING []] with_msg in
  exec_call AClrPendingMsg (dispr_thread_loop_hdl (set_d_wake (d_wake d - 1) d)).
