(* ===== verification/DispInv.v ===== *)
(** * Invariants of the dispatcher's pools and queues

    The 24 message descriptors are always split between the idle, the waiting
    and the pending queue and the descriptors some function currently holds;
    the 8 request descriptors between the idle and the waiting queue, the
    running request and those held.  This file states the two invariants over
    the fields they read, shows that each pool operation moves a descriptor the
    way its name says, and defines [ApiInv], the interface through which the
    rest of the development knows that calls made by modules, requests and
    other threads cannot break an invariant. *)

From S2P Require Import Prelude PhlQueue PhlDef DispState DispApi.

(** ** Pool elements *)

Section pools.
Context (d : cmd_dispatcher).

Lemma mx_upd f i j :
  mx (upd_mx f i d) j =
  if decide (i = j /\ (j < length (d_msg_ex_pool d))%nat) then f (mx d j) else mx d j.
Proof.
  unfold mx, upd_mx. simpl. rewrite nth_alter.
  destruct (decide (i = j)) as [->|], (decide (j < length (d_msg_ex_pool d))%nat);
    [rewrite decide_True by done|rewrite decide_False by naive_solver..]; try done.
  by rewrite nth_overflow by lia.
Qed.

Lemma rx_upd f i j :
  rx (upd_rx f i d) j =
  if decide (i = j /\ (j < length (d_token_req_ex_pool d))%nat) then f (rx d j) else rx d j.
Proof.
  unfold rx, upd_rx. simpl. rewrite nth_alter.
  destruct (decide (i = j)) as [->|], (decide (j < length (d_token_req_ex_pool d))%nat);
    [rewrite decide_True by done|rewrite decide_False by naive_solver..]; try done.
  by rewrite nth_overflow by lia.
Qed.
End pools.

(** ** Messages *)

Definition enq_bits (m : phl_dispr_msg_ex) : Prop :=
  Z.testbit (mx_status m) 0 = true /\ Z.testbit (mx_status m) 1 = false.
Definition idle_bits (m : phl_dispr_msg_ex) : Prop :=
  mx_status m = 0 /\ msg_id (mx_msg m) = 0.

Abbreviation pm pool i := (nth i pool zero_msg_ex).

Record msg_ok (held : list nat) (pool : list phl_dispr_msg_ex)
    (idle wait pend : phl_queue nat) : Prop := {
  mo_split : pool_split MAX_PHL_MSG_NUM [q_queue idle; q_queue wait; q_queue pend; held];
  mo_idle_wf : pq_wf idle;
  mo_wait_wf : pq_wf wait;
  mo_pend_wf : pq_wf pend;
  mo_len : length pool = MAX_PHL_MSG_NUM;
  mo_idx : forall i, (i < MAX_PHL_MSG_NUM)%nat -> mx_idx (pm pool i) = Z.of_nat i;
  mo_idle : forall i, i ∈ q_queue idle -> idle_bits (pm pool i);
  mo_queued : forall i, i ∈ q_queue wait \/ i ∈ q_queue pend -> enq_bits (pm pool i) }.

(** [held] are the descriptors in no queue. *)
Definition msg_inv (held : list nat) (d : cmd_dispatcher) : Prop :=
  msg_ok held (d_msg_ex_pool d) (d_msg_idle_q d) (d_msg_wait_q d) (d_msg_pend_q d).

Section msg_ok.
Context {held : list nat} {pool : list phl_dispr_msg_ex} {idle wait pend : phl_queue nat}.
Context (H : msg_ok held pool idle wait pend).

Lemma msg_ok_lt i :
  i ∈ q_queue idle \/ i ∈ q_queue wait \/ i ∈ q_queue pend \/ i ∈ held ->
  (i < MAX_PHL_MSG_NUM)%nat.
Proof.
  intros Hi. eapply pool_split_lt; [exact (mo_split _ _ _ _ _ H)|].
  simpl. rewrite !elem_of_app. tauto.
Qed.

(** The queues and the held list are disjoint. *)
Lemma msg_ok_disjoint i :
  (i ∈ q_queue idle -> i ∉ q_queue wait /\ i ∉ q_queue pend /\ i ∉ held) /\
  (i ∈ q_queue wait -> i ∉ q_queue pend /\ i ∉ held) /\
  (i ∈ q_queue pend -> i ∉ held).
Proof.
  pose proof (pool_split_NoDup _ _ (mo_split _ _ _ _ _ H)) as Hnd.
  simpl in Hnd. rewrite !NoDup_app in Hnd. set_solver.
Qed.

(** A change of one element that keeps its index, and its queue status if it
    is in a queue. *)
Lemma msg_ok_alter f i :
  (forall m, mx_idx (f m) = mx_idx m) ->
  (i ∈ q_queue idle -> idle_bits (pm pool i) -> idle_bits (f (pm pool i))) ->
  (i ∈ q_queue wait \/ i ∈ q_queue pend -> enq_bits (pm pool i) -> enq_bits (f (pm pool i))) ->
  msg_ok held (alter f i pool) idle wait pend.
Proof.
  intros Hidx Hid Hq. destruct H as [? ? ? ? Hlen Hix Hi Hw]. split; try done.
  - by rewrite length_alter.
  - intros j Hj. rewrite nth_alter. rewrite (decide_True (P := (j < length pool)%nat)) by lia.
    case_decide; [rewrite Hidx|]; auto.
  - intros j Hj. rewrite nth_alter. repeat case_decide; subst; auto.
    by split.
  - intros j Hj. rewrite nth_alter. repeat case_decide; subst; auto.
    exfalso. assert (j < MAX_PHL_MSG_NUM)%nat; [apply msg_ok_lt; tauto|lia].
Qed.

(** A change of the queues; only the new members have something to show. *)
Lemma msg_ok_queues held' idle' wait' pend' :
  q_queue idle' ++ q_queue wait' ++ q_queue pend' ++ held' ≡ₚ
    q_queue idle ++ q_queue wait ++ q_queue pend ++ held ->
  pq_wf idle' -> pq_wf wait' -> pq_wf pend' ->
  (forall i, i ∈ q_queue idle' -> i ∈ q_queue idle \/ idle_bits (pm pool i)) ->
  (forall i, i ∈ q_queue wait' \/ i ∈ q_queue pend' ->
     (i ∈ q_queue wait \/ i ∈ q_queue pend) \/ enq_bits (pm pool i)) ->
  msg_ok held' pool idle' wait' pend'.
Proof.
  intros Hp ? ? ? Hi' Hq'. destruct H as [Hs ? ? ? Hlen Hix Hi Hw]. split; try done.
  - unfold pool_split in *. simpl in *. rewrite !app_nil_r in *. by rewrite Hp.
  - intros i Hin. destruct (Hi' i Hin); auto.
  - intros i Hin. destruct (Hq' i Hin); auto.
Qed.
End msg_ok.

(** *** What each function on the message pool does to the invariant *)

Lemma enq_bits_mark m :
  enq_bits (mx_clear_flag MSG_STATUS_RUN (mx_set_flag MSG_STATUS_ENQ m)).
Proof. unfold enq_bits. cbn [mx_clear_flag mx_set_flag set_mx_status mx_status]. flags. done. Qed.

Lemma enq_bits_set_flag n m : 2 <= n -> enq_bits m -> enq_bits (mx_set_flag (BIT n) m).
Proof.
  unfold enq_bits. intros Hn [H0 H1]. cbn [mx_set_flag set_mx_status mx_status].
  rewrite !testbit_set_flag by lia. rewrite H0, H1. split; [done|]. simpl. lia.
Qed.

Lemma enq_bits_clear_flag n m : 2 <= n -> enq_bits m -> enq_bits (mx_clear_flag (BIT n) m).
Proof.
  unfold enq_bits. intros Hn [H0 H1]. cbn [mx_clear_flag set_mx_status mx_status].
  rewrite !testbit_clear_flag by lia. rewrite H0, H1. split; [|done]. simpl. lia.
Qed.

Section msg_inv.
Implicit Types (d : cmd_dispatcher) (h : list nat) (i : nat).

Lemma msg_inv_upd_held h d f i :
  i ∈ h -> (forall m, mx_idx (f m) = mx_idx m) -> msg_inv h d -> msg_inv h (upd_mx f i d).
Proof.
  unfold msg_inv. simpl. intros Hi Hf H. pose proof (msg_ok_disjoint H i).
  apply msg_ok_alter; [done|done|naive_solver..].
Qed.

Lemma msg_inv_upd_queued h d f i :
  i ∉ q_queue (d_msg_idle_q d) ->
  (forall m, mx_idx (f m) = mx_idx m) -> (forall m, enq_bits m -> enq_bits (f m)) ->
  msg_inv h d -> msg_inv h (upd_mx f i d).
Proof. unfold msg_inv. simpl. intros. apply msg_ok_alter; auto; done. Qed.

Lemma msg_inv_pop_idle h d i d' :
  pop_front_idle_msg d = (Some i, d') -> msg_inv h d -> msg_inv (i :: h) d'.
Proof.
  unfold pop_front_idle_msg. destruct (pq_pop (d_msg_idle_q d) _first) as [[j|] q] eqn:E;
    intros [= -> <-] H. apply msg_inv_upd_held; [apply list_elem_of_here|done|].
  apply pq_pop_Some in E as Eq. destruct Eq as [Eq _].
  unfold msg_inv in *. simpl. apply (msg_ok_queues H); try apply H.
  - rewrite Eq. solve_Permutation.
  - eapply pq_pop_Some_wf; [|exact E]; apply H.
  - intros j. rewrite Eq. set_solver.
  - set_solver.
Qed.

Lemma msg_inv_pop_idle_None h d d' :
  pop_front_idle_msg d = (None, d') -> msg_inv h d -> msg_inv h d'.
Proof.
  unfold pop_front_idle_msg. destruct (pq_pop (d_msg_idle_q d) _first) as [[j|] q] eqn:E;
    intros [= <-] H. by apply pq_pop_None in E as ->.
Qed.

(** The descriptor is released only once it is cleared. *)
Lemma msg_inv_push_idle h d i :
  msg_inv (i :: h) d -> idle_bits (mx d i) ->
  msg_inv h (set_d_msg_idle_q (pq_push (d_msg_idle_q d) i _tail) d).
Proof.
  intros H Hb. unfold msg_inv in *. simpl. apply (msg_ok_queues H); try apply H.
  - rewrite pq_push_perm. solve_Permutation.
  - apply pq_push_wf, H.
  - intros j. rewrite pq_push_perm, elem_of_cons. intros [->|?]; auto.
  - auto.
Qed.

Lemma msg_inv_pop_wait h d i d' :
  pop_front_wait_msg d = (Some i, d') -> msg_inv h d -> msg_inv (i :: h) d'.
Proof.
  unfold pop_front_wait_msg. destruct (pq_pop (d_msg_wait_q d) _first) as [[j|] q] eqn:E;
    intros [= -> <-] H. do 3 (apply msg_inv_upd_held; [apply list_elem_of_here|done|]).
  apply pq_pop_Some in E as Eq. destruct Eq as [Eq _].
  unfold msg_inv in *. simpl. apply (msg_ok_queues H); try apply H.
  - rewrite Eq. solve_Permutation.
  - eapply pq_pop_Some_wf; [|exact E]; apply H.
  - auto.
  - intros j. rewrite Eq. set_solver.
Qed.

Lemma msg_inv_pop_wait_None h d d' :
  pop_front_wait_msg d = (None, d') -> msg_inv h d -> msg_inv h d'.
Proof.
  unfold pop_front_wait_msg. destruct (pq_pop (d_msg_wait_q d) _first) as [[j|] q] eqn:E;
    intros [= <-] H. by apply pq_pop_None in E as ->.
Qed.

Lemma msg_inv_pop_pend h d i d' :
  pop_front_pending_msg d = (Some i, d') -> msg_inv h d -> msg_inv (i :: h) d'.
Proof.
  unfold pop_front_pending_msg. destruct (pq_pop (d_msg_pend_q d) _first) as [r q] eqn:E;
    intros [= -> <-] H.
  apply pq_pop_Some in E as Eq. destruct Eq as [Eq _].
  unfold msg_inv in *. simpl. apply (msg_ok_queues H); try apply H.
  - rewrite Eq. solve_Permutation.
  - eapply pq_pop_Some_wf; [|exact E]; apply H.
  - auto.
  - intros j. rewrite Eq. set_solver.
Qed.

Lemma mark_enq_held h d i :
  msg_inv (i :: h) d -> msg_inv (i :: h) (mark_enq d i) /\ enq_bits (mx (mark_enq d i) i).
Proof.
  intros H. split.
  - do 2 (apply msg_inv_upd_held; [apply list_elem_of_here|done|]). done.
  - assert (i < length (d_msg_ex_pool d))%nat as Hlt.
    { rewrite (mo_len _ _ _ _ _ H). apply (msg_ok_lt H). set_solver. }
    unfold mark_enq. rewrite mx_upd, decide_True by (simpl; rewrite length_alter; done).
    rewrite mx_upd, decide_True by done. apply enq_bits_mark.
Qed.

(** A held, marked descriptor can be linked anywhere in the waiting queue. *)
Lemma msg_inv_link_wait h d i q :
  msg_inv (i :: h) d -> enq_bits (mx d i) ->
  q_queue q ≡ₚ i :: q_queue (d_msg_wait_q d) -> pq_wf q ->
  msg_inv h (set_d_msg_wait_q q d).
Proof.
  intros H Hb Hp Hwf. unfold msg_inv in *. simpl. apply (msg_ok_queues H); try apply H; auto.
  - rewrite Hp. solve_Permutation.
  - intros j. rewrite Hp, elem_of_cons. intros [[->|?]|?]; auto.
Qed.

Lemma msg_inv_push_wait h d i : msg_inv (i :: h) d -> msg_inv h (push_back_wait_msg d i).
Proof.
  intros H. apply mark_enq_held in H as [H1 H2].
  apply (msg_inv_link_wait h _ i); [done|done|apply pq_push_perm|apply pq_push_wf, H1].
Qed.

Lemma msg_inv_insert_wait h d i : msg_inv (i :: h) d -> msg_inv h (insert_msg_by_priority d i).
Proof.
  intros H. apply mark_enq_held in H as [H1 H2].
  apply (msg_inv_link_wait h _ i); [done|done|apply pq_insert_perm|apply pq_insert_wf, H1].
Qed.

Lemma msg_inv_push_pend h d i : msg_inv (i :: h) d -> msg_inv h (push_back_pending_msg d i).
Proof.
  intros H. apply mark_enq_held in H as [H1 H2]. unfold push_back_pending_msg.
  set (d1 := mark_enq d i) in *. clearbody d1.
  set (d2 := if mx_test d1 i MSG_STATUS_CLR_SNDR_MSG_IF_PENDING then _ else d1).
  assert (msg_inv (i :: h) d2 /\ enq_bits (mx d2 i)) as [H3 H4].
  { unfold d2. case_if; done. }
  clearbody d2. unfold msg_inv in *. simpl. apply (msg_ok_queues H3); try apply H3; auto.
  - rewrite pq_push_perm. solve_Permutation.
  - apply pq_push_wf, H3.
  - intros j. rewrite pq_push_perm, elem_of_cons. intros [?|[->|?]]; auto.
Qed.
End msg_inv.

#[export] Hint Resolve msg_inv_push_wait msg_inv_insert_wait msg_inv_push_pend : phl_inv.

(** ** Requests *)

Abbreviation pr pool k := (nth k pool zero_req_ex).

Definition rq_bit (n : Z) (r : phl_cmd_token_req_ex) : bool := Z.testbit (rx_status r) n.

(** Where the requests in no queue are: taken from the waiting queue and about
    to be registered ([rg_prep]), taken out of it to be aborted ([rg_abrt]), or
    running ([rg_cur]). *)
Record req_ghost := mkRG { rg_prep : list nat; rg_abrt : list nat; rg_cur : option nat }.

(** Bits 0, 1 and 4 of a request's status are ENQ, RUN and PREPARE. *)
Record req_ok (g : req_ghost) (pool : list phl_cmd_token_req_ex)
    (idle wait : phl_queue nat) (cur_cmd_req : option nat) (token_cnt : Z) : Prop := {
  ro_split : pool_split MAX_CMD_REQ_NUM
               [q_queue idle; q_queue wait; option_list (rg_cur g); rg_prep g; rg_abrt g];
  ro_idle_wf : pq_wf idle;
  ro_wait_wf : pq_wf wait;
  ro_len : length pool = MAX_CMD_REQ_NUM;
  ro_idx : forall k, (k < MAX_CMD_REQ_NUM)%nat -> rx_idx (pr pool k) = Z.of_nat k;
  ro_cur : cur_cmd_req = rg_cur g;
  ro_cnt : token_cnt = if rg_cur g then 1 else 0;
  ro_idle : forall k, k ∈ q_queue idle -> rx_status (pr pool k) = 0;
  ro_wait : forall k, k ∈ q_queue wait ->
              rq_bit 0 (pr pool k) = true /\ rq_bit 1 (pr pool k) = false /\
              rq_bit 4 (pr pool k) = false;
  ro_run : forall k, rg_cur g = Some k -> rq_bit 0 (pr pool k) = false;
  ro_prep : forall k, k ∈ rg_prep g ->
              rq_bit 0 (pr pool k) = false /\ rq_bit 1 (pr pool k) = false;
  ro_abrt : forall k, k ∈ rg_abrt g -> rq_bit 1 (pr pool k) = false;
  ro_fg : forall k, k ∉ q_queue idle -> (k < MAX_CMD_REQ_NUM)%nat ->
            PHL_FG_MDL_START <= req_module_id (rx_req (pr pool k)) }.

Definition req_inv (g : req_ghost) (d : cmd_dispatcher) : Prop :=
  req_ok g (d_token_req_ex_pool d) (d_token_req_idle_q d) (d_token_req_wait_q d)
    (d_cur_cmd_req d) (d_token_cnt d).

Section req_ok.
Context {g : req_ghost} {pool : list phl_cmd_token_req_ex}.
Context {idle wait : phl_queue nat} {cc : option nat} {cnt : Z}.
Context (H : req_ok g pool idle wait cc cnt).

Lemma req_ok_lt k :
  k ∈ q_queue idle \/ k ∈ q_queue wait \/ rg_cur g = Some k \/ k ∈ rg_prep g \/ k ∈ rg_abrt g ->
  (k < MAX_CMD_REQ_NUM)%nat.
Proof.
  intros Hk. eapply pool_split_lt; [exact (ro_split _ _ _ _ _ _ H)|].
  simpl. rewrite !elem_of_app, elem_of_option_list. tauto.
Qed.

Lemma req_ok_cover k :
  (k < MAX_CMD_REQ_NUM)%nat ->
  k ∈ q_queue idle \/ k ∈ q_queue wait \/ rg_cur g = Some k \/ k ∈ rg_prep g \/ k ∈ rg_abrt g.
Proof.
  intros Hk.
  assert (k ∈ concat [q_queue idle; q_queue wait; option_list (rg_cur g);
                      rg_prep g; rg_abrt g]) as Hin.
  { rewrite (ro_split _ _ _ _ _ _ H). apply elem_of_seq. lia. }
  simpl in Hin. rewrite !elem_of_app, elem_of_option_list, elem_of_nil in Hin. tauto.
Qed.

Lemma req_ok_disjoint k :
  (k ∈ q_queue idle ->
     k ∉ q_queue wait /\ rg_cur g <> Some k /\ k ∉ rg_prep g /\ k ∉ rg_abrt g) /\
  (k ∈ q_queue wait -> rg_cur g <> Some k /\ k ∉ rg_prep g /\ k ∉ rg_abrt g) /\
  (rg_cur g = Some k -> k ∉ rg_prep g /\ k ∉ rg_abrt g) /\
  (k ∈ rg_prep g -> k ∉ rg_abrt g).
Proof.
  pose proof (pool_split_NoDup _ _ (ro_split _ _ _ _ _ _ H)) as Hnd.
  simpl in Hnd. rewrite !NoDup_app in Hnd. repeat setoid_rewrite elem_of_app in Hnd.
  setoid_rewrite elem_of_option_list in Hnd. set_solver.
Qed.

(** The status bits tell where a request is. *)
Lemma req_ok_enq k :
  (k < MAX_CMD_REQ_NUM)%nat -> rq_bit 0 (pr pool k) = true ->
  k ∈ q_queue wait \/ k ∈ rg_abrt g.
Proof.
  intros Hk Hb. destruct (req_ok_cover k Hk) as [Hc|[Hc|[Hc|[Hc|Hc]]]]; auto; exfalso.
  - apply (ro_idle _ _ _ _ _ _ H) in Hc. unfold rq_bit in Hb. by rewrite Hc in Hb.
  - apply (ro_run _ _ _ _ _ _ H) in Hc. congruence.
  - apply (ro_prep _ _ _ _ _ _ H) in Hc. destruct Hc. congruence.
Qed.

Lemma req_ok_running k :
  (k < MAX_CMD_REQ_NUM)%nat -> rq_bit 1 (pr pool k) = true -> rg_cur g = Some k.
Proof.
  intros Hk Hb. destruct (req_ok_cover k Hk) as [Hc|[Hc|[Hc|[Hc|Hc]]]]; auto; exfalso.
  - apply (ro_idle _ _ _ _ _ _ H) in Hc. unfold rq_bit in Hb. by rewrite Hc in Hb.
  - apply (ro_wait _ _ _ _ _ _ H) in Hc. destruct Hc as (? & ? & ?). congruence.
  - apply (ro_prep _ _ _ _ _ _ H) in Hc. destruct Hc. congruence.
  - apply (ro_abrt _ _ _ _ _ _ H) in Hc. congruence.
Qed.

Lemma req_ok_not_idle k : rx_status (pr pool k) <> 0 -> k ∉ q_queue idle.
Proof. intros Hs Hi. by apply (ro_idle _ _ _ _ _ _ H) in Hi. Qed.

(** A change of one request that keeps its index and the status bits that
    place it. *)
Lemma req_ok_alter f k :
  (forall r, rx_idx (f r) = rx_idx r) ->
  (k ∉ q_queue idle -> PHL_FG_MDL_START <= req_module_id (rx_req (pr pool k)) ->
   PHL_FG_MDL_START <= req_module_id (rx_req (f (pr pool k)))) ->
  (k ∈ q_queue idle -> rx_status (f (pr pool k)) = 0) ->
  (k ∈ q_queue wait -> rq_bit 0 (f (pr pool k)) = rq_bit 0 (pr pool k) /\
     rq_bit 1 (f (pr pool k)) = rq_bit 1 (pr pool k) /\
     rq_bit 4 (f (pr pool k)) = rq_bit 4 (pr pool k)) ->
  (rg_cur g = Some k \/ k ∈ rg_prep g -> rq_bit 0 (f (pr pool k)) = rq_bit 0 (pr pool k)) ->
  (k ∈ rg_prep g \/ k ∈ rg_abrt g -> rq_bit 1 (f (pr pool k)) = rq_bit 1 (pr pool k)) ->
  req_ok g (alter f k pool) idle wait cc cnt.
Proof.
  intros Hidx Hreq Hid Hw Hc Hh. pose proof req_ok_lt as Hlt.
  assert (forall j, nth j (alter f k pool) zero_req_ex =
            if decide (k = j /\ (j < MAX_CMD_REQ_NUM)%nat) then f (pr pool j) else pr pool j) as Hn.
  { intros j. rewrite nth_alter, (ro_len _ _ _ _ _ _ H). pose proof (ro_len _ _ _ _ _ _ H).
    destruct (decide (k = j)) as [->|].
    - destruct (decide (j < MAX_CMD_REQ_NUM)%nat).
      + by rewrite decide_True by done.
      + rewrite decide_False by tauto. by rewrite nth_overflow by lia.
    - by rewrite decide_False by tauto. }
  destruct H as [? ? ? Hlen Hix ? ? Hi Hwt Hr Hp Ha Hfg].
  split; try done; try (intros j Hj; rewrite Hn; case_decide as Hd; [destruct Hd as [-> Hd]|]).
  - by rewrite length_alter.
  - rewrite Hidx. auto.
  - auto.
  - auto.
  - auto.
  - destruct (Hw Hj) as (-> & -> & ->). auto.
  - auto.
  - rewrite Hc; auto.
  - auto.
  - rewrite Hc, Hh; auto.
  - auto.
  - rewrite Hh; auto.
  - auto.
  - intros. auto.
  - intros. auto.
Qed.

(** Request [k] moves to another place and is changed by [f] on the way; the
    others stay where they are. *)
Lemma req_ok_move k f g' idle' wait' cc' cnt' :
  (k < MAX_CMD_REQ_NUM)%nat ->
  (forall r, rx_idx (f r) = rx_idx r) ->
  q_queue idle' ++ q_queue wait' ++ option_list (rg_cur g') ++ rg_prep g' ++ rg_abrt g' ≡ₚ
    q_queue idle ++ q_queue wait ++ option_list (rg_cur g) ++ rg_prep g ++ rg_abrt g ->
  pq_wf idle' -> pq_wf wait' -> cc' = rg_cur g' -> cnt' = (if rg_cur g' then 1 else 0) ->
  (forall j, j <> k ->
     (j ∈ q_queue idle' <-> j ∈ q_queue idle) /\ (j ∈ q_queue wait' -> j ∈ q_queue wait) /\
     (rg_cur g' = Some j -> rg_cur g = Some j) /\
     (j ∈ rg_prep g' -> j ∈ rg_prep g) /\ (j ∈ rg_abrt g' -> j ∈ rg_abrt g)) ->
  (k ∈ q_queue idle' -> rx_status (f (pr pool k)) = 0) ->
  (k ∈ q_queue wait' -> rq_bit 0 (f (pr pool k)) = true /\
     rq_bit 1 (f (pr pool k)) = false /\ rq_bit 4 (f (pr pool k)) = false) ->
  (rg_cur g' = Some k \/ k ∈ rg_prep g' -> rq_bit 0 (f (pr pool k)) = false) ->
  (k ∈ rg_prep g' \/ k ∈ rg_abrt g' -> rq_bit 1 (f (pr pool k)) = false) ->
  (k ∉ q_queue idle' -> PHL_FG_MDL_START <= req_module_id (rx_req (f (pr pool k)))) ->
  req_ok g' (alter f k pool) idle' wait' cc' cnt'.
Proof.
  intros Hk Hidx Hp ? ? ? ? Hj Hi' Hw' Hc' Hh' Hf'.
  destruct H as [Hs ? ? Hlen Hix ? ? Hi Hwt Hr Hpr Ha Hfg].
  assert (forall j, nth j (alter f k pool) zero_req_ex =
            if decide (k = j) then f (pr pool j) else pr pool j) as Hn.
  { intros j. rewrite nth_alter. destruct (decide (k = j)) as [->|]; [|done].
    by rewrite decide_True by lia. }
  split; try done;
    try (intros j Hin; rewrite Hn; case_decide as Hd; [subst j; auto|]; apply not_eq_sym in Hd;
         destruct (Hj j Hd) as (? & ? & ? & ? & ?); auto).
  - unfold pool_split in *. simpl in *. rewrite !app_nil_r in *. by rewrite Hp.
  - by rewrite length_alter.
  - intros j Hin. rewrite Hn. case_decide; rewrite ?Hidx; auto.
  - naive_solver.
  - intros Hl. apply Hfg; tauto.
Qed.
End req_ok.

(** *** What each function on the request pool does to the invariant *)

Lemma rq_bit_set n m r : 0 <= n -> rq_bit m (rx_set_flag (BIT n) r) = rq_bit m r || (n =? m).
Proof. intros. unfold rq_bit. apply testbit_set_flag. done. Qed.

Lemma rq_bit_clear n m r :
  0 <= n -> 0 <= m -> rq_bit m (rx_clear_flag (BIT n) r) = rq_bit m r && negb (n =? m).
Proof. intros. unfold rq_bit. by apply testbit_clear_flag. Qed.

Lemma rx_test_bit d k n : 0 <= n -> rx_test d k (BIT n) = rq_bit n (rx d k).
Proof. intros. unfold rx_test. by rewrite test_flag_bit. Qed.

Ltac rqbits :=
  intros; rewrite ?rq_bit_set, ?rq_bit_clear by lia;
  repeat match goal with
  | |- context [Z.eqb ?a ?b] => destruct (Z.eqb_spec a b); try lia
  end;
  rewrite ?orb_false_r, ?orb_true_r, ?andb_true_r, ?andb_false_r; auto.

(** Membership facts after a move. *)
Ltac place :=
  intros; simpl in *;
  repeat match goal with
  | Hq : q_queue _ = _ :: _ |- _ => rewrite Hq in *; clear Hq
  end; rewrite ?elem_of_cons in *; naive_solver.

Section req_inv.
Implicit Types (d : cmd_dispatcher) (g : req_ghost) (k : nat).

(** Updates that touch neither the status nor the request itself. *)
Lemma req_inv_upd_op g d f k :
  (forall r, rx_idx (f r) = rx_idx r /\ rx_status (f r) = rx_status r /\ rx_req (f r) = rx_req r) ->
  req_inv g d -> req_inv g (upd_rx f k d).
Proof.
  intros Hf H. pose proof (fun r => proj1 (Hf r)) as H1.
  pose proof (fun r => proj1 (proj2 (Hf r))) as H2. pose proof (fun r => proj2 (proj2 (Hf r))) as H3.
  unfold req_inv in *. simpl. apply (req_ok_alter H); unfold rq_bit; rewrite ?H2, ?H3; auto.
  intros Hi. by apply (ro_idle _ _ _ _ _ _ H).
Qed.

Lemma req_inv_set_flag g d n k :
  0 <= n -> n <> 0 -> n <> 1 -> n <> 4 -> k ∉ q_queue (d_token_req_idle_q d) ->
  req_inv g d -> req_inv g (upd_rx (rx_set_flag (BIT n)) k d).
Proof.
  intros ? ? ? ? Hk H. unfold req_inv in *. simpl. apply (req_ok_alter H); auto; try done; rqbits.
Qed.

Lemma req_inv_clear_flag g d n k :
  0 <= n -> n <> 0 -> n <> 1 -> n <> 4 -> k ∉ q_queue (d_token_req_idle_q d) ->
  req_inv g d -> req_inv g (upd_rx (rx_clear_flag (BIT n)) k d).
Proof.
  intros ? ? ? ? Hk H. unfold req_inv in *. simpl. apply (req_ok_alter H); auto; try done; rqbits.
Qed.

(** A fresh request goes from the idle to the waiting queue. *)
Lemma req_inv_add g d k d' r :
  pop_front_idle_req d = (Some k, d') -> PHL_FG_MDL_START <= req_module_id r ->
  req_inv g d -> req_inv g (push_back_wait_req (upd_rx (set_rx_req r) k d') k).
Proof.
  unfold pop_front_idle_req. destruct (pq_pop (d_token_req_idle_q d) _first) as [[j|] q] eqn:E;
    intros [= -> <-] Hr H.
  apply pq_pop_Some in E as Eq. destruct Eq as [Eq _].
  unfold req_inv in *. simpl. rewrite !list_alter_alter_eq.
  pose proof (req_ok_disjoint H k) as (Hd & _).
  apply (req_ok_move H k); try apply H; cbn [rg_prep rg_abrt rg_cur compose]; auto.
  - apply (req_ok_lt H). place.
  - rewrite Eq, pq_push_perm. solve_Permutation.
  - eapply pq_pop_Some_wf; [|exact E]; apply H.
  - apply pq_push_wf, H.
  - rewrite Eq. intros j Hj. rewrite pq_push_perm. set_solver.
  - intros Hin. exfalso. pose proof (pool_split_NoDup _ _ (ro_split _ _ _ _ _ _ H)) as Hnd.
    rewrite Eq in Hnd. simpl in Hnd. apply NoDup_cons in Hnd. set_solver.
  - place.
Qed.

Lemma req_inv_pop_idle_None g d d' :
  pop_front_idle_req d = (None, d') -> req_inv g d -> req_inv g d'.
Proof.
  unfold pop_front_idle_req. destruct (pq_pop (d_token_req_idle_q d) _first) as [[j|] q] eqn:E;
    intros [= <-] H. by apply pq_pop_None in E as ->.
Qed.

Lemma req_inv_pop_wait g d k d' :
  pop_front_wait_req d = (Some k, d') -> req_inv g d ->
  req_inv (mkRG (k :: rg_prep g) (rg_abrt g) (rg_cur g)) d'.
Proof.
  unfold pop_front_wait_req. destruct (pq_pop (d_token_req_wait_q d) _first) as [[j|] q] eqn:E;
    intros [= -> <-] H.
  apply pq_pop_Some in E as Eq. destruct Eq as [Eq _].
  unfold req_inv in *. simpl. rewrite !list_alter_alter_eq.
  pose proof (req_ok_disjoint H k) as (Hi & Hd & _).
  assert (k ∈ q_queue (d_token_req_wait_q d)) as Hkw by (rewrite Eq; apply list_elem_of_here).
  destruct (ro_wait _ _ _ _ _ _ H k Hkw) as (B0 & B1 & B4).
  apply (req_ok_move H k); try apply H; cbn [rg_prep rg_abrt rg_cur compose]; auto.
  - apply (req_ok_lt H). auto.
  - rewrite Eq. solve_Permutation.
  - eapply pq_pop_Some_wf; [|exact E]; apply H.
  - rewrite Eq. intros j Hj. set_solver.
  - naive_solver.
  - intros Hin. exfalso. pose proof (pool_split_NoDup _ _ (ro_split _ _ _ _ _ _ H)) as Hnd.
    simpl in Hnd. rewrite Eq in Hnd. apply NoDup_app in Hnd as (_ & _ & Hnd).
    simpl in Hnd. apply NoDup_cons in Hnd. set_solver.
  - intros _. unfold compose. autounfold with phl_const. rqbits.
  - intros _. unfold compose. autounfold with phl_const. rewrite rq_bit_clear, rq_bit_set by lia.
    unfold rx in B1. rewrite B1. done.
  - intros _. apply (ro_fg _ _ _ _ _ _ H); [naive_solver|]. apply (req_ok_lt H). auto.
Qed.

Lemma req_inv_pop_wait_None g d d' :
  pop_front_wait_req d = (None, d') -> req_inv g d -> req_inv g d'.
Proof.
  unfold pop_front_wait_req. destruct (pq_pop (d_token_req_wait_q d) _first) as [[j|] q] eqn:E;
    intros [= <-] H. by apply pq_pop_None in E as ->.
Qed.

Lemma alter_id_pool {A} (l : list A) k : alter id k l = l.
Proof. apply list_alter_id. done. Qed.

(** The [TOKEN_OP_CANCEL_CMD_REQ] case unlinks a waiting request. *)
Lemma req_inv_del_wait g d k :
  k ∈ q_queue (d_token_req_wait_q d) -> req_inv g d ->
  req_inv (mkRG (rg_prep g) (k :: rg_abrt g) (rg_cur g))
    (set_d_token_req_wait_q (pq_del_node (d_token_req_wait_q d) (Some k)) d).
Proof.
  intros Hkw H. unfold req_inv in *. simpl.
  rewrite <- (alter_id_pool (d_token_req_ex_pool d) k).
  pose proof (req_ok_disjoint H k) as (Hi & Hd & _).
  pose proof (list_del_node_perm _ _ Hkw) as Hp.
  destruct (ro_wait _ _ _ _ _ _ H k Hkw) as (B0 & B1 & B4).
  apply (req_ok_move H k); try apply H; cbn [rg_prep rg_abrt rg_cur compose]; auto.
  - apply (req_ok_lt H). auto.
  - rewrite Hp at 2. solve_Permutation.
  - apply pq_del_node_wf; [apply H|done].
  - pose proof (list_del_node_subset (q_queue (d_token_req_wait_q d)) k).
    intros j Hj. cbn. set_solver.
  - naive_solver.
  - intros _. apply (ro_fg _ _ _ _ _ _ H); [naive_solver|]. apply (req_ok_lt H). auto.
Qed.

(** A held request goes back to the idle queue. *)
Lemma req_inv_push_idle g g' d k :
  rg_cur g' = rg_cur g -> rg_prep g ++ rg_abrt g ≡ₚ k :: rg_prep g' ++ rg_abrt g' ->
  (forall j, j ∈ rg_prep g' -> j ∈ rg_prep g) -> (forall j, j ∈ rg_abrt g' -> j ∈ rg_abrt g) ->
  req_inv g d -> req_inv g' (push_back_idle_req d k).
Proof.
  intros Hc Hp Hp1 Ha1 H. unfold req_inv in *. simpl.
  pose proof (pool_split_NoDup _ _ (ro_split _ _ _ _ _ _ H)) as Hnd.
  simpl in Hnd. rewrite app_nil_r, Hp in Hnd. rewrite !NoDup_app in Hnd.
  assert (k ∈ rg_prep g \/ k ∈ rg_abrt g) as Hk by (apply elem_of_app; rewrite Hp; set_solver).
  apply (req_ok_move H k); try apply H; cbn [rg_prep rg_abrt rg_cur compose]; auto.
  - apply (req_ok_lt H). tauto.
  - rewrite pq_push_perm, Hc, Hp. solve_Permutation.
  - apply pq_push_wf, H.
  - rewrite Hc. apply H.
  - rewrite Hc. apply H.
  - intros j Hj. rewrite pq_push_perm, elem_of_cons, Hc. naive_solver.
  - intros Hin. exfalso. set_solver.
  - intros Hin. exfalso. apply Hin. rewrite pq_push_perm. apply list_elem_of_here.
Qed.

(** [register_cur_cmd_req] makes a prepared request the running one. *)
Lemma req_inv_register d k p a :
  req_inv (mkRG (k :: p) a None) d ->
  req_inv (mkRG p a (Some k))
    (set_d_token_cnt (d_token_cnt d + 1) (set_d_cur_cmd_req (Some k)
      (upd_rx (rx_clear_flag REQ_STATUS_PREPARE) k (upd_rx (rx_set_flag REQ_STATUS_RUN) k d)))).
Proof.
  intros H. unfold req_inv in *. simpl. rewrite list_alter_alter_eq.
  pose proof (req_ok_disjoint H k) as (Hi & Hw & _).
  destruct (ro_prep _ _ _ _ _ _ H k (list_elem_of_here _ _)) as [B0 B1].
  pose proof (pool_split_NoDup _ _ (ro_split _ _ _ _ _ _ H)) as Hnd. simpl in Hnd.
  rewrite !NoDup_app, NoDup_cons in Hnd.
  assert (k < MAX_CMD_REQ_NUM)%nat as Hk by (apply (req_ok_lt H); set_solver).
  assert (k ∉ q_queue (d_token_req_idle_q d)) as Hki by set_solver.
  apply (req_ok_move H k); try apply H; cbn [rg_prep rg_abrt rg_cur]; auto.
  - rewrite (ro_cnt _ _ _ _ _ _ H). done.
  - intros j Hj. rewrite elem_of_cons. naive_solver.
  - done.
  - intros Hin. destruct (Hw Hin) as (_ & Hx & _). destruct Hx. apply list_elem_of_here.
  - intros _. unfold compose. autounfold with phl_const. rewrite rq_bit_clear, rq_bit_set by lia.
    rewrite B0. done.
  - destruct Hnd as (_ & _ & _ & _ & Hx & _). rewrite !elem_of_app in Hx. tauto.
  - intros _. apply (ro_fg _ _ _ _ _ _ H); done.
Qed.

(** The end of [deregister_cur_cmd_req]: the token is given back. *)
Lemma req_inv_deregister d k p a :
  req_inv (mkRG p a (Some k)) d ->
  req_inv (mkRG p a None)
    (set_d_cur_cmd_req None (set_d_token_cnt (d_token_cnt (push_back_idle_req d k) - 1)
      (push_back_idle_req d k))).
Proof.
  intros H. unfold req_inv in *. simpl.
  pose proof (req_ok_disjoint H k) as (Hi & Hw & Hc & _). specialize (Hc eq_refl). simpl in *.
  apply (req_ok_move H k); try apply H; cbn [rg_prep rg_abrt rg_cur]; auto.
  - apply (req_ok_lt H). auto.
  - rewrite pq_push_perm. cbn. solve_Permutation.
  - apply pq_push_wf, H.
  - rewrite (ro_cnt _ _ _ _ _ _ H). done.
  - intros j Hj. rewrite pq_push_perm, elem_of_cons. naive_solver.
  - set_solver.
  - intros Hin. exfalso. apply Hin. rewrite pq_push_perm. apply list_elem_of_here.
Qed.

(** Flags of the running request, RUN included. *)
Lemma req_inv_cur_flag g d k f :
  rg_cur g = Some k -> (forall r, rx_idx (f r) = rx_idx r) -> (forall r, rx_req (f r) = rx_req r) ->
  (forall r, rq_bit 0 (f r) = rq_bit 0 r) ->
  req_inv g d -> req_inv g (upd_rx f k d).
Proof.
  intros Hc Hf Hr Hb H. unfold req_inv in *. simpl. pose proof (req_ok_disjoint H k).
  apply (req_ok_alter H); rewrite ?Hr; naive_solver.
Qed.
End req_inv.
