(* ===== verification/DispApiInv.v ===== *)
(** * What calls into the dispatcher preserve

    [ApiInv I] is the contract between the dispatcher's API and the code that
    calls out of the dispatcher: a family [I] of predicates each API function
    preserves.  From it follows that a call through a function pointer preserves
    [I], whatever the callee and the other threads do meanwhile
    ([callback_inv]).  Instances: the two pool invariants and the accounting of
    wake-ups. *)

From S2P Require Import Prelude PhlQueue PhlDef DispState DispApi DispInv.

(** ** Shape of [dispr_send_msg] *)

(** Filling a descriptor keeps its index and the flags the queues and the
    abort handling rely on: ENQ, RUN, CANCEL, PENDING and FOR_ABORT; it gives
    the descriptor a completion routine only if the attribute has one. *)
Definition has_completion (attr : option phl_msg_attribute) : bool :=
  match attr with Some a => completion (attr_completion a) | None => false end.

Definition neutral (attr : option phl_msg_attribute)
    (f : phl_dispr_msg_ex -> phl_dispr_msg_ex) : Prop :=
  forall m, mx_idx (f m) = mx_idx m /\
    Forall (fun n => Z.testbit (mx_status (f m)) n = Z.testbit (mx_status m) n) [0; 1; 3; 9; 10] /\
    (has_completion attr = false -> completion (mx_completion (f m)) = completion (mx_completion m)).

Lemma neutral_idx a f : neutral a f -> forall m, mx_idx (f m) = mx_idx m.
Proof. intros H m. apply H. Qed.

Lemma neutral_status a f :
  (forall m, mx_idx (f m) = mx_idx m) -> (forall m, mx_status (f m) = mx_status m) ->
  (forall m, mx_completion (f m) = mx_completion m) -> neutral a f.
Proof. intros H1 H2 H3 m. split; [done|]. rewrite H2, H3. split; [by repeat constructor|done]. Qed.

Lemma neutral_flag a n :
  0 <= n -> Forall (fun m => n <> m) [0; 1; 3; 9; 10] -> neutral a (mx_set_flag (BIT n)).
Proof.
  intros Hn Hf m. split; [done|]. split; [|done]. eapply Forall_impl; [exact Hf|]. intros k Hk. cbn beta in Hk. destruct (decide (0 <= k)); [|by rewrite !Z.testbit_neg_r by lia]. cbn.
  rewrite testbit_set_flag by lia. replace (n =? k) with false by lia. apply orb_false_r.
Qed.

(** A predicate stable under changes of descriptor [i] survives the filling of
    the descriptor. *)
Lemma send_msg_fill_ind (P : cmd_dispatcher -> Prop) i msg attr mid cur st d :
  (forall f d, neutral attr f -> P d -> P (upd_mx f i d)) ->
  (forall b d, P d -> P (raise_ub b d)) ->
  P d -> P (send_msg_fill d i msg attr mid cur st).
Proof.
  intros Hu Hr Hd.
  assert (forall f d, (forall m, mx_idx (f m) = mx_idx m) -> (forall m, mx_status (f m) = mx_status m) ->
            (forall m, mx_completion (f m) = mx_completion m) -> P d -> P (upd_mx f i d)) as Hs by (intros; apply Hu; [by apply neutral_status|done]).
  assert (forall n d, 0 <= n -> Forall (fun m => n <> m) [0; 1; 3; 9; 10] ->
            P d -> P (upd_mx (mx_set_flag (BIT n)) i d)) as Hf
    by (intros; apply Hu; [by apply neutral_flag|done]).
  assert (forall ids d, P d -> P (add_maps d i ids)) as Ha by (intros; apply Hr; by do 2 (apply Hs; [done..|])).
  assert (forall ids d, P d -> P (clr_maps d i ids)) as Hc by (intros; apply Hr; by do 2 (apply Hs; [done..|])).
  assert (forall m d, P d -> P (set_maps d i m)) as Hm by (intros; by do 2 (apply Hs; [done..|])).
  assert (forall d, P d -> P (set_msg_bitmap d i mid)) as Hb
    by (intros; unfold set_msg_bitmap; case_if; auto).
  assert (forall o ids len d, P d -> P (set_msg_custom_bitmap d i o ids len mid)) as Hcb
    by (intros; unfold set_msg_custom_bitmap; repeat case_if; auto 10).
  unfold send_msg_fill, send_msg_owner, get_module_by_id. set (d1 := set_msg_bitmap _ i mid).
  assert (P d1) as H1 by (apply Hb; by apply Hs). clearbody d1.
  set (d2 := match attr with Some a => _ | None => d1 end). assert (P d2) as H2.
  { unfold d2. destruct attr as [a|]; [|done]. unfold send_msg_attr.
    set (d3 := set_msg_custom_bitmap _ _ _ _ _ _). assert (P d3) as H3 by (by apply Hcb).
    clearbody d3. set (d4 := if completion _ then _ else d3). assert (P d4) as H4.
    { unfold d4. case_if; [|done].
      apply Hu; [intros m; split; [done|]; split; [by repeat constructor|]; cbn; congruence|]. apply (Hf 2); [lia|by repeat constructor|done]. }
    clearbody d4. set (d5 := if TEST_STATUS_FLAG _ MSG_OPT_CLR_SNDR_MSG_IF_PENDING then _ else d4).
    assert (P d5) as H5.
    { unfold d5. case_if; [|done]. apply (Hf 8); [lia|by repeat constructor|done]. }
    clearbody d5. case_if; [|done]. apply (Hf 11); [lia|by repeat constructor|done]. }
  clearbody d2. destruct (search_queues d2 mid (d_module_q d2)) as [r b].
  assert (forall m d, P d -> P (upd_mx (mx_set_flag MSG_STATUS_OWNER_BK_MDL) i
                                   (upd_mx (set_mx_module m) i d))) as Hbk.
  { intros. apply (Hf 6); [lia|by repeat constructor|]. by apply Hs. }
  assert (forall d, P d -> P (upd_mx (mx_set_flag MSG_STATUS_OWNER_REQ) i d)) as Hor.
  { intros. apply (Hf 7); [lia|by repeat constructor|done]. }
  repeat case_if; try destruct r; cbn [fmap option_fmap option_map]; auto.
Qed.

(** The four things a send can come to. *)
Inductive send_outcome (K : kont) (d : cmd_dispatcher) (msg : phl_msg)
    (attr : option phl_msg_attribute) : cmd_dispatcher -> Prop :=
| SendRejected : send_outcome K d msg attr d
| SendNoDescriptor d' :
    pop_front_idle_msg d = (None, d') -> send_outcome K d msg attr d'
| SendFailed i d1 cur st :
    pop_front_idle_msg d = (Some i, d1) ->
    send_outcome K d msg attr
      (push_back_idle_msg K
         (upd_mx (mx_map_id (fun id => SET_MSG_INDC_FIELD id MSG_INDC_FAIL)) i
            (send_msg_fill d1 i msg attr (MSG_MDL_ID_FIELD (msg_id msg)) cur st)) i)
| SendQueued i d1 cur st (abort : bool) :
    pop_front_idle_msg d = (Some i, d1) ->
    let d2 := send_msg_fill d1 i msg attr (MSG_MDL_ID_FIELD (msg_id msg)) cur st in
    let d3 := if abort then d_set_flag DISPR_WAIT_ABORT_MSG_DONE
                              (upd_mx (mx_set_flag MSG_STATUS_FOR_ABORT) i d2) else d2 in
    let d4 := upd_mx (mx_set_flag MSG_STATUS_PRE_PHASE) i d3 in
    send_outcome K d msg attr
      (if IS_DISPR_CTRL (MSG_MDL_ID_FIELD (msg_id msg))
       then insert_msg_by_priority d4 i else push_back_wait_msg d4 i).

Lemma dispr_send_msg_outcome K d msg attr hdl :
  send_outcome K d msg attr (snd (dispr_send_msg K d msg attr hdl)).
Proof.
  unfold dispr_send_msg. destruct (get_cur_cmd_req_id d) as [cur st].
  destruct (d_test d DISPR_STARTED) eqn:Es; [|apply SendRejected]. cbn [negb].
  case_if; [apply SendRejected|]. case_if; [apply SendRejected|]. case_if; [apply SendRejected|].
  destruct (pop_front_idle_msg d) as [[i|] d1] eqn:Ep; [|by apply SendNoDescriptor].
  case_if; [by eapply SendFailed|]. cbn [snd].
  by apply (SendQueued K d msg attr i d1 cur st
           (mx_test (send_msg_fill d1 i msg attr (MSG_MDL_ID_FIELD (msg_id msg)) cur st) i
              MSG_STATUS_OWNER_REQ && TEST_STATUS_FLAG st REQ_STATUS_LAST_PERMIT)).
Qed.

(** ** The interface *)

Class ApiInv {X} (I : X -> cmd_dispatcher -> Prop) := {
  api_log : forall x ev d, I x d -> I x (log ev d);
  api_ub : forall x b d, I x d -> I x (raise_ub b d);
  api_send : forall K x d msg attr hdl,
    (forall ev x d, I x d -> I x (K ev d)) ->
    I x d -> I x (snd (dispr_send_msg K d msg attr hdl));
  api_cancel_msg : forall x d hdl, I x d -> I x (snd (dispr_cancel_msg d hdl));
  api_clr_pending : forall x d, I x d -> I x (dispr_clr_pending_msg d);
  api_add_req : forall x d req hdl, I x d -> I x (snd (dispr_add_token_req d req hdl));
  api_cancel_req : forall x d hdl, I x d -> I x (snd (dispr_cancel_token_req d hdl));
  api_free : forall x d hdl, I x d -> I x (snd (dispr_free_token d hdl));
  api_io : forall x d m b, I x d -> I x (snd (dispr_notify_dev_io_status (fun _ d => d) d m b));
  api_stop : forall x d, I x d -> I x (dispr_notify_shall_stop d) }.

(** Consuming a response of the environment. *)
Class CallInv {X} (I : X -> cmd_dispatcher -> Prop) := {
  call_api :: ApiInv I;
  call_env : forall x e d, I x d -> I x (set_d_env e d) }.

(** Induction over nested calls. *)
Lemma api_call_nested_ind (P : api_call -> Prop) :
  (forall msg attr hdl nested, Forall P nested -> P (ASend msg attr hdl nested)) ->
  (forall c, match c with ASend _ _ _ _ => True | _ => P c end) ->
  forall c, P c.
Proof.
  intros Hs Ho. fix IH 1. intros c. pose proof (Ho c) as Hc. destruct c; try exact Hc.
  apply Hs. induction nested as [|c l IHl]; constructor; [apply IH|exact IHl].
Qed.

Section api.
Context {X} (I : X -> cmd_dispatcher -> Prop) `{!ApiInv I}.

Lemma foldl_inv {A} (f : cmd_dispatcher -> A -> cmd_dispatcher) (P : cmd_dispatcher -> Prop) l :
  Forall (fun a => forall d, P d -> P (f d a)) l -> forall d, P d -> P (foldl f d l).
Proof. induction 1; simpl; auto. Qed.

Lemma exec_call_inv c : forall x d, I x d -> I x (exec_call c d).
Proof.
  revert c. apply (api_call_nested_ind (fun c => forall x d, I x d -> I x (exec_call c d))).
  - intros msg attr hdl nested IH x d H. simpl. apply api_send; [|done]. intros ev x' d' H'.
    apply foldl_inv; [|by apply api_log]. eapply Forall_impl; [exact IH|]. auto.
  - intros c. destruct c; [done|..]; intros x d H; simpl;
      [apply api_cancel_msg|apply api_clr_pending|apply api_add_req|apply api_cancel_req
      |apply api_free|apply api_io|apply api_stop]; done.
Qed.

Lemma exec_calls_inv l x d : I x d -> I x (exec_calls l d).
Proof. apply (foldl_inv _ (I x)). apply Forall_forall. intros. by apply exec_call_inv. Qed.

(** A call out of the dispatcher preserves every API invariant. *)
Lemma callback_inv `{!CallInv I} ev x d : I x d -> I x (snd (callback ev d)).
Proof.
  intros H. unfold callback. destruct (d_env (log ev d)) as [|r env]; simpl.
  - by apply api_log.
  - by apply exec_calls_inv, call_env, api_log.
Qed.

Lemma cbk_inv `{!CallInv I} ev x d : I x d -> I x (cbk ev d).
Proof. by apply callback_inv. Qed.
End api.

(** ** Token operations *)

(** A predicate that reads neither the operation records nor their queue nor
    the wake-up counter survives an enqueued operation. *)
Lemma enqueue_op_ind (P : cmd_dispatcher -> Prop) d r ty x :
  (forall v r d, P d -> P (set_op_info v r d)) ->
  (forall q d, P d -> P (set_d_token_op_q q d)) ->
  (forall w d, P d -> P (set_d_wake w d)) ->
  P d -> P (snd (dispr_enqueue_token_op_info d r ty x)).
Proof.
  intros Ho Hq Hw Hd. unfold dispr_enqueue_token_op_info, push_back_token_op_info, notify_bk_thread.
  case_if; simpl; auto.
Qed.

(** ** The message pool *)

Section msg.
Implicit Types (d : cmd_dispatcher) (h : list nat) (i : nat).

Lemma msg_inv_enqueue h d r ty x :
  msg_inv h d -> msg_inv h (snd (dispr_enqueue_token_op_info d r ty x)).
Proof. apply enqueue_op_ind; [intros v [] d1|..]; done. Qed.

Lemma mx_len h d : msg_inv h d -> length (d_msg_ex_pool d) = MAX_PHL_MSG_NUM.
Proof. intros H. apply H. Qed.

Lemma msg_inv_push_back_idle K h d i :
  (forall ev d, msg_inv (i :: h) d -> msg_inv (i :: h) (K ev d)) ->
  msg_inv (i :: h) d -> msg_inv h (push_back_idle_msg K d i).
Proof.
  intros HK H. unfold push_back_idle_msg.
  assert (forall f d, (forall m, mx_idx (f m) = mx_idx m) ->
            msg_inv (i :: h) d -> msg_inv (i :: h) (upd_mx f i d)) as Hu.
  { intros. apply msg_inv_upd_held; auto. apply list_elem_of_here. }
  set (d1 := if _ && _ then _ else d). assert (msg_inv (i :: h) d1) as H1.
  { unfold d1. case_if; [|done]. apply Hu; [done|]. apply HK. case_if; auto. }
  clearbody d1. set (d2 := if mx_test d1 i _ then _ else d1).
  assert (msg_inv (i :: h) d2) as H2.
  { unfold d2. case_if; [|done]. by apply msg_inv_enqueue. }
  clearbody d2. set (d3 := upd_mx (set_mx_status 0) i d2).
  set (d4 := if _ =? _ then _ else d3). assert (msg_inv (i :: h) d4 /\ mx_status (mx d4 i) = 0) as [H4 Hs].
  { assert (msg_inv (i :: h) d3) as H3 by (apply Hu; done).
    assert (mx_status (mx d3 i) = 0).
    { unfold d3. rewrite mx_upd, decide_True; [done|]. split; [done|].
      rewrite (mx_len _ _ H2). apply (msg_ok_lt H2). set_solver. }
    unfold d4. case_if; done. }
  clearbody d4. apply msg_inv_push_idle.
  - apply Hu; done.
  - unfold idle_bits. rewrite mx_upd. case_decide as Hd; [done|].
    destruct Hd. split; [done|]. rewrite (mx_len _ _ H4). apply (msg_ok_lt H4). set_solver.
Qed.

Lemma msg_inv_fill h d i msg attr mid cur st :
  msg_inv (i :: h) d -> msg_inv (i :: h) (send_msg_fill d i msg attr mid cur st).
Proof.
  apply send_msg_fill_ind; [|done]. intros f d' Hf.
  apply msg_inv_upd_held; [apply list_elem_of_here|]. by eapply neutral_idx.
Qed.

Lemma msg_inv_send K h d msg attr hdl :
  (forall ev h d, msg_inv h d -> msg_inv h (K ev d)) ->
  msg_inv h d -> msg_inv h (snd (dispr_send_msg K d msg attr hdl)).
Proof.
  intros HK H. destruct (dispr_send_msg_outcome K d msg attr hdl)
    as [|d' E|i d1 cur st E|i d1 cur st ab E d2 d3 d4].
  - done.
  - by eapply msg_inv_pop_idle_None.
  - apply msg_inv_push_back_idle; [auto|]. apply msg_inv_upd_held; [apply list_elem_of_here|done|].
    apply msg_inv_fill. by eapply msg_inv_pop_idle.
  - assert (msg_inv (i :: h) d4).
    { apply msg_inv_upd_held; [apply list_elem_of_here|done|].
      assert (msg_inv (i :: h) d2) by (apply msg_inv_fill; by eapply msg_inv_pop_idle).
      unfold d3. destruct ab; [|done].
      apply (msg_inv_upd_held _ d2); [apply list_elem_of_here|done|done]. }
    case_if; auto with phl_inv.
Qed.

(** Cancelling touches no descriptor of the idle queue. *)
Lemma msg_inv_cancel h d i :
  i ∉ q_queue (d_msg_idle_q d) -> msg_inv h d -> msg_inv h (cancel_msg d i).
Proof.
  intros Hi H. unfold cancel_msg.
  apply msg_inv_upd_queued; [done|done|intros m; apply enq_bits_set_flag; lia|].
  by do 2 (apply msg_inv_upd_queued; [done|done|by intros m|]).
Qed.

Lemma msg_not_idle h d i n :
  0 <= n -> msg_inv h d -> mx_test d i (BIT n) = true -> i ∉ q_queue (d_msg_idle_q d).
Proof.
  intros Hn H Ht Hi. apply (mo_idle _ _ _ _ _ H) in Hi as [Hs _].
  unfold mx_test in Ht. rewrite test_flag_bit in Ht by lia. unfold mx in Ht.
  by rewrite Hs, Z.testbit_0_l in Ht.
Qed.

Lemma msg_inv_cancel_api h d hdl : msg_inv h d -> msg_inv h (snd (dispr_cancel_msg d hdl)).
Proof.
  intros H. unfold dispr_cancel_msg. destruct hdl as [hdl|]; [|done].
  case_if; [done|]. case_if; [done|]. case_if; [done|]. simpl.
  apply msg_inv_cancel; [|done]. rewrite andb_false_iff, !negb_false_iff in E1.
  destruct E1 as [E1|E1]; [apply (msg_not_idle h d _ 0)|apply (msg_not_idle h d _ 1)]; done.
Qed.

Lemma msg_inv_frame h d d' :
  d_msg_ex_pool d' = d_msg_ex_pool d -> d_msg_idle_q d' = d_msg_idle_q d ->
  d_msg_wait_q d' = d_msg_wait_q d -> d_msg_pend_q d' = d_msg_pend_q d ->
  msg_inv h d -> msg_inv h d'.
Proof. unfold msg_inv. by intros -> -> -> ->. Qed.

Lemma msg_inv_add_req h d req hdl : msg_inv h d -> msg_inv h (snd (dispr_add_token_req d req hdl)).
Proof.
  intros H. unfold dispr_add_token_req. destruct req as [r|], hdl as [hd|]; try exact H.
  case_if; [exact H|]. case_if; [exact H|].
  destruct (pop_front_idle_req d) as [o d1] eqn:Ep.
  assert (msg_inv h d1) as H1.
  { revert Ep. unfold pop_front_idle_req.
    destruct (pq_pop (d_token_req_idle_q d) _first) as [[k|] q]; intros [= <- <-];
      by apply (msg_inv_frame h d). }
  clear Ep. destruct o as [k|]; [|exact H1]. cbn [snd]. apply msg_inv_enqueue.
  by apply (msg_inv_frame h d1).
Qed.

Lemma msg_inv_req_op h d k f r ty x :
  msg_inv h d -> msg_inv h (snd (dispr_enqueue_token_op_info (upd_rx f k d) r ty x)).
Proof. intros H. apply msg_inv_enqueue. by apply (msg_inv_frame h d). Qed.

Lemma msg_inv_cancel_req h d hdl : msg_inv h d -> msg_inv h (snd (dispr_cancel_token_req d hdl)).
Proof.
  intros H. unfold dispr_cancel_token_req. destruct hdl as [hd|]; [|exact H].
  do 3 (case_if; [exact H|]).
  match goal with |- context [dispr_enqueue_token_op_info (upd_rx ?f ?k d) ?r ?t ?x] =>
    pose proof (msg_inv_req_op h d k f r t x H) as H1;
    destruct (dispr_enqueue_token_op_info (upd_rx f k d) r t x) as [[] d1] end; exact H1.
Qed.

Lemma msg_inv_free h d hdl : msg_inv h d -> msg_inv h (snd (dispr_free_token d hdl)).
Proof.
  intros H. unfold dispr_free_token. destruct hdl as [hd|]; [|exact H].
  do 3 (case_if; [exact H|]).
  match goal with |- context [dispr_enqueue_token_op_info (upd_rx ?f ?k d) ?r ?t ?x] =>
    pose proof (msg_inv_req_op h d k f r t x H) as H1;
    destruct (dispr_enqueue_token_op_info (upd_rx f k d) r t x) as [[] d1] end; exact H1.
Qed.
End msg.

(** The two branches of [dispr_notify_dev_io_status] that do something. *)
Lemma notify_dev_io_ind (P : cmd_dispatcher -> Prop) d m b :
  (forall d, P d -> P (d_set_flag DISPR_CANNOT_IO d)) ->
  (forall d, P d -> P (d_clear_flag DISPR_CANNOT_IO d)) ->
  (forall v d, P d -> P (set_d_exclusive_mdl v d)) ->
  (forall msg d, P d -> P (snd (dispr_send_msg (fun _ d => d) d msg (Some zero_attr) None))) ->
  (forall d, P d -> P (dispr_clr_pending_msg d)) ->
  P d -> P (snd (dispr_notify_dev_io_status (fun _ d => d) d m b)).
Proof.
  intros Hs Hs' He Hsend Hc Hd.
  assert (forall d b, P d -> P (snd (send_dev_io_status_change (fun _ d => d) d b))) as Hch.
  { intros d0 b0 H0. unfold send_dev_io_status_change.
    match goal with |- context [dispr_send_msg ?K ?d ?m ?a ?x] =>
      pose proof (Hsend m d H0) as H1; destruct (dispr_send_msg K d m a x) as [[? ?] ?] end.
    exact H1. }
  unfold dispr_notify_dev_io_status. destruct b; cbn [negb]; case_if; auto.
  match goal with |- context [send_dev_io_status_change ?K ?d ?b] =>
      pose proof (Hch d b (He _ _ (Hs' _ Hd))) as H1;
      destruct (send_dev_io_status_change K d b) as [? ?] end. apply Hc, H1.
Qed.

#[export] Instance msg_inv_api : ApiInv msg_inv.
Proof.
  split.
  - intros h ev d. by apply msg_inv_frame.
  - intros h ev d. by apply msg_inv_frame.
  - intros. by apply msg_inv_send.
  - intros. by apply msg_inv_cancel_api.
  - intros h d. by apply msg_inv_frame.
  - intros. by apply msg_inv_add_req.
  - intros. by apply msg_inv_cancel_req.
  - intros. by apply msg_inv_free.
  - intros h d m b. apply notify_dev_io_ind; try (intros; by apply msg_inv_send).
    + intros d'. by apply msg_inv_frame.
    + intros d'. by apply msg_inv_frame.
    + intros v d'. by apply msg_inv_frame.
    + intros d'. by apply msg_inv_frame.
  - intros h d. unfold dispr_notify_shall_stop. case_if; [|done]. by apply msg_inv_frame.
Qed.

#[export] Instance msg_inv_call : CallInv msg_inv.
Proof. split; [apply _|]. intros h e d. by apply msg_inv_frame. Qed.

(** ** Predicates that do not read the message side *)

(** Stability under everything a send or a release does. *)
Record msg_blind (P : cmd_dispatcher -> Prop) : Prop := {
  mb_mx : forall f i d, P d -> P (upd_mx f i d);
  mb_ub : forall b d, P d -> P (raise_ub b d);
  mb_idle : forall q d, P d -> P (set_d_msg_idle_q q d);
  mb_info : forall v d, P d -> P (set_d_mdl_info v d);
  mb_abort : forall d, P d -> P (d_set_flag DISPR_WAIT_ABORT_MSG_DONE d);
  mb_abort_done : forall d, P d -> P (on_abort_msg_complete d);
  mb_push_wait : forall d i, P d -> P (push_back_wait_msg d i);
  mb_insert : forall d i, P d -> P (insert_msg_by_priority d i) }.

(** The steps of [push_back_idle_msg]. *)
Lemma push_back_idle_ind (P : cmd_dispatcher -> Prop) K d i :
  (forall f d, P d -> P (upd_mx f i d)) -> (forall v d, P d -> P (set_d_mdl_info v d)) ->
  (forall d, P d -> P (on_abort_msg_complete d)) -> (forall ev d, P d -> P (K ev d)) ->
  P d ->
  exists d', P d' /\
    push_back_idle_msg K d i = set_d_msg_idle_q (pq_push (d_msg_idle_q d') i _tail) d'.
Proof.
  intros Hu Hi Ha HK H. unfold push_back_idle_msg.
  set (d1 := if _ && _ then _ else d). assert (P d1) as H1.
  { unfold d1. case_if; [|done]. apply Hu, HK. case_if; auto. }
  clearbody d1. set (d2 := if mx_test d1 i _ then _ else d1). assert (P d2) as H2.
  { unfold d2. case_if; [|done]. by apply Ha. }
  clearbody d2. eexists. split; [|done]. apply Hu. set (d3 := upd_mx (set_mx_status 0) i d2).
  assert (P d3) by (by apply Hu). case_if; [|done]. by apply Hi.
Qed.

Section blind.
Context (P : cmd_dispatcher -> Prop) (HP : msg_blind P).

Lemma blind_push_back_idle K d i :
  (forall ev d, P d -> P (K ev d)) -> P d -> P (push_back_idle_msg K d i).
Proof.
  intros HK H. destruct (push_back_idle_ind P K d i) as (d' & Hd & ->); [| | |done|done|].
  - intros f d'. apply (mb_mx _ HP).
  - apply (mb_info _ HP).
  - apply (mb_abort_done _ HP).
  - by apply (mb_idle _ HP).
Qed.

Lemma blind_pop_idle d r d' : pop_front_idle_msg d = (r, d') -> P d -> P d'.
Proof.
  unfold pop_front_idle_msg. intros E H.
  destruct (pq_pop (d_msg_idle_q d) _first) as [[i|] q]; injection E as <- <-;
    [apply (mb_mx _ HP)|]; by apply (mb_idle _ HP).
Qed.

Lemma blind_fill d i msg attr mid cur st : P d -> P (send_msg_fill d i msg attr mid cur st).
Proof.
  apply send_msg_fill_ind; [intros; by apply (mb_mx _ HP)|intros; by apply (mb_ub _ HP)].
Qed.

Lemma blind_send K d msg attr hdl :
  (forall ev d, P d -> P (K ev d)) -> P d -> P (snd (dispr_send_msg K d msg attr hdl)).
Proof.
  intros HK H. destruct (dispr_send_msg_outcome K d msg attr hdl)
    as [|d' E|i d1 cur st E|i d1 cur st ab E d2 d3 d4].
  - done.
  - by eapply blind_pop_idle.
  - apply blind_push_back_idle; [done|]. apply (mb_mx _ HP), blind_fill. by eapply blind_pop_idle.
  - assert (P d4).
    { apply (mb_mx _ HP). assert (P d2) by (apply blind_fill; by eapply blind_pop_idle).
      unfold d3. destruct ab; [|done]. by apply (mb_abort _ HP), (mb_mx _ HP). }
    case_if; [by apply (mb_insert _ HP)|by apply (mb_push_wait _ HP)].
Qed.
End blind.

(** ** The request pool *)

Section req.
Implicit Types (d : cmd_dispatcher) (g : req_ghost) (k : nat).

Lemma req_inv_frame g d d' :
  d_token_req_ex_pool d' = d_token_req_ex_pool d ->
  d_token_req_idle_q d' = d_token_req_idle_q d -> d_token_req_wait_q d' = d_token_req_wait_q d ->
  d_cur_cmd_req d' = d_cur_cmd_req d -> d_token_cnt d' = d_token_cnt d ->
  req_inv g d -> req_inv g d'.
Proof. unfold req_inv. by intros -> -> -> -> ->. Qed.

Lemma req_inv_enqueue g d r ty x :
  req_inv g d -> req_inv g (snd (dispr_enqueue_token_op_info d r ty x)).
Proof.
  apply enqueue_op_ind.
  - intros v [k|k|] d1; simpl; [apply req_inv_upd_op; done..|]. by apply req_inv_frame.
  - intros q d1. by apply req_inv_frame.
  - intros w d1. by apply req_inv_frame.
Qed.

Lemma req_inv_blind g : msg_blind (req_inv g).
Proof.
  split; try (intros; eapply req_inv_frame; done).
  intros d H. apply req_inv_enqueue. by apply (req_inv_frame g d).
Qed.

Lemma req_inv_add_req g d req hdl : req_inv g d -> req_inv g (snd (dispr_add_token_req d req hdl)).
Proof.
  intros H. unfold dispr_add_token_req. destruct req as [r|], hdl as [hd|]; try exact H.
  destruct (chk_cmd_req_ops (Some r)) eqn:Ec; [|by rewrite orb_true_r].
  case_if; [exact H|]. case_if; [exact H|].
  destruct (pop_front_idle_req d) as [[k|] d1] eqn:Ep; [|by eapply req_inv_pop_idle_None].
  cbn [snd]. apply req_inv_enqueue. eapply req_inv_add; [exact Ep| |exact H].
  unfold chk_cmd_req_ops in Ec. rewrite !andb_true_iff in Ec. lia.
Qed.

Lemma rx_not_idle g d k n :
  0 <= n -> req_inv g d -> rx_test d k (BIT n) = true -> k ∉ q_queue (d_token_req_idle_q d).
Proof.
  intros Hn H Ht. apply (req_ok_not_idle H). rewrite rx_test_bit in Ht by lia.
  unfold rq_bit, rx in Ht. intros Hs. by rewrite Hs, Z.testbit_0_l in Ht.
Qed.

Lemma req_inv_cancel_req g d hdl : req_inv g d -> req_inv g (snd (dispr_cancel_token_req d hdl)).
Proof.
  intros H. unfold dispr_cancel_token_req. destruct hdl as [hd|]; [|exact H].
  case_if; [exact H|]. case_if; [exact H|]. case_if; [exact H|].
  set (k := Z.to_nat (GET_IDX_FROM_HDL hd)) in *.
  assert (k ∉ q_queue (d_token_req_idle_q d)) as Hk.
  { rewrite !andb_false_iff, !negb_false_iff in E1. destruct E1 as [[E1|E1]|E1];
      [apply (rx_not_idle g d k 0)|apply (rx_not_idle g d k 1)|apply (rx_not_idle g d k 4)]; done. }
  match goal with |- context [dispr_enqueue_token_op_info ?d1 ?r ?t ?x] =>
    pose proof (req_inv_enqueue g d1 r t x) as H1;
    destruct (dispr_enqueue_token_op_info d1 r t x) as [[] d2] end;
  apply H1, (req_inv_set_flag g d 2); done.
Qed.

Lemma req_inv_free g d hdl : req_inv g d -> req_inv g (snd (dispr_free_token d hdl)).
Proof.
  intros H. unfold dispr_free_token. destruct hdl as [hd|]; [|exact H].
  case_if; [exact H|]. case_if; [exact H|]. case_if; [exact H|].
  set (k := Z.to_nat (GET_IDX_FROM_HDL hd)) in *.
  assert (k ∉ q_queue (d_token_req_idle_q d)) as Hk.
  { rewrite !andb_false_iff, !negb_false_iff in E1. destruct E1 as [E1|E1];
      [apply (rx_not_idle g d k 1)|apply (rx_not_idle g d k 4)]; done. }
  match goal with |- context [dispr_enqueue_token_op_info ?d1 ?r ?t ?x] =>
    pose proof (req_inv_enqueue g d1 r t x) as H1;
    destruct (dispr_enqueue_token_op_info d1 r t x) as [[] d2] end;
  apply H1, (req_inv_set_flag g d 2); done.
Qed.
End req.

#[export] Instance req_inv_api : ApiInv req_inv.
Proof.
  split.
  - intros g ev d. by apply req_inv_frame.
  - intros g ev d. by apply req_inv_frame.
  - intros K g d msg attr hdl HK. apply (blind_send _ (req_inv_blind g)). auto.
  - intros g d hdl H. unfold dispr_cancel_msg. destruct hdl; [|done].
    repeat case_if; done.
  - intros g d. by apply req_inv_frame.
  - intros. by apply req_inv_add_req.
  - intros. by apply req_inv_cancel_req.
  - intros. by apply req_inv_free.
  - intros g d m b. apply notify_dev_io_ind; try (intros; eapply req_inv_frame; done).
    intros. by apply (blind_send _ (req_inv_blind g)).
  - intros g d. unfold dispr_notify_shall_stop. case_if; [|done]. by apply req_inv_frame.
Qed.

#[export] Instance req_inv_call : CallInv req_inv.
Proof. split; [apply _|]. intros g e d. by apply req_inv_frame. Qed.

(** ** Wake-ups *)

(** What the background thread has to do, in units of wake-ups: a message or a
    token operation each, and one for the request to resume pending messages. *)
Definition work (d : cmd_dispatcher) : Z :=
  Z.of_nat (length (q_queue (d_msg_wait_q d))) + Z.of_nat (length (q_queue (d_token_op_q d))) +
  Z.b2z (d_test d DISPR_CLR_PEND_MSG).

(** The signals given cover the work, up to the offset [fst n], and at least
    [snd n] messages wait. *)
Definition wake_inv (n : Z * Z) (d : cmd_dispatcher) : Prop :=
  work d <= d_wake d + n.1 /\ n.2 <= Z.of_nat (length (q_queue (d_msg_wait_q d))).

Section wake.
Implicit Types (d : cmd_dispatcher) (n : Z * Z).

Lemma wake_inv_frame n d d' :
  d_msg_wait_q d' = d_msg_wait_q d -> d_token_op_q d' = d_token_op_q d ->
  d_test d' DISPR_CLR_PEND_MSG = d_test d DISPR_CLR_PEND_MSG -> d_wake d' = d_wake d ->
  wake_inv n d -> wake_inv n d'.
Proof. unfold wake_inv, work. by intros -> -> -> ->. Qed.

Lemma wake_inv_eq n d d' :
  d_msg_wait_q d' = d_msg_wait_q d -> d_token_op_q d' = d_token_op_q d ->
  d_status d' = d_status d -> d_wake d' = d_wake d -> wake_inv n d -> wake_inv n d'.
Proof. unfold wake_inv, work, d_test. by intros -> -> -> ->. Qed.

Lemma d_test_set m b d : 0 <= m -> 0 <= b -> m <> b -> d_test (d_set_flag (BIT m) d) (BIT b) = d_test d (BIT b).
Proof.
  intros. unfold d_test, d_set_flag. simpl. rewrite !test_flag_bit, testbit_set_flag by lia.
  replace (m =? b) with false by lia. by rewrite orb_false_r.
Qed.

Lemma d_test_clear m b d :
  0 <= m -> 0 <= b -> m <> b -> d_test (d_clear_flag (BIT m) d) (BIT b) = d_test d (BIT b).
Proof.
  intros. unfold d_test, d_clear_flag. simpl. rewrite !test_flag_bit, testbit_clear_flag by lia.
  replace (m =? b) with false by lia. by rewrite andb_true_r.
Qed.

Lemma d_test_set_same m d : 0 <= m -> d_test (d_set_flag (BIT m) d) (BIT m) = true.
Proof.
  intros. unfold d_test, d_set_flag. simpl. rewrite !test_flag_bit, testbit_set_flag by lia.
  by rewrite Z.eqb_refl, orb_true_r.
Qed.

Lemma d_test_clear_same m d : 0 <= m -> d_test (d_clear_flag (BIT m) d) (BIT m) = false.
Proof.
  intros. unfold d_test, d_clear_flag. simpl. rewrite !test_flag_bit, testbit_clear_flag by lia.
  by rewrite Z.eqb_refl, andb_false_r.
Qed.

Lemma wake_inv_enqueue n d r ty x :
  wake_inv n d -> wake_inv n (snd (dispr_enqueue_token_op_info d r ty x)).
Proof.
  unfold dispr_enqueue_token_op_info, push_back_token_op_info. case_if; [done|].
  unfold wake_inv, work, notify_bk_thread, d_test. intros [? ?]. destruct r; simpl;
    rewrite length_app; simpl; lia.
Qed.

Lemma wake_inv_push_wait n d i : wake_inv n d -> wake_inv n (push_back_wait_msg d i).
Proof.
  unfold wake_inv, work, d_test. intros [? ?]. simpl. rewrite length_app. simpl. lia.
Qed.

Lemma wake_inv_insert n d i : wake_inv n d -> wake_inv n (insert_msg_by_priority d i).
Proof.
  unfold wake_inv, work, d_test. intros [? ?]. simpl.
  rewrite (Permutation_length (insert_before_perm _ _ _)). simpl. lia.
Qed.

Lemma wake_inv_clr_pending n d : wake_inv n d -> wake_inv n (dispr_clr_pending_msg d).
Proof.
  unfold wake_inv, work.
  change (d_test (dispr_clr_pending_msg d) DISPR_CLR_PEND_MSG)
    with (d_test (d_set_flag (BIT 6) d) (BIT 6)).
  rewrite d_test_set_same by lia. intros [? ?]. simpl. destruct (d_test d DISPR_CLR_PEND_MSG); simpl in *; lia.
Qed.

Lemma wake_inv_blind n : msg_blind (wake_inv n).
Proof.
  split; try (intros; eapply wake_inv_eq; done).
  - intros d. apply wake_inv_frame; try done. by apply d_test_set.
  - intros d H. apply wake_inv_enqueue. revert H. apply wake_inv_frame; try done. by apply d_test_clear.
  - apply wake_inv_push_wait.
  - apply wake_inv_insert.
Qed.

Lemma wake_inv_req_op n d k f r ty x :
  wake_inv n d -> wake_inv n (snd (dispr_enqueue_token_op_info (upd_rx f k d) r ty x)).
Proof. intros H. apply wake_inv_enqueue. by apply (wake_inv_eq n d). Qed.
End wake.

Lemma wake_inv_cancel_api n d hdl : wake_inv n d -> wake_inv n (snd (dispr_cancel_msg d hdl)).
Proof.
  intros H. unfold dispr_cancel_msg. destruct hdl as [hd|]; [|exact H].
  do 3 (case_if; [exact H|]). by apply (wake_inv_eq n d).
Qed.

Lemma wake_inv_add_req n d req hdl :
  wake_inv n d -> wake_inv n (snd (dispr_add_token_req d req hdl)).
Proof.
  intros H. unfold dispr_add_token_req. destruct req as [r|], hdl as [hd|]; try exact H.
  case_if; [exact H|]. case_if; [exact H|]. destruct (pop_front_idle_req d) as [o d1] eqn:Ep.
  assert (wake_inv n d1) as H1.
  { revert Ep. unfold pop_front_idle_req.
    destruct (pq_pop (d_token_req_idle_q d) _first) as [[k|] q]; intros [= <- <-];
      by apply (wake_inv_eq n d). }
  clear Ep. destruct o as [k|]; [|exact H1]. cbn [snd]. apply wake_inv_enqueue.
  by apply (wake_inv_eq n d1).
Qed.

Lemma wake_inv_cancel_req n d hdl : wake_inv n d -> wake_inv n (snd (dispr_cancel_token_req d hdl)).
Proof.
  intros H. unfold dispr_cancel_token_req. destruct hdl as [hd|]; [|exact H].
  do 3 (case_if; [exact H|]).
  match goal with |- context [dispr_enqueue_token_op_info (upd_rx ?f ?k d) ?r ?t ?x] =>
    pose proof (wake_inv_req_op n d k f r t x H) as H1;
    destruct (dispr_enqueue_token_op_info (upd_rx f k d) r t x) as [[] d1] end; exact H1.
Qed.

Lemma wake_inv_free n d hdl : wake_inv n d -> wake_inv n (snd (dispr_free_token d hdl)).
Proof.
  intros H. unfold dispr_free_token. destruct hdl as [hd|]; [|exact H].
  do 3 (case_if; [exact H|]).
  match goal with |- context [dispr_enqueue_token_op_info (upd_rx ?f ?k d) ?r ?t ?x] =>
    pose proof (wake_inv_req_op n d k f r t x H) as H1;
    destruct (dispr_enqueue_token_op_info (upd_rx f k d) r t x) as [[] d1] end; exact H1.
Qed.

Lemma wake_inv_io n d m b :
  wake_inv n d -> wake_inv n (snd (dispr_notify_dev_io_status (fun _ d => d) d m b)).
Proof.
  apply notify_dev_io_ind.
  - intros d'. apply wake_inv_frame; try done. by apply d_test_set.
  - intros d'. apply wake_inv_frame; try done. by apply d_test_clear.
  - intros v d'. by apply wake_inv_eq.
  - intros. by apply (blind_send _ (wake_inv_blind n)).
  - apply wake_inv_clr_pending.
Qed.

#[export] Instance wake_inv_api : ApiInv wake_inv.
Proof.
  split; [| | |apply wake_inv_cancel_api|apply wake_inv_clr_pending|apply wake_inv_add_req
         |apply wake_inv_cancel_req|apply wake_inv_free|apply wake_inv_io|].
  - intros n ev d. by apply wake_inv_eq.
  - intros n ev d. by apply wake_inv_eq.
  - intros K n d msg attr hdl HK. apply (blind_send _ (wake_inv_blind n)). auto.
  - intros n d H. unfold dispr_notify_shall_stop. case_if; [|done]. apply wake_inv_clr_pending.
    revert H. apply wake_inv_frame; try done. by apply d_test_set.
Qed.

#[export] Instance wake_inv_call : CallInv wake_inv.
Proof. split; [apply _|]. intros n e d. by apply wake_inv_eq. Qed.

(** ** A stopped dispatcher *)

(** Once [DISPR_STARTED] is cleared no call queues a message or a request. *)
Definition stop_inv
    (x : phl_queue nat * phl_queue nat * phl_queue nat * phl_queue nat * phl_queue nat * option nat)
    (d : cmd_dispatcher) : Prop :=
  d_test d DISPR_STARTED = false /\
  x = (d_msg_idle_q d, d_msg_wait_q d, d_msg_pend_q d, d_token_req_idle_q d,
       d_token_req_wait_q d, d_cur_cmd_req d).

#[export] Instance stop_inv_api : ApiInv stop_inv.
Proof.
  assert (forall K x d msg attr hdl, stop_inv x d ->
            stop_inv x (snd (dispr_send_msg K d msg attr hdl))) as Hsend.
  { intros K x d msg attr hdl [Hs Hx]. unfold dispr_send_msg.
    destruct (get_cur_cmd_req_id d). rewrite Hs. done. }
  split.
  - done.
  - done.
  - auto.
  - intros x d hdl [Hs Hx]. unfold dispr_cancel_msg. destruct hdl; [|done]. by rewrite Hs.
  - intros x d [Hs Hx]. split; [|done]. rewrite <- Hs. by apply d_test_set.
  - intros x d req hdl [Hs Hx]. unfold dispr_add_token_req. destruct req, hdl; try done. by rewrite Hs.
  - intros x d hdl [Hs Hx]. unfold dispr_cancel_token_req. destruct hdl; [|done]. by rewrite Hs.
  - intros x d hdl [Hs Hx]. unfold dispr_free_token. destruct hdl; [|done]. by rewrite Hs.
  - intros x d m b. apply notify_dev_io_ind; auto.
    + intros d' [Hs Hx]. split; [|done]. rewrite <- Hs. by apply d_test_set.
    + intros d' [Hs Hx]. split; [|done]. rewrite <- Hs. by apply d_test_clear.
    + intros d' [Hs Hx]. split; [|done]. rewrite <- Hs. by apply d_test_set.
  - intros x d [Hs Hx]. unfold dispr_notify_shall_stop. case_if; [|done]. split; [|done].
    rewrite <- Hs. transitivity (d_test (d_set_flag DISPR_SHALL_STOP d) DISPR_STARTED);
      by apply d_test_set.
Qed.

#[export] Instance stop_inv_call : CallInv stop_inv.
Proof. split; [apply _|]. done. Qed.
