(* ===== verification/DispThreadInv.v ===== *)
(** * The dispatcher thread keeps the invariants

    Every path of the background thread (resuming pending messages, token
    operations, registration and removal of the running request, dispatch of a
    message through the phases, the leave handler) keeps the pool invariants,
    for every behaviour of the modules, of the requests and of the threads that
    call the API meanwhile. *)

From S2P Require Import Prelude PhlQueue PhlDef DispState DispApi DispThread DispInv DispApiInv.

(** ** Resuming pending messages *)

Lemma msg_inv_clear_loop h fuel : forall d, msg_inv h d -> msg_inv h (clear_pending_loop fuel d).
Proof.
  induction fuel as [|fuel IH]; intros d H; [done|]. simpl.
  destruct (pop_front_pending_msg d) as [[i|] d1] eqn:E.
  - apply IH. apply (msg_inv_pop_pend h d i d1 E) in H. case_if; auto with phl_inv.
  - revert E. unfold pop_front_pending_msg.
    destruct (pq_pop (d_msg_pend_q d) _first) as [r q] eqn:Eq. intros [= -> <-].
    by apply pq_pop_None in Eq as ->.
Qed.

Lemma msg_inv_clear_pending h d : msg_inv h d -> msg_inv h (clear_pending_msg d).
Proof.
  intros H. unfold clear_pending_msg. case_if; [done|]. apply msg_inv_clear_loop.
  by apply (msg_inv_frame h d).
Qed.

(** Predicates that read neither the descriptors nor the pending queue. *)
Lemma clear_loop_ind (P : cmd_dispatcher -> Prop) fuel :
  (forall q d, P d -> P (set_d_msg_pend_q q d)) ->
  (forall d i, P d -> P (push_back_wait_msg d i)) ->
  (forall d i, P d -> P (insert_msg_by_priority d i)) ->
  forall d, P d -> P (clear_pending_loop fuel d).
Proof.
  intros Hq Hw Hi. induction fuel as [|fuel IH]; intros d H; [done|]. simpl.
  unfold pop_front_pending_msg. destruct (pq_pop (d_msg_pend_q d) _first) as [[i|] q]; [|auto].
  apply IH. case_if; auto.
Qed.

(** The loop runs until the pending queue is empty. *)
Lemma clear_loop_drains h fuel : forall d,
  msg_inv h d -> (length (q_queue (d_msg_pend_q d)) <= fuel)%nat ->
  q_queue (d_msg_pend_q (clear_pending_loop fuel d)) = [].
Proof.
  induction fuel as [|fuel IH]; intros d H Hl; simpl.
  - by apply length_zero_iff_nil; lia.
  - destruct (pop_front_pending_msg d) as [[i|] d1] eqn:E.
    + apply (msg_inv_pop_pend h d i d1 E) in H as H1.
      revert E. unfold pop_front_pending_msg.
      destruct (pq_pop (d_msg_pend_q d) _first) as [r q] eqn:Eq. intros [= -> <-].
      apply pq_pop_Some in Eq as [Eq _]. rewrite Eq in Hl. simpl in Hl.
      apply IH; [case_if; auto with phl_inv|]. case_if; simpl; lia.
    + revert E. unfold pop_front_pending_msg.
      destruct (pq_pop (d_msg_pend_q d) _first) as [r q] eqn:Eq. intros [= -> <-].
      apply pq_pop_empty in Eq as Hq; [|apply H]. apply pq_pop_None in Eq as ->. done.
Qed.

(** ** Dispatch *)

(** What a predicate must tolerate to hold through the handling of message
    [i], and what the three ways out of it must establish. *)
Section dispatch.
Context (P Q : cmd_dispatcher -> Prop) (i : nat).
Context (Hu : forall f d, (forall m, mx_idx (f m) = mx_idx m) -> P d -> P (upd_mx f i d)).
Context (Hr : forall b d, P d -> P (raise_ub b d)).
Context (Hc : forall ev d, P d -> P (snd (callback ev d))).
Context (Hrec : forall d, P d -> Q (push_back_idle_msg cbk d i)).
Context (Hpend : forall d, P d -> Q (push_back_pending_msg d i)).
Context (Hwait : forall d, P d -> Q (push_back_wait_msg d i)).

Ltac stable :=
  repeat first [ assumption | apply Hu; [done|] | apply Hr | apply Hc ].

Lemma cur_req_hdl_ind d : P d -> P (cur_req_hdl d i).
Proof. intros H. unfold cur_req_hdl. destruct (d_cur_cmd_req d); [|done]. repeat case_if; stable. Qed.

Lemma notify_msg_fail_ind d ret : P d -> P (notify_msg_fail d i ret).
Proof.
  intros H. unfold notify_msg_fail, set_indc. set (d1 := upd_mx _ i (upd_mx _ i d)).
  assert (P d1) as H1 by (unfold d1; stable). clearbody d1.
  set (d2 := if bool_decide _ then _ else d1). assert (P d2) as H2 by (unfold d2; case_if; stable).
  clearbody d2. set (d3 := if mx_test d2 i _ then _ else d2).
  assert (P d3) as H3.
  { unfold d3. case_if; [|done]. case_if; stable. }
  clearbody d3. case_if; [|done]. by apply cur_req_hdl_ind.
Qed.

Lemma feed_mdl_msg_ind d m : P d -> P (snd (feed_mdl_msg d m i)).
Proof.
  intros H. unfold feed_mdl_msg. set (d1 := raise_ub (dangling d m) d).
  assert (P (snd (callback (EvMdlMsg m (mxid d1 i)) d1))) as H1 by (by apply Hc, Hr).
  destruct (callback (EvMdlMsg m (mxid d1 i)) d1) as [ret d2]. cbn [snd] in H1 |- *.
  destruct ret; try case_if; stable; apply notify_msg_fail_ind; stable.
Qed.

Lemma feed_queue_ind pre l : forall d, P d -> P (snd (feed_queue pre i l d)).
Proof.
  induction l as [|h l IH]; intros d H; [done|]. simpl. case_if; [by apply IH, Hr|].
  match goal with |- context [feed_mdl_msg ?d ?m i] =>
    pose proof (feed_mdl_msg_ind d m (Hr _ _ H)) as H1;
    destruct (feed_mdl_msg d m i) as [ret d2] end.
  cbn [snd] in H1. case_if; [done|by apply IH].
Qed.

Lemma feed_priority_ind pre o oid pri p d : P d -> P (snd (feed_priority pre i o oid pri p d)).
Proof.
  intros H. unfold feed_priority.
  set (r := if _ && _ then _ else (false, d)). assert (P (snd r)) as H1.
  { unfold r. case_if; [|done]. pose proof (feed_mdl_msg_ind d (default RefCtrl o) H) as H1.
    destruct (feed_mdl_msg d (default RefCtrl o) i) as [ret d2]. done. }
  clearbody r. destruct r as [stop d1]. cbn [snd] in H1. case_if; [done|]. by apply feed_queue_ind.
Qed.

Lemma phase_hdl_ind pre ps d : P d -> P (phase_hdl pre ps d i).
Proof.
  intros H. unfold phase_hdl. set (d1 := raise_ub _ d). assert (P d1) as H1 by (by apply Hr).
  generalize (match mx_module (mx d i) with Some m => bm_id (get_bk d1 m) | None => PHL_MDL_ID_MAX end).
  clearbody d1. intros oid. generalize (if oid <=? PHL_BK_MDL_END then _get_mdl_priority oid
                                      else PHL_MDL_PRI_MAX). intros pri.
  generalize (mx_module (mx d i)). intros o.
  revert d1 H1. induction ps as [|p ps IH]; intros d1 H1; [done|]. simpl.
  pose proof (feed_priority_ind pre o oid pri p d1 H1) as H2.
  destruct (feed_priority pre i o oid pri p d1) as [[] d2]; [done|by apply IH].
Qed.

Lemma redirect_or_ind d k : (forall d, P d -> Q (k d)) -> P d -> Q (redirect_or d i k).
Proof.
  intros Hk H. unfold redirect_or, recycle, reschedule.
  destruct (MSG_REDIRECT_CHK d i); [by apply Hrec| |by apply Hk].
  case_if; [by apply Hpend|by apply Hwait].
Qed.

Lemma get_msg_bitmap_ind d : P d -> P (snd (get_msg_bitmap d i)).
Proof. intros H. unfold get_msg_bitmap, set_indc. case_if; cbn [snd]; stable. Qed.

Lemma msg_dispatch_ind d : P d -> Q (msg_dispatch d i).
Proof.
  intros H. unfold msg_dispatch. pose proof (get_msg_bitmap_ind d H) as H1.
  destruct (get_msg_bitmap d i) as [pre d1]. cbn [snd] in H1.
  apply redirect_or_ind; [|done]. clear d d1 H H1. intros d H.
  apply redirect_or_ind; [|unfold _notify_dispr_controller; case_if; [done|by apply feed_mdl_msg_ind]].
  clear d H. intros d H. apply redirect_or_ind; [|case_if; [by apply phase_hdl_ind|done]].
  clear d H. intros d H. unfold recycle. case_if; [|apply Hrec; stable].
  pose proof (get_msg_bitmap_ind (upd_mx (mx_clear_flag MSG_STATUS_PRE_PHASE) i d)) as H1.
  specialize (H1 ltac:(stable)).
  destruct (get_msg_bitmap _ i) as [pre' d1]. cbn [snd] in H1.
  apply redirect_or_ind; [|case_if; [by apply phase_hdl_ind|done]].
  clear d d1 H H1 E. intros d H. case_if; apply Hrec; [by apply cur_req_hdl_ind|stable].
Qed.
End dispatch.

(** *** The three invariants through a dispatch *)

Lemma msg_inv_recycle h d i : msg_inv (i :: h) d -> msg_inv h (push_back_idle_msg cbk d i).
Proof. apply msg_inv_push_back_idle. intros. by apply (cbk_inv msg_inv). Qed.

Lemma msg_inv_dispatch h d i : msg_inv (i :: h) d -> msg_inv h (msg_dispatch d i).
Proof.
  apply (msg_dispatch_ind (msg_inv (i :: h))).
  - intros. apply msg_inv_upd_held; [apply list_elem_of_here|done|done].
  - intros b d'. by apply msg_inv_frame.
  - intros. by apply (callback_inv msg_inv).
  - intros. by apply msg_inv_recycle.
  - intros. by apply msg_inv_push_pend.
  - intros. by apply msg_inv_push_wait.
Qed.

Lemma blind_push_pending (P : cmd_dispatcher -> Prop) d i :
  msg_blind P -> (forall q d, P d -> P (set_d_msg_pend_q q d)) ->
  P d -> P (push_back_pending_msg d i).
Proof.
  intros HP Hq H. unfold push_back_pending_msg, mark_enq. apply Hq.
  set (d1 := upd_mx _ i (upd_mx _ i d)). assert (P d1) as H1 by (by do 2 apply (mb_mx _ HP)).
  case_if; [|done]. by apply (mb_info _ HP).
Qed.

Lemma blind_dispatch {X} (I : X -> cmd_dispatcher -> Prop) `{!CallInv I} x d i :
  msg_blind (I x) -> (forall q d, I x d -> I x (set_d_msg_pend_q q d)) ->
  I x d -> I x (msg_dispatch d i).
Proof.
  intros HP Hq. apply (msg_dispatch_ind (I x)).
  - intros. by apply (mb_mx _ HP).
  - intros. by apply (mb_ub _ HP).
  - intros. by apply (callback_inv I).
  - intros. apply (blind_push_back_idle _ HP); [|done]. intros. by apply (cbk_inv I).
  - intros. by apply blind_push_pending.
  - intros. by apply (mb_push_wait _ HP).
Qed.

(** ** The command token *)

Section token.
Implicit Types (d : cmd_dispatcher) (h : list nat) (g : req_ghost).

Lemma req_inv_clear_pending g d : req_inv g d -> req_inv g (clear_pending_msg d).
Proof.
  intros H. unfold clear_pending_msg. case_if; [done|].
  apply clear_loop_ind; [..|by apply (req_inv_frame g d)].
  - intros q d'. by apply req_inv_frame.
  - intros d' i. apply (mb_push_wait _ (req_inv_blind g)).
  - intros d' i. apply (mb_insert _ (req_inv_blind g)).
Qed.

(** Removing a request cancels its messages; the idle descriptors carry module
    0 and are left alone. *)
Lemma msg_inv_cancel_req_msg h mid d i :
  PHL_FG_MDL_START <= mid -> msg_inv h d -> msg_inv h (cancel_req_msg mid d i).
Proof.
  intros Hm H. unfold cancel_req_msg. case_if; [done|]. apply negb_false_iff, Z.eqb_eq in E.
  assert (i ∉ q_queue (d_msg_idle_q d)) as Hi.
  { intros Hi. apply (mo_idle _ _ _ _ _ H) in Hi as [_ Hid]. unfold mxid, mx in E.
    rewrite Hid in E. subst mid. by vm_compute in Hm. }
  set (d1 := cancel_msg _ i).
  assert (msg_inv h d1) as H1.
  { apply msg_inv_cancel; [done|]. apply msg_inv_upd_queued; [done|done| |done].
    intros m. apply enq_bits_clear_flag. lia. }
  clearbody d1. case_if; [|done]. apply msg_inv_clear_pending. by apply (msg_inv_frame h d1).
Qed.

Lemma req_inv_cancel_req_msg g mid d i : req_inv g d -> req_inv g (cancel_req_msg mid d i).
Proof.
  intros H. unfold cancel_req_msg. case_if; [done|]. set (d1 := cancel_msg _ i).
  assert (req_inv g d1) as H1 by (by apply (req_inv_frame g d)).
  clearbody d1. case_if; [|done]. apply req_inv_clear_pending. by apply (req_inv_frame g d1).
Qed.

Lemma req_inv_dereg d k p a n :
  req_inv (mkRG p a (Some k)) d -> req_inv (mkRG p a None) (deregister_cur_cmd_req d n).
Proof.
  intros H. unfold deregister_cur_cmd_req. rewrite (ro_cur _ _ _ _ _ _ H). cbn [rg_cur].
  apply req_inv_deregister. set (g := mkRG p a (Some k)) in *.
  set (d1 := upd_rx (rx_clear_flag REQ_STATUS_RUN) k d).
  assert (req_inv g d1) as H1.
  { apply req_inv_cur_flag; try done. intros r. unfold REQ_STATUS_RUN.
    rewrite rq_bit_clear by lia. by rewrite andb_true_r. }
  set (d2 := foldl _ d1 _). assert (req_inv g d2) as H2.
  { apply foldl_inv; [|done]. apply Forall_forall. intros. by apply req_inv_cancel_req_msg. }
  clearbody d1 d2. case_if; [|done].
  apply req_inv_cur_flag; try done.
  { intros r. unfold REQ_STATUS_LAST_PERMIT. rewrite rq_bit_clear by lia. by rewrite andb_true_r. }
  apply (callback_inv req_inv), req_inv_cur_flag; try done.
  intros r. unfold REQ_STATUS_LAST_PERMIT. rewrite rq_bit_set by lia. by rewrite orb_false_r.
Qed.

Lemma msg_inv_dereg h d g n :
  msg_inv h d -> req_inv g d -> msg_inv h (deregister_cur_cmd_req d n).
Proof.
  intros H Hq. unfold deregister_cur_cmd_req.
  destruct (d_cur_cmd_req d) as [k|] eqn:Ec; [|done].
  assert (PHL_FG_MDL_START <= req_module_id (rx_req (rx d k))) as Hm.
  { rewrite (ro_cur _ _ _ _ _ _ Hq) in Ec.
    apply (ro_fg _ _ _ _ _ _ Hq); [pose proof (req_ok_disjoint Hq k); naive_solver|].
    apply (req_ok_lt Hq). auto. }
  set (d1 := upd_rx (rx_clear_flag REQ_STATUS_RUN) k d).
  set (d2 := foldl _ d1 _). assert (msg_inv h d2) as H2.
  { apply foldl_inv; [|by apply (msg_inv_frame h d)]. apply Forall_forall.
    intros. by apply msg_inv_cancel_req_msg. }
  clearbody d2. set (d3 := if n then _ else d2). assert (msg_inv h d3) as H3.
  { unfold d3. case_if; [|done]. set (d4 := snd _).
    assert (msg_inv h d4) by (apply (callback_inv msg_inv); by apply (msg_inv_frame h d2)).
    clearbody d4. by apply (msg_inv_frame h d4). }
  clearbody d3. by apply (msg_inv_frame h d3).
Qed.

(** Every request is back in a queue or running; which one runs may change. *)
Definition settled (h : list nat) (d : cmd_dispatcher) : Prop :=
  msg_inv h d /\ exists c, req_inv (mkRG [] [] c) d.

Lemma settled_dereg h d n : settled h d -> settled h (deregister_cur_cmd_req d n).
Proof.
  intros [H [c Hq]]. split; [by eapply msg_inv_dereg|]. destruct c as [k|].
  - exists None. by eapply req_inv_dereg.
  - exists None. unfold deregister_cur_cmd_req. rewrite (ro_cur _ _ _ _ _ _ Hq). done.
Qed.

Lemma settled_register h d k :
  msg_inv h d -> req_inv (mkRG [k] [] None) d -> settled h (snd (register_cur_cmd_req d k)).
Proof.
  intros H Hq. apply req_inv_register in Hq. unfold register_cur_cmd_req.
  set (d1 := set_d_token_cnt _ _) in *.
  assert (msg_inv h d1) as H1 by (by apply (msg_inv_frame h d)).
  clearbody d1. set (ev := EvAcquired k _).
  pose proof (callback_inv msg_inv ev _ _ H1) as H2.
  pose proof (callback_inv req_inv ev _ _ Hq) as Hq2.
  destruct (callback ev d1) as [ret d2]. cbn [snd] in *. case_if; cbn [snd].
  - apply settled_dereg. split; eauto.
  - split; eauto.
Qed.

Lemma settled_send K h d m a x :
  (forall ev h d, msg_inv h d -> msg_inv h (K ev d)) ->
  (forall ev g d, req_inv g d -> req_inv g (K ev d)) ->
  settled h d -> settled h (snd (dispr_send_msg K d m a x)).
Proof.
  intros HK1 HK2 [H [c Hq]]. split; [by apply msg_inv_send|]. exists c. by apply api_send.
Qed.

Lemma settled_frame h d d' :
  msg_inv h d' -> d_token_req_ex_pool d' = d_token_req_ex_pool d ->
  d_token_req_idle_q d' = d_token_req_idle_q d -> d_token_req_wait_q d' = d_token_req_wait_q d ->
  d_cur_cmd_req d' = d_cur_cmd_req d -> d_token_cnt d' = d_token_cnt d ->
  settled h d -> settled h d'.
Proof. intros ? ? ? ? ? ? [_ [c Hq]]. split; [done|]. exists c. by eapply req_inv_frame. Qed.

Lemma pop_wait_req_msg h d r d' : pop_front_wait_req d = (r, d') -> msg_inv h d -> msg_inv h d'.
Proof.
  unfold pop_front_wait_req. destruct (pq_pop (d_token_req_wait_q d) _first) as [[k|] q];
    intros [= <- <-] H; by apply (msg_inv_frame h d).
Qed.

Lemma settled_process h fuel : forall d,
  settled h d -> settled h (snd (dispr_process_token_req fuel d)).
Proof.
  assert (forall ev h d, msg_inv h d -> msg_inv h (cbk ev d)) as HK1
    by (intros; by apply (cbk_inv msg_inv)).
  assert (forall ev g d, req_inv g d -> req_inv g (cbk ev d)) as HK2
    by (intros; by apply (cbk_inv req_inv)).
  assert (forall d, settled h d -> settled h (d_set_flag DISPR_NOTIFY_IDLE d)) as Hf.
  { intros d H. apply (settled_frame h d); try done. by apply (msg_inv_frame h d), H. }
  induction fuel as [|fuel IH]; intros d H; simpl.
  all: case_if; [done|]; case_if; [done|]; case_if; [done|]; case_if; [done|].
  all: destruct (pop_front_wait_req d) as [[k|] d1] eqn:Ep; cycle 1;
    [ assert (settled h d1) as Hs;
      [ destruct H as [H [c Hq]]; split;
        [by eapply pop_wait_req_msg|exists c; by eapply req_inv_pop_wait_None]
      | case_if; [|done]; cbn [snd]; apply settled_send; auto ] |].
  all: destruct H as [H [c Hq]]; destruct c as [kc|];
    [by rewrite (ro_cnt _ _ _ _ _ _ Hq) in E1|].
  all: apply (pop_wait_req_msg h) in Ep as H1; [|done];
    apply (req_inv_pop_wait _ _ _ _ Ep) in Hq; cbn [rg_prep rg_abrt rg_cur] in Hq.
  all: set (d2 := if d_test d1 DISPR_NOTIFY_IDLE then _ else d1);
    assert (msg_inv h d2 /\ req_inv (mkRG [k] [] None) d2) as [H2 Hq2];
    [ unfold d2; case_if; [|done]; split;
      [apply msg_inv_send; [done|]; by apply (msg_inv_frame h d1)
      |apply api_send; [done|]; by eapply (req_inv_frame _ d1)] |]; clearbody d2.
  all: pose proof (settled_register h d2 k H2 Hq2) as Hs;
    destruct (register_cur_cmd_req d2 k) as [[] d3]; cbn [snd] in *; auto.
Qed.
End token.

(** ** Token operations and the loop handler *)

Section loop.
Implicit Types (d : cmd_dispatcher) (h : list nat).

Lemma settled_handle h d r : settled h d -> settled h (_handle_token_op_info d r).
Proof.
  intros H. unfold _handle_token_op_info, process_token_req.
  destruct (op_type (op_info_of d r)); auto using settled_process.
  - case_if; [done|]. case_if; [done|]. auto using settled_process, settled_dereg.
  - destruct (Z.leb_spec (Z.of_nat MAX_CMD_REQ_NUM) (op_data (op_info_of d r))) as [|Hk]; [done|].
    set (k := Z.to_nat _). case_if; cycle 1.
    { case_if; [|done]. auto using settled_process, settled_dereg. }
    destruct H as [H [c Hq]]. unfold REQ_STATUS_ENQ in E. rewrite rx_test_bit in E by lia.
    destruct (req_ok_enq Hq k) as [Hw|Hw]; [unfold k, MAX_CMD_REQ_NUM in *; lia|exact E| |by apply elem_of_nil in Hw].
    apply (req_inv_del_wait _ _ _ Hw) in Hq. set (d1 := set_d_token_req_wait_q _ d) in *.
    assert (msg_inv h d1) as H1 by (by apply (msg_inv_frame h d)). clearbody d1.
    set (ev := EvAbort k _).
    pose proof (callback_inv msg_inv ev _ _ H1) as H2. pose proof (callback_inv req_inv ev _ _ Hq) as Hq2.
    set (d2 := snd (callback ev d1)) in *. clearbody d2. split; [by apply (msg_inv_frame h d2)|].
    exists c. eapply req_inv_push_idle; [..|exact Hq2]; simpl; auto. set_solver.
Qed.

Lemma settled_op_info h d v r : settled h d -> settled h (set_op_info v r d).
Proof.
  intros [H [c Hq]]. split.
  - destruct r; by apply (msg_inv_frame h d).
  - exists c. destruct r; simpl; [by apply req_inv_upd_op..|]. by apply (req_inv_frame _ d).
Qed.

Lemma settled_pop_op h d r d' : pop_front_token_op_info d = (r, d') -> settled h d -> settled h d'.
Proof.
  unfold pop_front_token_op_info. destruct (pq_pop (d_token_op_q d) _first) as [r' q].
  intros [= <- <-] H. apply (settled_frame h d); try done. apply (msg_inv_frame h d); try done. apply H.
Qed.

Lemma settled_token_ops h fuel : forall d, settled h d -> settled h (token_op_hanler fuel d).
Proof.
  induction fuel as [|fuel IH]; intros d H; [done|]. simpl.
  destruct (pop_front_token_op_info d) as [[r|] d1] eqn:E; apply (settled_pop_op h) in E; auto.
  by apply IH, settled_op_info, settled_handle.
Qed.

Lemma settled_clear_pending h d : settled h d -> settled h (clear_pending_msg d).
Proof.
  intros [H [c Hq]]. split; [by apply msg_inv_clear_pending|].
  exists c. by apply req_inv_clear_pending.
Qed.

Lemma is_msg_canceled_ind (P : cmd_dispatcher -> Prop) d i :
  (forall f d, (forall m, mx_idx (f m) = mx_idx m) -> P d -> P (upd_mx f i d)) ->
  P d -> P (snd (is_msg_canceled d i)).
Proof.
  intros Hu H. unfold is_msg_canceled, set_indc.
  repeat case_if; cbn [snd]; repeat first [assumption | apply Hu; [done|]].
Qed.

Lemma pop_wait_msg_req g d r d' : pop_front_wait_msg d = (r, d') -> req_inv g d -> req_inv g d'.
Proof.
  unfold pop_front_wait_msg. destruct (pq_pop (d_msg_wait_q d) _first) as [[k|] q];
    intros [= <- <-] H; by apply (req_inv_frame g d).
Qed.

(** The whole turn of the thread, once per wake-up. *)
Lemma settled_loop h d : settled h d -> settled h (dispr_thread_loop_hdl d).
Proof.
  intros H. unfold dispr_thread_loop_hdl. apply settled_clear_pending in H.
  set (d1 := clear_pending_msg d) in *. clearbody d1.
  apply (settled_token_ops h (op_fuel d1)) in H. set (d2 := token_op_hanler _ d1) in *.
  clearbody d2. destruct H as [H [c Hq]].
  destruct (pop_front_wait_msg d2) as [[i|] d3] eqn:E; apply (pop_wait_msg_req _ _ _ _ E) in Hq as Hq3.
  2:{ split; [by eapply msg_inv_pop_wait_None|eauto]. }
  apply (msg_inv_pop_wait _ _ _ _ E) in H as H3.
  pose proof (is_msg_canceled_ind (msg_inv (i :: h)) d3 i) as H4.
  pose proof (is_msg_canceled_ind (req_inv (mkRG [] [] c)) d3 i) as Hq4.
  destruct (is_msg_canceled d3 i) as [[] d4]; cbn [snd] in *.
  - split; [apply msg_inv_recycle|exists c; apply (blind_push_back_idle _ (req_inv_blind _))].
    + apply H4; [|done]. intros. apply msg_inv_upd_held; [apply list_elem_of_here|done|done].
    + intros. by apply (cbk_inv req_inv).
    + apply Hq4; [|done]. intros f d' _. by apply req_inv_frame.
  - split; [apply msg_inv_dispatch|exists c; apply (blind_dispatch req_inv)].
    + do 2 (apply msg_inv_upd_held; [apply list_elem_of_here|done|]).
      apply H4; [|done]. intros. apply msg_inv_upd_held; [apply list_elem_of_here|done|done].
    + apply req_inv_blind.
    + intros q d'. by apply req_inv_frame.
    + apply (req_inv_frame _ d4); try done.
      apply Hq4; [|done]. intros f d' _. by apply req_inv_frame.
Qed.
End loop.
