(* ===== verification/DispFuel.v ===== *)
(** * Termination of the dispatcher's loops and accounting of wake-ups

    The [while] loops of the thread can be prolonged by the API calls their
    callbacks make.  Each call adds at most one request and one token operation,
    so the entries queued plus the calls still to come bound the number of
    turns, and the fuel the model computes from them is never exhausted.  The
    same walk through the thread shows that every unit of work has its wake-up. *)

From S2P Require Import Prelude PhlQueue PhlDef DispState DispApi DispThread DispInv DispApiInv DispThreadInv.

Abbreviation opq_len d := (length (q_queue (d_token_op_q d))).
Abbreviation rwait_len d := (length (q_queue (d_token_req_wait_q d))).

(** ** Predicates the token functions preserve *)

Record thread_stable (P : cmd_dispatcher -> Prop) : Prop := {
  ts_call : forall ev d, P d -> P (snd (callback ev d));
  ts_bk_msg : forall mdl evt d, P d ->
    P (snd (dispr_send_msg cbk d (bk_msg mdl evt) (Some zero_attr) None));
  ts_rx : forall f k d, P d -> P (upd_rx f k d);
  ts_idle : forall q d, P d -> P (set_d_token_req_idle_q q d);
  ts_info : forall v d, P d -> P (set_d_mdl_info v d);
  ts_cur : forall c d, P d -> P (set_d_cur_cmd_req c d);
  ts_cnt : forall n d, P d -> P (set_d_token_cnt n d);
  ts_set : forall d, P d -> P (d_set_flag DISPR_NOTIFY_IDLE d);
  ts_clr : forall d, P d -> P (d_clear_flag DISPR_NOTIFY_IDLE d);
  ts_cancel : forall mid d i, P d -> P (cancel_req_msg mid d i) }.

Section stable.
Context (P : cmd_dispatcher -> Prop) (HP : thread_stable P).

Lemma stable_push_idle_req d k : P d -> P (push_back_idle_req d k).
Proof.
  intros H. unfold push_back_idle_req. apply (ts_idle _ HP), (ts_info _ HP), (ts_rx _ HP), H.
Qed.

Lemma stable_dereg d n : P d -> P (deregister_cur_cmd_req d n).
Proof.
  intros H. unfold deregister_cur_cmd_req. destruct (d_cur_cmd_req d) as [k|]; [|done].
  set (d1 := foldl _ _ _). assert (P d1) as H1.
  { apply foldl_inv; [|by apply (ts_rx _ HP)]. apply Forall_forall. intros. by apply (ts_cancel _ HP). }
  clearbody d1. apply (ts_cur _ HP), (ts_cnt _ HP), stable_push_idle_req. case_if; [|done].
  by apply (ts_rx _ HP), (ts_call _ HP), (ts_rx _ HP).
Qed.

Lemma stable_register d k : P d -> P (snd (register_cur_cmd_req d k)).
Proof.
  intros H. unfold register_cur_cmd_req.
  match goal with |- context [callback ?ev ?d] =>
    pose proof (ts_call _ HP ev d) as H1; destruct (callback ev d) as [ret d1] end.
  cbn [snd] in H1. assert (P d1) as H2
    by (apply H1, (ts_cnt _ HP), (ts_cur _ HP), (ts_rx _ HP), (ts_rx _ HP), H).
  case_if; [by apply stable_dereg|done].
Qed.

Context (Hpop : forall k d d', pop_front_wait_req d = (k, d') -> P d -> P d').

Lemma stable_process fuel : forall d, P d -> P (snd (dispr_process_token_req fuel d)).
Proof.
  induction fuel as [|fuel IH]; intros d H; simpl.
  all: case_if; [done|]; case_if; [done|]; case_if; [done|]; case_if; [done|].
  all: destruct (pop_front_wait_req d) as [[k|] d1] eqn:Ep; pose proof (Hpop _ _ _ Ep H) as Hp;
    [|case_if; [by apply (ts_bk_msg _ HP), (ts_set _ HP)|done]].
  all: set (d2 := if d_test d1 DISPR_NOTIFY_IDLE then _ else d1).
  all: assert (P d2) as H2 by (unfold d2; case_if; [by apply (ts_bk_msg _ HP), (ts_clr _ HP)|done]).
  all: pose proof (stable_register d2 k H2) as H3.
  all: destruct (register_cur_cmd_req d2 k) as [[] d3]; cbn [snd] in *; auto.
Qed.
End stable.

(** ** Growth of the two queues *)

(** From [d] to [d'] at most [n] entries were added to either queue. *)
Definition grow (n : nat) (d d' : cmd_dispatcher) : Prop :=
  (opq_len d' <= opq_len d + n)%nat /\ (rwait_len d' <= rwait_len d + n)%nat /\
  d_env d' = d_env d /\ (pq_wf (d_token_op_q d) -> pq_wf (d_token_op_q d')).

Lemma grow_refl n d d' :
  d_token_op_q d' = d_token_op_q d -> d_token_req_wait_q d' = d_token_req_wait_q d ->
  d_env d' = d_env d -> grow n d d'.
Proof. unfold grow. intros -> -> ->. repeat split; [lia|lia|done]. Qed.

Lemma grow_trans n m d1 d2 d3 : grow n d1 d2 -> grow m d2 d3 -> grow (n + m) d1 d3.
Proof.
  unfold grow. intros (? & ? & ? & ?) (? & ? & ? & ?). repeat split; [lia|lia|congruence|auto].
Qed.

Lemma grow_weaken n m d d' : (n <= m)%nat -> grow n d d' -> grow m d d'.
Proof. unfold grow. intros ? (? & ? & ? & ?). repeat split; [lia|lia|done|auto]. Qed.

Lemma grow_enqueue d r ty x : grow 1 d (snd (dispr_enqueue_token_op_info d r ty x)).
Proof.
  unfold dispr_enqueue_token_op_info, push_back_token_op_info. case_if; [by apply grow_refl|].
  unfold grow, notify_bk_thread. cbn [snd].
  destruct r; cbn; rewrite pq_push_length;
    (split; [lia|]; split; [lia|]; split; [done|]); apply pq_push_wf.
Qed.

(** A descriptor being filled is not marked as sent from an abort handler. *)
Definition no_abort (i : nat) (d : cmd_dispatcher) : Prop := mx_test d i MSG_STATUS_FOR_ABORT = false.

Lemma no_abort_upd i f d :
  (forall m, Z.testbit (mx_status (f m)) 10 = Z.testbit (mx_status m) 10) ->
  no_abort i d -> no_abort i (upd_mx f i d).
Proof.
  unfold no_abort, mx_test, MSG_STATUS_FOR_ABORT. rewrite !test_flag_bit by lia. intros Hf H.
  rewrite mx_upd. case_decide; [by rewrite Hf|done].
Qed.

Lemma no_abort_fill d d1 i msg attr mid cur st :
  pop_front_idle_msg d = (Some i, d1) -> no_abort i (send_msg_fill d1 i msg attr mid cur st).
Proof.
  intros E. apply send_msg_fill_ind; [|done|].
  - intros f d' Hf. apply no_abort_upd. intros m. destruct (Hf m) as [_ Hb].
    destruct Hb as [Hb _]. do 4 apply Forall_inv_tail in Hb. by apply Forall_inv in Hb.
  - revert E. unfold pop_front_idle_msg. destruct (pq_pop (d_msg_idle_q d) _first) as [[j|] q];
      intros [= -> <-]. unfold no_abort, mx_test. rewrite mx_upd.
    case_decide as Hd; [done|]. simpl in Hd.
    unfold mx. rewrite nth_overflow; [done|]. simpl. apply Nat.nlt_ge. naive_solver.
Qed.


Section grow_send.
Implicit Types (d : cmd_dispatcher) (i : nat).

Lemma grow_pop_idle d r d' : pop_front_idle_msg d = (r, d') -> grow 0 d d'.
Proof.
  unfold pop_front_idle_msg.
  destruct (pq_pop (d_msg_idle_q d) _first) as [[j|] q]; intros [= <- <-]; by apply grow_refl.
Qed.

Lemma grow_fill d i msg attr mid cur st : grow 0 d (send_msg_fill d i msg attr mid cur st).
Proof.
  apply send_msg_fill_ind; [..|by apply grow_refl]; intros; (eapply (grow_trans 0 0); [done|]);
    by apply grow_refl.
Qed.

(** The release of a descriptor adds an operation only after an abort. *)
Lemma grow_push_idle K n m d i :
  (m = 1%nat /\ forall ev d, grow n d (K ev d)) \/
  (m = 0%nat /\ no_abort i d /\ completion (mx_completion (mx d i)) = false) ->
  grow (n + m) d (push_back_idle_msg K d i).
Proof.
  intros Hm. unfold push_back_idle_msg.
  set (d1 := if _ && _ then _ else d).
  assert (grow n d d1 /\ (m = 0%nat -> no_abort i d1)) as [H1 Hna].
  { unfold d1. destruct Hm as [[-> HK]|(-> & Hn & Hc)]; [|rewrite Hc, andb_false_r; split; [by apply grow_refl|done]].
    split; [|done]. case_if; [|by apply grow_refl]. set (d0 := if mx_test d i _ then _ else d).
    assert (grow 0 d d0) by (unfold d0; case_if; by apply grow_refl).
    eapply (grow_trans 0 n); [done|]. rewrite <- (Nat.add_0_r n).
    eapply grow_trans; [apply HK|]. by apply grow_refl. }
  clearbody d1. apply (grow_trans n m _ d1); [done|].
  set (d2 := if mx_test d1 i _ then _ else d1). assert (grow m d1 d2) as H2.
  { unfold d2. destruct Hm as [[-> _]|(-> & _)].
    - case_if; [|by apply grow_refl]. apply (grow_trans 0 1 _ (d_clear_flag DISPR_WAIT_ABORT_MSG_DONE d1));
        [by apply grow_refl|apply grow_enqueue].
    - rewrite Hna by done. by apply grow_refl. }
  clearbody d2. rewrite <- (Nat.add_0_r m). eapply grow_trans; [exact H2|].
  case_if; by apply grow_refl.
Qed.

Lemma grow_queue d i (ab ctrl : bool) :
  grow 0 d
    (let d3 := if ab then d_set_flag DISPR_WAIT_ABORT_MSG_DONE
                            (upd_mx (mx_set_flag MSG_STATUS_FOR_ABORT) i d) else d in
     let d4 := upd_mx (mx_set_flag MSG_STATUS_PRE_PHASE) i d3 in
     if ctrl then insert_msg_by_priority d4 i else push_back_wait_msg d4 i).
Proof. destruct ab, ctrl; by apply grow_refl. Qed.

(** A send adds what its completion routine adds, and one operation at most
    besides; none if there is no completion routine. *)
Lemma grow_send K n m d msg attr hdl :
  (m = 1%nat /\ forall ev d, grow n d (K ev d)) \/ (m = 0%nat /\ has_completion attr = false) ->
  grow (n + m) d (snd (dispr_send_msg K d msg attr hdl)).
Proof.
  intros Hm. destruct (dispr_send_msg_outcome K d msg attr hdl)
    as [|d' E|i d1 cur st E|i d1 cur st ab E d2 d3 d4].
  - by apply grow_refl.
  - eapply grow_weaken; [|by eapply grow_pop_idle]. lia.
  - eapply (grow_trans 0 (n + m)); [by eapply grow_pop_idle|].
    eapply (grow_trans 0 (n + m)); [apply (grow_fill d1 i msg attr)|].
    eapply (grow_trans 0 (n + m)); [|apply grow_push_idle]; [by apply grow_refl|].
    destruct Hm as [?|[-> Hc]]; [by left|right]. split; [done|]. split.
    + apply no_abort_upd; [done|]. by eapply no_abort_fill.
    + rewrite mx_upd.
      assert (completion (mx_completion (mx (send_msg_fill d1 i msg attr
                (MSG_MDL_ID_FIELD (msg_id msg)) cur st) i)) = false) as Hf; [|by case_decide].
      apply send_msg_fill_ind; [|done|].
      * intros f d' Hf H. rewrite mx_upd. case_decide; [|done]. destruct (Hf (mx d' i)) as (_ & _ & ->); done.
      * revert E. unfold pop_front_idle_msg. destruct (pq_pop (d_msg_idle_q d) _first) as [[j|] q];
          intros [= -> <-]. rewrite mx_upd. case_decide as Hd; [done|]. simpl in Hd.
        unfold mx. rewrite nth_overflow; [done|]. simpl. apply Nat.nlt_ge. naive_solver.
  - eapply (grow_weaken 0); [lia|]. eapply (grow_trans 0 0); [by eapply grow_pop_idle|].
    eapply (grow_trans 0 0); [apply (grow_fill d1 i msg attr (MSG_MDL_ID_FIELD (msg_id msg)) cur st)|].
    apply grow_queue.
Qed.
End grow_send.

(** ** Growth under API calls *)

Lemma grow_req_op d k f r ty x : grow 1 d (snd (dispr_enqueue_token_op_info (upd_rx f k d) r ty x)).
Proof. apply (grow_trans 0 1 _ (upd_rx f k d)); [by apply grow_refl|apply grow_enqueue]. Qed.

Lemma grow_cancel_req d hdl : grow 1 d (snd (dispr_cancel_token_req d hdl)).
Proof.
  unfold dispr_cancel_token_req. destruct hdl as [hd|]; [|by apply grow_refl].
  do 3 (case_if; [by apply grow_refl|]).
  match goal with |- context [dispr_enqueue_token_op_info (upd_rx ?f ?k d) ?r ?t ?x] =>
    pose proof (grow_req_op d k f r t x) as H1;
    destruct (dispr_enqueue_token_op_info (upd_rx f k d) r t x) as [[] d1] end; exact H1.
Qed.

Lemma grow_free d hdl : grow 1 d (snd (dispr_free_token d hdl)).
Proof.
  unfold dispr_free_token. destruct hdl as [hd|]; [|by apply grow_refl].
  do 3 (case_if; [by apply grow_refl|]).
  match goal with |- context [dispr_enqueue_token_op_info (upd_rx ?f ?k d) ?r ?t ?x] =>
    pose proof (grow_req_op d k f r t x) as H1;
    destruct (dispr_enqueue_token_op_info (upd_rx f k d) r t x) as [[] d1] end; exact H1.
Qed.

Lemma grow_push_wait_req d k : (rwait_len (push_back_wait_req d k) = S (rwait_len d))%nat.
Proof. unfold push_back_wait_req. simpl. rewrite length_app. simpl. lia. Qed.

Lemma grow_add_req d req hdl : grow 1 d (snd (dispr_add_token_req d req hdl)).
Proof.
  unfold dispr_add_token_req. destruct req as [r|], hdl as [hd|]; try by apply grow_refl.
  do 2 (case_if; [by apply grow_refl|]). destruct (pop_front_idle_req d) as [o d1] eqn:Ep.
  assert (grow 0 d d1) as H1.
  { revert Ep. unfold pop_front_idle_req.
    destruct (pq_pop (d_token_req_idle_q d) _first) as [[k|] q]; intros [= <- <-]; by apply grow_refl. }
  clear Ep. destruct o as [k|]; [|by eapply grow_weaken; [|exact H1]; lia]. cbn [snd].
  set (d2 := push_back_wait_req _ k). assert (d_token_op_q d2 = d_token_op_q d1) as Ho by done.
  assert (rwait_len d2 = S (rwait_len d1)) as Hw by (unfold d2; by rewrite grow_push_wait_req).
  assert (d_env d2 = d_env d1) as He by done.
  generalize (rx_idx (rx d2 k)). clearbody d2. intros x.
  unfold dispr_enqueue_token_op_info, push_back_token_op_info, notify_bk_thread, grow in *.
  destruct H1 as (? & ? & ? & Hwf). case_if; cbn [snd].
  - rewrite Ho, Hw. repeat split; [lia|lia|congruence|done].
  - cbn. rewrite pq_push_length, Ho, Hw. repeat split; [lia|lia|congruence|].
    intros Hd. by apply pq_push_wf, Hwf.
Qed.

Lemma grow_io d m b : grow 0 d (snd (dispr_notify_dev_io_status (fun _ d => d) d m b)).
Proof.
  apply (notify_dev_io_ind (grow 0 d)); [..|by apply grow_refl]; intros;
    (eapply (grow_trans 0 0); [done|]); try by apply grow_refl.
  apply (grow_send _ 0 0). by right.
Qed.

Lemma grow_foldl l : forall d,
  Forall (fun c => forall d, grow (call_size c) d (exec_call c d)) l ->
  grow (calls_size l) d (foldl (fun d c => exec_call c d) d l).
Proof.
  induction l as [|c l IH]; intros d Hl; simpl; [by apply grow_refl|].
  apply Forall_cons in Hl as [Hc Hl]. eapply grow_trans; [apply Hc|by apply IH].
Qed.

Lemma grow_exec_call c : forall d, grow (call_size c) d (exec_call c d).
Proof.
  revert c. apply (api_call_nested_ind (fun c => forall d, grow (call_size c) d (exec_call c d))).
  - intros msg attr hdl nested IH d. simpl. fold (calls_size nested).
    rewrite <- Nat.add_1_r. apply grow_send. left. split; [done|]. intros ev d'.
    apply (grow_trans 0 (calls_size nested) _ (log ev d')); [by apply grow_refl|]. by apply grow_foldl.
  - intros c. destruct c; [done|..]; intros d; cbn [call_size exec_call].
    + unfold dispr_cancel_msg. destruct msg_hdl; [|by apply grow_refl].
      do 3 (case_if; [by apply grow_refl|]). by apply grow_refl.
    + by apply grow_refl.
    + apply grow_add_req.
    + apply grow_cancel_req.
    + apply grow_free.
    + eapply grow_weaken; [|apply grow_io]. lia.
    + unfold dispr_notify_shall_stop. case_if; by apply grow_refl.
Qed.

(** ** The budget *)

(** Bounds on the entries of the two queues, counting the calls to come. *)
Definition budget (n m : nat) (d : cmd_dispatcher) : Prop :=
  (opq_len d + env_size d <= n)%nat /\ (rwait_len d + env_size d <= m)%nat /\
  pq_wf (d_token_op_q d).

Lemma budget_grow n m d d' : grow 0 d d' -> budget n m d -> budget n m d'.
Proof.
  unfold grow, budget, env_size. intros (? & ? & -> & ?) (? & ? & ?). repeat split; [lia|lia|auto].
Qed.

Lemma budget_frame n m d d' :
  d_token_op_q d' = d_token_op_q d -> d_token_req_wait_q d' = d_token_req_wait_q d ->
  d_env d' = d_env d -> budget n m d -> budget n m d'.
Proof. intros. eapply budget_grow; [|done]. by apply grow_refl. Qed.

(** A call out of the dispatcher spends the budget it uses. *)
Lemma budget_callback n m ev d : budget n m d -> budget n m (snd (callback ev d)).
Proof.
  intros (H1 & H2 & H3). unfold callback. destruct (d_env (log ev d)) as [|r env] eqn:E; [done|]. cbn [snd].
  assert (grow (calls_size (cb_calls r)) (set_d_env env (log ev d))
            (exec_calls (cb_calls r) (set_d_env env (log ev d)))) as (G1 & G2 & G3 & G4).
  { apply grow_foldl, Forall_forall. intros. apply grow_exec_call. }
  unfold budget, env_size in *. rewrite G3.
  change (d_env (log ev d)) with (d_env d) in E. rewrite E in H1, H2. simpl in *.
  repeat split; [lia|lia|auto].
Qed.

Lemma budget_stable n m : thread_stable (budget n m).
Proof.
  split; try (intros; eapply budget_frame; done).
  - intros. by apply budget_callback.
  - intros mdl evt d. apply budget_grow, (grow_send _ 0 0). by right.
  - intros mid d i. apply budget_grow. unfold cancel_req_msg. case_if; [by apply grow_refl|].
    set (d1 := cancel_msg _ i). assert (grow 0 d d1) as H1 by (by apply grow_refl).
    clearbody d1. case_if; [|done]. apply (grow_trans 0 0 _ _ _ H1). unfold clear_pending_msg.
    case_if; [by apply grow_refl|]. apply clear_loop_ind; [..|by apply grow_refl];
      intros; (eapply (grow_trans 0 0); [done|]); by apply grow_refl.
Qed.

(** ** Token operations *)

Lemma pop_wait_req_budget n m k d d' :
  pop_front_wait_req d = (k, d') -> budget n m d -> budget n m d'.
Proof.
  unfold pop_front_wait_req. destruct (pq_pop (d_token_req_wait_q d) _first) as [[j|] q] eqn:E;
    intros [= <- <-] (H1 & H2 & H3).
  - apply pq_pop_Some in E as [E _]. unfold budget, env_size in *. simpl. rewrite E in H2. simpl in H2.
    repeat split; [lia|lia|done].
  - apply pq_pop_None in E as ->. done.
Qed.

Lemma budget_process n m fuel d : budget n m d -> budget n m (snd (dispr_process_token_req fuel d)).
Proof. apply stable_process; [apply budget_stable|]. intros. by eapply pop_wait_req_budget. Qed.

Lemma budget_handle n m d r : budget n m d -> budget n m (_handle_token_op_info d r).
Proof.
  intros H. pose proof (budget_stable n m) as Hs. unfold _handle_token_op_info, process_token_req.
  destruct (op_type _); auto using budget_process.
  - do 2 (case_if; [done|]). apply budget_process. by apply stable_dereg.
  - case_if; [done|]. case_if; [|case_if; [|done]; apply budget_process; by apply stable_dereg].
    apply stable_push_idle_req; [done|]. apply (ts_call _ Hs).
    destruct H as (H1 & H2 & H3). unfold budget, env_size in *. simpl. repeat split; [done| |done].
    pose proof (list_del_node_length_le (q_queue (d_token_req_wait_q d)) (Z.to_nat (op_data (op_info_of d r)))).
    lia.
Qed.

(** [token_op_hanler] returns with an empty operation queue: the fuel the model
    gives it is enough, whatever the callbacks do. *)
Lemma token_ops_drain n m fuel : forall d,
  budget n m d -> (n < fuel)%nat -> q_queue (d_token_op_q (token_op_hanler fuel d)) = [].
Proof.
  revert n. induction fuel as [|fuel IH]; intros n d H Hn; [lia|]. simpl.
  unfold pop_front_token_op_info. destruct (pq_pop (d_token_op_q d) _first) as [[r|] q] eqn:E.
  - destruct H as (H1 & H2 & H3). apply pq_pop_Some in E as E'. destruct E' as [E' _].
    assert (budget (pred n) m (set_d_token_op_q q d)) as Hb.
    { unfold budget, env_size in *. simpl. rewrite E' in H1. simpl in H1.
      repeat split; [lia|lia|by eapply pq_pop_Some_wf]. }
    apply (IH (pred n)); [|unfold env_size in *; rewrite E' in H1; simpl in H1; lia].
    apply (budget_handle _ _ _ r) in Hb. set (d1 := _handle_token_op_info _ r) in *. clearbody d1.
    destruct r; by apply (budget_frame _ _ d1).
  - apply pq_pop_empty in E as Hq; [|apply H]. apply pq_pop_None in E as ->. done.
Qed.

(** More fuel changes nothing: the [do .. while] of [dispr_process_token_req]
    ends within the bound. *)
Lemma process_fuel_enough n m fuel : forall d,
  budget n m d -> (m <= fuel)%nat ->
  forall extra, dispr_process_token_req (fuel + extra) d = dispr_process_token_req fuel d.
Proof.
  revert m. induction fuel as [|fuel IH]; intros m d H Hm extra.
  - destruct extra as [|extra]; [done|]. simpl.
    assert (exists q, pop_front_wait_req d = (None, set_d_token_req_wait_q q d)) as [q ->]; [|done].
    destruct H as (_ & H2 & _). unfold pop_front_wait_req, pq_pop, pq_nonempty.
    destruct (q_queue (d_token_req_wait_q d)); [eauto|simpl in H2; lia].
  - simpl. repeat (case_if; [done|]).
    destruct (pop_front_wait_req d) as [[k|] d1] eqn:Ep; [|done].
    assert (budget n (pred m) d1 /\ (0 < m)%nat) as [Hb Hpos].
    { revert Ep. unfold pop_front_wait_req.
      destruct (pq_pop (d_token_req_wait_q d) _first) as [[j|] q] eqn:E'; intros [= <- <-].
      apply pq_pop_Some in E' as [E' _]. destruct H as (H1 & H2 & H3).
      unfold budget, env_size in *. simpl. rewrite E' in H2. simpl in H2. repeat split; try lia; done. }
    pose proof (budget_stable n (pred m)) as Hs.
    set (d2 := if d_test d1 DISPR_NOTIFY_IDLE then _ else d1).
    assert (budget n (pred m) d2) as H2
      by (unfold d2; case_if; [by apply (ts_bk_msg _ Hs), (ts_clr _ Hs)|done]).
    pose proof (stable_register _ Hs d2 k H2) as H3.
    destruct (register_cur_cmd_req d2 k) as [[] d3]; [done|]. apply (IH (pred m)); [done|lia].
Qed.

(** ** Wake-ups through a turn of the thread *)

Section wake.
Implicit Types (d : cmd_dispatcher) (n : Z * Z).

Lemma wake_inv_weaken n n' d : n.1 <= n'.1 -> n'.2 <= n.2 -> wake_inv n d -> wake_inv n' d.
Proof. unfold wake_inv. lia. Qed.

Lemma wake_clear_loop n fuel d : wake_inv n d -> wake_inv n (clear_pending_loop fuel d).
Proof.
  apply clear_loop_ind.
  - intros q d'. by apply wake_inv_eq.
  - apply wake_inv_push_wait.
  - apply wake_inv_insert.
Qed.

(** Resuming the pending messages uses up the unit of work that asked for it. *)
Lemma wake_clear_pending n d :
  wake_inv n d ->
  wake_inv (n.1 - Z.b2z (d_test d DISPR_CLR_PEND_MSG), n.2) (clear_pending_msg d).
Proof.
  intros H. unfold clear_pending_msg. destruct (d_test d DISPR_CLR_PEND_MSG) eqn:E; cbn [negb Z.b2z].
  - apply wake_clear_loop. unfold wake_inv, work in *. rewrite E in H.
    change (d_test (d_clear_flag DISPR_CLR_PEND_MSG d) DISPR_CLR_PEND_MSG)
      with (d_test (d_clear_flag (BIT 6) d) (BIT 6)).
    rewrite d_test_clear_same by lia. cbn in *. lia.
  - eapply wake_inv_weaken; [..|exact H]; cbn; lia.
Qed.

Lemma wake_cancel_req_msg n mid d i : wake_inv n d -> wake_inv n (cancel_req_msg mid d i).
Proof.
  intros H. unfold cancel_req_msg. case_if; [done|]. set (d1 := cancel_msg _ i).
  assert (wake_inv n d1) as H1 by (by apply (wake_inv_eq n d)).
  clearbody d1. case_if; [|done]. apply wake_inv_clr_pending in H1.
  eapply wake_inv_weaken; [..|apply wake_clear_pending, H1]; cbn; [|lia].
  destruct (d_test _ _); cbn; lia.
Qed.

Lemma wake_stable n : thread_stable (wake_inv n).
Proof.
  split; try (intros; eapply wake_inv_eq; done).
  - intros. by apply (callback_inv wake_inv).
  - intros. apply api_send; [|done]. intros. by apply (cbk_inv wake_inv).
  - intros d. apply wake_inv_frame; try done. by apply d_test_set.
  - intros d. apply wake_inv_frame; try done. by apply d_test_clear.
  - intros. by apply wake_cancel_req_msg.
Qed.

Lemma wake_handle n d r : wake_inv n d -> wake_inv n (_handle_token_op_info d r).
Proof.
  intros H. pose proof (wake_stable n) as Hs. unfold _handle_token_op_info, process_token_req.
  assert (forall fuel d, wake_inv n d -> wake_inv n (snd (dispr_process_token_req fuel d))) as Hp.
  { intros fuel d'. apply stable_process; [done|]. unfold pop_front_wait_req. intros k d0 d1.
    destruct (pq_pop (d_token_req_wait_q d0) _first) as [[j|] q]; intros [= <- <-]; by apply wake_inv_eq. }
  destruct (op_type _); auto.
  - do 2 (case_if; [done|]). apply Hp. by apply stable_dereg.
  - case_if; [done|]. case_if; [|case_if; [|done]; apply Hp; by apply stable_dereg].
    apply stable_push_idle_req; [done|]. apply (ts_call _ Hs). by apply (wake_inv_eq n d).
Qed.

Lemma wake_pop_op n d r q :
  pq_pop (d_token_op_q d) _first = (Some r, q) ->
  wake_inv n d -> wake_inv (n.1 - 1, n.2) (set_d_token_op_q q d).
Proof.
  intros E. apply pq_pop_Some in E as [E _]. unfold wake_inv, work, d_test. simpl. rewrite E. simpl. lia.
Qed.

Lemma wake_token_ops fuel : forall n d, wake_inv n d -> wake_inv n (token_op_hanler fuel d).
Proof.
  induction fuel as [|fuel IH]; intros n d H; [done|]. simpl. unfold pop_front_token_op_info.
  destruct (pq_pop (d_token_op_q d) _first) as [[r|] q] eqn:E.
  - apply IH. apply (wake_pop_op n) in E; [|done]. apply (wake_inv_weaken _ n) in E; [|cbn; lia..].
    apply (wake_handle n _ r) in E. set (d1 := _handle_token_op_info _ r) in *. clearbody d1.
    destruct r; by apply (wake_inv_eq n d1).
  - apply pq_pop_None in E as ->. by apply (wake_inv_eq n d).
Qed.

(** A turn of the operation loop uses up at least one unit if there is one. *)
Lemma wake_token_ops_pos fuel n d :
  pq_wf (d_token_op_q d) -> q_queue (d_token_op_q d) <> [] -> wake_inv n d ->
  wake_inv (n.1 - 1, n.2) (token_op_hanler (S fuel) d).
Proof.
  intros Hwf Hne H. simpl. unfold pop_front_token_op_info.
  destruct (pq_pop (d_token_op_q d) _first) as [[r|] q] eqn:E; [|by apply pq_pop_empty in E].
  apply wake_token_ops. apply (wake_pop_op n) in E; [|done].
  apply (wake_handle _ _ r) in E. set (d1 := _handle_token_op_info _ r) in *. clearbody d1.
  destruct r; by apply (wake_inv_eq _ d1).
Qed.

Lemma wake_pop_wait n d r d' :
  pop_front_wait_msg d = (r, d') -> wake_inv n d ->
  wake_inv (n.1 - if r then 1 else 0, 0) d'.
Proof.
  unfold pop_front_wait_msg. destruct (pq_pop (d_msg_wait_q d) _first) as [[i|] q] eqn:E;
    intros [= <- <-] H.
  - apply pq_pop_Some in E as [E _]. unfold wake_inv, work, d_test in *. simpl in *. rewrite E in H.
    simpl in H. lia.
  - apply pq_pop_None in E as ->. unfold wake_inv, work, d_test in *. simpl. lia.
Qed.

Lemma wake_dispatch_tail n d i :
  wake_inv n d ->
  wake_inv n (match is_msg_canceled d i with
              | (true, d) => push_back_idle_msg cbk d i
              | (false, d) =>
                  let d := upd_mx (fun m => set_mx_premap (_and_bitmaps (d_bitmap d) (mx_premap m)) m) i d in
                  let d := upd_mx (fun m => set_mx_postmap (_and_bitmaps (d_bitmap d) (mx_postmap m)) m) i d in
                  msg_dispatch d i
              end).
Proof.
  intros H. pose proof (is_msg_canceled_ind (wake_inv n) d i) as H4.
  destruct (is_msg_canceled d i) as [[] d4]; cbn [snd] in H4.
  - apply (blind_push_back_idle _ (wake_inv_blind n)); [intros; by apply (cbk_inv wake_inv)|].
    apply H4; [|done]. intros f d' _. by apply wake_inv_eq.
  - apply (blind_dispatch wake_inv); [apply wake_inv_blind| |].
    + intros q d'. by apply wake_inv_eq.
    + apply (wake_inv_eq n d4); try done. apply H4; [|done]. intros f d' _. by apply wake_inv_eq.
Qed.

(** One signal pays for one turn of the thread. *)
Lemma wake_loop h d :
  settled h d -> pq_wf (d_token_op_q d) ->
  work (dispr_thread_loop_hdl d) <=
    d_wake (dispr_thread_loop_hdl d) - d_wake d + Z.max (work d - 1) 0.
Proof.
  intros Hs Hwf. set (w := Z.of_nat (length (q_queue (d_msg_wait_q d)))).
  assert (wake_inv (work d - d_wake d, w) d) as H0 by (unfold wake_inv; cbn; lia).
  enough (exists k, wake_inv (work d - d_wake d - k, 0) (dispr_thread_loop_hdl d) /\ 0 <= k /\
                    (0 < work d -> 1 <= k)) as (k & [H _] & ? & ?) by (cbn in H; lia).
  unfold dispr_thread_loop_hdl. apply wake_clear_pending in H0. cbn [fst snd] in H0.
  assert (d_token_op_q (clear_pending_msg d) = d_token_op_q d) as Hq.
  { unfold clear_pending_msg. case_if; [done|]. by apply clear_loop_ind. }
  apply settled_clear_pending in Hs. set (b := d_test d DISPR_CLR_PEND_MSG) in *.
  set (o := Z.of_nat (opq_len d)) in *. assert (work d = w + o + Z.b2z b) as Hw by done.
  set (d1 := clear_pending_msg d) in *. clearbody d1.
  assert (wake_inv (work d - d_wake d - Z.b2z b - (if q_queue (d_token_op_q d) then 0 else 1), w)
            (token_op_hanler (op_fuel d1) d1)) as H2.
  { destruct (q_queue (d_token_op_q d)) as [|r l] eqn:El.
    - rewrite Z.sub_0_r. by apply wake_token_ops.
    - apply (wake_token_ops_pos _ (_, _)); rewrite ?Hq; [done|congruence|done]. }
  apply (settled_token_ops h (op_fuel d1)) in Hs.
  set (d2 := token_op_hanler (op_fuel d1) d1) in *. clearbody d2.
  destruct (pop_front_wait_msg d2) as [r d3] eqn:Ep.
  apply (wake_pop_wait _ _ _ _ Ep) in H2 as H3. cbn [fst] in H3.
  exists (Z.b2z b + (if q_queue (d_token_op_q d) then 0 else 1) + (if r then 1 else 0)).
  split; [|split; [destruct b, (q_queue (d_token_op_q d)), r; cbn; lia|]].
  - rewrite !Z.sub_add_distr. destruct r as [i|]; [|done]. by apply wake_dispatch_tail.
  - intros Hpos. destruct b; [destruct (q_queue (d_token_op_q d)), r; cbn; lia|].
    destruct (q_queue (d_token_op_q d)) eqn:El; [|destruct r; cbn; lia].
    destruct r; [cbn; lia|]. exfalso. revert Ep. unfold pop_front_wait_msg.
    destruct (pq_pop (d_msg_wait_q d2) _first) as [[j|] q] eqn:Eq; [done|]. intros _.
    apply pq_pop_empty in Eq; [|apply Hs]. destruct H2 as [_ H2]. rewrite Eq in H2.
    unfold o in Hw. try rewrite El in Hw. cbn in *. lia.
Qed.
End wake.
