(* ===== verification/DispLeave.v ===== *)
(** * Stopping the dispatcher thread

    [dispr_thread_leave_hdl] runs when the thread is told to stop, after
    [DISPR_STARTED] was cleared.  Its two [while] loops wait for every
    descriptor to be idle again; with the flag cleared the callbacks they run
    cannot queue anything, so both loops end. *)

From S2P Require Import Prelude PhlQueue PhlDef DispState DispApi DispThread DispInv DispApiInv DispThreadInv DispFuel.

Section stopped.
Implicit Types (d : cmd_dispatcher).

(** The dispatcher is stopped and its waiting and pending queues are these. *)
Definition stopped (w p rw : phl_queue nat) (d : cmd_dispatcher) : Prop :=
  d_test d DISPR_STARTED = false /\ d_msg_wait_q d = w /\ d_msg_pend_q d = p /\
  d_token_req_wait_q d = rw.

Lemma stopped_frame w p rw d d' :
  d_status d' = d_status d -> d_msg_wait_q d' = d_msg_wait_q d -> d_msg_pend_q d' = d_msg_pend_q d ->
  d_token_req_wait_q d' = d_token_req_wait_q d -> stopped w p rw d -> stopped w p rw d'.
Proof. unfold stopped, d_test. by intros -> -> -> ->. Qed.

Lemma stopped_callback w p rw ev d : stopped w p rw d -> stopped w p rw (snd (callback ev d)).
Proof.
  intros (Hs & Hw & Hp & Hr).
  destruct (callback_inv stop_inv ev _ d (conj Hs eq_refl)) as [Hs' [= _ E1 E2 _ E3 _]].
  unfold stopped. by rewrite <- E1, <- E2, <- E3.
Qed.

Lemma stopped_recycle w p rw d i :
  stopped w p rw d -> stopped w p rw (push_back_idle_msg cbk d i).
Proof.
  intros H. destruct (push_back_idle_ind (stopped w p rw) cbk d i) as (d' & Hd & ->); try done.
  - intros d' Hd'. unfold on_abort_msg_complete. apply enqueue_op_ind; try done.
    + by intros v [] d2.
    + destruct Hd' as (Hs & ?). split; [|done]. rewrite <- Hs. by apply d_test_clear.
  - intros. by apply stopped_callback.
Qed.

(** *** Messages *)

Lemma pend_to_wait_spec fuel : forall d,
  msg_inv [] d -> (length (q_queue (d_msg_pend_q d)) <= fuel)%nat -> d_test d DISPR_STARTED = false ->
  msg_inv [] (pend_to_wait fuel d) /\ q_queue (d_msg_pend_q (pend_to_wait fuel d)) = [] /\
  d_test (pend_to_wait fuel d) DISPR_STARTED = false /\
  d_token_req_wait_q (pend_to_wait fuel d) = d_token_req_wait_q d.
Proof.
  induction fuel as [|fuel IH]; intros d H Hl Hs; simpl.
  - split; [done|]. split; [apply length_zero_iff_nil; lia|done].
  - destruct (pop_front_pending_msg d) as [[i|] d1] eqn:E.
    + apply (msg_inv_pop_pend [] d i d1 E) in H as H1. revert E. unfold pop_front_pending_msg.
      destruct (pq_pop (d_msg_pend_q d) _first) as [r q] eqn:Eq. intros [= -> <-].
      apply pq_pop_Some in Eq as [Eq _]. rewrite Eq in Hl. simpl in Hl.
      destruct (IH (push_back_wait_msg (set_d_msg_pend_q q d) i)) as (? & ? & ? & ?);
        [by apply msg_inv_push_wait|simpl; lia|done|done].
    + revert E. unfold pop_front_pending_msg.
      destruct (pq_pop (d_msg_pend_q d) _first) as [r q] eqn:Eq. intros [= -> <-].
      apply pq_pop_empty in Eq as Hq; [|apply H]. apply pq_pop_None in Eq as ->. done.
Qed.

Lemma wait_to_idle_spec fuel : forall d,
  msg_inv [] d -> (length (q_queue (d_msg_wait_q d)) <= fuel)%nat -> d_test d DISPR_STARTED = false ->
  msg_inv [] (wait_to_idle fuel d) /\ q_queue (d_msg_wait_q (wait_to_idle fuel d)) = [] /\
  d_test (wait_to_idle fuel d) DISPR_STARTED = false /\
  d_msg_pend_q (wait_to_idle fuel d) = d_msg_pend_q d /\
  d_token_req_wait_q (wait_to_idle fuel d) = d_token_req_wait_q d.
Proof.
  induction fuel as [|fuel IH]; intros d H Hl Hs; simpl.
  - split; [done|]. split; [apply length_zero_iff_nil; lia|done].
  - destruct (pop_front_wait_msg d) as [[i|] d1] eqn:E.
    + apply (msg_inv_pop_wait [] d i d1 E) in H as H1. revert E. unfold pop_front_wait_msg.
      destruct (pq_pop (d_msg_wait_q d) _first) as [[j|] q] eqn:Eq; [|done]. intros [= -> <-].
      apply pq_pop_Some in Eq as [Eq _]. rewrite Eq in Hl. simpl in Hl.
      set (d1 := upd_mx _ i _) in *.
      assert (stopped q (d_msg_pend_q d) (d_token_req_wait_q d) d1) as Hst by done.
      clearbody d1. apply (stopped_recycle _ _ _ _ i) in Hst as (S1 & S2 & S3 & S4).
      apply msg_inv_recycle in H1. set (d2 := push_back_idle_msg cbk d1 i) in *. clearbody d2.
      destruct (IH d2 H1) as (? & ? & ? & I4 & I5); [rewrite S2; lia|done|].
      do 3 (split; [done|]). split; congruence.
    + apply (msg_inv_pop_wait_None [] d d1 E) in H as H1. revert E. unfold pop_front_wait_msg.
      destruct (pq_pop (d_msg_wait_q d) _first) as [[j|] q] eqn:Eq; [done|]. intros [= <-].
      apply pq_pop_empty in Eq as Hq; [|apply H]. apply pq_pop_None in Eq as ->. done.
Qed.

Lemma all_idle d :
  msg_inv [] d -> q_queue (d_msg_wait_q d) = [] -> q_queue (d_msg_pend_q d) = [] ->
  q_cnt (d_msg_idle_q d) = Z.of_nat MAX_PHL_MSG_NUM.
Proof.
  intros H Hw Hp. rewrite (mo_idle_wf _ _ _ _ _ H).
  pose proof (pool_split_length _ _ (mo_split _ _ _ _ _ H)) as Hl. simpl in Hl.
  rewrite Hw, Hp in Hl. simpl in Hl. rewrite app_nil_r in Hl. by rewrite Hl.
Qed.

(** One turn of the outer loop is enough. *)
Lemma clear_waiting_msg_spec d :
  msg_inv [] d -> d_test d DISPR_STARTED = false ->
  exists d', clear_waiting_msg 1 d = Some d' /\ msg_inv [] d' /\
    q_cnt (d_msg_idle_q d') = Z.of_nat MAX_PHL_MSG_NUM /\
    d_test d' DISPR_STARTED = false /\ d_token_req_wait_q d' = d_token_req_wait_q d.
Proof.
  intros H Hs. simpl. case_if; [apply Z.eqb_eq in E; eauto 10|].
  destruct (pend_to_wait_spec (length (q_queue (d_msg_pend_q d))) d H ltac:(done) Hs) as (H1 & P1 & S1 & R1).
  set (d1 := pend_to_wait _ d) in *. clearbody d1.
  destruct (wait_to_idle_spec (length (q_queue (d_msg_wait_q d1)) + env_size d1) d1 H1 ltac:(lia) S1)
    as (H2 & W2 & S2 & P2 & R2).
  set (d2 := wait_to_idle _ d1) in *. clearbody d2.
  assert (q_cnt (d_msg_idle_q d2) = Z.of_nat MAX_PHL_MSG_NUM) as Hc.
  { apply all_idle; [done|done|]. by rewrite P2. }
  rewrite Hc, Z.eqb_refl. exists d2. do 4 (split; [done|]). congruence.
Qed.
End stopped.

(** *** Requests *)

Section requests.
Implicit Types (d : cmd_dispatcher).

(** What the request loop must not disturb. *)
Definition drained (d : cmd_dispatcher) : Prop :=
  msg_inv [] d /\ q_cnt (d_msg_idle_q d) = Z.of_nat MAX_PHL_MSG_NUM /\
  d_test d DISPR_STARTED = false.

Lemma drained_frame d d' :
  d_msg_ex_pool d' = d_msg_ex_pool d -> d_msg_idle_q d' = d_msg_idle_q d ->
  d_msg_wait_q d' = d_msg_wait_q d -> d_msg_pend_q d' = d_msg_pend_q d ->
  d_status d' = d_status d -> drained d -> drained d'.
Proof. unfold drained, msg_inv, d_test. by intros -> -> -> -> ->. Qed.

Lemma drained_callback ev d :
  drained d -> drained (snd (callback ev d)) /\
    d_token_req_wait_q (snd (callback ev d)) = d_token_req_wait_q d.
Proof.
  intros (H & Hc & Hs). pose proof (callback_inv msg_inv ev _ _ H) as H1.
  destruct (callback_inv stop_inv ev _ d (conj Hs eq_refl)) as [Hs' [= E0 E1 E2 _ E3 _]].
  unfold drained. rewrite <- E0, <- E3. done.
Qed.

Lemma wait_req_to_idle_spec fuel : forall d,
  drained d -> req_inv (mkRG [] [] None) d -> (rwait_len d <= fuel)%nat ->
  drained (wait_req_to_idle fuel d) /\ req_inv (mkRG [] [] None) (wait_req_to_idle fuel d) /\
  q_queue (d_token_req_wait_q (wait_req_to_idle fuel d)) = [].
Proof.
  induction fuel as [|fuel IH]; intros d H Hq Hl; simpl.
  - split; [done|]. split; [done|]. apply length_zero_iff_nil. lia.
  - destruct (pop_front_wait_req d) as [[k|] d1] eqn:E.
    + apply (req_inv_pop_wait _ _ _ _ E) in Hq as Hq1. revert E. unfold pop_front_wait_req.
      destruct (pq_pop (d_token_req_wait_q d) _first) as [[j|] q] eqn:Eq; [|done]. intros [= -> <-].
      apply pq_pop_Some in Eq as [Eq _]. rewrite Eq in Hl. simpl in Hl.
      set (d1 := upd_rx _ k _) in *.
      assert (drained d1) as Hd1 by (by apply (drained_frame d)).
      assert (d_token_req_wait_q d1 = q) as Hw1 by done. clearbody d1.
      set (ev := EvAbort k _). apply (drained_callback ev) in Hd1 as [Hd2 Hw2].
      apply (callback_inv req_inv ev) in Hq1. set (d2 := snd (callback ev d1)) in *. clearbody d2.
      apply IH.
      * by apply (drained_frame d2).
      * eapply req_inv_push_idle; [..|exact Hq1]; cbn; auto; set_solver.
      * cbn. rewrite Hw2, Hw1. lia.
    + apply (req_inv_pop_wait_None _ _ _ E) in Hq as Hq1. revert E. unfold pop_front_wait_req.
      destruct (pq_pop (d_token_req_wait_q d) _first) as [[j|] q] eqn:Eq; [done|]. intros [= <-].
      apply pq_pop_empty in Eq as He; [|apply Hq]. apply pq_pop_None in Eq as ->. done.
Qed.

Lemma all_req_idle d :
  req_inv (mkRG [] [] None) d -> q_queue (d_token_req_wait_q d) = [] ->
  q_cnt (d_token_req_idle_q d) = Z.of_nat MAX_CMD_REQ_NUM.
Proof.
  intros H Hw. rewrite (ro_idle_wf _ _ _ _ _ _ H).
  pose proof (pool_split_length _ _ (ro_split _ _ _ _ _ _ H)) as Hl. simpl in Hl.
  rewrite Hw in Hl. simpl in Hl. rewrite app_nil_r in Hl. by rewrite Hl.
Qed.

Lemma clear_wating_req_spec d :
  drained d -> req_inv (mkRG [] [] None) d ->
  exists d', clear_wating_req 1 d = Some d' /\ drained d' /\ req_inv (mkRG [] [] None) d' /\
    q_cnt (d_token_req_idle_q d') = Z.of_nat MAX_CMD_REQ_NUM.
Proof.
  intros H Hq. simpl. case_if; [apply Z.eqb_eq in E; eauto 10|].
  destruct (wait_req_to_idle_spec (rwait_len d + env_size d) d H Hq ltac:(lia)) as (H1 & Q1 & W1).
  set (d1 := wait_req_to_idle _ d) in *. clearbody d1.
  pose proof (all_req_idle d1 Q1 W1) as Hc. rewrite Hc, Z.eqb_refl. eauto 10.
Qed.

(** Draining the messages leaves the requests alone. *)
Lemma clear_waiting_req_inv fuel : forall d d',
  clear_waiting_msg fuel d = Some d' -> forall g, req_inv g d -> req_inv g d'.
Proof.
  assert (forall fuel g d, req_inv g d -> req_inv g (pend_to_wait fuel d)) as Hp.
  { clear. induction fuel as [|fuel IH]; intros g d H; [done|]. simpl. unfold pop_front_pending_msg.
    destruct (pq_pop (d_msg_pend_q d) _first) as [[i|] q]; [|by apply (req_inv_frame g d)].
    apply IH, (mb_push_wait _ (req_inv_blind g)). by apply (req_inv_frame g d). }
  assert (forall fuel g d, req_inv g d -> req_inv g (wait_to_idle fuel d)) as Hw.
  { clear. induction fuel as [|fuel IH]; intros g d H; [done|]. simpl.
    destruct (pop_front_wait_msg d) as [[i|] d1] eqn:E; apply (pop_wait_msg_req g) in E; try done.
    apply IH, (blind_push_back_idle _ (req_inv_blind g)); [|done]. intros. by apply (cbk_inv req_inv). }
  induction fuel as [|fuel IH]; intros d d' E g H; simpl in E; case_if_in E; simplify_eq; try done.
  eapply IH; [exact E|]. auto.
Qed.

(** STARTED stays cleared while the running request is removed. *)
Lemma not_started_stable : thread_stable (fun d => d_test d DISPR_STARTED = false).
Proof.
  split; try done.
  - intros ev d H. by apply (callback_inv stop_inv ev _ d (conj H eq_refl)).
  - intros mdl evt d H. unfold dispr_send_msg. destruct (get_cur_cmd_req_id d). by rewrite H.
  - intros d H. rewrite <- H. by apply d_test_set.
  - intros d H. rewrite <- H. by apply d_test_clear.
  - intros mid d i H. unfold cancel_req_msg. case_if; [done|]. set (d1 := cancel_msg _ i).
    assert (d_test d1 DISPR_STARTED = false) as H1 by done. clearbody d1. case_if; [|done].
    unfold clear_pending_msg. set (d2 := dispr_clr_pending_msg d1).
    assert (d_test d2 DISPR_STARTED = false) as H2 by (rewrite <- H1; by apply d_test_set).
    clearbody d2. case_if; [done|]. apply clear_loop_ind; try done.
    rewrite <- H2. by apply d_test_clear.
Qed.

Lemma leave_hdl_spec d :
  settled [] d -> d_test d DISPR_STARTED = false ->
  exists d', dispr_thread_leave_hdl 1 d = Some d' /\ drained d' /\ req_inv (mkRG [] [] None) d' /\
    q_cnt (d_token_req_idle_q d') = Z.of_nat MAX_CMD_REQ_NUM.
Proof.
  intros H Hs. unfold dispr_thread_leave_hdl.
  pose proof (stable_dereg _ not_started_stable d true Hs) as Hs1. destruct H as [H [c Hq]].
  pose proof (msg_inv_dereg _ _ _ true H Hq) as H1.
  assert (req_inv (mkRG [] [] None) (deregister_cur_cmd_req d true)) as Q1.
  { destruct c as [k|]; [by eapply req_inv_dereg|].
    unfold deregister_cur_cmd_req. by rewrite (ro_cur _ _ _ _ _ _ Hq). }
  set (d1 := deregister_cur_cmd_req d true) in *. clearbody d1.
  destruct (clear_waiting_msg_spec d1 H1 Hs1) as (d2 & E2 & H2 & C2 & S2 & _). rewrite E2. cbn.
  destruct (clear_wating_req_spec d2) as (d3 & E3 & D3 & Q3 & C3); [done|..]; eauto 10.
  apply (clear_waiting_req_inv 1 d1 d2 E2 _ Q1).
Qed.
End requests.
