(* ===== verification/DispReach.v ===== *)
(** * Reachable states of a dispatcher

    A transition relation over the life of one dispatcher, from [dispr_start]
    on: API calls of other threads, turns of the background thread, registration
    and removal of modules, the stop sequence.  The invariants of the previous
    files hold in every reachable state. *)

From S2P Require Import Prelude PhlQueue PhlDef DispState DispApi DispThread DispModule DispInv DispApiInv DispThreadInv DispFuel DispLeave.

(** ** Initialisation *)

Section init.
Implicit Types (d : cmd_dispatcher).

(** The release of a descriptor with no flag set runs nothing. *)
Lemma push_idle_quiet K d i :
  mx_status (mx d i) = 0 ->
  exists v, push_back_idle_msg K d i =
    let d' := upd_mx (mx_map_id (fun _ => 0)) i (set_d_mdl_info v (upd_mx (set_mx_status 0) i d)) in
    set_d_msg_idle_q (pq_push (d_msg_idle_q d) i _tail) d'.
Proof.
  intros Hs. unfold push_back_idle_msg, mx_test. rewrite Hs.
  change (TEST_STATUS_FLAG 0 MSG_STATUS_NOTIFY_COMPLETE) with false. cbn [andb]. rewrite Hs.
  change (TEST_STATUS_FLAG 0 MSG_STATUS_FOR_ABORT) with false.
  set (d1 := upd_mx (set_mx_status 0) i d).
  case_if; [by eexists|]. exists (d_mdl_info d1). by destruct d.
Qed.

Definition init_elem (i : nat) (m : phl_dispr_msg_ex) : phl_dispr_msg_ex :=
  mx_map_id (fun _ => 0) (set_mx_status 0 (set_mx_idx (Z.of_nat i) m)).

Lemma init_fold l : forall d,
  (forall j, mx_status (mx d j) = 0) ->
  let d' := foldl (fun d i => push_back_idle_msg cbk (upd_mx (set_mx_idx (Z.of_nat i)) i d) i) d l in
  d_msg_ex_pool d' = foldl (fun p i => alter (init_elem i) i p) (d_msg_ex_pool d) l /\
  d_msg_idle_q d' = foldl (fun q i => pq_push q i _tail) (d_msg_idle_q d) l /\
  d_msg_wait_q d' = d_msg_wait_q d /\ d_msg_pend_q d' = d_msg_pend_q d /\
  (exists v, d' = set_d_mdl_info v (set_d_msg_idle_q (d_msg_idle_q d')
                    (set_d_msg_ex_pool (d_msg_ex_pool d') d))).
Proof.
  induction l as [|i l IH]; intros d Hd; simpl.
  - repeat split; try done. exists (d_mdl_info d). by destruct d.
  - set (d0 := upd_mx (set_mx_idx (Z.of_nat i)) i d).
    assert (forall j, mx_status (mx d0 j) = 0) as Hd0.
    { intros j. unfold d0. rewrite mx_upd. case_decide; [|done]. apply Hd. }
    destruct (push_idle_quiet cbk d0 i (Hd0 i)) as [v Hv]. rewrite Hv. cbn zeta.
    match goal with |- context [foldl _ ?x l] => set (d1 := x) end.
    destruct (IH d1) as (E1 & E2 & E3 & E4 & v' & E5).
    { intros j. set (d2 := upd_mx (set_mx_status 0) i d0).
      change (mx d1 j) with (mx (upd_mx (mx_map_id (fun _ => 0)) i (set_d_mdl_info v d2)) j).
      rewrite mx_upd. change (mx (set_d_mdl_info v d2) j) with (mx d2 j).
      assert (mx_status (mx d2 j) = 0) by (unfold d2; rewrite mx_upd; case_decide; done).
      case_decide; done. }
    assert (d_msg_ex_pool d1 = alter (init_elem i) i (d_msg_ex_pool d)) as Hp.
    { cbn. by rewrite !list_alter_alter_eq. }
    split; [by rewrite E1, Hp|]. split; [by rewrite E2|]. split; [by rewrite E3|].
    split; [by rewrite E4|]. exists v'. rewrite E5 at 1. by destruct d.
Qed.

Definition init_pool : list phl_dispr_msg_ex :=
  foldl (fun p i => alter (init_elem i) i p) (replicate MAX_PHL_MSG_NUM zero_msg_ex)
    (seq 0 MAX_PHL_MSG_NUM).

Lemma init_msg_ok : msg_ok [] init_pool
  (foldl (fun q i => pq_push q i _tail) pq_init (seq 0 MAX_PHL_MSG_NUM)) pq_init pq_init.
Proof.
  split.
  - vm_compute. reflexivity.
  - done.
  - done.
  - done.
  - done.
  - intros i Hi. do 24 (destruct i as [|i]; [done|]). unfold MAX_PHL_MSG_NUM in Hi. lia.
  - intros i Hi. assert (i < 24)%nat as Hl.
    { assert (i ∈ seq 0 24) as Hs by (exact Hi). apply elem_of_seq in Hs. lia. }
    do 24 (destruct i as [|i]; [done|]). lia.
  - intros i [Hi|Hi]; by apply elem_of_nil in Hi.
Qed.

Lemma zero_pool_status n j :
  mx_status (nth j (replicate n zero_msg_ex) zero_msg_ex) = 0.
Proof.
  rewrite nth_lookup. destruct (replicate n zero_msg_ex !! j) eqn:E; [|done].
  by apply lookup_replicate in E as [-> _].
Qed.

Lemma init_msg_pool_spec d :
  d_test d DISPR_MSGQ_INIT = false ->
  msg_inv [] (init_dispr_msg_pool d) /\ d_msg_wait_q (init_dispr_msg_pool d) = pq_init /\
  exists p q v, init_dispr_msg_pool d =
    d_set_flag DISPR_MSGQ_INIT (set_d_mdl_info v (set_d_msg_idle_q q (set_d_msg_ex_pool p
      (set_d_msg_pend_q pq_init (set_d_msg_wait_q pq_init d))))).
Proof.
  intros Ht. unfold init_dispr_msg_pool. rewrite Ht. set (d0 := set_d_msg_ex_pool _ _).
  destruct (init_fold (seq 0 MAX_PHL_MSG_NUM) d0) as (E1 & E2 & E3 & E4 & v & E5).
  { intros j. apply zero_pool_status. }
  revert E1 E2 E3 E4 E5. generalize (foldl (fun d i => push_back_idle_msg cbk
    (upd_mx (set_mx_idx (Z.of_nat i)) i d) i) d0 (seq 0 MAX_PHL_MSG_NUM)). intros d1 E1 E2 E3 E4 E5.
  split; [|split].
  - apply (msg_inv_frame [] d1); try reflexivity. unfold msg_inv. rewrite E1, E2, E3, E4.
    exact init_msg_ok.
  - exact E3.
  - exists (d_msg_ex_pool d1), (d_msg_idle_q d1), v. rewrite E5 at 1. reflexivity.
Qed.

Lemma init_req_fold l : forall d,
  let d' := foldl (fun d k =>
                     let d := upd_rx (set_rx_idx (Z.of_nat k)) k d in
                     set_d_token_req_idle_q (pq_push (d_token_req_idle_q d) k _tail) d) d l in
  d' = set_d_token_req_idle_q (foldl (fun q k => pq_push q k _tail) (d_token_req_idle_q d) l)
         (set_d_token_req_ex_pool
            (foldl (fun p k => alter (set_rx_idx (Z.of_nat k)) k p) (d_token_req_ex_pool d) l) d).
Proof.
  induction l as [|k l IH]; intros d; simpl; [by destruct d|]. rewrite IH. by destruct d.
Qed.

Lemma init_req_ok : req_ok (mkRG [] [] None)
  (foldl (fun p k => alter (set_rx_idx (Z.of_nat k)) k p) (replicate MAX_CMD_REQ_NUM zero_req_ex)
     (seq 0 MAX_CMD_REQ_NUM))
  (foldl (fun q k => pq_push q k _tail) pq_init (seq 0 MAX_CMD_REQ_NUM)) pq_init None 0.
Proof.
  split.
  - vm_compute. reflexivity.
  - done.
  - done.
  - done.
  - intros k Hk. do 8 (destruct k as [|k]; [done|]). unfold MAX_CMD_REQ_NUM in Hk. lia.
  - done.
  - done.
  - intros k Hk. assert (k < 8)%nat as Hl.
    { assert (k ∈ seq 0 8) as Hs by (exact Hk). apply elem_of_seq in Hs. lia. }
    do 8 (destruct k as [|k]; [done|]). lia.
  - intros k Hk. by apply elem_of_nil in Hk.
  - done.
  - intros k Hk. by apply elem_of_nil in Hk.
  - intros k Hk. by apply elem_of_nil in Hk.
  - intros k Hk Hl. destruct Hk. change (k ∈ seq 0 8). apply elem_of_seq.
    unfold MAX_CMD_REQ_NUM in Hl. lia.
Qed.
End init.

(** ** Well-formed operation queue *)

Definition opq_wf (_ : unit) (d : cmd_dispatcher) : Prop := pq_wf (d_token_op_q d).

Lemma opq_wf_enqueue u d r ty x : opq_wf u d -> opq_wf u (snd (dispr_enqueue_token_op_info d r ty x)).
Proof. intros H. by apply (grow_enqueue d r ty x). Qed.

Lemma opq_wf_blind u : msg_blind (opq_wf u).
Proof. split; try done. intros d H. by apply opq_wf_enqueue. Qed.

#[export] Instance opq_wf_api : ApiInv opq_wf.
Proof.
  split; try done.
  - intros K u d msg attr hdl HK. apply (blind_send _ (opq_wf_blind u)). auto.
  - intros u d hdl H. unfold dispr_cancel_msg. destruct hdl; [|done]. repeat case_if; done.
  - intros u d req hdl H. by apply (grow_add_req d req hdl).
  - intros u d hdl H. by apply (grow_cancel_req d hdl).
  - intros u d hdl H. by apply (grow_free d hdl).
  - intros u d m b H. by apply (grow_io d m b).
  - intros u d H. unfold dispr_notify_shall_stop. by case_if.
Qed.

#[export] Instance opq_wf_call : CallInv opq_wf.
Proof. split; [apply _|done]. Qed.

Lemma opq_wf_loop d : opq_wf () d -> opq_wf () (dispr_thread_loop_hdl d).
Proof.
  intros H. unfold dispr_thread_loop_hdl.
  assert (opq_wf () (clear_pending_msg d)) as H1.
  { unfold clear_pending_msg. case_if; [done|]. by apply clear_loop_ind. }
  set (d1 := clear_pending_msg d) in *. clearbody d1.
  assert (forall fuel d, opq_wf () d -> opq_wf () (token_op_hanler fuel d)) as Hops.
  { clear. induction fuel as [|fuel IH]; intros d H; [done|]. simpl. unfold pop_front_token_op_info.
    destruct (pq_pop (d_token_op_q d) _first) as [[r|] q] eqn:E.
    - apply IH. apply (pq_pop_Some_wf _ _ _ H) in E.
      assert (budget (opq_len (set_d_token_op_q q d) + env_size (set_d_token_op_q q d))
                (rwait_len (set_d_token_op_q q d) + env_size (set_d_token_op_q q d))
                (set_d_token_op_q q d)) as Hb by (repeat split; [lia|lia|done]).
      apply (budget_handle _ _ _ r) in Hb. set (d1 := _handle_token_op_info _ r) in *. clearbody d1.
      destruct Hb as (_ & _ & Hb). by destruct r.
    - by apply pq_pop_None in E as ->. }
  apply (Hops (op_fuel d1)) in H1. set (d2 := token_op_hanler _ d1) in *. clearbody d2.
  unfold pop_front_wait_msg. destruct (pq_pop (d_msg_wait_q d2) _first) as [[i|] q]; [|done].
  match goal with |- context [is_msg_canceled ?x i] => set (d3 := x) end.
  assert (opq_wf () d3) as H3 by done. clearbody d3.
  pose proof (is_msg_canceled_ind (opq_wf ()) d3 i ltac:(done) H3) as H4.
  destruct (is_msg_canceled d3 i) as [[] d4]; cbn [snd] in H4.
  - apply (blind_push_back_idle _ (opq_wf_blind ())); [intros; by apply (cbk_inv opq_wf)|done].
  - apply (blind_dispatch opq_wf); [apply opq_wf_blind|done|done].
Qed.

(** ** Module operations *)

(** Predicates about messages, requests and wake-ups do not read the fields the
    module operations write. *)
Record mdl_stable (P : cmd_dispatcher -> Prop) : Prop := {
  ms_call : forall ev d, P d -> P (snd (callback ev d));
  ms_ub : forall b d, P d -> P (raise_ub b d);
  ms_ctrl : forall v d, P d -> P (set_d_controller v d);
  ms_heap : forall v d, P d -> P (set_d_heap v d);
  ms_next : forall v d, P d -> P (set_d_next v d);
  ms_q : forall v d, P d -> P (set_d_module_q v d);
  ms_map : forall v d, P d -> P (set_d_bitmap v d);
  ms_base : forall v d, P d -> P (set_d_basemap v d);
  ms_present : forall d, P d -> P (d_set_flag DISPR_CTRL_PRESENT d);
  ms_absent : forall d, P d -> P (d_clear_flag DISPR_CTRL_PRESENT d) }.

Section mdl.
Context (P : cmd_dispatcher -> Prop) (HP : mdl_stable P).

Lemma mdl_upd_bk f m d : P d -> P (upd_bk f m d).
Proof. destruct m; [apply (ms_ctrl _ HP)|apply (ms_heap _ HP)]. Qed.

Lemma mdl_init d m : P d -> P (snd (bk_module_init d m)).
Proof.
  intros H. unfold bk_module_init. set (d1 := raise_ub _ d).
  assert (P d1) as H1 by (by apply (ms_ub _ HP)). clearbody d1. case_if; [done|].
  pose proof (ms_call _ HP (EvMdlInit m) d1 H1) as H2. destruct (callback _ d1) as [ret d2].
  case_if; [by apply mdl_upd_bk|done].
Qed.

Lemma mdl_deinit d m : P d -> P (bk_module_deinit d m).
Proof.
  intros H. unfold bk_module_deinit. apply mdl_upd_bk. set (d1 := raise_ub _ d).
  assert (P d1) as H1 by (by apply (ms_ub _ HP)). case_if; [by apply (ms_call _ HP)|done].
Qed.

Lemma mdl_start d m : P d -> P (snd (bk_module_start d m)).
Proof.
  intros H. unfold bk_module_start. set (d1 := raise_ub _ d).
  assert (P d1) as H1 by (by apply (ms_ub _ HP)). clearbody d1. case_if; [done|].
  pose proof (ms_call _ HP (EvMdlStart m) d1 H1) as H2. destruct (callback _ d1) as [ret d2].
  case_if; [by apply mdl_upd_bk|done].
Qed.

Lemma mdl_stop d m : P d -> P (snd (bk_module_stop d m)).
Proof.
  intros H. unfold bk_module_stop. set (d1 := raise_ub _ d).
  assert (P d1) as H1 by (by apply (ms_ub _ HP)). clearbody d1. case_if; [done|].
  pose proof (ms_call _ HP (EvMdlStop m) (upd_bk (bk_clear_flag MDL_STARTED) m d1)) as H2.
  destruct (callback _ _) as [ret d2]. apply H2. by apply mdl_upd_bk.
Qed.

Lemma mdl_ctrl_start d : P d -> P (snd (_start_dispr_controller d)).
Proof.
  intros H. unfold _start_dispr_controller. pose proof (mdl_start d RefCtrl H) as H1.
  destruct (bk_module_start d RefCtrl) as [[] d1]; [by apply (ms_present _ HP)|done].
Qed.

Lemma mdl_ctrl_stop d : P d -> P (snd (_stop_dispr_controller d)).
Proof.
  intros H. unfold _stop_dispr_controller.
  pose proof (mdl_stop (d_clear_flag DISPR_CTRL_PRESENT d) RefCtrl (ms_absent _ HP _ H)) as H1.
  destruct (bk_module_stop _ RefCtrl) as [[] d1]; done.
Qed.

Lemma mdl_register d id ops ok : P d -> P (snd (dispr_register_module d id ops ok)).
Proof.
  intros H. unfold dispr_register_module. do 2 (case_if; [done|]).
  match goal with |- context [bk_module_init ?x ?m] => set (d1 := x); set (r := m) end.
  assert (P d1) as H1 by (by apply (ms_q _ HP), (ms_heap _ HP), (ms_next _ HP)). clearbody d1.
  pose proof (mdl_init d1 r H1) as H2. destruct (bk_module_init d1 r) as [ret d2]. cbn [snd] in H2.
  match goal with |- context [if ret && d_test d2 DISPR_STARTED then ?a else (ret, d2)] =>
    set (p := if ret && d_test d2 DISPR_STARTED then a else (ret, d2)) end.
  assert (P (snd p)) as H3.
  { unfold p. case_if; [|done]. pose proof (mdl_start d2 r H2) as H3.
    destruct (bk_module_start d2 r) as [ret' d3]. cbn [snd] in *.
    assert (P (if ret' then add_obj_bitmap id d3 else d3)) by (case_if; [by apply (ms_map _ HP)|done]).
    case_if; [by apply (ms_base _ HP)|done]. }
  clearbody p. destruct p as [ret' d3]. case_if; [done|]. apply (ms_heap _ HP). by apply mdl_deinit.
Qed.

Lemma mdl_deregister d id : P d -> P (snd (dispr_deregister_module d id)).
Proof.
  intros H. unfold dispr_deregister_module. case_if; [done|].
  set (d1 := raise_ub _ d). assert (P d1) as H1 by (by apply (ms_ub _ HP)). clearbody d1.
  destruct (pq_search_node _ _ _) as [[h|] q]; [|done].
  match goal with |- context [bk_module_stop ?x ?m] =>
    pose proof (mdl_stop x m) as H2; destruct (bk_module_stop x m) as [b d2] end.
  cbn [snd] in *. apply (ms_heap _ HP). apply mdl_deinit, H2.
  by apply (ms_base _ HP), (ms_map _ HP), (ms_q _ HP).
Qed.
End mdl.

Section mdl_all.
Context (P : cmd_dispatcher -> Prop) (HP : mdl_stable P).

Lemma mdl_all_start d : P d -> P (snd (dispr_module_start d)).
Proof.
  intros H. unfold dispr_module_start. case_if; [done|]. apply foldl_inv; [|done].
  apply Forall_forall. intros [p h] _ d' H'. pose proof (mdl_start P HP d' (RefMdl h) H') as H1.
  destruct (bk_module_start d' (RefMdl h)) as [ret d1]. cbn [snd] in H1.
  set (d2 := if ret then _ else d1).
  assert (P d2) by (unfold d2; case_if; [by apply (ms_map _ HP)|done]). clearbody d2.
  case_if; [by apply (ms_base _ HP)|done].
Qed.

Lemma mdl_all_stop d : P d -> P (snd (dispr_module_stop d)).
Proof.
  intros H. unfold dispr_module_stop. case_if; [done|]. apply foldl_inv; [|done].
  apply Forall_forall. intros [p h] _ d' H'. apply mdl_stop; [done|].
  by apply (ms_base _ HP), (ms_map _ HP).
Qed.

Lemma mdl_all_init d : P d -> P (snd (dispr_module_init d)).
Proof.
  intros H. unfold dispr_module_init. case_if; [done|]. apply foldl_inv; [|done].
  apply Forall_forall. intros [p h] _ d' H'. by apply mdl_init.
Qed.

Lemma mdl_all_deinit d : P d -> P (snd (dispr_module_deinit d)).
Proof.
  intros H. unfold dispr_module_deinit. case_if; [done|]. apply foldl_inv; [|done].
  apply Forall_forall. intros [p h] _ d' H'. apply (ms_heap _ HP). apply mdl_deinit; [done|].
  by apply (ms_q _ HP).
Qed.
End mdl_all.

(** ** The invariant of a started dispatcher *)

(** [n] is the number of signals given before and not yet consumed that
    [d_wake] does not count. *)
Definition good_at (n : Z) (d : cmd_dispatcher) : Prop :=
  settled [] d /\ wake_inv (n, 0) d /\ opq_wf () d.
Definition good (d : cmd_dispatcher) : Prop := good_at 0 d.

Lemma settled_stable h : mdl_stable (settled h).
Proof.
  assert (forall d d', msg_inv h d' -> d_token_req_ex_pool d' = d_token_req_ex_pool d ->
    d_token_req_idle_q d' = d_token_req_idle_q d -> d_token_req_wait_q d' = d_token_req_wait_q d ->
    d_cur_cmd_req d' = d_cur_cmd_req d -> d_token_cnt d' = d_token_cnt d ->
    settled h d -> settled h d') as Hf by (intros; by eapply settled_frame).
  split; try (intros; eapply Hf; [|done..]; eapply msg_inv_frame; [done..|]; by match goal with
                H : settled h _ |- _ => apply H end).
  intros ev d [H [c Hq]]. split; [by apply (callback_inv msg_inv)|].
  exists c. by apply (callback_inv req_inv).
Qed.

Lemma wake_mdl_stable n : mdl_stable (wake_inv n).
Proof.
  split; try (intros; eapply wake_inv_eq; done).
  - intros. by apply (callback_inv wake_inv).
  - intros d. apply wake_inv_frame; try done. by apply d_test_set.
  - intros d. apply wake_inv_frame; try done. by apply d_test_clear.
Qed.

Lemma good_at_stable n : mdl_stable (good_at n).
Proof.
  pose proof (settled_stable []) as [] . pose proof (wake_mdl_stable (n, 0)) as [].
  unfold good_at. split; intros; match goal with H : _ /\ _ |- _ => destruct H as (? & ? & ?) end;
    (split; [auto|]; split; [auto|]); try done. by apply (callback_inv opq_wf).
Qed.

Lemma good_stable : mdl_stable good.
Proof. apply good_at_stable. Qed.

(** ** Starting *)

(** A dispatcher that was initialised and not started. *)
Definition fresh (_ : unit) (d : cmd_dispatcher) : Prop :=
  Forall (fun n => d_test d (BIT n) = false) [1; 3; 4] /\ d_cur_cmd_req d = None /\ d_token_cnt d = 0.

Lemma fresh_flag u d n : 0 <= n -> Forall (fun m => n <> m) [1; 3; 4] ->
  fresh u d -> fresh u (d_set_flag (BIT n) d) /\ fresh u (d_clear_flag (BIT n) d).
Proof.
  intros Hn Hf (H & ?). rewrite !Forall_cons in Hf. destruct Hf as (? & ? & ? & _).
  rewrite !Forall_cons in H. destruct H as (? & ? & ? & _).
  split; (split; [|done]); repeat constructor; rewrite ?d_test_set, ?d_test_clear by lia; done.
Qed.

Lemma fresh_started u d : fresh u d -> d_test d DISPR_STARTED = false.
Proof. intros (H & _). by apply Forall_inv in H. Qed.

#[export] Instance fresh_api : ApiInv fresh.
Proof.
  assert (forall K x d msg attr hdl, fresh x d -> fresh x (snd (dispr_send_msg K d msg attr hdl))) as Hsend.
  { intros K x d msg attr hdl H. unfold dispr_send_msg. destruct (get_cur_cmd_req_id d).
    by rewrite (fresh_started _ _ H). }
  assert (forall u d, fresh u d -> fresh u (dispr_clr_pending_msg d)) as Hclr.
  { intros u d H. apply (fresh_flag u d 6) in H as [H _]; [done|lia|by repeat constructor]. }
  split; try done.
  - auto.
  - intros x d hdl H. unfold dispr_cancel_msg. destruct hdl; [|done]. by rewrite (fresh_started _ _ H).
  - intros x d req hdl H. unfold dispr_add_token_req. destruct req, hdl; try done.
    by rewrite (fresh_started _ _ H).
  - intros x d hdl H. unfold dispr_cancel_token_req. destruct hdl; [|done]. by rewrite (fresh_started _ _ H).
  - intros x d hdl H. unfold dispr_free_token. destruct hdl; [|done]. by rewrite (fresh_started _ _ H).
  - intros x d m b. apply notify_dev_io_ind; auto.
    + intros d' H. apply (fresh_flag x d' 9) in H as [H _]; [done|lia|by repeat constructor].
    + intros d' H. apply (fresh_flag x d' 9) in H as [_ H]; [done|lia|by repeat constructor].
  - intros x d H. unfold dispr_notify_shall_stop. case_if; [|done]. apply Hclr.
    apply (fresh_flag x d 2) in H as [H _]; [done|lia|by repeat constructor].
Qed.

#[export] Instance fresh_call : CallInv fresh.
Proof. split; [apply _|done]. Qed.

Lemma fresh_stable u : mdl_stable (fresh u).
Proof.
  split; try done.
  - intros. by apply (callback_inv fresh).
  - intros d H. apply (fresh_flag u d 7) in H as [H _]; [done|lia|by repeat constructor].
  - intros d H. apply (fresh_flag u d 7) in H as [_ H]; [done|lia|by repeat constructor].
Qed.

Lemma dispr_init_fresh env idx d : dispr_init env idx true = (RTW_PHL_STATUS_SUCCESS, Some d) -> fresh () d.
Proof.
  unfold dispr_init, _register_dispr_controller. cbn [negb].
  match goal with |- context [bk_module_init ?x RefCtrl] => set (d0 := x) end.
  pose proof (mdl_init (fresh ()) (fresh_stable ()) d0 RefCtrl) as H.
  destruct (bk_module_init d0 RefCtrl) as [ok d1]. intros [= <-]. apply H.
  split; [by repeat constructor|done].
Qed.

Lemma init_mgnt_info_eq d : exists v, init_dispr_mdl_mgnt_info d = set_d_mdl_info v d.
Proof.
  unfold init_dispr_mdl_mgnt_info. generalize (seq 0 (Z.to_nat PHL_MDL_ID_MAX)). intros l.
  apply (foldl_inv _ (fun d' => exists v, d' = set_d_mdl_info v d)).
  - apply Forall_forall. intros i _ d' [v ->]. unfold SET_CUR_PENDING_EVT. by eexists.
  - exists (d_mdl_info d). by destruct d.
Qed.

Lemma init_cmd_req_pool_eq d :
  d_test d DISPR_REQ_INIT = false ->
  init_cmd_req_pool d =
  d_set_flag DISPR_REQ_INIT
    (set_d_token_req_idle_q (foldl (fun q k => pq_push q k _tail) pq_init (seq 0 MAX_CMD_REQ_NUM))
      (set_d_token_req_ex_pool
        (foldl (fun p k => alter (set_rx_idx (Z.of_nat k)) k p) (replicate MAX_CMD_REQ_NUM zero_req_ex)
           (seq 0 MAX_CMD_REQ_NUM))
        (set_d_token_op_q pq_init (set_d_token_req_wait_q pq_init d)))).
Proof.
  intros H. unfold init_cmd_req_pool. rewrite H.
  rewrite init_req_fold. reflexivity.
Qed.

(** The state in which [dispr_start] starts the controller. *)
Lemma dispr_start_good d :
  fresh () d -> d_test d DISPR_CLR_PEND_MSG = false -> good (snd (dispr_start d)).
Proof.
  intros Hf Hc. unfold dispr_start. rewrite (fresh_started _ _ Hf).
  destruct Hf as (Hf & Hcur & Hcnt). rewrite !Forall_cons in Hf. destruct Hf as (F1 & F3 & F4 & _).
  destruct (init_msg_pool_spec d F3) as (Hm & Hw & p & q & v & Hd).
  match goal with |- context [_start_dispr_controller ?x] => set (d1 := x) end.
  enough (good d1) as Hg.
  { pose proof (mdl_ctrl_start good good_stable d1 Hg) as H.
    destruct (_start_dispr_controller d1) as [st d2]. exact H. }
  assert (d_test (init_dispr_msg_pool d) DISPR_REQ_INIT = false) as HR.
  { rewrite Hd. etransitivity; [by apply d_test_set|]. exact F4. }
  assert (d_test (init_dispr_msg_pool d) DISPR_CLR_PEND_MSG = false) as HC.
  { rewrite Hd. etransitivity; [by apply d_test_set|]. exact Hc. }
  assert (d_cur_cmd_req (init_dispr_msg_pool d) = None) as E1 by (by rewrite Hd).
  assert (d_token_cnt (init_dispr_msg_pool d) = 0) as E2 by (by rewrite Hd).
  clear Hd. unfold d1. clear d1. set (d0 := init_dispr_msg_pool d) in *. clearbody d0.
  destruct (init_mgnt_info_eq (init_cmd_req_pool d0)) as [v1 ->].
  rewrite (init_cmd_req_pool_eq d0 HR).
  match goal with |- good ?x => set (d1 := x) end.
  split; [|split].
  - split; [by apply (msg_inv_frame [] d0)|]. exists None. unfold req_inv. cbn. rewrite E1, E2.
    exact init_req_ok.
  - unfold wake_inv, work. 
    change (d_test d1 DISPR_CLR_PEND_MSG)
      with (d_test (d_set_flag (BIT 1) (d_set_flag (BIT 4) d0)) (BIT 6)).
    rewrite !d_test_set by lia.
    change (d_test d0 (BIT 6)) with (d_test d0 DISPR_CLR_PEND_MSG). rewrite HC. cbn. rewrite Hw. done.
  - done.
Qed.

(** ** The relation *)

(** [reach_env] says that the callees may do anything from here on; a turn of
    the thread needs a signal. *)
Inductive reach : cmd_dispatcher -> Prop :=
| reach_start env idx d :
    dispr_init env idx true = (RTW_PHL_STATUS_SUCCESS, Some d) ->
    d_test d DISPR_CLR_PEND_MSG = false -> reach (snd (dispr_start d))
| reach_env e d : reach d -> reach (set_d_env e d)
| reach_call c d : reach d -> reach (exec_call c d)
| reach_turn d :
    reach d -> 0 < d_wake d ->
    reach (dispr_thread_loop_hdl (set_d_wake (d_wake d - 1) d))
| reach_register id ops ok d : reach d -> reach (snd (dispr_register_module d id ops ok))
| reach_deregister id d : reach d -> reach (snd (dispr_deregister_module d id))
| reach_module_start d : reach d -> reach (snd (dispr_module_start d))
| reach_module_stop d : reach d -> reach (snd (dispr_module_stop d))
| reach_stop d : reach d -> reach (dispr_thread_stop_prior_hdl d).

Lemma good_exec_call c d : good d -> good (exec_call c d).
Proof.
  intros ([H [k Hq]] & Hw & Ho). split; [split|split].
  - by apply (exec_call_inv msg_inv).
  - exists k. by apply (exec_call_inv req_inv).
  - by apply (exec_call_inv wake_inv).
  - by apply (exec_call_inv opq_wf).
Qed.

Lemma good_turn d :
  good d -> 0 < d_wake d -> good (dispr_thread_loop_hdl (set_d_wake (d_wake d - 1) d)).
Proof.
  intros (Hs & Hw & Ho) Hpos. set (d1 := set_d_wake (d_wake d - 1) d).
  assert (settled [] d1) as Hs1.
  { apply (settled_frame [] d); try done. apply (msg_inv_frame [] d); try done. apply Hs. }
  split; [by apply settled_loop|]. split; [|by apply opq_wf_loop].
  pose proof (wake_loop [] d1 Hs1 Ho) as HL. set (d2 := dispr_thread_loop_hdl d1) in *. clearbody d2.
  destruct Hw as [Hw _]. change (work d1) with (work d) in HL. change (d_wake d1) with (d_wake d - 1) in HL.
  unfold wake_inv. cbn in *. lia.
Qed.

Lemma good_at_stop n d : good_at n d -> good_at n (dispr_thread_stop_prior_hdl d).
Proof.
  intros H. unfold dispr_thread_stop_prior_hdl.
  assert (good_at n (d_clear_flag DISPR_STARTED d)) as H0.
  { destruct H as (Hs & Hw & Ho). split; [|split; [|done]].
    - apply (settled_frame [] d); try done. apply (msg_inv_frame [] d); try done. apply Hs.
    - revert Hw. apply wake_inv_frame; try done. by apply d_test_clear. }
  set (d0 := d_clear_flag DISPR_STARTED d) in *. clearbody d0.
  pose proof (mdl_ctrl_stop (good_at n) (good_at_stable n) d0 H0) as H1.
  destruct (_stop_dispr_controller d0) as [st d1]. cbn [snd] in H1. unfold cancel_running_msg.
  apply foldl_inv.
  - apply Forall_forall. intros i _ d' Hg. case_if; [|done].
    destruct Hg as ([Hm [c Hq]] & Hw & Ho).
    split; [split|split; [by apply (wake_inv_eq _ d')|done]].
    + apply msg_inv_cancel; [|done]. by apply (msg_not_idle [] d' i 1).
    + exists c. by apply (req_inv_frame _ d').
  - unfold cancel_all_cmd_req. apply foldl_inv; [|done]. apply Forall_forall.
    intros k _ d' Hg. case_if; [|done]. destruct Hg as ([Hm [c Hq]] & Hw & Ho).
    split; [split|split; [by apply (wake_inv_eq _ d')|done]].
    + by apply (msg_inv_frame _ d').
    + exists c. apply (req_inv_set_flag _ _ 2); try done. apply (req_ok_not_idle Hq).
      intros Hz. unfold rx in E. rewrite Hz in E. discriminate E.
Qed.

Lemma good_stop d : good d -> good (dispr_thread_stop_prior_hdl d).
Proof. apply good_at_stop. Qed.

Lemma reach_good d : reach d -> good d.
Proof.
  induction 1.
  - apply dispr_start_good; [by eapply dispr_init_fresh|done].
  - destruct IHreach as ([H1 [c H2]] & H3 & H4). split; [split|split; [by apply (wake_inv_eq _ d)|done]].
    + by apply (msg_inv_frame _ d).
    + exists c. by apply (req_inv_frame _ d).
  - by apply good_exec_call.
  - by apply good_turn.
  - by apply mdl_register, IHreach; apply good_stable.
  - by apply mdl_deregister, IHreach; apply good_stable.
  - by apply mdl_all_start, IHreach; apply good_stable.
  - by apply mdl_all_stop, IHreach; apply good_stable.
  - by apply good_stop.
Qed.
