(* ===== verification/DispOrder.v ===== *)
(** * Order in which a message visits the modules

    The specification of a dispatch: in the pre phase the mandatory modules,
    then the optional ones, then the role modules, the sender before the others
    of its priority; in the post phase the reverse, each addressed module once
    per phase.  [msg_dispatch] implements it when no handler objects. *)

From S2P Require Import Prelude PhlQueue PhlDef DispState DispApi DispThread DispModule DispInv DispSample.

(** ** Specification *)

Definition mdl_id (d : cmd_dispatcher) (h : nat) : Z := bm_id (get_bk d (RefMdl h)).
Definition mdl_started (d : cmd_dispatcher) (h : nat) : bool :=
  TEST_STATUS_FLAG (bm_status (get_bk d (RefMdl h))) MDL_STARTED.
Definition class_queue (d : cmd_dispatcher) (p : Z) : list nat :=
  q_queue (nth (Z.to_nat p) (d_module_q d) pq_init).

(** Module [h] is to be told in a phase with map [map]. *)
Definition addressed (d : cmd_dispatcher) (map : list Z) (h : nat) : bool :=
  bit_in map (mdl_id d h) && mdl_started d h.

(** The sender, if it is a module of priority [p] that is in the map. *)
Definition sender (d : cmd_dispatcher) (map : list Z) (owner : option nat) (p : Z) : list nat :=
  match owner with
  | Some h => if (_get_mdl_priority (mdl_id d h) =? p) && bit_in map (mdl_id d h) then [h] else []
  | None => []
  end.

Definition class_targets (d : cmd_dispatcher) (map : list Z) (owner : option nat) (pre : bool)
    (p : Z) : list nat :=
  let l := class_queue d p in
  let own := sender d map owner p in
  own ++ List.filter (fun h => addressed d map h && negb (bool_decide (h ∈ own)))
           (if pre then l else rev l).

Definition pre_order : list Z := [PHL_MDL_PRI_MANDATORY; PHL_MDL_PRI_OPTIONAL; PHL_MDL_PRI_ROLE].
Definition post_order : list Z := [PHL_MDL_PRI_ROLE; PHL_MDL_PRI_OPTIONAL; PHL_MDL_PRI_MANDATORY].

Definition phase_targets (d : cmd_dispatcher) (map : list Z) (owner : option nat) (pre : bool) :
    list nat :=
  concat (class_targets d map owner pre <$> (if pre then pre_order else post_order)).

(** Events of a whole dispatch. *)
Definition mdl_events (id : Z) (l : list nat) : list event :=
  map (fun h => EvMdlMsg (RefMdl h) id) l.

(** ** One handler that succeeds *)

Definition clear_ids (pre : bool) (ids : list Z) (m : phl_dispr_msg_ex) : phl_dispr_msg_ex :=
  if pre then set_mx_premap (_clr_bitmap_bit (mx_premap m) ids) m
  else set_mx_postmap (_clr_bitmap_bit (mx_postmap m) ids) m.

(** [d] after handlers saw message [i]: the calls are logged and the bits of
    the modules cleared. *)
Definition told (pre : bool) (i : nat) (evs : list event) (ids : list Z) (d : cmd_dispatcher) :=
  set_d_trace (d_trace d ++ evs) (upd_mx (clear_ids pre ids) i d).

Lemma clear_ids_app pre a b m : clear_ids pre b (clear_ids pre a m) = clear_ids pre (a ++ b) m.
Proof.
  unfold clear_ids, _clr_bitmap_bit. destruct pre; simpl; by rewrite foldl_app.
Qed.

Lemma told_told pre i e1 i1 e2 i2 d :
  told pre i e2 i2 (told pre i e1 i1 d) = told pre i (e1 ++ e2) (i1 ++ i2) d.
Proof.
  unfold told, upd_mx. simpl. rewrite list_alter_alter_eq, <- app_assoc.
  assert (alter (clear_ids pre i2 ∘ clear_ids pre i1) i (d_msg_ex_pool d) =
          alter (clear_ids pre (i1 ++ i2)) i (d_msg_ex_pool d)) as ->; [|done].
  apply list_alter_ext; [|done]. intros m _. apply clear_ids_app.
Qed.

Lemma told_nil pre i d : told pre i [] [] d = d.
Proof.
  unfold told, upd_mx. rewrite app_nil_r.
  assert (alter (clear_ids pre []) i (d_msg_ex_pool d) = d_msg_ex_pool d) as ->.
  { apply list_alter_id. intros m. unfold clear_ids. destruct pre; by destruct m. }
  by destruct d.
Qed.

Lemma raise_ub_false d : raise_ub false d = d.
Proof. unfold raise_ub. rewrite orb_false_r. by destruct d. Qed.

Section told.
Context (pre : bool) (i : nat).
Implicit Types (d : cmd_dispatcher).

(** The phase indicator of the message says which map is in use. *)
Definition in_phase (d : cmd_dispatcher) : Prop :=
  z_true (Z.land (MSG_INDC_FIELD (mxid d i)) MSG_INDC_PRE_PHASE) = pre.

Lemma mx_told e ids d j :
  mx (told pre i e ids d) j =
  if decide (i = j /\ (j < length (d_msg_ex_pool d))%nat) then clear_ids pre ids (mx d j) else mx d j.
Proof. change (mx (told pre i e ids d) j) with (mx (upd_mx (clear_ids pre ids) i d) j). apply mx_upd. Qed.

Lemma mxid_told e ids d j : mxid (told pre i e ids d) j = mxid d j.
Proof. unfold mxid. rewrite mx_told. case_decide; [|done]. unfold clear_ids. by destruct pre. Qed.

Lemma status_told e ids d j : mx_status (mx (told pre i e ids d) j) = mx_status (mx d j).
Proof. rewrite mx_told. case_decide; [|done]. unfold clear_ids. by destruct pre. Qed.

Lemma map_told e ids d :
  (i < length (d_msg_ex_pool d))%nat ->
  msg_map (told pre i e ids d) i pre = _clr_bitmap_bit (msg_map d i pre) ids.
Proof.
  intros. unfold msg_map. rewrite !mx_told, decide_True by done. unfold clear_ids. by destruct pre.
Qed.

Lemma other_map_told e ids d : msg_map (told pre i e ids d) i (negb pre) = msg_map d i (negb pre).
Proof. unfold msg_map. rewrite !mx_told. case_decide; unfold clear_ids; destruct pre; done. Qed.

Lemma feed_mdl_ok d m :
  d_env d = [] -> dangling d m = false -> in_phase d ->
  feed_mdl_msg d m i =
  (MDL_RET_SUCCESS, told pre i [EvMdlMsg m (mxid d i)] [bm_id (get_bk d m)] d).
Proof.
  intros He Hd Hp. unfold feed_mdl_msg. rewrite Hd, raise_ub_false. unfold callback.
  change (d_env (log ?ev d)) with (d_env d). rewrite He.
  change (mxid (log ?ev d) i) with (mxid d i). unfold in_phase in Hp. rewrite Hp.
  f_equal. change (get_bk (log ?ev d) m) with (get_bk d m). unfold told, clear_ids. by destruct pre.
Qed.

(** The modules a phase can reach are allocated, and identifiers are unique. *)
Definition mdl_ok (d : cmd_dispatcher) (l : list nat) : Prop :=
  Forall (fun h => dangling d (RefMdl h) = false /\ 0 <= mdl_id d h) l /\ NoDup (mdl_id d <$> l).

Lemma mdl_ok_cons d h l :
  mdl_ok d (h :: l) ->
  dangling d (RefMdl h) = false /\ 0 <= mdl_id d h /\ mdl_id d h ∉ (mdl_id d <$> l) /\ mdl_ok d l.
Proof.
  intros [H1 H2]. apply Forall_cons in H1 as [[? ?] ?]. apply NoDup_cons in H2 as [? ?]. by repeat split.
Qed.

(** Clearing the bits of other modules does not change who is addressed. *)
Lemma filter_addressed_clr d map ids l :
  Forall (fun h => 0 <= mdl_id d h) l -> Forall (fun a => 0 <= a) ids ->
  (forall h, h ∈ l -> mdl_id d h ∉ ids) ->
  List.filter (addressed d (_clr_bitmap_bit map ids)) l = List.filter (addressed d map) l.
Proof.
  intros Hl Hi Hd. apply filter_ext_in. intros h Hh. apply list_elem_of_In in Hh.
  unfold addressed. rewrite bit_in_clr_bitmap; [|done|rewrite Forall_forall in Hl; by apply Hl].
  replace (existsb _ ids) with false; [by rewrite andb_true_r|]. symmetry. apply not_true_is_false.
  intros Hex. apply existsb_exists in Hex as (a & Ha & Hb). apply Z.eqb_eq in Hb. subst a.
  apply (Hd h Hh). by apply list_elem_of_In.
Qed.

Lemma feed_queue_ok l : forall d,
  d_env d = [] -> in_phase d -> (i < length (d_msg_ex_pool d))%nat -> mdl_ok d l ->
  feed_queue pre i l d =
  (false, let t := List.filter (addressed d (msg_map d i pre)) l in
          told pre i (mdl_events (mxid d i) t) (mdl_id d <$> t) d).
Proof.
  induction l as [|h l IH]; intros d He Hp Hi Hm; [cbn; by rewrite told_nil|].
  apply mdl_ok_cons in Hm as (Hdg & Hid & Hni & Hm). cbn [feed_queue List.filter].
  rewrite Hdg, raise_ub_false, chk_bitmap_bit_true.
  fold (mdl_id d h) (mdl_started d h).
  change (addressed d (msg_map d i pre) h)
    with (bit_in (msg_map d i pre) (mdl_id d h) && mdl_started d h).
  destruct (bit_in (msg_map d i pre) (mdl_id d h)); cbn [andb orb negb]; [|by apply IH].
  destruct (mdl_started d h); cbn [andb orb negb]; [|by apply IH].
  rewrite feed_mdl_ok by done. fold (mdl_id d h).
  change (STOP_DISPATCH_MSG MDL_RET_SUCCESS) with false. cbv iota.
  set (d1 := told pre i [EvMdlMsg (RefMdl h) (mxid d i)] [mdl_id d h] d).
  assert (mxid d1 i = mxid d i) as Eid by apply mxid_told.
  rewrite IH; [|done|by unfold in_phase; rewrite Eid|unfold d1, told; simpl; by rewrite length_alter|done].
  rewrite Eid. assert (msg_map d1 i pre = _clr_bitmap_bit (msg_map d i pre) [mdl_id d h]) as ->
    by (by apply map_told).
  change (addressed d1) with (addressed d). change (mdl_id d1) with (mdl_id d).
  rewrite filter_addressed_clr; [unfold d1; by rewrite told_told| |by repeat constructor|].
  - destruct Hm as [Hm _]. eapply Forall_impl; [exact Hm|]. by intros x [_ ?].
  - intros x Hx Hin. apply list_elem_of_singleton in Hin. apply Hni. rewrite <- Hin.
    by apply list_elem_of_fmap_2.
Qed.
End told.

(** ** A phase *)

(** What registration establishes about the module queues, and an environment
    in which every handler succeeds and calls nothing. *)
Record dispatchable (owner : option mdl_ref) (d : cmd_dispatcher) : Prop := {
  dp_env : d_env d = [];
  dp_wf : forall p, 0 <= p < PHL_MDL_PRI_MAX -> pq_wf (nth (Z.to_nat p) (d_module_q d) pq_init);
  dp_mods : forall p, 0 <= p < PHL_MDL_PRI_MAX -> mdl_ok d (class_queue d p);
  dp_class : forall p h, 0 <= p < PHL_MDL_PRI_MAX -> h ∈ class_queue d p ->
    _get_mdl_priority (mdl_id d h) = p;
  dp_owner : match owner with
             | Some (RefMdl h) => exists p, 0 <= p < PHL_MDL_PRI_MAX /\ h ∈ class_queue d p
             | Some RefCtrl => IS_DISPR_CTRL (bm_id (d_controller d)) = true
             | None => True
             end }.

Definition owner_mdl (owner : option mdl_ref) : option nat :=
  match owner with Some (RefMdl h) => Some h | _ => None end.

Section phase.
Context (pre : bool) (i : nat) (owner : option mdl_ref).
Implicit Types (d : cmd_dispatcher).

Lemma dispatchable_told e ids d : dispatchable owner d -> dispatchable owner (told pre i e ids d).
Proof. intros [? ? ? ? ?]. split; done. Qed.

Lemma priority_range id p : 0 <= p < PHL_MDL_PRI_MAX -> _get_mdl_priority id = p -> 10 <= id <= 127.
Proof.
  unfold _get_mdl_priority. autounfold with phl_const.
  destruct (Z.ltb_spec id 10), (Z.leb_spec id 40), (Z.leb_spec id 70), (Z.leb_spec id 127); lia.
Qed.

(** The sender's identifier and priority as [phase_hdl] computes them. *)
Definition owner_id_of (d : cmd_dispatcher) : Z :=
  match owner with Some m => bm_id (get_bk d m) | None => PHL_MDL_ID_MAX end.
Definition owner_pri (d : cmd_dispatcher) : Z :=
  if owner_id_of d <=? PHL_BK_MDL_END then _get_mdl_priority (owner_id_of d) else PHL_MDL_PRI_MAX.

(** The sender is fed exactly when the specification says so. *)
Lemma sender_cond d map p :
  dispatchable owner d -> 0 <= p < PHL_MDL_PRI_MAX ->
  (owner_pri d =? p) && bit_in map (owner_id_of d) =
  match sender d map (owner_mdl owner) p with [] => false | _ => true end /\
  (forall h, h ∈ sender d map (owner_mdl owner) p -> owner = Some (RefMdl h) /\ h ∈ class_queue d p).
Proof.
  intros H Hp. pose proof (dp_owner _ _ H) as Ho. unfold owner_pri, owner_id_of, sender, owner_mdl.
  destruct owner as [[|h]|].
  - change (get_bk d RefCtrl) with (d_controller d). unfold IS_DISPR_CTRL, _get_mdl_priority in *. rewrite Ho.
    split; [|intros h Hh; by apply elem_of_nil in Hh].
    case_if; unfold PHL_MDL_PRI_MAX in *; replace (3 =? p) with false by lia; done.
  - destruct Ho as (p' & Hp' & Hin). pose proof (dp_class _ _ H p' h Hp' Hin) as Hc.
    pose proof (priority_range _ _ Hp' Hc) as Hr.
    change (bm_id (get_bk d (RefMdl h))) with (mdl_id d h).
    replace (mdl_id d h <=? PHL_BK_MDL_END) with true by (autounfold with phl_const in *; lia).
    rewrite Hc. destruct (Z.eqb_spec p' p) as [->|]; cbn [andb].
    + destruct (bit_in map (mdl_id d h)); (split; [done|]); intros x Hx;
        [|by apply elem_of_nil in Hx]. apply list_elem_of_singleton in Hx as ->. done.
    + split; [done|]. intros x Hx. by apply elem_of_nil in Hx.
  - split; [|intros h Hh; by apply elem_of_nil in Hh].
    change (PHL_MDL_ID_MAX <=? PHL_BK_MDL_END) with false.
    unfold PHL_MDL_PRI_MAX in *. replace (3 =? p) with false by lia. done.
Qed.

Lemma class_targets_sub d map p h :
  dispatchable owner d -> 0 <= p < PHL_MDL_PRI_MAX ->
  h ∈ class_targets d map (owner_mdl owner) pre p -> h ∈ class_queue d p.
Proof.
  intros H Hp Hin. unfold class_targets in Hin. apply elem_of_app in Hin as [Hin|Hin].
  - by apply (sender_cond d map p H Hp) in Hin as [_ ?].
  - apply list_elem_of_In, filter_In in Hin as [Hin _]. apply list_elem_of_In in Hin.
    destruct pre; [done|]. by rewrite elem_of_rev in Hin.
Qed.

Lemma mdl_ok_rev d l : mdl_ok d l -> mdl_ok d (rev l).
Proof.
  intros [H1 H2]. split; [by apply Forall_rev|].
  rewrite <- (Permutation_rev l). done.
Qed.

Lemma mdl_id_inj d l h h' :
  mdl_ok d l -> h ∈ l -> h' ∈ l -> mdl_id d h = mdl_id d h' -> h = h'.
Proof.
  intros [_ Hn] H1 H2 He. apply list_elem_of_lookup in H1 as [a Ha], H2 as [b Hb].
  assert (a = b) as ->; [|congruence].
  apply (NoDup_lookup _ a b (mdl_id d h) Hn); rewrite list_lookup_fmap; [by rewrite Ha|by rewrite Hb, He].
Qed.

(** With the sender's bit cleared the others of its class are addressed as before. *)
Lemma addressed_clr_sender d map p h :
  dispatchable owner d -> 0 <= p < PHL_MDL_PRI_MAX -> h ∈ class_queue d p ->
  forall x, In x (if pre then class_queue d p else rev (class_queue d p)) ->
  addressed d (_clr_bitmap_bit map [mdl_id d h]) x = addressed d map x && negb (bool_decide (x ∈ [h])).
Proof.
  intros H Hp Hh x Hx. pose proof (dp_mods _ _ H p Hp) as Hm. pose proof (proj1 Hm) as Hm1.
  rewrite Forall_forall in Hm1. destruct (Hm1 h Hh) as [_ Hid].
  assert (x ∈ class_queue d p) as Hxq.
  { apply list_elem_of_In in Hx. destruct pre; [done|]. by rewrite elem_of_rev in Hx. }
  unfold addressed. rewrite bit_in_clr_bitmap; [|by repeat constructor|by apply Hm1].
  cbn [existsb]. rewrite orb_false_r. rewrite <- !andb_assoc. f_equal. rewrite andb_comm. f_equal. f_equal.
  destruct (Z.eqb_spec (mdl_id d x) (mdl_id d h)) as [E|E]; symmetry.
  - apply bool_decide_eq_true_2. rewrite (mdl_id_inj d _ x h Hm Hxq Hh E). apply list_elem_of_here.
  - apply bool_decide_eq_false_2. intros Hc. apply list_elem_of_singleton in Hc. by subst.
Qed.

Lemma feed_priority_ok p d :
  dispatchable owner d -> 0 <= p < PHL_MDL_PRI_MAX -> in_phase pre i d ->
  (i < length (d_msg_ex_pool d))%nat ->
  feed_priority pre i owner (owner_id_of d) (owner_pri d) p d =
  (false, let t := class_targets d (msg_map d i pre) (owner_mdl owner) pre p in
          told pre i (mdl_events (mxid d i) t) (mdl_id d <$> t) d).
Proof.
  intros H Hp Hph Hi. unfold feed_priority. rewrite chk_bitmap_bit_true.
  destruct (sender_cond d (msg_map d i pre) p H Hp) as [Hs Hin]. rewrite Hs.
  assert (forall d', dispatchable owner d' -> d_module_q d' = d_module_q d ->
            (if pq_nonempty (nth (Z.to_nat p) (d_module_q d') pq_init)
             then q_queue (nth (Z.to_nat p) (d_module_q d') pq_init) else []) = class_queue d p) as Hq.
  { intros d' H' Eq. rewrite Eq. rewrite pq_nonempty_wf by (by apply (dp_wf _ _ H)).
    unfold class_queue. by destruct (q_queue _). }
  assert (mdl_ok d (if pre then class_queue d p else rev (class_queue d p))) as Hok.
  { pose proof (dp_mods _ _ H p Hp). destruct pre; [done|]. by apply mdl_ok_rev. }
  unfold class_targets. destruct (sender d (msg_map d i pre) (owner_mdl owner) p) as [|h [|]] eqn:Es.
  - rewrite Hq by done. rewrite feed_queue_ok; [|by apply H|done..]. cbn [app].
    assert (forall x, addressed d (msg_map d i pre) x && negb (bool_decide (x ∈ [])) =
                      addressed d (msg_map d i pre) x) as Hf.
    { intros x. rewrite bool_decide_eq_false_2 by apply not_elem_of_nil. apply andb_true_r. }
    by rewrite (filter_ext (fun x => addressed d (msg_map d i pre) x && negb (bool_decide (x ∈ [])))
                  (addressed d (msg_map d i pre)) Hf).
  - destruct (Hin h (list_elem_of_here _ _)) as [Ho Hh].
    assert (default RefCtrl owner = RefMdl h) as -> by (by rewrite Ho).
    pose proof (dp_mods _ _ H p Hp) as Hm. pose proof (proj1 Hm) as Hm1. rewrite Forall_forall in Hm1.
    destruct (Hm1 h Hh) as [Hdg Hid].
    rewrite (feed_mdl_ok pre); [|by apply H|done|done]. fold (mdl_id d h).
    change (STOP_DISPATCH_MSG MDL_RET_SUCCESS) with false. cbv iota.
    set (d1 := told pre i [EvMdlMsg (RefMdl h) (mxid d i)] [mdl_id d h] d).
    assert (mxid d1 i = mxid d i) as Eid by apply mxid_told.
    rewrite Hq; [|by apply dispatchable_told|done].
    rewrite feed_queue_ok; [|by apply H|by unfold in_phase; rewrite Eid
                            |unfold d1, told; simpl; by rewrite length_alter|done].
    rewrite Eid. assert (msg_map d1 i pre = _clr_bitmap_bit (msg_map d i pre) [mdl_id d h]) as ->
      by (by apply map_told).
    change (addressed d1) with (addressed d). change (mdl_id d1) with (mdl_id d).
    unfold d1. rewrite told_told. cbn [app mdl_events map fmap list_fmap].
    rewrite (filter_ext_in _ _ _ (addressed_clr_sender d (msg_map d i pre) p h H Hp Hh)). done.
  - exfalso. revert Es. unfold sender. destruct (owner_mdl owner); [|done]. case_if; done.
Qed.
End phase.

Section phases.
Context (pre : bool) (i : nat) (owner : option mdl_ref).
Implicit Types (d : cmd_dispatcher).

(** Telling one class changes nothing for the others. *)
Lemma class_targets_clr d map p ids :
  dispatchable owner d -> 0 <= p < PHL_MDL_PRI_MAX ->
  Forall (fun a => 0 <= a) ids -> (forall h, h ∈ class_queue d p -> mdl_id d h ∉ ids) ->
  class_targets d (_clr_bitmap_bit map ids) (owner_mdl owner) pre p =
  class_targets d map (owner_mdl owner) pre p.
Proof.
  intros H Hp Hids Hd.
  assert (Forall (fun h => 0 <= mdl_id d h) (class_queue d p)) as Hpos.
  { destruct (dp_mods _ _ H p Hp) as [Hm _]. eapply Forall_impl; [exact Hm|]. by intros x [_ ?]. }
  assert (forall h, h ∈ class_queue d p ->
            bit_in (_clr_bitmap_bit map ids) (mdl_id d h) = bit_in map (mdl_id d h)) as Hb.
  { intros h Hh. rewrite bit_in_clr_bitmap; [|done|rewrite Forall_forall in Hpos; by apply Hpos].
    replace (existsb _ ids) with false; [by rewrite andb_true_r|]. symmetry. apply not_true_is_false.
    intros Hex. apply existsb_exists in Hex as (a & Ha & E). apply Z.eqb_eq in E. subst a.
    apply (Hd h Hh). by apply list_elem_of_In. }
  assert (sender d (_clr_bitmap_bit map ids) (owner_mdl owner) p = sender d map (owner_mdl owner) p) as Hs.
  { unfold sender. pose proof (dp_owner _ _ H) as Ho. unfold owner_mdl.
    destruct owner as [[|h]|]; try done.
    destruct (Z.eqb_spec (_get_mdl_priority (mdl_id d h)) p) as [E|]; [|done]. cbn [andb].
    destruct Ho as (p' & Hp' & Hin). rewrite (dp_class _ _ H p' h Hp' Hin) in E. subst p'.
    by rewrite Hb. }
  unfold class_targets. rewrite Hs. f_equal. apply filter_ext_in. intros x Hx.
  apply list_elem_of_In in Hx. assert (x ∈ class_queue d p).
  { destruct pre; [done|]. by rewrite elem_of_rev in Hx. }
  unfold addressed. by rewrite Hb.
Qed.

Lemma feed_priorities_ok ps : forall d,
  dispatchable owner d -> Forall (fun p => 0 <= p < PHL_MDL_PRI_MAX) ps -> NoDup ps ->
  in_phase pre i d -> (i < length (d_msg_ex_pool d))%nat ->
  feed_priorities pre i owner (owner_id_of owner d) (owner_pri owner d) ps d =
  let t := concat (class_targets d (msg_map d i pre) (owner_mdl owner) pre <$> ps) in
  told pre i (mdl_events (mxid d i) t) (mdl_id d <$> t) d.
Proof.
  induction ps as [|p ps IH]; intros d H Hps Hnd Hph Hi; [cbn; by rewrite told_nil|].
  apply Forall_cons in Hps as [Hp Hps]. apply NoDup_cons in Hnd as [Hni Hnd].
  cbn [feed_priorities]. rewrite feed_priority_ok by done. cbv iota zeta.
  set (t := class_targets d (msg_map d i pre) (owner_mdl owner) pre p).
  set (d1 := told pre i (mdl_events (mxid d i) t) (mdl_id d <$> t) d).
  assert (mxid d1 i = mxid d i) as Eid by apply mxid_told.
  change (owner_id_of owner d) with (owner_id_of owner d1).
  change (owner_pri owner d) with (owner_pri owner d1).
  rewrite IH; [|by apply dispatchable_told|done|done|by unfold in_phase; rewrite Eid
              |unfold d1, told; simpl; by rewrite length_alter].
  rewrite Eid. assert (msg_map d1 i pre = _clr_bitmap_bit (msg_map d i pre) (mdl_id d <$> t)) as ->
    by (by apply map_told).
  change (mdl_id d1) with (mdl_id d). change (class_targets d1) with (class_targets d).
  unfold d1. rewrite told_told.
  assert (class_targets d (_clr_bitmap_bit (msg_map d i pre) (mdl_id d <$> t)) (owner_mdl owner) pre <$> ps
          = class_targets d (msg_map d i pre) (owner_mdl owner) pre <$> ps) as Heq.
  { apply list_fmap_ext. intros n p' Hn.
    assert (0 <= p' < PHL_MDL_PRI_MAX /\ p' <> p) as [Hp' Hne].
    { apply list_elem_of_lookup_2 in Hn. rewrite Forall_forall in Hps. split; [by apply Hps|].
      intros ->. by apply Hni. }
    apply class_targets_clr; [done|done| |].
    - apply Forall_fmap, Forall_forall. intros h Hh. cbn.
      apply (class_targets_sub pre owner d _ p h H Hp) in Hh.
      destruct (dp_mods _ _ H p Hp) as [Hm _]. rewrite Forall_forall in Hm. by apply Hm.
    - intros h Hh Hin. apply list_elem_of_fmap in Hin as (h' & E & Hh').
      apply (class_targets_sub pre owner d _ p h' H Hp) in Hh'. apply Hne.
      rewrite <- (dp_class _ _ H p' h Hp' Hh), E. by apply (dp_class _ _ H). }
  rewrite Heq. cbn [fmap list_fmap concat]. unfold mdl_events. by rewrite map_app, fmap_app.
Qed.

Lemma phase_hdl_ok d :
  dispatchable owner d -> mx_module (mx d i) = owner -> in_phase pre i d ->
  (i < length (d_msg_ex_pool d))%nat ->
  phase_hdl pre (if pre then pre_order else post_order) d i =
  let t := phase_targets d (msg_map d i pre) (owner_mdl owner) pre in
  told pre i (mdl_events (mxid d i) t) (mdl_id d <$> t) d.
Proof.
  intros H Ho Hph Hi. unfold phase_hdl. rewrite Ho.
  assert (match owner with Some m => dangling d m | None => false end = false) as ->.
  { pose proof (dp_owner _ _ H) as Hw. destruct owner as [[|h]|]; try done.
    destruct Hw as (p & Hp & Hin). destruct (dp_mods _ _ H p Hp) as [Hm _].
    rewrite Forall_forall in Hm. by apply Hm. }
  rewrite raise_ub_false. apply feed_priorities_ok; try done.
  - destruct pre; repeat constructor; autounfold with phl_const; lia.
  - destruct pre; compute_done.
Qed.
End phases.

(** ** A whole dispatch *)

(** The calls a dispatch of message [i] makes. *)
Definition dispatch_trace (d : cmd_dispatcher) (i : nat) : list event :=
  let idp := SET_MSG_INDC_FIELD (mxid d i) MSG_INDC_PRE_PHASE in
  let idq := CLEAR_MSG_INDC_FIELD idp MSG_INDC_PRE_PHASE in
  let own := owner_mdl (mx_module (mx d i)) in
  (if d_test d DISPR_CTRL_PRESENT then [EvMdlMsg RefCtrl idp] else []) ++
  mdl_events idp (phase_targets d (mx_premap (mx d i)) own true) ++
  mdl_events idq (phase_targets d (mx_postmap (mx d i)) own false) ++
  match d_cur_cmd_req d with
  | Some k => if rx_test d k REQ_STATUS_RUN && negb (rx_test d k REQ_STATUS_CANCEL) &&
                 negb (mx_test d i MSG_STATUS_FOR_ABORT) then [EvReqMsg k idq] else []
  | None => []
  end ++
  (if mx_test d i MSG_STATUS_NOTIFY_COMPLETE && completion (mx_completion (mx d i))
   then [EvCompletion i idq] else []).

(** Every addressee is a started module of its class: what the intersection
    with the dispatcher's own map guarantees. *)
Definition covered (d : cmd_dispatcher) (map : list Z) : Prop :=
  length map = MODL_MASK_LEN /\ Forall (fun b => 0 <= b < 256) map /\
  forall id, 0 <= id < 128 -> bit_in map id = true ->
    exists p h, 0 <= p < PHL_MDL_PRI_MAX /\ h ∈ class_queue d p /\ mdl_id d h = id /\
                mdl_started d h = true.

Section bitmap_empty.

Lemma byte_zero b : 0 <= b < 256 -> (forall n, 0 <= n < 8 -> Z.testbit b n = false) -> b = 0.
Proof.
  intros Hb H. apply Z.bits_inj'. intros n Hn. rewrite Z.testbit_0_l.
  destruct (decide (n < 8)); [by apply H|]. apply Z.bits_above_log2; [lia|].
  destruct (decide (b = 0)) as [->|]; [simpl; lia|].
  assert (Z.log2 b < 8) by (apply Z.log2_lt_pow2; lia). lia.
Qed.

Lemma bitmap_empty_iff map :
  length map = MODL_MASK_LEN -> Forall (fun b => 0 <= b < 256) map ->
  _is_bitmap_empty map = true <-> forall id, 0 <= id < 128 -> bit_in map id = false.
Proof.
  intros Hl Hb. unfold _is_bitmap_empty. rewrite forallb_forall. split.
  - intros H id Hid. unfold bit_in. rewrite nth_lookup.
    destruct (map !! Z.to_nat (id / 8)) as [b|] eqn:E; [|apply Z.testbit_0_l]. cbn.
    apply list_elem_of_lookup_2, list_elem_of_In, H in E. apply Z.eqb_eq in E as ->. apply Z.testbit_0_l.
  - intros H b Hin. apply list_elem_of_In, list_elem_of_lookup in Hin as [k Hk]. apply Z.eqb_eq.
    assert (k < 16)%nat by (apply lookup_lt_Some in Hk; rewrite Hl in Hk; exact Hk).
    apply byte_zero; [rewrite Forall_forall in Hb; by apply Hb, list_elem_of_lookup_2 with k|].
    intros n Hn. specialize (H (8 * Z.of_nat k + n)). unfold bit_in in H.
    replace ((8 * Z.of_nat k + n) / 8) with (Z.of_nat k) in H by lia.
    replace ((8 * Z.of_nat k + n) mod 8) with n in H by lia.
    rewrite Nat2Z.id, nth_lookup, Hk in H. apply H. lia.
Qed.

Lemma land_byte a b : 0 <= a < 256 -> 0 <= Z.land a b < 256.
Proof.
  intros Ha. split; [apply Z.land_nonneg; lia|].
  destruct (decide (Z.land a b = 0)) as [->|Hne]; [lia|].
  destruct (decide (a = 0)) as [->|]; [by rewrite Z.land_0_l in Hne|].
  assert (0 <= Z.land a b) by (apply Z.land_nonneg; lia).
  change 256 with (2 ^ 8). apply Z.log2_lt_pow2; [lia|].
  assert (Z.log2 a < 8) by (apply Z.log2_lt_pow2; lia).
  enough (~ 8 <= Z.log2 (Z.land a b)) by lia. intros Hc.
  assert (Z.testbit (Z.land a b) (Z.log2 (Z.land a b)) = true) as Ht by (apply Z.bit_log2; lia).
  rewrite Z.land_spec in Ht. rewrite Z.bits_above_log2 in Ht by lia. done.
Qed.

Lemma clr_bitmap_bytes map ids :
  Forall (fun b => 0 <= b < 256) map -> Forall (fun b => 0 <= b < 256) (_clr_bitmap_bit map ids).
Proof.
  unfold _clr_bitmap_bit. revert map. induction ids as [|a ids IH]; intros map H; simpl; [done|].
  apply IH. apply Forall_alter; [done|]. intros b _ Hb. by apply land_byte.
Qed.
End bitmap_empty.

Section targets.
Context (owner : option mdl_ref) (pre : bool) (d : cmd_dispatcher) (H : dispatchable owner d).

Lemma phase_targets_in map h :
  h ∈ phase_targets d map (owner_mdl owner) pre <->
  exists p, 0 <= p < PHL_MDL_PRI_MAX /\ h ∈ class_targets d map (owner_mdl owner) pre p.
Proof.
  unfold phase_targets. split.
  - intros Hin. apply list_elem_of_In, in_concat in Hin as (l & Hl & Hin).
    apply list_elem_of_In, list_elem_of_fmap in Hl as (p & -> & Hp). apply list_elem_of_In in Hin.
    exists p. split; [|done]. assert (p ∈ [0; 1; 2]) as Hc by (destruct pre; set_solver).
    autounfold with phl_const. set_solver by lia.
  - intros (p & Hp & Hin). apply list_elem_of_In, in_concat.
    exists (class_targets d map (owner_mdl owner) pre p). split; [|by apply list_elem_of_In].
    apply list_elem_of_In, list_elem_of_fmap. exists p. split; [done|].
    autounfold with phl_const in Hp. assert (p = 0 \/ p = 1 \/ p = 2) as [-> | [-> | -> ] ] by lia;
      destruct pre; set_solver.
Qed.

Lemma addressed_in_targets map p h :
  0 <= p < PHL_MDL_PRI_MAX -> h ∈ class_queue d p -> bit_in map (mdl_id d h) = true ->
  mdl_started d h = true -> h ∈ phase_targets d map (owner_mdl owner) pre.
Proof.
  intros Hp Hin Hb Hs. apply phase_targets_in. exists p. split; [done|]. unfold class_targets.
  apply elem_of_app. destruct (decide (h ∈ sender d map (owner_mdl owner) p)) as [|Hn]; [by left|right].
  apply list_elem_of_In, filter_In. split.
  - apply list_elem_of_In. destruct pre; [done|]. by apply elem_of_rev.
  - unfold addressed. rewrite Hb, Hs. by rewrite bool_decide_eq_false_2.
Qed.

Lemma target_id_range map h :
  h ∈ phase_targets d map (owner_mdl owner) pre -> 10 <= mdl_id d h <= 127.
Proof.
  intros Hin. apply phase_targets_in in Hin as (p & Hp & Hin).
  apply (class_targets_sub pre owner d map p h H Hp) in Hin.
  by apply (priority_range _ p Hp), (dp_class _ _ H).
Qed.

(** Once the targets are told, nobody is left in the map. *)
Lemma covered_empty map :
  covered d map ->
  _is_bitmap_empty (_clr_bitmap_bit map (mdl_id d <$> phase_targets d map (owner_mdl owner) pre)) = true.
Proof.
  intros (Hl & Hb & Hc).
  assert (Forall (fun a => 0 <= a) (mdl_id d <$> phase_targets d map (owner_mdl owner) pre)) as Hpos.
  { apply Forall_fmap, Forall_forall. intros h Hh. apply target_id_range in Hh. cbn. lia. }
  apply bitmap_empty_iff; [by rewrite clr_bitmap_bit_length|by apply clr_bitmap_bytes|].
  intros id Hid. rewrite bit_in_clr_bitmap by (done || lia).
  destruct (bit_in map id) eqn:E; [|done]. cbn [andb]. apply negb_false_iff.
  destruct (Hc id Hid E) as (p & h & Hp & Hin & <- & Hs). apply existsb_exists. exists (mdl_id d h).
  split; [|apply Z.eqb_refl]. apply list_elem_of_In, list_elem_of_fmap_2.
  by eapply addressed_in_targets.
Qed.

(** An empty map has no target. *)
Lemma empty_no_targets map :
  length map = MODL_MASK_LEN -> Forall (fun b => 0 <= b < 256) map -> _is_bitmap_empty map = true ->
  phase_targets d map (owner_mdl owner) pre = [].
Proof.
  intros Hl Hb He. rewrite bitmap_empty_iff in He by done.
  destruct (phase_targets d map (owner_mdl owner) pre) as [|h l] eqn:E; [done|exfalso].
  assert (h ∈ phase_targets d map (owner_mdl owner) pre) as Hin by (rewrite E; apply list_elem_of_here).
  pose proof (target_id_range _ _ Hin) as Hr. specialize (He (mdl_id d h) ltac:(lia)).
  apply phase_targets_in in Hin as (p & Hp & Hin). unfold class_targets in Hin.
  apply elem_of_app in Hin as [Hin|Hin].
  - unfold sender in Hin. destruct (owner_mdl owner) as [h'|] eqn:Eo; [|by apply elem_of_nil in Hin].
    case_if_in Hin; [|by apply elem_of_nil in Hin]. apply list_elem_of_singleton in Hin as <-.
    rewrite He, andb_false_r in E0. done.
  - apply list_elem_of_In, filter_In in Hin as [_ Hin]. unfold addressed in Hin. by rewrite He in Hin.
Qed.

(** Clearing a controller identifier changes no target. *)
Lemma phase_targets_ctrl map id :
  0 <= id -> IS_DISPR_CTRL id = true ->
  phase_targets d (_clr_bitmap_bit map [id]) (owner_mdl owner) pre =
  phase_targets d map (owner_mdl owner) pre.
Proof.
  intros Hpos Hid. unfold phase_targets. f_equal. apply list_fmap_ext. intros n p Hn.
  apply list_elem_of_lookup_2 in Hn.
  assert (0 <= p < PHL_MDL_PRI_MAX) as Hp.
  { assert (p ∈ [0; 1; 2]) as Hc by (destruct pre; set_solver).
    autounfold with phl_const. set_solver by lia. }
  apply class_targets_clr; [done|done|by repeat constructor|].
  intros h Hh Hin. apply list_elem_of_singleton in Hin.
  pose proof (priority_range _ p Hp (dp_class _ _ H p h Hp Hh)) as Hr.
  unfold IS_DISPR_CTRL, PHL_BK_MDL_ROLE_START in Hid. lia.
Qed.
End targets.

(** *** Symbolic execution *)

(** Dispatcher [d] with trace [t] and message [i] equal to [m]. *)
Definition at_ (i : nat) (d : cmd_dispatcher) (t : list event) (m : phl_dispr_msg_ex) :=
  set_d_trace t (set_d_msg_ex_pool (alter (fun _ => m) i (d_msg_ex_pool d)) d).

Section exec.
Context (i : nat) (d : cmd_dispatcher) (Hi : (i < length (d_msg_ex_pool d))%nat).

Lemma at_self : d = at_ i d (d_trace d) (mx d i).
Proof.
  unfold at_. assert (alter (fun _ => mx d i) i (d_msg_ex_pool d) = d_msg_ex_pool d) as ->.
  { apply list_eq. intros j. rewrite list_lookup_alter. case_decide; [subst j|done].
    destruct (lookup_lt_is_Some_2 _ _ Hi) as [m Hm]. rewrite Hm. cbn. unfold mx.
    by rewrite nth_lookup, Hm. }
  by destruct d.
Qed.

Lemma at_upd f t m : upd_mx f i (at_ i d t m) = at_ i d t (f m).
Proof. unfold at_, upd_mx. cbn. by rewrite list_alter_alter_eq. Qed.

Lemma at_mx t m : mx (at_ i d t m) i = m.
Proof.
  unfold mx, at_. cbn. rewrite nth_alter, decide_True, decide_True by done. done.
Qed.

Lemma at_told pre e ids t m :
  told pre i e ids (at_ i d t m) = at_ i d (t ++ e) (clear_ids pre ids m).
Proof. unfold told. by rewrite at_upd. Qed.

Lemma at_mxid t m : mxid (at_ i d t m) i = msg_id (mx_msg m).
Proof. unfold mxid. by rewrite at_mx. Qed.

Lemma at_map t m pre : msg_map (at_ i d t m) i pre = if pre then mx_premap m else mx_postmap m.
Proof. unfold msg_map. by rewrite at_mx. Qed.

Lemma at_test t m fl : mx_test (at_ i d t m) i fl = TEST_STATUS_FLAG (mx_status m) fl.
Proof. unfold mx_test. by rewrite at_mx. Qed.

Lemma at_len t m : (i < length (d_msg_ex_pool (at_ i d t m)))%nat.
Proof. unfold at_. cbn. by rewrite length_alter. Qed.

Lemma at_dispatchable o t m : dispatchable o d -> dispatchable o (at_ i d t m).
Proof. intros []. by split. Qed.

Lemma at_callback t m ev :
  d_env d = [] -> callback ev (at_ i d t m) = (MDL_RET_SUCCESS, at_ i d (t ++ [ev]) m).
Proof. intros He. unfold callback. change (d_env (log ev (at_ i d t m))) with (d_env d). by rewrite He. Qed.

(** No redirection unless a handler asked for one. *)
Definition clean (m : phl_dispr_msg_ex) : Prop :=
  Forall (fun n => Z.testbit (mx_status m) n = false) [3; 5; 9].

Lemma at_redirect t m k : clean m -> redirect_or (at_ i d t m) i k = k (at_ i d t m).
Proof.
  intros Hc. unfold clean in Hc. rewrite !Forall_cons in Hc. destruct Hc as (H3 & H5 & H9 & _).
  unfold redirect_or, MSG_REDIRECT_CHK. rewrite !at_test.
  unfold MSG_STATUS_FAIL, MSG_STATUS_CANCEL, MSG_STATUS_PENDING. rewrite !test_flag_bit by lia.
  by rewrite H3, H5, H9.
Qed.

Lemma at_phase o t m pre :
  dispatchable o d -> mx_module m = o ->
  z_true (Z.land (MSG_INDC_FIELD (msg_id (mx_msg m))) MSG_INDC_PRE_PHASE) = pre ->
  let map := if pre then mx_premap m else mx_postmap m in
  length map = MODL_MASK_LEN -> Forall (fun b => 0 <= b < 256) map ->
  (if negb (_is_bitmap_empty map)
   then phase_hdl pre (if pre then pre_order else post_order) (at_ i d t m) i else at_ i d t m) =
  let ts := phase_targets d map (owner_mdl o) pre in
  at_ i d (t ++ mdl_events (msg_id (mx_msg m)) ts) (clear_ids pre (mdl_id d <$> ts) m).
Proof.
  intros H Ho Hph map Hl Hb. destruct (_is_bitmap_empty map) eqn:E; cbn [negb].
  - rewrite (empty_no_targets o pre d H map Hl Hb E). cbn [mdl_events List.map fmap list_fmap].
    rewrite <- (at_told pre [] [] t m). by rewrite told_nil.
  - rewrite (phase_hdl_ok pre i o); [|by apply at_dispatchable|by rewrite at_mx
      |unfold in_phase; by rewrite at_mxid|apply at_len].
    rewrite at_map, at_mxid. cbv zeta. fold map.
    change (phase_targets (at_ i d t m)) with (phase_targets d).
    change (mdl_id (at_ i d t m)) with (mdl_id d). by rewrite at_told.
Qed.
End exec.

(** ** Indicator bits *)

Lemma indc_pre_field id :
  z_true (Z.land (MSG_INDC_FIELD id) MSG_INDC_PRE_PHASE) = Z.testbit id 24.
Proof.
  unfold MSG_INDC_PRE_PHASE. rewrite z_true_land_BIT by lia. unfold MSG_INDC_FIELD.
  rewrite Z.land_spec, Z.shiftr_spec by lia. change 0xFF with (Z.ones 8).
  rewrite testbit_ones_const by lia. by rewrite andb_true_r.
Qed.

Lemma set_pre_bit id : Z.testbit (SET_MSG_INDC_FIELD id MSG_INDC_PRE_PHASE) 24 = true.
Proof. unfold SET_MSG_INDC_FIELD. rewrite Z.lor_spec. apply orb_true_r. Qed.

Lemma clear_pre_bit id : Z.testbit (CLEAR_MSG_INDC_FIELD id MSG_INDC_PRE_PHASE) 24 = false.
Proof. unfold CLEAR_MSG_INDC_FIELD. rewrite Z.land_spec. apply andb_false_r. Qed.

(** ** The end of a dispatch *)

Lemma enqueue_trace d r ty x :
  d_trace (snd (dispr_enqueue_token_op_info d r ty x)) = d_trace d /\
  d_msg_idle_q (snd (dispr_enqueue_token_op_info d r ty x)) = d_msg_idle_q d.
Proof.
  unfold dispr_enqueue_token_op_info, push_back_token_op_info. case_if; [done|]. by destruct r.
Qed.

Lemma recycle_trace d i :
  d_env d = [] -> mx_test d i MSG_STATUS_CANCEL = false ->
  d_trace (push_back_idle_msg cbk d i) =
    d_trace d ++ (if mx_test d i MSG_STATUS_NOTIFY_COMPLETE && completion (mx_completion (mx d i))
                  then [EvCompletion i (mxid d i)] else []) /\
  q_queue (d_msg_idle_q (push_back_idle_msg cbk d i)) = q_queue (d_msg_idle_q d) ++ [i].
Proof.
  intros He Hc. unfold push_back_idle_msg. rewrite Hc.
  set (b := mx_test d i MSG_STATUS_NOTIFY_COMPLETE && completion (mx_completion (mx d i))).
  set (d1 := if b then _ else d).
  assert (d_trace d1 = d_trace d ++ (if b then [EvCompletion i (mxid d i)] else []) /\
          d_msg_idle_q d1 = d_msg_idle_q d) as [H1 H2].
  { unfold d1. destruct b; [|by rewrite app_nil_r]. unfold cbk, callback.
    change (d_env (log (EvCompletion i (mxid d i)) d)) with (d_env d). by rewrite He. }
  clearbody d1. rewrite <- H1, <- H2.
  set (d2 := if mx_test d1 i _ then _ else d1).
  assert (d_trace d2 = d_trace d1 /\ d_msg_idle_q d2 = d_msg_idle_q d1) as [<- <-].
  { unfold d2. case_if; [|done]. unfold on_abort_msg_complete.
    destruct (enqueue_trace (d_clear_flag DISPR_WAIT_ABORT_MSG_DONE d1) OpRenew
                TOKEN_OP_RENEW_CMD_REQ 0xff) as [-> ->]. done. }
  clearbody d2. split; case_if; done.
Qed.

Lemma covered_clr d map ids :
  covered d map -> Forall (fun a => 0 <= a) ids -> covered d (_clr_bitmap_bit map ids).
Proof.
  intros (Hl & Hb & Hc) Hi. split; [by rewrite clr_bitmap_bit_length|].
  split; [by apply clr_bitmap_bytes|]. intros id Hid. rewrite bit_in_clr_bitmap by (done || lia).
  intros Ht. apply andb_true_iff in Ht as [Ht _]. by apply Hc.
Qed.

Lemma clean_clear_ids pre ids m : clean m -> clean (clear_ids pre ids m).
Proof. unfold clean, clear_ids. by destruct pre. Qed.

(** What the steps of a dispatch keep of the message [m0] it started with. *)
Record like (m0 m : phl_dispr_msg_ex) : Prop := {
  lk_module : mx_module m = mx_module m0;
  lk_completion : mx_completion m = mx_completion m0;
  lk_flags : Forall (fun n => Z.testbit (mx_status m) n = Z.testbit (mx_status m0) n) [2; 3; 5; 9; 10] }.

Lemma like_trans m0 m1 m2 : like m0 m1 -> like m1 m2 -> like m0 m2.
Proof.
  intros [? ? F1] [? ? F2]. split; [congruence|congruence|].
  rewrite Forall_forall in F1, F2 |- *. intros n Hn. by rewrite F2, F1.
Qed.

Lemma like_same m0 m :
  mx_module m = mx_module m0 -> mx_completion m = mx_completion m0 -> mx_status m = mx_status m0 ->
  like m0 m.
Proof. intros ? ? Hs. split; [done|done|]. rewrite Hs. by repeat constructor. Qed.

Lemma like_clear_ids pre ids m : like m (clear_ids pre ids m).
Proof. unfold clear_ids. destruct pre; by apply like_same. Qed.

Lemma like_clean m0 m : like m0 m -> clean m0 -> clean m.
Proof.
  intros [_ _ F] C. unfold clean in *. rewrite Forall_forall in F, C |- *. intros n Hn.
  rewrite F by set_solver. by apply C.
Qed.

Section steps.
Context (d : cmd_dispatcher) (i : nat) (o : option mdl_ref).
Context (H : dispatchable o d) (Hi : (i < length (d_msg_ex_pool d))%nat).

Lemma at_get_bitmap t m :
  get_msg_bitmap (at_ i d t m) i =
  let pre := TEST_STATUS_FLAG (mx_status m) MSG_STATUS_PRE_PHASE in
  let id := if pre then SET_MSG_INDC_FIELD (msg_id (mx_msg m)) MSG_INDC_PRE_PHASE
            else CLEAR_MSG_INDC_FIELD (msg_id (mx_msg m)) MSG_INDC_PRE_PHASE in
  (pre, at_ i d t (mx_map_id (fun _ => id) m)).
Proof.
  unfold get_msg_bitmap, set_indc. rewrite at_test by done. case_if; by rewrite at_upd.
Qed.

Lemma at_controller t m :
  Z.testbit (msg_id (mx_msg m)) 24 = true ->
  let b := d_test d DISPR_CTRL_PRESENT in
  _notify_dispr_controller (at_ i d t m) i =
  at_ i d (t ++ if b then [EvMdlMsg RefCtrl (msg_id (mx_msg m))] else [])
    (clear_ids true (if b then [bm_id (d_controller d)] else []) m).
Proof.
  intros Hm b. unfold _notify_dispr_controller.
  change (d_test (at_ i d t m) DISPR_CTRL_PRESENT) with b. destruct b; cbn [negb].
  - rewrite (feed_mdl_ok true); [|apply H|done|unfold in_phase; by rewrite at_mxid, indc_pre_field].
    rewrite at_mxid by done. by rewrite at_told.
  - by rewrite <- at_told, told_nil.
Qed.

Lemma at_cur_req t m :
  cur_req_hdl (at_ i d t m) i =
  at_ i d (t ++ match d_cur_cmd_req d with
                | Some k => if rx_test d k REQ_STATUS_RUN && negb (rx_test d k REQ_STATUS_CANCEL) &&
                               negb (TEST_STATUS_FLAG (mx_status m) MSG_STATUS_FOR_ABORT)
                            then [EvReqMsg k (msg_id (mx_msg m))] else []
                | None => []
                end) m.
Proof.
  unfold cur_req_hdl. change (d_cur_cmd_req (at_ i d t m)) with (d_cur_cmd_req d).
  destruct (d_cur_cmd_req d) as [k|]; [|by rewrite app_nil_r].
  change (rx_test (at_ i d t m)) with (rx_test d). rewrite at_test by done.
  destruct (rx_test d k REQ_STATUS_RUN), (rx_test d k REQ_STATUS_CANCEL),
    (TEST_STATUS_FLAG (mx_status m) MSG_STATUS_FOR_ABORT); cbn [negb orb andb];
    rewrite ?app_nil_r; try done.
  rewrite at_mxid, at_callback by (done || apply H). done.
Qed.

(** The phase handlers with the guards [msg_dispatch] puts around them. *)
Lemma at_phase_covered pre t m :
  mx_module m = o -> Z.testbit (msg_id (mx_msg m)) 24 = pre ->
  let map := if pre then mx_premap m else mx_postmap m in
  let ts := phase_targets d map (owner_mdl o) pre in
  let m' := clear_ids pre (mdl_id d <$> ts) m in
  covered d map ->
  (if negb (_is_bitmap_empty map)
   then phase_hdl pre (if pre then pre_order else post_order) (at_ i d t m) i else at_ i d t m) =
    at_ i d (t ++ mdl_events (msg_id (mx_msg m)) ts) m' /\
  _is_bitmap_empty (if pre then mx_premap m' else mx_postmap m') = true.
Proof.
  intros Ho Hm map ts m' Hc. split.
  - apply (at_phase i d Hi o t m pre H Ho); [by rewrite indc_pre_field|apply Hc..].
  - unfold m', clear_ids. pose proof (covered_empty o pre d H map Hc) as He.
    fold ts in He. unfold map in *. by destruct pre.
Qed.
End steps.

(** [msg_dispatch] once every module of the pre phase was told. *)
Definition post_half (d : cmd_dispatcher) (i : nat) : cmd_dispatcher :=
  let d := upd_mx (mx_clear_flag MSG_STATUS_PRE_PHASE) i d in
  let '(pre, d) := get_msg_bitmap d i in
  let d := if negb (_is_bitmap_empty (msg_map d i pre)) then msg_post_phase_hdl d i else d in
  redirect_or d i (fun d =>
  if _is_bitmap_empty (msg_map d i pre)
  then recycle (cur_req_hdl d i) i
  else recycle (upd_mx (mx_set_flag MSG_STATUS_CANCEL) i d) i).

Lemma at_post_half d i : let m0 := mx d i in
  dispatchable (mx_module m0) d -> (i < length (d_msg_ex_pool d))%nat -> clean m0 -> covered d (mx_postmap m0) ->
  forall t m, like m0 m -> Z.testbit (msg_id (mx_msg m)) 24 = true -> mx_postmap m = mx_postmap m0 ->
  let idq := CLEAR_MSG_INDC_FIELD (msg_id (mx_msg m)) MSG_INDC_PRE_PHASE in
  d_trace (post_half (at_ i d t m) i) =
    t ++ mdl_events idq (phase_targets d (mx_postmap m0) (owner_mdl (mx_module m0)) false) ++
    match d_cur_cmd_req d with
    | Some k => if rx_test d k REQ_STATUS_RUN && negb (rx_test d k REQ_STATUS_CANCEL) &&
                   negb (mx_test d i MSG_STATUS_FOR_ABORT) then [EvReqMsg k idq] else []
    | None => []
    end ++
    (if mx_test d i MSG_STATUS_NOTIFY_COMPLETE && completion (mx_completion m0) then [EvCompletion i idq] else []) /\
  q_queue (d_msg_idle_q (post_half (at_ i d t m) i)) = q_queue (d_msg_idle_q d) ++ [i].
Proof.
  intros m0 H Hi Hcl Hc2 t m3 L3 Bp Q3 idq. set (o := mx_module m0) in *.
  assert (Z.testbit idq 24 = false) as Bq by apply clear_pre_bit.
  unfold post_half. rewrite at_upd, at_get_bitmap by done.
  assert (TEST_STATUS_FLAG (mx_status (mx_clear_flag MSG_STATUS_PRE_PHASE m3)) MSG_STATUS_PRE_PHASE = false)
    as -> by (cbn; flags; done).
  cbv zeta iota. set (m4 := mx_map_id _ _).
  assert (like m0 m4 /\ msg_id (mx_msg m4) = idq /\ mx_postmap m4 = mx_postmap m0) as (L4 & I4 & Q4).
  { split; [|split; done]. eapply like_trans; [exact L3|]. split; [done|done|]. cbn. by repeat constructor; flags. }
  clearbody m4. rewrite at_map by done. rewrite Q4.
  destruct (at_phase_covered d i o H Hi false t m4) as [E5 N5];
    [by rewrite (lk_module _ _ L4)|by rewrite I4|by rewrite Q4|].
  unfold msg_post_phase_hdl. fold post_order. rewrite Q4 in E5, N5. rewrite E5. clear E5. rewrite I4 in *.
  set (eq := mdl_events idq _). set (m5 := clear_ids false _ m4) in *.
  assert (like m0 m5 /\ msg_id (mx_msg m5) = idq) as (L5 & I5)
    by (split; [eapply like_trans; [exact L4|apply like_clear_ids]|done]).
  clearbody m5. rewrite at_redirect by (done || by eapply like_clean).
  rewrite at_map, N5 by done. cbv iota. rewrite (at_cur_req d i o H Hi). unfold recycle.
  pose proof (lk_flags _ _ L5) as F5. rewrite !Forall_cons in F5. destruct F5 as (F2 & F3 & _ & _ & F10 & _).
  match goal with |- context [at_ i d ?t m5] => destruct (recycle_trace (at_ i d t m5) i) as [-> ->] end;
    [apply H| |].
  - rewrite at_test by done. unfold MSG_STATUS_CANCEL. rewrite test_flag_bit, F3 by lia.
    unfold clean in Hcl. rewrite !Forall_cons in Hcl. apply Hcl.
  - split; [|done]. rewrite at_test, at_mxid, at_mx by done. rewrite I5, (lk_completion _ _ L5).
    unfold mx_test. fold m0. unfold MSG_STATUS_NOTIFY_COMPLETE, MSG_STATUS_FOR_ABORT.
    rewrite !test_flag_bit, F2, F10 by lia. cbn [d_trace at_ set_d_trace]. by rewrite !app_assoc.
Qed.

(** C4: When every callback succeeds and makes no calls back, module
    identifiers are unique and the addressed bits belong to started modules, a
    fresh message goes to the controller, then in the pre-phase to the
    addressed modules from the mandatory class to the role class and in
    registration order, then in the post-phase from the role class to the
    mandatory class in reverse registration order (the sender first in its
    class both times), then to the running command and to the completion
    routine, and its descriptor is appended to the idle queue. *)
Theorem dispatch_order d i :
  dispatchable (mx_module (mx d i)) d ->
  IS_DISPR_CTRL (bm_id (d_controller d)) = true -> 0 <= bm_id (d_controller d) ->
  (i < length (d_msg_ex_pool d))%nat ->
  mx_test d i MSG_STATUS_PRE_PHASE = true -> clean (mx d i) ->
  covered d (mx_premap (mx d i)) -> covered d (mx_postmap (mx d i)) ->
  d_trace (msg_dispatch d i) = d_trace d ++ dispatch_trace d i /\
  q_queue (d_msg_idle_q (msg_dispatch d i)) = q_queue (d_msg_idle_q d) ++ [i].
Proof.
  intros H Hct Hcp Hi Hpre Hcl Hc1 Hc2. set (m0 := mx d i) in *. set (o := mx_module m0) in *.
  unfold dispatch_trace. fold m0 o. set (idp := SET_MSG_INDC_FIELD (mxid d i) MSG_INDC_PRE_PHASE).
  set (idq := CLEAR_MSG_INDC_FIELD idp MSG_INDC_PRE_PHASE).
  assert (Z.testbit idp 24 = true) as Bp by apply set_pre_bit.
  assert (Z.testbit idq 24 = false) as Bq by apply clear_pre_bit.
  replace (msg_dispatch d i) with (msg_dispatch (at_ i d (d_trace d) m0) i)
    by (f_equal; symmetry; by apply at_self).
  unfold msg_dispatch. rewrite at_get_bitmap by done. fold m0 in Hpre. unfold mx_test in Hpre.
  fold m0 in Hpre. rewrite Hpre. cbv zeta iota. fold (mxid d i).
  set (m1 := mx_map_id (fun _ => _) m0).
  assert (like m0 m1 /\ msg_id (mx_msg m1) = idp /\ mx_premap m1 = mx_premap m0 /\
          mx_postmap m1 = mx_postmap m0) as (L1 & I1 & P1 & Q1) by (split; [by apply like_same|done]).
  clearbody m1. rewrite at_redirect by (done || by eapply like_clean).
  rewrite (at_controller d i o H Hi) by (by rewrite I1). cbv zeta.
  set (ec := if d_test d DISPR_CTRL_PRESENT then [EvMdlMsg RefCtrl (msg_id (mx_msg m1))] else []).
  set (m2 := clear_ids true _ m1).
  assert (like m0 m2 /\ msg_id (mx_msg m2) = idp /\ mx_postmap m2 = mx_postmap m0 /\
          covered d (mx_premap m2) /\ phase_targets d (mx_premap m2) (owner_mdl o) true =
                                     phase_targets d (mx_premap m0) (owner_mdl o) true)
    as (L2 & I2 & Q2 & C2 & T2).
  { split; [eapply like_trans; [exact L1|apply like_clear_ids]|]. unfold m2, clear_ids. cbn.
    rewrite P1. destruct (d_test d DISPR_CTRL_PRESENT); [|done].
    do 2 (split; [done|]). split; [apply covered_clr; [done|by repeat constructor]|].
    by apply (phase_targets_ctrl o true d H). }
  clearbody m2. rewrite at_redirect by (done || by eapply like_clean).
  rewrite at_mxid, at_map, I2 by done. rewrite indc_pre_field, Bp. cbn [andb].
  destruct (at_phase_covered d i o H Hi true (d_trace d ++ ec) m2) as [E3 N3];
    [by rewrite (lk_module _ _ L2)|by rewrite I2|exact C2|].
  unfold msg_pre_phase_hdl. fold pre_order. rewrite E3. clear E3. cbv zeta. rewrite T2, I2 in *.
  set (ep := mdl_events idp _). set (m3 := clear_ids true _ m2) in *.
  assert (like m0 m3 /\ msg_id (mx_msg m3) = idp /\ mx_postmap m3 = mx_postmap m0) as (L3 & I3 & Q3)
    by (split; [eapply like_trans; [exact L2|apply like_clear_ids]|done]).
  clearbody m3. rewrite at_redirect by (done || by eapply like_clean).
  rewrite at_map, N3 by done. cbv iota.
  match goal with |- context [at_ i d ?t m3] =>
    destruct (at_post_half d i H Hi Hcl Hc2 t m3 L3) as [E1 E2]; [by rewrite I3|done|] end.
  unfold post_half in E1, E2. rewrite E1, E2. clear E1 E2. split; [|done].
  rewrite I3. unfold ec. rewrite I1. by rewrite !app_assoc.
Qed.

(** The message of role module 10, taken from the queue: it visits the
    controller, then modules 41, 71 and 10, then 10, 71 and 41. *)
Definition popped_msg : cmd_dispatcher := snd (pop_front_wait_msg with_msg).

Lemma below_3 (P : Z -> Prop) : P 0 -> P 1 -> P 2 -> forall p, 0 <= p < PHL_MDL_PRI_MAX -> P p.
Proof.
  intros H0 H1 H2 p Hp. unfold PHL_MDL_PRI_MAX in Hp.
  destruct (decide (p = 0)) as [->|]; [done|]. destruct (decide (p = 1)) as [->|]; [done|].
  by replace p with 2 by lia.
Qed.

Definition popped_class (p : Z) : nat := if p =? 0 then 0 else if p =? 1 then 2 else 1.
Definition popped_id (p : Z) : Z := if p =? 0 then 10 else if p =? 1 then 71 else 41.

Lemma popped_queue p : 0 <= p < PHL_MDL_PRI_MAX -> class_queue popped_msg p = [popped_class p].
Proof. revert p. apply below_3; vm_compute; reflexivity. Qed.

Lemma popped_mdl p :
  0 <= p < PHL_MDL_PRI_MAX ->
  dangling popped_msg (RefMdl (popped_class p)) = false /\
  mdl_id popped_msg (popped_class p) = popped_id p /\
  mdl_started popped_msg (popped_class p) = true /\ _get_mdl_priority (popped_id p) = p /\
  pq_wf (nth (Z.to_nat p) (d_module_q popped_msg) pq_init).
Proof. revert p. apply below_3; split_and!; vm_compute; reflexivity. Qed.

Lemma popped_in p h : 0 <= p < PHL_MDL_PRI_MAX -> h ∈ class_queue popped_msg p -> h = popped_class p.
Proof. intros Hp. rewrite popped_queue by done. by rewrite list_elem_of_singleton. Qed.

Lemma popped_dispatchable : dispatchable (mx_module (mx popped_msg 0)) popped_msg.
Proof.
  split.
  - vm_compute. reflexivity.
  - intros p Hp. apply (popped_mdl p Hp).
  - intros p Hp. rewrite popped_queue by done. destruct (popped_mdl p Hp) as (H1 & H2 & _).
    split; [|apply NoDup_singleton]. apply Forall_singleton. split; [done|]. rewrite H2.
    unfold popped_id. repeat case_match; lia.
  - intros p h Hp Hh. rewrite (popped_in p h Hp Hh). destruct (popped_mdl p Hp) as (_ & -> & _ & H & _).
    exact H.
  - replace (mx_module (mx popped_msg 0)) with (Some (RefMdl 0)) by (vm_compute; reflexivity).
    exists 0. split; [done|]. rewrite popped_queue by done. by apply list_elem_of_singleton.
Qed.

Lemma popped_covered map :
  map = mx_premap (mx popped_msg 0) -> covered popped_msg map.
Proof.
  intros ->. split; [vm_compute; reflexivity|]. split.
  { apply Forall_forall. intros b Hb. vm_compute in Hb.
    repeat (apply elem_of_cons in Hb as [->|Hb]; [by vm_compute|]). by apply elem_of_nil in Hb. }
  assert (forallb (fun id => implb (bit_in (mx_premap (mx popped_msg 0)) id)
            ((id =? 10) || (id =? 41) || (id =? 71))) (seqZ 0 128) = true) as Hall
    by (vm_compute; reflexivity).
  intros id Hr Hb. rewrite forallb_forall in Hall. specialize (Hall id).
  rewrite Hb in Hall. cbn [implb] in Hall. rewrite <- list_elem_of_In, elem_of_seqZ in Hall.
  specialize (Hall ltac:(lia)). rewrite !orb_true_iff, !Z.eqb_eq in Hall.
  clear Hb. assert (exists p, 0 <= p < PHL_MDL_PRI_MAX /\ id = popped_id p) as (p & Hp & ->).
  { destruct Hall as [[->| ->]| ->]; [exists 0|exists 2|exists 1]; done. }
  exists p, (popped_class p). rewrite popped_queue by done.
  destruct (popped_mdl p Hp) as (_ & H1 & H2 & _). split; [done|].
  split; [by apply list_elem_of_singleton|exact (conj H1 H2)].
Qed.

Lemma dispatch_order_witness :
  d_trace (msg_dispatch popped_msg 0) = d_trace popped_msg ++ dispatch_trace popped_msg 0 /\
  length (dispatch_trace popped_msg 0) = 7%nat.
Proof.
  split; [|vm_compute; reflexivity].
  apply (dispatch_order popped_msg 0).
  - apply popped_dispatchable.
  - vm_compute. reflexivity.
  - vm_compute. done.
  - vm_compute. lia.
  - vm_compute. reflexivity.
  - vm_compute. by repeat constructor.
  - apply popped_covered. reflexivity.
  - apply popped_covered. vm_compute. reflexivity.
Defined.
