(* ===== verification/DispTheorems.v ===== *)
(** * What the command dispatcher guarantees

    The theorems about one dispatcher, for every reachable state and every
    behaviour of modules, requests and other threads unless said otherwise,
    each with a witness at a concrete dispatcher. *)

From S2P Require Import Prelude PhlQueue PhlDef DispState DispApi DispThread DispModule DispInv DispApiInv DispThreadInv DispFuel DispLeave DispReach DispSample DispOrder.

(** ** Reachability of the sample states *)

Lemma started_reach : reach started.
Proof. apply (reach_start [] 0 booted); vm_compute; reflexivity. Qed.

Lemma with_modules_reach : reach with_modules.
Proof. unfold with_modules. cbn [foldl]. do 3 apply reach_register. apply started_reach. Qed.

Lemma with_msg_reach : reach with_msg.
Proof. apply reach_call, with_modules_reach. Qed.

(** ** Descriptors *)

(** C1: In every reachable dispatcher state each of the message descriptors is
    in exactly one of the idle, waiting and pending queues, the queue counters
    equal the queue lengths, idle descriptors are wiped, and queued ones are
    marked enqueued and not running; this holds whatever modules, callbacks
    and other threads call. *)
Theorem msg_descriptors_conserved d :
  reach d ->
  pool_split MAX_PHL_MSG_NUM
    [q_queue (d_msg_idle_q d); q_queue (d_msg_wait_q d); q_queue (d_msg_pend_q d)] /\
  pq_wf (d_msg_idle_q d) /\ pq_wf (d_msg_wait_q d) /\ pq_wf (d_msg_pend_q d) /\
  (forall i, i ∈ q_queue (d_msg_idle_q d) -> mx_status (mx d i) = 0 /\ mxid d i = 0) /\
  (forall i, i ∈ q_queue (d_msg_wait_q d) \/ i ∈ q_queue (d_msg_pend_q d) ->
     mx_test d i MSG_STATUS_ENQ = true /\ mx_test d i MSG_STATUS_RUN = false).
Proof.
  intros H. destruct (reach_good d H) as ([[Hs ? ? ? ? ? Hi Hq] _] & _).
  split; [unfold pool_split in *; cbn in *; by rewrite !app_nil_r in *|].
  repeat split; try done.
  - by apply Hi.
  - by apply Hi.
  - unfold mx_test, MSG_STATUS_ENQ. rewrite test_flag_bit by lia. by apply Hq.
  - unfold mx_test, MSG_STATUS_RUN. rewrite test_flag_bit by lia. by apply Hq.
Qed.

Lemma msg_descriptors_conserved_witness :
  q_queue (d_msg_wait_q with_msg) = [0%nat] /\
  pool_split MAX_PHL_MSG_NUM
    [q_queue (d_msg_idle_q with_msg); q_queue (d_msg_wait_q with_msg); q_queue (d_msg_pend_q with_msg)].
Proof.
  split; [vm_compute; reflexivity|].
  apply (msg_descriptors_conserved with_msg with_msg_reach).
Defined.

(** C2: In every reachable state each token request is idle, waiting or the
    current command, at most one request runs, the running one is the current
    command, the token counter is one exactly when there is a current command,
    and every request marked enqueued is in the waiting queue. *)
Theorem token_exclusive d :
  reach d ->
  pool_split MAX_CMD_REQ_NUM
    [q_queue (d_token_req_idle_q d); q_queue (d_token_req_wait_q d); option_list (d_cur_cmd_req d)] /\
  d_token_cnt d = (if d_cur_cmd_req d then 1 else 0) /\
  (forall k, (k < MAX_CMD_REQ_NUM)%nat -> rx_test d k REQ_STATUS_RUN = true -> d_cur_cmd_req d = Some k) /\
  (forall k, (k < MAX_CMD_REQ_NUM)%nat -> rx_test d k REQ_STATUS_ENQ = true ->
     k ∈ q_queue (d_token_req_wait_q d)).
Proof.
  intros H. destruct (reach_good d H) as ([_ [c Hq]] & _).
  pose proof (ro_cur _ _ _ _ _ _ Hq) as Hc. cbn in Hc. rewrite Hc.
  split; [pose proof (ro_split _ _ _ _ _ _ Hq) as Hs; unfold pool_split in *; cbn in *;
          by rewrite !app_nil_r in *|].
  split; [exact (ro_cnt _ _ _ _ _ _ Hq)|]. split.
  - intros k Hk Ht. unfold REQ_STATUS_RUN in Ht. rewrite rx_test_bit in Ht by lia.
    exact (req_ok_running Hq k Hk Ht).
  - intros k Hk Ht. unfold REQ_STATUS_ENQ in Ht. rewrite rx_test_bit in Ht by lia.
    destruct (req_ok_enq Hq k Hk Ht) as [|Ha]; [done|by apply elem_of_nil in Ha].
Qed.

Lemma with_req_reach : reach with_req.
Proof.
  unfold with_req. apply reach_turn; [|vm_compute; reflexivity].
  do 2 apply reach_call. apply started_reach.
Qed.

Lemma token_exclusive_witness :
  d_cur_cmd_req with_req = Some 0%nat /\ q_queue (d_token_req_wait_q with_req) = [1%nat] /\
  d_token_cnt with_req = 1.
Proof.
  split; [vm_compute; reflexivity|]. split; [vm_compute; reflexivity|].
  rewrite (proj1 (proj2 (token_exclusive with_req with_req_reach))). vm_compute. reflexivity.
Defined.

(** ** Wake-ups and loops *)

(** C3: In every reachable state the count of the thread's semaphore is at
    least the number of waiting messages and queued token operations plus the
    request to resume pending messages, so the thread never sleeps with work
    left. *)
Theorem no_lost_wakeup d :
  reach d ->
  Z.of_nat (length (q_queue (d_msg_wait_q d))) + Z.of_nat (length (q_queue (d_token_op_q d))) +
    Z.b2z (d_test d DISPR_CLR_PEND_MSG) <= d_wake d.
Proof.
  intros H. destruct (reach_good d H) as (_ & [Hw _] & _). cbn in Hw. unfold work in Hw. lia.
Qed.

Lemma no_lost_wakeup_witness :
  length (q_queue (d_msg_wait_q with_msg)) = 1%nat /\ 1 <= d_wake with_msg.
Proof.
  split; [vm_compute; reflexivity|].
  pose proof (no_lost_wakeup with_msg with_msg_reach) as H. vm_compute in H. vm_compute. exact H.
Defined.

(** C6: From every reachable state the handler of token operations empties its
    queue within the fuel computed from the state, and granting the token to
    waiting requests gives the same result for any larger fuel: both loops end
    although callbacks may add further operations. *)
Theorem token_ops_complete d :
  reach d ->
  q_queue (d_token_op_q (token_op_hanler (op_fuel d) d)) = [] /\
  forall extra, dispr_process_token_req (req_fuel d + extra) d = process_token_req d.
Proof.
  intros H. destruct (reach_good d H) as (_ & _ & Ho).
  assert (budget (opq_len d + env_size d) (rwait_len d + env_size d) d) as Hb
    by (split; [lia|split; [lia|exact Ho]]).
  split; [eapply token_ops_drain; [exact Hb|unfold op_fuel; lia]|].
  intros extra. by apply (process_fuel_enough _ _ _ _ Hb).
Qed.

Lemma token_ops_complete_witness :
  let d := exec_call (AAddTokenReq (Some (sample_req 130)) (Some 0)) started in
  length (q_queue (d_token_op_q d)) = 1%nat /\
  q_queue (d_token_op_q (token_op_hanler (op_fuel d) d)) = [].
Proof.
  intros d. split; [vm_compute; reflexivity|].
  apply (token_ops_complete d). apply reach_call, started_reach.
Defined.

(** Once the dispatcher is no longer started, the thread's exit routine
    ends in one pass over the pools and leaves every message descriptor and
    every request idle, no current command and a zero token counter. *)
Theorem leave_hdl_returns_all d :
  reach d -> d_test d DISPR_STARTED = false ->
  exists d', dispr_thread_leave_hdl 1 d = Some d' /\
    q_cnt (d_msg_idle_q d') = Z.of_nat MAX_PHL_MSG_NUM /\
    q_cnt (d_token_req_idle_q d') = Z.of_nat MAX_CMD_REQ_NUM /\
    q_queue (d_msg_wait_q d') = [] /\ q_queue (d_msg_pend_q d') = [] /\
    q_queue (d_token_req_wait_q d') = [] /\ d_cur_cmd_req d' = None /\ d_token_cnt d' = 0.
Proof.
  intros H Hs. destruct (reach_good d H) as (Hset & _).
  destruct (leave_hdl_spec d Hset Hs) as (d' & E & (Hm & Hc & _) & Hq & Hr).
  exists d'. split; [done|]. split; [done|]. split; [done|].
  pose proof (pool_split_length _ _ (mo_split _ _ _ _ _ Hm)) as Hl.
  pose proof (mo_idle_wf _ _ _ _ _ Hm) as Hw. unfold pq_wf in Hw. cbn in Hl.
  rewrite !length_app in Hl.
  pose proof (pool_split_length _ _ (ro_split _ _ _ _ _ _ Hq)) as Hl2.
  pose proof (ro_idle_wf _ _ _ _ _ _ Hq) as Hw2. unfold pq_wf in Hw2. cbn in Hl2.
  rewrite !length_app in Hl2. unfold MAX_PHL_MSG_NUM, MAX_CMD_REQ_NUM in *.
  repeat split; try (apply length_zero_iff_nil; lia).
  - exact (ro_cur _ _ _ _ _ _ Hq).
  - exact (ro_cnt _ _ _ _ _ _ Hq).
Qed.

Lemma leave_hdl_returns_all_witness :
  let d := dispr_thread_stop_prior_hdl with_msg in
  q_queue (d_msg_wait_q d) = [0%nat] /\
  exists d', dispr_thread_leave_hdl 1 d = Some d' /\ q_cnt (d_msg_idle_q d') = 24.
Proof.
  intros d. split; [vm_compute; reflexivity|].
  destruct (leave_hdl_returns_all d) as (d' & E & Hc & _).
  - apply reach_stop, with_msg_reach.
  - vm_compute. reflexivity.
  - exists d'. exact (conj E Hc).
Defined.

(** When pending messages are to be resumed, all of them and nothing else
    move to the waiting queue and the request is cleared. *)
Theorem pending_resumed d :
  reach d -> d_test d DISPR_CLR_PEND_MSG = true ->
  q_queue (d_msg_pend_q (clear_pending_msg d)) = [] /\
  q_queue (d_msg_wait_q (clear_pending_msg d)) ≡ₚ
    q_queue (d_msg_pend_q d) ++ q_queue (d_msg_wait_q d) /\
  d_test (clear_pending_msg d) DISPR_CLR_PEND_MSG = false.
Proof.
  intros H Ht. destruct (reach_good d H) as ([Hm _] & _).
  assert (q_queue (d_msg_pend_q (clear_pending_msg d)) = []) as He.
  { unfold clear_pending_msg. rewrite Ht. apply (clear_loop_drains []); [|done].
    by apply (msg_inv_frame [] d). }
  split; [done|]. pose proof (msg_inv_clear_pending [] d Hm) as Hm'. split.
  - pose proof (mo_split _ _ _ _ _ Hm) as S1. pose proof (mo_split _ _ _ _ _ Hm') as S2.
    assert (d_msg_idle_q (clear_pending_msg d) = d_msg_idle_q d) as Hi.
    { unfold clear_pending_msg. rewrite Ht. by apply clear_loop_ind. }
    unfold pool_split in *. cbn in *. rewrite Hi, He in S2. rewrite <- S1 in S2.
    rewrite !app_nil_r in S2. apply Permutation_app_inv_l in S2. rewrite S2. apply Permutation_app_comm.
  - unfold clear_pending_msg. rewrite Ht.
    apply (clear_loop_ind (fun d => d_test d DISPR_CLR_PEND_MSG = false)); try done.
    by apply (d_test_clear_same 6).
Qed.

Lemma with_pending_reach : reach with_pending.
Proof.
  unfold with_pending. apply reach_call, reach_turn; [|vm_compute; reflexivity].
  apply reach_env, with_msg_reach.
Qed.

Lemma pending_resumed_witness :
  q_queue (d_msg_pend_q with_pending) = [0%nat] /\
  q_queue (d_msg_pend_q (clear_pending_msg with_pending)) = [] /\
  q_queue (d_msg_wait_q (clear_pending_msg with_pending)) ≡ₚ [0%nat].
Proof.
  split; [vm_compute; reflexivity|].
  destruct (pending_resumed with_pending with_pending_reach) as (H1 & H2 & _);
    [vm_compute; reflexivity|].
  split; [exact H1|exact H2].
Defined.

(** ** Cancelling *)

Section cancel.
Implicit Types (d : cmd_dispatcher) (i : nat).

Lemma empty_map_bit id : bit_in empty_map id = false.
Proof.
  unfold bit_in, empty_map. rewrite nth_lookup.
  destruct (replicate MODL_MASK_LEN 0 !! Z.to_nat (id / 8)) as [b|] eqn:E; [|apply Z.testbit_0_l].
  apply lookup_replicate in E as [-> _]. apply Z.testbit_0_l.
Qed.

Lemma feed_queue_silent pre i l : forall d,
  msg_map d i pre = empty_map ->
  fst (feed_queue pre i l d) = false /\ d_trace (snd (feed_queue pre i l d)) = d_trace d /\
  d_env (snd (feed_queue pre i l d)) = d_env d /\ msg_map (snd (feed_queue pre i l d)) i pre = empty_map.
Proof.
  induction l as [|h l IH]; intros d Hm; [done|]. cbn [feed_queue].
  set (d1 := raise_ub (dangling d (RefMdl h)) d).
  assert (msg_map d1 i pre = empty_map) as Hm1 by done.
  rewrite Hm1, chk_bitmap_bit_true, empty_map_bit. cbn [negb orb]. apply (IH d1 Hm1).
Qed.

Lemma feed_priorities_silent pre i o oid pri ps : forall d,
  msg_map d i pre = empty_map ->
  d_trace (feed_priorities pre i o oid pri ps d) = d_trace d /\
  d_env (feed_priorities pre i o oid pri ps d) = d_env d.
Proof.
  induction ps as [|p ps IH]; intros d Hm; [done|]. cbn [feed_priorities].
  unfold feed_priority. rewrite Hm, chk_bitmap_bit_true, empty_map_bit, andb_false_r.
  match goal with |- context [feed_queue pre i ?l d] =>
    pose proof (feed_queue_silent pre i l d Hm) as (F1 & F2 & F3 & F4);
    destruct (feed_queue pre i l d) as [stop d1] end.
  cbn in *. subst stop. destruct (IH d1 F4) as [-> ->]. done.
Qed.

Lemma phase_hdl_silent pre ps d i :
  msg_map d i pre = empty_map ->
  d_trace (phase_hdl pre ps d i) = d_trace d /\ d_env (phase_hdl pre ps d i) = d_env d.
Proof.
  intros Hm. unfold phase_hdl.
  match goal with |- context [feed_priorities pre i ?o ?a ?b ps ?x] =>
    destruct (feed_priorities_silent pre i o a b ps x Hm) as [-> ->] end. done.
Qed.

(** A cancelled message is handed to no module in either phase and
    consumes no callback; the check after the phase sends it to recycling. *)
Theorem cancelled_msg_not_forwarded d i pre ps :
  (i < length (d_msg_ex_pool d))%nat ->
  let d' := cancel_msg d i in
  d_trace (phase_hdl pre ps d' i) = d_trace d /\ d_env (phase_hdl pre ps d' i) = d_env d /\
  MSG_REDIRECT_CHK d' i = RecycleMsg /\ fst (is_msg_canceled d' i) = true.
Proof.
  intros Hi d'.
  assert (mx d' i = mx_set_flag MSG_STATUS_CANCEL
                      (set_mx_postmap empty_map (set_mx_premap empty_map (mx d i)))) as Hm.
  { unfold d', cancel_msg. do 3 (rewrite mx_upd, decide_True
      by (split; [done|]; cbn; rewrite ?length_alter; done)). done. }
  assert (mx_test d' i MSG_STATUS_CANCEL = true) as Hc.
  { unfold mx_test. rewrite Hm. cbn. flags. done. }
  destruct (phase_hdl_silent pre ps d' i) as [-> ->]; [unfold msg_map; rewrite Hm; by destruct pre|].
  split; [done|]. split; [done|]. split.
  - unfold MSG_REDIRECT_CHK. by rewrite Hc, orb_true_r.
  - unfold is_msg_canceled. by rewrite Hc, orb_true_r.
Qed.
End cancel.

Lemma cancelled_msg_not_forwarded_witness :
  bit_in (mx_premap (mx with_msg 0)) 41 = true /\
  d_trace (phase_hdl true pre_order (cancel_msg with_msg 0) 0) = d_trace with_msg.
Proof.
  split; [vm_compute; reflexivity|].
  apply (cancelled_msg_not_forwarded with_msg 0). vm_compute. lia.
Defined.
