(* ===== verification/DispSend.v ===== *)
(** * Sending a message ([dispr_send_msg])

    What a successful send leaves behind: which descriptor is taken, whom the
    message is addressed to, where it is queued and which handle is returned. *)

From S2P Require Import Prelude PhlQueue PhlDef DispState DispApi DispThread DispModule DispInv DispApiInv DispThreadInv DispFuel DispLeave DispReach DispSample DispOrder DispTheorems.

(** ** Handles *)

Lemma handle_hdl idx :
  0 <= idx < 256 -> IS_HDL_VALID (GEN_VALID_HDL idx) = true /\ GET_IDX_FROM_HDL (GEN_VALID_HDL idx) = idx.
Proof.
  intros Hr. unfold IS_HDL_VALID, GET_IDX_FROM_HDL, GEN_VALID_HDL, u32, u8.
  rewrite (Z.mod_small idx) by lia.
  assert (Z.lor (BIT 31) idx = BIT 31 + idx) as E.
  { assert (Z.land (BIT 31) idx = 0) as Hz.
    { rewrite Z.land_comm. rewrite land_BIT by lia.
      rewrite Z.bits_above_log2; [done|lia|].
      destruct (decide (idx = 0)) as [->|]; [simpl; lia|].
      assert (Z.log2 idx < 8) by (apply Z.log2_lt_pow2; lia). lia. }
    rewrite <- Z.lxor_lor by done. symmetry. by apply Z.add_nocarry_lxor. }
  rewrite E, BIT_pow2 by lia. rewrite (Z.mod_small (2 ^ 31 + idx)) by lia. split.
  - rewrite <- (BIT_pow2 31) by lia. rewrite z_true_land_BIT by lia. rewrite BIT_pow2 by lia.
    rewrite Z.testbit_true by lia. lia.
  - change 0xFF with (Z.ones 8). rewrite Z.land_ones by lia. lia.
Qed.

(** ** Who is told about a message *)

(** The map a message is sent with: the registered modules, without the
    optional ones if so asked, plus or minus the listed ones, plus the sender. *)
Definition notify_map (d : cmd_dispatcher) (attr : option phl_msg_attribute) (mid : Z) : list Z :=
  let own (m : list Z) := if z_true (obj_chk_bitmap d mid) then _add_bitmap_bit m [mid] else m in
  let m := own (d_bitmap d) in
  match attr with
  | None => m
  | Some a =>
      let ids := take (Z.to_nat (notify_len (attr_notify a))) (default [] (id_arr (attr_notify a))) in
      let m := if z_true (Z.land (attr_opt a) MSG_OPT_SKIP_NOTIFY_OPT_MDL) then d_basemap d else m in
      own (if z_true (Z.land (attr_opt a) MSG_OPT_BLIST_PRESENT)
           then _clr_bitmap_bit m ids else _add_bitmap_bit m ids)
  end.

Section fill.
Context (i : nat).
Implicit Types (d : cmd_dispatcher) (m : phl_dispr_msg_ex).

(** [d] up to the record of undefined behaviour, with message [i] equal to
    [m]. *)
Definition fill_state (d d' : cmd_dispatcher) (m : phl_dispr_msg_ex) : Prop :=
  exists b, d' = at_ i (raise_ub b d) (d_trace d) m.

Lemma raise_ub_twice a b d : raise_ub a (raise_ub b d) = raise_ub (b || a) d.
Proof. unfold raise_ub. cbn. by rewrite orb_assoc. Qed.

Lemma fs_upd d d' m f : fill_state d d' m -> fill_state d (upd_mx f i d') (f m).
Proof. intros [b ->]. exists b. apply at_upd. Qed.

Lemma fs_ub d d' m b : fill_state d d' m -> fill_state d (raise_ub b d') m.
Proof. intros [b' ->]. exists (b' || b). rewrite <- raise_ub_twice. done. Qed.

Lemma fs_same d d' m : fill_state d d' m ->
  d_bitmap d' = d_bitmap d /\ d_basemap d' = d_basemap d /\ d_module_q d' = d_module_q d /\
  d_heap d' = d_heap d /\ d_status d' = d_status d.
Proof. by intros [b ->]. Qed.

Definition with_maps (p q : list Z) (m : phl_dispr_msg_ex) := set_mx_postmap q (set_mx_premap p m).

(** The steps that write the maps. *)
Lemma fs_set_maps d d' m p : fill_state d d' m -> fill_state d (set_maps d' i p) (with_maps p p m).
Proof. intros H. exact (fs_upd _ _ _ (set_mx_postmap p) (fs_upd _ _ _ (set_mx_premap p) H)). Qed.

Lemma fs_add d d' m p q ids :
  fill_state d d' (with_maps p q m) ->
  fill_state d (add_maps d' i ids) (with_maps (_add_bitmap_bit p ids) (_add_bitmap_bit q ids) m).
Proof.
  intros H. apply fs_ub.
  exact (fs_upd _ _ _ (fun m => set_mx_postmap (_add_bitmap_bit (mx_postmap m) ids) m)
          (fs_upd _ _ _ (fun m => set_mx_premap (_add_bitmap_bit (mx_premap m) ids) m) H)).
Qed.

Lemma fs_clr d d' m p q ids :
  fill_state d d' (with_maps p q m) ->
  fill_state d (clr_maps d' i ids) (with_maps (_clr_bitmap_bit p ids) (_clr_bitmap_bit q ids) m).
Proof.
  intros H. apply fs_ub.
  exact (fs_upd _ _ _ (fun m => set_mx_postmap (_clr_bitmap_bit (mx_postmap m) ids) m)
          (fs_upd _ _ _ (fun m => set_mx_premap (_clr_bitmap_bit (mx_premap m) ids) m) H)).
Qed.

Lemma fs_chk d d' m mid : fill_state d d' m -> obj_chk_bitmap d' mid = obj_chk_bitmap d mid.
Proof. intros H. destruct (fs_same _ _ _ H) as (E1 & E2 & _). unfold obj_chk_bitmap. by rewrite E1, E2. Qed.

Lemma fs_bitmap d d' m mid :
  fill_state d d' m ->
  fill_state d (set_msg_bitmap d' i mid)
    (with_maps (notify_map d None mid) (notify_map d None mid) m).
Proof.
  intros H. destruct (fs_same _ _ _ H) as (E1 & _). unfold set_msg_bitmap.
  apply (fs_set_maps _ _ _ (d_bitmap d')) in H. rewrite E1 in *. set (d1 := set_maps d' i _) in *.
  rewrite (fs_chk _ _ _ _ H). unfold notify_map. destruct (z_true _); [by apply fs_add|done].
Qed.

Lemma fs_custom d d' m a mid :
  let p := notify_map d None mid in
  fill_state d d' (with_maps p p m) ->
  fill_state d
    (set_msg_custom_bitmap d' i (attr_opt a) (default [] (id_arr (attr_notify a)))
       (notify_len (attr_notify a)) mid)
    (with_maps (notify_map d (Some a) mid) (notify_map d (Some a) mid) m).
Proof.
  intros p H. destruct (fs_same _ _ _ H) as (_ & E2 & _). unfold set_msg_custom_bitmap.
  unfold notify_map. fold (notify_map d None mid). fold p. set (ids := take _ _).
  set (d1 := if z_true (Z.land (attr_opt a) MSG_OPT_SKIP_NOTIFY_OPT_MDL) then _ else d').
  set (p1 := if z_true (Z.land (attr_opt a) MSG_OPT_SKIP_NOTIFY_OPT_MDL) then d_basemap d else p).
  assert (fill_state d d1 (with_maps p1 p1 m)) as H1.
  { unfold d1, p1. case_if; [|done]. rewrite E2. exact (fs_set_maps _ _ _ _ H). }
  clearbody d1. set (d2 := if z_true (Z.land (attr_opt a) MSG_OPT_BLIST_PRESENT) then _ else _).
  set (p2 := if z_true (Z.land (attr_opt a) MSG_OPT_BLIST_PRESENT) then _clr_bitmap_bit p1 ids
             else _add_bitmap_bit p1 ids).
  assert (fill_state d d2 (with_maps p2 p2 m)) as H2.
  { unfold d2, p2. case_if; [by apply fs_clr|by apply fs_add]. }
  clearbody d2. apply (fs_ub _ _ _ (Z.of_nat (length (default [] (id_arr (attr_notify a))))
                                   <? notify_len (attr_notify a))) in H2.
  set (d3 := raise_ub _ d2) in *. rewrite (fs_chk _ _ _ _ H2).
  destruct (z_true (obj_chk_bitmap d mid)); [by apply fs_add|done].
Qed.

(** What the rest of the filling keeps. *)
Definition kept (m m' : phl_dispr_msg_ex) : Prop :=
  mx_idx m' = mx_idx m /\ mx_msg m' = mx_msg m /\ mx_premap m' = mx_premap m /\
  mx_postmap m' = mx_postmap m.

Lemma fs_attr_owner d d' m a mid cur st :
  let p := notify_map d None mid in
  fill_state d d' (with_maps p p m) ->
  exists m', fill_state d
    (send_msg_owner (match a with Some a => send_msg_attr d' i a mid | None => d' end) i mid cur st) m' /\
    kept (with_maps (notify_map d a mid) (notify_map d a mid) m) m'.
Proof.
  intros p H.
  set (d1 := match a with Some a => _ | None => d' end).
  assert (exists m1, fill_state d d1 m1 /\
            kept (with_maps (notify_map d a mid) (notify_map d a mid) m) m1) as (m1 & H1 & K1).
  { unfold d1. destruct a as [a|]; [|by exists (with_maps p p m)]. unfold send_msg_attr.
    apply (fs_custom d d' m a mid) in H. set (d2 := set_msg_custom_bitmap _ _ _ _ _ _) in *. clearbody d2.
    set (m2 := with_maps _ _ m) in *. assert (kept m2 m2) as K by done. clearbody m2. revert H K.
    generalize m2 at 2 4. intros m3 H K. do 2 case_if; try case_if; eexists; (split; [by repeat apply fs_upd|exact K]). }
  clearbody d1. unfold send_msg_owner, get_module_by_id.
  destruct (search_queues d1 mid (d_module_q d1)) as [r b].
  repeat case_if; try (destruct r; cbn [fmap option_fmap option_map]); try case_if;
    eexists; (split; [repeat first [exact H1|apply fs_upd|apply fs_ub]|exact K1]).
Qed.
End fill.

(** The last steps of a successful send, on descriptor [i]. *)
Section queue_msg.
Context (i : nat) (d2 : cmd_dispatcher) (ab ctrl : bool).
Context (Hi : (i < length (d_msg_ex_pool d2))%nat).

Definition queue_msg : cmd_dispatcher :=
  let d3 := if ab then d_set_flag DISPR_WAIT_ABORT_MSG_DONE
                         (upd_mx (mx_set_flag MSG_STATUS_FOR_ABORT) i d2) else d2 in
  let d4 := upd_mx (mx_set_flag MSG_STATUS_PRE_PHASE) i d3 in
  if ctrl then insert_msg_by_priority d4 i else push_back_wait_msg d4 i.

Definition queue_elem (m : phl_dispr_msg_ex) : phl_dispr_msg_ex :=
  let m := if ab then mx_set_flag MSG_STATUS_FOR_ABORT m else m in
  mx_clear_flag MSG_STATUS_RUN (mx_set_flag MSG_STATUS_ENQ (mx_set_flag MSG_STATUS_PRE_PHASE m)).

Lemma queue_msg_pool : d_msg_ex_pool queue_msg = alter queue_elem i (d_msg_ex_pool d2).
Proof.
  unfold queue_msg, queue_elem. destruct ab, ctrl; cbn; rewrite !list_alter_alter_eq; done.
Qed.

Lemma queue_msg_mx j :
  mx queue_msg j = if decide (i = j) then queue_elem (mx d2 j) else mx d2 j.
Proof.
  unfold mx. rewrite queue_msg_pool, nth_alter. destruct (decide (i = j)) as [<-|]; [|done].
  by rewrite decide_True by done.
Qed.

Lemma queue_msg_facts :
  d_msg_idle_q queue_msg = d_msg_idle_q d2 /\
  q_queue (d_msg_wait_q queue_msg) =
    (if ctrl then insert_before (q_queue (d_msg_wait_q d2)) (is_higher_priority queue_msg i) i
     else q_queue (d_msg_wait_q d2) ++ [i]) /\
  d_wake queue_msg = d_wake d2 + 1 /\
  d_test queue_msg DISPR_STARTED = d_test d2 DISPR_STARTED.
Proof.
  unfold queue_msg.
  set (d3 := if ab then _ else d2).
  assert (d_msg_idle_q d3 = d_msg_idle_q d2 /\ d_msg_wait_q d3 = d_msg_wait_q d2 /\
          d_wake d3 = d_wake d2 /\ d_test d3 DISPR_STARTED = d_test d2 DISPR_STARTED)
    as (<- & <- & <- & <-).
  { unfold d3. destruct ab; [|done]. split_and!; try done.
    apply (d_test_set 8 1 (upd_mx _ i d2)); lia. }
  clearbody d3. destruct ctrl; (split; [reflexivity|split; [reflexivity|split; reflexivity]]).
Qed.
End queue_msg.

Lemma send_success_inv K d msg attr h hd d' :
  dispr_send_msg K d msg attr h = (RTW_PHL_STATUS_SUCCESS, hd, d') ->
  exists i d1 cur st ab, pop_front_idle_msg d = (Some i, d1) /\ d_test d DISPR_STARTED = true /\
    d' = queue_msg i (send_msg_fill d1 i msg attr (MSG_MDL_ID_FIELD (msg_id msg)) cur st) ab
           (IS_DISPR_CTRL (MSG_MDL_ID_FIELD (msg_id msg))) /\
    hd = (fun _ => GEN_VALID_HDL (mx_idx (mx d' i))) <$> h.
Proof.
  unfold dispr_send_msg. destruct (get_cur_cmd_req_id d) as [cur st].
  destruct (d_test d DISPR_STARTED) eqn:Es; [|done]. cbn [negb]. case_if; [done|]. case_if; [done|].
  case_if; [done|]. destruct (pop_front_idle_msg d) as [[i|] d1] eqn:Ep; [|done].
  cbv zeta. set (d2 := send_msg_fill _ _ _ _ _ _ _).
  set (lp := mx_test d2 i MSG_STATUS_OWNER_REQ && _). clearbody lp.
  set (ctrl := IS_DISPR_CTRL _). fold (queue_msg i d2 lp ctrl).
  case_if; [done|]. intros H. exists i, d1, cur, st, lp. fold d2.
  generalize dependent (queue_msg i d2 lp ctrl). intros d4 H. injection H as <- <-.
  split; [done|]. split; [done|]. split; [done|]. by destruct h.
Qed.

(** A filled descriptor. *)
Lemma fill_spec d i d1 msg attr mid cur st :
  pop_front_idle_msg d = (Some i, d1) -> (i < length (d_msg_ex_pool d))%nat ->
  exists m b, send_msg_fill d1 i msg attr mid cur st = at_ i (raise_ub b d1) (d_trace d1) m /\
    mx_idx m = mx_idx (mx d i) /\ mx_msg m = msg /\
    mx_premap m = notify_map d attr mid /\ mx_postmap m = notify_map d attr mid.
Proof.
  intros Ep Hi.
  assert (exists q, d1 = upd_mx reset_msg_ex i (set_d_msg_idle_q q d)) as [q ->].
  { revert Ep. unfold pop_front_idle_msg. destruct (pq_pop (d_msg_idle_q d) _first) as [[j|] q];
      intros [= -> <-]. by eexists. }
  set (d1 := upd_mx reset_msg_ex i (set_d_msg_idle_q q d)).
  assert (i < length (d_msg_ex_pool d1))%nat as Hi1 by (cbn; by rewrite length_alter).
  assert (fill_state i d1 d1 (mx d1 i)) as H0.
  { exists false. rewrite raise_ub_false. by apply at_self. }
  apply (fs_upd _ _ _ _ (set_mx_msg msg)) in H0. apply (fs_bitmap _ _ _ _ mid) in H0.
  destruct (fs_attr_owner i d1 _ _ attr mid cur st H0) as (m & [b Hm] & (K1 & K2 & K3 & K4)).
  exists m, b. split; [exact Hm|].
  assert (mx_idx (mx d1 i) = mx_idx (mx d i)) as Hx.
  { unfold d1. rewrite mx_upd, decide_True by (split; [done|]; exact Hi). done. }
  rewrite K1, K2, K3, K4. done.
Qed.

Lemma pop_idle_facts d i d1 :
  pop_front_idle_msg d = (Some i, d1) ->
  i ∈ q_queue (d_msg_idle_q d) /\ q_queue (d_msg_idle_q d) = i :: q_queue (d_msg_idle_q d1) /\
  d_msg_wait_q d1 = d_msg_wait_q d /\ d_wake d1 = d_wake d /\ d_status d1 = d_status d /\
  forall j, j <> i -> mx d1 j = mx d j.
Proof.
  unfold pop_front_idle_msg. destruct (pq_pop (d_msg_idle_q d) _first) as [[j|] q] eqn:E;
    intros [= -> <-]. apply pq_pop_Some in E as [E _]. rewrite E.
  split; [apply list_elem_of_here|]. do 4 (split; [done|]). intros j Hne.
  rewrite mx_upd, decide_False by (intros [? ?]; done). done.
Qed.

(** Everything a successful send does, in one place. *)
Record sent (d : cmd_dispatcher) (msg : phl_msg) (attr : option phl_msg_attribute) (i : nat)
    (d' : cmd_dispatcher) : Prop := {
  st_idle : q_queue (d_msg_idle_q d) = i :: q_queue (d_msg_idle_q d');
  st_wait : q_queue (d_msg_wait_q d') =
    (if IS_DISPR_CTRL (MSG_MDL_ID_FIELD (msg_id msg))
     then insert_before (q_queue (d_msg_wait_q d)) (is_higher_priority d' i) i
     else q_queue (d_msg_wait_q d) ++ [i]);
  st_wake : d_wake d' = d_wake d + 1;
  st_msg : mx_msg (mx d' i) = msg;
  st_pre : mx_premap (mx d' i) = notify_map d attr (MSG_MDL_ID_FIELD (msg_id msg));
  st_post : mx_postmap (mx d' i) = notify_map d attr (MSG_MDL_ID_FIELD (msg_id msg));
  st_enq : mx_test d' i MSG_STATUS_ENQ = true;
  st_started : d_test d' DISPR_STARTED = true;
  st_others : forall j, j <> i -> mx d' j = mx d j }.

Lemma send_success_spec K d msg attr h hd d' :
  reach d -> dispr_send_msg K d msg attr (Some h) = (RTW_PHL_STATUS_SUCCESS, hd, d') ->
  exists i, (i < MAX_PHL_MSG_NUM)%nat /\ hd = Some (GEN_VALID_HDL (Z.of_nat i)) /\
    i ∉ q_queue (d_msg_wait_q d) /\ sent d msg attr i d'.
Proof.
  intros Hr Hs. destruct (reach_good d Hr) as ([Hm _] & _).
  destruct (send_success_inv _ _ _ _ _ _ _ Hs) as (i & d1 & cur & st & ab & Ep & Est & -> & Hhd).
  clear Hs. destruct (pop_idle_facts _ _ _ Ep) as (Hin & Hq & Hw & Hk & Hst & Hj).
  assert (i < MAX_PHL_MSG_NUM)%nat as Hlt by (apply (msg_ok_lt Hm); auto).
  pose proof (mo_len _ _ _ _ _ Hm) as Hlen.
  destruct (fill_spec d i d1 msg attr (MSG_MDL_ID_FIELD (msg_id msg)) cur st Ep ltac:(lia))
    as (m & b & Hf & F1 & F2 & F3 & F4).
  assert (length (d_msg_ex_pool d1) = MAX_PHL_MSG_NUM) as Hl1
    by (apply (mx_len [i]); by eapply msg_inv_pop_idle).
  rewrite Hf in *. set (d2 := at_ i (raise_ub b d1) (d_trace d1) m) in *.
  set (ctrl := IS_DISPR_CTRL (MSG_MDL_ID_FIELD (msg_id msg))) in *.
  assert (i < length (d_msg_ex_pool d2))%nat as Hi2 by (cbn; rewrite length_alter; lia).
  assert (mx d2 i = m) as Hm2 by (apply at_mx; cbn; lia).
  destruct (queue_msg_facts i d2 ab ctrl) as (Q1 & Q2 & Q3 & Q4); [done|].
  set (d' := queue_msg i d2 ab ctrl) in *.
  assert (forall j, mx d' j = if decide (i = j) then queue_elem ab (mx d2 j) else mx d2 j) as Hx
    by (intros j; by apply queue_msg_mx).
  assert (mx d' i = queue_elem ab m) as Hxi by (rewrite Hx, decide_True by done; by rewrite Hm2).
  assert (mx_idx (mx d' i) = Z.of_nat i) as Hidx.
  { rewrite Hxi. unfold queue_elem. transitivity (mx_idx m); [by destruct ab|]. rewrite F1. by apply Hm. }
  rewrite Hidx in Hhd. exists i. split; [done|]. split; [exact Hhd|]. split.
  { pose proof (pool_split_NoDup _ _ (mo_split _ _ _ _ _ Hm)) as Hnd. cbn in Hnd.
    apply NoDup_app in Hnd as (_ & Hnd & _). intros Hw'. apply (Hnd i Hin). rewrite elem_of_app. by left. }
  clearbody d'. split.
  - by rewrite Q1.
  - rewrite Q2. change (d_msg_wait_q d2) with (d_msg_wait_q d1). by rewrite Hw.
  - rewrite Q3. change (d_wake d2) with (d_wake d1). by rewrite Hk.
  - rewrite Hxi, <- F2. by destruct ab.
  - rewrite Hxi, <- F3. by destruct ab.
  - rewrite Hxi, <- F4. by destruct ab.
  - unfold mx_test. rewrite Hxi. unfold queue_elem.
    destruct ab; cbn [mx_status mx_clear_flag mx_set_flag set_mx_status]; flags; done.
  - rewrite Q4, <- Est. unfold d_test. change (d_status d2) with (d_status d1). by rewrite Hst.
  - intros j Hne. rewrite Hx, decide_False by done. rewrite <- Hj by done.
    unfold mx. cbn. by rewrite nth_alter, decide_False by done.
Qed.

(** C5: A message that is accepted takes the first idle descriptor, is stored
    unchanged, joins the waiting queue with one wake-up, leaves every other
    descriptor alone, and the handle returned cancels exactly that message. *)
Theorem send_accepted K d msg attr h hd d' :
  reach d -> dispr_send_msg K d msg attr (Some h) = (RTW_PHL_STATUS_SUCCESS, hd, d') ->
  exists i, hd = Some (GEN_VALID_HDL (Z.of_nat i)) /\
    q_queue (d_msg_idle_q d) = i :: q_queue (d_msg_idle_q d') /\
    q_queue (d_msg_wait_q d') ≡ₚ i :: q_queue (d_msg_wait_q d) /\
    d_wake d' = d_wake d + 1 /\
    mx_msg (mx d' i) = msg /\ mx_test d' i MSG_STATUS_ENQ = true /\
    (forall j, j <> i -> mx d' j = mx d j) /\
    dispr_cancel_msg d' hd = (RTW_PHL_STATUS_SUCCESS, Some 0, cancel_msg d' i).
Proof.
  intros Hr Hs. destruct (send_success_spec _ _ _ _ _ _ _ Hr Hs) as (i & Hlt & -> & _ & S).
  exists i. split; [done|]. split; [apply S|]. split.
  { rewrite (st_wait _ _ _ _ _ S). case_if; [apply insert_before_perm|].
    rewrite Permutation_app_comm. done. }
  do 4 (split; [apply S|]). unfold dispr_cancel_msg. rewrite (st_started _ _ _ _ _ S).
  destruct (handle_hdl (Z.of_nat i)) as [-> ->]; [unfold MAX_PHL_MSG_NUM in *; lia|]. cbn [negb orb].
  replace (Z.of_nat MAX_PHL_MSG_NUM <=? Z.of_nat i) with false by (symmetry; apply Z.leb_gt; lia).
  rewrite Nat2Z.id. cbn zeta. by rewrite (st_enq _ _ _ _ _ S).
Qed.

Lemma send_accepted_witness :
  let r := dispr_send_msg cbk with_modules (sample_msg 10 100) None (Some 0) in
  exists i, snd (fst r) = Some (GEN_VALID_HDL (Z.of_nat i)) /\
    q_queue (d_msg_idle_q with_modules) = i :: q_queue (d_msg_idle_q (snd r)).
Proof.
  intros r.
  destruct (send_accepted cbk with_modules (sample_msg 10 100) None 0 (snd (fst r)) (snd r))
    as (i & H1 & H2 & _).
  - apply with_modules_reach.
  - unfold r. vm_compute. reflexivity.
  - exists i. exact (conj H1 H2).
Defined.

(** ** The addressees *)

(** Whether module [id] is told about a message of module [mid]. *)
Definition addressee (d : cmd_dispatcher) (attr : option phl_msg_attribute) (mid id : Z) : bool :=
  let own := (id =? mid) && bit_in (d_bitmap d) mid in
  match attr with
  | None => bit_in (d_bitmap d) id
  | Some a =>
      let listed := existsb (Z.eqb id)
        (take (Z.to_nat (notify_len (attr_notify a))) (default [] (id_arr (attr_notify a)))) in
      let base := if z_true (Z.land (attr_opt a) MSG_OPT_SKIP_NOTIFY_OPT_MDL)
                  then bit_in (d_basemap d) id else bit_in (d_bitmap d) id in
      own || (if z_true (Z.land (attr_opt a) MSG_OPT_BLIST_PRESENT)
              then base && negb listed else base || listed)
  end.

Section addressees.
Context (d : cmd_dispatcher) (mid id : Z).
Context (Lb : length (d_bitmap d) = MODL_MASK_LEN) (Ls : length (d_basemap d) = MODL_MASK_LEN).
Context (Hmid : 0 <= mid < 128) (Hid : 0 <= id < 128).

Lemma obj_chk_bitmap_bit : z_true (obj_chk_bitmap d mid) = bit_in (d_bitmap d) mid.
Proof.
  unfold obj_chk_bitmap. rewrite chk_bitmap_bit_true. unfold bit_in. rewrite app_nth1; [done|].
  rewrite Lb. unfold MODL_MASK_LEN. lia.
Qed.

Lemma own_bit m :
  length m = MODL_MASK_LEN ->
  bit_in (if z_true (obj_chk_bitmap d mid) then _add_bitmap_bit m [mid] else m) id =
  bit_in m id || ((id =? mid) && bit_in (d_bitmap d) mid).
Proof.
  intros Lm. rewrite obj_chk_bitmap_bit. destruct (bit_in (d_bitmap d) mid).
  - rewrite bit_in_add_bitmap; [|apply Forall_singleton; rewrite Lm; unfold MODL_MASK_LEN; lia|lia].
    cbn. by rewrite orb_false_r, andb_true_r.
  - by rewrite andb_false_r, orb_false_r.
Qed.

Lemma notify_map_spec attr :
  match attr with
  | Some a => Forall (fun x => 0 <= x < 128)
      (take (Z.to_nat (notify_len (attr_notify a))) (default [] (id_arr (attr_notify a))))
  | None => True
  end ->
  bit_in (notify_map d attr mid) id = addressee d attr mid id.
Proof.
  assert (bit_in (d_bitmap d) id || (id =? mid) && bit_in (d_bitmap d) mid = bit_in (d_bitmap d) id) as Hown.
  { destruct (Z.eqb_spec id mid) as [->|]; [|by rewrite andb_false_l, orb_false_r].
    rewrite andb_true_l. apply orb_diag. }
  unfold notify_map, addressee. destruct attr as [a|]; [|intros _; by rewrite own_bit, Hown].
  set (ids := take _ _). intros Hids. set (own := if z_true (obj_chk_bitmap d mid) then _ else d_bitmap d).
  assert (length own = MODL_MASK_LEN /\ bit_in own id = bit_in (d_bitmap d) id) as [Lo Bo].
  { unfold own. rewrite own_bit by done. split; [|done]. case_match; [|done]. by rewrite add_bitmap_bit_length. }
  clearbody own. set (base := if z_true (Z.land _ MSG_OPT_SKIP_NOTIFY_OPT_MDL) then d_basemap d else own).
  assert (length base = MODL_MASK_LEN) as Lbase by (unfold base; by case_match).
  assert (bit_in base id = if z_true (Z.land (attr_opt a) MSG_OPT_SKIP_NOTIFY_OPT_MDL)
            then bit_in (d_basemap d) id else bit_in (d_bitmap d) id) as <- by (unfold base; by case_match).
  clearbody base. rewrite own_bit, orb_comm;
    [|case_match; by rewrite ?clr_bitmap_bit_length, ?add_bitmap_bit_length].
  f_equal. case_match.
  - rewrite bit_in_clr_bitmap; [done|eapply Forall_impl; [exact Hids|cbn; lia]|lia].
  - rewrite bit_in_add_bitmap; [done|rewrite Lbase; unfold MODL_MASK_LEN; eapply Forall_impl; [exact Hids|cbn; lia]|lia].
Qed.
End addressees.

(** For module identifiers below 128 the pre- and post-phase bitmaps of an
    accepted message are exactly the addressees of the specification: the
    registered modules, or the mandatory ones if optional ones are skipped,
    without the black-listed or with the listed ones, plus the sender if
    registered. *)
Theorem send_addressees K d msg attr h hd d' id :
  reach d -> dispr_send_msg K d msg attr (Some h) = (RTW_PHL_STATUS_SUCCESS, hd, d') ->
  length (d_bitmap d) = MODL_MASK_LEN -> length (d_basemap d) = MODL_MASK_LEN ->
  0 <= MSG_MDL_ID_FIELD (msg_id msg) < 128 -> 0 <= id < 128 ->
  match attr with
  | Some a => Forall (fun x => 0 <= x < 128)
      (take (Z.to_nat (notify_len (attr_notify a))) (default [] (id_arr (attr_notify a))))
  | None => True
  end ->
  exists i, hd = Some (GEN_VALID_HDL (Z.of_nat i)) /\
    bit_in (mx_premap (mx d' i)) id = addressee d attr (MSG_MDL_ID_FIELD (msg_id msg)) id /\
    bit_in (mx_postmap (mx d' i)) id = addressee d attr (MSG_MDL_ID_FIELD (msg_id msg)) id.
Proof.
  intros Hr Hs Lb Ls Hmid Hid Hids.
  destruct (send_success_spec _ _ _ _ _ _ _ Hr Hs) as (i & _ & -> & _ & S). exists i.
  rewrite (st_pre _ _ _ _ _ S), (st_post _ _ _ _ _ S). split; [done|].
  split; by apply notify_map_spec.
Qed.

(** Optional modules skipped, modules 41 and 72 listed. *)
Definition sample_attr : phl_msg_attribute :=
  mkAttr MSG_OPT_SKIP_NOTIFY_OPT_MDL (mkNotify (Some [41; 72]) 2) (mkCompletion false 0).

Lemma send_addressees_witness :
  let r := dispr_send_msg cbk with_modules (sample_msg 10 100) (Some sample_attr) (Some 0) in
  exists i, bit_in (mx_premap (mx (snd r) i)) 72 = true /\
    addressee with_modules (Some sample_attr) 10 71 = false.
Proof.
  intros r.
  destruct (send_addressees cbk with_modules (sample_msg 10 100) (Some sample_attr) 0 (snd (fst r))
              (snd r) 72) as (i & _ & H & _).
  - apply with_modules_reach.
  - unfold r. vm_compute. reflexivity.
  - vm_compute. reflexivity.
  - vm_compute. reflexivity.
  - vm_compute. split; congruence.
  - lia.
  - vm_compute. repeat constructor; congruence.
  - exists i. split; [|vm_compute; reflexivity]. rewrite H. vm_compute. reflexivity.
Defined.

(** ** Order of the waiting messages *)

Definition from_ctrl (d : cmd_dispatcher) (i : nat) : bool := IS_DISPR_CTRL (MSG_MDL_ID_FIELD (mxid d i)).

Lemma insert_before_ctrl (f : nat -> bool) l1 l2 x :
  Forall (fun j => f j = true) l1 -> Forall (fun j => f j = false) l2 ->
  insert_before (l1 ++ l2) (fun j => negb (f j)) x = l1 ++ x :: l2.
Proof.
  intros H1 H2. induction H1 as [|y l1 Hy _ IH]; cbn; [|by rewrite Hy, IH].
  destruct H2 as [|y l2 Hy _]; [done|]. cbn. by rewrite Hy.
Qed.

(** When the waiting queue holds the controller's messages before all
    others, an accepted message of the controller is put after the
    controller's earlier ones and before the rest, any other message is put
    last, and the order of the others is kept. *)
Theorem send_order K d msg attr h hd d' l1 l2 :
  reach d -> dispr_send_msg K d msg attr (Some h) = (RTW_PHL_STATUS_SUCCESS, hd, d') ->
  q_queue (d_msg_wait_q d) = l1 ++ l2 ->
  Forall (fun j => from_ctrl d j = true) l1 -> Forall (fun j => from_ctrl d j = false) l2 ->
  exists i, hd = Some (GEN_VALID_HDL (Z.of_nat i)) /\
    from_ctrl d' i = IS_DISPR_CTRL (MSG_MDL_ID_FIELD (msg_id msg)) /\
    (forall j, j ∈ l1 ++ l2 -> from_ctrl d' j = from_ctrl d j) /\
    q_queue (d_msg_wait_q d') = if from_ctrl d' i then l1 ++ i :: l2 else l1 ++ l2 ++ [i].
Proof.
  intros Hr Hs Hq H1 H2. destruct (send_success_spec _ _ _ _ _ _ _ Hr Hs) as (i & _ & -> & Hni & S).
  exists i. split; [done|].
  assert (from_ctrl d' i = IS_DISPR_CTRL (MSG_MDL_ID_FIELD (msg_id msg))) as Hi
    by (unfold from_ctrl, mxid; by rewrite (st_msg _ _ _ _ _ S)).
  split; [done|]. rewrite Hq in Hni.
  assert (forall j, j ∈ l1 ++ l2 -> from_ctrl d' j = from_ctrl d j) as Hj.
  { intros j Hin. unfold from_ctrl, mxid. rewrite (st_others _ _ _ _ _ S); [done|]. by intros ->. }
  split; [done|]. rewrite (st_wait _ _ _ _ _ S), Hq, <- Hi.
  destruct (from_ctrl d' i) eqn:E; [|by rewrite app_assoc].
  rewrite <- (insert_before_ctrl (from_ctrl d') l1 l2 i).
  - unfold is_higher_priority. fold (from_ctrl d' i). by rewrite E.
  - rewrite Forall_forall in H1 |- *. intros j Hl. rewrite Hj; [by apply H1|]. rewrite elem_of_app. by left.
  - rewrite Forall_forall in H2 |- *. intros j Hl. rewrite Hj; [by apply H2|]. rewrite elem_of_app. by right.
Qed.

(** A message of the controller overtakes the one of module 10. *)
Lemma send_order_witness :
  let r := dispr_send_msg cbk with_msg (sample_msg 0 7) None (Some 0) in
  from_ctrl with_msg 0 = false /\
  exists i, snd (fst r) = Some (GEN_VALID_HDL (Z.of_nat i)) /\
    q_queue (d_msg_wait_q (snd r)) = (if from_ctrl (snd r) i then [i; 0%nat] else [0%nat; i]).
Proof.
  intros r. split; [vm_compute; reflexivity|].
  destruct (send_order cbk with_msg (sample_msg 0 7) None 0 (snd (fst r)) (snd r) [] [0%nat])
    as (i & H1 & _ & _ & H2).
  - apply with_msg_reach.
  - unfold r. vm_compute. reflexivity.
  - vm_compute. reflexivity.
  - constructor.
  - repeat constructor.
  - exists i. exact (conj H1 H2).
Defined.
