(* ===== verification/DispEngine.v ===== *)
(** * The dispatch engine (src/phl/phl_cmd_dispatch_engine.c)

    One dispatcher per hardware band, driven by one thread and one counting
    semaphore ([CONFIG_CMD_DISP_SOLO_MODE] is not set, so [thread_mode] is
    [SHARE_THREAD_MODE]).  [NULL] dispatchers are [None]; an access through one,
    or outside the array, raises [eng_ub].

    [notify_bk_thread] of every dispatcher ups the shared semaphore: the
    signals a call gave, counted in [d_wake] from zero, are added to
    [eng_sema].  What [_os_thread_check_stop] returns during a turn of the
    thread is an argument. *)

From S2P Require Import Prelude PhlQueue PhlDef DispState DispApi DispThread DispModule.

Definition HW_BAND_MAX : Z := 2.

Inductive share_thread_state := ThreadNone | ThreadRunning | ThreadDone.

Record phl_cmd_dispatch_engine := mkEng {
  eng_phy_num : Z;
  eng_dispatcher : option (list (option cmd_dispatcher));
  eng_sema : Z;
  eng_thread : share_thread_state;
  eng_ub : bool }.

Definition set_eng_phy_num v (e : phl_cmd_dispatch_engine) :=
  mkEng v (eng_dispatcher e) (eng_sema e) (eng_thread e) (eng_ub e).
Definition set_eng_dispatcher v (e : phl_cmd_dispatch_engine) :=
  mkEng (eng_phy_num e) v (eng_sema e) (eng_thread e) (eng_ub e).
Definition set_eng_sema v (e : phl_cmd_dispatch_engine) :=
  mkEng (eng_phy_num e) (eng_dispatcher e) v (eng_thread e) (eng_ub e).
Definition set_eng_thread v (e : phl_cmd_dispatch_engine) :=
  mkEng (eng_phy_num e) (eng_dispatcher e) (eng_sema e) v (eng_ub e).
Definition raise_eng_ub (e : phl_cmd_dispatch_engine) :=
  mkEng (eng_phy_num e) (eng_dispatcher e) (eng_sema e) (eng_thread e) true.

(** The zeroed part of [struct phl_info_t]. *)
Definition zero_eng : phl_cmd_dispatch_engine := mkEng 0 None 0 ThreadNone false.

(** ** Calling a dispatcher *)

Definition eng_dispr (e : phl_cmd_dispatch_engine) (i : nat) : option cmd_dispatcher :=
  l ← eng_dispatcher e; o ← l !! i; o.

Definition put_dispr (i : nat) (o : option cmd_dispatcher) (e : phl_cmd_dispatch_engine) :=
  set_eng_dispatcher ((fun l => <[i := o]> l) <$> eng_dispatcher e) e.

(** [f(disp_eng->dispatcher[i])] *)
Definition call_dispr {A} (dflt : A) (i : nat) (f : cmd_dispatcher -> A * cmd_dispatcher)
    (e : phl_cmd_dispatch_engine) : A * phl_cmd_dispatch_engine :=
  match eng_dispr e i with
  | Some d =>
      let '(r, d) := f (set_d_wake 0 d) in
      (r, set_eng_sema (eng_sema e + d_wake d) (put_dispr i (Some d) e))
  | None => (dflt, raise_eng_ub e)
  end.

Definition run_dispr (i : nat) (f : cmd_dispatcher -> cmd_dispatcher)
    (e : phl_cmd_dispatch_engine) : phl_cmd_dispatch_engine :=
  snd (call_dispr () i (fun d => ((), f d)) e).

(** The [for] loops over the dispatchers; [skip_null] for those that
    [continue] on a [NULL] one. *)
Definition each_dispr (skip_null : bool) (f : cmd_dispatcher -> cmd_dispatcher)
    (e : phl_cmd_dispatch_engine) : phl_cmd_dispatch_engine :=
  foldl (fun e i => if skip_null && bool_decide (eng_dispr e i = None) then e else run_dispr i f e)
    e (seq 0 (Z.to_nat (eng_phy_num e))).

(** ** Life cycle *)

Definition phl_disp_eng_bk_module_deinit (e : phl_cmd_dispatch_engine) :
    rtw_phl_status * phl_cmd_dispatch_engine :=
  (RTW_PHL_STATUS_SUCCESS, each_dispr true (fun d => snd (dispr_module_deinit d)) e).

(** [dispr_deinit] frees the object, and the slot is cleared. *)
Definition phl_disp_eng_deinit (e : phl_cmd_dispatch_engine) :
    rtw_phl_status * phl_cmd_dispatch_engine :=
  match eng_dispatcher e with
  | None => (RTW_PHL_STATUS_FAILURE, e)
  | Some _ =>
      let e := snd (phl_disp_eng_bk_module_deinit e) in
      let e := foldl (fun e i =>
                 if bool_decide (eng_dispr e i = None) then e
                 else put_dispr i None
                        (run_dispr i (fun d => default d (snd (dispr_deinit d))) e))
                 e (seq 0 (Z.to_nat (eng_phy_num e))) in
      let e := if z_true (eng_phy_num e)
               then set_eng_phy_num 0 (set_eng_dispatcher None e) else e in
      (RTW_PHL_STATUS_SUCCESS, e)
  end.

(** The [for] loop of [phl_disp_eng_init] from index [i], [n] dispatchers to
    go: the slots and the status it ends with.  [inits] gives the environment of
    each dispatcher and whether it could be allocated. *)
Fixpoint init_dispatchers (inits : nat -> list cb_resp * bool) (i n : nat) :
    list (option cmd_dispatcher) * rtw_phl_status :=
  match n with
  | O => ([], RTW_PHL_STATUS_SUCCESS)
  | S n =>
      let '(status, o) := dispr_init (fst (inits i)) (Z.of_nat i) (snd (inits i)) in
      if bool_decide (status = RTW_PHL_STATUS_SUCCESS) then
        let '(l, status) := init_dispatchers inits (S i) n in (o :: l, status)
      else (o :: replicate n None, status)
  end.

Definition phl_disp_eng_init (inits : nat -> list cb_resp * bool) (alloc_ok : bool)
    (e : phl_cmd_dispatch_engine) (phy_num : Z) : rtw_phl_status * phl_cmd_dispatch_engine :=
  match eng_dispatcher e with
  | Some _ => (RTW_PHL_STATUS_FAILURE, e)
  | None =>
      if negb alloc_ok then (RTW_PHL_STATUS_RESOURCE, set_eng_phy_num 0 e)
      else
        let '(l, status) := init_dispatchers inits 0 (Z.to_nat phy_num) in
        let e := set_eng_dispatcher (Some l) (set_eng_phy_num phy_num e) in
        let e := if bool_decide (status = RTW_PHL_STATUS_SUCCESS) then e
                 else snd (phl_disp_eng_deinit e) in
        (RTW_PHL_STATUS_SUCCESS, e)
  end.

Definition phl_disp_eng_start (e : phl_cmd_dispatch_engine) :
    rtw_phl_status * phl_cmd_dispatch_engine :=
  let e := set_eng_sema 0 e in
  let e := set_eng_thread ThreadRunning e in
  (RTW_PHL_STATUS_SUCCESS,
   each_dispr true (fun d => snd (dispr_module_start (snd (dispr_start d)))) e).

(** ** The thread *)

(** One turn of [share_thread_hdl] after its [_os_sema_down]; [checks] are the
    answers of [_os_thread_check_stop] inside the [for] loop. *)
Fixpoint turn_loop (idxs : list nat) (checks : list bool) (e : phl_cmd_dispatch_engine) :
    phl_cmd_dispatch_engine :=
  match idxs with
  | [] => e
  | i :: idxs =>
      if default false (head checks) then e
      else turn_loop idxs (tail checks) (run_dispr i dispr_thread_loop_hdl e)
  end.

Definition share_thread_turn (checks : list bool) (e : phl_cmd_dispatch_engine) :
    phl_cmd_dispatch_engine :=
  turn_loop (seq 0 (Z.to_nat (eng_phy_num e))) checks (set_eng_sema (eng_sema e - 1) e).

(** The end of [share_thread_hdl]; [None] if a leave handler is still looping
    after [fuel] turns. *)
Fixpoint leave_loop (fuel : nat) (idxs : list nat) (e : phl_cmd_dispatch_engine) :
    option phl_cmd_dispatch_engine :=
  match idxs with
  | [] => Some (set_eng_thread ThreadDone e)
  | i :: idxs =>
      match eng_dispr e i with
      | Some d =>
          d ← dispr_thread_leave_hdl fuel (set_d_wake 0 d);
          leave_loop fuel idxs (set_eng_sema (eng_sema e + d_wake d) (put_dispr i (Some d) e))
      | None => leave_loop fuel idxs (raise_eng_ub e)
      end
  end.

Definition share_thread_leave (fuel : nat) (e : phl_cmd_dispatch_engine) :
    option phl_cmd_dispatch_engine :=
  leave_loop fuel (seq 0 (Z.to_nat (eng_phy_num e))) e.

(** [_os_thread_deinit] waits for the end of the thread, which the semaphore
    was raised for. *)
Definition phl_disp_eng_stop (fuel : nat) (e : phl_cmd_dispatch_engine) :
    option (rtw_phl_status * phl_cmd_dispatch_engine) :=
  match eng_dispatcher e with
  | None => Some (RTW_PHL_STATUS_SUCCESS, e)
  | Some _ =>
      let e := each_dispr true
                 (fun d => dispr_thread_stop_prior_hdl (snd (dispr_module_stop d))) e in
      let e := set_eng_sema (eng_sema e + 1) e in
      e ← share_thread_leave fuel e;
      let e := each_dispr false dispr_thread_stop_post_hdl e in
      Some (RTW_PHL_STATUS_SUCCESS, e)
  end.

(** ** Calls for one band *)

Definition _disp_eng_get_dispr_by_idx (e : phl_cmd_dispatch_engine) (band_idx : Z) :
    rtw_phl_status * nat :=
  if eng_phy_num e - 1 <? band_idx then (RTW_PHL_STATUS_INVALID_PARAM, O)
  else (RTW_PHL_STATUS_SUCCESS, Z.to_nat band_idx).

(** Look up the dispatcher of the band, return the status if there is none. *)
Definition with_band {A} (e : phl_cmd_dispatch_engine) (band_idx : Z) (x : A)
    (f : cmd_dispatcher -> (rtw_phl_status * A) * cmd_dispatcher) :
    (rtw_phl_status * A) * phl_cmd_dispatch_engine :=
  match _disp_eng_get_dispr_by_idx e band_idx with
  | (RTW_PHL_STATUS_SUCCESS, i) => call_dispr (RTW_PHL_STATUS_FAILURE, x) i f e
  | (status, _) => ((status, x), e)
  end.

Definition with_band_sts (e : phl_cmd_dispatch_engine) (band_idx : Z)
    (f : cmd_dispatcher -> rtw_phl_status * cmd_dispatcher) :
    rtw_phl_status * phl_cmd_dispatch_engine :=
  let '((status, _), e) :=
    with_band e band_idx () (fun d => let '(r, d) := f d in ((r, ()), d)) in (status, e).

Definition phl_disp_eng_register_module (e : phl_cmd_dispatch_engine) (band_idx id : Z)
    (ops : option phl_bk_module_ops) (alloc_ok : bool) : rtw_phl_status * phl_cmd_dispatch_engine :=
  if eng_phy_num e <? band_idx + 1 then (RTW_PHL_STATUS_INVALID_PARAM, e)
  else call_dispr RTW_PHL_STATUS_FAILURE (Z.to_nat band_idx)
         (fun d => dispr_register_module d id ops alloc_ok) e.

Definition phl_disp_eng_deregister_module (e : phl_cmd_dispatch_engine) (band_idx id : Z) :
    rtw_phl_status * phl_cmd_dispatch_engine :=
  if eng_phy_num e <? band_idx + 1 then (RTW_PHL_STATUS_INVALID_PARAM, e)
  else call_dispr RTW_PHL_STATUS_FAILURE (Z.to_nat band_idx)
         (fun d => dispr_deregister_module d id) e.

Definition phl_disp_eng_is_dispr_busy (e : phl_cmd_dispatch_engine) (band_idx : Z) :
    bool * phl_cmd_dispatch_engine :=
  let '(status, e) := with_band_sts e band_idx (fun d => (fst (dispr_get_cur_cmd_req d), d)) in
  (bool_decide (status = RTW_PHL_STATUS_SUCCESS), e).

Definition phl_disp_eng_set_cur_cmd_info (e : phl_cmd_dispatch_engine) (band_idx : Z) :=
  with_band_sts e band_idx dispr_set_cur_cmd_info.
Definition phl_disp_eng_query_cur_cmd_info (e : phl_cmd_dispatch_engine) (band_idx : Z) :=
  with_band_sts e band_idx dispr_query_cur_cmd_info.

Definition bk_module_info (f : cmd_dispatcher -> nat -> rtw_phl_status * cmd_dispatcher) (id : Z)
    (d : cmd_dispatcher) : rtw_phl_status * cmd_dispatcher :=
  match dispr_get_bk_module_handle d id with
  | (RTW_PHL_STATUS_SUCCESS, Some h, d) => f d h
  | (status, _, d) => (status, d)
  end.

Definition phl_disp_eng_set_bk_module_info (e : phl_cmd_dispatch_engine) (band_idx id : Z) :=
  with_band_sts e band_idx (bk_module_info dispr_set_bk_module_info id).
Definition phl_disp_eng_query_bk_module_info (e : phl_cmd_dispatch_engine) (band_idx id : Z) :=
  with_band_sts e band_idx (bk_module_info dispr_query_bk_module_info id).

(** [msg] is the message of descriptor [i] of that band. *)
Definition phl_disp_eng_set_src_info (e : phl_cmd_dispatch_engine) (band_idx : Z) (i : nat) :=
  with_band_sts e band_idx (fun d => dispr_set_src_info d i).
Definition phl_disp_eng_query_src_info (e : phl_cmd_dispatch_engine) (band_idx : Z) (i : nat) :=
  with_band_sts e band_idx (fun d => dispr_query_src_info d i).

Definition phl_disp_eng_send_msg (e : phl_cmd_dispatch_engine) (msg : phl_msg)
    (attr : option phl_msg_attribute) (msg_hdl : option Z) :
    (rtw_phl_status * option Z) * phl_cmd_dispatch_engine :=
  with_band e (band_idx msg) msg_hdl (fun d => dispr_send_msg cbk d msg attr msg_hdl).

Definition phl_disp_eng_cancel_msg (e : phl_cmd_dispatch_engine) (band_idx : Z)
    (msg_hdl : option Z) : (rtw_phl_status * option Z) * phl_cmd_dispatch_engine :=
  with_band e band_idx msg_hdl (fun d => dispr_cancel_msg d msg_hdl).

Definition phl_disp_eng_clr_pending_msg (e : phl_cmd_dispatch_engine) (band_idx : Z) :=
  with_band_sts e band_idx (fun d => (RTW_PHL_STATUS_SUCCESS, dispr_clr_pending_msg d)).

Definition phl_disp_eng_add_token_req (e : phl_cmd_dispatch_engine) (band_idx : Z)
    (req : option phl_cmd_token_req) (req_hdl : option Z) :
    (rtw_phl_status * option Z) * phl_cmd_dispatch_engine :=
  with_band e band_idx req_hdl (fun d => dispr_add_token_req d req req_hdl).

Definition phl_disp_eng_cancel_token_req (e : phl_cmd_dispatch_engine) (band_idx : Z)
    (req_hdl : option Z) :=
  with_band_sts e band_idx (fun d => dispr_cancel_token_req d req_hdl).

Definition phl_disp_eng_free_token (e : phl_cmd_dispatch_engine) (band_idx : Z)
    (req_hdl : option Z) :=
  with_band_sts e band_idx (fun d => dispr_free_token d req_hdl).

(** ** Calls for all bands *)

(** [band_idx] is overwritten with [HW_BAND_MAX]. *)
Definition phl_disp_eng_notify_dev_io_status (e : phl_cmd_dispatch_engine) (mdl_id : Z)
    (allow_io : bool) : rtw_phl_status * phl_cmd_dispatch_engine :=
  (RTW_PHL_STATUS_SUCCESS,
   each_dispr false
     (fun d => snd (dispr_notify_dev_io_status (fun _ d => d) d mdl_id allow_io)) e).

Definition phl_disp_eng_notify_shall_stop (e : phl_cmd_dispatch_engine) : phl_cmd_dispatch_engine :=
  each_dispr false (fun d => if is_dispr_started d then dispr_notify_shall_stop d else d) e.

(** No check of [band_idx]. *)
Definition phl_disp_eng_is_fg_empty (e : phl_cmd_dispatch_engine) (band_idx : Z) :
    bool * phl_cmd_dispatch_engine :=
  let at_band (i : nat) e := call_dispr false i (fun d => (dispr_is_fg_empty d, d)) e in
  if negb (band_idx =? HW_BAND_MAX) then at_band (Z.to_nat band_idx) e
  else foldl (fun '(r, e) i => if r : bool then at_band i e else (r, e))
         (true, e) (seq 0 (Z.to_nat (eng_phy_num e))).
