(* ===== verification/DispEngineInv.v ===== *)
(** * Invariant of the dispatch engine

    The shared semaphore counts at least the work of every single dispatcher,
    so the thread never sleeps while one of them has something to do, although
    each signal gives a turn to all of them. *)

From S2P Require Import Prelude PhlQueue PhlDef DispState DispApi DispThread DispModule DispInv DispApiInv DispThreadInv DispFuel DispLeave DispReach DispEngine.

(** ** Signals are never taken back *)

Definition wake_ge (n : Z) (d : cmd_dispatcher) : Prop := n <= d_wake d.

Lemma wake_ge_mono n d d' : d_wake d <= d_wake d' -> wake_ge n d -> wake_ge n d'.
Proof. unfold wake_ge. lia. Qed.

Lemma wake_ge_enqueue n d r ty x :
  wake_ge n d -> wake_ge n (snd (dispr_enqueue_token_op_info d r ty x)).
Proof.
  unfold dispr_enqueue_token_op_info, push_back_token_op_info. case_if; [done|].
  apply wake_ge_mono. destruct r; cbn; lia.
Qed.

Lemma wake_ge_push_wait n d i : wake_ge n d -> wake_ge n (push_back_wait_msg d i).
Proof. apply wake_ge_mono. cbn. lia. Qed.

Lemma wake_ge_insert n d i : wake_ge n d -> wake_ge n (insert_msg_by_priority d i).
Proof. apply wake_ge_mono. cbn. lia. Qed.

Lemma wake_ge_clr_pending n d : wake_ge n d -> wake_ge n (dispr_clr_pending_msg d).
Proof. apply wake_ge_mono. cbn. lia. Qed.

Lemma wake_ge_blind n : msg_blind (wake_ge n).
Proof.
  split; try done; [|apply wake_ge_push_wait|apply wake_ge_insert].
  intros d H. by apply wake_ge_enqueue.
Qed.

Lemma wake_ge_cancel_api n d hdl : wake_ge n d -> wake_ge n (snd (dispr_cancel_msg d hdl)).
Proof.
  intros H. unfold dispr_cancel_msg. destruct hdl as [hd|]; [|exact H]. by repeat (case_if; [exact H|]).
Qed.

Lemma wake_ge_add_req n d req hdl : wake_ge n d -> wake_ge n (snd (dispr_add_token_req d req hdl)).
Proof.
  intros H. unfold dispr_add_token_req. destruct req as [r|], hdl as [hd|]; try exact H.
  case_if; [exact H|]. case_if; [exact H|]. destruct (pop_front_idle_req d) as [o d1] eqn:Ep.
  assert (wake_ge n d1) as H1.
  { revert Ep. unfold pop_front_idle_req.
    destruct (pq_pop (d_token_req_idle_q d) _first) as [[k|] q]; by intros [= <- <-]. }
  clear Ep. destruct o as [k|]; [|exact H1]. cbn [snd]. by apply wake_ge_enqueue.
Qed.

Lemma wake_ge_cancel_req n d hdl : wake_ge n d -> wake_ge n (snd (dispr_cancel_token_req d hdl)).
Proof.
  intros H. unfold dispr_cancel_token_req. destruct hdl as [hd|]; [|exact H].
  do 3 (case_if; [exact H|]).
  match goal with |- context [dispr_enqueue_token_op_info ?d' ?r ?t ?x] =>
    pose proof (wake_ge_enqueue n d' r t x H) as H1;
    destruct (dispr_enqueue_token_op_info d' r t x) as [[] d1] end; exact H1.
Qed.

Lemma wake_ge_free n d hdl : wake_ge n d -> wake_ge n (snd (dispr_free_token d hdl)).
Proof.
  intros H. unfold dispr_free_token. destruct hdl as [hd|]; [|exact H].
  do 3 (case_if; [exact H|]).
  match goal with |- context [dispr_enqueue_token_op_info ?d' ?r ?t ?x] =>
    pose proof (wake_ge_enqueue n d' r t x H) as H1;
    destruct (dispr_enqueue_token_op_info d' r t x) as [[] d1] end; exact H1.
Qed.

#[export] Instance wake_ge_api : ApiInv wake_ge.
Proof.
  split; try done; [|apply wake_ge_cancel_api|apply wake_ge_clr_pending|apply wake_ge_add_req
         |apply wake_ge_cancel_req|apply wake_ge_free| |].
  - intros K n d msg attr hdl HK. apply (blind_send _ (wake_ge_blind n)). auto.
  - intros n d m b. apply notify_dev_io_ind; try done; [|apply wake_ge_clr_pending].
    intros. by apply (blind_send _ (wake_ge_blind n)).
  - intros n d H. unfold dispr_notify_shall_stop. case_if; [by apply wake_ge_clr_pending|done].
Qed.

#[export] Instance wake_ge_call : CallInv wake_ge.
Proof. split; [apply _|done]. Qed.

Lemma wake_ge_mdl n : mdl_stable (wake_ge n).
Proof. split; try done. intros. by apply (callback_inv wake_ge). Qed.

Lemma wake_ge_clear_pending n d : wake_ge n d -> wake_ge n (clear_pending_msg d).
Proof.
  intros H. unfold clear_pending_msg. case_if; [done|].
  apply clear_loop_ind; [done|apply wake_ge_push_wait|apply wake_ge_insert|done].
Qed.

Lemma wake_ge_thread n : thread_stable (wake_ge n).
Proof.
  split; try done.
  - intros. by apply (callback_inv wake_ge).
  - intros. apply (blind_send _ (wake_ge_blind n)); [intros; by apply (cbk_inv wake_ge)|done].
  - intros mid d i H. unfold cancel_req_msg. repeat case_if; try done.
    by apply wake_ge_clear_pending, wake_ge_clr_pending.
Qed.

Lemma wake_ge_process n d : wake_ge n d -> wake_ge n (snd (process_token_req d)).
Proof.
  apply stable_process; [apply wake_ge_thread|]. intros k d1 d2. unfold pop_front_wait_req.
  destruct (pq_pop (d_token_req_wait_q d1) _first) as [[j|] q]; by intros [= <- <-].
Qed.

Lemma wake_ge_handle n d r : wake_ge n d -> wake_ge n (_handle_token_op_info d r).
Proof.
  intros H. unfold _handle_token_op_info.
  destruct (op_type (op_info_of d r)); [done|by apply wake_ge_process| | |by apply wake_ge_process].
  - repeat (case_if; [done|]). by apply wake_ge_process, (stable_dereg _ (wake_ge_thread n)).
  - case_if; [done|]. case_if.
    + apply (stable_push_idle_req _ (wake_ge_thread n)). by apply (callback_inv wake_ge).
    + case_if; [|done]. by apply wake_ge_process, (stable_dereg _ (wake_ge_thread n)).
Qed.

Lemma wake_ge_token_ops n fuel : forall d, wake_ge n d -> wake_ge n (token_op_hanler fuel d).
Proof.
  induction fuel as [|fuel IH]; intros d H; [done|]. cbn [token_op_hanler].
  unfold pop_front_token_op_info. destruct (pq_pop (d_token_op_q d) _first) as [[r|] q]; [|done].
  apply IH. assert (wake_ge n (_handle_token_op_info (set_d_token_op_q q d) r)) as H1
    by (by apply wake_ge_handle).
  set (d1 := _handle_token_op_info _ r) in *. clearbody d1. by destruct r.
Qed.

Lemma wake_ge_loop n d : wake_ge n d -> wake_ge n (dispr_thread_loop_hdl d).
Proof.
  intros H. unfold dispr_thread_loop_hdl. apply wake_ge_clear_pending in H.
  set (d1 := clear_pending_msg d) in *. clearbody d1. apply (wake_ge_token_ops n (op_fuel d1)) in H.
  set (d2 := token_op_hanler _ d1) in *. clearbody d2.
  unfold pop_front_wait_msg. destruct (pq_pop (d_msg_wait_q d2) _first) as [[i|] q]; [|done].
  match goal with |- context [is_msg_canceled ?x i] => set (d3 := x) end.
  assert (wake_ge n d3) as H3 by done. clearbody d3.
  pose proof (is_msg_canceled_ind (wake_ge n) d3 i ltac:(done) H3) as H4.
  destruct (is_msg_canceled d3 i) as [[] d4]; cbn [snd] in H4.
  - apply (blind_push_back_idle _ (wake_ge_blind n)); [intros; by apply (cbk_inv wake_ge)|done].
  - apply (blind_dispatch wake_ge); [apply wake_ge_blind|done|done].
Qed.

(** ** Functions that keep a dispatcher in order *)

(** What the engine needs of a function it runs on a dispatcher. *)
Record keeps (f : cmd_dispatcher -> cmd_dispatcher) : Prop := {
  kp_settled : forall d, settled [] d -> settled [] (f d);
  kp_wake : forall n d, wake_inv (n, 0) d -> wake_inv (n, 0) (f d);
  kp_opq : forall d, opq_wf () d -> opq_wf () (f d);
  kp_ge : forall n d, wake_ge n d -> wake_ge n (f d) }.

(** Every invariant of the dispatcher API is kept. *)
Definition uniform (f : cmd_dispatcher -> cmd_dispatcher) : Prop :=
  forall X (I : X -> cmd_dispatcher -> Prop), CallInv I -> forall x d, I x d -> I x (f d).

Lemma uniform_keeps f : uniform f -> keeps f.
Proof.
  intros Hf. split.
  - intros d [H [c Hq]]. split; [by apply (Hf _ msg_inv _)|]. exists c. by apply (Hf _ req_inv _).
  - intros n d. by apply (Hf _ wake_inv _).
  - intros d. by apply (Hf _ opq_wf _).
  - intros n d. by apply (Hf _ wake_ge _).
Qed.

Lemma mdl_keeps f : (forall P, mdl_stable P -> forall d, P d -> P (f d)) -> keeps f.
Proof.
  intros Hf. split.
  - apply Hf, settled_stable.
  - intros n. apply Hf, wake_mdl_stable.
  - apply Hf. split; try done. intros. by apply (callback_inv opq_wf).
  - intros n. apply Hf, wake_ge_mdl.
Qed.

Lemma keeps_id : keeps (fun d => d).
Proof. by split. Qed.

Lemma keeps_comp f g : keeps f -> keeps g -> keeps (fun d => g (f d)).
Proof. intros [? ? ? ?] [? ? ? ?]. split; auto. Qed.

Create HintDb keeps.

Section api_keeps.
Context (msg : phl_msg) (attr : option phl_msg_attribute) (hdl : option Z).

Lemma keeps_send : keeps (fun d => snd (dispr_send_msg cbk d msg attr hdl)).
Proof.
  apply uniform_keeps. intros X I HI x d H. apply api_send; [|done]. intros. by apply (cbk_inv I).
Qed.
Lemma keeps_cancel_msg : keeps (fun d => snd (dispr_cancel_msg d hdl)).
Proof. apply uniform_keeps. intros X I HI x d. apply api_cancel_msg. Qed.
Lemma keeps_clr_pending : keeps dispr_clr_pending_msg.
Proof. apply uniform_keeps. intros X I HI x d. apply api_clr_pending. Qed.
Lemma keeps_add_req req : keeps (fun d => snd (dispr_add_token_req d req hdl)).
Proof. apply uniform_keeps. intros X I HI x d. apply api_add_req. Qed.
Lemma keeps_cancel_req : keeps (fun d => snd (dispr_cancel_token_req d hdl)).
Proof. apply uniform_keeps. intros X I HI x d. apply api_cancel_req. Qed.
Lemma keeps_free : keeps (fun d => snd (dispr_free_token d hdl)).
Proof. apply uniform_keeps. intros X I HI x d. apply api_free. Qed.
Lemma keeps_io m b : keeps (fun d => snd (dispr_notify_dev_io_status (fun _ d => d) d m b)).
Proof. apply uniform_keeps. intros X I HI x d. apply api_io. Qed.
Lemma keeps_shall_stop : keeps (fun d => if is_dispr_started d then dispr_notify_shall_stop d else d).
Proof. apply uniform_keeps. intros X I HI x d H. case_if; [by apply api_stop|done]. Qed.
Lemma keeps_register id ops ok : keeps (fun d => snd (dispr_register_module d id ops ok)).
Proof. apply mdl_keeps. intros P HP d. by apply mdl_register. Qed.
Lemma keeps_deregister id : keeps (fun d => snd (dispr_deregister_module d id)).
Proof. apply mdl_keeps. intros P HP d. by apply mdl_deregister. Qed.
End api_keeps.

#[export] Hint Resolve keeps_id keeps_send keeps_cancel_msg keeps_clr_pending keeps_add_req
  keeps_cancel_req keeps_free keeps_io keeps_shall_stop keeps_register keeps_deregister : keeps.

Section info_keeps.
Lemma info_uniform (f : cmd_dispatcher -> cmd_dispatcher) :
  (forall P : cmd_dispatcher -> Prop, (forall ev d, P d -> P (snd (callback ev d))) -> (forall b d, P d -> P (raise_ub b d)) ->
     forall d, P d -> P (f d)) -> keeps f.
Proof.
  intros Hf. apply uniform_keeps. intros X I HI x. apply Hf.
  - intros. by apply (callback_inv I).
  - intros. by apply api_ub.
Qed.

Lemma snd_callback (P : cmd_dispatcher -> Prop) {A} (g : phl_mdl_ret_code -> A) ev d :
  P (snd (callback ev d)) -> P (snd (let '(ret, d) := callback ev d in (g ret, d))).
Proof. by destruct (callback ev d). Qed.

Lemma keeps_set_cur_cmd_info : keeps (fun d => snd (dispr_set_cur_cmd_info d)).
Proof.
  apply info_uniform. intros P Hc Hu d H. unfold dispr_set_cur_cmd_info.
  destruct (dispr_get_cur_cmd_req d) as [[] [k|]]; try done. apply (snd_callback P). auto.
Qed.
Lemma keeps_query_cur_cmd_info : keeps (fun d => snd (dispr_query_cur_cmd_info d)).
Proof. apply keeps_set_cur_cmd_info. Qed.
Lemma keeps_src_info i : keeps (fun d => snd (src_info d i)).
Proof.
  apply info_uniform. intros P Hc Hu d H. unfold src_info. case_if; [done|].
  match goal with |- P (snd (let '(_, _) := ?x in _)) => set (p := x) end.
  assert (P (snd p)) as Hp.
  { unfold p. case_if; [destruct (d_cur_cmd_req d); [auto|by apply Hu]|]. case_if; [|done].
    by apply Hc, Hu. }
  by destruct p.
Qed.
Lemma keeps_bk_info id : keeps (fun d => snd (bk_module_info dispr_set_bk_module_info id d)).
Proof.
  apply info_uniform. intros P Hc Hu d H. unfold bk_module_info, dispr_get_bk_module_handle.
  case_if; [done|]. destruct (fst (pq_search_node _ _ _)) as [h|]; [|by apply Hu].
  unfold dispr_set_bk_module_info. set (d1 := raise_ub _ d). assert (P d1) as H1 by (by apply Hu).
  clearbody d1. set (d2 := raise_ub _ d1). assert (P d2) as H2 by (by apply Hu). clearbody d2.
  case_if; [done|]. apply (snd_callback P). auto.
Qed.
End info_keeps.

#[export] Hint Resolve keeps_set_cur_cmd_info keeps_query_cur_cmd_info keeps_src_info keeps_bk_info : keeps.

(** ** Walking over the dispatchers *)

(** In the middle of a [for] loop: dispatchers below [k] satisfy [P], the
    others [Q], both relative to the semaphore; no [NULL] was dereferenced. *)
Definition eng_mid (k : nat) (P Q : Z -> cmd_dispatcher -> Prop) (e : phl_cmd_dispatch_engine) :
    Prop :=
  eng_ub e = false /\
  exists l, eng_dispatcher e = Some (Some <$> l) /\ eng_phy_num e = Z.of_nat (length l) /\
    forall i d, l !! i = Some d -> (if decide (i < k)%nat then P else Q) (eng_sema e) d.

Definition all_dispr (P : Z -> cmd_dispatcher -> Prop) (e : phl_cmd_dispatch_engine) : Prop :=
  eng_mid 0 P P e.

Section walk.
Context (P Q : Z -> cmd_dispatcher -> Prop).
Context (HP : forall s s' d, s <= s' -> P s d -> P s' d) (HQ : forall s s' d, s <= s' -> Q s d -> Q s' d).

Lemma eng_mid_all e k : all_dispr P e -> eng_mid k P P e.
Proof.
  intros (Hu & l & Hl & Hn & Hf). split; [done|]. exists l. split; [done|]. split; [done|].
  intros i d Hd. specialize (Hf i d Hd). by repeat case_decide.
Qed.

Lemma eng_mid_start e : all_dispr Q e -> eng_mid 0 P Q e.
Proof. done. Qed.

Lemma eng_mid_done e : eng_mid (Z.to_nat (eng_phy_num e)) P Q e -> all_dispr P e.
Proof.
  intros (Hu & l & Hl & Hn & Hf). split; [done|]. exists l. split; [done|]. split; [done|].
  intros i d Hd. specialize (Hf i d Hd). rewrite decide_False by lia.
  apply lookup_lt_Some in Hd. by rewrite decide_True in Hf by lia.
Qed.

Lemma eng_mid_get e k i :
  eng_mid k P Q e -> (i < Z.to_nat (eng_phy_num e))%nat ->
  exists d, eng_dispr e i = Some d /\ (if decide (i < k)%nat then P else Q) (eng_sema e) d.
Proof.
  intros (Hu & l & Hl & Hn & Hf) Hi. rewrite Hn, Nat2Z.id in Hi.
  destruct (lookup_lt_is_Some_2 l i Hi) as [d Hd]. exists d. split; [|by apply Hf].
  unfold eng_dispr. rewrite Hl. cbn. by rewrite list_lookup_fmap, Hd.
Qed.

(** Dispatcher [k] is replaced and the semaphore raised. *)
Lemma eng_mid_put e k d s :
  eng_mid k P Q e -> P s d -> eng_sema e <= s -> eng_mid (S k) P Q (set_eng_sema s (put_dispr k (Some d) e)).
Proof.
  intros (Hu & l & Hl & Hn & Hf) Hd Hs. split; [done|]. exists (<[k := d]> l). cbn. rewrite Hl. cbn.
  split; [by rewrite list_fmap_insert|]. split; [by rewrite length_insert|].
  intros i d' Hi. destruct (decide (i = k)) as [->|Hne].
  - apply list_lookup_insert_Some in Hi as [(_ & <- & _)|[Hx _]]; [|done].
    by rewrite decide_True by lia.
  - rewrite list_lookup_insert_ne in Hi by done. specialize (Hf i d' Hi).
    destruct (decide (i < k)%nat); [rewrite decide_True by lia; by eapply HP|].
    rewrite decide_False by lia. by eapply HQ.
Qed.

(** A call to dispatcher [k]. *)
Lemma eng_mid_call {A} (a : A) e k f :
  (forall s d, Q s d -> let d' := snd (f (set_d_wake 0 d)) in P (s + d_wake d') d' /\ 0 <= d_wake d') ->
  (k < Z.to_nat (eng_phy_num e))%nat -> eng_mid k P Q e ->
  eng_mid (S k) P Q (snd (call_dispr a k f e)) /\ eng_phy_num (snd (call_dispr a k f e)) = eng_phy_num e.
Proof.
  intros Hf Hk He. destruct (eng_mid_get e k k He Hk) as (d & Hd & Hq).
  rewrite decide_False in Hq by lia. unfold call_dispr. rewrite Hd. specialize (Hf _ _ Hq).
  destruct (f (set_d_wake 0 d)) as [r d']. cbn [snd] in *. destruct Hf as [H1 H2].
  split; [|done]. apply eng_mid_put; [done|done|lia].
Qed.

Context (f : cmd_dispatcher -> cmd_dispatcher).
Context (Hf : forall s d, Q s d ->
  let d' := f (set_d_wake 0 d) in P (s + d_wake d') d' /\ 0 <= d_wake d').

Lemma eng_mid_each b e : all_dispr Q e ->
  all_dispr P (each_dispr b f e) /\ eng_phy_num (each_dispr b f e) = eng_phy_num e.
Proof.
  intros He. unfold each_dispr. set (N := Z.to_nat (eng_phy_num e)).
  assert (forall n k e', (k + n = N)%nat -> eng_mid k P Q e' -> eng_phy_num e' = eng_phy_num e ->
    let e'' := foldl (fun e i => if b && bool_decide (eng_dispr e i = None) then e else run_dispr i f e)
                 e' (seq k n) in
    eng_mid N P Q e'' /\ eng_phy_num e'' = eng_phy_num e) as H.
  { induction n as [|n IH]; intros k e' Hk He' Hn.
    - replace k with N in He' by lia. done.
    - cbn. assert (k < Z.to_nat (eng_phy_num e'))%nat as Hk' by (rewrite Hn; fold N; lia).
      destruct (eng_mid_get e' k k He' Hk') as (d & Hd & _).
      rewrite bool_decide_false, andb_false_r by (by rewrite Hd).
      destruct (eng_mid_call () e' k (fun d => ((), f d)) Hf Hk' He') as [H1 H2].
      apply IH; [lia|exact H1|by rewrite <- Hn]. }
  destruct (H N O e ltac:(lia) (eng_mid_start e He) eq_refl) as [H1 H2]. split; [|done].
  apply eng_mid_done. rewrite H2. exact H1.
Qed.
End walk.

Lemma foldl_inv' {A B} (P : B -> Prop) (g : B -> A -> B) (l : list A) :
  (forall b a, P b -> P (g b a)) -> forall b, P b -> P (foldl g b l).
Proof. intros Hg. induction l; cbn; auto. Qed.

(** ** A started engine *)

(** A dispatcher is in order and the semaphore covers its work. *)
Definition dispr_ok (s : Z) (d : cmd_dispatcher) : Prop :=
  settled [] d /\ opq_wf () d /\ work d <= s.

Definition eng_ok : phl_cmd_dispatch_engine -> Prop := all_dispr dispr_ok.

Lemma dispr_ok_mono s s' d : s <= s' -> dispr_ok s d -> dispr_ok s' d.
Proof. intros Hs (? & ? & ?). split; [done|]. split; [done|lia]. Qed.

Lemma settled_set_wake h w d : settled h d -> settled h (set_d_wake w d).
Proof. intros H. apply (settled_frame h d); try done. apply (msg_inv_frame h d); try done. apply H. Qed.

Lemma keeps_dispr_ok f s d :
  keeps f -> dispr_ok s d ->
  let d' := f (set_d_wake 0 d) in dispr_ok (s + d_wake d') d' /\ 0 <= d_wake d'.
Proof.
  intros [Ks Kw Ko Kg] (Hs & Ho & Hw) d'.
  assert (wake_ge 0 d') as Hg by (apply Kg; unfold wake_ge; cbn; lia).
  assert (wake_inv (s, 0) d') as [Hw' _]
    by (apply Kw; unfold wake_inv, work, d_test in *; cbn in *; lia).
  split; [|exact Hg]. split; [by apply Ks, settled_set_wake|]. split; [by apply Ko|].
  cbn in Hw'. lia.
Qed.

Lemma eng_ok_each b f e : keeps f -> eng_ok e -> eng_ok (each_dispr b f e).
Proof.
  intros Hf He. apply (eng_mid_each dispr_ok dispr_ok); try apply dispr_ok_mono; [|done].
  intros s d. by apply keeps_dispr_ok.
Qed.

Lemma eng_ok_call {A} (a : A) i f e :
  keeps (fun d => snd (f d)) -> (i < Z.to_nat (eng_phy_num e))%nat -> eng_ok e ->
  eng_ok (snd (call_dispr a i f e)).
Proof.
  intros Hf Hi He. eapply (eng_mid_all dispr_ok) in He.
  destruct (eng_mid_call dispr_ok dispr_ok dispr_ok_mono dispr_ok_mono a e i f) as [(Hu & l & H1 & H2 & H3) _];
    [intros s d; by apply (keeps_dispr_ok (fun d => snd (f d)))|done|exact He|].
  split; [done|]. exists l. split; [done|]. split; [done|].
  intros j d Hj. specialize (H3 j d Hj). by repeat case_decide.
Qed.

Lemma eng_ok_band {A} band (x : A) f e :
  keeps (fun d => snd (f d)) -> 0 <= band -> eng_ok e -> eng_ok (snd (with_band e band x f)).
Proof.
  intros Hf Hb He. unfold with_band, _disp_eng_get_dispr_by_idx.
  destruct (Z.ltb_spec (eng_phy_num e - 1) band); [done|]. apply eng_ok_call; [done|lia|done].
Qed.

Lemma eng_ok_band_sts band f e :
  keeps (fun d => snd (f d)) -> 0 <= band -> eng_ok e -> eng_ok (snd (with_band_sts e band f)).
Proof.
  intros Hf Hb He. unfold with_band_sts.
  pose proof (eng_ok_band band () (fun d => let '(r, d) := f d in ((r, ()), d)) e) as H.
  destruct (with_band e band () _) as [[st u] e']. cbn [snd] in *. apply H; [|done|done].
  destruct Hf as [K1 K2 K3 K4].
  split; intros; match goal with |- context [f ?d] => destruct (f d) eqn:E end; cbn.
  - specialize (K1 d). rewrite E in K1. auto.
  - specialize (K2 n d). rewrite E in K2. auto.
  - specialize (K3 d). rewrite E in K3. auto.
  - specialize (K4 n d). rewrite E in K4. auto.
Qed.

(** ** A turn of the thread *)

(** A dispatcher whose turn is still to come may have one unit more to do. *)
Definition dispr_due (s : Z) (d : cmd_dispatcher) : Prop :=
  settled [] d /\ opq_wf () d /\ work d <= s + 1 /\ 0 <= s.

Lemma dispr_due_mono s s' d : s <= s' -> dispr_due s d -> dispr_due s' d.
Proof. intros Hs (? & ? & ? & ?). split; [done|]. split; [done|]. lia. Qed.

Lemma turn_dispr s d :
  dispr_due s d ->
  let d' := dispr_thread_loop_hdl (set_d_wake 0 d) in dispr_ok (s + d_wake d') d' /\ 0 <= d_wake d'.
Proof.
  intros (Hs & Ho & Hw & Hp) d'.
  assert (wake_ge 0 d') as Hg by (apply wake_ge_loop; unfold wake_ge; cbn; lia).
  pose proof (settled_set_wake _ 0 _ Hs) as Hs0.
  pose proof (wake_loop [] (set_d_wake 0 d) Hs0 Ho) as HL. fold d' in HL.
  assert (work (set_d_wake 0 d) = work d) as Hwd by done. rewrite Hwd in HL.
  change (d_wake (set_d_wake 0 d)) with 0 in HL.
  split; [|exact Hg]. split; [by apply settled_loop|]. split; [by apply opq_wf_loop|].
  unfold wake_ge in Hg. lia.
Qed.

Lemma turn_loop_ok n : forall k e,
  (k + n = Z.to_nat (eng_phy_num e))%nat -> eng_mid k dispr_ok dispr_due e ->
  eng_ok (turn_loop (seq k n) [] e).
Proof.
  induction n as [|n IH]; intros k e Hk He; cbn [turn_loop seq].
  - apply (eng_mid_done _ dispr_due). by replace (Z.to_nat (eng_phy_num e)) with k by lia.
  - destruct (eng_mid_call dispr_ok dispr_due dispr_ok_mono dispr_due_mono () e k
      (fun d => ((), dispr_thread_loop_hdl d))) as [H1 H2]; [apply turn_dispr|lia|done|].
    cbn [head default tail]. apply IH; [unfold run_dispr; rewrite H2; lia|exact H1].
Qed.

Lemma eng_ok_turn e : eng_ok e -> 0 < eng_sema e -> eng_ok (share_thread_turn [] e).
Proof.
  intros (Hu & l & Hl & Hn & Hf) Hs. unfold share_thread_turn. apply turn_loop_ok; [done|].
  split; [done|]. exists l. split; [done|]. split; [done|]. intros i d Hd.
  specialize (Hf i d Hd). rewrite decide_False in * by lia. destruct Hf as (? & ? & ?).
  split; [done|]. split; [done|]. cbn. lia.
Qed.

(** ** Starting and stopping *)

(** Initialised, not started. *)
Definition dispr_fresh (s : Z) (d : cmd_dispatcher) : Prop :=
  fresh () d /\ d_test d DISPR_CLR_PEND_MSG = false.

Lemma work_nonneg d : 0 <= work d.
Proof. unfold work. destruct (d_test d DISPR_CLR_PEND_MSG); cbn; lia. Qed.

Lemma start_dispr s d :
  dispr_fresh s d /\ 0 <= s ->
  let d' := snd (dispr_module_start (snd (dispr_start (set_d_wake 0 d)))) in
  dispr_ok (s + d_wake d') d' /\ 0 <= d_wake d'.
Proof.
  intros [[Hf Hc] Hs] d'.
  assert (good d') as (H1 & [H2 _] & H3) by (apply mdl_all_start; [apply good_stable|]; by apply dispr_start_good).
  clearbody d'. cbn in H2. pose proof (work_nonneg d').
  split; [|lia]. split; [done|]. split; [done|lia].
Qed.

Lemma eng_ok_start e : all_dispr dispr_fresh e -> eng_ok (snd (phl_disp_eng_start e)).
Proof.
  intros (Hu & l & Hl & Hn & Hf). unfold phl_disp_eng_start. cbn [snd].
  apply (eng_mid_each dispr_ok (fun s d => dispr_fresh s d /\ 0 <= s)).
  - apply dispr_ok_mono.
  - intros s s' d Hs [H ?]. split; [done|lia].
  - intros s d. apply start_dispr.
  - split; [done|]. exists l. split; [done|]. split; [done|]. intros i d Hd.
    specialize (Hf i d Hd). rewrite decide_False in * by lia. by split.
Qed.

(** The part of a stop before the thread ends. *)
Definition dispr_halted (s : Z) (d : cmd_dispatcher) : Prop :=
  settled [] d /\ d_test d DISPR_STARTED = false.

Lemma halt_started d : d_test (dispr_thread_stop_prior_hdl d) DISPR_STARTED = false.
Proof.
  unfold dispr_thread_stop_prior_hdl.
  assert (mdl_stable (fun d => d_test d DISPR_STARTED = false)) as Hst.
  { pose proof not_started_stable as []. split; try done.
    - intros d' H. rewrite <- H. by apply d_test_set.
    - intros d' H. rewrite <- H. by apply d_test_clear. }
  pose proof (mdl_ctrl_stop _ Hst (d_clear_flag DISPR_STARTED d)) as H.
  destruct (_stop_dispr_controller _) as [st d1]. cbn [snd] in H.
  unfold cancel_running_msg, cancel_all_cmd_req.
  do 2 (apply (foldl_inv _ (fun d => d_test d DISPR_STARTED = false));
        [apply Forall_forall; intros; by case_if|]).
  apply H. by apply (d_test_clear_same 1).
Qed.

Lemma halt_dispr s d :
  dispr_ok s d ->
  let d' := dispr_thread_stop_prior_hdl (snd (dispr_module_stop (set_d_wake 0 d))) in
  dispr_halted (s + d_wake d') d' /\ 0 <= d_wake d'.
Proof.
  intros (Hs & Ho & Hw) d'.
  assert (good_at s (set_d_wake 0 d)) as Hg.
  { split; [by apply settled_set_wake|]. split; [|done]. unfold wake_inv, work, d_test in *. cbn in *. lia. }
  apply (mdl_all_stop _ (good_at_stable s)), (good_at_stop s) in Hg. fold d' in Hg.
  split; [split; [apply Hg|apply halt_started]|]. change (wake_ge 0 d').
  assert (wake_ge 0 (snd (dispr_module_stop (set_d_wake 0 d)))) as H1
    by (apply (mdl_all_stop _ (wake_ge_mdl 0)); unfold wake_ge; cbn; lia).
  unfold d'. set (d1 := snd _) in *. clearbody d1. clear Hg d'.
  unfold dispr_thread_stop_prior_hdl.
  pose proof (mdl_ctrl_stop _ (wake_ge_mdl 0) (d_clear_flag DISPR_STARTED d1) H1) as H2.
  destruct (_stop_dispr_controller _) as [st d2]. cbn [snd] in H2.
  unfold cancel_running_msg, cancel_all_cmd_req.
  do 2 (apply (foldl_inv _ (wake_ge 0)); [apply Forall_forall; intros; by case_if|]). exact H2.
Qed.

(** After the thread has left its loop. *)
Definition dispr_left (s : Z) (d : cmd_dispatcher) : Prop :=
  d_test d DISPR_STARTED = false /\ d_cur_cmd_req d = None /\ d_token_cnt d = 0 /\
  q_cnt (d_msg_idle_q d) = Z.of_nat MAX_PHL_MSG_NUM /\
  q_cnt (d_token_req_idle_q d) = Z.of_nat MAX_CMD_REQ_NUM.

Lemma leave_dispr s d :
  dispr_halted s d -> exists d', dispr_thread_leave_hdl 1 (set_d_wake 0 d) = Some d' /\ dispr_left s d'.
Proof.
  intros [Hs Ht]. destruct (leave_hdl_spec (set_d_wake 0 d)) as (d' & E & (Hm & Hc & Hst) & Hq & Hr);
    [by apply settled_set_wake|done|]. exists d'. split; [done|].
  split; [done|]. split; [exact (ro_cur _ _ _ _ _ _ Hq)|]. split; [exact (ro_cnt _ _ _ _ _ _ Hq)|done].
Qed.

(** The semaphore is of no account any more. *)
Lemma leave_loop_ok n : forall k e,
  (k + n = Z.to_nat (eng_phy_num e))%nat -> eng_mid k dispr_left dispr_halted e ->
  exists e', leave_loop 1 (seq k n) e = Some e' /\ all_dispr dispr_left e' /\
    eng_phy_num e' = eng_phy_num e /\ eng_thread e' = ThreadDone.
Proof.
  induction n as [|n IH]; intros k e Hk He; cbn [leave_loop seq].
  - eexists. split; [done|]. split; [|done].
    apply (eng_mid_done _ dispr_halted). cbn. by replace (Z.to_nat (eng_phy_num e)) with k by lia.
  - destruct (eng_mid_get _ _ e k k He) as (d & Hd & Hq); [lia|]. rewrite decide_False in Hq by lia.
    destruct (leave_dispr _ _ Hq) as (d' & E & Hl). rewrite Hd, E. cbn [mbind option_bind].
    set (e1 := set_eng_sema _ _). destruct (IH (S k) e1) as (e' & E' & H1 & H2 & H3).
    + cbn. lia.
    + assert (eng_mid (S k) dispr_left dispr_halted (set_eng_sema (eng_sema e) (put_dispr k (Some d') e)))
        as (Hu & l & H1 & H2 & Hf) by (apply eng_mid_put; try done; lia).
      split; [exact Hu|]. exists l. split; [exact H1|]. split; [exact H2|].
      intros i x Hx. specialize (Hf i x Hx). by case_decide.
    + exists e'. done.
Qed.

Lemma stop_dispr s d :
  dispr_left s d ->
  let d' := dispr_thread_stop_post_hdl (set_d_wake 0 d) in fresh () d' /\ 0 <= d_wake d'.
Proof.
  intros (Ht & Hc & Hn & _) d'. split; [|done]. split.
  2:{ split; [|done]. unfold d', dispr_thread_stop_post_hdl, deinit_dispr_msg_pool. by case_if. }
  unfold d', dispr_thread_stop_post_hdl, deinit_dispr_msg_pool, deinit_cmd_req_pool.
  set (d0 := set_d_wake 0 d). assert (d_test d0 DISPR_STARTED = false) as H0 by done. clearbody d0.
  set (d1 := if negb (d_test d0 DISPR_MSGQ_INIT) then d0 else _).
  assert (d_test d1 (BIT 1) = false /\ d_test d1 (BIT 3) = false) as [H1 H3].
  { unfold d1. destruct (d_test d0 DISPR_MSGQ_INIT) eqn:E; cbn [negb]; [|done].
    split; [rewrite (d_test_clear 3 1) by lia; done|by apply (d_test_clear_same 3)]. }
  clearbody d1. change (Forall (fun n => d_test (d_clear_flag (BIT 4) d1) (BIT n) = false) [1; 3; 4]).
  repeat constructor; [rewrite d_test_clear by lia; done..|by apply d_test_clear_same].
Qed.

Lemma eng_stop_ok e :
  eng_ok e ->
  exists e', phl_disp_eng_stop 1 e = Some (RTW_PHL_STATUS_SUCCESS, e') /\
    all_dispr (fun _ d => fresh () d) e' /\ eng_phy_num e' = eng_phy_num e /\ eng_thread e' = ThreadDone.
Proof.
  intros He. unfold phl_disp_eng_stop. destruct He as (Hu & l & Hl & Hn & Hf). rewrite Hl.
  assert (all_dispr dispr_ok e) as He by (split; [done|]; by exists l).
  destruct (eng_mid_each dispr_halted dispr_ok (fun _ _ _ _ H => H) dispr_ok_mono
    (fun d => dispr_thread_stop_prior_hdl (snd (dispr_module_stop d))) halt_dispr true e He)
    as [H1 N1].
  set (e1 := each_dispr true _ e) in *. clearbody e1.
  destruct (leave_loop_ok (Z.to_nat (eng_phy_num e1)) 0 (set_eng_sema (eng_sema e1 + 1) e1)) as
    (e2 & E2 & H2 & N2 & T2); [done|exact H1|].
  unfold share_thread_leave. change (eng_phy_num (set_eng_sema _ e1)) with (eng_phy_num e1).
  rewrite E2. cbn [mbind option_bind].
  destruct (eng_mid_each (fun _ d => fresh () d) dispr_left (fun _ _ _ _ H => H) (fun _ _ _ _ H => H)
              dispr_thread_stop_post_hdl stop_dispr false e2 H2) as [H3 N3].
  eexists. split; [reflexivity|]. split; [exact H3|]. split; [rewrite N3, N2; exact N1|].
  unfold each_dispr. apply (foldl_inv' (fun e => eng_thread e = ThreadDone)); [|done].
  intros e' i He'. case_if; [done|]. unfold run_dispr, call_dispr. by destruct (eng_dispr e' i).
Qed.
