(* ===== verification/DispEngineThm.v ===== *)
(** * What the dispatch engine guarantees *)

From S2P Require Import Prelude PhlQueue PhlDef DispState DispApi DispThread DispModule DispInv DispApiInv DispThreadInv DispFuel DispLeave DispReach DispSample DispEngine DispEngineInv.

(** ** Reachable engines *)

(** After [phl_disp_eng_init], modules may be registered. *)
Inductive eng_boot : phl_cmd_dispatch_engine -> Prop :=
| boot_init inits n e :
    phl_disp_eng_init inits true zero_eng n = (RTW_PHL_STATUS_SUCCESS, e) ->
    (forall i, snd (inits i) = true) -> 0 <= n < 256 -> eng_boot e
| boot_register e band id ops ok :
    eng_boot e -> 0 <= band -> eng_boot (snd (phl_disp_eng_register_module e band id ops ok))
| boot_deregister e band id :
    eng_boot e -> 0 <= band -> eng_boot (snd (phl_disp_eng_deregister_module e band id)).

(** Calls of other threads, and turns of the shared thread while no stop is
    requested. *)
Inductive eng_step : phl_cmd_dispatch_engine -> phl_cmd_dispatch_engine -> Prop :=
| step_turn e : 0 < eng_sema e -> eng_step e (share_thread_turn [] e)
| step_register e band id ops ok :
    0 <= band -> eng_step e (snd (phl_disp_eng_register_module e band id ops ok))
| step_deregister e band id :
    0 <= band -> eng_step e (snd (phl_disp_eng_deregister_module e band id))
| step_send e msg attr hdl :
    0 <= band_idx msg -> eng_step e (snd (phl_disp_eng_send_msg e msg attr hdl))
| step_cancel_msg e band hdl : 0 <= band -> eng_step e (snd (phl_disp_eng_cancel_msg e band hdl))
| step_clr_pending e band : 0 <= band -> eng_step e (snd (phl_disp_eng_clr_pending_msg e band))
| step_add_req e band req hdl :
    0 <= band -> eng_step e (snd (phl_disp_eng_add_token_req e band req hdl))
| step_cancel_req e band hdl :
    0 <= band -> eng_step e (snd (phl_disp_eng_cancel_token_req e band hdl))
| step_free e band hdl : 0 <= band -> eng_step e (snd (phl_disp_eng_free_token e band hdl))
| step_set_cur e band : 0 <= band -> eng_step e (snd (phl_disp_eng_set_cur_cmd_info e band))
| step_query_cur e band : 0 <= band -> eng_step e (snd (phl_disp_eng_query_cur_cmd_info e band))
| step_set_bk e band id : 0 <= band -> eng_step e (snd (phl_disp_eng_set_bk_module_info e band id))
| step_query_bk e band id : 0 <= band -> eng_step e (snd (phl_disp_eng_query_bk_module_info e band id))
| step_set_src e band i : 0 <= band -> eng_step e (snd (phl_disp_eng_set_src_info e band i))
| step_query_src e band i : 0 <= band -> eng_step e (snd (phl_disp_eng_query_src_info e band i))
| step_busy e band : 0 <= band -> eng_step e (snd (phl_disp_eng_is_dispr_busy e band))
| step_io e m b : eng_step e (snd (phl_disp_eng_notify_dev_io_status e m b))
| step_shall_stop e : eng_step e (phl_disp_eng_notify_shall_stop e).

Inductive eng_reach : phl_cmd_dispatch_engine -> Prop :=
| eng_reach_start e :
    eng_boot e -> (forall i d, eng_dispr e i = Some d -> d_test d DISPR_CLR_PEND_MSG = false) ->
    eng_reach (snd (phl_disp_eng_start e))
| eng_reach_step e e' : eng_reach e -> eng_step e e' -> eng_reach e'.

(** ** Initialised engines *)

Lemma init_dispatchers_fresh inits n : forall i,
  (forall i, snd (inits i) = true) ->
  exists l, init_dispatchers inits i n = (Some <$> l, RTW_PHL_STATUS_SUCCESS) /\ length l = n /\
    Forall (fresh ()) l.
Proof.
  induction n as [|n IH]; intros i Hok; [by exists []|]. cbn [init_dispatchers].
  rewrite (Hok i). destruct (dispr_init (fst (inits i)) (Z.of_nat i) true) as [st o] eqn:E.
  assert (st = RTW_PHL_STATUS_SUCCESS /\ exists d, o = Some d) as [-> [d ->]].
  { revert E. unfold dispr_init. cbn [negb].
    destruct (_register_dispr_controller _) as [r d]. intros [= <- <-]. eauto. }
  destruct (IH (S i) Hok) as (l & -> & Hl & Hf). cbn. exists (d :: l).
  split; [done|]. split; [cbn; by rewrite Hl|]. constructor; [by eapply dispr_init_fresh|done].
Qed.

Lemma fresh_call {A} (a : A) i f e :
  (forall P, mdl_stable P -> forall d, P d -> P (snd (f d))) -> (i < Z.to_nat (eng_phy_num e))%nat ->
  all_dispr (fun _ d => fresh () d) e -> all_dispr (fun _ d => fresh () d) (snd (call_dispr a i f e)).
Proof.
  intros Hf Hi He. set (P := fun (_ : Z) d => fresh () d) in *.
  assert (forall s s' d, s <= s' -> P s d -> P s' d) as Hm by done.
  apply (eng_mid_all P _ i) in He.
  destruct (eng_mid_call P P Hm Hm a e i f) as [(Hu & l & H1 & H2 & H3) _]; [|done|exact He|].
  - intros s d Hd d'. split.
    + by apply (Hf (fresh ())); [apply fresh_stable|].
    + change (wake_ge 0 d'). apply Hf; [apply wake_ge_mdl|]. unfold wake_ge. cbn. lia.
  - split; [done|]. exists l. split; [done|]. split; [done|].
    intros j d Hj. specialize (H3 j d Hj). by repeat case_decide.
Qed.

Lemma eng_boot_fresh e : eng_boot e -> all_dispr (fun _ d => fresh () d) e.
Proof.
  induction 1 as [inits n e Hi Hok Hn|e band id ops ok _ IH Hb|e band id _ IH Hb].
  - revert Hi. unfold phl_disp_eng_init. cbn [zero_eng eng_dispatcher negb].
    destruct (init_dispatchers_fresh inits (Z.to_nat n) 0 Hok) as (l & -> & Hl & Hf).
    cbn [bool_decide]. intros [= <-]. split; [done|]. exists l. split; [done|].
    split; [cbn; rewrite Hl; lia|]. intros i d Hd. rewrite Forall_forall in Hf.
    case_decide; apply Hf; by eapply list_elem_of_lookup_2.
  - unfold phl_disp_eng_register_module. destruct (Z.ltb_spec (eng_phy_num e) (band + 1)); [done|].
    apply fresh_call; [|lia|done]. intros P HP d. by apply mdl_register.
  - unfold phl_disp_eng_deregister_module. destruct (Z.ltb_spec (eng_phy_num e) (band + 1)); [done|].
    apply fresh_call; [|lia|done]. intros P HP d. by apply mdl_deregister.
Qed.

(** ** The invariant *)

Lemma eng_step_ok e e' : eng_step e e' -> eng_ok e -> eng_ok e'.
Proof.
  intros Hs He. destruct Hs;
    try (apply eng_ok_band; [auto with keeps|done|done]);
    try (apply eng_ok_band_sts; [auto with keeps|done|done]).
  - by apply eng_ok_turn.
  - unfold phl_disp_eng_register_module. destruct (Z.ltb_spec (eng_phy_num e) (band + 1)); [done|].
    apply eng_ok_call; [auto with keeps|lia|done].
  - unfold phl_disp_eng_deregister_module. destruct (Z.ltb_spec (eng_phy_num e) (band + 1)); [done|].
    apply eng_ok_call; [auto with keeps|lia|done].
  - unfold phl_disp_eng_is_dispr_busy.
    pose proof (eng_ok_band_sts band (fun d => (fst (dispr_get_cur_cmd_req d), d)) e keeps_id H He) as H1.
    by destruct (with_band_sts e band _).
  - apply eng_ok_each; [auto with keeps|done].
  - apply eng_ok_each; [auto with keeps|done].
Qed.

Lemma eng_reach_ok e : eng_reach e -> eng_ok e.
Proof.
  induction 1 as [e Hb Hc|e e' _ IH Hs]; [|by eapply eng_step_ok].
  apply eng_ok_start. apply eng_boot_fresh in Hb as (Hu & l & Hl & Hn & Hf).
  split; [done|]. exists l. split; [done|]. split; [done|]. intros i d Hd. specialize (Hf i d Hd).
  specialize (Hc i d). unfold eng_dispr in Hc. rewrite Hl in Hc. cbn in Hc.
  rewrite list_lookup_fmap, Hd in Hc. specialize (Hc eq_refl). by repeat case_decide.
Qed.

(** ** A concrete engine *)

(** Two bands, with module 10 on band 0 and module 41 on band 1, started. *)
Definition sample_inits (i : nat) : list cb_resp * bool := ([], true).
Definition eng0 : phl_cmd_dispatch_engine := snd (phl_disp_eng_init sample_inits true zero_eng HW_BAND_MAX).
Definition eng_modules : phl_cmd_dispatch_engine :=
  snd (phl_disp_eng_register_module
         (snd (phl_disp_eng_register_module eng0 0 10 (Some all_ops) true)) 1 41 (Some all_ops) true).
Definition eng_started : phl_cmd_dispatch_engine := snd (phl_disp_eng_start eng_modules).

Definition band1 (m : phl_msg) : phl_msg :=
  mkMsg (msg_id m) 1 (inbuf m) (outbuf m) (inlen m) (outlen m) (rsvd0 m).

(** One message for each band. *)
Definition eng_msgs : phl_cmd_dispatch_engine :=
  snd (phl_disp_eng_send_msg
    (snd (phl_disp_eng_send_msg eng_started (sample_msg 10 100) None (Some 0)))
    (band1 (sample_msg 41 100)) None (Some 0)).

Lemma eng_started_reach : eng_reach eng_started.
Proof.
  apply eng_reach_start.
  - apply boot_register; [|lia]. apply boot_register; [|lia].
    apply (boot_init sample_inits HW_BAND_MAX); [vm_compute; reflexivity|done|unfold HW_BAND_MAX; lia].
  - intros i d. assert (forallb (fun o => match o with
      | Some d => negb (d_test d DISPR_CLR_PEND_MSG) | None => true end)
      (default [] (eng_dispatcher eng_modules)) = true) as H by (vm_compute; reflexivity).
    unfold eng_dispr. destruct (eng_dispatcher eng_modules) as [l|]; [|done]. cbn in H |- *.
    destruct (l !! i) as [o|] eqn:E; [|done]. cbn. intros ->. rewrite forallb_forall in H.
    specialize (H (Some d)). cbn in H. apply negb_true_iff, H, list_elem_of_In.
    by eapply list_elem_of_lookup_2.
Qed.

Lemma eng_msgs_reach : eng_reach eng_msgs.
Proof.
  eapply eng_reach_step; [eapply eng_reach_step; [apply eng_started_reach|]|];
    apply step_send; vm_compute; congruence.
Qed.

(** ** Theorems *)

(** Over all dispatchers that share the engine's thread, no step goes out
    of bounds and the shared semaphore counts at least the outstanding work of
    each dispatcher. *)
Theorem eng_no_lost_wakeup e :
  eng_reach e ->
  eng_ub e = false /\
  forall i, (i < Z.to_nat (eng_phy_num e))%nat ->
    exists d, eng_dispr e i = Some d /\
      Z.of_nat (length (q_queue (d_msg_wait_q d))) + Z.of_nat (length (q_queue (d_token_op_q d))) +
        Z.b2z (d_test d DISPR_CLR_PEND_MSG) <= eng_sema e.
Proof.
  intros H. pose proof (eng_reach_ok e H) as Ho. split; [apply Ho|]. intros i Hi.
  destruct (eng_mid_get dispr_ok dispr_ok e 0 i Ho Hi) as (d & Hd & Hok). exists d. split; [done|].
  rewrite decide_False in Hok by lia. destruct Hok as (_ & _ & Hw). exact Hw.
Qed.

Lemma eng_no_lost_wakeup_witness :
  eng_phy_num eng_msgs = 2 /\ 2 <= eng_sema eng_msgs /\
  exists d, eng_dispr eng_msgs 1 = Some d /\ length (q_queue (d_msg_wait_q d)) = 1%nat.
Proof.
  split; [vm_compute; reflexivity|]. split; [vm_compute; congruence|].
  destruct (eng_no_lost_wakeup eng_msgs eng_msgs_reach) as [_ H].
  destruct (H 1%nat) as (d & Hd & _); [vm_compute; lia|]. exists d. split; [exact Hd|].
  vm_compute in Hd. injection Hd as <-. reflexivity.
Defined.

(** C7: Stopping the engine from any reachable state returns success with the
    shared thread finished and every dispatcher stopped, its pools released
    and no command holding the token. *)
Theorem eng_stop_complete e :
  eng_reach e ->
  exists e', phl_disp_eng_stop 1 e = Some (RTW_PHL_STATUS_SUCCESS, e') /\
    eng_ub e' = false /\ eng_thread e' = ThreadDone /\ eng_phy_num e' = eng_phy_num e /\
    (forall i, (i < Z.to_nat (eng_phy_num e))%nat ->
      exists d, eng_dispr e' i = Some d /\ is_dispr_started d = false /\
        d_test d DISPR_MSGQ_INIT = false /\ d_test d DISPR_REQ_INIT = false /\
        d_cur_cmd_req d = None /\ d_token_cnt d = 0).
Proof.
  intros H. destruct (eng_stop_ok e (eng_reach_ok e H)) as (e' & E & Hf & Hn & Ht).
  exists e'. split; [done|]. split; [apply Hf|]. split; [done|]. split; [done|]. intros i Hi.
  rewrite <- Hn in Hi. destruct (eng_mid_get (fun _ d => fresh () d) (fun _ d => fresh () d) e' 0 i Hf Hi) as (d & Hd & Hok). exists d. split; [done|].
  rewrite decide_False in Hok by lia. destruct Hok as (Hfl & Hc & Hcnt).
  rewrite !Forall_cons in Hfl. destruct Hfl as (F1 & F3 & F4 & _). done.
Qed.

Lemma eng_stop_complete_witness :
  exists e', phl_disp_eng_stop 1 eng_msgs = Some (RTW_PHL_STATUS_SUCCESS, e') /\ eng_thread e' = ThreadDone.
Proof.
  destruct (eng_stop_complete eng_msgs eng_msgs_reach) as (e' & H1 & _ & H2 & _).
  exists e'. exact (conj H1 H2).
Defined.

(** Every engine entry point that takes a band index at or above the
    number of bands returns an invalid-parameter status (or false) and changes
    nothing. *)
Theorem eng_band_check e band :
  eng_phy_num e <= band ->
  (forall msg attr hdl, band_idx msg = band ->
     phl_disp_eng_send_msg e msg attr hdl = ((RTW_PHL_STATUS_INVALID_PARAM, hdl), e)) /\
  (forall hdl, phl_disp_eng_cancel_msg e band hdl = ((RTW_PHL_STATUS_INVALID_PARAM, hdl), e)) /\
  (forall req hdl, phl_disp_eng_add_token_req e band req hdl = ((RTW_PHL_STATUS_INVALID_PARAM, hdl), e)) /\
  (forall hdl, phl_disp_eng_cancel_token_req e band hdl = (RTW_PHL_STATUS_INVALID_PARAM, e)) /\
  (forall hdl, phl_disp_eng_free_token e band hdl = (RTW_PHL_STATUS_INVALID_PARAM, e)) /\
  (forall id ops ok, phl_disp_eng_register_module e band id ops ok = (RTW_PHL_STATUS_INVALID_PARAM, e)) /\
  (forall id, phl_disp_eng_deregister_module e band id = (RTW_PHL_STATUS_INVALID_PARAM, e)) /\
  phl_disp_eng_is_dispr_busy e band = (false, e).
Proof.
  intros Hb.
  assert (forall A (x : A) f, with_band e band x f = ((RTW_PHL_STATUS_INVALID_PARAM, x), e)) as Hw.
  { intros A x f. unfold with_band, _disp_eng_get_dispr_by_idx.
    by destruct (Z.ltb_spec (eng_phy_num e - 1) band); [|lia]. }
  assert (forall f, with_band_sts e band f = (RTW_PHL_STATUS_INVALID_PARAM, e)) as Hs.
  { intros f. unfold with_band_sts. by rewrite Hw. }
  assert ((eng_phy_num e <? band + 1) = true) as Hlt by lia.
  split; [intros msg attr hdl <-; apply Hw|]. split; [intros; apply Hw|]. split; [intros; apply Hw|].
  split; [intros; apply Hs|]. split; [intros; apply Hs|].
  split; [intros; unfold phl_disp_eng_register_module; by rewrite Hlt|].
  split; [intros; unfold phl_disp_eng_deregister_module; by rewrite Hlt|].
  unfold phl_disp_eng_is_dispr_busy. rewrite Hs. done.
Qed.

Lemma eng_band_check_witness :
  phl_disp_eng_is_dispr_busy eng_started 2 = (false, eng_started).
Proof. apply (eng_band_check eng_started 2). vm_compute. congruence. Defined.

(** A dispatcher that cannot be created is reported as success, and the thread
    started afterwards is not stopped. *)
Theorem eng_failed_init_leaks_thread :
  let inits i := ([] : list cb_resp, Nat.eqb i 0) in
  let e := snd (phl_disp_eng_init inits true zero_eng HW_BAND_MAX) in
  let e' := snd (phl_disp_eng_start e) in
  fst (phl_disp_eng_init inits true zero_eng HW_BAND_MAX) = RTW_PHL_STATUS_SUCCESS /\
  eng_phy_num e = 0 /\ eng_dispatcher e = None /\
  eng_thread e' = ThreadRunning /\
  phl_disp_eng_stop 1 e' = Some (RTW_PHL_STATUS_SUCCESS, e').
Proof. vm_compute. repeat split. Qed.
