(* ===== verification/MsgHub.v ===== *)
(** * The message hub (src/phl/phl_msg_hub.c)

    Sixteen descriptors move between an idle and a waiting queue; a thread
    forwards each waiting message to the receivers whose bitmap has the module
    of the message, then calls its completion routine and frees it.

    Receivers and completion routines are function pointers: every call is
    logged in [h_trace], and [h_env] gives the messages the callee (or another
    thread meanwhile) sends before the call returns. *)

From S2P Require Import Prelude PhlQueue PhlDef DispState.

Definition MAX_MSG_NUM : nat := 16.
Definition MSG_RECV_MAX : nat := 2.

Definition MSG_HUB_INIT : Z := BIT 0.
Definition MSG_HUB_STARTED : Z := BIT 1.
Definition MSG_RECVER_INIT : Z := BIT 0.
Definition MSG_RECVER_CLR_CTX : Z := BIT 1.

#[export] Hint Unfold MSG_HUB_INIT MSG_HUB_STARTED MSG_RECVER_INIT MSG_RECVER_CLR_CTX : phl_const.

(** [struct phl_msg_receiver_ex]; [ctx] is the opaque receiver. *)
Record phl_msg_receiver_ex := mkRecver { rc_status : Z; rc_bitmap : list Z; rc_ctx : Z }.
Definition zero_recver : phl_msg_receiver_ex := mkRecver 0 empty_map 0.

Record phl_msg_ex := mkEx { ex_ctx : phl_msg; ex_completion : msg_completion_routine }.
Definition zero_ex : phl_msg_ex := mkEx zero_msg (mkCompletion false 0).

Inductive hub_event :=
| HubNotify (layer : nat) (msg : phl_msg)
| HubComplete (priv : Z) (msg : phl_msg).

Inductive hub_thread := HubThreadNone | HubThreadRunning | HubThreadDone.

Record phl_msg_hub := mkHub {
  h_status : Z;
  h_pool : list phl_msg_ex;
  h_idle : phl_queue nat;
  h_wait : phl_queue nat;
  h_sema : Z;
  h_thread : hub_thread;
  h_recver : list phl_msg_receiver_ex;
  h_env : list (list (option phl_msg_attribute * phl_msg));
  h_trace : list hub_event }.

Definition set_h_status v h := mkHub v (h_pool h) (h_idle h) (h_wait h) (h_sema h) (h_thread h) (h_recver h) (h_env h) (h_trace h).
Definition set_h_pool v h := mkHub (h_status h) v (h_idle h) (h_wait h) (h_sema h) (h_thread h) (h_recver h) (h_env h) (h_trace h).
Definition set_h_idle v h := mkHub (h_status h) (h_pool h) v (h_wait h) (h_sema h) (h_thread h) (h_recver h) (h_env h) (h_trace h).
Definition set_h_wait v h := mkHub (h_status h) (h_pool h) (h_idle h) v (h_sema h) (h_thread h) (h_recver h) (h_env h) (h_trace h).
Definition set_h_sema v h := mkHub (h_status h) (h_pool h) (h_idle h) (h_wait h) v (h_thread h) (h_recver h) (h_env h) (h_trace h).
Definition set_h_thread v h := mkHub (h_status h) (h_pool h) (h_idle h) (h_wait h) (h_sema h) v (h_recver h) (h_env h) (h_trace h).
Definition set_h_recver v h := mkHub (h_status h) (h_pool h) (h_idle h) (h_wait h) (h_sema h) (h_thread h) v (h_env h) (h_trace h).
Definition set_h_env v h := mkHub (h_status h) (h_pool h) (h_idle h) (h_wait h) (h_sema h) (h_thread h) (h_recver h) v (h_trace h).
Definition set_h_trace v h := mkHub (h_status h) (h_pool h) (h_idle h) (h_wait h) (h_sema h) (h_thread h) (h_recver h) (h_env h) v.

Definition hub_test (h : phl_msg_hub) (flag : Z) : bool := TEST_STATUS_FLAG (h_status h) flag.
Definition hub_ex (h : phl_msg_hub) (i : nat) : phl_msg_ex := nth i (h_pool h) zero_ex.
Definition hub_recver (h : phl_msg_hub) (layer : nat) : phl_msg_receiver_ex :=
  nth layer (h_recver h) zero_recver.
Definition recver_test (h : phl_msg_hub) (layer : nat) (flag : Z) : bool :=
  TEST_STATUS_FLAG (rc_status (hub_recver h layer)) flag.
Definition upd_recver (f : phl_msg_receiver_ex -> phl_msg_receiver_ex) (layer : nat) h :=
  set_h_recver (alter f layer (h_recver h)) h.

(** ** Queues *)

(** The popped descriptor is zeroed. *)
Definition hub_pop_idle (h : phl_msg_hub) : option nat * phl_msg_hub :=
  match pq_pop (h_idle h) _first with
  | (Some i, q) => (Some i, set_h_pool (alter (fun _ => zero_ex) i (h_pool h)) (set_h_idle q h))
  | (None, q) => (None, h)
  end.

Definition hub_pop_wait (h : phl_msg_hub) : option nat * phl_msg_hub :=
  let '(r, q) := pq_pop (h_wait h) _first in (r, set_h_wait q h).

Definition hub_push_wait (h : phl_msg_hub) (i : nat) : phl_msg_hub :=
  let h := set_h_wait (pq_push (h_wait h) i _tail) h in
  set_h_sema (h_sema h + 1) h.

(** ** Sending *)

(** [msg = None] is a [NULL] message. *)
Definition phl_msg_hub_send (h : phl_msg_hub) (attr : option phl_msg_attribute)
    (msg : option phl_msg) : rtw_phl_status * phl_msg_hub :=
  match msg with
  | None => (RTW_PHL_STATUS_FAILURE, h)
  | Some msg =>
      if negb (hub_test h MSG_HUB_STARTED) then (RTW_PHL_STATUS_FAILURE, h)
      else
        match hub_pop_idle h with
        | (None, h) => (RTW_PHL_STATUS_RESOURCE, h)
        | (Some i, h) =>
            let set_ctx (x : phl_msg_ex) := mkEx msg (ex_completion x) in
            let h := set_h_pool (alter set_ctx i (h_pool h)) h in
            let h := match attr with
                     | Some a =>
                         if completion (attr_completion a)
                         then set_h_pool (alter (fun x => mkEx (ex_ctx x) (attr_completion a)) i
                                            (h_pool h)) h
                         else h
                     | None => h
                     end in
            (RTW_PHL_STATUS_SUCCESS, hub_push_wait h i)
        end
  end.

(** A call through a function pointer. *)
Definition hub_call (ev : hub_event) (h : phl_msg_hub) : phl_msg_hub :=
  let h := set_h_trace (h_trace h ++ [ev]) h in
  match h_env h with
  | [] => h
  | calls :: env =>
      foldl (fun h '(attr, msg) => snd (phl_msg_hub_send h attr (Some msg))) (set_h_env env h) calls
  end.

Definition hub_push_idle (h : phl_msg_hub) (i : nat) : phl_msg_hub :=
  let c := ex_completion (hub_ex h i) in
  let h := if completion c then hub_call (HubComplete (completion_priv c) (ex_ctx (hub_ex h i))) h
           else h in
  set_h_idle (pq_push (h_idle h) i _tail) h.

(** ** Forwarding *)

Definition forward_layer (i : nat) (h : phl_msg_hub) (layer : nat) : phl_msg_hub :=
  let module_id := MSG_MDL_ID_FIELD (msg_id (ex_ctx (hub_ex h i))) in
  if negb (recver_test h layer MSG_RECVER_INIT) then
    if recver_test h layer MSG_RECVER_CLR_CTX then upd_recver (fun _ => zero_recver) layer h else h
  else if z_true (_chk_bitmap_bit (rc_bitmap (hub_recver h layer)) module_id)
  then hub_call (HubNotify layer (ex_ctx (hub_ex h i))) h
  else h.

Definition msg_forward (h : phl_msg_hub) (i : nat) : phl_msg_hub :=
  if negb (hub_test h MSG_HUB_STARTED) then h
  else foldl (forward_layer i) h (seq 0 MSG_RECV_MAX).

(** ** The thread *)

(** The inner [while] of [msg_thread_hdl]. *)
Fixpoint hub_drain (fuel : nat) (h : phl_msg_hub) : phl_msg_hub :=
  match fuel with
  | O => h
  | S fuel =>
      match hub_pop_wait h with
      | (None, h) => h
      | (Some i, h) => hub_drain fuel (hub_push_idle (msg_forward h i) i)
      end
  end.

(** Messages the environment may still send. *)
Definition hub_env_size (h : phl_msg_hub) : nat := length (concat (h_env h)).
Definition hub_fuel (h : phl_msg_hub) : nat := (length (q_queue (h_wait h)) + hub_env_size h)%nat.

(** One turn of the outer loop, [_os_sema_down] first. *)
Definition msg_thread_turn (h : phl_msg_hub) : phl_msg_hub :=
  hub_drain (hub_fuel h) (set_h_sema (h_sema h - 1) h).

Fixpoint hub_recycle (fuel : nat) (h : phl_msg_hub) : phl_msg_hub :=
  match fuel with
  | O => h
  | S fuel =>
      match hub_pop_wait h with
      | (None, h) => h
      | (Some i, h) => hub_recycle fuel (hub_push_idle h i)
      end
  end.

(** The loop after the thread is told to stop; [None] when it still runs. *)
Fixpoint msg_thread_leave (fuel : nat) (h : phl_msg_hub) : option phl_msg_hub :=
  if q_cnt (h_idle h) =? Z.of_nat MAX_MSG_NUM then Some (set_h_thread HubThreadDone h)
  else
    match fuel with
    | O => None
    | S fuel => msg_thread_leave fuel (hub_recycle (hub_fuel h) h)
    end.

(** ** Life cycle *)

(** [phl->msg_hub]. *)
Inductive hub_ptr := HubNull | HubLive (h : phl_msg_hub) | HubFreed.

Definition zero_hub : phl_msg_hub :=
  mkHub 0 (replicate MAX_MSG_NUM zero_ex) pq_init pq_init 0 HubThreadNone
    (replicate MSG_RECV_MAX zero_recver) [] [].

Definition phl_msg_hub_init (p : hub_ptr) (env : list (list (option phl_msg_attribute * phl_msg)))
    (alloc_ok : bool) : rtw_phl_status * hub_ptr :=
  match p with
  | HubNull =>
      if negb alloc_ok then (RTW_PHL_STATUS_RESOURCE, HubNull)
      else
        let h := set_h_env env zero_hub in
        let h := set_h_sema 0 h in
        let h := set_h_idle pq_init h in
        let h := set_h_wait pq_init h in
        let h := set_h_status (SET_STATUS_FLAG (h_status h) MSG_HUB_INIT) h in
        (RTW_PHL_STATUS_SUCCESS, HubLive h)
  | _ => (RTW_PHL_STATUS_FAILURE, p)
  end.

Definition phl_msg_hub_start (h : phl_msg_hub) : rtw_phl_status * phl_msg_hub :=
  if negb (hub_test h MSG_HUB_INIT) || hub_test h MSG_HUB_STARTED then (RTW_PHL_STATUS_FAILURE, h)
  else
    let h := set_h_pool (replicate MAX_MSG_NUM zero_ex) h in
    let h := set_h_idle (pq_reset (h_idle h)) h in
    let h := set_h_wait (pq_reset (h_wait h)) h in
    let h := foldl (fun h i => set_h_idle (pq_push (h_idle h) i _tail) h) h (seq 0 MAX_MSG_NUM) in
    let h := set_h_thread HubThreadRunning h in
    let h := set_h_status (SET_STATUS_FLAG (h_status h) MSG_HUB_STARTED) h in
    (RTW_PHL_STATUS_SUCCESS, h).

(** [_os_thread_deinit] waits for the thread to leave. *)
Definition phl_msg_hub_stop (fuel : nat) (h : phl_msg_hub) : option (rtw_phl_status * phl_msg_hub) :=
  if negb (hub_test h MSG_HUB_STARTED) then Some (RTW_PHL_STATUS_FAILURE, h)
  else
    let h := set_h_status (CLEAR_STATUS_FLAG (h_status h) MSG_HUB_STARTED) h in
    let h := set_h_sema (h_sema h + 1) h in
    h ← msg_thread_leave fuel h;
    let h := set_h_idle (pq_reset (h_idle h)) h in
    let h := set_h_wait (pq_reset (h_wait h)) h in
    Some (RTW_PHL_STATUS_SUCCESS, h).

(** The object is freed; [phl->msg_hub] keeps pointing to it. *)
Definition phl_msg_hub_deinit (fuel : nat) (h : phl_msg_hub) : option (rtw_phl_status * hub_ptr) :=
  if negb (hub_test h MSG_HUB_INIT) then Some (RTW_PHL_STATUS_FAILURE, HubLive h)
  else
    let h := set_h_status (CLEAR_STATUS_FLAG (h_status h) MSG_HUB_INIT) h in
    _ ← phl_msg_hub_stop fuel h;
    Some (RTW_PHL_STATUS_SUCCESS, HubFreed).

(** ** Receivers *)

(** [ctx = None] is a [NULL] receiver. *)
Definition phl_msg_hub_register_recver (h : phl_msg_hub) (ctx : option Z) (layer : Z) :
    rtw_phl_status * phl_msg_hub :=
  match ctx with
  | None => (RTW_PHL_STATUS_FAILURE, h)
  | Some ctx =>
      if negb (hub_test h MSG_HUB_INIT) || (Z.of_nat MSG_RECV_MAX <=? layer)
      then (RTW_PHL_STATUS_FAILURE, h)
      else if recver_test h (Z.to_nat layer) MSG_RECVER_INIT then (RTW_PHL_STATUS_FAILURE, h)
      else (RTW_PHL_STATUS_SUCCESS,
            upd_recver (fun r => mkRecver (SET_STATUS_FLAG (rc_status r) MSG_RECVER_INIT) empty_map ctx)
              (Z.to_nat layer) h)
  end.

Definition phl_msg_hub_update_recver_mask (h : phl_msg_hub) (layer : Z) (mdl_id : list Z)
    (clr : bool) : rtw_phl_status * phl_msg_hub :=
  if negb (hub_test h MSG_HUB_INIT) || (Z.of_nat MSG_RECV_MAX <=? layer)
  then (RTW_PHL_STATUS_FAILURE, h)
  else if negb (recver_test h (Z.to_nat layer) MSG_RECVER_INIT) then (RTW_PHL_STATUS_FAILURE, h)
  else (RTW_PHL_STATUS_SUCCESS,
        upd_recver (fun r => mkRecver (rc_status r)
                      (if clr then _clr_bitmap_bit (rc_bitmap r) mdl_id
                       else _add_bitmap_bit (rc_bitmap r) mdl_id) (rc_ctx r))
          (Z.to_nat layer) h).

Definition phl_msg_hub_deregister_recver (h : phl_msg_hub) (layer : Z) :
    rtw_phl_status * phl_msg_hub :=
  if negb (hub_test h MSG_HUB_INIT) || (Z.of_nat MSG_RECV_MAX <=? layer)
  then (RTW_PHL_STATUS_FAILURE, h)
  else if negb (recver_test h (Z.to_nat layer) MSG_RECVER_INIT) then (RTW_PHL_STATUS_FAILURE, h)
  else (RTW_PHL_STATUS_SUCCESS,
        upd_recver (fun r =>
          let st := CLEAR_STATUS_FLAG (rc_status r) MSG_RECVER_INIT in
          mkRecver (SET_STATUS_FLAG st MSG_RECVER_CLR_CTX) (rc_bitmap r) (rc_ctx r))
          (Z.to_nat layer) h).
