(* ===== verification/MsgHubThm.v ===== *)
(** * What the message hub guarantees

    Descriptors are conserved, a turn of the thread forwards everything that
    waits even if receivers send more, messages reach the receivers in the order
    in which they were sent, and stopping gives every descriptor back. *)

From S2P Require Import Prelude PhlQueue PhlDef DispState MsgHub.

(** ** Invariant *)

(** [held] are the descriptors the thread is working on; at least [s] signals
    are pending. *)
Record hub_ok (held : list nat) (s : Z) (h : phl_msg_hub) : Prop := {
  ho_len : length (h_pool h) = MAX_MSG_NUM;
  ho_split : pool_split MAX_MSG_NUM [q_queue (h_idle h); q_queue (h_wait h); held];
  ho_idle_wf : pq_wf (h_idle h);
  ho_wait_wf : pq_wf (h_wait h);
  ho_sema : s <= h_sema h }.

Section ok.
Implicit Types (h : phl_msg_hub) (held : list nat).

Lemma hub_ok_frame held s h h' :
  length (h_pool h') = length (h_pool h) -> h_idle h' = h_idle h -> h_wait h' = h_wait h ->
  h_sema h' = h_sema h -> hub_ok held s h -> hub_ok held s h'.
Proof. intros E1 E2 E3 E4 []. split; rewrite ?E1, ?E2, ?E3, ?E4; done. Qed.

Lemma hub_ok_pop_wait held s h i h' :
  hub_pop_wait h = (Some i, h') -> hub_ok held s h ->
  hub_ok (i :: held) s h' /\ q_queue (h_wait h) = i :: q_queue (h_wait h').
Proof.
  unfold hub_pop_wait. destruct (pq_pop (h_wait h) _first) as [r q] eqn:E. intros [= -> <-] [].
  pose proof (pq_pop_Some_wf _ _ _ ho_wait_wf0 E). apply pq_pop_Some in E as [E _]. split; [|done].
  split; try done. unfold pool_split in *. cbn in *. rewrite E in ho_split0. cbn in ho_split0.
  rewrite <- ho_split0. perm_solve.
Qed.

Lemma hub_ok_push_idle held s h i :
  hub_ok (i :: held) s h -> hub_ok held s (set_h_idle (pq_push (h_idle h) i _tail) h).
Proof.
  intros []. split; try done; [|by apply pq_push_wf].
  unfold pool_split in *. cbn in *. rewrite <- ho_split0. perm_solve.
Qed.

(** A send moves a descriptor from idle to waiting. *)
Lemma hub_ok_send held s h attr msg :
  hub_ok held s h -> hub_ok held s (snd (phl_msg_hub_send h attr msg)).
Proof.
  intros Hok. unfold phl_msg_hub_send. destruct msg as [msg|]; [|done].
  destruct (hub_test h MSG_HUB_STARTED); [cbn [negb]|done].
  unfold hub_pop_idle. destruct (pq_pop (h_idle h) _first) as [[i|] q] eqn:E; [|done].
  destruct Hok. pose proof (pq_pop_Some_wf _ _ _ ho_idle_wf0 E). apply pq_pop_Some in E as [E _].
  set (h1 := match attr with Some a => _ | None => _ end).
  assert (length (h_pool h1) = MAX_MSG_NUM /\ h_idle h1 = q /\ h_wait h1 = h_wait h /\ h_sema h1 = h_sema h)
    as (E1 & E2 & E3 & E4).
  { unfold h1. destruct attr as [a|]; [destruct (completion (attr_completion a))|];
      cbn; by rewrite !length_alter. }
  clearbody h1. cbn [snd]. unfold hub_push_wait. split; cbn; rewrite ?E1, ?E2, ?E3, ?E4; try done; [|by apply pq_push_wf|lia].
  unfold pool_split in *. cbn in *. rewrite <- ho_split0, E. perm_solve.
Qed.

Lemma hub_send_load h attr msg :
  (hub_fuel (snd (phl_msg_hub_send h attr msg)) <= hub_fuel h + 1)%nat /\
  h_env (snd (phl_msg_hub_send h attr msg)) = h_env h.
Proof.
  unfold phl_msg_hub_send. destruct msg as [msg|]; [|split; [cbn; lia|done]].
  destruct (hub_test h MSG_HUB_STARTED); cbn [negb]; [|split; [cbn; lia|done]].
  unfold hub_pop_idle. destruct (pq_pop (h_idle h) _first) as [[i|] q] eqn:E; [|split; [cbn; lia|done]].
  set (h1 := match attr with Some a => _ | None => _ end).
  assert (h_wait h1 = h_wait h /\ h_env h1 = h_env h) as [E1 E2].
  { unfold h1. destruct attr as [a|]; [destruct (completion (attr_completion a))|]; done. }
  clearbody h1. cbn [snd]. unfold hub_fuel, hub_env_size, hub_push_wait. cbn. rewrite E1, E2.
  split; [rewrite pq_push_length; lia|done].
Qed.

Lemma hub_ok_call held s ev h :
  hub_ok held s h -> hub_ok held s (hub_call ev h) /\ (hub_fuel (hub_call ev h) <= hub_fuel h)%nat.
Proof.
  intros Hok. unfold hub_call. cbn [h_env set_h_trace]. destruct (h_env h) as [|calls env] eqn:E.
  { split; [by apply (hub_ok_frame held s h)|done]. }
  set (h1 := set_h_env env _).
  assert (hub_ok held s h1) as H1 by (by apply (hub_ok_frame held s h)).
  assert (hub_fuel h = (hub_fuel h1 + length calls)%nat) as Hf.
  { unfold hub_fuel, hub_env_size. rewrite E. cbn. rewrite length_app. lia. }
  rewrite Hf. clearbody h1. clear Hok Hf E. revert h1 H1.
  induction calls as [|[attr msg] calls IH]; intros h1 H1; cbn [foldl length]; [split; [done|lia]|].
  destruct (IH _ (hub_ok_send _ _ _ attr (Some msg) H1)) as [H2 H3]. split; [done|].
  destruct (hub_send_load h1 attr (Some msg)) as [H4 _]. lia.
Qed.

Lemma hub_ok_recycle held s h i :
  hub_ok (i :: held) s h ->
  hub_ok held s (hub_push_idle h i) /\ (hub_fuel (hub_push_idle h i) <= hub_fuel h)%nat.
Proof.
  intros Hok. unfold hub_push_idle. case_if.
  - destruct (hub_ok_call _ _ (HubComplete (completion_priv (ex_completion (hub_ex h i)))
      (ex_ctx (hub_ex h i))) _ Hok) as [H1 H2].
    split; [by apply hub_ok_push_idle|exact H2].
  - split; [by apply hub_ok_push_idle|done].
Qed.

Lemma hub_ok_forward held s h i :
  hub_ok held s h -> hub_ok held s (msg_forward h i) /\ (hub_fuel (msg_forward h i) <= hub_fuel h)%nat.
Proof.
  intros Hok. unfold msg_forward. case_if; [done|].
  assert (forall l h1, hub_ok held s h1 -> hub_ok held s (foldl (forward_layer i) h1 l) /\
            (hub_fuel (foldl (forward_layer i) h1 l) <= hub_fuel h1)%nat) as Hl; [|by apply Hl].
  clear. induction l as [|layer l IH]; intros h1 H1; cbn; [done|].
  assert (hub_ok held s (forward_layer i h1 layer) /\ (hub_fuel (forward_layer i h1 layer) <= hub_fuel h1)%nat)
    as [H2 H3].
  { unfold forward_layer. case_if; [case_if; [|done]|].
    - split; [by apply (hub_ok_frame held s h1)|done].
    - case_if; [by apply hub_ok_call|done]. }
  destruct (IH _ H2). split; [done|lia].
Qed.

Lemma hub_drain_ok held s fuel : forall h,
  hub_ok held s h -> (hub_fuel h <= fuel)%nat ->
  hub_ok held s (hub_drain fuel h) /\ q_queue (h_wait (hub_drain fuel h)) = [].
Proof.
  induction fuel as [|fuel IH]; intros h Hok Hf; cbn [hub_drain].
  { split; [done|]. unfold hub_fuel in Hf. apply length_zero_iff_nil. lia. }
  destruct (hub_pop_wait h) as [[i|] h1] eqn:E.
  - pose proof (hub_ok_pop_wait _ _ _ _ _ E Hok) as [H1 Hq].
    assert (hub_fuel h = S (hub_fuel h1)) as Hl.
    { unfold hub_fuel, hub_env_size. rewrite Hq. revert E. unfold hub_pop_wait.
      destruct (pq_pop (h_wait h) _first). by intros [= _ <-]. }
    destruct (hub_ok_forward _ _ _ i H1) as [H2 L2]. destruct (hub_ok_recycle _ _ _ _ H2) as [H3 L3].
    apply IH; [done|lia].
  - revert E. unfold hub_pop_wait. destruct (pq_pop (h_wait h) _first) as [r q] eqn:Ep.
    intros [= -> <-]. pose proof (pq_pop_empty _ _ (ho_wait_wf _ _ _ Hok) Ep) as He.
    apply pq_pop_None in Ep as ->. split; [by apply (hub_ok_frame held s h)|done].
Qed.
End ok.

(** ** Reachable hubs *)

Inductive hub_reach : phl_msg_hub -> Prop :=
| hub_reach_start h h' :
    phl_msg_hub_start h = (RTW_PHL_STATUS_SUCCESS, h') -> 0 <= h_sema h -> hub_reach h'
| hub_reach_env h e : hub_reach h -> hub_reach (set_h_env e h)
| hub_reach_send h attr msg : hub_reach h -> hub_reach (snd (phl_msg_hub_send h attr msg))
| hub_reach_turn h : hub_reach h -> 0 < h_sema h -> hub_reach (msg_thread_turn h)
| hub_reach_register h ctx layer :
    hub_reach h -> hub_reach (snd (phl_msg_hub_register_recver h ctx layer))
| hub_reach_update h layer ids clr :
    hub_reach h -> hub_reach (snd (phl_msg_hub_update_recver_mask h layer ids clr))
| hub_reach_deregister h layer :
    hub_reach h -> hub_reach (snd (phl_msg_hub_deregister_recver h layer)).

(** Every waiting message has a pending signal. *)
Definition hub_inv (h : phl_msg_hub) : Prop :=
  hub_ok [] 0 h /\ Z.of_nat (length (q_queue (h_wait h))) <= h_sema h.

Lemma hub_start_ok h h' :
  phl_msg_hub_start h = (RTW_PHL_STATUS_SUCCESS, h') -> 0 <= h_sema h -> hub_inv h'.
Proof.
  unfold phl_msg_hub_start. destruct (negb (hub_test h MSG_HUB_INIT) || hub_test h MSG_HUB_STARTED); [done|].
  intros E Hs. apply (f_equal snd) in E. cbn [snd] in E. subst h'.
  split; [|exact Hs]. split; [reflexivity| |reflexivity|reflexivity|exact Hs].
  change (seq 0 16 ≡ₚ seq 0 16). reflexivity.
Qed.

Lemma hub_send_inv h attr msg : hub_inv h -> hub_inv (snd (phl_msg_hub_send h attr msg)).
Proof.
  intros [H Hw]. split; [by apply hub_ok_send|]. revert Hw. unfold phl_msg_hub_send.
  destruct msg as [msg|]; [|done]. destruct (hub_test h MSG_HUB_STARTED); cbn [negb]; [|done].
  unfold hub_pop_idle. destruct (pq_pop (h_idle h) _first) as [[i|] q] eqn:E; [|done].
  destruct attr as [a|]; [destruct (completion (attr_completion a))|];
    cbn [snd hub_push_wait set_h_sema set_h_wait h_wait h_sema set_h_pool]; rewrite pq_push_length; cbn; lia.
Qed.

Lemma hub_turn_inv h : hub_inv h -> 0 < h_sema h -> hub_inv (msg_thread_turn h).
Proof.
  intros [H Hw] Hs. unfold msg_thread_turn. set (h1 := set_h_sema (h_sema h - 1) h).
  assert (hub_ok [] 0 h1) as H1 by (destruct H; split; try done; cbn; lia).
  destruct (hub_drain_ok [] 0 (hub_fuel h) h1 H1) as [H2 H3]; [done|]. split; [done|].
  rewrite H3. apply H2.
Qed.

Lemma hub_reach_inv h : hub_reach h -> hub_inv h.
Proof.
  induction 1 as [h h' E Hs|h e _ [H ?]|h attr msg _ IH|h _ IH Hs|h ctx layer _ IH|h layer ids clr _ IH|h layer _ IH].
  - by eapply hub_start_ok.
  - split; [by apply (hub_ok_frame [] 0 h)|done].
  - by apply hub_send_inv.
  - by apply hub_turn_inv.
  - unfold phl_msg_hub_register_recver. destruct ctx; [|done]. repeat (case_match; [done|]).
    destruct IH as [IH1 IH2]. split; [by apply (hub_ok_frame [] 0 h)|done].
  - unfold phl_msg_hub_update_recver_mask. repeat (case_match; [done|]).
    destruct IH as [IH1 IH2]. split; [by apply (hub_ok_frame [] 0 h)|done].
  - unfold phl_msg_hub_deregister_recver. repeat (case_match; [done|]).
    destruct IH as [IH1 IH2]. split; [by apply (hub_ok_frame [] 0 h)|done].
Qed.

(** ** A concrete hub *)

(** Receivers for modules 10 and 11 (layer 0) and 11 (layer 1). *)
Definition hub0 : phl_msg_hub :=
  match phl_msg_hub_init HubNull [] true with (_, HubLive h) => h | _ => zero_hub end.
Definition hub1 : phl_msg_hub :=
  let h := snd (phl_msg_hub_start hub0) in
  let h := snd (phl_msg_hub_register_recver h (Some 7) 0) in
  let h := snd (phl_msg_hub_register_recver h (Some 8) 1) in
  let h := snd (phl_msg_hub_update_recver_mask h 0 [10; 11] false) in
  snd (phl_msg_hub_update_recver_mask h 1 [11] false).
Definition hub_msg (mdl evt : Z) : phl_msg :=
  set_msg_id (SET_MSG_EVT_ID_FIELD (SET_MSG_MDL_ID_FIELD 0 mdl) evt) zero_msg.
Definition hub_attr : phl_msg_attribute := mkAttr 0 (mkNotify None 0) (mkCompletion true 5).
Definition hub2 : phl_msg_hub :=
  snd (phl_msg_hub_send (snd (phl_msg_hub_send hub1 None (Some (hub_msg 11 1))))
         (Some hub_attr) (Some (hub_msg 10 2))).

Lemma hub1_reach : hub_reach hub1.
Proof.
  apply hub_reach_update, hub_reach_update, hub_reach_register, hub_reach_register.
  apply (hub_reach_start hub0); [vm_compute; reflexivity|vm_compute; congruence].
Qed.

Lemma hub2_reach : hub_reach hub2.
Proof. apply hub_reach_send, hub_reach_send, hub1_reach. Qed.

(** ** Theorems *)

(** In every reachable state of the message hub each descriptor is either
    idle or waiting, never both, and the semaphore counts at least the waiting
    messages. *)
Theorem hub_descriptors_conserved h :
  hub_reach h ->
  pool_split MAX_MSG_NUM [q_queue (h_idle h); q_queue (h_wait h)] /\
  Z.of_nat (length (q_queue (h_wait h))) <= h_sema h.
Proof.
  intros H. destruct (hub_reach_inv h H) as [[_ Hs _ _ _] Hw]. split; [|done].
  unfold pool_split in *. cbn in *. by rewrite !app_nil_r in *.
Qed.

Lemma hub_descriptors_conserved_witness :
  q_queue (h_wait hub2) = [0; 1]%nat /\
  pool_split MAX_MSG_NUM [q_queue (h_idle hub2); q_queue (h_wait hub2)].
Proof.
  split; [vm_compute; reflexivity|]. apply (hub_descriptors_conserved hub2 hub2_reach).
Defined.

(** One turn of the hub's thread ends with the waiting queue empty and
    all descriptors idle, although receivers may send again while it runs. *)
Theorem hub_turn_drains h :
  hub_reach h -> 0 < h_sema h ->
  q_queue (h_wait (msg_thread_turn h)) = [] /\
  q_cnt (h_idle (msg_thread_turn h)) = Z.of_nat MAX_MSG_NUM /\ 0 <= h_sema (msg_thread_turn h).
Proof.
  intros Hr Hs. destruct (hub_reach_inv h Hr) as [H Hw]. unfold msg_thread_turn.
  set (h1 := set_h_sema (h_sema h - 1) h).
  assert (hub_ok [] 0 h1) as H1 by (destruct H; split; try done; cbn; lia).
  destruct (hub_drain_ok [] 0 (hub_fuel h) h1 H1) as [H2 H3]; [done|]. split; [done|].
  split; [|apply H2]. rewrite (ho_idle_wf _ _ _ H2).
  pose proof (pool_split_length _ _ (ho_split _ _ _ H2)) as Hl. rewrite H3 in Hl. cbn in Hl.
  rewrite !app_nil_r in Hl. by rewrite Hl.
Qed.

(** A receiver that answers a message with another one. *)
Lemma hub_turn_drains_witness :
  let h := set_h_env [[(None, hub_msg 10 9)]] hub2 in
  q_queue (h_wait (msg_thread_turn h)) = [] /\ length (h_trace (msg_thread_turn h)) = 5%nat.
Proof.
  intros h. split; [|vm_compute; reflexivity].
  apply (hub_turn_drains h); [apply hub_reach_env, hub2_reach|vm_compute; reflexivity].
Defined.

(** ** Order of delivery *)

(** The bitmap of a registered receiver. *)
Definition active (h : phl_msg_hub) (layer : nat) : option (list Z) :=
  if recver_test h layer MSG_RECVER_INIT then Some (rc_bitmap (hub_recver h layer)) else None.

Definition layer_event (h : phl_msg_hub) (msg : phl_msg) (layer : nat) : list hub_event :=
  match active h layer with
  | Some bm => if bit_in bm (MSG_MDL_ID_FIELD (msg_id msg)) then [HubNotify layer msg] else []
  | None => []
  end.

(** What happens to a message: the registered receivers of its module, lowest
    layer first, then its completion routine. *)
Definition deliveries (h : phl_msg_hub) (x : phl_msg_ex) : list hub_event :=
  concat (layer_event h (ex_ctx x) <$> seq 0 MSG_RECV_MAX) ++
  (if completion (ex_completion x) then [HubComplete (completion_priv (ex_completion x)) (ex_ctx x)] else []).

(** Equal but for the trace and for receivers that are not registered. *)
Record hub_same (t : list hub_event) (h h' : phl_msg_hub) : Prop := {
  hs_status : h_status h' = h_status h;
  hs_pool : h_pool h' = h_pool h;
  hs_wait : h_wait h' = h_wait h;
  hs_env : h_env h' = h_env h;
  hs_active : forall layer, active h' layer = active h layer;
  hs_trace : h_trace h' = h_trace h ++ t }.

Section order.
Implicit Types (h : phl_msg_hub).

Lemma hub_same_refl h : hub_same [] h h.
Proof. split; try done. by rewrite app_nil_r. Qed.

Lemma hub_same_trans t1 t2 h1 h2 h3 :
  hub_same t1 h1 h2 -> hub_same t2 h2 h3 -> hub_same (t1 ++ t2) h1 h3.
Proof. intros [] []. split; try congruence. rewrite hs_trace1, hs_trace0. by rewrite app_assoc. Qed.

Lemma active_zeroed h layer :
  recver_test h layer MSG_RECVER_INIT = false ->
  forall layer', active (upd_recver (fun _ => zero_recver) layer h) layer' = active h layer'.
Proof.
  intros Ht layer'. unfold active, recver_test, hub_recver, upd_recver. cbn. rewrite nth_alter.
  destruct (decide (layer = layer')) as [<-|]; [|done]. unfold recver_test, hub_recver in Ht. rewrite Ht.
  by case_decide.
Qed.

Lemma forward_layer_same h i layer :
  h_env h = [] -> hub_same (layer_event h (ex_ctx (hub_ex h i)) layer) h (forward_layer i h layer).
Proof.
  intros He. unfold forward_layer, layer_event, active.
  destruct (recver_test h layer MSG_RECVER_INIT) eqn:Ht; cbn [negb].
  - rewrite chk_bitmap_bit_true. destruct (bit_in _ _); [|apply hub_same_refl].
    unfold hub_call. cbn [h_env set_h_trace]. rewrite He. by split.
  - case_if; [|apply hub_same_refl]. split; try done; [by apply active_zeroed|]. cbn. by rewrite app_nil_r.
Qed.

Lemma same_ex t h h' i : hub_same t h h' -> hub_ex h' i = hub_ex h i.
Proof. intros H. unfold hub_ex. by rewrite (hs_pool _ _ _ H). Qed.

Lemma same_event t h h' msg layer : hub_same t h h' -> layer_event h' msg layer = layer_event h msg layer.
Proof. intros H. unfold layer_event. by rewrite (hs_active _ _ _ H). Qed.

Lemma forward_same h i :
  h_env h = [] -> hub_test h MSG_HUB_STARTED = true ->
  hub_same (concat (layer_event h (ex_ctx (hub_ex h i)) <$> seq 0 MSG_RECV_MAX)) h (msg_forward h i).
Proof.
  intros He Hs. unfold msg_forward. rewrite Hs. cbn [negb]. set (m := ex_ctx (hub_ex h i)).
  assert (forall l t h1, hub_same t h h1 ->
    hub_same (t ++ concat (layer_event h m <$> l)) h (foldl (forward_layer i) h1 l)) as Hl.
  { induction l as [|layer l IH]; intros t h1 H1; cbn; [by rewrite app_nil_r|].
    rewrite app_assoc. apply IH. eapply hub_same_trans; [exact H1|].
    rewrite <- (same_event _ _ _ m layer H1). unfold m. rewrite <- (same_ex _ _ _ i H1).
    apply forward_layer_same. by rewrite (hs_env _ _ _ H1). }
  apply (Hl _ []), hub_same_refl.
Qed.

Lemma process_same h i :
  h_env h = [] -> hub_test h MSG_HUB_STARTED = true ->
  hub_same (deliveries h (hub_ex h i)) h (hub_push_idle (msg_forward h i) i).
Proof.
  intros He Hs. pose proof (forward_same h i He Hs) as H. unfold deliveries. set (h1 := msg_forward h i) in *.
  clearbody h1. unfold hub_push_idle. rewrite (same_ex _ _ _ i H). case_if.
  - eapply hub_same_trans; [exact H|]. unfold hub_call. cbn [h_env set_h_trace].
    rewrite (hs_env _ _ _ H), He. by split.
  - rewrite app_nil_r. destruct H. by split.
Qed.

Lemma drain_trace fuel : forall h,
  h_env h = [] -> hub_test h MSG_HUB_STARTED = true -> pq_wf (h_wait h) ->
  (length (q_queue (h_wait h)) <= fuel)%nat ->
  h_trace (hub_drain fuel h) =
  h_trace h ++ concat ((fun i => deliveries h (hub_ex h i)) <$> q_queue (h_wait h)).
Proof.
  induction fuel as [|fuel IH]; intros h He Hs Hwf Hf; cbn [hub_drain].
  { destruct (q_queue (h_wait h)); cbn in *; [by rewrite app_nil_r|lia]. }
  unfold hub_pop_wait. rewrite pq_pop_first by done.
  destruct (q_queue (h_wait h)) as [|i l] eqn:Eq; [cbn; by rewrite app_nil_r|].
  set (q := mkQueue l _). set (h1 := set_h_wait q h).
  pose proof (process_same h1 i He Hs) as H. set (h2 := hub_push_idle _ i) in *. clearbody h2.
  assert (pq_wf q) as Hq by (unfold pq_wf in *; cbn; rewrite Hwf, Eq; cbn; lia).
  rewrite IH.
  - rewrite (hs_trace _ _ _ H), (hs_wait _ _ _ H). cbn. rewrite <- app_assoc. do 3 f_equal.
    apply list_fmap_ext. intros k j _. unfold deliveries. rewrite (same_ex _ _ _ j H).
    change (hub_ex h1 j) with (hub_ex h j). f_equal. cbn.
    by rewrite !(same_event _ _ _ _ _ H).
  - by rewrite (hs_env _ _ _ H).
  - unfold hub_test. by rewrite (hs_status _ _ _ H).
  - rewrite (hs_wait _ _ _ H). exact Hq.
  - rewrite (hs_wait _ _ _ H). cbn in *. lia.
Qed.

(** C8: With receivers that do not send, a turn delivers the waiting messages
    in the order sent, each to the registered layers whose bitmap has the
    sender's bit, in layer order, and then calls its completion. *)
Theorem hub_delivers_in_order h :
  hub_reach h -> h_env h = [] -> hub_test h MSG_HUB_STARTED = true ->
  h_trace (msg_thread_turn h) =
  h_trace h ++ concat ((fun i => deliveries h (hub_ex h i)) <$> q_queue (h_wait h)).
Proof.
  intros Hr He Hs. destruct (hub_reach_inv h Hr) as [H _]. unfold msg_thread_turn.
  rewrite (drain_trace _ (set_h_sema (h_sema h - 1) h)); [done|done|done|apply H|].
  unfold hub_fuel. cbn. lia.
Qed.
End order.

Lemma hub_delivers_in_order_witness :
  h_trace (msg_thread_turn hub2) =
  [HubNotify 0 (hub_msg 11 1); HubNotify 1 (hub_msg 11 1); HubNotify 0 (hub_msg 10 2);
   HubComplete 5 (hub_msg 10 2)].
Proof.
  rewrite (hub_delivers_in_order hub2);
    [vm_compute; reflexivity|apply hub2_reach|vm_compute; reflexivity|vm_compute; reflexivity].
Defined.

(** ** Stopping *)

Lemma send_stopped h attr msg :
  hub_test h MSG_HUB_STARTED = false -> snd (phl_msg_hub_send h attr msg) = h.
Proof. intros H. unfold phl_msg_hub_send. destruct msg; [|done]. by rewrite H. Qed.

Lemma recycle_ok fuel : forall h,
  hub_ok [] 0 h -> (hub_fuel h <= fuel)%nat ->
  hub_ok [] 0 (hub_recycle fuel h) /\ q_queue (h_wait (hub_recycle fuel h)) = [].
Proof.
  induction fuel as [|fuel IH]; intros h Hok Hf; cbn [hub_recycle].
  { split; [done|]. unfold hub_fuel in Hf. apply length_zero_iff_nil. lia. }
  destruct (hub_pop_wait h) as [[i|] h1] eqn:E.
  - pose proof (hub_ok_pop_wait _ _ _ _ _ E Hok) as [H1 Hq].
    assert (hub_fuel h = S (hub_fuel h1)) as Hl.
    { unfold hub_fuel, hub_env_size. rewrite Hq. revert E. unfold hub_pop_wait.
      destruct (pq_pop (h_wait h) _first). by intros [= _ <-]. }
    destruct (hub_ok_recycle _ _ _ _ H1) as [H3 L3]. apply IH; [done|lia].
  - revert E. unfold hub_pop_wait. destruct (pq_pop (h_wait h) _first) as [r q] eqn:Ep.
    intros [= -> <-]. pose proof (pq_pop_empty _ _ (ho_wait_wf _ _ _ Hok) Ep) as He.
    apply pq_pop_None in Ep as ->. split; [by apply (hub_ok_frame [] 0 h)|done].
Qed.

Lemma hub_ok_idle h : hub_ok [] 0 h -> q_queue (h_wait h) = [] -> q_cnt (h_idle h) = Z.of_nat MAX_MSG_NUM.
Proof.
  intros H Hw. rewrite (ho_idle_wf _ _ _ H). pose proof (pool_split_length _ _ (ho_split _ _ _ H)) as Hl.
  rewrite Hw in Hl. cbn in Hl. rewrite !app_nil_r in Hl. by rewrite Hl.
Qed.

Lemma leave_ok h :
  hub_ok [] 0 h -> exists h', msg_thread_leave 1 h = Some (set_h_thread HubThreadDone h') /\
    q_cnt (h_idle h') = Z.of_nat MAX_MSG_NUM.
Proof.
  intros H. cbn [msg_thread_leave]. destruct (q_cnt (h_idle h) =? Z.of_nat MAX_MSG_NUM) eqn:E.
  { exists h. split; [done|]. by apply Z.eqb_eq. }
  destruct (recycle_ok (hub_fuel h) h H) as [H1 H2]; [done|].
  pose proof (hub_ok_idle _ H1 H2) as H3. rewrite H3, Z.eqb_refl. by eexists.
Qed.

(** Stopping a started hub returns success, with its thread finished and
    both queues empty. *)
Theorem hub_stop_completes h :
  hub_reach h -> hub_test h MSG_HUB_STARTED = true ->
  exists h', phl_msg_hub_stop 1 h = Some (RTW_PHL_STATUS_SUCCESS, h') /\
    h_thread h' = HubThreadDone /\ h_wait h' = pq_init /\ h_idle h' = pq_init.
Proof.
  intros Hr Hs. destruct (hub_reach_inv h Hr) as [H _]. unfold phl_msg_hub_stop. rewrite Hs. cbn [negb].
  set (h1 := set_h_sema _ _).
  destruct (leave_ok h1) as (h' & E & _); [destruct H; split; try done; cbn; lia|].
  rewrite E. cbn. eexists. split; [reflexivity|]. done.
Qed.

Lemma hub_stop_completes_witness :
  exists h', phl_msg_hub_stop 1 hub2 = Some (RTW_PHL_STATUS_SUCCESS, h') /\ h_thread h' = HubThreadDone.
Proof.
  destruct (hub_stop_completes hub2 hub2_reach) as (h' & H1 & H2 & _); [vm_compute; reflexivity|].
  exists h'. exact (conj H1 H2).
Defined.

(** The pointer to the hub outlives it: initialising again fails. *)
Theorem hub_no_reinit_after_deinit fuel h p env ok :
  phl_msg_hub_deinit fuel h = Some (RTW_PHL_STATUS_SUCCESS, p) ->
  phl_msg_hub_init p env ok = (RTW_PHL_STATUS_FAILURE, HubFreed).
Proof.
  unfold phl_msg_hub_deinit. case_if; [intros [=]|]. set (h1 := set_h_status _ h). clearbody h1.
  destruct (phl_msg_hub_stop fuel h1); cbn; [|intros [=]]. by intros [= <-].
Qed.

Lemma hub_no_reinit_after_deinit_witness :
  exists p, phl_msg_hub_deinit 1 hub2 = Some (RTW_PHL_STATUS_SUCCESS, p) /\
    phl_msg_hub_init p [] true = (RTW_PHL_STATUS_FAILURE, HubFreed).
Proof.
  exists HubFreed. split; [vm_compute; reflexivity|].
  apply (hub_no_reinit_after_deinit 1 hub2). vm_compute. reflexivity.
Defined.
