(* ===== verification/DataPath.v ===== *)
(** * Pausing and resuming the data path
    (src/phl/phl_tx.c, lines 1251 to 1273, 1357 to 1490 and 1697 to 2220;
    src/phl/hci/phl_trx_pcie.c, the status functions and the handlers;
    rtw_phl_reset of src/phl/phl_init.c)

    Modules pause and resume transmission and reception.  Each direction has a
    status and the set of modules that hold a pause; a handler (a tasklet) does
    the work and takes the step from "stop in progress" to "paused".  Starting the
    driver sets both directions running.  Commands
    come from one thread, handlers run at any time: while a command polls, the
    environment says how many steps the handler takes before each poll. *)

From S2P Require Import Prelude PhlQueue PhlDef.

(** ** Constants *)

(** [enum phl_tx_status] and [enum phl_rx_status] have the same values. *)
Definition PHL_TX_STATUS_IDLE : Z := 0.
Definition PHL_TX_STATUS_RUNNING : Z := 1.
Definition PHL_TX_STATUS_STOP_INPROGRESS : Z := 2.
Definition PHL_TX_STATUS_SW_PAUSE : Z := 3.

Definition DATA_CTRL_MDL_NONE : Z := 0.
Definition DATA_CTRL_MDL_CMD_CTRLER : Z := BIT 0.
Definition DATA_CTRL_MDL_SER : Z := BIT 1.
Definition DATA_CTRL_MDL_PS : Z := BIT 2.

Definition CTRL_ERR_SW_TX_PAUSE_POLLTO : Z := 1.
Definition CTRL_ERR_SW_TX_PAUSE_FAIL : Z := 2.
Definition CTRL_ERR_SW_TX_RESUME_FAIL : Z := 3.
Definition CTRL_ERR_SW_RX_PAUSE_POLLTO : Z := 4.
Definition CTRL_ERR_SW_RX_PAUSE_FAIL : Z := 5.
Definition CTRL_ERR_SW_RX_RESUME_FAIL : Z := 6.
Definition CTRL_ERR_HW_TRX_PAUSE_FAIL : Z := 7.
Definition CTRL_ERR_HW_TRX_RESUME_FAIL : Z := 8.

Definition POLL_SW_TX_PAUSE_CNT : nat := 100.
Definition POLL_SW_RX_PAUSE_CNT : nat := 100.

Definition PHL_MDL_TX : Z := 2.
Definition PHL_MDL_RX : Z := 3.
Definition PHL_MDL_SER : Z := 42.

(** [enum phl_data_ctrl_cmd]. *)
Inductive phl_data_ctrl_cmd :=
| PHL_DATA_CTL_HW_TRX_RST_RESUME | PHL_DATA_CTL_HW_TRX_PAUSE
| PHL_DATA_CTL_SW_TX_RESUME | PHL_DATA_CTL_SW_RX_RESUME
| PHL_DATA_CTL_SW_TX_PAUSE | PHL_DATA_CTL_SW_RX_PAUSE
| PHL_DATA_CTL_SW_TX_RESET | PHL_DATA_CTL_SW_RX_RESET
| PHL_DATA_CTL_TRX_SW_PAUSE | PHL_DATA_CTL_TRX_SW_RESUME
| PHL_DATA_CTL_TRX_PAUSE_W_RST | PHL_DATA_CTL_TRX_RESUME_W_RST
| PHL_DATA_CTL_MAX.

(** ** State *)

Inductive dir := Tx | Rx.

#[export] Instance dir_eq_dec : EqDecision dir.
Proof. solve_decision. Defined.

(** One direction: status, the modules that hold a pause, whether there is
    more to do, whether power was requested, whether the handler is at work. *)
Record dpath := mkDpath {
  sw_sts : Z; pause_id : Z; trx_more : bool; req_pwr : bool; working : bool }.

Definition set_sw_sts v p := mkDpath v (pause_id p) (trx_more p) (req_pwr p) (working p).
Definition set_pause_id v p := mkDpath (sw_sts p) v (trx_more p) (req_pwr p) (working p).
Definition set_trx_more v p := mkDpath (sw_sts p) (pause_id p) v (req_pwr p) (working p).
Definition set_req_pwr v p := mkDpath (sw_sts p) (pause_id p) (trx_more p) v (working p).
Definition set_working v p := mkDpath (sw_sts p) (pause_id p) (trx_more p) (req_pwr p) v.

(** What happens outside: handler work, scheduling of a handler, resets, chip
    recovery steps, requests for power, and the set-up of the chip's rings. *)
Inductive dp_event :=
| EvWork (x : dir) | EvSched (x : dir) | EvReset (x : dir) | EvHal (step : Z) | EvPwrReq (x : dir) | EvTrxInit.

(** Outcomes the environment chooses: of scheduling, of calls of the chip, of
    sending a message, handler steps before each poll, whether the receive
    path is idle, whether power save allows the data path.  An exhausted list
    answers yes (and two steps). *)
Record dp_env := mkEnv {
  e_sched : list bool; e_hal : list bool; e_send : list bool;
  e_steps : list (nat * nat); e_idle : list bool; e_allowed : list bool }.

Record dp_info := mkDp {
  dp_tx : dpath; dp_rx : dpath; is_hw_trx_pause : bool; ctrl_err : option Z;
  denv : dp_env; dlog : list dp_event }.

Definition dp_of (x : dir) (i : dp_info) : dpath := match x with Tx => dp_tx i | Rx => dp_rx i end.
Definition upd_dp (x : dir) (f : dpath -> dpath) (i : dp_info) : dp_info :=
  match x with
  | Tx => mkDp (f (dp_tx i)) (dp_rx i) (is_hw_trx_pause i) (ctrl_err i) (denv i) (dlog i)
  | Rx => mkDp (dp_tx i) (f (dp_rx i)) (is_hw_trx_pause i) (ctrl_err i) (denv i) (dlog i)
  end.
Definition set_hw_pause (v : bool) i := mkDp (dp_tx i) (dp_rx i) v (ctrl_err i) (denv i) (dlog i).
Definition set_ctrl_err (v : option Z) i := mkDp (dp_tx i) (dp_rx i) (is_hw_trx_pause i) v (denv i) (dlog i).
Definition set_denv (v : dp_env) i := mkDp (dp_tx i) (dp_rx i) (is_hw_trx_pause i) (ctrl_err i) v (dlog i).
Definition dp_emit (e : dp_event) i := mkDp (dp_tx i) (dp_rx i) (is_hw_trx_pause i) (ctrl_err i) (denv i) (dlog i ++ [e]).

Definition ask_sched (i : dp_info) : bool * dp_info :=
  let e := denv i in
  (default true (head (e_sched e)),
   set_denv (mkEnv (tail (e_sched e)) (e_hal e) (e_send e) (e_steps e) (e_idle e) (e_allowed e)) i).
Definition ask_hal (i : dp_info) : bool * dp_info :=
  let e := denv i in
  (default true (head (e_hal e)),
   set_denv (mkEnv (e_sched e) (tail (e_hal e)) (e_send e) (e_steps e) (e_idle e) (e_allowed e)) i).
Definition ask_send (i : dp_info) : bool * dp_info :=
  let e := denv i in
  (default true (head (e_send e)),
   set_denv (mkEnv (e_sched e) (e_hal e) (tail (e_send e)) (e_steps e) (e_idle e) (e_allowed e)) i).
Definition ask_steps (i : dp_info) : (nat * nat) * dp_info :=
  let e := denv i in
  (default (2, 2)%nat (head (e_steps e)),
   set_denv (mkEnv (e_sched e) (e_hal e) (e_send e) (tail (e_steps e)) (e_idle e) (e_allowed e)) i).
Definition ask_idle (i : dp_info) : bool * dp_info :=
  let e := denv i in
  (default true (head (e_idle e)),
   set_denv (mkEnv (e_sched e) (e_hal e) (e_send e) (e_steps e) (tail (e_idle e)) (e_allowed e)) i).
Definition ask_allowed (i : dp_info) : bool * dp_info :=
  let e := denv i in
  (default true (head (e_allowed e)),
   set_denv (mkEnv (e_sched e) (e_hal e) (e_send e) (e_steps e) (e_idle e) (tail (e_allowed e))) i).

(** ** The bus layer's status functions *)

Definition phl_tx_start_pcie i := upd_dp Tx (set_sw_sts PHL_TX_STATUS_RUNNING) i.
Definition phl_rx_start_pcie i := upd_dp Rx (set_sw_sts PHL_TX_STATUS_RUNNING) i.
Definition trx_resume (x : dir) i := upd_dp x (set_sw_sts PHL_TX_STATUS_RUNNING) i.
Definition phl_trx_resume_pcie (tx rx : bool) (i : dp_info) : dp_info :=
  let i := if tx then trx_resume Tx i else i in if rx then trx_resume Rx i else i.
Definition phl_trx_reset_pcie (tx rx : bool) (i : dp_info) : dp_info :=
  let i := if tx then dp_emit (EvReset Tx) i else i in if rx then dp_emit (EvReset Rx) i else i.
Definition phl_trx_stop_pcie (i : dp_info) : dp_info := phl_trx_reset_pcie true true i.
Definition req_stop (x : dir) i := upd_dp x (set_sw_sts PHL_TX_STATUS_STOP_INPROGRESS) i.
Definition sw_stop (x : dir) i := upd_dp x (set_sw_sts PHL_TX_STATUS_SW_PAUSE) i.

Definition phl_is_tx_sw_pause_pcie (i : dp_info) : bool * dp_info :=
  (sw_sts (dp_tx i) =? PHL_TX_STATUS_SW_PAUSE, i).
Definition phl_is_rx_sw_pause_pcie (i : dp_info) : bool * dp_info :=
  if sw_sts (dp_rx i) =? PHL_TX_STATUS_SW_PAUSE then ask_idle i else (false, i).

(** [phl_schedule_handler]. *)
Definition schedule (x : dir) (i : dp_info) : rtw_phl_status * dp_info :=
  let '(ok, i) := ask_sched i in
  ((if ok then RTW_PHL_STATUS_SUCCESS else RTW_PHL_STATUS_FAILURE), dp_emit (EvSched x) i).

(** ** Requesting power *)

Definition _phl_datapath_req_pwr (x : dir) (i : dp_info) : dp_info :=
  let i := upd_dp x (set_req_pwr true) i in
  let '(ok, i) := ask_send (dp_emit (EvPwrReq x) i) in
  if ok then i else upd_dp x (set_req_pwr false) i.

Definition _phl_datapath_chk_pwr (x : dir) (i : dp_info) : bool * dp_info :=
  let p := dp_of x i in
  if z_true (Z.land (pause_id p) (Z.lnot DATA_CTRL_MDL_PS)) then (false, i)
  else if trx_more p && negb (req_pwr p) then (true, _phl_datapath_req_pwr x i)
  else (true, i).

Definition phl_datapath_chk_trx_pause (x : dir) (i : dp_info) : bool * dp_info :=
  if PHL_TX_STATUS_SW_PAUSE =? sw_sts (dp_of x i)
  then (true, snd (_phl_datapath_chk_pwr x i))
  else (false, i).

(** The completion of a request for power: [failed] if the message failed or
    was cancelled. *)
Definition _phl_req_pwr_cb (x : dir) (failed : bool) (i : dp_info) : dp_info :=
  let i := upd_dp x (set_req_pwr false) i in
  if failed then i else snd (schedule x i).

(** ** The handlers

    Up to the end of the work, and from there to the end. *)

Definition hdl_begin (x : dir) (i : dp_info) : dp_info :=
  let '(pause, i) := phl_datapath_chk_trx_pause x i in
  if pause then i
  else
    let '(allowed, i) := match x with Tx => ask_allowed i | Rx => (true, i) end in
    let i := if allowed
             then dp_emit (EvWork x) (match x with Tx => upd_dp Tx (set_trx_more false) i | Rx => i end)
             else i in
    upd_dp x (set_working true) i.

Definition hdl_end (x : dir) (i : dp_info) : dp_info :=
  let i := if PHL_TX_STATUS_STOP_INPROGRESS =? sw_sts (dp_of x i) then sw_stop x i else i in
  upd_dp x (set_working false) i.

(** One step of the handler; it does not run twice at a time. *)
Definition hdl_step (x : dir) (i : dp_info) : dp_info :=
  if working (dp_of x i) then hdl_end x i else hdl_begin x i.

Definition _phl_tx_callback_pcie (i : dp_info) : dp_info :=
  let i := hdl_begin Tx i in if working (dp_tx i) then hdl_end Tx i else i.
Definition _phl_rx_callback_pcie (i : dp_info) : dp_info :=
  let i := hdl_begin Rx i in if working (dp_rx i) then hdl_end Rx i else i.

(** ** The data controller *)

Definition _phl_get_ctrl_mdl (id : Z) : Z :=
  if id =? PHL_MDL_PHY_MGNT then DATA_CTRL_MDL_CMD_CTRLER
  else if id =? PHL_MDL_SER then DATA_CTRL_MDL_SER
  else if id =? PHL_MDL_POWER_MGNT then DATA_CTRL_MDL_PS
  else DATA_CTRL_MDL_NONE.

Definition hold (x : dir) (m : Z) (i : dp_info) : dp_info :=
  upd_dp x (fun p => set_pause_id (SET_STATUS_FLAG (pause_id p) m) p) i.

(** [_phl_sw_tx_resume] and [_phl_sw_rx_resume] differ in the direction. *)
Definition sw_resume (x : dir) (id : Z) (i : dp_info) : rtw_phl_status * dp_info :=
  let ctrl_mdl := _phl_get_ctrl_mdl id in
  if negb (TEST_STATUS_FLAG (pause_id (dp_of x i)) ctrl_mdl) then (RTW_PHL_STATUS_FAILURE, i)
  else
    let i := upd_dp x (fun p => set_pause_id (CLEAR_STATUS_FLAG (pause_id p) ctrl_mdl) p) i in
    if negb (DATA_CTRL_MDL_NONE =? pause_id (dp_of x i)) then (RTW_PHL_STATUS_SUCCESS, i)
    else schedule x (trx_resume x i).

Definition _phl_sw_tx_resume := sw_resume Tx.
Definition _phl_sw_rx_resume := sw_resume Rx.

Definition is_pause (x : dir) (i : dp_info) : bool * dp_info :=
  match x with Tx => phl_is_tx_sw_pause_pcie i | Rx => phl_is_rx_sw_pause_pcie i end.

Fixpoint iter_hdl (n : nat) (x : dir) (i : dp_info) : dp_info :=
  match n with O => i | S n => iter_hdl n x (hdl_step x i) end.

(** The polling loop; [true] when the pause was seen.  Both handlers may run
    before each poll. *)
Fixpoint poll_pause (n : nat) (x : dir) (i : dp_info) : bool * dp_info :=
  match n with
  | O => (false, i)
  | S n =>
      let '((t, r), i) := ask_steps i in
      let i := iter_hdl r Rx (iter_hdl t Tx i) in
      let '(paused, i) := is_pause x i in
      if paused then (true, i) else poll_pause n x i
  end.

Definition poll_cnt (x : dir) : nat :=
  match x with Tx => POLL_SW_TX_PAUSE_CNT | Rx => POLL_SW_RX_PAUSE_CNT end.

(** [_phl_sw_tx_pause] and [_phl_sw_rx_pause]; the reset flag is only
    logged. *)
Definition sw_pause (x : dir) (id : Z) (i : dp_info) : rtw_phl_status * dp_info :=
  let ctrl_mdl := _phl_get_ctrl_mdl id in
  if PHL_TX_STATUS_SW_PAUSE =? sw_sts (dp_of x i) then (RTW_PHL_STATUS_SUCCESS, hold x ctrl_mdl i)
  else if PHL_TX_STATUS_STOP_INPROGRESS =? sw_sts (dp_of x i) then (RTW_PHL_STATUS_SUCCESS, hold x ctrl_mdl i)
  else
    let i := req_stop x i in
    match schedule x i with
    | (RTW_PHL_STATUS_SUCCESS, i) =>
        let '(paused, i) := poll_pause (poll_cnt x) x i in
        ((if paused then RTW_PHL_STATUS_SUCCESS else RTW_PHL_STATUS_CMD_TIMEOUT), hold x ctrl_mdl i)
    | (_, i) => (RTW_PHL_STATUS_FAILURE, i)
    end.

Definition _phl_sw_tx_pause := sw_pause Tx.
Definition _phl_sw_rx_pause := sw_pause Rx.

(** What the bus layer resets is outside. *)
Definition _phl_sw_tx_rst (i : dp_info) : dp_info := dp_emit (EvReset Tx) i.
Definition _phl_sw_rx_rst (i : dp_info) : dp_info := dp_emit (EvReset Rx) i.

Definition RTW_PHL_SER_LV1_RCVY_STEP_1 : Z := 0.
Definition RTW_PHL_SER_LV1_SER_RCVY_STEP_2 : Z := 1.

Definition _phl_hw_trx_rst_resume (i : dp_info) : rtw_phl_status * dp_info :=
  let '(ok, i) := ask_hal (dp_emit (EvHal RTW_PHL_SER_LV1_SER_RCVY_STEP_2) i) in
  if negb ok then (RTW_PHL_STATUS_FAILURE, i) else (RTW_PHL_STATUS_SUCCESS, set_hw_pause false i).

Definition _phl_hw_trx_pause (i : dp_info) : rtw_phl_status * dp_info :=
  let '(ok, i) := ask_hal (dp_emit (EvHal RTW_PHL_SER_LV1_RCVY_STEP_1) i) in
  if negb ok then (RTW_PHL_STATUS_FAILURE, i) else (RTW_PHL_STATUS_SUCCESS, set_hw_pause true i).

(** [do { .. break; .. } while (false)]: the next step runs after success; on
    failure [err] gives the code to report. *)
Definition then_step (err : rtw_phl_status -> dp_info -> dp_info)
    (r : rtw_phl_status * dp_info) (k : dp_info -> rtw_phl_status * dp_info) :
    rtw_phl_status * dp_info :=
  let '(sts, i) := r in
  if bool_decide (sts = RTW_PHL_STATUS_SUCCESS) then k i else (sts, err sts i).

Definition no_err (sts : rtw_phl_status) (i : dp_info) : dp_info := i.
Definition done_ok (i : dp_info) : rtw_phl_status * dp_info := (RTW_PHL_STATUS_SUCCESS, i).

Definition _phl_trx_sw_pause (id : Z) (i : dp_info) : rtw_phl_status * dp_info :=
  then_step no_err (_phl_sw_tx_pause id i) (fun i =>
  then_step no_err (_phl_sw_rx_pause id i) done_ok).

Definition _phl_trx_sw_resume (id : Z) (i : dp_info) : rtw_phl_status * dp_info :=
  then_step no_err (_phl_sw_tx_resume id i) (fun i =>
  then_step no_err (_phl_sw_rx_resume id i) done_ok).

(** [*err_sts = code], if the message has room for it. *)
Definition has_err (msg : phl_msg) : bool := z_true (outbuf msg) && (outlen msg =? 4).
Definition report (msg : phl_msg) (code : Z) (sts : rtw_phl_status) (i : dp_info) : dp_info :=
  if has_err msg then set_ctrl_err (Some code) i else i.
Definition report_poll (msg : phl_msg) (timeout fail : Z) (sts : rtw_phl_status) (i : dp_info) : dp_info :=
  report msg (if bool_decide (sts = RTW_PHL_STATUS_CMD_TIMEOUT) then timeout else fail) sts i.

Definition _phl_trx_pause_w_rst (id : Z) (msg : phl_msg) (i : dp_info) : rtw_phl_status * dp_info :=
  then_step (report_poll msg CTRL_ERR_SW_TX_PAUSE_POLLTO CTRL_ERR_SW_TX_PAUSE_FAIL)
    (_phl_sw_tx_pause id i) (fun i =>
  then_step (report msg CTRL_ERR_HW_TRX_PAUSE_FAIL) (_phl_hw_trx_pause i) (fun i =>
  then_step (report_poll msg CTRL_ERR_SW_RX_PAUSE_POLLTO CTRL_ERR_SW_RX_PAUSE_FAIL)
    (_phl_sw_rx_pause id i) (fun i =>
  (RTW_PHL_STATUS_SUCCESS, _phl_sw_rx_rst (_phl_sw_tx_rst i))))).

Definition _phl_trx_resume_w_rst (id : Z) (msg : phl_msg) (i : dp_info) : rtw_phl_status * dp_info :=
  then_step (report msg CTRL_ERR_SW_RX_RESUME_FAIL) (_phl_sw_rx_resume id i) (fun i =>
  then_step (report msg CTRL_ERR_HW_TRX_RESUME_FAIL) (_phl_hw_trx_rst_resume i) (fun i =>
  then_step (report msg CTRL_ERR_SW_TX_RESUME_FAIL) (_phl_sw_tx_resume id i) done_ok)).

(** [struct phl_data_ctl_t]: [cmd] and the module. *)
Definition phl_data_ctrler (cmd : phl_data_ctrl_cmd) (id : Z) (msg : phl_msg) (i : dp_info) :
    rtw_phl_status * dp_info :=
  match cmd with
  | PHL_DATA_CTL_HW_TRX_RST_RESUME => _phl_hw_trx_rst_resume i
  | PHL_DATA_CTL_HW_TRX_PAUSE => _phl_hw_trx_pause i
  | PHL_DATA_CTL_SW_TX_RESUME => _phl_sw_tx_resume id i
  | PHL_DATA_CTL_SW_RX_RESUME => _phl_sw_rx_resume id i
  | PHL_DATA_CTL_SW_TX_PAUSE => _phl_sw_tx_pause id i
  | PHL_DATA_CTL_SW_RX_PAUSE => _phl_sw_rx_pause id i
  | PHL_DATA_CTL_SW_TX_RESET => (RTW_PHL_STATUS_SUCCESS, _phl_sw_tx_rst i)
  | PHL_DATA_CTL_SW_RX_RESET => (RTW_PHL_STATUS_SUCCESS, _phl_sw_rx_rst i)
  | PHL_DATA_CTL_TRX_SW_PAUSE => _phl_trx_sw_pause id i
  | PHL_DATA_CTL_TRX_SW_RESUME => _phl_trx_sw_resume id i
  | PHL_DATA_CTL_TRX_PAUSE_W_RST => _phl_trx_pause_w_rst id msg i
  | PHL_DATA_CTL_TRX_RESUME_W_RST => _phl_trx_resume_w_rst id msg i
  | PHL_DATA_CTL_MAX => (RTW_PHL_STATUS_FAILURE, i)
  end.

(** ** Starting, stopping and resetting the driver

    [phl_datapath_start] of [rtw_phl_start]; [phl_datapath_stop] of
    [rtw_phl_stop] and of the wake-up from WoWLAN; [rtw_phl_tx_stop] and
    [rtw_phl_tx_resume] of the extended channel switch (src/phl/phl_ecsa.c);
    [rtw_phl_reset] of the test mode.  The data controller knows nothing of
    them, and none of them looks at the modules that hold a pause. *)

Definition phl_trx_config_pcie (i : dp_info) : rtw_phl_status * dp_info :=
  let '(ok, i) := ask_hal (dp_emit EvTrxInit i) in
  if negb ok then (RTW_PHL_STATUS_FAILURE, i)
  else (RTW_PHL_STATUS_SUCCESS, phl_rx_start_pcie (phl_tx_start_pcie i)).

Definition phl_datapath_start (i : dp_info) : rtw_phl_status * dp_info := phl_trx_config_pcie i.
Definition phl_datapath_stop (i : dp_info) : dp_info := phl_trx_stop_pcie i.

Definition rtw_phl_tx_stop (i : dp_info) : dp_info := req_stop Tx i.
Definition rtw_phl_tx_resume (i : dp_info) : dp_info := phl_trx_resume_pcie true false i.

(** [rtw_hal_stop] and [rtw_hal_start] around it are outside. *)
Definition rtw_phl_reset (i : dp_info) : dp_info := phl_trx_resume_pcie true true (phl_trx_reset_pcie true true i).
