(* ===== verification/DataPathThm.v ===== *)
(** * Pausing the data path: theorems *)

From S2P Require Import Prelude PhlQueue PhlDef DataPath.

(** ** What the control state is made of *)

Definition is_work (x : dir) (e : dp_event) : bool :=
  match e with EvWork y => bool_decide (x = y) | _ => false end.
(** The work the handler of [x] has done. *)
Definition work (x : dir) (i : dp_info) : list dp_event := List.filter (is_work x) (dlog i).

Record same_ctl (x : dir) (i j : dp_info) : Prop := {
  sc_sts : sw_sts (dp_of x j) = sw_sts (dp_of x i);
  sc_id : pause_id (dp_of x j) = pause_id (dp_of x i);
  sc_working : working (dp_of x j) = working (dp_of x i);
  sc_work : work x j = work x i }.

#[export] Instance same_ctl_refl x : Reflexive (same_ctl x).
Proof. done. Qed.
#[export] Instance same_ctl_trans x : Transitive (same_ctl x).
Proof. intros i j k [] []. split; congruence. Qed.

Lemma dp_of_upd x y f i : dp_of x (upd_dp y f i) = if decide (x = y) then f (dp_of x i) else dp_of x i.
Proof. by destruct x, y. Qed.
Lemma work_upd x y f i : work x (upd_dp y f i) = work x i.
Proof. by destruct y. Qed.
Lemma work_emit x e i : work x (dp_emit e i) = work x i ++ (if is_work x e then [e] else []).
Proof. unfold work. cbn. rewrite List.filter_app. cbn. by destruct (is_work x e). Qed.

Lemma emit_same x e i : is_work x e = false -> same_ctl x i (dp_emit e i).
Proof. intros E. split; try (by destruct x). rewrite work_emit, E. apply app_nil_r. Qed.
Lemma upd_other x y f i : x <> y -> same_ctl x i (upd_dp y f i).
Proof. intros Hn. split; rewrite ?work_upd, ?dp_of_upd, ?decide_False by done; done. Qed.
Lemma req_pwr_same x y v i : same_ctl x i (upd_dp y (set_req_pwr v) i).
Proof. split; rewrite ?work_upd, ?dp_of_upd; try case_decide; done. Qed.
Lemma trx_more_same x y v i : same_ctl x i (upd_dp y (set_trx_more v) i).
Proof. split; rewrite ?work_upd, ?dp_of_upd; try case_decide; done. Qed.

Lemma schedule_same x y i : same_ctl x i (snd (schedule y i)).
Proof. unfold schedule, ask_sched. cbn [snd]. etransitivity; [|by apply emit_same]. by destruct x. Qed.

Lemma pwr_same x y i : same_ctl x i (snd (_phl_datapath_chk_pwr y i)).
Proof.
  unfold _phl_datapath_chk_pwr, _phl_datapath_req_pwr, ask_send.
  case_match; [done|]. case_match; [|done]. cbn [snd].
  set (j := dp_emit _ _). set (e := mkEnv _ _ _ _ _ _).
  assert (same_ctl x i (set_denv e j)) as Hj.
  { transitivity j; [|by destruct x]. unfold j. etransitivity; [apply req_pwr_same|by apply emit_same]. }
  clearbody j e. case_match; cbn [snd]; [done|]. etransitivity; [exact Hj|apply req_pwr_same].
Qed.

(** ** Reasoning about every command

    A property is stable when the handlers' steps, taking a pause and the
    resumes that [P] allows keep it. *)

Record dp_stable (P : dir -> Z -> Prop) (I : dp_info -> Prop) : Prop := {
  ds_frame i j : (forall x, same_ctl x i j) -> I i -> I j;
  ds_step x i : I i -> I (hdl_step x i);
  ds_hold x m i : I i ->
    sw_sts (dp_of x i) = PHL_TX_STATUS_SW_PAUSE \/ sw_sts (dp_of x i) = PHL_TX_STATUS_STOP_INPROGRESS ->
    I (hold x m i);
  ds_stop x i : I i -> sw_sts (dp_of x i) <> PHL_TX_STATUS_SW_PAUSE ->
    sw_sts (dp_of x i) <> PHL_TX_STATUS_STOP_INPROGRESS -> I (req_stop x i);
  ds_resume x id i : P x id -> I i -> I (snd (sw_resume x id i)) }.

(** Stopping or stopped. *)
Definition halting (x : dir) (i : dp_info) : Prop :=
  sw_sts (dp_of x i) = PHL_TX_STATUS_SW_PAUSE \/ sw_sts (dp_of x i) = PHL_TX_STATUS_STOP_INPROGRESS.

Lemma halting_same x i j : same_ctl x i j -> halting x i -> halting x j.
Proof. intros [E _ _ _]. unfold halting. by rewrite E. Qed.

Lemma begin_ctl x y i : let j := hdl_begin y i in
  sw_sts (dp_of x j) = sw_sts (dp_of x i) /\ pause_id (dp_of x j) = pause_id (dp_of x i) /\
  (x <> y -> same_ctl x i j) /\
  (sw_sts (dp_of y i) = PHL_TX_STATUS_SW_PAUSE -> same_ctl x i j).
Proof.
  unfold hdl_begin, phl_datapath_chk_trx_pause.
  destruct (PHL_TX_STATUS_SW_PAUSE =? sw_sts (dp_of y i)) eqn:E.
  - destruct (pwr_same x y i) as [E1 E2 E3 E4]. cbn. rewrite E1, E2. by repeat split.
  - assert (forall b j, same_ctl x i j -> let k := upd_dp y (set_working true)
      (if (b : bool) then dp_emit (EvWork y) (match y with Tx => upd_dp Tx (set_trx_more false) j | Rx => j end) else j) in
      sw_sts (dp_of x k) = sw_sts (dp_of x i) /\ pause_id (dp_of x k) = pause_id (dp_of x i) /\
      (x <> y -> same_ctl x i k)) as H.
    { intros b j [E1 E2 E3 E4] k.
      assert (sw_sts (dp_of x k) = sw_sts (dp_of x j) /\ pause_id (dp_of x k) = pause_id (dp_of x j)) as [-> ->]
        by (unfold k; destruct x, y, b; done).
      split; [done|]. split; [done|]. intros Hn. transitivity j; [done|].
      unfold k. destruct x, y, b; try done; split; cbn; try done;
        unfold work; cbn; rewrite List.filter_app; cbn; by rewrite app_nil_r. }
    assert (sw_sts (dp_of y i) <> PHL_TX_STATUS_SW_PAUSE) as Hne by (apply Z.eqb_neq in E; congruence).
    destruct y.
    + unfold ask_allowed. cbv zeta. destruct (H (default true (head (e_allowed (denv i)))) (set_denv
        (mkEnv (e_sched (denv i)) (e_hal (denv i)) (e_send (denv i)) (e_steps (denv i)) (e_idle (denv i))
           (tail (e_allowed (denv i)))) i)) as (H1 & H2 & H3); [by destruct x|].
      split; [exact H1|split; [exact H2|split; [exact H3|done]]].
    + destruct (H true i) as (H1 & H2 & H3); [done|].
      split; [exact H1|split; [exact H2|split; [exact H3|done]]].
Qed.

Lemma step_halting x y i : halting x i -> halting x (hdl_step y i).
Proof.
  intros Hh. unfold hdl_step. destruct (working (dp_of y i)).
  - unfold hdl_end, halting, sw_stop. destruct (_ =? _); rewrite ?dp_of_upd; repeat case_decide; cbn; auto.
  - destruct (begin_ctl x y i) as (E & _). unfold halting in *. by rewrite E.
Qed.

Lemma iter_halting n : forall x y i, halting x i -> halting x (iter_hdl n y i).
Proof. induction n as [|n IH]; intros x y i H; [done|]. cbn. by apply IH, step_halting. Qed.

Lemma is_pause_same x y i : same_ctl y i (snd (is_pause x i)).
Proof.
  destruct x; [done|]. cbn. unfold phl_is_rx_sw_pause_pcie. case_match; [|done]. by destruct y.
Qed.

(** The commands that resume a direction. *)
Definition resumes (cmd : phl_data_ctrl_cmd) : bool :=
  match cmd with
  | PHL_DATA_CTL_SW_TX_RESUME | PHL_DATA_CTL_SW_RX_RESUME | PHL_DATA_CTL_TRX_SW_RESUME
  | PHL_DATA_CTL_TRX_RESUME_W_RST => true
  | _ => false
  end.

Section Stable.
Context (P : dir -> Z -> Prop) (I : dp_info -> Prop) (HI : dp_stable P I).

Lemma stable_frame i j : (forall x, same_ctl x i j) -> I i -> I j.
Proof. apply (ds_frame _ _ HI). Qed.

Lemma stable_iter n : forall x i, I i -> I (iter_hdl n x i).
Proof. induction n as [|n IH]; intros x i Hi; [done|]. cbn. by apply IH, (ds_step _ _ HI). Qed.

Lemma stable_poll n x : forall i, I i -> halting x i ->
  I (snd (poll_pause n x i)) /\ halting x (snd (poll_pause n x i)).
Proof.
  induction n as [|n IH]; intros i Hi Hh; [done|]. cbn.
  destruct (default (2, 2)%nat (head (e_steps (denv i)))) as [t r].
  set (j := set_denv _ i). assert (I j /\ halting x j) as [Hj Hhj].
  { split; [eapply stable_frame; [|exact Hi]; by intros []|destruct x; exact Hh]. }
  set (k := iter_hdl r Rx (iter_hdl t Tx j)).
  assert (I k /\ halting x k) as [Hk Hhk] by (split; [by apply stable_iter, stable_iter|by apply iter_halting, iter_halting]).
  clearbody k. clear j Hj Hhj.
  pose proof (fun y => is_pause_same x y k) as Hs. destruct (is_pause x k) as [b k']. cbn in Hs.
  assert (I k' /\ halting x k') as [Hk' Hhk'] by (split; [by eapply stable_frame|eapply halting_same; [apply Hs|done]]).
  destruct b; [done|by apply IH].
Qed.

Lemma stable_pause x id i : I i -> I (snd (sw_pause x id i)).
Proof.
  intros Hi. unfold sw_pause.
  destruct (Z.eqb_spec PHL_TX_STATUS_SW_PAUSE (sw_sts (dp_of x i))) as [Es|Es]; [by apply (ds_hold _ _ HI); [|left]|].
  destruct (Z.eqb_spec PHL_TX_STATUS_STOP_INPROGRESS (sw_sts (dp_of x i))) as [Et|Et]; [by apply (ds_hold _ _ HI); [|right]|].
  assert (I (req_stop x i)) as Hr by (apply (ds_stop _ _ HI); congruence || done).
  assert (halting x (req_stop x i)) as Hh by (right; unfold req_stop; by rewrite dp_of_upd, decide_True).
  pose proof (fun y => schedule_same y x (req_stop x i)) as Hs.
  destruct (schedule x (req_stop x i)) as [st j]. cbn [snd] in Hs.
  assert (I j /\ halting x j) as [Hj Hhj] by (split; [by eapply stable_frame|eapply halting_same; [apply Hs|done]]).
  destruct st; try exact Hj.
  destruct (stable_poll (poll_cnt x) x j Hj Hhj) as [H1 H2].
  destruct (poll_pause (poll_cnt x) x j) as [b k]. by apply (ds_hold _ _ HI).
Qed.

Lemma stable_hal i : I i -> I (snd (_phl_hw_trx_rst_resume i)) /\ I (snd (_phl_hw_trx_pause i)).
Proof.
  intros Hi. unfold _phl_hw_trx_rst_resume, _phl_hw_trx_pause, ask_hal.
  split; destruct (default true _); cbn; eapply stable_frame; try exact Hi;
    intros y; (transitivity (dp_emit (EvHal 0) i); [by apply emit_same|]);
    split; try (by destruct y); unfold work; cbn; by rewrite !List.filter_app.
Qed.

Lemma stable_rst i : I i -> I (_phl_sw_tx_rst i) /\ I (_phl_sw_rx_rst i).
Proof. intros Hi. split; eapply stable_frame; try exact Hi; intros y; by apply emit_same. Qed.

Lemma stable_then err r k :
  I (snd r) -> (forall i, I i -> I (snd (k i))) -> (forall s i, I i -> I (err s i)) -> I (snd (then_step err r k)).
Proof. destruct r as [s i]. cbn. intros Hi Hk He. case_bool_decide; [by apply Hk|by apply He]. Qed.

Lemma stable_report msg c s i : I i -> I (report msg c s i).
Proof. intros Hi. unfold report. case_match; [|done]. eapply stable_frame; [|exact Hi]. by intros []. Qed.

Local Hint Resolve stable_pause stable_report : core.

(** Every command keeps a stable property, if the resumes it makes are
    allowed. *)
Lemma stable_ctrler cmd id msg i :
  (resumes cmd = true -> forall x, P x id) -> I i -> I (snd (phl_data_ctrler cmd id msg i)).
Proof.
  intros HP Hi.
  assert (resumes cmd = true -> forall x j, I j -> I (snd (sw_resume x id j))) as Hres
    by (intros Hr x j Hj; apply (ds_resume _ _ HI); [by apply HP|done]).
  destruct cmd; try specialize (Hres eq_refl); cbn [phl_data_ctrler snd]; unfold _phl_sw_tx_resume, _phl_sw_rx_resume, _phl_sw_tx_pause, _phl_sw_rx_pause;
    try (by auto); try (by apply stable_hal); try (by apply stable_rst).
  - unfold _phl_trx_sw_pause. apply stable_then; [by apply stable_pause| |done]. intros j Hj.
    apply stable_then; [by apply stable_pause|done|done].
  - unfold _phl_trx_sw_resume. apply stable_then; [by apply Hres| |done]. intros j Hj.
    apply stable_then; [by apply Hres|done|done].
  - unfold _phl_trx_pause_w_rst. apply stable_then; [by apply stable_pause| |intros; by apply stable_report]. intros j Hj.
    apply stable_then; [by apply stable_hal| |intros; by apply stable_report]. intros k Hk.
    apply stable_then; [by apply stable_pause| |intros; by apply stable_report]. intros k' Hk'.
    by apply stable_rst, stable_rst.
  - unfold _phl_trx_resume_w_rst. apply stable_then; [by apply Hres| |intros; by apply stable_report]. intros j Hj.
    apply stable_then; [by apply stable_hal| |intros; by apply stable_report]. intros k Hk.
    apply stable_then; [by apply Hres|done|intros; by apply stable_report].
Qed.
End Stable.

(** ** Runs *)

(** What happens while the driver runs: handlers step at any time; commands come
    with any outcomes [e], if [A] allows them; requests for work come and power
    requests complete.  Starts, stops and resets are in [life_step] below. *)
Inductive dp_step (A : phl_data_ctrl_cmd -> Z -> Prop) : dp_info -> dp_info -> Prop :=
| dps_hdl x i : dp_step A i (hdl_step x i)
| dps_cmd cmd id msg e i : A cmd id -> dp_step A i (snd (phl_data_ctrler cmd id msg (set_denv e i)))
| dps_more x v i : dp_step A i (upd_dp x (set_trx_more v) i)
| dps_pwr x failed i : dp_step A i (_phl_req_pwr_cb x failed i).

Lemma stable_run A P I : dp_stable P I -> (forall cmd id, A cmd id -> resumes cmd = true -> forall x, P x id) ->
  forall i j, rtc (dp_step A) i j -> I i -> I j.
Proof.
  intros HI HA i j H. induction H as [|i k j Hs _ IH]; [done|]. intros Hi. apply IH. destruct Hs.
  - by apply (ds_step _ _ HI).
  - eapply (stable_ctrler P I HI); [by apply HA|]. eapply (stable_frame P I HI); [|exact Hi]. by intros [].
  - eapply (stable_frame P I HI); [|exact Hi]. intros y. apply trx_more_same.
  - eapply (stable_frame P I HI); [|exact Hi]. intros y. unfold _phl_req_pwr_cb.
    case_match; [apply req_pwr_same|]. etransitivity; [apply req_pwr_same|apply schedule_same].
Qed.

(** Before the first start, and after it. *)
Definition dp_boot : dp_info :=
  let p := mkDpath PHL_TX_STATUS_IDLE 0 false false false in
  mkDp p p false None (mkEnv [] [] [] [] [] []) [].
Definition dp0 : dp_info := phl_rx_start_pcie (phl_tx_start_pcie dp_boot).

(** The life of the driver: between steps of the data path it is started,
    stopped and reset, and the channel switch stops and resumes transmission.
    With [gentle], what sets a direction running comes only while no module
    holds it. *)
Definition nobody_holds (x : dir) (i : dp_info) : Prop := pause_id (dp_of x i) = 0.

Inductive life_step (gentle : bool) : dp_info -> dp_info -> Prop :=
| ls_data i j : dp_step (fun _ _ => True) i j -> life_step gentle i j
| ls_start e i : (gentle = true -> forall x, nobody_holds x i) ->
    life_step gentle i (snd (phl_datapath_start (set_denv e i)))
| ls_stop i : life_step gentle i (phl_datapath_stop i)
| ls_tx_stop i : life_step gentle i (rtw_phl_tx_stop i)
| ls_tx_resume i : (gentle = true -> nobody_holds Tx i) -> life_step gentle i (rtw_phl_tx_resume i)
| ls_reset i : (gentle = true -> forall x, nobody_holds x i) -> life_step gentle i (rtw_phl_reset i).

(** *** A pause is respected *)

(** A direction with a pause held is stopping or stopped, and stopped means
    the handler is not at work. *)
Definition path_ok (p : dpath) : Prop :=
  (pause_id p <> 0 -> sw_sts p = PHL_TX_STATUS_SW_PAUSE \/ sw_sts p = PHL_TX_STATUS_STOP_INPROGRESS) /\
  (working p = true -> sw_sts p <> PHL_TX_STATUS_SW_PAUSE).

Definition paths_ok (i : dp_info) : Prop := forall x, path_ok (dp_of x i).

Lemma path_ok_same x i j : same_ctl x i j -> path_ok (dp_of x i) -> path_ok (dp_of x j).
Proof. intros [E1 E2 E3 _]. unfold path_ok. by rewrite E1, E2, E3. Qed.

Lemma begin_working x i : sw_sts (dp_of x i) <> PHL_TX_STATUS_SW_PAUSE -> working (dp_of x (hdl_begin x i)) = true.
Proof.
  intros Hn. unfold hdl_begin, phl_datapath_chk_trx_pause.
  replace (PHL_TX_STATUS_SW_PAUSE =? sw_sts (dp_of x i)) with false by (symmetry; apply Z.eqb_neq; congruence).
  destruct x; by repeat case_match.
Qed.

Lemma path_ok_step y i : paths_ok i -> paths_ok (hdl_step y i).
Proof.
  intros Hi x. specialize (Hi x). unfold hdl_step. destruct (working (dp_of y i)) eqn:Ew.
  - unfold hdl_end, sw_stop. destruct (_ =? _) eqn:E; rewrite !dp_of_upd; case_decide as Exy; try done;
      subst; destruct Hi as [H1 H2]; (split; [cbn; auto|done]).
  - destruct (begin_ctl x y i) as (E1 & E2 & E3 & E4).
    destruct (decide (x = y)) as [->|Hn]; [|by apply (path_ok_same x i); [apply E3|]].
    destruct (decide (sw_sts (dp_of y i) = PHL_TX_STATUS_SW_PAUSE)) as [Es|Es].
    + apply (path_ok_same y i); [by apply E4|done].
    + destruct Hi as [H1 H2]. unfold path_ok. rewrite E1, E2. done.
Qed.

Lemma paths_ok_stable : dp_stable (fun _ _ => True) paths_ok.
Proof.
  split.
  - intros i j Hs Hi x. exact (path_ok_same x i j (Hs x) (Hi x)).
  - apply path_ok_step.
  - intros y m i Hi Hh x. unfold hold. rewrite dp_of_upd. case_decide; [subst|apply Hi].
    destruct (Hi y) as [H1 H2]. split; [cbn; by intros _|done].
  - intros y i Hi _ _ x. unfold req_stop. rewrite dp_of_upd. case_decide; [|apply Hi].
    split; [by right|done].
  - intros y id i _ Hi x. unfold sw_resume. case_match; [apply Hi|].
    set (j := upd_dp y _ i).
    assert (paths_ok j) as Hj.
    { intros z. unfold j. rewrite dp_of_upd. case_decide; [subst|apply Hi]. destruct (Hi y) as [H1 H2].
      split; [|done]. cbn. intros Hn. apply H1. intros E. rewrite E in Hn. by apply Hn. }
    case_match eqn:E; [apply Hj|]. eapply path_ok_same; [apply schedule_same|].
    unfold trx_resume. rewrite dp_of_upd. case_decide; [subst|apply Hj].
    apply negb_false_iff, Z.eqb_eq in E. split; cbn; [intros Hn; by rewrite <- E in Hn|done].
Qed.

(** Without the pauses that are held: a handler at work is not paused. *)
Definition work_ok (i : dp_info) : Prop :=
  forall x, working (dp_of x i) = true -> sw_sts (dp_of x i) <> PHL_TX_STATUS_SW_PAUSE.

Lemma work_ok_sts i y v : v <> PHL_TX_STATUS_SW_PAUSE -> work_ok i -> work_ok (upd_dp y (set_sw_sts v) i).
Proof. intros Hv Hi x. rewrite dp_of_upd. case_decide; [done|apply Hi]. Qed.

Lemma work_ok_stable : dp_stable (fun _ _ => True) work_ok.
Proof.
  split.
  - intros i j Hs Hi x. destruct (Hs x) as [E1 _ E3 _]. rewrite E1, E3. apply Hi.
  - intros y i Hi x. unfold hdl_step. destruct (working (dp_of y i)) eqn:Ew.
    + unfold hdl_end, sw_stop. destruct (_ =? _); rewrite !dp_of_upd; case_decide; try done; apply Hi.
    + destruct (begin_ctl x y i) as (E1 & _ & E3 & E4).
      destruct (decide (x = y)) as [->|Hn]; [|destruct (E3 Hn) as [Es _ Ew' _]; rewrite Es, Ew'; apply Hi].
      destruct (decide (sw_sts (dp_of y i) = PHL_TX_STATUS_SW_PAUSE)) as [Es|Es]; [|by rewrite E1].
      destruct (E4 Es) as [_ _ Ew' _]. rewrite Ew', Ew. done.
  - intros y m i Hi _ x. unfold hold. rewrite dp_of_upd. case_decide; [subst; apply (Hi y)|apply Hi].
  - intros y i Hi _ _. by apply work_ok_sts.
  - intros y id i _ Hi. unfold sw_resume. case_match; [exact Hi|]. set (j := upd_dp y _ i).
    assert (work_ok j) as Hj.
    { intros x. unfold j. rewrite dp_of_upd. case_decide; [subst; apply (Hi y)|apply Hi]. }
    case_match; [exact Hj|]. intros x. destruct (schedule_same x y (trx_resume y j)) as [E1 _ E3 _].
    rewrite E1, E3. by apply work_ok_sts.
Qed.

(** A direction nobody holds may be set running. *)
Lemma paths_ok_run x i : nobody_holds x i -> paths_ok i -> paths_ok (trx_resume x i).
Proof.
  intros Hn Hi y. unfold trx_resume. rewrite dp_of_upd. case_decide; [subst|apply Hi].
  split; cbn; [by rewrite Hn|done].
Qed.

Lemma paths_ok_frame i j : (forall x, same_ctl x i j) -> paths_ok i -> paths_ok j.
Proof. apply (ds_frame _ _ paths_ok_stable). Qed.
Lemma work_ok_frame i j : (forall x, same_ctl x i j) -> work_ok i -> work_ok j.
Proof. apply (ds_frame _ _ work_ok_stable). Qed.

Lemma reset_same x i : same_ctl x i (phl_trx_reset_pcie true true i).
Proof. etransitivity; by apply emit_same. Qed.

(** What a start sets running, or leaves. *)
Lemma start_cases e i : exists j, (forall x, same_ctl x i j) /\
  (snd (phl_datapath_start (set_denv e i)) = j \/
   snd (phl_datapath_start (set_denv e i)) = phl_trx_resume_pcie true true j).
Proof.
  unfold phl_datapath_start, phl_trx_config_pcie, ask_hal. eexists. split; [|destruct (default true _); [by right|by left]].
  intros x. transitivity (dp_emit EvTrxInit i); [by apply emit_same|]. by destruct x.
Qed.

Lemma nobody_same x i j : same_ctl x i j -> nobody_holds x i -> nobody_holds x j.
Proof. intros [_ E _ _]. unfold nobody_holds. by rewrite E. Qed.

Lemma life_work gentle i j : life_step gentle i j -> work_ok i -> work_ok j.
Proof.
  assert (forall i, work_ok i -> work_ok (phl_trx_resume_pcie true true i)) as Hrun
    by (intros k Hk; by apply work_ok_sts, work_ok_sts).
  intros H Hi. destruct H as [i j H|e i _|i|i|i _|i _].
  - eapply (stable_run _ _ work_ok work_ok_stable); [done|by apply rtc_once|done].
  - destruct (start_cases e i) as (j & Hs & [-> | ->]); [|apply Hrun]; by eapply work_ok_frame.
  - eapply work_ok_frame; [|exact Hi]. intros x. apply reset_same.
  - by apply work_ok_sts.
  - by apply work_ok_sts.
  - apply Hrun. eapply work_ok_frame; [|exact Hi]. intros x. apply reset_same.
Qed.

Lemma life_paths i j : life_step true i j -> paths_ok i -> paths_ok j.
Proof.
  assert (forall i, (forall x, nobody_holds x i) -> paths_ok i -> paths_ok (phl_trx_resume_pcie true true i)) as Hrun
    by (intros k Hn Hk; apply (paths_ok_run Rx); [exact (Hn Rx)|by apply (paths_ok_run Tx)]).
  intros H Hi. destruct H as [i j H|e i Hn|i|i|i Hn|i Hn].
  - eapply (stable_run _ _ paths_ok paths_ok_stable); [done|by apply rtc_once|done].
  - specialize (Hn eq_refl). destruct (start_cases e i) as (j & Hs & [-> | ->]); [|apply Hrun];
      try by eapply paths_ok_frame. intros x. eapply nobody_same; [apply Hs|apply Hn].
  - eapply paths_ok_frame; [|exact Hi]. intros x. apply reset_same.
  - intros x. unfold rtw_phl_tx_stop, req_stop. rewrite dp_of_upd. case_decide; [|apply Hi]. split; [by right|done].
  - by apply (paths_ok_run Tx); [apply Hn|].
  - specialize (Hn eq_refl). apply Hrun; [intros x; eapply nobody_same; [apply reset_same|apply Hn]|].
    eapply paths_ok_frame; [|exact Hi]. intros x. apply reset_same.
Qed.

Lemma life_run gentle (I : dp_info -> Prop) : (forall i j, life_step gentle i j -> I i -> I j) -> I dp_boot ->
  forall i, rtc (life_step gentle) dp_boot i -> I i.
Proof. intros HI H0 i H. revert H0. induction H as [|i k j Hs _ IH]; [done|]. intros Hi. apply IH. by eapply HI. Qed.

(** The driver is started, power save pauses transmission, and the driver is
    started again. *)
Definition no_env : dp_env := mkEnv [] [] [] [] [] [].
Definition started : dp_info := snd (phl_datapath_start (set_denv no_env dp_boot)).
Definition ps_held : dp_info :=
  snd (phl_data_ctrler PHL_DATA_CTL_SW_TX_PAUSE PHL_MDL_POWER_MGNT zero_msg (set_denv no_env started)).
Definition restarted : dp_info := snd (phl_datapath_start (set_denv no_env ps_held)).

Lemma ps_held_reach gentle : rtc (life_step gentle) dp_boot ps_held.
Proof.
  eapply rtc_l; [exact (ls_start gentle no_env dp_boot (fun _ x => match x with Tx | Rx => eq_refl end))|].
  apply rtc_once, ls_data. by apply dps_cmd.
Qed.

Lemma restarted_reach : rtc (life_step false) dp_boot restarted.
Proof. eapply rtc_r; [apply ps_held_reach|]. apply (ls_start false no_env ps_held). discriminate. Qed.

(** C38: From before the first start on, with handlers, commands, starts,
    stops, resets and the channel switch interleaved in any way: a handler at
    work is never in a paused direction, so a completed pause does not overlap
    with traffic; and as long as starts, resets and the channel switch's
    resume come only while no module holds the directions concerned, a
    direction some module holds is paused or stopping. Without that condition
    it need not be: a start while power save holds transmission leaves it held
    and running. *)
Theorem pause_respected :
  (forall i, rtc (life_step false) dp_boot i -> forall x,
     working (dp_of x i) = true -> sw_sts (dp_of x i) <> PHL_TX_STATUS_SW_PAUSE) /\
  (forall i, rtc (life_step true) dp_boot i -> forall x, pause_id (dp_of x i) <> 0 -> halting x i) /\
  (exists i, rtc (life_step false) dp_boot i /\ pause_id (dp_tx i) = DATA_CTRL_MDL_PS /\
     sw_sts (dp_tx i) = PHL_TX_STATUS_RUNNING).
Proof.
  split; [|split].
  - intros i H. apply (life_run false work_ok) in H; [exact H|apply life_work|by intros []].
  - intros i H x. apply (life_run true paths_ok) in H; [apply (H x)|apply life_paths|].
    intros []; split; try done; by intros [].
  - exists restarted. split; [exact restarted_reach|]. by vm_compute.
Qed.

(** *** A pause lasts *)

(** [b] is the module's bit. *)
Definition held_by (x : dir) (b : Z) (i : dp_info) : Prop := Z.testbit (pause_id (dp_of x i)) b = true.

(** Paused, with the handler at rest after the work [w]. *)
Definition rests (x : dir) (b : Z) (w : list dp_event) (i : dp_info) : Prop :=
  held_by x b i /\ sw_sts (dp_of x i) = PHL_TX_STATUS_SW_PAUSE /\ working (dp_of x i) = false /\ work x i = w.

Lemma rests_same x b w i j : same_ctl x i j -> rests x b w i -> rests x b w j.
Proof. intros [E1 E2 E3 E4]. unfold rests, held_by. by rewrite E1, E2, E3, E4. Qed.

Lemma ctrl_mdl_other id b : 0 <= b < 3 -> _phl_get_ctrl_mdl id <> BIT b -> Z.testbit (_phl_get_ctrl_mdl id) b = false.
Proof.
  intros Hb. assert (b = 0 \/ b = 1 \/ b = 2) as Hc by lia. unfold _phl_get_ctrl_mdl.
  destruct Hc as [->|[->| ->]]; repeat case_match; done.
Qed.

Lemma rests_step x b w y i : rests x b w i -> rests x b w (hdl_step y i).
Proof.
  intros Hr. pose proof Hr as (Hb & Hs & Hw & Hl). unfold hdl_step. destruct (working (dp_of y i)) eqn:E.
  - assert (x <> y) as Hn by (intros ->; congruence). eapply rests_same; [|exact Hr].
    unfold hdl_end, sw_stop. case_match; [etransitivity; [by apply upd_other|]|]; by apply upd_other.
  - destruct (begin_ctl x y i) as (_ & _ & E3 & E4). eapply rests_same; [|exact Hr].
    destruct (decide (x = y)) as [->|Hn]; [by apply E4|by apply E3].
Qed.

Lemma rests_stable x b w : 0 <= b < 3 -> dp_stable (fun _ id => _phl_get_ctrl_mdl id <> BIT b) (rests x b w).
Proof.
  intros Hb. split.
  - intros i j Hs. apply rests_same, Hs.
  - intros y i. apply rests_step.
  - intros y m i (H1 & H2 & H3 & H4) _. unfold hold, rests, held_by. rewrite work_upd, dp_of_upd.
    case_decide; [|done]. subst. cbn. unfold SET_STATUS_FLAG. rewrite Z.lor_spec. unfold held_by in H1. by rewrite H1.
  - intros y i Hr Hs _. eapply rests_same; [|exact Hr]. apply upd_other. intros ->. by destruct Hr as (_ & H & _).
  - intros y id i Hid Hr. unfold sw_resume. case_match; [done|]. cbv zeta. set (j := upd_dp y _ i).
    assert (rests x b w j) as Hj.
    { destruct Hr as (H1 & H2 & H3 & H4). unfold j, rests, held_by. rewrite work_upd, dp_of_upd.
      case_decide; [|done]. subst. cbn. unfold CLEAR_STATUS_FLAG. unfold held_by in H1.
      rewrite Z.land_spec, Z.lnot_spec, ctrl_mdl_other, H1 by lia || done. done. }
    case_match eqn:E; [done|]. eapply rests_same; [apply schedule_same|].
    apply negb_false_iff, Z.eqb_eq in E. eapply rests_same; [|exact Hj]. apply upd_other. intros ->.
    destruct Hj as (Hj & _). unfold held_by in Hj. rewrite <- E in Hj. by rewrite Z.testbit_0_l in Hj.
Qed.

(** A direction a module has paused stays paused in that module's name,
    and its handler does no work, through every sequence of handler turns,
    commands and power notifications in which no resume command is issued for
    the same controller. *)
Theorem pause_lasts x id b i j :
  0 <= b < 3 -> _phl_get_ctrl_mdl id = BIT b ->
  rtc (dp_step (fun _ _ => True)) dp0 i -> held_by x b i -> sw_sts (dp_of x i) = PHL_TX_STATUS_SW_PAUSE ->
  rtc (dp_step (fun cmd id' => resumes cmd = true -> _phl_get_ctrl_mdl id' <> _phl_get_ctrl_mdl id)) i j ->
  held_by x b j /\ sw_sts (dp_of x j) = PHL_TX_STATUS_SW_PAUSE /\ work x j = work x i.
Proof.
  intros Hb Hid Hr Hh Hs Hrun. rewrite Hid in Hrun.
  eapply (stable_run _ _ paths_ok paths_ok_stable) in Hr; [|done|intros []; split; try done; cbn; by intros ?].
  assert (rests x b (work x i) i) as H0.
  { split; [done|]. split; [done|]. split; [|done]. destruct (Hr x) as [_ H].
    destruct (working (dp_of x i)); [|done]. by destruct (H eq_refl). }
  destruct (stable_run _ _ _ (rests_stable x b (work x i) Hb)
    (fun cmd id' HA Hc _ => HA Hc) i j Hrun H0) as (H1 & H2 & _ & H3). done.
Qed.

(** *** Taking and giving back a pause *)

Lemma hold_testbit x b i : 0 <= b -> held_by x b (hold x (BIT b) i).
Proof.
  intros Hb. unfold held_by, hold. rewrite dp_of_upd, decide_True by done. cbn. unfold SET_STATUS_FLAG.
  rewrite Z.lor_spec, testbit_BIT by done. rewrite Z.eqb_refl. apply orb_true_r.
Qed.

Lemma is_pause_true x i j : is_pause x i = (true, j) ->
  sw_sts (dp_of x i) = PHL_TX_STATUS_SW_PAUSE /\ same_ctl x i j.
Proof.
  intros E. split; [|pose proof (is_pause_same x x i) as H; by rewrite E in H].
  destruct x; cbn in E; unfold phl_is_tx_sw_pause_pcie, phl_is_rx_sw_pause_pcie in E.
  - by injection E as E%Z.eqb_eq _.
  - case_match eqn:Es; [by apply Z.eqb_eq|done].
Qed.

Lemma poll_true n x : forall i j, poll_pause n x i = (true, j) -> sw_sts (dp_of x j) = PHL_TX_STATUS_SW_PAUSE.
Proof.
  induction n as [|n IH]; intros i j E; [done|]. cbn in E.
  destruct (default (2, 2)%nat (head (e_steps (denv i)))) as [t r].
  destruct (is_pause x _) as [[] k] eqn:Ep; [|by eapply IH].
  apply is_pause_true in Ep as [Es [E1 _ _ _]]. injection E as <-. by rewrite E1.
Qed.

Lemma step_id x y i : pause_id (dp_of x (hdl_step y i)) = pause_id (dp_of x i).
Proof.
  unfold hdl_step. case_match; [|by destruct (begin_ctl x y i) as (_ & E & _)].
  unfold hdl_end, sw_stop. case_match; rewrite !dp_of_upd; by case_decide.
Qed.

Lemma iter_id n : forall x y i, pause_id (dp_of x (iter_hdl n y i)) = pause_id (dp_of x i).
Proof. induction n as [|n IH]; intros x y i; [done|]. cbn. by rewrite IH, step_id. Qed.

(** Polling for one direction leaves the pauses of both. *)
Lemma poll_keeps n x y : forall i, halting y i ->
  halting y (snd (poll_pause n x i)) /\ pause_id (dp_of y (snd (poll_pause n x i))) = pause_id (dp_of y i).
Proof.
  induction n as [|n IH]; intros i Hi; [done|]. cbn.
  destruct (default (2, 2)%nat (head (e_steps (denv i)))) as [t r].
  set (j := set_denv _ i). assert (halting y j) as Hj by (destruct y; exact Hi).
  assert (halting y (iter_hdl r Rx (iter_hdl t Tx j))) as Hk by (by apply iter_halting, iter_halting).
  assert (pause_id (dp_of y (iter_hdl r Rx (iter_hdl t Tx j))) = pause_id (dp_of y i)) as Ek
    by (rewrite !iter_id; by destruct y).
  revert Hk Ek. generalize (iter_hdl r Rx (iter_hdl t Tx j)) as k. intros k Hk Ek.
  pose proof (is_pause_same x y k) as Hs. destruct (is_pause x k) as [b k']. cbn in Hs.
  apply (halting_same y k k' Hs) in Hk. destruct Hs as [_ E _ _].
  destruct b; [split; [done|cbn; congruence]|]. destruct (IH k' Hk) as [H1 H2]. split; [done|congruence].
Qed.

(** A pause that is really taken: the three outcomes. *)
Lemma sw_pause_running x id i st j :
  sw_sts (dp_of x i) = PHL_TX_STATUS_RUNNING -> sw_pause x id i = (st, j) ->
  (st = RTW_PHL_STATUS_FAILURE /\ pause_id (dp_of x j) = pause_id (dp_of x i)) \/
  (pause_id (dp_of x j) = SET_STATUS_FLAG (pause_id (dp_of x i)) (_phl_get_ctrl_mdl id) /\ halting x j /\
   (st = RTW_PHL_STATUS_SUCCESS /\ sw_sts (dp_of x j) = PHL_TX_STATUS_SW_PAUSE \/ st = RTW_PHL_STATUS_CMD_TIMEOUT)).
Proof.
  intros Hs. unfold sw_pause. rewrite Hs. cbn [Z.eqb PHL_TX_STATUS_SW_PAUSE PHL_TX_STATUS_STOP_INPROGRESS PHL_TX_STATUS_RUNNING Pos.eqb].
  assert (halting x (req_stop x i)) as Hh by (right; unfold req_stop; by rewrite dp_of_upd, decide_True).
  assert (pause_id (dp_of x (req_stop x i)) = pause_id (dp_of x i)) as Ei by (by destruct x).
  pose proof (schedule_same x x (req_stop x i)) as Hsc.
  destruct (schedule x (req_stop x i)) as [sc k] eqn:Esc. cbn [snd] in Hsc.
  assert (sc = RTW_PHL_STATUS_SUCCESS \/ sc = RTW_PHL_STATUS_FAILURE) as Hc.
  { unfold schedule, ask_sched in Esc. injection Esc as <- _. case_match; auto. }
  apply (halting_same _ _ _ Hsc) in Hh. destruct Hsc as [_ E2 _ _]. destruct Hc as [-> | ->].
  - destruct (poll_keeps (poll_cnt x) x x k Hh) as [Hph Hpi].
    destruct (poll_pause (poll_cnt x) x k) as [b k'] eqn:Ep. cbn [snd] in *. intros [= <- <-]. right.
    split; [unfold hold; rewrite dp_of_upd, decide_True by done; cbn; congruence|].
    split; [unfold halting, hold; rewrite dp_of_upd, decide_True by done; exact Hph|].
    destruct b; [left|by right]. split; [done|]. apply poll_true in Ep.
    unfold hold. by rewrite dp_of_upd, decide_True.
  - intros [= <- <-]. left. split; [done|]. congruence.
Qed.

(** Pausing a running direction, when it does not fail, either completes
    or times out, records the module and leaves the direction paused or
    stopping; resuming by the same module brings it back to running with no
    module recorded. *)
Theorem pause_resume_roundtrip x id b i st j :
  0 <= b < 3 -> _phl_get_ctrl_mdl id = BIT b ->
  sw_sts (dp_of x i) = PHL_TX_STATUS_RUNNING -> pause_id (dp_of x i) = 0 ->
  sw_pause x id i = (st, j) -> st <> RTW_PHL_STATUS_FAILURE ->
  (st = RTW_PHL_STATUS_SUCCESS /\ sw_sts (dp_of x j) = PHL_TX_STATUS_SW_PAUSE \/ st = RTW_PHL_STATUS_CMD_TIMEOUT) /\
  halting x j /\ pause_id (dp_of x j) = BIT b /\
  sw_sts (dp_of x (snd (sw_resume x id j))) = PHL_TX_STATUS_RUNNING /\
  pause_id (dp_of x (snd (sw_resume x id j))) = 0.
Proof.
  intros Hb Hid Hs H0 E Hst. destruct (sw_pause_running x id i st j Hs E) as [[? _]|(Hj & Hh & Ho)]; [done|].
  rewrite Hid, H0 in Hj. unfold SET_STATUS_FLAG in Hj. rewrite Z.lor_0_l in Hj.
  split; [done|]. split; [done|]. split; [done|]. unfold sw_resume. rewrite Hid, Hj.
  assert (TEST_STATUS_FLAG (BIT b) (BIT b) = true) as -> by (rewrite test_flag_bit, testbit_BIT by lia; apply Z.eqb_refl).
  cbn [negb]. cbv zeta. set (k := upd_dp x _ j).
  assert (pause_id (dp_of x k) = 0) as Ek.
  { unfold k. rewrite dp_of_upd, decide_True by done. cbn. rewrite Hj. unfold CLEAR_STATUS_FLAG. apply Z.land_lnot_diag. }
  rewrite Ek. cbn [Z.eqb DATA_CTRL_MDL_NONE negb].
  destruct (schedule_same x x (trx_resume x k)) as [E1 E2 _ _]. rewrite E1, E2. unfold trx_resume.
  rewrite dp_of_upd, decide_True by done. done.
Qed.

(** *** Error reporting *)

(** The parts only the controller itself writes. *)
Record same_hw (i j : dp_info) : Prop := {
  sh_err : ctrl_err j = ctrl_err i; sh_hw : is_hw_trx_pause j = is_hw_trx_pause i }.

#[export] Instance same_hw_refl : Reflexive same_hw.
Proof. done. Qed.
#[export] Instance same_hw_trans : Transitive same_hw.
Proof. intros i j k [] []. split; congruence. Qed.

Lemma upd_hw x f i : same_hw i (upd_dp x f i).
Proof. by destruct x. Qed.

Lemma pwr_hw x i : same_hw i (snd (_phl_datapath_chk_pwr x i)).
Proof.
  unfold _phl_datapath_chk_pwr, _phl_datapath_req_pwr, ask_send. destruct x; by repeat case_match.
Qed.

Lemma step_hw x i : same_hw i (hdl_step x i).
Proof.
  unfold hdl_step, hdl_end, hdl_begin, sw_stop. destruct (working (dp_of x i)).
  - destruct (_ =? _), x; done.
  - unfold phl_datapath_chk_trx_pause. destruct (_ =? _); [apply pwr_hw|].
    destruct x; [unfold ask_allowed; by case_match|done].
Qed.

Lemma iter_hw n : forall x i, same_hw i (iter_hdl n x i).
Proof. induction n as [|n IH]; intros x i; [done|]. cbn. etransitivity; [apply step_hw|apply IH]. Qed.

Lemma poll_hw n x : forall i, same_hw i (snd (poll_pause n x i)).
Proof.
  induction n as [|n IH]; intros i; [done|]. cbn.
  destruct (default (2, 2)%nat (head (e_steps (denv i)))) as [t r].
  set (j := set_denv _ i). transitivity (iter_hdl r Rx (iter_hdl t Tx j)).
  { transitivity (iter_hdl t Tx j); [transitivity j; [done|apply iter_hw]|apply iter_hw]. }
  generalize (iter_hdl r Rx (iter_hdl t Tx j)) as k. intros k.
  assert (same_hw k (snd (is_pause x k))) as Hk.
  { destruct x; [done|]. cbn. unfold phl_is_rx_sw_pause_pcie. by case_match. }
  destruct (is_pause x k) as [[] k']; [exact Hk|]. etransitivity; [exact Hk|apply IH].
Qed.

Lemma sw_pause_hw x id i : same_hw i (snd (sw_pause x id i)).
Proof.
  unfold sw_pause. case_match; [apply upd_hw|]. case_match; [apply upd_hw|].
  set (j := req_stop x i). assert (same_hw i (snd (schedule x j))) as Hj by (transitivity j; [apply upd_hw|done]).
  destruct (schedule x j) as [st k]. cbn in Hj.
  destruct st; try exact Hj. pose proof (poll_hw (poll_cnt x) x k) as Hp.
  destruct (poll_pause (poll_cnt x) x k) as [b k']. cbn in *. etransitivity; [exact Hj|].
  etransitivity; [exact Hp|apply upd_hw].
Qed.

Lemma halting_hold x y m i : halting x i -> halting x (hold y m i).
Proof. unfold halting, hold. rewrite dp_of_upd. by case_decide. Qed.

(** Whatever the state: success and timeout mean the pause is held. *)
Lemma sw_pause_outcome x id b i st j :
  0 <= b -> _phl_get_ctrl_mdl id = BIT b -> sw_pause x id i = (st, j) ->
  st = RTW_PHL_STATUS_FAILURE \/
  (st = RTW_PHL_STATUS_SUCCESS \/ st = RTW_PHL_STATUS_CMD_TIMEOUT) /\ held_by x b j /\ halting x j.
Proof.
  intros Hb Hid. unfold sw_pause. rewrite Hid.
  destruct (Z.eqb_spec PHL_TX_STATUS_SW_PAUSE (sw_sts (dp_of x i))) as [Es|Es].
  { intros [= <- <-]. right. split; [by left|]. split; [by apply hold_testbit|by apply halting_hold; left]. }
  destruct (Z.eqb_spec PHL_TX_STATUS_STOP_INPROGRESS (sw_sts (dp_of x i))) as [Et|Et].
  { intros [= <- <-]. right. split; [by left|]. split; [by apply hold_testbit|by apply halting_hold; right]. }
  assert (halting x (req_stop x i)) as Hh by (right; unfold req_stop; by rewrite dp_of_upd, decide_True).
  apply (halting_same _ _ _ (schedule_same x x (req_stop x i))) in Hh.
  destruct (schedule x (req_stop x i)) as [sc k]. cbn [snd] in Hh.
  destruct sc; try (intros [= <- <-]; by left).
  destruct (poll_keeps (poll_cnt x) x x k Hh) as [Hp _]. destruct (poll_pause (poll_cnt x) x k) as [p k'].
  intros [= <- <-]. right. split; [destruct p; auto|]. split; [by apply hold_testbit|by apply halting_hold].
Qed.

Lemma sw_pause_other id b i : held_by Tx b i -> halting Tx i ->
  held_by Tx b (snd (sw_pause Rx id i)) /\ halting Tx (snd (sw_pause Rx id i)).
Proof.
  intros Hh Hi. unfold sw_pause. case_match; [done|]. case_match; [done|].
  assert (same_ctl Tx i (snd (schedule Rx (req_stop Rx i)))) as Hs by (etransitivity; [|apply schedule_same]; done).
  destruct (schedule Rx (req_stop Rx i)) as [st k]. cbn [snd] in Hs.
  apply (halting_same _ _ _ Hs) in Hi. destruct Hs as [_ E _ _]. unfold held_by in *. rewrite <- E in Hh.
  destruct st; try done. destruct (poll_keeps (poll_cnt Rx) Rx Tx k Hi) as [H1 H2].
  destruct (poll_pause (poll_cnt Rx) Rx k) as [p k']. cbn [snd] in *.
  split; [cbn in *; congruence|done].
Qed.

Lemma hw_pause_outcome i st j : _phl_hw_trx_pause i = (st, j) ->
  (forall x, same_ctl x i j) /\ ctrl_err j = ctrl_err i /\
  (st = RTW_PHL_STATUS_SUCCESS /\ is_hw_trx_pause j = true \/ st = RTW_PHL_STATUS_FAILURE).
Proof.
  unfold _phl_hw_trx_pause, ask_hal. intros E.
  assert (forall x, same_ctl x i j) as Hs.
  { intros x. destruct (default true _); cbn in E; injection E as <- <-;
      (transitivity (dp_emit (EvHal 0) i); [by apply emit_same|by destruct x]). }
  split; [done|]. destruct (default true _); cbn in E; injection E as <- <-; auto.
Qed.

Lemma then_ok err i k : then_step err (RTW_PHL_STATUS_SUCCESS, i) k = k i.
Proof. done. Qed.
Lemma then_fail err st i k : st <> RTW_PHL_STATUS_SUCCESS -> then_step err (st, i) k = (st, err st i).
Proof. intros H. unfold then_step. by rewrite bool_decide_false. Qed.

Ltac reported E Herr c :=
  rewrite then_fail in E by done; unfold report_poll, report in E; rewrite Herr in E; injection E as <- <-; split; [done|]; intros _;
  exists c; split; [done|].

(** The pause with reset reports no error and ends with both directions
    held, the hardware paused and both resets done in order, or it stores the
    code of the step that failed; the two timeout codes are exactly the
    timeouts, and after every failure later than the first step transmission
    stays held. *)
Theorem pause_w_rst_outcome id b msg i st j :
  0 <= b -> _phl_get_ctrl_mdl id = BIT b -> has_err msg = true -> ctrl_err i = None ->
  _phl_trx_pause_w_rst id msg i = (st, j) ->
  (st = RTW_PHL_STATUS_SUCCESS -> ctrl_err j = None /\ is_hw_trx_pause j = true /\
     (forall x, held_by x b j /\ halting x j) /\ exists l, dlog j = l ++ [EvReset Tx; EvReset Rx]) /\
  (st <> RTW_PHL_STATUS_SUCCESS -> exists c, ctrl_err j = Some c /\
     (st = RTW_PHL_STATUS_CMD_TIMEOUT <-> c = CTRL_ERR_SW_TX_PAUSE_POLLTO \/ c = CTRL_ERR_SW_RX_PAUSE_POLLTO) /\
     (c = CTRL_ERR_SW_TX_PAUSE_POLLTO \/ c = CTRL_ERR_HW_TRX_PAUSE_FAIL \/ c = CTRL_ERR_SW_RX_PAUSE_POLLTO \/
      c = CTRL_ERR_SW_RX_PAUSE_FAIL -> held_by Tx b j)).
Proof.
  intros Hb Hid Herr H0 E. unfold _phl_trx_pause_w_rst, _phl_sw_tx_pause, _phl_sw_rx_pause in E.
  destruct (sw_pause Tx id i) as [s1 i1] eqn:E1. destruct (sw_pause_hw Tx id i) as [Ee1 _].
  rewrite E1 in Ee1. cbn [snd] in Ee1.
  pose proof (sw_pause_outcome Tx id b i s1 i1 Hb Hid E1) as O1.
  destruct O1 as [->|[[-> | ->] [Hh1 Hl1]]].
  { reported E Herr CTRL_ERR_SW_TX_PAUSE_FAIL. split; [split; [done|by intros [?|?]]|by intros [?|[?|[?|?]]]]. }
  2:{ reported E Herr CTRL_ERR_SW_TX_PAUSE_POLLTO. split; [split; [by left|done]|]. by intros _. }
  rewrite then_ok in E. destruct (_phl_hw_trx_pause i1) as [s2 i2] eqn:E2. apply hw_pause_outcome in E2 as (Hs2 & Ee2 & O2).
  assert (held_by Tx b i2 /\ halting Tx i2) as [Hh2 Hl2].
  { split; [|exact (halting_same Tx i1 i2 (Hs2 Tx) Hl1)]. destruct (Hs2 Tx) as [_ Ei _ _]. unfold held_by in *. by rewrite Ei. }
  destruct O2 as [[-> Hp2]| ->].
  2:{ reported E Herr CTRL_ERR_HW_TRX_PAUSE_FAIL. split; [split; [done|by intros [?|?]]|by intros _]. }
  rewrite then_ok in E. destruct (sw_pause Rx id i2) as [s3 i3] eqn:E3. destruct (sw_pause_hw Rx id i2) as [Ee3 Eh3].
  destruct (sw_pause_other id b i2 Hh2 Hl2) as [Hh3 Hl3]. rewrite E3 in Ee3, Eh3, Hh3, Hl3. cbn [snd] in *.
  pose proof (sw_pause_outcome Rx id b i2 s3 i3 Hb Hid E3) as O3.
  destruct O3 as [->|[[-> | ->] [Hh4 Hl4]]].
  - reported E Herr CTRL_ERR_SW_RX_PAUSE_FAIL. split; [split; [done|by intros [?|?]]|by intros _].
  - rewrite then_ok in E. injection E as <- <-. split; [|done]. intros _. split; [cbn; congruence|]. split; [cbn; congruence|].
    split; [by intros []|]. eexists. cbn. by rewrite <- app_assoc.
  - reported E Herr CTRL_ERR_SW_RX_PAUSE_POLLTO. split; [split; [by right|done]|by intros _].
Qed.

(** *** A pause completes *)

Lemma pause_sts_step x y i : sw_sts (dp_of x i) = PHL_TX_STATUS_SW_PAUSE -> sw_sts (dp_of x (hdl_step y i)) = PHL_TX_STATUS_SW_PAUSE.
Proof.
  intros Hs. unfold hdl_step. destruct (working (dp_of y i)).
  - unfold hdl_end, sw_stop. destruct (_ =? _); rewrite ?dp_of_upd; repeat case_decide; done.
  - destruct (begin_ctl x y i) as (E & _). congruence.
Qed.

Lemma pause_sts_iter n : forall x y i, sw_sts (dp_of x i) = PHL_TX_STATUS_SW_PAUSE ->
  sw_sts (dp_of x (iter_hdl n y i)) = PHL_TX_STATUS_SW_PAUSE.
Proof. induction n as [|n IH]; intros x y i Hs; [done|]. cbn. by apply IH, pause_sts_step. Qed.

(** Two steps of the handler bring it past its end. *)
Lemma two_steps n x i : (2 <= n)%nat -> halting x i -> sw_sts (dp_of x (iter_hdl n x i)) = PHL_TX_STATUS_SW_PAUSE.
Proof.
  intros Hn Hh. destruct n as [|[|n]]; [lia|lia|]. cbn. apply pause_sts_iter.
  assert (forall j, halting x j -> working (dp_of x j) = true -> sw_sts (dp_of x (hdl_step x j)) = PHL_TX_STATUS_SW_PAUSE) as Hend.
  { intros j Hj Hw. unfold hdl_step. rewrite Hw. unfold hdl_end, sw_stop.
    destruct Hj as [E|E]; rewrite E; cbn [Z.eqb Pos.eqb PHL_TX_STATUS_STOP_INPROGRESS PHL_TX_STATUS_SW_PAUSE];
      rewrite ?dp_of_upd, ?decide_True by done; done. }
  destruct (working (dp_of x i)) eqn:Ew; [by apply pause_sts_step, Hend|].
  destruct (decide (sw_sts (dp_of x i) = PHL_TX_STATUS_SW_PAUSE)) as [Es|Es]; [by apply pause_sts_step, pause_sts_step|].
  apply Hend; [by apply step_halting|]. unfold hdl_step. rewrite Ew. by apply begin_working.
Qed.

Lemma idle_frame n x i : e_idle (denv (iter_hdl n x i)) = e_idle (denv i).
Proof.
  revert i. induction n as [|n IH]; intros i; [done|]. cbn. rewrite IH.
  unfold hdl_step, hdl_end, hdl_begin, sw_stop, phl_datapath_chk_trx_pause, _phl_datapath_chk_pwr, _phl_datapath_req_pwr, ask_send.
  destruct (working (dp_of x i)); [by destruct (_ =? _), x|].
  destruct (_ =? _); [destruct x; by repeat case_match|].
  destruct x; [unfold ask_allowed; by destruct (default true _)|done].
Qed.

(** Pausing a running direction succeeds when its handler can be
    scheduled, gets to run before the polling ends, and the bus is idle then. *)
Theorem pause_completes x id i t r :
  sw_sts (dp_of x i) = PHL_TX_STATUS_RUNNING ->
  default true (head (e_sched (denv i))) = true ->
  default (2, 2)%nat (head (e_steps (denv i))) = (t, r) -> (2 <= match x with Tx => t | Rx => r end)%nat ->
  default true (head (e_idle (denv i))) = true ->
  fst (sw_pause x id i) = RTW_PHL_STATUS_SUCCESS.
Proof.
  intros Hs Hsc Hst Hn Hid. unfold sw_pause. rewrite Hs.
  cbn [Z.eqb PHL_TX_STATUS_SW_PAUSE PHL_TX_STATUS_STOP_INPROGRESS PHL_TX_STATUS_RUNNING Pos.eqb].
  set (j := req_stop x i). assert (halting x j) as Hj by (right; unfold j, req_stop; by rewrite dp_of_upd, decide_True).
  assert (denv j = denv i) as Ej by (by destruct x). unfold schedule, ask_sched. rewrite Ej, Hsc.
  set (k := dp_emit _ _).
  assert (halting x k /\ e_steps (denv k) = e_steps (denv i) /\ e_idle (denv k) = e_idle (denv i)) as (Hk & Es & Ei)
    by (split; [destruct x; exact Hj|done]).
  clearbody k. assert (exists m, poll_cnt x = S m) as [m ->] by (destruct x; by eexists).
  cbn [poll_pause]. unfold ask_steps. rewrite Es, Hst. set (l := set_denv _ k).
  assert (halting x l /\ e_idle (denv l) = e_idle (denv i)) as [Hl El] by (split; [destruct x; exact Hk|done]).
  clearbody l.
  assert (sw_sts (dp_of x (iter_hdl r Rx (iter_hdl t Tx l))) = PHL_TX_STATUS_SW_PAUSE) as Hp.
  { destruct x; [by apply pause_sts_iter, two_steps|by apply two_steps, iter_halting]. }
  assert (e_idle (denv (iter_hdl r Rx (iter_hdl t Tx l))) = e_idle (denv i)) as Ep by (by rewrite !idle_frame).
  revert Hp Ep. generalize (iter_hdl r Rx (iter_hdl t Tx l)) as z. intros z Hp Ep.
  destruct x; cbn [is_pause dp_of] in *; unfold phl_is_tx_sw_pause_pcie, phl_is_rx_sw_pause_pcie; rewrite Hp.
  - done.
  - cbn [Z.eqb PHL_TX_STATUS_SW_PAUSE Pos.eqb]. unfold ask_idle. by rewrite Ep, Hid.
Qed.

(** ** Witnesses *)

Definition ps_pause : dp_info :=
  snd (phl_data_ctrler PHL_DATA_CTL_SW_TX_PAUSE PHL_MDL_POWER_MGNT zero_msg (set_denv (denv dp0) dp0)).

Lemma ps_pause_reach : rtc (dp_step (fun _ _ => True)) dp0 ps_pause.
Proof. apply rtc_once. by apply dps_cmd. Qed.

Lemma pause_respected_witness : pause_id (dp_tx ps_held) = DATA_CTRL_MDL_PS /\ halting Tx ps_held.
Proof.
  split; [vm_compute; reflexivity|].
  apply (proj1 (proj2 pause_respected) ps_held (ps_held_reach true) Tx). vm_compute. discriminate.
Defined.

(** Error recovery pauses and resumes; power save still holds its pause. *)
Lemma pause_lasts_witness :
  let j := snd (phl_data_ctrler PHL_DATA_CTL_SW_TX_RESUME PHL_MDL_SER zero_msg (set_denv (denv dp0)
             (snd (phl_data_ctrler PHL_DATA_CTL_SW_TX_PAUSE PHL_MDL_SER zero_msg (set_denv (denv dp0) ps_pause))))) in
  held_by Tx 2 j /\ sw_sts (dp_tx j) = PHL_TX_STATUS_SW_PAUSE.
Proof.
  intros j. destruct (pause_lasts Tx PHL_MDL_POWER_MGNT 2 ps_pause j ltac:(lia) eq_refl ps_pause_reach
    ltac:(vm_compute; reflexivity) ltac:(vm_compute; reflexivity)) as (H1 & H2 & _).
  - unfold j. eapply rtc_r; [|apply dps_cmd; intros _ Hc; discriminate Hc]. apply rtc_once. apply dps_cmd.
    intros Hc. discriminate Hc.
  - split; [exact H1|exact H2].
Defined.

Lemma pause_resume_roundtrip_witness :
  sw_sts (dp_tx (snd (sw_resume Tx PHL_MDL_POWER_MGNT ps_pause))) = PHL_TX_STATUS_RUNNING.
Proof.
  destruct (pause_resume_roundtrip Tx PHL_MDL_POWER_MGNT 2 dp0 RTW_PHL_STATUS_SUCCESS ps_pause ltac:(lia) eq_refl
    eq_refl eq_refl ltac:(vm_compute; reflexivity) ltac:(discriminate)) as (_ & _ & _ & H & _).
  exact H.
Defined.

(** The chip does not confirm the pause. *)
Lemma pause_w_rst_outcome_witness :
  let i := set_denv (mkEnv [] [false] [] [] [] []) dp0 in
  let msg := mkMsg 0 0 0 1 0 4 0 in
  exists c, ctrl_err (snd (_phl_trx_pause_w_rst PHL_MDL_SER msg i)) = Some c.
Proof.
  intros i msg.
  assert (_phl_trx_pause_w_rst PHL_MDL_SER msg i = (RTW_PHL_STATUS_FAILURE, snd (_phl_trx_pause_w_rst PHL_MDL_SER msg i)))
    as E by (vm_compute; reflexivity).
  destruct (pause_w_rst_outcome PHL_MDL_SER 1 msg i _ _ ltac:(lia) eq_refl eq_refl eq_refl E) as [_ H].
  destruct (H ltac:(discriminate)) as (c & Hc & _). exists c. exact Hc.
Defined.

Lemma pause_completes_witness : fst (sw_pause Rx PHL_MDL_SER dp0) = RTW_PHL_STATUS_SUCCESS.
Proof. apply (pause_completes Rx PHL_MDL_SER dp0 2 2); [reflexivity|reflexivity|reflexivity|lia|reflexivity]. Defined.

(** ** Unrecorded pauses *)

(** A module the controller does not know is said to be skipped; it pauses the
    direction all the same, no module is recorded, and a module that may
    resume is refused. *)
Lemma unknown_module_pauses :
  let '(st, i) := sw_pause Tx 100 dp0 in
  st = RTW_PHL_STATUS_SUCCESS /\ sw_sts (dp_tx i) = PHL_TX_STATUS_SW_PAUSE /\ pause_id (dp_tx i) = 0 /\
  fst (sw_resume Tx PHL_MDL_POWER_MGNT i) = RTW_PHL_STATUS_FAILURE.
Proof. vm_compute. repeat split. Qed.

(** When the handler cannot be scheduled the pause fails, but the stop request
    stays: the next run of the handler pauses the direction, and the module
    that asked cannot resume it. *)
Lemma failed_pause_stops :
  let '(st, i) := sw_pause Tx PHL_MDL_SER (set_denv (mkEnv [false] [] [] [] [] []) dp0) in
  let j := _phl_tx_callback_pcie i in
  st = RTW_PHL_STATUS_FAILURE /\ sw_sts (dp_tx j) = PHL_TX_STATUS_SW_PAUSE /\
  fst (sw_resume Tx PHL_MDL_SER j) = RTW_PHL_STATUS_FAILURE.
Proof. vm_compute. repeat split. Qed.
