(* ===== verification/DispCtrl.v ===== *)
(** * The dispatcher's controller (src/phl/phl_cmd_dispr_controller.c)

    The first module to see each message.  It turns data-path events into
    commands of the data controller ([DataPath]) and holds back the stop of a
    module while error recovery runs: the message is answered with "pending"
    and the dispatcher is told to resume pending messages when recovery ends. *)

From S2P Require Import Prelude PhlQueue PhlDef DataPath.

(** ** Events *)

Definition MSG_EVT_SER_L0_RESET : Z := 39.
Definition MSG_EVT_SER_M1_PAUSE_TRX : Z := 40.
Definition MSG_EVT_SER_M3_DO_RECOV : Z := 43.
Definition MSG_EVT_SER_M5_READY : Z := 44.
Definition MSG_EVT_HW_TRX_RST_RESUME : Z := 80.
Definition MSG_EVT_HW_TRX_PAUSE : Z := 81.
Definition MSG_EVT_SW_TX_RESUME : Z := 82.
Definition MSG_EVT_SW_RX_RESUME : Z := 83.
Definition MSG_EVT_SW_TX_PAUSE : Z := 84.
Definition MSG_EVT_SW_RX_PAUSE : Z := 85.
Definition MSG_EVT_SW_TX_RESET : Z := 86.
Definition MSG_EVT_SW_RX_RESET : Z := 87.
Definition MSG_EVT_TRX_SW_PAUSE : Z := 88.
Definition MSG_EVT_TRX_SW_RESUME : Z := 89.
Definition MSG_EVT_TRX_PAUSE_W_RST : Z := 90.
Definition MSG_EVT_TRX_RESUME_W_RST : Z := 91.
Definition MSG_EVT_MDL_CHECK_STOP : Z := 113.

Definition IS_MSG_FAIL (msg_id : Z) : bool := z_true (Z.land msg_id (Z.shiftl MSG_INDC_FAIL 24)).

(** ** State *)

Record cmd_controller := mkCtrl { mon_mdl_id : Z; mon_mdl : bool }.

(** The controller ([None]: not allocated), the data path, whether the device
    was removed by surprise, and the bands whose pending messages were told to
    resume ([phl_disp_eng_clr_pending_msg]). *)
Record ctl_state := mkCs {
  cs_ctrl : option cmd_controller; cs_dp : dp_info; cs_removed : bool; cs_resumed : list Z }.

Definition set_cs_ctrl v s := mkCs v (cs_dp s) (cs_removed s) (cs_resumed s).
Definition set_cs_dp v s := mkCs (cs_ctrl s) v (cs_removed s) (cs_resumed s).
Definition set_cs_resumed v s := mkCs (cs_ctrl s) (cs_dp s) (cs_removed s) v.

(** ** Data-path events *)

(** What the [_dispr_*_ctrl] functions have in common. *)
Definition run_ctl (cmd : phl_data_ctrl_cmd) (id : Z) (msg : phl_msg) (s : ctl_state) :
    phl_mdl_ret_code * ctl_state :=
  let '(sts, i) := phl_data_ctrler cmd id msg (cs_dp s) in
  ((if bool_decide (sts = RTW_PHL_STATUS_SUCCESS) then MDL_RET_SUCCESS else MDL_RET_FAIL), set_cs_dp i s).

Definition msg_mdl (msg : phl_msg) : Z := MSG_MDL_ID_FIELD (msg_id msg).

Definition _dispr_resume_io_ctrl (msg : phl_msg) (s : ctl_state) : phl_mdl_ret_code * ctl_state :=
  match run_ctl PHL_DATA_CTL_SW_TX_RESUME (msg_mdl msg) msg s with
  | (MDL_RET_SUCCESS, s) => run_ctl PHL_DATA_CTL_SW_RX_RESUME (msg_mdl msg) msg s
  | (_, s) => (MDL_RET_FAIL, s)
  end.

Definition _dispr_cannot_io_ctrl (msg : phl_msg) := run_ctl PHL_DATA_CTL_TRX_SW_PAUSE (msg_mdl msg) msg.
Definition _dispr_hw_trx_rst_resume_ctrl (msg : phl_msg) := run_ctl PHL_DATA_CTL_HW_TRX_RST_RESUME (msg_mdl msg) msg.
Definition _dispr_hw_trx_pause_ctrl (msg : phl_msg) := run_ctl PHL_DATA_CTL_HW_TRX_PAUSE (msg_mdl msg) msg.

(** Power save pauses, the data path resumes in its name. *)
Definition resume_id (mdl_id : Z) : Z :=
  if (mdl_id =? PHL_MDL_TX) || (mdl_id =? PHL_MDL_RX) then PHL_MDL_POWER_MGNT else mdl_id.
Definition _dispr_sw_tx_resume_ctrl (msg : phl_msg) := run_ctl PHL_DATA_CTL_SW_TX_RESUME (resume_id (msg_mdl msg)) msg.
Definition _dispr_sw_rx_resume_ctrl (msg : phl_msg) := run_ctl PHL_DATA_CTL_SW_RX_RESUME (resume_id (msg_mdl msg)) msg.
Definition _dispr_sw_tx_pause_ctrl (msg : phl_msg) := run_ctl PHL_DATA_CTL_SW_TX_PAUSE (msg_mdl msg) msg.
Definition _dispr_sw_rx_pause_ctrl (msg : phl_msg) := run_ctl PHL_DATA_CTL_SW_RX_PAUSE (msg_mdl msg) msg.
Definition _dispr_sw_tx_reset_ctrl (msg : phl_msg) := run_ctl PHL_DATA_CTL_SW_TX_RESET (msg_mdl msg) msg.
Definition _dispr_sw_rx_reset_ctrl (msg : phl_msg) := run_ctl PHL_DATA_CTL_SW_RX_RESET (msg_mdl msg) msg.
Definition _dispr_trx_sw_pause_ctrl (msg : phl_msg) := run_ctl PHL_DATA_CTL_TRX_SW_PAUSE (msg_mdl msg) msg.
Definition _dispr_trx_sw_resume_ctrl (msg : phl_msg) := run_ctl PHL_DATA_CTL_TRX_SW_RESUME (msg_mdl msg) msg.
Definition _dispr_trx_pause_w_rst_ctrl (msg : phl_msg) := run_ctl PHL_DATA_CTL_TRX_PAUSE_W_RST (msg_mdl msg) msg.
Definition _dispr_trx_resume_w_rst_ctrl (msg : phl_msg) := run_ctl PHL_DATA_CTL_TRX_RESUME_W_RST (msg_mdl msg) msg.

(** ** Holding back a stop *)

Definition _dispr_mdl_stop_ctrl (s : ctl_state) : phl_mdl_ret_code * ctl_state :=
  match cs_ctrl s with
  | Some c =>
      if negb (mon_mdl_id c =? 0)
      then (MDL_RET_PENDING, set_cs_ctrl (Some (mkCtrl (mon_mdl_id c) true)) s)
      else (MDL_RET_SUCCESS, s)
  | None => (MDL_RET_SUCCESS, s)
  end.

Definition _mon_msg_hdlr (msg : phl_msg) (s : ctl_state) : ctl_state :=
  let evt := MSG_EVT_ID_FIELD (msg_id msg) in
  match cs_ctrl s with
  | None => s
  | Some c =>
      if (evt =? MSG_EVT_SER_L0_RESET) || (evt =? MSG_EVT_SER_M1_PAUSE_TRX) || (evt =? MSG_EVT_SER_M3_DO_RECOV)
      then set_cs_ctrl (Some (mkCtrl PHL_MDL_SER (mon_mdl c))) s
      else if evt =? MSG_EVT_SER_M5_READY then
        let s := if mon_mdl c then set_cs_resumed (cs_resumed s ++ [band_idx msg]) s else s in
        set_cs_ctrl (Some (mkCtrl 0 false)) s
      else s
  end.

(** ** Life cycle *)

Definition _dispr_ctrl_init (ok : bool) (s : ctl_state) : phl_mdl_ret_code * ctl_state :=
  let s := set_cs_ctrl None s in
  if negb ok then (MDL_RET_FAIL, s) else (MDL_RET_SUCCESS, set_cs_ctrl (Some (mkCtrl 0 false)) s).
Definition _dispr_ctrl_deinit (s : ctl_state) : ctl_state := set_cs_ctrl None s.
Definition _dispr_ctrl_start (s : ctl_state) : phl_mdl_ret_code * ctl_state :=
  (MDL_RET_SUCCESS, set_cs_ctrl ((fun _ => mkCtrl 0 false) <$> cs_ctrl s) s).
Definition _dispr_ctrl_stop (s : ctl_state) : phl_mdl_ret_code * ctl_state := (MDL_RET_SUCCESS, s).

(** ** Messages *)

Definition _ctrler_msg_hdlr (msg : phl_msg) (s : ctl_state) : phl_mdl_ret_code * ctl_state :=
  let evt := MSG_EVT_ID_FIELD (msg_id msg) in
  if evt =? MSG_EVT_DEV_RESUME_IO then _dispr_resume_io_ctrl msg s
  else if evt =? MSG_EVT_DEV_CANNOT_IO then _dispr_cannot_io_ctrl msg s
  else (MDL_RET_IGNORE, s).

Definition _tx_msg_hdlr (msg : phl_msg) (s : ctl_state) : phl_mdl_ret_code * ctl_state := (MDL_RET_IGNORE, s).
Definition _rx_msg_hdlr (msg : phl_msg) (s : ctl_state) : phl_mdl_ret_code * ctl_state := (MDL_RET_IGNORE, s).

Definition _internal_msg_hdlr (msg : phl_msg) (s : ctl_state) : phl_mdl_ret_code * ctl_state :=
  if msg_mdl msg =? PHL_MDL_PHY_MGNT then _ctrler_msg_hdlr msg s
  else if msg_mdl msg =? PHL_MDL_TX then _tx_msg_hdlr msg s
  else if msg_mdl msg =? PHL_MDL_RX then _rx_msg_hdlr msg s
  else (MDL_RET_IGNORE, s).

Definition _external_msg_hdlr (msg : phl_msg) (s : ctl_state) : phl_mdl_ret_code * ctl_state :=
  if cs_removed s then (MDL_RET_FAIL, s)
  else
    let s := _mon_msg_hdlr msg s in
    let evt := MSG_EVT_ID_FIELD (msg_id msg) in
    if evt =? MSG_EVT_HW_TRX_RST_RESUME then _dispr_hw_trx_rst_resume_ctrl msg s
    else if evt =? MSG_EVT_HW_TRX_PAUSE then _dispr_hw_trx_pause_ctrl msg s
    else if evt =? MSG_EVT_SW_TX_RESUME then _dispr_sw_tx_resume_ctrl msg s
    else if evt =? MSG_EVT_SW_RX_RESUME then _dispr_sw_rx_resume_ctrl msg s
    else if evt =? MSG_EVT_SW_TX_PAUSE then _dispr_sw_tx_pause_ctrl msg s
    else if evt =? MSG_EVT_SW_RX_PAUSE then _dispr_sw_rx_pause_ctrl msg s
    else if evt =? MSG_EVT_SW_TX_RESET then _dispr_sw_tx_reset_ctrl msg s
    else if evt =? MSG_EVT_SW_RX_RESET then _dispr_sw_rx_reset_ctrl msg s
    else if evt =? MSG_EVT_TRX_SW_PAUSE then _dispr_trx_sw_pause_ctrl msg s
    else if evt =? MSG_EVT_TRX_SW_RESUME then _dispr_trx_sw_resume_ctrl msg s
    else if evt =? MSG_EVT_TRX_PAUSE_W_RST then _dispr_trx_pause_w_rst_ctrl msg s
    else if evt =? MSG_EVT_TRX_RESUME_W_RST then _dispr_trx_resume_w_rst_ctrl msg s
    else if evt =? MSG_EVT_MDL_CHECK_STOP then _dispr_mdl_stop_ctrl s
    else (MDL_RET_IGNORE, s).

Definition _dispr_ctrl_msg_hdlr (msg : phl_msg) (s : ctl_state) : phl_mdl_ret_code * ctl_state :=
  if IS_MSG_FAIL (msg_id msg) then (MDL_RET_FAIL, s)
  else if IS_DISPR_CTRL (msg_mdl msg) then _internal_msg_hdlr msg s
  else _external_msg_hdlr msg s.
