(* ===== verification/DispCtrlThm.v ===== *)
(** * The dispatcher's controller: theorems *)

From S2P Require Import Prelude PhlQueue PhlDef DataPath DataPathThm DispCtrl.

Definition msg_evt (msg : phl_msg) : Z := MSG_EVT_ID_FIELD (msg_id msg).

(** A message of a module, not failed. *)
Definition external (msg : phl_msg) : Prop :=
  IS_MSG_FAIL (msg_id msg) = false /\ IS_DISPR_CTRL (msg_mdl msg) = false.

(** ** Routing *)

(** The command of the data controller an event stands for. *)
Definition event_cmds : list (Z * phl_data_ctrl_cmd) :=
  [(MSG_EVT_HW_TRX_RST_RESUME, PHL_DATA_CTL_HW_TRX_RST_RESUME); (MSG_EVT_HW_TRX_PAUSE, PHL_DATA_CTL_HW_TRX_PAUSE);
   (MSG_EVT_SW_TX_RESUME, PHL_DATA_CTL_SW_TX_RESUME); (MSG_EVT_SW_RX_RESUME, PHL_DATA_CTL_SW_RX_RESUME);
   (MSG_EVT_SW_TX_PAUSE, PHL_DATA_CTL_SW_TX_PAUSE); (MSG_EVT_SW_RX_PAUSE, PHL_DATA_CTL_SW_RX_PAUSE);
   (MSG_EVT_SW_TX_RESET, PHL_DATA_CTL_SW_TX_RESET); (MSG_EVT_SW_RX_RESET, PHL_DATA_CTL_SW_RX_RESET);
   (MSG_EVT_TRX_SW_PAUSE, PHL_DATA_CTL_TRX_SW_PAUSE); (MSG_EVT_TRX_SW_RESUME, PHL_DATA_CTL_TRX_SW_RESUME);
   (MSG_EVT_TRX_PAUSE_W_RST, PHL_DATA_CTL_TRX_PAUSE_W_RST); (MSG_EVT_TRX_RESUME_W_RST, PHL_DATA_CTL_TRX_RESUME_W_RST)].

Definition event_cmd (evt : Z) : option phl_data_ctrl_cmd :=
  snd <$> List.find (fun e => evt =? fst e) event_cmds.

Lemma mon_dp msg s : cs_dp (_mon_msg_hdlr msg s) = cs_dp s /\ cs_removed (_mon_msg_hdlr msg s) = cs_removed s.
Proof. unfold _mon_msg_hdlr. by repeat case_match. Qed.

Lemma run_ctl_spec cmd id msg s : let '(ret, s') := run_ctl cmd id msg s in
  let '(sts, i) := phl_data_ctrler cmd id msg (cs_dp s) in
  cs_dp s' = i /\ cs_ctrl s' = cs_ctrl s /\ cs_resumed s' = cs_resumed s /\ cs_removed s' = cs_removed s /\
  ret = if bool_decide (sts = RTW_PHL_STATUS_SUCCESS) then MDL_RET_SUCCESS else MDL_RET_FAIL.
Proof. unfold run_ctl. by destruct (phl_data_ctrler cmd id msg (cs_dp s)). Qed.

Lemma resume_id_external msg : IS_DISPR_CTRL (msg_mdl msg) = false -> resume_id (msg_mdl msg) = msg_mdl msg.
Proof.
  unfold IS_DISPR_CTRL, PHL_BK_MDL_ROLE_START, resume_id, PHL_MDL_TX, PHL_MDL_RX. intros H.
  destruct (_ || _) eqn:E; [|done]. lia.
Qed.

(** The chain of tests on the event is the table. *)
Lemma external_route msg s : IS_DISPR_CTRL (msg_mdl msg) = false -> cs_removed s = false ->
  _external_msg_hdlr msg s =
  match event_cmd (msg_evt msg) with
  | Some cmd => run_ctl cmd (msg_mdl msg) msg (_mon_msg_hdlr msg s)
  | None => if msg_evt msg =? MSG_EVT_MDL_CHECK_STOP then _dispr_mdl_stop_ctrl (_mon_msg_hdlr msg s)
            else (MDL_RET_IGNORE, _mon_msg_hdlr msg s)
  end.
Proof.
  intros Hi Hr. unfold _external_msg_hdlr. rewrite Hr.
  unfold _dispr_sw_tx_resume_ctrl, _dispr_sw_rx_resume_ctrl. rewrite (resume_id_external msg Hi). fold (msg_evt msg).
  unfold event_cmd, event_cmds. cbn [List.find fst].
  repeat (match goal with |- context [if ?b then _ else _] => destruct b eqn:? end; [reflexivity|]). done.
Qed.

(** The dispatcher's controller refines a table from events to data-path
    commands: an external message runs exactly the command of its event in its
    sender's name and reports that command's outcome, and any other event
    leaves the data path alone. *)
Theorem ctrl_routes msg s : external msg -> cs_removed s = false ->
  let '(ret, s') := _dispr_ctrl_msg_hdlr msg s in
  match event_cmd (msg_evt msg) with
  | Some cmd =>
      let '(sts, i) := phl_data_ctrler cmd (msg_mdl msg) msg (cs_dp s) in
      cs_dp s' = i /\ ret = if bool_decide (sts = RTW_PHL_STATUS_SUCCESS) then MDL_RET_SUCCESS else MDL_RET_FAIL
  | None =>
      cs_dp s' = cs_dp s /\ (msg_evt msg <> MSG_EVT_MDL_CHECK_STOP -> ret = MDL_RET_IGNORE)
  end.
Proof.
  intros [Hf Hi] Hr. unfold _dispr_ctrl_msg_hdlr. rewrite Hf, Hi, external_route by done.
  destruct (mon_dp msg s) as [Ed _].
  destruct (event_cmd (msg_evt msg)) as [cmd|].
  - pose proof (run_ctl_spec cmd (msg_mdl msg) msg (_mon_msg_hdlr msg s)) as H. rewrite Ed in H.
    destruct (run_ctl _ _ _ _) as [ret s']. destruct (phl_data_ctrler _ _ _ _) as [sts i].
    destruct H as (H1 & _ & _ & _ & H2). done.
  - destruct (Z.eqb_spec (msg_evt msg) MSG_EVT_MDL_CHECK_STOP) as [E|E]; [|done].
    unfold _dispr_mdl_stop_ctrl. destruct (cs_ctrl _) as [c|]; [destruct (negb _)|]; (split; [done|by intros []]).
Qed.

(** The controller changes nothing and returns failure for a message
    marked failed and, once the device was removed, for every external
    message; messages of the transmit and receive modules are ignored. *)
Theorem ctrl_refuses msg s :
  (IS_MSG_FAIL (msg_id msg) = true -> _dispr_ctrl_msg_hdlr msg s = (MDL_RET_FAIL, s)) /\
  (external msg -> cs_removed s = true -> _dispr_ctrl_msg_hdlr msg s = (MDL_RET_FAIL, s)) /\
  (IS_MSG_FAIL (msg_id msg) = false -> msg_mdl msg = PHL_MDL_TX \/ msg_mdl msg = PHL_MDL_RX ->
   _dispr_ctrl_msg_hdlr msg s = (MDL_RET_IGNORE, s)).
Proof.
  unfold _dispr_ctrl_msg_hdlr. split; [by intros ->|]. split.
  - intros [-> ->] Hr. unfold _external_msg_hdlr. by rewrite Hr.
  - intros -> [E|E]; unfold _internal_msg_hdlr; by rewrite E.
Qed.

(** ** Stops during error recovery *)

Definition ctl_run (s : ctl_state) (msgs : list phl_msg) : ctl_state :=
  foldl (fun s m => snd (_dispr_ctrl_msg_hdlr m s)) s msgs.

(** Recovery is under way, with a stop held back or not. *)
Definition recovering (stop : bool) (resumed : list Z) (s : ctl_state) : Prop :=
  cs_removed s = false /\ cs_resumed s = resumed /\
  exists c, cs_ctrl s = Some c /\ mon_mdl_id c <> 0 /\ mon_mdl c = stop.

Lemma run_ctl_recovering cmd id msg b l s : recovering b l s -> recovering b l (snd (run_ctl cmd id msg s)).
Proof.
  intros (H1 & H2 & H3). pose proof (run_ctl_spec cmd id msg s) as H. destruct (run_ctl cmd id msg s) as [ret s'].
  destruct (phl_data_ctrler _ _ _ _) as [sts i]. destruct H as (_ & E1 & E2 & E3 & _).
  unfold recovering. cbn [snd]. by rewrite E1, E2, E3.
Qed.

Lemma resume_io_recovering msg b l s : recovering b l s -> recovering b l (snd (_dispr_resume_io_ctrl msg s)).
Proof.
  intros H. unfold _dispr_resume_io_ctrl.
  pose proof (run_ctl_recovering PHL_DATA_CTL_SW_TX_RESUME (msg_mdl msg) msg b l s H) as H1.
  destruct (run_ctl _ _ _ _) as [ret s']. destruct ret; try done. by apply run_ctl_recovering.
Qed.

Lemma mon_recovering msg b l s : msg_evt msg <> MSG_EVT_SER_M5_READY ->
  recovering b l s -> recovering b l (_mon_msg_hdlr msg s).
Proof.
  intros Hn (H1 & H2 & c & Ec & Hc & Hm). unfold _mon_msg_hdlr. rewrite Ec. fold (msg_evt msg).
  destruct (_ || _); [split; [done|]; split; [done|]; eexists; split; [reflexivity|done]|].
  destruct (Z.eqb_spec (msg_evt msg) MSG_EVT_SER_M5_READY); [done|]. split; [done|]. split; [done|]. by exists c.
Qed.

Lemma recovering_step msg l s : msg_evt msg <> MSG_EVT_SER_M5_READY ->
  recovering true l s -> recovering true l (snd (_dispr_ctrl_msg_hdlr msg s)).
Proof.
  intros Hn Hs. unfold _dispr_ctrl_msg_hdlr. destruct (IS_MSG_FAIL _); [done|].
  destruct (IS_DISPR_CTRL _) eqn:Ei.
  - unfold _internal_msg_hdlr, _ctrler_msg_hdlr, _tx_msg_hdlr, _rx_msg_hdlr, _dispr_cannot_io_ctrl.
    repeat (case_match; try done); [by apply resume_io_recovering|by apply run_ctl_recovering].
  - rewrite external_route by (done || apply Hs). pose proof (mon_recovering msg true l s Hn Hs) as Hm.
    destruct (event_cmd _); [by apply run_ctl_recovering|]. destruct (_ =? _); [|done].
    unfold _dispr_mdl_stop_ctrl. destruct Hm as (H1 & H2 & c & Ec & Hc & Hb). rewrite Ec.
    destruct (Z.eqb_spec (mon_mdl_id c) 0); [done|]. split; [done|]. split; [done|]. by eexists.
Qed.

(** A module stop the controller held back during error recovery stays
    held through all messages up to the end of recovery, which resumes the
    pending messages of the band once, after which the stop is let through. *)
Theorem held_stop_resumed s stop msgs ready s1 :
  external stop -> msg_evt stop = MSG_EVT_MDL_CHECK_STOP ->
  _dispr_ctrl_msg_hdlr stop s = (MDL_RET_PENDING, s1) ->
  Forall (fun m => msg_evt m <> MSG_EVT_SER_M5_READY) msgs ->
  external ready -> msg_evt ready = MSG_EVT_SER_M5_READY ->
  let s2 := snd (_dispr_ctrl_msg_hdlr ready (ctl_run s1 msgs)) in
  cs_resumed s2 = cs_resumed s ++ [band_idx ready] /\ fst (_dispr_ctrl_msg_hdlr stop s2) = MDL_RET_SUCCESS.
Proof.
  intros [Hf Hi] He E Hm [Hrf Hri] Hre s2.
  assert (recovering true (cs_resumed s) s1) as H1.
  { unfold _dispr_ctrl_msg_hdlr in E. rewrite Hf, Hi in E. destruct (cs_removed s) eqn:Er.
    { unfold _external_msg_hdlr in E. by rewrite Er in E. }
    rewrite external_route, He in E by done. cbn in E.
    assert (_mon_msg_hdlr stop s = s) as Es.
    { unfold _mon_msg_hdlr. fold (msg_evt stop). rewrite He. cbn. by case_match. }
    rewrite Es in E. unfold _dispr_mdl_stop_ctrl in E. destruct (cs_ctrl s) as [c|]; [|done].
    destruct (Z.eqb_spec (mon_mdl_id c) 0); [done|]. injection E as <-. split; [done|]. split; [done|]. by eexists. }
  assert (recovering true (cs_resumed s) (ctl_run s1 msgs)) as H2.
  { clear E s2. revert s1 H1. induction Hm as [|m msgs Hm _ IH]; intros s1 H1; [done|]. cbn.
    by apply IH, recovering_step. }
  destruct H2 as (Hr & Hl & c & Ec & _ & Hc).
  assert (s2 = set_cs_ctrl (Some (mkCtrl 0 false)) (set_cs_resumed (cs_resumed s ++ [band_idx ready]) (ctl_run s1 msgs))) as Es2.
  { unfold s2, _dispr_ctrl_msg_hdlr. rewrite Hrf, Hri, external_route, Hre by done. cbn.
    unfold _mon_msg_hdlr. fold (msg_evt ready). rewrite Ec, Hre, Hc, Hl. done. }
  split; [by rewrite Es2|]. unfold _dispr_ctrl_msg_hdlr. rewrite Hf, Hi, external_route, He by (done || by rewrite Es2).
  cbn. rewrite Es2. unfold _mon_msg_hdlr. fold (msg_evt stop). by rewrite He.
Qed.

Definition ctl0 : ctl_state := snd (_dispr_ctrl_start (snd (_dispr_ctrl_init true (mkCs None dp0 false [])))).
Definition evt_msg (mdl evt : Z) : phl_msg := mkMsg (mdl * 65536 + evt) 0 0 0 0 0 0.

Lemma ctrl_routes_witness :
  fst (_dispr_ctrl_msg_hdlr (evt_msg PHL_MDL_SER MSG_EVT_SW_TX_PAUSE) ctl0) = MDL_RET_SUCCESS.
Proof.
  pose proof (ctrl_routes (evt_msg PHL_MDL_SER MSG_EVT_SW_TX_PAUSE) ctl0 ltac:(vm_compute; split; reflexivity) eq_refl) as H.
  destruct (_dispr_ctrl_msg_hdlr _ _) as [ret s'].
  assert (event_cmd (msg_evt (evt_msg PHL_MDL_SER MSG_EVT_SW_TX_PAUSE)) = Some PHL_DATA_CTL_SW_TX_PAUSE) as Ee
    by (vm_compute; reflexivity).
  rewrite Ee in H.
  assert (fst (phl_data_ctrler PHL_DATA_CTL_SW_TX_PAUSE (msg_mdl (evt_msg PHL_MDL_SER MSG_EVT_SW_TX_PAUSE))
    (evt_msg PHL_MDL_SER MSG_EVT_SW_TX_PAUSE) (cs_dp ctl0)) = RTW_PHL_STATUS_SUCCESS) as Ep by (vm_compute; reflexivity).
  destruct (phl_data_ctrler _ _ _ _) as [sts i]. cbn [fst] in Ep. destruct H as [_ H]. rewrite Ep in H. exact H.
Defined.

Lemma held_stop_resumed_witness :
  let s := snd (_dispr_ctrl_msg_hdlr (evt_msg PHL_MDL_SER MSG_EVT_SER_M1_PAUSE_TRX) ctl0) in
  let stop := evt_msg PHL_MDL_POWER_MGNT MSG_EVT_MDL_CHECK_STOP in
  let s1 := snd (_dispr_ctrl_msg_hdlr stop s) in
  cs_resumed (snd (_dispr_ctrl_msg_hdlr (evt_msg PHL_MDL_SER MSG_EVT_SER_M5_READY) (ctl_run s1 []))) = [0].
Proof.
  intros s stop s1.
  destruct (held_stop_resumed s stop [] (evt_msg PHL_MDL_SER MSG_EVT_SER_M5_READY) s1
    ltac:(vm_compute; split; reflexivity) ltac:(vm_compute; reflexivity) ltac:(vm_compute; reflexivity)
    ltac:(constructor) ltac:(vm_compute; split; reflexivity) ltac:(vm_compute; reflexivity)) as [H _].
  exact H.
Defined.
