(* ===== verification/RxReorder.v ===== *)
(** * Receive reordering (src/phl/phl_rx.c, lines 533 to 910; src/phl/phl_rx_agg.c)

    One [phl_tid_ampdu_rx] per station and traffic identifier holds frames that
    arrived early in a ring of [buf_size] slots.  Sequence numbers are 12 bits.
    A frame is an identity with the metadata the code reads; frames handed back
    to the bus layer ([recycle_rx_pkt], [phl_recycle_rx_buf]) are appended to a
    list, and so are those put on the caller's [frames] list. *)

From S2P Require Import Prelude PhlQueue PhlDef.

Definition SEQ_MODULO : Z := 0x1000.
Definition SEQ_MASK : Z := 0xfff.
Definition HT_RX_REORDER_BUF_TIMEOUT_MS : Z := 100.
Definition PHL_MAX_AGG_WSIZE : Z := 32.
(** [ARRAY_SIZE(sta->tid_rx)] *)
Definition TID_RX_NUM : nat := 8.

(** ** Sequence numbers *)

Definition seq_less (sq1 sq2 : Z) : bool := Z.shiftr SEQ_MODULO 1 <? Z.land (sq1 - sq2) SEQ_MASK.
Definition seq_inc (sq : Z) : Z := Z.land (sq + 1) SEQ_MASK.
Definition seq_sub (sq1 sq2 : Z) : Z := Z.land (sq1 - sq2) SEQ_MASK.

(** ** State *)

(** The fields of [struct rtw_r_meta_data] that are read. *)
Record rtw_r_meta_data := mkMeta {
  m_seq : Z; m_tid : Z; m_bc : bool; m_mc : bool; m_qos : bool; m_q_null : bool;
  m_more_frag : bool; m_frag_num : Z; m_amsdu_cut : bool; m_last_msdu : bool;
  m_pktlen : Z; m_macid : Z; m_addr_cam_vld : bool; m_frame_type : Z; m_pwr_bit : bool; m_rx_rate : Z }.

(** [pk_id] is the address, [pk_len0] is [pkt_list[0].length]. *)
Record rtw_phl_rx_pkt := mkPkt { pk_id : nat; pk_meta : rtw_r_meta_data; pk_len0 : Z }.
Definition pk_seq (p : rtw_phl_rx_pkt) : Z := m_seq (pk_meta p).

Record phl_tid_ampdu_rx := mkTidRx {
  reorder_buf : list (option rtw_phl_rx_pkt);
  reorder_time : list Z;
  head_seq_num : Z;
  stored_mpdu_num : Z;
  ssn : Z;
  buf_size : Z;
  tid : Z;
  started : bool;
  removed : bool }.

Definition set_reorder_buf v r := mkTidRx v (reorder_time r) (head_seq_num r) (stored_mpdu_num r) (ssn r) (buf_size r) (tid r) (started r) (removed r).
Definition set_reorder_time v r := mkTidRx (reorder_buf r) v (head_seq_num r) (stored_mpdu_num r) (ssn r) (buf_size r) (tid r) (started r) (removed r).
Definition set_head_seq_num v r := mkTidRx (reorder_buf r) (reorder_time r) v (stored_mpdu_num r) (ssn r) (buf_size r) (tid r) (started r) (removed r).
Definition set_stored_mpdu_num v r := mkTidRx (reorder_buf r) (reorder_time r) (head_seq_num r) v (ssn r) (buf_size r) (tid r) (started r) (removed r).
Definition set_started v r := mkTidRx (reorder_buf r) (reorder_time r) (head_seq_num r) (stored_mpdu_num r) (ssn r) (buf_size r) (tid r) v (removed r).
Definition set_removed v r := mkTidRx (reorder_buf r) (reorder_time r) (head_seq_num r) (stored_mpdu_num r) (ssn r) (buf_size r) (tid r) (started r) v.

(** What a call leaves besides the ring: the [frames] list, the frames given
    back, and what it did to the reorder timer, if anything. *)
Record rx_out := mkOut {
  o_frames : list rtw_phl_rx_pkt; o_recycled : list rtw_phl_rx_pkt; o_timer : option bool }.
Definition no_out : rx_out := mkOut [] [] None.

Definition out_frame (p : rtw_phl_rx_pkt) (o : rx_out) : rx_out :=
  mkOut (o_frames o ++ [p]) (o_recycled o) (o_timer o).
Definition out_recycle (l : list rtw_phl_rx_pkt) (o : rx_out) : rx_out :=
  mkOut (o_frames o) (o_recycled o ++ l) (o_timer o).
Definition out_timer (armed : bool) (o : rx_out) : rx_out :=
  mkOut (o_frames o) (o_recycled o) (Some armed).

Definition slot (r : phl_tid_ampdu_rx) (i : Z) : option rtw_phl_rx_pkt :=
  nth (Z.to_nat i) (reorder_buf r) None.

(** ** Releasing *)

Definition reorder_index (r : phl_tid_ampdu_rx) (sq : Z) : Z := seq_sub sq (ssn r) mod buf_size r.

Definition phl_release_reorder_frame (r : phl_tid_ampdu_rx) (index : Z) (o : rx_out) :
    phl_tid_ampdu_rx * rx_out :=
  let '(r, o) :=
    match slot r index with
    | None => (r, o)
    | Some pkt =>
        let r := set_stored_mpdu_num (u16 (stored_mpdu_num r - 1)) r in
        let r := set_reorder_buf (<[Z.to_nat index := None]> (reorder_buf r)) r in
        (r, out_frame pkt o)
    end in
  (set_head_seq_num (seq_inc (head_seq_num r)) r, o).

(** The slots from [i] up to [j], exclusive, around the ring. *)
Fixpoint ring_between (fuel : nat) (i j size : Z) : list Z :=
  match fuel with
  | O => []
  | S fuel => if i =? j then [] else i :: ring_between fuel ((i + 1) mod size) j size
  end.

(** The [for] loop over [j] in [phl_reorder_release]; the flag is the [goto]. *)
Fixpoint timeout_loop (fuel : nat) (cur_time index j skipped : Z) (r : phl_tid_ampdu_rx) (o : rx_out) :
    bool * phl_tid_ampdu_rx * rx_out :=
  match fuel with
  | O => (false, r, o)
  | S fuel =>
      if j =? index then (false, r, o)
      else
        let next := (j + 1) mod buf_size r in
        match slot r j with
        | None => timeout_loop fuel cur_time index next (skipped + 1) r o
        | Some _ =>
            if z_true skipped &&
               (cur_time <? u32 (nth (Z.to_nat j) (reorder_time r) 0 + HT_RX_REORDER_BUF_TIMEOUT_MS))
            then (true, r, o)
            else
              let between := ring_between (Z.to_nat (buf_size r)) ((index + 1) mod buf_size r) j (buf_size r) in
              let o := out_recycle (omap (slot r) between) o in
              let '(r, o) := phl_release_reorder_frame r j o in
              let r := set_head_seq_num (Z.land (head_seq_num r + skipped) SEQ_MASK) r in
              timeout_loop fuel cur_time index next 0 r o
        end
  end.

(** The [while] loop that releases consecutive frames. *)
Fixpoint release_run (fuel : nat) (index : Z) (r : phl_tid_ampdu_rx) (o : rx_out) :
    phl_tid_ampdu_rx * rx_out :=
  match fuel with
  | O => (r, o)
  | S fuel =>
      match slot r index with
      | None => (r, o)
      | Some _ =>
          let '(r, o) := phl_release_reorder_frame r index o in
          release_run fuel (reorder_index r (head_seq_num r)) r o
      end
  end.

(** The scan before [set_release_timer]; where it stops is not used.  [None]:
    still running. *)
Fixpoint release_scan (fuel : nat) (index j : Z) (r : phl_tid_ampdu_rx) : option Z :=
  match fuel with
  | O => None
  | S fuel =>
      if j =? Z.rem (index - 1) (buf_size r) then Some j
      else match slot r j with
           | Some _ => Some j
           | None => release_scan fuel index ((j + 1) mod buf_size r) r
           end
  end.

Definition phl_reorder_release (cur_time : Z) (r : phl_tid_ampdu_rx) (o : rx_out) :
    phl_tid_ampdu_rx * rx_out :=
  let index := reorder_index r (head_seq_num r) in
  let '(stop, r, o) :=
    if bool_decide (slot r index = None) && z_true (stored_mpdu_num r) then
      timeout_loop (Z.to_nat (buf_size r)) cur_time index ((index + 1) mod buf_size r) 1 r o
    else
      let '(r, o) := release_run (Z.to_nat (buf_size r)) index r o in (false, r, o) in
  if stop || z_true (stored_mpdu_num r)
  then (r, if removed r then o else out_timer true o)
  else (r, out_timer false o).

Fixpoint release_until (fuel : nat) (hseq : Z) (r : phl_tid_ampdu_rx) (o : rx_out) :
    phl_tid_ampdu_rx * rx_out :=
  match fuel with
  | O => (r, o)
  | S fuel =>
      if seq_less (head_seq_num r) hseq && z_true (stored_mpdu_num r) then
        let '(r, o) := phl_release_reorder_frame r (reorder_index r (head_seq_num r)) o in
        release_until fuel hseq r o
      else (r, o)
  end.

(** The head moves one step per turn, at most half the number space. *)
Definition phl_release_reorder_frames (r : phl_tid_ampdu_rx) (hseq : Z) (o : rx_out) :
    phl_tid_ampdu_rx * rx_out :=
  let '(r, o) := release_until (Z.to_nat SEQ_MODULO) hseq r o in
  (set_head_seq_num hseq r, o).

(** ** A frame arrives *)

(** [false]: the caller passes the frame on itself.  [now] is the clock when
    the frame is stored, [cur_time] when frames are released. *)
Definition phl_manage_sta_reorder_buf (now cur_time : Z) (pkt : rtw_phl_rx_pkt) (r : phl_tid_ampdu_rx)
    (o : rx_out) : bool * phl_tid_ampdu_rx * rx_out :=
  let mpdu_seq_num := pk_seq pkt in
  let head := head_seq_num r in
  if negb (started r) && seq_less mpdu_seq_num head then (false, r, o)
  else
    let r := set_started true r in
    if seq_less mpdu_seq_num head then (true, r, out_recycle [pkt] o)
    else
      let '(r, o) :=
        if negb (seq_less mpdu_seq_num (u16 (head + buf_size r)))
        then phl_release_reorder_frames r (seq_inc (seq_sub mpdu_seq_num (buf_size r))) o
        else (r, o) in
      let index := reorder_index r mpdu_seq_num in
      match slot r index with
      | Some _ => (true, r, out_recycle [pkt] o)
      | None =>
          if (mpdu_seq_num =? head_seq_num r) && (stored_mpdu_num r =? 0)
          then (false, set_head_seq_num (seq_inc (head_seq_num r)) r, o)
          else
            let r := set_reorder_buf (<[Z.to_nat index := Some pkt]> (reorder_buf r)) r in
            let r := set_reorder_time (<[Z.to_nat index := now]> (reorder_time r)) r in
            let r := set_stored_mpdu_num (u16 (stored_mpdu_num r + 1)) r in
            let '(r, o) := phl_reorder_release cur_time r o in
            (true, r, o)
      end.

(** ** Stations *)

(** [rtw_phl_stainfo_t]: the sessions and whether the reorder timer runs. *)
Record rx_sta := mkSta { tid_rx : list (option phl_tid_ampdu_rx); reorder_timer : bool }.

Definition sta_tid (s : rx_sta) (t : Z) : option phl_tid_ampdu_rx := nth (Z.to_nat t) (tid_rx s) None.
Definition set_tid (t : Z) (v : option phl_tid_ampdu_rx) (s : rx_sta) : rx_sta :=
  mkSta (<[Z.to_nat t := v]> (tid_rx s)) (reorder_timer s).
Definition apply_timer (o : rx_out) (s : rx_sta) : rx_sta :=
  mkSta (tid_rx s) (default (reorder_timer s) (o_timer o)).

(** The checks of [phl_rx_reorder] that send a frame past the reordering. *)
Definition dont_reorder (m : rtw_r_meta_data) : bool :=
  m_bc m || m_mc m || negb (m_qos m) || m_q_null m || m_more_frag m || z_true (m_frag_num m).

(** [sta] is the station the lookups by MAC identifier and address give.
    [append_fcs]: the hardware leaves the checksum at the end. *)
Definition phl_rx_reorder (append_fcs : bool) (now cur_time : Z) (phl_rx : rtw_phl_rx_pkt)
    (sta : option rx_sta) (o : rx_out) : rtw_phl_status * option rx_sta * rx_out :=
  let m := pk_meta phl_rx in
  let cut := append_fcs && negb (m_amsdu_cut m && negb (m_last_msdu m)) in
  if cut && (pk_len0 phl_rx <=? 4) then (RTW_PHL_STATUS_FAILURE, sta, out_recycle [phl_rx] o)
  else
    let phl_rx := if cut then mkPkt (pk_id phl_rx) m (pk_len0 phl_rx - 4) else phl_rx in
    if dont_reorder m then (RTW_PHL_STATUS_SUCCESS, sta, out_frame phl_rx o)
    else
      match sta with
      | None => (RTW_PHL_STATUS_SUCCESS, sta, out_frame phl_rx o)
      | Some s =>
          if Z.of_nat TID_RX_NUM <=? m_tid m
          then (RTW_PHL_STATUS_FAILURE, sta, out_recycle [phl_rx] o)
          else
            match sta_tid s (m_tid m) with
            | None => (RTW_PHL_STATUS_SUCCESS, sta, out_frame phl_rx o)
            | Some r =>
                let '(taken, r, o) := phl_manage_sta_reorder_buf now cur_time phl_rx r o in
                let s := apply_timer o (set_tid (m_tid m) (Some r) s) in
                (RTW_PHL_STATUS_SUCCESS, Some s, if taken then o else out_frame phl_rx o)
            end
      end.

(** The frames released by a block-ack request.  [tid] is not checked. *)
Definition rtw_phl_rx_bar (s : rx_sta) (t sq : Z) : rx_sta * rx_out :=
  match sta_tid s t with
  | None => (s, no_out)
  | Some r =>
      if seq_less sq (head_seq_num r) then (s, no_out)
      else
        let '(r, o) := phl_release_reorder_frames r sq no_out in
        (set_tid t (Some r) s, o)
  end.

(** [phl_sta_rx_reorder_timer_expired]: every session in turn. *)
Definition timer_expired_tid (cur_time : Z) (acc : rx_sta * list rtw_phl_rx_pkt) (t : nat) :
    rx_sta * list rtw_phl_rx_pkt :=
  let '(s, frames) := acc in
  match nth t (tid_rx s) None with
  | None => (s, frames)
  | Some r =>
      let '(r, o) := phl_reorder_release cur_time r no_out in
      (apply_timer o (set_tid (Z.of_nat t) (Some r) s), frames ++ o_frames o)
  end.

Definition phl_sta_rx_reorder_timer_expired (cur_time : Z) (s : rx_sta) :
    rx_sta * list rtw_phl_rx_pkt :=
  foldl (timer_expired_tid cur_time) (mkSta (tid_rx s) false, []) (seq 0 TID_RX_NUM).

(** ** Sessions (phl_rx_agg.c) *)

(** The frames given back. *)
Definition phl_tid_ampdu_rx_free (r : option phl_tid_ampdu_rx) : list rtw_phl_rx_pkt :=
  match r with
  | None => []
  | Some r => omap (fun p => p) (take (Z.to_nat (buf_size r)) (reorder_buf r))
  end.

(** [ok1], [ok2], [ok3]: outcome of the three allocations. *)
Definition phl_tid_ampdu_rx_alloc (ok1 ok2 ok3 : bool) (ssn tid buf_size : Z) :
    option phl_tid_ampdu_rx :=
  if negb ok1 then None
  else if negb ok2 then None
  else if negb ok3 then None
  else Some (mkTidRx (replicate (Z.to_nat buf_size) None) (replicate (Z.to_nat buf_size) 0)
               ssn 0 ssn buf_size tid false false).

(** [tid] is not checked against the array. *)
Definition rtw_phl_start_rx_ba_session (ok1 ok2 ok3 : bool) (s : rx_sta)
    (start_seq_num ba_policy tid buf_size : Z) : rtw_phl_status * rx_sta * list rtw_phl_rx_pkt :=
  if z_true ba_policy then (RTW_PHL_STATUS_FAILURE, s, [])
  else
    let buf_size := if buf_size =? 0 then PHL_MAX_AGG_WSIZE else buf_size in
    match phl_tid_ampdu_rx_alloc ok1 ok2 ok3 start_seq_num tid buf_size with
    | None => (RTW_PHL_STATUS_RESOURCE, s, [])
    | Some r =>
        let freed := phl_tid_ampdu_rx_free (sta_tid s tid) in
        (RTW_PHL_STATUS_SUCCESS, set_tid tid (Some r) s, freed)
    end.

Definition rtw_phl_stop_rx_ba_session (s : option rx_sta) (tid : Z) :
    option rx_sta * list rtw_phl_rx_pkt :=
  match s with
  | None => (None, [])
  | Some s =>
      if Z.of_nat TID_RX_NUM <=? tid then (Some s, [])
      else
        match sta_tid s tid with
        | None => (Some s, [])
        | Some r => (Some (set_tid tid None s), phl_tid_ampdu_rx_free (Some (set_removed true r)))
        end
  end.

Definition phl_free_rx_reorder (s : rx_sta) : rx_sta * list rtw_phl_rx_pkt :=
  let s := mkSta (map (fun o => set_removed true <$> o) (tid_rx s)) (reorder_timer s) in
  let s := mkSta (tid_rx s) false in
  (mkSta (map (fun _ => None) (tid_rx s)) (reorder_timer s),
   concat (map phl_tid_ampdu_rx_free (tid_rx s))).
