(* ===== verification/RxReorderInv.v ===== *)
(** * The reorder ring as a window

    Seen from the head sequence number, the ring is a window: slot [k] holds the
    frame [k] after the head.  Every release function shifts the window: the
    frames that leave it come out in order, [None]s come in at the far end.  This
    needs [buf_size] to divide the sequence number space. *)

From S2P Require Import Prelude PhlQueue PhlDef RxReorder.

(** ** Sequence number arithmetic *)

Lemma land_mask x : Z.land x SEQ_MASK = x mod SEQ_MODULO.
Proof. change SEQ_MASK with (Z.ones 12). by rewrite Z.land_ones by lia. Qed.

Lemma seq_less_spec a b : seq_less a b = (2048 <? (a - b) mod 4096).
Proof. unfold seq_less. by rewrite land_mask. Qed.

Lemma seq_inc_spec a : seq_inc a = (a + 1) mod 4096.
Proof. unfold seq_inc. by rewrite land_mask. Qed.

Lemma seq_sub_spec a b : seq_sub a b = (a - b) mod 4096.
Proof. unfold seq_sub. by rewrite land_mask. Qed.

(** ** The window *)

(** Slot of the frame [k] after the head. *)
Definition idx (r : phl_tid_ampdu_rx) (k : Z) : Z := (head_seq_num r + k - ssn r) mod buf_size r.
Definition wnd_size (r : phl_tid_ampdu_rx) : nat := Z.to_nat (buf_size r).
Definition wnd (r : phl_tid_ampdu_rx) : list (option rtw_phl_rx_pkt) :=
  (fun k => slot r (idx r (Z.of_nat k))) <$> seq 0 (wnd_size r).

Definition stored (l : list (option rtw_phl_rx_pkt)) : list rtw_phl_rx_pkt := omap (fun o => o) l.

(** Sizes the proofs need: a divisor of the number space, at most a quarter of
    it, and at least 2. *)
Definition size_ok (b : Z) : Prop := 2 <= b <= 1024 /\ (b | 4096).

Record reorder_ok (r : phl_tid_ampdu_rx) : Prop := {
  rk_size : size_ok (buf_size r);
  rk_buf : length (reorder_buf r) = wnd_size r;
  rk_head : 0 <= head_seq_num r < 4096;
  rk_stored : stored_mpdu_num r = Z.of_nat (length (stored (wnd r)));
  rk_seq : forall k p, wnd r !! k = Some (Some p) -> pk_seq p = (head_seq_num r + Z.of_nat k) mod 4096 }.

Lemma length_wnd r : length (wnd r) = wnd_size r.
Proof. unfold wnd. by rewrite length_fmap, length_seq. Qed.

Lemma wnd_lookup r k : (k < wnd_size r)%nat -> wnd r !! k = Some (slot r (idx r (Z.of_nat k))).
Proof. intros Hk. unfold wnd. rewrite list_lookup_fmap, lookup_seq_lt by done. done. Qed.

Lemma stored_app a b : stored (a ++ b) = stored a ++ stored b.
Proof. apply omap_app. Qed.

Lemma stored_none n : stored (replicate n None) = [].
Proof. induction n; done. Qed.

Lemma stored_nil l : stored l = [] -> l = replicate (length l) None.
Proof. induction l as [|[p|] l IH]; cbn; intros H; [done|done|]. f_equal. by apply IH. Qed.

Lemma stored_length l : (length (stored l) <= length l)%nat.
Proof. unfold stored. induction l as [|[p|] l IH]; cbn in *; lia. Qed.

Section size.
Context (b : Z) (Hb : size_ok b).

Lemma mod_mask x y : ((x mod 4096) + y) mod b = (x + y) mod b.
Proof.
  destruct Hb as [Hr [m Hm]]. rewrite <- (Zplus_mod_idemp_l (x mod 4096)), <- (Zplus_mod_idemp_l x).
  do 2 f_equal. rewrite Hm. rewrite (Z.mul_comm m b). rewrite Z.rem_mul_r by lia.
  rewrite (Z.mul_comm b), Z_mod_plus_full. by rewrite Zmod_mod.
Qed.

Lemma mod_range x : 0 <= x mod b < b.
Proof. apply Z.mod_pos_bound. destruct Hb; lia. Qed.

Lemma mod_shift_eq x u v : 0 <= u < b -> 0 <= v < b -> (x + u) mod b = (x + v) mod b -> u = v.
Proof.
  intros Hu Hv E. assert ((u - v) mod b = 0) as Hd.
  { replace (u - v) with ((x + u) - (x + v)) by lia. rewrite Zminus_mod, E, Z.sub_diag. done. }
  destruct Hb as [Hr _]. apply Z.mod_divide in Hd as [q Hq]; [|lia].
  destruct (Z.lt_trichotomy q 0) as [?|[?|?]]; nia.
Qed.

Lemma mod_wrap x u : (x + (u + b)) mod b = (x + u) mod b.
Proof. rewrite Z.add_assoc. rewrite <- (Z.mul_1_l b) at 1. by rewrite Z_mod_plus_full. Qed.
End size.

Lemma reorder_index_idx r k : size_ok (buf_size r) -> reorder_index r (head_seq_num r + k) = idx r k.
Proof.
  intros Hb. unfold reorder_index, idx. rewrite seq_sub_spec.
  rewrite <- (Z.add_0_r (_ mod 4096)), mod_mask by done. by rewrite Z.add_0_r.
Qed.

(** The frame [s] after the head leaves, slots before it being empty, and the
    head moves past it. *)
Definition cleared (s : Z) (r : phl_tid_ampdu_rx) : phl_tid_ampdu_rx :=
  set_head_seq_num ((head_seq_num r + s + 1) mod 4096)
    (set_reorder_buf (<[Z.to_nat (idx r s) := None]> (reorder_buf r)) r).

Lemma slot_insert r i j v :
  (Z.to_nat i < length (reorder_buf r))%nat -> 0 <= i -> 0 <= j ->
  slot (set_reorder_buf (<[Z.to_nat i := v]> (reorder_buf r)) r) j = if decide (i = j) then v else slot r j.
Proof.
  intros Hi H0 Hj. unfold slot. cbn. rewrite !nth_lookup. destruct (decide (i = j)) as [<-|Hne].
  - by rewrite list_lookup_insert_eq by done.
  - rewrite list_lookup_insert_ne by lia. done.
Qed.

Lemma wnd_cleared r s :
  size_ok (buf_size r) -> length (reorder_buf r) = wnd_size r -> (s < wnd_size r)%nat ->
  (forall u, (u < s)%nat -> wnd r !! u = Some None) ->
  wnd (cleared (Z.of_nat s) r) = drop (S s) (wnd r) ++ replicate (S s) None.
Proof.
  intros Hb Hl Hs Hn. pose proof (proj1 Hb) as Hr. unfold wnd_size in *.
  assert (forall k, 0 <= idx r k < buf_size r) as Hi by (intros; by apply mod_range).
  assert (forall k, 0 <= k -> slot (cleared (Z.of_nat s) r) (idx (cleared (Z.of_nat s) r) k) =
     if decide (idx r (Z.of_nat s) = idx r (Z.of_nat s + 1 + k)) then None
     else slot r (idx r (Z.of_nat s + 1 + k))) as Hslot.
  { intros k Hk. replace (idx (cleared (Z.of_nat s) r) k) with (idx r (Z.of_nat s + 1 + k)).
    - change (slot (cleared (Z.of_nat s) r)) with
        (slot (set_reorder_buf (<[Z.to_nat (idx r (Z.of_nat s)) := None]> (reorder_buf r)) r)).
      pose proof (Hi (Z.of_nat s)). pose proof (Hi (Z.of_nat s + 1 + k)).
      apply slot_insert; [rewrite Hl; lia|lia|lia].
    - unfold idx, cleared. cbn. replace (_ mod 4096 + k - ssn r) with
        ((head_seq_num r + Z.of_nat s + 1) mod 4096 + (k - ssn r)) by lia.
      rewrite mod_mask by done. f_equal. lia. }
  apply list_eq. intros k. destruct (decide (k < Z.to_nat (buf_size r))%nat) as [Hk|Hk].
  2:{ rewrite !lookup_ge_None_2; [done| |]; rewrite ?length_app, ?length_replicate, ?length_drop, length_wnd;
        unfold wnd_size; cbn; lia. }
  rewrite wnd_lookup by (unfold wnd_size; cbn; done). rewrite Hslot by lia.
  destruct (decide (k < Z.to_nat (buf_size r) - S s)%nat) as [Hlt|Hge].
  - rewrite lookup_app_l by (rewrite length_drop, length_wnd; unfold wnd_size; lia).
    rewrite lookup_drop, wnd_lookup by (unfold wnd_size; lia). rewrite decide_False.
    + do 3 f_equal. lia.
    + unfold idx. intros E. replace (head_seq_num r + Z.of_nat s - ssn r) with
        ((head_seq_num r - ssn r) + Z.of_nat s) in E by lia.
      replace (head_seq_num r + (Z.of_nat s + 1 + Z.of_nat k) - ssn r) with
        ((head_seq_num r - ssn r) + (Z.of_nat s + 1 + Z.of_nat k)) in E by lia.
      apply mod_shift_eq in E; [lia|done|lia|lia].
  - rewrite lookup_app_r by (rewrite length_drop, length_wnd; unfold wnd_size; lia).
    rewrite length_drop, length_wnd, lookup_replicate_2 by (unfold wnd_size; lia). f_equal.
    case_decide as Hd; [done|]. set (u := (k + S s - Z.to_nat (buf_size r))%nat).
    assert (idx r (Z.of_nat s + 1 + Z.of_nat k) = idx r (Z.of_nat u)) as Hu.
    { unfold idx. replace (head_seq_num r + (Z.of_nat s + 1 + Z.of_nat k) - ssn r) with
        ((head_seq_num r - ssn r) + (Z.of_nat u + buf_size r)) by lia.
      rewrite mod_wrap. f_equal. lia. }
    rewrite Hu in *. destruct (decide (u = s)) as [->|]; [done|].
    specialize (Hn u ltac:(lia)). rewrite wnd_lookup in Hn by (unfold wnd_size; lia). by injection Hn.
Qed.

(** ** Shifting a window *)

Section shift.
Context {A : Type}.
Implicit Types (l : list (option A)).

Definition shift (a : nat) l : list (option A) := drop a l ++ replicate (a `min` length l) None.

Lemma length_shift a l : length (shift a l) = length l.
Proof. unfold shift. rewrite length_app, length_drop, length_replicate. lia. Qed.

Lemma shift_lookup a l k :
  (k < length l)%nat -> shift a l !! k = if decide (a + k < length l)%nat then l !! (a + k)%nat else Some None.
Proof.
  intros Hk. unfold shift. case_decide.
  - rewrite lookup_app_l by (rewrite length_drop; lia). by rewrite lookup_drop.
  - rewrite lookup_app_r by (rewrite length_drop; lia). rewrite length_drop. apply lookup_replicate_2. lia.
Qed.

Lemma shift_shift a b l : shift b (shift a l) = shift (a + b) l.
Proof.
  apply list_eq. intros k. destruct (decide (k < length l)%nat) as [Hk|Hk].
  - rewrite (shift_lookup b), (shift_lookup (a + b)) by (by rewrite ?length_shift). rewrite length_shift.
    destruct (decide (b + k < length l)%nat).
    + rewrite shift_lookup by lia. rewrite Nat.add_assoc. done.
    + by rewrite decide_False by lia.
  - rewrite !lookup_ge_None_2 by (rewrite ?length_shift; lia). done.
Qed.

Lemma shift_0 l : shift 0 l = l.
Proof. unfold shift. by rewrite drop_0, app_nil_r. Qed.
End shift.

Lemma stored_shift a l : stored (shift a l) = stored (drop a l).
Proof. unfold shift. by rewrite stored_app, stored_none, app_nil_r. Qed.

Lemma stored_take_shift a b l :
  stored (take a l) ++ stored (take b (shift a l)) = stored (take (a + b) l).
Proof.
  assert (stored (take b (shift a l)) = stored (take b (drop a l))) as ->.
  { unfold shift. rewrite take_app, stored_app, take_replicate, stored_none. by rewrite app_nil_r. }
  rewrite <- stored_app. f_equal. rewrite <- (take_drop a (take (a + b) l)). f_equal.
  - rewrite take_take. f_equal. lia.
  - rewrite <- take_drop_commute. done.
Qed.

Lemma stored_split a l : stored (take a l) ++ stored (drop a l) = stored l.
Proof. by rewrite <- stored_app, take_drop. Qed.

(** The window moved [a] steps, nothing else happened. *)
Record shifted (a : nat) (r : phl_tid_ampdu_rx) (o : rx_out) (r' : phl_tid_ampdu_rx) (o' : rx_out) :
    Prop := {
  sh_size : buf_size r' = buf_size r;
  sh_buf : length (reorder_buf r') = length (reorder_buf r);
  sh_head : head_seq_num r' = (head_seq_num r + Z.of_nat a) mod 4096;
  sh_wnd : wnd r' = shift a (wnd r);
  sh_stored : stored_mpdu_num r' = stored_mpdu_num r - Z.of_nat (length (stored (take a (wnd r))));
  sh_frames : o_frames o' = o_frames o ++ stored (take a (wnd r));
  sh_recycled : o_recycled o' = o_recycled o;
  sh_started : started r' = started r;
  sh_removed : removed r' = removed r }.

Lemma shifted_0 r o : reorder_ok r -> shifted 0 r o r o.
Proof.
  intros [Hs Hb Hh Hst Hq]. split; try done.
  - rewrite Z.add_0_r, Z.mod_small; done.
  - by rewrite shift_0.
  - change (stored (take 0 (wnd r))) with (@nil rtw_phl_rx_pkt). cbn. lia.
  - by rewrite app_nil_r.
Qed.

Lemma shifted_trans a b r o r1 o1 r2 o2 :
  shifted a r o r1 o1 -> shifted b r1 o1 r2 o2 -> shifted (a + b) r o r2 o2.
Proof.
  intros [] []. split; try congruence.
  - rewrite sh_head1, sh_head0, Zplus_mod_idemp_l. f_equal. lia.
  - by rewrite sh_wnd1, sh_wnd0, shift_shift.
  - rewrite sh_stored1, sh_stored0, sh_wnd0, <- stored_take_shift, length_app. lia.
  - rewrite sh_frames1, sh_frames0, sh_wnd0, <- stored_take_shift. by rewrite app_assoc.
Qed.

Lemma shifted_ok a r o r' o' : reorder_ok r -> shifted a r o r' o' -> reorder_ok r'.
Proof.
  intros [Hs Hb Hh Hst Hq] []. split.
  - by rewrite sh_size0.
  - unfold wnd_size in *. by rewrite sh_buf0, sh_size0.
  - rewrite sh_head0. apply Z.mod_pos_bound. lia.
  - rewrite sh_stored0, Hst, sh_wnd0, stored_shift, <- (stored_split a (wnd r)), length_app. lia.
  - intros k p Hk. rewrite sh_wnd0 in Hk. pose proof (lookup_lt_Some _ _ _ Hk) as Hl.
    rewrite length_shift in Hl. rewrite shift_lookup in Hk by done. case_decide; [|done].
    rewrite (Hq _ _ Hk), sh_head0, Zplus_mod_idemp_l. f_equal. lia.
Qed.

(** An empty window may be moved at will. *)
Lemma shifted_empty a r o :
  reorder_ok r -> stored_mpdu_num r = 0 ->
  shifted a r o (set_head_seq_num ((head_seq_num r + Z.of_nat a) mod 4096) r) o.
Proof.
  intros [Hs Hb Hh Hst Hq] H0. rewrite Hst in H0.
  assert (stored (wnd r) = []) as He by (apply length_zero_iff_nil; lia).
  assert (stored (take a (wnd r)) = []) as Ht.
  { pose proof (stored_split a (wnd r)) as Hx. rewrite He in Hx. by apply app_eq_nil in Hx as [? _]. }
  assert (forall i, 0 <= i < buf_size r -> slot r i = None) as Hall.
  { intros i Hi. pose proof (stored_nil _ He) as Hw. rewrite length_wnd in Hw.
    set (k := (i - (head_seq_num r - ssn r)) mod buf_size r).
    assert (0 <= k < buf_size r) as Hk by (by apply mod_range).
    assert (idx r k = i) as Hik.
    { unfold idx, k. replace (head_seq_num r + _ mod buf_size r - ssn r) with
        ((i - (head_seq_num r - ssn r)) mod buf_size r + (head_seq_num r - ssn r)) by lia.
      rewrite Zplus_mod_idemp_l. rewrite Z.sub_add. by apply Z.mod_small. }
    pose proof (wnd_lookup r (Z.to_nat k)) as Hlk. rewrite Z2Nat.id, Hik in Hlk by lia.
    rewrite Hw, lookup_replicate_2 in Hlk by (unfold wnd_size; lia).
    specialize (Hlk ltac:(unfold wnd_size; lia)). by injection Hlk. }
  split; try done.
  - rewrite (stored_nil _ He). rewrite length_wnd. apply list_eq. intros k.
    destruct (decide (k < wnd_size r)%nat) as [Hk|Hk].
    + rewrite shift_lookup by (by rewrite length_replicate). rewrite length_replicate.
      rewrite wnd_lookup by done. change (slot (set_head_seq_num ?x r)) with (slot r).
      rewrite Hall by (apply mod_range; done).
      case_decide; [|done]. by rewrite lookup_replicate_2 by lia.
    + rewrite !lookup_ge_None_2; [done| |]; rewrite ?length_shift, ?length_replicate, ?length_wnd; unfold wnd_size in *; cbn; lia.
  - rewrite Ht. cbn. lia.
  - by rewrite Ht, app_nil_r.
Qed.

(** Releasing the frame [s] after the head when the slots before are empty. *)
Lemma shifted_release r o s p :
  reorder_ok r -> wnd r !! s = Some (Some p) -> (forall u, (u < s)%nat -> wnd r !! u = Some None) ->
  shifted (S s) r o (set_stored_mpdu_num (u16 (stored_mpdu_num r - 1)) (cleared (Z.of_nat s) r)) (out_frame p o).
Proof.
  intros [Hs Hb Hh Hst Hq] Hp Hn. pose proof (lookup_lt_Some _ _ _ Hp) as Hl. rewrite length_wnd in Hl.
  assert (stored (take (S s) (wnd r)) = [p]) as Ht.
  { rewrite (take_S_r _ _ _ Hp), stored_app. cbn.
    replace (take s (wnd r)) with (replicate s (@None rtw_phl_rx_pkt)); [by rewrite stored_none|].
    apply list_eq. intros k. destruct (decide (k < s)%nat).
    - rewrite lookup_take_lt, Hn, lookup_replicate_2 by lia. done.
    - rewrite !lookup_ge_None_2; [done| |]; rewrite ?length_take, ?length_replicate; lia. }
  assert (1 <= length (stored (wnd r)))%nat as H1.
  { rewrite <- (stored_split (S s) (wnd r)), Ht, length_app. cbn. lia. }
  pose proof (stored_length (wnd r)) as H2. rewrite length_wnd in H2. unfold wnd_size in H2. pose proof (proj1 Hs).
  split; try done; cbn [stored_mpdu_num set_stored_mpdu_num cleared set_head_seq_num set_reorder_buf head_seq_num].
  - cbn. by rewrite length_insert.
  - f_equal. lia.
  - change (wnd (set_stored_mpdu_num ?x ?y)) with (wnd y). rewrite wnd_cleared by done.
    unfold shift. rewrite length_wnd. do 2 f_equal. lia.
  - rewrite Ht. unfold u16. rewrite Z.mod_small by lia. cbn. lia.
  - by rewrite Ht.
Qed.

(** ** The release functions *)

Lemma wnd_slot r k : (k < wnd_size r)%nat -> wnd r !! k = Some None <-> slot r (idx r (Z.of_nat k)) = None.
Proof. intros Hk. rewrite wnd_lookup by done. split; congruence. Qed.

Lemma reorder_index_head r : size_ok (buf_size r) -> reorder_index r (head_seq_num r) = idx r 0.
Proof. intros Hb. rewrite <- (Z.add_0_r (head_seq_num r)) at 1. by apply reorder_index_idx. Qed.

Lemma wnd_size_pos r : reorder_ok r -> (2 <= wnd_size r)%nat.
Proof. intros [[Hs _] _ _ _ _]. unfold wnd_size. lia. Qed.

Lemma shifted_skip r o :
  reorder_ok r -> wnd r !! 0%nat = Some None ->
  shifted 1 r o (set_head_seq_num ((head_seq_num r + 1) mod 4096) r) o.
Proof.
  intros Hok Hn. pose proof (wnd_size_pos r Hok) as Hp. destruct Hok as [Hs Hb Hh Hst Hq].
  assert (set_head_seq_num ((head_seq_num r + 1) mod 4096) r = cleared 0 r) as E.
  { assert (<[Z.to_nat (idx r 0) := None]> (reorder_buf r) = reorder_buf r) as Hi.
    { apply list_insert_id. apply wnd_slot in Hn; [|lia]. change (Z.of_nat 0) with 0 in Hn.
      unfold slot in Hn. rewrite nth_lookup in Hn. pose proof (mod_range _ Hs (head_seq_num r + 0 - ssn r)).
      destruct (lookup_lt_is_Some_2 (reorder_buf r) (Z.to_nat (idx r 0))) as [x Hx];
        [rewrite Hb; unfold wnd_size, idx; lia|]. rewrite Hx in Hn |- *. cbn in Hn. by subst. }
    unfold cleared. rewrite Hi, Z.add_0_r. by destruct r. }
  rewrite E. assert (stored (take 1 (wnd r)) = []) as Ht.
  { destruct (wnd r) as [|x l]; [done|]. cbn in Hn. by injection Hn as ->. }
  split; try done.
  - cbn. by rewrite length_insert.
  - cbn. by rewrite Z.add_0_r.
  - change (cleared 0 r) with (cleared (Z.of_nat 0) r). rewrite wnd_cleared by (done || lia). unfold shift. rewrite length_wnd. do 2 f_equal. lia.
  - rewrite Ht. cbn. lia.
  - by rewrite Ht, app_nil_r.
Qed.

Lemma release_head r o :
  reorder_ok r ->
  let '(r', o') := phl_release_reorder_frame r (reorder_index r (head_seq_num r)) o in shifted 1 r o r' o'.
Proof.
  intros Hok. pose proof (wnd_size_pos r Hok) as Hp. pose proof (rk_size _ Hok) as Hs.
  rewrite reorder_index_head by done. unfold phl_release_reorder_frame.
  destruct (slot r (idx r 0)) as [p|] eqn:E.
  - pose proof (shifted_release r o 0 p Hok) as H.
    rewrite wnd_lookup in H by lia. change (Z.of_nat 0) with 0 in H. rewrite E in H.
    specialize (H eq_refl ltac:(lia)). unfold cleared in H. rewrite Z.add_0_r in H.
    cbn [head_seq_num set_stored_mpdu_num set_reorder_buf]. rewrite seq_inc_spec. exact H.
  - rewrite seq_inc_spec. apply shifted_skip; [done|]. apply wnd_slot; [lia|]. exact E.
Qed.

(** Steps from the head to [hseq]. *)
Definition dist (r : phl_tid_ampdu_rx) (hseq : Z) : Z := (hseq - head_seq_num r) mod 4096.

Lemma seq_less_dist r hseq :
  0 <= head_seq_num r < 4096 -> 0 <= hseq < 4096 ->
  seq_less (head_seq_num r) hseq = (1 <=? dist r hseq) && (dist r hseq <=? 2047).
Proof.
  intros Hh Hs. rewrite seq_less_spec. unfold dist.
  assert (hseq - head_seq_num r = 0 \/ (hseq - head_seq_num r) mod 4096 + (head_seq_num r - hseq) mod 4096 = 4096)
    as [E|E] by lia.
  - rewrite E. replace (head_seq_num r - hseq) with 0 by lia. done.
  - assert (0 < (hseq - head_seq_num r) mod 4096 < 4096) by lia. lia.
Qed.

Lemma release_until_shifted hseq fuel : forall r o,
  reorder_ok r -> 0 <= hseq < 4096 -> dist r hseq <= 2047 -> dist r hseq <= Z.of_nat fuel ->
  let '(r', o') := release_until fuel hseq r o in
  exists a, shifted a r o r' o' /\ Z.of_nat a <= dist r hseq /\
    (Z.of_nat a = dist r hseq \/ stored_mpdu_num r' = 0).
Proof.
  induction fuel as [|fuel IH]; intros r o Hok Hh Hd Hf; cbn [release_until].
  { exists 0%nat. split; [by apply shifted_0|]. assert (0 <= dist r hseq) by (unfold dist; lia). lia. }
  rewrite seq_less_dist by (apply Hok || done). assert (0 <= dist r hseq) as H0 by (unfold dist; lia).
  destruct (Z.leb_spec 1 (dist r hseq)); cbn [andb].
  2:{ exists 0%nat. split; [by apply shifted_0|]. lia. }
  replace (dist r hseq <=? 2047) with true by lia. cbn [andb].
  destruct (z_true (stored_mpdu_num r)) eqn:Ez.
  2:{ exists 0%nat. split; [by apply shifted_0|]. split; [lia|]. right.
      unfold z_true in Ez. apply negb_false_iff, Z.eqb_eq in Ez. done. }
  pose proof (release_head r o Hok) as H1. destruct (phl_release_reorder_frame r _ o) as [r1 o1].
  pose proof (shifted_ok _ _ _ _ _ Hok H1) as Hok1.
  assert (dist r1 hseq = dist r hseq - 1) as Hd1.
  { unfold dist in *. rewrite (sh_head _ _ _ _ _ H1). pose proof (rk_head _ Hok). lia. }
  specialize (IH r1 o1 Hok1 Hh ltac:(lia) ltac:(lia)).
  destruct (release_until fuel hseq r1 o1) as [r2 o2]. destruct IH as (a & H2 & Ha & Hor).
  exists (1 + a)%nat. split; [by eapply shifted_trans|]. lia.
Qed.

Lemma release_frames_shifted r hseq o :
  reorder_ok r -> 0 <= hseq < 4096 -> dist r hseq <= 2047 ->
  let '(r', o') := phl_release_reorder_frames r hseq o in
  shifted (Z.to_nat (dist r hseq)) r o r' o'.
Proof.
  intros Hok Hh Hd. unfold phl_release_reorder_frames.
  pose proof (release_until_shifted hseq (Z.to_nat SEQ_MODULO) r o Hok Hh Hd) as H.
  destruct (release_until _ hseq r o) as [r1 o1]. destruct H as (a & H1 & Ha & Hor); [unfold SEQ_MODULO; lia|].
  pose proof (shifted_ok _ _ _ _ _ Hok H1) as Hok1. assert (0 <= dist r hseq) as H0 by (unfold dist; lia).
  assert (forall c, Z.of_nat a + Z.of_nat c = dist r hseq ->
            (head_seq_num r1 + Z.of_nat c) mod 4096 = hseq) as Hhd.
  { intros c Hc. rewrite (sh_head _ _ _ _ _ H1). unfold dist in *. pose proof (rk_head _ Hok). lia. }
  destruct Hor as [Hor|Hor].
  - replace (set_head_seq_num hseq r1) with r1; [by rewrite <- Hor, Nat2Z.id|].
    rewrite <- (Hhd 0%nat ltac:(lia)). rewrite Z.add_0_r, Z.mod_small by apply Hok1. by destruct r1.
  - pose proof (shifted_empty (Z.to_nat (dist r hseq) - a) r1 o1 Hok1 Hor) as H2.
    rewrite Hhd in H2 by lia. pose proof (shifted_trans _ _ _ _ _ _ _ _ H1 H2) as H3.
    by replace (Z.to_nat (dist r hseq)) with (a + (Z.to_nat (dist r hseq) - a))%nat by lia.
Qed.

Lemma release_run_shifted fuel : forall r o,
  reorder_ok r ->
  let '(r', o') := release_run fuel (idx r 0) r o in
  exists a, shifted a r o r' o' /\
    ((length (stored (wnd r)) <= fuel)%nat -> wnd r' !! 0%nat = Some None).
Proof.
  induction fuel as [|fuel IH]; intros r o Hok; cbn [release_run]; pose proof (wnd_size_pos r Hok) as Hp.
  { exists 0%nat. split; [by apply shifted_0|]. intros Hl.
    assert (stored (wnd r) = []) as He by (apply length_zero_iff_nil; lia).
    rewrite (stored_nil _ He), length_wnd. apply lookup_replicate_2. lia. }
  destruct (slot r (idx r 0)) as [p|] eqn:E.
  2:{ exists 0%nat. split; [by apply shifted_0|]. intros _. apply wnd_slot; [lia|done]. }
  pose proof (release_head r o Hok) as H1. rewrite reorder_index_head in H1 by apply Hok.
  destruct (phl_release_reorder_frame r (idx r 0) o) as [r1 o1].
  pose proof (shifted_ok _ _ _ _ _ Hok H1) as Hok1. rewrite reorder_index_head by apply Hok1.
  specialize (IH r1 o1 Hok1). destruct (release_run fuel (idx r1 0) r1 o1) as [r2 o2].
  destruct IH as (a & H2 & Hn). exists (1 + a)%nat. split; [by eapply shifted_trans|].
  intros Hl. apply Hn. rewrite (sh_wnd _ _ _ _ _ H1), stored_shift.
  pose proof (wnd_lookup r 0 ltac:(lia)) as Hw. change (Z.of_nat 0) with 0 in Hw. rewrite E in Hw.
  destruct (wnd r) as [|x l]; [done|]. cbn in Hw. injection Hw as ->.
  change (drop 1 (Some p :: l)) with (drop 0 l). rewrite drop_0.
  change (stored (Some p :: l)) with (p :: stored l) in Hl. cbn [length] in Hl. lia.
Qed.

(** *** Release on timeout *)

Lemma ring_between_spec b index t fuel : forall u0,
  0 < b -> u0 <= t ->
  Forall (fun x => exists u, u0 <= u < t /\ x = (index + u) mod b)
    (ring_between fuel ((index + u0) mod b) ((index + t) mod b) b).
Proof.
  induction fuel as [|fuel IH]; intros u0 Hb Hu; cbn [ring_between]; [constructor|].
  destruct (Z.eqb_spec ((index + u0) mod b) ((index + t) mod b)) as [E|E]; [constructor|].
  assert (u0 < t) by (destruct (decide (u0 = t)) as [->|]; [done|lia]).
  constructor; [exists u0; split; [lia|done]|].
  rewrite Zplus_mod_idemp_l, <- Z.add_assoc. eapply Forall_impl; [apply (IH (u0 + 1)); lia|].
  cbn. intros x (u & Hr & ->). exists u. split; [lia|done].
Qed.

Lemma omap_none {A B} (f : A -> option B) l : Forall (fun x => f x = None) l -> omap f l = [].
Proof. induction 1 as [|x l Hx _ IH]; [done|]. cbn. by rewrite Hx. Qed.

(** Position of the loop: [t] slots after [index] were looked at and are empty,
    the last [s] of them since the head was last moved. *)
Record scanning (index t s : Z) (r : phl_tid_ampdu_rx) : Prop := {
  sc_range : 0 <= s <= t;
  sc_bound : t <= buf_size r;
  sc_index : 0 <= index < buf_size r;
  sc_head : idx r 0 = (index + t - s) mod buf_size r;
  sc_empty : forall u, 0 <= u < t -> slot r ((index + u) mod buf_size r) = None }.

Lemma scanning_idx index t s r k :
  scanning index t s r -> idx r k = (index + (t - s + k)) mod buf_size r.
Proof.
  intros [_ _ _ Hh _]. unfold idx in *.
  replace (head_seq_num r + k - ssn r) with (head_seq_num r + 0 - ssn r + k) by lia.
  rewrite <- Zplus_mod_idemp_l, Hh, Zplus_mod_idemp_l. f_equal. lia.
Qed.

Lemma scanning_wnd index t s r :
  scanning index t s r -> t < buf_size r ->
  (forall u, (u < Z.to_nat s)%nat -> wnd r !! u = Some None) /\
  wnd r !! Z.to_nat s = Some (slot r ((index + t) mod buf_size r)).
Proof.
  intros Hsc Ht. pose proof (sc_range _ _ _ _ Hsc) as Hs.
  assert (Z.to_nat s < wnd_size r)%nat as Hl by (unfold wnd_size; lia). split.
  - intros u Hu. apply wnd_slot; [lia|]. rewrite (scanning_idx _ _ _ _ _ Hsc). apply Hsc. lia.
  - rewrite wnd_lookup by done. rewrite (scanning_idx _ _ _ _ _ Hsc). do 3 f_equal. lia.
Qed.

Lemma scanning_release index t s r :
  reorder_ok r -> scanning index t s r -> t < buf_size r ->
  scanning index (t + 1) 0
    (set_stored_mpdu_num (u16 (stored_mpdu_num r - 1)) (cleared (Z.of_nat (Z.to_nat s)) r)).
Proof.
  intros Hok Hsc Ht. pose proof (sc_range _ _ _ _ Hsc) as Hs. rewrite Z2Nat.id by lia.
  pose proof (scanning_idx _ _ _ _ s Hsc) as Hj. replace (t - s + s) with t in Hj by lia.
  destruct Hsc as [_ _ Hi Hh He]. pose proof (rk_size _ Hok) as Hb.
  split; try done; [lia|cbn; lia| |].
  - change (idx (set_stored_mpdu_num ?x ?y)) with (idx y). unfold idx, cleared. cbn.
    replace (_ mod 4096 + 0 - ssn r) with ((head_seq_num r + s + 1) mod 4096 + (0 - ssn r)) by lia.
    rewrite mod_mask by done. unfold idx in Hj.
    replace (head_seq_num r + s + 1 + (0 - ssn r)) with (head_seq_num r + s - ssn r + 1) by lia.
    rewrite <- Zplus_mod_idemp_l, Hj, Zplus_mod_idemp_l. f_equal. lia.
  - intros u Hu. cbn [buf_size set_stored_mpdu_num cleared set_head_seq_num set_reorder_buf].
    change (slot (set_stored_mpdu_num ?x (cleared s r))) with
      (slot (set_reorder_buf (<[Z.to_nat (idx r s) := None]> (reorder_buf r)) r)).
    pose proof (mod_range _ Hb (index + t)). pose proof (mod_range _ Hb (index + u)).
    rewrite slot_insert by (rewrite ?(rk_buf _ Hok), ?Hj; unfold wnd_size; lia).
    case_decide as Hd; [done|]. apply He. rewrite Hj in Hd.
    destruct (decide (u = t)) as [->|]; [done|lia].
Qed.

(** Once around, every slot was seen empty. *)
Lemma scanning_end index t s r :
  reorder_ok r -> scanning index t s r -> 0 < t -> (index + t) mod buf_size r = index ->
  wnd r !! 0%nat = Some None.
Proof.
  intros Hok Hsc Hpos E. pose proof (rk_size _ Hok) as Hb. pose proof (proj1 Hb) as Hr.
  pose proof (wnd_size_pos r Hok). apply wnd_slot; [lia|]. change (Z.of_nat 0) with 0.
  pose proof (sc_bound _ _ _ _ Hsc) as Ht. pose proof (sc_index _ _ _ _ Hsc) as Hi.
  pose proof (sc_range _ _ _ _ Hsc) as Hs.
  assert (t = buf_size r) as Et.
  { destruct (decide (t = buf_size r)); [done|].
    assert ((index + t) mod buf_size r = (index + 0) mod buf_size r) as E2
      by (rewrite E, Z.add_0_r, Z.mod_small; done).
    apply mod_shift_eq in E2; [lia|done|lia|lia]. }
  rewrite (sc_head _ _ _ _ Hsc). destruct (decide (s = 0)) as [->|Hne].
  - rewrite Z.sub_0_r, E, <- (Z.mod_small index (buf_size r)) by done.
    rewrite <- (Z.add_0_r index). apply Hsc. lia.
  - rewrite <- Z.add_sub_assoc. apply Hsc. lia.
Qed.

Lemma scanning_more index t s r :
  scanning index t s r -> (index + t) mod buf_size r <> index -> t < buf_size r.
Proof.
  intros Hsc E. destruct (decide (t = buf_size r)) as [->|]; [|pose proof (sc_bound _ _ _ _ Hsc); lia].
  destruct E. rewrite <- (Z.mul_1_l (buf_size r)) at 1. rewrite Z_mod_plus_full.
  apply Z.mod_small, Hsc.
Qed.

Lemma scanning_skip index t s r :
  scanning index t s r -> t < buf_size r -> slot r ((index + t) mod buf_size r) = None ->
  scanning index (t + 1) (s + 1) r.
Proof.
  intros [H1 H2 H3 H4 H5] Ht Hs. split; [lia|lia|done|rewrite H4; f_equal; lia|].
  intros u Hu. destruct (decide (u = t)) as [->|]; [done|]. apply H5. lia.
Qed.

Lemma stored_positive r n p :
  reorder_ok r -> wnd r !! n = Some (Some p) -> stored_mpdu_num r <> 0.
Proof.
  intros Hok Hw. rewrite (rk_stored _ Hok).
  rewrite <- (stored_split (S n) (wnd r)), (take_S_r _ _ _ Hw), stored_app, !length_app. cbn. lia.
Qed.

Lemma timeout_loop_shifted cur index fuel : forall t s r o,
  reorder_ok r -> scanning index t s r -> 0 < t ->
  let '(stop, r', o') := timeout_loop fuel cur index ((index + t) mod buf_size r) s r o in
  (exists a, shifted a r o r' o') /\ (stop = true -> stored_mpdu_num r' <> 0) /\
  (buf_size r - t < Z.of_nat fuel -> wnd r' !! 0%nat = Some None).
Proof.
  induction fuel as [|fuel IH]; intros t s r o Hok Hsc Hpos; cbn [timeout_loop].
  { split; [exists 0%nat; by apply shifted_0|]. split; [done|]. pose proof (sc_bound _ _ _ _ Hsc). lia. }
  pose proof (rk_size _ Hok) as Hb. pose proof (proj1 Hb) as Hr.
  destruct (Z.eqb_spec ((index + t) mod buf_size r) index) as [E|E].
  { split; [exists 0%nat; by apply shifted_0|]. split; [done|]. intros _.
    by apply (scanning_end index t s). }
  pose proof (scanning_more _ _ _ _ Hsc E) as Ht.
  destruct (scanning_wnd _ _ _ _ Hsc Ht) as [Hn Hw].
  assert (((index + t) mod buf_size r + 1) mod buf_size r = (index + (t + 1)) mod buf_size r) as Hnext
    by (rewrite Zplus_mod_idemp_l; f_equal; lia).
  destruct (slot r ((index + t) mod buf_size r)) as [p|] eqn:Ep.
  - destruct (z_true s && _) eqn:Est.
    { split; [exists 0%nat; by apply shifted_0|]. split.
      - intros _. by eapply stored_positive.
      - intros _. apply Hn. apply andb_true_iff in Est as [Est _]. unfold z_true in Est.
        apply negb_true_iff, Z.eqb_neq in Est. pose proof (sc_range _ _ _ _ Hsc). lia. }
    rewrite omap_none.
    2:{ eapply Forall_impl; [apply (ring_between_spec (buf_size r) index t _ 1); lia|].
        cbn. intros x (u & Hu & ->). apply Hsc. lia. }
    unfold phl_release_reorder_frame. rewrite Ep.
    set (r1 := set_head_seq_num (Z.land _ _) _). set (o1 := out_frame p _).
    assert (r1 = set_stored_mpdu_num (u16 (stored_mpdu_num r - 1)) (cleared (Z.of_nat (Z.to_nat s)) r)) as Er.
    { unfold r1, cleared. cbn. rewrite land_mask, seq_inc_spec, Z2Nat.id by apply Hsc.
      unfold SEQ_MODULO. rewrite Zplus_mod_idemp_l.
      replace (idx r s) with ((index + t) mod buf_size r).
      - replace (head_seq_num r + 1 + s) with (head_seq_num r + s + 1) by lia. done.
      - rewrite (scanning_idx _ _ _ _ s Hsc). f_equal. lia. }
    pose proof (shifted_release r (out_recycle [] o) (Z.to_nat s) p Hok Hw Hn) as H1. rewrite <- Er in H1.
    pose proof (scanning_release _ _ _ _ Hok Hsc Ht) as Hs1. rewrite <- Er in Hs1.
    pose proof (shifted_ok _ _ _ _ _ Hok H1) as Hok1. clearbody r1.
    specialize (IH (t + 1) 0 r1 o1 Hok1 Hs1 ltac:(lia)). rewrite (sh_size _ _ _ _ _ H1) in IH.
    rewrite Hnext. destruct (timeout_loop fuel cur index _ 0 r1 o1) as [[stop r2] o2].
    destruct IH as [[a H2] [Hst Hend]].
    split; [|split; [done|intros; apply Hend; lia]]. exists (S (Z.to_nat s) + a)%nat.
    pose proof (shifted_trans _ _ _ _ _ _ _ _ H1 H2) as []. split; try done. rewrite sh_recycled0.
    cbn. apply app_nil_r.
  - specialize (IH (t + 1) (s + 1) r o Hok). rewrite Hnext.
    destruct (timeout_loop fuel cur index _ (s + 1) r o) as [[stop r2] o2].
    destruct IH as (IH1 & IH2 & IH3); [|lia|split; [done|split; [done|intros; apply IH3; lia]]].
    by apply scanning_skip.
Qed.

(** *** [phl_reorder_release] *)

Lemma shifted_timer a r o r' o' b : shifted a r o r' o' -> shifted a r o r' (out_timer b o').
Proof. intros []. by split. Qed.

Lemma reorder_release_shifted cur r o :
  reorder_ok r ->
  let '(r', o') := phl_reorder_release cur r o in
  (exists a, shifted a r o r' o') /\
  (removed r = false -> o_timer o' = Some (z_true (stored_mpdu_num r'))) /\
  wnd r' !! 0%nat = Some None.
Proof.
  intros Hok. unfold phl_reorder_release. rewrite reorder_index_head by apply Hok.
  pose proof (rk_size _ Hok) as Hb. pose proof (proj1 Hb) as Hr.
  assert (length (stored (wnd r)) <= Z.to_nat (buf_size r))%nat as Hlen
    by (etransitivity; [apply stored_length|]; by rewrite length_wnd).
  match goal with |- context [if bool_decide ?a && ?b then ?x else ?y] =>
    set (res := if bool_decide a && b then x else y) end.
  assert (let '(stop, r', o') := res in
    (exists a, shifted a r o r' o') /\ (stop = true -> stored_mpdu_num r' <> 0) /\
    wnd r' !! 0%nat = Some None) as Hres.
  { unfold res. case_bool_decide as Hn; cbn [andb].
    - destruct (z_true (stored_mpdu_num r)).
      + pose proof (timeout_loop_shifted cur (idx r 0) (Z.to_nat (buf_size r)) 1 1 r o Hok) as HT.
        destruct (timeout_loop _ cur _ _ 1 r o) as [[stop r1] o1].
        destruct HT as (T1 & T2 & T3); [|lia|split; [done|split; [done|apply T3; lia]]].
        pose proof (mod_range _ Hb (head_seq_num r + 0 - ssn r)) as Hm. fold (idx r 0) in Hm.
        split; [lia|lia|done|..].
        * rewrite Z.add_simpl_r. by rewrite Z.mod_small.
        * intros u Hu. replace u with 0 by lia. rewrite Z.add_0_r, Z.mod_small by done. done.
      + pose proof (release_run_shifted (Z.to_nat (buf_size r)) r o Hok) as H.
        destruct (release_run _ _ r o) as [r1 o1]. destruct H as (a & H & Hend).
        split; [by exists a|]. split; [done|apply Hend; exact Hlen].
    - pose proof (release_run_shifted (Z.to_nat (buf_size r)) r o Hok) as H.
      destruct (release_run _ _ r o) as [r1 o1]. destruct H as (a & H & Hend).
      split; [by exists a|]. split; [done|apply Hend; exact Hlen]. }
  clearbody res. destruct res as [[stop r1] o1]. destruct Hres as [[a H] [Hst Hend]].
  assert (stop || z_true (stored_mpdu_num r1) = z_true (stored_mpdu_num r1)) as ->.
  { destruct stop; [|done]. cbn. unfold z_true. specialize (Hst eq_refl). symmetry.
    apply negb_true_iff, Z.eqb_neq. done. }
  destruct (z_true (stored_mpdu_num r1)) eqn:Ez.
  - rewrite (sh_removed _ _ _ _ _ H). split.
    + exists a. destruct (removed r); [done|by apply shifted_timer].
    + split; [|done]. intros ->. cbn. by rewrite Ez.
  - split; [exists a; by apply shifted_timer|]. split; [|done]. intros _. cbn. by rewrite Ez.
Qed.
