(* ===== verification/RxReorderThm.v ===== *)
(** * What receive reordering guarantees

    Frames leave a session in the order of their sequence numbers, none is lost
    or delivered twice, and while frames wait the reorder timer runs. *)

From Stdlib Require Import Sorted.
From S2P Require Import Prelude PhlQueue PhlDef RxReorder RxReorderInv.

(** ** Delivery in order *)

(** The head moved [n] steps and the frames [ps] have strictly increasing
    positions among them, counted from the old head without wrap-around. *)
Definition delivers (r r' : phl_tid_ampdu_rx) (ps : list rtw_phl_rx_pkt) (n : Z) : Prop :=
  0 <= n /\ head_seq_num r' = (head_seq_num r + n) mod 4096 /\
  exists qs, Forall2 (fun p q => pk_seq p = (head_seq_num r + q) mod 4096) ps qs /\
    StronglySorted Z.lt qs /\ Forall (fun q => 0 <= q < n) qs.

(** Positions of the stored frames of a window that starts at [n]. *)
Fixpoint positions (n : Z) (l : list (option rtw_phl_rx_pkt)) : list Z :=
  match l with
  | [] => []
  | Some _ :: l => n :: positions (n + 1) l
  | None :: l => positions (n + 1) l
  end.

Lemma positions_range l : forall n, Forall (fun q => n <= q < n + Z.of_nat (length l)) (positions n l).
Proof.
  induction l as [|o l IH]; intros n; cbn [positions]; [constructor|].
  assert (Forall (fun q => n <= q < n + Z.of_nat (length (o :: l))) (positions (n + 1) l)) as H
    by (eapply Forall_impl; [apply IH|]; cbn; lia).
  destruct o; [|done]. constructor; [cbn; lia|done].
Qed.

Lemma positions_sorted l : forall n, StronglySorted Z.lt (positions n l).
Proof.
  induction l as [|[p|] l IH]; intros n; cbn [positions]; [constructor|constructor; [done|]|done].
  apply List.Forall_forall. intros q Hq. pose proof (positions_range l (n + 1)) as H.
  rewrite List.Forall_forall in H. specialize (H q Hq). lia.
Qed.

Lemma positions_seq h l : forall n,
  (forall k p, l !! k = Some (Some p) -> pk_seq p = (h + (n + Z.of_nat k)) mod 4096) ->
  Forall2 (fun p q => pk_seq p = (h + q) mod 4096) (stored l) (positions n l).
Proof.
  induction l as [|o l IH]; intros n Hl; [constructor|].
  assert (Forall2 (fun p q => pk_seq p = (h + q) mod 4096) (stored l) (positions (n + 1) l)) as H.
  { apply IH. intros k p Hk. rewrite (Hl (S k) p Hk). f_equal. lia. }
  destruct o as [p|]; [|exact H]. change (stored (Some p :: l)) with (p :: stored l). cbn [positions].
  constructor; [|exact H]. rewrite (Hl 0%nat p eq_refl). f_equal. lia.
Qed.

Lemma shifted_delivers a r o r' o' :
  reorder_ok r -> shifted a r o r' o' -> delivers r r' (stored (take a (wnd r))) (Z.of_nat a).
Proof.
  intros Hok H. split; [lia|]. split; [apply H|]. exists (positions 0 (take a (wnd r))).
  split; [|split; [apply positions_sorted|]].
  - apply positions_seq. intros k p Hk. rewrite lookup_take_Some in Hk. destruct Hk as [Hk _].
    by rewrite (rk_seq _ Hok k p Hk).
  - eapply Forall_impl; [apply positions_range|]. cbn. intros q. rewrite length_take. lia.
Qed.

Lemma sorted_app (l1 l2 : list Z) n :
  StronglySorted Z.lt l1 -> StronglySorted Z.lt l2 -> Forall (fun q => q < n) l1 -> Forall (fun q => n <= q) l2 ->
  StronglySorted Z.lt (l1 ++ l2).
Proof.
  intros H1 H2 F1 F2. induction H1 as [|x l1 _ IH Hx]; cbn; [done|].
  apply Forall_cons in F1 as [F1 F1']. constructor; [by apply IH|].
  apply List.Forall_app. split; [done|]. apply List.Forall_forall. intros y Hy.
  rewrite Forall_forall in F2. apply list_elem_of_In in Hy. specialize (F2 y Hy). lia.
Qed.

Lemma delivers_trans r r1 r2 ps1 ps2 n1 n2 :
  delivers r r1 ps1 n1 -> delivers r1 r2 ps2 n2 -> delivers r r2 (ps1 ++ ps2) (n1 + n2).
Proof.
  intros (N1 & H1 & qs1 & F1 & S1 & R1) (N2 & H2 & qs2 & F2 & S2 & R2). split; [lia|].
  split; [rewrite H2, H1, Zplus_mod_idemp_l; f_equal; lia|].
  exists (qs1 ++ ((fun q => n1 + q) <$> qs2)). split; [|split].
  - apply Forall2_app; [done|]. apply Forall2_fmap_r. eapply Forall2_impl; [exact F2|].
    cbn. intros p q ->. rewrite H1, Zplus_mod_idemp_l. f_equal. lia.
  - apply (sorted_app _ _ n1); [done| | |].
    + clear -S2. induction S2 as [|x l _ IH Hx]; cbn; constructor; [done|].
      apply List.Forall_map. eapply List.Forall_impl; [|exact Hx]. cbn. lia.
    + eapply Forall_impl; [exact R1|]. cbn. lia.
    + apply Forall_fmap. eapply Forall_impl; [exact R2|]. cbn. lia.
  - apply Forall_app. split; [eapply Forall_impl; [exact R1|]; cbn; lia|].
    apply Forall_fmap. eapply Forall_impl; [exact R2|]. cbn. lia.
Qed.

Lemma delivers_none r r' : reorder_ok r -> head_seq_num r' = head_seq_num r -> delivers r r' [] 0.
Proof.
  intros Hok E. split; [lia|]. split; [rewrite E, Z.add_0_r, Z.mod_small; [done|apply Hok]|].
  exists []. repeat constructor.
Qed.

(** ** A frame arrives *)

Section insert.
Context (r : phl_tid_ampdu_rx) (Hok : reorder_ok r).
Context (k : nat) (pkt : rtw_phl_rx_pkt) (now : Z).
Context (Hk : (k < wnd_size r)%nat) (Hempty : wnd r !! k = Some None).
Context (Hseq : pk_seq pkt = (head_seq_num r + Z.of_nat k) mod 4096).

Definition inserted : phl_tid_ampdu_rx :=
  let i := Z.to_nat (idx r (Z.of_nat k)) in
  set_stored_mpdu_num (u16 (stored_mpdu_num r + 1))
    (set_reorder_time (<[i := now]> (reorder_time r))
      (set_reorder_buf (<[i := Some pkt]> (reorder_buf r)) r)).

Lemma wnd_inserted : wnd inserted = <[k := Some pkt]> (wnd r).
Proof.
  pose proof (rk_size _ Hok) as Hb. apply list_eq. intros u. destruct (decide (u < wnd_size r)%nat) as [Hu|Hu].
  2:{ rewrite !lookup_ge_None_2; [done|rewrite length_insert|]; rewrite length_wnd; unfold wnd_size in *; cbn; lia. }
  rewrite wnd_lookup by done. change (idx inserted) with (idx r).
  change (slot inserted) with (slot (set_reorder_buf (<[Z.to_nat (idx r (Z.of_nat k)) := Some pkt]> (reorder_buf r)) r)).
  pose proof (mod_range _ Hb (head_seq_num r + Z.of_nat k - ssn r)) as Hm. fold (idx r (Z.of_nat k)) in Hm.
  pose proof (mod_range _ Hb (head_seq_num r + Z.of_nat u - ssn r)) as Hm2. fold (idx r (Z.of_nat u)) in Hm2.
  rewrite slot_insert by (rewrite ?(rk_buf _ Hok); unfold wnd_size; lia).
  destruct (decide (u = k)) as [->|Hne].
  - rewrite decide_True by done. symmetry. apply list_lookup_insert_eq. by rewrite length_wnd.
  - rewrite list_lookup_insert_ne by done. rewrite wnd_lookup by done. rewrite decide_False; [done|].
    unfold idx. intros E. unfold wnd_size in *.
    replace (head_seq_num r + Z.of_nat k - ssn r) with ((head_seq_num r - ssn r) + Z.of_nat k) in E by lia.
    replace (head_seq_num r + Z.of_nat u - ssn r) with ((head_seq_num r - ssn r) + Z.of_nat u) in E by lia.
    apply mod_shift_eq in E; [lia|done|lia|lia].
Qed.

Lemma stored_insert : stored (<[k := Some pkt]> (wnd r)) ≡ₚ pkt :: stored (wnd r).
Proof.
  rewrite <- (take_drop_middle _ _ _ Hempty) at 2. rewrite insert_take_drop by (by rewrite length_wnd).
  rewrite !stored_app. change (stored (Some pkt :: ?l)) with (pkt :: stored l).
  change (stored (None :: ?l)) with (stored l). by rewrite <- Permutation_middle.
Qed.

Lemma inserted_ok : reorder_ok inserted.
Proof.
  pose proof (rk_size _ Hok) as Hb. pose proof (stored_length (wnd r)) as Hl. rewrite length_wnd in Hl.
  destruct Hok as [_ Hbuf Hh Hst Hq]. split; try done.
  - cbn. by rewrite length_insert.
  - rewrite wnd_inserted, (Permutation_length stored_insert). cbn. unfold u16. rewrite Hst.
    destruct Hb as [Hb _]. unfold wnd_size in *. rewrite Z.mod_small by lia. cbn [length]. lia.
  - rewrite wnd_inserted. intros u p Hu. destruct (decide (u = k)) as [->|Hne].
    + rewrite list_lookup_insert_eq in Hu by (by rewrite length_wnd). injection Hu as <-. exact Hseq.
    + rewrite list_lookup_insert_ne in Hu by done. by apply Hq.
Qed.
End insert.

Lemma started_ok r b : reorder_ok r -> reorder_ok (set_started b r).
Proof. intros []. by split. Qed.

(** Where the frame belongs once the window has been moved. *)
Lemma manage_window r sq o :
  reorder_ok r -> 0 <= sq < 4096 -> seq_less sq (head_seq_num r) = false ->
  let '(r1, o1) := if negb (seq_less sq (u16 (head_seq_num r + buf_size r)))
                   then phl_release_reorder_frames r (seq_inc (seq_sub sq (buf_size r))) o else (r, o) in
  exists a, shifted a r o r1 o1 /\ dist r1 sq < buf_size r1.
Proof.
  intros Hok Hsq Hl. pose proof (rk_head _ Hok) as Hh. pose proof (proj1 (rk_size _ Hok)) as Hb.
  rewrite seq_less_spec in *. fold (dist r sq) in Hl. assert (0 <= dist r sq) as Hd0 by (unfold dist; lia).
  unfold u16. rewrite (Z.mod_small (_ + _)) by lia.
  destruct (decide (dist r sq < buf_size r)) as [Hd|Hd].
  - replace (2048 <? (sq - (head_seq_num r + buf_size r)) mod 4096) with true; cbn [negb].
    + exists 0%nat. split; [by apply shifted_0|done].
    + symmetry. apply Z.ltb_lt. unfold dist in *. lia.
  - replace (2048 <? (sq - (head_seq_num r + buf_size r)) mod 4096) with false; cbn [negb].
    2:{ symmetry. apply Z.ltb_ge. unfold dist in *. lia. }
    rewrite seq_inc_spec, seq_sub_spec. set (h := _ mod 4096).
    assert (dist r h = dist r sq - buf_size r + 1) as Hdh by (unfold dist, h in *; lia).
    pose proof (release_frames_shifted r h o Hok) as H. destruct (phl_release_reorder_frames r h o) as [r1 o1].
    specialize (H ltac:(unfold h; lia) ltac:(lia)). exists (Z.to_nat (dist r h)). split; [done|].
    rewrite (sh_size _ _ _ _ _ H). unfold dist at 1. rewrite (sh_head _ _ _ _ _ H). unfold dist, h in *. lia.
Qed.

(** What [phl_manage_sta_reorder_buf] does to ring and frame. *)
Record managed (pkt : rtw_phl_rx_pkt) (r : phl_tid_ampdu_rx) (o : rx_out) (taken : bool)
    (r' : phl_tid_ampdu_rx) (o' : rx_out) (ds : list rtw_phl_rx_pkt) (n : Z) : Prop := {
  mg_ok : reorder_ok r';
  mg_started : started r' = started r;
  mg_removed : removed r' = removed r;
  mg_order : delivers r r' ds n;
  mg_all : exists rc, ds = (drop (length (o_frames o)) (o_frames o')) ++ (if taken then [] else [pkt]) /\
    o_frames o' = o_frames o ++ drop (length (o_frames o)) (o_frames o') /\
    o_recycled o' = o_recycled o ++ rc /\
    pkt :: stored (wnd r) ≡ₚ stored (wnd r') ++ ds ++ rc }.

Lemma shifted_frames a r o r' o' :
  shifted a r o r' o' -> drop (length (o_frames o)) (o_frames o') = stored (take a (wnd r)).
Proof. intros H. by rewrite (sh_frames _ _ _ _ _ H), drop_app_length. Qed.

Lemma shifted_conserves a r o r' o' :
  shifted a r o r' o' -> stored (wnd r) ≡ₚ stored (wnd r') ++ stored (take a (wnd r)).
Proof.
  intros H. rewrite (sh_wnd _ _ _ _ _ H), stored_shift, <- (stored_split a (wnd r)) at 1.
  apply Permutation_app_comm.
Qed.

(** The window moved and the frame was given back. *)
Lemma managed_recycled pkt r o a r1 o1 :
  reorder_ok r -> shifted a r o r1 o1 ->
  managed pkt r o true r1 (out_recycle [pkt] o1) (stored (take a (wnd r))) (Z.of_nat a).
Proof.
  intros Hok H. split; [by eapply shifted_ok|apply H|apply H|by eapply shifted_delivers|].
  exists [pkt]. cbn. rewrite (shifted_frames _ _ _ _ _ H), app_nil_r.
  split; [done|]. split; [apply H|]. split; [by rewrite (sh_recycled _ _ _ _ _ H)|].
  rewrite (shifted_conserves _ _ _ _ _ H). rewrite app_assoc. apply Permutation_cons_append.
Qed.

(** The window moved, is empty, and the frame is the next one. *)
Lemma managed_direct pkt r o a r1 o1 :
  reorder_ok r -> shifted a r o r1 o1 -> stored_mpdu_num r1 = 0 -> pk_seq pkt = head_seq_num r1 ->
  managed pkt r o false (set_head_seq_num (seq_inc (head_seq_num r1)) r1) o1
    (stored (take a (wnd r)) ++ [pkt]) (Z.of_nat a + 1).
Proof.
  intros Hok H H0 Hseq. pose proof (shifted_ok _ _ _ _ _ Hok H) as Hok1. rewrite seq_inc_spec.
  pose proof (shifted_empty 1 r1 o1 Hok1 H0) as H1. change (Z.of_nat 1) with 1 in H1.
  set (r2 := set_head_seq_num _ r1) in *. pose proof (shifted_ok _ _ _ _ _ Hok1 H1) as Hok2.
  split; [done|etransitivity; [apply H1|apply H]|etransitivity; [apply H1|apply H]| |].
  - eapply delivers_trans; [by eapply shifted_delivers|].
    split; [lia|]. split; [apply H1|]. exists [0]. split; [|split; [by repeat constructor|repeat constructor; lia]].
    constructor; [|constructor]. rewrite Z.add_0_r, Z.mod_small by apply Hok1. done.
  - exists []. cbn. rewrite (shifted_frames _ _ _ _ _ H). split; [done|]. split; [apply H|].
    split; [by rewrite (sh_recycled _ _ _ _ _ H), app_nil_r|].
    pose proof (shifted_conserves _ _ _ _ _ H) as C1. pose proof (shifted_conserves _ _ _ _ _ H1) as C2.
    assert (stored (take 1 (wnd r1)) = []) as E.
    { pose proof (rk_stored _ Hok1) as Hst. rewrite H0 in Hst.
      assert (stored (wnd r1) = []) as He by (apply length_zero_iff_nil; lia).
      pose proof (stored_split 1 (wnd r1)) as Hx. rewrite He in Hx. by apply app_eq_nil in Hx as [? _]. }
    rewrite E, app_nil_r in C2. rewrite C1, C2, app_nil_r, app_assoc. apply Permutation_cons_append.
Qed.

(** The window moved, the frame was stored, and the ready ones were released. *)
Lemma managed_stored pkt r o a r1 o1 k now b r3 o3 :
  reorder_ok r -> shifted a r o r1 o1 -> (k < wnd_size r1)%nat -> wnd r1 !! k = Some None ->
  pk_seq pkt = (head_seq_num r1 + Z.of_nat k) mod 4096 ->
  shifted b (inserted r1 k pkt now) o1 r3 o3 ->
  managed pkt r o true r3 o3
    (stored (take a (wnd r)) ++ stored (take b (wnd (inserted r1 k pkt now)))) (Z.of_nat a + Z.of_nat b).
Proof.
  intros Hok H Hk He Hseq H3. pose proof (shifted_ok _ _ _ _ _ Hok H) as Hok1.
  pose proof (inserted_ok r1 Hok1 k pkt now Hk He Hseq) as Hok2. set (r2 := inserted r1 k pkt now) in *.
  pose proof (shifted_ok _ _ _ _ _ Hok2 H3) as Hok3.
  split; [done|etransitivity; [apply H3|apply H]|etransitivity; [apply H3|apply H]| |].
  - eapply delivers_trans; [by eapply shifted_delivers|].
    pose proof (shifted_delivers _ _ _ _ _ Hok2 H3) as D. exact D.
  - assert (o_frames o3 = o_frames o ++ stored (take a (wnd r)) ++ stored (take b (wnd r2))) as E
      by (by rewrite (sh_frames _ _ _ _ _ H3), (sh_frames _ _ _ _ _ H), app_assoc).
    exists []. rewrite E, drop_app_length, !app_nil_r. split; [done|]. split; [done|].
    split; [by rewrite (sh_recycled _ _ _ _ _ H3), (sh_recycled _ _ _ _ _ H)|].
    rewrite (shifted_conserves _ _ _ _ _ H).
    pose proof (shifted_conserves _ _ _ _ _ H3) as C3. unfold r2 in C3 at 1.
    rewrite (wnd_inserted r1 Hok1 k pkt now Hk), (stored_insert r1 k pkt Hk He) in C3.
    rewrite app_comm_cons, C3. perm_solve.
Qed.

Lemma manage_spec now cur pkt r o :
  reorder_ok r -> 0 <= pk_seq pkt < 4096 -> started r = true ->
  let '(taken, r', o') := phl_manage_sta_reorder_buf now cur pkt r o in
  exists ds n, managed pkt r o taken r' o' ds n.
Proof.
  intros Hok Hsq Hst. unfold phl_manage_sta_reorder_buf. rewrite Hst. cbn [negb andb].
  replace (set_started true r) with r by (destruct r; cbn in *; by subst).
  destruct (seq_less (pk_seq pkt) (head_seq_num r)) eqn:Hl.
  { eexists _, _. apply managed_recycled; [done|]. by apply shifted_0. }
  pose proof (manage_window r (pk_seq pkt) o Hok Hsq Hl) as Hw.
  match goal with H : let '(_, _) := ?x in _ |- _ => destruct x as [r1 o1] end.
  destruct Hw as (a & H1 & Hd). pose proof (shifted_ok _ _ _ _ _ Hok H1) as Hok1.
  assert (0 <= dist r1 (pk_seq pkt)) as Hd0 by (unfold dist; lia).
  set (k := Z.to_nat (dist r1 (pk_seq pkt))).
  assert (pk_seq pkt = (head_seq_num r1 + Z.of_nat k) mod 4096) as Hseq
    by (unfold k, dist in *; pose proof (rk_head _ Hok1); lia).
  assert (k < wnd_size r1)%nat as Hk by (unfold wnd_size; lia).
  assert (reorder_index r1 (pk_seq pkt) = idx r1 (Z.of_nat k)) as Hi.
  { rewrite <- (reorder_index_idx r1 _ (rk_size _ Hok1)). unfold reorder_index. f_equal.
    rewrite !seq_sub_spec, Hseq. by rewrite Zminus_mod_idemp_l. }
  rewrite Hi. destruct (slot r1 (idx r1 (Z.of_nat k))) as [p|] eqn:Es.
  { eexists _, _. by apply managed_recycled. }
  assert (wnd r1 !! k = Some None) as He by (by apply wnd_slot).
  destruct ((pk_seq pkt =? head_seq_num r1) && (stored_mpdu_num r1 =? 0)) eqn:Ed.
  { apply andb_true_iff in Ed as [E1%Z.eqb_eq E2%Z.eqb_eq]. eexists _, _. by apply managed_direct. }
  pose proof (inserted_ok r1 Hok1 k pkt now Hk He Hseq) as Hok2.
  pose proof (reorder_release_shifted cur _ o1 Hok2) as H3. fold (inserted r1 k pkt now).
  change (set_stored_mpdu_num _ _) with (inserted r1 k pkt now).
  destruct (phl_reorder_release cur (inserted r1 k pkt now) o1) as [r3 o3]. destruct H3 as [[b H3] _].
  eexists _, _. by apply (managed_stored pkt r o a r1 o1 k now b).
Qed.

(** ** Sessions *)

(** A life of a session: [ins] arrived, [ds] were passed on in this order, [rcs]
    were given back unused.  Frames older than the start that come before the
    session has started are not its business; a block-ack request exactly half
    the number space ahead is left out ([bar_half_space_stale] below). *)
Inductive rx_run : phl_tid_ampdu_rx -> list rtw_phl_rx_pkt -> list rtw_phl_rx_pkt ->
    list rtw_phl_rx_pkt -> phl_tid_ampdu_rx -> Prop :=
| run_nil r : rx_run r [] [] [] r
| run_pkt r ins ds rcs r1 now cur pkt taken r2 o :
    rx_run r ins ds rcs r1 -> 0 <= pk_seq pkt < 4096 ->
    started r1 = true \/ seq_less (pk_seq pkt) (head_seq_num r1) = false ->
    phl_manage_sta_reorder_buf now cur pkt r1 no_out = (taken, r2, o) ->
    rx_run r (ins ++ [pkt]) (ds ++ o_frames o ++ (if taken then [] else [pkt])) (rcs ++ o_recycled o) r2
| run_timer r ins ds rcs r1 cur r2 o :
    rx_run r ins ds rcs r1 -> phl_reorder_release cur r1 no_out = (r2, o) ->
    rx_run r ins (ds ++ o_frames o) (rcs ++ o_recycled o) r2
| run_bar r ins ds rcs r1 sq r2 o :
    rx_run r ins ds rcs r1 -> 0 <= sq < 4096 -> seq_less sq (head_seq_num r1) = false ->
    dist r1 sq <> 2048 -> phl_release_reorder_frames r1 sq no_out = (r2, o) ->
    rx_run r ins (ds ++ o_frames o) (rcs ++ o_recycled o) r2.

(** The first frame of a session starts it. *)
Lemma manage_start now cur pkt r o :
  started r = true \/ seq_less (pk_seq pkt) (head_seq_num r) = false ->
  phl_manage_sta_reorder_buf now cur pkt r o = phl_manage_sta_reorder_buf now cur pkt (set_started true r) o.
Proof.
  intros H. unfold phl_manage_sta_reorder_buf. cbn [started set_started negb andb head_seq_num].
  destruct H as [->| ->]; cbn [negb andb]; [done|]. by rewrite andb_false_r.
Qed.

Lemma not_less_dist r sq :
  seq_less sq (head_seq_num r) = false -> dist r sq <> 2048 -> dist r sq <= 2047.
Proof. rewrite seq_less_spec. fold (dist r sq). intros H1 H2. lia. Qed.

Lemma rx_run_inv r ins ds rcs r' :
  rx_run r ins ds rcs r' -> reorder_ok r ->
  reorder_ok r' /\ (exists n, delivers r r' ds n) /\
  ins ++ stored (wnd r) ≡ₚ stored (wnd r') ++ ds ++ rcs.
Proof.
  intros H Hok. induction H as [r|r ins ds rcs r1 now cur pkt taken r2 o _ IH Hsq Hst E
    |r ins ds rcs r1 cur r2 o _ IH E|r ins ds rcs r1 sq r2 o _ IH Hsq Hl Hd E].
  - split; [done|]. split; [exists 0; by apply delivers_none|]. by rewrite app_nil_r.
  - destruct (IH Hok) as (Hok1 & [n D1] & C1). rewrite manage_start in E by done.
    pose proof (manage_spec now cur pkt (set_started true r1) no_out (started_ok _ true Hok1) Hsq eq_refl) as M.
    rewrite E in M. destruct M as (ds2 & n2 & [Hok2 _ _ D2 (rc & -> & _ & R2 & C2)]).
    cbn [o_frames no_out length] in *. rewrite drop_0 in *. cbn in R2. subst rc.
    split; [done|]. split; [exists (n + n2); by eapply delivers_trans|].
    change (wnd (set_started true r1)) with (wnd r1) in C2.
    transitivity (pkt :: ins ++ stored (wnd r)); [perm_solve|]. rewrite C1.
    transitivity ((pkt :: stored (wnd r1)) ++ ds ++ rcs); [done|]. rewrite C2. perm_solve.
  - destruct (IH Hok) as (Hok1 & [n D1] & C1).
    pose proof (reorder_release_shifted cur r1 no_out Hok1) as M. rewrite E in M. destruct M as [[a M] _].
    split; [by eapply shifted_ok|]. pose proof (sh_frames _ _ _ _ _ M) as F. cbn in F. rewrite F.
    pose proof (sh_recycled _ _ _ _ _ M) as R. cbn in R. rewrite R, app_nil_r.
    split; [eexists; eapply delivers_trans; [done|by eapply shifted_delivers]|].
    rewrite C1, (shifted_conserves _ _ _ _ _ M). perm_solve.
  - destruct (IH Hok) as (Hok1 & [n D1] & C1).
    pose proof (release_frames_shifted r1 sq no_out Hok1 Hsq (not_less_dist _ _ Hl Hd)) as M. rewrite E in M.
    split; [by eapply shifted_ok|]. pose proof (sh_frames _ _ _ _ _ M) as F. cbn [o_frames no_out app] in F. rewrite F.
    pose proof (sh_recycled _ _ _ _ _ M) as R. cbn in R. rewrite R, app_nil_r.
    split; [eexists; eapply delivers_trans; [done|by eapply shifted_delivers]|].
    rewrite C1, (shifted_conserves _ _ _ _ _ M). perm_solve.
Qed.

Lemma alloc_ok ssn0 t b r :
  size_ok b -> 0 <= ssn0 < 4096 -> phl_tid_ampdu_rx_alloc true true true ssn0 t b = Some r ->
  reorder_ok r /\ stored (wnd r) = [].
Proof.
  intros Hb Hs. unfold phl_tid_ampdu_rx_alloc. cbn [negb]. intros [= <-].
  set (r := mkTidRx _ _ _ _ _ _ _ _ _).
  assert (wnd r = replicate (wnd_size r) None) as Hw.
  { apply list_eq. intros k. destruct (decide (k < wnd_size r)%nat).
    - rewrite wnd_lookup, lookup_replicate_2 by done. f_equal. unfold slot, r. cbn.
      rewrite nth_lookup. destruct (replicate (Z.to_nat b) None !! _) as [x|] eqn:E; [|done].
      by apply lookup_replicate in E as [-> _].
    - rewrite !lookup_ge_None_2; [done| |]; rewrite ?length_replicate, ?length_wnd; lia. }
  split; [|by rewrite Hw, stored_none]. split; try done.
  - cbn. by rewrite length_replicate.
  - rewrite Hw, stored_none. done.
  - intros k p Hk. rewrite Hw in Hk. by apply lookup_replicate in Hk as [? _].
Qed.

(** ** A concrete session *)

Definition sample_meta (sq : Z) : rtw_r_meta_data := 
  mkMeta sq 0 false false true false false 0 false true 100 0 false 2 false 0.
Definition sample_pkt (sq : Z) : rtw_phl_rx_pkt := mkPkt (Z.to_nat sq) (sample_meta sq) 100.
(** 64 slots, starting at sequence number 4094. *)
Definition session0 : phl_tid_ampdu_rx :=
  match phl_tid_ampdu_rx_alloc true true true 4094 0 64 with Some r => r | None => mkTidRx [] [] 0 0 0 0 0 false false end.

Lemma size_64 : size_ok 64.
Proof. split; [lia|]. by exists 64. Qed.

Lemma session0_ok : reorder_ok session0 /\ stored (wnd session0) = [].
Proof. apply (alloc_ok 4094 0 64); [apply size_64|lia|reflexivity]. Qed.

(** One frame through the session. *)
Definition rx_one (r : phl_tid_ampdu_rx) (sq : Z) : phl_tid_ampdu_rx :=
  snd (fst (phl_manage_sta_reorder_buf 0 0 (sample_pkt sq) r no_out)).

Lemma run_one r ins ds rcs r1 sq :
  rx_run r ins ds rcs r1 -> 0 <= sq < 4096 -> seq_less sq (head_seq_num r1) = false ->
  let '(taken, _, o) := phl_manage_sta_reorder_buf 0 0 (sample_pkt sq) r1 no_out in
  rx_run r (ins ++ [sample_pkt sq]) (ds ++ o_frames o ++ (if taken then [] else [sample_pkt sq]))
    (rcs ++ o_recycled o) (rx_one r1 sq).
Proof.
  intros H Hsq Hl. unfold rx_one.
  destruct (phl_manage_sta_reorder_buf 0 0 (sample_pkt sq) r1 no_out) as [[taken r2] o] eqn:E.
  apply (run_pkt _ _ _ _ r1 0 0 (sample_pkt sq) taken r2 o); [done|done|by right|done].
Qed.

(** Frames 0, 4095 and 4094 arrive in this order. *)
Lemma session0_run :
  rx_run session0 [sample_pkt 0; sample_pkt 4095; sample_pkt 4094]
    [sample_pkt 4094; sample_pkt 4095; sample_pkt 0] [] (rx_one (rx_one (rx_one session0 0) 4095) 4094).
Proof.
  pose proof (run_one _ _ _ _ _ 0 (run_nil session0) ltac:(lia) eq_refl) as H1.
  pose proof (run_one session0 [sample_pkt 0] [] [] (rx_one session0 0) 4095 H1 ltac:(lia) eq_refl) as H2.
  exact (run_one session0 [sample_pkt 0; sample_pkt 4095] [] [] (rx_one (rx_one session0 0) 4095) 4094 H2
           ltac:(lia) eq_refl).
Qed.

(** ** Theorems *)

(** C35: For a session whose window size divides the sequence space, whatever
    frames (once the session has started), timer expiries and block-ack
    requests (not exactly half the space ahead) come, the frames passed on
    carry strictly increasing offsets from the starting sequence number, all
    behind the window's head. *)
Theorem rx_in_order ssn0 t b r0 ins ds rcs r' :
  size_ok b -> 0 <= ssn0 < 4096 -> phl_tid_ampdu_rx_alloc true true true ssn0 t b = Some r0 ->
  rx_run r0 ins ds rcs r' ->
  exists n qs, 0 <= n /\ head_seq_num r' = (ssn0 + n) mod 4096 /\
    Forall2 (fun p q => pk_seq p = (ssn0 + q) mod 4096) ds qs /\
    StronglySorted Z.lt qs /\ Forall (fun q => 0 <= q < n) qs.
Proof.
  intros Hb Hs Ha Hrun. destruct (alloc_ok _ _ _ _ Hb Hs Ha) as [Hok _].
  destruct (rx_run_inv _ _ _ _ _ Hrun Hok) as (_ & [n (Hn & Hh & qs & H)] & _).
  assert (head_seq_num r0 = ssn0) as E by (revert Ha; unfold phl_tid_ampdu_rx_alloc; by intros [= <-]).
  rewrite E in *. by exists n, qs.
Qed.

Lemma rx_in_order_witness :
  exists n qs, Forall2 (fun p q => pk_seq p = (4094 + q) mod 4096)
    [sample_pkt 4094; sample_pkt 4095; sample_pkt 0] qs /\ StronglySorted Z.lt qs /\
    Forall (fun q => 0 <= q < n) qs.
Proof.
  destruct (rx_in_order 4094 0 64 session0 _ _ _ _ size_64 ltac:(lia) eq_refl session0_run)
    as (n & qs & _ & _ & H1 & H2 & H3).
  exists n, qs. exact (conj H1 (conj H2 H3)).
Defined.

(** Every frame that entered a session is in the window, passed on or
    given back, exactly once; the stored counter is the number of frames in
    the window, and each sits at the offset its sequence number has from the
    head. *)
Theorem rx_conserved ssn0 t b r0 ins ds rcs r' :
  size_ok b -> 0 <= ssn0 < 4096 -> phl_tid_ampdu_rx_alloc true true true ssn0 t b = Some r0 ->
  rx_run r0 ins ds rcs r' ->
  ins ≡ₚ stored (wnd r') ++ ds ++ rcs /\
  stored_mpdu_num r' = Z.of_nat (length (stored (wnd r'))) /\
  (forall k p, wnd r' !! k = Some (Some p) -> pk_seq p = (head_seq_num r' + Z.of_nat k) mod 4096).
Proof.
  intros Hb Hs Ha Hrun. destruct (alloc_ok _ _ _ _ Hb Hs Ha) as [Hok He].
  destruct (rx_run_inv _ _ _ _ _ Hrun Hok) as (Hok' & _ & C). rewrite He, app_nil_r in C.
  split; [done|]. split; apply Hok'.
Qed.

Lemma rx_conserved_witness :
  [sample_pkt 0; sample_pkt 4095; sample_pkt 4094] ≡ₚ
    stored (wnd (rx_one (rx_one (rx_one session0 0) 4095) 4094)) ++
    [sample_pkt 4094; sample_pkt 4095; sample_pkt 0] ++ [].
Proof. apply (rx_conserved 4094 0 64 session0 _ _ _ _ size_64 ltac:(lia) eq_refl session0_run). Defined.

(** After a release the slot at the head of the window is empty, no frame
    was given back, and the reorder timer is armed exactly when frames remain
    stored. *)
Theorem reorder_release_progress cur r o r' o' :
  reorder_ok r -> phl_reorder_release cur r o = (r', o') ->
  wnd r' !! 0%nat = Some None /\ o_recycled o' = o_recycled o /\
  (removed r = false -> o_timer o' = Some (z_true (stored_mpdu_num r'))).
Proof.
  intros Hok E. pose proof (reorder_release_shifted cur r o Hok) as H. rewrite E in H.
  destruct H as ([a H] & Ht & He). split; [done|]. split; [apply H|done].
Qed.

Lemma session0_rx_ok : reorder_ok (rx_one session0 0).
Proof.
  apply (rx_run_inv session0 [sample_pkt 0] [] [] _); [|apply session0_ok].
  exact (run_one _ _ _ _ _ 0 (run_nil session0) ltac:(lia) eq_refl).
Qed.

(** At time 50 frame 0 is not released yet, at time 200 it is. *)
Lemma reorder_release_progress_witness :
  o_timer (snd (phl_reorder_release 50 (rx_one session0 0) no_out)) = Some true /\
  o_frames (snd (phl_reorder_release 50 (rx_one session0 0) no_out)) = [] /\
  o_frames (snd (phl_reorder_release 200 (rx_one session0 0) no_out)) = [sample_pkt 0].
Proof.
  split; [|vm_compute; done].
  rewrite (proj2 (proj2 (reorder_release_progress 50 (rx_one session0 0) no_out _ _ session0_rx_ok
                           (surjective_pairing _)))); vm_compute; reflexivity.
Defined.

(** *** Block-ack requests *)

(** A block-ack request behind the head changes nothing; one up to 2047
    ahead moves the head to its sequence number and passes on exactly the
    frames before it, in order. *)
Theorem rx_bar_releases s t sq r s' o :
  sta_tid s t = Some r -> 0 <= t < Z.of_nat (length (tid_rx s)) -> reorder_ok r -> 0 <= sq < 4096 ->
  rtw_phl_rx_bar s t sq = (s', o) ->
  (2048 < dist r sq -> s' = s /\ o = no_out) /\
  (dist r sq <= 2047 -> exists r', sta_tid s' t = Some r' /\ reorder_ok r' /\ head_seq_num r' = sq /\
     o_frames o = stored (take (Z.to_nat (dist r sq)) (wnd r)) /\
     stored (wnd r) ≡ₚ o_frames o ++ stored (wnd r')).
Proof.
  intros Ht Hr Hok Hsq. unfold rtw_phl_rx_bar. rewrite Ht, seq_less_spec. fold (dist r sq).
  destruct (Z.ltb_spec 2048 (dist r sq)) as [Hd|Hd].
  - intros [= <- <-]. split; [done|lia].
  - pose proof (release_frames_shifted r sq no_out Hok Hsq) as H.
    destruct (phl_release_reorder_frames r sq no_out) as [r' o'] eqn:E. intros [= <- <-]. split; [lia|].
    intros Hd2. specialize (H Hd2). exists r'. split; [|split; [by eapply shifted_ok|]].
    + unfold sta_tid, set_tid. cbn. by rewrite nth_lookup, list_lookup_insert_eq by lia.
    + pose proof (sh_frames _ _ _ _ _ H) as F. cbn [o_frames no_out app] in F. rewrite F.
      split; [|split; [done|]].
      * unfold phl_release_reorder_frames in E. destruct (release_until _ sq r no_out). by injection E as <- _.
      * rewrite (shifted_conserves _ _ _ _ _ H). apply Permutation_app_comm.
Qed.

(** Frame 0 waits for 4094 and 4095; the request says they will not come. *)
Lemma rx_bar_releases_witness :
  let s := mkSta [Some (rx_one session0 0)] true in
  exists r', sta_tid (fst (rtw_phl_rx_bar s 0 1)) 0 = Some r' /\ head_seq_num r' = 1 /\
    o_frames (snd (rtw_phl_rx_bar s 0 1)) = [sample_pkt 0].
Proof.
  intros s.
  destruct (rx_bar_releases s 0 1 (rx_one session0 0) _ _ eq_refl ltac:(cbn; lia) session0_rx_ok ltac:(lia)
              (surjective_pairing _)) as [_ H].
  destruct (H ltac:(vm_compute; congruence)) as (r' & H1 & _ & H2 & _). exists r'.
  split; [exact H1|]. split; [exact H2|]. vm_compute. reflexivity.
Defined.

(** A block-ack request exactly half the number space ahead releases nothing, and
    the frame left behind is passed on later in place of a new one. *)
Theorem bar_half_space_stale :
  let r := rx_one (rx_one session0 4094) 0 in
  let '(r1, o1) := phl_release_reorder_frames r (head_seq_num r + 2048 - 4096) no_out in
  seq_less (head_seq_num r + 2048 - 4096) (head_seq_num r) = false /\
  o_frames o1 = [] /\ stored_mpdu_num r1 = 1 /\
  let '(_, r2, o2) := phl_manage_sta_reorder_buf 0 0 (sample_pkt 2047) r1 no_out in
  o_frames o2 = [sample_pkt 2047; sample_pkt 0] /\
  let '(_, _, o3) := phl_manage_sta_reorder_buf 0 0 (sample_pkt 2048) r2 no_out in
  o_recycled o3 = [sample_pkt 2048].
Proof. vm_compute. repeat split. Qed.

(** With a window size that does not divide 4096 a frame inside the window can be
    dropped where sequence numbers wrap. *)
Theorem size_not_dividing_drops_new_frame :
  exists r0, phl_tid_ampdu_rx_alloc true true true 0 0 61 = Some r0 /\
    let r1 := foldl (fun r sq => fst (phl_release_reorder_frames r sq no_out)) r0 [2000; 4000; 4090] in
    let '(_, r2, _) := phl_manage_sta_reorder_buf 0 0 (sample_pkt 4092) r1 no_out in
    let '(_, _, o3) := phl_manage_sta_reorder_buf 0 0 (sample_pkt 5) r2 no_out in
    head_seq_num r2 = 4090 /\ stored_mpdu_num r2 = 1 /\
    dist r2 5 < buf_size r2 /\ o_recycled o3 = [sample_pkt 5].
Proof. eexists. split; [reflexivity|]. vm_compute. repeat split. Qed.

(** *** Freeing *)

Lemma wnd_perm r : reorder_ok r -> wnd r ≡ₚ reorder_buf r.
Proof.
  intros Hok. pose proof (rk_size _ Hok) as Hb. pose proof (rk_buf _ Hok) as Hl.
  set (l := (fun k => Z.to_nat (idx r (Z.of_nat k))) <$> seq 0 (wnd_size r)).
  assert (forall k, 0 <= idx r k < buf_size r) as Hi by (intros; by apply mod_range).
  assert (l ≡ₚ seq 0 (wnd_size r)) as Hp.
  { apply submseteq_length_Permutation.
    - apply NoDup_submseteq.
      + apply NoDup_fmap_2_strong; [|apply NoDup_seq]. intros u v Hu Hv E.
        apply elem_of_seq in Hu, Hv. apply Z2Nat.inj in E; [|apply Hi|apply Hi]. unfold idx, wnd_size in *.
        replace (head_seq_num r + Z.of_nat u - ssn r) with ((head_seq_num r - ssn r) + Z.of_nat u) in E by lia.
        replace (head_seq_num r + Z.of_nat v - ssn r) with ((head_seq_num r - ssn r) + Z.of_nat v) in E by lia.
        apply mod_shift_eq in E; [lia|done|lia|lia].
      + intros x Hx. apply list_elem_of_fmap in Hx as (k & -> & _). apply elem_of_seq.
        pose proof (Hi (Z.of_nat k)). unfold wnd_size. lia.
    - unfold l. by rewrite length_fmap, !length_seq. }
  transitivity ((fun i => nth i (reorder_buf r) None) <$> l).
  { unfold wnd, l. rewrite <- list_fmap_compose. done. }
  rewrite Hp. apply reflexive_eq, list_eq. intros k. rewrite list_lookup_fmap.
  destruct (decide (k < wnd_size r)%nat) as [Hk|Hk].
  - rewrite lookup_seq_lt by done. cbn. rewrite nth_lookup.
    destruct (lookup_lt_is_Some_2 (reorder_buf r) k) as [x Hx]; [by rewrite Hl|]. by rewrite Hx.
  - rewrite lookup_seq_ge, lookup_ge_None_2 by lia. done.
Qed.

(** Stopping a block-ack session clears the station's slot and gives back
    exactly the frames still in the window. *)
Theorem rx_session_end s t r :
  sta_tid s t = Some r -> 0 <= t < 8 -> reorder_ok r ->
  exists s', fst (rtw_phl_stop_rx_ba_session (Some s) t) = Some s' /\
    (length (tid_rx s) = TID_RX_NUM -> sta_tid s' t = None) /\
    snd (rtw_phl_stop_rx_ba_session (Some s) t) ≡ₚ stored (wnd r).
Proof.
  intros Hs Ht Hok. unfold rtw_phl_stop_rx_ba_session, TID_RX_NUM.
  rewrite (proj2 (Z.leb_gt (Z.of_nat 8) t)) by lia. rewrite Hs. eexists. split; [reflexivity|]. split.
  - intros Hl. unfold sta_tid, set_tid. cbn. by rewrite nth_lookup, list_lookup_insert_eq by lia.
  - cbn [snd phl_tid_ampdu_rx_free buf_size reorder_buf set_removed].
    rewrite take_ge by (rewrite (rk_buf _ Hok); unfold wnd_size; lia).
    change (omap (fun p => p) (reorder_buf r)) with (stored (reorder_buf r)).
    unfold stored. by rewrite (wnd_perm r Hok).
Qed.

Lemma rx_session_end_witness :
  let s := mkSta (Some (rx_one session0 0) :: replicate 7 None) true in
  snd (rtw_phl_stop_rx_ba_session (Some s) 0) ≡ₚ stored (wnd (rx_one session0 0)) /\
  stored (wnd (rx_one session0 0)) = [sample_pkt 0].
Proof.
  intros s. split; [|vm_compute; reflexivity].
  destruct (rx_session_end s 0 (rx_one session0 0) eq_refl ltac:(lia) session0_rx_ok) as (s' & _ & _ & H).
  exact H.
Defined.

(** *** The entry point *)

(** A frame too short for its checksum is given back with a failure;
    broadcast, non-QoS, null and fragmented frames, frames of unknown stations
    and of traffic identifiers without a session are passed on at once,
    shortened by the checksum when it is appended. *)
Theorem rx_reorder_bypass append_fcs now cur pkt sta o :
  let m := pk_meta pkt in
  let cut := append_fcs && negb (m_amsdu_cut m && negb (m_last_msdu m)) in
  (cut = true -> pk_len0 pkt <= 4 ->
   phl_rx_reorder append_fcs now cur pkt sta o = (RTW_PHL_STATUS_FAILURE, sta, out_recycle [pkt] o)) /\
  ((cut = true -> 4 < pk_len0 pkt) ->
   dont_reorder m = true \/ sta = None \/
     (exists s, sta = Some s /\ m_tid m < 8 /\ sta_tid s (m_tid m) = None) ->
   phl_rx_reorder append_fcs now cur pkt sta o =
   (RTW_PHL_STATUS_SUCCESS, sta,
    out_frame (if cut then mkPkt (pk_id pkt) m (pk_len0 pkt - 4) else pkt) o)).
Proof.
  intros m cut. unfold phl_rx_reorder. fold m cut. split.
  - intros -> Hl. by replace (pk_len0 pkt <=? 4) with true by lia.
  - intros Hl Hd. replace (cut && (pk_len0 pkt <=? 4)) with false.
    2:{ destruct cut; [|done]. specialize (Hl eq_refl). cbn. lia. }
    destruct (dont_reorder m) eqn:Ed; [done|].
    destruct Hd as [Hd|[->|(s & -> & Ht & Hs)]]; [done|done|].
    unfold TID_RX_NUM. rewrite (proj2 (Z.leb_gt (Z.of_nat 8) (m_tid m))) by lia. by rewrite Hs.
Qed.

Lemma rx_reorder_bypass_witness :
  phl_rx_reorder true 0 0 (sample_pkt 5) None no_out =
  (RTW_PHL_STATUS_SUCCESS, None, mkOut [mkPkt 5 (sample_meta 5) 96] [] None).
Proof.
  rewrite (proj2 (rx_reorder_bypass true 0 0 (sample_pkt 5) None no_out)); [reflexivity|cbn; lia|].
  right. left. reflexivity.
Defined.
