(* ===== verification/RxRing.v ===== *)
(** * From the reordering to the core driver
    (src/phl/phl_rx.c, the rest; src/phl/phl_tx.c, the pointer arithmetic)

    Frames that leave the reordering are put in a ring that the core driver
    empties.  The writer holds [rx_ring_lock]; the reader takes no lock, so
    the ring is also given as two threads that interleave at each access to
    shared memory ([prod_step], [cons_step]).  Around it: the pool of packet
    descriptors, the power-save state of stations and the statistics. *)

From stdpp Require Import gmap.
From S2P Require Import Prelude PhlQueue PhlDef RxReorder.

Definition MAX_PHL_RING_ENTRY_NUM : Z := 4096.
Definition MAX_PHL_RING_RX_PKT_NUM : nat := Z.to_nat 8192.

(** ** Read and write pointers *)

Definition phl_calc_avail_rptr (rptr wptr bndy : Z) : Z :=
  if rptr <=? wptr then u16 (wptr - rptr)
  else if wptr <? rptr then u16 (wptr + (bndy - rptr)) else 0.

Definition phl_calc_avail_wptr (rptr wptr bndy : Z) : Z :=
  if wptr <? rptr then u16 (rptr - wptr - 1)
  else if rptr <=? wptr then u16 (rptr + (bndy - wptr) - 1) else 0.

(** ** The ring *)

(** [core_idx] is the last entry read, [phl_idx] the last one written. *)
Record rtw_phl_rx_ring := mkRing {
  core_idx : Z; phl_idx : Z; entry : list (option rtw_phl_rx_pkt) }.

Definition ring0 : rtw_phl_rx_ring := mkRing 0 0 (replicate (Z.to_nat MAX_PHL_RING_ENTRY_NUM) None).

Definition set_entry (i : Z) (v : option rtw_phl_rx_pkt) (g : rtw_phl_rx_ring) : rtw_phl_rx_ring :=
  mkRing (core_idx g) (phl_idx g) (<[Z.to_nat i := v]> (entry g)).
Definition get_entry (i : Z) (g : rtw_phl_rx_ring) : option rtw_phl_rx_pkt :=
  nth (Z.to_nat i) (entry g) None.

(** [_os_atomic_inc] or [_os_atomic_set] to zero. *)
Definition bump_phl_idx (wptr : Z) (g : rtw_phl_rx_ring) : rtw_phl_rx_ring :=
  mkRing (core_idx g) (if z_true wptr then phl_idx g + 1 else 0) (entry g).
Definition bump_core_idx (rptr : Z) (g : rtw_phl_rx_ring) : rtw_phl_rx_ring :=
  mkRing (if z_true rptr then core_idx g + 1 else 0) (phl_idx g) (entry g).

Definition next_ptr (p : Z) : Z :=
  let p := u16 (p + 1) in if MAX_PHL_RING_ENTRY_NUM <=? p then 0 else p.

(** The part of [_phl_add_rx_pkt] under the lock. *)
Definition ring_add (pkt : rtw_phl_rx_pkt) (g : rtw_phl_rx_ring) : rtw_phl_status * rtw_phl_rx_ring :=
  let wptr := u16 (phl_idx g) in
  let rptr := u16 (core_idx g) in
  let ring_res := phl_calc_avail_wptr rptr wptr MAX_PHL_RING_ENTRY_NUM in
  if ring_res <=? 0 then (RTW_PHL_STATUS_RESOURCE, g)
  else
    let wptr := next_ptr wptr in
    (RTW_PHL_STATUS_SUCCESS, bump_phl_idx wptr (set_entry wptr (Some pkt) g)).

Definition phl_check_recv_ring_resource (g : rtw_phl_rx_ring) : bool :=
  let wptr := u16 (phl_idx g) in
  let rptr := u16 (core_idx g) in
  negb (phl_calc_avail_wptr rptr wptr MAX_PHL_RING_ENTRY_NUM =? 0).

Definition rtw_phl_query_new_rx_num (g : rtw_phl_rx_ring) : Z :=
  phl_calc_avail_rptr (u16 (core_idx g)) (u16 (phl_idx g)) MAX_PHL_RING_ENTRY_NUM.

(** [rtw_phl_query_rx_pkt] up to the statistics. *)
Definition ring_query (g : rtw_phl_rx_ring) : option rtw_phl_rx_pkt * rtw_phl_rx_ring :=
  let wptr := u16 (phl_idx g) in
  let rptr := u16 (core_idx g) in
  let ring_res := phl_calc_avail_rptr rptr wptr MAX_PHL_RING_ENTRY_NUM in
  if 0 <? ring_res then
    let rptr := next_ptr rptr in
    let recvpkt := get_entry rptr g in
    (recvpkt, bump_core_idx rptr (set_entry rptr None g))
  else (None, g).

(** ** Writer and reader as threads

    One step per access to the ring. *)

Inductive prod_pc :=
| PIdle
| PWptr (pkt : rtw_phl_rx_pkt) (wptr : Z)
| PRes (pkt : rtw_phl_rx_pkt) (wptr rptr : Z)
| PEntry (pkt : rtw_phl_rx_pkt) (wptr : Z).

Inductive cons_pc :=
| CIdle
| CWptr (wptr : Z)
| CRes (wptr rptr : Z)
| CTook (rptr : Z) (pkt : option rtw_phl_rx_pkt)
| CCleared (rptr : Z) (pkt : option rtw_phl_rx_pkt).

(** The ring, the two program counters, and what has happened: the packets
    accepted and refused, and what the reader was given. *)
Record conc := mkConc {
  c_ring : rtw_phl_rx_ring; c_prod : prod_pc; c_cons : cons_pc;
  c_accepted : list rtw_phl_rx_pkt; c_refused : list rtw_phl_rx_pkt;
  c_got : list (option rtw_phl_rx_pkt) }.

Definition conc0 : conc := mkConc ring0 PIdle CIdle [] [] [].

(** The writer; [pkt] is the next packet to add when it is idle. *)
Definition prod_step (pkt : rtw_phl_rx_pkt) (s : conc) : conc :=
  let '(mkConc g pp cp acc ref got) := s in
  match pp with
  | PIdle => mkConc g (PWptr pkt (u16 (phl_idx g))) cp acc ref got
  | PWptr pkt wptr => mkConc g (PRes pkt wptr (u16 (core_idx g))) cp acc ref got
  | PRes pkt wptr rptr =>
      if phl_calc_avail_wptr rptr wptr MAX_PHL_RING_ENTRY_NUM <=? 0
      then mkConc g PIdle cp acc (ref ++ [pkt]) got
      else let wptr := next_ptr wptr in
           mkConc (set_entry wptr (Some pkt) g) (PEntry pkt wptr) cp acc ref got
  | PEntry pkt wptr => mkConc (bump_phl_idx wptr g) PIdle cp (acc ++ [pkt]) ref got
  end.

Definition cons_step (s : conc) : conc :=
  let '(mkConc g pp cp acc ref got) := s in
  match cp with
  | CIdle => mkConc g pp (CWptr (u16 (phl_idx g))) acc ref got
  | CWptr wptr => mkConc g pp (CRes wptr (u16 (core_idx g))) acc ref got
  | CRes wptr rptr =>
      if 0 <? phl_calc_avail_rptr rptr wptr MAX_PHL_RING_ENTRY_NUM
      then let rptr := next_ptr rptr in mkConc g pp (CTook rptr (get_entry rptr g)) acc ref got
      else mkConc g pp CIdle acc ref got
  | CTook rptr pkt => mkConc (set_entry rptr None g) pp (CCleared rptr pkt) acc ref got
  | CCleared rptr pkt => mkConc (bump_core_idx rptr g) pp CIdle acc ref (got ++ [pkt])
  end.

Inductive ring_step : conc -> conc -> Prop :=
| writer_step pkt s : ring_step s (prod_step pkt s)
| reader_step s : ring_step s (cons_step s).

(** ** Statistics *)

Definition RXTP_CALC_DIFF_MS : Z := 1000.
Definition RTW_U32_MAX : Z := 0xFFFFFFFF.

Definition RTW_TFC_IDLE : Z := 0.
Definition RTW_TFC_ULTRA_LOW : Z := 1.
Definition RTW_TFC_LOW : Z := 2.
Definition RTW_TFC_MID : Z := 3.
Definition RTW_TFC_HIGH : Z := 4.
Definition TRAFFIC_CHANGED : Z := BIT 0.
Definition TRAFFIC_INCREASE : Z := BIT 1.
Definition TRAFFIC_DECREASE : Z := BIT 2.

(** The receive fields of [struct rtw_stats]. *)
Record rtw_stats := mkStats {
  rx_byte_uni : Z; rx_byte_total : Z; rx_tp_kbits : Z; last_rx_time_ms : Z; rx_rate : Z;
  last_calc_bits : Z; last_calc_time_ms : Z; tfc_lvl : Z; tfc_sts : Z; rx_tf_cnt : Z }.

Definition stats0 : rtw_stats := mkStats 0 0 0 0 0 0 0 0 0 0.

Definition phl_reset_rx_stats (s : rtw_stats) : rtw_stats :=
  mkStats 0 0 0 0 (rx_rate s) (last_calc_bits s) 0 RTW_TFC_IDLE 0 0.

Definition rx_lvl (tp_kbits : Z) : Z :=
  let tp_k := tp_kbits in
  let tp_m := Z.shiftr tp_kbits 10 in
  if 50 <=? tp_m then RTW_TFC_HIGH
  else if 10 <=? tp_m then RTW_TFC_MID
  else if 2 <=? tp_m then RTW_TFC_LOW
  else if 100 <=? tp_k then RTW_TFC_ULTRA_LOW
  else RTW_TFC_IDLE.

Definition set_traffic (lvl sts : Z) (s : rtw_stats) : rtw_stats :=
  mkStats (rx_byte_uni s) (rx_byte_total s) (rx_tp_kbits s) (last_rx_time_ms s) (rx_rate s)
    (last_calc_bits s) (last_calc_time_ms s) lvl sts (rx_tf_cnt s).

Definition phl_rx_traffic_upd (s : rtw_stats) : rtw_stats :=
  let lvl := rx_lvl (rx_tp_kbits s) in
  let all := Z.lor (Z.lor TRAFFIC_CHANGED TRAFFIC_INCREASE) TRAFFIC_DECREASE in
  if lvl <? tfc_lvl s then set_traffic lvl (Z.lor TRAFFIC_CHANGED TRAFFIC_DECREASE) s
  else if tfc_lvl s <? lvl then set_traffic lvl (Z.lor TRAFFIC_CHANGED TRAFFIC_INCREASE) s
  else if z_true (Z.land (tfc_sts s) all)
  then set_traffic (tfc_lvl s) (Z.land (tfc_sts s) (Z.lnot all)) s
  else s.

Definition phl_update_rx_stats (cur_time : Z) (m : rtw_r_meta_data) (s : rtw_stats) : rtw_stats :=
  let total := u64 (rx_byte_total s + m_pktlen m) in
  let uni := if negb (m_bc m) && negb (m_mc m) then u64 (rx_byte_uni s + m_pktlen m)
             else rx_byte_uni s in
  let bits := u64 (uni * 8) in
  if (0 =? last_calc_time_ms s) || (0 =? last_calc_bits s) then
    mkStats uni total (rx_tp_kbits s) cur_time (rx_rate s) bits cur_time
      (tfc_lvl s) (tfc_sts s) (rx_tf_cnt s)
  else
    let diff_t :=
      if last_calc_time_ms s <=? cur_time then u32 (cur_time - last_calc_time_ms s)
      else u32 (RTW_U32_MAX - last_calc_time_ms s + cur_time + 1) in
    if (RXTP_CALC_DIFF_MS <? diff_t) && negb (uni =? 0) then
      let diff_bits := u64 (bits - last_calc_bits s) in
      mkStats uni total (u32 (diff_bits / diff_t)) cur_time (rx_rate s) bits cur_time
        (tfc_lvl s) (tfc_sts s) (rx_tf_cnt s)
    else
      mkStats uni total (rx_tp_kbits s) cur_time (rx_rate s) (last_calc_bits s) (last_calc_time_ms s)
        (tfc_lvl s) (tfc_sts s) (rx_tf_cnt s).

(** ** The receive path *)

Definition RTW_FRAME_TYPE_CTRL : Z := 1.
Definition RTW_FRAME_TYPE_DATA : Z := 2.
Definition PHL_RTYPE_AP : Z := 2.
Definition PHL_RTYPE_P2P_GO : Z := 10.
Definition RTW_PHL_EVT_RX : Z := BIT 0.

(** A station: statistics, whether it sleeps, and the type of its role. *)
Record stainfo := mkStaInfo { si_stats : rtw_stats; ps_sta : bool; wrole : option Z }.
Definition set_si_stats (v : rtw_stats) (s : stainfo) := mkStaInfo v (ps_sta s) (wrole s).
Definition set_ps_sta (v : bool) (s : stainfo) := mkStaInfo (si_stats s) v (wrole s).

(** Descriptors are named by their index in [phl_rx[]]. *)
Record phl_rx_pkt_pool := mkPool { idle : list nat; idle_cnt : Z }.

(** The parts of [struct phl_info_t] the receive path uses.  [d_tx_sta] and
    [d_rxbuf] are the fields [r.tx_sta] and [rxbuf_ptr] of the descriptors;
    [bufs_back] lists the buffers given to the bus layer, [ps_changes] the
    calls of [ap_ps_sta_ps_change]. *)
Record rx_info := mkRx {
  rx_ring : rtw_phl_rx_ring; rx_new_pending : bool; evt_bitmap : Z;
  rx_pkt_pool : option phl_rx_pkt_pool;
  d_tx_sta : gmap nat Z; d_rxbuf : gmap nat Z; bufs_back : list Z;
  rx_stas : gmap Z stainfo; phl_stats : rtw_stats; ps_changes : list (Z * bool) }.

Definition set_rx_ring v i := mkRx v (rx_new_pending i) (evt_bitmap i) (rx_pkt_pool i) (d_tx_sta i) (d_rxbuf i) (bufs_back i) (rx_stas i) (phl_stats i) (ps_changes i).
Definition set_rx_new_pending v i := mkRx (rx_ring i) v (evt_bitmap i) (rx_pkt_pool i) (d_tx_sta i) (d_rxbuf i) (bufs_back i) (rx_stas i) (phl_stats i) (ps_changes i).
Definition set_evt_bitmap v i := mkRx (rx_ring i) (rx_new_pending i) v (rx_pkt_pool i) (d_tx_sta i) (d_rxbuf i) (bufs_back i) (rx_stas i) (phl_stats i) (ps_changes i).
Definition set_rx_pkt_pool v i := mkRx (rx_ring i) (rx_new_pending i) (evt_bitmap i) v (d_tx_sta i) (d_rxbuf i) (bufs_back i) (rx_stas i) (phl_stats i) (ps_changes i).
Definition set_desc ts rb i := mkRx (rx_ring i) (rx_new_pending i) (evt_bitmap i) (rx_pkt_pool i) ts rb (bufs_back i) (rx_stas i) (phl_stats i) (ps_changes i).
Definition set_bufs_back v i := mkRx (rx_ring i) (rx_new_pending i) (evt_bitmap i) (rx_pkt_pool i) (d_tx_sta i) (d_rxbuf i) v (rx_stas i) (phl_stats i) (ps_changes i).
Definition set_rx_stas v i := mkRx (rx_ring i) (rx_new_pending i) (evt_bitmap i) (rx_pkt_pool i) (d_tx_sta i) (d_rxbuf i) (bufs_back i) v (phl_stats i) (ps_changes i).
Definition set_phl_stats v i := mkRx (rx_ring i) (rx_new_pending i) (evt_bitmap i) (rx_pkt_pool i) (d_tx_sta i) (d_rxbuf i) (bufs_back i) (rx_stas i) v (ps_changes i).
Definition set_ps_changes v i := mkRx (rx_ring i) (rx_new_pending i) (evt_bitmap i) (rx_pkt_pool i) (d_tx_sta i) (d_rxbuf i) (bufs_back i) (rx_stas i) (phl_stats i) v.

(** What the station and role tables answer; [ap_ps] is
    [dev_sw_cap.ap_ps], [ps_hook] whether [ap_ps_sta_ps_change] is set. *)
Record lookups := mkLookups {
  phl_macid_is_valid : Z -> bool;
  get_stainfo_by_macid : Z -> option Z;
  get_wrole_by_addr : rtw_phl_rx_pkt -> option Z;
  get_stainfo_by_addr : rtw_phl_rx_pkt -> option Z;
  ap_ps : bool; ps_hook : bool }.

(** *** Descriptors *)

Definition rtw_phl_query_phl_rx (i : rx_info) : option nat * rx_info :=
  match rx_pkt_pool i with
  | Some (mkPool (d :: l) n) => (Some d, set_rx_pkt_pool (Some (mkPool l (u32 (n - 1)))) i)
  | _ => (None, i)
  end.

Definition rtw_phl_is_phl_rx_idle (i : rx_info) : bool :=
  match rx_pkt_pool i with
  | Some p => Z.of_nat MAX_PHL_RING_RX_PKT_NUM =? idle_cnt p
  | None => false
  end.

Definition phl_release_phl_rx (d : nat) (i : rx_info) : rx_info :=
  let i := set_desc (delete d (d_tx_sta i)) (delete d (d_rxbuf i)) i in
  match rx_pkt_pool i with
  | Some (mkPool l n) => set_rx_pkt_pool (Some (mkPool (l ++ [d]) (u32 (n + 1)))) i
  | None => i
  end.

(** The memory is gone; the pointer in [phl_info] is not cleared. *)
Definition phl_free_recv_pkt_pool (i : rx_info) : rx_info := set_rx_pkt_pool None i.
Definition phl_rx_deinit (i : rx_info) : rx_info := phl_free_recv_pkt_pool i.

(** [ok]: the allocation. *)
Definition phl_alloc_recv_pkt_pool (ok : bool) (i : rx_info) : rtw_phl_status * rx_info :=
  if ok then
    (RTW_PHL_STATUS_SUCCESS,
     set_rx_pkt_pool (Some
       (foldl (fun p d => mkPool (idle p ++ [d]) (u32 (idle_cnt p + 1))) (mkPool [] 0)
          (seq 0 MAX_PHL_RING_RX_PKT_NUM))) i)
  else (RTW_PHL_STATUS_FAILURE, phl_free_recv_pkt_pool i).

Definition phl_rx_init (ok : bool) (i : rx_info) : rtw_phl_status * rx_info :=
  let '(status, i) := phl_alloc_recv_pkt_pool ok i in
  if negb (bool_decide (status = RTW_PHL_STATUS_SUCCESS)) then (status, i)
  else (RTW_PHL_STATUS_SUCCESS, i).

(** The outcome of the bus layer's [recycle_rx_buf] is only logged. *)
Definition phl_recycle_rx_buf (phl_rx : option nat) (i : rx_info) : rx_info :=
  match phl_rx with
  | None => i
  | Some d =>
      let i := match d_rxbuf i !! d with
               | Some b => set_bufs_back (bufs_back i ++ [b]) i
               | None => i
               end in
      phl_release_phl_rx d i
  end.

Definition rtw_phl_return_rxbuf (recvpkt : option nat) (i : rx_info) : rtw_phl_status * rx_info :=
  match recvpkt with
  | None => (RTW_PHL_STATUS_FAILURE, i)
  | Some d => (RTW_PHL_STATUS_SUCCESS, phl_recycle_rx_buf (Some d) i)
  end.

(** The outcome of [phl_schedule_handler] is only logged. *)
Definition _phl_indic_new_rxpkt (i : rx_info) : rx_info :=
  set_rx_new_pending false (set_evt_bitmap (Z.lor (evt_bitmap i) RTW_PHL_EVT_RX) i).

(** *** Adding to the ring *)

Definition alter_sta (f : stainfo -> stainfo) (s : Z) (i : rx_info) : rx_info :=
  set_rx_stas (alter f s (rx_stas i)) i.

Definition _phl_record_rx_stats (pkt : rtw_phl_rx_pkt) (i : rx_info) : rx_info :=
  match d_tx_sta i !! pk_id pkt with
  | Some s =>
      alter_sta (fun x =>
        let t := si_stats x in
        set_si_stats (mkStats (rx_byte_uni t) (rx_byte_total t) (rx_tp_kbits t) (last_rx_time_ms t)
          (m_rx_rate (pk_meta pkt)) (last_calc_bits t) (last_calc_time_ms t)
          (tfc_lvl t) (tfc_sts t) (rx_tf_cnt t)) x) s i
  | None => i
  end.

(** With [PHL_RX_BATCH_IND], which the build defines. *)
Definition _phl_add_rx_pkt (pkt : rtw_phl_rx_pkt) (i : rx_info) : rtw_phl_status * rx_info :=
  match ring_add pkt (rx_ring i) with
  | (RTW_PHL_STATUS_SUCCESS, g) =>
      (RTW_PHL_STATUS_SUCCESS, _phl_record_rx_stats pkt (set_rx_new_pending true (set_rx_ring g i)))
  | (st, g) => (st, set_rx_ring g i)
  end.

Section Path.
Context (L : lookups).

Definition ps_notify (s : Z) (v : bool) (i : rx_info) : rx_info :=
  if ps_hook L then set_ps_changes (ps_changes i ++ [(s, v)]) i else i.

Definition phl_sta_ps_enter (s : Z) (i : rx_info) : rx_info :=
  ps_notify s true (alter_sta (set_ps_sta true) s i).
Definition phl_sta_ps_exit (s : Z) (i : rx_info) : rx_info :=
  ps_notify s false (alter_sta (set_ps_sta false) s i).

(** The station and the type of its role, as [phl_rx_handle_sta_process]
    resolves them. *)
Definition resolve_sta (pkt : rtw_phl_rx_pkt) (i : rx_info) : option Z * option Z :=
  let m := pk_meta pkt in
  let sta := if m_addr_cam_vld m then get_stainfo_by_macid L (m_macid m) else None in
  match sta with
  | Some s => (Some s, rx_stas i !! s ≫= wrole)
  | None =>
      match get_wrole_by_addr L pkt with
      | Some role => (get_stainfo_by_addr L pkt, Some role)
      | None => (None, None)
      end
  end.

Definition phl_rx_handle_sta_process (pkt : rtw_phl_rx_pkt) (i : rx_info) : rx_info :=
  let m := pk_meta pkt in
  if negb (ap_ps L) then i
  else
    match resolve_sta pkt i with
    | (Some s, Some role) =>
        let i := set_desc (<[pk_id pkt := s]> (d_tx_sta i)) (d_rxbuf i) i in
        if negb (m_more_frag m) &&
           ((m_frame_type m =? RTW_FRAME_TYPE_DATA) || (m_frame_type m =? RTW_FRAME_TYPE_CTRL)) &&
           ((role =? PHL_RTYPE_AP) || (role =? PHL_RTYPE_P2P_GO))
        then
          match rx_stas i !! s with
          | Some x =>
              if ps_sta x then if negb (m_pwr_bit m) then phl_sta_ps_exit s i else i
              else if m_pwr_bit m then phl_sta_ps_enter s i else i
          | None => i
          end
        else i
    | _ => i
    end.

(** The loop body of [phl_handle_rx_frame_list]; [recycle_rx_pkt] of the PCIe
    bus is [phl_recycle_rx_buf]. *)
Definition handle_rx_frame (i : rx_info) (pos : rtw_phl_rx_pkt) : rx_info :=
  let i := phl_rx_handle_sta_process pos i in
  let '(status, i) := _phl_add_rx_pkt pos i in
  if bool_decide (status = RTW_PHL_STATUS_RESOURCE) then phl_recycle_rx_buf (Some (pk_id pos)) i else i.

Definition phl_handle_rx_frame_list (frames : list rtw_phl_rx_pkt) (i : rx_info) : rx_info :=
  foldl handle_rx_frame i frames.

(** *** The core driver takes a packet *)

Definition phl_rx_statistics (cur_time : Z) (pkt : rtw_phl_rx_pkt) (i : rx_info) : rx_info :=
  let m := pk_meta pkt in
  let i :=
    if negb (phl_macid_is_valid L (m_macid m)) then i
    else match get_stainfo_by_macid L (m_macid m) with
         | None => i
         | Some s => alter_sta (fun x => set_si_stats (phl_update_rx_stats cur_time m (si_stats x)) x) s i
         end in
  set_phl_stats (phl_update_rx_stats cur_time m (phl_stats i)) i.

Definition rtw_phl_query_rx_pkt (cur_time : Z) (i : rx_info) : option rtw_phl_rx_pkt * rx_info :=
  let '(recvpkt, g) := ring_query (rx_ring i) in
  let i := set_rx_ring g i in
  match recvpkt with
  | None => (None, i)
  | Some pkt => (Some pkt, phl_rx_statistics cur_time pkt i)
  end.
End Path.
