(* ===== verification/RxRingThm.v ===== *)
(** * The receive ring, descriptors and statistics: theorems *)

From stdpp Require Import gmap.
From S2P Require Import Prelude PhlQueue PhlDef RxReorder RxRing.

Notation N := 4096 (only parsing).

(** ** Pointer arithmetic, with [C] packets read and [P] written in total *)

Lemma calc_avail_rptr_counts C P :
  0 <= C -> C <= P < C + N -> phl_calc_avail_rptr (C mod N) (P mod N) N = P - C.
Proof. intros HC HP. unfold phl_calc_avail_rptr, u16. repeat case_match; lia. Qed.

Lemma calc_avail_wptr_counts C P :
  0 <= C -> C <= P < C + N -> phl_calc_avail_wptr (C mod N) (P mod N) N = N - 1 - (P - C).
Proof. intros HC HP. unfold phl_calc_avail_wptr, u16. repeat case_match; lia. Qed.

Lemma next_ptr_counts C : 0 <= C -> next_ptr (C mod N) = (C + 1) mod N.
Proof. intros HC. unfold next_ptr, u16, MAX_PHL_RING_ENTRY_NUM. case_match; lia. Qed.

Lemma u16_mod C : u16 (C mod N) = C mod N.
Proof. unfold u16. lia. Qed.

Lemma bump_counts C :
  0 <= C -> (if z_true ((C + 1) mod N) then C mod N + 1 else 0) = (C + 1) mod N.
Proof. intros HC. unfold z_true. case_match; lia. Qed.

Lemma get_set_entry i j v g :
  0 <= i < Z.of_nat (length (entry g)) -> 0 <= j ->
  get_entry j (set_entry i v g) = if i =? j then v else get_entry j g.
Proof.
  intros Hi Hj. unfold get_entry, set_entry. cbn. rewrite !nth_lookup.
  case_match eqn:E.
  - apply Z.eqb_eq in E as ->. by rewrite list_lookup_insert_eq by lia.
  - apply Z.eqb_neq in E. by rewrite list_lookup_insert_ne by lia.
Qed.

(** ** The ring as a bounded queue *)

(** The ring holds the packets [q], oldest first, [C] having been read. *)
Record ring_holds (C : Z) (q : list rtw_phl_rx_pkt) (g : rtw_phl_rx_ring) : Prop := {
  rh_C : 0 <= C;
  rh_len : length (entry g) = Z.to_nat N;
  rh_core : core_idx g = C mod N;
  rh_phl : phl_idx g = (C + Z.of_nat (length q)) mod N;
  rh_room : Z.of_nat (length q) < N;
  rh_entry k p : q !! k = Some p -> get_entry ((C + Z.of_nat k + 1) mod N) g = Some p }.

Lemma ring0_holds : ring_holds 0 [] ring0.
Proof. by split. Qed.

Section Ring.
Context (C : Z) (q : list rtw_phl_rx_pkt) (g : rtw_phl_rx_ring) (Hg : ring_holds C q g).

Local Ltac ring_pre :=
  pose proof (rh_C _ _ _ Hg) as HC; pose proof (rh_len _ _ _ Hg) as Hl;
  pose proof (rh_room _ _ _ Hg) as Hr.

Lemma ring_num : rtw_phl_query_new_rx_num g = Z.of_nat (length q).
Proof.
  ring_pre. unfold rtw_phl_query_new_rx_num. rewrite (rh_core _ _ _ Hg), (rh_phl _ _ _ Hg), !u16_mod.
  unfold MAX_PHL_RING_ENTRY_NUM. rewrite calc_avail_rptr_counts; lia.
Qed.

Lemma ring_room : phl_check_recv_ring_resource g = (Z.of_nat (length q) <? N - 1).
Proof.
  ring_pre. unfold phl_check_recv_ring_resource. rewrite (rh_core _ _ _ Hg), (rh_phl _ _ _ Hg), !u16_mod.
  unfold MAX_PHL_RING_ENTRY_NUM. rewrite calc_avail_wptr_counts by lia. lia.
Qed.

Lemma ring_add_full pkt : Z.of_nat (length q) = N - 1 -> ring_add pkt g = (RTW_PHL_STATUS_RESOURCE, g).
Proof.
  ring_pre. intros E. unfold ring_add. rewrite (rh_core _ _ _ Hg), (rh_phl _ _ _ Hg), !u16_mod.
  unfold MAX_PHL_RING_ENTRY_NUM. rewrite calc_avail_wptr_counts by lia. by rewrite (proj2 (Z.leb_le _ 0)) by lia.
Qed.

Lemma ring_add_ok pkt : Z.of_nat (length q) < N - 1 ->
  exists g', ring_add pkt g = (RTW_PHL_STATUS_SUCCESS, g') /\ ring_holds C (q ++ [pkt]) g'.
Proof.
  ring_pre. intros E. unfold ring_add. rewrite (rh_core _ _ _ Hg), (rh_phl _ _ _ Hg), !u16_mod.
  unfold MAX_PHL_RING_ENTRY_NUM. rewrite calc_avail_wptr_counts by lia.
  rewrite (proj2 (Z.leb_gt _ 0)) by lia. rewrite next_ptr_counts by lia. eexists. split; [reflexivity|].
  split; try done.
  - cbn. by rewrite length_insert.
  - cbn. by rewrite (rh_core _ _ _ Hg).
  - cbn [phl_idx bump_phl_idx set_entry]. rewrite (rh_phl _ _ _ Hg), bump_counts by lia.
    rewrite length_app. cbn. f_equal. lia.
  - rewrite length_app. cbn. lia.
  - intros k p Hk. unfold bump_phl_idx, get_entry. cbn [entry].
    fold (get_entry ((C + Z.of_nat k + 1) mod N)
            (set_entry ((C + Z.of_nat (length q) + 1) mod N) (Some pkt) g)).
    rewrite get_set_entry by lia. apply lookup_app_Some in Hk as [Hk|[Hk1 Hk2]].
    + rewrite (rh_entry _ _ _ Hg _ _ Hk). apply lookup_lt_Some in Hk. case_match; [lia|done].
    + apply list_lookup_singleton_Some in Hk2 as [Hk2 <-].
      replace k with (length q) by lia. by rewrite Z.eqb_refl.
Qed.

Lemma ring_query_empty : q = [] -> ring_query g = (None, g).
Proof.
  ring_pre. intros E. unfold ring_query. rewrite (rh_core _ _ _ Hg), (rh_phl _ _ _ Hg), !u16_mod.
  unfold MAX_PHL_RING_ENTRY_NUM. rewrite calc_avail_rptr_counts by lia. rewrite E.
  by rewrite (proj2 (Z.ltb_ge 0 _)) by (cbn; lia).
Qed.

Lemma ring_query_ok pkt q' : q = pkt :: q' ->
  exists g', ring_query g = (Some pkt, g') /\ ring_holds (C + 1) q' g'.
Proof.
  ring_pre. intros E. unfold ring_query. rewrite (rh_core _ _ _ Hg), (rh_phl _ _ _ Hg), !u16_mod.
  unfold MAX_PHL_RING_ENTRY_NUM. rewrite calc_avail_rptr_counts by lia.
  assert (length q = S (length q')) as El by (by rewrite E).
  rewrite (proj2 (Z.ltb_lt 0 _)) by lia. rewrite next_ptr_counts by lia.
  pose proof (rh_entry _ _ _ Hg 0 pkt) as H0. rewrite Z.add_0_r in H0. rewrite H0 by (by rewrite E).
  eexists. split; [reflexivity|]. split.
  - lia.
  - cbn. by rewrite length_insert.
  - cbn [core_idx bump_core_idx set_entry]. by rewrite (rh_core _ _ _ Hg), bump_counts by lia.
  - cbn. rewrite (rh_phl _ _ _ Hg), El. f_equal. lia.
  - lia.
  - intros k p Hk. unfold bump_core_idx, get_entry. cbn [entry].
    fold (get_entry ((C + 1 + Z.of_nat k + 1) mod N) (set_entry ((C + 1) mod N) None g)).
    assert (q !! S k = Some p) as Hk' by (by rewrite E).
    pose proof (rh_entry _ _ _ Hg _ _ Hk') as He. apply lookup_lt_Some in Hk.
    rewrite get_set_entry by lia. case_match; [lia|].
    rewrite <- He. f_equal. f_equal. lia.
Qed.
End Ring.

(** *** Specification: a queue of at most 4095 packets *)

Inductive ring_op := OpAdd (pkt : rtw_phl_rx_pkt) | OpQuery | OpNum | OpRoom.
Inductive ring_res :=
| ResStatus (st : rtw_phl_status) | ResPkt (p : option rtw_phl_rx_pkt) | ResNum (n : Z) | ResRoom (b : bool).

Definition ring_exec (o : ring_op) (g : rtw_phl_rx_ring) : ring_res * rtw_phl_rx_ring :=
  match o with
  | OpAdd p => let '(st, g) := ring_add p g in (ResStatus st, g)
  | OpQuery => let '(p, g) := ring_query g in (ResPkt p, g)
  | OpNum => (ResNum (rtw_phl_query_new_rx_num g), g)
  | OpRoom => (ResRoom (phl_check_recv_ring_resource g), g)
  end.

Definition queue_exec (o : ring_op) (q : list rtw_phl_rx_pkt) : ring_res * list rtw_phl_rx_pkt :=
  let room := Z.of_nat (length q) <? MAX_PHL_RING_ENTRY_NUM - 1 in
  match o with
  | OpAdd p => if room then (ResStatus RTW_PHL_STATUS_SUCCESS, q ++ [p])
               else (ResStatus RTW_PHL_STATUS_RESOURCE, q)
  | OpQuery => (ResPkt (head q), tail q)
  | OpNum => (ResNum (Z.of_nat (length q)), q)
  | OpRoom => (ResRoom room, q)
  end.

Fixpoint exec_all {S} (f : ring_op -> S -> ring_res * S) (ops : list ring_op) (s : S) : list ring_res :=
  match ops with
  | [] => []
  | o :: ops => let '(r, s) := f o s in r :: exec_all f ops s
  end.

Lemma ring_exec_sim o C q g : ring_holds C q g ->
  fst (ring_exec o g) = fst (queue_exec o q) /\
  exists C', ring_holds C' (snd (queue_exec o q)) (snd (ring_exec o g)).
Proof.
  intros Hg. pose proof (rh_room _ _ _ Hg) as Hr.
  destruct o as [p| | |]; unfold ring_exec, queue_exec, MAX_PHL_RING_ENTRY_NUM.
  - destruct (_ <? _) eqn:E.
    + destruct (ring_add_ok _ _ _ Hg p) as (g' & -> & H); [lia|]. split; [done|by exists C].
    + rewrite (ring_add_full _ _ _ Hg) by lia. split; [done|by exists C].
  - destruct q as [|p q].
    + rewrite (ring_query_empty _ _ _ Hg) by done. split; [done|by exists C].
    + destruct (ring_query_ok _ _ _ Hg p q eq_refl) as (g' & -> & H). split; [done|by exists (C + 1)].
  - rewrite (ring_num _ _ _ Hg). split; [done|by exists C].
  - rewrite (ring_room _ _ _ Hg). split; [done|by exists C].
Qed.

(** Any sequence of add, query, count and room operations on the receive
    ring returns what a first-in first-out queue of at most 4095 packets
    returns. *)
Theorem ring_refines_queue ops : exec_all ring_exec ops ring0 = exec_all queue_exec ops [].
Proof.
  assert (forall C q g, ring_holds C q g -> exec_all ring_exec ops g = exec_all queue_exec ops q) as H.
  { induction ops as [|o ops IH]; [done|]. intros C q g Hg.
    destruct (ring_exec_sim o C q g Hg) as [E [C' H]]. cbn.
    destruct (ring_exec o g) as [r g'], (queue_exec o q) as [r' q']. cbn in E, H. subst.
    f_equal. by eapply IH. }
  apply (H 0). apply ring0_holds.
Qed.

(** ** Writer and reader in parallel *)

Definition cleared (p : cons_pc) : Z := match p with CCleared _ _ => 1 | _ => 0 end.

Lemma cleared_range p : 0 <= cleared p <= 1.
Proof. destruct p; cbn; lia. Qed.

(** What the writer knows at each point: its write index is current, the read
    index it saw may be behind. *)
Definition prod_ok (C P : Z) (g : rtw_phl_rx_ring) (pc : prod_pc) : Prop :=
  match pc with
  | PIdle => True
  | PWptr _ w => w = P mod N
  | PRes _ w r => w = P mod N /\ exists C0, 0 <= C0 <= C /\ P < C0 + N /\ r = C0 mod N
  | PEntry p w => w = (P + 1) mod N /\ P + 1 < C + N /\ get_entry w g = Some p
  end.

Definition cons_ok (C P : Z) (acc : list rtw_phl_rx_pkt) (pc : cons_pc) : Prop :=
  match pc with
  | CIdle => True
  | CWptr w => exists P0, C <= P0 <= P /\ w = P0 mod N
  | CRes w r => (exists P0, C <= P0 <= P /\ w = P0 mod N) /\ r = C mod N
  | CTook r p | CCleared r p => C < P /\ r = (C + 1) mod N /\ acc !! Z.to_nat C = p
  end.

Record conc_ok (s : conc) : Prop := {
  ck_len : length (entry (c_ring s)) = Z.to_nat N;
  ck_core : core_idx (c_ring s) = Z.of_nat (length (c_got s)) mod N;
  ck_phl : phl_idx (c_ring s) = Z.of_nat (length (c_accepted s)) mod N;
  ck_le : Z.of_nat (length (c_got s)) <= Z.of_nat (length (c_accepted s)) < Z.of_nat (length (c_got s)) + N;
  ck_entry k p : Z.of_nat (length (c_got s)) + cleared (c_cons s) <= Z.of_nat k ->
    c_accepted s !! k = Some p -> get_entry ((Z.of_nat k + 1) mod N) (c_ring s) = Some p;
  ck_got : c_got s = Some <$> take (length (c_got s)) (c_accepted s);
  ck_prod : prod_ok (Z.of_nat (length (c_got s))) (Z.of_nat (length (c_accepted s))) (c_ring s) (c_prod s);
  ck_cons : cons_ok (Z.of_nat (length (c_got s))) (Z.of_nat (length (c_accepted s))) (c_accepted s) (c_cons s) }.

Lemma conc0_ok : conc_ok conc0.
Proof. by split. Qed.

Lemma prod_step_ok pkt s : conc_ok s -> conc_ok (prod_step pkt s).
Proof.
  destruct s as [g pp cp acc ref got]. intros [Hl Hc Hp Hle He Hg Hpp Hcp].
  pose proof (cleared_range cp) as Hcl. cbn in *.
  destruct pp as [|pk w|pk w r|pk w]; cbn in *.
  - split; cbn; try done. by rewrite Hp, u16_mod.
  - split; cbn; try done. rewrite Hc, u16_mod. split; [done|]. eexists. split; [|split; [|done]]; lia.
  - destruct Hpp as (-> & C0 & HC0 & HP & ->). unfold MAX_PHL_RING_ENTRY_NUM.
    case_match eqn:E; [by split|]. apply Z.leb_gt in E.
    rewrite calc_avail_wptr_counts in E by lia. rewrite next_ptr_counts by lia.
    split; cbn [c_ring c_prod c_cons c_accepted c_got]; try done.
    + cbn. by rewrite length_insert.
    + intros k p Hk Ha. rewrite get_set_entry by lia. apply lookup_lt_Some in Ha as Hlt.
      case_match; [lia|by apply He].
    + cbn [prod_ok]. split; [done|]. split; [lia|]. rewrite get_set_entry by lia. by rewrite Z.eqb_refl.
  - destruct Hpp as (-> & HP & Hw). split; cbn [c_ring c_prod c_cons c_accepted c_got]; rewrite ?length_app; try done.
    + cbn [phl_idx bump_phl_idx]. rewrite Hp, bump_counts by lia. f_equal. cbn. lia.
    + cbn. lia.
    + intros k p Hk Ha. apply lookup_app_Some in Ha as [Ha|[Ha1 Ha2]]; [by apply He|].
      apply list_lookup_singleton_Some in Ha2 as [Ha2 <-]. rewrite <- Hw. unfold bump_phl_idx, get_entry. cbn.
      f_equal. f_equal. lia.
    + rewrite take_app_le by lia. done.
    + destruct cp; cbn in *; try done.
      * destruct Hcp as (P0 & HP0 & ->). exists P0. split; [lia|done].
      * destruct Hcp as ((P0 & HP0 & ->) & ->). split; [|done]. exists P0. split; [lia|done].
      * destruct Hcp as (HP0 & -> & <-). split; [lia|]. split; [done|]. apply lookup_app_l. lia.
      * destruct Hcp as (HP0 & -> & <-). split; [lia|]. split; [done|]. apply lookup_app_l. lia.
Qed.

Lemma cons_step_ok s : conc_ok s -> conc_ok (cons_step s).
Proof.
  destruct s as [g pp cp acc ref got]. intros [Hl Hc Hp Hle He Hg Hpp Hcp]. cbn in *.
  destruct cp as [|w|w r|r p|r p]; cbn in *.
  - split; cbn; try done. rewrite Hp, u16_mod. eexists. split; [|done]. lia.
  - split; cbn; try done. by rewrite Hc, u16_mod.
  - destruct Hcp as ((P0 & HP0 & ->) & ->). unfold MAX_PHL_RING_ENTRY_NUM.
    case_match eqn:E; [|by split]. apply Z.ltb_lt in E.
    rewrite calc_avail_rptr_counts in E by lia. rewrite next_ptr_counts by lia.
    split; cbn [c_ring c_prod c_cons c_accepted c_got]; try done.
    cbn [cons_ok]. split; [lia|]. split; [done|]. rewrite Nat2Z.id.
    destruct (lookup_lt_is_Some_2 acc (length got)) as [p Hpk]; [lia|].
    rewrite Hpk. symmetry. apply (He (length got) p); [lia|done].
  - destruct Hcp as (HP0 & -> & Ha). split; cbn [c_ring c_prod c_cons c_accepted c_got]; try done.
    + cbn. by rewrite length_insert.
    + intros k x Hk Hx. cbn in Hk. apply lookup_lt_Some in Hx as Hlt.
      rewrite get_set_entry by lia. case_match; [lia|]. apply He; [lia|done].
    + destruct pp; try done. cbn [prod_ok] in *. destruct Hpp as (-> & HP & Hw). split; [done|]. split; [done|].
      rewrite get_set_entry by lia. case_match; [lia|done].
  - destruct Hcp as (HP0 & -> & Ha). rewrite Nat2Z.id in Ha.
    split; cbn [c_ring c_prod c_cons c_accepted c_got cleared cons_ok]; rewrite ?length_app; try done.
    + cbn [core_idx bump_core_idx]. rewrite Hc, bump_counts by lia. f_equal. cbn. lia.
    + cbn. lia.
    + intros k x Hk Hx. cbn in Hk. unfold bump_core_idx. apply (He k x); [lia|done].
    + rewrite Hg at 1. cbn [length]. rewrite Nat.add_1_r.
      destruct (lookup_lt_is_Some_2 acc (length got)) as [x Hx]; [lia|].
      rewrite Hx in Ha. subst p. rewrite (take_S_r _ _ x) by done. by rewrite fmap_app.
    + destruct pp; try done; cbn in *.
      * destruct Hpp as (-> & C0 & HC0 & HP1 & ->). split; [done|]. exists C0. split; [lia|]. split; [lia|done].
      * destruct Hpp as (-> & HP & Hw). split; [done|]. split; [lia|done].
Qed.

Lemma conc_ok_reach s : rtc ring_step conc0 s -> conc_ok s.
Proof.
  revert s. apply rtc_ind_r; [apply conc0_ok|].
  intros s t _ Hst Hs. destruct Hst; [by apply prod_step_ok|by apply cons_step_ok].
Qed.

(** C36: For every interleaving of the writer and the lock-free reader at each
    access to the ring, what the reader was given is a prefix of what was
    accepted, in order and without a null entry, the ring never overflows, and
    when both are idle it holds exactly the rest. *)
Theorem ring_concurrent_fifo s : rtc ring_step conc0 s ->
  c_got s = Some <$> take (length (c_got s)) (c_accepted s) /\
  Z.of_nat (length (c_accepted s)) - Z.of_nat (length (c_got s)) < MAX_PHL_RING_ENTRY_NUM /\
  (c_prod s = PIdle -> c_cons s = CIdle ->
   ring_holds (Z.of_nat (length (c_got s))) (drop (length (c_got s)) (c_accepted s)) (c_ring s)).
Proof.
  intros H%conc_ok_reach. destruct H as [Hl Hc Hp Hle He Hg _ _].
  split; [done|]. split; [unfold MAX_PHL_RING_ENTRY_NUM; lia|]. intros HP HC. rewrite HC in He.
  split; rewrite ?length_drop; try done; try lia.
  intros k p Hk. rewrite lookup_drop in Hk.
  assert (Z.of_nat (length (c_got s)) + 0 <= Z.of_nat (length (c_got s) + k)) as Hge by lia.
  rewrite <- (He _ _ Hge Hk). f_equal. f_equal. lia.
Qed.

(** The writer is half way through a second packet when the reader starts. *)
Lemma ring_concurrent_fifo_witness :
  let p1 := mkPkt 1 (mkMeta 0 0 false false true false false 0 false true 100 0 false 2 false 0) 100 in
  let s := cons_step (cons_step (cons_step (cons_step (cons_step
             (prod_step p1 (prod_step p1 (prod_step p1 (prod_step p1 (prod_step p1 (prod_step p1 conc0)))))))))) in
  c_got s = [Some p1].
Proof.
  intros p1 s.
  assert (rtc ring_step conc0 s) as Hs.
  { unfold s. do 5 (eapply rtc_r; [|apply reader_step]). do 6 (eapply rtc_r; [|apply writer_step]). apply rtc_refl. }
  destruct (ring_concurrent_fifo s Hs) as [E _].
  assert (length (c_got s) = 1%nat) as El by (vm_compute; reflexivity).
  assert (c_accepted s = [p1]) as Ea by (vm_compute; reflexivity).
  rewrite El, Ea in E. exact E.
Defined.

(** A thread that is not interrupted does what the function does. *)
Lemma prod_run pkt g cp acc ref got :
  let s := Nat.iter 3 (prod_step pkt) (mkConc g PIdle cp acc ref got) in
  let '(st, g') := ring_add pkt g in
  match st with
  | RTW_PHL_STATUS_SUCCESS => prod_step pkt s = mkConc g' PIdle cp (acc ++ [pkt]) ref got
  | _ => s = mkConc g' PIdle cp acc (ref ++ [pkt]) got
  end.
Proof. cbn. unfold ring_add. by destruct (phl_calc_avail_wptr _ _ _ <=? 0). Qed.

Lemma cons_run g pp acc ref got :
  let s := Nat.iter 3 cons_step (mkConc g pp CIdle acc ref got) in
  let '(p, g') := ring_query g in
  if 0 <? rtw_phl_query_new_rx_num g
  then cons_step (cons_step s) = mkConc g' pp CIdle acc ref (got ++ [p])
  else s = mkConc g' pp CIdle acc ref got.
Proof. cbn. unfold ring_query, rtw_phl_query_new_rx_num. by destruct (0 <? _). Qed.

(** ** The receive path *)

(** What an operation on stations and statistics leaves alone. *)
Record same_path (i j : rx_info) : Prop := {
  sp_ring : rx_ring j = rx_ring i; sp_pool : rx_pkt_pool j = rx_pkt_pool i;
  sp_rxbuf : d_rxbuf j = d_rxbuf i; sp_bufs : bufs_back j = bufs_back i }.

#[export] Instance same_path_refl : Reflexive same_path.
Proof. done. Qed.
#[export] Instance same_path_trans : Transitive same_path.
Proof. intros i j k [] []. split; congruence. Qed.

Create HintDb rxpath.

Lemma alter_sta_same f s i : same_path i (alter_sta f s i).
Proof. done. Qed.
Lemma record_same pkt i : same_path i (_phl_record_rx_stats pkt i).
Proof. unfold _phl_record_rx_stats. by case_match. Qed.
Lemma sta_process_same L pkt i : same_path i (phl_rx_handle_sta_process L pkt i).
Proof.
  unfold phl_rx_handle_sta_process, phl_sta_ps_enter, phl_sta_ps_exit, ps_notify.
  by repeat (case_match || done).
Qed.
Lemma statistics_same L t pkt i : same_path i (phl_rx_statistics L t pkt i).
Proof. unfold phl_rx_statistics. by repeat case_match. Qed.

#[export] Hint Resolve alter_sta_same record_same sta_process_same statistics_same : rxpath.

(** The ring of [i] holds [q] and the idle list is [l]. *)
Record path_is (C : Z) (q : list rtw_phl_rx_pkt) (l : list nat) (i : rx_info) : Prop := {
  pi_ring : ring_holds C q (rx_ring i);
  pi_pool : rx_pkt_pool i = Some (mkPool l (Z.of_nat (length l)));
  pi_small : Z.of_nat (length l) < 2 ^ 31 }.

Lemma path_is_same C q l i j : same_path i j -> path_is C q l i -> path_is C q l j.
Proof. intros [Hr Hp _ _] [H1 H2 H3]. split; [by rewrite Hr|by rewrite Hp|done]. Qed.

Lemma recycle_path C q l i d :
  path_is C q l i -> Z.of_nat (length l) + 1 < 2 ^ 31 ->
  path_is C q (l ++ [d]) (phl_recycle_rx_buf (Some d) i) /\
  bufs_back (phl_recycle_rx_buf (Some d) i) = bufs_back i ++ option_list (d_rxbuf i !! d) /\
  d_rxbuf (phl_recycle_rx_buf (Some d) i) = delete d (d_rxbuf i).
Proof.
  intros [H1 H2 H3] Hl. unfold phl_recycle_rx_buf, phl_release_phl_rx.
  destruct (d_rxbuf i !! d) as [b|] eqn:E; cbn; rewrite H2; cbn; rewrite ?app_nil_r; (split; [|done]).
  - split; cbn; [done| |rewrite length_app; cbn; lia].
    rewrite length_app. unfold u32. cbn. repeat f_equal. lia.
  - split; cbn; [done| |rewrite length_app; cbn; lia].
    rewrite length_app. unfold u32. cbn. repeat f_equal. lia.
Qed.

Lemma add_path C q l i pkt : path_is C q l i ->
  let '(st, j) := _phl_add_rx_pkt pkt i in
  d_rxbuf j = d_rxbuf i /\ bufs_back j = bufs_back i /\
  if Z.of_nat (length q) <? MAX_PHL_RING_ENTRY_NUM - 1
  then st = RTW_PHL_STATUS_SUCCESS /\ path_is C (q ++ [pkt]) l j
  else st = RTW_PHL_STATUS_RESOURCE /\ path_is C q l j.
Proof.
  intros [H1 H2 H3]. unfold _phl_add_rx_pkt, MAX_PHL_RING_ENTRY_NUM. pose proof (rh_room _ _ _ H1) as Hr.
  destruct (_ <? _) eqn:E.
  - destruct (ring_add_ok _ _ _ H1 pkt) as (g & -> & Hg); [lia|].
    destruct (record_same pkt (set_rx_new_pending true (set_rx_ring g i))) as [E1 E2 E3 E4].
    rewrite E3, E4. split; [done|]. split; [done|]. split; [done|].
    split; [by rewrite E1|by rewrite E2|done].
  - rewrite (ring_add_full _ _ _ H1) by lia. split; [done|]. split; [done|]. split; [done|]. by split.
Qed.

Lemma handle_frame_path L C q l i pkt :
  path_is C q l i -> Z.of_nat (length l) + 1 < 2 ^ 31 ->
  if Z.of_nat (length q) <? MAX_PHL_RING_ENTRY_NUM - 1
  then path_is C (q ++ [pkt]) l (handle_rx_frame L i pkt) /\
       bufs_back (handle_rx_frame L i pkt) = bufs_back i /\ d_rxbuf (handle_rx_frame L i pkt) = d_rxbuf i
  else path_is C q (l ++ [pk_id pkt]) (handle_rx_frame L i pkt) /\
       bufs_back (handle_rx_frame L i pkt) = bufs_back i ++ option_list (d_rxbuf i !! pk_id pkt) /\
       d_rxbuf (handle_rx_frame L i pkt) = delete (pk_id pkt) (d_rxbuf i).
Proof.
  intros Hp Hl. unfold handle_rx_frame. destruct (sta_process_same L pkt i) as [E1 E2 E3 E4].
  assert (path_is C q l (phl_rx_handle_sta_process L pkt i)) as Hp'
    by (eapply path_is_same; [apply sta_process_same|done]).
  revert E3 E4 Hp'. generalize (phl_rx_handle_sta_process L pkt i) as j. intros j <- <- Hj.
  pose proof (add_path C q l j pkt Hj) as Ha.
  destruct (_phl_add_rx_pkt pkt j) as [st j'] eqn:Ea. destruct Ha as (<- & <- & Ha).
  destruct (_ <? _).
  - destruct Ha as [-> Ha]. rewrite bool_decide_false by done. done.
  - destruct Ha as [-> Ha]. rewrite bool_decide_true by done. by apply recycle_path.
Qed.

(** The frames there is room for are the first [4095 - length q]. *)
Lemma frame_list_path L frames : forall C q l i,
  path_is C q l i -> Z.of_nat (length l) + Z.of_nat (length frames) < 2 ^ 31 ->
  NoDup (pk_id <$> frames) ->
  let k := Z.to_nat (MAX_PHL_RING_ENTRY_NUM - 1 - Z.of_nat (length q)) in
  let i' := phl_handle_rx_frame_list L frames i in
  path_is C (q ++ take k frames) (l ++ (pk_id <$> drop k frames)) i' /\
  bufs_back i' = bufs_back i ++ omap (fun d => d_rxbuf i !! d) (pk_id <$> drop k frames).
Proof.
  unfold phl_handle_rx_frame_list. induction frames as [|pkt frames IH]; intros C q l i Hp Hl Hn.
  { cbn. rewrite take_nil, drop_nil, !app_nil_r. done. }
  cbn [foldl length fmap list_fmap] in *. apply NoDup_cons in Hn as [Hni Hn].
  pose proof (handle_frame_path L C q l i pkt Hp ltac:(lia)) as Hf.
  revert Hf. generalize (handle_rx_frame L i pkt) as j. intros j.
  unfold MAX_PHL_RING_ENTRY_NUM in *. destruct (_ <? _) eqn:E.
  - intros (Hj & Hb & Hd). destruct (IH C (q ++ [pkt]) l j Hj ltac:(lia) Hn) as [IH1 IH2].
    rewrite length_app in IH1, IH2. cbn [length] in IH1, IH2.
    replace (Z.to_nat (4096 - 1 - Z.of_nat (length q)))
      with (S (Z.to_nat (4096 - 1 - Z.of_nat (length q + 1)))) by lia.
    cbn [take drop]. rewrite <- app_assoc in IH1. rewrite Hb, Hd in IH2. done.
  - intros (Hj & Hb & Hd).
    destruct (IH C q (l ++ [pk_id pkt]) j Hj) as [IH1 IH2]; [rewrite length_app; cbn; lia|done|].
    replace (Z.to_nat (4096 - 1 - Z.of_nat (length q))) with O in * by lia.
    rewrite take_0, drop_0 in *. rewrite <- app_assoc in IH1. split; [done|].
    rewrite IH2, Hb, Hd, <- app_assoc. f_equal. cbn [fmap list_fmap].
    transitivity (option_list (d_rxbuf i !! pk_id pkt) ++ omap (fun d => d_rxbuf i !! d) (pk_id <$> frames)).
    + f_equal. apply list_omap_ext, Forall2_same_length_lookup_2; [done|].
      intros x a b Ha Hb'. assert (a = b) as <- by congruence. apply lookup_delete_ne.
      intros <-. apply Hni. by eapply list_elem_of_lookup_2.
    + cbn. by destruct (d_rxbuf i !! pk_id pkt).
Qed.

(** Handing a list of frames to the core driver appends to the ring the
    longest prefix that fits; the rest is dropped only when the ring is full,
    its descriptors return to the pool in order and its buffers to the bus
    layer. *)
Theorem frame_list_delivered L frames C q l i :
  path_is C q l i -> Z.of_nat (length l) + Z.of_nat (length frames) < 2 ^ 31 ->
  NoDup (pk_id <$> frames) ->
  exists sent dropped, frames = sent ++ dropped /\
    (dropped <> [] -> Z.of_nat (length (q ++ sent)) = MAX_PHL_RING_ENTRY_NUM - 1) /\
    path_is C (q ++ sent) (l ++ (pk_id <$> dropped)) (phl_handle_rx_frame_list L frames i) /\
    bufs_back (phl_handle_rx_frame_list L frames i) =
      bufs_back i ++ omap (fun d => d_rxbuf i !! d) (pk_id <$> dropped).
Proof.
  intros Hp Hl Hn. destruct (frame_list_path L frames C q l i Hp Hl Hn) as [H1 H2].
  eexists _, _. split; [symmetry; apply take_drop|]. split; [|split; [exact H1|exact H2]].
  pose proof (rh_room _ _ _ (pi_ring _ _ _ _ Hp)) as Hr. unfold MAX_PHL_RING_ENTRY_NUM.
  intros Hd. destruct (decide (Z.to_nat (4096 - 1 - Z.of_nat (length q)) < length frames)%nat) as [Hk|Hk].
  - rewrite length_app, length_take. lia.
  - contradict Hd. apply drop_ge. unfold MAX_PHL_RING_ENTRY_NUM. lia.
Qed.

(** ** Descriptors *)

(** The receive path with the packets the bus layer and the reordering hold
    ([w_held]) and those the core driver holds ([w_core]). *)
Record rx_world := mkWorld { w_info : rx_info; w_held : list rtw_phl_rx_pkt; w_core : list rtw_phl_rx_pkt }.

Inductive rx_step (L : lookups) : rx_world -> rx_world -> Prop :=
| rs_take i i' held core d pkt :
    rtw_phl_query_phl_rx i = (Some d, i') -> pk_id pkt = d ->
    rx_step L (mkWorld i held core) (mkWorld i' (pkt :: held) core)
| rs_frames i held core frames rest :
    held ≡ₚ frames ++ rest ->
    rx_step L (mkWorld i held core) (mkWorld (phl_handle_rx_frame_list L frames i) rest core)
| rs_drop i held core pkt rest :
    held ≡ₚ pkt :: rest ->
    rx_step L (mkWorld i held core) (mkWorld (phl_recycle_rx_buf (Some (pk_id pkt)) i) rest core)
| rs_indicate i held core :
    rx_step L (mkWorld i held core) (mkWorld (_phl_indic_new_rxpkt i) held core)
| rs_query i i' held core t pkt :
    rtw_phl_query_rx_pkt L t i = (Some pkt, i') ->
    rx_step L (mkWorld i held core) (mkWorld i' held (pkt :: core))
| rs_return i i' held core pkt rest st :
    core ≡ₚ pkt :: rest -> rtw_phl_return_rxbuf (Some (pk_id pkt)) i = (st, i') ->
    rx_step L (mkWorld i held core) (mkWorld i' held rest).

Definition world_ok (w : rx_world) : Prop :=
  exists C q l, path_is C q l (w_info w) /\
    l ++ (pk_id <$> w_held w) ++ (pk_id <$> q) ++ (pk_id <$> w_core w) ≡ₚ seq 0 MAX_PHL_RING_RX_PKT_NUM.

Lemma init_pool : exists p,
  foldl (fun p d => mkPool (idle p ++ [d]) (u32 (idle_cnt p + 1))) (mkPool [] 0) (seq 0 MAX_PHL_RING_RX_PKT_NUM) = p /\
  idle p = seq 0 MAX_PHL_RING_RX_PKT_NUM /\ idle_cnt p = Z.of_nat MAX_PHL_RING_RX_PKT_NUM.
Proof.
  assert (forall l p, 0 <= idle_cnt p -> idle_cnt p + Z.of_nat (length l) < 2 ^ 31 ->
    let p' := foldl (fun p d => mkPool (idle p ++ [d]) (u32 (idle_cnt p + 1))) p l in
    idle p' = idle p ++ l /\ idle_cnt p' = idle_cnt p + Z.of_nat (length l)) as H.
  { induction l as [|d l IH]; intros p Hp Hl; cbn [foldl length] in *.
    - rewrite app_nil_r. split; [done|]. cbn. lia.
    - assert (u32 (idle_cnt p + 1) = idle_cnt p + 1) as E by (unfold u32; lia).
      destruct (IH (mkPool (idle p ++ [d]) (u32 (idle_cnt p + 1)))) as [H1 H2]; cbn in *; [lia|lia|].
      rewrite H1, H2, E, <- app_assoc. split; [done|lia]. }
  eexists. split; [reflexivity|].
  destruct (H (seq 0 MAX_PHL_RING_RX_PKT_NUM) (mkPool [] 0)) as [H1 H2]; [done| |].
  - rewrite length_seq. unfold MAX_PHL_RING_RX_PKT_NUM. cbn [idle_cnt]. lia.
  - rewrite H1, H2, length_seq. split; [apply app_nil_l|apply Z.add_0_l].
Qed.

Lemma world_ids_small w C q l : path_is C q l (w_info w) ->
  l ++ (pk_id <$> w_held w) ++ (pk_id <$> q) ++ (pk_id <$> w_core w) ≡ₚ seq 0 MAX_PHL_RING_RX_PKT_NUM ->
  NoDup (pk_id <$> w_held w) /\
  Z.of_nat (length l) + Z.of_nat (length (w_held w)) + Z.of_nat (length (w_core w)) <= 8192.
Proof.
  intros Hp E. split.
  - pose proof (NoDup_seq 0 MAX_PHL_RING_RX_PKT_NUM) as Hn. rewrite <- E in Hn.
    by apply NoDup_app in Hn as (_ & _ & [Hn _]%NoDup_app).
  - apply Permutation_length in E. rewrite !length_app, !length_fmap, length_seq in E.
    unfold MAX_PHL_RING_RX_PKT_NUM in E. lia.
Qed.

Lemma rx_pkt_num : Z.of_nat MAX_PHL_RING_RX_PKT_NUM = 8192.
Proof. unfold MAX_PHL_RING_RX_PKT_NUM. lia. Qed.

Opaque MAX_PHL_RING_RX_PKT_NUM.

Lemma query_rx_pkt_path L t C q l i pkt i' :
  path_is C q l i -> rtw_phl_query_rx_pkt L t i = (Some pkt, i') ->
  exists q', q = pkt :: q' /\ path_is (C + 1) q' l i'.
Proof.
  intros [H1 H2 H3] E. unfold rtw_phl_query_rx_pkt in E. destruct q as [|p q].
  - rewrite (ring_query_empty _ _ _ H1) in E by done. done.
  - destruct (ring_query_ok _ _ _ H1 p q eq_refl) as (g & Eg & Hg). rewrite Eg in E.
    apply pair_equal_spec in E as [[= ->] <-]. exists q. split; [done|].
    eapply path_is_same; [apply statistics_same|]. by split.
Qed.

Lemma world_step_ok L w w' : world_ok w -> rx_step L w w' -> world_ok w'.
Proof.
  intros (C & q & l & Hp & E) Hs. destruct (world_ids_small w C q l Hp E) as [Hn Hsm].
  destruct Hs as [i i' held core d pkt Hq Hd|i held core frames rest Hh|i held core pkt rest Hh|i held core
    |i i' held core t pkt Hq|i i' held core pkt rest st Hh Hr]; cbn [w_info w_held w_core] in *.
  - unfold rtw_phl_query_phl_rx in Hq. rewrite (pi_pool _ _ _ _ Hp) in Hq. destruct l as [|d' l]; [done|].
    apply pair_equal_spec in Hq as [[= ->] <-]. exists C, q, l. split.
    + destruct Hp as [H1 H2 H3]. cbn [length] in H3. split; [done| |lia].
      cbn. unfold u32. repeat f_equal. lia.
    + cbn [fmap list_fmap w_held w_core]. rewrite Hd, <- E. cbn. solve_Permutation.
  - rewrite Hh, fmap_app in Hn. apply NoDup_app in Hn as [Hn _].
    assert (length held = (length frames + length rest)%nat) as Hl by (by rewrite Hh, length_app).
    destruct (frame_list_path L frames C q l i Hp ltac:(lia) Hn) as [H1 _].
    eexists C, _, _. split; [exact H1|]. cbn [w_held w_core]. rewrite <- E, Hh, !fmap_app.
    rewrite <- (take_drop (Z.to_nat (MAX_PHL_RING_ENTRY_NUM - 1 - Z.of_nat (length q))) frames) at 3.
    rewrite fmap_app. solve_Permutation.
  - assert (length held = S (length rest)) as Hl by (by rewrite Hh).
    destruct (recycle_path C q l i (pk_id pkt) Hp ltac:(lia)) as [H1 _].
    exists C, q, (l ++ [pk_id pkt]). split; [done|]. cbn [w_held w_core]. rewrite <- E, Hh. cbn. solve_Permutation.
  - exists C, q, l. split; [|done]. destruct Hp. by split.
  - destruct (query_rx_pkt_path L t C q l i pkt i' Hp Hq) as (q' & -> & Hp').
    exists (C + 1), q', l. split; [done|]. cbn [w_held w_core]. rewrite <- E. cbn. solve_Permutation.
  - assert (length core = S (length rest)) as Hl by (by rewrite Hh).
    apply pair_equal_spec in Hr as [_ <-].
    destruct (recycle_path C q l i (pk_id pkt) Hp ltac:(lia)) as [H1 _].
    exists C, q, (l ++ [pk_id pkt]). split; [done|]. cbn [w_held w_core]. rewrite <- E, Hh. cbn. solve_Permutation.
Qed.

Lemma rx_init_ok i0 : rx_ring i0 = ring0 -> world_ok (mkWorld (snd (phl_rx_init true i0)) [] []).
Proof.
  intros Hr. destruct init_pool as (p & Ep & Hp1 & Hp2). unfold phl_rx_init, phl_alloc_recv_pkt_pool.
  rewrite Ep, bool_decide_true by done. exists 0, [], (seq 0 MAX_PHL_RING_RX_PKT_NUM). split.
  - split; cbn [w_info snd rx_ring rx_pkt_pool set_rx_pkt_pool negb].
    + rewrite Hr. apply ring0_holds.
    + rewrite length_seq, <- Hp1, <- Hp2. by destruct p.
    + rewrite length_seq, rx_pkt_num. lia.
  - cbn [w_held w_core fmap list_fmap]. by rewrite !app_nil_r.
Qed.

(** C37: From initialisation on, with a core driver that returns only packets
    it holds, each of the 8192 packet descriptors is in exactly one of the
    pool, the hands of the receive path, the ring and the core driver; the
    pool counter is right, and the path reports idle exactly when all are
    back. *)
Theorem rx_descriptors_conserved L i0 w :
  rx_ring i0 = ring0 -> rtc (rx_step L) (mkWorld (snd (phl_rx_init true i0)) [] []) w ->
  exists C q l, path_is C q l (w_info w) /\
    l ++ (pk_id <$> w_held w) ++ (pk_id <$> q) ++ (pk_id <$> w_core w) ≡ₚ seq 0 MAX_PHL_RING_RX_PKT_NUM /\
    (rtw_phl_is_phl_rx_idle (w_info w) = true <-> w_held w = [] /\ q = [] /\ w_core w = []).
Proof.
  intros Hr Hs.
  assert (world_ok w) as (C & q & l & Hp & E).
  { revert w Hs. apply rtc_ind_r; [by apply rx_init_ok|].
    intros w w' _ Hs Hw. by eapply world_step_ok. }
  exists C, q, l. split; [done|]. split; [done|].
  unfold rtw_phl_is_phl_rx_idle. rewrite (pi_pool _ _ _ _ Hp). cbn [idle_cnt].
  apply Permutation_length in E. rewrite !length_app, !length_fmap, length_seq in E.
  rewrite Z.eqb_eq. split.
  - intros En. rewrite <- !length_zero_iff_nil. lia.
  - intros (Eh & -> & Ec). rewrite Eh, Ec in E. cbn in E. lia.
Qed.

Definition sample_lookups : lookups :=
  mkLookups (fun _ => true) (fun _ => Some 7) (fun _ => Some PHL_RTYPE_AP) (fun _ => Some 7) true true.
Definition sample_info : rx_info :=
  mkRx ring0 false 0 None ∅ ∅ [] {[ 7 := mkStaInfo stats0 false (Some PHL_RTYPE_AP) ]} stats0 [].
Definition sample_rx (d : nat) (pwr : bool) : rtw_phl_rx_pkt :=
  mkPkt d (mkMeta 0 0 false false true false false 0 false true 100 0 true RTW_FRAME_TYPE_DATA pwr 5) 100.

Lemma init_query i0 : exists i2, rtw_phl_query_phl_rx (snd (phl_rx_init true i0)) = (Some O, i2).
Proof.
  destruct init_pool as ([l n] & Ep & Hp1 & Hp2). unfold phl_rx_init, phl_alloc_recv_pkt_pool.
  rewrite Ep, bool_decide_true by done. cbn in Hp1.
  assert (exists l', l = O :: l') as [l' ->].
  { exists (seq 1 (Nat.pred MAX_PHL_RING_RX_PKT_NUM)). rewrite Hp1.
    assert (MAX_PHL_RING_RX_PKT_NUM = S (Nat.pred MAX_PHL_RING_RX_PKT_NUM)) as E by (pose proof rx_pkt_num; lia).
    rewrite E at 1. reflexivity. }
  eexists. reflexivity.
Qed.

(** One descriptor taken by the bus layer: the path is no longer idle. *)
Lemma rx_descriptors_conserved_witness :
  exists i2, rtw_phl_query_phl_rx (snd (phl_rx_init true sample_info)) = (Some O, i2) /\
    (rtw_phl_is_phl_rx_idle i2 = true -> False).
Proof.
  destruct (init_query sample_info) as [i2 E]. exists i2. split; [exact E|]. intros Hi.
  destruct (rx_descriptors_conserved sample_lookups sample_info (mkWorld i2 [sample_rx 0 false] []) eq_refl)
    as (C & q & l & _ & _ & H).
  - apply rtc_once. exact (rs_take sample_lookups _ i2 [] [] O (sample_rx 0 false) E eq_refl).
  - apply H in Hi as [Hi _]. discriminate Hi.
Defined.

Lemma sample_path : path_is 0 [] [] (set_rx_pkt_pool (Some (mkPool [] 0)) sample_info).
Proof. split; [exact ring0_holds|reflexivity|cbn; lia]. Qed.

Lemma frame_list_delivered_witness :
  let i := set_rx_pkt_pool (Some (mkPool [] 0)) sample_info in
  exists sent dropped, [sample_rx 3 true] = sent ++ dropped /\
    path_is 0 ([] ++ sent) ([] ++ (pk_id <$> dropped)) (phl_handle_rx_frame_list sample_lookups [sample_rx 3 true] i).
Proof.
  intros i. destruct (frame_list_delivered sample_lookups [sample_rx 3 true] 0 [] [] i sample_path
    ltac:(cbn; lia) (NoDup_singleton _)) as (sent & dropped & E & _ & H & _).
  exists sent, dropped. split; [exact E|exact H].
Defined.

(** ** Power save *)

Lemma lookup_alter_sta f s s' i : rx_stas (alter_sta f s i) !! s' = (if decide (s = s') then f <$> rx_stas i !! s' else rx_stas i !! s').
Proof. cbn. case_decide as E; [subst; apply lookup_alter_eq|by apply lookup_alter_ne]. Qed.

(** A complete data or control frame from a station of an access point
    sets the station's power-save state to the frame's power bit, reports the
    change exactly once and only when there is one, and touches no other
    station. *)
Theorem ps_follows_power_bit L pkt i s role x :
  let m := pk_meta pkt in
  ap_ps L = true -> resolve_sta L pkt i = (Some s, Some role) -> rx_stas i !! s = Some x ->
  m_more_frag m = false -> m_frame_type m = RTW_FRAME_TYPE_DATA \/ m_frame_type m = RTW_FRAME_TYPE_CTRL ->
  role = PHL_RTYPE_AP \/ role = PHL_RTYPE_P2P_GO ->
  let i' := phl_rx_handle_sta_process L pkt i in
  rx_stas i' !! s = Some (set_ps_sta (m_pwr_bit m) x) /\
  (forall s', s' <> s -> rx_stas i' !! s' = rx_stas i !! s') /\
  ps_changes i' = ps_changes i ++
    (if ps_hook L && negb (eqb (ps_sta x) (m_pwr_bit m)) then [(s, m_pwr_bit m)] else []).
Proof.
  intros m Hap Hres Hx Hmf Hft Hrole. unfold phl_rx_handle_sta_process. rewrite Hap, Hres. fold m.
  cbn [negb]. rewrite Hmf.
  replace ((m_frame_type m =? RTW_FRAME_TYPE_DATA) || (m_frame_type m =? RTW_FRAME_TYPE_CTRL)) with true
    by (destruct Hft as [-> | ->]; reflexivity).
  replace ((role =? PHL_RTYPE_AP) || (role =? PHL_RTYPE_P2P_GO)) with true
    by (destruct Hrole as [-> | ->]; reflexivity).
  cbn [negb andb]. cbn [rx_stas set_desc]. rewrite Hx.
  assert (forall b, ps_sta x = b -> set_ps_sta b x = x) as Hsame by (intros b <-; by destruct x).
  unfold phl_sta_ps_enter, phl_sta_ps_exit, ps_notify.
  destruct (ps_sta x) eqn:Ep, (m_pwr_bit m) eqn:Eb, (ps_hook L); cbn [negb andb eqb];
    rewrite ?app_nil_r; (split; [|split; [|done]]);
    try (rewrite Hsame by done; done); try done;
    first [intros s' Hs' | idtac]; cbn;
    first [by rewrite lookup_alter_eq, Hx | by rewrite lookup_alter_ne by done].
Qed.

Lemma ps_follows_power_bit_witness :
  let i' := phl_rx_handle_sta_process sample_lookups (sample_rx 3 true) sample_info in
  rx_stas i' !! 7 = Some (mkStaInfo stats0 true (Some PHL_RTYPE_AP)) /\ ps_changes i' = [(7, true)].
Proof.
  intros i'.
  destruct (ps_follows_power_bit sample_lookups (sample_rx 3 true) sample_info 7 PHL_RTYPE_AP
    (mkStaInfo stats0 false (Some PHL_RTYPE_AP)) eq_refl eq_refl eq_refl eq_refl
    (or_introl eq_refl) (or_introl eq_refl)) as (H1 & _ & H2).
  split; [exact H1|exact H2].
Defined.

(** ** Statistics *)

(** Counters in range, and the bits counted at the last computation are part
    of those counted now, unless there was none since the last reset. *)
Record stats_ok (s : rtw_stats) : Prop := {
  st_uni : 0 <= rx_byte_uni s;
  st_time : 0 <= last_calc_time_ms s < 2 ^ 32;
  st_bits : 0 <= last_calc_bits s;
  st_base : last_calc_time_ms s = 0 \/ last_calc_bits s <= 8 * rx_byte_uni s }.

Definition counts_uni (m : rtw_r_meta_data) : Z := if m_bc m || m_mc m then 0 else m_pktlen m.

Lemma u64_small x : 0 <= x < 2 ^ 64 -> u64 x = x.
Proof. apply Z.mod_small. Qed.
Lemma uni_bytes cur m s :
  0 <= rx_byte_uni s -> 0 <= m_pktlen m -> 8 * (rx_byte_uni s + m_pktlen m) < 2 ^ 64 ->
  (if negb (m_bc m) && negb (m_mc m) then u64 (rx_byte_uni s + m_pktlen m) else rx_byte_uni s) =
    rx_byte_uni s + counts_uni m /\
  rx_byte_uni (phl_update_rx_stats cur m s) = rx_byte_uni s + counts_uni m /\ 0 <= counts_uni m <= m_pktlen m.
Proof.
  intros Hu Hl Hm. unfold counts_uni, phl_update_rx_stats.
  destruct (m_bc m), (m_mc m); cbn [negb andb orb]; rewrite ?u64_small, ?Z.add_0_r by lia;
    repeat case_match; cbn [rx_byte_uni]; repeat split; lia.
Qed.

Lemma elapsed_ms cur last : 0 <= cur < 2 ^ 32 -> 0 <= last < 2 ^ 32 ->
  (if last <=? cur then u32 (cur - last) else u32 (RTW_U32_MAX - last + cur + 1)) = (cur - last) mod 2 ^ 32.
Proof.
  intros Hc Hl. unfold u32, RTW_U32_MAX. case_match; [done|].
  replace (0xFFFFFFFF - last + cur + 1) with (cur - last + 1 * 2 ^ 32) by lia. apply Z.mod_add. lia.
Qed.

(** While the byte counter is below the overflow of its bit count, the
    difference of bits never underflows, also after a reset and across a wrap
    of the millisecond clock, and the rate is the bits since the last
    computation divided by the elapsed time once more than a second passed. *)
Theorem rx_throughput cur m s :
  stats_ok s -> 0 <= cur < 2 ^ 32 -> 0 <= m_pktlen m -> 8 * (rx_byte_uni s + m_pktlen m) < 2 ^ 64 ->
  let s' := phl_update_rx_stats cur m s in
  let elapsed := (cur - last_calc_time_ms s) mod 2 ^ 32 in
  stats_ok s' /\ stats_ok (phl_reset_rx_stats s') /\
  rx_byte_uni s' = rx_byte_uni s + counts_uni m /\
  (last_calc_time_ms s = 0 \/ last_calc_bits s = 0 ->
     rx_tp_kbits s' = rx_tp_kbits s /\ last_calc_bits s' = 8 * rx_byte_uni s' /\ last_calc_time_ms s' = cur) /\
  (last_calc_time_ms s <> 0 -> last_calc_bits s <> 0 ->
     if RXTP_CALC_DIFF_MS <? elapsed
     then rx_tp_kbits s' = u32 ((8 * rx_byte_uni s' - last_calc_bits s) / elapsed) /\
          last_calc_bits s' = 8 * rx_byte_uni s' /\ last_calc_time_ms s' = cur
     else rx_tp_kbits s' = rx_tp_kbits s /\ last_calc_bits s' = last_calc_bits s /\
          last_calc_time_ms s' = last_calc_time_ms s).
Proof.
  intros [Hu Ht Hb Hbase] Hcur Hlen Hmax s' elapsed.
  destruct (uni_bytes cur m s Hu Hlen Hmax) as (Eu & Eu' & Hc). fold s' in Eu'. rewrite Eu'.
  assert (s' = phl_update_rx_stats cur m s) as Es by done. unfold phl_update_rx_stats in Es.
  rewrite Eu, elapsed_ms in Es by lia. fold elapsed in Es.
  set (uni := rx_byte_uni s + counts_uni m) in *.
  rewrite (u64_small (uni * 8)) in Es by lia. clearbody s' elapsed. clear Eu.
  destruct ((0 =? last_calc_time_ms s) || (0 =? last_calc_bits s)) eqn:E0.
  - rewrite Es in *. cbn [rx_byte_uni last_calc_bits last_calc_time_ms rx_tp_kbits].
    split; [split; cbn; lia|]. split; [split; cbn; lia|]. split; [done|].
    split; [intros _; repeat split; lia|lia].
  - assert (last_calc_bits s <= uni * 8) as Hle by lia.
    assert ((uni =? 0) = false) as E1 by lia. rewrite E1, andb_true_r in Es.
    rewrite (u64_small (uni * 8 - _)) in Es by lia. rewrite (Z.mul_comm 8 uni).
    destruct (RXTP_CALC_DIFF_MS <? elapsed); rewrite Es in *;
      cbn [rx_byte_uni last_calc_bits last_calc_time_ms rx_tp_kbits];
      (split; [split; cbn; lia|split; [split; cbn; lia|split; [done|split; [lia|intros _ _; repeat split; lia]]]]).
Qed.

(** The clock wraps between two computations: 2 s elapsed, 100 bytes more. *)
Lemma rx_throughput_witness :
  let s := mkStats 1000 1000 0 0 0 8000 (2 ^ 32 - 1000) 0 0 0 in
  let s' := phl_update_rx_stats 1000 (pk_meta (sample_rx 0 false)) s in
  rx_tp_kbits s' = u32 ((8 * rx_byte_uni s' - 8000) / 2000) /\ rx_byte_uni s' = 1100.
Proof.
  intros s s'. assert (stats_ok s) as Hs by (split; cbn; lia).
  destruct (rx_throughput 1000 (pk_meta (sample_rx 0 false)) s Hs ltac:(lia) ltac:(cbn; lia) ltac:(cbn; lia))
    as (_ & _ & H1 & _ & H2).
  split; [exact (proj1 (H2 ltac:(discriminate) ltac:(discriminate)))|exact H1].
Defined.

Lemma rx_lvl_mono j k : 0 <= j <= k -> rx_lvl j <= rx_lvl k.
Proof.
  intros H. unfold rx_lvl, RTW_TFC_HIGH, RTW_TFC_MID, RTW_TFC_LOW, RTW_TFC_ULTRA_LOW, RTW_TFC_IDLE.
  rewrite !Z.shiftr_div_pow2 by lia. change (2 ^ 10) with 1024. repeat case_match; lia.
Qed.

(** No flag is left when the level did not change. *)
Lemma no_traffic_flag sts b : 0 <= b < 3 ->
  let all := Z.lor (Z.lor TRAFFIC_CHANGED TRAFFIC_INCREASE) TRAFFIC_DECREASE in
  Z.testbit (if z_true (Z.land sts all) then Z.land sts (Z.lnot all) else sts) b = false.
Proof.
  intros Hb all. assert (Z.testbit all b = true) as Ha by (assert (b = 0 \/ b = 1 \/ b = 2) as [-> | [-> | ->]] by lia; reflexivity).
  destruct (z_true (Z.land sts all)) eqn:E.
  - rewrite Z.land_spec, Z.lnot_spec, Ha by lia. apply andb_false_r.
  - unfold z_true in E. apply negb_false_iff, Z.eqb_eq in E.
    assert (Z.testbit (Z.land sts all) b = false) as H by (rewrite E; apply Z.testbit_0_l).
    by rewrite Z.land_spec, Ha, andb_true_r in H.
Qed.

(** The watchdog sets the traffic level to the class of the current rate,
    monotone in the rate; a change is flagged with its direction and without a
    change no flag stays set. *)
Theorem rx_traffic_level s :
  let s' := phl_rx_traffic_upd s in
  tfc_lvl s' = rx_lvl (rx_tp_kbits s) /\
  (forall k, 0 <= k <= rx_tp_kbits s -> rx_lvl k <= rx_lvl (rx_tp_kbits s)) /\
  (tfc_lvl s < tfc_lvl s' -> tfc_sts s' = Z.lor TRAFFIC_CHANGED TRAFFIC_INCREASE) /\
  (tfc_lvl s' < tfc_lvl s -> tfc_sts s' = Z.lor TRAFFIC_CHANGED TRAFFIC_DECREASE) /\
  (tfc_lvl s' = tfc_lvl s -> forall b, 0 <= b < 3 -> Z.testbit (tfc_sts s') b = false) /\
  (rx_byte_uni s' = rx_byte_uni s /\ rx_tp_kbits s' = rx_tp_kbits s /\
   last_calc_bits s' = last_calc_bits s /\ last_calc_time_ms s' = last_calc_time_ms s).
Proof.
  unfold phl_rx_traffic_upd. pose proof (no_traffic_flag (tfc_sts s)) as Hf.
  split; [repeat case_match; cbn; lia|]. split; [intros k Hk; by apply rx_lvl_mono|].
  destruct (rx_lvl (rx_tp_kbits s) <? tfc_lvl s) eqn:E1; [cbn; repeat split; lia|].
  destruct (tfc_lvl s <? rx_lvl (rx_tp_kbits s)) eqn:E2; [cbn; repeat split; lia|].
  cbv zeta in Hf. destruct (z_true _); cbn [tfc_lvl tfc_sts set_traffic]; (split; [lia|split; [lia|]]);
    (split; [|by repeat split]); intros _ b Hb; by apply Hf.
Qed.
