(* ===== verification/TxRing.v ===== *)
(** * Transmit rings (src/phl/phl_tx.c)

    The core driver puts requests in a ring per station and traffic class; the
    transmit handler plans which rings to serve and hands their requests to the
    bus layer.  The bus layer is reached through a table of operations
    ([struct phl_hci_trx_ops]): here a class, of which [TxPcie] gives the
    instance for PCIe. *)

From stdpp Require Import gmap.
From S2P Require Import Prelude PhlQueue PhlDef RxReorder RxRing.

Definition MAX_PHL_RING_CAT_NUM : nat := 10.
Definition MAX_PHL_RING_STATUS_NUMBER : nat := 64.
Definition RTW_PHL_RING_CAT_MGNT : Z := 8.
Definition RTW_PHL_RING_CAT_HIQ : Z := 9.

(** ** Requests *)

(** [tq_ptr] is the address of the request, its identity; [pkt_lens] are the
    lengths of its buffers. *)
Record rtw_xmit_req := mkReq {
  tq_ptr : nat; md_macid : Z; md_band : Z; md_wmm : Z; md_hal_port : Z; md_tid : Z; md_dma_ch : Z;
  md_bmc : bool; treq_type : Z; pkt_lens : list Z; total_len : Z; tx_time : Z }.

(** What the handler writes before it hands the request on. *)
Definition set_route (macid band wmm port tid dma_ch : Z) (q : rtw_xmit_req) : rtw_xmit_req :=
  mkReq (tq_ptr q) macid band wmm port tid dma_ch (md_bmc q) (treq_type q) (pkt_lens q) (total_len q) (tx_time q).
Definition set_total_len (v : Z) (q : rtw_xmit_req) : rtw_xmit_req :=
  mkReq (tq_ptr q) (md_macid q) (md_band q) (md_wmm q) (md_hal_port q) (md_tid q) (md_dma_ch q) (md_bmc q)
    (treq_type q) (pkt_lens q) v (tx_time q).
Definition set_tx_time (v : Z) (q : rtw_xmit_req) : rtw_xmit_req :=
  mkReq (tq_ptr q) (md_macid q) (md_band q) (md_wmm q) (md_hal_port q) (md_tid q) (md_dma_ch q) (md_bmc q)
    (treq_type q) (pkt_lens q) (total_len q) v.

(** The bus layer as the handler sees it: [prepare_tx] takes a request or
    refuses it, and may write to it; [hci_reqs] are the requests it holds;
    [hci_step] is what it does on its own, with the requests it gives back;
    [hci_inv] is what its state satisfies. *)
Class HciTx (H : Type) := {
  prepare_tx : rtw_xmit_req -> H -> (rtw_phl_status * rtw_xmit_req) * H;
  hci_reqs : H -> list nat;
  hci_step : H -> list nat -> H -> Prop;
  hci_inv : H -> Prop }.

(** What the transmit path relies on: a request is held from the moment it is
    taken until it is given back, and keeps its identity. *)
Class HciTxOk (H : Type) `{HciTx H} : Prop := {
  prepare_tx_spec : forall q h, let '((sts, q'), h') := prepare_tx q h in
    tq_ptr q' = tq_ptr q /\
    hci_reqs h' ≡ₚ (if bool_decide (sts = RTW_PHL_STATUS_SUCCESS) then [tq_ptr q] else []) ++ hci_reqs h;
  prepare_tx_inv : forall q h, hci_inv h -> hci_inv (snd (prepare_tx q h));
  hci_step_spec : forall h back h', hci_step h back h' -> hci_inv h -> hci_reqs h ≡ₚ back ++ hci_reqs h';
  hci_step_inv : forall h back h', hci_step h back h' -> hci_inv h -> hci_inv h' }.

(** ** Rings *)

(** [tx_core_idx] is the last entry written by the core driver, [tx_phl_idx]
    the last one handed on, [phl_next_idx] the next to be handed on. *)
Record rtw_phl_tx_ring := mkTxRing {
  tr_tid : Z; tr_dma_ch : Z; tx_core_idx : Z; tx_phl_idx : Z; phl_next_idx : Z;
  tx_entry : gmap Z rtw_xmit_req }.

Definition set_core_idx v r := mkTxRing (tr_tid r) (tr_dma_ch r) v (tx_phl_idx r) (phl_next_idx r) (tx_entry r).
Definition set_phl_idx v r := mkTxRing (tr_tid r) (tr_dma_ch r) (tx_core_idx r) v (phl_next_idx r) (tx_entry r).
Definition set_next_idx v r := mkTxRing (tr_tid r) (tr_dma_ch r) (tx_core_idx r) (tx_phl_idx r) v (tx_entry r).
Definition set_tx_entry i q r :=
  mkTxRing (tr_tid r) (tr_dma_ch r) (tx_core_idx r) (tx_phl_idx r) (phl_next_idx r) (<[i := q]> (tx_entry r)).

(** A pointer to a ring: the ring list it is in, and its class. *)
Definition ring_ptr : Type := nat * nat.

(** [rs_id] is the index in the pool. *)
Record phl_ring_status := mkSts {
  rs_id : nat; rs_macid : Z; rs_band : Z; rs_wmm : Z; rs_port : Z; req_busy : Z; rs_tid : Z; rs_ptr : ring_ptr }.
Definition set_req_busy v s := mkSts (rs_id s) (rs_macid s) (rs_band s) (rs_wmm s) (rs_port s) v (rs_tid s) (rs_ptr s).

Record phl_tx_plan := mkPlan {
  plan_sleep : bool; has_mgnt : bool; has_hiq : bool; sorted_ring : list phl_ring_status }.

(** [tl_id] is the address. *)
Record rtw_phl_tring_list := mkTring {
  tl_id : nat; tl_macid : Z; tl_band : Z; tl_wmm : Z; tl_port : Z;
  phl_ring : list rtw_phl_tx_ring; tx_plan : phl_tx_plan }.
Definition set_phl_ring v t := mkTring (tl_id t) (tl_macid t) (tl_band t) (tl_wmm t) (tl_port t) v (tx_plan t).
Definition set_tx_plan v t := mkTring (tl_id t) (tl_macid t) (tl_band t) (tl_wmm t) (tl_port t) (phl_ring t) v.

(** ** Statistics *)

(** The transmit fields of [struct rtw_stats]. *)
Record tx_stats := mkTxStats {
  tx_byte_uni : Z; tx_byte_total : Z; tx_tp_kbits : Z; last_tx_time_ms : Z; txreq_num : Z;
  last_calc_time_ms : Z; last_calc_bits : Z; tx_lvl : Z; tx_sts : Z }.
Definition tx_stats0 : tx_stats := mkTxStats 0 0 0 0 0 0 0 0 0.

Definition phl_reset_tx_stats (s : tx_stats) : tx_stats :=
  mkTxStats 0 0 0 0 (txreq_num s) 0 (last_calc_bits s) 0 0.

Definition TXTP_CALC_DIFF_MS : Z := 1000.

Definition phl_update_tx_stats (cur_time : Z) (q : rtw_xmit_req) (s : tx_stats) : tx_stats :=
  let total := u64 (tx_byte_total s + total_len q) in
  let num := u32 (txreq_num s + 1) in
  let uni := if md_bmc q then tx_byte_uni s else u64 (tx_byte_uni s + total_len q) in
  let s := mkTxStats uni total (tx_tp_kbits s) cur_time num (last_calc_time_ms s) (last_calc_bits s)
             (tx_lvl s) (tx_sts s) in
  if (last_calc_time_ms s =? 0) || (last_calc_bits s =? 0)
  then mkTxStats uni total (tx_tp_kbits s) cur_time num cur_time (u64 (uni * 8)) (tx_lvl s) (tx_sts s)
  else
    let diff_t := if last_calc_time_ms s <=? cur_time then u32 (cur_time - last_calc_time_ms s)
                  else u32 (2 ^ 32 - 1 - last_calc_time_ms s + cur_time + 1) in
    if (TXTP_CALC_DIFF_MS <? diff_t) && negb (uni =? 0)
    then mkTxStats uni total (u32 (u64 (u64 (uni * 8) - last_calc_bits s) / diff_t)) cur_time num
           cur_time (u64 (uni * 8)) (tx_lvl s) (tx_sts s)
    else s.

(** ** Channels *)

Definition MGQ_B0_QUEUE_IDX_8852BE : Z := 8.
Definition HIQ_B0_QUEUE_IDX_8852BE : Z := 9.

(** Which channel serves a class of traffic. *)
Definition hal_mapping_hw_tx_chnl_8852be (macid cat band : Z) : Z :=
  if 0 =? band then
    if (cat =? 0) || (cat =? 3) then 0
    else if (cat =? 1) || (cat =? 2) then 1
    else if (cat =? 4) || (cat =? 5) then 2
    else if (cat =? 6) || (cat =? 7) then 3
    else if cat =? RTW_PHL_RING_CAT_MGNT then MGQ_B0_QUEUE_IDX_8852BE
    else if cat =? RTW_PHL_RING_CAT_HIQ then HIQ_B0_QUEUE_IDX_8852BE
    else 0
  else 0.

(** ** The state *)

Section tx_ring.
Context {H : Type} `{HciTx H}.

(** [sta_stats] has the stations with a valid identifier; [tx_recycled] the
    requests given back to the core driver when rings are freed; [tl_fresh] the
    next address; [tx_ub] is set when a freed ring list is used. *)
Record tx_info := mkTx {
  t_ring_list : list rtw_phl_tring_list; t_ring_free_list : list rtw_phl_tring_list;
  ring_sts_idle : list nat; t_fctrl_result : list phl_ring_status; phl_sw_tx_more : bool;
  dev_stats : tx_stats; sta_stats : gmap Z tx_stats;
  tx_recycled : list nat; tl_fresh : nat; tx_ub : bool; t_hci : H }.

Definition set_t_ring_list v i := mkTx v (t_ring_free_list i) (ring_sts_idle i) (t_fctrl_result i) (phl_sw_tx_more i) (dev_stats i) (sta_stats i) (tx_recycled i) (tl_fresh i) (tx_ub i) (t_hci i).
Definition set_t_ring_free_list v i := mkTx (t_ring_list i) v (ring_sts_idle i) (t_fctrl_result i) (phl_sw_tx_more i) (dev_stats i) (sta_stats i) (tx_recycled i) (tl_fresh i) (tx_ub i) (t_hci i).
Definition set_ring_sts_idle v i := mkTx (t_ring_list i) (t_ring_free_list i) v (t_fctrl_result i) (phl_sw_tx_more i) (dev_stats i) (sta_stats i) (tx_recycled i) (tl_fresh i) (tx_ub i) (t_hci i).
Definition set_t_fctrl_result v i := mkTx (t_ring_list i) (t_ring_free_list i) (ring_sts_idle i) v (phl_sw_tx_more i) (dev_stats i) (sta_stats i) (tx_recycled i) (tl_fresh i) (tx_ub i) (t_hci i).
Definition set_phl_sw_tx_more v i := mkTx (t_ring_list i) (t_ring_free_list i) (ring_sts_idle i) (t_fctrl_result i) v (dev_stats i) (sta_stats i) (tx_recycled i) (tl_fresh i) (tx_ub i) (t_hci i).
Definition set_stats d s i := mkTx (t_ring_list i) (t_ring_free_list i) (ring_sts_idle i) (t_fctrl_result i) (phl_sw_tx_more i) d s (tx_recycled i) (tl_fresh i) (tx_ub i) (t_hci i).
Definition set_tx_recycled v i := mkTx (t_ring_list i) (t_ring_free_list i) (ring_sts_idle i) (t_fctrl_result i) (phl_sw_tx_more i) (dev_stats i) (sta_stats i) v (tl_fresh i) (tx_ub i) (t_hci i).
Definition set_tl_fresh v i := mkTx (t_ring_list i) (t_ring_free_list i) (ring_sts_idle i) (t_fctrl_result i) (phl_sw_tx_more i) (dev_stats i) (sta_stats i) (tx_recycled i) v (tx_ub i) (t_hci i).
Definition set_tx_ub v i := mkTx (t_ring_list i) (t_ring_free_list i) (ring_sts_idle i) (t_fctrl_result i) (phl_sw_tx_more i) (dev_stats i) (sta_stats i) (tx_recycled i) (tl_fresh i) v (t_hci i).
Definition set_t_hci v i := mkTx (t_ring_list i) (t_ring_free_list i) (ring_sts_idle i) (t_fctrl_result i) (phl_sw_tx_more i) (dev_stats i) (sta_stats i) (tx_recycled i) (tl_fresh i) (tx_ub i) v.

(** Access through a pointer to a ring list, registered or waiting to be
    freed. *)
Definition trings (i : tx_info) : list rtw_phl_tring_list := t_ring_list i ++ t_ring_free_list i.
Definition get_tring (t : nat) (i : tx_info) : option rtw_phl_tring_list :=
  List.find (fun x => Nat.eqb (tl_id x) t) (trings i).
Definition upd_in (t : nat) (f : rtw_phl_tring_list -> rtw_phl_tring_list) (x : rtw_phl_tring_list) :=
  if Nat.eqb (tl_id x) t then f x else x.
Definition upd_tring (t : nat) (f : rtw_phl_tring_list -> rtw_phl_tring_list) (i : tx_info) : tx_info :=
  set_t_ring_free_list (upd_in t f <$> t_ring_free_list i)
    (set_t_ring_list (upd_in t f <$> t_ring_list i) i).

Definition get_ring (p : ring_ptr) (i : tx_info) : option rtw_phl_tx_ring :=
  t ← get_tring (fst p) i; phl_ring t !! snd p.
Definition upd_ring (p : ring_ptr) (f : rtw_phl_tx_ring -> rtw_phl_tx_ring) (i : tx_info) : tx_info :=
  upd_tring (fst p) (fun t => set_phl_ring (alter f (snd p) (phl_ring t)) t) i.

(** ** Registration *)

Definition _phl_init_tx_plan : phl_tx_plan := mkPlan false false false [].

(** The memory is zeroed. *)
Definition tx_ring0 (tid dma_ch : Z) : rtw_phl_tx_ring := mkTxRing tid dma_ch 0 0 0 ∅.

Definition _phl_allocate_phl_tring_list (id : nat) (macid hw_band hw_wmm hw_port : Z) : rtw_phl_tring_list :=
  mkTring id macid hw_band hw_wmm hw_port
    ((fun k => tx_ring0 (Z.of_nat k) (hal_mapping_hw_tx_chnl_8852be macid (Z.of_nat k) hw_band))
       <$> seq 0 MAX_PHL_RING_CAT_NUM)
    _phl_init_tx_plan.

(** [ok]: the allocation succeeded. *)
Definition phl_register_tx_ring (ok : bool) (macid hw_band hw_wmm hw_port : Z) (i : tx_info) :
    rtw_phl_status * tx_info :=
  if ok then
    let t := _phl_allocate_phl_tring_list (tl_fresh i) macid hw_band hw_wmm hw_port in
    (RTW_PHL_STATUS_SUCCESS, set_tl_fresh (S (tl_fresh i)) (set_t_ring_list (t_ring_list i ++ [t]) i))
  else (RTW_PHL_STATUS_FAILURE, i).

(** The first ring list of [macid], and the others. *)
Fixpoint take_macid (macid : Z) (l : list rtw_phl_tring_list) :
    option rtw_phl_tring_list * list rtw_phl_tring_list :=
  match l with
  | [] => (None, [])
  | t :: l =>
      if macid =? tl_macid t then (Some t, l)
      else let '(o, l) := take_macid macid l in (o, t :: l)
  end.

Definition phl_deregister_tx_ring (macid : Z) (i : tx_info) : rtw_phl_status * tx_info :=
  match take_macid macid (t_ring_list i) with
  | (Some t, l) =>
      (RTW_PHL_STATUS_SUCCESS, set_t_ring_free_list (t_ring_free_list i ++ [t]) (set_t_ring_list l i))
  | (None, _) => (RTW_PHL_STATUS_FAILURE, i)
  end.

(** The requests left in a ring are given back. *)
Fixpoint free_ring_loop (fuel : nat) (core rptr : Z) (e : gmap Z rtw_xmit_req) : list nat :=
  match fuel with
  | O => []
  | S fuel =>
      if rptr =? core then []
      else
        let rptr := next_ptr rptr in
        match e !! rptr with
        | None => []
        | Some q => tq_ptr q :: free_ring_loop fuel core rptr e
        end
  end.

Definition free_ring (r : rtw_phl_tx_ring) : list nat :=
  free_ring_loop (Z.to_nat MAX_PHL_RING_ENTRY_NUM) (tx_core_idx r) (u16 (tx_phl_idx r)) (tx_entry r).

Definition _phl_free_phl_tring_list (t : rtw_phl_tring_list) : list nat := concat (free_ring <$> phl_ring t).

Definition phl_free_deferred_tx_ring (i : tx_info) : tx_info :=
  set_t_ring_free_list []
    (set_tx_recycled (tx_recycled i ++ concat (_phl_free_phl_tring_list <$> t_ring_free_list i)) i).

(** ** Requests of the core driver *)

Definition phl_tx_statistics (cur_time : Z) (q : rtw_xmit_req) (i : tx_info) : tx_info :=
  set_stats (phl_update_tx_stats cur_time q (dev_stats i))
    (alter (phl_update_tx_stats cur_time q) (md_macid q) (sta_stats i)) i.

Definition find_macid (macid : Z) (i : tx_info) : option rtw_phl_tring_list :=
  List.find (fun t => macid =? tl_macid t) (t_ring_list i).

Definition rtw_phl_add_tx_req (cur_time : Z) (q : rtw_xmit_req) (i : tx_info) : rtw_phl_status * tx_info :=
  match find_macid (md_macid q) i with
  | None => (RTW_PHL_STATUS_FAILURE, i)
  | Some t =>
      let p := (tl_id t, Z.to_nat (md_tid q)) in
      match phl_ring t !! snd p with
      | None => (RTW_PHL_STATUS_FAILURE, set_tx_ub true i)
      | Some ring =>
          let rptr := u16 (tx_phl_idx ring) in
          let ring_res := phl_calc_avail_wptr rptr (tx_core_idx ring) MAX_PHL_RING_ENTRY_NUM in
          if 0 <? ring_res then
            let core := (tx_core_idx ring + 1) mod MAX_PHL_RING_ENTRY_NUM in
            let i := upd_ring p (fun r => set_tx_entry core q (set_core_idx core r)) i in
            (RTW_PHL_STATUS_SUCCESS, set_phl_sw_tx_more true (phl_tx_statistics cur_time q i))
          else (RTW_PHL_STATUS_RESOURCE, i)
      end
  end.

(** How many requests wait in a ring. *)
Definition rtw_phl_tring_rsc (macid tid : Z) (i : tx_info) : Z :=
  match find_macid macid i with
  | None => 0
  | Some t =>
      match phl_ring t !! Z.to_nat tid with
      | None => 0
      | Some ring => phl_calc_avail_rptr (u16 (tx_phl_idx ring)) (tx_core_idx ring) MAX_PHL_RING_ENTRY_NUM
      end
  end.

(** ** Planning *)

Definition phl_alloc_ring_sts (idle : list nat) : option nat * list nat :=
  match idle with [] => (None, []) | s :: idle => (Some s, idle) end.

Definition phl_release_ring_sts (s : phl_ring_status) (i : tx_info) : tx_info :=
  set_ring_sts_idle (ring_sts_idle i ++ [rs_id s]) i.

(** The status of the ring [k] of [t], if requests wait in it. *)
Definition _phl_check_ring_status (t : rtw_phl_tring_list) (k : nat) (ring : rtw_phl_tx_ring) (idle : list nat) :
    option phl_ring_status * rtw_phl_tx_ring * list nat :=
  let rptr := u16 (tx_phl_idx ring) in
  let avail := phl_calc_avail_rptr rptr (tx_core_idx ring) MAX_PHL_RING_ENTRY_NUM in
  if 0 =? avail then (None, ring, idle)
  else
    match phl_alloc_ring_sts idle with
    | (None, idle) => (None, ring, idle)
    | (Some s, idle) =>
        let rptr := u16 (rptr + 1) in
        (Some (mkSts s (tl_macid t) (tl_band t) (tl_wmm t) (tl_port t) avail (tr_tid ring) (tl_id t, k)),
         set_next_idx (if MAX_PHL_RING_ENTRY_NUM <=? rptr then 0 else rptr) ring, idle)
    end.

Definition _phl_sort_ring_by_tid (s : phl_ring_status) (plan : phl_tx_plan) (cat : Z) : phl_tx_plan :=
  let put l := mkPlan (plan_sleep plan) (has_mgnt plan) (has_hiq plan) l in
  if rs_tid s =? 1 then put (sorted_ring plan ++ [s])
  else if rs_tid s =? 2 then
    match last (sorted_ring plan) with
    | None => put (sorted_ring plan ++ [s])
    | Some l => if 1 =? rs_tid l then put (removelast (sorted_ring plan) ++ [s; l])
                else put (sorted_ring plan ++ [s])
    end
  else if RTW_PHL_RING_CAT_MGNT =? cat
  then mkPlan (plan_sleep plan) true (has_hiq plan) (s :: sorted_ring plan)
  else if RTW_PHL_RING_CAT_HIQ =? cat
  then mkPlan (plan_sleep plan) (has_mgnt plan) true (s :: sorted_ring plan)
  else put (s :: sorted_ring plan).

Fixpoint check_rings (ks : list nat) (t : rtw_phl_tring_list) (idle : list nat) :
    rtw_phl_tring_list * list nat :=
  match ks with
  | [] => (t, idle)
  | k :: ks =>
      match phl_ring t !! k with
      | None => check_rings ks t idle
      | Some ring =>
          let '(s, ring, idle) := _phl_check_ring_status t k ring idle in
          let t := set_phl_ring (<[k := ring]> (phl_ring t)) t in
          check_rings ks
            (match s with
             | Some s => set_tx_plan (_phl_sort_ring_by_tid s (tx_plan t) (Z.of_nat k)) t
             | None => t
             end) idle
      end
  end.

(** [sta_list] links plans: here the ring lists they are part of. *)
Definition _phl_check_tring_list (t : rtw_phl_tring_list) (idle sta_list : list nat) :
    rtw_phl_tring_list * list nat * list nat :=
  let '(t, idle) := check_rings (seq 0 MAX_PHL_RING_CAT_NUM) t idle in
  (t, idle, match sorted_ring (tx_plan t) with [] => sta_list | _ => sta_list ++ [tl_id t] end).

Fixpoint check_trings (l : list rtw_phl_tring_list) (idle sta_list : list nat) :
    list rtw_phl_tring_list * list nat * list nat :=
  match l with
  | [] => ([], idle, sta_list)
  | t :: l =>
      let '(t, idle, sta_list) := _phl_check_tring_list t idle sta_list in
      let '(l, idle, sta_list) := check_trings l idle sta_list in
      (t :: l, idle, sta_list)
  end.

Definition phl_check_xmit_ring_resource (i : tx_info) : bool * list nat * tx_info :=
  let '(l, idle, sta_list) := check_trings (t_ring_list i) (ring_sts_idle i) [] in
  (negb (bool_decide (sta_list = [])), sta_list,
   set_phl_sw_tx_more false (set_ring_sts_idle idle (set_t_ring_list l i))).

Definition _phl_reset_tx_plan (t : nat) (i : tx_info) : tx_info :=
  match get_tring t i with
  | None => set_tx_ub true i
  | Some x =>
      upd_tring t (set_tx_plan _phl_init_tx_plan)
        (set_ring_sts_idle (ring_sts_idle i ++ (rs_id <$> sorted_ring (tx_plan x))) i)
  end.

(** [__list_add] behind the status [id]. *)
Fixpoint insert_after (id : nat) (s : phl_ring_status) (l : list phl_ring_status) : list phl_ring_status :=
  match l with
  | [] => []
  | x :: l => if Nat.eqb (rs_id x) id then x :: s :: l else x :: insert_after id s l
  end.

(** [tid_entry] has the last status of each class put in the result. *)
Fixpoint fctrl_rings (l : list phl_ring_status) (tid_entry : list (option nat)) (result : list phl_ring_status) :
    list (option nat) * list phl_ring_status :=
  match l with
  | [] => (tid_entry, result)
  | s :: l =>
      let tid := Z.to_nat (rs_tid s) in
      let result := match tid_entry !! tid with
                    | Some (Some id) => insert_after id s result
                    | _ => result ++ [s]
                    end in
      fctrl_rings l (<[tid := Some (rs_id s)]> tid_entry) result
  end.

(** [list_first_entry], [list_del] and [list_add] to the result. *)
Definition fctrl_first (has : bool) (l result : list phl_ring_status) :
    bool * list phl_ring_status * list phl_ring_status :=
  if has then match l with s :: l => (false, l, s :: result) | [] => (true, [], result) end
  else (false, l, result).

Definition fctrl_plan (t : nat) (e : list (option nat)) (i : tx_info) : list (option nat) * tx_info :=
  match get_tring t i with
  | None => (e, set_tx_ub true i)
  | Some x =>
      let plan := tx_plan x in
      if plan_sleep plan then (e, _phl_reset_tx_plan t i)
      else
        let '(ub1, l, result) := fctrl_first (has_hiq plan) (sorted_ring plan) (t_fctrl_result i) in
        let '(ub2, l, result) := fctrl_first (has_mgnt plan) l result in
        let '(e, result) := fctrl_rings l e result in
        (e, upd_tring t (set_tx_plan _phl_init_tx_plan)
              (set_tx_ub (tx_ub i || ub1 || ub2) (set_t_fctrl_result result i)))
  end.

Fixpoint fctrl_plans (sta_list : list nat) (e : list (option nat)) (i : tx_info) : tx_info :=
  match sta_list with
  | [] => i
  | t :: sta_list => let '(e, i) := fctrl_plan t e i in fctrl_plans sta_list e i
  end.

Definition phl_tx_flow_ctrl (sta_list : list nat) (i : tx_info) : tx_info :=
  fctrl_plans sta_list (replicate MAX_PHL_RING_CAT_NUM None) i.

(** ** Handing requests on *)

(** One round of the loop of [_phl_handle_xmit_ring_pcie]; [false] when the
    loop is left. *)
Definition handle_one (s : phl_ring_status) (i : tx_info) : bool * phl_ring_status * tx_info :=
  match get_ring (rs_ptr s) i with
  | None => (false, s, set_tx_ub true i)
  | Some tring =>
      let rptr := u16 (phl_next_idx tring) in
      match tx_entry tring !! rptr with
      | None => (false, s, i)
      | Some q =>
          let q := set_route (rs_macid s) (rs_band s) (rs_wmm s) (rs_port s) (tr_tid tring) (tr_dma_ch tring) q in
          let '((sts, q), h) := prepare_tx q (t_hci i) in
          let i := upd_ring (rs_ptr s) (set_tx_entry rptr q) (set_t_hci h i) in
          if bool_decide (sts = RTW_PHL_STATUS_SUCCESS) then
            let s := set_req_busy (u16 (req_busy s - 1)) s in
            let i := upd_ring (rs_ptr s) (set_phl_idx rptr) i in
            (true, s,
             if 0 =? req_busy s then i
             else upd_ring (rs_ptr s) (fun r =>
                    set_next_idx (if MAX_PHL_RING_ENTRY_NUM <=? u16 (rptr + 1) then 0 else phl_next_idx r + 1) r) i)
          else (false, s, i)
      end
  end.

Fixpoint handle_loop (fuel : nat) (s : phl_ring_status) (i : tx_info) : tx_info :=
  match fuel with
  | O => i
  | S fuel =>
      if 0 =? req_busy s then i
      else let '(go, s, i) := handle_one s i in if go then handle_loop fuel s i else i
  end.

Definition _phl_handle_xmit_ring_pcie (s : phl_ring_status) (i : tx_info) : tx_info :=
  handle_loop (Z.to_nat (req_busy s)) s i.

(** The loop of the transmit handler over the result of flow control. *)
Fixpoint serve_rings (l : list phl_ring_status) (i : tx_info) : tx_info :=
  match l with
  | [] => i
  | s :: l =>
      let i := set_t_fctrl_result l i in
      serve_rings l (phl_release_ring_sts s (_phl_handle_xmit_ring_pcie s i))
  end.

(** The handler's part before it serves the rings; [false] when there is
    nothing to serve. *)
Definition plan_tx (i : tx_info) : bool * tx_info :=
  let '(some, sta_list, i) := phl_check_xmit_ring_resource i in
  if some then (true, phl_tx_flow_ctrl sta_list i) else (false, i).

Definition serve_tx (i : tx_info) : tx_info :=
  let '(some, i) := plan_tx i in
  if some then serve_rings (t_fctrl_result i) i else i.

(** [phl_datapath_init] as far as it concerns the rings. *)
Definition tx_info0 (h : H) (stas : gmap Z tx_stats) : tx_info :=
  mkTx [] [] (seq 0 MAX_PHL_RING_STATUS_NUMBER) [] false tx_stats0 stas [] 0 false h.
End tx_ring.
Arguments tx_info : clear implicits.
