(* ===== verification/TxRingInv.v ===== *)
(** * The content of transmit rings

    What a ring holds as a list, how the operations change it, and the plan of
    a turn of the handler in closed form. *)

From stdpp Require Import gmap.
From S2P Require Import Prelude PhlQueue PhlDef RxReorder RxRing TxRing.

Notation N4 := 4096.

(** ** One ring *)

(** The [n] requests behind entry [p]. *)
Definition slot_of (p : Z) (k : nat) : Z := (p + 1 + Z.of_nat k) mod N4.

Definition waiting (r : rtw_phl_tx_ring) : list nat :=
  omap (fun k => tq_ptr <$> tx_entry r !! slot_of (tx_phl_idx r) k)
    (seq 0 (Z.to_nat ((tx_core_idx r - tx_phl_idx r) mod N4))).

(** Ring [r] holds the requests [ws]. *)
Record ring_has (r : rtw_phl_tx_ring) (ws : list nat) : Prop := {
  rh_phl : 0 <= tx_phl_idx r < N4;
  rh_core : tx_core_idx r = (tx_phl_idx r + Z.of_nat (length ws)) mod N4;
  rh_len : Z.of_nat (length ws) < N4;
  rh_entry : forall k w, ws !! k = Some w ->
    tq_ptr <$> tx_entry r !! slot_of (tx_phl_idx r) k = Some w }.

Definition ring_ok (r : rtw_phl_tx_ring) : Prop := ring_has r (waiting r).

Lemma omap_seq_lookup {A} (f : nat -> option A) (l : list A) b :
  (forall k x, l !! k = Some x -> f (b + k)%nat = Some x) -> omap f (seq b (length l)) = l.
Proof.
  revert b. induction l as [|x l IH]; intros b Hf; [done|]. cbn.
  rewrite <- (Nat.add_0_r b) at 1. rewrite (Hf 0%nat x eq_refl). f_equal. apply IH.
  intros k y Hk. replace (S b + k)%nat with (b + S k)%nat by lia. by apply Hf.
Qed.

Lemma ring_has_len r ws : ring_has r ws -> (tx_core_idx r - tx_phl_idx r) mod N4 = Z.of_nat (length ws).
Proof.
  intros [Hp Hc Hl _]. rewrite Hc, Zminus_mod_idemp_l. rewrite Z.add_simpl_l. apply Z.mod_small. lia.
Qed.

Lemma ring_has_waiting r ws : ring_has r ws -> waiting r = ws.
Proof.
  intros Hr. unfold waiting. rewrite (ring_has_len _ _ Hr), Nat2Z.id. apply omap_seq_lookup.
  intros k w Hk. by apply Hr.
Qed.

Lemma ring_has_ok r ws : ring_has r ws -> ring_ok r.
Proof. intros Hr. unfold ring_ok. by rewrite (ring_has_waiting _ _ Hr). Qed.

Lemma slot_of_inj p a b :
  slot_of p a = slot_of p b -> Z.of_nat a < N4 -> Z.of_nat b < N4 -> a = b.
Proof. unfold slot_of. intros E Ha Hb. assert (Z.of_nat a = Z.of_nat b) by (revert E; lia). lia. Qed.

Lemma ring0_has tid ch : ring_has (tx_ring0 tid ch) [].
Proof. split; cbn; [lia|done|lia|by intros]. Qed.

Lemma avail_rptr r ws : ring_has r ws ->
  phl_calc_avail_rptr (u16 (tx_phl_idx r)) (tx_core_idx r) MAX_PHL_RING_ENTRY_NUM = Z.of_nat (length ws).
Proof.
  intros Hr. pose proof (ring_has_len _ _ Hr) as E. destruct Hr as [Hp Hc Hl _].
  unfold phl_calc_avail_rptr, u16, MAX_PHL_RING_ENTRY_NUM. rewrite (Z.mod_small (tx_phl_idx r)) by lia.
  destruct (Z.leb_spec (tx_phl_idx r) (tx_core_idx r)), (Z.ltb_spec (tx_core_idx r) (tx_phl_idx r)); lia.
Qed.

Lemma avail_wptr r ws : ring_has r ws ->
  phl_calc_avail_wptr (u16 (tx_phl_idx r)) (tx_core_idx r) MAX_PHL_RING_ENTRY_NUM = N4 - 1 - Z.of_nat (length ws).
Proof.
  intros Hr. pose proof (ring_has_len _ _ Hr) as E. destruct Hr as [Hp Hc Hl _].
  unfold phl_calc_avail_wptr, u16, MAX_PHL_RING_ENTRY_NUM. rewrite (Z.mod_small (tx_phl_idx r)) by lia.
  destruct (Z.leb_spec (tx_phl_idx r) (tx_core_idx r)), (Z.ltb_spec (tx_core_idx r) (tx_phl_idx r)); lia.
Qed.

Lemma ring_has_add r ws q :
  ring_has r ws -> Z.of_nat (length ws) < N4 - 1 ->
  let core := (tx_core_idx r + 1) mod MAX_PHL_RING_ENTRY_NUM in
  ring_has (set_tx_entry core q (set_core_idx core r)) (ws ++ [tq_ptr q]).
Proof.
  intros Hr Hw core. pose proof Hr as [Hp Hc Hl He].
  assert (core = slot_of (tx_phl_idx r) (length ws)) as Ec.
  { unfold core, slot_of, MAX_PHL_RING_ENTRY_NUM. rewrite Hc, Zplus_mod_idemp_l. f_equal. lia. }
  split; cbn.
  - done.
  - rewrite length_app. cbn. rewrite Ec. unfold slot_of. f_equal. lia.
  - rewrite length_app. cbn. lia.
  - intros k w Hk. apply lookup_app_Some in Hk as [Hk|[Hk Hw']].
    + rewrite lookup_insert_ne; [by apply He|]. rewrite Ec. intros E.
      apply slot_of_inj in E; [|lia|apply lookup_lt_Some in Hk; lia]. apply lookup_lt_Some in Hk. lia.
    + apply list_lookup_singleton_Some in Hw' as [Hk' <-]. replace k with (length ws) by lia.
      by rewrite <- Ec, lookup_insert_eq.
Qed.

(** Rewriting a request in place. *)
Lemma ring_has_entry r ws j q :
  ring_has r ws -> (forall q0, tx_entry r !! j = Some q0 -> tq_ptr q = tq_ptr q0) ->
  ring_has (set_tx_entry j q r) ws.
Proof.
  intros [Hp Hc Hl He] Hq. split; try done. cbn. intros k w Hk. specialize (He k w Hk).
  destruct (decide (j = slot_of (tx_phl_idx r) k)) as [->|Hn]; [|by rewrite lookup_insert_ne].
  rewrite lookup_insert_eq. cbn. destruct (tx_entry r !! _) as [q0|] eqn:E; [|done]. cbn in He.
  by rewrite (Hq q0 eq_refl).
Qed.

Lemma ring_has_next r ws v : ring_has r ws -> ring_has (set_next_idx v r) ws.
Proof. by intros [? ? ? ?]. Qed.

(** The request after [tx_phl_idx] is handed on. *)
Lemma ring_has_pop r w ws :
  ring_has r (w :: ws) -> ring_has (set_phl_idx (slot_of (tx_phl_idx r) 0) r) ws.
Proof.
  intros [Hp Hc Hl He]. cbn [length] in *. unfold slot_of. split; cbn.
  - apply Z.mod_pos_bound. lia.
  - rewrite Hc. rewrite Zplus_mod_idemp_l. f_equal. lia.
  - lia.
  - intros k x Hk. specialize (He (S k) x Hk). unfold slot_of in *.
    rewrite <- He. do 2 f_equal. lia.
Qed.

Lemma next_ptr_slot p : 0 <= p < N4 -> next_ptr p = slot_of p 0.
Proof.
  intros Hp. unfold next_ptr, slot_of, u16, MAX_PHL_RING_ENTRY_NUM. rewrite (Z.mod_small (p + 1)) by lia.
  destruct (Z.leb_spec N4 (p + 1)); lia.
Qed.

Lemma free_loop_waiting fuel r ws :
  ring_has r ws -> (length ws < fuel)%nat ->
  free_ring_loop fuel (tx_core_idx r) (tx_phl_idx r) (tx_entry r) = ws.
Proof.
  revert r ws. induction fuel as [|fuel IH]; intros r ws Hr Hf; [lia|]. cbn.
  pose proof Hr as [Hp Hc Hl He]. destruct ws as [|w ws].
  - replace (tx_phl_idx r =? tx_core_idx r) with true; [done|]. symmetry. apply Z.eqb_eq. cbn [length] in Hc. lia.
  - cbn in Hl, Hf. replace (tx_phl_idx r =? tx_core_idx r) with false by (symmetry; apply Z.eqb_neq; cbn [length] in Hc; lia).
    rewrite next_ptr_slot by done. specialize (He 0%nat w eq_refl).
    destruct (tx_entry r !! _) as [q|]; [|done]. injection He as He. rewrite He. f_equal.
    apply (IH (set_phl_idx (slot_of (tx_phl_idx r) 0) r) ws); [by eapply ring_has_pop|lia].
Qed.

(** Freeing a ring gives back what it holds. *)
Lemma free_ring_waiting r : ring_ok r -> free_ring r = waiting r.
Proof.
  intros Hr. unfold free_ring, u16. rewrite (Z.mod_small (tx_phl_idx r)) by (pose proof (rh_phl _ _ Hr); lia).
  apply free_loop_waiting; [done|]. pose proof (rh_len _ _ Hr). unfold MAX_PHL_RING_ENTRY_NUM. lia.
Qed.

(** ** All rings *)

Definition tring_waiting (t : rtw_phl_tring_list) : list nat := concat (waiting <$> phl_ring t).

Section lists.
Context {H : Type}.
Implicit Types (i : tx_info H) (t : nat) (x : rtw_phl_tring_list).

Definition all_waiting i : list nat := concat (tring_waiting <$> trings i).
Definition ids i : list nat := tl_id <$> trings i.

Lemma trings_upd t f i : trings (upd_tring t f i) = upd_in t f <$> trings i.
Proof. unfold trings, upd_tring. cbn. by rewrite fmap_app. Qed.

Lemma get_tring_in t i x : get_tring t i = Some x -> x ∈ trings i /\ tl_id x = t.
Proof.
  intros E. apply find_some in E as [Hin E]. apply Nat.eqb_eq in E. by apply list_elem_of_In in Hin.
Qed.

Lemma upd_in_other t f (l : list rtw_phl_tring_list) : t ∉ tl_id <$> l -> upd_in t f <$> l = l.
Proof.
  intros Hn. rewrite <- (list_fmap_id l) at 2. apply list_fmap_ext. intros k x Hk. unfold upd_in.
  destruct (Nat.eqb_spec (tl_id x) t) as [E|]; [|done]. destruct Hn. rewrite <- E.
  by eapply list_elem_of_fmap_2, list_elem_of_lookup_2.
Qed.

Lemma get_tring_split t i x : NoDup (ids i) -> get_tring t i = Some x ->
  exists A B, trings i = A ++ x :: B /\ forall f, trings (upd_tring t f i) = A ++ f x :: B.
Proof.
  intros Hn E. apply get_tring_in in E as [Hin Ex]. apply list_elem_of_split in Hin as (A & B & E).
  exists A, B. split; [done|]. intros f. rewrite trings_upd, E, fmap_app, fmap_cons.
  unfold ids in Hn. rewrite E, fmap_app, fmap_cons in Hn. apply NoDup_app in Hn as (HA & Hd & HB).
  apply NoDup_cons in HB as [HB _]. rewrite <- Ex.
  rewrite !upd_in_other; [|done|intros Hc; by apply (Hd _ Hc), list_elem_of_here].
  unfold upd_in at 1. by rewrite Nat.eqb_refl.
Qed.

Lemma get_tring_upd t t' f i : (forall x, tl_id (f x) = tl_id x) ->
  get_tring t' (upd_tring t f i) = if decide (t = t') then f <$> get_tring t i else get_tring t' i.
Proof.
  intros Hf. unfold get_tring. rewrite trings_upd. induction (trings i) as [|x l IH].
  { by case_decide. }
  rewrite fmap_cons. cbn [List.find].
  assert (tl_id (upd_in t f x) = tl_id x) as Hu by (unfold upd_in; destruct (Nat.eqb _ _); [apply Hf|done]).
  rewrite Hu. unfold upd_in at 1. destruct (Nat.eqb_spec (tl_id x) t') as [E1|E1].
  - case_decide as Ht; [|by destruct (Nat.eqb_spec (tl_id x) t); [congruence|]].
    subst. by rewrite Nat.eqb_refl.
  - rewrite IH. case_decide as Ht; [|done]. subst. by destruct (Nat.eqb_spec (tl_id x) t').
Qed.

Lemma ids_upd t f i : (forall x, tl_id (f x) = tl_id x) -> ids (upd_tring t f i) = ids i.
Proof.
  intros Hf. unfold ids. rewrite trings_upd, <- list_fmap_compose. apply list_fmap_ext. intros k x _. cbn.
  unfold upd_in. destruct (Nat.eqb _ _); [apply Hf|done].
Qed.

Lemma get_ring_tring p i r : get_ring p i = Some r ->
  exists x, get_tring (fst p) i = Some x /\ phl_ring x !! snd p = Some r.
Proof. unfold get_ring. intros E. by apply bind_Some in E. Qed.

Lemma get_ring_upd p p' f i :
  get_ring p' (upd_ring p f i) = if decide (p = p') then f <$> get_ring p i else get_ring p' i.
Proof.
  unfold get_ring, upd_ring. rewrite get_tring_upd by done. destruct p as [t k], p' as [t' k']. cbn.
  destruct (decide (t = t')) as [->|Hn]; [|by rewrite decide_False by congruence].
  destruct (get_tring t' i) as [x|]; cbn; [|by case_decide]. rewrite list_lookup_alter.
  destruct (decide (k = k')) as [->|]; [by rewrite decide_True|by rewrite decide_False by congruence].
Qed.

Lemma concat_alter {A B} (g : A -> list B) k l r : l !! k = Some r ->
  exists X Y, concat (g <$> l) = X ++ g r ++ Y /\ forall f, concat (g <$> alter f k l) = X ++ g (f r) ++ Y.
Proof.
  revert k. induction l as [|a l IH]; intros k Hk; [done|]. destruct k as [|k]; cbn in *.
  - injection Hk as ->. by exists [], (concat (g <$> l)).
  - destruct (IH k Hk) as (X & Y & E1 & E2). exists (g a ++ X), Y. rewrite <- !app_assoc, <- E1.
    split; [done|]. intros f. by rewrite <- !app_assoc, <- E2.
Qed.

Lemma waiting_split p i r : NoDup (ids i) -> get_ring p i = Some r ->
  exists X Y, all_waiting i = X ++ waiting r ++ Y /\
    forall f, all_waiting (upd_ring p f i) = X ++ waiting (f r) ++ Y.
Proof.
  intros Hn E. apply get_ring_tring in E as (x & Ex & Er).
  destruct (get_tring_split _ _ _ Hn Ex) as (A & B & E1 & E2).
  destruct (concat_alter waiting (snd p) (phl_ring x) r Er) as (X & Y & E3 & E4).
  exists (concat (tring_waiting <$> A) ++ X), (Y ++ concat (tring_waiting <$> B)).
  unfold all_waiting, upd_ring. rewrite E1. split.
  - rewrite fmap_app, concat_app. cbn. unfold tring_waiting at 2. rewrite E3. by rewrite <- !app_assoc.
  - intros f. rewrite E2, fmap_app, concat_app. cbn [fmap list_fmap concat].
    unfold tring_waiting at 2. cbn [phl_ring set_phl_ring]. rewrite E4. by rewrite <- !app_assoc.
Qed.
End lists.
