(* ===== verification/TxPlan.v ===== *)
(** * The plan of a turn

    Which rings a turn of the transmit handler serves and in which order, in
    closed form: the rings with requests get a status while the pool lasts; the
    statuses of a station are ordered by access category; flow control puts
    management and high-priority rings in front and groups the others by
    traffic class. *)

From stdpp Require Import gmap.
From S2P Require Import Prelude PhlQueue PhlDef RxReorder RxRing TxRing TxRingInv.

(** ** Statuses *)

Definition ring_avail (r : rtw_phl_tx_ring) : Z :=
  phl_calc_avail_rptr (u16 (tx_phl_idx r)) (tx_core_idx r) MAX_PHL_RING_ENTRY_NUM.

Definition has_work (t : rtw_phl_tring_list) (k : nat) : bool :=
  match phl_ring t !! k with Some r => negb (0 =? ring_avail r) | None => false end.

Definition mk_sts (t : rtw_phl_tring_list) (k id : nat) : phl_ring_status :=
  mkSts id (tl_macid t) (tl_band t) (tl_wmm t) (tl_port t)
    (from_option ring_avail 0 (phl_ring t !! k)) (from_option tr_tid 0 (phl_ring t !! k)) (tl_id t, k).

Definition ready (r : rtw_phl_tx_ring) : rtw_phl_tx_ring :=
  let rptr := u16 (u16 (tx_phl_idx r) + 1) in
  set_next_idx (if MAX_PHL_RING_ENTRY_NUM <=? rptr then 0 else rptr) r.

Definition sort1 (p : phl_tx_plan) (s : phl_ring_status) : phl_tx_plan :=
  _phl_sort_ring_by_tid s p (Z.of_nat (snd (rs_ptr s))).

Definition make_ready (rs : list rtw_phl_tx_ring) (s : phl_ring_status) : list rtw_phl_tx_ring :=
  alter ready (snd (rs_ptr s)) rs.

(** Ring list [t] with the rings of [ss] made ready and put in its plan. *)
Definition planned (t : rtw_phl_tring_list) (ss : list phl_ring_status) : rtw_phl_tring_list :=
  set_tx_plan (foldl sort1 (tx_plan t) ss) (set_phl_ring (foldl make_ready (phl_ring t) ss) t).

Lemma ready_lookup t p k k' :
  has_work (set_tx_plan p (set_phl_ring (alter ready k (phl_ring t)) t)) k' = has_work t k' /\
  forall id, mk_sts (set_tx_plan p (set_phl_ring (alter ready k (phl_ring t)) t)) k' id = mk_sts t k' id.
Proof.
  unfold has_work, mk_sts. cbn. rewrite list_lookup_alter. case_decide as E; [subst k'|done].
  by destruct (phl_ring t !! k).
Qed.

Lemma insert_alter {A} (f : A -> A) (k : nat) (l : list A) x : l !! k = Some x -> <[k := f x]> l = alter f k l.
Proof.
  intros E. apply list_eq. intros j. rewrite list_lookup_alter. case_decide as Ej; [subst j|].
  - by rewrite E, list_lookup_insert_eq by (by eapply lookup_lt_Some).
  - by rewrite list_lookup_insert_ne.
Qed.

Lemma check_rings_spec ks t idle :
  check_rings ks t idle =
  (planned t (zip_with (mk_sts t) (List.filter (has_work t) ks) idle),
   drop (length (List.filter (has_work t) ks)) idle).
Proof.
  revert t idle. induction ks as [|k ks IH]; intros t idle; cbn [check_rings List.filter].
  { cbn. f_equal. unfold planned. cbn. by destruct t. }
  assert (has_work t k = match phl_ring t !! k with Some r => negb (0 =? ring_avail r) | None => false end)
    as -> by done.
  destruct (phl_ring t !! k) as [r|] eqn:Er; [|apply IH].
  unfold _phl_check_ring_status. fold (ring_avail r). destruct (Z.eqb_spec 0 (ring_avail r)) as [E0|E0]; cbn [negb].
  { rewrite list_insert_id by done. replace (set_phl_ring (phl_ring t) t) with t by (by destruct t). apply IH. }
  destruct idle as [|id idle]; cbn [phl_alloc_ring_sts length zip_with drop].
  { rewrite list_insert_id by done. replace (set_phl_ring (phl_ring t) t) with t by (by destruct t).
    rewrite IH. by rewrite drop_nil, zip_with_nil_r. }
  fold (ready r). set (s := mkSts id _ _ _ _ _ _ _).
  assert (s = mk_sts t k id) as Es by (unfold s, mk_sts; by rewrite Er). clearbody s. subst s.
  rewrite (insert_alter ready k _ _ Er).
  rewrite IH. cbn [tx_plan set_phl_ring].
  set (t1 := set_tx_plan _ _).
  assert (forall k', has_work t1 k' = has_work t k') as Hw by (intros; apply ready_lookup).
  assert (forall k' id', mk_sts t1 k' id' = mk_sts t k' id') as Hm by (intros; apply ready_lookup).
  rewrite (filter_ext _ _ Hw). f_equal.
  rewrite (zip_with_ext (mk_sts t1) (mk_sts t) _ _ _ _ Hm eq_refl eq_refl). done.
Qed.

(** ** The order within a station *)

Definition tid_is (v : Z) (s : phl_ring_status) : bool := rs_tid s =? v.
Definition above (s : phl_ring_status) : bool := negb (tid_is 1 s) && negb (tid_is 2 s).

(** From the last class to the first, except that the two background classes
    come last and in the order 2, 1. *)
Definition by_category (ss : list phl_ring_status) : list phl_ring_status :=
  rev (List.filter above ss) ++ List.filter (tid_is 2) ss ++ List.filter (tid_is 1) ss.

Definition cat_is_tid (s : phl_ring_status) : Prop := rs_tid s = Z.of_nat (snd (rs_ptr s)).

Lemma filter_tid_unique v ss s :
  NoDup (rs_tid <$> ss ++ [s]) -> rs_tid s = v -> List.filter (tid_is v) ss = [].
Proof.
  intros Hn Es. rewrite fmap_app in Hn. apply NoDup_app in Hn as (_ & Hd & _).
  destruct (List.filter (tid_is v) ss) as [|x l] eqn:E; [done|exfalso].
  assert (In x (List.filter (tid_is v) ss)) as Hx by (rewrite E; by left).
  apply filter_In in Hx as [Hx Ev]. unfold tid_is in Ev. apply Z.eqb_eq in Ev.
  apply (Hd (rs_tid x)); [apply list_elem_of_fmap_2; by apply list_elem_of_In|]. cbn. rewrite Ev, <- Es. apply list_elem_of_here.
Qed.

Lemma filter_one_length v ss : NoDup (rs_tid <$> ss) -> (length (List.filter (tid_is v) ss) <= 1)%nat.
Proof.
  induction ss as [|s ss IH] using rev_ind; [cbn; lia|]. intros Hn. rewrite List.filter_app. cbn.
  destruct (tid_is v s) eqn:E; rewrite length_app; cbn.
  - unfold tid_is in E. apply Z.eqb_eq in E. by rewrite (filter_tid_unique v ss s Hn E).
  - rewrite Nat.add_0_r. apply IH. rewrite fmap_app in Hn. by apply NoDup_app in Hn as (? & _).
Qed.

Lemma last_not_one (l : list phl_ring_status) x :
  last l = Some x -> (forall y, In y l -> tid_is 1 y = false) -> 1 =? rs_tid x = false.
Proof.
  intros Hl Hy. rewrite Z.eqb_sym. apply (Hy x). by apply list_elem_of_In, last_Some_elem_of.
Qed.

Lemma removelast_snoc {A} (l : list A) x : removelast (l ++ [x]) = l.
Proof. by rewrite removelast_app, app_nil_r by done. Qed.

(** Background traffic of class 2 goes before that of class 1. *)
Lemma sort_two (ss : list phl_ring_status) s p : NoDup (rs_tid <$> ss) -> rs_tid s = 2 ->
  sorted_ring p = by_category ss ->
  sorted_ring (sort1 p s) = rev (List.filter above ss) ++ (List.filter (tid_is 2) ss ++ [s]) ++ List.filter (tid_is 1) ss /\
  has_mgnt (sort1 p s) = has_mgnt p /\ has_hiq (sort1 p s) = has_hiq p /\ plan_sleep (sort1 p s) = plan_sleep p.
Proof.
  intros Hn Es Ep. unfold sort1, _phl_sort_ring_by_tid. rewrite Es.
  change (2 =? 1) with false. change (2 =? 2) with true. cbv iota zeta. rewrite Ep.
  unfold by_category. pose proof (filter_one_length 1 ss Hn) as H1.
  destruct (List.filter (tid_is 1) ss) as [|x [|]] eqn:E1; cbn in H1; [| |lia].
  - rewrite !app_nil_r. destruct (last _) as [l|] eqn:El; [|cbn; by rewrite app_assoc].
    rewrite (last_not_one _ _ El); [cbn; by rewrite app_assoc|].
    intros y Hy. apply in_app_or in Hy as [Hy|Hy].
    + apply in_rev, filter_In in Hy as [_ Hy]. unfold above in Hy. by destruct (tid_is 1 y).
    + apply filter_In in Hy as [_ Hy]. unfold tid_is in *. lia.
  - rewrite app_assoc, last_snoc, removelast_snoc. assert (In x (List.filter (tid_is 1) ss)) as Hx by (rewrite E1; by left).
    apply filter_In in Hx as [_ Hx]. unfold tid_is in Hx. rewrite Z.eqb_sym in Hx. rewrite Hx. cbn.
    by rewrite <- !app_assoc.
Qed.

Lemma sort_spec ss : NoDup (rs_tid <$> ss) -> Forall cat_is_tid ss ->
  foldl sort1 _phl_init_tx_plan ss =
  mkPlan false (existsb (tid_is RTW_PHL_RING_CAT_MGNT) ss) (existsb (tid_is RTW_PHL_RING_CAT_HIQ) ss) (by_category ss).
Proof.
  induction ss as [|s ss IH] using rev_ind; [done|]. intros Hn Hc.
  rewrite foldl_snoc. apply Forall_app in Hc as [Hc Hs]. rewrite Forall_singleton in Hs.
  assert (NoDup (rs_tid <$> ss)) as Hn' by (rewrite fmap_app in Hn; by apply NoDup_app in Hn as (? & _)).
  rewrite IH by done. unfold by_category. rewrite !List.filter_app, !existsb_app. cbn [List.filter existsb].
  rewrite !orb_false_r.
  assert (forall v, tid_is v s = (rs_tid s =? v)) as Ht by done. unfold above. fold above. rewrite !Ht. clear Ht.
  unfold RTW_PHL_RING_CAT_MGNT, RTW_PHL_RING_CAT_HIQ.
  destruct (Z.eqb_spec (rs_tid s) 1) as [E1|N1].
  { unfold sort1, _phl_sort_ring_by_tid. rewrite E1. cbn. rewrite !orb_false_r, !app_nil_r. by rewrite <- !app_assoc. }
  destruct (Z.eqb_spec (rs_tid s) 2) as [E2|N2].
  { match goal with |- sort1 ?p s = _ => destruct (sort_two ss s p Hn' E2 eq_refl) as (A1 & A2 & A3 & A4) end.
    destruct (sort1 _ s). cbn in *. subst. rewrite E2. cbn. by rewrite !orb_false_r, !app_nil_r. }
  cbn [negb andb]. rewrite rev_unit, !app_nil_r. unfold sort1, _phl_sort_ring_by_tid. rewrite <- Hs.
  rewrite (proj2 (Z.eqb_neq _ _) N1), (proj2 (Z.eqb_neq _ _) N2).
  unfold RTW_PHL_RING_CAT_MGNT, RTW_PHL_RING_CAT_HIQ. rewrite !(Z.eqb_sym _ (rs_tid s)).
  destruct (Z.eqb_spec (rs_tid s) 8) as [E8|N8]; [by rewrite E8, orb_true_r, orb_false_r|].
  destruct (Z.eqb_spec (rs_tid s) 9) as [E9|N9]; by rewrite ?orb_true_r, !orb_false_r.
Qed.

(** ** Grouping by class *)

Fixpoint firsts (l : list Z) : list Z :=
  match l with [] => [] | x :: l => x :: List.filter (fun y => negb (y =? x)) (firsts l) end.

(** By class in the order in which the classes first appear. *)
Definition group (l : list phl_ring_status) : list phl_ring_status :=
  concat ((fun v => List.filter (tid_is v) l) <$> firsts (rs_tid <$> l)).

Lemma firsts_in x l : x ∈ firsts l <-> x ∈ l.
Proof.
  induction l as [|y l IH]; [done|]. cbn. rewrite !elem_of_cons.
  assert (x ∈ List.filter (fun z => negb (z =? y)) (firsts l) <-> x <> y /\ x ∈ l) as ->; [|destruct (decide (x = y)); tauto].
  rewrite <- IH, !list_elem_of_In, filter_In. destruct (Z.eqb_spec x y); cbn; intuition congruence.
Qed.

Lemma firsts_nodup l : NoDup (firsts l).
Proof.
  induction l as [|y l IH]; [constructor|]. cbn. apply NoDup_cons. split.
  - intros Hin. apply list_elem_of_In, filter_In in Hin as [_ Hin]. by rewrite Z.eqb_refl in Hin.
  - apply NoDup_ListNoDup, List.NoDup_filter, NoDup_ListNoDup, IH.
Qed.

Lemma firsts_snoc l x : firsts (l ++ [x]) = firsts l ++ (if decide (x ∈ l) then [] else [x]).
Proof.
  induction l as [|y l IH]; [done|]. cbn. rewrite IH, List.filter_app. f_equal. f_equal.
  destruct (decide (x ∈ l)) as [Hx|Hx]; cbn.
  - by rewrite decide_True by (by apply list_elem_of_further).
  - destruct (Z.eqb_spec x y) as [->|Hne]; cbn.
    + by rewrite decide_True by (apply list_elem_of_here).
    + rewrite decide_False; [done|]. rewrite elem_of_cons. tauto.
Qed.

Lemma filter_tid_nil v l : v ∉ rs_tid <$> l -> List.filter (tid_is v) l = [].
Proof.
  intros Hv. destruct (List.filter (tid_is v) l) as [|x r] eqn:E; [done|]. destruct Hv.
  assert (In x (List.filter (tid_is v) l)) as Hx by (rewrite E; by left).
  apply filter_In in Hx as [Hx Ev]. apply Z.eqb_eq in Ev as <-. by apply list_elem_of_fmap_2, list_elem_of_In.
Qed.

(** A status of a new class goes last, one of a known class behind the last of
    that class. *)
Lemma group_snoc l s :
  (rs_tid s ∉ rs_tid <$> l /\ group (l ++ [s]) = group l ++ [s]) \/
  (exists A G x B, group l = A ++ (G ++ [x]) ++ B /\ G ++ [x] = List.filter (tid_is (rs_tid s)) l /\
     group (l ++ [s]) = A ++ (G ++ [x; s]) ++ B).
Proof.
  unfold group. rewrite fmap_app. cbn [fmap list_fmap]. rewrite firsts_snoc.
  assert (forall F : list Z, rs_tid s ∉ F ->
    (fun v => List.filter (tid_is v) (l ++ [s])) <$> F = (fun v => List.filter (tid_is v) l) <$> F) as HF.
  { intros F HF. apply list_fmap_ext. intros k v Hk. rewrite List.filter_app. cbn. change (tid_is v s) with (rs_tid s =? v).
    destruct (Z.eqb_spec (rs_tid s) v) as [E|]; [|apply app_nil_r]. destruct HF. rewrite E. by eapply list_elem_of_lookup_2. }
  destruct (decide (rs_tid s ∈ rs_tid <$> l)) as [Hin|Hn].
  - right. rewrite app_nil_r. assert (rs_tid s ∈ firsts (rs_tid <$> l)) as Hf by (by apply firsts_in).
    pose proof (firsts_nodup (rs_tid <$> l)) as Hd. apply list_elem_of_split in Hf as (F1 & F2 & EF). rewrite EF in *.
    apply NoDup_app in Hd as (_ & H1 & H2). apply NoDup_cons in H2 as [H2 _].
    assert (rs_tid s ∉ F1) as H1' by (intros Hc; by apply (H1 _ Hc), list_elem_of_here).
    destruct (List.filter (tid_is (rs_tid s)) l) as [|y r] eqn:Efl.
    { exfalso. apply list_elem_of_fmap in Hin as (x & Ex & Hx).
      assert (In x (List.filter (tid_is (rs_tid s)) l)) as Hc
        by (apply filter_In; split; [by apply list_elem_of_In|apply Z.eqb_eq; by rewrite Ex]).
      by rewrite Efl in Hc. }
    destruct (exists_last (l := y :: r)) as (G & x & EG); [done|].
    exists (concat ((fun v => List.filter (tid_is v) l) <$> F1)), G, x, (concat ((fun v => List.filter (tid_is v) l) <$> F2)).
    rewrite !fmap_app, !concat_app, !fmap_cons. cbn [concat]. rewrite Efl, EG. split; [done|]. split; [done|].
    rewrite HF, HF by done. rewrite List.filter_app, Efl, EG. cbn. change (tid_is (rs_tid s) s) with (rs_tid s =? rs_tid s). rewrite Z.eqb_refl.
    by rewrite <- !app_assoc.
  - left. split; [done|]. rewrite fmap_app, concat_app, HF by (by rewrite firsts_in). f_equal. cbn.
    rewrite List.filter_app, filter_tid_nil by done. cbn. unfold tid_is. by rewrite Z.eqb_refl.
Qed.

Lemma group_perm l : group l ≡ₚ l.
Proof.
  induction l as [|s l IH] using rev_ind; [done|].
  destruct (group_snoc l s) as [[_ ->]|(A & G & x & B & E1 & _ & ->)]; [by rewrite IH|].
  rewrite <- IH, E1. rewrite <- !app_assoc. do 2 apply Permutation_app_head. cbn.
  apply Permutation_skip, Permutation_cons_append.
Qed.

Lemma insert_after_spec id s A x B :
  rs_id x = id -> id ∉ rs_id <$> A -> insert_after id s (A ++ x :: B) = A ++ x :: s :: B.
Proof.
  intros Ex. induction A as [|a A IH]; intros HA; cbn.
  - by rewrite Ex, Nat.eqb_refl.
  - rewrite fmap_cons, not_elem_of_cons in HA. destruct HA as [Ha HA].
    destruct (Nat.eqb_spec (rs_id a) id); [congruence|]. by rewrite IH.
Qed.

(** [e] has the last status of each class of [l]. *)
Definition entries_ok (e : list (option nat)) (l : list phl_ring_status) : Prop :=
  forall v, (v < MAX_PHL_RING_CAT_NUM)%nat -> e !! v = Some (rs_id <$> last (List.filter (tid_is (Z.of_nat v)) l)).

Definition tid_range (s : phl_ring_status) : Prop := 0 <= rs_tid s < Z.of_nat MAX_PHL_RING_CAT_NUM.

Lemma entries_ok_snoc e l s : entries_ok e l -> tid_range s ->
  entries_ok (<[Z.to_nat (rs_tid s) := Some (rs_id s)]> e) (l ++ [s]).
Proof.
  intros He Hs v Hv. rewrite List.filter_app. cbn. change (tid_is (Z.of_nat v) s) with (rs_tid s =? Z.of_nat v).
  destruct (decide (v = Z.to_nat (rs_tid s))) as [->|Hn].
  - rewrite list_lookup_insert_eq by (eapply lookup_lt_Some, He, Hv).
    rewrite Z2Nat.id, Z.eqb_refl, last_snoc by apply Hs. done.
  - rewrite list_lookup_insert_ne by done. replace (rs_tid s =? Z.of_nat v) with false by (unfold tid_range in Hs; lia).
    rewrite app_nil_r. by apply He.
Qed.

Lemma fctrl_rings_spec l e P l0 :
  entries_ok e l0 -> Forall tid_range l -> NoDup (rs_id <$> P ++ l0 ++ l) ->
  exists e', fctrl_rings l e (P ++ group l0) = (e', P ++ group (l0 ++ l)) /\ entries_ok e' (l0 ++ l).
Proof.
  revert e l0. induction l as [|s l IH]; intros e l0 He Hl Hn.
  { exists e. by rewrite app_nil_r. }
  apply Forall_cons in Hl as [Hs Hl]. cbn [fctrl_rings].
  assert (match e !! Z.to_nat (rs_tid s) with Some (Some id) => insert_after id s (P ++ group l0)
          | _ => (P ++ group l0) ++ [s] end = P ++ group (l0 ++ [s])) as ->.
  { rewrite He by (unfold tid_range, MAX_PHL_RING_CAT_NUM in *; lia). rewrite Z2Nat.id by apply Hs.
    destruct (group_snoc l0 s) as [[Hnew ->]|(A & G & x & B & E1 & E2 & ->)].
    - rewrite filter_tid_nil by done. cbn. by rewrite <- app_assoc.
    - rewrite <- E2, last_snoc. cbn. rewrite E1. rewrite <- !app_assoc. cbn.
      assert (NoDup (rs_id <$> P ++ group l0)) as Hn'.
      { rewrite group_perm. rewrite !app_assoc, fmap_app in Hn. by apply NoDup_app in Hn as (? & _). }
      rewrite E1, <- !app_assoc in Hn'. cbn in Hn'. rewrite !app_assoc in *.
      rewrite fmap_app, fmap_cons in Hn'. apply NoDup_app in Hn' as (_ & Hd & _).
      rewrite insert_after_spec; [by rewrite <- !app_assoc|done|].
      intros Hc. apply (Hd _ Hc). apply list_elem_of_here. }
  replace (l0 ++ s :: l) with ((l0 ++ [s]) ++ l) by (by rewrite <- app_assoc).
  apply IH; [by apply entries_ok_snoc|done|by rewrite <- app_assoc].
Qed.

(** ** Management and high-priority rings *)

Definition is_data (s : phl_ring_status) : bool := rs_tid s <? RTW_PHL_RING_CAT_MGNT.
Definition prio (ss : list phl_ring_status) : list phl_ring_status :=
  List.filter (tid_is RTW_PHL_RING_CAT_MGNT) ss ++ List.filter (tid_is RTW_PHL_RING_CAT_HIQ) ss.
Definition data (ss : list phl_ring_status) : list phl_ring_status := by_category (List.filter is_data ss).

(** The rings of a station, in the order of their classes. *)
Definition ascending (ss : list phl_ring_status) : Prop := StronglySorted Z.lt (rs_tid <$> ss).

Lemma ascending_nodup ss : ascending ss -> NoDup (rs_tid <$> ss).
Proof.
  unfold ascending. induction 1 as [|x l Hs IH Hf]; constructor; [|done].
  intros Hin. rewrite Forall_forall in Hf. specialize (Hf x Hin). lia.
Qed.

Lemma ascending_snoc ss s : ascending (ss ++ [s]) -> ascending ss /\ Forall (fun x => rs_tid x < rs_tid s) ss.
Proof.
  unfold ascending. rewrite fmap_app. intros Ha. induction ss as [|x ss IH]; [split; constructor|].
  cbn in Ha. apply StronglySorted_inv in Ha as [Ha Hf]. destruct (IH Ha) as [I1 I2].
  apply Forall_app in Hf as [Hf Hx]. rewrite Forall_singleton in Hx. split; [by constructor|by constructor].
Qed.

(** The highest class present is in front of the plan. *)
Lemma fctrl_first_top v ss R :
  ascending ss -> Forall (fun s => rs_tid s <= v) ss -> 2 < v ->
  fctrl_first (existsb (tid_is v) ss) (by_category ss) R =
  (false, by_category (List.filter (fun s => rs_tid s <? v) ss), List.filter (tid_is v) ss ++ R).
Proof.
  intros Ha Hv H2. destruct ss as [|s ss _] using rev_ind; [done|].
  apply ascending_snoc in Ha as [Ha Hs]. apply Forall_app in Hv as [Hv Hsv]. rewrite Forall_singleton in Hsv.
  assert (List.filter (fun x => rs_tid x <? v) ss = ss) as Ef.
  { clear Ha. induction Hs as [|x l Hx Hs IH]; [done|]. apply Forall_cons in Hv as [_ Hv]. cbn.
    replace (rs_tid x <? v) with true by lia. by rewrite IH. }
  assert (existsb (tid_is v) ss = false /\ List.filter (tid_is v) ss = []) as [Ex En].
  { clear Ha Ef. induction Hs as [|x l Hx Hs IH]; [done|]. apply Forall_cons in Hv as [_ Hv].
    destruct (IH Hv) as [I1 I2]. cbn. unfold tid_is at 1 3. replace (rs_tid x =? v) with false by lia. by rewrite I1, I2. }
  rewrite existsb_app, !List.filter_app, Ex, En, Ef. cbn. unfold tid_is.
  destruct (Z.eqb_spec (rs_tid s) v) as [E|E]; cbn.
  - replace (rs_tid s <? v) with false by lia. rewrite app_nil_r. unfold by_category at 1, fctrl_first.
    assert (tid_is 1 s = false /\ tid_is 2 s = false) as [T1 T2] by (unfold tid_is; lia).
    rewrite !List.filter_app. cbn. unfold above at 2. rewrite T1, T2. cbn. by rewrite rev_unit, !app_nil_r.
  - replace (rs_tid s <? v) with true by lia. done.
Qed.

Lemma fctrl_front ss R :
  ascending ss -> Forall tid_range ss ->
  fctrl_first (existsb (tid_is RTW_PHL_RING_CAT_HIQ) ss) (by_category ss) R =
    (false, by_category (List.filter (fun s => rs_tid s <? RTW_PHL_RING_CAT_HIQ) ss),
     List.filter (tid_is RTW_PHL_RING_CAT_HIQ) ss ++ R) /\
  fctrl_first (existsb (tid_is RTW_PHL_RING_CAT_MGNT) ss)
    (by_category (List.filter (fun s => rs_tid s <? RTW_PHL_RING_CAT_HIQ) ss))
    (List.filter (tid_is RTW_PHL_RING_CAT_HIQ) ss ++ R) = (false, data ss, prio ss ++ R).
Proof.
  intros Ha Hr. split.
  { apply fctrl_first_top; [done| |done]. eapply Forall_impl; [exact Hr|].
    intros x Hx. unfold tid_range, MAX_PHL_RING_CAT_NUM, RTW_PHL_RING_CAT_HIQ in *. lia. }
  set (l := List.filter _ ss). assert (ascending l) as Hal.
  { unfold ascending in *. unfold l. clear Hr l. induction ss as [|s ss IH]; [done|]. cbn in *.
    apply StronglySorted_inv in Ha as [Ha Hf]. destruct (_ <? _); [|by apply IH]. cbn. constructor; [by apply IH|].
    rewrite Forall_forall in *. intros y Hy. apply Hf. apply list_elem_of_fmap in Hy as (x & -> & Hx).
    apply list_elem_of_In, filter_In in Hx as [Hx _]. by apply list_elem_of_fmap_2, list_elem_of_In. }
  assert (Forall (fun s => rs_tid s <= RTW_PHL_RING_CAT_MGNT) l) as Hl.
  { unfold l. apply Forall_forall. intros x Hx. apply list_elem_of_In, filter_In in Hx as [_ Hx].
    unfold RTW_PHL_RING_CAT_HIQ, RTW_PHL_RING_CAT_MGNT in *. lia. }
  pose proof (fctrl_first_top RTW_PHL_RING_CAT_MGNT l (List.filter (tid_is RTW_PHL_RING_CAT_HIQ) ss ++ R) Hal Hl eq_refl) as E.
  assert (existsb (tid_is RTW_PHL_RING_CAT_MGNT) l = existsb (tid_is RTW_PHL_RING_CAT_MGNT) ss /\
          List.filter (tid_is RTW_PHL_RING_CAT_MGNT) l = List.filter (tid_is RTW_PHL_RING_CAT_MGNT) ss /\
          List.filter (fun s => rs_tid s <? RTW_PHL_RING_CAT_MGNT) l = List.filter is_data ss) as (E1 & E2 & E3).
  { unfold l, is_data, tid_is, RTW_PHL_RING_CAT_HIQ, RTW_PHL_RING_CAT_MGNT. clear. induction ss as [|s ss (I1 & I2 & I3)]; [done|].
    cbn. destruct (Z.ltb_spec (rs_tid s) 9), (Z.eqb_spec (rs_tid s) 8), (Z.ltb_spec (rs_tid s) 8); cbn;
      rewrite ?I1, ?I2, ?I3; try lia; rewrite ?(proj2 (Z.eqb_eq _ _)), ?(proj2 (Z.eqb_neq _ _)), ?(proj2 (Z.ltb_lt _ _)), ?(proj2 (Z.ltb_ge _ _)) by lia; done. }
  rewrite E1, E2, E3 in E. rewrite E. unfold data, prio. by rewrite <- app_assoc.
Qed.

Lemma tid_is_eq v s : tid_is v s = (rs_tid s =? v).
Proof. done. Qed.

Lemma above_eq s : above s = negb (rs_tid s =? 1) && negb (rs_tid s =? 2).
Proof. done. Qed.

Lemma by_category_perm ss : by_category ss ≡ₚ ss.
Proof.
  unfold by_category. rewrite <- Permutation_rev. induction ss as [|s ss IH]; [done|]. cbn.
  rewrite above_eq, !tid_is_eq. destruct (Z.eqb_spec (rs_tid s) 1) as [E|], (Z.eqb_spec (rs_tid s) 2); cbn; try lia.
  - rewrite !app_assoc. rewrite <- Permutation_middle. by rewrite <- app_assoc, IH.
  - rewrite <- Permutation_middle. by rewrite IH.
  - by rewrite IH.
Qed.

Lemma data_prio_perm ss : Forall tid_range ss -> prio ss ++ data ss ≡ₚ ss.
Proof.
  intros Hr. unfold data. rewrite by_category_perm. unfold prio. rewrite <- app_assoc.
  induction Hr as [|s ss Hs Hr IH]; [done|]. cbn. rewrite !tid_is_eq.
  change (is_data s) with (rs_tid s <? 8). unfold RTW_PHL_RING_CAT_MGNT, RTW_PHL_RING_CAT_HIQ in *.
  destruct (Z.eqb_spec (rs_tid s) 8), (Z.eqb_spec (rs_tid s) 9), (Z.ltb_spec (rs_tid s) 8);
    unfold tid_range, MAX_PHL_RING_CAT_NUM in Hs; try lia; cbn.
  - by rewrite IH.
  - rewrite <- Permutation_middle. by rewrite IH.
  - rewrite app_assoc, <- Permutation_middle. by rewrite <- app_assoc, IH.
Qed.

(** ** The whole plan *)

Definition cats : list nat := seq 0 MAX_PHL_RING_CAT_NUM.
Definition work (t : rtw_phl_tring_list) : list nat := List.filter (has_work t) cats.

(** The statuses for ring list [t] when [idle] ones are left. *)
Definition statuses (t : rtw_phl_tring_list) (idle : list nat) : list phl_ring_status :=
  zip_with (mk_sts t) (work t) idle.

Fixpoint plan_all (l : list rtw_phl_tring_list) (idle : list nat) : list (list phl_ring_status) :=
  match l with
  | [] => []
  | t :: l => statuses t idle :: plan_all l (drop (length (work t)) idle)
  end.

Fixpoint left_over (l : list rtw_phl_tring_list) (idle : list nat) : list nat :=
  match l with [] => idle | t :: l => left_over l (drop (length (work t)) idle) end.

(** The rings of a ring list are numbered by their classes. *)
Record tring_wf (t : rtw_phl_tring_list) : Prop := {
  tw_len : length (phl_ring t) = MAX_PHL_RING_CAT_NUM;
  tw_tid : forall k r, phl_ring t !! k = Some r -> tr_tid r = Z.of_nat k;
  tw_ok : Forall ring_ok (phl_ring t) }.

Lemma statuses_in t idle s : s ∈ statuses t idle ->
  exists k r, (k < MAX_PHL_RING_CAT_NUM)%nat /\ phl_ring t !! k = Some r /\ ring_avail r <> 0 /\ s = mk_sts t k (rs_id s).
Proof.
  intros Hin. apply elem_of_lookup_zip_with in Hin as (j & k & id & -> & Hk & _). cbn.
  apply list_elem_of_lookup_2, list_elem_of_In, filter_In in Hk as [Hk Hw]. apply in_seq in Hk.
  unfold has_work in Hw. destruct (phl_ring t !! k) as [r|] eqn:Er; [|done]. exists k, r. split; [lia|].
  split; [done|]. split; [intros E; by rewrite E in Hw|done].
Qed.

Lemma statuses_tid t idle s : tring_wf t -> s ∈ statuses t idle -> cat_is_tid s /\ tid_range s.
Proof.
  intros Hw Hs. apply statuses_in in Hs as (k & r & Hk & Er & _ & ->). unfold cat_is_tid, tid_range, mk_sts. cbn.
  rewrite Er. cbn. rewrite (tw_tid _ Hw _ _ Er). lia.
Qed.

Lemma statuses_ascending t idle : tring_wf t -> ascending (statuses t idle).
Proof.
  intros Hw. unfold ascending, statuses. assert (StronglySorted lt (work t)) as Hs.
  { unfold work, cats. generalize 0%nat, MAX_PHL_RING_CAT_NUM. intros b n. revert b. induction n as [|n IH]; intros b; cbn; [constructor|].
    destruct (has_work t b); [|apply IH]. constructor; [apply IH|]. apply Forall_forall. intros x Hx.
    apply list_elem_of_In, filter_In in Hx as [Hx _]. apply in_seq in Hx. lia. }
  assert (Forall (fun k => has_work t k = true) (work t)) as Hf.
  { apply Forall_forall. intros k Hk. by apply list_elem_of_In, filter_In in Hk as [_ ?]. }
  revert idle. induction Hs as [|k ks Hs IH Hk]; intros idle; [constructor|]. destruct idle as [|id idle]; cbn; [constructor|].
  apply Forall_cons in Hf as [Hk1 Hf]. assert (forall k', has_work t k' = true -> from_option tr_tid 0 (phl_ring t !! k') = Z.of_nat k') as Ht.
  { intros k' Hk'. unfold has_work in Hk'. destruct (phl_ring t !! k') as [r|] eqn:Er; [|done]. by apply (tw_tid _ Hw). }
  constructor; [by apply IH|]. rewrite Ht by done. apply Forall_fmap, Forall_forall. intros s Hin. cbn.
  apply elem_of_lookup_zip_with in Hin as (j & k' & id' & -> & Hk' & _). cbn. apply list_elem_of_lookup_2 in Hk'.
  rewrite Forall_forall in Hk, Hf. rewrite Ht by (by apply Hf). specialize (Hk k' Hk'). lia.
Qed.

Lemma statuses_ids t idle : rs_id <$> statuses t idle = take (length (work t)) idle.
Proof.
  unfold statuses. generalize (work t). intros ks. revert idle.
  induction ks as [|k ks IH]; intros idle; [done|]. destruct idle as [|id idle]; [done|]. cbn. by rewrite <- IH.
Qed.

Lemma plan_ids l idle : (rs_id <$> concat (plan_all l idle)) ++ left_over l idle = idle.
Proof.
  revert idle. induction l as [|t l IH]; intros idle; [done|].
  cbn [plan_all left_over concat]. rewrite fmap_app, <- app_assoc, IH, statuses_ids.
  apply take_drop.
Qed.

Definition idle_plan (t : rtw_phl_tring_list) : Prop := tx_plan t = _phl_init_tx_plan.

Definition nonempty_ids (l : list rtw_phl_tring_list) (Ss : list (list phl_ring_status)) : list nat :=
  concat (zip_with (fun t (ss : list phl_ring_status) => match ss with [] => [] | _ => [tl_id t] end) l Ss).

Lemma planned_plan t ss : idle_plan t -> NoDup (rs_tid <$> ss) -> Forall cat_is_tid ss ->
  tx_plan (planned t ss) =
  mkPlan false (existsb (tid_is RTW_PHL_RING_CAT_MGNT) ss) (existsb (tid_is RTW_PHL_RING_CAT_HIQ) ss) (by_category ss).
Proof. intros Ht Hn Hc. unfold planned. cbn. rewrite Ht. by apply sort_spec. Qed.

Lemma check_trings_spec l idle sta :
  Forall idle_plan l -> Forall tring_wf l ->
  check_trings l idle sta =
  (zip_with planned l (plan_all l idle), left_over l idle, sta ++ nonempty_ids l (plan_all l idle)).
Proof.
  intros Hi Hw. revert idle sta. induction l as [|t l IH]; intros idle sta; [cbn; by rewrite app_nil_r|].
  apply Forall_cons in Hi as [Ht Hi]. apply Forall_cons in Hw as [Hwt Hw].
  cbn [check_trings plan_all left_over zip_with]. unfold _phl_check_tring_list. rewrite check_rings_spec.
  fold cats. fold (work t). fold (statuses t idle).
  rewrite IH by done. f_equal. rewrite (planned_plan t (statuses t idle) Ht (ascending_nodup _ (statuses_ascending t idle Hwt))).
  2:{ apply Forall_forall. intros s Hs. by apply (statuses_tid t idle). }
  cbn [sorted_ring]. unfold nonempty_ids. cbn [zip_with concat]. pose proof (by_category_perm (statuses t idle)) as Hp.
  destruct (statuses t idle) as [|s ss]; [done|].
  destruct (by_category (s :: ss)) as [|x l'] eqn:Eb; [by apply Permutation_nil in Hp|]. cbn.
  by rewrite <- app_assoc.
Qed.

(** ** Flow control *)

Definition served (t : rtw_phl_tring_list) (ss : list phl_ring_status) : rtw_phl_tring_list :=
  set_phl_ring (foldl make_ready (phl_ring t) ss) t.

(** What flow control makes of the stations' statuses. *)
Definition front (Ss : list (list phl_ring_status)) : list phl_ring_status := concat (rev (prio <$> Ss)).
Definition flow (Ss : list (list phl_ring_status)) : list phl_ring_status :=
  front Ss ++ group (concat (data <$> Ss)).

Section flow.
Context {H : Type}.
Implicit Types (i : tx_info H).

Lemma get_tring_nodup x i : NoDup (ids i) -> x ∈ trings i -> get_tring (tl_id x) i = Some x.
Proof.
  unfold get_tring, ids. intros Hn Hin. induction (trings i) as [|y l IH]; [by apply elem_of_nil in Hin|].
  cbn in *. apply NoDup_cons in Hn as [Hy Hn]. apply elem_of_cons in Hin as [->|Hin]; [by rewrite Nat.eqb_refl|].
  destruct (Nat.eqb_spec (tl_id y) (tl_id x)) as [E|]; [|by apply IH]. destruct Hy. rewrite E. by apply list_elem_of_fmap_2.
Qed.

Lemma planned_nil t : idle_plan t -> planned t [] = t /\ served t [] = t.
Proof. intros Ht. unfold planned, served. cbn. by destruct t. Qed.

Lemma served_planned t ss : idle_plan t -> set_tx_plan _phl_init_tx_plan (planned t ss) = served t ss.
Proof. intros Ht. unfold planned, served. cbn. rewrite <- Ht. by destruct t. Qed.

(** One station. *)
Lemma fctrl_plan_spec e i D t ss R P l0 :
  idle_plan t -> ascending ss -> Forall cat_is_tid ss -> Forall tid_range ss ->
  t_ring_list i = D ++ planned t ss :: R -> NoDup (ids i) ->
  entries_ok e l0 -> t_fctrl_result i = P ++ group l0 -> NoDup (rs_id <$> (prio ss ++ P) ++ l0 ++ data ss) ->
  exists e', entries_ok e' (l0 ++ data ss) /\
    fctrl_plan (tl_id t) e i =
    (e', set_t_fctrl_result ((prio ss ++ P) ++ group (l0 ++ data ss)) (set_t_ring_list (D ++ served t ss :: R) i)).
Proof.
  intros Ht Ha Hc Hr El Hn He Ef Hnd.
  assert (get_tring (tl_id t) i = Some (planned t ss)) as Eg.
  { change (tl_id t) with (tl_id (planned t ss)). apply get_tring_nodup; [done|].
    unfold trings. rewrite El. apply elem_of_app. left. apply elem_of_app. right. apply list_elem_of_here. }
  unfold fctrl_plan. rewrite Eg, (planned_plan t ss Ht (ascending_nodup _ Ha) Hc). cbn [plan_sleep has_hiq has_mgnt sorted_ring].
  destruct (fctrl_front ss (t_fctrl_result i) Ha Hr) as [-> ->].
  assert (Forall tid_range (data ss)) as Hd.
  { pose proof (data_prio_perm ss Hr) as Hp. rewrite <- Hp in Hr. by apply Forall_app in Hr as [_ ?]. }
  destruct (fctrl_rings_spec (data ss) e (prio ss ++ P) l0 He Hd Hnd) as (e' & E1 & He').
  exists e'. split; [done|]. rewrite Ef, app_assoc, E1. f_equal. rewrite !orb_false_r.
  unfold upd_tring. cbn. f_equal; try done.
  unfold ids, trings in Hn. rewrite El, <- app_assoc, fmap_app in Hn. cbn [app] in Hn. rewrite fmap_cons, fmap_app in Hn.
  apply NoDup_app in Hn as (_ & H1 & H2). apply NoDup_cons in H2 as [H2 _]. rewrite not_elem_of_app in H2.
  assert (tl_id t ∉ tl_id <$> D) as H3 by (intros Hx; by apply (H1 _ Hx), list_elem_of_here).
  rewrite El, fmap_app, fmap_cons, !upd_in_other by (done || by apply H2).
  unfold upd_in at 1. cbn [tl_id planned set_tx_plan set_phl_ring]. rewrite Nat.eqb_refl.
  rewrite <- (served_planned t ss Ht). done.
Qed.

Record ss_ok (ss : list phl_ring_status) : Prop := {
  so_asc : ascending ss; so_cat : Forall cat_is_tid ss; so_range : Forall tid_range ss }.

Lemma statuses_ok t idle : tring_wf t -> ss_ok (statuses t idle).
Proof.
  intros Hw. split; [by apply statuses_ascending| |]; apply Forall_forall; intros s Hs; by apply (statuses_tid t idle).
Qed.

Lemma plan_all_ok l idle : Forall tring_wf l -> Forall ss_ok (plan_all l idle) /\ length (plan_all l idle) = length l.
Proof.
  intros Hw. revert idle. induction Hw as [|t l Ht Hw IH]; intros idle; [by split|].
  cbn [plan_all length]. destruct (IH (drop (length (work t)) idle)) as [I1 I2]. split; [|by rewrite I2]. constructor; [by apply statuses_ok|done].
Qed.

Lemma fctrl_plans_spec l : forall Ss e i D P l0,
  Forall idle_plan l -> Forall ss_ok Ss -> length Ss = length l ->
  t_ring_list i = D ++ zip_with planned l Ss -> NoDup (ids i) ->
  entries_ok e l0 -> t_fctrl_result i = P ++ group l0 -> NoDup (rs_id <$> P ++ l0 ++ concat Ss) ->
  fctrl_plans (nonempty_ids l Ss) e i =
  set_t_fctrl_result ((front Ss ++ P) ++ group (l0 ++ concat (data <$> Ss)))
    (set_t_ring_list (D ++ zip_with served l Ss) i).
Proof.
  induction l as [|t l IH]; intros [|ss Ss] e i D P l0 Hi Hs Hlen El Hn He Ef Hnd; try done.
  { cbn. rewrite app_nil_r, <- Ef. cbn in El. rewrite <- El. by destruct i. }
  apply Forall_cons in Hi as [Ht Hi]. apply Forall_cons in Hs as [[Ha Hc Hr] Hs]. injection Hlen as Hlen.
  assert (rs_id <$> P ++ l0 ++ concat (ss :: Ss) ≡ₚ rs_id <$> (prio ss ++ P) ++ (l0 ++ data ss) ++ concat Ss) as Hperm.
  { apply fmap_Permutation. cbn [concat]. rewrite <- (data_prio_perm ss Hr) at 1. solve_Permutation. }
  rewrite Hperm in Hnd. clear Hperm. destruct ss as [|s ss].
  - unfold nonempty_ids. cbn [zip_with concat app]. fold (nonempty_ids l Ss).
    destruct (planned_nil t Ht) as [E1 E2]. cbn [zip_with] in El |- *. rewrite E1 in El. rewrite E2.
    rewrite (IH Ss e i (D ++ [t]) P l0); try done; [|by rewrite <- app_assoc|by rewrite app_nil_r in Hnd].
    unfold front. cbn [fmap list_fmap rev concat app]. rewrite concat_app. cbn. by rewrite app_nil_r, <- !app_assoc.
  - unfold nonempty_ids. cbn [zip_with concat app fctrl_plans]. fold (nonempty_ids l Ss). cbn [zip_with] in El.
    destruct (fctrl_plan_spec e i D t (s :: ss) _ P l0 Ht Ha Hc Hr El Hn He Ef) as (e' & He' & ->).
    { rewrite (app_assoc _ _ (concat Ss)), fmap_app in Hnd. by apply NoDup_app in Hnd as (? & _). }
    rewrite (IH Ss e' _ (D ++ [served t (s :: ss)]) (prio (s :: ss) ++ P) (l0 ++ data (s :: ss))); try done.
    + unfold front. cbn [fmap list_fmap rev concat]. rewrite concat_app. cbn [concat]. rewrite app_nil_r, <- !app_assoc. done.
    + cbn. by rewrite <- app_assoc.
    + revert Hn. unfold ids, trings. cbn. rewrite El, <- !app_assoc, !fmap_app. done.
Qed.

Lemma fmap_zip_planned l Ss : length Ss = length l -> tl_id <$> zip_with planned l Ss = tl_id <$> l.
Proof. revert Ss. induction l as [|t l IH]; intros [|ss Ss] E; try done. injection E as E. cbn. by rewrite IH. Qed.

Lemma concat_nil {A} (Ss : list (list A)) : concat Ss = [] -> Forall (fun ss => ss = []) Ss.
Proof. induction Ss as [|ss Ss IH]; intros E; constructor; destruct ss; try done. by apply IH. Qed.

Lemma planned_nil_all l Ss : Forall idle_plan l -> length Ss = length l -> concat Ss = [] -> zip_with planned l Ss = l.
Proof.
  intros Hi. revert Ss. induction Hi as [|t l Ht Hi IH]; intros [|ss Ss] Hl E; try done. injection Hl as Hl.
  apply app_eq_nil in E as [-> E]. cbn [zip_with]. rewrite IH by done. by rewrite (proj1 (planned_nil t Ht)).
Qed.

Lemma served_nil l Ss : Forall idle_plan l -> length Ss = length l -> concat Ss = [] -> zip_with served l Ss = l.
Proof.
  intros Hi. revert Ss. induction Hi as [|t l Ht Hi IH]; intros [|ss Ss] Hl E; try done. injection Hl as Hl.
  apply app_eq_nil in E as [-> E]. cbn [zip_with]. rewrite IH by done. by rewrite (proj2 (planned_nil t Ht)).
Qed.

Lemma flow_nil Ss : concat Ss = [] -> flow Ss = [].
Proof.
  intros E. unfold flow, front. induction Ss as [|ss Ss IH]; [done|]. apply app_eq_nil in E as [-> E].
  cbn [fmap list_fmap rev concat]. rewrite concat_app. cbn. rewrite app_nil_r. by apply IH.
Qed.

Lemma nonempty_ids_nil l Ss : length Ss = length l -> nonempty_ids l Ss = [] <-> concat Ss = [].
Proof.
  revert Ss. induction l as [|t l IH]; intros [|ss Ss] Hlen; try done. injection Hlen as Hlen.
  unfold nonempty_ids. cbn. fold (nonempty_ids l Ss). destruct ss; [by apply IH|done].
Qed.

(** Every status given out is served. *)
Lemma flow_perm Ss : Forall ss_ok Ss -> flow Ss ≡ₚ concat Ss.
Proof.
  intros Hs. unfold flow, front. rewrite group_perm. induction Hs as [|ss Ss [_ _ Hr] Hs IH]; [done|].
  cbn [fmap list_fmap rev concat]. rewrite concat_app. cbn [concat]. rewrite app_nil_r, <- IH.
  transitivity ((prio ss ++ data ss) ++ concat (rev (prio <$> Ss)) ++ concat (data <$> Ss)); [solve_Permutation|].
  by rewrite data_prio_perm.
Qed.

(** The plan in closed form. *)
Lemma plan_tx_spec i :
  Forall idle_plan (t_ring_list i) -> Forall tring_wf (t_ring_list i) -> NoDup (ids i) ->
  t_fctrl_result i = [] -> NoDup (ring_sts_idle i) ->
  let Ss := plan_all (t_ring_list i) (ring_sts_idle i) in
  plan_tx i =
  (negb (bool_decide (concat Ss = [])),
   set_t_fctrl_result (flow Ss) (set_phl_sw_tx_more false
     (set_ring_sts_idle (left_over (t_ring_list i) (ring_sts_idle i))
        (set_t_ring_list (zip_with served (t_ring_list i) Ss) i)))).
Proof.
  intros Hi Hw Hn Ef Hnd Ss. destruct (plan_all_ok _ (ring_sts_idle i) Hw) as [Hok Hlen]. fold Ss in Hok, Hlen.
  unfold plan_tx, phl_check_xmit_ring_resource. rewrite check_trings_spec by done. fold Ss. cbn [app].
  pose proof (nonempty_ids_nil (t_ring_list i) Ss Hlen) as Hne.
  destruct (decide (concat Ss = [])) as [E|E].
  - rewrite (bool_decide_eq_true_2 (concat Ss = [])), bool_decide_eq_true_2 by (done || by apply Hne). cbn.
    f_equal. rewrite (flow_nil Ss E), (served_nil _ Ss Hi Hlen E), (planned_nil_all _ Ss Hi Hlen E), <- Ef. done.
  - rewrite (bool_decide_eq_false_2 (concat Ss = [])), bool_decide_eq_false_2 by (done || by rewrite Hne). cbn.
    f_equal. unfold phl_tx_flow_ctrl. rewrite (fctrl_plans_spec (t_ring_list i) Ss _ _ [] [] []); try done.
    + cbn [app]. unfold flow. by rewrite app_nil_r.
    + revert Hn. unfold ids, trings. cbn. rewrite !fmap_app, fmap_zip_planned by done. done.
    + intros v Hv. by apply lookup_replicate.
    + cbn. rewrite <- (plan_ids (t_ring_list i) (ring_sts_idle i)) in Hnd. by apply NoDup_app in Hnd as (? & _).
Qed.
End flow.
