(* ===== verification/TxSys.v ===== *)
(** * The transmit path as a system of threads

    The core driver adds requests and registers or removes ring lists at any
    moment; the transmit handler plans a turn, hands requests on one by one,
    and frees removed ring lists when it is done; the bus layer gives requests
    back.  The handler's own data (plans, statuses) is touched by nobody else,
    so its planning is one step; between two requests any other thread may run. *)

From stdpp Require Import gmap relations.
From S2P Require Import Prelude PhlQueue PhlDef RxReorder RxRing TxRing TxRingInv TxPlan.

Inductive tx_pc := TIdle | TServe | THandle (s : phl_ring_status) | TEnd.

Section system.
Context {H : Type} `{HciTx H}.

(** [ts_acc] are the requests accepted with their rings, [ts_prep] those handed
    to the bus layer, [ts_back] those the bus layer gave back. *)
Record tx_sys := mkSys {
  ts_info : tx_info H; ts_pc : tx_pc;
  ts_acc : list (ring_ptr * nat); ts_prep : list (ring_ptr * nat); ts_back : list nat }.

Definition with_info (i : tx_info H) (s : tx_sys) := mkSys i (ts_pc s) (ts_acc s) (ts_prep s) (ts_back s).
Definition at_pc (pc : tx_pc) (i : tx_info H) (s : tx_sys) := mkSys i pc (ts_acc s) (ts_prep s) (ts_back s).

(** The request a status would hand on next. *)
Definition next_req (p : ring_ptr) (i : tx_info H) : list (ring_ptr * nat) :=
  match r ← get_ring p i; tx_entry r !! u16 (phl_next_idx r) with
  | Some q => [(p, tq_ptr q)]
  | None => []
  end.

(** One step of the handler. *)
Definition tx_turn (s : tx_sys) : tx_sys :=
  let i := ts_info s in
  match ts_pc s with
  | TIdle => let '(some, i) := plan_tx i in at_pc (if some then TServe else TEnd) i s
  | TServe =>
      match t_fctrl_result i with
      | [] => at_pc TEnd i s
      | x :: l => at_pc (THandle x) (set_t_fctrl_result l i) s
      end
  | THandle x =>
      if 0 =? req_busy x then at_pc TServe (phl_release_ring_sts x i) s
      else
        let '(go, y, j) := handle_one x i in
        if go then mkSys j (THandle y) (ts_acc s) (ts_prep s ++ next_req (rs_ptr x) i) (ts_back s)
        else at_pc TServe (phl_release_ring_sts y j) s
  | TEnd => at_pc TIdle (phl_free_deferred_tx_ring i) s
  end.

(** The ring a request is put in. *)
Definition ring_of (q : rtw_xmit_req) (i : tx_info H) : list (ring_ptr * nat) :=
  match find_macid (md_macid q) i with
  | Some t => [((tl_id t, Z.to_nat (md_tid q)), tq_ptr q)]
  | None => []
  end.

Definition add_req (now : Z) (q : rtw_xmit_req) (s : tx_sys) : tx_sys :=
  let '(sts, j) := rtw_phl_add_tx_req now q (ts_info s) in
  mkSys j (ts_pc s)
    (ts_acc s ++ if bool_decide (sts = RTW_PHL_STATUS_SUCCESS) then ring_of q (ts_info s) else [])
    (ts_prep s) (ts_back s).

Inductive tx_step : tx_sys -> tx_sys -> Prop :=
| TxHandler s : tx_step s (tx_turn s)
| TxPaused s : ts_pc s = TIdle -> tx_step s (at_pc TIdle (phl_free_deferred_tx_ring (ts_info s)) s)
| TxAdd now q s : 0 <= md_tid q < Z.of_nat MAX_PHL_RING_CAT_NUM -> tx_step s (add_req now q s)
| TxRegister ok macid band wmm port s :
    tx_step s (with_info (snd (phl_register_tx_ring ok macid band wmm port (ts_info s))) s)
| TxRemove macid s : tx_step s (with_info (snd (phl_deregister_tx_ring macid (ts_info s))) s)
| TxBus h back s :
    hci_step (t_hci (ts_info s)) back h ->
    tx_step s (mkSys (set_t_hci h (ts_info s)) (ts_pc s) (ts_acc s) (ts_prep s) (ts_back s ++ back)).

Definition sys0 (h : H) (stas : gmap Z tx_stats) : tx_sys := mkSys (tx_info0 h stas) TIdle [] [] [].

(** ** The invariant *)

Definition on (p : ring_ptr) (l : list (ring_ptr * nat)) : list nat :=
  omap (fun x => if decide (fst x = p) then Some (snd x) else None) l.

Definition sts_ok (i : tx_info H) (s : phl_ring_status) : Prop :=
  exists r, get_ring (rs_ptr s) i = Some r /\ 0 <= req_busy s <= Z.of_nat (length (waiting r)) /\
    (req_busy s <> 0 -> phl_next_idx r = slot_of (tx_phl_idx r) 0).

(** The statuses in the handler's hands. *)
Definition held (pc : tx_pc) : list phl_ring_status := match pc with THandle s => [s] | _ => [] end.
Definition in_hand (pc : tx_pc) (i : tx_info H) : list phl_ring_status := held pc ++ t_fctrl_result i.

Record lists_ok (i : tx_info H) : Prop := {
  lo_ids : NoDup (ids i);
  lo_fresh : Forall (fun t => t < tl_fresh i)%nat (ids i);
  lo_wf : Forall tring_wf (trings i);
  lo_plan : Forall idle_plan (trings i);
  lo_ub : tx_ub i = false }.

Record hand_ok (pc : tx_pc) (i : tx_info H) : Prop := {
  ho_sts : Forall (sts_ok i) (in_hand pc i);
  ho_ptr : NoDup (rs_ptr <$> in_hand pc i);
  ho_pool : ring_sts_idle i ++ (rs_id <$> in_hand pc i) ≡ₚ seq 0 MAX_PHL_RING_STATUS_NUMBER;
  ho_rest : (pc = TIdle \/ pc = TEnd) -> t_fctrl_result i = [] }.

Record tx_inv (s : tx_sys) : Prop := {
  ti_lists : lists_ok (ts_info s);
  ti_hand : hand_ok (ts_pc s) (ts_info s);
  ti_all : snd <$> ts_acc s ≡ₚ
    all_waiting (ts_info s) ++ hci_reqs (t_hci (ts_info s)) ++ ts_back s ++ tx_recycled (ts_info s);
  ti_order : forall p r, get_ring p (ts_info s) = Some r -> on p (ts_acc s) = on p (ts_prep s) ++ waiting r;
  ti_old : Forall (fun x => fst (fst x) < tl_fresh (ts_info s))%nat (ts_acc s ++ ts_prep s) }.
End system.
Arguments tx_sys : clear implicits.
