(* ===== verification/TxSysInv.v ===== *)
(** * The transmit system keeps its invariant *)

From stdpp Require Import gmap relations.
From S2P Require Import Prelude PhlQueue PhlDef RxReorder RxRing TxRing TxRingInv TxPlan TxSys.

Section ring_updates.
Context {H : Type}.
Implicit Types (i : tx_info H) (p : ring_ptr).

Lemma get_tring_ok t i x : lists_ok i -> get_tring t i = Some x -> tring_wf x /\ idle_plan x.
Proof.
  intros Hi E. apply get_tring_in in E as [Hin _]. destruct Hi as [_ _ Hw Hp _].
  rewrite Forall_forall in Hw, Hp. split; [by apply Hw|by apply Hp].
Qed.

Lemma get_ring_ok p i r : lists_ok i -> get_ring p i = Some r -> ring_ok r.
Proof.
  intros Hi E. apply get_ring_tring in E as (x & Ex & Er). destruct (get_tring_ok _ _ _ Hi Ex) as [[_ _ Hok] _].
  rewrite Forall_forall in Hok. by eapply Hok, list_elem_of_lookup_2.
Qed.

Lemma upd_ring_compose p f g i : upd_ring p f (upd_ring p g i) = upd_ring p (fun r => f (g r)) i.
Proof.
  unfold upd_ring, upd_tring. destruct i; cbn. unfold set_t_ring_free_list, set_t_ring_list. cbn.
  rewrite <- !list_fmap_compose. f_equal; apply list_fmap_ext; intros k x _; cbn; unfold upd_in;
    destruct (Nat.eqb (tl_id x) (fst p)) eqn:E; cbn; rewrite E; try done; by rewrite list_alter_alter_eq.
Qed.

Lemma lists_ok_upd p f i r :
  lists_ok i -> get_ring p i = Some r -> ring_ok (f r) -> tr_tid (f r) = tr_tid r -> lists_ok (upd_ring p f i).
Proof.
  intros Hi Er Hok Ht. pose proof Hi as [Hn Hf Hw Hp Hu]. apply get_ring_tring in Er as (x & Ex & Er).
  pose proof (get_tring_in _ _ _ Ex) as [Hin Eid].
  assert (forall y, y ∈ trings i -> tl_id y = fst p -> y = x) as Hu1.
  { intros y Hy Ey. pose proof (get_tring_nodup y i Hn Hy) as Eg. rewrite Ey, Ex in Eg. congruence. }
  unfold upd_ring. split; try done.
  - by rewrite ids_upd.
  - by rewrite ids_upd.
  - rewrite trings_upd. apply Forall_fmap, Forall_forall. intros y Hy. cbn. rewrite Forall_forall in Hw.
    unfold upd_in. destruct (Nat.eqb_spec (tl_id y) (fst p)) as [E|]; [|by apply Hw].
    rewrite (Hu1 y Hy E). destruct (Hw x Hin) as [Hl Htid Hro]. split; cbn.
    + by rewrite length_alter.
    + intros k r' Hk. rewrite list_lookup_alter in Hk. case_decide as Ek; [|by apply Htid].
      rewrite Er in Hk. injection Hk as <-. rewrite Ht, <- Ek. by apply Htid.
    + apply Forall_lookup. intros k r' Hk. rewrite list_lookup_alter in Hk. rewrite Forall_lookup in Hro.
      case_decide as Ek; [|by apply (Hro k)]. rewrite Er in Hk. by injection Hk as <-.
  - rewrite trings_upd. apply Forall_fmap, Forall_forall. intros y Hy. cbn. rewrite Forall_forall in Hp.
    unfold upd_in, idle_plan. destruct (Nat.eqb _ _); cbn; by apply Hp.
Qed.

Lemma sts_ok_upd p f i r s :
  get_ring p i = Some r -> sts_ok i s ->
  (rs_ptr s = p -> (length (waiting r) <= length (waiting (f r)))%nat /\ phl_next_idx (f r) = phl_next_idx r /\
     tx_phl_idx (f r) = tx_phl_idx r) ->
  sts_ok (upd_ring p f i) s.
Proof.
  intros Er (r0 & E0 & Hb & Hx) Hf. destruct (decide (p = rs_ptr s)) as [->|Hne].
  - rewrite Er in E0. injection E0 as <-. destruct (Hf eq_refl) as (H1 & H2 & H3). exists (f r).
    rewrite get_ring_upd, decide_True, Er by done. split; [done|]. rewrite H2, H3. split; [lia|done].
  - exists r0. by rewrite get_ring_upd, decide_False.
Qed.
End ring_updates.

Section handle.
Context {H : Type} {hci : HciTx H} {hci_ok : HciTxOk H}.
Implicit Types (i : tx_info H).

Lemma slot_range p k : 0 <= slot_of p k < N4.
Proof. unfold slot_of. apply Z.mod_pos_bound. lia. Qed.

Lemma ring_has_prep r w ws q q' v :
  ring_has r (w :: ws) -> tx_entry r !! slot_of (tx_phl_idx r) 0 = Some q -> tq_ptr q' = tq_ptr q ->
  ring_has (set_next_idx v (set_phl_idx (slot_of (tx_phl_idx r) 0) (set_tx_entry (slot_of (tx_phl_idx r) 0) q' r))) ws.
Proof.
  intros Hr Eq Hq. apply ring_has_next. eapply (ring_has_pop (set_tx_entry _ q' r)), ring_has_entry; [done|].
  intros q0 E0. rewrite Eq in E0. by injection E0 as <-.
Qed.

(** One request is handed on, or the ring is left as it was. *)
Lemma handle_one_spec s i : lists_ok i -> sts_ok i s -> req_busy s <> 0 ->
  exists r w ws h f, get_ring (rs_ptr s) i = Some r /\ waiting r = w :: ws /\ next_req (rs_ptr s) i = [(rs_ptr s, w)] /\
    tr_tid (f r) = tr_tid r /\
    ((exists s', handle_one s i = (true, s', upd_ring (rs_ptr s) f (set_t_hci h i)) /\
        ring_has (f r) ws /\ rs_ptr s' = rs_ptr s /\ rs_id s' = rs_id s /\ req_busy s' = req_busy s - 1 /\
        (req_busy s' <> 0 -> phl_next_idx (f r) = slot_of (tx_phl_idx (f r)) 0) /\
        hci_reqs h ≡ₚ w :: hci_reqs (t_hci i)) \/
     (handle_one s i = (false, s, upd_ring (rs_ptr s) f (set_t_hci h i)) /\
        ring_has (f r) (w :: ws) /\ hci_reqs h ≡ₚ hci_reqs (t_hci i))).
Proof.
  intros Hi (r & Er & Hb & Hx) Hnz. specialize (Hx Hnz).
  pose proof (get_ring_ok _ _ _ Hi Er) as Hok. unfold ring_ok in Hok.
  destruct (waiting r) as [|w ws] eqn:Ew; [cbn in Hb; lia|].
  pose proof (rh_entry _ _ Hok 0%nat w eq_refl) as He. destruct (tx_entry r !! slot_of (tx_phl_idx r) 0) as [q|] eqn:Eq; [|done].
  injection He as He. pose proof (slot_range (tx_phl_idx r) 0) as Hs. rewrite <- Hx in Hs, Eq.
  assert (u16 (phl_next_idx r) = phl_next_idx r) as Eu by (unfold u16; apply Z.mod_small; lia).
  set (q1 := set_route (rs_macid s) (rs_band s) (rs_wmm s) (rs_port s) (tr_tid r) (tr_dma_ch r) q).
  pose proof (prepare_tx_spec q1 (t_hci i)) as Hprep. unfold handle_one. rewrite Er, Eu, Eq. fold q1.
  destruct (prepare_tx q1 (t_hci i)) as [[sts q2] h] eqn:Eprep. destruct Hprep as [Hq2 Hperm]. cbn in Hq2.
  assert (next_req (rs_ptr s) i = [(rs_ptr s, w)]) as En by (unfold next_req; rewrite Er; cbn; by rewrite Eu, Eq, He).
  destruct (bool_decide (sts = RTW_PHL_STATUS_SUCCESS)).
  - assert (u16 (req_busy s - 1) = req_busy s - 1) as Eb.
    { unfold u16. apply Z.mod_small. pose proof (rh_len _ _ Hok). lia. }
    rewrite Eb. cbn [set_req_busy rs_ptr req_busy]. pose proof (rh_phl _ _ Hok) as Hphl.
    exists r, w, ws, h, (fun r0 => set_next_idx (if 0 =? req_busy s - 1 then phl_next_idx r0
              else if MAX_PHL_RING_ENTRY_NUM <=? u16 (phl_next_idx r + 1) then 0 else phl_next_idx r0 + 1)
              (set_phl_idx (phl_next_idx r) (set_tx_entry (phl_next_idx r) q2 r0))).
    split; [done|]. split; [done|]. split; [done|]. split; [done|]. left.
    exists (set_req_busy (req_busy s - 1) s).
    split; [|split; [|split; [done|split; [done|split; [done|split; [|by rewrite Hperm; cbn; rewrite He]]]]]].
    + destruct (0 =? req_busy s - 1) eqn:E0; rewrite !upd_ring_compose; done.
    + rewrite Hx. by apply (ring_has_prep r w ws q q2); [|rewrite <- Hx|].
    + cbn [req_busy set_req_busy phl_next_idx tx_phl_idx set_next_idx set_phl_idx]. intros Hnz'.
      replace (0 =? req_busy s - 1) with false by lia. cbn [phl_next_idx set_phl_idx set_tx_entry]. unfold slot_of, u16, MAX_PHL_RING_ENTRY_NUM.
      rewrite (Z.mod_small (phl_next_idx r + 1)) by lia. 
      destruct (Z.leb_spec N4 (phl_next_idx r + 1)); lia.
  - exists r, w, ws, h, (set_tx_entry (phl_next_idx r) q2). split; [done|]. split; [done|]. split; [done|]. split; [done|].
    right. split; [done|]. split; [|done]. apply ring_has_entry; [done|]. intros q0 E0. rewrite Eq in E0. injection E0 as <-. done.
Qed.
End handle.

(** ** Bookkeeping *)

Section logs.
Implicit Types (p : ring_ptr) (l : list (ring_ptr * nat)).

Lemma on_app p l1 l2 : on p (l1 ++ l2) = on p l1 ++ on p l2.
Proof. apply omap_app. Qed.

Lemma on_single p p' w : on p [(p', w)] = if decide (p' = p) then [w] else [].
Proof. unfold on. cbn. by case_decide. Qed.

Lemma on_old p l n : Forall (fun x => fst (fst x) < n)%nat l -> (n <= fst p)%nat -> on p l = [].
Proof.
  intros Hl Hp. unfold on. induction Hl as [|x l Hx Hl IH]; [done|]. cbn.
  rewrite decide_False; [done|]. intros E. subst p. cbn in Hx.
  exact (Nat.lt_irrefl _ (Nat.le_lt_trans _ _ _ Hp Hx)).
Qed.
End logs.

Section steps.
Context {H : Type} {hci : HciTx H} {hci_ok : HciTxOk H}.
Implicit Types (i j : tx_info H) (s : tx_sys H).

(** What the invariant says of the lists only depends on these fields. *)
Lemma lists_ok_ext i j :
  t_ring_list j = t_ring_list i -> t_ring_free_list j = t_ring_free_list i -> tl_fresh j = tl_fresh i ->
  tx_ub j = tx_ub i -> lists_ok i -> lists_ok j.
Proof.
  intros E1 E2 E3 E4 [Hn Hf Hw Hp Hu]. assert (trings j = trings i) as Et by (unfold trings; by rewrite E1, E2).
  split; unfold ids in *; by rewrite ?Et, ?E3, ?E4.
Qed.

Lemma order_upd (A B A' B' : list (ring_ptr * nat)) p f i r :
  (forall p r, get_ring p i = Some r -> on p A = on p B ++ waiting r) ->
  get_ring p i = Some r -> on p A' = on p B' ++ waiting (f r) ->
  (forall p', p' <> p -> on p' A' = on p' A /\ on p' B' = on p' B) ->
  forall p' r', get_ring p' (upd_ring p f i) = Some r' -> on p' A' = on p' B' ++ waiting r'.
Proof.
  intros Ho Er Ep Hne p' r' E'. rewrite get_ring_upd in E'. case_decide as Ed.
  - subst p'. rewrite Er in E'. injection E' as <-. done.
  - destruct (Hne p') as [-> ->]; [done|]. by apply Ho.
Qed.

Lemma find_macid_in macid i t : lists_ok i -> find_macid macid i = Some t ->
  get_tring (tl_id t) i = Some t /\ tring_wf t.
Proof.
  intros Hi E. apply find_some in E as [Hin _]. apply list_elem_of_In in Hin.
  assert (t ∈ trings i) as Ht by (unfold trings; apply elem_of_app; by left).
  split; [by apply get_tring_nodup; [apply Hi|]|]. pose proof (lo_wf _ Hi) as Hw. rewrite Forall_forall in Hw. by apply Hw.
Qed.

Lemma hand_ok_ext pc i j :
  t_fctrl_result j = t_fctrl_result i -> ring_sts_idle j = ring_sts_idle i ->
  (forall x, x ∈ in_hand pc i -> sts_ok i x -> sts_ok j x) -> hand_ok pc i -> hand_ok pc j.
Proof.
  intros E1 E2 Hs [H1 H2 H3 H4]. assert (in_hand pc j = in_hand pc i) as Eh by (unfold in_hand; by rewrite E1).
  split; rewrite ?Eh, ?E2; try done.
  - rewrite Forall_forall in *. intros x Hx. apply Hs; [done|by apply H1].
  - intros Hpc. rewrite E1. by apply H4.
Qed.

Lemma inv_add now q s :
  0 <= md_tid q < Z.of_nat MAX_PHL_RING_CAT_NUM -> tx_inv s -> tx_inv (add_req now q s).
Proof.
  intros Hq [Hl Hh Ha Ho Hold]. unfold add_req, rtw_phl_add_tx_req, ring_of. set (i := ts_info s) in *.
  destruct (find_macid (md_macid q) i) as [t|] eqn:Ef; [|cbn; rewrite app_nil_r; by split].
  destruct (find_macid_in _ _ _ Hl Ef) as [Eg Hw].
  destruct (lookup_lt_is_Some_2 (phl_ring t) (Z.to_nat (md_tid q))) as [r Er]; [rewrite (tw_len _ Hw); lia|].
  set (p := (tl_id t, Z.to_nat (md_tid q))). change (Z.to_nat (md_tid q)) with (snd p) in Er. cbn [snd]. fold p. rewrite Er.
  assert (get_ring p i = Some r) as Egr by (unfold get_ring, p; cbn; by rewrite Eg).
  pose proof (get_ring_ok _ _ _ Hl Egr) as Hr. rewrite (avail_wptr _ _ Hr).
  destruct (Z.ltb_spec 0 (N4 - 1 - Z.of_nat (length (waiting r)))) as [Hroom|]; [|cbn; rewrite app_nil_r; by split].
  set (core := (tx_core_idx r + 1) mod MAX_PHL_RING_ENTRY_NUM). set (f := fun r => set_tx_entry core q (set_core_idx core r)).
  pose proof (ring_has_add r _ q Hr ltac:(lia)) as Hf. cbv zeta in Hf. fold core in Hf. fold (f r) in Hf.
  pose proof (ring_has_waiting _ _ Hf) as Ew. rewrite (bool_decide_eq_true_2 (RTW_PHL_STATUS_SUCCESS = RTW_PHL_STATUS_SUCCESS)) by done.
  destruct (waiting_split p i r (lo_ids _ Hl) Egr) as (X & Y & E1 & E2).
  split; cbn [ts_info ts_pc ts_acc ts_prep ts_back].
  - eapply (lists_ok_ext (upd_ring p f i)); try done. eapply lists_ok_upd; [done|done|by eapply ring_has_ok|done].
  - eapply (hand_ok_ext _ i); try done. intros x _ Hx. eapply (sts_ok_upd p f i r x Egr Hx). intros _.
    rewrite Ew, length_app. split; [cbn; lia|done].
  - change (all_waiting (set_phl_sw_tx_more true (phl_tx_statistics now q (upd_ring p f i)))) with (all_waiting (upd_ring p f i)).
    rewrite fmap_app, Ha, E1, (E2 f), Ew. cbn. solve_Permutation.
  - apply (order_upd (ts_acc s) (ts_prep s) _ _ p f i r); try done.
    + rewrite on_app, Ew, (Ho p r Egr), on_single, decide_True by done. by rewrite app_assoc.
    + intros p' Hp'. rewrite on_app, on_single, decide_False by done. by rewrite app_nil_r.
  - cbn. rewrite !Forall_app in *. destruct Hold as [H1 H2]. split; [|done]. split; [done|]. constructor; [|done]. cbn.
    pose proof (lo_fresh _ Hl) as Hfr. rewrite Forall_forall in Hfr. apply Hfr. apply get_tring_in in Eg as [Hin _].
    by apply list_elem_of_fmap_2.
Qed.

(** Pointers stay valid when the lists are rearranged or grow. *)
Lemma get_tring_sub t i j x :
  NoDup (ids j) -> (forall y, y ∈ trings i -> y ∈ trings j) -> get_tring t i = Some x -> get_tring t j = Some x.
Proof.
  intros Hn Hs E. apply get_tring_in in E as [Hin <-]. apply get_tring_nodup; [done|by apply Hs].
Qed.

Lemma get_ring_sub p i j r :
  NoDup (ids j) -> (forall y, y ∈ trings i -> y ∈ trings j) -> get_ring p i = Some r -> get_ring p j = Some r.
Proof.
  intros Hn Hs E. apply get_ring_tring in E as (x & Ex & Er). unfold get_ring.
  by rewrite (get_tring_sub _ _ _ _ Hn Hs Ex).
Qed.

Lemma sts_ok_sub i j x :
  NoDup (ids j) -> (forall y, y ∈ trings i -> y ∈ trings j) -> sts_ok i x -> sts_ok j x.
Proof. intros Hn Hs (r & Er & Hr). exists r. by rewrite (get_ring_sub _ _ _ _ Hn Hs Er). Qed.

Lemma new_tring_wf id macid band wmm port :
  tring_wf (_phl_allocate_phl_tring_list id macid band wmm port) /\
  tring_waiting (_phl_allocate_phl_tring_list id macid band wmm port) = [] /\
  forall k r, phl_ring (_phl_allocate_phl_tring_list id macid band wmm port) !! k = Some r -> waiting r = [].
Proof.
  assert (forall k r, phl_ring (_phl_allocate_phl_tring_list id macid band wmm port) !! k = Some r ->
    tr_tid r = Z.of_nat k /\ waiting r = [] /\ ring_ok r) as Hk.
  { intros k r Hk. cbn [phl_ring _phl_allocate_phl_tring_list] in Hk. rewrite list_lookup_fmap in Hk.
    destruct (seq 0 MAX_PHL_RING_CAT_NUM !! k) as [k'|] eqn:Ek; [|done]. injection Hk as <-.
    apply lookup_seq in Ek as [-> _]. split; [done|].
    match goal with |- waiting (tx_ring0 ?a ?b) = _ /\ _ => pose proof (ring0_has a b) as Hr end.
    split; [by apply ring_has_waiting|by eapply ring_has_ok]. }
  split; [split|split].
  - done.
  - intros k r E. by apply Hk in E as (? & ? & ?).
  - apply Forall_lookup. intros k r E. by apply Hk in E as (? & ? & ?).
  - done.
  - intros k r E. by apply Hk in E as (? & ? & ?).
Qed.

Lemma inv_register ok macid band wmm port s :
  tx_inv s -> tx_inv (with_info (snd (phl_register_tx_ring ok macid band wmm port (ts_info s))) s).
Proof.
  intros Hs. destruct ok; [|by destruct s]. pose proof Hs as [Hl Hh Ha Ho Hold]. unfold phl_register_tx_ring. cbn [snd].
  set (i := ts_info s) in *. set (t := _phl_allocate_phl_tring_list (tl_fresh i) macid band wmm port).
  destruct (new_tring_wf (tl_fresh i) macid band wmm port) as (Hw & Hwt & Hwr). fold t in Hw, Hwt, Hwr.
  set (j := set_tl_fresh _ _). assert (trings j = t_ring_list i ++ t :: t_ring_free_list i) as Et
    by (unfold trings, j; cbn; by rewrite <- app_assoc).
  assert (trings j ≡ₚ t :: trings i) as Hp by (rewrite Et; by rewrite <- Permutation_middle).
  assert (NoDup (ids j)) as Hn.
  { unfold ids. rewrite Hp. cbn. apply NoDup_cons. split; [|apply Hl]. intros Hin. pose proof (lo_fresh _ Hl) as Hf.
    rewrite Forall_forall in Hf. specialize (Hf _ Hin). lia. }
  assert (forall y, y ∈ trings i -> y ∈ trings j) as Hsub by (intros y Hy; rewrite Hp; by apply list_elem_of_further).
  split; cbn [ts_info ts_pc ts_acc ts_prep ts_back with_info].
  - split; [done| | | |apply Hl].
    + unfold ids. rewrite Hp. constructor; [cbn; lia|]. eapply Forall_impl; [apply Hl|]. cbn. lia.
    + rewrite Hp. constructor; [done|apply Hl].
    + rewrite Hp. constructor; [done|apply Hl].
  - eapply (hand_ok_ext _ i); try done. intros x _. by apply sts_ok_sub.
  - rewrite Ha. unfold all_waiting. rewrite Hp. cbn [fmap list_fmap concat]. by rewrite Hwt.
  - intros p r Er. destruct (decide (fst p = tl_fresh i)) as [E|E].
    + apply get_ring_tring in Er as (x & Ex & Er). assert (x = t) as ->.
      { assert (get_tring (tl_id t) j = Some t) as Et' by (apply get_tring_nodup; [done|rewrite Hp; apply list_elem_of_here]).
        change (tl_id t) with (tl_fresh i) in Et'. rewrite <- E, Ex in Et'. congruence. }
      rewrite (Hwr _ _ Er). apply Forall_app in Hold as [H1 H2]. rewrite !(on_old p _ (tl_fresh i)) by (done || lia). done.
    + apply Ho. apply get_ring_tring in Er as (x & Ex & Er). pose proof (get_tring_in _ _ _ Ex) as [Hin Ei].
      rewrite Hp in Hin. apply elem_of_cons in Hin as [->|Hin]; [done|]. unfold get_ring.
      rewrite <- Ei, (get_tring_nodup x i) by (done || apply Hl). done.
  - eapply Forall_impl; [exact Hold|]. cbn. lia.
Qed.

Lemma take_macid_spec macid l t r : take_macid macid l = (Some t, r) -> l ≡ₚ t :: r.
Proof.
  revert r. induction l as [|x l IH]; intros r E; [done|]. cbn in E. destruct (macid =? tl_macid x).
  - by injection E as <- <-.
  - destruct (take_macid macid l) as [o r']. injection E as -> <-. rewrite (IH r' eq_refl). apply Permutation_swap.
Qed.

Lemma inv_remove macid s : tx_inv s -> tx_inv (with_info (snd (phl_deregister_tx_ring macid (ts_info s))) s).
Proof.
  intros Hs. unfold phl_deregister_tx_ring. destruct (take_macid macid (t_ring_list (ts_info s))) as [[t|] l] eqn:E; [|by destruct s].
  apply take_macid_spec in E. pose proof Hs as [Hl Hh Ha Ho Hold]. cbn [snd]. set (i := ts_info s) in *. set (j := set_t_ring_free_list _ _).
  assert (trings j ≡ₚ trings i) as Hp by (unfold trings, j; cbn; rewrite E; solve_Permutation).
  assert (NoDup (ids j)) as Hn by (unfold ids; rewrite Hp; apply Hl).
  split; cbn [ts_info ts_pc ts_acc ts_prep ts_back with_info]; try done.
  - split; [done| | | |apply Hl]; unfold ids; rewrite Hp; apply Hl.
  - eapply (hand_ok_ext _ i); try done. intros x _. apply sts_ok_sub; [done|]. intros y. by rewrite Hp.
  - rewrite Ha. unfold all_waiting. by rewrite Hp.
  - intros p r Er. apply Ho. eapply (get_ring_sub p j); [apply Hl| |done]. intros y. by rewrite Hp.
Qed.

Lemma tring_freed t : tring_wf t -> _phl_free_phl_tring_list t = tring_waiting t.
Proof.
  intros [_ _ Hok]. unfold _phl_free_phl_tring_list, tring_waiting. f_equal. apply list_fmap_ext. intros k r Hk.
  apply free_ring_waiting. rewrite Forall_lookup in Hok. by eapply Hok.
Qed.

Lemma inv_free pc s : (ts_pc s = TIdle \/ ts_pc s = TEnd) -> (pc = TIdle \/ pc = TEnd) ->
  tx_inv s -> tx_inv (at_pc pc (phl_free_deferred_tx_ring (ts_info s)) s).
Proof.
  intros Hpc Hpc' [Hl Hh Ha Ho Hold]. set (i := ts_info s) in *. set (j := phl_free_deferred_tx_ring i).
  assert (trings j = t_ring_list i) as Et by (unfold trings, j; cbn; by rewrite app_nil_r).
  assert (forall y, y ∈ trings j -> y ∈ trings i) as Hsub by (rewrite Et; intros y Hy; unfold trings; apply elem_of_app; by left).
  assert (lists_ok j) as Hlj.
  { destruct Hl as [Hn Hf Hw Hp Hu]. unfold ids, trings in Hn, Hf, Hw, Hp. rewrite fmap_app in Hn, Hf. apply NoDup_app in Hn as (Hn & _).
    apply Forall_app in Hf as [Hf _], Hw as [Hw _], Hp as [Hp _]. split; unfold ids; rewrite ?Et; done. }
  assert (in_hand (ts_pc s) i = []) as Eh.
  { unfold in_hand. rewrite (ho_rest _ _ Hh Hpc). by destruct Hpc as [-> | ->]. }
  assert (in_hand pc j = []) as Ehj.
  { unfold in_hand. change (t_fctrl_result j) with (t_fctrl_result i). rewrite (ho_rest _ _ Hh Hpc). by destruct Hpc' as [-> | ->]. }
  destruct Hh as [H1 H2 H3 H4]. rewrite Eh in *.
  split; cbn [ts_info ts_pc ts_acc ts_prep ts_back at_pc]; try done.
  - split; rewrite ?Ehj; try done. intros _. by apply H4.
  - assert (all_waiting i ≡ₚ all_waiting j ++ concat (_phl_free_phl_tring_list <$> t_ring_free_list i)) as Ew.
    { unfold all_waiting. rewrite Et. unfold trings. rewrite fmap_app, concat_app. apply Permutation_app_head.
      rewrite (list_fmap_ext _phl_free_phl_tring_list tring_waiting (t_ring_free_list i)); [done|].
      intros k t Hk. apply tring_freed. pose proof (lo_wf _ Hl) as Hw. unfold trings in Hw. apply Forall_app in Hw as [_ Hw].
      rewrite Forall_lookup in Hw. by eapply Hw. }
    rewrite Ha, Ew. change (tx_recycled j) with (tx_recycled i ++ concat (_phl_free_phl_tring_list <$> t_ring_free_list i)).
    change (t_hci j) with (t_hci i). solve_Permutation.
  - intros p r Er. apply Ho. eapply (get_ring_sub p j); [apply Hl|done|done].
Qed.

Lemma inv_bus h back s :
  hci_reqs (t_hci (ts_info s)) ≡ₚ back ++ hci_reqs h -> tx_inv s ->
  tx_inv (mkSys (set_t_hci h (ts_info s)) (ts_pc s) (ts_acc s) (ts_prep s) (ts_back s ++ back)).
Proof.
  intros Hb [Hl Hh Ha Ho Hold]. split; cbn [ts_info ts_pc ts_acc ts_prep ts_back]; try done.
  - by eapply (lists_ok_ext (ts_info s)).
  - by eapply (hand_ok_ext _ (ts_info s)).
  - rewrite Ha, Hb. change (all_waiting (set_t_hci h (ts_info s))) with (all_waiting (ts_info s)). cbn. solve_Permutation.
Qed.
End steps.

(** ** Planning keeps what the rings hold *)

Lemma ready_waiting r : waiting (ready r) = waiting r.
Proof. done. Qed.

Lemma ready_ok r : ring_ok r -> ring_ok (ready r) /\ phl_next_idx (ready r) = slot_of (tx_phl_idx r) 0.
Proof.
  intros Hr. split; [by apply (ring_has_next r (waiting r))|]. pose proof (rh_phl _ _ Hr).
  unfold ready, slot_of, u16, MAX_PHL_RING_ENTRY_NUM. cbn. rewrite (Z.mod_small (tx_phl_idx r)) by lia.
  rewrite (Z.mod_small (tx_phl_idx r + 1)) by lia. destruct (Z.leb_spec N4 (tx_phl_idx r + 1)); lia.
Qed.

Lemma make_ready_lookup ss rs k :
  foldl make_ready rs ss !! k =
  (fun r => if decide (k ∈ (fun s => snd (rs_ptr s)) <$> ss) then ready r else r) <$> rs !! k.
Proof.
  revert rs. induction ss as [|s ss IH]; intros rs.
  { cbn. destruct (rs !! k); [|done]. cbn. by rewrite decide_False by apply not_elem_of_nil. }
  cbn [foldl]. rewrite IH. unfold make_ready. rewrite list_lookup_alter, fmap_cons. destruct (decide (snd (rs_ptr s) = k)) as [E|E].
  - subst k. destruct (rs !! snd (rs_ptr s)) as [r|]; [|done]. cbn. f_equal.
    rewrite (decide_True (P := snd (rs_ptr s) ∈ snd (rs_ptr s) :: _)) by apply list_elem_of_here. by case_decide.
  - destruct (rs !! k); [|done]. cbn. f_equal.
    destruct (decide (k ∈ (fun s => snd (rs_ptr s)) <$> ss)) as [Hin|Hn].
    + by rewrite decide_True by (by apply list_elem_of_further).
    + rewrite decide_False; [done|]. rewrite elem_of_cons. by intros [?|?].
Qed.

Lemma make_ready_length ss rs : length (foldl make_ready rs ss) = length rs.
Proof. revert rs. induction ss as [|s ss IH]; intros rs; [done|]. cbn [foldl]. rewrite IH. apply length_alter. Qed.

Lemma served_ok t ss : tring_wf t -> tring_wf (served t ss) /\ tring_waiting (served t ss) = tring_waiting t /\
  forall k r', phl_ring (served t ss) !! k = Some r' -> exists r, phl_ring t !! k = Some r /\ waiting r' = waiting r.
Proof.
  intros [Hl Ht Hok].
  assert (forall k r', phl_ring (served t ss) !! k = Some r' -> exists r, phl_ring t !! k = Some r /\
    waiting r' = waiting r /\ tr_tid r' = tr_tid r /\ (ring_ok r -> ring_ok r')) as Hk.
  { intros k r' E. cbn in E. rewrite make_ready_lookup in E. destruct (phl_ring t !! k) as [r|]; [|done].
    exists r. injection E as <-. split; [done|]. case_decide; [|done]. split; [done|]. split; [done|]. apply ready_ok. }
  split; [split|split].
  - cbn. by rewrite make_ready_length.
  - intros k r' E. destruct (Hk k r' E) as (r & Er & _ & -> & _). by apply Ht.
  - apply Forall_lookup. intros k r' E. destruct (Hk k r' E) as (r & Er & _ & _ & Hr). apply Hr.
    rewrite Forall_lookup in Hok. by eapply Hok.
  - unfold tring_waiting. f_equal. apply list_eq. intros k. rewrite !list_lookup_fmap. cbn. rewrite make_ready_lookup.
    destruct (phl_ring t !! k) as [r|]; [|done]. cbn. f_equal. by case_decide.
  - intros k r' E. destruct (Hk k r' E) as (r & Er & Hw & _). by exists r.
Qed.

(** The statuses of a plan point to different rings of the lists. *)
Lemma statuses_ptr t idle s : s ∈ statuses t idle -> fst (rs_ptr s) = tl_id t.
Proof. intros Hs. by apply statuses_in in Hs as (k & r & _ & _ & _ & ->). Qed.

Lemma plan_all_ptr l idle s : s ∈ concat (plan_all l idle) -> fst (rs_ptr s) ∈ tl_id <$> l.
Proof.
  revert idle. induction l as [|t l IH]; intros idle Hs; [by apply elem_of_nil in Hs|]. cbn [plan_all concat] in Hs.
  apply elem_of_app in Hs as [Hs|Hs]; cbn.
  - rewrite (statuses_ptr _ _ _ Hs). apply list_elem_of_here.
  - apply list_elem_of_further. by eapply IH.
Qed.

Lemma plan_all_nodup l idle : Forall tring_wf l -> NoDup (tl_id <$> l) -> NoDup (rs_ptr <$> concat (plan_all l idle)).
Proof.
  intros Hw. revert idle. induction Hw as [|t l Ht Hw IH]; intros idle Hn; [constructor|].
  cbn [plan_all concat]. apply NoDup_cons in Hn as [Hni Hn]. rewrite fmap_app. apply NoDup_app. split; [|split].
  - pose proof (ascending_nodup _ (statuses_ascending t idle Ht)) as Hd.
    assert (rs_tid <$> statuses t idle = (fun p => Z.of_nat (snd p)) <$> (rs_ptr <$> statuses t idle)) as E.
    { rewrite <- list_fmap_compose. apply list_fmap_ext. intros k s Hs. apply (statuses_tid t idle s Ht).
      by eapply list_elem_of_lookup_2. }
    rewrite E in Hd. by apply NoDup_fmap_1 in Hd.
  - intros p Hp Hp'. apply list_elem_of_fmap in Hp as (s & -> & Hs), Hp' as (s' & E & Hs').
    apply Hni. rewrite <- (statuses_ptr _ _ _ Hs), E. by eapply plan_all_ptr.
  - by apply IH.
Qed.

(** Each ring list with its statuses. *)
Lemma plan_all_lookup l idle n t ss :
  l !! n = Some t -> plan_all l idle !! n = Some ss -> exists idle', ss = statuses t idle'.
Proof.
  revert idle n. induction l as [|x l IH]; intros idle [|n] E1 E2; try done; cbn in E1, E2.
  - injection E1 as ->. injection E2 as <-. by exists idle.
  - by eapply IH.
Qed.

Lemma served_all l Ss : length Ss = length l -> Forall tring_wf l -> Forall idle_plan l ->
  tl_id <$> zip_with served l Ss = tl_id <$> l /\ Forall tring_wf (zip_with served l Ss) /\
  Forall idle_plan (zip_with served l Ss) /\ concat (tring_waiting <$> zip_with served l Ss) = concat (tring_waiting <$> l).
Proof.
  revert Ss. induction l as [|t l IH]; intros [|ss Ss] El Hw Hp; try done. injection El as El.
  apply Forall_cons in Hw as [Ht Hw]. apply Forall_cons in Hp as [Hpt Hp].
  destruct (IH Ss El Hw Hp) as (I1 & I2 & I3 & I4). destruct (served_ok t ss Ht) as (S1 & S2 & _).
  cbn [zip_with fmap list_fmap concat]. rewrite I1, I4, S2. split; [done|]. split; [by constructor|]. split; [by constructor|done].
Qed.

Section handler.
Context {H : Type} {hci : HciTx H} {hci_ok : HciTxOk H}.
Implicit Types (i j : tx_info H) (s : tx_sys H).

(** A status of the plan points to a ring with that many requests, made
    ready. *)
Lemma plan_sts_ok i j x :
  let Ss := plan_all (t_ring_list i) (ring_sts_idle i) in
  trings j = zip_with served (t_ring_list i) Ss ++ t_ring_free_list i -> NoDup (ids j) ->
  Forall tring_wf (t_ring_list i) -> length Ss = length (t_ring_list i) -> x ∈ concat Ss -> sts_ok j x.
Proof.
  intros Ss Et Hn Hw Hlen Hx. apply list_elem_of_In, in_concat in Hx as (ss & Hss & Hx).
  apply list_elem_of_In in Hss, Hx. apply list_elem_of_lookup in Hss as [n Hss].
  destruct (lookup_lt_is_Some_2 (t_ring_list i) n) as [t Ht]; [rewrite <- Hlen; by eapply lookup_lt_Some|].
  destruct (plan_all_lookup _ _ _ _ _ Ht Hss) as [idle ->]. pose proof Hx as Hx'.
  apply statuses_in in Hx as (k & r & Hk & Er & Hr & Ex). rewrite Forall_lookup in Hw. pose proof (Hw n t Ht) as Hwt.
  assert (ring_ok r) as Hro by (pose proof (tw_ok _ Hwt) as Hok; rewrite Forall_lookup in Hok; by eapply Hok).
  exists (ready r). rewrite Ex. cbn [rs_ptr mk_sts req_busy]. rewrite Er. cbn [from_option].
  assert (ring_avail r = Z.of_nat (length (waiting r))) as Ea by (by apply avail_rptr).
  split; [|rewrite ready_waiting; split; [lia|intros _; apply (proj2 (ready_ok r Hro))]].
  unfold get_ring. cbn [fst snd]. change (tl_id t) with (tl_id (served t (statuses t idle))).
  rewrite (get_tring_nodup (served t (statuses t idle)) j Hn).
  - cbn. rewrite make_ready_lookup, Er. cbn. rewrite decide_True; [done|].
    apply list_elem_of_fmap. exists x. split; [by rewrite Ex|done].
  - rewrite Et. apply elem_of_app. left. apply list_elem_of_lookup. exists n. by rewrite lookup_zip_with, Ht, Hss.
Qed.

Lemma plan_ring i j p r' :
  let Ss := plan_all (t_ring_list i) (ring_sts_idle i) in
  trings j = zip_with served (t_ring_list i) Ss ++ t_ring_free_list i -> NoDup (ids i) ->
  Forall tring_wf (t_ring_list i) -> get_ring p j = Some r' -> exists r, get_ring p i = Some r /\ waiting r' = waiting r.
Proof.
  intros Ss Et Hn Hw E. apply get_ring_tring in E as (x & Ex & Er). apply get_tring_in in Ex as [Hin Exi].
  rewrite Et in Hin. unfold get_ring. apply elem_of_app in Hin as [Hin|Hin].
  - apply elem_of_lookup_zip_with in Hin as (n & t & ss & -> & Et' & _). apply list_elem_of_lookup_2 in Et'.
    rewrite Forall_forall in Hw. destruct (served_ok t ss (Hw t Et')) as (_ & _ & Hs). destruct (Hs _ _ Er) as (r & Er' & Ew).
    exists r. split; [|done]. change (tl_id (served t ss)) with (tl_id t) in Exi.
    rewrite <- Exi, (get_tring_nodup t i) by (done || (unfold trings; apply elem_of_app; by left)). done.
  - exists r'. split; [|done].
    rewrite <- Exi, (get_tring_nodup x i) by (done || (unfold trings; apply elem_of_app; by right)). done.
Qed.

Lemma inv_plan s : ts_pc s = TIdle -> tx_inv s -> tx_inv (tx_turn s).
Proof.
  intros Hpc [Hl Hh Ha Ho Hold]. set (i := ts_info s) in *. unfold tx_turn. rewrite Hpc in *. fold i.
  destruct Hh as [_ _ Hpool Hrest]. specialize (Hrest (or_introl eq_refl)).
  unfold in_hand in Hpool. rewrite Hrest in Hpool. cbn [held app fmap list_fmap] in Hpool. rewrite app_nil_r in Hpool.
  pose proof Hl as [Hn Hf Hw Hp Hu]. unfold trings in Hw, Hp. apply Forall_app in Hw as [Hw Hwf], Hp as [Hp Hpf].
  assert (NoDup (tl_id <$> t_ring_list i)) as Hnl by (unfold ids, trings in Hn; rewrite fmap_app in Hn; by apply NoDup_app in Hn as (? & _)).
  assert (NoDup (ring_sts_idle i)) as Hni by (rewrite Hpool; apply NoDup_seq).
  rewrite plan_tx_spec by done. set (Ss := plan_all _ _). set (j := set_t_fctrl_result _ _).
  destruct (plan_all_ok (t_ring_list i) (ring_sts_idle i) Hw) as [Hok Hlen]. fold Ss in Hok, Hlen.
  destruct (served_all _ Ss Hlen Hw Hp) as (S1 & S2 & S3 & S4).
  assert (trings j = zip_with served (t_ring_list i) Ss ++ t_ring_free_list i) as Et by done.
  assert (ids j = ids i) as Ei by (unfold ids; rewrite Et; unfold trings; rewrite !fmap_app, S1; done).
  assert (lists_ok j) as Hlj.
  { split; rewrite ?Ei, ?Et; try done; by apply Forall_app. }
  split; cbn [ts_info ts_pc ts_acc ts_prep ts_back at_pc]; try done.
  - assert (forall pc, pc = TServe \/ pc = TEnd -> in_hand pc j = flow Ss) as Eh
      by (intros ? [-> | ->]; done).
    set (pc := if negb _ then TServe else TEnd).
    assert (pc = TServe \/ pc = TEnd /\ flow Ss = []) as Hpc'.
    { unfold pc. destruct (decide (concat Ss = [])) as [E|E].
      - rewrite bool_decide_eq_true_2 by done. right. split; [done|]. by apply flow_nil.
      - rewrite bool_decide_eq_false_2 by done. by left. }
    assert (in_hand pc j = flow Ss) as Ehp by (apply Eh; destruct Hpc' as [?|[? _]]; tauto). clearbody pc.
    split; rewrite ?Ehp.
    + rewrite (flow_perm Ss Hok). apply Forall_forall. intros x Hx.
      by apply (plan_sts_ok i j x Et (lo_ids _ Hlj) Hw Hlen).
    + rewrite (flow_perm Ss Hok). by apply plan_all_nodup.
    + rewrite (flow_perm Ss Hok). rewrite <- Hpool. change (ring_sts_idle j) with (left_over (t_ring_list i) (ring_sts_idle i)).
      rewrite Permutation_app_comm. unfold Ss. by rewrite plan_ids.
    + intros [->| ->]; destruct Hpc' as [?|[? E]]; try done.
  - rewrite Ha. apply Permutation_app; [|done]. unfold all_waiting. rewrite Et. unfold trings. by rewrite !fmap_app, !concat_app, S4.
  - intros p r' E. destruct (plan_ring i j p r' Et Hn Hw E) as (r & Er & ->). by apply Ho.
Qed.

Lemma inv_serve s : ts_pc s = TServe -> tx_inv s -> tx_inv (tx_turn s).
Proof.
  intros Hpc [Hl Hh Ha Ho Hold]. unfold tx_turn. rewrite Hpc in *. destruct Hh as [H1 H2 H3 H4].
  unfold in_hand in *. cbn [held app] in *. destruct (t_fctrl_result (ts_info s)) as [|x l] eqn:Er.
  - split; cbn; try done. by split; unfold in_hand; cbn [held app]; rewrite ?Er.
  - split; cbn; try done; [by eapply (lists_ok_ext (ts_info s))|]. split; unfold in_hand; cbn [held app t_fctrl_result set_t_fctrl_result]; try done.
    by intros [?|?].
Qed.

(** A status goes back to the pool. *)
Lemma hand_release x y i j : hand_ok (THandle x) i -> rs_id y = rs_id x ->
  t_fctrl_result j = t_fctrl_result i -> ring_sts_idle j = ring_sts_idle i -> Forall (sts_ok j) (t_fctrl_result i) ->
  hand_ok TServe (phl_release_ring_sts y j).
Proof.
  intros [_ H2 H3 H4] Ey Er Ei Hj. unfold in_hand in *. cbn [held app] in *.
  rewrite fmap_cons in H2. apply NoDup_cons in H2 as [_ H2]. split; unfold in_hand; cbn [held app].
  - cbn. by rewrite Er.
  - cbn. by rewrite Er.
  - rewrite <- H3. cbn [phl_release_ring_sts ring_sts_idle set_ring_sts_idle t_fctrl_result fmap list_fmap].
    rewrite Ey, Er, Ei. solve_Permutation.
  - by intros [?|?].
Qed.

(** Another ring's status does not see the change. *)
Lemma others_ok p f i r x l :
  get_ring p i = Some r -> rs_ptr x = p -> NoDup (rs_ptr <$> x :: l) -> Forall (sts_ok i) l -> Forall (sts_ok (upd_ring p f i)) l.
Proof.
  intros Er Ep Hn Hl. rewrite fmap_cons in Hn. apply NoDup_cons in Hn as [Hn _]. rewrite Forall_forall in *. intros y Hy.
  apply (sts_ok_upd p f i r y Er (Hl y Hy)). intros E. destruct Hn. rewrite Ep, <- E. by apply list_elem_of_fmap_2.
Qed.

Lemma get_ring_fresh p i r : lists_ok i -> get_ring p i = Some r -> (fst p < tl_fresh i)%nat.
Proof.
  intros Hl E. apply get_ring_tring in E as (x & Ex & _). apply get_tring_in in Ex as [Hin <-].
  pose proof (lo_fresh _ Hl) as Hf. rewrite Forall_forall in Hf. by apply Hf, list_elem_of_fmap_2.
Qed.

Lemma inv_handle s x : ts_pc s = THandle x -> tx_inv s -> tx_inv (tx_turn s).
Proof.
  intros Hpc [Hl Hh Ha Ho Hold]. unfold tx_turn. rewrite Hpc in *. set (i := ts_info s) in *.
  destruct (Z.eqb_spec 0 (req_busy x)) as [E0|E0].
  { split; cbn [ts_info ts_pc ts_acc ts_prep ts_back at_pc]; try done; [by eapply (lists_ok_ext i)|].
    eapply (hand_release x); try done. destruct Hh as [H1 _ _ _]. by apply Forall_cons in H1 as [_ ?]. }
  pose proof Hh as [H1 H2 H3 H4]. unfold in_hand in H1, H2, H3. cbn [held app] in H1, H2, H3. apply Forall_cons in H1 as [Hx H1].
  destruct (handle_one_spec x i Hl Hx ltac:(done)) as (r & w & ws & h & f & Er & Ew & En & Ht & Hcase).
  set (i0 := set_t_hci h i). assert (lists_ok i0) as Hl0 by (by eapply (lists_ok_ext i)).
  change (get_ring (rs_ptr x) i0 = Some r) in Er. assert (Forall (sts_ok i0) (t_fctrl_result i)) as H10 by done.
  destruct (waiting_split (rs_ptr x) i0 r (lo_ids _ Hl0) Er) as (X & Y & E1 & E2). change (all_waiting i0) with (all_waiting i) in E1.
  pose proof (others_ok (rs_ptr x) f i0 r x _ Er eq_refl H2 H10) as H1'.
  destruct Hcase as [(s' & -> & Hf & P1 & P2 & P3 & P4 & P5)|(-> & Hf & P5)]; pose proof (ring_has_waiting _ _ Hf) as Ewf; fold i0.
  - rewrite En. split; cbn [ts_info ts_pc ts_acc ts_prep ts_back].
    + eapply lists_ok_upd; [done|done|by eapply ring_has_ok|done].
    + split; unfold in_hand; cbn [held app].
      * constructor; [|done]. exists (f r). rewrite P1, get_ring_upd, decide_True, Er by done. split; [done|].
        rewrite Ewf, P3. destruct Hx as (r0 & Er0 & Hb & _). change (get_ring (rs_ptr x) i = Some r) in Er. rewrite Er in Er0.
        injection Er0 as <-. rewrite Ew in Hb. cbn in Hb. split; [lia|]. rewrite <- P3. done.
      * cbn. rewrite P1. done.
      * cbn. rewrite P2. done.
      * by intros [?|?].
    + rewrite Ha, E1, (E2 f), Ew, Ewf. change (t_hci (upd_ring (rs_ptr x) f i0)) with h. rewrite P5. cbn. solve_Permutation.
    + apply (order_upd (ts_acc s) (ts_prep s) _ _ (rs_ptr x) f i0 r); try done.
      * rewrite on_app, on_single, decide_True, Ewf, (Ho _ _ Er), Ew by done. by rewrite <- app_assoc.
      * intros p' Hp'. rewrite on_app, on_single, decide_False by done. by rewrite app_nil_r.
    + rewrite app_assoc. apply Forall_app. split; [done|]. constructor; [|done]. by eapply (get_ring_fresh _ i0).
  - split; cbn [ts_info ts_pc ts_acc ts_prep ts_back at_pc]; try done.
    + eapply (lists_ok_ext (upd_ring (rs_ptr x) f i0)); try done. eapply lists_ok_upd; [done|done|by eapply ring_has_ok|done].
    + by eapply (hand_release x x i).
    + rewrite Ha, E1. change (all_waiting (phl_release_ring_sts x (upd_ring (rs_ptr x) f i0))) with (all_waiting (upd_ring (rs_ptr x) f i0)).
      rewrite (E2 f), Ew, Ewf. change (t_hci (phl_release_ring_sts x (upd_ring (rs_ptr x) f i0))) with h. by rewrite P5.
    + apply (order_upd (ts_acc s) (ts_prep s) _ _ (rs_ptr x) f i0 r); try done. by rewrite Ewf, (Ho _ _ Er), Ew.
Qed.
End handler.
