(* ===== verification/TxSysThm.v ===== *)
(** * The transmit path keeps every request

    The invariant of [TxSys] holds in every reachable state, for any bus layer
    that meets its interface. *)

From stdpp Require Import gmap relations.
From S2P Require Import Prelude PhlQueue PhlDef RxReorder RxRing TxRing TxRingInv TxPlan TxSys TxSysInv.

Section reach.
Context {H : Type} {hci : HciTx H} {hci_ok : HciTxOk H}.

Lemma inv_sys0 h stas : hci_reqs h = [] -> tx_inv (sys0 h stas).
Proof.
  intros E. split; cbn; try done.
  - split; try apply NoDup_nil_2; try apply Forall_nil_2; done.
  - split; try apply Forall_nil_2; try apply NoDup_nil_2; done.
  - by rewrite E.
Qed.

Lemma inv_step s s' : tx_step s s' -> hci_inv (t_hci (ts_info s)) -> tx_inv s -> tx_inv s'.
Proof.
  destruct 1 as [s|s Hpc|now q s Hq|ok macid band wmm port s|macid s|h back s Hb]; intros Hi.
  - destruct (ts_pc s) as [| |x|] eqn:Hpc; [by apply inv_plan|by apply inv_serve|by apply (inv_handle s x)|].
    intros Hs. unfold tx_turn. rewrite Hpc. apply inv_free; auto.
  - apply inv_free; auto.
  - by apply inv_add.
  - apply inv_register.
  - apply inv_remove.
  - apply inv_bus. by apply hci_step_spec.
Qed.

(** *** The bus layer's own invariant *)

Lemma hci_handle_one x i : hci_inv (t_hci i) -> hci_inv (t_hci (snd (handle_one x i))).
Proof.
  intros Hi. unfold handle_one. destruct (get_ring (rs_ptr x) i) as [r|]; [|done].
  destruct (tx_entry r !! _) as [q|]; [|done]. set (q1 := set_route _ _ _ _ _ _ q).
  pose proof (prepare_tx_inv q1 (t_hci i) Hi) as Hp. destruct (prepare_tx q1 (t_hci i)) as [[sts q2] h].
  case_bool_decide; [|done]. by case_match.
Qed.

(** What planning needs. *)
Lemma inv_idle s : tx_inv s -> ts_pc s = TIdle ->
  let i := ts_info s in
  Forall idle_plan (t_ring_list i) /\ Forall tring_wf (t_ring_list i) /\ NoDup (ids i) /\ t_fctrl_result i = [] /\
  NoDup (ring_sts_idle i).
Proof.
  intros [[Hn _ Hw Hp _] [_ _ Hpool Hrest] _ _ _] Hpc. rewrite Hpc in *. specialize (Hrest (or_introl eq_refl)).
  unfold in_hand in Hpool. rewrite Hrest in Hpool. cbn [held app fmap list_fmap] in Hpool. rewrite app_nil_r in Hpool.
  unfold trings in Hw, Hp. apply Forall_app in Hw as [Hw _], Hp as [Hp _].
  split_and!; try done. rewrite Hpool. apply NoDup_seq.
Qed.

Lemma plan_hci s : tx_inv s -> ts_pc s = TIdle -> t_hci (snd (plan_tx (ts_info s))) = t_hci (ts_info s).
Proof. intros Hs Hpc. destruct (inv_idle s Hs Hpc) as (? & ? & ? & ? & ?). by rewrite plan_tx_spec. Qed.

Lemma hci_turn s : tx_inv s -> hci_inv (t_hci (ts_info s)) -> hci_inv (t_hci (ts_info (tx_turn s))).
Proof.
  intros Hs Hi. pose proof (plan_hci s Hs) as Hpl. unfold tx_turn. destruct (ts_pc s) as [| |x|].
  - specialize (Hpl eq_refl). destruct (plan_tx (ts_info s)) as [[] j]; cbn in *; by rewrite Hpl.
  - by destruct (t_fctrl_result (ts_info s)).
  - destruct (0 =? _); [done|]. pose proof (hci_handle_one x (ts_info s) Hi) as Hh.
    by destruct (handle_one x (ts_info s)) as [[[] y] j].
  - done.
Qed.

Lemma register_hci ok macid band wmm port (i : tx_info H) : t_hci (snd (phl_register_tx_ring ok macid band wmm port i)) = t_hci i.
Proof. unfold phl_register_tx_ring. by repeat case_match. Qed.

Lemma remove_hci macid (i : tx_info H) : t_hci (snd (phl_deregister_tx_ring macid i)) = t_hci i.
Proof. unfold phl_deregister_tx_ring. by repeat case_match. Qed.

Lemma add_hci now q (i : tx_info H) : t_hci (snd (rtw_phl_add_tx_req now q i)) = t_hci i.
Proof. unfold rtw_phl_add_tx_req, phl_tx_statistics. by repeat (case_match; cbn). Qed.

Lemma hci_inv_step s s' : tx_step s s' -> tx_inv s -> hci_inv (t_hci (ts_info s)) -> hci_inv (t_hci (ts_info s')).
Proof.
  destruct 1 as [s|s Hpc|now q s Hq|ok macid band wmm port s|macid s|h back s Hb]; intros Hs Hi.
  - by apply hci_turn.
  - done.
  - pose proof (add_hci now q (ts_info s)) as E. unfold add_req. destruct (rtw_phl_add_tx_req now q (ts_info s)) as [sts j].
    cbn in *. by rewrite E.
  - cbn. by rewrite register_hci.
  - cbn. by rewrite remove_hci.
  - cbn. by eapply hci_step_inv.
Qed.

Lemma hci_inv_reach h stas s : hci_reqs h = [] -> hci_inv h -> rtc tx_step (sys0 h stas) s ->
  tx_inv s /\ hci_inv (t_hci (ts_info s)).
Proof.
  intros E Hi Hs. apply (inv_sys0 h stas) in E. change h with (t_hci (ts_info (sys0 h stas))) in Hi.
  induction Hs; eauto using inv_step, hci_inv_step.
Qed.

(** *** The handler alone *)

(** Steps of the handler that no other thread interrupts. *)
Definition alone : tx_sys H -> tx_sys H -> Prop := rtc (fun s s' => s' = tx_turn s).

Lemma alone_step s s' : alone (tx_turn s) s' -> alone s s'.
Proof. intros Ha. by eapply rtc_l. Qed.

Lemma turn_inv s : tx_inv s -> tx_inv (tx_turn s).
Proof.
  intros Hs. destruct (ts_pc s) as [| |x|] eqn:Hpc; [by apply inv_plan|by apply inv_serve|by apply (inv_handle s x)|].
  unfold tx_turn. rewrite Hpc. apply inv_free; auto.
Qed.

Lemma alone_inv s s' : alone s s' -> tx_inv s -> tx_inv s'.
Proof. induction 1 as [|s s1 s2 -> _ IH]; auto using turn_inv. Qed.

Lemma handle_one_fctrl x i : t_fctrl_result (snd (handle_one x i)) = t_fctrl_result i.
Proof.
  unfold handle_one. destruct (get_ring (rs_ptr x) i) as [r|]; [|done]. destruct (tx_entry r !! _) as [q|]; [|done].
  destruct (prepare_tx _ (t_hci i)) as [[sts q2] h]. case_bool_decide; [|done]. by case_match.
Qed.

Lemma handle_loop_fctrl n x i : t_fctrl_result (handle_loop n x i) = t_fctrl_result i.
Proof.
  revert x i. induction n as [|n IH]; intros x i; [done|]. cbn [handle_loop]. destruct (0 =? req_busy x); [done|].
  pose proof (handle_one_fctrl x i) as E. destruct (handle_one x i) as [[[] y] j]; cbn in E; [by rewrite IH|done].
Qed.

(** Serving one ring: as many steps as it has requests to hand on. *)
Lemma alone_handle n x s : tx_inv s -> ts_pc s = THandle x -> req_busy x = Z.of_nat n ->
  exists s', alone s s' /\ ts_pc s' = TServe /\ ts_info s' = phl_release_ring_sts x (handle_loop n x (ts_info s)).
Proof.
  revert x s. induction n as [|n IH]; intros x s Hs Hpc Hb.
  { exists (tx_turn s). split; [by eapply alone_step|]. unfold tx_turn. by rewrite Hpc, Hb. }
  pose proof (turn_inv s Hs) as Ht. destruct Hs as [Hl Hh _ _ _]. destruct Hh as [H1 _ _ _]. rewrite Hpc in H1.
  apply Forall_cons in H1 as [Hx _]. destruct (handle_one_spec x (ts_info s) Hl Hx ltac:(lia)) as (r & w & ws & h & f & _ & _ & _ & _ & Hc).
  cbn [handle_loop]. replace (0 =? req_busy x) with false by lia. unfold tx_turn in Ht. rewrite Hpc in Ht.
  replace (0 =? req_busy x) with false in Ht by lia. destruct Hc as [(y & E & _ & _ & P2 & P3 & _)|(E & _ & _)]; rewrite E in *.
  - destruct (IH y _ Ht eq_refl ltac:(lia)) as (s' & Ha & Hp & Hi). exists s'. split_and!; [|done|].
    + apply alone_step. unfold tx_turn. rewrite Hpc. replace (0 =? req_busy x) with false by lia. by rewrite E.
    + rewrite Hi. unfold phl_release_ring_sts. by rewrite P2.
  - exists (tx_turn s). split; [by eapply alone_step|]. unfold tx_turn. rewrite Hpc.
    replace (0 =? req_busy x) with false by lia. by rewrite E.
Qed.

Lemma alone_serve l s : tx_inv s -> ts_pc s = TServe -> t_fctrl_result (ts_info s) = l ->
  exists s', alone s s' /\ ts_pc s' = TEnd /\ ts_info s' = serve_rings l (ts_info s).
Proof.
  revert s. induction l as [|x l IH]; intros s Hs Hpc El.
  { exists (tx_turn s). split; [by eapply alone_step|]. unfold tx_turn. by rewrite Hpc, El. }
  pose proof (turn_inv s Hs) as Ht. unfold tx_turn in Ht. rewrite Hpc, El in Ht.
  assert (exists n, req_busy x = Z.of_nat n) as [n Hn].
  { destruct Ht as [_ [H1 _ _ _] _ _ _]. apply Forall_cons in H1 as [(r & _ & Hb & _) _]. exists (Z.to_nat (req_busy x)). lia. }
  destruct (alone_handle n x _ Ht eq_refl Hn) as (s1 & Ha1 & Hp1 & Hi1). cbn [ts_info at_pc] in Hi1.
  destruct (IH s1) as (s2 & Ha2 & Hp2 & Hi2); [by eapply alone_inv|done| |].
  { rewrite Hi1. unfold phl_release_ring_sts. cbn. by rewrite handle_loop_fctrl. }
  exists s2. split_and!; [|done|].
  - apply alone_step. unfold tx_turn. rewrite Hpc, El. etrans; [exact Ha1|exact Ha2].
  - rewrite Hi2, Hi1. cbn [serve_rings]. unfold _phl_handle_xmit_ring_pcie. by rewrite Hn, Nat2Z.id.
Qed.

Lemma alone_turn s : tx_inv s -> ts_pc s = TIdle ->
  exists s', alone s s' /\ ts_pc s' = TIdle /\ ts_info s' = phl_free_deferred_tx_ring (serve_tx (ts_info s)).
Proof.
  intros Hs Hpc. pose proof (turn_inv s Hs) as Ht. unfold tx_turn in Ht. rewrite Hpc in Ht. unfold serve_tx.
  destruct (plan_tx (ts_info s)) as [some i] eqn:Ep.
  assert (exists s1, alone (tx_turn s) s1 /\ ts_pc s1 = TEnd /\
    ts_info s1 = (if some then serve_rings (t_fctrl_result i) i else i)) as (s1 & Ha & Hp & Hi).
  { unfold tx_turn. rewrite Hpc, Ep. destruct some; [by apply alone_serve|]. by eexists. }
  exists (tx_turn s1). split_and!.
  - apply alone_step. eapply rtc_r; [done|done].
  - unfold tx_turn. by rewrite Hp.
  - unfold tx_turn. by rewrite Hp, <- Hi.
Qed.
End reach.
