(* ===== verification/TxPcie.v ===== *)
(** * Transmission over PCIe (src/phl/hci/phl_trx_pcie.c)

    Each DMA channel has a pool of descriptor pages that go from idle to
    pending (filled), to busy (given to the hardware through a ring of buffer
    descriptors), and back; released pages first pass through a small work
    ring, because the chip may still read them.  A request is found again by
    the sequence number of its page, under which the hardware reports it.

    The hardware owns the read index of each descriptor ring.  It advances
    whenever the driver looks, by an amount the environment chooses
    ([hc_moves]).  The contents of pages are not represented. *)

From stdpp Require Import gmap.
From S2P Require Import Prelude PhlQueue PhlDef RxReorder RxRing TxRing.

Definition MAX_WD_PAGE_NUM : nat := 256.
Definition WP_MAX_SEQ_NUMBER : Z := 4095.
Definition TX_DMA_CHANNEL_ENTRY_8852BE : nat := 13.
Definition txbd_multi_tag : nat := 8.
Definition WP_DELAY_THRES_MS : Z := 1000.

Definition TX_STATUS_TX_DONE : Z := 0.
Definition TX_STATUS_TX_FAIL_REACH_RTY_LMT : Z := 1.
Definition TX_STATUS_TX_FAIL_LIFETIME_DROP : Z := 2.
Definition TX_STATUS_TX_FAIL_MACID_DROP : Z := 3.
Definition TX_STATUS_TX_FAIL_SW_DROP : Z := 4.

Definition RTW_PHL_TREQ_TYPE_NORMAL : Z := 0.
Definition RTW_PHL_TREQ_TYPE_TEST_PATTERN : Z := 1.

(** ** State *)

Record rtw_wp_rpt_stats := mkRpt {
  busy_cnt : Z; tx_ok_cnt : Z; rty_fail_cnt : Z; lifetime_drop_cnt : Z; macid_drop_cnt : Z; recycle_fail_cnt : Z;
  delay_tx_ok_cnt : Z; delay_rty_fail_cnt : Z; delay_lifetime_drop_cnt : Z; delay_macid_drop_cnt : Z }.
Definition rpt0 : rtw_wp_rpt_stats := mkRpt 0 0 0 0 0 0 0 0 0 0.

(** One channel.  The lists have their counters; [page_idx] is [host_idx] of a
    page; [txbd_host] is [host_idx] of the descriptor ring and [txbd] the page
    each descriptor points to; [reg_host] and [reg_hw] are the two halves of the
    index register. *)
Record rtw_wd_page_ring := mkWd {
  idle_list : list nat; idle_wd_page_cnt : Z; busy_list : list nat; busy_wd_page_cnt : Z;
  pending_list : list nat; pending_wd_page_cnt : Z;
  wd_work_ring : list nat; wd_work_cnt : Z; wd_work_idx : Z;
  wp_tag : gmap Z rtw_xmit_req; wp_seq : Z;
  page_idx : gmap nat Z; txbd_host : Z; txbd : gmap Z nat; reg_host : Z; reg_hw : Z;
  rpt_stats : rtw_wp_rpt_stats }.

Definition set_idle l c w := mkWd l c (busy_list w) (busy_wd_page_cnt w) (pending_list w) (pending_wd_page_cnt w) (wd_work_ring w) (wd_work_cnt w) (wd_work_idx w) (wp_tag w) (wp_seq w) (page_idx w) (txbd_host w) (txbd w) (reg_host w) (reg_hw w) (rpt_stats w).
Definition set_busy l c w := mkWd (idle_list w) (idle_wd_page_cnt w) l c (pending_list w) (pending_wd_page_cnt w) (wd_work_ring w) (wd_work_cnt w) (wd_work_idx w) (wp_tag w) (wp_seq w) (page_idx w) (txbd_host w) (txbd w) (reg_host w) (reg_hw w) (rpt_stats w).
Definition set_pending l c w := mkWd (idle_list w) (idle_wd_page_cnt w) (busy_list w) (busy_wd_page_cnt w) l c (wd_work_ring w) (wd_work_cnt w) (wd_work_idx w) (wp_tag w) (wp_seq w) (page_idx w) (txbd_host w) (txbd w) (reg_host w) (reg_hw w) (rpt_stats w).
Definition set_work l x w := mkWd (idle_list w) (idle_wd_page_cnt w) (busy_list w) (busy_wd_page_cnt w) (pending_list w) (pending_wd_page_cnt w) l (wd_work_cnt w) x (wp_tag w) (wp_seq w) (page_idx w) (txbd_host w) (txbd w) (reg_host w) (reg_hw w) (rpt_stats w).
Definition set_wp_tag v w := mkWd (idle_list w) (idle_wd_page_cnt w) (busy_list w) (busy_wd_page_cnt w) (pending_list w) (pending_wd_page_cnt w) (wd_work_ring w) (wd_work_cnt w) (wd_work_idx w) v (wp_seq w) (page_idx w) (txbd_host w) (txbd w) (reg_host w) (reg_hw w) (rpt_stats w).
Definition set_wp_seq v w := mkWd (idle_list w) (idle_wd_page_cnt w) (busy_list w) (busy_wd_page_cnt w) (pending_list w) (pending_wd_page_cnt w) (wd_work_ring w) (wd_work_cnt w) (wd_work_idx w) (wp_tag w) v (page_idx w) (txbd_host w) (txbd w) (reg_host w) (reg_hw w) (rpt_stats w).
Definition set_bd idx host bd w := mkWd (idle_list w) (idle_wd_page_cnt w) (busy_list w) (busy_wd_page_cnt w) (pending_list w) (pending_wd_page_cnt w) (wd_work_ring w) (wd_work_cnt w) (wd_work_idx w) (wp_tag w) (wp_seq w) idx host bd (reg_host w) (reg_hw w) (rpt_stats w).
Definition set_reg host hw w := mkWd (idle_list w) (idle_wd_page_cnt w) (busy_list w) (busy_wd_page_cnt w) (pending_list w) (pending_wd_page_cnt w) (wd_work_ring w) (wd_work_cnt w) (wd_work_idx w) (wp_tag w) (wp_seq w) (page_idx w) (txbd_host w) (txbd w) host hw (rpt_stats w).
Definition set_rpt v w := mkWd (idle_list w) (idle_wd_page_cnt w) (busy_list w) (busy_wd_page_cnt w) (pending_list w) (pending_wd_page_cnt w) (wd_work_ring w) (wd_work_cnt w) (wd_work_idx w) (wp_tag w) (wp_seq w) (page_idx w) (txbd_host w) (txbd w) (reg_host w) (reg_hw w) v.
Definition set_page_idx v w := set_bd v (txbd_host w) (txbd w) w.

(** ** Page lists *)

Inductive pos := _tail | _first.
Definition put_at (x : pos) (p : nat) (l : list nat) : list nat :=
  match x with _tail => l ++ [p] | _first => p :: l end.

Definition enqueue_pending_wd_page (p : nat) (x : pos) (w : rtw_wd_page_ring) : rtw_wd_page_ring :=
  set_pending (put_at x p (pending_list w)) (u16 (pending_wd_page_cnt w + 1)) w.
Definition enqueue_busy_wd_page (p : nat) (x : pos) (w : rtw_wd_page_ring) : rtw_wd_page_ring :=
  set_busy (put_at x p (busy_list w)) (u16 (busy_wd_page_cnt w + 1)) w.
Definition enqueue_idle_wd_page (p : nat) (w : rtw_wd_page_ring) : rtw_wd_page_ring :=
  set_idle (idle_list w ++ [p]) (u16 (idle_wd_page_cnt w + 1)) (set_page_idx (<[p := 0]> (page_idx w)) w).

Definition query_pending_wd_page (w : rtw_wd_page_ring) : option nat * rtw_wd_page_ring :=
  match pending_list w with
  | [] => (None, w)
  | p :: l => (Some p, set_pending l (u16 (pending_wd_page_cnt w - 1)) w)
  end.
Definition query_idle_wd_page (w : rtw_wd_page_ring) : option nat * rtw_wd_page_ring :=
  match idle_list w with
  | [] => (None, w)
  | p :: l => (Some p, set_idle l (u16 (idle_wd_page_cnt w - 1)) w)
  end.

(** The page takes the place of the one released [wd_work_cnt] pages ago. *)
Definition enqueue_wd_work_ring (p : nat) (w : rtw_wd_page_ring) : rtw_wd_page_ring :=
  let k := Z.to_nat (wd_work_idx w) in
  let work_done_wd := nth k (wd_work_ring w) 0%nat in
  let w := set_work (<[k := p]> (wd_work_ring w)) ((wd_work_idx w + 1) mod wd_work_cnt w) w in
  enqueue_idle_wd_page work_done_wd w.

Definition rtw_release_target_wd_page (p : nat) (w : rtw_wd_page_ring) : rtw_wd_page_ring :=
  enqueue_idle_wd_page p w.

Fixpoint rtw_release_pending_wd_page (release_num : nat) (w : rtw_wd_page_ring) : rtw_wd_page_ring :=
  match release_num with
  | O => w
  | S n =>
      match query_pending_wd_page w with
      | (None, w) => w
      | (Some p, w) => rtw_release_pending_wd_page n (enqueue_idle_wd_page p w)
      end
  end.

(** [upd_lmt]: the chip needs the work ring ([txbd_upd_lmt]).  The status is
    that of the last release: a failure if there is none. *)
Fixpoint release_busy (upd_lmt : bool) (release_num : nat) (sts : rtw_phl_status) (w : rtw_wd_page_ring) :
    rtw_phl_status * rtw_wd_page_ring :=
  match release_num with
  | O => (sts, w)
  | S n =>
      match busy_list w with
      | [] => (sts, w)
      | p :: l =>
          let w := set_busy l (u16 (busy_wd_page_cnt w - 1)) w in
          release_busy upd_lmt n RTW_PHL_STATUS_SUCCESS
            (if upd_lmt then enqueue_wd_work_ring p w else enqueue_idle_wd_page p w)
      end
  end.
Definition rtw_release_busy_wd_page (upd_lmt : bool) (release_num : Z) (w : rtw_wd_page_ring) :=
  release_busy upd_lmt (Z.to_nat release_num) RTW_PHL_STATUS_FAILURE w.

(** ** The chip's index registers (src/phl/hal_g6) *)

Definition hal_calc_avail_wptr (rptr wptr bndy : Z) : Z :=
  if wptr <? rptr then u16 (rptr - wptr - 1)
  else if rptr <=? wptr then u16 (rptr + (bndy - wptr) - 1) else 0.

(** The hardware fetches up to [m] of the descriptors it was given. *)
Definition hw_fetch (bndy : Z) (m : nat) (w : rtw_wd_page_ring) : rtw_wd_page_ring :=
  let n := Z.min (Z.of_nat m) ((reg_host w - reg_hw w) mod bndy) in
  set_reg (reg_host w) ((reg_hw w + n) mod bndy) w.

(** The hardware moves by [m], then the register is read, of which each index
    is 12 bits: free descriptors and the hardware's index. *)
Definition hal_get_avail_txbd_8852be (bndy : Z) (m : nat) (w : rtw_wd_page_ring) : Z * Z * rtw_wd_page_ring :=
  let w := hw_fetch bndy m w in
  let host_idx := Z.land (reg_host w) 0x0FFF in
  let hw_idx := Z.land (reg_hw w) 0x0FFF in
  (hal_calc_avail_wptr hw_idx host_idx bndy, hw_idx, w).

(** Page [p] into the next descriptor, if there is one; it reports success in
    any case. *)
Definition hal_update_txbd_8852be (bndy : Z) (m : nat) (p : nat) (w : rtw_wd_page_ring) : rtw_wd_page_ring :=
  let '(avail_txbd, _, w) := hal_get_avail_txbd_8852be bndy m w in
  let wcnt := if avail_txbd <? 1 then avail_txbd else 1 in
  if 0 <? wcnt then
    let host_idx := (txbd_host w + 1) mod bndy in
    set_bd (<[p := host_idx]> (page_idx w)) host_idx (<[txbd_host w := p]> (txbd w)) w
  else w.

Definition hal_trigger_txdma_8852be (w : rtw_wd_page_ring) : rtw_wd_page_ring := set_reg (txbd_host w) (reg_hw w) w.

(** ** One channel in a turn *)

(** [moves] is what the hardware does before each look at its register. *)
Definition next_move (moves : list nat) : nat := default 0%nat (head moves).

Definition phl_handle_busy_wd (bndy : Z) (upd_lmt : bool) (hw_idx : Z) (w : rtw_wd_page_ring) :
    rtw_phl_status * rtw_wd_page_ring :=
  match busy_list w with
  | [] => (RTW_PHL_STATUS_SUCCESS, w)
  | _ =>
      let '(sts, w) :=
        if bndy - 1 <? busy_wd_page_cnt w
        then rtw_release_busy_wd_page upd_lmt (busy_wd_page_cnt w - (bndy - 1)) w
        else (RTW_PHL_STATUS_SUCCESS, w) in
      if negb (bool_decide (sts = RTW_PHL_STATUS_SUCCESS)) then (sts, w)
      else
        match busy_list w with
        | [] => (sts, w)
        | p :: _ =>
            let target := default 0 (page_idx w !! p) in
            let release_num := if target <=? hw_idx then ((hw_idx - target) + 1) mod bndy
                               else ((bndy - target) + (hw_idx + 1)) mod bndy in
            rtw_release_busy_wd_page upd_lmt release_num w
        end
  end.

Fixpoint pending_loop (bndy : Z) (cnt : nat) (sts : rtw_phl_status) (moves : list nat) (w : rtw_wd_page_ring) :
    rtw_phl_status * list nat * rtw_wd_page_ring :=
  match cnt with
  | O => (sts, moves, w)
  | S cnt =>
      match query_pending_wd_page w with
      | (None, w) => (RTW_PHL_STATUS_RESOURCE, moves, w)
      | (Some p, w) =>
          let w := hal_update_txbd_8852be bndy (next_move moves) p w in
          pending_loop bndy cnt RTW_PHL_STATUS_SUCCESS (tail moves) (enqueue_busy_wd_page p _tail w)
      end
  end.

Definition phl_handle_pending_wd (bndy txcnt : Z) (moves : list nat) (w : rtw_wd_page_ring) :
    rtw_phl_status * list nat * rtw_wd_page_ring :=
  let '(sts, moves, w) := pending_loop bndy (Z.to_nat txcnt) RTW_PHL_STATUS_FAILURE moves w in
  (sts, moves, if bool_decide (sts = RTW_PHL_STATUS_SUCCESS) then hal_trigger_txdma_8852be w else w).

(** The body of the loop of [phl_tx_pcie]. *)
Definition tx_channel (bndy : Z) (upd_lmt : bool) (moves : list nat) (w : rtw_wd_page_ring) :
    rtw_phl_status * list nat * rtw_wd_page_ring :=
  if (pending_wd_page_cnt w =? 0) && (busy_wd_page_cnt w =? 0) then (RTW_PHL_STATUS_SUCCESS, moves, w)
  else
    let '(hw_res, hw_idx, w) := hal_get_avail_txbd_8852be bndy (next_move moves) w in
    let moves := tail moves in
    let '(sts, w) := phl_handle_busy_wd bndy upd_lmt hw_idx w in
    match pending_list w with
    | [] => (sts, moves, w)
    | _ =>
        if bool_decide (sts = RTW_PHL_STATUS_FAILURE) then (sts, moves, w)
        else if 0 =? hw_res then (sts, moves, w)
        else
          let txcnt := if hw_res <? pending_wd_page_cnt w then hw_res else pending_wd_page_cnt w in
          phl_handle_pending_wd bndy txcnt moves w
    end.

(** ** All channels *)

(** [hc_moves]: what the hardware does; [hc_fill]: whether filling a page
    succeeds; [hc_recycle]: whether the core driver takes a request back;
    [hc_back]: the requests it took; [hc_now]: the clock in milliseconds. *)
Record hci_info := mkHci {
  wd_ring : list rtw_wd_page_ring; mac_wp_seq : gmap Z Z; txbd_num : Z; txbd_upd_lmt : bool;
  hc_moves : list nat; hc_fill : list bool; hc_recycle : list bool; hc_back : list nat; hc_now : Z }.

Definition set_wd_ring v h := mkHci v (mac_wp_seq h) (txbd_num h) (txbd_upd_lmt h) (hc_moves h) (hc_fill h) (hc_recycle h) (hc_back h) (hc_now h).
Definition set_mac_wp_seq v h := mkHci (wd_ring h) v (txbd_num h) (txbd_upd_lmt h) (hc_moves h) (hc_fill h) (hc_recycle h) (hc_back h) (hc_now h).
Definition set_hc_moves v h := mkHci (wd_ring h) (mac_wp_seq h) (txbd_num h) (txbd_upd_lmt h) v (hc_fill h) (hc_recycle h) (hc_back h) (hc_now h).
Definition set_hc_fill v h := mkHci (wd_ring h) (mac_wp_seq h) (txbd_num h) (txbd_upd_lmt h) (hc_moves h) v (hc_recycle h) (hc_back h) (hc_now h).
Definition set_hc_recycle v h := mkHci (wd_ring h) (mac_wp_seq h) (txbd_num h) (txbd_upd_lmt h) (hc_moves h) (hc_fill h) v (hc_back h) (hc_now h).
Definition set_hc_back v h := mkHci (wd_ring h) (mac_wp_seq h) (txbd_num h) (txbd_upd_lmt h) (hc_moves h) (hc_fill h) (hc_recycle h) v (hc_now h).
Definition upd_ch (ch : nat) (f : rtw_wd_page_ring -> rtw_wd_page_ring) (h : hci_info) : hci_info :=
  set_wd_ring (alter f ch (wd_ring h)) h.

Fixpoint tx_channels (bndy : Z) (upd_lmt : bool) (moves : list nat) (ws : list rtw_wd_page_ring) :
    list nat * list rtw_wd_page_ring :=
  match ws with
  | [] => (moves, [])
  | w :: ws =>
      let '(_, moves, w) := tx_channel bndy upd_lmt moves w in
      let '(moves, ws) := tx_channels bndy upd_lmt moves ws in (moves, w :: ws)
  end.

Definition phl_tx_pcie (h : hci_info) : hci_info :=
  let '(moves, ws) := tx_channels (txbd_num h) (txbd_upd_lmt h) (hc_moves h) (wd_ring h) in
  set_hc_moves moves (set_wd_ring ws h).

(** Releases what the hardware is done with, and sends nothing. *)
Fixpoint recycle_channels (bndy : Z) (upd_lmt : bool) (moves : list nat) (ws : list rtw_wd_page_ring) :
    list nat * list rtw_wd_page_ring :=
  match ws with
  | [] => (moves, [])
  | w :: ws =>
      let '(_, hw_idx, w) := hal_get_avail_txbd_8852be bndy (next_move moves) w in
      let w := snd (phl_handle_busy_wd bndy upd_lmt hw_idx w) in
      let '(moves, ws) := recycle_channels bndy upd_lmt (tail moves) ws in (moves, w :: ws)
  end.

Definition phl_recycle_busy_wd (h : hci_info) : hci_info :=
  let '(moves, ws) := recycle_channels (txbd_num h) (txbd_upd_lmt h) (hc_moves h) (wd_ring h) in
  set_hc_moves moves (set_wd_ring ws h).

(** ** Taking a request *)

Definition packet_len (q : rtw_xmit_req) : Z := foldl (fun len l => u16 (len + l)) 0 (pkt_lens q).

Definition bump_busy (d : Z) (s : rtw_wp_rpt_stats) : rtw_wp_rpt_stats :=
  mkRpt (u32 (busy_cnt s + d)) (tx_ok_cnt s) (rty_fail_cnt s) (lifetime_drop_cnt s) (macid_drop_cnt s) (recycle_fail_cnt s)
    (delay_tx_ok_cnt s) (delay_rty_fail_cnt s) (delay_lifetime_drop_cnt s) (delay_macid_drop_cnt s).

Definition next_wp_seq (seq : Z) : Z :=
  let seq := (seq + 1) mod WP_MAX_SEQ_NUMBER in if 0 =? seq then 1 else seq.

Definition phl_prepare_tx_pcie (q : rtw_xmit_req) (h : hci_info) :
    (rtw_phl_status * rtw_xmit_req) * hci_info :=
  let ch := Z.to_nat (md_dma_ch q) in
  match wd_ring h !! ch with
  | None => ((RTW_PHL_STATUS_FAILURE, q), h)
  | Some w =>
      let seq := wp_seq w in
      match wp_tag w !! seq with
      | Some _ => ((RTW_PHL_STATUS_FAILURE, q), h)
      | None =>
          let q := set_total_len (packet_len q) q in
          match query_idle_wd_page w with
          | (None, _) => ((RTW_PHL_STATUS_FAILURE, q), h)
          | (Some p, w) =>
              let ok := default true (head (hc_fill h)) in
              let h := set_hc_fill (tail (hc_fill h)) h in
              if ok then
                let q := set_tx_time (hc_now h) q in
                let w := enqueue_pending_wd_page p _tail w in
                let w := set_rpt (bump_busy 1 (rpt_stats w)) (set_wp_tag (<[seq := q]> (wp_tag w)) w) in
                ((RTW_PHL_STATUS_SUCCESS, q),
                 upd_ch ch (fun _ => set_wp_seq (next_wp_seq seq) w)
                   (set_mac_wp_seq (<[md_macid q := seq]> (mac_wp_seq h)) h))
              else ((RTW_PHL_STATUS_FAILURE, q), upd_ch ch (fun _ => rtw_release_target_wd_page p w) h)
          end
      end
  end.

(** ** Reports *)

(** Counters by the status of a report; [d] if the request took long. *)
Definition count_report (d : bool) (txsts : Z) (s : rtw_wp_rpt_stats) : rtw_wp_rpt_stats :=
  let '(mkRpt b o r l m f do dr dl dm) := s in
  if txsts =? TX_STATUS_TX_DONE then if d then mkRpt b o r l m f (u32 (do + 1)) dr dl dm else mkRpt b (u32 (o + 1)) r l m f do dr dl dm
  else if txsts =? TX_STATUS_TX_FAIL_REACH_RTY_LMT then if d then mkRpt b o r l m f do (u32 (dr + 1)) dl dm else mkRpt b o (u32 (r + 1)) l m f do dr dl dm
  else if txsts =? TX_STATUS_TX_FAIL_LIFETIME_DROP then if d then mkRpt b o r l m f do dr (u32 (dl + 1)) dm else mkRpt b o r (u32 (l + 1)) m f do dr dl dm
  else if txsts =? TX_STATUS_TX_FAIL_MACID_DROP then if d then mkRpt b o r l m f do dr dl (u32 (dm + 1)) else mkRpt b o r l (u32 (m + 1)) f do dr dl dm
  else s.

Definition _phl_wp_rpt_statistics (now txsts : Z) (q : rtw_xmit_req) (s : rtw_wp_rpt_stats) : rtw_wp_rpt_stats :=
  let diff_t := if tx_time q <=? now then u32 (now - tx_time q) else u32 (2 ^ 32 - 1 - tx_time q + now) in
  count_report (WP_DELAY_THRES_MS <? diff_t) txsts s.

Definition bump_fail (s : rtw_wp_rpt_stats) : rtw_wp_rpt_stats :=
  mkRpt (busy_cnt s) (tx_ok_cnt s) (rty_fail_cnt s) (lifetime_drop_cnt s) (macid_drop_cnt s) (u32 (recycle_fail_cnt s + 1))
    (delay_tx_ok_cnt s) (delay_rty_fail_cnt s) (delay_lifetime_drop_cnt s) (delay_macid_drop_cnt s).

(** Does the core driver take the request?  Requests of other types are not
    given back. *)
Definition recycle_req (q : rtw_xmit_req) (h : hci_info) : bool * hci_info :=
  if (treq_type q =? RTW_PHL_TREQ_TYPE_TEST_PATTERN) || (treq_type q =? RTW_PHL_TREQ_TYPE_NORMAL)
  then (default true (head (hc_recycle h)), set_hc_recycle (tail (hc_recycle h)) h)
  else (false, h).

Definition phl_recycle_payload (dma_ch : nat) (seq txsts : Z) (h : hci_info) : hci_info :=
  match wd_ring h !! dma_ch with
  | None => h
  | Some w =>
      match wp_tag w !! seq with
      | None => upd_ch dma_ch (fun w => set_rpt (bump_fail (rpt_stats w)) w) h
      | Some q =>
          let h := upd_ch dma_ch (fun w => set_rpt (_phl_wp_rpt_statistics (hc_now h) txsts q (rpt_stats w)) w) h in
          let '(ok, h) := recycle_req q h in
          if ok then
            set_hc_back (hc_back h ++ [tq_ptr q])
              (upd_ch dma_ch (fun w => set_rpt (bump_busy (-1) (rpt_stats w)) (set_wp_tag (delete seq (wp_tag w)) w)) h)
          else upd_ch dma_ch (fun w => set_rpt (bump_fail (rpt_stats w)) w) h
      end
  end.

(** A packet of reports: channel, sequence number and status of each. *)
Definition _phl_rx_handle_wp_report (rpts : list (nat * Z * Z)) (h : hci_info) : hci_info :=
  foldl (fun h r => phl_recycle_payload (fst (fst r)) (snd (fst r)) (snd r) h) h rpts.

(** ** Reset *)

Definition _phl_reset_txbd (w : rtw_wd_page_ring) : rtw_wd_page_ring := set_bd (page_idx w) 0 ∅ w.

(** The requests still tagged are given back as dropped. *)
Definition _phl_reset_wp_tag (ch : nat) (h : hci_info) : hci_info :=
  foldl (fun h k =>
    match w ← wd_ring h !! ch; wp_tag w !! Z.of_nat k with
    | Some _ => phl_recycle_payload ch (Z.of_nat k) TX_STATUS_TX_FAIL_SW_DROP h
    | None => h
    end) h (seq 0 (Z.to_nat WP_MAX_SEQ_NUMBER)).

Definition reset_pages (upd_lmt : bool) (w : rtw_wd_page_ring) : rtw_wd_page_ring :=
  let w := _phl_reset_txbd w in
  let w := snd (rtw_release_busy_wd_page upd_lmt (busy_wd_page_cnt w) w) in
  rtw_release_pending_wd_page (Z.to_nat (pending_wd_page_cnt w)) w.

Definition phl_tx_reset_pcie (h : hci_info) : hci_info :=
  foldl (fun h ch => _phl_reset_wp_tag ch (upd_ch ch (reset_pages (txbd_upd_lmt h)) h)) h
    (seq 0 (length (wd_ring h))).

(** The chip resets its index registers as well. *)
Definition hw_reset (h : hci_info) : hci_info := set_wd_ring (set_reg 0 0 <$> wd_ring h) h.

(** ** Initialisation *)

(** [MAX_WD_PAGE_NUM] idle pages, and the pages of the work ring. *)
Definition wd_ring0 : rtw_wd_page_ring :=
  mkWd (seq 0 MAX_WD_PAGE_NUM) (Z.of_nat MAX_WD_PAGE_NUM) [] 0 [] 0
    (seq MAX_WD_PAGE_NUM txbd_multi_tag) (Z.of_nat txbd_multi_tag) 0 ∅ 1 ∅ 0 ∅ 0 0 rpt0.

Definition _phl_alloc_wd_ring_pcie (bndy : Z) (upd_lmt : bool) (moves : list nat) (fill recycle : list bool) : hci_info :=
  mkHci (replicate TX_DMA_CHANNEL_ENTRY_8852BE wd_ring0) ∅ bndy upd_lmt moves fill recycle [] 0.

(** ** The interface to the rings *)

Definition tags (w : rtw_wd_page_ring) : list nat := (fun x => tq_ptr (snd x)) <$> map_to_list (wp_tag w).
