(* ===== verification/TxPcieInv.v ===== *)
(** * Pages and descriptors of a channel

    Every page is in one place; the descriptors the hardware has not fetched
    point to busy pages. *)

From stdpp Require Import gmap.
From S2P Require Import Prelude PhlQueue PhlDef RxReorder RxRing TxRing TxPcie.

(** ** Pages *)

Definition all_pages : list nat := seq 0 (MAX_WD_PAGE_NUM + txbd_multi_tag).

(** The pages of [w], with [X] taken out. *)
Record wd_has (w : rtw_wd_page_ring) (X : list nat) : Prop := {
  wh_pages : idle_list w ++ busy_list w ++ pending_list w ++ wd_work_ring w ++ X ≡ₚ all_pages;
  wh_idle : idle_wd_page_cnt w = Z.of_nat (length (idle_list w));
  wh_busy : busy_wd_page_cnt w = Z.of_nat (length (busy_list w));
  wh_pend : pending_wd_page_cnt w = Z.of_nat (length (pending_list w));
  wh_work : length (wd_work_ring w) = txbd_multi_tag;
  wh_wcnt : wd_work_cnt w = Z.of_nat txbd_multi_tag;
  wh_widx : 0 <= wd_work_idx w < Z.of_nat txbd_multi_tag }.

Lemma wd_has_len w X : wd_has w X ->
  (length (idle_list w) + length (busy_list w) + length (pending_list w) + length X = MAX_WD_PAGE_NUM)%nat.
Proof.
  intros [Hp _ _ _ Hw _ _]. apply Permutation_length in Hp. unfold all_pages in Hp. rewrite length_seq, !length_app in Hp. lia.
Qed.

(** Closes the goals about counters. *)
Ltac page_count := match goal with Hw : wd_has ?w ?X |- _ => let L := fresh in pose proof (wd_has_len w X Hw) as L;
  destruct Hw; unfold MAX_WD_PAGE_NUM in L; cbn in *; unfold u16; rewrite ?length_app in *; cbn in *; lia end.

Lemma enqueue_pending_has x p w X : wd_has w (p :: X) -> wd_has (enqueue_pending_wd_page p x w) X.
Proof.
  intros Hw. pose proof Hw as []. split; cbn; try done; [|destruct x; page_count].
  rewrite <- wh_pages0. destruct x; cbn; solve_Permutation.
Qed.

Lemma enqueue_busy_has x p w X : wd_has w (p :: X) -> wd_has (enqueue_busy_wd_page p x w) X.
Proof.
  intros Hw. pose proof Hw as []. split; cbn; try done; [|destruct x; page_count].
  rewrite <- wh_pages0. destruct x; cbn; solve_Permutation.
Qed.

Lemma enqueue_idle_has p w X : wd_has w (p :: X) -> wd_has (enqueue_idle_wd_page p w) X.
Proof.
  intros Hw. pose proof Hw as []. split; cbn; try done; [|page_count]. rewrite <- wh_pages0. solve_Permutation.
Qed.

Lemma query_pending_has w X p w' : query_pending_wd_page w = (Some p, w') -> wd_has w X -> wd_has w' (p :: X).
Proof.
  unfold query_pending_wd_page. destruct (pending_list w) as [|p0 l] eqn:E; [done|]. intros [= <- <-] Hw.
  pose proof Hw as []. rewrite E in *. split; cbn; try done; [rewrite <- wh_pages0; solve_Permutation|].
  pose proof (wd_has_len _ _ Hw) as L. unfold MAX_WD_PAGE_NUM in L. rewrite wh_pend0. unfold u16. cbn [length] in *.
  rewrite E in L. cbn in L. rewrite Z.mod_small; lia.
Qed.

Lemma query_idle_has w X p w' : query_idle_wd_page w = (Some p, w') -> wd_has w X -> wd_has w' (p :: X).
Proof.
  unfold query_idle_wd_page. destruct (idle_list w) as [|p0 l] eqn:E; [done|]. intros [= <- <-] Hw.
  pose proof Hw as []. rewrite E in *. split; cbn; try done; [rewrite <- wh_pages0; solve_Permutation|].
  pose proof (wd_has_len _ _ Hw) as L. unfold MAX_WD_PAGE_NUM in L. rewrite wh_idle0. unfold u16. cbn [length] in *.
  rewrite E in L. cbn in L. rewrite Z.mod_small; lia.
Qed.

Lemma insert_out {A} (l : list A) k p d : (k < length l)%nat -> p :: l ≡ₚ nth k l d :: <[k := p]> l.
Proof.
  intros Hk. destruct (lookup_lt_is_Some_2 l k Hk) as [x Hx].
  rewrite (nth_lookup_Some l k d x Hx), insert_take_drop by done. rewrite <- (take_drop_middle l k x Hx) at 1.
  rewrite <- !Permutation_middle. apply Permutation_swap.
Qed.

Lemma work_ring_has p w X : wd_has w (p :: X) -> wd_has (enqueue_wd_work_ring p w) X.
Proof.
  intros Hw. unfold enqueue_wd_work_ring. apply enqueue_idle_has. pose proof Hw as []. split; cbn; try done.
  - rewrite <- wh_pages0. pose proof (insert_out (wd_work_ring w) (Z.to_nat (wd_work_idx w)) p 0%nat ltac:(lia)) as Hp.
    do 3 apply Permutation_app_head. rewrite <- !Permutation_middle. rewrite !app_comm_cons. by rewrite Hp.
  - by rewrite length_insert.
  - rewrite wh_wcnt0. apply Z.mod_pos_bound. unfold txbd_multi_tag. lia.
Qed.

Lemma pop_has p l w X : wd_has w X -> busy_list w = p :: l ->
  wd_has (set_busy l (u16 (busy_wd_page_cnt w - 1)) w) (p :: X).
Proof.
  intros Hw E. pose proof Hw as []. pose proof (wd_has_len _ _ Hw) as L. unfold MAX_WD_PAGE_NUM in L. rewrite E in *. cbn [length] in *.
  split; cbn; try done; [rewrite <- wh_pages0; solve_Permutation|]. rewrite wh_busy0. unfold u16. rewrite Z.mod_small; lia.
Qed.

Lemma release_busy_has lmt n sts w X : wd_has w X -> wd_has (snd (release_busy lmt n sts w)) X.
Proof.
  revert sts w. induction n as [|n IH]; intros sts w Hw; [done|]. cbn. destruct (busy_list w) as [|p l] eqn:E; [done|].
  apply IH. pose proof (pop_has p l w X Hw E) as Hw'.
  destruct lmt; [by apply work_ring_has|by apply enqueue_idle_has].
Qed.

Lemma release_pending_has n w X : wd_has w X -> wd_has (rtw_release_pending_wd_page n w) X.
Proof.
  revert w. induction n as [|n IH]; intros w Hw; [done|]. cbn.
  destruct (query_pending_wd_page w) as [[p|] w'] eqn:E.
  - apply IH, enqueue_idle_has. by eapply query_pending_has.
  - unfold query_pending_wd_page in E. destruct (pending_list w); [|done]. by injection E as <-.
Qed.

Lemma update_txbd_has bndy m p w X : wd_has w X -> wd_has (hal_update_txbd_8852be bndy m p w) X.
Proof. intros []. unfold hal_update_txbd_8852be. cbn. destruct (0 <? _); by split. Qed.

Lemma pending_loop_has bndy n sts mv w X : wd_has w X -> wd_has (snd (pending_loop bndy n sts mv w)) X.
Proof.
  revert sts mv w. induction n as [|n IH]; intros sts mv w Hw; [done|]. cbn.
  destruct (query_pending_wd_page w) as [[p|] w'] eqn:E.
  - apply IH, enqueue_busy_has, update_txbd_has. by eapply query_pending_has.
  - unfold query_pending_wd_page in E. destruct (pending_list w); [|done]. by injection E as <-.
Qed.

Lemma handle_busy_has bndy lmt hw w X : wd_has w X -> wd_has (snd (phl_handle_busy_wd bndy lmt hw w)) X.
Proof.
  intros Hw. unfold phl_handle_busy_wd. destruct (busy_list w) eqn:E; [done|].
  set (r := if _ <? _ then _ else _). assert (wd_has (snd r) X) as Hr.
  { unfold r. destruct (_ <? _); [|done]. by apply release_busy_has. }
  destruct r as [sts w']. cbn in Hr. destruct (negb _); [done|]. destruct (busy_list w'); [done|]. by apply release_busy_has.
Qed.

Lemma tx_channel_has bndy lmt mv w X : wd_has w X -> wd_has (snd (tx_channel bndy lmt mv w)) X.
Proof.
  intros Hw. unfold tx_channel. destruct (_ && _); [done|]. cbn [hal_get_avail_txbd_8852be].
  assert (wd_has (hw_fetch bndy (next_move mv) w) X) as H1 by (by destruct Hw; split).
  unfold hal_get_avail_txbd_8852be. set (w1 := hw_fetch _ _ w) in *. set (hw := Z.land (reg_hw w1) _).
  pose proof (handle_busy_has bndy lmt hw w1 X H1) as H2.
  destruct (phl_handle_busy_wd bndy lmt hw w1) as [sts w2]. cbn in H2.
  destruct (pending_list w2) eqn:E; [done|]. destruct (bool_decide _); [done|]. destruct (0 =? _); [done|].
  unfold phl_handle_pending_wd.
  match goal with |- context [pending_loop bndy ?n ?s ?m w2] => pose proof (pending_loop_has bndy n s m w2 X H2) as H3;
    destruct (pending_loop bndy n s m w2) as [[sts3 mv3] w3] end. cbn in *.
  destruct (bool_decide _); [|done]. by destruct H3; split.
Qed.

Lemma reset_pages_has lmt w X : wd_has w X -> wd_has (reset_pages lmt w) X.
Proof. intros Hw. apply release_pending_has, release_busy_has. by destruct Hw; split. Qed.

(** ** Tags *)

(** Sequence numbers in use, and their count. *)
Record tag_ok (w : rtw_wd_page_ring) : Prop := {
  tg_seq : 1 <= wp_seq w < WP_MAX_SEQ_NUMBER;
  tg_keys : forall k q, wp_tag w !! k = Some q -> 1 <= k < WP_MAX_SEQ_NUMBER;
  tg_cnt : busy_cnt (rpt_stats w) = Z.of_nat (size (wp_tag w)) }.

Lemma next_wp_seq_ok k : 1 <= k < WP_MAX_SEQ_NUMBER -> 1 <= next_wp_seq k < WP_MAX_SEQ_NUMBER.
Proof. unfold next_wp_seq, WP_MAX_SEQ_NUMBER. intros Hk. destruct (Z.eqb_spec 0 ((k + 1) mod 4095)); lia. Qed.

(** At most one request per sequence number. *)
Lemma tag_size w : tag_ok w -> Z.of_nat (size (wp_tag w)) < WP_MAX_SEQ_NUMBER.
Proof.
  intros [_ Hk _]. assert (dom (wp_tag w) ⊆ (list_to_set (seqZ 1 (WP_MAX_SEQ_NUMBER - 1)) : gset Z)) as Hs.
  { intros k Hd. apply elem_of_dom in Hd as [q Hq]. apply Hk in Hq. apply elem_of_list_to_set, elem_of_seqZ. lia. }
  apply subseteq_size in Hs. rewrite size_dom, size_list_to_set in Hs by apply NoDup_seqZ. rewrite length_seqZ in Hs.
  unfold WP_MAX_SEQ_NUMBER in *. lia.
Qed.

(** ** Descriptors *)

Section descriptors.
Context (n : Z) (Hn : 1 < n <= 4096).

(** Descriptors given to the hardware and not fetched. *)
Definition outstanding (w : rtw_wd_page_ring) : Z := (reg_host w - reg_hw w) mod n.
(** The descriptor of the first busy page. *)
Definition base (w : rtw_wd_page_ring) : Z := (txbd_host w - Z.of_nat (length (busy_list w))) mod n.

(** The last [c] busy pages were not yet given to the hardware. *)
Record bd_open (c : Z) (w : rtw_wd_page_ring) : Prop := {
  bo_len : Z.of_nat (length (busy_list w)) < n;
  bo_host : 0 <= txbd_host w < n;
  bo_hw : 0 <= reg_hw w < n;
  bo_reg : reg_host w = (txbd_host w - c) mod n;
  bo_out : 0 <= c /\ outstanding w + c <= Z.of_nat (length (busy_list w));
  bo_page : forall k p, busy_list w !! k = Some p ->
    page_idx w !! p = Some ((base w + Z.of_nat k + 1) mod n) /\ txbd w !! ((base w + Z.of_nat k) mod n) = Some p }.

Notation bd_ok := (bd_open 0).

Lemma mod_bound x : 0 <= x mod n < n.
Proof. apply Z.mod_pos_bound. lia. Qed.

Lemma mod_eq a b : (a - b) mod n = 0 -> a mod n = b mod n.
Proof. intros E. apply Z.cong_iff_0. done. Qed.

Lemma mod_shift a b : (a mod n + b) mod n = (a + b) mod n.
Proof. apply Zplus_mod_idemp_l. Qed.

Lemma out_bound w : 0 <= outstanding w < n.
Proof. apply mod_bound. Qed.

Lemma mod_sub_small a d : 0 <= d <= a mod n -> (a - d) mod n = a mod n - d.
Proof. intros Hd. pose proof (mod_bound a). rewrite <- Zminus_mod_idemp_l. apply Z.mod_small. lia. Qed.

Lemma fetch_out m w : outstanding (hw_fetch n m w) = outstanding w - Z.min (Z.of_nat m) (outstanding w).
Proof.
  unfold outstanding, hw_fetch. cbn. set (d := Z.min _ _). pose proof (mod_bound (reg_host w - reg_hw w)).
  rewrite Zminus_mod_idemp_r, Z.sub_add_distr. apply mod_sub_small. lia.
Qed.

Lemma fetch_open c m w : bd_open c w -> bd_open c (hw_fetch n m w).
Proof.
  intros []. split; try done; [apply mod_bound|]. rewrite fetch_out.
  pose proof (mod_bound (reg_host w - reg_hw w)). unfold outstanding in *. cbn. lia.
Qed.

Lemma land_index x : 0 <= x < n -> Z.land x 0x0FFF = x.
Proof. intros Hx. change 0x0FFF with (Z.ones 12). rewrite Z.land_ones by lia. apply Z.mod_small. lia. Qed.

(** The index registers say how many descriptors are free. *)
Lemma get_avail c m w : bd_open c w -> let v := hw_fetch n m w in
  hal_get_avail_txbd_8852be n m w = (n - 1 - outstanding v, reg_hw v, v).
Proof.
  intros Hw v. apply (fetch_open c m) in Hw. fold v in Hw. pose proof Hw as [].
  assert (0 <= reg_host v < n) as Hr by (rewrite bo_reg0; apply mod_bound).
  unfold hal_get_avail_txbd_8852be. fold v. rewrite !land_index by done. do 2 f_equal.
  unfold hal_calc_avail_wptr, outstanding, u16. destruct (Z.ltb_spec (reg_host v) (reg_hw v)).
  - rewrite <- (Z_mod_plus_full (reg_host v - reg_hw v) 1 n), !Z.mod_small by lia. lia.
  - rewrite (proj2 (Z.leb_le _ _)) by lia. rewrite !Z.mod_small by lia. lia.
Qed.

(** *** Writing a descriptor *)

Lemma mod_differ a i j : 0 <= i < n -> 0 <= j < n -> i <> j -> (a + i) mod n <> (a + j) mod n.
Proof.
  intros Hi Hj Hij E. apply Hij. rewrite <- (Z.mod_small i n), <- (Z.mod_small j n) by done.
  replace i with (a + i - a) by lia. replace j with (a + j - a) by lia.
  by rewrite <- (Zminus_mod_idemp_l (a + i)), E, Zminus_mod_idemp_l.
Qed.

Lemma host_base c w : bd_open c w -> txbd_host w = (base w + Z.of_nat (length (busy_list w))) mod n.
Proof.
  intros []. unfold base. rewrite Zplus_mod_idemp_l, Z.sub_add, Z.mod_small; done.
Qed.

Lemma push_open c m p w : bd_open c w -> p ∉ busy_list w -> Z.of_nat (length (busy_list w)) + 1 < n ->
  bd_open (c + 1) (enqueue_busy_wd_page p _tail (hal_update_txbd_8852be n m p w)).
Proof.
  intros Hw Hp Hl. unfold hal_update_txbd_8852be. rewrite (get_avail c) by done. apply (fetch_open c m) in Hw.
  change (busy_list w) with (busy_list (hw_fetch n m w)) in *. set (v := hw_fetch n m w) in *. clearbody v.
  pose proof (host_base c v Hw) as Hh. pose proof Hw as [].
  rewrite (proj2 (Z.ltb_ge (n - 1 - outstanding v) 1)) by lia. cbn [Z.ltb].
  assert (base (enqueue_busy_wd_page p _tail (set_bd (<[p := (txbd_host v + 1) mod n]> (page_idx v))
    ((txbd_host v + 1) mod n) (<[txbd_host v := p]> (txbd v)) v)) = base v) as Hb.
  { unfold base. cbn. rewrite length_app, Zminus_mod_idemp_l. cbn. f_equal. lia. }
  split; cbn.
  - rewrite length_app. cbn. lia.
  - apply mod_bound.
  - done.
  - rewrite bo_reg0, Zminus_mod_idemp_l. f_equal. lia.
  - unfold outstanding in *. cbn. rewrite length_app. cbn. lia.
  - intros k q Hk. cbn in Hb. rewrite Hb. apply lookup_app_Some in Hk as [Hk|[Hk1 Hk]].
    + assert (k < length (busy_list v))%nat by (by eapply lookup_lt_Some).
      rewrite !lookup_insert_ne; [by apply bo_page0| |].
      * rewrite Hh. apply mod_differ; lia.
      * intros ->. apply Hp. by eapply list_elem_of_lookup_2.
    + apply list_lookup_singleton_Some in Hk as [Hk ->].
      replace k with (length (busy_list v)) by lia. rewrite <- Hh, !lookup_insert_eq. split; [|done].
      by rewrite <- (Zplus_mod_idemp_l (_ + _)), <- Hh.
Qed.

(** *** Releasing pages *)

Lemma wd_has_NoDup w X : wd_has w X -> NoDup (idle_list w ++ busy_list w ++ pending_list w ++ wd_work_ring w ++ X).
Proof. intros []. rewrite wh_pages0. apply NoDup_seq. Qed.

Lemma wd_out_busy w X p : wd_has w X -> p ∈ pending_list w ++ wd_work_ring w ++ X -> p ∉ busy_list w.
Proof.
  intros Hw Hp Hb. apply wd_has_NoDup, NoDup_app in Hw as (_ & _ & Hw). apply NoDup_app in Hw as (_ & Hw & _).
  by apply (Hw p).
Qed.

Lemma idle_open c q w : bd_open c w -> q ∉ busy_list w -> bd_open c (enqueue_idle_wd_page q w).
Proof.
  intros [] Hq. split; cbn; try done. intros k p Hk. rewrite lookup_insert_ne; [by apply bo_page0|].
  intros ->. apply Hq. by eapply list_elem_of_lookup_2.
Qed.

Lemma pop_open c p l x w : bd_open c w -> busy_list w = p :: l -> outstanding w + c <= Z.of_nat (length l) ->
  bd_open c (set_busy l x w).
Proof.
  intros [] E Ho. rewrite E in *. cbn [length] in *.
  split; cbn; try done; [lia|unfold outstanding in *; cbn; lia|]. intros k q Hk. apply (bo_page0 (S k)) in Hk.
  assert (base (set_busy l x w) = (base w + 1) mod n) as ->.
  { unfold base. cbn. rewrite E, Zplus_mod_idemp_l. f_equal. cbn [length]. lia. }
  rewrite <- Z.add_assoc, !Zplus_mod_idemp_l.
  replace (base w + 1 + (Z.of_nat k + 1)) with (base w + Z.of_nat (S k) + 1) by lia.
  by replace (base w + 1 + Z.of_nat k) with (base w + Z.of_nat (S k)) by lia.
Qed.

Definition put_back (lmt : bool) (p : nat) (w : rtw_wd_page_ring) : rtw_wd_page_ring :=
  if lmt then enqueue_wd_work_ring p w else enqueue_idle_wd_page p w.

Lemma put_back_open lmt c p w X : wd_has w (p :: X) -> bd_open c w -> bd_open c (put_back lmt p w).
Proof.
  intros Hw Ho. destruct lmt; cbn.
  - apply idle_open; [by destruct Ho; split|]. apply (wd_out_busy _ _ _ Hw). apply elem_of_app; right.
    apply elem_of_app; left. destruct Hw. destruct (lookup_lt_is_Some_2 (wd_work_ring w) (Z.to_nat (wd_work_idx w))) as [x Hx].
    { lia. }
    rewrite (nth_lookup_Some _ _ _ _ Hx). by eapply list_elem_of_lookup_2.
  - apply idle_open; [done|]. apply (wd_out_busy _ _ _ Hw). set_solver.
Qed.

Lemma put_back_same lmt p w : busy_list (put_back lmt p w) = busy_list w /\ pending_list (put_back lmt p w) = pending_list w /\
  outstanding (put_back lmt p w) = outstanding w /\ reg_hw (put_back lmt p w) = reg_hw w.
Proof. by destruct lmt. Qed.

Lemma release_busy_open lmt k sts w X c : wd_has w X -> bd_open c w ->
  outstanding w + c + Z.of_nat k <= Z.of_nat (length (busy_list w)) ->
  let r := release_busy lmt k sts w in
  fst r = (if decide (k = 0%nat) then sts else RTW_PHL_STATUS_SUCCESS) /\ bd_open c (snd r) /\
  busy_list (snd r) = drop k (busy_list w) /\ pending_list (snd r) = pending_list w /\ outstanding (snd r) = outstanding w.
Proof.
  revert sts w. induction k as [|k IH]; intros sts w Hw Ho Hk; [done|]. cbn.
  destruct (busy_list w) as [|p l] eqn:E; [pose proof (out_bound w); destruct Ho; cbn in Hk; lia|]. cbn [length] in Hk.
  set (v := set_busy l _ w). fold (put_back lmt p v).
  pose proof (pop_has p l w X Hw E) as Hv. pose proof (pop_open c p l (u16 (busy_wd_page_cnt w - 1)) w Ho E ltac:(lia)) as Hov.
  fold v in Hv, Hov. destruct (put_back_same lmt p v) as (Eb & Ep & Eo & _).
  assert (wd_has (put_back lmt p v) X) as Hp by (destruct lmt; [by apply work_ring_has|by apply enqueue_idle_has]).
  destruct (IH RTW_PHL_STATUS_SUCCESS (put_back lmt p v) Hp) as (-> & Hr & -> & -> & ->).
  - by eapply put_back_open.
  - rewrite Eo, Eb. unfold v, outstanding in *. cbn. lia.
  - rewrite Eb, Ep, Eo. split_and!; try done. by destruct (decide (k = 0%nat)).
Qed.

(** *** The busy list in a turn *)

(** The pages the hardware is done with. *)
Definition fetched (w : rtw_wd_page_ring) : nat := length (busy_list w) - Z.to_nat (outstanding w).

(** The hardware did not progress: no busy page can be released. *)
Definition stalled (w : rtw_wd_page_ring) : Prop := busy_list w <> [] /\ fetched w = 0%nat.
#[export] Instance stalled_dec w : Decision (stalled w).
Proof. unfold stalled. apply _. Qed.

Lemma mod_wit a b k : a = b + k * n -> 0 <= b < n -> a mod n = b.
Proof. intros -> Hb. rewrite Z_mod_plus_full. by apply Z.mod_small. Qed.

Lemma mod_ex a : exists k, a mod n = a + k * n.
Proof. exists (- (a / n)). rewrite (Z.div_mod a n) at 2 by lia. lia. Qed.

Lemma hw_base c w : bd_open c w -> (reg_hw w - base w) mod n = Z.of_nat (fetched w) - c.
Proof.
  intros []. pose proof (out_bound w) as Hb. unfold fetched, outstanding, base in *.
  destruct (mod_ex (txbd_host w - c)) as [k1 E1], (mod_ex (reg_host w - reg_hw w)) as [k2 E2],
    (mod_ex (txbd_host w - Z.of_nat (length (busy_list w)))) as [k3 E3].
  apply (mod_wit _ _ (k1 + k2 - k3)); lia.
Qed.

Lemma handle_busy_open lmt w X : wd_has w X -> bd_ok w ->
  let r := phl_handle_busy_wd n lmt (reg_hw w) w in
  fst r = (if decide (stalled w) then RTW_PHL_STATUS_FAILURE else RTW_PHL_STATUS_SUCCESS) /\
  bd_ok (snd r) /\ busy_list (snd r) = drop (fetched w) (busy_list w) /\
  pending_list (snd r) = pending_list w /\ outstanding (snd r) = outstanding w.
Proof.
  intros Hw Ho. unfold phl_handle_busy_wd. destruct (busy_list w) as [|p l] eqn:E.
  { rewrite decide_False by (intros [? _]; done). cbn. by rewrite drop_nil. }
  pose proof (hw_base 0 w Ho) as Hh. pose proof Ho as []. pose proof Hw as []. pose proof (out_bound w) as Hb.
  rewrite wh_busy0, (proj2 (Z.ltb_ge _ _)) by lia. cbn [negb]. rewrite bool_decide_true by done. cbn [negb]. rewrite E.
  destruct (bo_page0 0%nat p) as [-> _]; [by rewrite E|]. unfold default, id.
  set (t := (base w + Z.of_nat 0 + 1) mod n).
  assert ((if t <=? reg_hw w then (reg_hw w - t + 1) mod n else (n - t + (reg_hw w + 1)) mod n) = Z.of_nat (fetched w)) as ->.
  { rewrite <- (Z.sub_0_r (Z.of_nat _)), <- Hh. destruct (mod_ex (base w + Z.of_nat 0 + 1)) as [k1 E1]. fold t in E1.
    rewrite E1. destruct (_ <=? _).
    - rewrite <- (Z_mod_plus_full _ k1). f_equal. lia.
    - rewrite <- (Z_mod_plus_full _ (k1 - 1)). f_equal. lia. }
  unfold rtw_release_busy_wd_page. rewrite Nat2Z.id.
  destruct (release_busy_open lmt (fetched w) RTW_PHL_STATUS_FAILURE w X 0 Hw Ho) as (-> & ? & -> & -> & ->).
  { unfold fetched. lia. }
  rewrite E. split_and!; try done. destruct (decide (fetched w = 0%nat)).
  - rewrite decide_True; [done|]. split; [by rewrite E|done].
  - rewrite decide_False; [done|]. by intros [_ ?].
Qed.

(** *** The pending list in a turn *)

Lemma update_txbd_same m p w : busy_list (hal_update_txbd_8852be n m p w) = busy_list w /\
  pending_list (hal_update_txbd_8852be n m p w) = pending_list w /\
  outstanding (hal_update_txbd_8852be n m p w) = outstanding w - Z.min (Z.of_nat m) (outstanding w).
Proof. rewrite <- fetch_out. unfold hal_update_txbd_8852be. cbn. by destruct (0 <? _). Qed.

Lemma pending_loop_open k sts mv w X c : wd_has w X -> bd_open c w -> (k <= length (pending_list w))%nat ->
  Z.of_nat (length (busy_list w) + k) < n ->
  let r := pending_loop n k sts mv w in
  fst (fst r) = (if decide (k = 0%nat) then sts else RTW_PHL_STATUS_SUCCESS) /\ bd_open (c + Z.of_nat k) (snd r) /\
  busy_list (snd r) = busy_list w ++ take k (pending_list w) /\ pending_list (snd r) = drop k (pending_list w) /\
  outstanding (snd r) <= outstanding w.
Proof.
  revert sts mv w c. induction k as [|k IH]; intros sts mv w c Hw Ho Hk Hkn.
  { cbn. rewrite app_nil_r, drop_0, Z.add_0_r. split_and!; try done; lia. }
  cbn [pending_loop]. unfold query_pending_wd_page. destruct (pending_list w) as [|p l] eqn:E; [cbn in Hk; lia|].
  set (v := set_pending l _ w). assert (wd_has v (p :: X)) as Hv.
  { eapply query_pending_has; [|done]. unfold query_pending_wd_page. by rewrite E. }
  assert (bd_open c v) as Hov by (by destruct Ho; split). destruct (update_txbd_same (next_move mv) p v) as (Eb & Ep & Eo).
  assert (bd_open (c + 1) (enqueue_busy_wd_page p _tail (hal_update_txbd_8852be n (next_move mv) p v))) as Hu.
  { apply push_open; [done| |cbn; lia]. apply (wd_out_busy _ _ _ Hv). set_solver. }
  apply (update_txbd_has n (next_move mv) p) in Hv. apply (enqueue_busy_has _tail p) in Hv.
  set (u := hal_update_txbd_8852be n _ p v) in *. clearbody u.
  destruct (IH RTW_PHL_STATUS_SUCCESS (tail mv) (enqueue_busy_wd_page p _tail u) (c + 1) Hv Hu) as (-> & Hr & -> & -> & Hl).
  - cbn. rewrite Ep. cbn in *. lia.
  - cbn. rewrite Eb, length_app. cbn. lia.
  - cbn [busy_list pending_list enqueue_busy_wd_page set_busy put_at] in *. rewrite Eb, Ep.
    split_and!; [by destruct (decide (k = 0%nat))| | by rewrite <- app_assoc|done|].
    + replace (c + Z.of_nat (S k)) with (c + 1 + Z.of_nat k) by lia. done.
    + etrans; [apply Hl|]. change (outstanding (enqueue_busy_wd_page p _tail u)) with (outstanding u).
      pose proof (out_bound v). change (outstanding w) with (outstanding v). lia.
Qed.

Lemma trigger_open c w : bd_open c w ->
  bd_ok (hal_trigger_txdma_8852be w) /\ outstanding (hal_trigger_txdma_8852be w) = outstanding w + c.
Proof.
  intros []. assert (outstanding (hal_trigger_txdma_8852be w) = outstanding w + c) as E.
  { pose proof (out_bound w). unfold outstanding in *. cbn.
    destruct (mod_ex (txbd_host w - c)) as [k1 E1], (mod_ex (reg_host w - reg_hw w)) as [k2 E2].
    apply (mod_wit _ _ (- (k1 + k2))); lia. }
  split; [|done]. split; try done; [by rewrite Z.sub_0_r, Z.mod_small|]. rewrite E. cbn. lia.
Qed.

(** *** A turn of a channel *)

(** The number of pending pages sent. *)
Definition to_send (w : rtw_wd_page_ring) : nat :=
  if decide (stalled w) then 0 else Nat.min (Z.to_nat (n - 1 - outstanding w)) (length (pending_list w)).

Definition turn_of (w : rtw_wd_page_ring) (r : rtw_phl_status * list nat * rtw_wd_page_ring) : Prop :=
  fst (fst r) = (if decide (stalled w) then RTW_PHL_STATUS_FAILURE else RTW_PHL_STATUS_SUCCESS) /\ bd_ok (snd r) /\
  busy_list (snd r) = drop (fetched w) (busy_list w) ++ take (to_send w) (pending_list w) /\
  pending_list (snd r) = drop (to_send w) (pending_list w) /\
  outstanding (snd r) <= outstanding w + Z.of_nat (to_send w).

Lemma turn_none sts w v mv : to_send w = 0%nat ->
  sts = (if decide (stalled w) then RTW_PHL_STATUS_FAILURE else RTW_PHL_STATUS_SUCCESS) -> bd_ok v ->
  busy_list v = drop (fetched w) (busy_list w) -> pending_list v = pending_list w -> outstanding v = outstanding w ->
  turn_of w (sts, mv, v).
Proof. intros E -> ? Eb Ep Eo. split_and!; cbn; rewrite ?E, ?Eb, ?Ep, ?drop_0, ?app_nil_r; done || lia. Qed.

Lemma turn_rest lmt mv w X : wd_has w X -> bd_ok w -> pending_list w <> [] \/ busy_list w <> [] ->
  let '(sts, v) := phl_handle_busy_wd n lmt (reg_hw w) w in
  turn_of w
    match pending_list v with
    | [] => (sts, mv, v)
    | _ =>
        if bool_decide (sts = RTW_PHL_STATUS_FAILURE) then (sts, mv, v)
        else if 0 =? n - 1 - outstanding w then (sts, mv, v)
        else
          let txcnt := if n - 1 - outstanding w <? pending_wd_page_cnt v then n - 1 - outstanding w else pending_wd_page_cnt v in
          phl_handle_pending_wd n txcnt mv v
    end.
Proof.
  intros Hw Ho Hne. pose proof (handle_busy_open lmt w X Hw Ho) as (Es & Hv & Eb & Ep & Eo).
  pose proof (handle_busy_has n lmt (reg_hw w) w X Hw) as Hx.
  destruct (phl_handle_busy_wd n lmt (reg_hw w) w) as [sts v]. cbn [fst snd] in *. pose proof (out_bound w) as Hb.
  destruct (pending_list v) as [|p l] eqn:E.
  { apply turn_none; try done; [|by rewrite E]. unfold to_send. rewrite <- Ep. cbn. destruct (decide _); lia. }
  case_bool_decide as Hs.
  { apply turn_none; try done; [|by rewrite E]. unfold to_send. destruct (decide _); [done|]. congruence. }
  assert (~ stalled w) as Hns by (intros ?; rewrite decide_True in Es by done; done). rewrite decide_False in Es by done.
  destruct (Z.eqb_spec 0 (n - 1 - outstanding w)) as [Hz|Hz].
  { apply turn_none; try done; [|by rewrite decide_False|by rewrite E]. unfold to_send. rewrite decide_False by done. lia. }
  cbn zeta. pose proof Hx as []. rewrite wh_pend0.
  replace (if _ <? _ then _ else _) with (Z.of_nat (to_send w)).
  2: { unfold to_send. rewrite decide_False, <- Ep, E by done. destruct (Z.ltb_spec (n - 1 - outstanding w) (Z.of_nat (length (p :: l)))); lia. }
  unfold phl_handle_pending_wd. rewrite Nat2Z.id.
  destruct (pending_loop_open (to_send w) RTW_PHL_STATUS_FAILURE mv v X 0 Hx Hv) as (E1 & H1 & E2 & E3 & E4).
  - unfold to_send. rewrite decide_False, <- Ep, E by done. lia.
  - rewrite Eb, length_drop. unfold fetched, to_send. rewrite decide_False by done. pose proof Ho as []. lia.
  - rewrite decide_False in E1 by (unfold to_send; rewrite decide_False, <- Ep by done; cbn; lia).
    destruct (pending_loop n (to_send w) _ mv v) as [[s' mv'] v']. cbn [fst snd] in *. subst s'.
    rewrite bool_decide_true by done. destruct (trigger_open _ _ H1) as [H2 E5].
    split_and!; cbn [fst snd]; [by rewrite decide_False|done|cbn; by rewrite E2, Eb, E, Ep|cbn; by rewrite E3, E, Ep|lia].
Qed.

Lemma tx_channel_open lmt mv w X : wd_has w X -> bd_ok w -> pending_list w <> [] \/ busy_list w <> [] ->
  turn_of (hw_fetch n (next_move mv) w) (tx_channel n lmt mv w).
Proof.
  intros Hw Ho Hne. unfold tx_channel. pose proof Hw as []. rewrite wh_pend0, wh_busy0.
  assert ((Z.of_nat (length (pending_list w)) =? 0) && (Z.of_nat (length (busy_list w)) =? 0) = false) as ->.
  { destruct (pending_list w), (busy_list w); try done. by destruct Hne. }
  rewrite (get_avail 0) by done. assert (wd_has (hw_fetch n (next_move mv) w) X) as Hv by (by destruct Hw; split).
  apply (fetch_open _ (next_move mv)) in Ho.
  pose proof (turn_rest lmt (tail mv) _ X Hv Ho Hne) as Ht.
  by destruct (phl_handle_busy_wd n lmt (reg_hw (hw_fetch n (next_move mv) w)) (hw_fetch n (next_move mv) w)).
Qed.

(** The descriptors the hardware has still to fetch point to the last busy
    pages, in order. *)
Lemma unfetched_busy w j : bd_ok w -> 0 <= j < outstanding w ->
  exists p, txbd w !! ((reg_hw w + j) mod n) = Some p /\ busy_list w !! (fetched w + Z.to_nat j)%nat = Some p.
Proof.
  intros Ho Hj. pose proof (hw_base 0 w Ho) as Hh. pose proof Ho as [].
  destruct (lookup_lt_is_Some_2 (busy_list w) (fetched w + Z.to_nat j)) as [p Hp]; [unfold fetched; lia|].
  exists p. split; [|done]. apply bo_page0 in Hp as [_ <-]. f_equal.
  destruct (mod_ex (reg_hw w - base w)) as [k E]. rewrite <- (Z_mod_plus_full _ k). f_equal. lia.
Qed.
End descriptors.
