(* ===== verification/TxPcieOk.v ===== *)
(** * The PCIe bus layer meets its interface

    The operations of the bus layer keep the invariant of every channel, and
    hold each request from the moment it is taken until it is given back. *)

From stdpp Require Import gmap.
From S2P Require Import Prelude PhlQueue PhlDef RxReorder RxRing TxRing TxPcie TxPcieInv.

(** ** The invariant *)

Record ch_ok (n : Z) (w : rtw_wd_page_ring) : Prop := {
  ck_has : wd_has w [];
  ck_bd : bd_open n 0 w;
  ck_tag : tag_ok w }.

Record hci_ok (h : hci_info) : Prop := {
  hk_num : 1 < txbd_num h <= 4096;
  hk_len : length (wd_ring h) = TX_DMA_CHANNEL_ENTRY_8852BE;
  hk_ch : Forall (ch_ok (txbd_num h)) (wd_ring h) }.

Definition reqs (h : hci_info) : list nat := concat (tags <$> wd_ring h).

(** What the bus layer does on its own; the environment's inputs may change at
    any time.  Reports name existing channels and sequence numbers. *)
Definition report_ok (r : nat * Z * Z) : Prop :=
  (fst (fst r) < TX_DMA_CHANNEL_ENTRY_8852BE)%nat /\ 0 <= snd (fst r) < WP_MAX_SEQ_NUMBER.

Definition env_hci (moves : list nat) (fill recycle : list bool) (now : Z) (h : hci_info) : hci_info :=
  mkHci (wd_ring h) (mac_wp_seq h) (txbd_num h) (txbd_upd_lmt h) moves fill recycle (hc_back h) now.

Inductive hci_op (h : hci_info) : list nat -> hci_info -> Prop :=
| HTurn : hci_op h [] (phl_tx_pcie h)
| HRecycle : hci_op h [] (phl_recycle_busy_wd h)
| HReport rpts back : Forall report_ok rpts ->
    hc_back (_phl_rx_handle_wp_report rpts h) = hc_back h ++ back -> hci_op h back (_phl_rx_handle_wp_report rpts h)
| HReset back :
    hc_back (phl_tx_reset_pcie h) = hc_back h ++ back -> hci_op h back (hw_reset (phl_tx_reset_pcie h))
| HEnv moves fill recycle now : hci_op h [] (env_hci moves fill recycle now h).

(** ** One channel changes *)

Lemma reqs_alter ch f w h x y : wd_ring h !! ch = Some w -> x ++ tags w ≡ₚ y ++ tags (f w) ->
  x ++ reqs h ≡ₚ y ++ reqs (upd_ch ch f h).
Proof.
  unfold reqs. cbn. generalize (wd_ring h). intros ws. revert ch. induction ws as [|v ws IH]; intros [|ch] E Hx; try done; cbn in *.
  - injection E as ->. by rewrite !app_assoc, Hx.
  - specialize (IH ch E Hx). rewrite (Permutation_app_comm (tags v)), (Permutation_app_comm (tags v)), !app_assoc. by rewrite IH.
Qed.

Lemma ok_upd_ch ch f h : hci_ok h -> (forall w, wd_ring h !! ch = Some w -> ch_ok (txbd_num h) w -> ch_ok (txbd_num h) (f w)) ->
  hci_ok (upd_ch ch f h).
Proof.
  intros [] Hf. split; cbn; [done|by rewrite length_alter|]. apply Forall_alter; [done|]. exact Hf.
Qed.

(** ** Taking a request *)

Lemma tag_insert w q : tag_ok w -> wp_tag w !! wp_seq w = None ->
  tag_ok (set_wp_seq (next_wp_seq (wp_seq w)) (set_rpt (bump_busy 1 (rpt_stats w)) (set_wp_tag (<[wp_seq w := q]> (wp_tag w)) w))).
Proof.
  intros Hw E. pose proof (tag_size w Hw) as Hs. destruct Hw as [H1 H2 H3]. split; cbn.
  - by apply next_wp_seq_ok.
  - intros k v [[<- <-]|[? ?]]%lookup_insert_Some; eauto.
  - rewrite map_size_insert_None by done. rewrite H3. unfold u32, WP_MAX_SEQ_NUMBER in *. rewrite Z.mod_small; lia.
Qed.

Lemma tags_insert w k q : wp_tag w !! k = None -> tags (set_wp_tag (<[k := q]> (wp_tag w)) w) ≡ₚ tq_ptr q :: tags w.
Proof. intros E. unfold tags. cbn. by rewrite map_to_list_insert. Qed.

(** The page goes from idle to pending. *)
Lemma query_idle_same n c w p v : query_idle_wd_page w = (Some p, v) -> bd_open n c w -> tag_ok w ->
  bd_open n c v /\ tag_ok v /\ wp_tag v = wp_tag w /\ wp_seq v = wp_seq w.
Proof.
  unfold query_idle_wd_page. destruct (idle_list w); [done|]. intros [= <- <-] [] []. split_and!; try done; by split.
Qed.

Lemma tag_ext w v : wp_tag v = wp_tag w -> wp_seq v = wp_seq w -> rpt_stats v = rpt_stats w -> tag_ok w -> tag_ok v.
Proof. intros Et Es Er []. split; rewrite ?Et, ?Es, ?Er; done. Qed.

Lemma bd_ext n c w v : busy_list v = busy_list w -> txbd_host v = txbd_host w -> reg_host v = reg_host w -> reg_hw v = reg_hw w ->
  page_idx v = page_idx w -> txbd v = txbd w -> bd_open n c w -> bd_open n c v.
Proof.
  intros E1 E2 E3 E4 E5 E6 []. split; unfold outstanding, base in *; rewrite ?E1, ?E2, ?E3, ?E4, ?E5, ?E6; done.
Qed.

Lemma prepare_ch_ok n w p v q : ch_ok n w -> query_idle_wd_page w = (Some p, v) -> wp_tag w !! wp_seq w = None ->
  let v := enqueue_pending_wd_page p _tail v in
  ch_ok n (set_wp_seq (next_wp_seq (wp_seq w)) (set_rpt (bump_busy 1 (rpt_stats v)) (set_wp_tag (<[wp_seq w := q]> (wp_tag v)) v))).
Proof.
  intros [Hh Hb Ht] Eq En u. destruct (query_idle_same n 0 w p v Eq Hb Ht) as (Hbv & Htv & E1 & E2).
  pose proof (query_idle_has _ _ _ _ Eq Hh) as Hv. apply (enqueue_pending_has _tail) in Hv. fold u in Hv. split.
  - by destruct Hv; split.
  - by apply (bd_ext n 0 v).
  - rewrite <- E2. apply (tag_insert u); [by apply (tag_ext v)|]. change (wp_tag v !! wp_seq v = None). by rewrite E1, E2.
Qed.

Lemma prepare_back_ok n w p v : ch_ok n w -> query_idle_wd_page w = (Some p, v) -> ch_ok n (rtw_release_target_wd_page p v).
Proof.
  intros [Hh Hb Ht] Eq. destruct (query_idle_same n 0 w p v Eq Hb Ht) as (Hbv & Htv & _).
  pose proof (query_idle_has _ _ _ _ Eq Hh) as Hv. split.
  - by apply enqueue_idle_has.
  - apply idle_open; [done|]. apply (wd_out_busy _ _ _ Hv). set_solver.
  - by apply (tag_ext v).
Qed.

Lemma prepare_ok q h : hci_ok h -> hci_ok (snd (phl_prepare_tx_pcie q h)).
Proof.
  intros Hh. unfold phl_prepare_tx_pcie. destruct (wd_ring h !! _) as [w|] eqn:Ew; [|done].
  destruct (wp_tag w !! wp_seq w) eqn:Et; [done|]. destruct (query_idle_wd_page w) as [[p|] v] eqn:Eq; [|done].
  destruct (default _ _); cbn [snd].
  - apply ok_upd_ch; [by destruct Hh; split|]. intros w' Ew' Hw'. cbn in Ew'. simplify_eq. by apply prepare_ch_ok.
  - apply ok_upd_ch; [by destruct Hh; split|]. intros w' Ew' Hw'. cbn in Ew'. simplify_eq. by eapply prepare_back_ok.
Qed.

Lemma prepare_spec q h : let '((sts, q'), h') := phl_prepare_tx_pcie q h in
  tq_ptr q' = tq_ptr q /\
  reqs h' ≡ₚ (if bool_decide (sts = RTW_PHL_STATUS_SUCCESS) then [tq_ptr q] else []) ++ reqs h.
Proof.
  unfold phl_prepare_tx_pcie. destruct (wd_ring h !! _) as [w|] eqn:Ew; [|done].
  destruct (wp_tag w !! wp_seq w) eqn:Et; [done|]. destruct (query_idle_wd_page w) as [[p|] v] eqn:Eq; [|done].
  assert (wp_tag v = wp_tag w) as Ev.
  { unfold query_idle_wd_page in Eq. destruct (idle_list w); [done|]. by injection Eq as <- <-. }
  destruct (default _ _); (split; [done|]).
  - rewrite bool_decide_true by done. symmetry. set (h' := set_mac_wp_seq _ _). change (reqs h) with (reqs h').
    apply (reqs_alter _ _ w h' [tq_ptr q] []); [done|]. unfold tags. cbn. rewrite Ev, map_to_list_insert by done. done.
  - rewrite bool_decide_false by done. symmetry. set (h' := set_hc_fill _ _). change (reqs h) with (reqs h').
    apply (reqs_alter _ _ w h' [] []); [done|]. unfold tags. cbn. by rewrite Ev.
Qed.

(** ** Sending and releasing pages *)

(** A turn does not touch the tags. *)
Definition same_tags (v w : rtw_wd_page_ring) : Prop :=
  wp_tag v = wp_tag w /\ wp_seq v = wp_seq w /\ rpt_stats v = rpt_stats w.

Lemma same_tags_trans u v w : same_tags u v -> same_tags v w -> same_tags u w.
Proof. unfold same_tags. naive_solver congruence. Qed.

Lemma release_busy_tags lmt k sts w : same_tags (snd (release_busy lmt k sts w)) w.
Proof.
  revert sts w. induction k as [|k IH]; intros sts w; [done|]. cbn. destruct (busy_list w) as [|p l]; [done|].
  eapply same_tags_trans; [apply IH|]. by destruct lmt.
Qed.

Lemma handle_busy_tags n lmt hw w : same_tags (snd (phl_handle_busy_wd n lmt hw w)) w.
Proof.
  unfold phl_handle_busy_wd. destruct (busy_list w); [done|].
  set (r := if _ <? _ then _ else _). assert (same_tags (snd r) w) as Hr.
  { unfold r. destruct (_ <? _); [apply release_busy_tags|done]. }
  destruct r as [sts v]. cbn in Hr. destruct (negb _); [done|]. destruct (busy_list v); [done|].
  eapply same_tags_trans; [apply release_busy_tags|done].
Qed.

Lemma pending_loop_tags n k sts mv w : same_tags (snd (pending_loop n k sts mv w)) w.
Proof.
  revert sts mv w. induction k as [|k IH]; intros sts mv w; [done|]. cbn [pending_loop]. unfold query_pending_wd_page.
  destruct (pending_list w) as [|p l]; [done|]. eapply same_tags_trans; [apply IH|].
  unfold hal_update_txbd_8852be. cbn. by destruct (0 <? _).
Qed.

Lemma tx_channel_tags n lmt mv w : same_tags (snd (tx_channel n lmt mv w)) w.
Proof.
  unfold tx_channel. destruct (_ && _); [done|]. unfold hal_get_avail_txbd_8852be. set (v := hw_fetch _ _ w).
  set (hw := Z.land (reg_hw v) _). set (res := hal_calc_avail_wptr _ _ _).
  pose proof (handle_busy_tags n lmt hw v) as Hb. destruct (phl_handle_busy_wd _ _ _ v) as [sts u]. cbn in Hb.
  change (same_tags u w) in Hb. destruct (pending_list u); [done|]. destruct (bool_decide _); [done|]. destruct (0 =? _); [done|].
  unfold phl_handle_pending_wd.
  pose proof (pending_loop_tags n (Z.to_nat (if res <? pending_wd_page_cnt u then res else pending_wd_page_cnt u))
    RTW_PHL_STATUS_FAILURE (tail mv) u) as Hp.
  cbn zeta. destruct (pending_loop _ _ _ _ u) as [[s' mv'] t]. cbn in *. eapply same_tags_trans; [|done]. by destruct (bool_decide _).
Qed.

Section turn.
Context (n : Z) (Hn : 1 < n <= 4096).

Lemma tx_channel_ok lmt mv w : ch_ok n w -> ch_ok n (snd (tx_channel n lmt mv w)).
Proof.
  intros [Hh Hb Ht]. split.
  - by apply tx_channel_has.
  - destruct (decide (pending_list w = [] /\ busy_list w = [])) as [[E1 E2]|Hne].
    + unfold tx_channel. pose proof Hh as []. by rewrite wh_pend, wh_busy, E1, E2.
    + destruct (tx_channel_open n Hn lmt mv w [] Hh Hb) as (_ & ? & _); [|done].
      destruct (decide (pending_list w = [])), (decide (busy_list w = [])); naive_solver.
  - destruct (tx_channel_tags n lmt mv w) as (? & ? & ?). by apply (tag_ext w).
Qed.

Lemma recycle_channel_ok lmt m w : ch_ok n w ->
  ch_ok n (snd (phl_handle_busy_wd n lmt (reg_hw (hw_fetch n m w)) (hw_fetch n m w))).
Proof.
  intros [Hh Hb Ht]. set (v := hw_fetch n m w). assert (wd_has v []) as Hv by (by destruct Hh; split).
  apply (fetch_open n Hn 0 m) in Hb. fold v in Hb. split.
  - by apply handle_busy_has.
  - by destruct (handle_busy_open n Hn lmt v [] Hv Hb) as (_ & ? & _).
  - destruct (handle_busy_tags n lmt (reg_hw v) v) as (? & ? & ?). by apply (tag_ext w).
Qed.

Lemma tx_channels_ok lmt mv ws : Forall (ch_ok n) ws ->
  Forall (ch_ok n) (snd (tx_channels n lmt mv ws)) /\ tags <$> snd (tx_channels n lmt mv ws) = tags <$> ws.
Proof.
  intros Hw. revert mv. induction Hw as [|w ws Hw _ IH]; intros mv; [done|]. cbn.
  pose proof (tx_channel_ok lmt mv w Hw) as H1. pose proof (tx_channel_tags n lmt mv w) as (H2 & _).
  destruct (tx_channel n lmt mv w) as [[sts mv'] v]. cbn in *. destruct (IH mv') as [IH1 IH2].
  destruct (tx_channels n lmt mv' ws) as [mv'' vs]. cbn in *. split; [by constructor|]. rewrite IH2. unfold tags. by rewrite H2.
Qed.

Lemma recycle_channels_ok lmt mv ws : Forall (ch_ok n) ws ->
  Forall (ch_ok n) (snd (recycle_channels n lmt mv ws)) /\ tags <$> snd (recycle_channels n lmt mv ws) = tags <$> ws.
Proof.
  intros Hw. revert mv. induction Hw as [|w ws Hw _ IH]; intros mv; [done|]. cbn [recycle_channels].
  rewrite (get_avail n Hn 0) by apply Hw. pose proof (recycle_channel_ok lmt (next_move mv) w Hw) as H1.
  set (v := hw_fetch n (next_move mv) w) in *.
  pose proof (handle_busy_tags n lmt (reg_hw v) v) as (H2 & _). change (wp_tag v) with (wp_tag w) in H2.
  destruct (IH (tail mv)) as [IH1 IH2]. destruct (recycle_channels n lmt (tail mv) ws) as [mv'' vs]. cbn [snd] in *.
  split; [by constructor|]. cbn [fmap list_fmap]. rewrite IH2. unfold tags. by rewrite H2.
Qed.
End turn.

(** ** Reports *)

Definition at_ch (P : rtw_wd_page_ring -> Prop) (ch : nat) (h : hci_info) : Prop :=
  exists w, wd_ring h !! ch = Some w /\ P w.

(** A tagged request is taken back. *)
Definition untag (k : Z) (w : rtw_wd_page_ring) : rtw_wd_page_ring :=
  set_rpt (bump_busy (-1) (rpt_stats w)) (set_wp_tag (delete k (wp_tag w)) w).

(** Properties a report does not break. *)
Class ReportSafe (P : rtw_wd_page_ring -> Prop) : Prop := {
  safe_rpt : forall w s, busy_cnt s = busy_cnt (rpt_stats w) -> P w -> P (set_rpt s w);
  safe_untag : forall w k, is_Some (wp_tag w !! k) -> P w -> P (untag k w) }.

Lemma count_busy d txsts s : busy_cnt (count_report d txsts s) = busy_cnt s.
Proof. destruct s. unfold count_report. by repeat case_match. Qed.

#[export] Instance tag_safe : ReportSafe tag_ok.
Proof.
  split.
  - intros w s E [H1 H2 H3]. split; cbn; [done|done|by rewrite E].
  - intros w k [q Hq] Hw. pose proof (tag_size w Hw) as Hs. destruct Hw as [H1 H2 H3]. split; cbn; [done| |].
    + intros j v [_ Hj]%lookup_delete_Some. by eapply H2.
    + rewrite map_size_delete_Some by eauto. assert (size (wp_tag w) <> 0%nat) by (intros E; apply map_size_empty_inv in E; by rewrite E in Hq).
      rewrite H3. unfold u32, WP_MAX_SEQ_NUMBER in *. rewrite Z.mod_small; lia.
Qed.

#[export] Instance has_safe : ReportSafe (fun w => wd_has w []).
Proof. split; intros ??? []; by split. Qed.

#[export] Instance and_safe P Q : ReportSafe P -> ReportSafe Q -> ReportSafe (fun w => P w /\ Q w).
Proof. intros [] []. split; naive_solver. Qed.

#[export] Instance ch_safe n : ReportSafe (ch_ok n).
Proof.
  split; intros ??? [Hh Hb Ht]; split.
  - by apply (@safe_rpt _ has_safe).
  - by apply (bd_ext n 0 w).
  - by apply (@safe_rpt _ tag_safe).
  - by apply (@safe_untag _ has_safe).
  - by apply (bd_ext n 0 w).
  - by apply (@safe_untag _ tag_safe).
Qed.

Lemma at_ch_upd P ch' ch f h : (forall w, wd_ring h !! ch = Some w -> P w -> P (f w)) -> at_ch P ch' h -> at_ch P ch' (upd_ch ch f h).
Proof.
  intros Hf (w & Ew & Hw). unfold at_ch. cbn. destruct (decide (ch' = ch)) as [->|Hne].
  - exists (f w). rewrite list_lookup_alter_eq, Ew. eauto.
  - exists w. by rewrite list_lookup_alter_ne.
Qed.

(** What a report does: nothing but counting, or the request goes back. *)
Record reported (h h' : hci_info) (back : list nat) : Prop := {
  rp_back : hc_back h' = hc_back h ++ back;
  rp_reqs : reqs h ≡ₚ back ++ reqs h';
  rp_len : length (wd_ring h') = length (wd_ring h);
  rp_num : txbd_num h' = txbd_num h;
  rp_lmt : txbd_upd_lmt h' = txbd_upd_lmt h;
  rp_acc : exists k, hc_recycle h' = drop k (hc_recycle h);
  rp_safe : forall P ch, ReportSafe P -> at_ch P ch h -> at_ch P ch h' }.

Lemma reported_refl h : reported h h [].
Proof. split; try done; [by rewrite app_nil_r|by exists 0%nat]. Qed.

Lemma reported_trans h1 h2 h3 b1 b2 : reported h1 h2 b1 -> reported h2 h3 b2 -> reported h1 h3 (b1 ++ b2).
Proof.
  intros [A1 A2 A3 A4 A5 [k1 A6] A7] [B1 B2 B3 B4 B5 [k2 B6] B7]. split.
  - by rewrite B1, A1, app_assoc.
  - by rewrite A2, B2, app_assoc.
  - congruence.
  - congruence.
  - congruence.
  - exists (k1 + k2)%nat. by rewrite B6, A6, drop_drop.
  - auto.
Qed.

Lemma reported_rpt ch w s h : wd_ring h !! ch = Some w -> busy_cnt (s w) = busy_cnt (rpt_stats w) ->
  reported h (upd_ch ch (fun w => set_rpt (s w) w) h) [].
Proof.
  intros Ew Es. split; cbn; try done.
  - by rewrite app_nil_r.
  - by apply (reqs_alter ch _ w h [] []).
  - by rewrite length_alter.
  - by exists 0%nat.
  - intros P ch' HP. apply at_ch_upd. intros w' Ew'. simplify_eq. by apply safe_rpt.
Qed.

Lemma reported_untag ch w k q h : wd_ring h !! ch = Some w -> wp_tag w !! k = Some q ->
  reported h (set_hc_back (hc_back h ++ [tq_ptr q]) (upd_ch ch (untag k) h)) [tq_ptr q].
Proof.
  intros Ew Ek. split; cbn; try done.
  - apply (reqs_alter ch (untag k) w h [] [tq_ptr q]); [done|]. unfold tags. cbn.
    by rewrite <- (map_to_list_delete (wp_tag w) k q).
  - by rewrite length_alter.
  - by exists 0%nat.
  - intros P ch' HP Hat. apply (at_ch_upd P ch' ch (untag k) h) in Hat; [done|]. intros w' Ew'. simplify_eq. apply safe_untag. eauto.
Qed.

Definition known_type (q : rtw_xmit_req) : Prop :=
  treq_type q = RTW_PHL_TREQ_TYPE_TEST_PATTERN \/ treq_type q = RTW_PHL_TREQ_TYPE_NORMAL.

#[export] Instance known_type_dec q : Decision (known_type q).
Proof. unfold known_type. apply _. Defined.

(** The answer of the core driver is consumed; nothing else changes. *)
Lemma reported_req q h : reported h (snd (recycle_req q h)) [] /\ wd_ring (snd (recycle_req q h)) = wd_ring h /\
  hc_back (snd (recycle_req q h)) = hc_back h /\
  (known_type q -> Forall (eq true) (hc_recycle h) -> fst (recycle_req q h) = true).
Proof.
  unfold recycle_req. destruct (_ || _) eqn:E; cbn; split_and!; try done.
  - split; cbn; try done; [by rewrite app_nil_r|exists 1%nat; by destruct (hc_recycle h)].
  - intros _ Hf. by destruct Hf as [|? ? <-].
  - apply reported_refl.
  - apply orb_false_iff in E as [E1%Z.eqb_neq E2%Z.eqb_neq]. by intros [?|?].
Qed.

(** The request is taken back, or stays. *)
Lemma recycle_reported ch k txsts h w : wd_ring h !! ch = Some w ->
  let h' := phl_recycle_payload ch k txsts h in
  exists back, reported h h' back /\
    ((exists q, wp_tag w !! k = Some q /\ known_type q) -> Forall (eq true) (hc_recycle h) ->
     at_ch (fun w => wp_tag w !! k = None) ch h').
Proof.
  intros Ew. unfold phl_recycle_payload. rewrite Ew. cbn zeta. destruct (wp_tag w !! k) as [q|] eqn:Ek.
  2: { exists []. split; [by eapply reported_rpt|]. by intros (? & ? & _). }
  set (h1 := upd_ch ch _ h). set (s := fun w => _phl_wp_rpt_statistics (hc_now h) txsts q (rpt_stats w)).
  assert (reported h h1 []) as H1 by (apply (reported_rpt ch w s); [done|apply count_busy]).
  assert (wd_ring h1 !! ch = Some (set_rpt (s w) w)) as Ew1 by (cbn; by rewrite list_lookup_alter_eq, Ew).
  destruct (reported_req q h1) as (H2 & E2 & E3 & H3). destruct (recycle_req q h1) as [ok h2]. cbn [fst snd] in *.
  rewrite <- E2 in Ew1. destruct ok.
  - exists [tq_ptr q]. split.
    + eapply (reported_trans _ h2 _ []); [by eapply (reported_trans _ h1 _ [] [])|]. by eapply reported_untag.
    + intros _ _. eexists. cbn. rewrite list_lookup_alter_eq, Ew1. split; [done|]. apply lookup_delete_eq.
  - exists []. split.
    + eapply (reported_trans _ h2 _ [] []); [by eapply (reported_trans _ h1 _ [] [])|]. by eapply reported_rpt.
    + intros (q' & [= <-] & Hq) Hacc. by specialize (H3 Hq Hacc).
Qed.

Lemma recycle_any ch k txsts h : exists back, reported h (phl_recycle_payload ch k txsts h) back.
Proof.
  destruct (wd_ring h !! ch) as [w|] eqn:Ew.
  - destruct (recycle_reported ch k txsts h w Ew) as (back & ? & _). eauto.
  - exists []. unfold phl_recycle_payload. rewrite Ew. apply reported_refl.
Qed.

Lemma reports_reported rpts h : exists back, reported h (_phl_rx_handle_wp_report rpts h) back.
Proof.
  unfold _phl_rx_handle_wp_report. revert h. induction rpts as [|r rpts IH]; intros h; cbn; [exists []; apply reported_refl|].
  destruct (recycle_any (fst (fst r)) (snd (fst r)) (snd r) h) as [b1 H1]. edestruct IH as [b2 H2].
  exists (b1 ++ b2). by eapply reported_trans.
Qed.

Lemma reported_all (P : Z -> rtw_wd_page_ring -> Prop) h h' back : (forall n, ReportSafe (P n)) -> reported h h' back ->
  Forall (P (txbd_num h)) (wd_ring h) -> Forall (P (txbd_num h')) (wd_ring h').
Proof.
  intros HP [_ _ Hl -> _ _ Hs] Hall. apply Forall_lookup. intros ch w' Ew'.
  destruct (lookup_lt_is_Some_2 (wd_ring h) ch) as [w Ew]; [rewrite <- Hl; by eapply lookup_lt_Some|].
  rewrite Forall_lookup in Hall. destruct (Hs (P (txbd_num h)) ch) as (w'' & ? & ?); [done|exists w; eauto|]. by simplify_eq.
Qed.

Lemma reported_ok h h' back : reported h h' back -> hci_ok h -> hci_ok h'.
Proof.
  intros Hr [H1 H2 H3]. pose proof Hr as [_ _ Hl Hm _ _ _]. split; [by rewrite Hm|by rewrite Hl|]. apply (reported_all ch_ok h h' back); [apply _|done|done].
Qed.

(** ** Reset *)

Lemma release_busy_drop lmt k sts w : let v := snd (release_busy lmt k sts w) in
  busy_list v = drop k (busy_list w) /\ pending_list v = pending_list w /\ txbd_host v = txbd_host w.
Proof.
  revert sts w. induction k as [|k IH]; intros sts w; [done|]. cbn. destruct (busy_list w) as [|p l] eqn:E; [done|].
  fold (put_back lmt p (set_busy l (u16 (busy_wd_page_cnt w - 1)) w)).
  destruct (IH RTW_PHL_STATUS_SUCCESS (put_back lmt p (set_busy l (u16 (busy_wd_page_cnt w - 1)) w))) as (-> & -> & ->).
  by destruct lmt.
Qed.

Lemma release_pending_drop k w : let v := rtw_release_pending_wd_page k w in
  pending_list v = drop k (pending_list w) /\ busy_list v = busy_list w /\ txbd_host v = txbd_host w /\ same_tags v w.
Proof.
  revert w. induction k as [|k IH]; intros w; [done|]. cbn. unfold query_pending_wd_page.
  destruct (pending_list w) as [|p l] eqn:E; [done|]. edestruct IH as (-> & -> & -> & ?). split_and!; try done.
Qed.

(** A channel while the chip is being reset, and one the driver has reset. *)
Definition ch_pages (w : rtw_wd_page_ring) : Prop := wd_has w [] /\ tag_ok w.
Definition quiet (w : rtw_wd_page_ring) : Prop := busy_list w = [] /\ pending_list w = [] /\ txbd_host w = 0.

#[export] Instance quiet_safe : ReportSafe quiet.
Proof. by split; intros ??? (? & ? & ?). Qed.
#[export] Instance pages_safe : ReportSafe ch_pages.
Proof. unfold ch_pages. apply _. Qed.
#[export] Instance empty_safe : ReportSafe (fun w => wp_tag w = ∅).
Proof. split; [done|]. intros w k _ E. cbn. rewrite E. apply delete_empty. Qed.
#[export] Instance known_safe : ReportSafe (fun w => map_Forall (fun _ => known_type) (wp_tag w)).
Proof. split; [done|]. intros w k _ Hk. cbn. by apply map_Forall_delete. Qed.
#[export] Instance untagged_safe k : ReportSafe (fun w => wp_tag w !! k = None).
Proof. split; [done|]. intros w j _ E. cbn. rewrite lookup_delete_None. by right. Qed.

Lemma reset_pages_spec lmt w : ch_pages w ->
  ch_pages (reset_pages lmt w) /\ quiet (reset_pages lmt w) /\ wp_tag (reset_pages lmt w) = wp_tag w.
Proof.
  intros [Hh Ht]. pose proof (reset_pages_has lmt w [] Hh) as Hr. revert Hr. unfold reset_pages, rtw_release_busy_wd_page.
  set (v := _phl_reset_txbd w). change (busy_wd_page_cnt v) with (busy_wd_page_cnt w).
  set (k := Z.to_nat (busy_wd_page_cnt w)). set (u := snd (release_busy lmt k RTW_PHL_STATUS_FAILURE v)). intros Hr.
  assert (wd_has v []) as Hv by (by destruct Hh; split). pose proof (release_busy_has lmt k RTW_PHL_STATUS_FAILURE v [] Hv) as Hu.
  destruct (release_busy_drop lmt k RTW_PHL_STATUS_FAILURE v) as (B1 & B2 & B3). fold u in Hu, B1, B2, B3.
  destruct (release_pending_drop (Z.to_nat (pending_wd_page_cnt u)) u) as (P1 & P2 & P3 & P4).
  pose proof (same_tags_trans _ u v P4 (release_busy_tags _ _ _ _)) as (T1 & T2 & T3).
  split; [split; [done|by apply (tag_ext w)]|]. split; [|done]. split_and!.
  - rewrite P2, B1. change (busy_list v) with (busy_list w). apply drop_ge. unfold k. rewrite (wh_busy _ _ Hh). lia.
  - rewrite P1. apply drop_ge. rewrite (wh_pend _ _ Hu). lia.
  - by rewrite P3, B3.
Qed.

(** Dropping the tags of channel [ch]. *)
Definition drop_tag (ch : nat) (h : hci_info) (k : nat) : hci_info :=
  match w ← wd_ring h !! ch; wp_tag w !! Z.of_nat k with
  | Some _ => phl_recycle_payload ch (Z.of_nat k) TX_STATUS_TX_FAIL_SW_DROP h
  | None => h
  end.

Definition known_at (ch : nat) (h : hci_info) : Prop :=
  at_ch (fun w => map_Forall (fun _ => known_type) (wp_tag w)) ch h.

Lemma drop_tag_reported ch k h : exists back, reported h (drop_tag ch h k) back /\
  (known_at ch h -> Forall (eq true) (hc_recycle h) -> at_ch (fun w => wp_tag w !! Z.of_nat k = None) ch (drop_tag ch h k)).
Proof.
  unfold drop_tag. destruct (wd_ring h !! ch) as [w|] eqn:Ew; cbn.
  2: { exists []. split; [apply reported_refl|]. intros (w & E & _). by rewrite Ew in E. }
  destruct (wp_tag w !! Z.of_nat k) as [q|] eqn:Ek.
  - destruct (recycle_reported ch (Z.of_nat k) TX_STATUS_TX_FAIL_SW_DROP h w Ew) as (back & Hr & Hk). exists back. split; [done|].
    intros (w' & Ew' & Hty) Ha. simplify_eq. apply Hk; [|done]. exists q. split; [done|]. by eapply Hty.
  - exists []. split; [apply reported_refl|]. intros _ _. by exists w.
Qed.

Lemma reported_recycle h h' back : reported h h' back -> Forall (eq true) (hc_recycle h) -> Forall (eq true) (hc_recycle h').
Proof. intros [_ _ _ _ _ [k ->] _]. apply Forall_drop. Qed.

Lemma drop_tags_reported ch ks h : exists back, reported h (foldl (drop_tag ch) h ks) back /\
  (known_at ch h -> Forall (eq true) (hc_recycle h) ->
   forall k, k ∈ ks -> at_ch (fun w => wp_tag w !! Z.of_nat k = None) ch (foldl (drop_tag ch) h ks)).
Proof.
  revert h. induction ks as [|k ks IH]; intros h; cbn.
  { exists []. split; [apply reported_refl|]. intros _ _ k. by rewrite elem_of_nil. }
  destruct (drop_tag_reported ch k h) as (b1 & H1 & K1). destruct (IH (drop_tag ch h k)) as (b2 & H2 & K2).
  exists (b1 ++ b2). split; [by eapply reported_trans|]. intros Hty Ha j [->|Hj]%elem_of_cons.
  - apply (rp_safe _ _ _ H2); [apply _|]. by apply K1.
  - apply K2; [by apply (rp_safe _ _ _ H1); [apply _|]|by eapply reported_recycle|done].
Qed.

Lemma drop_all_tags ch ks h : (forall k, 0 <= k < WP_MAX_SEQ_NUMBER -> Z.to_nat k ∈ ks) ->
  exists back, reported h (foldl (drop_tag ch) h ks) back /\
  (at_ch tag_ok ch h -> known_at ch h -> Forall (eq true) (hc_recycle h) -> at_ch (fun w => wp_tag w = ∅) ch (foldl (drop_tag ch) h ks)).
Proof.
  intros Hks. destruct (drop_tags_reported ch ks h) as (back & Hr & Hk). exists back. split; [done|].
  intros Ht Hty Ha. apply (rp_safe _ _ _ Hr tag_ok) in Ht as (w & Ew & Hw); [|apply _]. exists w. split; [done|].
  apply map_empty. intros k. destruct (wp_tag w !! k) as [q|] eqn:E; [|done]. pose proof (tg_keys _ Hw _ _ E) as Hb.
  destruct (Hk Hty Ha (Z.to_nat k)) as (w' & Ew' & En); [apply Hks; lia|]. rewrite Z2Nat.id in En by lia. by simplify_eq.
Qed.

Lemma reset_wp_tag_reported ch h : exists back, reported h (_phl_reset_wp_tag ch h) back /\
  (at_ch tag_ok ch h -> known_at ch h -> Forall (eq true) (hc_recycle h) -> at_ch (fun w => wp_tag w = ∅) ch (_phl_reset_wp_tag ch h)).
Proof. apply (drop_all_tags ch (seq 0 (Z.to_nat WP_MAX_SEQ_NUMBER))). intros k Hk. apply elem_of_seq. lia. Qed.

(** The reset of all channels, one after the other. *)
Definition reset_ch (h : hci_info) (ch : nat) : hci_info := _phl_reset_wp_tag ch (upd_ch ch (reset_pages (txbd_upd_lmt h)) h).

Class ResetSafe (P : rtw_wd_page_ring -> Prop) : Prop :=
  safe_reset : forall lmt w, ch_pages w -> P w -> P (reset_pages lmt w).
#[export] Instance quiet_reset : ResetSafe quiet.
Proof. intros lmt w Hw _. by apply reset_pages_spec. Qed.
#[export] Instance known_reset : ResetSafe (fun w => map_Forall (fun _ => known_type) (wp_tag w)).
Proof. intros lmt w Hw Hk. destruct (reset_pages_spec lmt w Hw) as (_ & _ & E). by rewrite E. Qed.
#[export] Instance empty_reset : ResetSafe (fun w => wp_tag w = ∅).
Proof. intros lmt w Hw Hk. destruct (reset_pages_spec lmt w Hw) as (_ & _ & E). by rewrite E. Qed.

Definition sound_at (P : rtw_wd_page_ring -> Prop) : nat -> hci_info -> Prop := at_ch (fun w => ch_pages w /\ P w).

Record resetting (h h' : hci_info) (back : list nat) : Prop := {
  rs_back : hc_back h' = hc_back h ++ back;
  rs_reqs : reqs h ≡ₚ back ++ reqs h';
  rs_len : length (wd_ring h') = length (wd_ring h);
  rs_num : txbd_num h' = txbd_num h;
  rs_acc : Forall (eq true) (hc_recycle h) -> Forall (eq true) (hc_recycle h');
  rs_safe : forall P ch, ReportSafe P -> ResetSafe P -> sound_at P ch h -> sound_at P ch h' }.

Lemma resetting_refl h : resetting h h [].
Proof. split; try done. by rewrite app_nil_r. Qed.

Lemma resetting_trans h1 h2 h3 b1 b2 : resetting h1 h2 b1 -> resetting h2 h3 b2 -> resetting h1 h3 (b1 ++ b2).
Proof.
  intros [A1 A2 A3 A4 A5 A6] [B1 B2 B3 B4 B5 B6]. split; try congruence; auto.
  - by rewrite B1, A1, app_assoc.
  - by rewrite A2, B2, app_assoc.
Qed.

Lemma reported_resetting h h' back : reported h h' back -> resetting h h' back.
Proof.
  intros Hr. pose proof Hr as []. split; try done; [by apply (reported_recycle h h' back)|]. intros P ch HP _. apply rp_safe0. apply _.
Qed.

Lemma pages_resetting ch lmt h w : wd_ring h !! ch = Some w -> ch_pages w -> resetting h (upd_ch ch (reset_pages lmt) h) [].
Proof.
  intros Ew Hw. destruct (reset_pages_spec lmt w Hw) as (H1 & _ & E). split; cbn; try done.
  - by rewrite app_nil_r.
  - apply (reqs_alter ch _ w h [] []); [done|]. unfold tags. by rewrite E.
  - by rewrite length_alter.
  - intros P ch' HP HR. apply at_ch_upd. intros w' Ew' [Hw' HPw]. split; [by apply reset_pages_spec|by apply HR].
Qed.

Lemma reset_ch_spec ch h : (exists P, sound_at P ch h) -> exists back, resetting h (reset_ch h ch) back /\
  sound_at quiet ch (reset_ch h ch) /\
  (known_at ch h -> Forall (eq true) (hc_recycle h) -> sound_at (fun w => wp_tag w = ∅) ch (reset_ch h ch)).
Proof.
  intros (P & w & Ew & Hw & _). unfold reset_ch. set (h1 := upd_ch ch _ h).
  pose proof (pages_resetting ch (txbd_upd_lmt h) h w Ew Hw) as H1. fold h1 in H1.
  destruct (reset_pages_spec (txbd_upd_lmt h) w Hw) as (Hp & Hq & E).
  assert (wd_ring h1 !! ch = Some (reset_pages (txbd_upd_lmt h) w)) as Ew1 by (cbn; by rewrite list_lookup_alter_eq, Ew).
  destruct (reset_wp_tag_reported ch h1) as (back & Hr & Hk). set (h2 := _phl_reset_wp_tag ch h1) in *. clearbody h2.
  exists back. split_and!.
  - eapply (resetting_trans _ h1 _ [] back); [done|by apply reported_resetting].
  - apply (rp_safe _ _ _ Hr); [apply _|]. by eexists.
  - intros (w' & Ew' & Hty) Ha. simplify_eq. destruct Hk as (v & Ev & Hv).
    + exists (reset_pages (txbd_upd_lmt h) w). split; [done|]. apply Hp.
    + exists (reset_pages (txbd_upd_lmt h) w). split; [done|]. by rewrite E.
    + done.
    + destruct (rp_safe _ _ _ Hr ch_pages ch) as (v' & Ev' & Hv'); [apply _|by eexists|]. exists v. simplify_eq. done.
Qed.

Lemma sound_known ch h : at_ch ch_pages ch h -> known_at ch h -> sound_at (fun w => map_Forall (fun _ => known_type) (wp_tag w)) ch h.
Proof. intros (w & Ew & Hw) (v & Ev & Hv). simplify_eq. by exists w. Qed.

Lemma sound_weaken P Q ch h : (forall w, P w -> Q w) -> at_ch P ch h -> at_ch Q ch h.
Proof. intros HPQ (w & ? & ?). exists w. auto. Qed.

Lemma reset_all k h : (k <= length (wd_ring h))%nat -> (forall ch, (ch < length (wd_ring h))%nat -> at_ch ch_pages ch h) ->
  exists back, let h' := foldl reset_ch h (seq 0 k) in resetting h h' back /\
  forall ch, (ch < k)%nat -> sound_at quiet ch h' /\
    ((forall ch, (ch < length (wd_ring h))%nat -> known_at ch h) -> Forall (eq true) (hc_recycle h) ->
     sound_at (fun w => wp_tag w = ∅) ch h').
Proof.
  intros Hk Hp. induction k as [|k IH]; [exists []; split; [apply resetting_refl|lia]|].
  destruct IH as (b1 & H1 & K1); [lia|]. cbn zeta in *. rewrite seq_S, foldl_app. cbn [foldl]. cbn [Nat.add].
  set (g := foldl reset_ch h (seq 0 k)) in *.
  destruct (reset_ch_spec k g) as (b2 & H2 & Q2 & K2).
  { exists (fun _ => True). apply (rs_safe _ _ _ H1); [by split|done|].
    eapply sound_weaken; [|by apply Hp]. done. }
  exists (b1 ++ b2). split; [by eapply resetting_trans|]. intros ch Hch. destruct (decide (ch = k)) as [->|Hne].
  - split; [done|]. intros Hty Ha. apply K2; [|by apply (rs_acc _ _ _ H1)].
    eapply (sound_weaken (fun w => ch_pages w /\ _)); [intros w [_ Hw]; exact Hw|]. apply (rs_safe _ _ _ H1); [apply _|apply _|].
    apply sound_known; [by apply Hp|by apply Hty].
  - destruct (K1 ch ltac:(lia)) as [K3 K4]. split; [apply (rs_safe _ _ _ H2); [apply _|apply _|done]|].
    intros Hty Ha. apply (rs_safe _ _ _ H2); [apply _|apply _|]. by apply K4.
Qed.

(** The chip's registers are cleared with it: the channel is as after
    initialisation. *)
Lemma quiet_ok n w : 1 < n -> ch_pages w -> quiet w -> ch_ok n (set_reg 0 0 w).
Proof.
  intros Hn [Hh Ht] (E1 & E2 & E3). split; [by destruct Hh; split| |by apply (tag_ext w)].
  split; unfold outstanding, base; cbn; rewrite ?E1, ?E3; cbn; rewrite ?Z.mod_0_l by lia; try lia. done.
Qed.

Lemma at_all P h : (forall ch, (ch < length (wd_ring h))%nat -> at_ch P ch h) <-> Forall P (wd_ring h).
Proof.
  rewrite Forall_lookup. split.
  - intros Ha ch w Ew. destruct (Ha ch) as (v & ? & ?); [by eapply lookup_lt_Some|]. by simplify_eq.
  - intros Ha ch [w Ew]%lookup_lt_is_Some. exists w. eauto.
Qed.

Lemma ok_pages h : hci_ok h -> forall ch, (ch < length (wd_ring h))%nat -> at_ch ch_pages ch h.
Proof. intros [_ _ Hc]. apply at_all. eapply Forall_impl; [done|]. by intros w []. Qed.

Lemma reset_pcie_fold h : phl_tx_reset_pcie h = foldl reset_ch h (seq 0 (length (wd_ring h))).
Proof. unfold phl_tx_reset_pcie, reset_ch. reflexivity. Qed.

Lemma reset_pcie_spec h : hci_ok h -> exists back, let h' := phl_tx_reset_pcie h in resetting h h' back /\
  Forall (fun w => ch_pages w /\ quiet w) (wd_ring h') /\
  (Forall (fun w => map_Forall (fun _ => known_type) (wp_tag w)) (wd_ring h) -> Forall (eq true) (hc_recycle h) ->
   Forall (fun w => wp_tag w = ∅) (wd_ring h')).
Proof.
  intros Hh. destruct (reset_all (length (wd_ring h)) h) as (back & Hr & Ha); [done|by apply ok_pages|].
  rewrite <- reset_pcie_fold in Hr, Ha. set (h' := phl_tx_reset_pcie h) in *. clearbody h'.
  exists back. split; [done|]. pose proof (rs_len _ _ _ Hr) as El. split.
  - apply at_all. intros ch Hch. rewrite El in Hch. by apply Ha.
  - intros Hty Hacc. apply at_all. intros ch Hch. rewrite El in Hch. destruct (Ha ch Hch) as [_ Hk].
    eapply sound_weaken; [|apply Hk; [by apply at_all|done]]. by intros w [_ ?].
Qed.

Lemma reset_ok h : hci_ok h -> hci_ok (hw_reset (phl_tx_reset_pcie h)).
Proof.
  intros Hh. destruct (reset_pcie_spec h Hh) as (back & [_ _ El En _ _] & Hq & _). destruct Hh.
  set (h' := phl_tx_reset_pcie h) in *. clearbody h'. split; cbn; [by rewrite En|by rewrite length_fmap, El|].
  rewrite En. apply Forall_fmap. eapply Forall_impl; [done|]. intros w [? ?]. apply quiet_ok; [lia|done|done].
Qed.

Lemma reqs_hw_reset h : reqs (hw_reset h) = reqs h.
Proof. unfold reqs, hw_reset. cbn. rewrite <- list_fmap_compose. done. Qed.

(** ** The interface *)

#[export] Instance hci_tx_pcie : HciTx hci_info := {
  prepare_tx := phl_prepare_tx_pcie; hci_reqs := reqs; hci_step := hci_op; hci_inv := hci_ok }.

Lemma ok_rings h mv ws : hci_ok h -> length ws = length (wd_ring h) -> Forall (ch_ok (txbd_num h)) ws ->
  hci_ok (set_hc_moves mv (set_wd_ring ws h)).
Proof. intros [] E Hw. split; cbn; [done|by rewrite E|done]. Qed.

Lemma turn_ok h : hci_ok h -> hci_ok (phl_tx_pcie h) /\ reqs (phl_tx_pcie h) = reqs h.
Proof.
  intros Hh. pose proof Hh as []. unfold phl_tx_pcie, reqs.
  destruct (tx_channels_ok (txbd_num h) hk_num0 (txbd_upd_lmt h) (hc_moves h) (wd_ring h) hk_ch0) as [H1 H2].
  destruct (tx_channels _ _ _ _) as [mv ws]. cbn [snd] in *. split; [|cbn; by rewrite H2].
  apply ok_rings; [done| |done]. by rewrite <- (length_fmap tags), H2, length_fmap.
Qed.

Lemma recycle_wd_ok h : hci_ok h -> hci_ok (phl_recycle_busy_wd h) /\ reqs (phl_recycle_busy_wd h) = reqs h.
Proof.
  intros Hh. pose proof Hh as []. unfold phl_recycle_busy_wd, reqs.
  destruct (recycle_channels_ok (txbd_num h) hk_num0 (txbd_upd_lmt h) (hc_moves h) (wd_ring h) hk_ch0) as [H1 H2].
  destruct (recycle_channels _ _ _ _) as [mv ws]. cbn [snd] in *. split; [|cbn; by rewrite H2].
  apply ok_rings; [done| |done]. by rewrite <- (length_fmap tags), H2, length_fmap.
Qed.

#[export] Instance hci_tx_pcie_ok : HciTxOk hci_info.
Proof.
  split.
  - apply prepare_spec.
  - apply prepare_ok.
  - intros h back h' Hop Hh. destruct Hop as [| |rpts back Hv Eb|back Eb|].
    + cbn. by rewrite (proj2 (turn_ok h Hh)).
    + cbn. by rewrite (proj2 (recycle_wd_ok h Hh)).
    + destruct (reports_reported rpts h) as [b []]. rewrite Eb in rp_back0. apply app_inv_head in rp_back0 as ->. done.
    + destruct (reset_pcie_spec h Hh) as (b & [E1 E2 _ _ _ _] & _). rewrite Eb in E1. apply app_inv_head in E1 as ->.
      cbn [hci_reqs hci_tx_pcie]. by rewrite reqs_hw_reset.
    + done.
  - intros h back h' Hop Hh. destruct Hop as [| |rpts back Hv Eb|back Eb|].
    + by apply turn_ok.
    + by apply recycle_wd_ok.
    + destruct (reports_reported rpts h) as [b Hr]. by eapply reported_ok.
    + by apply reset_ok.
    + by destruct Hh; split.
Qed.

(** ** Initialisation *)

Lemma wd_ring0_ok n : 1 < n -> ch_ok n wd_ring0.
Proof.
  intros Hn. split.
  - by split; try (vm_compute; reflexivity).
  - split; unfold outstanding, base; cbn; rewrite ?Z.mod_0_l by lia; try lia. done.
  - split; cbn; [unfold WP_MAX_SEQ_NUMBER; lia|done|done].
Qed.

Lemma alloc_wd_ok n lmt mv fill rec : 1 < n <= 4096 -> hci_ok (_phl_alloc_wd_ring_pcie n lmt mv fill rec) /\
  reqs (_phl_alloc_wd_ring_pcie n lmt mv fill rec) = [].
Proof.
  intros Hn. split; [|done]. split; [done|done|]. cbn [wd_ring _phl_alloc_wd_ring_pcie txbd_num].
  apply Forall_replicate, wd_ring0_ok. lia.
Qed.
