(* ===== verification/TxThm.v ===== *)
(** * What the transmit path guarantees

    The rings against any bus layer, and the PCIe bus layer below them. *)

From stdpp Require Import gmap relations.
From S2P Require Import Prelude PhlQueue PhlDef RxReorder RxRing TxRing TxRingInv TxPlan TxSys TxSysInv TxSysThm TxPcie TxPcieInv TxPcieOk.

(** ** A run: one station, two requests, one of them handed to the bus *)

Definition demo_hci : hci_info := _phl_alloc_wd_ring_pcie 256 true [] [] [].
Definition demo_req (p : nat) : rtw_xmit_req := mkReq p 1 0 0 0 0 0 false RTW_PHL_TREQ_TYPE_NORMAL [100; 20] 0 0.
Definition demo0 : tx_sys hci_info := sys0 demo_hci ∅.
Definition demo1 : tx_sys hci_info := with_info (snd (phl_register_tx_ring true 1 0 0 0 (ts_info demo0))) demo0.
Definition demo2 : tx_sys hci_info := add_req 5 (demo_req 8) (add_req 3 (demo_req 7) demo1).
Definition demo3 : tx_sys hci_info := tx_turn (tx_turn (tx_turn demo2)).

Lemma demo1_reach : rtc tx_step demo0 demo1.
Proof. eapply rtc_l; [apply TxRegister|]. apply rtc_refl. Qed.

Lemma demo2_reach : rtc tx_step demo0 demo2.
Proof. eapply rtc_r; [eapply rtc_r; [apply demo1_reach|]|]; by apply TxAdd. Qed.

Lemma demo3_reach : rtc tx_step demo0 demo3.
Proof. do 3 (eapply rtc_r; [|apply TxHandler]). apply demo2_reach. Qed.

Lemma demo_hci_ok : hci_inv demo_hci /\ hci_reqs demo_hci = [].
Proof. by apply alloc_wd_ok. Qed.

(** ** Requests *)

Section requests.
Context {H : Type} {hci : HciTx H} {hci_ok : HciTxOk H}.

(** C9: For any bus layer that meets its interface, however the core driver,
    the transmit handler and the bus layer interleave, and while ring lists
    are registered and removed, no freed ring is touched and every accepted
    request is in exactly one place: waiting in a ring, held by the bus layer,
    given back by it, or recycled with its ring list. *)
Theorem tx_requests_conserved (h : H) stas s :
  hci_reqs h = [] -> hci_inv h -> rtc tx_step (sys0 h stas) s ->
  tx_ub (ts_info s) = false /\
  snd <$> ts_acc s ≡ₚ
    all_waiting (ts_info s) ++ hci_reqs (t_hci (ts_info s)) ++ ts_back s ++ tx_recycled (ts_info s).
Proof. intros E Hi Hs. destruct (hci_inv_reach h stas s E Hi Hs) as [[[] _ ? _ _] _]. done. Qed.

(** C10: In every reachable state the requests accepted into a ring are, in
    order, those handed to the bus layer followed by those still waiting: a
    ring is first in first out and skips nothing. *)
Theorem tx_requests_in_order (h : H) stas s p r :
  hci_reqs h = [] -> hci_inv h -> rtc tx_step (sys0 h stas) s -> get_ring p (ts_info s) = Some r ->
  on p (ts_acc s) = on p (ts_prep s) ++ waiting r.
Proof. intros E Hi Hs. destruct (hci_inv_reach h stas s E Hi Hs) as [[_ _ _ Ho _] _]. apply Ho. Qed.

(** The plan of a turn in closed form: while ring statuses last every
    ring with waiting requests gets one; served first are the priority rings,
    of later stations before earlier ones and management before high queue
    within a station, then the data rings, all rings of one traffic class
    together, the classes in the order in which they first occur. *)
Theorem tx_plan_closed (h : H) stas s :
  hci_reqs h = [] -> hci_inv h -> rtc tx_step (sys0 h stas) s -> ts_pc s = TIdle ->
  let i := ts_info s in
  let Ss := plan_all (t_ring_list i) (ring_sts_idle i) in
  plan_tx i =
  (negb (bool_decide (concat Ss = [])),
   set_t_fctrl_result (concat (rev (prio <$> Ss)) ++ group (concat (data <$> Ss))) (set_phl_sw_tx_more false
     (set_ring_sts_idle (left_over (t_ring_list i) (ring_sts_idle i))
        (set_t_ring_list (zip_with served (t_ring_list i) Ss) i)))).
Proof.
  intros E Hi Hs Hpc. destruct (hci_inv_reach h stas s E Hi Hs) as [Hinv _].
  destruct (inv_idle s Hinv Hpc) as (H1 & H2 & H3 & H4 & H5). by apply plan_tx_spec.
Qed.

(** From every reachable idle state the transmit handler, if not
    interrupted, comes back to idle, and its steps amount to serving the
    planned rings one after the other, each for as many requests as its status
    counted, and then freeing the removed ring lists. *)
Theorem tx_turn_terminates (h : H) stas s :
  hci_reqs h = [] -> hci_inv h -> rtc tx_step (sys0 h stas) s -> ts_pc s = TIdle ->
  exists s', rtc (fun s s' => s' = tx_turn s) s s' /\ ts_pc s' = TIdle /\
    ts_info s' = phl_free_deferred_tx_ring (serve_tx (ts_info s)).
Proof. intros E Hi Hs Hpc. destruct (hci_inv_reach h stas s E Hi Hs) as [Hinv _]. by apply alone_turn. Qed.
End requests.

Lemma tx_requests_conserved_witness :
  rtc tx_step (sys0 demo_hci ∅) demo3 /\ ts_acc demo3 = [((0, 0), 7); ((0, 0), 8)]%nat /\ ts_prep demo3 = [((0, 0), 7)]%nat /\
  tx_ub (ts_info demo3) = false /\
  snd <$> ts_acc demo3 ≡ₚ
    all_waiting (ts_info demo3) ++ hci_reqs (t_hci (ts_info demo3)) ++ ts_back demo3 ++ tx_recycled (ts_info demo3).
Proof.
  split; [apply demo3_reach|]. split; [vm_compute; reflexivity|]. split; [vm_compute; reflexivity|].
  apply (tx_requests_conserved demo_hci ∅ demo3); [apply demo_hci_ok|apply demo_hci_ok|apply demo3_reach].
Defined.

Lemma tx_requests_in_order_witness :
  exists r, get_ring (0, 0)%nat (ts_info demo3) = Some r /\ on (0, 0)%nat (ts_acc demo3) = on (0, 0)%nat (ts_prep demo3) ++ waiting r.
Proof.
  destruct (get_ring (0, 0)%nat (ts_info demo3)) as [r|] eqn:E; [|exfalso; revert E; vm_compute; discriminate].
  exists r. split; [reflexivity|].
  apply (tx_requests_in_order demo_hci ∅ demo3 (0, 0)%nat r); [apply demo_hci_ok|apply demo_hci_ok|apply demo3_reach|exact E].
Defined.

Lemma tx_plan_closed_witness :
  fst (plan_tx (ts_info demo2)) = true /\
  let Ss := plan_all (t_ring_list (ts_info demo2)) (ring_sts_idle (ts_info demo2)) in
  fst (plan_tx (ts_info demo2)) = negb (bool_decide (concat Ss = [])).
Proof.
  split; [vm_compute; reflexivity|].
  rewrite (tx_plan_closed demo_hci ∅ demo2 (proj2 demo_hci_ok) (proj1 demo_hci_ok) demo2_reach eq_refl). reflexivity.
Defined.

Lemma tx_turn_terminates_witness :
  exists s', rtc (fun s s' => s' = tx_turn s) demo2 s' /\ ts_pc s' = TIdle /\
    ts_info s' = phl_free_deferred_tx_ring (serve_tx (ts_info demo2)).
Proof. apply (tx_turn_terminates demo_hci ∅ demo2 (proj2 demo_hci_ok) (proj1 demo_hci_ok) demo2_reach eq_refl). Defined.

(** ** Pages and descriptors *)

(** C11: In every reachable state of the rings over the PCIe bus layer, each
    descriptor page of a channel is idle, pending, busy or in the work ring,
    the counters are the lengths, and each buffer descriptor the hardware has
    still to fetch points to a busy page, the busy pages being in the order of
    their descriptors. *)
Theorem tx_channels_sound n lmt mv fill rec stas s ch w :
  1 < n <= 4096 -> rtc tx_step (sys0 (_phl_alloc_wd_ring_pcie n lmt mv fill rec) stas) s ->
  wd_ring (t_hci (ts_info s)) !! ch = Some w ->
  let m := txbd_num (t_hci (ts_info s)) in
  idle_list w ++ busy_list w ++ pending_list w ++ wd_work_ring w ≡ₚ seq 0 (MAX_WD_PAGE_NUM + txbd_multi_tag) /\
  busy_wd_page_cnt w = Z.of_nat (length (busy_list w)) /\ pending_wd_page_cnt w = Z.of_nat (length (pending_list w)) /\
  idle_wd_page_cnt w = Z.of_nat (length (idle_list w)) /\ Z.of_nat (length (busy_list w)) < m /\
  (forall j, 0 <= j < outstanding m w ->
   exists p, txbd w !! ((reg_hw w + j) mod m) = Some p /\
     busy_list w !! (length (busy_list w) - Z.to_nat (outstanding m w) + Z.to_nat j)%nat = Some p).
Proof.
  intros Hn Hs Ew m. destruct (alloc_wd_ok n lmt mv fill rec Hn) as [Hok He].
  destruct (hci_inv_reach (hci := hci_tx_pcie) (_phl_alloc_wd_ring_pcie n lmt mv fill rec) stas s He Hok Hs) as [_ [Hm _ Hc]]. rewrite Forall_lookup in Hc. destruct (Hc ch w Ew) as [[] Hb _].
  rewrite app_nil_r in wh_pages. split_and!; try done; [apply Hb|]. intros j Hj. by apply (unfetched_busy m Hm).
Qed.

(** [demo3] with what the bus does: the page is given to the hardware. *)
Definition demo4 : tx_sys hci_info :=
  mkSys (set_t_hci (phl_tx_pcie (t_hci (ts_info demo3))) (ts_info demo3)) (ts_pc demo3) (ts_acc demo3) (ts_prep demo3) (ts_back demo3 ++ []).

Lemma demo4_reach : rtc tx_step demo0 demo4.
Proof. eapply rtc_r; [apply demo3_reach|]. apply TxBus, HTurn. Qed.

(** Its first channel: one busy page that the hardware has not fetched. *)
Definition demo_ch : rtw_wd_page_ring := default wd_ring0 (wd_ring (t_hci (ts_info demo4)) !! 0%nat).

Lemma demo_ch_at : wd_ring (t_hci (ts_info demo4)) !! 0%nat = Some demo_ch.
Proof. vm_compute. reflexivity. Qed.

Lemma demo_ch_out : outstanding (txbd_num (t_hci (ts_info demo4))) demo_ch = 1.
Proof. vm_compute. reflexivity. Qed.

Lemma tx_channels_sound_witness :
  let m := txbd_num (t_hci (ts_info demo4)) in
  outstanding m demo_ch = 1 /\
  exists p, txbd demo_ch !! ((reg_hw demo_ch + 0) mod m) = Some p /\
    busy_list demo_ch !! (length (busy_list demo_ch) - Z.to_nat (outstanding m demo_ch) + Z.to_nat 0)%nat = Some p.
Proof.
  intros m. split; [exact demo_ch_out|].
  destruct (tx_channels_sound 256 true [] [] [] ∅ demo4 0 demo_ch ltac:(lia) demo4_reach demo_ch_at) as (_ & _ & _ & _ & _ & Hj).
  apply Hj. rewrite demo_ch_out. lia.
Defined.

Lemma stalled_bool {A} n w (x y : A) :
  (if decide (stalled n w) then x else y) = if bool_decide (busy_list w <> []) && (fetched n w =? 0)%nat then x else y.
Proof.
  unfold stalled. destruct (decide _) as [[H1 H2]|H1]; [by rewrite bool_decide_true, H2|].
  destruct (bool_decide_reflect (busy_list w <> [])), (Nat.eqb_spec (fetched n w) 0); naive_solver.
Qed.

(** One turn of a channel releases exactly the busy pages the hardware
    has fetched and then sends the oldest pending pages, as many as there are
    free descriptors; but if there are busy pages and the hardware has fetched
    none of them, it fails and sends nothing, however many descriptors are
    free. *)
Theorem tx_channel_turn n lmt mv w :
  1 < n <= 4096 -> ch_ok n w -> pending_list w <> [] \/ busy_list w <> [] ->
  let o := outstanding n (hw_fetch n (next_move mv) w) in
  let done := (length (busy_list w) - Z.to_nat o)%nat in
  let stalled := bool_decide (busy_list w <> []) && (done =? 0)%nat in
  let sent := if stalled then 0%nat else Nat.min (Z.to_nat (n - 1 - o)) (length (pending_list w)) in
  let '(sts, _, w') := tx_channel n lmt mv w in
  sts = (if stalled then RTW_PHL_STATUS_FAILURE else RTW_PHL_STATUS_SUCCESS) /\ ch_ok n w' /\
  busy_list w' = drop done (busy_list w) ++ take sent (pending_list w) /\
  pending_list w' = drop sent (pending_list w) /\ wp_tag w' = wp_tag w /\
  outstanding n w' <= o + Z.of_nat sent.
Proof.
  intros Hn Hw Hne. cbn zeta. destruct (tx_channel_open n Hn lmt mv w [] (ck_has _ _ Hw) (ck_bd _ _ Hw) Hne) as (E1 & _ & E2 & E3 & E4).
  pose proof (tx_channel_ok n Hn lmt mv w Hw) as Hok. pose proof (tx_channel_tags n lmt mv w) as (Ht & _).
  destruct (tx_channel n lmt mv w) as [[sts mv'] w']. cbn [fst snd] in *. revert E1 E2 E3 E4. unfold to_send.
  rewrite !stalled_bool. unfold fetched. change (busy_list (hw_fetch _ _ w)) with (busy_list w).
  change (pending_list (hw_fetch _ _ w)) with (pending_list w). done.
Qed.

Lemma demo_ch_ok : ch_ok 256 demo_ch.
Proof.
  destruct (hci_inv_reach (hci := hci_tx_pcie) demo_hci ∅ demo4 (proj2 demo_hci_ok) (proj1 demo_hci_ok) demo4_reach) as [_ [_ _ Hc]].
  rewrite Forall_lookup in Hc. exact (Hc 0%nat demo_ch demo_ch_at).
Qed.

Lemma tx_channel_turn_witness :
  busy_list demo_ch = [0%nat] /\
  (let '(sts, _, w') := tx_channel 256 true [] demo_ch in sts = RTW_PHL_STATUS_FAILURE /\ ch_ok 256 w') /\
  (let '(sts, _, w') := tx_channel 256 true [1%nat] demo_ch in sts = RTW_PHL_STATUS_SUCCESS /\ busy_list w' = []).
Proof.
  split; [vm_compute; reflexivity|]. split.
  - pose proof (tx_channel_turn 256 true [] demo_ch ltac:(lia) demo_ch_ok ltac:(right; vm_compute; congruence)) as Ht.
    cbn zeta in Ht. destruct (tx_channel 256 true [] demo_ch) as [[sts mv] w']. destruct Ht as (-> & Hw & _).
    split; [vm_compute; reflexivity|exact Hw].
  - pose proof (tx_channel_turn 256 true [1%nat] demo_ch ltac:(lia) demo_ch_ok ltac:(right; vm_compute; congruence)) as Ht.
    cbn zeta in Ht. destruct (tx_channel 256 true [1%nat] demo_ch) as [[sts mv] w']. destruct Ht as (-> & _ & -> & _).
    split; vm_compute; reflexivity.
Defined.

(** ** Reset *)

(** When the core driver takes requests back, a reset of transmission
    gives back every request the bus layer holds and returns every page, so
    that all channels are again as after initialisation. *)
Theorem tx_reset_returns_all h :
  hci_ok h -> Forall (fun w => map_Forall (fun _ => known_type) (wp_tag w)) (wd_ring h) -> Forall (eq true) (hc_recycle h) ->
  let h' := hw_reset (phl_tx_reset_pcie h) in
  hci_ok h' /\ hc_back h' ≡ₚ hc_back h ++ hci_reqs h /\ hci_reqs h' = [] /\
  Forall (fun w => busy_list w = [] /\ pending_list w = [] /\ length (idle_list w) = MAX_WD_PAGE_NUM /\ outstanding (txbd_num h') w = 0)
    (wd_ring h').
Proof.
  intros Hh Hty Hacc. pose proof (reset_ok h Hh) as Hok. destruct (reset_pcie_spec h Hh) as (back & [E1 E2 _ _ _ _] & Hq & He).
  specialize (He Hty Hacc). cbn [hci_reqs hci_tx_pcie]. cbn zeta. rewrite reqs_hw_reset.
  set (h' := phl_tx_reset_pcie h) in *. clearbody h'.
  assert (reqs h' = []) as En.
  { unfold reqs. clear -He. induction He as [|w ws Hw _ IH]; [done|]. cbn. rewrite IH. unfold tags. by rewrite Hw, map_to_list_empty. }
  split_and!; [done|change (hc_back (hw_reset h')) with (hc_back h'); rewrite E1, E2, En, app_nil_r; done|done|].
  cbn. apply Forall_fmap. eapply Forall_impl; [exact Hq|]. intros w [[Hp _] (Q1 & Q2 & _)]. cbn. split_and!; [done|done| |done].
  pose proof (wd_has_len _ _ Hp) as L. rewrite Q1, Q2 in L. cbn in L. lia.
Qed.

Lemma tx_reset_returns_all_witness :
  let h := t_hci (ts_info demo4) in
  hci_reqs h = [7%nat] /\ hc_back (hw_reset (phl_tx_reset_pcie h)) ≡ₚ [7%nat].
Proof.
  split; [vm_compute; reflexivity|].
  destruct (hci_inv_reach (hci := hci_tx_pcie) demo_hci ∅ demo4 (proj2 demo_hci_ok) (proj1 demo_hci_ok) demo4_reach) as [_ Hok].
  destruct (tx_reset_returns_all (t_hci (ts_info demo4)) Hok) as (_ & Hb & _).
  - apply (bool_decide_unpack _). vm_compute. reflexivity.
  - apply Forall_nil_2.
  - etrans; [exact Hb|]. vm_compute. reflexivity.
Defined.
