(* ===== verification/StaInfo.v ===== *)
(** * Stations and their identifiers (src/phl/phl_sta.c)

    A station is an element of a fixed buffer.  It is in the free queue or in
    the queue of its role; a station of a role owns an identifier ([macid]),
    recorded in bitmaps and in a table, and a list of transmit rings.  The
    state includes the transmit path of [TxRing]. *)

From stdpp Require Import gmap.
From S2P Require Import Prelude PhlQueue PhlDef RxReorder RxRing TxRing.

Definition PHL_MACID_MAX_ARRAY_NUM : nat := 8.
Definition PHL_MACID_MAX_NUM : Z := Z.of_nat PHL_MACID_MAX_ARRAY_NUM * 32.
Definition PHL_MAX_STA_NUM : nat := 128.
Definition MAC_ALEN : nat := 6.

Inductive role_type :=
| PHL_RTYPE_NONE | PHL_RTYPE_STATION | PHL_RTYPE_AP | PHL_RTYPE_VAP | PHL_RTYPE_ADHOC | PHL_RTYPE_ADHOC_MASTER
| PHL_RTYPE_MESH | PHL_RTYPE_MONITOR | PHL_RTYPE_P2P_DEVICE | PHL_RTYPE_P2P_GC | PHL_RTYPE_P2P_GO | PHL_RTYPE_TDLS
| PHL_RTYPE_NAN.
#[export] Instance role_type_eq_dec : EqDecision role_type.
Proof. solve_decision. Defined.

(** Arguments of [phl_role_ap_client_notify]. *)
Inductive mlme_state := MLME_NO_LINK | MLME_LINKING | MLME_LINKED.

Definition bc_addr : list Z := replicate MAC_ALEN 0xff.
Definition is_broadcast_mac_addr (addr : list Z) : bool := forallb (fun b => Z.land b 0xff =? 0xff) (take MAC_ALEN addr).

(** ** State *)

(** [st_wrole] is the role's index, which is its [id]; [st_rx] what [RxReorder]
    keeps of a station. *)
Record rtw_phl_stainfo_t := mkStaInfo {
  mac_addr : list Z; st_wrole : option nat; macid : Z; st_active : bool; st_rx : rx_sta }.
Definition set_mac_addr v s := mkStaInfo v (st_wrole s) (macid s) (st_active s) (st_rx s).
Definition set_wrole v s := mkStaInfo (mac_addr s) v (macid s) (st_active s) (st_rx s).
Definition set_macid v s := mkStaInfo (mac_addr s) (st_wrole s) v (st_active s) (st_rx s).
Definition set_active v s := mkStaInfo (mac_addr s) (st_wrole s) (macid s) v (st_rx s).
Definition set_rx v s := mkStaInfo (mac_addr s) (st_wrole s) (macid s) (st_active s) v.

Record rtw_wifi_role_t := mkWrole {
  wr_type : role_type; wr_mac_addr : list Z; hw_band : Z; hw_wmm : Z; hw_port : Z; assoc_sta_queue : phl_queue nat }.
Definition set_assoc q w := mkWrole (wr_type w) (wr_mac_addr w) (hw_band w) (hw_wmm w) (hw_port w) q.

Record macid_ctl_t := mkMc {
  used_map : list Z; bmc_map : list Z; wifi_role_usedmap : list (list Z); wrole_bmc : list Z;
  mc_sta : list (option nat); max_num : Z }.

Section sta_info.
Context {H : Type}.

(** [sx_hal] are the answers of the chip layer when an entry is added or
    deleted, [sx_mem] whether memory for rings is available; [sx_notify] the
    notifications sent to roles and [sx_frames] the received frames given back;
    [sx_ub] is set when a list node is deleted from a list it is not in or a
    missing role is followed. *)
Record sta_info := mkSx {
  sta_buf : list rtw_phl_stainfo_t; free_sta_queue : phl_queue nat; mc : macid_ctl_t; wroles : list rtw_wifi_role_t;
  sx_tx : tx_info H; sx_hal : list bool; sx_mem : list bool; sx_notify : list (nat * mlme_state);
  sx_frames : list rtw_phl_rx_pkt; sx_ub : bool }.

Definition set_sta_buf v i := mkSx v (free_sta_queue i) (mc i) (wroles i) (sx_tx i) (sx_hal i) (sx_mem i) (sx_notify i) (sx_frames i) (sx_ub i).
Definition set_free_q v i := mkSx (sta_buf i) v (mc i) (wroles i) (sx_tx i) (sx_hal i) (sx_mem i) (sx_notify i) (sx_frames i) (sx_ub i).
Definition set_mc v i := mkSx (sta_buf i) (free_sta_queue i) v (wroles i) (sx_tx i) (sx_hal i) (sx_mem i) (sx_notify i) (sx_frames i) (sx_ub i).
Definition set_wroles v i := mkSx (sta_buf i) (free_sta_queue i) (mc i) v (sx_tx i) (sx_hal i) (sx_mem i) (sx_notify i) (sx_frames i) (sx_ub i).
Definition set_sx_tx v i := mkSx (sta_buf i) (free_sta_queue i) (mc i) (wroles i) v (sx_hal i) (sx_mem i) (sx_notify i) (sx_frames i) (sx_ub i).
Definition set_sx_hal v i := mkSx (sta_buf i) (free_sta_queue i) (mc i) (wroles i) (sx_tx i) v (sx_mem i) (sx_notify i) (sx_frames i) (sx_ub i).
Definition set_sx_mem v i := mkSx (sta_buf i) (free_sta_queue i) (mc i) (wroles i) (sx_tx i) (sx_hal i) v (sx_notify i) (sx_frames i) (sx_ub i).
Definition set_sx_notify v i := mkSx (sta_buf i) (free_sta_queue i) (mc i) (wroles i) (sx_tx i) (sx_hal i) (sx_mem i) v (sx_frames i) (sx_ub i).
Definition set_sx_frames v i := mkSx (sta_buf i) (free_sta_queue i) (mc i) (wroles i) (sx_tx i) (sx_hal i) (sx_mem i) (sx_notify i) v (sx_ub i).
Definition set_sx_ub v i := mkSx (sta_buf i) (free_sta_queue i) (mc i) (wroles i) (sx_tx i) (sx_hal i) (sx_mem i) (sx_notify i) (sx_frames i) v.

Definition upd_sta (k : nat) (f : rtw_phl_stainfo_t -> rtw_phl_stainfo_t) (i : sta_info) : sta_info :=
  set_sta_buf (alter f k (sta_buf i)) i.
Definition upd_role (r : nat) (f : rtw_wifi_role_t -> rtw_wifi_role_t) (i : sta_info) : sta_info :=
  set_wroles (alter f r (wroles i)) i.

(** The next answer of the environment; it is positive when none is given. *)
Definition hal_answer (i : sta_info) : bool * sta_info := (default true (head (sx_hal i)), set_sx_hal (tail (sx_hal i)) i).
Definition mem_answer (i : sta_info) : bool * sta_info := (default true (head (sx_mem i)), set_sx_mem (tail (sx_mem i)) i).

(** ** Identifiers *)

Definition _phl_macid_is_used (map : list Z) (id : Z) : bool :=
  negb (Z.land (nth (Z.to_nat (id / 32)) map 0) (BIT (id mod 32)) =? 0).
Definition _phl_macid_map_set (map : list Z) (id : Z) : list Z :=
  alter (fun w => Z.lor w (BIT (id mod 32))) (Z.to_nat (id / 32)) map.
Definition _phl_macid_map_clr (map : list Z) (id : Z) : list Z :=
  alter (fun w => Z.land w (u32 (Z.lnot (BIT (id mod 32))))) (Z.to_nat (id / 32)) map.

Definition phl_macid_ctrl_init (macid_num : Z) (i : sta_info) : rtw_phl_status * sta_info :=
  if macid_num =? 0 then (RTW_PHL_STATUS_FAILURE, i)
  else
    let m := Z.min macid_num PHL_MACID_MAX_NUM in
    (RTW_PHL_STATUS_SUCCESS,
     set_mc (mkMc (used_map (mc i)) (bmc_map (mc i)) (wifi_role_usedmap (mc i)) (map (fun _ => m) (wrole_bmc (mc i))) (mc_sta (mc i)) m) i).

(** The loop of [_phl_alloc_macid]: the first identifier that is not used. *)
Fixpoint find_macid_free (fuel : nat) (map : list Z) (mid max : Z) : Z :=
  match fuel with
  | O => mid
  | S fuel =>
      if mid <? max then if _phl_macid_is_used map mid then find_macid_free fuel map (mid + 1) max else mid else mid
  end.

Definition take_id (r k : nat) (mid : Z) (bmc_sta : bool) (m : macid_ctl_t) : macid_ctl_t :=
  mkMc (_phl_macid_map_set (used_map m) mid)
    (if bmc_sta then _phl_macid_map_set (bmc_map m) mid else bmc_map m)
    (alter (fun map => _phl_macid_map_set map mid) r (wifi_role_usedmap m))
    (if bmc_sta then <[r := mid]> (wrole_bmc m) else wrole_bmc m)
    (<[Z.to_nat mid := Some k]> (mc_sta m)) (max_num m).

Definition drop_id (r : nat) (mid : Z) (bmc_sta : bool) (m : macid_ctl_t) : macid_ctl_t :=
  mkMc (_phl_macid_map_clr (used_map m) mid)
    (if bmc_sta then _phl_macid_map_clr (bmc_map m) mid else bmc_map m)
    (alter (fun map => _phl_macid_map_clr map mid) r (wifi_role_usedmap m))
    (wrole_bmc m)
    (<[Z.to_nat mid := None]> (mc_sta m)) (max_num m).

Definition _phl_alloc_macid (k : nat) (i : sta_info) : rtw_phl_status * sta_info :=
  match sta_buf i !! k with
  | None => (RTW_PHL_STATUS_FAILURE, set_sx_ub true i)
  | Some s =>
      match st_wrole s with
      | None => (RTW_PHL_STATUS_FAILURE, i)
      | Some r =>
          let m := mc i in
          let mid := find_macid_free (Z.to_nat (max_num m)) (used_map m) 0 (max_num m) in
          if mid =? max_num m then (RTW_PHL_STATUS_FAILURE, upd_sta k (set_macid (max_num m)) i)
          else
            (RTW_PHL_STATUS_SUCCESS,
             upd_sta k (set_macid mid) (set_mc (take_id r k mid (bool_decide (mac_addr s = bc_addr)) m) i))
      end
  end.

Definition _phl_release_macid (k : nat) (i : sta_info) : rtw_phl_status * sta_info :=
  match sta_buf i !! k with
  | None => (RTW_PHL_STATUS_FAILURE, set_sx_ub true i)
  | Some s =>
      let m := mc i in
      let invalid_macid := max_num m in
      let '(sts, i) :=
        if invalid_macid <=? macid s then (RTW_PHL_STATUS_FAILURE, i)
        else if negb (_phl_macid_is_used (used_map m) (macid s)) then (RTW_PHL_STATUS_FAILURE, i)
        else
          match st_wrole s with
          | None => (RTW_PHL_STATUS_FAILURE, set_sx_ub true i)
          | Some r => (RTW_PHL_STATUS_SUCCESS, set_mc (drop_id r (macid s) (bool_decide (mac_addr s = bc_addr)) m) i)
          end in
      (sts, upd_sta k (set_macid invalid_macid) i)
  end.

Definition rtw_phl_wrole_bcmc_id_get (r : nat) (i : sta_info) : Z := nth r (wrole_bmc (mc i)) 0.

Definition rtw_phl_macid_is_bmc (id : Z) (i : sta_info) : bool :=
  if max_num (mc i) <=? id then true else _phl_macid_is_used (bmc_map (mc i)) id.
Definition rtw_phl_macid_is_used (id : Z) (i : sta_info) : bool :=
  if max_num (mc i) <=? id then true else _phl_macid_is_used (used_map (mc i)) id.

(** Counts the roles with the bit, up to two. *)
Fixpoint shared_loop (maps : list (list Z)) (id : Z) (iface_bmp : bool) : bool :=
  match maps with
  | [] => false
  | map :: maps =>
      if _phl_macid_is_used map id then if iface_bmp then true else shared_loop maps id true
      else shared_loop maps id iface_bmp
  end.
Definition rtw_phl_macid_is_wrole_shared (id : Z) (i : sta_info) : bool :=
  if max_num (mc i) <=? id then false else shared_loop (wifi_role_usedmap (mc i)) id false.

Fixpoint specific_loop (maps : list (list Z)) (n r : nat) (id : Z) (iface_bmp : bool) : bool :=
  match maps with
  | [] => iface_bmp
  | map :: maps =>
      if _phl_macid_is_used map id
      then if iface_bmp || negb (n =? r)%nat then false else specific_loop maps (S n) r id true
      else specific_loop maps (S n) r id iface_bmp
  end.
Definition rtw_phl_macid_is_wrole_specific (id : Z) (r : nat) (i : sta_info) : bool :=
  if max_num (mc i) <=? id then false else specific_loop (wifi_role_usedmap (mc i)) 0 r id false.

(** ** Queues of stations *)

Definition phl_stainfo_enqueue (q : phl_queue nat) (k : nat) : phl_queue nat := mkQueue (q_queue q ++ [k]) (q_cnt q + 1).

Definition phl_stainfo_dequeue (q : phl_queue nat) : option nat * phl_queue nat :=
  match q_queue q with
  | [] => (None, q)
  | k :: l => (Some k, mkQueue l (q_cnt q - 1))
  end.

(** [list_del] trusts that the node is in the list: the flag says whether it is. *)
Definition phl_stainfo_queue_del (q : phl_queue nat) (k : nat) : bool * phl_queue nat :=
  if q_cnt q =? 0 then (true, q)
  else (bool_decide (k ∈ q_queue q), mkQueue (list_del_node (q_queue q) k) (q_cnt q - 1)).

Definition phl_stainfo_queue_search (i : sta_info) (q : phl_queue nat) (addr : list Z) : option nat :=
  find (fun k => bool_decide (mac_addr <$> sta_buf i !! k = Some addr)) (q_queue q).

Definition phl_stainfo_queue_get_first (q : phl_queue nat) : option nat := head (q_queue q).

Definition push_free (k : nat) (i : sta_info) : sta_info :=
  set_free_q (phl_stainfo_enqueue (free_sta_queue i) k) i.

(** ** Looking stations up *)

Definition rtw_phl_get_stainfo_by_macid (id : Z) (i : sta_info) : option nat :=
  if max_num (mc i) <=? id then None
  else if _phl_macid_is_used (used_map (mc i)) id then mjoin (mc_sta (mc i) !! Z.to_nat id) else None.

(** The loop of [rtw_phl_get_stainfo_by_addr_ex]. *)
Fixpoint search_ids (fuel : nat) (mid : Z) (addr : list Z) (i : sta_info) : option nat :=
  match fuel with
  | O => None
  | S fuel =>
      if mid <? max_num (mc i) then
        if _phl_macid_is_used (used_map (mc i)) mid then
          match mjoin (mc_sta (mc i) !! Z.to_nat mid) with
          | Some k => if bool_decide (mac_addr <$> sta_buf i !! k = Some addr) then Some k else search_ids fuel (mid + 1) addr i
          | None => search_ids fuel (mid + 1) addr i
          end
        else search_ids fuel (mid + 1) addr i
      else None
  end.
Definition rtw_phl_get_stainfo_by_addr_ex (addr : list Z) (i : sta_info) : option nat :=
  search_ids (Z.to_nat (max_num (mc i))) 0 addr i.

Definition rtw_phl_get_macid_by_addr (addr : list Z) (i : sta_info) : Z :=
  match rtw_phl_get_stainfo_by_addr_ex addr i with
  | Some k => from_option macid 0 (sta_buf i !! k)
  | None => max_num (mc i)
  end.

Definition rtw_phl_get_stainfo_by_addr (r : nat) (wrole : rtw_wifi_role_t) (addr : list Z) (i : sta_info) : option nat :=
  if is_broadcast_mac_addr addr then
    let id := nth r (wrole_bmc (mc i)) 0 in
    if max_num (mc i) <=? id then None else mjoin (mc_sta (mc i) !! Z.to_nat id)
  else phl_stainfo_queue_search i (assoc_sta_queue wrole) addr.

Definition rtw_phl_get_stainfo_self (wrole : rtw_wifi_role_t) : option nat :=
  phl_stainfo_queue_get_first (assoc_sta_queue wrole).

(** ** Freeing *)

(** Is [k] the station that stands for the role itself?  For a station role it
    always is, and gets the role's address. *)
Definition _phl_self_stainfo_chk (wrole : rtw_wifi_role_t) (k : nat) (i : sta_info) : bool * sta_info :=
  match wr_type wrole with
  | PHL_RTYPE_STATION | PHL_RTYPE_P2P_GC => (true, upd_sta k (set_mac_addr (wr_mac_addr wrole)) i)
  | PHL_RTYPE_AP | PHL_RTYPE_MESH | PHL_RTYPE_P2P_GO | PHL_RTYPE_TDLS =>
      (bool_decide (mac_addr <$> sta_buf i !! k = Some (wr_mac_addr wrole)), i)
  | _ => (false, i)
  end.

(** Roles that are told about their clients. *)
Definition ap_like (t : role_type) : bool :=
  match t with PHL_RTYPE_AP | PHL_RTYPE_VAP | PHL_RTYPE_MESH | PHL_RTYPE_P2P_GO => true | _ => false end.
Definition ap_client_notify (wrole : rtw_wifi_role_t) (r : nat) (st : mlme_state) (i : sta_info) : sta_info :=
  if ap_like (wr_type wrole) then set_sx_notify (sx_notify i ++ [(r, st)]) i else i.

(** The reorder buffers go first, then the rings, then the identifier. *)
Definition free_rx (k : nat) (i : sta_info) : sta_info :=
  match sta_buf i !! k with
  | None => i
  | Some s =>
      let '(rx, l) := phl_free_rx_reorder (st_rx s) in
      set_sx_frames (sx_frames i ++ l) (upd_sta k (set_rx rx) i)
  end.

Definition phl_free_stainfo_sw (k : nat) (i : sta_info) : rtw_phl_status * sta_info :=
  let i := free_rx k i in
  let id := from_option macid 0 (sta_buf i !! k) in
  let i := set_sx_tx (snd (phl_deregister_tx_ring id (sx_tx i))) i in
  _phl_release_macid k i.

(** The role of station [k]. *)
Definition role_of (k : nat) (i : sta_info) : option (nat * rtw_wifi_role_t) :=
  s ← sta_buf i !! k; r ← st_wrole s; w ← wroles i !! r; Some (r, w).

Definition is_bmc (k : nat) (i : sta_info) : bool := from_option (fun s => is_broadcast_mac_addr (mac_addr s)) false (sta_buf i !! k).

Definition __phl_free_stainfo_sw (k : nat) (i : sta_info) : rtw_phl_status * sta_info :=
  match role_of k i with
  | None => (RTW_PHL_STATUS_FAILURE, set_sx_ub true i)
  | Some (r, wrole) =>
      let '(self, i) := if is_bmc k i then (false, i) else _phl_self_stainfo_chk wrole k i in
      if self then (RTW_PHL_STATUS_SUCCESS, i)
      else
        let '(linked, q) := phl_stainfo_queue_del (assoc_sta_queue wrole) k in
        let i := upd_role r (set_assoc q) (set_sx_ub (sx_ub i || negb linked) i) in
        let i := snd (phl_free_stainfo_sw k i) in
        let i := push_free k i in
        (RTW_PHL_STATUS_SUCCESS, ap_client_notify wrole r MLME_NO_LINK i)
  end.

Definition phl_free_stainfo_hw (k : nat) (i : sta_info) : rtw_phl_status * sta_info :=
  let i := upd_sta k (set_active false) i in
  let '(ok, i) := hal_answer i in
  (if ok then RTW_PHL_STATUS_SUCCESS else RTW_PHL_STATUS_FAILURE, i).

Definition __phl_free_stainfo_hw (k : nat) (i : sta_info) : rtw_phl_status * sta_info :=
  match role_of k i with
  | None => (RTW_PHL_STATUS_FAILURE, set_sx_ub true i)
  | Some (r, wrole) =>
      let '(self, i) := if is_bmc k i then (false, i) else _phl_self_stainfo_chk wrole k i in
      if self then (RTW_PHL_STATUS_SUCCESS, i) else phl_free_stainfo_hw k i
  end.

Definition __phl_free_stainfo (k : nat) (i : sta_info) : rtw_phl_status * sta_info :=
  __phl_free_stainfo_sw k (snd (__phl_free_stainfo_hw k i)).

(** All stations of a role. *)
Fixpoint free_role_loop (hw : bool) (fuel r : nat) (i : sta_info) : sta_info :=
  match fuel with
  | O => i
  | S fuel =>
      match wroles i !! r with
      | None => i
      | Some wrole =>
          match phl_stainfo_dequeue (assoc_sta_queue wrole) with
          | (None, _) => i
          | (Some k, q) =>
              let i := upd_role r (set_assoc q) i in
              let i := if hw then snd (phl_free_stainfo_hw k i) else i in
              free_role_loop hw fuel r (push_free k (snd (phl_free_stainfo_sw k i)))
          end
      end
  end.
Definition role_fuel (r : nat) (i : sta_info) : nat :=
  S (from_option (fun w => length (q_queue (assoc_sta_queue w))) 0%nat (wroles i !! r)).
Definition phl_wifi_role_free_stainfo_sw (r : nat) (i : sta_info) : sta_info := free_role_loop false (role_fuel r i) r i.
Definition phl_wifi_role_free_stainfo (r : nat) (i : sta_info) : sta_info := free_role_loop true (role_fuel r i) r i.

Fixpoint free_hw_ids (fuel : nat) (mid : Z) (r : nat) (i : sta_info) : sta_info :=
  match fuel with
  | O => i
  | S fuel =>
      if mid <? max_num (mc i) then
        let i :=
          if _phl_macid_is_used (nth r (wifi_role_usedmap (mc i)) []) mid then
            match mjoin (mc_sta (mc i) !! Z.to_nat mid) with
            | Some k => snd (phl_free_stainfo_hw k i)
            | None => i
            end
          else i in
        free_hw_ids fuel (mid + 1) r i
      else i
  end.
Definition phl_wifi_role_free_stainfo_hw (r : nat) (i : sta_info) : sta_info :=
  free_hw_ids (Z.to_nat (max_num (mc i))) 0 r i.

(** ** Allocating *)

Definition _phl_alloc_stainfo_sw (k : nat) (i : sta_info) : rtw_phl_status * sta_info :=
  let '(sts, i) := _phl_alloc_macid k i in
  if negb (bool_decide (sts = RTW_PHL_STATUS_SUCCESS)) then (sts, i)
  else
    match sta_buf i !! k, role_of k i with
    | Some s, Some (_, wrole) =>
        let '(ok, i) := mem_answer i in
        let '(rsts, tx) := phl_register_tx_ring ok (macid s) (hw_band wrole) (hw_wmm wrole) (hw_port wrole) (sx_tx i) in
        let i := set_sx_tx tx i in
        if negb (bool_decide (rsts = RTW_PHL_STATUS_SUCCESS)) then (sts, snd (_phl_release_macid k i))
        else (RTW_PHL_STATUS_SUCCESS, i)
    | _, _ => (RTW_PHL_STATUS_FAILURE, set_sx_ub true i)
    end.

Definition phl_alloc_stainfo_sw (sta_addr : list Z) (r : nat) (i : sta_info) : option nat * sta_info :=
  match wroles i !! r with
  | None => (None, set_sx_ub true i)
  | Some wrole =>
      let bmc_sta := is_broadcast_mac_addr sta_addr in
      match (if bool_decide (wr_type wrole = PHL_RTYPE_STATION) && negb bmc_sta then rtw_phl_get_stainfo_self wrole else None) with
      | Some k => (Some k, upd_sta k (set_mac_addr sta_addr) i)
      | None =>
          match rtw_phl_get_stainfo_by_addr r wrole sta_addr i with
          | Some k => (Some k, i)
          | None =>
              match phl_stainfo_dequeue (free_sta_queue i) with
              | (None, _) => (None, i)
              | (Some k, q) =>
                  let i := set_free_q q i in
                  let i := upd_sta k (fun s => set_wrole (Some r) (set_mac_addr sta_addr s)) i in
                  let '(sts, i) := _phl_alloc_stainfo_sw k i in
                  if negb (bool_decide (sts = RTW_PHL_STATUS_SUCCESS)) then (None, push_free k i)
                  else
                    let i := upd_role r (fun w => set_assoc (phl_stainfo_enqueue (assoc_sta_queue w) k) w) i in
                    let '(self, i) := _phl_self_stainfo_chk wrole k i in
                    (Some k, if self then i else ap_client_notify wrole r MLME_LINKING i)
              end
          end
      end
  end.

Definition phl_alloc_stainfo_hw (k : nat) (i : sta_info) : rtw_phl_status * sta_info :=
  let '(ok, i) := hal_answer i in
  if ok then (RTW_PHL_STATUS_SUCCESS, upd_sta k (set_active true) i) else (RTW_PHL_STATUS_FAILURE, i).

Definition __phl_alloc_stainfo (sta_addr : list Z) (r : nat) (i : sta_info) : rtw_phl_status * option nat * sta_info :=
  match phl_alloc_stainfo_sw sta_addr r i with
  | (None, i) => (RTW_PHL_STATUS_FAILURE, None, i)
  | (Some k, i) =>
      if from_option st_active false (sta_buf i !! k) then (RTW_PHL_STATUS_SUCCESS, Some k, i)
      else
        let '(sts, i) := phl_alloc_stainfo_hw k i in
        if negb (bool_decide (sts = RTW_PHL_STATUS_SUCCESS)) then (RTW_PHL_STATUS_FAILURE, None, snd (__phl_free_stainfo_sw k i))
        else (RTW_PHL_STATUS_SUCCESS, Some k, i)
  end.

(** ** Initialisation *)

Definition sta0 : rtw_phl_stainfo_t := mkStaInfo (replicate MAC_ALEN 0) None 0 false (mkSta (replicate 8 None) false).

(** [phl_stainfo_ctrl_init] when memory is there, after which
    [phl_macid_ctrl_init] sets the number of identifiers; [macid_ctl_t] and the
    buffer start zeroed. *)
Definition phl_stainfo_ctrl_init (roles : list rtw_wifi_role_t) (tx : tx_info H) (hal mem : list bool) : sta_info :=
  let n := length roles in
  mkSx (replicate PHL_MAX_STA_NUM sta0)
    (foldl phl_stainfo_enqueue pq_init (seq 0 PHL_MAX_STA_NUM))
    (mkMc (replicate PHL_MACID_MAX_ARRAY_NUM 0) (replicate PHL_MACID_MAX_ARRAY_NUM 0)
       (replicate n (replicate PHL_MACID_MAX_ARRAY_NUM 0)) (replicate n 0) (replicate (Z.to_nat PHL_MACID_MAX_NUM) None) 0)
    roles tx hal mem [] [] false.
End sta_info.
Arguments sta_info : clear implicits.
