(* ===== verification/StaInv.v ===== *)
(** * Identifiers and stations: the invariant

    The bitmaps and the table represent one map from identifiers to their role
    and station; every operation of [StaInfo] is an operation on that map. *)

From stdpp Require Import gmap.
From S2P Require Import Prelude PhlQueue PhlDef RxReorder RxRing TxRing StaInfo.

(** ** Bitmaps *)

Lemma is_used_testbit map id : _phl_macid_is_used map id = Z.testbit (nth (Z.to_nat (id / 32)) map 0) (id mod 32).
Proof.
  unfold _phl_macid_is_used. pose proof (Z.mod_pos_bound id 32 ltac:(lia)). rewrite land_BIT by lia.
  pose proof (BIT_pos (id mod 32) ltac:(lia)). destruct (Z.testbit _ _); [|done]. destruct (Z.eqb_spec (BIT (id mod 32)) 0); [lia|done].
Qed.

Lemma nth_alter_list {A} (f : A -> A) l j k d : (j < length l)%nat -> nth k (alter f j l) d = if decide (k = j) then f (nth j l d) else nth k l d.
Proof.
  intros Hj. rewrite !nth_lookup. destruct (decide (k = j)) as [->|Hne].
  - destruct (lookup_lt_is_Some_2 l j Hj) as [x Hx]. by rewrite list_lookup_alter_eq, Hx.
  - by rewrite list_lookup_alter_ne.
Qed.

Lemma alter_Some {A} (f : A -> A) (l : list A) (j k : nat) x :
  alter f j l !! k = Some x -> (k <> j /\ l !! k = Some x) \/ (k = j /\ exists y, l !! k = Some y /\ x = f y).
Proof.
  destruct (decide (k = j)) as [->|Hne].
  - rewrite list_lookup_alter_eq. intros (y & -> & ->)%fmap_Some_1. right. eauto.
  - rewrite list_lookup_alter_ne by done. auto.
Qed.

Lemma word_split a b : 0 <= a -> 0 <= b -> (Z.to_nat (a / 32) = Z.to_nat (b / 32) /\ a mod 32 = b mod 32) <-> a = b.
Proof. intros Ha Hb. pose proof (Z.div_pos a 32). pose proof (Z.div_pos b 32). split; [|by intros ->]. intros [E1 E2]. lia. Qed.

Section bits.
Context (map : list Z) (id id' : Z) (Hid : 0 <= id) (Hid' : 0 <= id') (Hl : (Z.to_nat (id / 32) < length map)%nat).

Lemma is_used_set : _phl_macid_is_used (_phl_macid_map_set map id) id' = _phl_macid_is_used map id' || (id =? id').
Proof.
  rewrite !is_used_testbit. unfold _phl_macid_map_set. rewrite nth_alter_list by done.
  pose proof (Z.mod_pos_bound id 32 ltac:(lia)). pose proof (word_split id' id Hid' Hid) as Hw.
  destruct (decide (Z.to_nat (id' / 32) = Z.to_nat (id / 32))) as [E|E].
  - rewrite E, Z.lor_spec, testbit_BIT by lia. f_equal. destruct (Z.eqb_spec (id mod 32) (id' mod 32)), (Z.eqb_spec id id'); lia || naive_solver.
  - destruct (Z.eqb_spec id id') as [->|]; [done|]. by rewrite orb_false_r.
Qed.

Lemma is_used_clr : _phl_macid_is_used (_phl_macid_map_clr map id) id' = _phl_macid_is_used map id' && negb (id =? id').
Proof.
  rewrite !is_used_testbit. unfold _phl_macid_map_clr. rewrite nth_alter_list by done.
  pose proof (Z.mod_pos_bound id 32 ltac:(lia)). pose proof (Z.mod_pos_bound id' 32 ltac:(lia)). pose proof (word_split id' id Hid' Hid) as Hw.
  destruct (decide (Z.to_nat (id' / 32) = Z.to_nat (id / 32))) as [E|E].
  - rewrite E, Z.land_spec. f_equal. unfold u32. rewrite Z.mod_pow2_bits_low by lia.
    rewrite Z.lnot_spec, testbit_BIT by lia. f_equal. destruct (Z.eqb_spec (id mod 32) (id' mod 32)), (Z.eqb_spec id id'); lia || naive_solver.
  - destruct (Z.eqb_spec id id') as [->|]; [done|]. by rewrite andb_true_r.
Qed.
End bits.

Lemma map_set_length map id : length (_phl_macid_map_set map id) = length map.
Proof. apply length_alter. Qed.
Lemma map_clr_length map id : length (_phl_macid_map_clr map id) = length map.
Proof. apply length_alter. Qed.

(** ** The map of identifiers *)

Notation id_map := (gmap Z (nat * nat)).

Record ids_rep (n : nat) (m : macid_ctl_t) (M : id_map) : Prop := {
  ir_max : 0 <= max_num m <= PHL_MACID_MAX_NUM;
  ir_len : length (used_map m) = PHL_MACID_MAX_ARRAY_NUM;
  ir_maps : length (wifi_role_usedmap m) = n /\ Forall (fun l => length l = PHL_MACID_MAX_ARRAY_NUM) (wifi_role_usedmap m);
  ir_tab : length (mc_sta m) = Z.to_nat PHL_MACID_MAX_NUM;
  ir_bmc : Forall (fun id => 0 <= id) (wrole_bmc m);
  ir_dom : forall id x, M !! id = Some x -> 0 <= id < max_num m;
  ir_used : forall id, 0 <= id < max_num m -> _phl_macid_is_used (used_map m) id = bool_decide (is_Some (M !! id));
  ir_role : forall r map id, wifi_role_usedmap m !! r = Some map -> 0 <= id < max_num m ->
    _phl_macid_is_used map id = bool_decide (fst <$> M !! id = Some r);
  ir_sta : forall id, 0 <= id < max_num m -> mjoin (mc_sta m !! Z.to_nat id) = snd <$> M !! id }.

Lemma id_word id m : 0 <= id < m -> m <= PHL_MACID_MAX_NUM -> (Z.to_nat (id / 32) < PHL_MACID_MAX_ARRAY_NUM)%nat.
Proof. unfold PHL_MACID_MAX_NUM, PHL_MACID_MAX_ARRAY_NUM. intros. pose proof (Z.div_lt_upper_bound id 32 8). pose proof (Z.div_pos id 32). lia. Qed.

(** The search of a free identifier finds the least one. *)
Lemma find_free_spec fuel map mid max : 0 <= mid <= max -> max - mid <= Z.of_nat fuel ->
  let f := find_macid_free fuel map mid max in
  mid <= f <= max /\ (f < max -> _phl_macid_is_used map f = false) /\ (forall id, mid <= id < f -> _phl_macid_is_used map id = true).
Proof.
  revert mid. induction fuel as [|fuel IH]; intros mid Hm Hf; cbn [find_macid_free].
  { split_and!; intros; lia. }
  destruct (Z.ltb_spec mid max); [|split_and!; intros; lia].
  destruct (_phl_macid_is_used map mid) eqn:E; [|split_and!; intros; [lia|lia|done|lia]].
  destruct (IH (mid + 1)) as (H1 & H2 & H3); [lia|lia|]. split_and!; [lia|lia|done|]. intros id Hid.
  destruct (decide (id = mid)) as [->|]; [done|]. apply H3. lia.
Qed.

Lemma take_id_rep n m M r k mid b : ids_rep n m M -> (r < n)%nat -> 0 <= mid < max_num m -> M !! mid = None ->
  ids_rep n (take_id r k mid b m) (<[mid := (r, k)]> M).
Proof.
  intros [] Hr Hmid Hn. destruct ir_maps0 as [Hml Hmw]. pose proof (id_word mid (max_num m) Hmid ltac:(lia)) as Hw.
  split; cbn; try done.
  - by rewrite map_set_length.
  - split; [by rewrite length_alter|]. apply Forall_alter; [done|]. intros l _. by rewrite map_set_length.
  - by rewrite length_insert.
  - destruct b; [|done]. apply Forall_insert; [done|lia].
  - intros id x [[<- _]|[_ Hx]]%lookup_insert_Some; [done|by eapply ir_dom0].
  - intros id Hid. rewrite is_used_set, ir_used0 by (lia || done). destruct (Z.eqb_spec mid id) as [<-|Hne].
    + by rewrite lookup_insert_eq, orb_true_r.
    + by rewrite lookup_insert_ne, orb_false_r.
  - intros r' map id Hmap Hid. apply alter_Some in Hmap as [(Hne & Hmap)|(-> & map0 & Hmap & ->)].
    + rewrite (ir_role0 r') by done. destruct (decide (mid = id)) as [<-|?]; [|by rewrite lookup_insert_ne].
      rewrite lookup_insert_eq, Hn. cbn. rewrite !bool_decide_eq_false_2; [done| |done]. congruence.
    + rewrite Forall_lookup in Hmw. pose proof (Hmw _ _ Hmap) as Hl. rewrite is_used_set, (ir_role0 r) by (lia || done).
      destruct (Z.eqb_spec mid id) as [<-|Hne]; [by rewrite lookup_insert_eq, orb_true_r; cbn; rewrite bool_decide_eq_true_2|].
      by rewrite lookup_insert_ne, orb_false_r.
  - intros id Hid. destruct (decide (mid = id)) as [<-|Hne].
    + rewrite lookup_insert_eq, list_lookup_insert_eq by (rewrite ir_tab0; lia). done.
    + rewrite lookup_insert_ne, list_lookup_insert_ne by lia. by apply ir_sta0.
Qed.

Lemma drop_id_rep n m M r k mid b : ids_rep n m M -> M !! mid = Some (r, k) -> ids_rep n (drop_id r mid b m) (delete mid M).
Proof.
  intros [] Hn. pose proof (ir_dom0 _ _ Hn) as Hmid. destruct ir_maps0 as [Hml Hmw].
  pose proof (id_word mid (max_num m) Hmid ltac:(lia)) as Hw. split; cbn; try done.
  - by rewrite map_clr_length.
  - split; [by rewrite length_alter|]. apply Forall_alter; [done|]. intros l _. by rewrite map_clr_length.
  - by rewrite length_insert.
  - intros id x [_ Hx]%lookup_delete_Some. by eapply ir_dom0.
  - intros id Hid. rewrite is_used_clr, ir_used0 by (lia || done). destruct (Z.eqb_spec mid id) as [<-|Hne].
    + by rewrite lookup_delete_eq, andb_false_r.
    + by rewrite lookup_delete_ne, andb_true_r.
  - intros r' map id Hmap Hid. apply alter_Some in Hmap as [(Hne & Hmap)|(-> & map0 & Hmap & ->)].
    + rewrite (ir_role0 r') by done. destruct (decide (mid = id)) as [<-|?]; [|by rewrite lookup_delete_ne].
      rewrite lookup_delete_eq, Hn. cbn. rewrite !bool_decide_eq_false_2; [done|done|]. congruence.
    + rewrite Forall_lookup in Hmw. pose proof (Hmw _ _ Hmap) as Hl. rewrite is_used_clr, (ir_role0 r) by (lia || done).
      destruct (Z.eqb_spec mid id) as [<-|Hne]; [by rewrite lookup_delete_eq, andb_false_r|].
      by rewrite lookup_delete_ne, andb_true_r.
  - intros id Hid. destruct (decide (mid = id)) as [<-|Hne].
    + rewrite lookup_delete_eq, list_lookup_insert_eq by (rewrite ir_tab0; lia). done.
    + rewrite lookup_delete_ne, list_lookup_insert_ne by lia. by apply ir_sta0.
Qed.

(** ** Stations *)

Section stations.
Context {H : Type}.
Implicit Types (i : sta_info H) (M : id_map).

(** The stations of the roles. *)
Definition members_of (ws : list rtw_wifi_role_t) : list (nat * nat) :=
  concat (imap (fun r w => pair r <$> q_queue (assoc_sta_queue w)) ws).
Definition members i : list (nat * nat) := members_of (wroles i).

(** [Y] are stations in no queue that count as stations of a role; [X] all
    stations in no queue.  A station of a role owns an identifier, or has the
    invalid one. *)
Record sta_ok (X : list nat) (Y : list (nat * nat)) i M : Prop := {
  so_ids : ids_rep (length (wroles i)) (mc i) M;
  so_pool : q_queue (free_sta_queue i) ++ (snd <$> members i) ++ X ≡ₚ seq 0 (length (sta_buf i));
  so_free : pq_wf (free_sta_queue i);
  so_assoc : Forall (fun w => pq_wf (assoc_sta_queue w)) (wroles i);
  so_own : forall id r k, M !! id = Some (r, k) -> (r, k) ∈ members i ++ Y /\
    exists s, sta_buf i !! k = Some s /\ macid s = id;
  so_mem : forall r k, (r, k) ∈ members i ++ Y -> exists s, sta_buf i !! k = Some s /\ st_wrole s = Some r /\
    (M !! macid s = Some (r, k) \/ macid s = max_num (mc i));
  so_ub : sx_ub i = false }.

(** One ring list for each identifier in use. *)
Definition rings_ok i M : Prop := tl_macid <$> t_ring_list (sx_tx i) ≡ₚ fst <$> map_to_list M.

Definition sta_inv i : Prop := exists M, sta_ok [] [] i M /\ rings_ok i M.

(** *** Roles *)

Lemma members_split i r w : wroles i !! r = Some w -> exists A B,
  members i = A ++ (pair r <$> q_queue (assoc_sta_queue w)) ++ B /\
  forall f, members (upd_role r f i) = A ++ (pair r <$> q_queue (assoc_sta_queue (f w))) ++ B.
Proof.
  intros Hr. unfold members, members_of, upd_role. cbn. pose proof (lookup_lt_Some _ _ _ Hr) as Hlt.
  set (g := fun r w => pair r <$> q_queue (assoc_sta_queue w)).
  exists (concat (imap g (take r (wroles i)))), (concat (imap (fun n => g (S (length (take r (wroles i))) + n)%nat) (drop (S r) (wroles i)))).
  assert (forall x, concat (imap g (take r (wroles i) ++ x :: drop (S r) (wroles i))) =
    concat (imap g (take r (wroles i))) ++ g r x ++ concat (imap (fun n => g (S (length (take r (wroles i))) + n)%nat) (drop (S r) (wroles i)))) as E.
  { intros x. rewrite imap_app, concat_app. cbn [imap concat]. rewrite Nat.add_0_r, length_take_le by lia. do 3 f_equal.
    apply imap_ext. intros n y _. cbn. f_equal. lia. }
  split.
  - rewrite <- (take_drop_middle _ _ _ Hr) at 1. apply E.
  - intros f. transitivity (concat (imap g (take r (wroles i) ++ f w :: drop (S r) (wroles i)))); [|apply E].
    f_equal. f_equal. rewrite <- (take_drop_middle _ _ _ Hr) at 1.
    rewrite alter_app_r_alt by (rewrite length_take_le; lia). rewrite length_take_le, Nat.sub_diag by lia. done.
Qed.

Lemma elem_members i r k : (r, k) ∈ members i <-> exists w, wroles i !! r = Some w /\ k ∈ q_queue (assoc_sta_queue w).
Proof.
  unfold members, members_of. rewrite list_elem_of_In, in_concat. setoid_rewrite <- list_elem_of_In. split.
  - intros (l & (n & w & -> & Hw)%elem_of_lookup_imap_1 & (k' & [= -> ->] & Hk)%list_elem_of_fmap_1). eauto.
  - intros (w & Hw & Hk). exists (pair r <$> q_queue (assoc_sta_queue w)). split; [by apply (elem_of_lookup_imap_2 (fun r w => pair r <$> q_queue (assoc_sta_queue w)))|].
    by apply list_elem_of_fmap_2.
Qed.

Lemma member_unique X Y i M r r' k : sta_ok X Y i M -> (r, k) ∈ members i -> (r', k) ∈ members i -> r = r'.
Proof.
  intros Hok H1 H2. destruct (so_mem _ _ _ _ Hok r k) as (s & Es & Er & _); [apply elem_of_app; by left|].
  destruct (so_mem _ _ _ _ Hok r' k) as (s' & Es' & Er' & _); [apply elem_of_app; by left|]. congruence.
Qed.

Lemma pool_nodup X Y i M : sta_ok X Y i M -> NoDup (q_queue (free_sta_queue i) ++ (snd <$> members i) ++ X).
Proof. intros Hok. rewrite (so_pool _ _ _ _ Hok). apply NoDup_seq. Qed.

Lemma held_out k X Y i M : sta_ok (k :: X) Y i M -> k ∉ snd <$> members i /\ k ∉ q_queue (free_sta_queue i) /\ (k < length (sta_buf i))%nat.
Proof.
  intros Hok. pose proof (pool_nodup _ _ _ _ Hok) as Hn. rewrite app_assoc in Hn. apply NoDup_app in Hn as (_ & Hn & _).
  split_and!.
  - intros Hk. apply (Hn k); [apply elem_of_app; by right|by left].
  - intros Hk. apply (Hn k); [apply elem_of_app; by left|by left].
  - destruct Hok. assert (k ∈ seq 0 (length (sta_buf i))) as Hk.
    { rewrite <- so_pool0. rewrite !elem_of_app. right. right. by left. }
    apply elem_of_seq in Hk. lia.
Qed.

(** *** What does not matter *)

(** A change of fields that the invariant does not read. *)
Lemma ok_ext X Y i j M : sta_ok X Y i M -> mc j = mc i -> free_sta_queue j = free_sta_queue i -> wroles j = wroles i ->
  sx_ub j = sx_ub i -> length (sta_buf j) = length (sta_buf i) ->
  (forall k s, sta_buf i !! k = Some s -> exists s', sta_buf j !! k = Some s' /\ macid s' = macid s /\ st_wrole s' = st_wrole s) ->
  sta_ok X Y j M.
Proof.
  intros [] E1 E2 E3 E4 E5 Hs. assert (members j = members i) as Em by (unfold members; by rewrite E3). split; rewrite ?E1, ?E2, ?E3, ?E4, ?E5, ?Em; try done.
  - intros id r k HM. destruct (so_own0 _ _ _ HM) as (H1 & s & H2 & H3). split; [done|]. destruct (Hs _ _ H2) as (s' & ? & ? & ?). exists s'. split; [done|congruence].
  - intros r k Hk. destruct (so_mem0 _ _ Hk) as (s & H2 & H3 & H4). destruct (Hs _ _ H2) as (s' & ? & E & ?). exists s'. rewrite E. split_and!; [done|congruence|done].
Qed.

Lemma ok_upd_sta X Y i M k f : sta_ok X Y i M -> (forall s, macid (f s) = macid s /\ st_wrole (f s) = st_wrole s) -> sta_ok X Y (upd_sta k f i) M.
Proof.
  intros Hok Hf. eapply ok_ext; try done; cbn; [by rewrite length_alter|]. intros k' s Es. destruct (decide (k' = k)) as [->|Hne].
  - rewrite list_lookup_alter_eq, Es. cbn. exists (f s). destruct (Hf s). done.
  - rewrite list_lookup_alter_ne by done. by exists s.
Qed.

(** A station in no queue and without a role may change freely. *)
Lemma ok_upd_held X Y i M k f : sta_ok (k :: X) Y i M -> k ∉ snd <$> Y -> sta_ok (k :: X) Y (upd_sta k f i) M.
Proof.
  intros Hok HY. destruct (held_out _ _ _ _ _ Hok) as (Hm & _ & _). destruct Hok.
  assert (forall r k', (r, k') ∈ members i ++ Y -> k' <> k) as Hne.
  { intros r k' Hk ->. apply elem_of_app in Hk as [Hk|Hk]; [apply Hm|apply HY]; by apply (list_elem_of_fmap_2' snd _ _ _ Hk). }
  split; cbn; rewrite ?length_alter; try done; fold (members i).
  - intros id r k' HM. destruct (so_own0 _ _ _ HM) as (H1 & s & H2 & H3). split; [done|]. exists s.
    rewrite list_lookup_alter_ne by (intros ->; by eapply Hne). done.
  - intros r k' Hk. destruct (so_mem0 _ _ Hk) as (s & H2 & H3 & H4). exists s.
    rewrite list_lookup_alter_ne by (intros ->; by eapply Hne). done.
Qed.

(** *** Queues *)

Lemma ok_take_free X Y i M k q : sta_ok X Y i M -> phl_stainfo_dequeue (free_sta_queue i) = (Some k, q) ->
  sta_ok (k :: X) Y (set_free_q q i) M.
Proof.
  intros [] E. unfold phl_stainfo_dequeue, pq_wf in *. destruct (q_queue (free_sta_queue i)) as [|x l] eqn:Eq; [done|]. injection E as <- <-.
  split; cbn; try done; fold (members i); [|unfold pq_wf; cbn [q_cnt q_queue length] in *; lia].
  rewrite <- so_pool0. change (members (set_free_q _ i)) with (members i). solve_Permutation.
Qed.

Lemma ok_push_free X Y i M k : sta_ok (k :: X) Y i M -> sta_ok X Y (push_free k i) M.
Proof.
  intros []. split; cbn; try done; [|unfold pq_wf, phl_stainfo_enqueue in *; cbn; rewrite length_app; cbn; lia].
  rewrite <- so_pool0. change (members (push_free k i)) with (members i). solve_Permutation.
Qed.

Lemma ok_roles X Y X' Y' i M r f w : sta_ok X Y i M -> wroles i !! r = Some w -> pq_wf (assoc_sta_queue (f w)) ->
  members (upd_role r f i) ++ Y' ≡ₚ members i ++ Y -> (snd <$> members (upd_role r f i)) ++ X' ≡ₚ (snd <$> members i) ++ X ->
  sta_ok X' Y' (upd_role r f i) M.
Proof.
  intros [] Ew Hq EY EX. split; cbn [mc free_sta_queue wroles sta_buf sx_ub upd_role set_wroles]; try done.
  - by rewrite length_alter.
  - by rewrite EX.
  - apply Forall_alter; [done|]. intros w' Ew' _. by simplify_eq.
  - intros id r' k HM. rewrite EY. by apply so_own0.
  - intros r' k. rewrite EY. apply so_mem0.
Qed.

Lemma ok_enter X Y i M r k w : sta_ok (k :: X) ((r, k) :: Y) i M -> wroles i !! r = Some w ->
  sta_ok X Y (upd_role r (fun w => set_assoc (phl_stainfo_enqueue (assoc_sta_queue w) k) w) i) M.
Proof.
  intros Hok Ew. destruct (members_split i r w Ew) as (A & B & Em & Eu).
  assert (members (upd_role r (fun w => set_assoc (phl_stainfo_enqueue (assoc_sta_queue w) k) w) i) ≡ₚ (r, k) :: members i) as Ep.
  { rewrite Eu, Em. cbn. rewrite fmap_app. cbn. solve_Permutation. }
  eapply ok_roles; [done|done| | |].
  - pose proof (so_assoc _ _ _ _ Hok) as Ha. rewrite Forall_lookup in Ha. pose proof (Ha _ _ Ew) as Hq.
    unfold pq_wf, phl_stainfo_enqueue in *. cbn. rewrite length_app. cbn. lia.
  - rewrite Ep. solve_Permutation.
  - rewrite Ep. cbn. solve_Permutation.
Qed.

(** The station leaves its role's queue. *)
Lemma ok_leave X Y i M r k w q : sta_ok X Y i M -> wroles i !! r = Some w -> q_queue (assoc_sta_queue w) ≡ₚ k :: q_queue q ->
  pq_wf q -> sta_ok (k :: X) ((r, k) :: Y) (upd_role r (set_assoc q) i) M.
Proof.
  intros Hok Ew Eq Hq. destruct (members_split i r w Ew) as (A & B & Em & Eu).
  assert (members i ≡ₚ (r, k) :: members (upd_role r (set_assoc q) i)) as Ep.
  { rewrite Eu, Em. cbn. rewrite Eq. cbn. solve_Permutation. }
  eapply ok_roles; [done|done|done| |]; rewrite Ep; cbn; solve_Permutation.
Qed.

Lemma queue_del_spec q k : pq_wf q -> k ∈ q_queue q ->
  fst (phl_stainfo_queue_del q k) = true /\ q_queue q ≡ₚ k :: q_queue (snd (phl_stainfo_queue_del q k)) /\ pq_wf (snd (phl_stainfo_queue_del q k)).
Proof.
  intros Hq Hk. unfold phl_stainfo_queue_del, pq_wf in *. pose proof (list_del_node_perm _ _ Hk) as Hp.
  pose proof (Permutation_length Hp) as Hl. cbn in Hl. destruct (Z.eqb_spec (q_cnt q) 0); [lia|]. cbn.
  split_and!; [by rewrite bool_decide_eq_true_2|done|lia].
Qed.

Lemma dequeue_spec q k q' : pq_wf q -> phl_stainfo_dequeue q = (Some k, q') -> q_queue q = k :: q_queue q' /\ pq_wf q'.
Proof.
  unfold phl_stainfo_dequeue, pq_wf. intros Hq E. destruct (q_queue q) as [|x l]; [done|]. injection E as <- <-. cbn [q_queue q_cnt length] in *. split; [done|lia].
Qed.

(** *** Identifiers *)

(** A station without an identifier is forgotten. *)
Lemma ok_forget X Y i M r k : sta_ok X ((r, k) :: Y) i M -> (forall id r', M !! id <> Some (r', k)) -> sta_ok X Y i M.
Proof.
  intros [] Hn. split; try done.
  - intros id r' k' HM. destruct (so_own0 _ _ _ HM) as [Hk Hs]. split; [|done]. rewrite elem_of_app, elem_of_cons in *.
    destruct Hk as [?|[[= -> ->]|?]]; [by left|by destruct (Hn id r)|by right].
  - intros r' k' Hk. apply so_mem0. set_solver.
Qed.

Lemma max_none n m M : ids_rep n m M -> M !! max_num m = None.
Proof. intros []. destruct (M !! max_num m) as [x|] eqn:E; [|done]. apply ir_dom0 in E. lia. Qed.

Lemma ok_alloc_id X i M k s r : sta_ok (k :: X) [] i M -> sta_buf i !! k = Some s -> st_wrole s = Some r -> (r < length (wroles i))%nat ->
  let m := mc i in
  (_phl_alloc_macid k i = (RTW_PHL_STATUS_FAILURE, upd_sta k (set_macid (max_num m)) i) /\
   (forall id, 0 <= id < max_num m -> is_Some (M !! id))) \/
  (exists mid, let j := upd_sta k (set_macid mid) (set_mc (take_id r k mid (bool_decide (mac_addr s = bc_addr)) m) i) in
   _phl_alloc_macid k i = (RTW_PHL_STATUS_SUCCESS, j) /\ 0 <= mid < max_num m /\ M !! mid = None /\
   (forall id, 0 <= id < mid -> is_Some (M !! id)) /\ sta_ok (k :: X) [(r, k)] j (<[mid := (r, k)]> M)).
Proof.
  intros Hok Es Er Hr m. destruct (held_out _ _ _ _ _ Hok) as (Hk & _ & Hlt). pose proof Hok as []. pose proof (ir_max _ _ _ so_ids0) as Hmax. fold m in Hmax.
  destruct (find_free_spec (Z.to_nat (max_num m)) (used_map m) 0 (max_num m)) as (F1 & F2 & F3); [lia|lia|].
  unfold _phl_alloc_macid. rewrite Es, Er. fold m. set (mid := find_macid_free _ _ _ _) in *.
  assert (forall id, 0 <= id < mid -> is_Some (M !! id)) as Hall.
  { intros id Hid. specialize (F3 id Hid). rewrite (ir_used _ _ _ so_ids0) in F3 by (fold m; lia). by apply bool_decide_eq_true in F3. }
  destruct (Z.eqb_spec mid (max_num m)) as [E|E]; [left; split; [done|]; by rewrite <- E|]. right. exists mid. cbn zeta.
  assert (M !! mid = None) as Hn.
  { specialize (F2 ltac:(lia)). rewrite (ir_used _ _ _ so_ids0) in F2 by (fold m; lia). apply bool_decide_eq_false in F2. by apply eq_None_not_Some. }
  split_and!; try done; [lia|lia|]. split; cbn; rewrite ?length_alter; try done.
  - apply take_id_rep; [done|done|lia|done].
  - intros id r' k' [[<- [= <- <-]]|[Hne HM]]%lookup_insert_Some.
    + split; [set_solver|]. exists (set_macid mid s). by rewrite list_lookup_alter_eq, Es.
    + destruct (so_own0 _ _ _ HM) as (Hk' & s' & Es' & Em). split; [change (members _) with (members i); set_solver|]. exists s'. split; [|done].
      rewrite list_lookup_alter_ne; [done|]. intros <-. apply Hk. rewrite app_nil_r in Hk'. by apply (list_elem_of_fmap_2' snd _ _ _ Hk').
  - intros r' k' Hk'. change (members _) with (members i) in Hk'. rewrite elem_of_app, list_elem_of_singleton in Hk'. destruct Hk' as [Hk'|[= -> ->]].
    + destruct (so_mem0 r' k') as (s' & Es' & Er' & Hd); [set_solver|]. exists s'.
      rewrite list_lookup_alter_ne by (intros <-; apply Hk; by apply (list_elem_of_fmap_2' snd _ _ _ Hk')). split_and!; [done|done|].
      destruct Hd as [Hd|Hd]; [|by right]. left. rewrite lookup_insert_ne; [done|]. intros E'. rewrite <- E' in Hd. congruence.
    + exists (set_macid mid s). rewrite list_lookup_alter_eq, Es. split_and!; [done|done|]. left. cbn. by rewrite lookup_insert_eq.
Qed.

Lemma not_owned X Y i M r k s : sta_ok X Y i M -> sta_buf i !! k = Some s -> M !! macid s <> Some (r, k) ->
  (r, k) ∈ members i ++ Y -> forall id r', M !! id <> Some (r', k).
Proof.
  intros Hok Es Hn Hm id r' HM. destruct (so_own _ _ _ _ Hok _ _ _ HM) as (Hk & s' & Es' & E). simplify_eq.
  destruct (so_mem _ _ _ _ Hok _ _ Hm) as (s1 & Es1 & Er1 & _), (so_mem _ _ _ _ Hok _ _ Hk) as (s2 & Es2 & Er2 & _). congruence.
Qed.

(** A station in no queue may count as a station of its role if it has the
    invalid identifier. *)
Lemma ok_invalid X i M r k s : sta_ok (k :: X) [] i M -> sta_buf i !! k = Some s -> st_wrole s = Some r -> macid s = max_num (mc i) ->
  sta_ok (k :: X) [(r, k)] i M.
Proof.
  intros [] Es Er Em. split; try done.
  - intros id r' k' HM. destruct (so_own0 _ _ _ HM) as [Hk Hs]. split; [|done]. set_solver.
  - intros r' k'. rewrite elem_of_app, list_elem_of_singleton. intros [Hk|[= -> ->]]; [apply so_mem0; set_solver|]. exists s. auto.
Qed.

Lemma ok_release X i M r k s : sta_ok (k :: X) [(r, k)] i M -> sta_buf i !! k = Some s ->
  let j := snd (_phl_release_macid k i) in
  sta_ok (k :: X) [] j (delete (macid s) M) /\ sx_tx j = sx_tx i /\ wroles j = wroles i /\ max_num (mc j) = max_num (mc i) /\
  sta_buf j !! k = Some (set_macid (max_num (mc i)) s).
Proof.
  intros Hok Es. destruct (so_mem _ _ _ _ Hok r k) as (s' & Es' & Er & Hd); [set_solver|]. simplify_eq.
  destruct (held_out _ _ _ _ _ Hok) as (Hk & _ & _). pose proof Hok as []. unfold _phl_release_macid. rewrite Es.
  destruct Hd as [Hd|Hd].
  - pose proof (ir_dom _ _ _ so_ids0 _ _ Hd) as Hid. replace (max_num (mc i) <=? macid s) with false by lia.
    rewrite (ir_used _ _ _ so_ids0) by done. rewrite bool_decide_eq_true_2 by eauto. cbn [negb]. rewrite Er. cbn [snd].
    split; [|cbn; by rewrite list_lookup_alter_eq, Es]. split; cbn; rewrite ?length_alter; try done.
    + by eapply drop_id_rep.
    + intros id r' k' [Hne HM]%lookup_delete_Some. destruct (so_own0 _ _ _ HM) as (Hk' & s1 & Es1 & E1).
      assert (k' <> k) by (intros ->; congruence). split; [change (members _) with (members i); set_solver|]. exists s1. by rewrite list_lookup_alter_ne.
    + intros r' k' Hk'. rewrite app_nil_r in Hk'. change (members _) with (members i) in Hk'.
      assert (k' <> k) by (intros ->; apply Hk; by apply (list_elem_of_fmap_2' snd _ _ _ Hk')).
      destruct (so_mem0 r' k') as (s1 & Es1 & Er1 & Hd1); [set_solver|]. exists s1. rewrite list_lookup_alter_ne by done. split_and!; [done|done|].
      destruct Hd1 as [Hd1|Hd1]; [|by right]. left. rewrite lookup_delete_ne; [done|]. intros E. congruence.
  - replace (max_num (mc i) <=? macid s) with true by lia. cbn [snd].
    assert (M !! macid s = None) as Hn by (rewrite Hd; by eapply max_none). rewrite delete_id by done.
    split; [|cbn; by rewrite list_lookup_alter_eq, Es]. apply ok_upd_held; [|by apply not_elem_of_nil]. eapply ok_forget; [done|].
    apply (not_owned _ _ i M r k s Hok Es); [by rewrite Hn|set_solver].
Qed.

(** *** Rings *)

Lemma take_macid_in id l : id ∈ tl_macid <$> l -> exists t l', take_macid id l = (Some t, l') /\ tl_macid <$> l ≡ₚ id :: (tl_macid <$> l').
Proof.
  induction l as [|x l IH]; [by intros ?%elem_of_nil|]. cbn. intros Hin. destruct (Z.eqb_spec id (tl_macid x)) as [->|Hne]; [by eexists _, _|].
  apply elem_of_cons in Hin as [?|Hin]; [done|]. destruct (IH Hin) as (t & l' & -> & E). eexists _, _. split; [done|]. cbn. rewrite E. solve_Permutation.
Qed.

Lemma take_macid_out id l : id ∉ tl_macid <$> l -> fst (take_macid id l) = None.
Proof.
  induction l as [|x l IH]; [done|]. cbn. intros Hin. destruct (Z.eqb_spec id (tl_macid x)) as [->|Hne]; [set_solver|].
  destruct (take_macid id l) as [o l']. cbn in *. apply IH. set_solver.
Qed.

Lemma elem_ids M id : id ∈ fst <$> map_to_list M <-> is_Some (M !! id).
Proof.
  rewrite list_elem_of_fmap. split.
  - intros ([id' x] & -> & Hx%elem_of_map_to_list). cbn. eauto.
  - intros [x Hx]. exists (id, x). split; [done|]. by apply elem_of_map_to_list.
Qed.

Lemma dereg_rings i M id : rings_ok i M -> rings_ok (set_sx_tx (snd (phl_deregister_tx_ring id (sx_tx i))) i) (delete id M).
Proof.
  unfold rings_ok, phl_deregister_tx_ring. cbn. intros Hr. destruct (M !! id) as [x|] eqn:E.
  - destruct (take_macid_in id (t_ring_list (sx_tx i))) as (t & l' & -> & El); [rewrite Hr; apply elem_ids; eauto|]. cbn.
    rewrite El in Hr. rewrite <- (map_to_list_delete M id x E) in Hr. cbn in Hr. by apply Permutation_cons_inv in Hr.
  - pose proof (take_macid_out id (t_ring_list (sx_tx i))) as Ho. destruct (take_macid id (t_ring_list (sx_tx i))) as [o l'].
    cbn in Ho. rewrite Ho; [|rewrite Hr, elem_ids, E; by apply is_Some_None]. cbn. by rewrite delete_id.
Qed.

Lemma reg_rings i M mid band wmm port x : rings_ok i M -> M !! mid = None ->
  rings_ok (set_sx_tx (snd (phl_register_tx_ring true mid band wmm port (sx_tx i))) i) (<[mid := x]> M).
Proof. unfold rings_ok. cbn. intros Hr E. rewrite fmap_app, Hr, map_to_list_insert by done. cbn. solve_Permutation. Qed.
End stations.
