(* ===== verification/StaOps.v ===== *)
(** * Stations: every operation keeps the invariant *)

From stdpp Require Import gmap relations.
From S2P Require Import Prelude PhlQueue PhlDef RxReorder RxRing TxRing StaInfo StaInv.

Lemma alter_same {A} (f : A -> A) (l : list A) k : (forall x, l !! k = Some x -> f x = x) -> alter f k l = l.
Proof. intros Hf. rewrite (list_alter_ext f id l l k); [by apply list_alter_id|exact Hf|done]. Qed.

Lemma alter_alter a b k (l : list rtw_wifi_role_t) : alter (set_assoc a) k (alter (set_assoc b) k l) = alter (set_assoc a) k l.
Proof. revert k. induction l as [|w l IH]; intros [|k]; cbn; try done. f_equal. apply IH. Qed.

Section ops.
Context {H : Type}.
Implicit Types (i j : sta_info H) (M : gmap Z (nat * nat)).

(** ** Changes the invariant does not see *)

Record mild i j : Prop := {
  mi_mc : mc j = mc i; mi_free : free_sta_queue j = free_sta_queue i; mi_roles : wroles j = wroles i;
  mi_tx : sx_tx j = sx_tx i; mi_ub : sx_ub j = sx_ub i; mi_len : length (sta_buf j) = length (sta_buf i);
  mi_sta : forall k s, sta_buf i !! k = Some s ->
    exists s', sta_buf j !! k = Some s' /\ macid s' = macid s /\ st_wrole s' = st_wrole s }.

Lemma mild_refl i : mild i i.
Proof. split; eauto. Qed.

Lemma mild_trans i1 i2 i3 : mild i1 i2 -> mild i2 i3 -> mild i1 i3.
Proof.
  intros [A1 A2 A3 A4 A5 A6 A7] [B1 B2 B3 B4 B5 B6 B7]. split; try congruence. intros k s Es.
  destruct (A7 k s Es) as (s1 & E1 & ? & ?). destruct (B7 k s1 E1) as (s2 & E2 & ? & ?). exists s2. split_and!; congruence.
Qed.

Lemma mild_sta k f i : (forall s, macid (f s) = macid s /\ st_wrole (f s) = st_wrole s) -> mild i (upd_sta k f i).
Proof.
  intros Hf. split; cbn; try done; [by rewrite length_alter|]. intros k' s Es. destruct (decide (k' = k)) as [->|Hne].
  - rewrite list_lookup_alter_eq, Es. cbn. exists (f s). destruct (Hf s). done.
  - rewrite list_lookup_alter_ne by done. by exists s.
Qed.

Lemma mild_ok X Y i j M : mild i j -> sta_ok X Y i M -> sta_ok X Y j M.
Proof. intros [] Hok. by eapply ok_ext. Qed.

Lemma mild_rings i j M : mild i j -> rings_ok i M -> rings_ok j M.
Proof. intros [] Hr. unfold rings_ok. by rewrite mi_tx0. Qed.

Lemma mild_members i j : mild i j -> members j = members i.
Proof. intros []. unfold members. by rewrite mi_roles0. Qed.

Lemma mild_self w k i : mild i (snd (_phl_self_stainfo_chk w k i)).
Proof. unfold _phl_self_stainfo_chk. destruct (wr_type w); cbn; try apply mild_refl; by apply mild_sta. Qed.

Lemma mild_notify w r st i : mild i (ap_client_notify w r st i).
Proof. unfold ap_client_notify. destruct (ap_like _); [|apply mild_refl]. split; try done. eauto. Qed.

Lemma mild_free_hw k i : mild i (snd (phl_free_stainfo_hw k i)).
Proof. unfold phl_free_stainfo_hw, hal_answer. cbn [snd]. eapply mild_trans; [by apply (mild_sta k (set_active false))|]. split; try done. eauto. Qed.

Lemma mild_alloc_hw k i : mild i (snd (phl_alloc_stainfo_hw k i)).
Proof.
  unfold phl_alloc_stainfo_hw, hal_answer. assert (mild i (set_sx_hal (tail (sx_hal i)) i)) as Hm by (split; try done; eauto).
  destruct (default _ _); cbn [snd]; [|done]. eapply mild_trans; [exact Hm|]. by apply mild_sta.
Qed.

Lemma mild_free_rx k i : mild i (free_rx k i).
Proof.
  unfold free_rx. destruct (sta_buf i !! k) as [s|]; [|apply mild_refl]. destruct (phl_free_rx_reorder (st_rx s)) as [rx l].
  eapply mild_trans; [by apply (mild_sta k (set_rx rx))|]. split; try done. eauto.
Qed.

(** ** Freeing *)

Lemma free_sw_ok X i M r k s : sta_ok (k :: X) [(r, k)] i M -> rings_ok i M -> sta_buf i !! k = Some s ->
  let j := snd (phl_free_stainfo_sw k i) in
  sta_ok (k :: X) [] j (delete (macid s) M) /\ rings_ok j (delete (macid s) M) /\ wroles j = wroles i.
Proof.
  intros Hok Hr Es. unfold phl_free_stainfo_sw. pose proof (mild_free_rx k i) as Hm. set (i1 := free_rx k i) in *.
  destruct (mi_sta _ _ Hm _ _ Es) as (s1 & Es1 & Em & _). rewrite Es1. cbn [from_option].
  set (i2 := set_sx_tx _ i1). assert (sta_ok (k :: X) [(r, k)] i2 M) as Hok2.
  { eapply ok_ext; [exact (mild_ok _ _ _ _ _ Hm Hok)|..]; try done. eauto. }
  assert (rings_ok i2 (delete (macid s1) M)) as Hr2 by (apply dereg_rings; by eapply mild_rings).
  destruct (ok_release X i2 M r k s1 Hok2 Es1) as (H1 & H2 & H3 & _). rewrite <- Em. split_and!; [done| |].
  - unfold rings_ok. by rewrite H2.
  - rewrite H3. apply Hm.
Qed.

Lemma role_of_member X Y i M r k : sta_ok X Y i M -> (r, k) ∈ members i -> exists s w,
  sta_buf i !! k = Some s /\ wroles i !! r = Some w /\ k ∈ q_queue (assoc_sta_queue w) /\ pq_wf (assoc_sta_queue w) /\ role_of k i = Some (r, w) /\
  (M !! macid s = Some (r, k) \/ macid s = max_num (mc i)).
Proof.
  intros Hok Hm. destruct (so_mem _ _ _ _ Hok r k) as (s & Es & Er & Hd); [apply elem_of_app; by left|].
  apply elem_members in Hm as (w & Ew & Hk). exists s, w. pose proof (so_assoc _ _ _ _ Hok) as Ha. rewrite Forall_lookup in Ha.
  split_and!; eauto. unfold role_of. rewrite Es. cbn. rewrite Er. cbn. by rewrite Ew.
Qed.

(** Freeing a station: it stands for its role and stays, or its identifier, its
    rings and its place in the queue are released. *)
Lemma free_stainfo_sw_ok i M r k s : sta_ok [] [] i M -> rings_ok i M -> (r, k) ∈ members i -> sta_buf i !! k = Some s ->
  let j := snd (__phl_free_stainfo_sw k i) in
  (sta_ok [] [] j M /\ rings_ok j M /\ members j = members i) \/
  (sta_ok [] [] j (delete (macid s) M) /\ rings_ok j (delete (macid s) M) /\ members i ≡ₚ (r, k) :: members j).
Proof.
  intros Hok Hr Hm Es. destruct (role_of_member _ _ _ _ _ _ Hok Hm) as (s' & w & Es' & Ew & Hk & Hq & Ero & _). simplify_eq.
  unfold __phl_free_stainfo_sw. rewrite Ero.
  set (c := if is_bmc k i then (false, i) else _phl_self_stainfo_chk w k i).
  assert (mild i (snd c)) as Hc by (unfold c; destruct (is_bmc k i); [apply mild_refl|apply mild_self]).
  destruct c as [self i1]. cbn [snd] in Hc. destruct self.
  { left. cbn [snd]. split_and!; [by eapply mild_ok|by eapply mild_rings|by apply mild_members]. }
  right. destruct (queue_del_spec _ _ Hq Hk) as (D1 & D2 & D3).
  destruct (phl_stainfo_queue_del (assoc_sta_queue w) k) as [linked q]. cbn [fst snd] in D1, D2, D3. subst linked. cbn [negb].
  apply (mild_ok _ _ _ _ _ Hc) in Hok. apply (mild_rings _ _ _ Hc) in Hr. destruct (mi_sta _ _ Hc _ _ Es) as (s1 & Es1 & Em & _).
  set (i2 := set_sx_ub _ i1). assert (mild i1 i2) as Hc2.
  { split; try done; [|eauto]. unfold i2. cbn. by rewrite orb_false_r. }
  apply (mild_ok _ _ _ _ _ Hc2) in Hok. assert (wroles i2 !! r = Some w) as Ew2 by (unfold i2; cbn; by rewrite (mi_roles _ _ Hc)).
  pose proof (ok_leave [] [] i2 M r k w q Hok Ew2 D2 D3) as Hl. set (i3 := upd_role r (set_assoc q) i2) in *.
  destruct (free_sw_ok [] i3 M r k s1 Hl Hr Es1) as (F1 & F2 & F3). set (i4 := snd (phl_free_stainfo_sw k i3)) in *.
  apply ok_push_free in F1. pose proof (mild_notify w r MLME_NO_LINK (push_free k i4)) as Hn. cbn [snd]. rewrite <- Em.
  split_and!; [by eapply mild_ok|by eapply mild_rings|].
  rewrite (mild_members _ _ Hn). unfold members at 2. change (wroles (push_free k i4)) with (wroles i4). rewrite F3. fold (members i3).
  rewrite <- (mild_members _ _ Hc). change (members i1) with (members i2).
  destruct (members_split i2 r w Ew2) as (A & B & E1 & E2). unfold i3. rewrite E1, E2. cbn. rewrite D2. cbn. solve_Permutation.
Qed.

(** ** All stations of a role *)

(** The identifiers of role [r] are gone. *)
Definition without (r : nat) M : gmap Z (nat * nat) := filter (fun x => fst (snd x) <> r) M.

Definition others (r : nat) (l : list (nat * nat)) : list (nat * nat) := filter (fun x => fst x <> r) l.

Lemma without_empty r X Y i M w : sta_ok X Y i M -> wroles i !! r = Some w -> q_queue (assoc_sta_queue w) = [] -> (forall k, (r, k) ∉ Y) ->
  without r M = M.
Proof.
  intros Hok Ew Eq HY. unfold without. apply map_filter_id. intros id [r' k] HM. cbn. intros ->.
  destruct (so_own _ _ _ _ Hok _ _ _ HM) as [Hk _]. apply elem_of_app in Hk as [Hk|Hk]; [|by eapply HY].
  apply elem_members in Hk as (w' & Ew' & Hk). simplify_eq. rewrite Eq in Hk. by apply elem_of_nil in Hk.
Qed.

Lemma without_delete r M id k : M !! id = Some (r, k) \/ M !! id = None -> without r (delete id M) = without r M.
Proof.
  intros Hd. unfold without. apply map_eq. intros id'. destruct (decide (id' = id)) as [->|Hne].
  - transitivity (@None (nat * nat)).
    + apply map_lookup_filter_None. left. apply lookup_delete_eq.
    + symmetry. apply map_lookup_filter_None. destruct Hd as [Hd|Hd]; [right|by left]. intros x Hx. rewrite Hd in Hx. injection Hx as <-. cbn. auto.
  - by rewrite map_filter_delete, lookup_delete_ne.
Qed.

Lemma free_role_ok hw fuel r i M w : sta_ok [] [] i M -> rings_ok i M -> wroles i !! r = Some w ->
  (length (q_queue (assoc_sta_queue w)) < fuel)%nat ->
  let j := free_role_loop hw fuel r i in
  sta_ok [] [] j (without r M) /\ rings_ok j (without r M) /\ wroles j = alter (set_assoc (mkQueue [] 0)) r (wroles i).
Proof.
  revert i M w. induction fuel as [|fuel IH]; intros i M w Hok Hr Ew Hf; [lia|]. cbn [free_role_loop]. rewrite Ew.
  pose proof (so_assoc _ _ _ _ Hok) as Ha. rewrite Forall_lookup in Ha. pose proof (Ha _ _ Ew) as Hq.
  destruct (phl_stainfo_dequeue (assoc_sta_queue w)) as [[k|] q] eqn:Ed.
  2: { unfold phl_stainfo_dequeue in Ed. destruct (q_queue (assoc_sta_queue w)) eqn:Eq; [|done].
    rewrite (without_empty r [] [] i M w) by (done || (intros k; by apply not_elem_of_nil)). split_and!; [done|done|]. symmetry. apply alter_same. intros w' Ew'. simplify_eq.
    unfold pq_wf in Hq. destruct w as [? ? ? ? ? [l c]]. cbn in *. by subst. }
  destruct (dequeue_spec _ _ _ Hq Ed) as [Eq Hq']. rewrite Eq in Hf. cbn in Hf.
  pose proof (ok_leave [] [] i M r k w q Hok Ew ltac:(by rewrite Eq) Hq') as Hl. set (i1 := upd_role r (set_assoc q) i) in *.
  set (i2 := if hw then _ else i1). assert (mild i1 i2) as Hm by (unfold i2; destruct hw; [apply mild_free_hw|apply mild_refl]).
  destruct (so_mem _ _ _ _ Hl r k) as (s & Es & _ & Hd); [set_solver|].
  destruct (mi_sta _ _ Hm _ _ Es) as (s2 & Es2 & Em & _). apply (mild_ok _ _ _ _ _ Hm) in Hl.
  assert (rings_ok i2 M) as Hr2 by (eapply mild_rings; [exact Hm|done]).
  destruct (free_sw_ok [] i2 M r k s2 Hl Hr2 Es2) as (F1 & F2 & F3). set (i4 := snd (phl_free_stainfo_sw k i2)) in *.
  apply ok_push_free in F1. assert (wroles (push_free k i4) = alter (set_assoc q) r (wroles i)) as Ew4.
  { change (wroles (push_free k i4)) with (wroles i4). rewrite F3, (mi_roles _ _ Hm). done. }
  destruct (IH (push_free k i4) (delete (macid s2) M) (set_assoc q w)) as (J1 & J2 & J3); [done|done| | |].
  - by rewrite Ew4, list_lookup_alter_eq, Ew.
  - cbn. lia.
  - assert (without r (delete (macid s2) M) = without r M) as Ewo.
    { apply (without_delete r M _ k). rewrite Em. destruct Hd as [Hd|Hd]; [by left|right]. rewrite Hd. exact (max_none _ _ _ (so_ids _ _ _ _ Hok)). }
    rewrite Ewo in J1, J2. split_and!; [done|done|]. rewrite J3, Ew4. apply alter_alter.
Qed.

(** ** Allocating *)

Definition least_free M (id : Z) : Prop := M !! id = None /\ forall id', 0 <= id' < id -> is_Some (M !! id').

(** What [_phl_alloc_stainfo_sw] does to a station in no queue: no identifier is
    free; or the station gets the least free one and rings; or there is no
    memory for rings, the identifier is released, and success is reported. *)
Lemma alloc_sw_ok i M k s r w : sta_ok [k] [] i M -> rings_ok i M -> sta_buf i !! k = Some s -> st_wrole s = Some r -> wroles i !! r = Some w ->
  let '(sts, j) := _phl_alloc_stainfo_sw k i in
  wroles j = wroles i /\ max_num (mc j) = max_num (mc i) /\
  ((sts = RTW_PHL_STATUS_FAILURE /\ sta_ok [k] [] j M /\ rings_ok j M /\ forall id, 0 <= id < max_num (mc i) -> is_Some (M !! id)) \/
   (sts = RTW_PHL_STATUS_SUCCESS /\ default true (head (sx_mem i)) = true /\ exists mid, least_free M mid /\ 0 <= mid < max_num (mc i) /\
      sta_ok [k] [(r, k)] j (<[mid := (r, k)]> M) /\ rings_ok j (<[mid := (r, k)]> M) /\ macid <$> sta_buf j !! k = Some mid) \/
   (sts = RTW_PHL_STATUS_SUCCESS /\ default true (head (sx_mem i)) = false /\
      sta_ok [k] [(r, k)] j M /\ rings_ok j M /\ macid <$> sta_buf j !! k = Some (max_num (mc i)))).
Proof.
  intros Hok Hr Es Er Ew. pose proof (lookup_lt_Some _ _ _ Ew) as Hlt. unfold _phl_alloc_stainfo_sw.
  destruct (ok_alloc_id [] i M k s r Hok Es Er Hlt) as [[-> Hall]|(mid & -> & Hmid & Hn & Hall & Hok')].
  - rewrite bool_decide_eq_false_2 by done. cbn [negb]. split; [done|]. split; [done|]. left. split_and!; try done.
    apply ok_upd_held; [done|by apply not_elem_of_nil].
  - rewrite bool_decide_eq_true_2 by done. cbn [negb]. set (j1 := upd_sta k _ _) in *.
    assert (sta_buf j1 !! k = Some (set_macid mid s)) as Es1 by (unfold j1; cbn; by rewrite list_lookup_alter_eq, Es).
    assert (role_of k j1 = Some (r, w)) as Ero by (unfold role_of; rewrite Es1; cbn; rewrite Er; cbn; by rewrite Ew).
    rewrite Es1, Ero. unfold mem_answer. change (sx_mem j1) with (sx_mem i).
    set (j2 := set_sx_mem _ j1). assert (mild j1 j2) as Hm by (split; try done; eauto). apply (mild_ok _ _ _ _ _ Hm) in Hok'.
    assert (rings_ok j2 M) as Hr2 by done. cbn [macid set_macid]. destruct (default true (head (sx_mem i))) eqn:Emem.
    + cbn [phl_register_tx_ring]. rewrite bool_decide_eq_true_2 by done. cbn [negb]. split; [done|]. split; [done|]. right. left.
      split_and!; [done|done|]. exists mid. split_and!; try done; [lia|lia| | |].
      * eapply ok_ext; [exact Hok'|..]; try done. eauto.
      * by apply (reg_rings j2 M mid (hw_band w) (hw_wmm w) (hw_port w) (r, k)).
      * cbn. by rewrite list_lookup_alter_eq, Es.
    + cbn [phl_register_tx_ring]. rewrite bool_decide_eq_false_2 by done. cbn [negb].
      assert (sta_ok [k] [(r, k)] (set_sx_tx (sx_tx j2) j2) (<[mid := (r, k)]> M)) as Hok3 by (eapply ok_ext; [exact Hok'|..]; try done; eauto).
      destruct (ok_release [] _ _ r k (set_macid mid s) Hok3 Es1) as (H1 & H2 & H3 & H4 & H5).
      set (j3 := snd (_phl_release_macid k (set_sx_tx (sx_tx j2) j2))) in *. cbn [macid set_macid] in H1. rewrite delete_insert_id in H1 by done.
      split; [by rewrite H3|]. split; [by rewrite H4|]. right. right. split_and!; [done|done| | |].
      * eapply ok_invalid; [exact H1|exact H5|done|by rewrite H4].
      * unfold rings_ok. rewrite H2. done.
      * rewrite H5. done.
Qed.

(** A station found by its address is a station of some role. *)
Lemma by_addr_member addr r i M w k : sta_ok [] [] i M -> wroles i !! r = Some w -> rtw_phl_get_stainfo_by_addr r w addr i = Some k ->
  exists r', (r', k) ∈ members i.
Proof.
  intros Hok Ew E. unfold rtw_phl_get_stainfo_by_addr in E. pose proof (so_ids _ _ _ _ Hok) as Hid. destruct (is_broadcast_mac_addr addr).
  - destruct (Z.leb_spec (max_num (mc i)) (nth r (wrole_bmc (mc i)) 0)); [done|].
    rewrite (ir_sta _ _ _ Hid) in E.
    + apply fmap_Some_1 in E as ([r' k'] & HM & ->). exists r'. destruct (so_own _ _ _ _ Hok _ _ _ HM) as [Hk _]. by rewrite app_nil_r in Hk.
    + split; [|done]. pose proof (ir_bmc _ _ _ Hid) as Hb. rewrite nth_lookup. destruct (wrole_bmc (mc i) !! r) eqn:El; [|done].
      rewrite Forall_lookup in Hb. by eapply Hb.
  - exists r. apply elem_members. exists w. split; [done|]. unfold phl_stainfo_queue_search in E. apply find_some in E as [E _]. by apply list_elem_of_In.
Qed.

(** The four outcomes of an allocation. *)
Lemma alloc_sta_ok addr r i M w : sta_ok [] [] i M -> rings_ok i M -> wroles i !! r = Some w ->
  let '(o, j) := phl_alloc_stainfo_sw addr r i in
  exists M', sta_ok [] [] j M' /\ rings_ok j M' /\
  ((exists k, o = Some k /\ M' = M /\ members j = members i /\ exists r', (r', k) ∈ members i) \/
   (o = None /\ M' = M /\ members j = members i /\
      (q_queue (free_sta_queue i) = [] \/ forall id, 0 <= id < max_num (mc i) -> is_Some (M !! id))) \/
   (exists k q mid, o = Some k /\ q_queue (free_sta_queue i) = k :: q /\ default true (head (sx_mem i)) = true /\
      least_free M mid /\ 0 <= mid < max_num (mc i) /\ M' = <[mid := (r, k)]> M /\ members j ≡ₚ (r, k) :: members i /\
      macid <$> sta_buf j !! k = Some mid) \/
   (exists k q, o = Some k /\ q_queue (free_sta_queue i) = k :: q /\ default true (head (sx_mem i)) = false /\
      M' = M /\ members j ≡ₚ (r, k) :: members i /\ macid <$> sta_buf j !! k = Some (max_num (mc i)))).
Proof.
  intros Hok Hr Ew. unfold phl_alloc_stainfo_sw. rewrite Ew. cbn zeta.
  destruct (if _ && _ then _ else None) as [k|] eqn:Eself.
  { exists M. pose proof (mild_sta k (set_mac_addr addr) i ltac:(done)) as Hm. split_and!; [by eapply mild_ok|by eapply mild_rings|].
    left. exists k. split_and!; try done. exists r. apply elem_members. exists w. split; [done|]. destruct (_ && _); [|done].
    by apply head_Some_elem_of in Eself. }
  destruct (rtw_phl_get_stainfo_by_addr r w addr i) as [k|] eqn:Eaddr.
  { exists M. split_and!; [done|done|]. left. exists k. split_and!; try done. by eapply by_addr_member. }
  destruct (phl_stainfo_dequeue (free_sta_queue i)) as [[k|] q] eqn:Ed.
  2: { exists M. split_and!; [done|done|]. right. left. split_and!; try done. left. unfold phl_stainfo_dequeue in Ed. by destruct (q_queue (free_sta_queue i)). }
  destruct (dequeue_spec _ _ _ (so_free _ _ _ _ Hok) Ed) as [Eq _].
  pose proof (ok_take_free _ _ _ _ _ _ Hok Ed) as Hok1. set (i1 := set_free_q q i) in *.
  destruct (held_out _ _ _ _ _ Hok1) as (_ & _ & Hlt). destruct (lookup_lt_is_Some_2 _ _ Hlt) as [s Es].
  apply (ok_upd_held _ _ _ _ k (fun s => set_wrole (Some r) (set_mac_addr addr s))) in Hok1; [|by apply not_elem_of_nil].
  set (i2 := upd_sta k _ i1) in *. assert (sta_buf i2 !! k = Some (set_wrole (Some r) (set_mac_addr addr s))) as Es2.
  { unfold i2, upd_sta. cbn. cbn in Es. by rewrite list_lookup_alter_eq, Es. }
  pose proof (alloc_sw_ok i2 M k _ r w Hok1 Hr Es2 eq_refl Ew) as Ha. destruct (_phl_alloc_stainfo_sw k i2) as [sts j].
  destruct Ha as (Ewj & Emx & [(-> & H1 & H2 & H3)|Hsucc]).
  { rewrite bool_decide_eq_false_2 by done. cbn [negb]. exists M. split_and!; [by apply ok_push_free|done|]. right. left. split_and!; try done.
    - unfold members. change (wroles (push_free k j)) with (wroles j). by rewrite Ewj.
    - by right. }
  assert (exists M', sts = RTW_PHL_STATUS_SUCCESS /\ sta_ok [k] [(r, k)] j M' /\ rings_ok j M' /\
    ((exists mid, default true (head (sx_mem i)) = true /\ least_free M mid /\ 0 <= mid < max_num (mc i) /\ M' = <[mid := (r, k)]> M /\ macid <$> sta_buf j !! k = Some mid) \/
     (default true (head (sx_mem i)) = false /\ M' = M /\ macid <$> sta_buf j !! k = Some (max_num (mc i))))) as (M' & -> & H1 & H2 & H3).
  { destruct Hsucc as [(E & Hmem & mid & Hl & Hb & H1 & H2 & H3)|(E & Hmem & H1 & H2 & H3)].
    - exists (<[mid := (r, k)]> M). split_and!; try done. left. exists mid. done.
    - exists M. split_and!; try done. by right. }
  rewrite bool_decide_eq_true_2 by done. cbn [negb]. change (wroles i2) with (wroles i) in Ewj. rewrite <- Ewj in Ew. pose proof (ok_enter [] [] j M' r k w H1 Ew) as Hin.
  destruct (members_split j r w Ew) as (A & B & Em & Eu).
  set (f := fun w => set_assoc (phl_stainfo_enqueue (assoc_sta_queue w) k) w) in *. set (j1 := upd_role r f j) in *.
  assert (members j1 ≡ₚ (r, k) :: members i) as Ep.
  { replace (members i) with (members j) by (unfold members; by rewrite Ewj). unfold j1. rewrite Eu, Em. unfold f. cbn. rewrite fmap_app. cbn. solve_Permutation. }
  pose proof (mild_self w k j1) as Hm. destruct (_phl_self_stainfo_chk w k j1) as [self j2]. cbn [snd] in Hm.
  set (j3 := if self then j2 else _). assert (mild j1 j3) as Hm3.
  { unfold j3. destruct self; [done|]. eapply mild_trans; [done|apply mild_notify]. }
  exists M'. split_and!; [by eapply mild_ok|by eapply mild_rings|]. right. right.
  assert (forall id, macid <$> sta_buf j !! k = Some id -> macid <$> sta_buf j3 !! k = Some id) as Hid.
  { intros id (s1 & Es1 & ->)%fmap_Some_1. destruct (mi_sta _ _ Hm3 k s1 Es1) as (s3 & -> & E3 & _). cbn. by rewrite E3. }
  rewrite <- (mild_members _ _ Hm3) in Ep. destruct H3 as [(mid & Hmem & Hl & Hb & -> & H3)|(Hmem & -> & H3)].
  - left. exists k, (q_queue q), mid. split_and!; try done; try apply Hb; try apply Hl. by apply Hid.
  - right. exists k, (q_queue q). split_and!; try done. by apply Hid.
Qed.
End ops.
