(* ===== verification/StaThm.v ===== *)
(** * What holds of stations and identifiers *)

From stdpp Require Import gmap relations.
From S2P Require Import Prelude PhlQueue PhlDef RxReorder RxRing TxRing StaInfo StaInv StaOps.

(** ** Reachable states *)

Section reach.
Context {H : Type}.
Implicit Types (i j : sta_info H).

(** Stations are allocated for existing roles and freed while they are
    stations of a role; addresses change when a link comes up; the transmit
    path does not change which identifiers have rings. *)
Inductive sta_step : sta_info H -> sta_info H -> Prop :=
| SAlloc addr r i : (r < length (wroles i))%nat -> sta_step i (snd (__phl_alloc_stainfo addr r i))
| SAllocHw r k i : (r, k) ∈ members i -> sta_step i (snd (phl_alloc_stainfo_hw k i))
| SFree r k i : (r, k) ∈ members i -> sta_step i (snd (__phl_free_stainfo k i))
| SFreeSw r k i : (r, k) ∈ members i -> sta_step i (snd (__phl_free_stainfo_sw k i))
| SFreeHw r k i : (r, k) ∈ members i -> sta_step i (snd (__phl_free_stainfo_hw k i))
| SRole r i : (r < length (wroles i))%nat -> sta_step i (phl_wifi_role_free_stainfo r i)
| SRoleSw r i : (r < length (wroles i))%nat -> sta_step i (phl_wifi_role_free_stainfo_sw r i)
| SRoleHw r i : sta_step i (phl_wifi_role_free_stainfo_hw r i)
| SAddr k addr i : sta_step i (upd_sta k (set_mac_addr addr) i)
| STx tx i : tl_macid <$> t_ring_list tx = tl_macid <$> t_ring_list (sx_tx i) -> sta_step i (set_sx_tx tx i)
| SEnv hal mem i : sta_step i (set_sx_mem mem (set_sx_hal hal i)).

Definition sta_start (macid_num : Z) (roles : list rtw_wifi_role_t) (tx : tx_info H) (hal mem : list bool) : sta_info H :=
  snd (phl_macid_ctrl_init macid_num (phl_stainfo_ctrl_init roles tx hal mem)).

Lemma enqueue_all l q : q_queue (foldl phl_stainfo_enqueue q l) = q_queue q ++ l /\ (pq_wf q -> pq_wf (foldl phl_stainfo_enqueue q l)).
Proof.
  revert q. induction l as [|x l IH]; intros q; cbn [foldl]; [by rewrite app_nil_r|].
  destruct (IH (phl_stainfo_enqueue q x)) as [-> Hw]. split; [cbn; by rewrite <- app_assoc|]. intros Hq. apply Hw.
  unfold pq_wf in *. cbn. rewrite length_app. cbn. lia.
Qed.

Lemma replicate_word n k : nth k (replicate n 0) 0 = 0.
Proof. rewrite nth_lookup. destruct (replicate n 0 !! k) eqn:E; [|done]. by apply lookup_replicate in E as [-> _]. Qed.

Lemma unused0 n id : _phl_macid_is_used (replicate n 0) id = false.
Proof. rewrite is_used_testbit, replicate_word. apply Z.testbit_0_l. Qed.

Lemma members_none ws : Forall (fun w => assoc_sta_queue w = pq_init) ws -> members_of ws = [].
Proof.
  intros Hw. unfold members_of. assert (Forall (eq []) (imap (fun r w => pair r <$> q_queue (assoc_sta_queue w)) ws)) as Hn.
  { apply Forall_lookup. intros r l (w & Ew & ->)%list_lookup_imap_Some. rewrite Forall_lookup in Hw. by rewrite (Hw _ _ Ew). }
  by induction Hn as [|? ? <- _ IH].
Qed.

Lemma start_inv n roles tx hal mem : 0 < n -> Forall (fun w => assoc_sta_queue w = pq_init) roles -> t_ring_list tx = [] ->
  sta_inv (sta_start n roles tx hal mem).
Proof.
  intros Hn Hw Ht. exists ∅. unfold sta_start, phl_macid_ctrl_init. replace (n =? 0) with false by lia. cbn [snd].
  set (i := phl_stainfo_ctrl_init roles tx hal mem). destruct (enqueue_all (seq 0 PHL_MAX_STA_NUM) pq_init) as [Eq Hq].
  split.
  - split; cbn [wroles mc free_sta_queue sta_buf sx_ub set_mc]; try done.
    + split; cbn; try done.
      * unfold PHL_MACID_MAX_NUM, PHL_MACID_MAX_ARRAY_NUM. lia.
      * split; [by rewrite length_replicate|]. by apply Forall_replicate.
      * apply Forall_map, Forall_replicate. unfold PHL_MACID_MAX_NUM, PHL_MACID_MAX_ARRAY_NUM. lia.
      * intros id _. apply (unused0 PHL_MACID_MAX_ARRAY_NUM).
      * intros r map id Hr _. apply lookup_replicate in Hr as [-> _]. apply (unused0 PHL_MACID_MAX_ARRAY_NUM).
      * intros id _. change (replicate 256 None) with (replicate (Z.to_nat PHL_MACID_MAX_NUM) (@None nat)).
        destruct (replicate (Z.to_nat PHL_MACID_MAX_NUM) (@None nat) !! Z.to_nat id) as [o|] eqn:E; [|done]. by apply lookup_replicate in E as [-> _].
    + unfold members. cbn [wroles set_mc i phl_stainfo_ctrl_init]. rewrite members_none by done. cbn [fmap list_fmap app].
      rewrite app_nil_r. cbn [free_sta_queue i phl_stainfo_ctrl_init]. rewrite Eq. reflexivity.
    + eapply Forall_impl; [exact Hw|]. intros w E. cbn. by rewrite E.
    + intros r k Hk. unfold members in Hk. cbn [wroles set_mc i phl_stainfo_ctrl_init] in Hk. rewrite members_none in Hk by done. by apply elem_of_nil in Hk.
  - unfold rings_ok. cbn. by rewrite Ht.
Qed.

Lemma free_hw_mild fuel mid r i : mild i (free_hw_ids fuel mid r i).
Proof.
  revert mid i. induction fuel as [|fuel IH]; intros mid i; [apply mild_refl|]. cbn [free_hw_ids]. destruct (mid <? _); [|apply mild_refl].
  eapply mild_trans; [|apply IH]. destruct (_phl_macid_is_used _ _); [|apply mild_refl]. destruct (mjoin _); [apply mild_free_hw|apply mild_refl].
Qed.

Lemma mild_inv i j : mild i j -> sta_inv i -> sta_inv j.
Proof. intros Hm (M & H1 & H2). exists M. split; [by eapply mild_ok|by eapply mild_rings]. Qed.

Lemma free_sw_inv r k i : (r, k) ∈ members i -> sta_inv i -> sta_inv (snd (__phl_free_stainfo_sw k i)).
Proof.
  intros Hm (M & H1 & H2). destruct (role_of_member _ _ _ _ _ _ H1 Hm) as (s & _ & Es & _).
  destruct (free_stainfo_sw_ok i M r k s H1 H2 Hm Es) as [(? & ? & _)|(? & ? & _)]; eexists; eauto.
Qed.

Lemma free_hw_sw_mild r k i : sta_inv i -> (r, k) ∈ members i -> mild i (snd (__phl_free_stainfo_hw k i)).
Proof.
  intros (M & H1 & _) Hm. destruct (role_of_member _ _ _ _ _ _ H1 Hm) as (s & w & _ & _ & _ & _ & Ero & _).
  unfold __phl_free_stainfo_hw. rewrite Ero. set (c := if is_bmc k i then (false, i) else _phl_self_stainfo_chk w k i).
  assert (mild i (snd c)) as Hc by (unfold c; destruct (is_bmc k i); [apply mild_refl|apply mild_self]).
  destruct c as [[] i1]; [done|]. eapply mild_trans; [exact Hc|]. apply mild_free_hw.
Qed.

Lemma role_inv hw r i : (r < length (wroles i))%nat -> sta_inv i -> sta_inv (free_role_loop hw (role_fuel r i) r i).
Proof.
  intros Hr (M & H1 & H2). destruct (lookup_lt_is_Some_2 _ _ Hr) as [w Ew].
  destruct (free_role_ok hw (role_fuel r i) r i M w H1 H2 Ew) as (? & ? & _); [unfold role_fuel; rewrite Ew; cbn; lia|]. by eexists.
Qed.

Lemma alloc_sta_inv addr r i : (r < length (wroles i))%nat -> sta_inv i ->
  let '(o, j) := phl_alloc_stainfo_sw addr r i in sta_inv j /\ (forall k, o = Some k -> exists r', (r', k) ∈ members j).
Proof.
  intros Hr (M & H1 & H2). destruct (lookup_lt_is_Some_2 _ _ Hr) as [w Ew]. pose proof (alloc_sta_ok addr r i M w H1 H2 Ew) as Ha.
  destruct (phl_alloc_stainfo_sw addr r i) as [o j]. destruct Ha as (M' & J1 & J2 & Hc). split; [by eexists|]. intros k ->.
  destruct Hc as [(k' & [= <-] & _ & -> & ?)|[(? & _)|[(k' & q & mid & [= <-] & _ & _ & _ & _ & _ & Ep & _)|(k' & q & [= <-] & _ & _ & _ & Ep & _)]]];
    try done; exists r; rewrite Ep; by left.
Qed.

Lemma sta_step_inv i j : sta_step i j -> sta_inv i -> sta_inv j.
Proof.
  destruct 1 as [addr r i Hr|r k i Hm|r k i Hm|r k i Hm|r k i Hm|r i Hr|r i Hr|r i|k addr i|tx i Ht|hal mem i]; intros Hi.
  - unfold __phl_alloc_stainfo. pose proof (alloc_sta_inv addr r i Hr Hi) as Ha. destruct (phl_alloc_stainfo_sw addr r i) as [[k|] j]; destruct Ha as [Hj Hk]; [|done].
    destruct (from_option _ _ _); [done|]. pose proof (mild_alloc_hw k j) as Hm. destruct (phl_alloc_stainfo_hw k j) as [sts j1]. cbn [snd] in Hm.
    apply (mild_inv _ _ Hm) in Hj. destruct (negb _); [|done]. cbn [snd]. destruct (Hk k eq_refl) as [r' Hr'].
    apply (free_sw_inv r'); [by rewrite (mild_members _ _ Hm)|done].
  - eapply mild_inv; [apply mild_alloc_hw|done].
  - pose proof (free_hw_sw_mild r k i Hi Hm) as Hh. unfold __phl_free_stainfo. apply (free_sw_inv r); [by rewrite (mild_members _ _ Hh)|by eapply mild_inv].
  - by apply (free_sw_inv r).
  - eapply mild_inv; [by eapply free_hw_sw_mild|done].
  - by apply role_inv.
  - by apply role_inv.
  - eapply mild_inv; [apply free_hw_mild|done].
  - eapply mild_inv; [by apply mild_sta|done].
  - destruct Hi as (M & H1 & H2). exists M. split; [eapply ok_ext; [exact H1|..]; try done; eauto|]. unfold rings_ok in *. cbn. by rewrite Ht.
  - eapply mild_inv; [|done]. split; try done. eauto.
Qed.

Lemma sta_reach_inv n roles tx hal mem i : 0 < n -> Forall (fun w => assoc_sta_queue w = pq_init) roles -> t_ring_list tx = [] ->
  rtc sta_step (sta_start n roles tx hal mem) i -> sta_inv i.
Proof. intros Hn Hw Ht Hs. pose proof (start_inv n roles tx hal mem Hn Hw Ht) as Hi. induction Hs; eauto using sta_step_inv. Qed.

(** ** Identifiers *)

(** Looking an identifier up, in terms of the map. *)
Lemma lookup_id X Y i M id : sta_ok X Y i M -> 0 <= id -> rtw_phl_get_stainfo_by_macid id i = snd <$> M !! id.
Proof.
  intros Hok Hid. pose proof (so_ids _ _ _ _ Hok) as Hr. unfold rtw_phl_get_stainfo_by_macid.
  destruct (Z.leb_spec (max_num (mc i)) id).
  - destruct (M !! id) eqn:E; [|done]. apply (ir_dom _ _ _ Hr) in E. lia.
  - rewrite (ir_used _ _ _ Hr), (ir_sta _ _ _ Hr) by lia. case_bool_decide as Hs; [done|]. apply eq_None_not_Some in Hs. by rewrite Hs.
Qed.

Lemma used_id X Y i M id : sta_ok X Y i M -> 0 <= id < max_num (mc i) -> rtw_phl_macid_is_used id i = bool_decide (is_Some (M !! id)).
Proof.
  intros Hok Hid. pose proof (so_ids _ _ _ _ Hok) as Hr. unfold rtw_phl_macid_is_used. replace (max_num (mc i) <=? id) with false by lia.
  by apply (ir_used _ _ _ Hr).
Qed.

(** Who owns an identifier. *)
Lemma owner_id i M id r k : sta_ok [] [] i M -> M !! id = Some (r, k) <->
  0 <= id < max_num (mc i) /\ (r, k) ∈ members i /\ macid <$> sta_buf i !! k = Some id.
Proof.
  intros Hok. split.
  - intros HM. destruct (so_own _ _ _ _ Hok _ _ _ HM) as (Hk & s & Es & <-). rewrite app_nil_r in Hk.
    split_and!; [| |done|by rewrite Es]; by apply (ir_dom _ _ _ (so_ids _ _ _ _ Hok)) in HM as [??].
  - intros (Hid & Hm & (s & Es & ->)%fmap_Some_1). destruct (so_mem _ _ _ _ Hok r k) as (s' & Es' & _ & Hd); [by rewrite app_nil_r|]. simplify_eq.
    destruct Hd as [?|Hd]; [done|lia].
Qed.

(** The loops over the maps of the roles, when [o] is the only role with the bit. *)
Section one_role.
Context (id : Z) (o : option nat).
Definition only (n : nat) (maps : list (list Z)) : Prop :=
  forall r map, maps !! r = Some map -> _phl_macid_is_used map id = bool_decide (o = Some (n + r)%nat).

Lemma only_cons n map maps : only n (map :: maps) -> _phl_macid_is_used map id = bool_decide (o = Some n) /\ only (S n) maps.
Proof.
  intros Hm. split; [rewrite (Hm 0%nat map eq_refl); by rewrite Nat.add_0_r|]. intros r m Er. rewrite (Hm (S r) m Er).
  by replace (n + S r)%nat with (S n + r)%nat by lia.
Qed.

Lemma shared_spec n maps b : only n maps -> (b = true -> forall r, (n <= r)%nat -> o <> Some r) -> shared_loop maps id b = false.
Proof.
  revert n b. induction maps as [|map maps IH]; intros n b Hm Hb; [done|]. cbn. apply only_cons in Hm as [-> Hm].
  case_bool_decide as Ho; [destruct b; [by destruct (Hb eq_refl n (le_n n))|]|].
  - apply (IH (S n)); [done|]. intros _ r Hr. rewrite Ho. intros [= ->]. lia.
  - apply (IH (S n)); [done|]. intros Eb r Hr. apply Hb; [done|lia].
Qed.

Lemma specific_spec n r maps b : only n maps -> (b = true -> forall r', (n <= r')%nat -> o <> Some r') ->
  specific_loop maps n r id b = true <-> b = true \/ o = Some r /\ (n <= r < n + length maps)%nat.
Proof.
  revert n b. induction maps as [|map maps IH]; intros n b Hm Hb; cbn; [intuition lia|]. apply only_cons in Hm as [-> Hm].
  case_bool_decide as Ho.
  - destruct b; [by destruct (Hb eq_refl n (le_n n))|]. cbn. destruct (Nat.eqb_spec n r) as [->|Hne]; cbn.
    + rewrite (IH (S r)); [intuition lia|done|]. intros _ r' Hr'. rewrite Ho. intros [= ->]. lia.
    + split; [done|]. intros [?|[E _]]; [done|]. congruence.
  - rewrite (IH (S n)); [|done|intros Eb r' Hr'; apply Hb; [done|lia]]. split; (intros [?|[E ?]]; [by left|right]); (split; [done|]); [lia|].
    destruct (decide (r = n)) as [->|]; [done|lia].
Qed.
End one_role.

Lemma roles_only X Y i M id : sta_ok X Y i M -> 0 <= id < max_num (mc i) -> only id (fst <$> M !! id) 0 (wifi_role_usedmap (mc i)).
Proof. intros Hok Hid r map Er. by apply (ir_role _ _ _ (so_ids _ _ _ _ Hok)). Qed.

(** C12: In every reachable state no list is corrupted, each station is in the
    free queue or in one role's queue, an identifier is found exactly when a
    station of a role has it (so no two stations share one), the bitmap of
    each role has exactly the identifiers of its stations, and each identifier
    in use has exactly one list of transmit rings. *)
Theorem sta_ids_consistent n roles tx hal mem i :
  0 < n -> Forall (fun w => assoc_sta_queue w = pq_init) roles -> t_ring_list tx = [] ->
  rtc sta_step (sta_start n roles tx hal mem) i ->
  sx_ub i = false /\
  q_queue (free_sta_queue i) ++ (snd <$> members i) ≡ₚ seq 0 (length (sta_buf i)) /\
  (forall id k, 0 <= id -> rtw_phl_get_stainfo_by_macid id i = Some k <->
     id < max_num (mc i) /\ k ∈ (snd <$> members i) /\ macid <$> sta_buf i !! k = Some id) /\
  (forall id r map, 0 <= id < max_num (mc i) -> wifi_role_usedmap (mc i) !! r = Some map ->
     _phl_macid_is_used map id = true <-> exists k, (r, k) ∈ members i /\ macid <$> sta_buf i !! k = Some id) /\
  (forall id r, 0 <= id < max_num (mc i) -> rtw_phl_macid_is_wrole_shared id i = false /\
     (rtw_phl_macid_is_wrole_specific id r i = true <-> exists k, (r, k) ∈ members i /\ macid <$> sta_buf i !! k = Some id)) /\
  NoDup (tl_macid <$> t_ring_list (sx_tx i)) /\
  (forall id, 0 <= id -> id ∈ (tl_macid <$> t_ring_list (sx_tx i)) <-> is_Some (rtw_phl_get_stainfo_by_macid id i)).
Proof.
  intros Hn Hw Ht Hs. destruct (sta_reach_inv n roles tx hal mem i Hn Hw Ht Hs) as (M & Hok & Hr). pose proof Hok as [].
  rewrite app_nil_r in so_pool. split_and!; try done.
  - intros id k Hid. rewrite (lookup_id _ _ _ M) by done. split.
    + intros ([r k'] & HM & ->)%fmap_Some_1. apply (owner_id i M) in HM as (H1 & H2 & H3); [|done]. split_and!; [lia| |done].
      by apply (list_elem_of_fmap_2' snd _ _ _ H2).
    + intros (H1 & ([r k'] & -> & H2)%list_elem_of_fmap_1 & H3). cbn in H3. by rewrite (proj2 (owner_id i M id r k' Hok)) by (split_and!; done || lia).
  - intros id r map Hid Hmap. rewrite (ir_role _ _ _ so_ids _ _ _ Hmap Hid), bool_decide_eq_true. split.
    + intros ([r' k] & HM & ->)%fmap_Some_1. apply (owner_id i M) in HM as (H1 & H2 & H3); [|done]. eauto.
    + intros (k & H1 & H2). by rewrite (proj2 (owner_id i M id r k Hok)).
  - intros id r Hid. pose proof (roles_only _ _ i M id Hok Hid) as Ho. unfold rtw_phl_macid_is_wrole_shared, rtw_phl_macid_is_wrole_specific.
    replace (max_num (mc i) <=? id) with false by lia. split; [by eapply shared_spec|].
    rewrite (specific_spec id (fst <$> M !! id)) by done. split.
    + intros [?|[([r' k] & HM & ->)%fmap_Some_1 _]]; [done|]. apply (owner_id i M) in HM as (_ & H2 & H3); [|done]. eauto.
    + intros (k & H1 & H2). right. rewrite (proj2 (owner_id i M id r k Hok)) by done. split; [done|]. apply elem_members in H1 as (w & Ew & _).
      rewrite (proj1 (ir_maps _ _ _ so_ids)). split; [lia|]. by apply lookup_lt_Some in Ew.
  - rewrite Hr. apply NoDup_fst_map_to_list.
  - intros id Hid. rewrite Hr, elem_ids, (lookup_id _ _ _ M) by done. by rewrite fmap_is_Some.
Qed.

(** An allocation returns a station of a role that already exists; or
    nothing, if no station or no identifier is free; or the first free station
    with the least free identifier, now a station of the role; or, when there
    is no memory for rings, the first free station as one of the role with the
    invalid identifier; nothing else changes hands. *)
Theorem sta_alloc_outcome n roles tx hal mem i addr r :
  0 < n -> Forall (fun w => assoc_sta_queue w = pq_init) roles -> t_ring_list tx = [] ->
  rtc sta_step (sta_start n roles tx hal mem) i -> (r < length (wroles i))%nat ->
  let '(o, j) := phl_alloc_stainfo_sw addr r i in
  let same ids := forall id, 0 <= id -> id ∉ ids -> rtw_phl_get_stainfo_by_macid id j = rtw_phl_get_stainfo_by_macid id i in
  (exists k, o = Some k /\ k ∈ (snd <$> members i) /\ members j = members i /\ same []) \/
  (o = None /\ members j = members i /\ same [] /\
     (q_queue (free_sta_queue i) = [] \/ forall id, 0 <= id < max_num (mc i) -> rtw_phl_macid_is_used id i = true)) \/
  (exists k q mid, o = Some k /\ q_queue (free_sta_queue i) = k :: q /\ default true (head (sx_mem i)) = true /\
     0 <= mid < max_num (mc i) /\ rtw_phl_macid_is_used mid i = false /\
     (forall id, 0 <= id < mid -> rtw_phl_macid_is_used id i = true) /\
     members j ≡ₚ (r, k) :: members i /\ rtw_phl_get_stainfo_by_macid mid j = Some k /\ same [mid]) \/
  (exists k q, o = Some k /\ q_queue (free_sta_queue i) = k :: q /\ default true (head (sx_mem i)) = false /\
     members j ≡ₚ (r, k) :: members i /\ macid <$> sta_buf j !! k = Some (max_num (mc i)) /\ same []).
Proof.
  intros Hn Hw Ht Hs Hlt. destruct (sta_reach_inv n roles tx hal mem i Hn Hw Ht Hs) as (M & Hok & Hr).
  destruct (lookup_lt_is_Some_2 _ _ Hlt) as [w Ew]. pose proof (alloc_sta_ok addr r i M w Hok Hr Ew) as Ha.
  destruct (phl_alloc_stainfo_sw addr r i) as [o j]. destruct Ha as (M' & J1 & _ & Hc). cbn zeta.
  assert (forall id, 0 <= id -> M' !! id = M !! id -> rtw_phl_get_stainfo_by_macid id j = rtw_phl_get_stainfo_by_macid id i) as Hsame.
  { intros id Hid E. by rewrite (lookup_id _ _ _ M' id J1 Hid), (lookup_id _ _ _ M id Hok Hid), E. }
  destruct Hc as [(k & -> & -> & Em & r' & Hk)|[(-> & -> & Em & Hfull)|[(k & q & mid & -> & Eq & Hmem & [Hl1 Hl2] & Hb & -> & Ep & Eid)|(k & q & -> & Eq & Hmem & -> & Ep & Eid)]]].
  - left. exists k. split_and!; try done; [by apply (list_elem_of_fmap_2' snd _ _ _ Hk)|]. intros id Hid _. by apply Hsame.
  - right. left. split_and!; try done; [intros id Hid _; by apply Hsame|]. destruct Hfull as [?|Hfull]; [by left|right].
    intros id Hid. rewrite (used_id _ _ i M) by done. by apply bool_decide_eq_true_2, Hfull.
  - right. right. left. exists k, q, mid. split_and!; try done; try apply Hb.
    + rewrite (used_id _ _ i M) by done. apply bool_decide_eq_false_2. rewrite Hl1. by apply is_Some_None.
    + intros id Hid. rewrite (used_id _ _ i M) by (done || lia). by apply bool_decide_eq_true_2, Hl2.
    + rewrite (lookup_id _ _ _ _ mid J1) by lia. by rewrite lookup_insert_eq.
    + intros id Hid Hne. apply Hsame; [done|]. rewrite lookup_insert_ne; [done|]. set_solver.
  - right. right. right. exists k, q. split_and!; try done. intros id Hid _. by apply Hsame.
Qed.

(** Freeing a role's stations ends with its queue empty; exactly the
    identifiers of its stations are released, with their rings, every station
    of it is free again, and the other roles are untouched. *)
Theorem sta_role_freed n roles tx hal mem i r w :
  0 < n -> Forall (fun w => assoc_sta_queue w = pq_init) roles -> t_ring_list tx = [] ->
  rtc sta_step (sta_start n roles tx hal mem) i -> wroles i !! r = Some w ->
  let j := phl_wifi_role_free_stainfo r i in
  wroles j = alter (set_assoc pq_init) r (wroles i) /\
  q_queue (free_sta_queue j) ++ (snd <$> members j) ≡ₚ seq 0 (length (sta_buf j)) /\
  (forall id k, 0 <= id -> rtw_phl_get_stainfo_by_macid id j = Some k <->
     rtw_phl_get_stainfo_by_macid id i = Some k /\ k ∉ q_queue (assoc_sta_queue w)) /\
  (forall id, 0 <= id -> id ∈ (tl_macid <$> t_ring_list (sx_tx j)) <-> is_Some (rtw_phl_get_stainfo_by_macid id j)).
Proof.
  intros Hn Hw Ht Hs Ew. destruct (sta_reach_inv n roles tx hal mem i Hn Hw Ht Hs) as (M & Hok & Hr).
  destruct (free_role_ok true (role_fuel r i) r i M w Hok Hr Ew) as (J1 & J2 & J3); [unfold role_fuel; rewrite Ew; cbn; lia|].
  cbn zeta. unfold phl_wifi_role_free_stainfo. set (j := free_role_loop true (role_fuel r i) r i) in *. split_and!.
  - exact J3.
  - pose proof (so_pool _ _ _ _ J1) as Hp. by rewrite app_nil_r in Hp.
  - intros id k Hid. rewrite (lookup_id _ _ _ _ id J1 Hid), (lookup_id _ _ _ _ id Hok Hid). unfold without. split.
    + intros ([r' k'] & [HM Hne]%map_lookup_filter_Some & ->)%fmap_Some_1. cbn in *. rewrite HM. split; [done|]. intros Hk.
      apply Hne. destruct (so_own _ _ _ _ Hok _ _ _ HM) as [Hm _]. rewrite app_nil_r in Hm.
      eapply (member_unique _ _ i M); [done|exact Hm|]. apply elem_members. eauto.
    + intros [([r' k'] & HM & ->)%fmap_Some_1 Hk]. cbn in *. rewrite (proj2 (map_lookup_filter_Some _ _ _ (r', k'))); [done|]. split; [done|].
      cbn. intros ->. apply Hk. destruct (so_own _ _ _ _ Hok _ _ _ HM) as [Hm _]. rewrite app_nil_r in Hm.
      apply elem_members in Hm as (w' & Ew' & Hm). by simplify_eq.
  - intros id Hid. rewrite J2, elem_ids, (lookup_id _ _ _ _ id J1 Hid). by rewrite fmap_is_Some.
Qed.
End reach.

(** ** Runs *)

(** Two access points and four identifiers. *)
Definition ap_addr (n : Z) : list Z := [2; 0; 0; 0; 0; n].
Definition ap_role (n : Z) : rtw_wifi_role_t := mkWrole PHL_RTYPE_AP (ap_addr n) 0 0 0 pq_init.
Definition demo_tx : tx_info unit := tx_info0 tt ∅.
Definition demo_start (mem : list bool) : sta_info unit := sta_start 4 [ap_role 1; ap_role 2] demo_tx [] mem.

(** A client of the first access point, then one of the second. *)
Definition demo_a (mem : list bool) : sta_info unit := snd (__phl_alloc_stainfo (ap_addr 7) 0 (demo_start mem)).
Definition demo_b (mem : list bool) : sta_info unit := snd (__phl_alloc_stainfo (ap_addr 8) 1 (demo_a mem)).

Lemma demo_b_reach : rtc sta_step (demo_start []) (demo_b []).
Proof.
  apply (rtc_l _ _ (demo_a [])); [refine (SAlloc (ap_addr 7) 0 (demo_start []) _); vm_compute; lia|].
  apply (rtc_l _ _ (demo_b [])); [|apply rtc_refl]. refine (SAlloc (ap_addr 8) 1 (demo_a []) _). vm_compute. lia.
Qed.

Lemma demo_roles : Forall (fun w => assoc_sta_queue w = pq_init) [ap_role 1; ap_role 2].
Proof. repeat constructor. Qed.

Lemma sta_ids_consistent_witness :
  rtw_phl_get_stainfo_by_macid 1 (demo_b []) = Some 1%nat /\
  (1 < max_num (mc (demo_b [])) /\ (1%nat ∈ snd <$> members (demo_b [])) /\ macid <$> sta_buf (demo_b []) !! 1%nat = Some 1).
Proof.
  assert (rtw_phl_get_stainfo_by_macid 1 (demo_b []) = Some 1%nat) as E by (vm_compute; reflexivity). split; [exact E|].
  destruct (sta_ids_consistent 4 [ap_role 1; ap_role 2] demo_tx [] [] (demo_b []) ltac:(lia) demo_roles eq_refl demo_b_reach) as (_ & _ & Hl & _).
  apply (Hl 1 1%nat); [lia|exact E].
Defined.

Lemma demo_b_members : members (demo_b []) = [(0, 0); (1, 1)]%nat.
Proof. vm_compute. reflexivity. Qed.

Lemma sta_alloc_outcome_witness :
  exists j, phl_alloc_stainfo_sw (ap_addr 9) 0 (demo_b []) = (Some 2%nat, j) /\ members j ≡ₚ (0, 2)%nat :: members (demo_b []).
Proof.
  pose proof (sta_alloc_outcome 4 [ap_role 1; ap_role 2] demo_tx [] [] (demo_b []) (ap_addr 9) 0 ltac:(lia) demo_roles eq_refl demo_b_reach) as Ha.
  assert (fst (phl_alloc_stainfo_sw (ap_addr 9) 0 (demo_b [])) = Some 2%nat) as Eo by (vm_compute; reflexivity).
  specialize (Ha ltac:(vm_compute; lia)). destruct (phl_alloc_stainfo_sw (ap_addr 9) 0 (demo_b [])) as [o j]. cbn [fst] in Eo. subst o.
  exists j. split; [reflexivity|]. rewrite demo_b_members in *.
  destruct Ha as [(k & [= <-] & Hk & _)|[(? & _)|[(k & q & mid & [= <-] & _ & _ & _ & _ & _ & Hm & _)|(k & q & [= <-] & _ & _ & Hm & _)]]].
  - exfalso. revert Hk. cbn. rewrite !elem_of_cons, elem_of_nil. lia.
  - discriminate.
  - exact Hm.
  - exact Hm.
Defined.

Lemma sta_role_freed_witness :
  exists w, wroles (demo_b []) !! 0%nat = Some w /\
  (rtw_phl_get_stainfo_by_macid 1 (phl_wifi_role_free_stainfo 0 (demo_b [])) = Some 1%nat <->
   rtw_phl_get_stainfo_by_macid 1 (demo_b []) = Some 1%nat /\ 1%nat ∉ q_queue (assoc_sta_queue w)).
Proof.
  destruct (wroles (demo_b []) !! 0%nat) as [w|] eqn:E; [|exfalso; revert E; vm_compute; discriminate]. exists w. split; [reflexivity|].
  destruct (sta_role_freed 4 [ap_role 1; ap_role 2] demo_tx [] [] (demo_b []) 0 w ltac:(lia) demo_roles eq_refl demo_b_reach E) as (_ & _ & Hl & _).
  apply (Hl 1 1%nat). lia.
Defined.

(** Without memory for rings the first client is reported as allocated, with the
    invalid identifier and without rings. *)
Lemma alloc_success_without_rings :
  let '(o, j) := phl_alloc_stainfo_sw (ap_addr 7) 0 (demo_start [false]) in
  o = Some 0%nat /\ macid <$> sta_buf j !! 0%nat = Some (max_num (mc j)) /\ t_ring_list (sx_tx j) = [] /\ members j = [(0, 0)]%nat.
Proof. vm_compute. repeat split. Qed.

(** The first access point's broadcast station is freed, a client of the second
    gets its identifier, and is then found as the first one's broadcast
    station. *)
Definition demo_bc : sta_info unit :=
  snd (__phl_alloc_stainfo (ap_addr 8) 1 (phl_wifi_role_free_stainfo 0 (snd (__phl_alloc_stainfo bc_addr 0 (demo_start []))))).

Lemma stale_broadcast_station :
  members demo_bc = [(1, 1)]%nat /\ rtw_phl_wrole_bcmc_id_get 0 demo_bc = 0 /\ fst (phl_alloc_stainfo_sw bc_addr 0 demo_bc) = Some 1%nat.
Proof. vm_compute. repeat split. Qed.
