(* ===== verification/IeBuf.v ===== *)
(** * Byte buffers and information elements

    What the parsers of src/core/rtw_ieee80211.c stand on: a C object of bytes
    as a list, accesses that fail outside the object, the byte-order macros of
    src/include/osdep_service.h, and the encoding of a list of information
    elements (identifier, length, contents) that gives the parsers their
    meaning.

    A pointer into the object is an offset.  [NULL] is [None].  Lengths and
    offsets of an object are below 2^31, so they are added without wrap-around;
    where the code subtracts unsigned lengths the wrap-around is written out. *)

From S2P Require Import Prelude.

(** ** Results of code that reads memory *)

(** [Oob]: an access outside the object.  [Fuel]: a loop has not ended within
    the given number of turns. *)
Inductive res (A : Type) : Type :=
  | Ok (a : A)
  | Oob
  | Fuel.
Arguments Ok {A} a.
Arguments Oob {A}.
Arguments Fuel {A}.

#[export] Instance res_ret : MRet res := fun A a => Ok a.
#[export] Instance res_bind : MBind res := fun A B f m =>
  match m with Ok a => f a | Oob => Oob | Fuel => Fuel end.

Lemma bind_Ok {A B} (f : A -> res B) a : Ok a ≫= f = f a.
Proof. reflexivity. Qed.

Lemma bind_Ok_inv {A B} (m : res A) (f : A -> res B) r :
  m ≫= f = Ok r -> exists a, m = Ok a /\ f a = Ok r.
Proof. destruct m; simpl; intros H; [eauto | discriminate..]. Qed.

(** ** Accesses *)

Definition zlen {A} (l : list A) : Z := Z.of_nat (length l).

Definition rd (b : list Z) (i : Z) : res Z :=
  if i <? 0 then Oob
  else match b !! Z.to_nat i with Some x => Ok x | None => Oob end.

(** [n] bytes from [i], as [memcpy] and [memcmp] read them; nothing is read
    for [n = 0], and a negative [n] is a huge [size_t]. *)
Definition rd_n (b : list Z) (i n : Z) : res (list Z) :=
  if n =? 0 then Ok []
  else if (i <? 0) || (n <? 0) || (zlen b <? i + n) then Oob
  else Ok (take (Z.to_nat n) (drop (Z.to_nat i) b)).

Definition wr (b : list Z) (i : Z) (l : list Z) : res (list Z) :=
  if zlen l =? 0 then Ok b
  else if (i <? 0) || (zlen b <? i + zlen l) then Oob
  else Ok (take (Z.to_nat i) b ++ l ++ drop (Z.to_nat (i + zlen l)) b).

(** [_rtw_memcmp(&b[i], l, n) == _TRUE]: the bytes are equal. *)
Definition memcmp (b : list Z) (i : Z) (l : list Z) (n : Z) : res bool :=
  x ← rd_n b i n; y ← rd_n l 0 n; mret (bool_decide (x = y)).

(** ** Byte order ([RTW_GET_LE16], [RTW_GET_BE16], [RTW_GET_BE24],
    [RTW_PUT_LE16]) *)

Definition RTW_GET_LE16 (b : list Z) (a : Z) : res Z :=
  hi ← rd b (a + 1); lo ← rd b a; mret (u16 (Z.lor (Z.shiftl hi 8) lo)).

Definition RTW_GET_BE16 (b : list Z) (a : Z) : res Z :=
  hi ← rd b a; lo ← rd b (a + 1); mret (u16 (Z.lor (Z.shiftl hi 8) lo)).

Definition RTW_GET_BE24 (b : list Z) (a : Z) : res Z :=
  x0 ← rd b a; x1 ← rd b (a + 1); x2 ← rd b (a + 2);
  mret (Z.lor (Z.lor (Z.shiftl x0 16) (Z.shiftl x1 8)) x2).

Definition RTW_PUT_LE16 (b : list Z) (a v : Z) : res (list Z) :=
  b ← wr b (a + 1) [Z.shiftr (u16 v) 8]; wr b a [Z.land (u16 v) 255].

(** ** Bytes *)

Definition byte (x : Z) : Prop := 0 <= x < 256.
Definition bytes (b : list Z) : Prop := Forall byte b.

#[export] Instance byte_dec x : Decision (byte x).
Proof. unfold byte. apply _. Defined.
#[export] Instance bytes_dec b : Decision (bytes b).
Proof. unfold bytes. apply _. Defined.

(** Discharges side conditions about literal buffers. *)
Ltac by_compute := refine (bool_decide_unpack _ _); vm_compute; exact I.

(** ** Information elements *)

Record ie := mkIe { ie_id : Z; ie_data : list Z }.

#[export] Instance ie_eq_dec : EqDecision ie.
Proof. solve_decision. Defined.

Definition wf_ie (e : ie) : Prop :=
  byte (ie_id e) /\ bytes (ie_data e) /\ zlen (ie_data e) < 256.

#[export] Instance wf_ie_dec e : Decision (wf_ie e).
Proof. unfold wf_ie. apply _. Defined.

Definition enc_ie (e : ie) : list Z := ie_id e :: zlen (ie_data e) :: ie_data e.
Definition enc_ies (es : list ie) : list Z := concat (map enc_ie es).

(** The bytes [l] are at offset [p] of [b]. *)
Definition at_off (b : list Z) (p : Z) (l : list Z) : Prop :=
  exists pre post, b = pre ++ l ++ post /\ p = zlen pre.

(** ** Lemmas: lengths *)

Lemma zlen_nil {A} : zlen (@nil A) = 0.
Proof. reflexivity. Qed.
Lemma zlen_cons {A} (x : A) l : zlen (x :: l) = 1 + zlen l.
Proof. unfold zlen. simpl. lia. Qed.
Lemma zlen_app {A} (l k : list A) : zlen (l ++ k) = zlen l + zlen k.
Proof. unfold zlen. rewrite length_app. lia. Qed.
Lemma zlen_nonneg {A} (l : list A) : 0 <= zlen l.
Proof. unfold zlen. lia. Qed.
Lemma zlen_0 {A} (l : list A) : zlen l = 0 -> l = [].
Proof. destruct l; [done|]. rewrite zlen_cons. pose proof (zlen_nonneg l). lia. Qed.
Lemma zlen_to_nat {A} (l : list A) : Z.to_nat (zlen l) = length l.
Proof. unfold zlen. lia. Qed.

Create Rewrite HintDb zlen.
#[export] Hint Rewrite @zlen_nil @zlen_cons @zlen_app : zlen.

(** Normalises lengths and adds that the atomic ones are not negative. *)
Ltac zl :=
  autorewrite with zlen in *;
  repeat match goal with
  | |- context [zlen ?l] =>
      lazymatch goal with H : 0 <= zlen l |- _ => fail | _ => pose proof (zlen_nonneg l) end
  | _ : context [zlen ?l] |- _ =>
      lazymatch goal with H : 0 <= zlen l |- _ => fail | _ => pose proof (zlen_nonneg l) end
  end;
  lia.

Lemma zlen_enc_ie e : zlen (enc_ie e) = zlen (ie_data e) + 2.
Proof. unfold enc_ie. zl. Qed.
Lemma enc_ies_cons e es : enc_ies (e :: es) = enc_ie e ++ enc_ies es.
Proof. reflexivity. Qed.
Lemma enc_ies_app es fs : enc_ies (es ++ fs) = enc_ies es ++ enc_ies fs.
Proof. unfold enc_ies. rewrite map_app, concat_app. reflexivity. Qed.
#[export] Hint Rewrite zlen_enc_ie enc_ies_cons enc_ies_app : zlen.

Lemma u16_small x : 0 <= x < 2 ^ 16 -> u16 x = x.
Proof. intros. unfold u16. apply Z.mod_small. lia. Qed.
Lemma u8_small x : byte x -> u8 x = x.
Proof. intros. unfold u8. apply Z.mod_small. done. Qed.

(** ** Lemmas: accesses *)

Lemma rd_app_r b p i : p = zlen b -> 0 <= i -> forall c, rd (b ++ c) (p + i) = rd c i.
Proof.
  intros -> Hi c. pose proof (zlen_nonneg b). unfold rd.
  replace (zlen b + i <? 0) with false by lia. replace (i <? 0) with false by lia.
  rewrite lookup_app_r by (unfold zlen; lia).
  replace (Z.to_nat (zlen b + i) - length b)%nat with (Z.to_nat i); [done|].
  unfold zlen. lia.
Qed.

Lemma rd_in b i : 0 <= i < zlen b -> exists x, rd b i = Ok x /\ x ∈ b.
Proof.
  intros Hi. unfold rd. replace (i <? 0) with false by lia.
  destruct (lookup_lt_is_Some_2 b (Z.to_nat i)) as [x Hx]; [unfold zlen in Hi; lia|].
  rewrite Hx. exists x. split; [done|]. by eapply list_elem_of_lookup_2.
Qed.

Lemma rd_byte b i : bytes b -> 0 <= i < zlen b -> exists x, rd b i = Ok x /\ byte x.
Proof.
  intros Hb Hi. destruct (rd_in b i Hi) as (x & Hx & Hin). exists x. split; [done|].
  unfold bytes in Hb. rewrite Forall_forall in Hb. auto.
Qed.

Lemma rd_Ok_inv b i x : rd b i = Ok x -> 0 <= i < zlen b.
Proof.
  unfold rd. destruct (Z.ltb_spec i 0); [done|].
  destruct (b !! Z.to_nat i) eqn:E; [|done]. intros _.
  apply lookup_lt_Some in E. unfold zlen. lia.
Qed.

Lemma rd_not_fuel b i : rd b i <> Fuel.
Proof. unfold rd. destruct (i <? 0); [done|]. by destruct (b !! Z.to_nat i). Qed.

Lemma rd_n_in b i n : 0 <= i -> 0 <= n -> i + n <= zlen b ->
  exists l, rd_n b i n = Ok l /\ zlen l = n /\ (bytes b -> bytes l).
Proof.
  intros Hi Hn Hb. unfold rd_n. destruct (Z.eqb_spec n 0) as [->|].
  { exists []. split; [done|]. split; [done|]. intros. constructor. }
  replace (_ || _ || _) with false by lia. eexists. split; [done|]. split.
  - unfold zlen in *. rewrite length_take, length_drop. lia.
  - intros HB. apply Forall_take, Forall_drop, HB.
Qed.

(** A run of zero bytes. *)
Definition zeros (n : Z) : list Z := replicate (Z.to_nat n) 0.

Lemma zlen_zeros n : 0 <= n -> zlen (zeros n) = n.
Proof. intros. unfold zeros, zlen. rewrite length_replicate. lia. Qed.

Lemma zeros_app n m : 0 <= n -> 0 <= m -> zeros n ++ zeros m = zeros (n + m).
Proof. intros. unfold zeros. rewrite <- replicate_add. f_equal. lia. Qed.

(** ** Lemmas: contents at an offset *)

Lemma at_off_cons b p x l : at_off b p (x :: l) -> rd b p = Ok x /\ at_off b (p + 1) l.
Proof.
  intros (pre & post & -> & ->). split.
  - replace (zlen pre) with (zlen pre + 0) by lia. rewrite rd_app_r by lia. reflexivity.
  - exists (pre ++ [x]), post. rewrite <- app_assoc. split; [done|]. zl.
Qed.

Lemma at_off_app b p l k : at_off b p (l ++ k) <-> at_off b p l /\ at_off b (p + zlen l) k.
Proof.
  split.
  - intros (pre & post & -> & ->). split.
    + exists pre, (k ++ post). by rewrite <- app_assoc.
    + exists (pre ++ l), post. rewrite <- !app_assoc. split; [done|]. zl.
  - intros [(pre & post & -> & ->) (pre' & post' & E & Hp)].
    exists pre, post'. split; [|done]. rewrite <- app_assoc.
    assert (pre' = pre ++ l) as ->.
    { rewrite (app_assoc pre l post) in E. apply app_inj_1 in E as [? _]; [done|].
      unfold zlen in Hp. rewrite length_app. lia. }
    rewrite <- !app_assoc in E. apply app_inv_head, app_inv_head in E. by subst post.
Qed.

Lemma at_off_bound b p l : at_off b p l -> 0 <= p /\ p + zlen l <= zlen b.
Proof. intros (pre & post & -> & ->). zl. Qed.

Lemma at_off_rd_n b p l n : at_off b p l -> n = zlen l -> rd_n b p n = Ok l.
Proof.
  intros (pre & post & -> & ->) ->. unfold rd_n.
  destruct (Z.eqb_spec (zlen l) 0) as [E|E]; [by apply zlen_0 in E as ->|].
  replace (_ || _ || _) with false by zl.
  rewrite !zlen_to_nat, drop_app_length, take_app_length. reflexivity.
Qed.

Lemma at_off_bytes b p l : bytes b -> at_off b p l -> bytes l.
Proof.
  intros Hb (pre & post & -> & _). unfold bytes in *.
  rewrite !Forall_app in Hb. tauto.
Qed.

Lemma at_off_0 l post : at_off (l ++ post) 0 l.
Proof. exists [], post. done. Qed.

Lemma at_off_refl l : at_off l 0 l.
Proof. exists [], []. by rewrite app_nil_r. Qed.

(** Any range of the object holds some bytes. *)
Lemma at_off_split b p n :
  0 <= p -> 0 <= n -> p + n <= zlen b -> exists l, at_off b p l /\ zlen l = n.
Proof.
  intros Hp Hn Hb. exists (take (Z.to_nat n) (drop (Z.to_nat p) b)). split.
  - exists (take (Z.to_nat p) b), (drop (Z.to_nat n) (drop (Z.to_nat p) b)).
    rewrite !take_drop. split; [done|]. unfold zlen in *. rewrite length_take. lia.
  - unfold zlen in *. rewrite length_take, length_drop. lia.
Qed.

Lemma wr_at pre l post k p :
  p = zlen pre -> zlen k = zlen l -> wr (pre ++ l ++ post) p k = Ok (pre ++ k ++ post).
Proof.
  intros -> Hk. unfold wr. destruct (Z.eqb_spec (zlen k) 0) as [E|E].
  - rewrite Hk in E. pose proof (zlen_0 l E) as ->. rewrite E in Hk.
    pose proof (zlen_0 k Hk) as ->. reflexivity.
  - replace (_ || _) with false by zl. do 2 f_equal.
    + rewrite zlen_to_nat. apply take_app_length.
    + f_equal. replace (Z.to_nat (zlen pre + zlen k)) with (length pre + length l)%nat
        by (unfold zlen in *; lia).
      rewrite <- drop_drop, drop_app_length, drop_app_length. reflexivity.
Qed.

(** ** Lemmas: 16-bit values *)

Lemma lor_shift8_gen hi lo : byte lo -> Z.lor (Z.shiftl hi 8) lo = 256 * hi + lo.
Proof.
  unfold byte. intros Hl. rewrite Z.shiftl_mul_pow2 by lia.
  replace (hi * 2 ^ 8) with (256 * hi) by lia.
  rewrite <- Z.add_lor_land. replace (Z.land (256 * hi) lo) with 0; [lia|].
  symmetry. apply Z.bits_inj'. intros n Hn. rewrite Z.land_spec, Z.bits_0.
  destruct (Z_lt_dec n 8).
  - replace (256 * hi) with (hi * 2 ^ 8) by lia. rewrite Z.mul_pow2_bits_low by lia. done.
  - destruct (decide (lo = 0)) as [->|]; [rewrite Z.bits_0; apply andb_false_r|].
    rewrite (Z.bits_above_log2 lo n); [apply andb_false_r|lia|].
    apply Z.lt_le_trans with 8; [|lia]. apply Z.log2_lt_pow2; lia.
Qed.

Lemma lor_shift8 hi lo : byte hi -> byte lo -> Z.lor (Z.shiftl hi 8) lo = 256 * hi + lo.
Proof. intros _. apply lor_shift8_gen. Qed.

Definition le16 (v : Z) : list Z := [v mod 256; v / 256].
Definition be16 (v : Z) : list Z := [v / 256; v mod 256].

Definition word16 (v : Z) : Prop := 0 <= v < 65536.

Lemma le16_at b p v : word16 v -> at_off b p (le16 v) -> RTW_GET_LE16 b p = Ok v.
Proof.
  intros Hv H. apply at_off_cons in H as [H0 H]. apply at_off_cons in H as [H1 _].
  unfold RTW_GET_LE16. rewrite H1, H0. cbn. unfold word16 in Hv.
  rewrite lor_shift8 by (unfold byte; lia). unfold u16, mret, res_ret. f_equal. lia.
Qed.

Lemma be16_at b p v : word16 v -> at_off b p (be16 v) -> RTW_GET_BE16 b p = Ok v.
Proof.
  intros Hv H. apply at_off_cons in H as [H0 H]. apply at_off_cons in H as [H1 _].
  unfold RTW_GET_BE16. rewrite H1, H0. cbn. unfold word16 in Hv.
  rewrite lor_shift8 by (unfold byte; lia). unfold u16, mret, res_ret. f_equal. lia.
Qed.

Lemma get_le16_in b p : bytes b -> 0 <= p -> p + 2 <= zlen b ->
  exists v, RTW_GET_LE16 b p = Ok v /\ word16 v.
Proof.
  intros Hb Hp Hl. unfold RTW_GET_LE16.
  destruct (rd_byte b p Hb) as (x & -> & Hx); [lia|].
  destruct (rd_byte b (p + 1) Hb) as (y & -> & Hy); [lia|]. cbn.
  eexists. split; [done|]. unfold word16, u16. lia.
Qed.

Lemma get_be16_in b p : bytes b -> 0 <= p -> p + 2 <= zlen b ->
  exists v, RTW_GET_BE16 b p = Ok v /\ word16 v.
Proof.
  intros Hb Hp Hl. unfold RTW_GET_BE16.
  destruct (rd_byte b p Hb) as (x & -> & Hx); [lia|].
  destruct (rd_byte b (p + 1) Hb) as (y & -> & Hy); [lia|]. cbn.
  eexists. split; [done|]. unfold word16, u16. lia.
Qed.

(** ** Well-formed lists of elements *)

Definition wf_ies (es : list ie) : Prop := Forall wf_ie es.

Lemma wf_ie_bytes e : wf_ie e -> bytes (enc_ie e).
Proof.
  intros (H1 & H2 & H3). pose proof (zlen_nonneg (ie_data e)).
  repeat constructor; unfold byte in *; lia || apply H2.
Qed.

Lemma wf_ies_bytes es : wf_ies es -> bytes (enc_ies es).
Proof.
  induction 1 as [|e es He _ IH]; [constructor|]. rewrite enc_ies_cons.
  apply Forall_app. split; [by apply wf_ie_bytes | exact IH].
Qed.

(** The head of a list of elements at an offset: identifier, length, contents
    and the elements after it. *)
Lemma at_off_ies b p e es :
  at_off b p (enc_ies (e :: es)) ->
  rd b p = Ok (ie_id e) /\ rd b (p + 1) = Ok (zlen (ie_data e)) /\
  at_off b (p + 2) (ie_data e) /\ at_off b (p + (zlen (ie_data e) + 2)) (enc_ies es).
Proof.
  rewrite enc_ies_cons, at_off_app, zlen_enc_ie. intros [H Hes].
  unfold enc_ie in H. apply at_off_cons in H as [H0 H]. apply at_off_cons in H as [H1 H].
  replace (p + 1 + 1) with (p + 2) in H by lia. done.
Qed.
