(* ===== verification/IeSearch.v ===== *)
(** * Searching and editing information elements (src/core/rtw_ieee80211.c)

    The functions that walk a buffer of elements: [rtw_get_ie] and its
    variants, the searches for particular elements, and the functions that
    write, update and remove elements.  A function takes the object [b] its
    pointers point into; one that writes returns it.  An optional destination
    buffer is its own object. *)

From S2P Require Import Prelude IeBuf.

(** ** Constants (src/include/ieee80211.h, wifi.h, wlan_bssdef.h) *)

Definition WLAN_EID_DS_PARAMS := 3.
Definition WLAN_EID_CHANNEL_SWITCH := 37.
Definition WLAN_EID_SECONDARY_CHANNEL_OFFSET := 62.
Definition WLAN_EID_EXT_CAP := 127.
Definition WLAN_EID_VENDOR_SPECIFIC := 221.
Definition WLAN_EID_EXTENSION := 255.
Definition WLAN_EID_EXT_OWE_DH_PARAM := 32.
Definition WLAN_EID_EXT_CAP_MAX_LEN := 10.
Definition _WPA_IE_ID_ := 221.
Definition _WPA2_IE_ID_ := 48.
Definition _WAPI_IE_ := 68.
Definition MAX_IE_SZ := 768.
(** [_TIMESTAMP_ + _BEACON_ITERVAL_ + _CAPABILITY_] *)
Definition FIXED_IE_LEN := 8 + 2 + 2.
Definition _PROBERSP_IE_OFFSET_ := 12.
Definition _PROBEREQ_IE_OFFSET_ := 0.

Definition _SUCCESS := 1.
Definition _FAIL := 0.

(** ** Copies to a caller's buffer *)

(** [if (dst) _rtw_memcpy(dst, &b[p], n)] *)
Definition copy_out (dst : option (list Z)) (b : list Z) (p n : Z) : res (option (list Z)) :=
  match dst with
  | None => mret None
  | Some d => l ← rd_n b p n; d ← wr d 0 l; mret (Some d)
  end.

(** ** Writing elements *)

(** Returns the object, the pointer after the element and [*frlen]. *)
Definition rtw_set_ie (b : list Z) (pbuf index len : Z) (source : list Z) (frlen : Z) :
    res (list Z * Z * Z) :=
  b ← wr b pbuf [u8 index];
  b ← wr b (pbuf + 1) [u8 len];
  b ← (if 0 <? len then l ← rd_n source 0 len; wr b (pbuf + 2) l else mret b);
  mret (b, pbuf + len + 2, frlen + (len + 2)).

Definition rtw_set_fixed_ie (b : list Z) (pbuf len : Z) (source : list Z) (frlen : Z) :
    res (list Z * Z * Z) :=
  l ← rd_n source 0 len;
  b ← wr b pbuf l;
  mret (b, pbuf + len, frlen + len).

Definition rtw_set_ie_ch_switch (b : list Z) (buf buf_len ch_switch_mode new_ch ch_switch_cnt : Z) :=
  rtw_set_ie b buf WLAN_EID_CHANNEL_SWITCH 3 [ch_switch_mode; new_ch; ch_switch_cnt] buf_len.

Definition rtw_set_ie_secondary_ch_offset (b : list Z) (buf buf_len secondary_ch_offset : Z) :=
  rtw_set_ie b buf WLAN_EID_SECONDARY_CHANNEL_OFFSET 1 [secondary_ch_offset] buf_len.

Definition rtw_set_ie_mesh_ch_switch_parm (b : list Z) (buf buf_len ttl flags reason precedence : Z) :=
  ie_data ← RTW_PUT_LE16 [ttl; flags; 0; 0; 0; 0] 2 reason;
  ie_data ← RTW_PUT_LE16 ie_data 4 precedence;
  rtw_set_ie b buf 280 6 ie_data buf_len.

(** ** [rtw_get_ie] *)

Fixpoint get_ie_loop (fuel : nat) (b : list Z) (p index i limit : Z) : res (option Z * Z) :=
  match fuel with
  | O => Fuel
  | S fuel =>
      x ← rd b p;
      if x =? index then
        len ← rd b (p + 1);
        mret (Some p, len)
      else
        tmp ← rd b (p + 1);
        let p := p + (tmp + 2) in
        let i := i + (tmp + 2) in
        if limit <=? i then mret (None, 0) else get_ie_loop fuel b p index i limit
  end.

(** The pointer found and [*len], which keeps its value when [limit < 1]. *)
Definition rtw_get_ie (b : list Z) (pbuf index len limit : Z) : res (option Z * Z) :=
  if limit <? 1 then mret (None, len)
  else get_ie_loop (Z.to_nat limit) b pbuf index 0 limit.

(** ** [rtw_get_ie_ex] *)

Definition oui_match (b : list Z) (p : Z) (oui : option (list Z)) (oui_len : Z) : res bool :=
  match oui with None => mret true | Some o => memcmp b p o oui_len end.

Fixpoint get_ie_ex_loop (fuel : nat) (b : list Z) (in_ie cnt in_len eid : Z)
    (oui : option (list Z)) (oui_len : Z) (dst : option (list Z)) :
    res (option Z * Z * option (list Z)) :=
  if cnt <? in_len then
    match fuel with
    | O => Fuel
    | S fuel =>
        x ← rd b (in_ie + cnt);
        hit ← (if eid =? x then oui_match b (in_ie + cnt + 2) oui oui_len else mret false);
        l ← rd b (in_ie + cnt + 1);
        if hit : bool then
          dst ← copy_out dst b (in_ie + cnt) (l + 2);
          mret (Some (in_ie + cnt), l + 2, dst)
        else get_ie_ex_loop fuel b in_ie (cnt + (l + 2)) in_len eid oui oui_len dst
    end
  else mret (None, 0, dst).

(** The pointer found, [*ielen] and the caller's buffer. *)
Definition rtw_get_ie_ex (b : list Z) (in_ie : option Z) (in_len eid : Z)
    (oui : option (list Z)) (oui_len : Z) (dst : option (list Z)) :
    res (option Z * Z * option (list Z)) :=
  match in_ie with
  | None => mret (None, 0, dst)
  | Some p =>
      if in_len <=? 0 then mret (None, 0, dst)
      else get_ie_ex_loop (Z.to_nat in_len) b p 0 in_len eid oui oui_len dst
  end.

(** ** Updating and removing elements *)

(** Returns the status, the object and [*ies_len]; [malloc_ok] is the outcome
    of the allocation. *)
Definition rtw_ies_update_ie (malloc_ok : bool) (b : list Z) (ies : option Z)
    (ies_len ies_offset eid : Z) (content : list Z) (content_len : Z) :
    res (Z * list Z * Z) :=
  match ies with
  | None => mret (_FAIL, b, ies_len)
  | Some ies =>
      if (ies_len =? 0) || (ies_len <=? ies_offset) then mret (_FAIL, b, ies_len) else
      let start := ies + ies_offset in
      let search_len := ies_len - ies_offset in
      '(target, target_ielen) ← rtw_get_ie b start eid 0 search_len;
      match target with
      | Some target_ie =>
          if target_ielen =? 0 then mret (_FAIL, b, ies_len) else
          if target_ielen =? content_len then
            l ← rd_n content 0 content_len;
            b ← wr b (target_ie + 2) l;
            b ← wr b (target_ie + 1) [content_len];
            mret (_SUCCESS, b, ies_len)
          else
            let remain_ies := target_ie + 2 + target_ielen in
            let remain_len := u32 (search_len - (remain_ies - start)) in
            if negb malloc_ok then mret (_FAIL, b, ies_len) else
            backup_ies ← rd_n b remain_ies remain_len;
            l ← rd_n content 0 content_len;
            b ← wr b (target_ie + 2) l;
            b ← wr b (target_ie + 1) [content_len];
            b ← wr b (target_ie + 2 + content_len) backup_ies;
            mret (_SUCCESS, b, u32 (ies_len + (content_len - target_ielen)))
      | None => mret (_FAIL, b, ies_len)
      end
  end.

Fixpoint remove_ie_loop (fuel : nat) (b : list Z) (ies_len start search_len eid : Z)
    (oui : option (list Z)) (oui_len ret : Z) : res (Z * list Z * Z) :=
  match fuel with
  | O => Fuel
  | S fuel =>
      '(target, target_ielen, _) ← rtw_get_ie_ex b (Some start) search_len eid oui oui_len None;
      match target with
      | Some target_ie =>
          if target_ielen =? 0 then mret (ret, b, ies_len) else
          let remain_ies := target_ie + target_ielen in
          let remain_len := u32 (search_len - (remain_ies - start)) in
          l ← rd_n b remain_ies remain_len;
          b ← wr b target_ie l;
          remove_ie_loop fuel b (u32 (ies_len - target_ielen)) target_ie remain_len
            eid oui oui_len _SUCCESS
      | None => mret (ret, b, ies_len)
      end
  end.

Definition rtw_ies_remove_ie (b : list Z) (ies : option Z) (ies_len offset eid : Z)
    (oui : option (list Z)) (oui_len : Z) : res (Z * list Z * Z) :=
  match ies with
  | None => mret (_FAIL, b, ies_len)
  | Some ies =>
      if ies_len <=? offset then mret (_FAIL, b, ies_len)
      else remove_ie_loop (S (Z.to_nat (ies_len - offset))) b ies_len (ies + offset)
             (ies_len - offset) eid oui oui_len _FAIL
  end.

(** ** Searches for particular elements *)

(** [_rtw_memcpy] of two bytes and [le16_to_cpu] *)
Fixpoint get_wpa_ie_loop (fuel : nat) (b : list Z) (pie pbuf limit limit_new : Z) :
    res (option Z * Z) :=
  match fuel with
  | O => Fuel
  | S fuel =>
      '(found, len) ← rtw_get_ie b pbuf _WPA_IE_ID_ 0 limit_new;
      match found with
      | None => mret (None, 0)
      | Some pbuf =>
          let check_next_ie :=
            let limit_new := limit - (pbuf - pie) - 2 - len in
            if limit_new <=? 0 then mret (None, 0)
            else get_wpa_ie_loop fuel b pie (pbuf + (2 + len)) limit limit_new in
          oui_ok ← memcmp b (pbuf + 2) [0; 80; 242; 1] 4;
          if negb oui_ok then check_next_ie else
          val16 ← RTW_GET_LE16 b (pbuf + 6);
          if negb (val16 =? 1) then check_next_ie else
          wpa_ie_len ← rd b (pbuf + 1);
          mret (Some pbuf, wpa_ie_len)
      end
  end.

Definition rtw_get_wpa_ie (b : list Z) (pie limit : Z) : res (option Z * Z) :=
  get_wpa_ie_loop (S (Z.to_nat limit)) b pie pie limit limit.

Definition rtw_get_wpa2_ie (b : list Z) (pie rsn_ie_len limit : Z) : res (option Z * Z) :=
  rtw_get_ie b pie _WPA2_IE_ID_ rsn_ie_len limit.

(** The caller's buffer and [*wapi_len]; the last matching element wins. *)
Fixpoint get_wapi_ie_loop (fuel : nat) (b : list Z) (in_ie cnt in_len : Z)
    (wapi_ie : option (list Z)) (wapi_len : Z) : res (option (list Z) * Z) :=
  if cnt <? in_len then
    match fuel with
    | O => Fuel
    | S fuel =>
        authmode ← rd b (in_ie + cnt);
        hit ← (if authmode =? _WAPI_IE_ then
                 m1 ← memcmp b (in_ie + cnt + 6) [0; 20; 114; 1] 4;
                 if m1 : bool then mret true
                 else memcmp b (in_ie + cnt + 6) [0; 20; 114; 2] 4
               else mret false);
        l ← rd b (in_ie + cnt + 1);
        if hit : bool then
          wapi_ie ← copy_out wapi_ie b (in_ie + cnt) (l + 2);
          get_wapi_ie_loop fuel b in_ie (cnt + (l + 2)) in_len wapi_ie (l + 2)
        else get_wapi_ie_loop fuel b in_ie (cnt + (l + 2)) in_len wapi_ie wapi_len
    end
  else mret (wapi_ie, wapi_len).

Definition rtw_get_wapi_ie (b : list Z) (in_ie : option Z) (in_len : Z) (wapi_ie : option (list Z)) :
    res (option (list Z) * Z) :=
  match in_ie with
  | None => mret (wapi_ie, 0)
  | Some p =>
      if in_len <=? 0 then mret (wapi_ie, 0)
      else get_wapi_ie_loop (Z.to_nat in_len) b p FIXED_IE_LEN in_len wapi_ie 0
  end.

Record sec_ies := mkSec {
  s_rsn_ie : option (list Z); s_rsn_len : Z; s_wpa_ie : option (list Z); s_wpa_len : Z }.

Fixpoint get_sec_ie_loop (fuel : nat) (b : list Z) (in_ie cnt in_len : Z) (s : sec_ies) : res sec_ies :=
  if cnt <? in_len then
    match fuel with
    | O => Fuel
    | S fuel =>
        authmode ← rd b (in_ie + cnt);
        wpa ← (if authmode =? _WPA_IE_ID_ then memcmp b (in_ie + cnt + 2) [0; 80; 242; 1] 4
               else mret false);
        l ← rd b (in_ie + cnt + 1);
        if wpa : bool then
          d ← copy_out (s_wpa_ie s) b (in_ie + cnt) (l + 2);
          get_sec_ie_loop fuel b in_ie (cnt + (l + 2)) in_len
            (mkSec (s_rsn_ie s) (s_rsn_len s) d (l + 2))
        else if authmode =? _WPA2_IE_ID_ then
          d ← copy_out (s_rsn_ie s) b (in_ie + cnt) (l + 2);
          get_sec_ie_loop fuel b in_ie (cnt + (l + 2)) in_len
            (mkSec d (l + 2) (s_wpa_ie s) (s_wpa_len s))
        else get_sec_ie_loop fuel b in_ie (cnt + (l + 2)) in_len s
    end
  else mret s.

(** The code adds to [*rsn_len] and [*wpa_len] whatever the caller left there. *)
Definition rtw_get_sec_ie (b : list Z) (in_ie in_len : Z) (s : sec_ies) : res (sec_ies * Z) :=
  s ← get_sec_ie_loop (Z.to_nat in_len) b in_ie FIXED_IE_LEN in_len s;
  mret (s, s_rsn_len s + s_wpa_len s).

Definition wps_oui := [0; 80; 242; 4].
Definition p2p_oui := [80; 111; 154; 9].
Definition wfd_oui := [80; 111; 154; 10].

(** [*wps_ielen] is only written on a match. *)
Definition rtw_is_wps_ie (b : list Z) (ie_ptr : option Z) (wps_ielen : Z) : res (bool * Z) :=
  match ie_ptr with
  | None => mret (false, wps_ielen)
  | Some p =>
      eid ← rd b p;
      if eid =? _WPA_IE_ID_ then
        m ← memcmp b (p + 2) wps_oui 4;
        if m : bool then l ← rd b (p + 1); mret (true, l + 2) else mret (false, wps_ielen)
      else mret (false, wps_ielen)
  end.

(** The loop that [rtw_get_wps_ie], [rtw_get_p2p_ie], [rtw_get_wfd_ie] and
    [rtw_get_owe_ie] share; they differ in the test [hit] of an element. *)
Fixpoint get_special_ie_loop (hit : Z -> Z -> res bool) (fuel : nat) (b : list Z)
    (in_ie cnt in_len : Z) (dst : option (list Z)) : res (option Z * Z * option (list Z)) :=
  if cnt + 1 + 4 <? in_len then
    match fuel with
    | O => Fuel
    | S fuel =>
        eid ← rd b (in_ie + cnt);
        if MAX_IE_SZ <=? cnt + 1 + 4 then mret (None, 0, dst) else
        h ← hit eid (in_ie + cnt);
        l ← rd b (in_ie + cnt + 1);
        if h : bool then
          dst ← copy_out dst b (in_ie + cnt) (l + 2);
          mret (Some (in_ie + cnt), l + 2, dst)
        else get_special_ie_loop hit fuel b in_ie (cnt + (l + 2)) in_len dst
    end
  else mret (None, 0, dst).

Definition vendor_hit (b : list Z) (oui : list Z) (eid p : Z) : res bool :=
  if eid =? WLAN_EID_VENDOR_SPECIFIC then memcmp b (p + 2) oui 4 else mret false.

Definition owe_hit (b : list Z) (eid p : Z) : res bool :=
  if eid =? WLAN_EID_EXTENSION then x ← rd b (p + 2); mret (x =? WLAN_EID_EXT_OWE_DH_PARAM)
  else mret false.

Definition get_special_ie (hit : Z -> Z -> res bool) (b : list Z) (in_ie : option Z) (in_len : Z)
    (dst : option (list Z)) : res (option Z * Z * option (list Z)) :=
  match in_ie with
  | None => mret (None, 0, dst)
  | Some p =>
      if in_len <=? 0 then mret (None, 0, dst)
      else get_special_ie_loop hit (Z.to_nat in_len) b p 0 in_len dst
  end.

Definition rtw_get_wps_ie (b : list Z) := get_special_ie (vendor_hit b wps_oui) b.
Definition rtw_get_p2p_ie (b : list Z) := get_special_ie (vendor_hit b p2p_oui) b.
Definition rtw_get_wfd_ie (b : list Z) := get_special_ie (vendor_hit b wfd_oui) b.
Definition rtw_get_owe_ie (b : list Z) := get_special_ie (owe_hit b) b.

Inductive bss_type := BSS_TYPE_UNDEF | BSS_TYPE_BCN | BSS_TYPE_PROB_REQ | BSS_TYPE_PROB_RSP.

(** [in_len] is unsigned: the offset is subtracted modulo 2^32. *)
Definition rtw_get_wps_ie_from_scan_queue (b : list Z) (in_ie in_len : Z) (wps_ie : option (list Z))
    (frame_type : bss_type) : res (option Z * Z * option (list Z)) :=
  match frame_type with
  | BSS_TYPE_BCN | BSS_TYPE_PROB_RSP =>
      rtw_get_wps_ie b (Some (in_ie + _PROBERSP_IE_OFFSET_)) (u32 (in_len - _PROBERSP_IE_OFFSET_)) wps_ie
  | BSS_TYPE_PROB_REQ =>
      rtw_get_wps_ie b (Some (in_ie + _PROBEREQ_IE_OFFSET_)) (u32 (in_len - _PROBEREQ_IE_OFFSET_)) wps_ie
  | BSS_TYPE_UNDEF => mret (None, 0, wps_ie)
  end.

(** ** Extended capabilities *)

Definition rtw_add_ext_cap_info (ext_cap_data : list Z) (ext_cap_data_len cap_info : Z) : res (list Z * Z) :=
  let byte_offset := Z.shiftr cap_info 3 in
  let bit_offset := cap_info mod 8 in
  x ← rd ext_cap_data byte_offset;
  d ← wr ext_cap_data byte_offset [u8 (Z.lor x (BIT bit_offset))];
  mret (d, if ext_cap_data_len <? byte_offset + 1 then byte_offset + 1 else ext_cap_data_len).

(** [for (i = 0; i < WLAN_EID_EXT_CAP_MAX_LEN; i++)] *)
Fixpoint ext_cap_len_loop (n : nat) (d : list Z) (i max_len : Z) : res Z :=
  match n with
  | O => mret max_len
  | S n => x ← rd d i; ext_cap_len_loop n d (i + 1) (if x =? 0 then max_len else i + 1)
  end.

Definition rtw_remove_ext_cap_info (ext_cap_data : list Z) (ext_cap_data_len cap_info : Z) : res (list Z * Z) :=
  let byte_offset := Z.shiftr cap_info 3 in
  let bit_offset := cap_info mod 8 in
  x ← rd ext_cap_data byte_offset;
  d ← wr ext_cap_data byte_offset [u8 (Z.land x (Z.lnot (BIT bit_offset)))];
  max_len ← ext_cap_len_loop (Z.to_nat WLAN_EID_EXT_CAP_MAX_LEN) d 0 0;
  mret (d, max_len).

(** The object and [*ies_len]; always [_SUCCESS]. *)
Definition rtw_update_ext_cap_ie (malloc_ok : bool) (ext_cap_data : list Z) (ext_cap_data_len : Z)
    (b : list Z) (ies ies_len ies_offset : Z) : res (list Z * Z) :=
  if negb (ext_cap_data_len =? 0) then
    '(extcap_ie, _) ← rtw_get_ie b (ies + ies_offset) WLAN_EID_EXT_CAP 0 (ies_len - ies_offset);
    match extcap_ie with
    | None =>
        '(b, _, ie_len) ← rtw_set_ie b (ies + ies_len) WLAN_EID_EXT_CAP ext_cap_data_len ext_cap_data 0;
        mret (b, ies_len + ie_len)
    | Some _ =>
        '(_, b, ies_len) ← rtw_ies_update_ie malloc_ok b (Some ies) ies_len ies_offset WLAN_EID_EXT_CAP
                             ext_cap_data ext_cap_data_len;
        mret (b, ies_len)
    end
  else
    '(_, b, ies_len) ← rtw_ies_remove_ie b (Some ies) ies_len ies_offset WLAN_EID_EXT_CAP None 0;
    mret (b, ies_len).

(** [for (i = 0; i < extcap_len_field; i++) ext_cap_data[i] |= extcap_ie[i]] *)
Fixpoint or_bytes_loop (n : nat) (d b : list Z) (p i : Z) : res (list Z) :=
  match n with
  | O => mret d
  | S n =>
      x ← rd d i; y ← rd b (p + i); d ← wr d i [Z.lor x y];
      or_bytes_loop n d b p (i + 1)
  end.

Definition rtw_parse_ext_cap_ie (ext_cap_data : list Z) (ext_cap_data_len : Z)
    (b : list Z) (ies ies_len ies_offset : Z) : res (list Z * Z) :=
  '(found, extcap_len_field) ← rtw_get_ie b (ies + ies_offset) WLAN_EID_EXT_CAP 0 (ies_len - ies_offset);
  match found with
  | None => mret (ext_cap_data, ext_cap_data_len)
  | Some p =>
      if ext_cap_data_len =? 0 then
        l ← rd_n b (p + 2) extcap_len_field;
        d ← wr ext_cap_data 0 l;
        mret (d, extcap_len_field)
      else
        d ← or_bytes_loop (Z.to_nat extcap_len_field) ext_cap_data b (p + 2) 0;
        mret (d, ext_cap_data_len)
  end.
