(* ===== verification/IeSearchThm.v ===== *)
(** * Theorems on searching and editing information elements

    The abstract view of a buffer is a list of elements ([IeBuf.enc_ies]).  On
    such a buffer the searches find the first element they are asked for, and
    the editing functions change the list as their names say; on arbitrary bytes
    the searches end and stay within one byte of their limit. *)

From S2P Require Import Prelude IeBuf IeSearch.

(** ** The abstract search *)

(** The first element with property [f], with its offset. *)
Fixpoint find_by (f : ie -> bool) (es : list ie) (p : Z) : option (Z * ie) :=
  match es with
  | [] => None
  | e :: es => if f e then Some (p, e) else find_by f es (p + (zlen (ie_data e) + 2))
  end.

Definition has_id (id : Z) (e : ie) : bool := id =? ie_id e.

Lemma find_by_Some f es p q e :
  find_by f es p = Some (q, e) ->
  exists es1 es2, es = es1 ++ e :: es2 /\ Forall (fun x => f x = false) es1 /\ f e = true /\
    q = p + zlen (enc_ies es1).
Proof.
  revert p. induction es as [|x es IH]; simpl; intros p H; [done|].
  destruct (f x) eqn:E.
  - injection H as <- <-. exists [], es. repeat split; auto. unfold enc_ies. simpl. zl.
  - apply IH in H as (es1 & es2 & -> & ? & ? & ->).
    exists (x :: es1), es2. repeat split; auto. zl.
Qed.

Lemma find_by_None f es p : find_by f es p = None -> Forall (fun x => f x = false) es.
Proof.
  revert p. induction es as [|x es IH]; simpl; intros p H; [constructor|].
  destruct (f x) eqn:E; [done|]. eauto.
Qed.

Lemma find_by_app f es1 e es2 p :
  Forall (fun x => f x = false) es1 -> f e = true ->
  find_by f (es1 ++ e :: es2) p = Some (p + zlen (enc_ies es1), e).
Proof.
  intros H He. revert p. induction H as [|x es1 Hx _ IH]; simpl; intros p.
  - rewrite He. do 2 f_equal. unfold enc_ies. simpl. zl.
  - rewrite Hx, IH. do 2 f_equal. zl.
Qed.

(** ** [rtw_get_ie] *)

Lemma get_ie_loop_spec es b p id i limit fuel :
  at_off b p (enc_ies es) -> es <> [] ->
  limit = i + zlen (enc_ies es) -> (Z.to_nat (zlen (enc_ies es)) <= fuel)%nat ->
  get_ie_loop fuel b p id i limit =
    Ok (match find_by (has_id id) es p with
        | Some (q, e) => (Some q, zlen (ie_data e)) | None => (None, 0) end).
Proof.
  revert p i fuel. induction es as [|e es IH]; intros p i fuel Hat Hne Hlim Hf; [done|].
  apply at_off_ies in Hat as (H0 & H1 & _ & Hes).
  destruct fuel as [|fuel]; [exfalso; zl|].
  cbn [get_ie_loop find_by]. rewrite H0, H1. cbn [mbind res_bind]. unfold has_id.
  rewrite (Z.eqb_sym id). destruct (ie_id e =? id); [done|].
  destruct (decide (es = [])) as [->|Hn].
  - replace (limit <=? _) with true; [done|]. unfold enc_ies in Hlim. simpl in Hlim. zl.
  - assert (2 <= zlen (enc_ies es)) by (destruct es; [done|zl]).
    replace (limit <=? _) with false by zl. apply IH; try done; zl.
Qed.

(** On a buffer that holds a list of elements, the first element with the
    identifier, or none. *)
Lemma get_ie_spec es b p id len :
  at_off b p (enc_ies es) -> es <> [] ->
  rtw_get_ie b p id len (zlen (enc_ies es)) =
    Ok (match find_by (has_id id) es p with
        | Some (q, e) => (Some q, zlen (ie_data e)) | None => (None, 0) end).
Proof.
  intros Hat Hne. unfold rtw_get_ie.
  assert (2 <= zlen (enc_ies es)) by (destruct es; [done|zl]).
  replace (_ <? 1) with false by lia. apply get_ie_loop_spec; auto; lia.
Qed.

(** On arbitrary bytes: the search ends, and it is within bounds when one byte
    follows the limit. *)
Lemma get_ie_loop_safe b p id i limit fuel :
  bytes b -> 0 <= p -> 0 <= i < limit -> p + (limit - i) + 1 <= zlen b ->
  (Z.to_nat (limit - i) <= fuel)%nat ->
  exists q len, get_ie_loop fuel b p id i limit = Ok (q, len) /\ 0 <= len < 256 /\
    (forall q', q = Some q' -> p <= q' < p + (limit - i) /\ rd b q' = Ok id /\ rd b (q' + 1) = Ok len).
Proof.
  intros Hb. revert p i. induction fuel as [|fuel IH]; intros p i Hp Hi Hl Hf; [lia|].
  destruct (rd_byte b p Hb) as (x & Hx & _); [lia|].
  destruct (rd_byte b (p + 1) Hb) as (t & Ht & HtB); [lia|].
  cbn [get_ie_loop]. rewrite Hx, Ht. cbn [mbind res_bind]. unfold byte in HtB.
  destruct (Z.eqb_spec x id) as [->|].
  - exists (Some p), t. split; [done|]. split; [lia|]. intros q' [= <-]. split; [lia|done].
  - destruct (Z.leb_spec limit (i + (t + 2))).
    + exists None, 0. split; [done|]. split; [lia|done].
    + destruct (IH (p + (t + 2)) (i + (t + 2))) as (q & len & -> & ? & Hq); try lia.
      exists q, len. split; [done|]. split; [done|]. intros q' E.
      destruct (Hq q' E) as (? & ?). split; [lia|done].
Qed.

Lemma get_ie_safe b p id len0 limit :
  bytes b -> 0 <= p -> p + limit + 1 <= zlen b -> 0 <= len0 < 256 ->
  exists q len, rtw_get_ie b p id len0 limit = Ok (q, len) /\ 0 <= len < 256 /\
    (forall q', q = Some q' -> p <= q' < p + limit /\ rd b q' = Ok id /\ rd b (q' + 1) = Ok len).
Proof.
  intros Hb Hp Hl H0. unfold rtw_get_ie. destruct (Z.ltb_spec limit 1).
  - exists None, len0. repeat split; try lia; done.
  - destruct (get_ie_loop_safe b p id 0 limit (Z.to_nat limit)) as (q & len & H1 & H2 & H3); try lia; [done|].
    exists q, len. split; [done|]. split; [done|]. intros q' E. destruct (H3 q' E). split; [lia|done].
Qed.

(** The length byte of a truncated last element is read behind the limit. *)
Lemma get_ie_overread : rtw_get_ie [WLAN_EID_DS_PARAMS] 0 WLAN_EID_EXT_CAP 0 1 = Oob.
Proof. reflexivity. Qed.

(** ** [rtw_get_ie_ex] *)

(** Contents that start with the first [n] bytes of [oui]. *)
Definition oui_ok (oui : option (list Z)) (n : Z) (e : ie) : bool :=
  match oui with
  | None => true
  | Some o => bool_decide (take (Z.to_nat n) (ie_data e) = take (Z.to_nat n) o)
  end.

Definition ex_hit (eid : Z) (oui : option (list Z)) (n : Z) (e : ie) : bool :=
  (eid =? ie_id e) && oui_ok oui n e.

(** Elements with the identifier are long enough for the comparison. *)
Definition oui_room (eid : Z) (oui : option (list Z)) (n : Z) (es : list ie) : Prop :=
  0 <= n /\ (forall o, oui = Some o -> n <= zlen o /\
             Forall (fun e => ie_id e = eid -> n <= zlen (ie_data e)) es).

Lemma rd_n_at b p l n :
  at_off b p l -> 0 <= n <= zlen l -> rd_n b p n = Ok (take (Z.to_nat n) l).
Proof.
  intros Hat Hn. rewrite <- (take_drop (Z.to_nat n) l) in Hat.
  apply at_off_app in Hat as [Hat _]. eapply at_off_rd_n; [exact Hat|].
  unfold zlen in *. rewrite length_take. lia.
Qed.

Lemma oui_match_spec b p e eid oui n es :
  at_off b p (ie_data e) -> oui_room eid oui n (e :: es) -> ie_id e = eid ->
  oui_match b p oui n = Ok (oui_ok oui n e).
Proof.
  intros Hat [Hn Hr] He. unfold oui_match, oui_ok. destruct oui as [o|]; [|done].
  destruct (Hr o eq_refl) as [Ho Hf]. inversion_clear Hf as [|? ? Hl _].
  unfold memcmp. rewrite (rd_n_at b p (ie_data e)) by auto.
  cbn [mbind res_bind]. rewrite (rd_n_at o 0 o) by (auto using at_off_refl). done.
Qed.

Lemma get_ie_ex_loop_spec es b in_ie cnt in_len eid oui n fuel :
  at_off b (in_ie + cnt) (enc_ies es) -> in_len = cnt + zlen (enc_ies es) ->
  oui_room eid oui n es -> (Z.to_nat (zlen (enc_ies es)) <= fuel)%nat ->
  get_ie_ex_loop fuel b in_ie cnt in_len eid oui n None =
    Ok (match find_by (ex_hit eid oui n) es (in_ie + cnt) with
        | Some (q, e) => (Some q, zlen (ie_data e) + 2, None) | None => (None, 0, None) end).
Proof.
  revert cnt fuel. induction es as [|e es IH]; intros cnt fuel Hat Hlen Hr Hf.
  - destruct fuel; simpl; replace (cnt <? in_len) with false; try done;
      unfold enc_ies in Hlen; simpl in Hlen; zl.
  - apply at_off_ies in Hat as (H0 & H1 & H2 & Hes).
    destruct fuel as [|fuel]; [exfalso; zl|].
    cbn [get_ie_ex_loop find_by]. replace (cnt <? in_len) with true by zl.
    rewrite H0, H1. cbn [mbind res_bind]. unfold ex_hit at 1.
    assert (Hr' : oui_room eid oui n es).
    { destruct Hr as [? Hr]. split; [done|]. intros o Ho. destruct (Hr o Ho) as [? Hf'].
      inversion_clear Hf'. done. }
    replace (in_ie + cnt + (zlen (ie_data e) + 2)) with (in_ie + (cnt + (zlen (ie_data e) + 2)))
      in * by lia.
    destruct (Z.eqb_spec eid (ie_id e)) as [E|E]; simpl andb.
    + rewrite (oui_match_spec b _ e eid oui n es) by (auto; by rewrite E).
      cbn [mbind res_bind]. destruct (oui_ok oui n e); [done|].
      apply IH; auto; zl.
    + cbn. apply IH; auto; zl.
Qed.

Lemma get_ie_ex_spec es b p eid oui n :
  at_off b p (enc_ies es) -> oui_room eid oui n es ->
  rtw_get_ie_ex b (Some p) (zlen (enc_ies es)) eid oui n None =
    Ok (match find_by (ex_hit eid oui n) es p with
        | Some (q, e) => (Some q, zlen (ie_data e) + 2, None) | None => (None, 0, None) end).
Proof.
  intros Hat Hr. unfold rtw_get_ie_ex. pose proof (zlen_nonneg (enc_ies es)).
  destruct (Z.leb_spec (zlen (enc_ies es)) 0).
  - destruct es as [|e es]; [done|]. exfalso. zl.
  - pose proof (get_ie_ex_loop_spec es b p 0 (zlen (enc_ies es)) eid oui n
      (Z.to_nat (zlen (enc_ies es)))) as L.
    rewrite Z.add_0_r in L. apply L; auto; lia.
Qed.

(** ** [rtw_ies_remove_ie] *)

(** A byte range moved down over the element before it. *)
Lemma memmove_down pre l k post :
  exists junk, zlen junk = zlen l /\
    wr (pre ++ (l ++ k) ++ post) (zlen pre) k = Ok (pre ++ k ++ junk ++ post).
Proof.
  exists (drop (length k) (l ++ k)).
  split. { unfold zlen. rewrite length_drop, length_app. lia. }
  rewrite <- (take_drop (length k) (l ++ k)) at 1. rewrite <- app_assoc.
  assert (length (take (length k) (l ++ k)) = length k).
  { rewrite length_take, length_app. lia. }
  rewrite (wr_at pre (take (length k) (l ++ k)) (drop (length k) (l ++ k) ++ post) k)
    by (unfold zlen; lia).
  done.
Qed.

Definition removed (f : ie -> bool) (es : list ie) : list ie := List.filter (fun e => negb (f e)) es.

Lemma removed_app f es fs : removed f (es ++ fs) = removed f es ++ removed f fs.
Proof. apply List.filter_app. Qed.

Lemma removed_none f es : Forall (fun x => f x = false) es -> removed f es = es.
Proof. induction 1 as [|x es Hx _ IH]; [done|]. simpl. rewrite Hx. simpl. by rewrite IH. Qed.

Lemma removed_len f es : zlen (enc_ies (removed f es)) <= zlen (enc_ies es).
Proof.
  induction es as [|e es IH]; [done|]. simpl. destruct (f e); simpl; autorewrite with zlen in *; zl.
Qed.

Lemma remove_ie_loop_spec fuel es pre post ies_len eid oui n ret :
  (length es < fuel)%nat -> oui_room eid oui n es ->
  zlen pre + zlen (enc_ies es) < 2 ^ 31 -> zlen (enc_ies es) <= ies_len < 2 ^ 31 ->
  exists junk,
    zlen junk = zlen (enc_ies es) - zlen (enc_ies (removed (ex_hit eid oui n) es)) /\
    remove_ie_loop fuel (pre ++ enc_ies es ++ post) ies_len (zlen pre) (zlen (enc_ies es)) eid oui n ret =
    Ok (if existsb (ex_hit eid oui n) es then _SUCCESS else ret,
        pre ++ enc_ies (removed (ex_hit eid oui n) es) ++ junk ++ post, ies_len - zlen junk).
Proof.
  set (f := ex_hit eid oui n).
  revert es pre post ies_len ret. induction fuel as [|fuel IH]; intros es pre post ies_len ret Hf Hr Hb Hi; [lia|].
  cbn [remove_ie_loop].
  rewrite (get_ie_ex_spec es (pre ++ enc_ies es ++ post) (zlen pre) eid oui n) by (auto; by exists pre, post).
  cbn [mbind res_bind]. fold f. destruct (find_by f es (zlen pre)) as [[q e]|] eqn:Efind.
  - apply find_by_Some in Efind as (es1 & es2 & -> & Hno & Hfe & ->).
    rewrite enc_ies_app, enc_ies_cons in *. pose proof (zlen_nonneg (ie_data e)).
    replace (_ =? 0) with false by lia.
    match goal with |- context [u32 (zlen ?x - ?y)] =>
      replace (u32 (zlen x - y)) with (zlen (enc_ies es2)) by (rewrite u32_small; zl) end.
    rewrite (at_off_rd_n _ _ (enc_ies es2)); [|
      exists (pre ++ enc_ies es1 ++ enc_ie e), post; rewrite <- !app_assoc; split; [done|zl] | done].
    cbn [mbind res_bind].
    destruct (memmove_down (pre ++ enc_ies es1) (enc_ie e) (enc_ies es2) post) as (j1 & Hj1 & Hwr).
    rewrite <- zlen_app. rewrite <- !app_assoc in *. rewrite Hwr. cbn [mbind res_bind].
    destruct (IH es2 (pre ++ enc_ies es1) (j1 ++ post) (u32 (ies_len - (zlen (ie_data e) + 2))) _SUCCESS)
      as (j2 & Hj2 & HR).
    + rewrite length_app in Hf. simpl in Hf. lia.
    + destruct Hr as [? Hr]. split; [done|]. intros o Ho. destruct (Hr o Ho) as [? HF].
      apply Forall_app in HF as [_ HF]. inversion_clear HF. done.
    + zl.
    + rewrite u32_small; zl.
    + exists (j2 ++ j1). rewrite <- !app_assoc in HR. rewrite HR.
      rewrite removed_app. cbn [removed List.filter]. fold (removed f es2). rewrite Hfe. simpl negb. cbn iota.
      rewrite (removed_none f es1) by done. split; [fold f in Hj2; zl|].
      rewrite existsb_app. simpl existsb. rewrite Hfe, orb_true_l, orb_true_r.
      rewrite enc_ies_app, <- !app_assoc. do 2 f_equal; [|rewrite u32_small; zl].
      by destruct (existsb f es2).
  - apply find_by_None in Efind as Hno. exists []. rewrite (removed_none f es) by done. split; [zl|].
    replace (existsb f es) with false.
    + rewrite zlen_nil, Z.sub_0_r. done.
    + symmetry. clear -Hno. induction Hno as [|x l Hx _ IH]; [done|]. simpl. by rewrite Hx, IH.
Qed.

(** The buffer is a prefix of [offset] bytes before the elements. *)
Lemma ies_remove_spec es fixed post eid oui n :
  oui_room eid oui n es -> zlen fixed + zlen (enc_ies es) < 2 ^ 31 -> es <> [] ->
  exists junk,
    zlen junk = zlen (enc_ies es) - zlen (enc_ies (removed (ex_hit eid oui n) es)) /\
    rtw_ies_remove_ie (fixed ++ enc_ies es ++ post) (Some 0) (zlen fixed + zlen (enc_ies es))
      (zlen fixed) eid oui n =
    Ok (if existsb (ex_hit eid oui n) es then _SUCCESS else _FAIL,
        fixed ++ enc_ies (removed (ex_hit eid oui n) es) ++ junk ++ post,
        zlen fixed + zlen (enc_ies (removed (ex_hit eid oui n) es))).
Proof.
  intros Hr Hb Hne. assert (2 <= zlen (enc_ies es)) by (destruct es; [done|zl]).
  assert (Z.of_nat (length es) <= zlen (enc_ies es)).
  { clear. induction es as [|e es IH]; [done|]. simpl length. zl. }
  destruct (remove_ie_loop_spec (S (Z.to_nat (zlen fixed + zlen (enc_ies es) - zlen fixed))) es fixed post
    (zlen fixed + zlen (enc_ies es)) eid oui n _FAIL) as (j & Hj & HR); try (done || zl).
  exists j. split; [done|]. unfold rtw_ies_remove_ie.
  replace (_ <=? _) with false by zl.
  replace (0 + zlen fixed) with (zlen fixed) by lia.
  replace (zlen fixed + zlen (enc_ies es) - zlen fixed) with (zlen (enc_ies es)) in * by lia.
  rewrite HR. do 3 f_equal. zl.
Qed.
