(* ===== verification/IeEditThm.v ===== *)
(** * Theorems on writing elements and on the searches for particular ones

    [rtw_set_ie], [rtw_ies_update_ie] and the extended-capabilities functions
    as changes of a list of elements; the WPA, RSN, WAPI and vendor searches as
    searches of that list. *)

From S2P Require Import Prelude IeBuf IeSearch IeSearchThm.

(** ** [rtw_set_ie] *)

Lemma list_take_zlen {A} (l : list A) n : 0 <= n <= zlen l -> zlen (take (Z.to_nat n) l) = n.
Proof. intros. unfold zlen in *. rewrite length_take. lia. Qed.

Lemma rd_n_prefix l n : 0 <= n <= zlen l -> rd_n l 0 n = Ok (take (Z.to_nat n) l).
Proof. intros. apply rd_n_at; [apply at_off_refl | done]. Qed.

(** Three writes that together replace a range by an element. *)
Lemma set_ie_spec pre old post index len source frlen :
  byte index -> byte len -> len <= zlen source -> zlen old = len + 2 ->
  rtw_set_ie (pre ++ old ++ post) (zlen pre) index len source frlen =
  Ok (pre ++ enc_ie (mkIe index (take (Z.to_nat len) source)) ++ post,
      zlen pre + len + 2, frlen + (len + 2)).
Proof.
  intros Hi Hlb Hs Ho. assert (0 <= len < 256) by exact Hlb.
  destruct old as [|x [|y r]]; [zl..|].
  unfold rtw_set_ie. simpl app.
  rewrite (wr_at pre [x] (y :: r ++ post) [u8 index]) by done. cbn [mbind res_bind].
  rewrite (u8_small index Hi), (u8_small len Hlb).
  change (pre ++ [index] ++ y :: r ++ post) with (pre ++ [index] ++ ([y] ++ r ++ post)).
  rewrite (app_assoc pre).
  rewrite (wr_at (pre ++ [index]) [y] (r ++ post) [len]) by (done || zl). cbn [mbind res_bind].
  unfold enc_ie. cbn [ie_id ie_data]. rewrite list_take_zlen by lia.
  destruct (Z.ltb_spec 0 len).
  - rewrite rd_n_prefix by lia. cbn [mbind res_bind].
    rewrite (app_assoc (pre ++ [index])).
    rewrite (wr_at ((pre ++ [index]) ++ [len]) r post) by (rewrite ?list_take_zlen by lia; zl).
    cbn [mbind res_bind]. rewrite <- !app_assoc. done.
  - assert (r = []) as -> by (apply zlen_0; zl). replace len with 0 by lia.
    cbn [mret res_ret mbind res_bind]. rewrite <- !app_assoc. done.
Qed.

(** ** [rtw_ies_update_ie] *)

(** The bytes after the updated element are moved by the difference of the
    lengths; growth uses up bytes behind the elements. *)
Lemma wr_grow pre old rest k :
  zlen k <= zlen old + zlen rest ->
  wr (pre ++ old ++ rest) (zlen pre) k =
    Ok (pre ++ k ++ drop (length k) (old ++ rest)).
Proof.
  intros Hk. rewrite <- (take_drop (length k) (old ++ rest)) at 1.
  rewrite (wr_at pre _ _ k); [done..|].
  unfold zlen in *. rewrite length_take, length_app. lia.
Qed.

Lemma update_writes F id d tail post w :
  zlen w <= zlen d + zlen post ->
  exists b1 b2 post',
    wr ((F ++ [id; zlen d]) ++ d ++ tail ++ post) (zlen F + 2) w = Ok b1 /\
    wr b1 (zlen F + 1) [zlen w] = Ok b2 /\
    wr b2 (zlen F + 2 + zlen w) tail = Ok (F ++ [id; zlen w] ++ w ++ tail ++ post') /\
    zlen post' = zlen post + zlen d - zlen w /\
    (zlen w = zlen d -> b2 = F ++ [id; zlen w] ++ w ++ tail ++ post /\ post' = post).
Proof.
  intros Hw. set (r := drop (length w) (d ++ tail ++ post)).
  assert (Hr : zlen r = zlen d + zlen tail + zlen post - zlen w).
  { unfold r. unfold zlen in *. rewrite length_drop, !length_app. lia. }
  exists ((F ++ [id; zlen d]) ++ w ++ r), ((F ++ [id; zlen w]) ++ w ++ r), (drop (length tail) r).
  split; [|split; [|split; [|split]]].
  - replace (zlen F + 2) with (zlen (F ++ [id; zlen d])) by zl. apply wr_grow. zl.
  - pose proof (wr_at (F ++ [id]) [zlen d] (w ++ r) [zlen w] (zlen F + 1)) as Q.
    rewrite <- !app_assoc in *. simpl app in *. apply Q; zl.
  - replace (zlen F + 2 + zlen w) with (zlen ((F ++ [id; zlen w]) ++ w)) by zl.
    rewrite app_assoc. rewrite (wr_grow _ [] r) by zl. simpl app. rewrite <- !app_assoc. done.
  - unfold zlen in *. rewrite length_drop. lia.
  - intros E. assert (r = tail ++ post) as ->.
    { unfold r. unfold zlen in E. replace (length w) with (length d) by lia. apply drop_app_length. }
    rewrite drop_app_length, <- !app_assoc. done.
Qed.

Lemma ies_update_spec ok es1 e es2 fixed post c n :
  Forall (fun x => has_id (ie_id e) x = false) es1 -> ie_data e <> [] ->
  ok = true \/ zlen (ie_data e) = n ->
  byte n -> n <= zlen c ->
  zlen fixed + zlen (enc_ies (es1 ++ e :: es2)) < 2 ^ 31 ->
  n <= zlen (ie_data e) + zlen post ->
  let es' := es1 ++ mkIe (ie_id e) (take (Z.to_nat n) c) :: es2 in
  exists post',
    rtw_ies_update_ie ok (fixed ++ enc_ies (es1 ++ e :: es2) ++ post) (Some 0)
      (zlen fixed + zlen (enc_ies (es1 ++ e :: es2))) (zlen fixed) (ie_id e) c n =
    Ok (_SUCCESS, fixed ++ enc_ies es' ++ post', zlen fixed + zlen (enc_ies es')) /\
    zlen post' = zlen post + zlen (ie_data e) - n.
Proof.
  intros Hno Hne Hok Hn Hc Hb Hroom es'. unfold byte in Hn.
  assert (Hd : 0 < zlen (ie_data e)) by (destruct (ie_data e); [done|zl]).
  assert (Hw : zlen (take (Z.to_nat n) c) = n) by (apply list_take_zlen; lia).
  destruct (update_writes (fixed ++ enc_ies es1) (ie_id e) (ie_data e) (enc_ies es2) post
    (take (Z.to_nat n) c)) as (b1 & b2 & post' & W1 & W2 & W3 & Hp & Hsame); [lia|].
  assert (Hl : zlen (enc_ies es') = zlen (enc_ies es1) + (n + 2) + zlen (enc_ies es2))
    by (unfold es'; autorewrite with zlen; cbn [ie_data]; lia).
  assert (HE : (fixed ++ enc_ies es1) ++ [ie_id e; n] ++ take (Z.to_nat n) c ++ enc_ies es2 ++ post' =
               fixed ++ enc_ies es' ++ post').
  { unfold es'. rewrite enc_ies_app, enc_ies_cons. unfold enc_ie. cbn [ie_id ie_data].
    rewrite Hw, <- !app_assoc. done. }
  rewrite Hw in *. rewrite HE in *. rewrite zlen_app in W1, W2, W3.
  exists post'. split; [|lia]. unfold rtw_ies_update_ie. autorewrite with zlen in *.
  replace (_ || _) with false by zl. rewrite Z.add_0_l.
  match goal with |- context [rtw_get_ie ?b ?p ?i ?l ?m] =>
    replace m with (zlen (enc_ies (es1 ++ e :: es2))) by zl;
    rewrite (get_ie_spec (es1 ++ e :: es2) b p i l);
      [| exists fixed, post; split; [by autorewrite with zlen|done] | by destruct es1] end.
  rewrite find_by_app by (done || apply Z.eqb_refl).
  cbn [mbind res_bind]. replace (_ =? 0) with false by lia.
  replace (fixed ++ (enc_ies es1 ++ enc_ie e ++ enc_ies es2) ++ post) with
    (((fixed ++ enc_ies es1) ++ [ie_id e; zlen (ie_data e)]) ++ ie_data e ++ enc_ies es2 ++ post)
    by (unfold enc_ie; rewrite <- !app_assoc; done).
  destruct (Z.eqb_spec (zlen (ie_data e)) n) as [Es|Ed].
  - rewrite rd_n_prefix by lia. cbn [mbind res_bind]. rewrite W1. cbn [mbind res_bind].
    rewrite W2. cbn [mbind res_bind]. destruct (Hsame (eq_sym Es)) as [-> E2].
    rewrite <- E2, HE. unfold mret, res_ret. do 2 f_equal. zl.
  - destruct Hok as [->|]; [|lia]. cbn [negb]. match goal with |- context [u32 (zlen ?x - ?y)] =>
      replace (u32 (zlen x - y)) with (zlen (enc_ies es2)) by (rewrite u32_small; zl) end.
    rewrite (at_off_rd_n _ _ (enc_ies es2) (zlen (enc_ies es2))); [|..].
    2:{ exists (((fixed ++ enc_ies es1) ++ [ie_id e; zlen (ie_data e)]) ++ ie_data e), post.
        rewrite <- !app_assoc. split; [done|]. zl. }
    2: reflexivity.
    cbn [mbind res_bind]. rewrite rd_n_prefix by lia. cbn [mbind res_bind].
    rewrite W1. cbn [mbind res_bind]. rewrite W2. cbn [mbind res_bind]. rewrite W3. cbn [mbind res_bind].
    unfold mret, res_ret. do 2 f_equal. rewrite u32_small; zl.
Qed.

(** ** Extended capabilities *)

(** The first element with the identifier replaced, or a new one at the end. *)
Fixpoint put_ie (id : Z) (c : list Z) (es : list ie) : list ie :=
  match es with
  | [] => [mkIe id c]
  | e :: es => if has_id id e then mkIe id c :: es else e :: put_ie id c es
  end.

Lemma put_ie_split id c es1 e es2 :
  Forall (fun x => has_id id x = false) es1 -> has_id id e = true ->
  put_ie id c (es1 ++ e :: es2) = es1 ++ mkIe id c :: es2.
Proof.
  intros H He. induction H as [|x es1 Hx _ IH]; simpl; [by rewrite He|].
  by rewrite Hx, IH.
Qed.

Lemma put_ie_none id c es :
  Forall (fun x => has_id id x = false) es -> put_ie id c es = es ++ [mkIe id c].
Proof. induction 1 as [|x es Hx _ IH]; simpl; [done|]. by rewrite Hx, IH. Qed.

Lemma find_put_ie id c es p :
  exists q, find_by (has_id id) (put_ie id c es) p = Some (q, mkIe id c).
Proof.
  revert p. induction es as [|e es IH]; intros p.
  - exists p. simpl. unfold has_id. simpl. by rewrite Z.eqb_refl.
  - simpl. destruct (has_id id e) eqn:E.
    + exists p. simpl. unfold has_id at 1. simpl. by rewrite Z.eqb_refl.
    + simpl. rewrite E. apply IH.
Qed.

Lemma put_ie_nonempty id c es : put_ie id c es <> [].
Proof. destruct es; simpl; [done|]. by destruct (has_id id i). Qed.

(** [rtw_get_ie] for the callers that skip a fixed prefix, empty lists too. *)
Lemma get_ie_after_fixed es fixed post id :
  rtw_get_ie (fixed ++ enc_ies es ++ post) (0 + zlen fixed) id 0
    (zlen fixed + zlen (enc_ies es) - zlen fixed) =
  Ok (match find_by (has_id id) es (zlen fixed) with
      | Some (q, e) => (Some q, zlen (ie_data e)) | None => (None, 0) end).
Proof.
  rewrite Z.add_0_l. replace (_ + _ - _) with (zlen (enc_ies es)) by lia.
  destruct es as [|e es]; [done|]. apply get_ie_spec; [by exists fixed, post | done].
Qed.

(** An update with a nonempty set of capabilities. *)
Lemma update_ext_cap_put es fixed post d n :
  Forall (fun e => has_id WLAN_EID_EXT_CAP e = true -> ie_data e <> []) es ->
  byte n -> 0 < n <= zlen d -> n + 2 <= zlen post ->
  zlen fixed + zlen (enc_ies es) < 2 ^ 31 ->
  let es' := put_ie WLAN_EID_EXT_CAP (take (Z.to_nat n) d) es in
  exists post',
    rtw_update_ext_cap_ie true d n (fixed ++ enc_ies es ++ post) 0
      (zlen fixed + zlen (enc_ies es)) (zlen fixed) =
    Ok (fixed ++ enc_ies es' ++ post', zlen fixed + zlen (enc_ies es')).
Proof.
  intros Hne Hn Hd Hp Hb es'. unfold rtw_update_ext_cap_ie.
  replace (negb (n =? 0)) with true by lia. rewrite get_ie_after_fixed. cbn [mbind res_bind].
  destruct (find_by _ es _) as [[q e]|] eqn:E.
  - apply find_by_Some in E as (es1 & es2 & -> & Hno & He & _).
    apply Forall_app in Hne as [_ Hne]. inversion_clear Hne as [|? ? Hne' _].
    assert (Hid : ie_id e = WLAN_EID_EXT_CAP) by (unfold has_id in He; lia).
    destruct (ies_update_spec true es1 e es2 fixed post d n) as (post' & HR & _);
      rewrite ?Hid; auto; try lia; [zl|].
    rewrite Hid in HR. rewrite HR. cbn [mbind res_bind]. exists post'.
    unfold es'. by rewrite put_ie_split.
  - apply find_by_None in E. unfold es'. rewrite put_ie_none by done.
    rewrite <- (take_drop (Z.to_nat (n + 2)) post).
    rewrite (app_assoc fixed). rewrite Z.add_0_l, <- zlen_app.
    rewrite set_ie_spec; [|done|done|lia|apply list_take_zlen; lia].
    cbn [mbind res_bind]. exists (drop (Z.to_nat (n + 2)) post).
    rewrite !enc_ies_app, enc_ies_cons. unfold enc_ies at 4. simpl concat. rewrite app_nil_r, <- !app_assoc.
    unfold mret, res_ret. do 2 f_equal. autorewrite with zlen. cbn [ie_data].
    rewrite list_take_zlen by lia. lia.
Qed.

(** What is parsed back from a buffer that holds the element. *)
Lemma parse_ext_cap_put es fixed post c d0 :
  0 < zlen c <= zlen d0 ->
  rtw_parse_ext_cap_ie d0 0
    (fixed ++ enc_ies (put_ie WLAN_EID_EXT_CAP c es) ++ post) 0
    (zlen fixed + zlen (enc_ies (put_ie WLAN_EID_EXT_CAP c es))) (zlen fixed) =
  Ok (c ++ drop (length c) d0, zlen c).
Proof.
  intros Hc. unfold rtw_parse_ext_cap_ie. rewrite get_ie_after_fixed. cbn [mbind res_bind].
  destruct (find_put_ie WLAN_EID_EXT_CAP c es (zlen fixed)) as [q Hq].
  rewrite Hq. cbn [ie_data]. change (0 =? 0) with true. cbv iota.
  apply find_by_Some in Hq as (es1 & es2 & -> & _ & _ & ->).
  rewrite (at_off_rd_n _ _ c (zlen c)); [|..].
  - cbn [mbind res_bind]. pose proof (wr_grow [] d0 [] c) as Q. rewrite !app_nil_r in Q.
    simpl app in Q. rewrite zlen_nil in Q. rewrite Q by zl. done.
  - rewrite enc_ies_app, enc_ies_cons. unfold enc_ie. cbn [ie_id ie_data].
    exists (fixed ++ enc_ies es1 ++ [WLAN_EID_EXT_CAP; zlen c]), (enc_ies es2 ++ post).
    rewrite <- !app_assoc. split; [done|]. zl.
  - reflexivity.
Qed.

(** A received element longer than the driver's array is copied into it. *)
Lemma parse_ext_cap_overflow :
  rtw_parse_ext_cap_ie (repeat 0 10) 0 (enc_ies [mkIe WLAN_EID_EXT_CAP (repeat 255 11)]) 0 13 0 = Oob.
Proof. reflexivity. Qed.

(** ** Searches that skip elements they do not want *)

(** The vendor searches on elements: all comparisons read the element's own
    contents. *)
Definition vendor_is (oui : list Z) (e : ie) : bool := ex_hit WLAN_EID_VENDOR_SPECIFIC (Some oui) 4 e.

Lemma special_loop_spec (hit : Z -> Z -> res bool) (f : ie -> bool) es b in_ie cnt in_len fuel :
  at_off b (in_ie + cnt) (enc_ies es) -> in_len = cnt + zlen (enc_ies es) -> in_len <= MAX_IE_SZ ->
  (forall e p, e ∈ es -> 5 < in_len - (p - in_ie) -> at_off b (p + 2) (ie_data e) ->
     hit (ie_id e) p = Ok (f e)) ->
  (forall e, e ∈ es -> f e = true -> 4 <= zlen (ie_data e)) ->
  (Z.to_nat (zlen (enc_ies es)) <= fuel)%nat ->
  get_special_ie_loop hit fuel b in_ie cnt in_len None =
    Ok (match find_by f es (in_ie + cnt) with
        | Some (q, e) => (Some q, zlen (ie_data e) + 2, None) | None => (None, 0, None) end).
Proof.
  revert cnt fuel. induction es as [|e es IH]; intros cnt fuel Hat Hlen Hmax Hhit Hlong Hf.
  - destruct fuel; simpl; replace (cnt + 1 + 4 <? in_len) with false; try done;
      unfold enc_ies in Hlen; simpl in Hlen; zl.
  - apply at_off_ies in Hat as (H0 & H1 & H2 & Hes).
    destruct fuel as [|fuel]; [exfalso; zl|]. cbn [get_special_ie_loop find_by].
    destruct (Z.ltb_spec (cnt + 1 + 4) in_len) as [Hlt|Hge].
    + rewrite H0. cbn [mbind res_bind]. unfold MAX_IE_SZ in *.
      replace (768 <=? _) with false by lia.
      rewrite (Hhit e) by (set_solver || lia || done). cbn [mbind res_bind]. rewrite H1. cbn [mbind res_bind].
      destruct (f e); [done|].
      replace (in_ie + cnt + (zlen (ie_data e) + 2)) with (in_ie + (cnt + (zlen (ie_data e) + 2))) in * by lia.
      apply IH; auto; try zl; intros; [apply Hhit | apply Hlong]; set_solver.
    + assert (Hshort : forall e', e' ∈ e :: es -> f e' = false).
      { intros e' Hin. destruct (f e') eqn:E; [|done]. exfalso.
        assert (zlen (ie_data e') + 2 <= zlen (enc_ies (e :: es))).
        { clear -Hin. induction (e :: es) as [|x l IH]; [set_solver|].
          apply elem_of_cons in Hin as [->|Hin]; [zl|]. specialize (IH Hin). zl. }
        specialize (Hlong e' Hin E). lia. }
      replace (if f e then _ else _) with (@None (Z * ie)); [done|].
      rewrite (Hshort e) by set_solver. symmetry.
      assert (forall l p, (forall e', e' ∈ l -> f e' = false) -> find_by f l p = None) as Q.
      { clear. induction l as [|x l IH]; intros p H; [done|]. simpl. rewrite H by set_solver.
        apply IH. set_solver. }
      apply Q. set_solver.
Qed.

Lemma vendor_hit_spec b oui e p :
  zlen oui = 4 -> (ie_id e = WLAN_EID_VENDOR_SPECIFIC -> 4 <= zlen (ie_data e)) ->
  at_off b (p + 2) (ie_data e) -> vendor_hit b oui (ie_id e) p = Ok (vendor_is oui e).
Proof.
  intros Ho Hl Hat. unfold vendor_hit, vendor_is, ex_hit. rewrite (Z.eqb_sym WLAN_EID_VENDOR_SPECIFIC).
  destruct (Z.eqb_spec (ie_id e) WLAN_EID_VENDOR_SPECIFIC) as [E|E]; [|done]. simpl andb.
  unfold memcmp. rewrite (rd_n_at b _ (ie_data e)) by (auto; specialize (Hl E); lia).
  cbn [mbind res_bind]. rewrite (rd_n_prefix oui) by lia. done.
Qed.

(** The searches for WPS, P2P and WFD elements find the first one. *)
Lemma get_vendor_spec oui es b p :
  zlen oui = 4 -> at_off b p (enc_ies es) -> zlen (enc_ies es) <= MAX_IE_SZ ->
  Forall (fun e => ie_id e = WLAN_EID_VENDOR_SPECIFIC -> 4 <= zlen (ie_data e)) es ->
  get_special_ie (vendor_hit b oui) b (Some p) (zlen (enc_ies es)) None =
    Ok (match find_by (vendor_is oui) es p with
        | Some (q, e) => (Some q, zlen (ie_data e) + 2, None) | None => (None, 0, None) end).
Proof.
  intros Ho Hat Hmax Hl. rewrite Forall_forall in Hl. unfold get_special_ie.
  destruct (Z.leb_spec (zlen (enc_ies es)) 0).
  { destruct es; [done|]. exfalso. zl. }
  pose proof (special_loop_spec (vendor_hit b oui) (vendor_is oui) es b p 0 (zlen (enc_ies es))
    (Z.to_nat (zlen (enc_ies es)))) as L. rewrite Z.add_0_r in L. apply L; auto; try lia.
  - intros. by apply vendor_hit_spec; auto.
  - intros e He E. apply Hl; [done|]. unfold vendor_is, ex_hit in E.
    apply andb_prop in E as [E _]. lia.
Qed.

(** On arbitrary bytes these searches stay within [in_len], when nothing is
    copied out, and what they find starts there. *)
Lemma special_loop_safe hit b in_ie cnt in_len fuel :
  bytes b -> 0 <= in_ie -> 0 <= cnt -> in_ie + in_len <= zlen b ->
  (forall eid p, in_ie <= p -> p + 6 <= in_ie + in_len -> exists h, hit eid p = Ok h) ->
  (Z.to_nat (in_len - cnt) <= fuel)%nat ->
  exists q l, get_special_ie_loop hit fuel b in_ie cnt in_len None = Ok (q, l, None) /\
    (forall q', q = Some q' -> in_ie + cnt <= q' /\ q' + 6 <= in_ie + in_len).
Proof.
  intros Hb Hi. revert cnt. induction fuel as [|fuel IH]; intros cnt Hc Hl Hhit Hf.
  - simpl. replace (_ <? _) with false by lia. exists None, 0. done.
  - cbn [get_special_ie_loop]. destruct (Z.ltb_spec (cnt + 1 + 4) in_len); [|by exists None, 0].
    destruct (rd_byte b (in_ie + cnt) Hb) as (x & -> & _); [lia|].
    destruct (rd_byte b (in_ie + cnt + 1) Hb) as (l & Hl' & Hlb); [lia|]. unfold byte in Hlb.
    cbn [mbind res_bind]. destruct (MAX_IE_SZ <=? _); [by exists None, 0|].
    destruct (Hhit x (in_ie + cnt)) as [h ->]; [lia|lia|]. cbn [mbind res_bind].
    rewrite Hl'. cbn [mbind res_bind]. destruct h.
    + exists (Some (in_ie + cnt)), (l + 2). split; [done|]. intros q' [= <-]. lia.
    + destruct (IH (cnt + (l + 2))) as (q & l' & HR & Hq); try lia; [done|].
      exists q, l'. split; [done|]. intros q' E. specialize (Hq q' E). lia.
Qed.

Lemma get_vendor_safe oui b p in_len :
  zlen oui = 4 -> bytes b -> 0 <= p -> p + in_len <= zlen b ->
  exists q l, get_special_ie (vendor_hit b oui) b (Some p) in_len None = Ok (q, l, None) /\
    (forall q', q = Some q' -> p <= q' /\ q' + 6 <= p + in_len).
Proof.
  intros Ho Hb Hp Hl. unfold get_special_ie. destruct (Z.leb_spec in_len 0); [by exists None, 0|].
  destruct (special_loop_safe (vendor_hit b oui) b p 0 in_len (Z.to_nat in_len)) as (q & l & HR & Hq);
    auto; try lia.
  - intros eid p' H1 H2. unfold vendor_hit. destruct (_ =? _); [|by eexists].
    unfold memcmp. destruct (rd_n_in b (p' + 2) 4) as (x & -> & _); [lia..|].
    cbn [mbind res_bind]. rewrite rd_n_prefix by lia. by eexists.
  - exists q, l. split; [done|]. intros q' E. specialize (Hq q' E). lia.
Qed.
