(* ===== verification/IeParse.v ===== *)
(** * Parsing the elements of a management frame (src/core/rtw_ieee80211.c)

    [rtw_ieee802_11_parse_elems] with the two functions it calls.  The struct
    it fills, [struct rtw_ieee802_11_elems], is a pointer and a length per known
    element: here a map from the names of the pointers to offset and length,
    [None] where the pointer is [NULL].  The mesh and token-based-transmission
    members are not compiled. *)

From S2P Require Import Prelude IeBuf IeSearch.

Inductive elem_name :=
  | ssid | supp_rates | fh_params | ds_params | cf_params | tim | ibss_params | challenge
  | erp_info | ext_supp_rates | wpa_ie | rsn_ie | wme | wme_tspec | wps_ie | power_cap
  | supp_channels | mdie | ftie | timeout_int | ht_capabilities | ht_operation | vendor_ht_cap
  | vht_capabilities | vht_operation | vht_op_mode_notify | he_capabilities | he_operation
  | rm_en_cap.

#[export] Instance elem_name_eq_dec : EqDecision elem_name.
Proof. solve_decision. Defined.

Definition elems := elem_name -> option (Z * Z).

Definition no_elems : elems := fun _ => None.
Definition set_elem (el : elems) (f : elem_name) (pos len : Z) : elems :=
  fun g => if decide (g = f) then Some (pos, len) else el g.

Inductive ParseRes := ParseOK | ParseUnknown | ParseFailed.

(** ** Constants (src/include/ieee80211.h, wifi.h) *)

Definition OUI_MICROSOFT := 20722.     (* 0x0050f2 *)
Definition OUI_BROADCOM := 36940.      (* 0x00904c *)
Definition WME_OUI_TYPE := 2.
Definition WME_OUI_SUBTYPE_INFORMATION_ELEMENT := 0.
Definition WME_OUI_SUBTYPE_PARAMETER_ELEMENT := 1.
Definition WME_OUI_SUBTYPE_TSPEC_ELEMENT := 2.
Definition VENDOR_HT_CAPAB_OUI_TYPE := 51.
Definition WLAN_EID_EXTENSION_HE_CAPABILITY := 35.
Definition WLAN_EID_EXTENSION_HE_OPERATION := 36.

(** The member assigned for each plain identifier of the switch. *)
Definition plain_elem (id : Z) : option elem_name :=
  if id =? 0 then Some ssid                       (* WLAN_EID_SSID *)
  else if id =? 1 then Some supp_rates            (* WLAN_EID_SUPP_RATES *)
  else if id =? 2 then Some fh_params             (* WLAN_EID_FH_PARAMS *)
  else if id =? 3 then Some ds_params             (* WLAN_EID_DS_PARAMS *)
  else if id =? 4 then Some cf_params             (* WLAN_EID_CF_PARAMS *)
  else if id =? 5 then Some tim                   (* WLAN_EID_TIM *)
  else if id =? 6 then Some ibss_params           (* WLAN_EID_IBSS_PARAMS *)
  else if id =? 16 then Some challenge            (* WLAN_EID_CHALLENGE *)
  else if id =? 42 then Some erp_info             (* WLAN_EID_ERP_INFO *)
  else if id =? 50 then Some ext_supp_rates       (* WLAN_EID_EXT_SUPP_RATES *)
  else if id =? 48 then Some rsn_ie               (* WLAN_EID_RSN *)
  else if id =? 33 then Some power_cap            (* WLAN_EID_PWR_CAPABILITY *)
  else if id =? 36 then Some supp_channels        (* WLAN_EID_SUPPORTED_CHANNELS *)
  else if id =? 54 then Some mdie                 (* WLAN_EID_MOBILITY_DOMAIN *)
  else if id =? 55 then Some ftie                 (* WLAN_EID_FAST_BSS_TRANSITION *)
  else if id =? 56 then Some timeout_int          (* WLAN_EID_TIMEOUT_INTERVAL *)
  else if id =? 45 then Some ht_capabilities      (* WLAN_EID_HT_CAP *)
  else if id =? 61 then Some ht_operation         (* WLAN_EID_HT_OPERATION *)
  else if id =? 191 then Some vht_capabilities    (* WLAN_EID_VHT_CAPABILITY *)
  else if id =? 192 then Some vht_operation       (* WLAN_EID_VHT_OPERATION *)
  else if id =? 199 then Some vht_op_mode_notify  (* WLAN_EID_VHT_OP_MODE_NOTIFY *)
  else if id =? 70 then Some rm_en_cap            (* _EID_RRM_EN_CAP_IE_ *)
  else None.

(** ** The parser *)

(** The C return value ([0] or [-1]) and the struct. *)
Definition rtw_ieee802_11_parse_vendor_specific (b : list Z) (pos elen : Z) (el : elems) :
    res (Z * elems) :=
  if elen <? 4 then mret (-1, el) else
  oui ← RTW_GET_BE24 b pos;
  if oui =? OUI_MICROSOFT then
    x3 ← rd b (pos + 3);
    if x3 =? 1 then mret (0, set_elem el wpa_ie pos elen)
    else if x3 =? WME_OUI_TYPE then
      if elen <? 5 then mret (-1, el) else
      x4 ← rd b (pos + 4);
      if (x4 =? WME_OUI_SUBTYPE_INFORMATION_ELEMENT) || (x4 =? WME_OUI_SUBTYPE_PARAMETER_ELEMENT)
      then mret (0, set_elem el wme pos elen)
      else if x4 =? WME_OUI_SUBTYPE_TSPEC_ELEMENT then mret (0, set_elem el wme_tspec pos elen)
      else mret (-1, el)
    else if x3 =? 4 then mret (0, set_elem el wps_ie pos elen)
    else mret (-1, el)
  else if oui =? OUI_BROADCOM then
    x3 ← rd b (pos + 3);
    if x3 =? VENDOR_HT_CAPAB_OUI_TYPE then mret (0, set_elem el vendor_ht_cap pos elen)
    else mret (-1, el)
  else mret (-1, el).

Definition rtw_ieee802_11_parse_ext_elems (b : list Z) (start elen : Z) (el : elems) :
    res (Z * elems) :=
  id ← rd b start;
  if id =? WLAN_EID_EXTENSION_HE_CAPABILITY then mret (0, set_elem el he_capabilities start elen)
  else if id =? WLAN_EID_EXTENSION_HE_OPERATION then mret (0, set_elem el he_operation start elen)
  else mret (-1, el).

(** The switch on the identifier: the struct and the count of unknown elements. *)
Definition parse_elem (b : list Z) (id pos elen : Z) (el : elems) (unknown : Z) : res (elems * Z) :=
  if id =? WLAN_EID_VENDOR_SPECIFIC then
    '(r, el) ← rtw_ieee802_11_parse_vendor_specific b pos elen el;
    mret (el, if r =? 0 then unknown else unknown + 1)
  else if id =? WLAN_EID_EXTENSION then
    '(_, el) ← rtw_ieee802_11_parse_ext_elems b pos elen el;
    mret (el, unknown)
  else match plain_elem id with
       | Some f => mret (set_elem el f pos elen, unknown)
       | None => mret (el, unknown + 1)
       end.

Fixpoint parse_elems_loop (fuel : nat) (b : list Z) (pos left unknown : Z) (el : elems) :
    res (ParseRes * elems) :=
  if 2 <=? left then
    match fuel with
    | O => Fuel
    | S fuel =>
        id ← rd b pos;
        elen ← rd b (pos + 1);
        let pos := pos + 2 in
        let left := left - 2 in
        if left <? elen then mret (ParseFailed, el) else
        '(el, unknown) ← parse_elem b id pos elen el unknown;
        parse_elems_loop fuel b (pos + elen) (left - elen) unknown el
    end
  else if negb (left =? 0) then mret (ParseFailed, el)
  else mret (if unknown =? 0 then ParseOK else ParseUnknown, el).

Definition rtw_ieee802_11_parse_elems (b : list Z) (start len : Z) : res (ParseRes * elems) :=
  parse_elems_loop (Z.to_nat len) b start len 0 no_elems.
