(* ===== verification/IeParseThm.v ===== *)
(** * Theorems on the element parser

    Every byte string is a list of complete elements followed by a truncated
    one or nothing ([ies_split]).  On it [rtw_ieee802_11_parse_elems] reports
    failure exactly when something is truncated, and each pointer it returns is
    the last complete element of its kind; on arbitrary bytes it ends, reads
    nothing but its range and the byte behind it, and returns only ranges inside
    it. *)

From S2P Require Import Prelude IeBuf IeSearch IeSearchThm IeEditThm IeParse.

(** ** What an element is *)

Inductive verdict := Known (f : elem_name) | Ignored | Unknown.

#[export] Instance verdict_eq_dec : EqDecision verdict.
Proof. solve_decision. Defined.

Definition vendor_class (d : list Z) : verdict :=
  match d with
  | o0 :: o1 :: o2 :: t :: rest =>
      if bool_decide ([o0; o1; o2] = [0; 80; 242]) then
        if t =? 1 then Known wpa_ie
        else if t =? 2 then
          match rest with
          | [] => Unknown
          | s :: _ => if (s =? 0) || (s =? 1) then Known wme
                      else if s =? 2 then Known wme_tspec else Unknown
          end
        else if t =? 4 then Known wps_ie else Unknown
      else if bool_decide ([o0; o1; o2] = [0; 144; 76]) then
        if t =? 51 then Known vendor_ht_cap else Unknown
      else Unknown
  | _ => Unknown
  end.

Definition classify (e : ie) : verdict :=
  if ie_id e =? WLAN_EID_VENDOR_SPECIFIC then vendor_class (ie_data e)
  else if ie_id e =? WLAN_EID_EXTENSION then
    match ie_data e with
    | x :: _ => if x =? 35 then Known he_capabilities
                else if x =? 36 then Known he_operation else Ignored
    | [] => Ignored
    end
  else match plain_elem (ie_id e) with Some f => Known f | None => Unknown end.

Definition is_unknown (e : ie) : bool := bool_decide (classify e = Unknown).

(** Offset and length of the contents of the last element of kind [f]. *)
Fixpoint last_of (f : elem_name) (es : list ie) (p : Z) : option (Z * Z) :=
  match es with
  | [] => None
  | e :: es =>
      match last_of f es (p + (zlen (ie_data e) + 2)) with
      | Some r => Some r
      | None => if decide (classify e = Known f) then Some (p + 2, zlen (ie_data e)) else None
      end
  end.

(** ** The split of a byte string *)

Definition truncated (rest : list Z) : Prop :=
  match rest with [] | [_] => True | _ :: n :: r => zlen r < n end.

Lemma ies_split l : bytes l -> exists es rest, l = enc_ies es ++ rest /\ wf_ies es /\ truncated rest.
Proof.
  remember (length l) as n eqn:Hn. assert (Hle : (length l <= n)%nat) by lia. clear Hn.
  revert l Hle. induction n as [|n IH]; intros l Hle Hb.
  { destruct l; [|simpl in Hle; lia]. exists [], []. repeat split. constructor. }
  destruct l as [|x [|m r]].
  - exists [], []. repeat split. constructor.
  - exists [], [x]. repeat split. constructor.
  - destruct (Z_lt_dec (zlen r) m) as [Ht|Ht].
    { exists [], (x :: m :: r). repeat split; [constructor|done]. }
    inversion_clear Hb as [|? ? Hx Hb']. inversion_clear Hb' as [|? ? Hm Hr]. unfold byte in Hm.
    destruct (IH (drop (Z.to_nat m) r)) as (es & rest & E & Hwf & Htr).
    { rewrite length_drop. simpl in Hle. lia. }
    { by apply Forall_drop. }
    assert (Hz : zlen (take (Z.to_nat m) r) = m) by (apply list_take_zlen; lia).
    exists (mkIe x (take (Z.to_nat m) r) :: es), rest. repeat split; [|constructor|]; try done.
    + rewrite enc_ies_cons. unfold enc_ie. cbn [ie_id ie_data]. rewrite Hz.
      rewrite <- app_assoc. rewrite <- E. simpl. by rewrite take_drop.
    + split; [done|]. split; [by apply Forall_take|]. simpl. lia.
Qed.

(** ** One element *)

Lemma be24_eq x0 x1 x2 v0 v1 v2 :
  byte x0 -> byte x1 -> byte x2 -> byte v0 -> byte v1 -> byte v2 ->
  (Z.lor (Z.lor (Z.shiftl x0 16) (Z.shiftl x1 8)) x2 =? 65536 * v0 + 256 * v1 + v2) =
  bool_decide ([x0; x1; x2] = [v0; v1; v2]).
Proof.
  intros H0 H1 H2 G0 G1 G2.
  replace (Z.shiftl x0 16) with (Z.shiftl (Z.shiftl x0 8) 8) by (rewrite Z.shiftl_shiftl by lia; done).
  rewrite <- Z.shiftl_lor, !lor_shift8_gen by done.
  unfold byte in *. case_bool_decide as E; [injection E as -> -> ->; lia|].
  apply Z.eqb_neq. intros Q. apply E. f_equal; [lia|]. f_equal; [lia|]. f_equal. lia.
Qed.

Definition apply_verdict (v : verdict) (el : elems) (u pos len : Z) : elems * Z :=
  match v with
  | Known f => (set_elem el f pos len, u)
  | Ignored => (el, u)
  | Unknown => (el, u + 1)
  end.

Lemma parse_vendor_spec b pos d el :
  bytes d -> at_off b pos d ->
  exists r el', rtw_ieee802_11_parse_vendor_specific b pos (zlen d) el = Ok (r, el') /\
    forall u, (el', if r =? 0 then u else u + 1) = apply_verdict (vendor_class d) el u pos (zlen d).
Proof.
  intros Hb Hat. unfold rtw_ieee802_11_parse_vendor_specific.
  destruct d as [|o0 [|o1 [|o2 [|t rest]]]]; try (do 2 eexists; split; [reflexivity|done]).
  replace (_ <? 4) with false by zl. unfold RTW_GET_BE24.
  apply at_off_cons in Hat as [R0 Hat]. apply at_off_cons in Hat as [R1 Hat].
  apply at_off_cons in Hat as [R2 Hat]. apply at_off_cons in Hat as [R3 Hat].
  replace (pos + 1 + 1) with (pos + 2) in * by lia. replace (pos + 2 + 1) with (pos + 3) in * by lia.
  rewrite R0, R1, R2. cbn [mbind res_bind mret res_ret].
  inversion_clear Hb as [|? ? B0 Hb']. inversion_clear Hb' as [|? ? B1 Hb]. inversion_clear Hb as [|? ? B2 _].
  change OUI_MICROSOFT with (65536 * 0 + 256 * 80 + 242).
  change OUI_BROADCOM with (65536 * 0 + 256 * 144 + 76).
  rewrite !be24_eq by (done || (unfold byte; lia)). rewrite R3. cbn [mbind res_bind].
  unfold vendor_class, WME_OUI_TYPE, VENDOR_HT_CAPAB_OUI_TYPE, WME_OUI_SUBTYPE_INFORMATION_ELEMENT,
    WME_OUI_SUBTYPE_PARAMETER_ELEMENT, WME_OUI_SUBTYPE_TSPEC_ELEMENT.
  destruct (bool_decide _); [|destruct (bool_decide _)].
  - destruct (t =? 1); [by do 2 eexists|]. destruct (t =? 2).
    + destruct rest as [|s rest]; [by do 2 eexists|].
      apply at_off_cons in Hat as [R4 _]. replace (pos + 3 + 1) with (pos + 4) in R4 by lia.
      replace (_ <? 5) with false by zl. rewrite R4. cbn [mbind res_bind].
      repeat (case_if; [by do 2 eexists|]). by do 2 eexists.
    + case_if; by do 2 eexists.
  - case_if; by do 2 eexists.
  - by do 2 eexists.
Qed.

(** An extension element without contents is excluded: the code then reads the
    byte behind it. *)
Definition ext_nonempty (e : ie) : Prop := ie_id e = WLAN_EID_EXTENSION -> ie_data e <> [].

#[export] Instance ext_nonempty_dec e : Decision (ext_nonempty e).
Proof. unfold ext_nonempty. apply _. Defined.

Lemma parse_elem_spec b pos e el u :
  bytes (ie_data e) -> at_off b pos (ie_data e) -> ext_nonempty e ->
  parse_elem b (ie_id e) pos (zlen (ie_data e)) el u =
    Ok (apply_verdict (classify e) el u pos (zlen (ie_data e))).
Proof.
  intros Hb Hat Hext. unfold parse_elem, classify.
  destruct (ie_id e =? WLAN_EID_VENDOR_SPECIFIC).
  - destruct (parse_vendor_spec b pos (ie_data e) el Hb Hat) as (r & el' & -> & Hv).
    cbn [mbind res_bind]. by rewrite Hv.
  - destruct (Z.eqb_spec (ie_id e) WLAN_EID_EXTENSION) as [E|E].
    + specialize (Hext E). unfold rtw_ieee802_11_parse_ext_elems,
        WLAN_EID_EXTENSION_HE_CAPABILITY, WLAN_EID_EXTENSION_HE_OPERATION.
      destruct (ie_data e) as [|x d]; [done|]. apply at_off_cons in Hat as [-> _].
      cbn [mbind res_bind]. repeat (case_if; [done|]). done.
    + by destruct (plain_elem (ie_id e)).
Qed.

(** ** The whole buffer *)

Lemma parse_loop_spec es rest b p u el fuel :
  at_off b p (enc_ies es ++ rest) -> wf_ies es -> truncated rest -> Forall ext_nonempty es ->
  0 <= u -> (Z.to_nat (zlen (enc_ies es ++ rest)) <= fuel)%nat ->
  exists el',
    parse_elems_loop fuel b p (zlen (enc_ies es ++ rest)) u el =
      Ok (match rest with
          | [] => if (u =? 0) && negb (existsb is_unknown es) then ParseOK else ParseUnknown
          | _ => ParseFailed end, el') /\
    forall f, el' f = match last_of f es p with Some r => Some r | None => el f end.
Proof.
  revert p u el fuel. induction es as [|e es IH]; intros p u el fuel Hat Hwf Htr Hext Hu Hf.
  - exists el. split; [|done]. unfold enc_ies in *. simpl concat in *. simpl app in *.
    rewrite andb_true_r. destruct rest as [|x [|m r]]; [by destruct fuel | by destruct fuel|].
    destruct fuel as [|fuel]; [exfalso; zl|]. cbn [parse_elems_loop].
    replace (2 <=? _) with true by zl.
    apply at_off_cons in Hat as [-> Hat]. apply at_off_cons in Hat as [-> _]. cbn [mbind res_bind].
    simpl in Htr. replace (_ <? m) with true by zl. done.
  - inversion_clear Hwf as [|? ? (Hid & Hby & Hlt) Hwf']. inversion_clear Hext as [|? ? He Hext'].
    rewrite enc_ies_cons, <- app_assoc in *. pose proof Hat as Hat0.
    apply at_off_app in Hat as [Hhd Htl]. rewrite zlen_enc_ie in Htl.
    unfold enc_ie in Hhd. apply at_off_cons in Hhd as [R0 Hhd]. apply at_off_cons in Hhd as [R1 Hd].
    replace (p + 1 + 1) with (p + 2) in Hd by lia.
    destruct fuel as [|fuel]; [exfalso; zl|]. cbn [parse_elems_loop].
    replace (2 <=? _) with true by zl. rewrite R0, R1. cbn [mbind res_bind].
    replace (_ <? zlen (ie_data e)) with false by zl.
    rewrite parse_elem_spec by done. cbn [mbind res_bind].
    destruct (apply_verdict _ _ _ _ _) as [el1 u1] eqn:Ev.
    replace (p + 2 + zlen (ie_data e)) with (p + (zlen (ie_data e) + 2)) by lia.
    replace (zlen (enc_ie e ++ enc_ies es ++ rest) - 2 - zlen (ie_data e)) with
      (zlen (enc_ies es ++ rest)) by zl.
    destruct (IH (p + (zlen (ie_data e) + 2)) u1 el1 fuel) as (el' & HR & Hel); try done.
    { unfold apply_verdict in Ev. destruct (classify e); injection Ev as _ <-; lia. }
    { zl. }
    exists el'. rewrite HR. split.
    + destruct rest; [|done]. simpl existsb. unfold apply_verdict in Ev.
      assert (Hk : is_unknown e = bool_decide (classify e = Unknown)) by done. rewrite Hk. clear Hk.
      destruct (classify e); injection Ev as _ <-; simpl; try done.
      replace (u + 1 =? 0) with false by lia. by rewrite andb_false_r.
    + intros f. rewrite Hel. simpl last_of. destruct (last_of f es _); [done|].
      unfold apply_verdict in Ev. destruct (classify e) as [g| |]; injection Ev as <- _;
        try (by rewrite decide_False).
      unfold set_elem. destruct (decide (f = g)) as [->|Hfg]; [by rewrite decide_True|].
      rewrite decide_False; congruence.
Qed.

(** ** Arbitrary bytes *)

(** Every pointer that is set denotes a range between [lo] and [hi]. *)
Definition elems_within (lo hi : Z) (el : elems) : Prop :=
  forall f q l, el f = Some (q, l) -> lo <= q /\ 0 <= l /\ q + l <= hi.

Definition sets_one (el el' : elems) (pos len : Z) : Prop :=
  forall f, el' f = el f \/ el' f = Some (pos, len).

Lemma sets_one_refl el pos len : sets_one el el pos len.
Proof. intros f. by left. Qed.
Lemma sets_one_set el f pos len : sets_one el (set_elem el f pos len) pos len.
Proof. intros g. unfold set_elem. case_decide; auto. Qed.
Create HintDb ie_sets.
#[local] Hint Resolve sets_one_refl sets_one_set : ie_sets.

Lemma parse_vendor_safe b pos elen el :
  bytes b -> 0 <= pos -> 0 <= elen -> pos + elen <= zlen b ->
  exists r el', rtw_ieee802_11_parse_vendor_specific b pos elen el = Ok (r, el') /\
    sets_one el el' pos elen.
Proof.
  intros Hb Hp He Hl. unfold rtw_ieee802_11_parse_vendor_specific.
  destruct (Z.ltb_spec elen 4); [eauto with ie_sets|]. unfold RTW_GET_BE24.
  destruct (rd_in b pos) as (x0 & -> & _); [lia|].
  destruct (rd_in b (pos + 1)) as (x1 & -> & _); [lia|].
  destruct (rd_in b (pos + 2)) as (x2 & -> & _); [lia|].
  destruct (rd_in b (pos + 3)) as (x3 & -> & _); [lia|].
  cbn [mbind res_bind mret res_ret].
  assert (R4 : 5 <= elen -> exists x4, rd b (pos + 4) = Ok x4).
  { intros. destruct (rd_in b (pos + 4)) as (x4 & ? & _); [lia|eauto]. }
  repeat (case_if; [eauto with ie_sets|..]); eauto with ie_sets;
    try (destruct R4 as [x4 ->]; [lia|]; cbn [mbind res_bind]);
    repeat (case_if; eauto with ie_sets).
Qed.

Lemma parse_elem_safe b id pos elen el u :
  bytes b -> 0 <= pos -> 0 <= elen -> pos + elen <= zlen b ->
  (exists el' u', parse_elem b id pos elen el u = Ok (el', u') /\ sets_one el el' pos elen) \/
  (parse_elem b id pos elen el u = Oob /\ id = WLAN_EID_EXTENSION /\ elen = 0 /\ pos = zlen b).
Proof.
  intros Hb Hp He Hl. unfold parse_elem. case_if.
  { destruct (parse_vendor_safe b pos elen el) as (r & el' & -> & Hs); auto. left. eauto. }
  destruct (Z.eqb_spec id WLAN_EID_EXTENSION) as [Hx|].
  - unfold rtw_ieee802_11_parse_ext_elems. destruct (Z_lt_dec pos (zlen b)).
    + destruct (rd_in b pos) as (x & -> & _); [lia|]. cbn [mbind res_bind]. left.
      repeat case_if; cbn; eauto with ie_sets.
    + right. assert (rd b pos = Oob) as ->; [|repeat split; auto; lia].
      unfold rd. replace (pos <? 0) with false by lia.
      by rewrite (lookup_ge_None_2 b) by (unfold zlen in *; lia).
  - left. destruct (plain_elem id); eauto with ie_sets.
Qed.

Lemma parse_loop_safe b lo hi p left u el fuel :
  bytes b -> 0 <= lo <= p -> 0 <= left -> p + left = hi -> hi <= zlen b ->
  elems_within lo hi el -> (Z.to_nat left <= fuel)%nat ->
  (exists r el', parse_elems_loop fuel b p left u el = Ok (r, el') /\ elems_within lo hi el') \/
  (parse_elems_loop fuel b p left u el = Oob /\ hi = zlen b /\
   rd b (hi - 2) = Ok WLAN_EID_EXTENSION /\ rd b (hi - 1) = Ok 0).
Proof.
  intros Hb. revert p left u el. induction fuel as [|fuel IH]; intros p left u el Hp Hl Hhi Hz Hel Hf.
  { assert (left = 0) as -> by lia. left. cbn. eauto. }
  cbn [parse_elems_loop]. destruct (Z.leb_spec 2 left).
  2:{ left. destruct (negb _); eauto. }
  destruct (rd_byte b p Hb) as (id & Rid & _); [lia|].
  destruct (rd_byte b (p + 1) Hb) as (n & Rn & Hn); [lia|]. unfold byte in Hn.
  rewrite Rid, Rn. cbn [mbind res_bind]. destruct (Z.ltb_spec (left - 2) n); [left; eauto|].
  destruct (parse_elem_safe b id (p + 2) n el u) as [(el' & u' & -> & Hs)|(-> & -> & -> & Hend)];
    try (done || lia).
  - cbn [mbind res_bind]. apply IH; try lia.
    intros f q l E. destruct (Hs f) as [E'|E']; rewrite E in E'; [eauto|].
    injection E' as -> ->. lia.
  - right. cbn [mbind res_bind]. split; [done|]. split; [lia|].
    replace (hi - 2) with p by lia. replace (hi - 1) with (p + 1) by lia. done.
Qed.

(** ** Where the parser reads *)

(** What is read from [lo] on in [b] is the same in [b']. *)
Definition extends (lo : Z) (b b' : list Z) : Prop :=
  forall k x, lo <= k -> rd b k = Ok x -> rd b' k = Ok x.

(** The bytes of the range are the same. *)
Definition agree (lo hi : Z) (b b' : list Z) : Prop := forall k, lo <= k < hi -> rd b' k = rd b k.

Lemma rd_take b n k x : rd (take (Z.to_nat n) b) k = Ok x -> k < n /\ rd b k = Ok x.
Proof.
  unfold rd. destruct (Z.ltb_spec k 0); [done|]. destruct (take _ b !! _) eqn:E; [|done].
  apply lookup_take_Some in E as [-> ?]. intros [= ->]. split; [lia|done].
Qed.

Lemma rd_nonneg b k x : bytes b -> rd b k = Ok x -> 0 <= x.
Proof.
  unfold rd. intros Hb. destruct (Z.ltb_spec k 0); [done|]. destruct (b !! _) eqn:E; [|done]. intros [= <-].
  unfold bytes in Hb. rewrite Forall_lookup in Hb. apply Hb in E. unfold byte in E. lia.
Qed.

Lemma agree_extends lo hi b b' : agree lo hi b b' -> extends lo (take (Z.to_nat hi) b) b'.
Proof. intros H k x Hk [Hh Hx]%rd_take. by rewrite H. Qed.

(** A computation that reads [m] and goes on gives the same where [m] does. *)
Lemma bind_extends {A B} (m m' : res A) (f f' : A -> res B) v :
  (forall x, m = Ok x -> m' = Ok x) -> (forall x, m = Ok x -> f x = Ok v -> f' x = Ok v) ->
  m ≫= f = Ok v -> m' ≫= f' = Ok v.
Proof. intros H1 H2 (x & Hx & Hf)%bind_Ok_inv. rewrite (H1 x Hx), bind_Ok. by apply H2. Qed.

Section extends.
Context (lo : Z) (b b' : list Z) (Hx : extends lo b b').

Lemma parse_vendor_extends pos elen el v : lo <= pos ->
  rtw_ieee802_11_parse_vendor_specific b pos elen el = Ok v ->
  rtw_ieee802_11_parse_vendor_specific b' pos elen el = Ok v.
Proof.
  intros Hp. unfold rtw_ieee802_11_parse_vendor_specific. case_if; [done|].
  apply bind_extends.
  { intros x. unfold RTW_GET_BE24. apply bind_extends; [intros y; apply Hx; lia|]. intros y _.
    apply bind_extends; [intros z; apply Hx; lia|]. intros z _.
    apply bind_extends; [intros w; apply Hx; lia|done]. }
  intros oui _. case_if; [|case_if; [|done]]; (apply bind_extends; [intros y; apply Hx; lia|intros y _; try done]).
  repeat (case_if; [done|]). case_if; [|done]. case_if; [done|].
  apply bind_extends; [intros z; apply Hx; lia|done].
Qed.

Lemma parse_elem_extends id pos elen el u v : lo <= pos ->
  parse_elem b id pos elen el u = Ok v -> parse_elem b' id pos elen el u = Ok v.
Proof.
  intros Hp. unfold parse_elem. case_if; [|case_if; [|done]]; apply bind_extends; try done.
  - intros x. by apply parse_vendor_extends.
  - intros x. unfold rtw_ieee802_11_parse_ext_elems. apply bind_extends; [intros y; by apply Hx|done].
Qed.

Lemma parse_loop_extends fuel p left u el v : bytes b -> lo <= p ->
  parse_elems_loop fuel b p left u el = Ok v -> parse_elems_loop fuel b' p left u el = Ok v.
Proof.
  intros Hb. revert p left u el. induction fuel as [|fuel IH]; intros p left u el Hp; cbn [parse_elems_loop].
  { by case_if. }
  case_if; [|done]. apply bind_extends; [intros x; by apply Hx|]. intros id _.
  apply bind_extends; [intros x; apply Hx; lia|]. intros n Hn%rd_nonneg; [|done].
  case_if; [done|]. apply bind_extends; [intros x; apply parse_elem_extends; lia|].
  intros [el' u'] _. apply IH. lia.
Qed.
End extends.

(** A zero-length extension element at the end: the byte after the buffer is
    read, so the bound of the theorem below is needed. *)
Lemma parse_elems_overread : rtw_ieee802_11_parse_elems [WLAN_EID_EXTENSION; 0] 0 2 = Oob.
Proof. reflexivity. Qed.
