(* ===== verification/IeRsn.v ===== *)
(** * The WPA and RSN elements (src/core/rtw_ieee80211.c)

    Cipher and key-management suites, [rtw_parse_wpa_ie], [rtw_rsne_info_parse]
    and [rtw_parse_wpa2_ie].  The result structs hold offsets into the parsed
    object, [None] for [NULL]. *)

From S2P Require Import Prelude IeBuf IeSearch.

(** ** Suites (tables at the top of rtw_ieee80211.c, bits of ieee80211.h) *)

Definition WPA_CIPHER_NONE := BIT 0.
Definition WPA_CIPHER_WEP40 := BIT 1.
Definition WPA_CIPHER_WEP104 := BIT 2.
Definition WPA_CIPHER_TKIP := BIT 3.
Definition WPA_CIPHER_CCMP := BIT 4.
Definition WPA_CIPHER_GCMP := BIT 5.
Definition WPA_CIPHER_GCMP_256 := BIT 6.
Definition WPA_CIPHER_CCMP_256 := BIT 7.
Definition WPA_CIPHER_BIP_CMAC_128 := BIT 8.
Definition WPA_CIPHER_BIP_GMAC_128 := BIT 9.
Definition WPA_CIPHER_BIP_GMAC_256 := BIT 10.
Definition WPA_CIPHER_BIP_CMAC_256 := BIT 11.

Definition wpa_suite (n : Z) := [0; 80; 242; n].
Definition rsn_suite (n : Z) := [0; 15; 172; n].

(** The chain of [_rtw_memcmp] tests over a table of suites, in order. *)
Fixpoint suite_lookup (b : list Z) (s : Z) (table : list (list Z * Z)) : res Z :=
  match table with
  | [] => mret 0
  | (suite, v) :: table =>
      m ← memcmp b s suite 4;
      if m : bool then mret v else suite_lookup b s table
  end.

Definition wpa_cipher_table : list (list Z * Z) :=
  [(wpa_suite 0, WPA_CIPHER_NONE); (wpa_suite 1, WPA_CIPHER_WEP40); (wpa_suite 2, WPA_CIPHER_TKIP);
   (wpa_suite 4, WPA_CIPHER_CCMP); (wpa_suite 5, WPA_CIPHER_WEP104)].

Definition rsn_cipher_table : list (list Z * Z) :=
  [(rsn_suite 0, WPA_CIPHER_NONE); (rsn_suite 1, WPA_CIPHER_WEP40); (rsn_suite 2, WPA_CIPHER_TKIP);
   (rsn_suite 4, WPA_CIPHER_CCMP); (rsn_suite 8, WPA_CIPHER_GCMP); (rsn_suite 9, WPA_CIPHER_GCMP_256);
   (rsn_suite 10, WPA_CIPHER_CCMP_256); (rsn_suite 5, WPA_CIPHER_WEP104);
   (rsn_suite 6, WPA_CIPHER_BIP_CMAC_128); (rsn_suite 11, WPA_CIPHER_BIP_GMAC_128);
   (rsn_suite 12, WPA_CIPHER_BIP_GMAC_256); (rsn_suite 13, WPA_CIPHER_BIP_CMAC_256)].

(** [WLAN_AKM_TYPE_8021X] is [BIT 0], ..., [WLAN_AKM_TYPE_FT_FILS_SHA384] is [BIT 14]. *)
Definition WLAN_AKM_TYPE_8021X := BIT 0.

Definition akm_table : list (list Z * Z) :=
  [(rsn_suite 1, BIT 0); (rsn_suite 2, BIT 1); (rsn_suite 3, BIT 2); (rsn_suite 4, BIT 3);
   (rsn_suite 5, BIT 4); (rsn_suite 6, BIT 5); (rsn_suite 7, BIT 6); (rsn_suite 8, BIT 7);
   (rsn_suite 9, BIT 8); (rsn_suite 11, BIT 9); (rsn_suite 12, BIT 10); (rsn_suite 14, BIT 11);
   (rsn_suite 15, BIT 12); (rsn_suite 16, BIT 13); (rsn_suite 17, BIT 14)].

Definition rtw_get_wpa_cipher_suite (b : list Z) (s : Z) : res Z := suite_lookup b s wpa_cipher_table.
Definition rtw_get_rsn_cipher_suite (b : list Z) (s : Z) : res Z := suite_lookup b s rsn_cipher_table.
Definition rtw_get_akm_suite_bitmap (b : list Z) (s : Z) : res Z := suite_lookup b s akm_table.

(** [for (i = 0; i < cnt; i++) acc |= get(list + 4 * i)] *)
Fixpoint suites_loop (get : Z -> res Z) (cnt : nat) (p acc : Z) : res Z :=
  match cnt with
  | O => mret acc
  | S cnt => v ← get p; suites_loop get cnt (p + 4) (Z.lor acc v)
  end.

(** ** The WPA element *)

Record wpa_out := mkWpaOut { wo_group : Z; wo_pairwise : Z; wo_akm : Z }.

(** The status and the three outputs; [akm] is not [NULL]. *)
Definition rtw_parse_wpa_ie (b : list Z) (wpa_ie wpa_ie_len : Z) (o : wpa_out) : res (Z * wpa_out) :=
  if wpa_ie_len <=? 0 then mret (_FAIL, o) else
  x0 ← rd b wpa_ie;
  if negb (x0 =? _WPA_IE_ID_) then mret (_FAIL, o) else
  x1 ← rd b (wpa_ie + 1);
  if negb (x1 =? u8 (wpa_ie_len - 2)) then mret (_FAIL, o) else
  m ← memcmp b (wpa_ie + 2) (wpa_suite 1) 4;
  if negb m then mret (_FAIL, o) else
  let pos := wpa_ie + 8 in
  let left := wpa_ie_len - 8 in
  (* group_cipher *)
  if negb (4 <=? left) && (0 <? left) then mret (_FAIL, o) else
  '(o, pos, left) ← (if 4 <=? left then
                       g ← rtw_get_wpa_cipher_suite b pos;
                       mret (mkWpaOut g (wo_pairwise o) (wo_akm o), pos + 4, left - 4)
                     else mret (o, pos, left));
  (* pairwise_cipher *)
  if left =? 1 then mret (_FAIL, o) else
  count ← (if 2 <=? left then RTW_GET_LE16 b pos else mret 0);
  if (2 <=? left) && ((count =? 0) || (left - 2 <? count * 4)) then mret (_FAIL, o) else
  '(o, pos, left) ← (if 2 <=? left then
                       pw ← suites_loop (rtw_get_wpa_cipher_suite b) (Z.to_nat count) (pos + 2) (wo_pairwise o);
                       mret (mkWpaOut (wo_group o) pw (wo_akm o), pos + 2 + 4 * count, left - 2 - 4 * count)
                     else mret (o, pos, left));
  if 6 <=? left then
    m ← memcmp b (pos + 2) (wpa_suite 1) 4;
    mret (_SUCCESS, if m : bool then mkWpaOut (wo_group o) (wo_pairwise o) WLAN_AKM_TYPE_8021X else o)
  else mret (_SUCCESS, o).

(** ** The RSN element *)

Record rsne_info := mkRsne {
  gcs : option Z; pcs_cnt : Z; pcs_list : option Z; akm_cnt : Z; akm_list : option Z;
  cap : option Z; pmkid_cnt : Z; pmkid_list : option Z; gmcs : option Z; err : Z }.

Definition rsne_info0 : rsne_info := mkRsne None 0 None 0 None None 0 None None 0.

Definition set_gcs p i := mkRsne (Some p) (pcs_cnt i) (pcs_list i) (akm_cnt i) (akm_list i) (cap i)
  (pmkid_cnt i) (pmkid_list i) (gmcs i) (err i).
Definition set_pcs n p i := mkRsne (gcs i) n (Some p) (akm_cnt i) (akm_list i) (cap i)
  (pmkid_cnt i) (pmkid_list i) (gmcs i) (err i).
Definition set_akm n p i := mkRsne (gcs i) (pcs_cnt i) (pcs_list i) n (Some p) (cap i)
  (pmkid_cnt i) (pmkid_list i) (gmcs i) (err i).
Definition set_cap p i := mkRsne (gcs i) (pcs_cnt i) (pcs_list i) (akm_cnt i) (akm_list i) (Some p)
  (pmkid_cnt i) (pmkid_list i) (gmcs i) (err i).
Definition set_pmkid n p i := mkRsne (gcs i) (pcs_cnt i) (pcs_list i) (akm_cnt i) (akm_list i) (cap i)
  n (Some p) (gmcs i) (err i).
Definition set_gmcs p i := mkRsne (gcs i) (pcs_cnt i) (pcs_list i) (akm_cnt i) (akm_list i) (cap i)
  (pmkid_cnt i) (pmkid_list i) (Some p) (err i).
Definition set_err i := mkRsne (gcs i) (pcs_cnt i) (pcs_list i) (akm_cnt i) (akm_list i) (cap i)
  (pmkid_cnt i) (pmkid_list i) (gmcs i) 1.

Definition RSN_HEADER_LEN := 4.
Definition RSN_SELECTOR_LEN := 4.
Definition RSN_PMKID_LEN := 16.
Definition RSN_VERSION_BSD := 1.
Definition WLAN_EID_RSN := 48.

(** The labels [exit] and [err]. *)
Definition rsne_exit (i : rsne_info) : res (Z * rsne_info) := mret (_SUCCESS, i).
Definition rsne_err (i : rsne_info) : res (Z * rsne_info) := mret (_FAIL, set_err i).

(** Nothing left is the end of the element, something left is truncated. *)
Definition rsne_end (e pos : Z) (i : rsne_info) : res (Z * rsne_info) :=
  if negb (e =? pos) then rsne_err i else rsne_exit i.

(** One section per suite list, in the order of the element; [e] is
    [ie + ie_len]. *)
Definition rsne_gmcs (b : list Z) (e pos : Z) (i : rsne_info) : res (Z * rsne_info) :=
  if e <? pos + RSN_SELECTOR_LEN then rsne_end e pos i
  else rsne_exit (set_gmcs pos i).

Definition rsne_pmkid (b : list Z) (e pos : Z) (i : rsne_info) : res (Z * rsne_info) :=
  if e <? pos + 2 then rsne_end e pos i else
  cnt ← RTW_GET_LE16 b pos;
  let pos := pos + 2 in
  if e <? pos + RSN_PMKID_LEN * cnt then
    if negb (e =? pos) || negb (cnt =? 0) then rsne_err i else rsne_exit i
  else rsne_gmcs b e (pos + RSN_PMKID_LEN * cnt) (set_pmkid cnt pos i).

Definition rsne_cap (b : list Z) (e pos : Z) (i : rsne_info) : res (Z * rsne_info) :=
  if e <? pos + 2 then rsne_end e pos i
  else rsne_pmkid b e (pos + 2) (set_cap pos i).

Definition rsne_akm (b : list Z) (e pos : Z) (i : rsne_info) : res (Z * rsne_info) :=
  if e <? pos + 2 then rsne_end e pos i else
  cnt ← RTW_GET_LE16 b pos;
  let pos := pos + 2 in
  if cnt =? 0 then rsne_err i else
  if e <? pos + RSN_SELECTOR_LEN * cnt then rsne_end e pos i
  else rsne_cap b e (pos + RSN_SELECTOR_LEN * cnt) (set_akm cnt pos i).

Definition rsne_pcs (b : list Z) (e pos : Z) (i : rsne_info) : res (Z * rsne_info) :=
  if e <? pos + 2 then rsne_end e pos i else
  cnt ← RTW_GET_LE16 b pos;
  let pos := pos + 2 in
  if cnt =? 0 then rsne_err i else
  if e <? pos + RSN_SELECTOR_LEN * cnt then rsne_end e pos i
  else rsne_akm b e (pos + RSN_SELECTOR_LEN * cnt) (set_pcs cnt pos i).

Definition rsne_gcs (b : list Z) (e pos : Z) (i : rsne_info) : res (Z * rsne_info) :=
  if e <? pos + RSN_SELECTOR_LEN then rsne_end e pos i
  else rsne_pcs b e (pos + RSN_SELECTOR_LEN) (set_gcs pos i).

Definition rtw_rsne_info_parse (b : list Z) (ie ie_len : Z) : res (Z * rsne_info) :=
  let e := ie + ie_len in
  let info := rsne_info0 in
  if e <? ie + RSN_HEADER_LEN then rsne_err info else
  x0 ← rd b ie;
  if negb (x0 =? WLAN_EID_RSN) then rsne_err info else
  x1 ← rd b (ie + 1);
  if negb (x1 =? ie_len - 2) then rsne_err info else
  ver ← rd b (ie + 2);
  if negb (ver =? RSN_VERSION_BSD) then rsne_err info else
  rsne_gcs b e (ie + RSN_HEADER_LEN) info.

(** [LE_BITS_TO_2BYTE(cap, off, 2)] *)
Definition rsn_cap_bits (b : list Z) (p off : Z) : res Z :=
  v ← RTW_GET_LE16 b p; mret (Z.land (Z.shiftr v off) 3).

Definition MFP_NO := 0.

Record wpa2_out := mkWpa2Out {
  o_group : Z; o_pairwise : Z; o_gmcs : Z; o_akm : Z; o_mfp : Z; o_spp : Z }.

(** The status and the outputs, which keep their values on failure; none of the
    output pointers is [NULL]. *)
Definition rtw_parse_wpa2_ie (b : list Z) (rsn_ie rsn_ie_len : Z) (o : wpa2_out) : res (Z * wpa2_out) :=
  '(ret, info) ← rtw_rsne_info_parse b rsn_ie rsn_ie_len;
  if negb (ret =? _SUCCESS) then mret (ret, o) else
  group ← match gcs info with Some p => rtw_get_rsn_cipher_suite b p | None => mret 0 end;
  pairwise ← match pcs_list info with
             | Some p => suites_loop (rtw_get_rsn_cipher_suite b) (Z.to_nat (pcs_cnt info)) p 0
             | None => mret 0 end;
  gm ← match gmcs info with Some p => rtw_get_rsn_cipher_suite b p
                          | None => mret WPA_CIPHER_BIP_CMAC_128 end;
  akm ← match akm_list info with
        | Some p => suites_loop (rtw_get_akm_suite_bitmap b) (Z.to_nat (akm_cnt info)) p 0
        | None => mret 0 end;
  mfp ← match cap info with Some p => rsn_cap_bits b p 6 | None => mret MFP_NO end;
  spp ← match cap info with Some p => rsn_cap_bits b p 10 | None => mret 0 end;
  mret (ret, mkWpa2Out group pairwise gm akm mfp spp).
