(* ===== verification/IeRsnThm.v ===== *)
(** * Theorems on the WPA and RSN elements

    An RSN element as a value: which of its sections are present, and their
    suites.  [rtw_parse_wpa2_ie] applied to its encoding gives back the meaning
    of the suites; on arbitrary bytes the parser reads only the element and its
    pointers stay inside it. *)

From S2P Require Import Prelude IeBuf IeSearch IeSearchThm IeEditThm IeRsn.

(** ** Suites *)

Fixpoint suite_val (s : list Z) (table : list (list Z * Z)) : Z :=
  match table with
  | [] => 0
  | (x, v) :: table => if bool_decide (s = x) then v else suite_val s table
  end.

Definition is_suite (s : list Z) : Prop := zlen s = 4.
Definition suite_table (t : list (list Z * Z)) : Prop := Forall (fun '(x, _) => is_suite x) t.

Lemma tables_ok : suite_table wpa_cipher_table /\ suite_table rsn_cipher_table /\ suite_table akm_table.
Proof. repeat split; repeat constructor. Qed.

Lemma suite_lookup_spec b p s t :
  is_suite s -> at_off b p s -> suite_table t -> suite_lookup b p t = Ok (suite_val s t).
Proof.
  intros Hs Hat Ht. induction Ht as [|[x v] t Hx _ IH]; [done|]. simpl.
  unfold memcmp. rewrite (at_off_rd_n b p s) by done.
  cbn [mbind res_bind]. rewrite (at_off_rd_n x 0 x) by (done || apply at_off_refl).
  cbn [mbind res_bind mret res_ret]. by destruct (bool_decide (s = x)).
Qed.

Lemma suite_lookup_safe b p t :
  0 <= p -> p + 4 <= zlen b -> suite_table t -> exists v, suite_lookup b p t = Ok v.
Proof.
  intros Hp Hl Ht. destruct (at_off_split b p 4) as (s & Hat & Hs); [lia..|].
  eexists. by eapply suite_lookup_spec.
Qed.

(** The union of the bits of a list of suites. *)
Definition suites_val (t : list (list Z * Z)) (ss : list (list Z)) (acc : Z) : Z :=
  foldl (fun a s => Z.lor a (suite_val s t)) acc ss.

Lemma suites_loop_spec b t ss p acc get :
  (forall q, get q = suite_lookup b q t) ->
  Forall is_suite ss -> at_off b p (concat ss) -> suite_table t ->
  suites_loop get (length ss) p acc = Ok (suites_val t ss acc).
Proof.
  intros Hget Hss Hat Ht. revert p acc Hat. induction Hss as [|s ss Hs _ IH]; intros p acc Hat; [done|].
  simpl concat in Hat. apply at_off_app in Hat as [Ha Hb]. cbn [suites_loop length].
  rewrite Hget. rewrite (suite_lookup_spec b p s) by done. cbn [mbind res_bind].
  rewrite IH by (unfold is_suite in Hs; by rewrite Hs in Hb). done.
Qed.

Lemma suites_loop_safe b t n p acc get :
  (forall q, get q = suite_lookup b q t) -> 0 <= p -> p + 4 * Z.of_nat n <= zlen b -> suite_table t ->
  exists v, suites_loop get n p acc = Ok v.
Proof.
  intros Hget Hp Hl Ht. revert p acc Hp Hl. induction n as [|n IH]; intros p acc Hp Hl; [by eexists|].
  cbn [suites_loop]. rewrite Hget.
  destruct (suite_lookup_safe b p t) as [v ->]; [lia..|done|]. cbn [mbind res_bind]. apply IH; lia.
Qed.

(** ** The RSN element as a value *)

Record rsne_val := mkRsnVal {
  v_gcs : option (list Z); v_pcs : option (list (list Z)); v_akm : option (list (list Z));
  v_cap : option Z; v_pmkid : option (list (list Z)); v_gmcs : option (list Z) }.

Definition enc_list (l : list (list Z)) : list Z := le16 (zlen l) ++ concat l.
Definition enc_opt {A} (f : A -> list Z) (o : option A) : list Z :=
  match o with Some x => f x | None => [] end.

Definition enc_gmcs v := enc_opt id (v_gmcs v).
Definition enc_pmkid v := enc_opt enc_list (v_pmkid v) ++ enc_gmcs v.
Definition enc_cap v := enc_opt le16 (v_cap v) ++ enc_pmkid v.
Definition enc_akm v := enc_opt enc_list (v_akm v) ++ enc_cap v.
Definition enc_pcs v := enc_opt enc_list (v_pcs v) ++ enc_akm v.
Definition enc_gcs v := enc_opt id (v_gcs v) ++ enc_pcs v.

(** Identifier, length, version 1 and the sections. *)
Definition enc_rsne v : list Z := enc_ie (mkIe WLAN_EID_RSN ([1; 0] ++ enc_gcs v)).

Definition opt_all {A} (P : A -> Prop) (o : option A) : Prop :=
  match o with Some x => P x | None => True end.

(** A section is present only if the ones before it are. *)
Record wf_rsne (v : rsne_val) : Prop := {
  wf_gcs : opt_all is_suite (v_gcs v);
  wf_pcs : opt_all (fun l => l <> [] /\ Forall is_suite l) (v_pcs v);
  wf_akm : opt_all (fun l => l <> [] /\ Forall is_suite l) (v_akm v);
  wf_cap : opt_all word16 (v_cap v);
  wf_pmkid : opt_all (Forall (fun k => zlen k = 16)) (v_pmkid v);
  wf_gmcs : opt_all is_suite (v_gmcs v);
  wf_order : (v_gcs v = None -> v_pcs v = None) /\ (v_pcs v = None -> v_akm v = None) /\
             (v_akm v = None -> v_cap v = None) /\ (v_cap v = None -> v_pmkid v = None) /\
             (v_pmkid v = None -> v_gmcs v = None);
  wf_len : zlen (enc_gcs v) + 2 < 256 }.

(** ** Pointers that represent a section *)

Definition ptr_rep (b : list Z) (q : option Z) (x : option (list Z)) : Prop :=
  match x with
  | Some s => exists p, q = Some p /\ at_off b p s
  | None => q = None
  end.

Definition list_rep (b : list Z) (n : Z) (q : option Z) (x : option (list (list Z))) : Prop :=
  match x with
  | Some ss => n = zlen ss /\ exists p, q = Some p /\ at_off b p (concat ss)
  | None => n = 0 /\ q = None
  end.

Lemma zlen_concat k (l : list (list Z)) : Forall (fun s => zlen s = k) l -> zlen (concat l) = k * zlen l.
Proof. induction 1 as [|s l Hs _ IH]; [by rewrite Z.mul_0_r|]. simpl concat. zl. Qed.

Lemma zlen_le16 x : zlen (le16 x) = 2.
Proof. reflexivity. Qed.
#[local] Hint Rewrite zlen_le16 : zlen.

Section roundtrip.
Context (b : list Z) (v : rsne_val) (Hwf : wf_rsne v).

Ltac use_wf := pose proof (wf_order v Hwf) as Hord; pose proof (wf_len v Hwf) as Hlen.

Lemma enc_gmcs_len : zlen (enc_gmcs v) <= zlen (enc_gcs v).
Proof. unfold enc_gcs, enc_pcs, enc_akm, enc_cap, enc_pmkid. zl. Qed.

Lemma gmcs_stage e pos g pc pl ac al c n q :
  at_off b pos (enc_gmcs v) -> e = pos + zlen (enc_gmcs v) ->
  exists m, rsne_gmcs b e pos (mkRsne g pc pl ac al c n q None 0) =
            Ok (_SUCCESS, mkRsne g pc pl ac al c n q m 0) /\ ptr_rep b m (v_gmcs v).
Proof.
  intros Hat He. unfold rsne_gmcs, RSN_SELECTOR_LEN. pose proof (wf_gmcs v Hwf) as Hs.
  unfold enc_gmcs in *. destruct (v_gmcs v) as [s|]; simpl in *.
  - unfold is_suite in Hs. replace (_ <? _) with false by (unfold id in *; lia).
    exists (Some pos). split; [done|]. by exists pos.
  - rewrite zlen_nil in He. replace (e <? pos + 4) with true by lia. unfold rsne_end.
    replace (e =? pos) with true by lia. by exists None.
Qed.

Lemma enc_list_at pos l r :
  at_off b pos (enc_list l ++ r) -> zlen l < 65536 ->
  RTW_GET_LE16 b pos = Ok (zlen l) /\ at_off b (pos + 2) (concat l) /\
  at_off b (pos + 2 + zlen (concat l)) r.
Proof.
  unfold enc_list. rewrite <- app_assoc. intros H Hl. apply at_off_app in H as [H1 H2].
  rewrite zlen_le16 in H2. apply at_off_app in H2 as [H2 H3]. split; [|done].
  apply le16_at; [|done]. unfold word16. pose proof (zlen_nonneg l). lia.
Qed.

Lemma pmkid_stage e pos g pc pl ac al c :
  at_off b pos (enc_pmkid v) -> e = pos + zlen (enc_pmkid v) ->
  exists n q m, rsne_pmkid b e pos (mkRsne g pc pl ac al c 0 None None 0) =
            Ok (_SUCCESS, mkRsne g pc pl ac al c n q m 0) /\
    list_rep b n q (v_pmkid v) /\ ptr_rep b m (v_gmcs v).
Proof.
  intros Hat He. use_wf. unfold rsne_pmkid, RSN_PMKID_LEN. pose proof (wf_pmkid v Hwf) as Hs.
  assert (HL : zlen (enc_pmkid v) <= zlen (enc_gcs v))
    by (unfold enc_gcs, enc_pcs, enc_akm, enc_cap; zl).
  unfold enc_pmkid in *. destruct (v_pmkid v) as [l|] eqn:El; simpl in *.
  - pose proof (zlen_concat 16 l Hs) as Hc. unfold enc_list in He, HL. autorewrite with zlen in *.
    apply enc_list_at in Hat as (-> & H2 & H3); [|zl].
    replace (e <? pos + 2) with false by zl. cbn [mbind res_bind].
    replace (e <? _) with false by zl.
    destruct (gmcs_stage e (pos + 2 + 16 * zlen l) g pc pl ac al c (zlen l) (Some (pos + 2)))
      as (m & HR & Hm); [by rewrite <- Hc|zl|].
    unfold set_pmkid. simpl. rewrite HR. exists (zlen l), (Some (pos + 2)), m. eauto 6.
  - destruct Hord as (_ & _ & _ & _ & Hg). specialize (Hg eq_refl). unfold enc_gmcs in *. rewrite Hg in *.
    simpl in *. rewrite zlen_nil in He. replace (e <? pos + 2) with true by lia. unfold rsne_end.
    replace (e =? pos) with true by lia. by exists 0, None, None.
Qed.

Lemma cap_stage e pos g pc pl ac al :
  at_off b pos (enc_cap v) -> e = pos + zlen (enc_cap v) ->
  exists c n q m, rsne_cap b e pos (mkRsne g pc pl ac al None 0 None None 0) =
            Ok (_SUCCESS, mkRsne g pc pl ac al c n q m 0) /\
    ptr_rep b c (option_map le16 (v_cap v)) /\ list_rep b n q (v_pmkid v) /\ ptr_rep b m (v_gmcs v).
Proof.
  intros Hat He. use_wf. unfold rsne_cap. unfold enc_cap in *.
  destruct (v_cap v) as [w|] eqn:Ew; simpl enc_opt in *.
  - apply at_off_app in Hat as [H1 H2]. autorewrite with zlen in *.
    replace (e <? pos + 2) with false by zl.
    destruct (pmkid_stage e (pos + 2) g pc pl ac al (Some pos)) as (n & q & m & HR & Hn & Hm); [done|zl|].
    unfold set_cap. simpl. rewrite HR. exists (Some pos), n, q, m.
    repeat (split; [done|]). split; [|done]. by exists pos.
  - destruct Hord as (_ & _ & _ & Hp & Hg). specialize (Hp eq_refl). specialize (Hg Hp).
    unfold enc_pmkid, enc_gmcs in *. rewrite Hp, Hg in *. simpl in *. rewrite zlen_nil in He.
    replace (e <? pos + 2) with true by lia. unfold rsne_end.
    replace (e =? pos) with true by lia. by exists None, 0, None, None.
Qed.

Lemma akm_stage e pos g pc pl :
  at_off b pos (enc_akm v) -> e = pos + zlen (enc_akm v) ->
  exists ac al c n q m, rsne_akm b e pos (mkRsne g pc pl 0 None None 0 None None 0) =
            Ok (_SUCCESS, mkRsne g pc pl ac al c n q m 0) /\
    list_rep b ac al (v_akm v) /\ ptr_rep b c (option_map le16 (v_cap v)) /\
    list_rep b n q (v_pmkid v) /\ ptr_rep b m (v_gmcs v).
Proof.
  intros Hat He. use_wf. unfold rsne_akm, RSN_SELECTOR_LEN. pose proof (wf_akm v Hwf) as Hs.
  assert (HL : zlen (enc_akm v) <= zlen (enc_gcs v)) by (unfold enc_gcs, enc_pcs; zl).
  unfold enc_akm in *. destruct (v_akm v) as [l|] eqn:El; simpl enc_opt in *; simpl opt_all in *.
  - destruct Hs as [Hne Hs]. pose proof (zlen_concat 4 l Hs) as Hc.
    assert (0 < zlen l) by (destruct l; [done|zl]).
    unfold enc_list in He, HL. autorewrite with zlen in *.
    apply enc_list_at in Hat as (-> & H2 & H3); [|zl].
    replace (e <? pos + 2) with false by zl. cbn [mbind res_bind].
    replace (zlen l =? 0) with false by lia. replace (e <? _) with false by zl.
    destruct (cap_stage e (pos + 2 + 4 * zlen l) g pc pl (zlen l) (Some (pos + 2)))
      as (c & n & q & m & HR & ?); [by rewrite <- Hc|zl|].
    unfold set_akm. simpl. rewrite HR. exists (zlen l), (Some (pos + 2)), c, n, q, m.
    split; [done|]. split; [eauto|done].
  - destruct Hord as (_ & _ & Hw & Hp & Hg). specialize (Hw eq_refl). specialize (Hp Hw). specialize (Hg Hp).
    unfold enc_cap, enc_pmkid, enc_gmcs in *. rewrite Hw, Hp, Hg in *. simpl in *. rewrite zlen_nil in He.
    replace (e <? pos + 2) with true by lia. unfold rsne_end.
    replace (e =? pos) with true by lia. by exists 0, None, None, 0, None, None.
Qed.

Lemma pcs_stage e pos g :
  at_off b pos (enc_pcs v) -> e = pos + zlen (enc_pcs v) ->
  exists pc pl ac al c n q m, rsne_pcs b e pos (mkRsne g 0 None 0 None None 0 None None 0) =
            Ok (_SUCCESS, mkRsne g pc pl ac al c n q m 0) /\
    list_rep b pc pl (v_pcs v) /\ list_rep b ac al (v_akm v) /\
    ptr_rep b c (option_map le16 (v_cap v)) /\ list_rep b n q (v_pmkid v) /\ ptr_rep b m (v_gmcs v).
Proof.
  intros Hat He. use_wf. unfold rsne_pcs, RSN_SELECTOR_LEN. pose proof (wf_pcs v Hwf) as Hs.
  assert (HL : zlen (enc_pcs v) <= zlen (enc_gcs v)) by (unfold enc_gcs; zl).
  unfold enc_pcs in *. destruct (v_pcs v) as [l|] eqn:El; simpl enc_opt in *; simpl opt_all in *.
  - destruct Hs as [Hne Hs]. pose proof (zlen_concat 4 l Hs) as Hc.
    assert (0 < zlen l) by (destruct l; [done|zl]).
    unfold enc_list in He, HL. autorewrite with zlen in *.
    apply enc_list_at in Hat as (-> & H2 & H3); [|zl].
    replace (e <? pos + 2) with false by zl. cbn [mbind res_bind].
    replace (zlen l =? 0) with false by lia. replace (e <? _) with false by zl.
    destruct (akm_stage e (pos + 2 + 4 * zlen l) g (zlen l) (Some (pos + 2)))
      as (ac & al & c & n & q & m & HR & ?); [by rewrite <- Hc|zl|].
    unfold set_pcs. simpl. rewrite HR. exists (zlen l), (Some (pos + 2)), ac, al, c, n, q, m.
    split; [done|]. split; [eauto|done].
  - destruct Hord as (_ & Ha & Hw & Hp & Hg). specialize (Ha eq_refl). specialize (Hw Ha).
    specialize (Hp Hw). specialize (Hg Hp).
    unfold enc_akm, enc_cap, enc_pmkid, enc_gmcs in *. rewrite Ha, Hw, Hp, Hg in *. simpl in *.
    rewrite zlen_nil in He. replace (e <? pos + 2) with true by lia. unfold rsne_end.
    replace (e =? pos) with true by lia. by exists 0, None, 0, None, None, 0, None, None.
Qed.

Lemma gcs_stage e pos :
  at_off b pos (enc_gcs v) -> e = pos + zlen (enc_gcs v) ->
  exists g pc pl ac al c n q m, rsne_gcs b e pos rsne_info0 =
            Ok (_SUCCESS, mkRsne g pc pl ac al c n q m 0) /\
    ptr_rep b g (v_gcs v) /\ list_rep b pc pl (v_pcs v) /\ list_rep b ac al (v_akm v) /\
    ptr_rep b c (option_map le16 (v_cap v)) /\ list_rep b n q (v_pmkid v) /\ ptr_rep b m (v_gmcs v).
Proof.
  intros Hat He. use_wf. unfold rsne_gcs, RSN_SELECTOR_LEN. pose proof (wf_gcs v Hwf) as Hs.
  unfold enc_gcs in *. destruct (v_gcs v) as [s|] eqn:El; simpl enc_opt in *; simpl opt_all in *.
  - unfold id, is_suite in *. apply at_off_app in Hat as [H1 H2]. autorewrite with zlen in *.
    rewrite Hs in *. replace (e <? pos + 4) with false by zl.
    destruct (pcs_stage e (pos + 4) (Some pos)) as (pc & pl & ac & al & c & n & q & m & HR & ?);
      [done|zl|].
    unfold set_gcs. simpl. rewrite HR. exists (Some pos), pc, pl, ac, al, c, n, q, m.
    split; [done|]. split; [|done]. by exists pos.
  - destruct Hord as (Hpc & Ha & Hw & Hp & Hg). specialize (Hpc eq_refl). specialize (Ha Hpc).
    specialize (Hw Ha). specialize (Hp Hw). specialize (Hg Hp).
    unfold enc_pcs, enc_akm, enc_cap, enc_pmkid, enc_gmcs in *. rewrite Hpc, Ha, Hw, Hp, Hg in *.
    simpl in *. rewrite zlen_nil in He. replace (e <? pos + 4) with true by lia. unfold rsne_end.
    replace (e =? pos) with true by lia. by exists None, 0, None, 0, None, None, 0, None, None.
Qed.

(** All pointers of the parsed element represent its sections. *)
Lemma rsne_parse_spec p :
  at_off b p (enc_rsne v) ->
  exists g pc pl ac al c n q m, rtw_rsne_info_parse b p (zlen (enc_rsne v)) =
            Ok (_SUCCESS, mkRsne g pc pl ac al c n q m 0) /\
    ptr_rep b g (v_gcs v) /\ list_rep b pc pl (v_pcs v) /\ list_rep b ac al (v_akm v) /\
    ptr_rep b c (option_map le16 (v_cap v)) /\ list_rep b n q (v_pmkid v) /\ ptr_rep b m (v_gmcs v).
Proof.
  intros Hat. unfold rtw_rsne_info_parse, RSN_HEADER_LEN, enc_rsne in *. rewrite zlen_enc_ie.
  unfold enc_ie in Hat. cbn [ie_id ie_data] in *. simpl app in *.
  apply at_off_cons in Hat as [R0 Hat]. apply at_off_cons in Hat as [R1 Hat].
  replace (p + 1 + 1) with (p + 2) in Hat by lia.
  apply at_off_cons in Hat as [R2 Hat]. apply at_off_cons in Hat as [_ Hat].
  replace (p + 2 + 1 + 1) with (p + 4) in Hat by lia.
  replace (_ <? p + 4) with false by zl. rewrite R0. cbn [mbind res_bind].
  rewrite Z.eqb_refl. cbn [negb]. rewrite R1. cbn [mbind res_bind].
  rewrite Z.add_simpl_r, Z.eqb_refl. cbn [negb]. rewrite R2. cbn [mbind res_bind].
  unfold RSN_VERSION_BSD. rewrite Z.eqb_refl. cbn [negb].
  apply gcs_stage; [done|]. zl.
Qed.
End roundtrip.

(** The outputs an RSN element stands for. *)
Definition rsne_meaning (v : rsne_val) : wpa2_out :=
  mkWpa2Out
    (match v_gcs v with Some s => suite_val s rsn_cipher_table | None => 0 end)
    (match v_pcs v with Some l => suites_val rsn_cipher_table l 0 | None => 0 end)
    (match v_gmcs v with Some s => suite_val s rsn_cipher_table | None => WPA_CIPHER_BIP_CMAC_128 end)
    (match v_akm v with Some l => suites_val akm_table l 0 | None => 0 end)
    (match v_cap v with Some w => Z.land (Z.shiftr w 6) 3 | None => 0 end)
    (match v_cap v with Some w => Z.land (Z.shiftr w 10) 3 | None => 0 end).

Section ptr_reads.
Context (b : list Z).

Lemma read_suite_ptr q x t d :
  ptr_rep b q x -> opt_all is_suite x -> suite_table t ->
  match q with Some p => suite_lookup b p t | None => mret d end =
  Ok (match x with Some s => suite_val s t | None => d end).
Proof.
  intros Hp Hs Ht. destruct x as [s|]; simpl in *; [|by subst].
  destruct Hp as (p & -> & Hat). by apply suite_lookup_spec.
Qed.

Lemma read_suite_list n q x t get :
  (forall p, get p = suite_lookup b p t) ->
  list_rep b n q x -> opt_all (fun l => l <> [] /\ Forall is_suite l) x -> suite_table t ->
  match q with Some p => suites_loop get (Z.to_nat n) p 0 | None => mret 0 end =
  Ok (match x with Some l => suites_val t l 0 | None => 0 end).
Proof.
  intros Hg Hp Hs Ht. destruct x as [l|]; simpl in *.
  - destruct Hp as (-> & p & -> & Hat). rewrite zlen_to_nat. destruct Hs. by eapply suites_loop_spec.
  - by destruct Hp as [_ ->].
Qed.

Lemma read_cap_ptr q x off :
  ptr_rep b q (option_map le16 x) -> opt_all word16 x ->
  match q with Some p => rsn_cap_bits b p off | None => mret 0 end =
  Ok (match x with Some w => Z.land (Z.shiftr w off) 3 | None => 0 end).
Proof.
  intros Hp Hw. destruct x as [w|]; simpl in *; [|by subst].
  destruct Hp as (p & -> & Hat). unfold rsn_cap_bits. by rewrite (le16_at b p w).
Qed.
End ptr_reads.

Lemma parse_wpa2_spec b v p o :
  wf_rsne v -> at_off b p (enc_rsne v) ->
  rtw_parse_wpa2_ie b p (zlen (enc_rsne v)) o = Ok (_SUCCESS, rsne_meaning v).
Proof.
  intros Hwf Hat.
  destruct (rsne_parse_spec b v Hwf p Hat) as (g & pc & pl & ac & al & c & n & q & m & HR & Hg & Hp & Ha & Hc & _ & Hm).
  destruct tables_ok as (_ & Tr & Ta). unfold rtw_parse_wpa2_ie. rewrite HR. cbn [mbind res_bind negb].
  change (negb (_SUCCESS =? _SUCCESS)) with false. cbv iota. simpl gcs. simpl pcs_list. simpl akm_list.
  simpl cap. simpl gmcs. simpl pcs_cnt. simpl akm_cnt. unfold rtw_get_rsn_cipher_suite at 1 3.
  rewrite (read_suite_ptr b g (v_gcs v)) by (done || apply (wf_gcs v Hwf)). cbn [mbind res_bind].
  rewrite (read_suite_list b pc pl (v_pcs v) rsn_cipher_table) by (done || apply (wf_pcs v Hwf)).
  cbn [mbind res_bind].
  rewrite (read_suite_ptr b m (v_gmcs v)) by (done || apply (wf_gmcs v Hwf)). cbn [mbind res_bind].
  rewrite (read_suite_list b ac al (v_akm v) akm_table) by (done || apply (wf_akm v Hwf)).
  cbn [mbind res_bind]. unfold MFP_NO.
  rewrite !(read_cap_ptr b c (v_cap v)) by (done || apply (wf_cap v Hwf)). done.
Qed.

(** ** Arbitrary bytes *)

Definition ptr_within (lo e : Z) (n : Z) (q : option Z) : Prop :=
  match q with Some p => lo <= p /\ p + n <= e | None => True end.

(** Every list and suite the struct points to lies between [lo] and [e]. *)
Record rsne_within (lo e : Z) (i : rsne_info) : Prop := {
  w_gcs : ptr_within lo e 4 (gcs i);
  w_pcs : 0 <= pcs_cnt i /\ ptr_within lo e (4 * pcs_cnt i) (pcs_list i);
  w_akm : 0 <= akm_cnt i /\ ptr_within lo e (4 * akm_cnt i) (akm_list i);
  w_cap : ptr_within lo e 2 (cap i);
  w_pmkid : 0 <= pmkid_cnt i /\ ptr_within lo e (16 * pmkid_cnt i) (pmkid_list i);
  w_gmcs : ptr_within lo e 4 (gmcs i) }.

Section safe.
Context (b : list Z) (lo e : Z).
Hypothesis (Hb : bytes b) (Hlo : 0 <= lo) (He : e <= zlen b).

Definition stage_ok (r : res (Z * rsne_info)) : Prop :=
  exists ret i, r = Ok (ret, i) /\ rsne_within lo e i.

Lemma within_err i : rsne_within lo e i -> stage_ok (rsne_err i).
Proof. intros []. eexists _, _. split; [done|]. by constructor. Qed.
Lemma within_exit i : rsne_within lo e i -> stage_ok (rsne_exit i).
Proof. intros H. by eexists _, _. Qed.
Lemma within_end pos i : rsne_within lo e i -> stage_ok (rsne_end e pos i).
Proof. intros H. unfold rsne_end. case_if; auto using within_err, within_exit. Qed.

Create HintDb rsne.
#[local] Hint Resolve within_err within_exit within_end : rsne.

Lemma gmcs_safe pos i : lo <= pos -> rsne_within lo e i -> stage_ok (rsne_gmcs b e pos i).
Proof.
  intros Hp Hi. unfold rsne_gmcs, RSN_SELECTOR_LEN. destruct (Z.ltb_spec e (pos + 4)); [auto with rsne|].
  apply within_exit. destruct Hi. constructor; simpl; auto.
Qed.

Lemma pmkid_safe pos i : lo <= pos -> rsne_within lo e i -> stage_ok (rsne_pmkid b e pos i).
Proof.
  intros Hp Hi. unfold rsne_pmkid, RSN_PMKID_LEN. destruct (Z.ltb_spec e (pos + 2)); [auto with rsne|].
  destruct (get_le16_in b pos Hb) as (n & -> & Hn); [lia..|]. unfold word16 in Hn. cbn [mbind res_bind].
  destruct (Z.ltb_spec e (pos + 2 + 16 * n)); [case_if; auto with rsne|].
  apply gmcs_safe; [lia|]. destruct Hi. constructor; simpl; auto; lia.
Qed.

Lemma cap_safe pos i : lo <= pos -> rsne_within lo e i -> stage_ok (rsne_cap b e pos i).
Proof.
  intros Hp Hi. unfold rsne_cap. destruct (Z.ltb_spec e (pos + 2)); [auto with rsne|].
  apply pmkid_safe; [lia|]. destruct Hi. constructor; simpl; auto; lia.
Qed.

Lemma akm_safe pos i : lo <= pos -> rsne_within lo e i -> stage_ok (rsne_akm b e pos i).
Proof.
  intros Hp Hi. unfold rsne_akm, RSN_SELECTOR_LEN. destruct (Z.ltb_spec e (pos + 2)); [auto with rsne|].
  destruct (get_le16_in b pos Hb) as (n & -> & Hn); [lia..|]. unfold word16 in Hn. cbn [mbind res_bind].
  case_if; [auto with rsne|]. destruct (Z.ltb_spec e (pos + 2 + 4 * n)); [auto with rsne|].
  apply cap_safe; [lia|]. destruct Hi. constructor; simpl; auto; lia.
Qed.

Lemma pcs_safe pos i : lo <= pos -> rsne_within lo e i -> stage_ok (rsne_pcs b e pos i).
Proof.
  intros Hp Hi. unfold rsne_pcs, RSN_SELECTOR_LEN. destruct (Z.ltb_spec e (pos + 2)); [auto with rsne|].
  destruct (get_le16_in b pos Hb) as (n & -> & Hn); [lia..|]. unfold word16 in Hn. cbn [mbind res_bind].
  case_if; [auto with rsne|]. destruct (Z.ltb_spec e (pos + 2 + 4 * n)); [auto with rsne|].
  apply akm_safe; [lia|]. destruct Hi. constructor; simpl; auto; lia.
Qed.

Lemma gcs_safe pos i : lo <= pos -> rsne_within lo e i -> stage_ok (rsne_gcs b e pos i).
Proof.
  intros Hp Hi. unfold rsne_gcs, RSN_SELECTOR_LEN. destruct (Z.ltb_spec e (pos + 4)); [auto with rsne|].
  apply pcs_safe; [lia|]. destruct Hi. constructor; simpl; auto; lia.
Qed.
End safe.

Lemma rsne_parse_safe b p n :
  bytes b -> 0 <= p -> p + n <= zlen b -> stage_ok p (p + n) (rtw_rsne_info_parse b p n).
Proof.
  intros Hb Hp Hn. unfold rtw_rsne_info_parse, RSN_HEADER_LEN.
  assert (H0 : rsne_within p (p + n) rsne_info0) by (constructor; simpl; auto; lia).
  destruct (Z.ltb_spec (p + n) (p + 4)); [by apply within_err|].
  destruct (rd_in b p) as (x0 & -> & _); [lia|]. cbn [mbind res_bind]. case_if; [by apply within_err|].
  destruct (rd_in b (p + 1)) as (x1 & -> & _); [lia|]. cbn [mbind res_bind]. case_if; [by apply within_err|].
  destruct (rd_in b (p + 2)) as (x2 & -> & _); [lia|]. cbn [mbind res_bind]. case_if; [by apply within_err|].
  apply gcs_safe; auto; lia.
Qed.

(** Reads through the pointers of a struct that lies inside the object. *)
Lemma ptr_read_safe b lo e q t d :
  0 <= lo -> e <= zlen b -> ptr_within lo e 4 q -> suite_table t ->
  exists v, match q with Some p => suite_lookup b p t | None => mret d end = Ok v.
Proof.
  intros Hlo He Hq Ht. destruct q as [p|]; simpl in *; [|by eexists].
  apply suite_lookup_safe; auto; lia.
Qed.

Lemma list_read_safe b lo e n q t get :
  (forall p, get p = suite_lookup b p t) ->
  0 <= lo -> e <= zlen b -> 0 <= n /\ ptr_within lo e (4 * n) q -> suite_table t ->
  exists v, match q with Some p => suites_loop get (Z.to_nat n) p 0 | None => mret 0 end = Ok v.
Proof.
  intros Hg Hlo He [Hn Hq] Ht. destruct q as [p|]; simpl in *; [|by eexists].
  eapply suites_loop_safe; eauto; lia.
Qed.

Lemma cap_read_safe b lo e q off :
  bytes b -> 0 <= lo -> e <= zlen b -> ptr_within lo e 2 q ->
  exists v, match q with Some p => rsn_cap_bits b p off | None => mret 0 end = Ok v.
Proof.
  intros Hb Hlo He Hq. destruct q as [p|]; simpl in *; [|by eexists]. unfold rsn_cap_bits.
  destruct (get_le16_in b p Hb) as (v & -> & _); [lia..|]. by eexists.
Qed.

Lemma parse_wpa2_safe b p n o :
  bytes b -> 0 <= p -> p + n <= zlen b -> exists ret o', rtw_parse_wpa2_ie b p n o = Ok (ret, o').
Proof.
  intros Hb Hp Hn. destruct (rsne_parse_safe b p n Hb Hp Hn) as (ret & i & HR & []).
  destruct tables_ok as (_ & Tr & Ta). unfold rtw_parse_wpa2_ie. rewrite HR. cbn [mbind res_bind].
  case_if; [by do 2 eexists|]. unfold rtw_get_rsn_cipher_suite at 1 3.
  destruct (ptr_read_safe b p (p + n) (gcs i) rsn_cipher_table 0) as [? ->]; auto. cbn [mbind res_bind].
  destruct (list_read_safe b p (p + n) (pcs_cnt i) (pcs_list i) rsn_cipher_table (rtw_get_rsn_cipher_suite b))
    as [? ->]; auto. cbn [mbind res_bind].
  destruct (ptr_read_safe b p (p + n) (gmcs i) rsn_cipher_table WPA_CIPHER_BIP_CMAC_128) as [? ->]; auto.
  cbn [mbind res_bind].
  destruct (list_read_safe b p (p + n) (akm_cnt i) (akm_list i) akm_table (rtw_get_akm_suite_bitmap b))
    as [? ->]; auto. cbn [mbind res_bind]. unfold MFP_NO.
  destruct (cap_read_safe b p (p + n) (cap i) 6) as [? ->]; auto. cbn [mbind res_bind].
  destruct (cap_read_safe b p (p + n) (cap i) 10) as [? ->]; auto. by do 2 eexists.
Qed.

(** ** The WPA element *)

(** The selector is compared before the length is known to cover it. *)
Lemma parse_wpa_overread : rtw_parse_wpa_ie [_WPA_IE_ID_; 0] 0 2 (mkWpaOut 0 0 0) = Oob.
Proof. reflexivity. Qed.

Lemma parse_wpa_safe b p n o :
  bytes b -> 0 <= p -> 6 <= n -> p + n <= zlen b -> exists ret o', rtw_parse_wpa_ie b p n o = Ok (ret, o').
Proof.
  intros Hb Hp H6 Hn. destruct tables_ok as (Tw & _ & _). unfold rtw_parse_wpa_ie.
  replace (n <=? 0) with false by lia.
  destruct (rd_in b p) as (x0 & -> & _); [lia|]. cbn [mbind res_bind]. case_if; [by do 2 eexists|].
  destruct (rd_in b (p + 1)) as (x1 & -> & _); [lia|]. cbn [mbind res_bind]. case_if; [by do 2 eexists|].
  assert (Hcmp : forall q, p <= q -> q + 4 <= p + n -> exists m, memcmp b q (wpa_suite 1) 4 = Ok m).
  { intros q H1 H2. unfold memcmp. destruct (rd_n_in b q 4) as (s & -> & _); [lia..|]. by eexists. }
  destruct (Hcmp (p + 2)) as [m ->]; [lia..|]. cbn [mbind res_bind]. case_if; [by do 2 eexists|].
  case_if; [by do 2 eexists|].
  (* after the group cipher *)
  assert (HG : exists o1 pos left, (if 4 <=? n - 8 then
       g ← rtw_get_wpa_cipher_suite b (p + 8);
       mret (mkWpaOut g (wo_pairwise o) (wo_akm o), p + 8 + 4, n - 8 - 4)
     else mret (o, p + 8, n - 8)) = Ok (o1, pos, left) /\ pos + left = p + n /\ p <= pos).
  { destruct (Z.leb_spec 4 (n - 8)).
    - unfold rtw_get_wpa_cipher_suite. destruct (suite_lookup_safe b (p + 8) wpa_cipher_table) as [g ->]; [lia..|done|].
      cbn [mbind res_bind]. do 3 eexists. split; [done|]. lia.
    - do 3 eexists. split; [done|]. lia. }
  destruct HG as (o1 & pos & left & -> & Hpl & Hpp). cbn [mbind res_bind]. case_if; [by do 2 eexists|].
  destruct (Z.leb_spec 2 left); simpl andb.
  - destruct (get_le16_in b pos Hb) as (k & -> & Hk); [lia..|]. unfold word16 in Hk. cbn [mbind res_bind].
    case_if; [by do 2 eexists|].
    destruct (suites_loop_safe b wpa_cipher_table (Z.to_nat k) (pos + 2) (wo_pairwise o1)
      (rtw_get_wpa_cipher_suite b)) as [pw ->]; [done|lia|lia|done|]. cbn [mbind res_bind mret res_ret].
    destruct (Z.leb_spec 6 (left - 2 - 4 * k)); [|by do 2 eexists].
    destruct (Hcmp (pos + 2 + 4 * k + 2)) as [m' ->]; [lia..|]. by do 2 eexists.
  - cbn [mbind res_bind mret res_ret]. replace (6 <=? left) with false by lia. by do 2 eexists.
Qed.
