(* ===== verification/IeAttr.v ===== *)
(** * Attributes inside vendor elements (src/core/rtw_ieee80211.c)

    WPS attributes (16-bit identifier and length, big endian) and P2P and WFD
    attributes (8-bit identifier, 16-bit length), the removal of elements and
    attributes, and the merge of P2P elements.

    The attribute loops need not end: a 16-bit length that wraps to 0 when the
    header is added leaves the pointer where it is.  They take the number of
    turns as an argument. *)

From S2P Require Import Prelude IeBuf IeSearch.

(** ** WPS attributes *)

Fixpoint get_wps_attr_loop (fuel : nat) (b : list Z) (wps_ie attr_ptr wps_ielen target_attr_id : Z)
    (buf_attr : option (list Z)) : res (option Z * Z * option (list Z)) :=
  if attr_ptr - wps_ie <? wps_ielen then
    match fuel with
    | O => Fuel
    | S fuel =>
        attr_id ← RTW_GET_BE16 b attr_ptr;
        attr_data_len ← RTW_GET_BE16 b (attr_ptr + 2);
        let attr_len := u16 (attr_data_len + 4) in
        if attr_id =? target_attr_id then
          d ← copy_out buf_attr b attr_ptr attr_len;
          mret (Some attr_ptr, attr_len, d)
        else get_wps_attr_loop fuel b wps_ie (attr_ptr + attr_len) wps_ielen target_attr_id buf_attr
    end
  else mret (None, 0, buf_attr).

(** The pointer found, [*len_attr] and the caller's buffer. *)
Definition rtw_get_wps_attr (fuel : nat) (b : list Z) (wps_ie wps_ielen target_attr_id : Z)
    (buf_attr : option (list Z)) : res (option Z * Z * option (list Z)) :=
  x0 ← rd b wps_ie;
  if negb (x0 =? WLAN_EID_VENDOR_SPECIFIC) then mret (None, 0, buf_attr) else
  m ← memcmp b (wps_ie + 2) wps_oui 4;
  if negb m then mret (None, 0, buf_attr) else
  get_wps_attr_loop fuel b wps_ie (wps_ie + 6) wps_ielen target_attr_id buf_attr.

Definition rtw_get_wps_attr_content (fuel : nat) (b : list Z) (wps_ie wps_ielen target_attr_id : Z)
    (buf_content : option (list Z)) : res (option Z * Z * option (list Z)) :=
  '(attr_ptr, attr_len, _) ← rtw_get_wps_attr fuel b wps_ie wps_ielen target_attr_id None;
  match attr_ptr with
  | Some p =>
      if attr_len =? 0 then mret (None, 0, buf_content) else
      d ← copy_out buf_content b (p + 4) (attr_len - 4);
      mret (Some (p + 4), u32 (attr_len - 4), d)
  | None => mret (None, 0, buf_content)
  end.

(** ** P2P and WFD attributes *)

(** [rtw_get_p2p_attr] and [rtw_get_wfd_attr] differ in the OUI and in the byte
    order of the length. *)
Fixpoint get_attr_loop (get16 : list Z -> Z -> res Z) (fuel : nat) (b : list Z)
    (ie attr_ptr ielen target_attr_id : Z) (buf_attr : option (list Z)) :
    res (option Z * Z * option (list Z)) :=
  if attr_ptr - ie + 3 <=? ielen then
    match fuel with
    | O => Fuel
    | S fuel =>
        attr_id ← rd b attr_ptr;
        attr_data_len ← get16 b (attr_ptr + 1);
        let attr_len := u16 (attr_data_len + 3) in
        if ielen <? attr_ptr - ie + attr_len then mret (None, 0, buf_attr) else
        if attr_id =? target_attr_id then
          d ← copy_out buf_attr b attr_ptr attr_len;
          mret (Some attr_ptr, attr_len, d)
        else get_attr_loop get16 fuel b ie (attr_ptr + attr_len) ielen target_attr_id buf_attr
    end
  else mret (None, 0, buf_attr).

Definition get_attr (oui : list Z) (get16 : list Z -> Z -> res Z) (fuel : nat) (b : list Z)
    (ie : option Z) (ielen target_attr_id : Z) (buf_attr : option (list Z)) :
    res (option Z * Z * option (list Z)) :=
  match ie with
  | None => mret (None, 0, buf_attr)
  | Some ie =>
      if ielen <=? 6 then mret (None, 0, buf_attr) else
      x0 ← rd b ie;
      if negb (x0 =? WLAN_EID_VENDOR_SPECIFIC) then mret (None, 0, buf_attr) else
      m ← memcmp b (ie + 2) oui 4;
      if negb m then mret (None, 0, buf_attr) else
      get_attr_loop get16 fuel b ie (ie + 6) ielen target_attr_id buf_attr
  end.

Definition rtw_get_p2p_attr := get_attr p2p_oui RTW_GET_LE16.
Definition rtw_get_wfd_attr := get_attr wfd_oui RTW_GET_BE16.

Definition get_attr_content (oui : list Z) (get16 : list Z -> Z -> res Z) (fuel : nat) (b : list Z)
    (ie : option Z) (ielen target_attr_id : Z) (buf_content : option (list Z)) :
    res (option Z * Z * option (list Z)) :=
  '(attr_ptr, attr_len, _) ← get_attr oui get16 fuel b ie ielen target_attr_id None;
  match attr_ptr with
  | Some p =>
      if attr_len =? 0 then mret (None, 0, buf_content) else
      d ← copy_out buf_content b (p + 3) (attr_len - 3);
      mret (Some (p + 3), u32 (attr_len - 3), d)
  | None => mret (None, 0, buf_content)
  end.

Definition rtw_get_p2p_attr_content := get_attr_content p2p_oui RTW_GET_LE16.
Definition rtw_get_wfd_attr_content := get_attr_content wfd_oui RTW_GET_BE16.

(** Returns the object and the length written. *)
Definition rtw_set_p2p_attr_content (b : list Z) (pbuf attr_id attr_len : Z) (pdata_attr : option (list Z)) :
    res (list Z * Z) :=
  b ← wr b pbuf [attr_id];
  b ← RTW_PUT_LE16 b (pbuf + 1) attr_len;
  b ← match pdata_attr with
      | Some d => l ← rd_n d 0 attr_len; wr b (pbuf + 3) l
      | None => mret b
      end;
  mret (b, attr_len + 3).

(** ** Removing elements and attributes *)

(** [_rtw_memmove(to, from, n); _rtw_memset(to + n, 0, gap)] *)
Definition close_gap (b : list Z) (to from n gap : Z) : res (list Z) :=
  l ← rd_n b from n;
  b ← wr b to l;
  wr b (to + n) (zeros gap).

(** [rtw_del_p2p_ie] and [rtw_del_wfd_ie]; [fuel] bounds the removals. *)
Fixpoint del_vendor_ie (oui : list Z) (fuel : nat) (b : list Z) (ies ies_len : Z) : res (list Z * Z) :=
  match fuel with
  | O => Fuel
  | S fuel =>
      '(target, target_ie_len, _) ← get_special_ie (vendor_hit b oui) b (Some ies) ies_len None;
      match target with
      | Some target_ie =>
          if target_ie_len =? 0 then mret (b, ies_len) else
          let next_ie := target_ie + target_ie_len in
          let remain_len := u32 (ies_len - (next_ie - ies)) in
          b ← close_gap b target_ie next_ie remain_len target_ie_len;
          del_vendor_ie oui fuel b ies (u32 (ies_len - target_ie_len))
      | None => mret (b, ies_len)
      end
  end.

Definition rtw_del_p2p_ie (b : list Z) (ies ies_len_ori : Z) :=
  del_vendor_ie p2p_oui (S (Z.to_nat ies_len_ori)) b ies ies_len_ori.
Definition rtw_del_wfd_ie (b : list Z) (ies ies_len_ori : Z) :=
  del_vendor_ie wfd_oui (S (Z.to_nat ies_len_ori)) b ies ies_len_ori.

(** [rtw_del_p2p_attr] and [rtw_del_wfd_attr]. *)
Fixpoint del_attr (oui : list Z) (get16 : list Z -> Z -> res Z) (fuel : nat) (b : list Z)
    (ie ielen attr_id : Z) : res (list Z * Z) :=
  match fuel with
  | O => Fuel
  | S fuel' =>
      '(target, target_attr_len, _) ← get_attr oui get16 fuel b (Some ie) ielen attr_id None;
      match target with
      | Some target_attr =>
          if target_attr_len =? 0 then mret (b, ielen) else
          let next_attr := target_attr + target_attr_len in
          let remain_len := u32 (ielen - (next_attr - ie)) in
          b ← close_gap b target_attr next_attr remain_len target_attr_len;
          x1 ← rd b (ie + 1);
          b ← wr b (ie + 1) [u8 (x1 - target_attr_len)];
          del_attr oui get16 fuel' b ie (u32 (ielen - target_attr_len)) attr_id
      | None => mret (b, ielen)
      end
  end.

Definition rtw_del_p2p_attr (fuel : nat) := del_attr p2p_oui RTW_GET_LE16 fuel.
Definition rtw_del_wfd_attr (fuel : nat) := del_attr wfd_oui RTW_GET_BE16 fuel.

(** ** Elements of a scanned network ([WLAN_BSSID_EX]) *)

(** [IEs] is the object; [Reserved[0] == BSS_TYPE_PROB_REQ] says whether the
    12 bytes of fixed parameters are missing. *)
Record bss_ex := mkBss { bss_prob_req : bool; IELength : Z; IEs : list Z }.

Definition BSS_EX_FIXED_IE_OFFSET (bss : bss_ex) : Z := if bss_prob_req bss then 0 else 12.
Definition BSS_EX_TLV_IES_LEN (bss : bss_ex) : Z := u32 (IELength bss - BSS_EX_FIXED_IE_OFFSET bss).

Definition rtw_bss_ex_get_p2p_ie (bss : bss_ex) (p2p_ie : option (list Z)) :=
  rtw_get_p2p_ie (IEs bss) (Some (BSS_EX_FIXED_IE_OFFSET bss)) (BSS_EX_TLV_IES_LEN bss) p2p_ie.
Definition rtw_bss_ex_get_wfd_ie (bss : bss_ex) (wfd_ie : option (list Z)) :=
  rtw_get_wfd_ie (IEs bss) (Some (BSS_EX_FIXED_IE_OFFSET bss)) (BSS_EX_TLV_IES_LEN bss) wfd_ie.

Definition bss_del_vendor_ie (oui : list Z) (bss : bss_ex) : res bss_ex :=
  let ies_len_ori := BSS_EX_TLV_IES_LEN bss in
  '(b, ies_len) ← del_vendor_ie oui (S (Z.to_nat ies_len_ori)) (IEs bss) (BSS_EX_FIXED_IE_OFFSET bss)
                    ies_len_ori;
  mret (mkBss (bss_prob_req bss) (u32 (IELength bss - (ies_len_ori - ies_len))) b).

Definition rtw_bss_ex_del_p2p_ie := bss_del_vendor_ie p2p_oui.
Definition rtw_bss_ex_del_wfd_ie := bss_del_vendor_ie wfd_oui.

(** The loop of [rtw_bss_ex_del_p2p_attr] over the vendor elements from [ies]. *)
Fixpoint bss_del_attr_loop (oui : list Z) (get16 : list Z -> Z -> res Z) (fuel : nat) (bss : bss_ex)
    (ies ies_len attr_id : Z) : res bss_ex :=
  match fuel with
  | O => Fuel
  | S fuel' =>
      '(found, ie_len_ori, _) ← get_special_ie (vendor_hit (IEs bss) oui) (IEs bss) (Some ies) ies_len None;
      match found with
      | Some ie =>
          let next_ie_ori := ie + ie_len_ori in
          let remain_len := u32 (IELength bss - next_ie_ori) in
          '(b, ie_len) ← del_attr oui get16 fuel (IEs bss) ie ie_len_ori attr_id;
          if negb (ie_len =? ie_len_ori) then
            let next_ie := ie + ie_len in
            b ← close_gap b next_ie next_ie_ori remain_len (ie_len_ori - ie_len);
            bss_del_attr_loop oui get16 fuel'
              (mkBss (bss_prob_req bss) (u32 (IELength bss - (ie_len_ori - ie_len))) b) next_ie remain_len attr_id
          else bss_del_attr_loop oui get16 fuel' (mkBss (bss_prob_req bss) (IELength bss) b)
                 next_ie_ori remain_len attr_id
      | None => mret bss
      end
  end.

Definition rtw_bss_ex_del_p2p_attr (fuel : nat) (bss : bss_ex) (attr_id : Z) :=
  bss_del_attr_loop p2p_oui RTW_GET_LE16 fuel bss (BSS_EX_FIXED_IE_OFFSET bss) (BSS_EX_TLV_IES_LEN bss) attr_id.
Definition rtw_bss_ex_del_wfd_attr (fuel : nat) (bss : bss_ex) (attr_id : Z) :=
  bss_del_attr_loop wfd_oui RTW_GET_BE16 fuel bss (BSS_EX_FIXED_IE_OFFSET bss) (BSS_EX_TLV_IES_LEN bss) attr_id.

(** ** Merging P2P elements *)

Fixpoint merged_len_loop (fuel : nat) (b : list Z) (in_ie i in_len len : Z) : res Z :=
  if i <? in_len then
    match fuel with
    | O => Fuel
    | S fuel =>
        id ← rd b (in_ie + i);
        p2p ← (if id =? WLAN_EID_VENDOR_SPECIFIC then memcmp b (in_ie + i + 2) p2p_oui 4 else mret false);
        l ← rd b (in_ie + i + 1);
        merged_len_loop fuel b in_ie (i + (l + 2)) in_len (if p2p : bool then len + (l - 4) else len)
    end
  else mret (len + 4).

Definition rtw_get_p2p_merged_ies_len (b : list Z) (in_ie in_len : Z) : res Z :=
  merged_len_loop (Z.to_nat in_len) b in_ie 0 in_len 0.

(** The merged buffer is the object [m]; [len] is 8 bits wide. *)
Fixpoint merge_loop (fuel : nat) (b : list Z) (in_ie i in_len len : Z) (m : list Z) (merge_ie : Z) :
    res (list Z * Z) :=
  if i <? in_len then
    match fuel with
    | O => Fuel
    | S fuel =>
        id ← rd b (in_ie + i);
        p2p ← (if id =? WLAN_EID_VENDOR_SPECIFIC then memcmp b (in_ie + i + 2) p2p_oui 4 else mret false);
        l ← rd b (in_ie + i + 1);
        if p2p : bool then
          d ← rd_n b (in_ie + i + 2 + 4) (l - 4);
          m ← wr m merge_ie d;
          merge_loop fuel b in_ie (i + (l + 2)) in_len (u8 (len + (l - 4))) m (merge_ie + (l - 4))
        else merge_loop fuel b in_ie (i + (l + 2)) in_len len m merge_ie
    end
  else mret (m, len + 4).

Definition rtw_p2p_merge_ies (b : list Z) (in_ie in_len : Z) (merge_ie : option (list Z)) :
    res (option (list Z) * Z) :=
  match merge_ie with
  | None => mret (None, 0)
  | Some m =>
      m ← wr m 0 ([221; 0] ++ p2p_oui);
      '(m, n) ← merge_loop (Z.to_nat in_len) b in_ie 0 in_len 0 m 6;
      mret (Some m, n)
  end.
