(* ===== verification/IeAttrThm.v ===== *)
(** * Theorems on attributes

    On well-formed elements the attribute searches find the first attribute
    with the identifier and the removals leave exactly the others; on arbitrary
    bytes the P2P and WFD searches stay inside the element.  A crafted length
    makes the attribute loops run forever. *)

From S2P Require Import Prelude IeBuf IeSearch IeSearchThm IeEditThm IeAttr.

(** ** WPS attributes *)

Record wattr := mkWattr { wa_id : Z; wa_data : list Z }.
Definition enc_wattr (a : wattr) : list Z := be16 (wa_id a) ++ be16 (zlen (wa_data a)) ++ wa_data a.
Definition enc_wattrs (l : list wattr) : list Z := concat (map enc_wattr l).
Definition wf_wattr (a : wattr) : Prop := word16 (wa_id a) /\ zlen (wa_data a) < 65532.
Definition enc_wps (l : list wattr) : list Z :=
  enc_ie (mkIe WLAN_EID_VENDOR_SPECIFIC (wps_oui ++ enc_wattrs l)).

(** The first attribute with the identifier, with its offset. *)
Fixpoint find_wattr (id : Z) (l : list wattr) (p : Z) : option (Z * wattr) :=
  match l with
  | [] => None
  | a :: l => if wa_id a =? id then Some (p, a) else find_wattr id l (p + (zlen (wa_data a) + 4))
  end.

Lemma zlen_enc_wattr a : zlen (enc_wattr a) = zlen (wa_data a) + 4.
Proof. unfold enc_wattr, be16. zl. Qed.
Lemma enc_wattrs_cons a l : enc_wattrs (a :: l) = enc_wattr a ++ enc_wattrs l.
Proof. reflexivity. Qed.
#[local] Hint Rewrite zlen_enc_wattr enc_wattrs_cons : zlen.

Lemma get_wps_attr_loop_spec l b ie p ielen id fuel :
  at_off b p (enc_wattrs l) -> p - ie + zlen (enc_wattrs l) = ielen -> Forall wf_wattr l ->
  (length l <= fuel)%nat ->
  get_wps_attr_loop fuel b ie p ielen id None =
    Ok (match find_wattr id l p with
        | Some (q, a) => (Some q, zlen (wa_data a) + 4, None) | None => (None, 0, None) end).
Proof.
  intros Hat Hlen Hwf. revert p fuel Hat Hlen. induction Hwf as [|a l [Hid Hd] _ IH]; intros p fuel Hat Hlen Hf.
  - unfold enc_wattrs in Hlen. simpl in Hlen. destruct fuel; simpl; replace (_ <? ielen) with false; (done || zl).
  - destruct fuel as [|fuel]; [simpl in Hf; lia|]. cbn [get_wps_attr_loop find_wattr].
    replace (_ <? ielen) with true by zl. rewrite enc_wattrs_cons in Hat.
    apply at_off_app in Hat as [Ha Hl]. rewrite zlen_enc_wattr in Hl. unfold enc_wattr in Ha.
    apply at_off_app in Ha as [H0 H1]. change (zlen (be16 (wa_id a))) with 2 in H1.
    apply at_off_app in H1 as [H1 _].
    rewrite (be16_at b p _ Hid H0). cbn [mbind res_bind].
    assert (word16 (zlen (wa_data a))) by (unfold word16; pose proof (zlen_nonneg (wa_data a)); lia).
    rewrite (be16_at b (p + 2) _ H H1). cbn [mbind res_bind].
    rewrite u16_small by (pose proof (zlen_nonneg (wa_data a)); lia).
    destruct (wa_id a =? id); [done|]. apply IH; [done|zl|simpl in Hf; lia].
Qed.

Lemma wps_header b p d :
  at_off b p (enc_ie (mkIe WLAN_EID_VENDOR_SPECIFIC (wps_oui ++ d))) ->
  rd b p = Ok WLAN_EID_VENDOR_SPECIFIC /\ memcmp b (p + 2) wps_oui 4 = Ok true /\ at_off b (p + 6) d.
Proof.
  intros Hat. unfold enc_ie in Hat. cbn [ie_id ie_data] in Hat.
  apply at_off_cons in Hat as [R0 Hat]. apply at_off_cons in Hat as [_ Hat].
  replace (p + 1 + 1) with (p + 2) in Hat by lia. apply at_off_app in Hat as [Ho Hd].
  change (zlen wps_oui) with 4 in Hd. replace (p + 2 + 4) with (p + 6) in Hd by lia.
  split; [done|]. split; [|done]. unfold memcmp. rewrite (at_off_rd_n b (p + 2) wps_oui) by done. done.
Qed.

Lemma find_wattr_at id l p q a b :
  at_off b p (enc_wattrs l) -> find_wattr id l p = Some (q, a) -> at_off b (q + 4) (wa_data a).
Proof.
  revert p. induction l as [|x l IH]; intros p Hat H; [done|]. simpl in H.
  rewrite enc_wattrs_cons in Hat. apply at_off_app in Hat as [Hx Hl]. rewrite zlen_enc_wattr in Hl.
  destruct (wa_id x =? id); [|eauto]. injection H as <- <-. unfold enc_wattr in Hx.
  apply at_off_app in Hx as [_ Hx]. apply at_off_app in Hx as [_ Hx].
  change (zlen (be16 (wa_id x))) with 2 in Hx. change (zlen (be16 _)) with 2 in Hx.
  by replace (p + 2 + 2) with (p + 4) in Hx by lia.
Qed.

Lemma find_wattr_iff id l p :
  match List.find (fun a => wa_id a =? id) l with
  | Some a => exists q, find_wattr id l p = Some (q, a)
  | None => find_wattr id l p = None
  end.
Proof.
  revert p. induction l as [|x l IH]; intros p; [done|]. simpl.
  destruct (wa_id x =? id); [by exists p | apply IH].
Qed.

(** The contents of the first attribute with the identifier. *)
Lemma wps_content_spec l b p id fuel :
  at_off b p (enc_wps l) -> Forall wf_wattr l -> (length l <= fuel)%nat ->
  match List.find (fun a => wa_id a =? id) l with
  | Some a => exists q, rtw_get_wps_attr_content fuel b p (zlen (enc_wps l)) id None =
                        Ok (Some q, zlen (wa_data a), None) /\ at_off b q (wa_data a)
  | None => rtw_get_wps_attr_content fuel b p (zlen (enc_wps l)) id None = Ok (None, 0, None)
  end.
Proof.
  intros Hat Hwf Hf. destruct (wps_header b p (enc_wattrs l) Hat) as (R0 & Hm & Hd).
  assert (HG : rtw_get_wps_attr fuel b p (zlen (enc_wps l)) id None =
    Ok (match find_wattr id l (p + 6) with
        | Some (q, a) => (Some q, zlen (wa_data a) + 4, None) | None => (None, 0, None) end)).
  { unfold rtw_get_wps_attr. rewrite R0. cbn [mbind res_bind]. rewrite Z.eqb_refl. cbn [negb].
    rewrite Hm. cbn [mbind res_bind negb]. apply get_wps_attr_loop_spec; auto.
    unfold enc_wps. rewrite zlen_enc_ie. cbn [ie_data]. rewrite zlen_app. change (zlen wps_oui) with 4. lia. }
  pose proof (find_wattr_iff id l (p + 6)) as HF. unfold rtw_get_wps_attr_content. rewrite HG.
  destruct (List.find _ l) as [a|] eqn:Ef.
  - destruct HF as [q Hq]. rewrite Hq. cbn [mbind res_bind]. pose proof (zlen_nonneg (wa_data a)).
    replace (_ =? 0) with false by lia. cbn [copy_out mbind res_bind mret res_ret].
    exists (q + 4). split; [|eauto using find_wattr_at].
    apply List.find_some in Ef as [Hin _]. rewrite List.Forall_forall in Hwf. destruct (Hwf a Hin).
    rewrite u32_small by lia. do 3 f_equal. lia.
  - rewrite HF. done.
Qed.

(** A length of 0xFFFC: adding the header gives 0 and the pointer stays. *)
Lemma wps_loop_stuck b ie p ielen id target :
  at_off b p (be16 id ++ be16 65532) -> word16 id -> id <> target -> p - ie < ielen ->
  forall fuel, get_wps_attr_loop fuel b ie p ielen target None = Fuel.
Proof.
  intros Hat Hid Hne Hlt. apply at_off_app in Hat as [H0 H1]. change (zlen (be16 id)) with 2 in H1.
  induction fuel as [|fuel IH]; cbn [get_wps_attr_loop]; replace (_ <? ielen) with true by lia; [done|].
  rewrite (be16_at b p id Hid H0). cbn [mbind res_bind].
  rewrite (be16_at b (p + 2) 65532) by (done || (unfold word16; lia)). cbn [mbind res_bind].
  replace (id =? target) with false by lia. change (u16 (65532 + 4)) with 0. by rewrite Z.add_0_r.
Qed.

(** ** 16-bit lengths of either byte order *)

Class Order16 (get16 : list Z -> Z -> res Z) (enc16 : Z -> list Z) := {
  enc16_len : forall v, zlen (enc16 v) = 2;
  enc16_at : forall b p v, word16 v -> at_off b p (enc16 v) -> get16 b p = Ok v;
  get16_in : forall b p, bytes b -> 0 <= p -> p + 2 <= zlen b -> exists v, get16 b p = Ok v /\ word16 v }.

#[export] Instance order_le : Order16 RTW_GET_LE16 le16.
Proof. constructor; [done | apply le16_at | apply get_le16_in]. Qed.
#[export] Instance order_be : Order16 RTW_GET_BE16 be16.
Proof. constructor; [done | apply be16_at | apply get_be16_in]. Qed.

(** ** Closing a gap *)

Lemma close_gap_spec pre l k post :
  close_gap (pre ++ l ++ k ++ post) (zlen pre) (zlen pre + zlen l) (zlen k) (zlen l) =
    Ok (pre ++ k ++ zeros (zlen l) ++ post).
Proof.
  unfold close_gap. rewrite (at_off_rd_n _ _ k (zlen k)); [| |done].
  2:{ exists (pre ++ l), post. rewrite <- !app_assoc. split; [done|zl]. }
  cbn [mbind res_bind]. destruct (memmove_down pre l k post) as (junk & Hj & HW).
  rewrite <- app_assoc in HW. rewrite HW. cbn [mbind res_bind].
  rewrite (app_assoc pre k). rewrite wr_at; [by rewrite <- app_assoc|zl|].
  rewrite zlen_zeros by zl. lia.
Qed.

Record attr := mkAttr { a_id : Z; a_data : list Z }.

Section attrs.
Context (oui : list Z) (get16 : list Z -> Z -> res Z) (enc16 : Z -> list Z).
Context {Hord : Order16 get16 enc16}.
Hypothesis Houi : zlen oui = 4.

Definition enc_attr (a : attr) : list Z := a_id a :: enc16 (zlen (a_data a)) ++ a_data a.
Definition enc_attrs (l : list attr) : list Z := concat (map enc_attr l).
Definition wf_attr (a : attr) : Prop := zlen (a_data a) < 65533.
(** A vendor element that holds attributes. *)
Definition enc_vendor (l : list attr) : list Z :=
  enc_ie (mkIe WLAN_EID_VENDOR_SPECIFIC (oui ++ enc_attrs l)).

Fixpoint find_attr (id : Z) (l : list attr) (p : Z) : option (Z * attr) :=
  match l with
  | [] => None
  | a :: l => if a_id a =? id then Some (p, a) else find_attr id l (p + (zlen (a_data a) + 3))
  end.

Lemma zlen_enc_attr a : zlen (enc_attr a) = zlen (a_data a) + 3.
Proof. unfold enc_attr. pose proof (enc16_len (zlen (a_data a))). zl. Qed.
Lemma enc_attrs_cons a l : enc_attrs (a :: l) = enc_attr a ++ enc_attrs l.
Proof. reflexivity. Qed.
Lemma enc_attrs_app l k : enc_attrs (l ++ k) = enc_attrs l ++ enc_attrs k.
Proof. unfold enc_attrs. rewrite map_app, concat_app. reflexivity. Qed.
Lemma zlen_enc_vendor l : zlen (enc_vendor l) = zlen (enc_attrs l) + 6.
Proof. unfold enc_vendor. rewrite zlen_enc_ie. cbn [ie_data]. zl. Qed.
#[local] Hint Rewrite zlen_enc_attr enc_attrs_cons enc_attrs_app zlen_enc_vendor : zlen.

Lemma get_attr_loop_spec l b ie p ielen id fuel :
  at_off b p (enc_attrs l) -> p - ie + zlen (enc_attrs l) = ielen -> Forall wf_attr l ->
  (length l <= fuel)%nat ->
  get_attr_loop get16 fuel b ie p ielen id None =
    Ok (match find_attr id l p with
        | Some (q, a) => (Some q, zlen (a_data a) + 3, None) | None => (None, 0, None) end).
Proof.
  intros Hat Hlen Hwf. revert p fuel Hat Hlen. induction Hwf as [|a l Hd _ IH]; intros p fuel Hat Hlen Hf.
  - unfold enc_attrs in Hlen. simpl in Hlen. destruct fuel; simpl; replace (_ <=? ielen) with false; (done || zl).
  - destruct fuel as [|fuel]; [simpl in Hf; lia|]. cbn [get_attr_loop find_attr].
    replace (_ <=? ielen) with true by zl. rewrite enc_attrs_cons in Hat.
    apply at_off_app in Hat as [Ha Hl]. rewrite zlen_enc_attr in Hl. unfold enc_attr in Ha.
    apply at_off_cons in Ha as [H0 H1]. apply at_off_app in H1 as [H1 _].
    rewrite H0. cbn [mbind res_bind]. unfold wf_attr in Hd. pose proof (zlen_nonneg (a_data a)).
    rewrite (enc16_at b (p + 1) (zlen (a_data a))) by (done || (unfold word16; lia)). cbn [mbind res_bind].
    rewrite u16_small by lia. replace (ielen <? _) with false by zl.
    destruct (a_id a =? id); [done|]. apply IH; [done|zl|simpl in Hf; lia].
Qed.

Lemma vendor_header b p l :
  at_off b p (enc_vendor l) ->
  rd b p = Ok WLAN_EID_VENDOR_SPECIFIC /\ memcmp b (p + 2) oui 4 = Ok true /\ at_off b (p + 6) (enc_attrs l).
Proof.
  intros Hat. unfold enc_vendor, enc_ie in Hat. cbn [ie_id ie_data] in Hat.
  apply at_off_cons in Hat as [R0 Hat]. apply at_off_cons in Hat as [_ Hat].
  replace (p + 1 + 1) with (p + 2) in Hat by lia. apply at_off_app in Hat as [Ho Hd].
  rewrite Houi in Hd. replace (p + 2 + 4) with (p + 6) in Hd by lia.
  split; [done|]. split; [|done]. unfold memcmp. rewrite (at_off_rd_n b (p + 2) oui) by done.
  cbn [mbind res_bind]. rewrite (at_off_rd_n oui 0 oui) by (done || apply at_off_refl).
  cbn [mbind res_bind]. by rewrite bool_decide_eq_true_2.
Qed.

Lemma get_attr_spec l b p id fuel :
  at_off b p (enc_vendor l) -> Forall wf_attr l -> (length l <= fuel)%nat ->
  get_attr oui get16 fuel b (Some p) (zlen (enc_vendor l)) id None =
    Ok (match find_attr id l (p + 6) with
        | Some (q, a) => (Some q, zlen (a_data a) + 3, None) | None => (None, 0, None) end).
Proof.
  intros Hat Hwf Hf. destruct (vendor_header b p l Hat) as (R0 & Hm & Hd). unfold get_attr.
  rewrite zlen_enc_vendor. destruct (Z.leb_spec (zlen (enc_attrs l) + 6) 6).
  { destruct l as [|a l]; [done|]. exfalso. zl. }
  rewrite R0. cbn [mbind res_bind]. rewrite Z.eqb_refl. cbn [negb].
  rewrite Hm. cbn [mbind res_bind negb]. apply get_attr_loop_spec; auto. lia.
Qed.

Lemma find_attr_Some id l p q a :
  find_attr id l p = Some (q, a) ->
  exists l1 l2, l = l1 ++ a :: l2 /\ Forall (fun x => (a_id x =? id) = false) l1 /\
    (a_id a =? id) = true /\ q = p + zlen (enc_attrs l1).
Proof.
  revert p. induction l as [|x l IH]; simpl; intros p H; [done|]. destruct (a_id x =? id) eqn:E.
  - injection H as <- <-. exists [], l. repeat split; auto. unfold enc_attrs. simpl. zl.
  - apply IH in H as (l1 & l2 & -> & ? & ? & ->). exists (x :: l1), l2. repeat split; auto. zl.
Qed.

Lemma find_attr_None id l p : find_attr id l p = None -> Forall (fun x => (a_id x =? id) = false) l.
Proof.
  revert p. induction l as [|x l IH]; simpl; intros p H; [constructor|].
  destruct (a_id x =? id) eqn:E; [done|]. eauto.
Qed.

(** ** Arbitrary bytes *)

(** The search stays inside the element; if it has not ended after as many turns
    as the element has bytes, some length field is 0xFFFD. *)
Lemma get_attr_loop_safe b ie p ielen id fuel :
  bytes b -> 0 <= ie -> ie + 6 <= p -> ie + ielen <= zlen b ->
  (exists q l, get_attr_loop get16 fuel b ie p ielen id None = Ok (q, l, None) /\
     (forall q', q = Some q' -> p <= q' /\ q' + l <= ie + ielen)) \/
  (get_attr_loop get16 fuel b ie p ielen id None = Fuel /\
     ((Z.to_nat (ielen - (p - ie)) <= fuel)%nat ->
      exists r, p <= r /\ r + 3 <= ie + ielen /\ get16 b (r + 1) = Ok 65533)).
Proof.
  intros Hb Hi. revert p. induction fuel as [|fuel IH]; intros p Hp Hl; cbn [get_attr_loop].
  - destruct (Z.leb_spec (p - ie + 3) ielen).
    + right. split; [done|]. lia.
    + left. by exists None, 0.
  - destruct (Z.leb_spec (p - ie + 3) ielen); [|left; by exists None, 0].
    destruct (rd_in b p) as (x & -> & _); [lia|]. cbn [mbind res_bind].
    destruct (get16_in b (p + 1) Hb) as (n & Hn & Hw); [lia..|]. rewrite Hn. cbn [mbind res_bind].
    unfold word16 in Hw. destruct (Z.ltb_spec ielen (p - ie + u16 (n + 3))); [left; by exists None, 0|].
    assert (Hu : 0 <= u16 (n + 3)) by (unfold u16; lia).
    destruct (x =? id).
    { left. exists (Some p), (u16 (n + 3)). split; [done|]. intros q' [= <-]. lia. }
    destruct (decide (u16 (n + 3) = 0)) as [E|E].
    + destruct (IH p Hp Hl) as [HL|[HR _]]; rewrite E, Z.add_0_r; [by left|]. right. split; [done|]. intros _.
      exists p. split; [lia|]. split; [lia|]. rewrite Hn. f_equal. unfold u16 in E. lia.
    + destruct (IH (p + u16 (n + 3))) as [(q & l & HR & Hq)|[HR Hq]]; [lia..| |].
      * left. exists q, l. split; [done|]. intros q' Eq. specialize (Hq q' Eq). lia.
      * right. split; [done|]. intros Hf. destruct Hq as (r & ? & ? & ?); [lia|]. exists r. split; [lia|done].
Qed.

Lemma attr_loop_stuck b ie p ielen id target :
  at_off b p (id :: enc16 65533) -> id <> target -> p - ie + 3 <= ielen ->
  forall fuel, get_attr_loop get16 fuel b ie p ielen target None = Fuel.
Proof.
  intros Hat Hne Hlt. apply at_off_cons in Hat as [H0 H1].
  induction fuel as [|fuel IH]; cbn [get_attr_loop]; replace (_ <=? ielen) with true by lia; [done|].
  rewrite H0. cbn [mbind res_bind].
  rewrite (enc16_at b (p + 1) 65533) by (done || (unfold word16; lia)). cbn [mbind res_bind].
  change (u16 (65533 + 3)) with 0. rewrite !Z.add_0_r. replace (ielen <? p - ie) with false by lia.
  by replace (id =? target) with false by lia.
Qed.

(** ** Removal *)

Definition other_attrs (id : Z) (l : list attr) : list attr :=
  List.filter (fun a => negb (a_id a =? id)) l.

Lemma other_attrs_none id l : Forall (fun x => (a_id x =? id) = false) l -> other_attrs id l = l.
Proof. induction 1 as [|x l Hx _ IH]; [done|]. simpl. rewrite Hx. simpl. by rewrite IH. Qed.

Lemma other_attrs_len id l : zlen (enc_attrs (other_attrs id l)) <= zlen (enc_attrs l).
Proof.
  induction l as [|x l IH]; [done|]. simpl. destruct (a_id x =? id); simpl; autorewrite with zlen in *; zl.
Qed.

Lemma enc_vendor_split l : enc_vendor l = [WLAN_EID_VENDOR_SPECIFIC] ++ [4 + zlen (enc_attrs l)] ++ oui ++ enc_attrs l.
Proof. unfold enc_vendor, enc_ie. cbn [ie_id ie_data]. rewrite zlen_app, Houi. done. Qed.

(** One attribute taken out of its element: the bytes behind it move down, and
    the length byte shrinks. *)
Lemma del_attr_step pre l1 a l2 post :
  let k := zlen (a_data a) + 3 in
  exists b1,
    close_gap (pre ++ enc_vendor (l1 ++ a :: l2) ++ post) (zlen pre + 6 + zlen (enc_attrs l1))
      (zlen pre + 6 + zlen (enc_attrs l1) + k) (zlen (enc_attrs l2)) k = Ok b1 /\
    rd b1 (zlen pre + 1) = Ok (4 + zlen (enc_attrs (l1 ++ l2)) + k) /\
    wr b1 (zlen pre + 1) [4 + zlen (enc_attrs (l1 ++ l2))] =
      Ok (pre ++ enc_vendor (l1 ++ l2) ++ zeros k ++ post).
Proof.
  intros k. set (n := 4 + zlen (enc_attrs (l1 ++ a :: l2))).
  pose proof (close_gap_spec (pre ++ [WLAN_EID_VENDOR_SPECIFIC] ++ [n] ++ oui ++ enc_attrs l1)
    (enc_attr a) (enc_attrs l2) post) as CG.
  rewrite zlen_enc_attr in CG. fold k in CG.
  replace (zlen (pre ++ [WLAN_EID_VENDOR_SPECIFIC] ++ [n] ++ oui ++ enc_attrs l1))
    with (zlen pre + 6 + zlen (enc_attrs l1)) in CG by zl.
  assert (Hk : n = 4 + zlen (enc_attrs (l1 ++ l2)) + k) by (unfold n, k; zl).
  rewrite !enc_vendor_split. fold n.
  eexists. split; [|split].
  - rewrite enc_attrs_app, enc_attrs_cons, <- !app_assoc. rewrite <- !app_assoc in CG. exact CG.
  - rewrite <- Hk. rewrite (rd_app_r pre (zlen pre) 1) by lia. done.
  - rewrite (app_assoc pre). rewrite wr_at by zl.
    rewrite enc_attrs_app, <- !app_assoc. done.
Qed.

Lemma del_attr_spec fuel l pre post id :
  Forall wf_attr l -> (length l < fuel)%nat -> zlen (enc_attrs l) + 4 < 256 ->
  del_attr oui get16 fuel (pre ++ enc_vendor l ++ post) (zlen pre) (zlen (enc_vendor l)) id =
    Ok (pre ++ enc_vendor (other_attrs id l) ++
          zeros (zlen (enc_attrs l) - zlen (enc_attrs (other_attrs id l))) ++ post,
        zlen (enc_vendor (other_attrs id l))).
Proof.
  revert l post. induction fuel as [|fuel IH]; intros l post Hwf Hf Hb; [lia|]. cbn [del_attr].
  rewrite (get_attr_spec l) by (done || lia || by exists pre, post). cbn [mbind res_bind].
  destruct (find_attr id l (zlen pre + 6)) as [[q a]|] eqn:E.
  - apply find_attr_Some in E as (l1 & l2 & -> & Hno & Ha & ->).
    apply Forall_app in Hwf as [Hw1 Hw2]. inversion_clear Hw2 as [|? ? _ Hw2'].
    pose proof (zlen_nonneg (a_data a)). replace (_ =? 0) with false by lia.
    destruct (del_attr_step pre l1 a l2 post) as (b1 & C1 & C2 & C3).
    rewrite zlen_enc_vendor. autorewrite with zlen in Hb, C2.
    match goal with |- context [close_gap _ _ _ (u32 ?x) _] =>
      replace (u32 x) with (zlen (enc_attrs l2)) by (rewrite u32_small; zl) end.
    rewrite C1. cbn [mbind res_bind]. rewrite C2. cbn [mbind res_bind].
    match goal with |- context [u8 ?x] =>
      replace (u8 x) with (4 + zlen (enc_attrs (l1 ++ l2)))
        by (rewrite u8_small; unfold byte; zl) end.
    rewrite C3. cbn [mbind res_bind].
    match goal with |- context [u32 ?x] =>
      replace (u32 x) with (zlen (enc_vendor (l1 ++ l2))) by (rewrite u32_small; zl) end.
    rewrite IH; [|by apply Forall_app|rewrite length_app in *; simpl in Hf; lia|zl].
    assert (HO : other_attrs id (l1 ++ a :: l2) = other_attrs id (l1 ++ l2)).
    { unfold other_attrs. rewrite !List.filter_app. simpl. by rewrite Ha. }
    rewrite HO. do 2 f_equal. do 2 f_equal. rewrite app_assoc, zeros_app; [|pose proof (other_attrs_len id (l1 ++ l2)); lia|lia].
    do 2 f_equal. zl.
  - apply find_attr_None in E. rewrite other_attrs_none by done. rewrite Z.sub_diag. done.
Qed.
End attrs.

(** ** Removing whole elements *)

Definition vendor_room (es : list ie) : Prop :=
  Forall (fun e => ie_id e = WLAN_EID_VENDOR_SPECIFIC -> 4 <= zlen (ie_data e)) es.

Lemma del_vendor_ie_spec oui fuel es pre post :
  zlen oui = 4 -> vendor_room es -> zlen (enc_ies es) <= MAX_IE_SZ -> (length es < fuel)%nat ->
  del_vendor_ie oui fuel (pre ++ enc_ies es ++ post) (zlen pre) (zlen (enc_ies es)) =
    Ok (pre ++ enc_ies (removed (vendor_is oui) es) ++
          zeros (zlen (enc_ies es) - zlen (enc_ies (removed (vendor_is oui) es))) ++ post,
        zlen (enc_ies (removed (vendor_is oui) es))).
Proof.
  intros Ho. revert es post. induction fuel as [|fuel IH]; intros es post Hr Hm Hf; [lia|].
  cbn [del_vendor_ie]. rewrite (get_vendor_spec oui es) by (done || by exists pre, post).
  cbn [mbind res_bind]. destruct (find_by (vendor_is oui) es (zlen pre)) as [[q e]|] eqn:E.
  - apply find_by_Some in E as (es1 & es2 & -> & Hno & He & ->).
    pose proof (zlen_nonneg (ie_data e)). replace (_ =? 0) with false by lia.
    rewrite enc_ies_app, enc_ies_cons in *. unfold MAX_IE_SZ in *. autorewrite with zlen in Hm.
    pose proof (close_gap_spec (pre ++ enc_ies es1) (enc_ie e) (enc_ies es2) post) as CG.
    rewrite zlen_enc_ie, zlen_app in CG. rewrite <- !app_assoc in *.
    match goal with |- context [close_gap _ _ _ (u32 ?x) _] =>
      replace (u32 x) with (zlen (enc_ies es2)) by (rewrite u32_small; zl) end.
    rewrite CG. cbn [mbind res_bind].
    match goal with |- context [u32 ?x] =>
      replace (u32 x) with (zlen (enc_ies (es1 ++ es2))) by (rewrite u32_small; zl) end.
    rewrite (app_assoc (enc_ies es1)), <- enc_ies_app.
    unfold vendor_room in *. apply Forall_app in Hr as [Hr1 Hr2]. inversion_clear Hr2.
    rewrite IH; [|by apply Forall_app|zl|rewrite length_app in *; simpl in Hf; lia].
    assert (HO : removed (vendor_is oui) (es1 ++ e :: es2) = removed (vendor_is oui) (es1 ++ es2)).
    { rewrite !removed_app. f_equal. simpl. by rewrite He. }
    rewrite HO. pose proof (removed_len (vendor_is oui) (es1 ++ es2)).
    do 4 f_equal. rewrite app_assoc, zeros_app by lia. do 2 f_equal. zl.
  - apply find_by_None in E. rewrite removed_none by done. rewrite Z.sub_diag. done.
Qed.

Lemma length_enc_ies es : (length es <= length (enc_ies es))%nat.
Proof. induction es as [|e es IH]; [simpl; lia|]. rewrite enc_ies_cons, length_app. simpl. lia. Qed.

(** The stored elements of a network after [rtw_bss_ex_del_p2p_ie] or
    [rtw_bss_ex_del_wfd_ie]. *)
Lemma bss_del_vendor_spec oui es fixed post pr :
  zlen oui = 4 -> vendor_room es -> zlen fixed = (if pr : bool then 0 else 12) ->
  zlen fixed + zlen (enc_ies es) <= MAX_IE_SZ ->
  let es' := removed (vendor_is oui) es in
  bss_del_vendor_ie oui (mkBss pr (zlen fixed + zlen (enc_ies es)) (fixed ++ enc_ies es ++ post)) =
    Ok (mkBss pr (zlen fixed + zlen (enc_ies es'))
          (fixed ++ enc_ies es' ++ zeros (zlen (enc_ies es) - zlen (enc_ies es')) ++ post)).
Proof.
  intros Ho Hr Hfx Hm es'. unfold bss_del_vendor_ie, BSS_EX_TLV_IES_LEN, BSS_EX_FIXED_IE_OFFSET.
  cbn [bss_prob_req IELength IEs]. rewrite <- Hfx. unfold MAX_IE_SZ in *.
  rewrite (u32_small (zlen fixed + zlen (enc_ies es) - zlen fixed)) by zl.
  replace (zlen fixed + zlen (enc_ies es) - zlen fixed) with (zlen (enc_ies es)) by lia.
  rewrite del_vendor_ie_spec; [|done|done|unfold MAX_IE_SZ; zl|].
  - cbn [mbind res_bind]. fold es'. pose proof (removed_len (vendor_is oui) es). fold es' in H.
    unfold mret, res_ret. f_equal. f_equal. rewrite u32_small; zl.
  - pose proof (length_enc_ies es). rewrite zlen_to_nat. lia.
Qed.

(** ** Writing a P2P attribute *)

Lemma put_le16_spec pre x y post v p :
  p = zlen pre -> word16 v -> RTW_PUT_LE16 (pre ++ x :: y :: post) p v = Ok (pre ++ le16 v ++ post).
Proof.
  intros -> Hv. unfold RTW_PUT_LE16, word16 in *. rewrite !u16_small by lia.
  rewrite (Z.shiftr_div_pow2 v 8) by lia. change (2 ^ 8) with 256.
  replace (Z.land v 255) with (v mod 256)
    by (change 255 with (Z.ones 8); rewrite Z.land_ones by lia; done).
  pose proof (wr_at (pre ++ [x]) [y] post [v / 256] (zlen pre + 1)) as W1.
  rewrite <- !app_assoc in W1. simpl app in W1. rewrite W1 by zl. cbn [mbind res_bind].
  pose proof (wr_at pre [x] (v / 256 :: post) [v mod 256] (zlen pre)) as W2.
  simpl app in W2. rewrite W2 by done. done.
Qed.

Lemma set_p2p_attr_spec pre old post id n d :
  word16 n -> n <= zlen d -> zlen old = n + 3 ->
  rtw_set_p2p_attr_content (pre ++ old ++ post) (zlen pre) id n (Some d) =
    Ok (pre ++ enc_attr le16 (mkAttr id (take (Z.to_nat n) d)) ++ post, n + 3).
Proof.
  intros Hn Hd Ho. assert (0 <= n < 65536) by exact Hn.
  destruct old as [|x [|y [|z r]]]; [zl..|]. unfold rtw_set_p2p_attr_content. simpl app.
  rewrite (wr_at pre [x] (y :: z :: r ++ post) [id]) by done. cbn [mbind res_bind].
  change (pre ++ [id] ++ y :: z :: r ++ post) with (pre ++ [id] ++ ([y; z] ++ r ++ post)).
  rewrite (app_assoc pre). simpl ([y; z] ++ _). rewrite put_le16_spec by (done || zl). cbn [mbind res_bind].
  rewrite rd_n_prefix by lia. cbn [mbind res_bind].
  rewrite (app_assoc (pre ++ [id])). rewrite wr_at by (rewrite ?list_take_zlen by lia; unfold le16; zl).
  cbn [mbind res_bind]. unfold enc_attr. cbn [a_id a_data]. rewrite list_take_zlen by lia.
  rewrite <- !app_assoc. done.
Qed.

(** ** Merging P2P elements *)

(** What the P2P elements of a list carry after their OUI, joined. *)
Definition p2p_payload (es : list ie) : list Z :=
  concat (map (fun e => drop 4 (ie_data e)) (List.filter (vendor_is p2p_oui) es)).

Lemma merge_cond b p e :
  (ie_id e = WLAN_EID_VENDOR_SPECIFIC -> 4 <= zlen (ie_data e)) -> at_off b (p + 2) (ie_data e) ->
  (if ie_id e =? WLAN_EID_VENDOR_SPECIFIC then memcmp b (p + 2) p2p_oui 4 else mret false) =
    Ok (vendor_is p2p_oui e).
Proof. intros. by apply (vendor_hit_spec b p2p_oui e p). Qed.

Lemma payload_cons e es :
  p2p_payload (e :: es) = (if vendor_is p2p_oui e then drop 4 (ie_data e) else []) ++ p2p_payload es.
Proof. unfold p2p_payload. simpl. by destruct (vendor_is p2p_oui e). Qed.

Lemma vendor_is_id oui e : vendor_is oui e = true -> ie_id e = WLAN_EID_VENDOR_SPECIFIC.
Proof. unfold vendor_is, ex_hit. intros H. apply andb_prop in H as [H _]. lia. Qed.

Lemma merge_loop_spec es b in_ie i in_len len M post n fuel :
  at_off b (in_ie + i) (enc_ies es) -> in_len = i + zlen (enc_ies es) -> vendor_room es ->
  zlen (p2p_payload es) <= zlen post -> byte n -> n = u8 len ->
  (Z.to_nat (zlen (enc_ies es)) <= fuel)%nat ->
  merge_loop fuel b in_ie i in_len n (M ++ post) (zlen M) =
    Ok (M ++ p2p_payload es ++ drop (length (p2p_payload es)) post, u8 (len + zlen (p2p_payload es)) + 4).
Proof.
  intros Hat Hlen Hr. revert i len M post n fuel Hat Hlen.
  induction Hr as [|e es He _ IH]; intros i len M post n fuel Hat Hlen Hp Hn En Hf.
  - destruct fuel; simpl; replace (i <? in_len) with false by (unfold enc_ies in Hlen; simpl in Hlen; zl);
      unfold p2p_payload; simpl; rewrite drop_0, zlen_nil, Z.add_0_r, <- En; done.
  - apply at_off_ies in Hat as (H0 & H1 & H2 & Hes). destruct fuel as [|fuel]; [exfalso; zl|].
    cbn [merge_loop]. replace (i <? in_len) with true by zl. rewrite H0. cbn [mbind res_bind].
    rewrite merge_cond by done. cbn [mbind res_bind]. rewrite H1. cbn [mbind res_bind].
    replace (in_ie + i + (zlen (ie_data e) + 2)) with (in_ie + (i + (zlen (ie_data e) + 2))) in * by lia.
    rewrite payload_cons in *. destruct (vendor_is p2p_oui e) eqn:Ev; [|simpl app in *; apply IH; auto; zl].
    specialize (He (vendor_is_id _ _ Ev)). set (d := drop 4 (ie_data e)) in *.
    assert (Hd : zlen d = zlen (ie_data e) - 4) by (unfold d, zlen in *; rewrite length_drop; lia).
    rewrite (at_off_rd_n b (in_ie + i + 2 + 4) d); [|
      rewrite <- (take_drop 4 (ie_data e)) in H2; apply at_off_app in H2 as [_ H2];
      replace (zlen (take 4 (ie_data e))) with 4 in H2 by (unfold zlen in *; rewrite length_take; lia); exact H2 |
      lia].
    cbn [mbind res_bind]. autorewrite with zlen in Hp. pose proof (zlen_nonneg (p2p_payload es)).
    pose proof (wr_grow M [] post d) as W. simpl app in W. rewrite W by zl. cbn [mbind res_bind].
    rewrite (app_assoc M). replace (zlen M + (zlen (ie_data e) - 4)) with (zlen (M ++ d)) by zl.
    rewrite <- Hd. rewrite (IH _ (len + zlen d)); try done.
    + rewrite drop_drop, length_app, <- !app_assoc. do 2 f_equal. rewrite zlen_app. do 2 f_equal. lia.
    + zl.
    + unfold zlen in *. rewrite length_drop. lia.
    + unfold byte, u8. lia.
    + rewrite En. unfold u8. rewrite Zplus_mod_idemp_l. done.
    + zl.
Qed.

Lemma p2p_merge_spec es b p m :
  at_off b p (enc_ies es) -> vendor_room es -> 6 + zlen (p2p_payload es) <= zlen m ->
  rtw_p2p_merge_ies b p (zlen (enc_ies es)) (Some m) =
    Ok (Some ([221; 0] ++ p2p_oui ++ p2p_payload es ++ drop (length (p2p_payload es)) (drop 6 m)),
        u8 (zlen (p2p_payload es)) + 4).
Proof.
  intros Hat Hr Hm. pose proof (zlen_nonneg (p2p_payload es)). unfold rtw_p2p_merge_ies.
  pose proof (wr_grow [] [] m ([221; 0] ++ p2p_oui)) as W.
  change (zlen ([221; 0] ++ p2p_oui)) with 6 in W. rewrite !zlen_nil in W. simpl ([] ++ _) in W.
  rewrite W by zl. cbn [mbind res_bind]. change (length ([221; 0] ++ p2p_oui)) with 6%nat.
  pose proof (merge_loop_spec es b p 0 (zlen (enc_ies es)) 0 ([221; 0] ++ p2p_oui) (drop 6 m) 0
    (Z.to_nat (zlen (enc_ies es)))) as L.
  change (zlen ([221; 0] ++ p2p_oui)) with 6 in L. rewrite <- !app_assoc in L. simpl app in *.
  rewrite L; try done.
  - by rewrite Z.add_0_r.
  - unfold zlen in *. rewrite length_drop. lia.
Qed.

Lemma merged_len_spec es b p i in_len len fuel :
  at_off b (p + i) (enc_ies es) -> in_len = i + zlen (enc_ies es) -> vendor_room es ->
  (Z.to_nat (zlen (enc_ies es)) <= fuel)%nat ->
  merged_len_loop fuel b p i in_len len = Ok (len + zlen (p2p_payload es) + 4).
Proof.
  intros Hat Hlen Hr. revert i len fuel Hat Hlen. induction Hr as [|e es He _ IH]; intros i len fuel Hat Hlen Hf.
  - destruct fuel; simpl; replace (i <? in_len) with false by (unfold enc_ies in Hlen; simpl in Hlen; zl);
      unfold p2p_payload; simpl; rewrite zlen_nil, Z.add_0_r; done.
  - apply at_off_ies in Hat as (H0 & H1 & H2 & Hes). destruct fuel as [|fuel]; [exfalso; zl|].
    cbn [merged_len_loop]. replace (i <? in_len) with true by zl. rewrite H0. cbn [mbind res_bind].
    rewrite merge_cond by done. cbn [mbind res_bind]. rewrite H1. cbn [mbind res_bind].
    replace (p + i + (zlen (ie_data e) + 2)) with (p + (i + (zlen (ie_data e) + 2))) in * by lia.
    rewrite payload_cons. rewrite IH by (done || zl). f_equal.
    destruct (vendor_is p2p_oui e) eqn:Ev; [|simpl; lia]. specialize (He (vendor_is_id _ _ Ev)).
    rewrite zlen_app. unfold zlen in *. rewrite length_drop. lia.
Qed.
