(* ===== verification/IeRate.v ===== *)
(** * Rates (src/core/rtw_ieee80211.c, rate tests of src/core/rtw_wlan_util.c)

    Supported-rate sets, the wireless mode they imply, the adjustment of an
    access point's rate elements to the configured mode, and the highest HT rate
    of an MCS set. *)

From S2P Require Import Prelude IeBuf IeSearch IeSearchThm IeEditThm.

Definition WLAN_MD_INVALID := 0.
Definition WLAN_MD_11B := BIT 0.
Definition WLAN_MD_11A := BIT 1.
Definition WLAN_MD_11G := BIT 2.
Definition WLAN_MD_11BG := Z.lor WLAN_MD_11B WLAN_MD_11G.

Definition WIFI_CCKRATES := [130; 132; 139; 150].
Definition WIFI_OFDMRATES := [12; 18; 24; 36; 48; 72; 96; 108].
Definition rtw_basic_rate_ofdm := [140; 152; 176].
Definition NDIS_802_11_LENGTH_RATES_EX := 16.
Definition _BEACON_IE_OFFSET_ := 12.
Definition _SUPPORTEDRATES_IE_ := 1.
Definition _EXT_SUPPORTEDRATES_IE_ := 50.

(** ** Rate tests *)

(** The loop over a table, with the basic-rate bit masked on both sides. *)
Definition rate_in (table : list Z) (rate : Z) : bool :=
  existsb (fun r => Z.land r 127 =? Z.land rate 127) table.

Definition rtw_is_cck_rate := rate_in WIFI_CCKRATES.
Definition rtw_is_ofdm_rate := rate_in WIFI_OFDMRATES.
Definition rtw_is_basic_rate_ofdm := rate_in rtw_basic_rate_ofdm.

Definition cck_value (r : Z) : bool :=
  (Z.land r 127 =? 2) || (Z.land r 127 =? 4) || (Z.land r 127 =? 11) || (Z.land r 127 =? 22).

(** [rtw_get_bit_value_from_ieee_value] *)
Fixpoint bit_value_loop (table : list Z) (i val : Z) : Z :=
  match table with
  | [] => 0
  | r :: table => if r =? val then BIT i else bit_value_loop table (i + 1) val
  end.
Definition rtw_get_bit_value_from_ieee_value (val : Z) : Z :=
  bit_value_loop [2; 4; 11; 22; 12; 18; 24; 36; 48; 72; 96; 108] 0 val.

Fixpoint cckrate_size_loop (fuel : nat) (rate : list Z) (i rate_length : Z) : res Z :=
  if i <? rate_length then
    match fuel with
    | O => Fuel
    | S fuel =>
        r ← rd rate i;
        if cck_value r then cckrate_size_loop fuel rate (i + 1) rate_length else mret i
    end
  else mret i.
Definition rtw_get_cckrate_size (rate : list Z) (rate_length : Z) : res Z :=
  cckrate_size_loop (Z.to_nat rate_length) rate 0 rate_length.

(** [while (rate[i] != 0)]: the rates end with a zero byte. *)
Fixpoint rates_loop (stop : Z -> bool) (found : bool) (fuel : nat) (rate : list Z) (i : Z) : res bool :=
  match fuel with
  | O => Fuel
  | S fuel =>
      r ← rd rate i;
      if r =? 0 then mret (negb found)
      else if stop r then mret found
      else rates_loop stop found fuel rate (i + 1)
  end.

Definition rtw_is_cckrates_included (rate : list Z) : res bool :=
  rates_loop cck_value true (S (length rate)) rate 0.
Definition rtw_is_cckratesonly_included (rate : list Z) : res bool :=
  rates_loop (fun r => negb (cck_value r)) false (S (length rate)) rate 0.

Definition rtw_check_network_type (rate : list Z) (channel : Z) : res Z :=
  if 14 <? channel then
    c ← rtw_is_cckrates_included rate;
    mret (if c : bool then WLAN_MD_INVALID else WLAN_MD_11A)
  else
    o ← rtw_is_cckratesonly_included rate;
    if o : bool then mret WLAN_MD_11B else
    c ← rtw_is_cckrates_included rate;
    mret (if c : bool then WLAN_MD_11BG else WLAN_MD_11G).

Fixpoint rateset_len_loop (fuel : nat) (rateset : list Z) (i : Z) : res Z :=
  match fuel with
  | O => Fuel
  | S fuel =>
      r ← rd rateset i;
      if r =? 0 then mret i
      else if 12 <? i then mret i
      else rateset_len_loop fuel rateset (i + 1)
  end.
Definition rtw_get_rateset_len (rateset : list Z) : res Z := rateset_len_loop 14 rateset 0.

(** ** Rates of the configured mode *)

Definition rtw_set_supported_rate (SupportedRates : list Z) (mode ch : Z) : res (list Z) :=
  r ← wr SupportedRates 0 (replicate 16 0);
  if ch <=? 14 then
    r ← (if z_true (Z.land mode WLAN_MD_11B) then wr r 0 WIFI_CCKRATES else mret r);
    if z_true (Z.land mode (Z.lnot WLAN_MD_11B)) then wr r 4 WIFI_OFDMRATES else mret r
  else wr r 0 WIFI_OFDMRATES.

Inductive rate_section := CCK | OFDM.

Definition keep_rate (keep : rate_section) (r : Z) : bool :=
  match keep with CCK => rtw_is_cck_rate r | OFDM => rtw_is_ofdm_rate r end.
Definition new_rate_of (r : Z) : Z := if rtw_is_basic_rate_ofdm r then Z.lor r 128 else r.

(** The rates kept are collected in an array of 16 on the stack. *)
Fixpoint filter_rates_loop (n : nat) (b : list Z) (p i idx : Z) (new_rate : list Z) (keep : rate_section) :
    res (list Z * Z) :=
  match n with
  | O => mret (new_rate, idx)
  | S n =>
      r ← rd b (p + i + 2);
      if keep_rate keep r then
        new_rate ← wr new_rate idx [new_rate_of r];
        filter_rates_loop n b p (i + 1) (idx + 1) new_rate keep
      else filter_rates_loop n b p (i + 1) idx new_rate keep
  end.

(** The elements of the network and [IELength]. *)
Definition rtw_filter_suppport_rateie (IEs : list Z) (IELength : Z) (keep : rate_section) :
    res (list Z * Z) :=
  '(found, ie_orilen) ← rtw_get_ie IEs _BEACON_IE_OFFSET_ _SUPPORTEDRATES_IE_ 0 (IELength - _BEACON_IE_OFFSET_);
  match found with
  | None => mret (IEs, IELength)
  | Some p =>
      '(new_rate, idx) ← filter_rates_loop (Z.to_nat ie_orilen) IEs p 0 0 (replicate 16 0) keep;
      b ← wr IEs (p + 1) [idx];
      l ← rd_n new_rate 0 idx;
      b ← wr b (p + 2) l;
      let remain_ies := p + 2 + ie_orilen in
      let remain_len := u32 (IELength - remain_ies) in
      r ← rd_n b remain_ies remain_len;
      b ← wr b (p + 2 + idx) r;
      mret (b, u32 (IELength - (ie_orilen - idx)))
  end.

Record rate_bss := mkRateBss { rb_IEs : list Z; rb_IELength : Z; rb_SupportedRates : list Z; rb_DSConfig : Z }.

(** Returns the network and its type. *)
Definition rtw_update_rate_bymode (bss : rate_bss) (mode : Z) : res (rate_bss * Z) :=
  let network_ielen := rb_IELength bss in
  '(b, n, network_type) ←
    (if mode =? WLAN_MD_11B then
       '(b, n) ← rtw_filter_suppport_rateie (rb_IEs bss) (rb_IELength bss) CCK;
       '(p, ie_len) ← rtw_get_ie b _BEACON_IE_OFFSET_ _EXT_SUPPORTEDRATES_IE_ 0 (n - _BEACON_IE_OFFSET_);
       match p with
       | Some _ =>
           '(_, b, _) ← rtw_ies_remove_ie b (Some 0) network_ielen _BEACON_IE_OFFSET_
                          _EXT_SUPPORTEDRATES_IE_ None 0;
           mret (b, u32 (n - ie_len), WLAN_MD_11B)
       | None => mret (b, n, WLAN_MD_11B)
       end
     else if 14 <? rb_DSConfig bss then
       '(b, n) ← rtw_filter_suppport_rateie (rb_IEs bss) (rb_IELength bss) OFDM;
       mret (b, n, WLAN_MD_11A)
     else if Z.land mode WLAN_MD_11B =? 0 then
       '(b, n) ← rtw_filter_suppport_rateie (rb_IEs bss) (rb_IELength bss) OFDM;
       mret (b, n, WLAN_MD_11G)
     else mret (rb_IEs bss, rb_IELength bss, WLAN_MD_11BG));
  r ← rtw_set_supported_rate (rb_SupportedRates bss) network_type (rb_DSConfig bss);
  mret (mkRateBss b n r (rb_DSConfig bss), network_type).

(** ** The highest HT rate *)

(** One row of the tables: 40 MHz short and long guard interval, 20 MHz short
    and long, for the highest MCS of a spatial stream's byte. *)
Definition mcs_row := (Z * Z * Z * Z)%type.
Definition row_rate (bw_40MHz short_GI : bool) (r : mcs_row) : Z :=
  let '(s40, l40, s20, l20) := r in
  if bw_40MHz then (if short_GI then s40 else l40) else (if short_GI then s20 else l20).

(** Rows for bits 7, 6, ..., 0. *)
Definition rows4 : list mcs_row :=
  [(6000, 5400, 2889, 2600); (5400, 4860, 2600, 2340); (4800, 4320, 2311, 2080); (3600, 3240, 1733, 1560);
   (2400, 2160, 1156, 1040); (1800, 1620, 867, 780); (1200, 1080, 578, 520); (600, 540, 289, 260)].
Definition rows3 : list mcs_row :=
  [(4500, 4050, 2167, 1950); (4050, 3645, 1950, 1750); (3600, 3240, 1733, 1560); (2700, 2430, 1300, 1170);
   (1800, 1620, 867, 780); (1350, 1215, 650, 585); (900, 810, 433, 390); (450, 405, 217, 195)].
Definition rows2 : list mcs_row :=
  [(3000, 2700, 1444, 1300); (2700, 2430, 1300, 1170); (2400, 2160, 1156, 1040); (1800, 1620, 867, 780);
   (1200, 1080, 578, 520); (900, 810, 433, 390); (600, 540, 289, 260); (300, 270, 144, 130)].
Definition rows1 : list mcs_row :=
  [(1500, 1350, 722, 650); (1350, 1215, 650, 585); (1200, 1080, 578, 520); (900, 810, 433, 390);
   (600, 540, 289, 260); (450, 405, 217, 195); (300, 270, 144, 130); (150, 135, 72, 65)].

(** The chain of tests of bits [bit], [bit - 1], ... *)
Fixpoint top_row (mask bit : Z) (rows : list mcs_row) (bw_40MHz short_GI : bool) : Z :=
  match rows with
  | [] => 0
  | r :: rows => if z_true (Z.land mask (BIT bit)) then row_rate bw_40MHz short_GI r
                 else top_row mask (bit - 1) rows bw_40MHz short_GI
  end.

Definition rtw_ht_mcs_rate (bw_40MHz short_GI : bool) (MCS_rate : list Z) : res Z :=
  m3 ← rd MCS_rate 3;
  if negb (m3 =? 0) then mret (top_row m3 7 rows4 bw_40MHz short_GI) else
  m2 ← rd MCS_rate 2;
  if negb (m2 =? 0) then mret (top_row m2 7 rows3 bw_40MHz short_GI) else
  m1 ← rd MCS_rate 1;
  if negb (m1 =? 0) then mret (top_row m1 7 rows2 bw_40MHz short_GI) else
  m0 ← rd MCS_rate 0;
  mret (top_row m0 7 rows1 bw_40MHz short_GI).

Definition rtw_ht_mcsset_to_nss (supp_mcs_set : list Z) : res Z :=
  m3 ← rd supp_mcs_set 3; if negb (m3 =? 0) then mret 4 else
  m2 ← rd supp_mcs_set 2; if negb (m2 =? 0) then mret 3 else
  m1 ← rd supp_mcs_set 1; if negb (m1 =? 0) then mret 2 else
  mret 1.

Fixpoint mcs_bitmap_loop (n : nat) (mcs_set : list Z) (i bitmap : Z) : res Z :=
  match n with
  | O => mret bitmap
  | S n => m ← rd mcs_set i; mcs_bitmap_loop n mcs_set (i + 1) (Z.lor bitmap (Z.shiftl m (i * 8)))
  end.
Definition rtw_ht_mcs_set_to_bitmap (mcs_set : list Z) (nss : Z) : res Z :=
  mcs_bitmap_loop (Z.to_nat nss) mcs_set 0 0.

(** ** Theorems *)

(** The rates an element keeps, in order. *)
Definition kept_rates (keep : rate_section) (d : list Z) : list Z :=
  map new_rate_of (List.filter (keep_rate keep) d).

Lemma kept_rates_cons keep r d :
  kept_rates keep (r :: d) = if keep_rate keep r then new_rate_of r :: kept_rates keep d else kept_rates keep d.
Proof. unfold kept_rates. simpl. by destruct (keep_rate keep r). Qed.

Lemma kept_rates_len keep d : zlen (kept_rates keep d) <= zlen d.
Proof. induction d as [|r d IH]; [done|]. rewrite kept_rates_cons. destruct (keep_rate keep r); zl. Qed.

Lemma filter_rates_loop_spec d b p i keep acc rest :
  at_off b (p + i + 2) d -> zlen (kept_rates keep d) <= zlen rest ->
  filter_rates_loop (length d) b p i (zlen acc) (acc ++ rest) keep =
    Ok (acc ++ kept_rates keep d ++ drop (length (kept_rates keep d)) rest,
        zlen acc + zlen (kept_rates keep d)).
Proof.
  revert i acc rest. induction d as [|r d IH]; intros i acc rest Hat Hl.
  - change (kept_rates keep []) with (@nil Z). rewrite zlen_nil, Z.add_0_r. reflexivity.
  - apply at_off_cons in Hat as [R Hat]. cbn [filter_rates_loop length]. rewrite R. cbn [mbind res_bind].
    rewrite kept_rates_cons in *. replace (p + i + 2 + 1) with (p + (i + 1) + 2) in Hat by lia.
    destruct (keep_rate keep r).
    + autorewrite with zlen in Hl. destruct rest as [|x rest]; [rewrite zlen_nil in Hl; zl|].
      pose proof (wr_at acc [x] rest [new_rate_of r] (zlen acc)) as W. simpl app in W. rewrite W by (done || zl).
      cbn [mbind res_bind]. pose proof (IH (i + 1) (acc ++ [new_rate_of r]) rest Hat) as Q.
      rewrite <- app_assoc in Q. simpl app in Q. replace (zlen (acc ++ [new_rate_of r])) with (zlen acc + 1) in Q by zl.
      rewrite Q by zl. simpl length. simpl drop. rewrite <- app_assoc. do 2 f_equal. zl.
    + apply IH; [done|lia].
Qed.

(** ** The adjusted element *)

(** The writes that shrink an element in place: the length, the new contents,
    then what follows is moved down. *)
Lemma shrink_writes F id d tail post k :
  zlen k <= zlen d ->
  exists b1 b2 junk,
    wr ((F ++ [id; zlen d]) ++ d ++ tail ++ post) (zlen F + 1) [zlen k] = Ok b1 /\
    wr b1 (zlen F + 2) k = Ok b2 /\
    rd_n b2 (zlen F + 2 + zlen d) (zlen tail) = Ok tail /\
    wr b2 (zlen F + 2 + zlen k) tail = Ok (F ++ [id; zlen k] ++ k ++ tail ++ junk ++ post) /\
    zlen junk = zlen d - zlen k.
Proof.
  intros Hk. set (rest := drop (length k) d).
  assert (Hr : zlen rest = zlen d - zlen k) by (unfold rest, zlen in *; rewrite length_drop; lia).
  destruct (memmove_down ((F ++ [id; zlen k]) ++ k) rest tail post) as (junk & Hj & HW).
  exists ((F ++ [id; zlen k]) ++ d ++ tail ++ post), (((F ++ [id; zlen k]) ++ k) ++ (rest ++ tail) ++ post), junk.
  split; [|split; [|split; [|split]]].
  - pose proof (wr_at (F ++ [id]) [zlen d] (d ++ tail ++ post) [zlen k] (zlen F + 1)) as W.
    rewrite <- !app_assoc in *. simpl app in *. apply W; zl.
  - pose proof (wr_grow (F ++ [id; zlen k]) d (tail ++ post) k) as W.
    rewrite drop_app_le in W by (unfold zlen in Hk; lia). fold rest in W.
    replace (zlen F + 2) with (zlen (F ++ [id; zlen k])) by zl. rewrite W by zl. by rewrite <- !app_assoc.
  - apply at_off_rd_n; [|done]. exists (((F ++ [id; zlen k]) ++ k) ++ rest), post.
    rewrite <- !app_assoc. split; [done|]. zl.
  - replace (zlen F + 2 + zlen k) with (zlen ((F ++ [id; zlen k]) ++ k)) by zl. rewrite HW.
    by rewrite <- !app_assoc.
  - lia.
Qed.

(** Filtering the rates keeps the allowed ones in order. *)
Theorem filter_rateie_spec es1 e es2 fixed post keep :
  zlen fixed = 12 -> ie_id e = _SUPPORTEDRATES_IE_ ->
  Forall (fun x => has_id _SUPPORTEDRATES_IE_ x = false) es1 ->
  zlen (kept_rates keep (ie_data e)) <= 16 ->
  zlen (enc_ies (es1 ++ e :: es2)) < 2 ^ 16 ->
  let es' := es1 ++ mkIe (ie_id e) (kept_rates keep (ie_data e)) :: es2 in
  exists junk,
    rtw_filter_suppport_rateie (fixed ++ enc_ies (es1 ++ e :: es2) ++ post)
      (12 + zlen (enc_ies (es1 ++ e :: es2))) keep =
    Ok (fixed ++ enc_ies es' ++ junk ++ post, 12 + zlen (enc_ies es')) /\
    zlen junk = zlen (ie_data e) - zlen (kept_rates keep (ie_data e)).
Proof.
  intros Hfx Hid Hno Hk Hlen es'. set (k := kept_rates keep (ie_data e)) in *.
  pose proof (kept_rates_len keep (ie_data e)) as Hkl. fold k in Hkl.
  set (F := fixed ++ enc_ies es1).
  destruct (shrink_writes F (ie_id e) (ie_data e) (enc_ies es2) post k Hkl)
    as (b1 & b2 & junk & W1 & W2 & R & W3 & Hj).
  assert (HF : zlen F = 12 + zlen (enc_ies es1)) by (unfold F; zl).
  assert (HB : fixed ++ enc_ies (es1 ++ e :: es2) ++ post =
               (F ++ [ie_id e; zlen (ie_data e)]) ++ ie_data e ++ enc_ies es2 ++ post).
  { unfold F. rewrite enc_ies_app, enc_ies_cons. unfold enc_ie. rewrite <- !app_assoc. done. }
  unfold rtw_filter_suppport_rateie, _BEACON_IE_OFFSET_. autorewrite with zlen in Hlen.
  replace (12 + zlen (enc_ies (es1 ++ e :: es2)) - 12) with (zlen (enc_ies (es1 ++ e :: es2))) by lia.
  rewrite (get_ie_spec (es1 ++ e :: es2)); [|by exists fixed, post|by destruct es1].
  rewrite find_by_app by (done || (unfold has_id; by rewrite Hid)). cbn [mbind res_bind].
  rewrite HB, <- HF, zlen_to_nat.
  rewrite (filter_rates_loop_spec (ie_data e) _ (zlen F) 0 keep [] (replicate 16 0));
    [|exists (F ++ [ie_id e; zlen (ie_data e)]), (enc_ies es2 ++ post); split; [done|zl]|done].
  fold k. cbn [mbind res_bind]. rewrite app_nil_l, zlen_nil, Z.add_0_l.
  rewrite W1. cbn [mbind res_bind]. rewrite (at_off_rd_n _ 0 k) by (done || apply at_off_0).
  cbn [mbind res_bind]. rewrite W2. cbn [mbind res_bind].
  match goal with |- context [u32 (?x - (zlen F + 2 + ?y))] =>
    replace (u32 (x - (zlen F + 2 + y))) with (zlen (enc_ies es2)) by (rewrite u32_small; zl) end.
  rewrite R. cbn [mbind res_bind]. rewrite W3. cbn [mbind res_bind].
  exists junk. split; [|lia]. unfold mret, res_ret. do 2 f_equal.
  - unfold es', F. rewrite enc_ies_app, enc_ies_cons. unfold enc_ie. cbn [ie_id ie_data].
    rewrite <- !app_assoc. simpl. by rewrite <- ?app_assoc.
  - unfold es'. rewrite u32_small; autorewrite with zlen; cbn [ie_data]; zl.
Qed.

(** More than 16 rates of the kept kind overflow the array. *)
Lemma filter_rateie_overflow :
  rtw_filter_suppport_rateie (replicate 12 0 ++ enc_ies [mkIe 1 (replicate 17 12)]) 31 OFDM = Oob.
Proof. reflexivity. Qed.

(** For a pure 802.11b mode the extended-rates element is removed, but
    [IELength] keeps counting the two bytes of its header. *)
Lemma update_rate_11b_length :
  let es := [mkIe 0 [65]; mkIe 1 [130; 132; 139; 150]; mkIe 50 [12; 18]] in
  let kept := [mkIe 0 [65]; mkIe 1 [130; 132; 139; 150]] in
  match rtw_update_rate_bymode
          (mkRateBss (replicate 12 0 ++ enc_ies es) (12 + zlen (enc_ies es)) (replicate 16 0) 1) WLAN_MD_11B with
  | Ok (bss, ty) =>
      ty = WLAN_MD_11B /\ take 21 (rb_IEs bss) = replicate 12 0 ++ enc_ies kept /\
      rb_IELength bss = 12 + zlen (enc_ies kept) + 2
  | _ => False
  end.
Proof. vm_compute. done. Qed.

(** ** The HT rate table *)

(** Rate of MCS [m] (0 to 7) with [nss] streams at 20 MHz with long guard
    interval, in units of 100 kbit/s; 40 MHz carries 108 data subcarriers
    against 52, and a short guard interval 10/9 of the symbols. *)
Definition mcs_base (m : nat) : Z := nth m [65; 130; 195; 260; 390; 520; 585; 650] 0.
Definition ht_rate (bw40 sgi : bool) (nss : Z) (m : nat) : Z :=
  let r := nss * mcs_base m in
  let r := if bw40 then r * 108 / 52 else r in
  if sgi then (2 * (r * 10) + 9) / 18 else r.

(** The byte of the set with the highest streams, and its highest bit. *)
Definition top_bit (mask : Z) : nat := Z.to_nat (Z.log2 mask).

Definition row_ok (nss : Z) (rows : list mcs_row) (skip : list nat) : Prop :=
  forall m bw sgi, (m < 8)%nat -> m ∉ skip ->
    row_rate bw sgi (nth (7 - m) rows (0, 0, 0, 0)) = ht_rate bw sgi nss m.

Lemma rows_ok : row_ok 1 rows1 [] /\ row_ok 2 rows2 [] /\ row_ok 4 rows4 [].
Proof.
  repeat split; intros m bw sgi Hm _;
    do 8 (destruct m as [|m]; [destruct bw, sgi; reflexivity|]); lia.
Qed.

(** Three streams: all entries but one.  MCS 22 at 20 MHz with long guard
    interval is 175.5 Mbit/s, the table says 175. *)
Lemma rows3_ok bw sgi m : (m < 8)%nat ->
  row_rate bw sgi (nth (7 - m) rows3 (0, 0, 0, 0)) =
  if decide (m = 6%nat /\ bw = false /\ sgi = false) then 1750 else ht_rate bw sgi 3 m.
Proof. intros Hm. do 8 (destruct m as [|m]; [destruct bw, sgi; reflexivity|]); lia. Qed.

(** The byte tested first by the code decides. *)
Definition ht_streams (m0 m1 m2 m3 : Z) : Z * Z :=
  if negb (m3 =? 0) then (4, m3) else if negb (m2 =? 0) then (3, m2)
  else if negb (m1 =? 0) then (2, m1) else (1, m0).

(** The rate of the highest MCS of the highest number of streams. *)
Definition ht_max_rate (bw sgi : bool) (nss mask : Z) : Z :=
  if mask =? 0 then 0
  else if (nss =? 3) && (top_bit mask =? 6)%nat && negb bw && negb sgi then 1750
  else ht_rate bw sgi nss (top_bit mask).

Definition rate_table (nss : Z) : list mcs_row :=
  if nss =? 4 then rows4 else if nss =? 3 then rows3 else if nss =? 2 then rows2 else rows1.

(** The chain of tests picks the row of the highest bit. *)
Lemma top_row_max nss mask bw sgi :
  1 <= nss <= 4 -> byte mask -> top_row mask 7 (rate_table nss) bw sgi = ht_max_rate bw sgi nss mask.
Proof.
  intros Hn Hm.
  assert (C : forallb (fun n => forallb (fun x => forallb (fun b => forallb (fun s =>
      top_row x 7 (rate_table n) b s =? ht_max_rate b s n x) [true; false]) [true; false])
      (seqZ 0 256)) [1; 2; 3; 4] = true) by (vm_compute; reflexivity).
  rewrite List.forallb_forall in C. assert (Hin : List.In nss [1; 2; 3; 4]) by (simpl; lia).
  apply C in Hin. rewrite List.forallb_forall in Hin.
  assert (Hx : List.In mask (seqZ 0 256)) by (apply list_elem_of_In, elem_of_seqZ; unfold byte in Hm; lia).
  apply Hin in Hx. rewrite List.forallb_forall in Hx.
  assert (Hb : forall x : bool, List.In x [true; false]) by (intros []; simpl; auto).
  specialize (Hx bw (Hb bw)). rewrite List.forallb_forall in Hx. specialize (Hx sgi (Hb sgi)). lia.
Qed.

(** The rate of an MCS set is the largest rate of the modulations it supports. *)
Theorem ht_mcs_rate_exact (bw sgi : bool) (m0 m1 m2 m3 : Z) (rest : list Z) :
  byte m0 -> byte m1 -> byte m2 -> byte m3 ->
  let '(nss, mask) := ht_streams m0 m1 m2 m3 in
  rtw_ht_mcs_rate bw sgi (m0 :: m1 :: m2 :: m3 :: rest) = Ok (ht_max_rate bw sgi nss mask) /\
  rtw_ht_mcsset_to_nss (m0 :: m1 :: m2 :: m3 :: rest) = Ok nss.
Proof.
  intros H0 H1 H2 H3. unfold ht_streams, rtw_ht_mcs_rate, rtw_ht_mcsset_to_nss.
  set (l := m0 :: m1 :: m2 :: m3 :: rest).
  change (rd l 3) with (@Ok Z m3). change (rd l 2) with (@Ok Z m2).
  change (rd l 1) with (@Ok Z m1). change (rd l 0) with (@Ok Z m0). cbn [mbind res_bind].
  destruct (m3 =? 0); cbn [negb]; [|rewrite <- (top_row_max 4) by (done || lia); done].
  destruct (m2 =? 0); cbn [negb]; [|rewrite <- (top_row_max 3) by (done || lia); done].
  destruct (m1 =? 0); cbn [negb]; [|rewrite <- (top_row_max 2) by (done || lia); done].
  rewrite <- (top_row_max 1) by (done || lia); done.
Qed.

Lemma ht_mcs_rate_exact_witness :
  rtw_ht_mcs_rate true true [255; 255; 0; 0] = Ok 3000 /\ rtw_ht_mcsset_to_nss [255; 255; 0; 0] = Ok 2.
Proof.
  assert (H : byte 255 /\ byte 0) by (unfold byte; lia).
  exact (ht_mcs_rate_exact true true 255 255 0 0 [] (proj1 H) (proj1 H) (proj2 H) (proj2 H)).
Defined.

Lemma filter_rateie_spec_witness :
  let es1 := [mkIe 0 [65]] in let e := mkIe _SUPPORTEDRATES_IE_ [130; 132; 12; 18; 24] in
  exists junk,
    rtw_filter_suppport_rateie (replicate 12 0 ++ enc_ies (es1 ++ e :: [mkIe 3 [6]]) ++ [9])
      (12 + zlen (enc_ies (es1 ++ e :: [mkIe 3 [6]]))) OFDM =
    Ok (replicate 12 0 ++ enc_ies (es1 ++ mkIe (ie_id e) [140; 18; 152] :: [mkIe 3 [6]]) ++ junk ++ [9], 23) /\
    zlen junk = zlen (ie_data e) - 3.
Proof.
  intros es1 e. destruct (filter_rateie_spec es1 e [mkIe 3 [6]] (replicate 12 0) [9] OFDM) as (junk & H1 & H2);
    try reflexivity; try (vm_compute; done); [repeat constructor|].
  exists junk. split; [exact H1 | exact H2].
Defined.
