(* ===== verification/IeChan.v ===== *)
(** * Channel, bandwidth and addresses (src/core/rtw_ieee80211.c,
    [rtw_get_offset_by_chbw] of src/core/rtw_rf.c)

    The channel and bandwidth a network's elements announce, when two settings
    can share the radio and how they are brought together; MAC addresses from
    text and from the chip; headers of frames. *)

From S2P Require Import Prelude IeBuf IeSearch IeSearchThm.

Definition CHANNEL_WIDTH_20 := 0.
Definition CHANNEL_WIDTH_40 := 1.
Definition CHANNEL_WIDTH_80 := 2.
Definition CHAN_OFFSET_NO_EXT := 0.
Definition CHAN_OFFSET_UPPER := 1.
Definition CHAN_OFFSET_LOWER := 3.
Definition IEEE80211_SCN := 0.
Definition IEEE80211_SCA := 1.
Definition IEEE80211_SCB := 3.
Definition _DSSET_IE_ := 3.
Definition EID_HTCapability := 45.
Definition EID_HTInfo := 61.
Definition EID_VHTOperation := 192.

Definition secondary_ch_offset_to_hal_ch_offset (ch_offset : Z) : Z :=
  if ch_offset =? IEEE80211_SCN then CHAN_OFFSET_NO_EXT
  else if ch_offset =? IEEE80211_SCA then CHAN_OFFSET_UPPER
  else if ch_offset =? IEEE80211_SCB then CHAN_OFFSET_LOWER
  else CHAN_OFFSET_NO_EXT.

Definition hal_ch_offset_to_secondary_ch_offset (ch_offset : Z) : Z :=
  if ch_offset =? CHAN_OFFSET_NO_EXT then IEEE80211_SCN
  else if ch_offset =? CHAN_OFFSET_UPPER then IEEE80211_SCA
  else if ch_offset =? CHAN_OFFSET_LOWER then IEEE80211_SCB
  else IEEE80211_SCN.

(** [LE_BITS_TO_1BYTE(p, off, len)] *)
Definition byte_bits (b : list Z) (p off len : Z) : res Z :=
  x ← rd b p; mret (Z.land (Z.shiftr x off) (Z.ones len)).

Record chbw := mkChbw { c_ch : Z; c_bw : Z; c_offset : Z }.

Definition rtw_ies_get_chbw (b : list Z) (ies ies_len : Z) (ht vht : bool) : res chbw :=
  '(p, ie_len) ← rtw_get_ie b ies _DSSET_IE_ 0 ies_len;
  ch ← match p with
       | Some p => if 0 <? ie_len then rd b (p + 2) else mret 0
       | None => mret 0
       end;
  if negb (ht || vht) then mret (mkChbw ch CHANNEL_WIDTH_20 CHAN_OFFSET_NO_EXT) else
  '(cap, cap_len) ← rtw_get_ie b ies EID_HTCapability 0 ies_len;
  bw ← match cap with
       | Some p => if cap_len =? 0 then mret CHANNEL_WIDTH_20 else
                   w ← byte_bits b (p + 2) 1 1;
                   mret (if w =? 0 then CHANNEL_WIDTH_20 else CHANNEL_WIDTH_40)
       | None => mret CHANNEL_WIDTH_20
       end;
  '(op, op_len) ← rtw_get_ie b ies EID_HTInfo 0 ies_len;
  c ← match op with
      | Some p =>
          if op_len =? 0 then mret (mkChbw ch bw CHAN_OFFSET_NO_EXT) else
          pri ← byte_bits b (p + 2) 0 8;
          let ch := if ch =? 0 then pri else ch in
          sta ← byte_bits b (p + 2 + 1) 2 1;
          let bw := if sta =? 0 then CHANNEL_WIDTH_20 else bw in
          off ← (if bw =? CHANNEL_WIDTH_40 then
                   s ← byte_bits b (p + 2 + 1) 0 2;
                   mret (if s =? IEEE80211_SCA then CHAN_OFFSET_UPPER
                         else if s =? IEEE80211_SCB then CHAN_OFFSET_LOWER else CHAN_OFFSET_NO_EXT)
                 else mret CHAN_OFFSET_NO_EXT);
          mret (mkChbw ch bw off)
      | None => mret (mkChbw ch bw CHAN_OFFSET_NO_EXT)
      end;
  if vht then
    '(vop, vop_len) ← rtw_get_ie b ies EID_VHTOperation 0 ies_len;
    match vop with
    | Some p => if vop_len =? 0 then mret c else
                w ← byte_bits b (p + 2) 0 8;
                mret (if 1 <=? w then mkChbw (c_ch c) CHANNEL_WIDTH_80 (c_offset c) else c)
    | None => mret c
    end
  else mret c.

(** [IELength] and the size of the fixed parameters are unsigned; the result is
    passed as [int].  [DSConfig] decides the channel. *)
Definition rtw_bss_get_chbw (IEs : list Z) (IELength DSConfig : Z) (ht vht : bool) : res chbw :=
  c ← rtw_ies_get_chbw IEs 12 (IELength - 12) ht vht;
  mret (mkChbw DSConfig (c_bw c) (c_offset c)).

Definition wide (bw : Z) : bool := (bw =? CHANNEL_WIDTH_40) || (bw =? CHANNEL_WIDTH_80).

Definition rtw_is_chbw_grouped (a b : chbw) : bool :=
  if negb (c_ch a =? c_ch b) then false
  else if wide (c_bw a) && wide (c_bw b) then c_offset a =? c_offset b
  else true.

(** 5 GHz channels whose 40 MHz partner is above or below. *)
Definition ch_upper : list Z := [36; 44; 52; 60; 100; 108; 116; 124; 132; 140; 149; 157; 165; 173].
Definition ch_lower : list Z := [40; 48; 56; 64; 104; 112; 120; 128; 136; 144; 153; 161; 169; 177].

(** Whether the channel supports the bandwidth, and [*r_offset]. *)
Definition rtw_get_offset_by_chbw (ch bw r_offset : Z) : bool * Z :=
  if bw =? CHANNEL_WIDTH_20 then (true, CHAN_OFFSET_NO_EXT)
  else if (CHANNEL_WIDTH_80 <=? bw) && (ch <=? 14) then (false, r_offset)
  else if (1 <=? ch) && (ch <=? 4) then (true, CHAN_OFFSET_UPPER)
  else if (5 <=? ch) && (ch <=? 9) then
    if (r_offset =? CHAN_OFFSET_UPPER) || (r_offset =? CHAN_OFFSET_LOWER) then (true, r_offset)
    else (true, CHAN_OFFSET_LOWER)
  else if (10 <=? ch) && (ch <=? 13) then (true, CHAN_OFFSET_LOWER)
  else if ch =? 14 then (false, r_offset)
  else if (36 <=? ch) && (ch <=? 177) then
    if bool_decide (ch ∈ ch_upper) then (true, CHAN_OFFSET_UPPER)
    else if bool_decide (ch ∈ ch_lower) then (true, CHAN_OFFSET_LOWER)
    else (false, r_offset)
  else (false, r_offset).

(** The cases 80 and 40 MHz of [rtw_sync_chbw]. *)
Definition sync_wide (req g : chbw) : chbw :=
  let off := if wide (c_bw g) then c_offset g
             else if c_bw g =? CHANNEL_WIDTH_20
                  then snd (rtw_get_offset_by_chbw (c_ch req) (c_bw req) (c_offset req))
                  else c_offset req in
  if off =? CHAN_OFFSET_NO_EXT then mkChbw (c_ch req) CHANNEL_WIDTH_20 off
  else mkChbw (c_ch req) (c_bw req) off.

(** The request and the group. *)
Definition rtw_sync_chbw (req g : chbw) : chbw * chbw :=
  let req := mkChbw (c_ch g) (c_bw req) (c_offset req) in
  let req := if (c_bw req =? CHANNEL_WIDTH_80) && (c_ch g <=? 14)
             then mkChbw (c_ch req) CHANNEL_WIDTH_40 (c_offset req) else req in
  let req := if (c_bw req =? CHANNEL_WIDTH_80) || (c_bw req =? CHANNEL_WIDTH_40) then sync_wide req g
             else if c_bw req =? CHANNEL_WIDTH_20 then mkChbw (c_ch req) (c_bw req) CHAN_OFFSET_NO_EXT
             else req in
  if c_bw g <? c_bw req then (req, mkChbw (c_ch g) (c_bw req) (c_offset req)) else (req, g).

(** ** Addresses *)

Definition key_char2num (ch : Z) : Z :=
  if (48 <=? ch) && (ch <=? 57) then ch - 48
  else if (97 <=? ch) && (ch <=? 102) then ch - 97 + 10
  else if (65 <=? ch) && (ch <=? 70) then ch - 65 + 10
  else 255.

Definition str_2char2num (hch lch : Z) : Z := u8 (key_char2num hch * 10 + key_char2num lch).
Definition key_2char2num (hch lch : Z) : Z :=
  u8 (Z.lor (Z.shiftl (key_char2num hch) 4) (key_char2num lch)).
Definition convert_ip_addr (hch mch lch : Z) : Z :=
  u8 (key_char2num hch * 100 + key_char2num mch * 10 + key_char2num lch).

(** Six pairs of digits with one character between them. *)
Fixpoint macstr_loop (n : nat) (src : list Z) (kk : Z) : res (list Z) :=
  match n with
  | O => mret []
  | S n =>
      h ← rd src kk; l ← rd src (kk + 1);
      rest ← macstr_loop n src (kk + 3);
      mret (key_2char2num h l :: rest)
  end.
Definition macstr2num (src : list Z) : res (list Z) := macstr_loop 6 src 0.

Definition rtw_check_invalid_mac_address (mac_addr : list Z) (check_local_bit : bool) : bool :=
  if bool_decide (mac_addr = [0; 0; 0; 0; 0; 0]) then true
  else if bool_decide (mac_addr = [255; 255; 255; 255; 255; 255]) then true
  else if z_true (Z.land (nth 0 mac_addr 0) (BIT 0)) then true
  else if check_local_bit then z_true (Z.land (nth 0 mac_addr 0) (BIT 1))
  else false.

(** [rtw_initmac] is a module parameter, [hw_mac_addr] the chip's address;
    [mac] is what the uninitialised array holds, [random] the bytes of
    [rtw_random32]. *)
Definition rtw_macaddr_cfg (rtw_initmac hw_mac_addr : option (list Z)) (mac random : list Z) : res (list Z) :=
  mac ← match rtw_initmac, hw_mac_addr with
        | Some s, _ => macstr2num s
        | None, Some hw => rd_n hw 0 6
        | None, None => mret mac
        end;
  mret (if rtw_check_invalid_mac_address mac true
        then [0; 224; 76; nth 1 random 0; nth 2 random 0; nth 3 random 0] else mac).

(** ** Frames *)

Definition RTW_IEEE80211_FTYPE_CTL := 4.
Definition RTW_IEEE80211_FTYPE_DATA := 8.

Definition ieee80211_get_hdrlen (fc : Z) : Z :=
  let ftype := Z.land fc 12 in
  if ftype =? RTW_IEEE80211_FTYPE_DATA then
    24 + (if z_true (Z.land fc 128) then 2 else 0)
       + (if z_true (Z.land fc 512) && z_true (Z.land fc 256) then 6 else 0)
  else if ftype =? RTW_IEEE80211_FTYPE_CTL then
    let stype := Z.land fc 240 in
    if (stype =? 192) || (stype =? 208) then 10 else 16
  else 24.

(** A three-address header has 24 bytes; the public action is not read for
    vendor-specific (P2P) action frames, [ACT_PUBLIC_MAX] is 16. *)
Definition rtw_action_frame_parse (frame : list Z) : res (option (Z * Z)) :=
  fc ← RTW_GET_LE16 frame 0;
  if negb (Z.land fc (Z.lor 12 240) =? 208) then mret None else
  c ← rd frame 24;
  a ← (if c =? 127 then mret 16 else rd frame 25);
  mret (Some (c, a)).

Fixpoint empty_essid_loop (n : nat) (essid : list Z) (essid_len : Z) : res bool :=
  match n with
  | O => mret true
  | S n =>
      x ← rd essid (essid_len - 1);
      if negb (x =? 0) then mret false else empty_essid_loop n essid (essid_len - 1)
  end.
Definition ieee80211_is_empty_essid (essid : list Z) (essid_len : Z) : res bool :=
  one ← (if essid_len =? 1 then x ← rd essid 0; mret (x =? 32) else mret false);
  if one : bool then mret true else empty_essid_loop (Z.to_nat essid_len) essid essid_len.

Inductive amsdu_mode := RTW_AMSDU_MODE_NON_SPP | RTW_AMSDU_MODE_SPP | RTW_AMSDU_MODE_ALL_DROP.
Definition rtw_check_amsdu_disable (mode : amsdu_mode) (spp_opt : Z) : bool :=
  match mode with
  | RTW_AMSDU_MODE_NON_SPP => z_true (Z.land spp_opt (BIT 1))
  | RTW_AMSDU_MODE_SPP => negb (z_true (Z.land spp_opt (BIT 0)))
  | RTW_AMSDU_MODE_ALL_DROP => true
  end.

(** ** Theorems *)

(** Offsets the rest of the driver uses: none, upper or lower. *)
Definition valid_offset (o : Z) : Prop := o = CHAN_OFFSET_NO_EXT \/ o = CHAN_OFFSET_UPPER \/ o = CHAN_OFFSET_LOWER.

(** A group setting: 20 MHz, or 40/80 MHz with a secondary channel. *)
Definition group_ok (g : chbw) : Prop :=
  c_bw g = CHANNEL_WIDTH_20 \/ (wide (c_bw g) = true /\ c_offset g <> CHAN_OFFSET_NO_EXT).

Lemma sync_wide_grouped req g :
  c_ch req = c_ch g -> wide (c_bw req) = true -> group_ok g ->
  let r := sync_wide req g in
  c_ch r = c_ch g /\ group_ok r /\ (wide (c_bw r) = true -> wide (c_bw g) = true -> c_offset r = c_offset g).
Proof.
  intros Hch Hw Hg. unfold sync_wide, group_ok in *.
  destruct (wide (c_bw g)) eqn:Wg.
  - destruct Hg as [Hg|[_ Hg]]; [rewrite Hg in Wg; done|].
    replace (c_offset g =? _) with false by lia. cbn [c_ch c_bw c_offset].
    split; [done|]. split; [by right|]. done.
  - destruct Hg as [Hg|[Hg _]]; [|done]. rewrite Hg. change (CHANNEL_WIDTH_20 =? CHANNEL_WIDTH_20) with true.
    cbv iota. destruct (Z.eqb_spec (snd (rtw_get_offset_by_chbw (c_ch req) (c_bw req) (c_offset req)))
      CHAN_OFFSET_NO_EXT); cbn [c_ch c_bw c_offset]; (split; [done|]).
    + split; [by left|]. done.
    + split; [by right|]. intros _ Q. discriminate Q.
Qed.

(** A key pair of hexadecimal digits gives back the byte. *)
Definition hex_digit (upper : bool) (n : Z) : Z := if n <? 10 then 48 + n else (if upper then 55 else 87) + n.

Lemma key_char2num_hex u n : 0 <= n < 16 -> key_char2num (hex_digit u n) = n.
Proof.
  intros Hn. unfold hex_digit, key_char2num. destruct (Z.ltb_spec n 10).
  - replace (_ && _) with true by lia. lia.
  - destruct u.
    + replace ((48 <=? 55 + n) && _) with false by lia. replace ((97 <=? _) && _) with false by lia.
      replace ((65 <=? _) && _) with true by lia. lia.
    + replace ((48 <=? 87 + n) && _) with false by lia. replace ((97 <=? _) && _) with true by lia. lia.
Qed.

Lemma key_2char2num_hex u1 u2 x : byte x -> key_2char2num (hex_digit u1 (x / 16)) (hex_digit u2 (x mod 16)) = x.
Proof.
  unfold byte. intros Hx. unfold key_2char2num. rewrite !key_char2num_hex by lia.
  pose proof (Z.add_lor_land (Z.shiftl (x / 16) 4) (x mod 16)) as E.
  replace (Z.land (Z.shiftl (x / 16) 4) (x mod 16)) with 0 in E.
  - rewrite Z.add_0_r in E. rewrite E, Z.shiftl_mul_pow2 by lia. unfold u8. lia.
  - symmetry. apply Z.bits_inj'. intros n Hn. rewrite Z.land_spec, Z.bits_0, Z.shiftl_spec by lia.
    destruct (Z_lt_dec n 4).
    + by rewrite Z.testbit_neg_r by lia.
    + change 16 with (2 ^ 4). rewrite Z.mod_pow2_bits_high by lia. apply andb_false_r.
Qed.

(** An address printed as six pairs of digits with separators. *)
Definition mac_str (u : bool) (sep : Z) (mac : list Z) : list Z :=
  concat (map (fun x => [hex_digit u (x / 16); hex_digit u (x mod 16); sep]) mac).

Lemma macstr_loop_spec u sep mac src kk :
  bytes mac -> at_off src kk (mac_str u sep mac) -> macstr_loop (length mac) src kk = Ok mac.
Proof.
  intros Hb. revert kk. induction Hb as [|x mac Hx _ IH]; intros kk Hat; [done|].
  unfold mac_str in Hat. cbn [map concat] in Hat. fold (mac_str u sep mac) in Hat.
  apply at_off_app in Hat as [H1 H2]. change (zlen [_; _; _]) with 3 in H2.
  apply at_off_cons in H1 as [R1 H1]. apply at_off_cons in H1 as [R2 _].
  cbn [macstr_loop length]. rewrite R1, R2. cbn [mbind res_bind]. rewrite IH by done. cbn [mbind res_bind].
  by rewrite key_2char2num_hex.
Qed.
