(* ===== verification/IeBss.v ===== *)
(** * The elements of a stored network as a list

    [WLAN_BSSID_EX] keeps the elements of a network in an array of bytes with
    their length ([IEs], [IELength]; src/include/wlan_bssdef.h).  Its specification is a
    list of elements; the editing functions of src/core/rtw_ieee80211.c
    implement the operations of a list: appending, replacing the first element
    with an identifier, removing those that match. *)

From S2P Require Import Prelude IeBuf IeSearch IeSearchThm IeEditThm IeAttr IeAttrThm.

(** ** The specification *)

(** [bss] holds the fixed parameters [fixed] and the elements [es]. *)
Record bss_holds (fixed : list Z) (es : list ie) (bss : bss_ex) : Prop := mkHolds {
  bh_ies : exists post, IEs bss = fixed ++ enc_ies es ++ post;
  bh_len : IELength bss = zlen fixed + zlen (enc_ies es);
  bh_fixed : zlen fixed = BSS_EX_FIXED_IE_OFFSET bss;
  bh_size : zlen (IEs bss) <= MAX_IE_SZ;
  bh_wf : wf_ies es
}.

(** The first element with the identifier gets new contents, unless it is empty
    or there is no memory to move the ones behind it. *)
Fixpoint update_first (ok : bool) (id : Z) (c : list Z) (es : list ie) : list ie :=
  match es with
  | [] => []
  | e :: es =>
      if has_id id e then
        (if negb (zlen (ie_data e) =? 0) && (ok || (zlen (ie_data e) =? zlen c)) then mkIe id c else e) :: es
      else e :: update_first ok id c es
  end.

(** What the driver does to the elements of a stored network; the arguments
    are those the functions take beside the network. *)
Inductive ie_edit :=
  | SetIe (index len : Z) (source : list Z)
  | UpdateIe (malloc_ok : bool) (eid : Z) (content : list Z) (content_len : Z)
  | RemoveIe (eid : Z) (oui : option (list Z)) (oui_len : Z)
  | UpdateExtCap (malloc_ok : bool) (ext_cap_data : list Z) (len : Z)
  | DelP2pIe
  | DelWfdIe.

Definition first_n (n : Z) (l : list Z) : list Z := take (Z.to_nat n) l.

Definition spec_edit (e : ie_edit) (es : list ie) : list ie :=
  match e with
  | SetIe index len src => es ++ [mkIe index (first_n len src)]
  | UpdateIe ok eid c n => update_first ok eid (first_n n c) es
  | RemoveIe eid oui n => removed (ex_hit eid oui n) es
  | UpdateExtCap ok d n =>
      if n =? 0 then removed (has_id WLAN_EID_EXT_CAP) es
      else if existsb (has_id WLAN_EID_EXT_CAP) es then update_first ok WLAN_EID_EXT_CAP (first_n n d) es
      else es ++ [mkIe WLAN_EID_EXT_CAP (first_n n d)]
  | DelP2pIe => removed (vendor_is p2p_oui) es
  | DelWfdIe => removed (vendor_is wfd_oui) es
  end.

(** The caller's side: bytes, buffers as long as it says, and vendor elements
    long enough for the comparisons. *)
Definition edit_ok (e : ie_edit) (es : list ie) : Prop :=
  match e with
  | SetIe index len src => byte index /\ byte len /\ len <= zlen src /\ bytes src
  | UpdateIe _ eid c n => byte eid /\ byte n /\ n <= zlen c /\ bytes c
  | RemoveIe eid oui n => oui_room eid oui n es
  | UpdateExtCap _ d n => byte n /\ n <= zlen d /\ bytes d
  | DelP2pIe | DelWfdIe => vendor_room es
  end.

(** ** The implementation *)

Definition run_edit (e : ie_edit) (bss : bss_ex) : res bss_ex :=
  let off := BSS_EX_FIXED_IE_OFFSET bss in
  let put b n := mkBss (bss_prob_req bss) n b in
  match e with
  | SetIe index len src =>
      '(b, _, n) ← rtw_set_ie (IEs bss) (IELength bss) index len src (IELength bss); mret (put b n)
  | UpdateIe ok eid c cl =>
      '(_, b, n) ← rtw_ies_update_ie ok (IEs bss) (Some 0) (IELength bss) off eid c cl; mret (put b n)
  | RemoveIe eid oui ol =>
      '(_, b, n) ← rtw_ies_remove_ie (IEs bss) (Some 0) (IELength bss) off eid oui ol; mret (put b n)
  | UpdateExtCap ok d n =>
      '(b, n) ← rtw_update_ext_cap_ie ok d n (IEs bss) 0 (IELength bss) off; mret (put b n)
  | DelP2pIe => rtw_bss_ex_del_p2p_ie bss
  | DelWfdIe => rtw_bss_ex_del_wfd_ie bss
  end.

Fixpoint run_edits (l : list ie_edit) (bss : bss_ex) : res bss_ex :=
  match l with
  | [] => mret bss
  | e :: l => bss ← run_edit e bss; run_edits l bss
  end.

(** A sequence of edits of which each has what it needs, and room for its
    result in an object of [size] bytes. *)
Fixpoint edits_ok (size : Z) (l : list ie_edit) (es : list ie) : Prop :=
  match l with
  | [] => True
  | e :: l =>
      edit_ok e es /\ zlen (enc_ies (spec_edit e es)) <= size /\ edits_ok size l (spec_edit e es)
  end.

(** * Theorems *)

Lemma zlen_first n l : 0 <= n <= zlen l -> zlen (first_n n l) = n.
Proof. apply list_take_zlen. Qed.

Lemma wf_first id n l : byte id -> byte n -> n <= zlen l -> bytes l -> wf_ie (mkIe id (first_n n l)).
Proof.
  unfold byte, first_n. intros Hi Hn Hl Hb. split; [done|]. cbn [ie_data].
  split; [by apply Forall_take|]. rewrite list_take_zlen; lia.
Qed.

Lemma wf_removed f es : wf_ies es -> wf_ies (removed f es).
Proof.
  unfold wf_ies. induction 1 as [|e es He _ IH]; [constructor|]. simpl. destruct (f e); simpl; [done|by constructor].
Qed.

Lemma wf_update_first ok id c es : wf_ies es -> wf_ie (mkIe id c) -> wf_ies (update_first ok id c es).
Proof.
  unfold wf_ies. intros H Hc. induction H as [|e es He Hes IH]; [constructor|]. simpl.
  destruct (has_id id e); constructor; try done. by destruct (_ && _).
Qed.

Lemma spec_edit_wf e es : wf_ies es -> edit_ok e es -> wf_ies (spec_edit e es).
Proof.
  intros Hw He. destruct e as [i n l|ok i c n|i o n|ok d n| |]; cbn [spec_edit edit_ok] in *;
    try by apply wf_removed.
  - destruct He as (? & ? & ? & ?). apply Forall_app. split; [done|]. constructor; [by apply wf_first|constructor].
  - destruct He as (? & ? & ? & ?). by apply wf_update_first; [|apply wf_first].
  - destruct He as (? & ? & ?). assert (wf_ie (mkIe WLAN_EID_EXT_CAP (first_n n d))) by by apply wf_first.
    destruct (n =? 0); [by apply wf_removed|]. destruct (existsb _ _); [by apply wf_update_first|].
    apply Forall_app. split; [done|]. by constructor; [|constructor].
Qed.

(** ** Each function *)

(** The elements [es] in front of [post] have become [es'], in an object of the
    same size. *)
Definition edited (fixed : list Z) (es : list ie) (post : list Z) (es' : list ie) (b : list Z) (n : Z) : Prop :=
  n = zlen fixed + zlen (enc_ies es') /\
  exists post', b = fixed ++ enc_ies es' ++ post' /\
    zlen (enc_ies es') + zlen post' = zlen (enc_ies es) + zlen post.

Lemma edited_same fixed es post : edited fixed es post es (fixed ++ enc_ies es ++ post) (zlen fixed + zlen (enc_ies es)).
Proof. split; [done|]. by exists post. Qed.

Section functions.
Context (fixed : list Z) (es : list ie) (post : list Z).
Context (Hsize : zlen fixed + zlen (enc_ies es) < 2 ^ 31).

Notation obj := (fixed ++ enc_ies es ++ post).
Notation len := (zlen fixed + zlen (enc_ies es)).

Lemma set_ie_edited i n src fr : byte i -> byte n -> n <= zlen src -> n + 2 <= zlen post ->
  exists b p, rtw_set_ie obj len i n src fr = Ok (b, p, fr + (n + 2)) /\
    edited fixed es post (es ++ [mkIe i (first_n n src)]) b (len + (n + 2)).
Proof.
  intros Hi Hn Hs Hp. pose proof Hn as Hn'. unfold byte in Hn'.
  pose proof (set_ie_spec (fixed ++ enc_ies es) (take (Z.to_nat (n + 2)) post) (drop (Z.to_nat (n + 2)) post)
    i n src fr Hi Hn Hs ltac:(apply list_take_zlen; lia)) as HR.
  rewrite take_drop, zlen_app, <- app_assoc in HR. eexists _, _. split; [exact HR|]. unfold first_n. split.
  - rewrite enc_ies_app, enc_ies_cons. change (enc_ies []) with (@nil Z). autorewrite with zlen. cbn [ie_data].
    rewrite list_take_zlen by lia. lia.
  - exists (drop (Z.to_nat (n + 2)) post). split.
    + rewrite enc_ies_app, enc_ies_cons. change (enc_ies []) with (@nil Z). by rewrite app_nil_r, <- !app_assoc.
    + rewrite enc_ies_app, enc_ies_cons. change (enc_ies []) with (@nil Z). autorewrite with zlen. cbn [ie_data].
      rewrite list_take_zlen by lia. unfold zlen in *. rewrite length_drop. lia.
Qed.

Lemma update_first_none ok id c l : Forall (fun e => has_id id e = false) l -> update_first ok id c l = l.
Proof. induction 1 as [|e l He _ IH]; [done|]. simpl. by rewrite He, IH. Qed.

Lemma update_first_split ok id c es1 e es2 :
  Forall (fun x => has_id id x = false) es1 -> has_id id e = true ->
  update_first ok id c (es1 ++ e :: es2) =
    es1 ++ (if negb (zlen (ie_data e) =? 0) && (ok || (zlen (ie_data e) =? zlen c)) then mkIe id c else e) :: es2.
Proof. intros H He. induction H as [|x es1 Hx _ IH]; simpl; [by rewrite He|]. by rewrite Hx, IH. Qed.

Lemma update_ie_edited ok i c n : byte n -> n <= zlen c ->
  zlen (enc_ies (update_first ok i (first_n n c) es)) <= zlen (enc_ies es) + zlen post ->
  exists r b m, rtw_ies_update_ie ok obj (Some 0) len (zlen fixed) i c n = Ok (r, b, m) /\
    edited fixed es post (update_first ok i (first_n n c) es) b m.
Proof.
  intros Hn Hc Hroom. pose proof Hn as Hn'. unfold byte in Hn'.
  assert (zlen (first_n n c) = n) as Hw by (apply list_take_zlen; lia).
  assert (forall es', es' = es -> exists r b m, Ok (_FAIL, obj, len) = Ok (r, b, m) /\ edited fixed es post es' b m) as Hsame.
  { intros es' ->. eexists _, _, _. split; [reflexivity|]. apply edited_same. }
  destruct (find_by (has_id i) es (zlen fixed)) as [[q e]|] eqn:E.
  2: { unfold rtw_ies_update_ie. destruct (_ || _); [apply Hsame, update_first_none, (find_by_None _ _ _ E)|].
       rewrite get_ie_after_fixed, E. cbn [mbind res_bind]. apply Hsame, update_first_none, (find_by_None _ _ _ E). }
  pose proof E as E'. apply find_by_Some in E as (es1 & es2 & Hes & Hno & He & _).
  assert (ie_id e = i) as Hid by (unfold has_id in He; lia).
  pose proof (update_first_split ok i (first_n n c) es1 e es2 Hno) as HU. rewrite <- Hes, Hw in HU.
  unfold has_id in HU at 1. rewrite Hid, Z.eqb_refl in HU. specialize (HU eq_refl). rewrite HU in *. clear HU.
  destruct (Z.eqb_spec (zlen (ie_data e)) 0) as [Hz|Hz]; cbn [negb andb] in *.
  { unfold rtw_ies_update_ie. destruct (_ || _); [by apply Hsame|].
    rewrite get_ie_after_fixed, E'. cbn [mbind res_bind]. rewrite Hz. by apply Hsame. }
  destruct (ok || (zlen (ie_data e) =? n)) eqn:Hok.
  - destruct (ies_update_spec ok es1 e es2 fixed post c n) as (post' & HR & Hp); rewrite ?Hid, <- ?Hes; try done.
    { intros E0. by rewrite E0 in Hz. }
    { apply orb_true_iff in Hok as [->|?]; [by left|right; lia]. }
    { autorewrite with zlen in *. rewrite Hes in Hroom. autorewrite with zlen in Hroom. cbn [ie_data] in Hroom. lia. }
    rewrite Hid, <- Hes in HR. eexists _, _, _. split; [exact HR|]. split; [done|]. exists post'. split; [done|].
    rewrite Hes. autorewrite with zlen. cbn [ie_data]. rewrite Hw. lia.
  - apply orb_false_iff in Hok as [-> Hne]. unfold rtw_ies_update_ie. destruct (_ || _); [by apply Hsame|].
    rewrite get_ie_after_fixed, E'. cbn [mbind res_bind]. replace (zlen (ie_data e) =? 0) with false by lia.
    rewrite Hne. cbn [negb]. by apply Hsame.
Qed.

Lemma remove_ie_edited i oui n : oui_room i oui n es ->
  exists r b m, rtw_ies_remove_ie obj (Some 0) len (zlen fixed) i oui n = Ok (r, b, m) /\
    edited fixed es post (removed (ex_hit i oui n) es) b m.
Proof.
  intros Hr. destruct (decide (es = [])) as [->|Hne].
  { unfold rtw_ies_remove_ie. change (enc_ies []) with (@nil Z). rewrite zlen_nil.
    replace (_ <=? zlen fixed) with true by lia. eexists _, _, _. split; [reflexivity|].
    split; [done|]. by exists post. }
  destruct (ies_remove_spec es fixed post i oui n Hr Hsize Hne) as (junk & Hj & HR).
  eexists _, _, _. split; [exact HR|]. split; [done|]. exists (junk ++ post). split; [done|]. rewrite zlen_app. lia.
Qed.

Lemma removed_ext f g l : (forall e, f e = g e) -> removed f l = removed g l.
Proof. intros H. apply List.filter_ext. intros e. by rewrite H. Qed.

Lemma ext_cap_edited ok d n : byte n -> n <= zlen d ->
  zlen (enc_ies (spec_edit (UpdateExtCap ok d n) es)) <= zlen (enc_ies es) + zlen post ->
  exists b m, rtw_update_ext_cap_ie ok d n obj 0 len (zlen fixed) = Ok (b, m) /\
    edited fixed es post (spec_edit (UpdateExtCap ok d n) es) b m.
Proof.
  intros Hn Hd Hroom. unfold rtw_update_ext_cap_ie. cbn [spec_edit] in *. destruct (Z.eqb_spec n 0) as [->|Hz]; cbn [negb].
  - destruct (remove_ie_edited WLAN_EID_EXT_CAP None 0) as (r & b & m & -> & He); [split; [lia|done]|].
    rewrite bind_Ok. eexists _, _. split; [reflexivity|].
    rewrite (removed_ext _ (ex_hit WLAN_EID_EXT_CAP None 0)); [exact He|].
    intros e. unfold ex_hit, has_id. simpl. by rewrite andb_true_r.
  - rewrite get_ie_after_fixed, bind_Ok. destruct (find_by _ es _) as [[q e]|] eqn:E.
    + replace (existsb (has_id WLAN_EID_EXT_CAP) es) with true in *.
      * destruct (update_ie_edited ok WLAN_EID_EXT_CAP d n) as (r & b & m & -> & He); try done.
        rewrite bind_Ok. by eexists _, _.
      * apply find_by_Some in E as (es1 & es2 & -> & _ & He & _). symmetry. apply existsb_exists. exists e.
        split; [apply in_elt|done].
    + replace (existsb (has_id WLAN_EID_EXT_CAP) es) with false in *.
      * autorewrite with zlen in Hroom. cbn [ie_data] in Hroom. change (enc_ies []) with (@nil Z) in Hroom.
        rewrite zlen_first in Hroom by (unfold byte in Hn; lia).
        destruct (set_ie_edited WLAN_EID_EXT_CAP n d 0) as (b & p & HR & He); [done|done|done|lia|].
        rewrite Z.add_0_l, HR, bind_Ok. eexists _, _. by split.
      * apply find_by_None in E. symmetry. apply not_true_iff_false. intros (e & Hin & He)%existsb_exists.
        rewrite Forall_forall in E. apply list_elem_of_In in Hin. apply E in Hin. congruence.
Qed.
End functions.

(** ** The refinement *)

Lemma edited_holds fixed es post es' b n bss :
  bss_holds fixed es bss -> IEs bss = fixed ++ enc_ies es ++ post -> wf_ies es' -> edited fixed es post es' b n ->
  let bss' := mkBss (bss_prob_req bss) n b in bss_holds fixed es' bss' /\ zlen (IEs bss') = zlen (IEs bss).
Proof.
  intros [_ Hl Hf Hs Hw] Hi Hw' (-> & post' & -> & Hp). cbn.
  assert (zlen (fixed ++ enc_ies es' ++ post') = zlen (IEs bss)) as Hz by (rewrite Hi, !zlen_app; lia).
  split; [|done]. split; cbn; try done; [by exists post'|lia].
Qed.

Lemma del_vendor_holds oui fixed es bss : zlen oui = 4 -> vendor_room es -> bss_holds fixed es bss ->
  exists bss', bss_del_vendor_ie oui bss = Ok bss' /\ bss_prob_req bss' = bss_prob_req bss /\
    bss_holds fixed (removed (vendor_is oui) es) bss' /\ zlen (IEs bss') = zlen (IEs bss).
Proof.
  intros Ho Hr H. pose proof H as [(post & Hi) Hl Hf Hs Hw]. destruct bss as [pr n b]. cbn in Hi, Hl, Hf, Hs. subst b n.
  rewrite bss_del_vendor_spec; try done; [|revert Hs; rewrite !zlen_app; pose proof (zlen_nonneg post); lia].
  eexists. split; [reflexivity|]. split; [done|].
  eapply (edited_holds _ _ post _ _ _ (mkBss pr (zlen fixed + zlen (enc_ies es)) (fixed ++ enc_ies es ++ post)));
    try done; [by apply wf_removed|].
  split; [done|]. eexists. split; [done|]. pose proof (removed_len (vendor_is oui) es).
  rewrite zlen_app, zlen_zeros by lia. lia.
Qed.

Lemma run_edit_holds fixed es bss e : bss_holds fixed es bss -> edit_ok e es ->
  zlen fixed + zlen (enc_ies (spec_edit e es)) <= zlen (IEs bss) ->
  exists bss', run_edit e bss = Ok bss' /\ bss_prob_req bss' = bss_prob_req bss /\
    bss_holds fixed (spec_edit e es) bss' /\ zlen (IEs bss') = zlen (IEs bss).
Proof.
  intros H He Hroom. pose proof (spec_edit_wf e es (bh_wf _ _ _ H) He) as Hw'.
  pose proof H as [(post & Hi) Hl Hf Hs Hw]. unfold MAX_IE_SZ in Hs. rewrite Hi, !zlen_app in Hs, Hroom.
  pose proof (zlen_nonneg post).
  assert (zlen fixed + zlen (enc_ies es) < 2 ^ 31) as Hb by lia.
  destruct e as [i n l|ok i c n|i o n|ok d n| |]; cbn [run_edit edit_ok] in *; rewrite ?Hl, ?Hi, <- ?Hf.
  - destruct He as (? & Hn & ? & ?). cbn [spec_edit] in Hroom. autorewrite with zlen in Hroom.
    cbn [ie_data] in Hroom. change (enc_ies []) with (@nil Z) in Hroom.
    rewrite zlen_first in Hroom by (unfold byte in Hn; lia).
    destruct (set_ie_edited fixed es post i n l (zlen fixed + zlen (enc_ies es))) as (b & p & -> & E); try done; [lia|].
    rewrite bind_Ok. eexists. split; [reflexivity|]. split; [done|]. rewrite <- Hi. by eapply edited_holds.
  - destruct He as (? & ? & ? & ?).
    destruct (update_ie_edited fixed es post Hb ok i c n) as (r & b & m & -> & E); try done; [cbn [spec_edit] in Hroom; lia|].
    rewrite bind_Ok. eexists. split; [reflexivity|]. split; [done|]. rewrite <- Hi. by eapply edited_holds.
  - destruct (remove_ie_edited fixed es post Hb i o n He) as (r & b & m & -> & E).
    rewrite bind_Ok. eexists. split; [reflexivity|]. split; [done|]. rewrite <- Hi. by eapply edited_holds.
  - destruct He as (? & ? & ?).
    destruct (ext_cap_edited fixed es post Hb ok d n) as (b & m & -> & E); try done; [lia|].
    rewrite bind_Ok. eexists. split; [reflexivity|]. split; [done|]. rewrite <- Hi. by eapply edited_holds.
  - rewrite <- Hi. by apply del_vendor_holds.
  - rewrite <- Hi. by apply del_vendor_holds.
Qed.

(** C16: A stored network holds a list of elements behind its fixed
    parameters. Any sequence of edits (writing an element at the end; updating
    the first element with an identifier, unless that is empty or memory to
    move the rest is missing; removing by identifier and vendor prefix;
    updating the extended capabilities; removing the P2P or WFD elements)
    returns and leaves a network of the same size that holds exactly the list
    those edits make of it: the fixed parameters and all other elements keep
    their bytes and order, and the length is that of the list. Each result
    must have room, the callers' buffers be as long as they say, and vendor
    elements as long as the prefixes they are compared with. *)
Theorem ie_edits_refine edits es fixed bss :
  bss_holds fixed es bss -> edits_ok (zlen (IEs bss) - zlen fixed) edits es ->
  exists bss', run_edits edits bss = Ok bss' /\
    bss_holds fixed (foldl (fun es e => spec_edit e es) es edits) bss' /\
    zlen (IEs bss') = zlen (IEs bss).
Proof.
  revert es bss. induction edits as [|e edits IH]; intros es bss H Hok; [by exists bss|].
  destruct Hok as (He & Hroom & Hok). cbn [run_edits foldl].
  destruct (run_edit_holds fixed es bss e H He) as (b1 & -> & _ & H1 & Hz); [lia|]. rewrite bind_Ok.
  destruct (IH (spec_edit e es) b1 H1) as (b2 & -> & H2 & Hz2); [by rewrite Hz|].
  exists b2. split; [done|]. split; [done|]. lia.
Qed.

(** A beacon with an SSID, extended capabilities and a P2P element. *)
Definition ex_ies : list ie := [mkIe 0 [65]; mkIe 127 [1]; mkIe 221 (p2p_oui ++ [9; 9]); mkIe 3 [6]].
Definition ex_bss : bss_ex :=
  mkBss false (12 + zlen (enc_ies ex_ies)) (replicate 12 7 ++ enc_ies ex_ies ++ replicate 30 0).
Definition ex_edits : list ie_edit :=
  [UpdateExtCap true [4; 0; 8] 3; SetIe 50 2 [12; 18]; DelP2pIe; UpdateIe false 3 [11] 1; RemoveIe 0 None 0].

Lemma ie_edits_refine_witness :
  foldl (fun es e => spec_edit e es) ex_ies ex_edits = [mkIe 127 [4; 0; 8]; mkIe 3 [11]; mkIe 50 [12; 18]] /\
  exists bss', run_edits ex_edits ex_bss = Ok bss' /\
    bss_holds (replicate 12 7) (foldl (fun es e => spec_edit e es) ex_ies ex_edits) bss' /\
    zlen (IEs bss') = zlen (IEs ex_bss).
Proof.
  split; [reflexivity|]. apply (ie_edits_refine ex_edits ex_ies (replicate 12 7) ex_bss).
  - split; [by exists (replicate 30 0)|reflexivity|reflexivity|by vm_compute|by_compute].
  - cbn [edits_ok ex_edits edit_ok]. split_and!; try by_compute; try (by vm_compute).
Defined.
