(* ===== verification/IeThm.v ===== *)
(** * What the element functions guarantee

    The properties of src/core/rtw_ieee80211.c: the parser, the RSN element,
    the editing functions, attributes and channel settings. *)

From S2P Require Import Prelude IeBuf IeSearch IeSearchThm IeEditThm IeParse IeParseThm IeRsn IeRsnThm IeAttr IeAttrThm IeChan.

(** ** The element parser *)

(** C13: The element parser refines a grammar: any byte sequence splits into
    well-formed elements and a truncated rest, and when no extension element
    is empty the parser records for every kind of element the position and
    length of its last occurrence, and reports failure exactly when a rest is
    left, and otherwise whether some element is unknown. *)
Theorem ie_parse_spec (l post : list Z) :
  bytes l ->
  exists es rest, l = enc_ies es ++ rest /\ wf_ies es /\ truncated rest /\
    (Forall ext_nonempty es ->
     exists el,
       rtw_ieee802_11_parse_elems (l ++ post) 0 (zlen l) =
         Ok (match rest with
             | [] => if existsb is_unknown es then ParseUnknown else ParseOK
             | _ => ParseFailed end, el) /\
       forall f, el f = last_of f es 0).
Proof.
  intros Hb. destruct (ies_split l Hb) as (es & rest & -> & Hwf & Ht).
  exists es, rest. repeat (split; [done|]). intros Hext.
  destruct (parse_loop_spec es rest ((enc_ies es ++ rest) ++ post) 0 0 no_elems
    (Z.to_nat (zlen (enc_ies es ++ rest)))) as (el & HR & Hel); auto using at_off_0; [lia|].
  exists el. split.
  - unfold rtw_ieee802_11_parse_elems. rewrite HR. destruct rest; [|done]. by destruct (existsb is_unknown es).
  - intros f. rewrite Hel. by destruct (last_of f es 0).
Qed.

Lemma ie_parse_spec_witness :
  bytes [0; 1; 65; 255; 2; 35; 7; 48] /\
  exists es rest, [0; 1; 65; 255; 2; 35; 7; 48] = enc_ies es ++ rest /\ wf_ies es /\ truncated rest /\
    (Forall ext_nonempty es ->
     exists el,
       rtw_ieee802_11_parse_elems ([0; 1; 65; 255; 2; 35; 7; 48] ++ [9]) 0 (zlen [0; 1; 65; 255; 2; 35; 7; 48]) =
         Ok (match rest with
             | [] => if existsb is_unknown es then ParseUnknown else ParseOK
             | _ => ParseFailed end, el) /\
       forall f, el f = last_of f es 0).
Proof.
  assert (H : bytes [0; 1; 65; 255; 2; 35; 7; 48]) by by_compute.
  split; [exact H | apply (ie_parse_spec [0; 1; 65; 255; 2; 35; 7; 48] [9] H)].
Defined.

(** C14: The element parser reads only inside the range it is given and every
    element it records lies in it: whatever stands outside, also nothing, the
    result is the same. The one exception is a range that ends with an empty
    extension element, of which it reads the byte behind the range: outside
    the object if the object ends there, otherwise its result depends on that
    byte alone. *)
Theorem ie_parse_bounds (b : list Z) (p len : Z) :
  bytes b -> 0 <= p -> 0 <= len -> p + len <= zlen b ->
  let hi := p + len in
  (exists r el, elems_within p hi el /\
     forall b', agree p hi b b' -> rtw_ieee802_11_parse_elems b' p len = Ok (r, el)) \/
  (rd b (hi - 2) = Ok WLAN_EID_EXTENSION /\ rd b (hi - 1) = Ok 0 /\
   rtw_ieee802_11_parse_elems (take (Z.to_nat hi) b) p len = Oob /\
   (hi < zlen b -> exists r el, elems_within p hi el /\
      forall b', agree p (hi + 1) b b' -> rtw_ieee802_11_parse_elems b' p len = Ok (r, el))).
Proof.
  intros Hb Hp Hl Hz hi. unfold rtw_ieee802_11_parse_elems.
  assert (forall n, bytes (take (Z.to_nat n) b)) as Ht by (intros n; by apply Forall_take).
  assert (elems_within p hi no_elems) as H0 by done.
  destruct (parse_loop_safe (take (Z.to_nat hi) b) p hi p len 0 no_elems (Z.to_nat len))
    as [(r & el & Hr & Hw)|(Ho & _ & E1 & E2)]; try done; try lia.
  { rewrite list_take_zlen; lia. }
  - left. exists r, el. split; [done|]. intros b' Ha. eapply parse_loop_extends; [by apply agree_extends|done|lia|done].
  - right. apply rd_take in E1 as [_ E1]. apply rd_take in E2 as [_ E2]. split_and!; try done. intros Hlt.
    destruct (parse_loop_safe (take (Z.to_nat (hi + 1)) b) p hi p len 0 no_elems (Z.to_nat len))
      as [(r & el & Hr & Hw)|(_ & E & _)]; try done; try lia.
    { rewrite list_take_zlen; lia. }
    2: { rewrite list_take_zlen in E; lia. }
    exists r, el. split; [done|]. intros b' Ha. eapply parse_loop_extends; [by apply agree_extends|done|lia|done].
Qed.

(** A range in the middle of its object; and one that ends with an empty
    extension element, whose next byte is read. *)
Lemma ie_parse_bounds_witness :
  let read_in b p len hi := exists r el, elems_within p (p + len) el /\
    forall b', agree p hi b b' -> rtw_ieee802_11_parse_elems b' p len = Ok (r, el) in
  read_in [7; 0; 1; 65; 9] 1 3 4 /\ read_in [255; 0; 9] 0 2 3 /\
  rtw_ieee802_11_parse_elems [255; 0] 0 2 = Oob.
Proof.
  cbv zeta. split; [|split].
  - destruct (ie_parse_bounds [7; 0; 1; 65; 9] 1 3) as [H|(E & _)]; [by_compute|by vm_compute..|exact H|discriminate E].
  - destruct (ie_parse_bounds [255; 0; 9] 0 2) as [(r & el & _ & H)|(_ & _ & _ & H)]; [by_compute|by vm_compute..| |].
    + exfalso. specialize (H [255; 0]). discriminate H.
      intros k Hk. assert (k = 0 \/ k = 1) as [-> | ->] by lia; done.
    + exact (H eq_refl).
  - reflexivity.
Defined.

(** ** The RSN element *)

(** C15: Parsing an encoded RSN element, with any prefix of its optional
    sections present, succeeds and gives back its group, pairwise, key-
    management and group-management suites and the capability bits, with the
    defaults for what is absent. *)
Theorem rsn_roundtrip (b : list Z) (v : rsne_val) (p : Z) (o : wpa2_out) :
  wf_rsne v -> at_off b p (enc_rsne v) ->
  rtw_parse_wpa2_ie b p (zlen (enc_rsne v)) o = Ok (_SUCCESS, rsne_meaning v).
Proof. apply parse_wpa2_spec. Qed.

Definition sample_rsne : rsne_val :=
  mkRsnVal (Some (rsn_suite 4)) (Some [rsn_suite 4; rsn_suite 2]) (Some [rsn_suite 2]) (Some 192) None None.

Lemma sample_rsne_ok : wf_rsne sample_rsne.
Proof.
  constructor; try (by vm_compute).
  - split; [discriminate|]. repeat constructor.
  - split; [discriminate|]. repeat constructor.
Qed.

Lemma rsn_roundtrip_witness :
  rtw_parse_wpa2_ie (enc_rsne sample_rsne) 0 (zlen (enc_rsne sample_rsne)) (mkWpa2Out 0 0 0 0 0 0) =
    Ok (_SUCCESS, rsne_meaning sample_rsne) /\
  rsne_meaning sample_rsne = mkWpa2Out 16 24 256 2 3 0.
Proof.
  split; [|reflexivity].
  apply (rsn_roundtrip (enc_rsne sample_rsne) sample_rsne 0 (mkWpa2Out 0 0 0 0 0 0) sample_rsne_ok).
  exists [], []. split; reflexivity.
Defined.

(** On any bytes the RSN parsers return without reading outside the
    element, and the suite lists, capabilities and key identifiers they record
    lie inside it. *)
Theorem rsn_parse_bounds (b : list Z) (p n : Z) (o : wpa2_out) :
  bytes b -> 0 <= p -> p + n <= zlen b ->
  (exists ret i, rtw_rsne_info_parse b p n = Ok (ret, i) /\ rsne_within p (p + n) i) /\
  (exists ret o', rtw_parse_wpa2_ie b p n o = Ok (ret, o')).
Proof.
  intros Hb Hp Hn. split; [apply (rsne_parse_safe b p n Hb Hp Hn) | apply (parse_wpa2_safe b p n o Hb Hp Hn)].
Qed.

Lemma rsn_parse_bounds_witness :
  bytes [48; 6; 1; 0; 1; 2; 3; 4] /\
  (exists ret i, rtw_rsne_info_parse [48; 6; 1; 0; 1; 2; 3; 4] 0 8 = Ok (ret, i) /\ rsne_within 0 (0 + 8) i) /\
  (exists ret o', rtw_parse_wpa2_ie [48; 6; 1; 0; 1; 2; 3; 4] 0 8 (mkWpa2Out 0 0 0 0 0 0) = Ok (ret, o')).
Proof.
  assert (H : bytes [48; 6; 1; 0; 1; 2; 3; 4]) by by_compute.
  split; [exact H|].
  apply (rsn_parse_bounds [48; 6; 1; 0; 1; 2; 3; 4] 0 8 (mkWpa2Out 0 0 0 0 0 0) H); vm_compute; discriminate.
Defined.

(** ** Editing *)

(** Removing elements by identifier and vendor prefix refines a filter on
    the list of elements: exactly the matching ones disappear, the others keep
    their order and contents, the length shrinks accordingly, the bytes before
    and behind the elements stay, and the status says whether one was removed. *)
Theorem ie_remove_exact (es : list ie) (fixed post : list Z) (eid : Z) (oui : option (list Z)) (n : Z) :
  oui_room eid oui n es -> zlen fixed + zlen (enc_ies es) < 2 ^ 31 -> es <> [] ->
  exists junk,
    zlen junk = zlen (enc_ies es) - zlen (enc_ies (removed (ex_hit eid oui n) es)) /\
    rtw_ies_remove_ie (fixed ++ enc_ies es ++ post) (Some 0) (zlen fixed + zlen (enc_ies es))
      (zlen fixed) eid oui n =
    Ok (if existsb (ex_hit eid oui n) es then _SUCCESS else _FAIL,
        fixed ++ enc_ies (removed (ex_hit eid oui n) es) ++ junk ++ post,
        zlen fixed + zlen (enc_ies (removed (ex_hit eid oui n) es))).
Proof. apply ies_remove_spec. Qed.

Lemma ie_remove_exact_witness :
  let es := [mkIe 0 [65]; mkIe 50 [12]; mkIe 3 [6]; mkIe 50 [18; 24]] in
  oui_room 50 None 0 es /\
  exists junk,
    zlen junk = zlen (enc_ies es) - zlen (enc_ies (removed (ex_hit 50 None 0) es)) /\
    rtw_ies_remove_ie ([7; 7] ++ enc_ies es ++ [8]) (Some 0) (zlen [7; 7] + zlen (enc_ies es))
      (zlen [7; 7]) 50 None 0 =
    Ok (if existsb (ex_hit 50 None 0) es then _SUCCESS else _FAIL,
        [7; 7] ++ enc_ies (removed (ex_hit 50 None 0) es) ++ junk ++ [8],
        zlen [7; 7] + zlen (enc_ies (removed (ex_hit 50 None 0) es))).
Proof.
  intros es. assert (H : oui_room 50 None 0 es) by (split; [lia|]; intros o Ho; discriminate Ho).
  split; [exact H|]. apply (ie_remove_exact es [7; 7] [8] 50 None 0 H); [reflexivity | discriminate].
Defined.

(** After the extended-capabilities element of a frame is updated in
    place, the frame is the old one with that element replaced or added, and
    parsing it gives back the written capability bytes. *)
Theorem ext_cap_roundtrip (es : list ie) (fixed post d d0 : list Z) (n : Z) :
  Forall (fun e => has_id WLAN_EID_EXT_CAP e = true -> ie_data e <> []) es ->
  0 < n <= WLAN_EID_EXT_CAP_MAX_LEN -> zlen d = WLAN_EID_EXT_CAP_MAX_LEN ->
  zlen d0 = WLAN_EID_EXT_CAP_MAX_LEN -> n + 2 <= zlen post ->
  zlen fixed + zlen (enc_ies es) < 2 ^ 31 ->
  exists b len post',
    rtw_update_ext_cap_ie true d n (fixed ++ enc_ies es ++ post) 0
      (zlen fixed + zlen (enc_ies es)) (zlen fixed) = Ok (b, len) /\
    b = fixed ++ enc_ies (put_ie WLAN_EID_EXT_CAP (take (Z.to_nat n) d) es) ++ post' /\
    rtw_parse_ext_cap_ie d0 0 b 0 len (zlen fixed) =
      Ok (take (Z.to_nat n) d ++ drop (Z.to_nat n) d0, n).
Proof.
  intros Hne Hn Hd Hd0 Hp Hb. unfold WLAN_EID_EXT_CAP_MAX_LEN in *.
  destruct (update_ext_cap_put es fixed post d n) as (post' & HU); auto; [unfold byte; lia|lia|].
  assert (Hz : zlen (take (Z.to_nat n) d) = n) by (apply list_take_zlen; lia).
  eexists _, _, post'. split; [exact HU|]. split; [done|].
  rewrite parse_ext_cap_put by lia. rewrite Hz. do 3 f_equal.
  unfold zlen in Hz. by replace (length (take (Z.to_nat n) d)) with (Z.to_nat n) by lia.
Qed.

Lemma ext_cap_roundtrip_witness :
  let es := [mkIe 0 [65]; mkIe 127 [1; 2; 3]; mkIe 3 [6]] in
  let d := [4; 0; 8; 0; 0; 0; 0; 64; 0; 0] in
  exists b len post',
    rtw_update_ext_cap_ie true d 8 (replicate 12 0 ++ enc_ies es ++ replicate 40 0) 0
      (zlen (replicate 12 0) + zlen (enc_ies es)) (zlen (replicate 12 0)) = Ok (b, len) /\
    b = replicate 12 0 ++ enc_ies (put_ie WLAN_EID_EXT_CAP (take (Z.to_nat 8) d) es) ++ post' /\
    rtw_parse_ext_cap_ie (replicate 10 0) 0 b 0 len (zlen (replicate 12 0)) =
      Ok (take (Z.to_nat 8) d ++ drop (Z.to_nat 8) (replicate 10 0), 8).
Proof.
  intros es d. apply (ext_cap_roundtrip es (replicate 12 0) (replicate 40 0) d (replicate 10 0) 8);
    try reflexivity; try (vm_compute; done).
  - repeat constructor; intros _; discriminate.
Defined.

(** ** Attributes *)

(** On any bytes the search for a P2P attribute stays inside the element
    and finds attributes that lie in it, and it terminates within as many
    rounds as the element has bytes unless an attribute claims a length of
    0xFFFD. *)
Theorem p2p_attr_bounds (b : list Z) (p ielen id : Z) (fuel : nat) :
  bytes b -> 0 <= p -> p + ielen <= zlen b ->
  (exists q l, rtw_get_p2p_attr fuel b (Some p) ielen id None = Ok (q, l, None) /\
     (forall q', q = Some q' -> p + 6 <= q' /\ q' + l <= p + ielen)) \/
  (rtw_get_p2p_attr fuel b (Some p) ielen id None = Fuel /\
     ((Z.to_nat ielen <= fuel)%nat ->
      exists r, p + 6 <= r /\ r + 3 <= p + ielen /\ RTW_GET_LE16 b (r + 1) = Ok 65533)).
Proof.
  intros Hb Hp Hl. unfold rtw_get_p2p_attr, get_attr.
  destruct (Z.leb_spec ielen 6); [left; by exists None, 0|].
  destruct (rd_in b p) as (x & -> & _); [lia|]. cbn [mbind res_bind].
  destruct (negb (x =? WLAN_EID_VENDOR_SPECIFIC)); [left; by exists None, 0|].
  unfold memcmp. destruct (rd_n_in b (p + 2) 4) as (s & -> & _); [lia..|]. cbn [mbind res_bind].
  change (rd_n p2p_oui 0 4) with (@Ok (list Z) p2p_oui). cbn [mbind res_bind mret res_ret].
  destruct (negb _); [left; by exists None, 0|].
  destruct (get_attr_loop_safe RTW_GET_LE16 le16 b p (p + 6) ielen id fuel) as [H1|[H1 H2]]; auto; [lia|].
  right. split; [done|]. intros Hf. apply H2. lia.
Qed.

Lemma p2p_attr_bounds_witness :
  let b := enc_vendor p2p_oui le16 [mkAttr 2 [1; 2]; mkAttr 4 [9]] in
  bytes b /\
  ((exists q l, rtw_get_p2p_attr 20 b (Some 0) (zlen b) 4 None = Ok (q, l, None) /\
     (forall q', q = Some q' -> 0 + 6 <= q' /\ q' + l <= 0 + zlen b)) \/
   (rtw_get_p2p_attr 20 b (Some 0) (zlen b) 4 None = Fuel /\
     ((Z.to_nat (zlen b) <= 20)%nat ->
      exists r, 0 + 6 <= r /\ r + 3 <= 0 + zlen b /\ RTW_GET_LE16 b (r + 1) = Ok 65533))).
Proof.
  intros b. assert (H : bytes b) by by_compute.
  split; [exact H|]. apply (p2p_attr_bounds b 0 (zlen b) 4 20 H); vm_compute; discriminate.
Defined.

(** The attribute searches do not terminate on an attribute whose length
    field is 0xFFFD (P2P, WFD) or 0xFFFC (WPS): the 16-bit total length wraps
    to zero and the loop does not advance, whatever the fuel. *)
Theorem attr_loops_forever :
  (forall fuel, rtw_get_p2p_attr fuel ([221; 7] ++ p2p_oui ++ [2] ++ le16 65533) (Some 0) 9 4 None = Fuel) /\
  (forall fuel, rtw_get_wfd_attr fuel ([221; 7] ++ wfd_oui ++ [2] ++ be16 65533) (Some 0) 9 4 None = Fuel) /\
  (forall fuel, rtw_get_wps_attr fuel ([221; 8] ++ wps_oui ++ be16 4101 ++ be16 65532) 0 10 4164 None = Fuel).
Proof.
  split; [|split]; intros fuel.
  - apply (attr_loop_stuck RTW_GET_LE16 le16 _ 0 6 9 2 4); [|lia..].
    by exists ([221; 7] ++ p2p_oui), [].
  - apply (attr_loop_stuck RTW_GET_BE16 be16 _ 0 6 9 2 4); [|lia..].
    by exists ([221; 7] ++ wfd_oui), [].
  - apply (wps_loop_stuck _ 0 6 10 4101 4164); [|unfold word16; lia|lia|lia].
    by exists ([221; 8] ++ wps_oui), [].
Qed.

(** Deleting an attribute from a P2P element leaves the element with
    exactly the other attributes, its length byte updated and the gap zero-
    filled, and a search for the deleted attribute then finds nothing. *)
Theorem p2p_attr_removed (l : list attr) (pre post : list Z) (id : Z) (fuel : nat) :
  Forall wf_attr l -> (length l < fuel)%nat -> zlen (enc_attrs le16 l) + 4 < 256 ->
  let l' := other_attrs id l in
  rtw_del_p2p_attr fuel (pre ++ enc_vendor p2p_oui le16 l ++ post) (zlen pre)
    (zlen (enc_vendor p2p_oui le16 l)) id =
  Ok (pre ++ enc_vendor p2p_oui le16 l' ++
        zeros (zlen (enc_attrs le16 l) - zlen (enc_attrs le16 l')) ++ post,
      zlen (enc_vendor p2p_oui le16 l')) /\
  forall b p, at_off b p (enc_vendor p2p_oui le16 l') ->
    rtw_get_p2p_attr fuel b (Some p) (zlen (enc_vendor p2p_oui le16 l')) id None = Ok (None, 0, None).
Proof.
  intros Hwf Hf Hb l'. split.
  - unfold rtw_del_p2p_attr. rewrite (del_attr_spec p2p_oui RTW_GET_LE16 le16) by done. done.
  - intros b p Hat. unfold rtw_get_p2p_attr.
    assert (Hl' : (length l' <= length l)%nat) by (unfold l', other_attrs; apply List.filter_length_le).
    rewrite (get_attr_spec p2p_oui RTW_GET_LE16 le16) with (l := l'); [| done | done | | lia].
    + destruct (find_attr id l' (p + 6)) as [[q a]|] eqn:E; [|done]. exfalso.
      apply (find_attr_Some p2p_oui RTW_GET_LE16 le16) in E as (l1 & l2 & El & _ & Ha & _).
      assert (Hin : List.In a l') by (rewrite El; apply List.in_elt).
      apply List.filter_In in Hin as [_ Hn]. rewrite Ha in Hn. done.
    + rewrite List.Forall_forall in *. intros a Ha. apply List.filter_In in Ha as [Ha _]. auto.
Qed.

Lemma p2p_attr_removed_witness :
  let l := [mkAttr 2 [1; 2]; mkAttr 4 [9]; mkAttr 2 []] in
  let l' := other_attrs 2 l in
  rtw_del_p2p_attr 5 ([7] ++ enc_vendor p2p_oui le16 l ++ [8]) (zlen [7])
    (zlen (enc_vendor p2p_oui le16 l)) 2 =
  Ok ([7] ++ enc_vendor p2p_oui le16 l' ++
        zeros (zlen (enc_attrs le16 l) - zlen (enc_attrs le16 l')) ++ [8],
      zlen (enc_vendor p2p_oui le16 l')) /\
  forall b p, at_off b p (enc_vendor p2p_oui le16 l') ->
    rtw_get_p2p_attr 5 b (Some p) (zlen (enc_vendor p2p_oui le16 l')) 2 None = Ok (None, 0, None).
Proof.
  intros l l'. apply (p2p_attr_removed l [7] [8] 2 5); [repeat constructor | simpl; lia | reflexivity].
Defined.

(** ** Channels *)

(** Synchronising a requested channel setting with that of a group always
    yields two settings that can share the channel: same primary channel, same
    secondary channel when both are wide, and the group at least as wide as
    before and as the request. *)
Theorem chbw_sync_grouped (req g : chbw) :
  group_ok g -> 0 <= c_bw req <= CHANNEL_WIDTH_80 ->
  let '(req', g') := rtw_sync_chbw req g in
  rtw_is_chbw_grouped req' g' = true /\ group_ok req' /\ group_ok g' /\
  c_ch req' = c_ch g /\ c_ch g' = c_ch g /\ c_bw g <= c_bw g' /\ c_bw req' <= c_bw g'.
Proof.
  intros Hg Hr. unfold rtw_sync_chbw.
  set (r1 := if _ && _ then _ else _).
  assert (H1 : c_ch r1 = c_ch g /\ 0 <= c_bw r1 <= CHANNEL_WIDTH_80)
    by (unfold r1; case_if; cbn [c_ch c_bw]; unfold CHANNEL_WIDTH_40, CHANNEL_WIDTH_80 in *; lia).
  clearbody r1. destruct H1 as [Hc Hb].
  set (r2 := if _ || _ then _ else _).
  assert (H2 : c_ch r2 = c_ch g /\ group_ok r2 /\
               (wide (c_bw r2) = true -> wide (c_bw g) = true -> c_offset r2 = c_offset g)).
  { unfold r2. destruct (_ || _) eqn:E.
    - apply sync_wide_grouped; auto. unfold wide. by rewrite orb_comm.
    - unfold CHANNEL_WIDTH_80, CHANNEL_WIDTH_40, CHANNEL_WIDTH_20 in *.
      assert (c_bw r1 = 0) as H0 by lia. rewrite H0. cbn. split; [done|]. split; [by left|]. done. }
  clearbody r2. destruct H2 as (Hc2 & Hg2 & Ho). unfold rtw_is_chbw_grouped.
  destruct (Z.ltb_spec (c_bw g) (c_bw r2)); cbn [c_ch c_bw c_offset]; rewrite Hc2, Z.eqb_refl; cbn [negb].
  - split; [destruct (_ && _); [apply Z.eqb_refl|done]|]. repeat (split; [done || lia|]). lia.
  - split; [|repeat (split; [done || lia|]); lia].
    destruct (wide (c_bw r2)) eqn:W1, (wide (c_bw g)) eqn:W2; cbn; try done.
    rewrite Ho by done. apply Z.eqb_refl.
Qed.

Lemma chbw_sync_grouped_witness :
  let req := mkChbw 36 CHANNEL_WIDTH_80 CHAN_OFFSET_NO_EXT in
  let g := mkChbw 44 CHANNEL_WIDTH_20 CHAN_OFFSET_NO_EXT in
  group_ok g /\
  (let '(req', g') := rtw_sync_chbw req g in
   rtw_is_chbw_grouped req' g' = true /\ group_ok req' /\ group_ok g' /\
   c_ch req' = c_ch g /\ c_ch g' = c_ch g /\ c_bw g <= c_bw g' /\ c_bw req' <= c_bw g').
Proof.
  intros req g. assert (H : group_ok g) by (left; reflexivity).
  split; [exact H|]. apply (chbw_sync_grouped req g H).
  split; vm_compute; discriminate.
Defined.

(** ** Stored networks *)

(** Removing a vendor element from a beacon keeps all other elements. *)
Theorem bss_p2p_removed (es : list ie) (fixed post : list Z) (pr : bool) :
  vendor_room es -> zlen fixed = (if pr then 0 else 12) ->
  zlen fixed + zlen (enc_ies es) <= MAX_IE_SZ ->
  let es' := removed (vendor_is p2p_oui) es in
  let bss' := mkBss pr (zlen fixed + zlen (enc_ies es'))
                (fixed ++ enc_ies es' ++ zeros (zlen (enc_ies es) - zlen (enc_ies es')) ++ post) in
  rtw_bss_ex_del_p2p_ie (mkBss pr (zlen fixed + zlen (enc_ies es)) (fixed ++ enc_ies es ++ post)) = Ok bss' /\
  rtw_bss_ex_get_p2p_ie bss' None = Ok (None, 0, None).
Proof.
  intros Hr Hfx Hm es' bss'. split; [by apply bss_del_vendor_spec|].
  unfold rtw_bss_ex_get_p2p_ie, rtw_get_p2p_ie, bss', BSS_EX_TLV_IES_LEN, BSS_EX_FIXED_IE_OFFSET.
  cbn [IEs IELength bss_prob_req]. rewrite <- Hfx. pose proof (removed_len (vendor_is p2p_oui) es) as Hlen.
  fold es' in Hlen. unfold MAX_IE_SZ in *.
  rewrite u32_small by zl. replace (zlen fixed + zlen (enc_ies es') - zlen fixed) with (zlen (enc_ies es')) by lia.
  rewrite (get_vendor_spec p2p_oui es'); [| done | by eexists fixed, _ | unfold MAX_IE_SZ; zl |].
  - destruct (find_by (vendor_is p2p_oui) es' (zlen fixed)) as [[q e]|] eqn:E; [|done]. exfalso.
    apply find_by_Some in E as (es1 & es2 & El & _ & He & _).
    assert (Hin : List.In e es') by (rewrite El; apply List.in_elt).
    apply List.filter_In in Hin as [_ Hn]. rewrite He in Hn. done.
  - unfold vendor_room in Hr. rewrite List.Forall_forall in *. intros e He.
    apply List.filter_In in He as [He _]. auto.
Qed.

Lemma bss_p2p_removed_witness :
  let es := [mkIe 0 [65]; mkIe 221 (p2p_oui ++ [2; 0; 0]); mkIe 3 [6]; mkIe 221 p2p_oui] in
  let es' := removed (vendor_is p2p_oui) es in
  let bss' := mkBss false (zlen (replicate 12 0) + zlen (enc_ies es'))
                (replicate 12 0 ++ enc_ies es' ++ zeros (zlen (enc_ies es) - zlen (enc_ies es')) ++ [5]) in
  rtw_bss_ex_del_p2p_ie (mkBss false (zlen (replicate 12 0) + zlen (enc_ies es))
                           (replicate 12 0 ++ enc_ies es ++ [5])) = Ok bss' /\
  rtw_bss_ex_get_p2p_ie bss' None = Ok (None, 0, None).
Proof.
  intros es. apply (bss_p2p_removed es (replicate 12 0) [5] false).
  - repeat first [apply Forall_nil_2 | apply Forall_cons_2; [intros Q; vm_compute in Q |- *; discriminate|]].
  - reflexivity.
  - vm_compute. discriminate.
Defined.
