(* ===== verification/FwOfld.v ===== *)
(** * Offloading to the firmware: the MAC layer

    (src/phl/hal_g6/mac/mac_ax/fwofld.c, the firmware's answers in fwcmd.c, and
    the wrappers of src/phl/hal_g6/hal_api_mac.c.)

    The driver hands packets and lists of register accesses to the firmware by
    commands (H2C) and learns the outcome from messages (C2H).  A packet gets an
    identifier from a bitmap; register accesses are collected in a buffer first.
    Each kind of offload has a small state machine.

    The firmware and the command buffers are outside: an oracle says how each
    command fares and what the firmware answers, and how many answers arrive at
    each wait. *)

From S2P Require Import Prelude IeBuf.

(** ** Codes *)

Definition MACSUCCESS := 0.
Definition MACNPTR := 5.
Definition MACNOBUF := 9.
Definition MACBUFSZ := 10.
Definition MACNOITEM := 11.
Definition MACBUFALLOC := 14.
Definition MACNOFW := 22.
Definition MACPROCBUSY := 23.
Definition MACPROCERR := 24.

Definition RTW_HAL_STATUS_SUCCESS := 0.
Definition RTW_HAL_STATUS_FAILURE := 1.
Definition RTW_HAL_STATUS_MAC_INIT_FAILURE := 4.

Definition MAC_AX_OFLD_REQ_IDLE := 0.
Definition MAC_AX_OFLD_REQ_H2C_SENT := 1.
Definition MAC_AX_OFLD_REQ_CREATED := 2.
Definition MAC_AX_OFLD_REQ_CLEANED := 3.

Definition MAC_AX_OFLD_H2C_IDLE := 0.
Definition MAC_AX_OFLD_H2C_SENDING := 1.
Definition MAC_AX_OFLD_H2C_RCVD := 2.
Definition MAC_AX_OFLD_H2C_DONE := 3.
Definition MAC_AX_OFLD_H2C_ERROR := 4.

Definition PKT_OFLD_OP_ADD := 0.
Definition PKT_OFLD_OP_DEL := 1.
Definition PKT_OFLD_OP_READ := 2.
Definition PKT_OFLD_OP_MAX := 3.
Definition PKT_OFLD_MAX_COUNT := 256.

Definition FW_OFLD_OP_DUMP_EFUSE := 0.
Definition FW_OFLD_OP_PACKET_OFLD := 1.
Definition FW_OFLD_OP_READ_OFLD := 2.
Definition FW_OFLD_OP_WRITE_OFLD := 3.
Definition FW_OFLD_OP_CONF_OFLD := 4.

Definition FWCMD_H2C_FUNC_DUMP_EFUSE := 0.
Definition FWCMD_H2C_FUNC_PACKET_OFLD := 1.
Definition FWCMD_H2C_FUNC_READ_OFLD := 2.
Definition FWCMD_H2C_FUNC_WRITE_OFLD := 3.
Definition FWCMD_H2C_FUNC_CONF_OFLD := 4.
(** [FWCMD_H2C_FUNC_GENERAL_PKT] belongs to another class of commands; a number
    of its own keeps the commands apart in the log. *)
Definition FUNC_GENERAL_PKT := 256.

Definition FWCMD_HDR_LEN := 8.
Definition READ_OFLD_MAX_LEN := 2000.
Definition WRITE_OFLD_MAX_LEN := 2000.
Definition CONF_OFLD_MAX_LEN := 2000.
Definition POLLING_HALMAC_CNT := 100%nat.

(** [SET_WORD(v, f)] with the mask and the shift of the field. *)
Definition SET_WORD (v msk sh : Z) : Z := Z.shiftl (Z.land v msk) sh.
(** [cpu_to_le32] and a store. *)
Definition le32 (x : Z) : list Z :=
  [u8 x; u8 (Z.shiftr x 8); u8 (Z.shiftr x 16); u8 (Z.shiftr x 24)].

(** ** State *)

(** Messages of the firmware, decoded: [c2h_fwi_rev_ack], [c2h_fwi_done_ack]
    for the class of offloads, and the response to a packet offload. *)
Inductive c2h :=
  | RecAck (c2h_func : Z)
  | DoneAck (c2h_func h2c_return : Z)
  | PktOfldRsp (pkt_op pkt_len id : Z) (content : list Z).

(** How a command fares: [h2cb_alloc], a [h2cb_put], [h2c_pkt_set_hdr],
    [h2c_pkt_build_txd], [PLTFM_TX].  When it is sent the
    firmware answers the command and its contents with [reply], and [early]
    messages arrive before the sender goes on. *)
Inductive h2c_outcome :=
  | H2cNoBuf
  | H2cPutFail (n : nat)
  | H2cErr (ret : positive)
  | H2cTxErr (ret : positive)
  | H2cSent (reply : Z -> list Z -> list c2h) (early : nat).

(** Requests collected for one kind of register access, with the two states
    [sm.*_request] and [sm.*_h2c]. *)
Record ofld_chan := mkChan {
  request : Z;
  h2c : Z;
  buf : option (list Z);
  wptr : Z;
  last_req : option Z;
  buf_size : Z;
  avl_buf_size : Z;
  used_size : Z;
  req_num : Z;
}.

Definition set_request (v : Z) (x : ofld_chan) : ofld_chan :=
  mkChan v (h2c x) (buf x) (wptr x) (last_req x) (buf_size x) (avl_buf_size x) (used_size x) (req_num x).
Definition set_h2c (v : Z) (x : ofld_chan) : ofld_chan :=
  mkChan (request x) v (buf x) (wptr x) (last_req x) (buf_size x) (avl_buf_size x) (used_size x) (req_num x).
Definition set_buf (v : option (list Z)) (x : ofld_chan) : ofld_chan :=
  mkChan (request x) (h2c x) v (wptr x) (last_req x) (buf_size x) (avl_buf_size x) (used_size x) (req_num x).
Definition set_wptr (v : Z) (x : ofld_chan) : ofld_chan :=
  mkChan (request x) (h2c x) (buf x) v (last_req x) (buf_size x) (avl_buf_size x) (used_size x) (req_num x).
Definition set_last_req (v : option Z) (x : ofld_chan) : ofld_chan :=
  mkChan (request x) (h2c x) (buf x) (wptr x) v (buf_size x) (avl_buf_size x) (used_size x) (req_num x).
Definition set_buf_size (v : Z) (x : ofld_chan) : ofld_chan :=
  mkChan (request x) (h2c x) (buf x) (wptr x) (last_req x) v (avl_buf_size x) (used_size x) (req_num x).
Definition set_avl_buf_size (v : Z) (x : ofld_chan) : ofld_chan :=
  mkChan (request x) (h2c x) (buf x) (wptr x) (last_req x) (buf_size x) v (used_size x) (req_num x).
Definition set_used_size (v : Z) (x : ofld_chan) : ofld_chan :=
  mkChan (request x) (h2c x) (buf x) (wptr x) (last_req x) (buf_size x) (avl_buf_size x) v (req_num x).
Definition set_req_num (v : Z) (x : ofld_chan) : ofld_chan :=
  mkChan (request x) (h2c x) (buf x) (wptr x) (last_req x) (buf_size x) (avl_buf_size x) (used_size x) v.

(** The part of [struct mac_ax_adapter] that offloads use.  [mac_ok]: the HAL
    has an adapter ([hal_info->mac] is not [NULL]).  The oracle is [outcomes],
    [moves] and [mallocs]; [inbox] holds what the firmware sent and the driver
    has not seen; [sent] is the log of commands. *)
Record adapter := mkAdapter {
  fwdl_rdy : bool;
  mac_ok : bool;
  pkt_ofld : Z;
  efuse_ofld : Z;
  wr_chan : ofld_chan;
  rd_chan : ofld_chan;
  cf_chan : ofld_chan;
  last_op : Z;
  free_id_count : Z;
  used_id_count : Z;
  id_bitmap : list Z;
  ofld_pkt : option (Z * list Z);
  inbox : list c2h;
  outcomes : list h2c_outcome;
  moves : list nat;
  mallocs : list bool;
  sent : list (Z * list Z);
}.

Definition set_fwdl_rdy (v : bool) (x : adapter) : adapter :=
  mkAdapter v (mac_ok x) (pkt_ofld x) (efuse_ofld x) (wr_chan x) (rd_chan x) (cf_chan x) (last_op x) (free_id_count x) (used_id_count x) (id_bitmap x) (ofld_pkt x) (inbox x) (outcomes x) (moves x) (mallocs x) (sent x).
Definition set_mac_ok (v : bool) (x : adapter) : adapter :=
  mkAdapter (fwdl_rdy x) v (pkt_ofld x) (efuse_ofld x) (wr_chan x) (rd_chan x) (cf_chan x) (last_op x) (free_id_count x) (used_id_count x) (id_bitmap x) (ofld_pkt x) (inbox x) (outcomes x) (moves x) (mallocs x) (sent x).
Definition set_pkt_ofld (v : Z) (x : adapter) : adapter :=
  mkAdapter (fwdl_rdy x) (mac_ok x) v (efuse_ofld x) (wr_chan x) (rd_chan x) (cf_chan x) (last_op x) (free_id_count x) (used_id_count x) (id_bitmap x) (ofld_pkt x) (inbox x) (outcomes x) (moves x) (mallocs x) (sent x).
Definition set_efuse_ofld (v : Z) (x : adapter) : adapter :=
  mkAdapter (fwdl_rdy x) (mac_ok x) (pkt_ofld x) v (wr_chan x) (rd_chan x) (cf_chan x) (last_op x) (free_id_count x) (used_id_count x) (id_bitmap x) (ofld_pkt x) (inbox x) (outcomes x) (moves x) (mallocs x) (sent x).
Definition set_wr_chan (v : ofld_chan) (x : adapter) : adapter :=
  mkAdapter (fwdl_rdy x) (mac_ok x) (pkt_ofld x) (efuse_ofld x) v (rd_chan x) (cf_chan x) (last_op x) (free_id_count x) (used_id_count x) (id_bitmap x) (ofld_pkt x) (inbox x) (outcomes x) (moves x) (mallocs x) (sent x).
Definition set_rd_chan (v : ofld_chan) (x : adapter) : adapter :=
  mkAdapter (fwdl_rdy x) (mac_ok x) (pkt_ofld x) (efuse_ofld x) (wr_chan x) v (cf_chan x) (last_op x) (free_id_count x) (used_id_count x) (id_bitmap x) (ofld_pkt x) (inbox x) (outcomes x) (moves x) (mallocs x) (sent x).
Definition set_cf_chan (v : ofld_chan) (x : adapter) : adapter :=
  mkAdapter (fwdl_rdy x) (mac_ok x) (pkt_ofld x) (efuse_ofld x) (wr_chan x) (rd_chan x) v (last_op x) (free_id_count x) (used_id_count x) (id_bitmap x) (ofld_pkt x) (inbox x) (outcomes x) (moves x) (mallocs x) (sent x).
Definition set_last_op (v : Z) (x : adapter) : adapter :=
  mkAdapter (fwdl_rdy x) (mac_ok x) (pkt_ofld x) (efuse_ofld x) (wr_chan x) (rd_chan x) (cf_chan x) v (free_id_count x) (used_id_count x) (id_bitmap x) (ofld_pkt x) (inbox x) (outcomes x) (moves x) (mallocs x) (sent x).
Definition set_free_id_count (v : Z) (x : adapter) : adapter :=
  mkAdapter (fwdl_rdy x) (mac_ok x) (pkt_ofld x) (efuse_ofld x) (wr_chan x) (rd_chan x) (cf_chan x) (last_op x) v (used_id_count x) (id_bitmap x) (ofld_pkt x) (inbox x) (outcomes x) (moves x) (mallocs x) (sent x).
Definition set_used_id_count (v : Z) (x : adapter) : adapter :=
  mkAdapter (fwdl_rdy x) (mac_ok x) (pkt_ofld x) (efuse_ofld x) (wr_chan x) (rd_chan x) (cf_chan x) (last_op x) (free_id_count x) v (id_bitmap x) (ofld_pkt x) (inbox x) (outcomes x) (moves x) (mallocs x) (sent x).
Definition set_id_bitmap (v : list Z) (x : adapter) : adapter :=
  mkAdapter (fwdl_rdy x) (mac_ok x) (pkt_ofld x) (efuse_ofld x) (wr_chan x) (rd_chan x) (cf_chan x) (last_op x) (free_id_count x) (used_id_count x) v (ofld_pkt x) (inbox x) (outcomes x) (moves x) (mallocs x) (sent x).
Definition set_ofld_pkt (v : option (Z * list Z)) (x : adapter) : adapter :=
  mkAdapter (fwdl_rdy x) (mac_ok x) (pkt_ofld x) (efuse_ofld x) (wr_chan x) (rd_chan x) (cf_chan x) (last_op x) (free_id_count x) (used_id_count x) (id_bitmap x) v (inbox x) (outcomes x) (moves x) (mallocs x) (sent x).
Definition set_inbox (v : list c2h) (x : adapter) : adapter :=
  mkAdapter (fwdl_rdy x) (mac_ok x) (pkt_ofld x) (efuse_ofld x) (wr_chan x) (rd_chan x) (cf_chan x) (last_op x) (free_id_count x) (used_id_count x) (id_bitmap x) (ofld_pkt x) v (outcomes x) (moves x) (mallocs x) (sent x).
Definition set_outcomes (v : list h2c_outcome) (x : adapter) : adapter :=
  mkAdapter (fwdl_rdy x) (mac_ok x) (pkt_ofld x) (efuse_ofld x) (wr_chan x) (rd_chan x) (cf_chan x) (last_op x) (free_id_count x) (used_id_count x) (id_bitmap x) (ofld_pkt x) (inbox x) v (moves x) (mallocs x) (sent x).
Definition set_moves (v : list nat) (x : adapter) : adapter :=
  mkAdapter (fwdl_rdy x) (mac_ok x) (pkt_ofld x) (efuse_ofld x) (wr_chan x) (rd_chan x) (cf_chan x) (last_op x) (free_id_count x) (used_id_count x) (id_bitmap x) (ofld_pkt x) (inbox x) (outcomes x) v (mallocs x) (sent x).
Definition set_mallocs (v : list bool) (x : adapter) : adapter :=
  mkAdapter (fwdl_rdy x) (mac_ok x) (pkt_ofld x) (efuse_ofld x) (wr_chan x) (rd_chan x) (cf_chan x) (last_op x) (free_id_count x) (used_id_count x) (id_bitmap x) (ofld_pkt x) (inbox x) (outcomes x) (moves x) v (sent x).
Definition set_sent (v : list (Z * list Z)) (x : adapter) : adapter :=
  mkAdapter (fwdl_rdy x) (mac_ok x) (pkt_ofld x) (efuse_ofld x) (wr_chan x) (rd_chan x) (cf_chan x) (last_op x) (free_id_count x) (used_id_count x) (id_bitmap x) (ofld_pkt x) (inbox x) (outcomes x) (moves x) (mallocs x) v.

Definition upd_wr (f : ofld_chan -> ofld_chan) (a : adapter) := set_wr_chan (f (wr_chan a)) a.
Definition upd_rd (f : ofld_chan -> ofld_chan) (a : adapter) := set_rd_chan (f (rd_chan a)) a.
Definition upd_cf (f : ofld_chan -> ofld_chan) (a : adapter) := set_cf_chan (f (cf_chan a)) a.

(** The adapter at first, with the firmware downloaded. *)
Definition chan0 : ofld_chan := mkChan MAC_AX_OFLD_REQ_IDLE MAC_AX_OFLD_H2C_IDLE None 0 None 0 0 0 0.
Definition mac_8852b_adapter (outcomes : list h2c_outcome) (moves : list nat) (mallocs : list bool) : adapter :=
  mkAdapter true true MAC_AX_OFLD_H2C_IDLE MAC_AX_OFLD_H2C_IDLE chan0 chan0 chan0
    PKT_OFLD_OP_MAX PKT_OFLD_MAX_COUNT 0 (replicate 32 0) None [] outcomes moves mallocs [].

(** ** The oracle *)

Definition next_outcome (a : adapter) : h2c_outcome * adapter :=
  match outcomes a with
  | [] => (H2cSent (fun _ _ => []) 0, a)
  | o :: l => (o, set_outcomes l a)
  end.

Definition next_malloc (a : adapter) : bool * adapter :=
  match mallocs a with
  | [] => (true, a)
  | x :: l => (x, set_mallocs l a)
  end.

(** ** Identifiers *)

Definition mac_pkt_ofld_set_bitmap (bitmap : list Z) (index : Z) : list Z :=
  alter (fun x => Z.lor x (Z.shiftl 1 (Z.land index 7))) (Z.to_nat (Z.shiftr index 3)) bitmap.
Definition mac_pkt_ofld_unset_bitmap (bitmap : list Z) (index : Z) : list Z :=
  alter (fun x => Z.land x (Z.lnot (Z.shiftl 1 (Z.land index 7)))) (Z.to_nat (Z.shiftr index 3)) bitmap.
Definition mac_pkt_ofld_get_bitmap (bitmap : list Z) (index : Z) : Z :=
  if z_true (Z.land (nth (Z.to_nat (index / 8)) bitmap 0) (Z.shiftl 1 (Z.land index 7))) then 1 else 0.

(** ** States *)

Definition mac_reset_fwofld_state (op : Z) (a : adapter) : Z * adapter :=
  let idle := fun c => set_h2c MAC_AX_OFLD_H2C_IDLE (set_request MAC_AX_OFLD_REQ_IDLE c) in
  if op =? FW_OFLD_OP_DUMP_EFUSE then (MACSUCCESS, set_efuse_ofld MAC_AX_OFLD_H2C_IDLE a)
  else if op =? FW_OFLD_OP_PACKET_OFLD then (MACSUCCESS, set_pkt_ofld MAC_AX_OFLD_H2C_IDLE a)
  else if op =? FW_OFLD_OP_READ_OFLD then (MACSUCCESS, upd_rd idle a)
  else if op =? FW_OFLD_OP_WRITE_OFLD then (MACSUCCESS, upd_wr idle a)
  else if op =? FW_OFLD_OP_CONF_OFLD then (MACSUCCESS, upd_cf idle a)
  else (MACNOITEM, a).

Definition mac_check_fwofld_done (op : Z) (a : adapter) : Z :=
  let done b := if b : bool then MACSUCCESS else MACPROCBUSY in
  if op =? FW_OFLD_OP_DUMP_EFUSE then done (efuse_ofld a =? MAC_AX_OFLD_H2C_IDLE)
  else if op =? FW_OFLD_OP_PACKET_OFLD then
    (if last_op a =? PKT_OFLD_OP_READ then done (pkt_ofld a =? MAC_AX_OFLD_H2C_DONE)
     else done (pkt_ofld a =? MAC_AX_OFLD_H2C_IDLE))
  else if op =? FW_OFLD_OP_READ_OFLD then done (h2c (rd_chan a) =? MAC_AX_OFLD_H2C_DONE)
  else if op =? FW_OFLD_OP_WRITE_OFLD then done (h2c (wr_chan a) =? MAC_AX_OFLD_H2C_IDLE)
  else if op =? FW_OFLD_OP_CONF_OFLD then done (h2c (cf_chan a) =? MAC_AX_OFLD_H2C_IDLE)
  else MACNOITEM.

(** ** Messages of the firmware (fwcmd.c) *)

Definition ack_state (s : Z) : Z := if s =? MAC_AX_OFLD_H2C_SENDING then MAC_AX_OFLD_H2C_RCVD else s.

Definition c2h_fwofld_rcv_ack_hdl (c2h_func : Z) (a : adapter) : adapter :=
  let ack := fun c => set_h2c (ack_state (h2c c)) c in
  if c2h_func =? FWCMD_H2C_FUNC_WRITE_OFLD then upd_wr ack a
  else if c2h_func =? FWCMD_H2C_FUNC_CONF_OFLD then upd_cf ack a
  else if c2h_func =? FWCMD_H2C_FUNC_PACKET_OFLD then set_pkt_ofld (ack_state (pkt_ofld a)) a
  else if c2h_func =? FWCMD_H2C_FUNC_READ_OFLD then upd_rd ack a
  else if c2h_func =? FWCMD_H2C_FUNC_DUMP_EFUSE then set_efuse_ofld (ack_state (efuse_ofld a)) a
  else a.

Definition done_state (h2c_return ok s : Z) : Z :=
  if s =? MAC_AX_OFLD_H2C_RCVD then
    if h2c_return =? MACSUCCESS then ok else MAC_AX_OFLD_H2C_ERROR
  else s.

Definition c2h_fwofld_done_ack_hdl (c2h_func h2c_return : Z) (a : adapter) : adapter :=
  let fin ok := fun c => set_h2c (done_state h2c_return ok (h2c c)) c in
  if c2h_func =? FWCMD_H2C_FUNC_WRITE_OFLD then upd_wr (fin MAC_AX_OFLD_H2C_IDLE) a
  else if c2h_func =? FWCMD_H2C_FUNC_CONF_OFLD then upd_cf (fin MAC_AX_OFLD_H2C_IDLE) a
  else if c2h_func =? FWCMD_H2C_FUNC_PACKET_OFLD then
    let ok := if last_op a =? PKT_OFLD_OP_READ then MAC_AX_OFLD_H2C_DONE else MAC_AX_OFLD_H2C_IDLE in
    set_pkt_ofld (done_state h2c_return ok (pkt_ofld a)) a
  else if c2h_func =? FWCMD_H2C_FUNC_READ_OFLD then upd_rd (fin MAC_AX_OFLD_H2C_DONE) a
  else if c2h_func =? FWCMD_H2C_FUNC_DUMP_EFUSE then
    set_efuse_ofld (done_state h2c_return MAC_AX_OFLD_H2C_DONE (efuse_ofld a)) a
  else a.

(** The old packet is freed before the allocation of the new one is known to
    succeed; when it fails the stale pointer stays, which shows here as the old
    packet. *)
Definition c2h_pkt_ofld_rsp_hdl (pkt_op pkt_len id : Z) (content : list Z) (a : adapter) : adapter :=
  if pkt_len =? 0 then a else
  if pkt_op =? PKT_OFLD_OP_ADD then
    set_used_id_count (u16 (used_id_count a + 1))
      (set_free_id_count (u16 (free_id_count a - 1))
         (set_id_bitmap (mac_pkt_ofld_set_bitmap (id_bitmap a) id) a))
  else if pkt_op =? PKT_OFLD_OP_DEL then
    set_used_id_count (u16 (used_id_count a - 1))
      (set_free_id_count (u16 (free_id_count a + 1))
         (set_id_bitmap (mac_pkt_ofld_unset_bitmap (id_bitmap a) id) a))
  else if pkt_op =? PKT_OFLD_OP_READ then
    let '(ok, a) := next_malloc a in
    if ok : bool then set_ofld_pkt (Some (id, content)) a else a
  else a.

Definition c2h_hdl (m : c2h) (a : adapter) : adapter :=
  match m with
  | RecAck f => c2h_fwofld_rcv_ack_hdl f a
  | DoneAck f r => c2h_fwofld_done_ack_hdl f r a
  | PktOfldRsp op len id content => c2h_pkt_ofld_rsp_hdl op len id content a
  end.

(** The first [n] messages arrive. *)
Fixpoint deliver (n : nat) (a : adapter) : adapter :=
  match n, inbox a with
  | S n, m :: l => deliver n (c2h_hdl m (set_inbox l a))
  | _, _ => a
  end.

(** A command of [func] with [payload] goes out, the firmware's answer is on its
    way. *)
Definition transmit (func : Z) (payload : list Z) (reply : Z -> list Z -> list c2h) (early : nat)
    (a : adapter) : adapter :=
  deliver early (set_inbox (inbox a ++ reply func payload) (set_sent (sent a ++ [(func, payload)]) a)).

(** ** Packets *)

Definition pkt_ofld_dword (id op len : Z) : list Z :=
  le32 (Z.lor (Z.lor (SET_WORD id 255 0) (SET_WORD op 7 8)) (SET_WORD len 65535 16)).

(** [mac_read_pkt_ofld] and [mac_del_pkt_ofld] from the test of the state on. *)
Definition pkt_ofld_cmd (op id : Z) (a : adapter) : Z * adapter :=
  if negb (pkt_ofld a =? MAC_AX_OFLD_H2C_IDLE) then (MACPROCERR, a) else
  let a := set_pkt_ofld MAC_AX_OFLD_H2C_SENDING a in
  let '(o, a) := next_outcome a in
  match o with
  | H2cNoBuf => (MACNPTR, a)
  | H2cPutFail _ => (MACNOBUF, a)
  | H2cErr ret => (Zpos ret, a)
  | H2cTxErr ret => (Zpos ret, set_pkt_ofld MAC_AX_OFLD_H2C_IDLE a)
  | H2cSent reply early =>
      let a := transmit FWCMD_H2C_FUNC_PACKET_OFLD (pkt_ofld_dword id op 0) reply early a in
      (MACSUCCESS, set_last_op op a)
  end.

Definition mac_read_pkt_ofld (id : Z) (a : adapter) : Z * adapter :=
  if negb (fwdl_rdy a) then (MACNOFW, a) else
  if id =? PKT_OFLD_MAX_COUNT - 1 then (MACNOITEM, a) else
  if mac_pkt_ofld_get_bitmap (id_bitmap a) id =? 0 then (MACNOITEM, a) else
  pkt_ofld_cmd PKT_OFLD_OP_READ id a.

Definition mac_del_pkt_ofld (id : Z) (a : adapter) : Z * adapter :=
  if negb (fwdl_rdy a) then (MACNOFW, a) else
  if id =? PKT_OFLD_MAX_COUNT - 1 then (MACNOITEM, a) else
  if mac_pkt_ofld_get_bitmap (id_bitmap a) id =? 0 then (MACNOITEM, a) else
  if used_id_count a =? 0 then (MACNOITEM, a) else
  pkt_ofld_cmd PKT_OFLD_OP_DEL id a.

(** [for (alloc_id = 0; alloc_id < PKT_OFLD_MAX_COUNT - 1; alloc_id++)] *)
Fixpoint alloc_loop (n : nat) (bitmap : list Z) (alloc_id : Z) : Z :=
  match n with
  | O => alloc_id
  | S n => if mac_pkt_ofld_get_bitmap bitmap alloc_id =? 0 then alloc_id
           else alloc_loop n bitmap (alloc_id + 1)
  end.

(** The status, [*id] and the adapter. *)
Definition mac_add_pkt_ofld (pkt : list Z) (len id : Z) (a : adapter) : Z * Z * adapter :=
  if negb (fwdl_rdy a) then (MACNOFW, id, a) else
  if free_id_count a =? 0 then (MACNOBUF, id, a) else
  if negb (pkt_ofld a =? MAC_AX_OFLD_H2C_IDLE) then (MACPROCERR, id, a) else
  let a := set_pkt_ofld MAC_AX_OFLD_H2C_SENDING a in
  let alloc_id := alloc_loop (Z.to_nat (PKT_OFLD_MAX_COUNT - 1)) (id_bitmap a) 0 in
  let '(o, a) := next_outcome a in
  match o with
  | H2cNoBuf => (MACNPTR, id, a)
  | H2cPutFail O => (MACNOBUF, id, a)
  | H2cPutFail (S _) => (MACNOBUF, u8 alloc_id, a)
  | H2cErr ret => (Zpos ret, u8 alloc_id, a)
  | H2cTxErr ret => (Zpos ret, u8 alloc_id, set_pkt_ofld MAC_AX_OFLD_H2C_IDLE a)
  | H2cSent reply early =>
      let a := transmit FWCMD_H2C_FUNC_PACKET_OFLD
                 (pkt_ofld_dword (u8 alloc_id) PKT_OFLD_OP_ADD len ++ take (Z.to_nat len) pkt) reply early a in
      (MACSUCCESS, u8 alloc_id, set_last_op PKT_OFLD_OP_ADD a)
  end.

(** The status, the copy of the packet with its identifier, and the adapter. *)
Definition mac_pkt_ofld_packet (a : adapter) : Z * option (Z * list Z) * adapter :=
  if negb (pkt_ofld a =? MAC_AX_OFLD_H2C_DONE) then (MACPROCERR, None, a) else
  let '(ok, a) := next_malloc a in
  if negb ok then (MACBUFALLOC, None, a)
  else (MACSUCCESS, ofld_pkt a, set_pkt_ofld MAC_AX_OFLD_H2C_IDLE a).

(** The identifiers of the packets the firmware sends by itself for a station. *)
Definition mac_general_pkt_ids (macid probersp pspoll nulldata qosnull cts2self probereq apcsa : Z)
    (a : adapter) : Z * adapter :=
  if negb (fwdl_rdy a) then (MACNOFW, a) else
  let '(o, a) := next_outcome a in
  match o with
  | H2cNoBuf => (MACNPTR, a)
  | H2cPutFail _ => (MACNOBUF, a)
  | H2cErr ret | H2cTxErr ret => (Zpos ret, a)
  | H2cSent reply early =>
      (MACSUCCESS,
       transmit FUNC_GENERAL_PKT
         (le32 (Z.lor (Z.lor (Z.lor (SET_WORD macid 255 0) (SET_WORD probersp 255 8))
                         (SET_WORD pspoll 255 16)) (SET_WORD nulldata 255 24)) ++
          le32 (Z.lor (Z.lor (Z.lor (SET_WORD qosnull 255 0) (SET_WORD cts2self 255 8))
                         (SET_WORD probereq 255 16)) (SET_WORD apcsa 255 24))) reply early a)
  end.

(** ** The wrappers of hal_api_mac.c *)

(** [_os_sleep_ms]: some messages arrive. *)
Definition sleep (a : adapter) : adapter :=
  match moves a with
  | [] => a
  | n :: l => deliver n (set_moves l a)
  end.

(** Checks, and waits after a check that fails. *)
Fixpoint chk_loop (n : nat) (a : adapter) : Z * adapter :=
  match n with
  | O => (RTW_HAL_STATUS_FAILURE, a)
  | S n => if mac_check_fwofld_done FW_OFLD_OP_PACKET_OFLD a =? MACSUCCESS then (RTW_HAL_STATUS_SUCCESS, a)
           else chk_loop n (sleep a)
  end.

Definition _hal_mac_chk_pkt_ofld (a : adapter) : Z * adapter :=
  if negb (mac_ok a) then (RTW_HAL_STATUS_MAC_INIT_FAILURE, a) else chk_loop POLLING_HALMAC_CNT a.

Definition _hal_mac_get_pkt_ofld (a : adapter) : Z * adapter :=
  if negb (mac_ok a) then (RTW_HAL_STATUS_MAC_INIT_FAILURE, a) else
  let '(ret, _, a) := mac_pkt_ofld_packet a in
  (if ret =? MACSUCCESS then RTW_HAL_STATUS_SUCCESS else RTW_HAL_STATUS_FAILURE, a).

Definition _hal_mac_add_pkt_ofld (pkt : list Z) (len id : Z) (a : adapter) : Z * Z * adapter :=
  if negb (mac_ok a) then (RTW_HAL_STATUS_MAC_INIT_FAILURE, id, a) else
  let '(status, id, a) := mac_add_pkt_ofld pkt len id a in
  if negb (status =? MACSUCCESS) then (RTW_HAL_STATUS_FAILURE, id, a) else
  let '(status, a) := _hal_mac_chk_pkt_ofld a in (status, id, a).

(** The outcome of the wait is not used. *)
Definition _hal_mac_del_pkt_ofld (id : Z) (a : adapter) : Z * adapter :=
  if negb (mac_ok a) then (RTW_HAL_STATUS_MAC_INIT_FAILURE, a) else
  let '(status, a) := mac_del_pkt_ofld id a in
  if negb (status =? MACSUCCESS) then (RTW_HAL_STATUS_FAILURE, a) else
  let '(_, a) := _hal_mac_chk_pkt_ofld a in (RTW_HAL_STATUS_SUCCESS, a).

Definition _hal_mac_read_pkt_ofld (id : Z) (a : adapter) : Z * adapter :=
  if negb (mac_ok a) then (RTW_HAL_STATUS_MAC_INIT_FAILURE, a) else
  let '(status, a) := mac_read_pkt_ofld id a in
  if negb (status =? MACSUCCESS) then (RTW_HAL_STATUS_FAILURE, a) else
  let '(status, a) := _hal_mac_chk_pkt_ofld a in
  if negb (status =? MACSUCCESS) then (RTW_HAL_STATUS_FAILURE, a) else
  let '(_, a) := _hal_mac_get_pkt_ofld a in (RTW_HAL_STATUS_SUCCESS, a).

(** The entry gives its station and the identifiers of its packets by type;
    [probereq] and [apcsa] keep the zero of the initialiser. *)
Definition rtw_hal_mac_pkt_update_ids (macid : Z) (ids : list Z) (a : adapter) : Z * adapter :=
  let id_of t := nth t ids 0 in
  let '(status, a) := mac_general_pkt_ids (u8 macid) (id_of 0%nat) (id_of 1%nat) (id_of 2%nat)
                        (id_of 3%nat) (id_of 4%nat) 0 0 a in
  if negb (status =? MACSUCCESS) then (RTW_HAL_STATUS_FAILURE, a) else (status, a).

Definition rtw_hal_mac_reset_pkt_ofld_state (a : adapter) : Z * adapter :=
  if negb (mac_ok a) then (RTW_HAL_STATUS_MAC_INIT_FAILURE, a) else
  let '(ret, a) := mac_reset_fwofld_state FW_OFLD_OP_PACKET_OFLD a in
  (if ret =? MACSUCCESS then RTW_HAL_STATUS_SUCCESS else RTW_HAL_STATUS_FAILURE, a).
