(* ===== verification/FwReq.v ===== *)
(** * Lists of register accesses for the firmware
    (src/phl/hal_g6/mac/mac_ax/fwofld.c)

    Writes, reads and configuration steps are collected one by one in a buffer
    of 2000 bytes and sent as one command.  [sm.*_request] follows the buffer:
    it is cleared, requests are created in it, it is sent, it is idle. *)

From S2P Require Import Prelude IeBuf FwOfld.

(** ** The request states *)

(** The test of [cnv_write_ofld_state], [cnv_read_ofld_state] and
    [cnv_conf_ofld_state], which differ in the field they change. *)
Definition cnv_allowed (state dest : Z) : bool :=
  if MAC_AX_OFLD_REQ_CLEANED <? state then false
  else if dest =? MAC_AX_OFLD_REQ_IDLE then state =? MAC_AX_OFLD_REQ_H2C_SENT
  else if dest =? MAC_AX_OFLD_REQ_CLEANED then negb (state =? MAC_AX_OFLD_REQ_H2C_SENT)
  else if dest =? MAC_AX_OFLD_REQ_CREATED then
    negb ((state =? MAC_AX_OFLD_REQ_IDLE) || (state =? MAC_AX_OFLD_REQ_H2C_SENT))
  else if dest =? MAC_AX_OFLD_REQ_H2C_SENT then state =? MAC_AX_OFLD_REQ_CREATED
  else true.

Definition cnv_chan_state (dest : Z) (c : ofld_chan) : Z * ofld_chan :=
  if cnv_allowed (request c) dest then (MACSUCCESS, set_request dest c) else (MACPROCERR, c).

(** ** Clearing *)

Definition clear_chan (c : ofld_chan) : Z * ofld_chan :=
  if request c =? MAC_AX_OFLD_REQ_H2C_SENT then (MACPROCERR, c) else
  let '(ret, c) := cnv_chan_state MAC_AX_OFLD_REQ_CLEANED c in
  if negb (ret =? MACSUCCESS) then (MACPROCERR, c) else
  (MACSUCCESS, mkChan (request c) (h2c c) None 0 None 0 0 0 0).

Definition mac_clear_write_request (a : adapter) : Z * adapter :=
  let '(ret, c) := clear_chan (wr_chan a) in (ret, set_wr_chan c a).
Definition mac_clear_read_request (a : adapter) : Z * adapter :=
  let '(ret, c) := clear_chan (rd_chan a) in (ret, set_rd_chan c a).
Definition mac_clear_conf_request (a : adapter) : Z * adapter :=
  let '(ret, c) := clear_chan (cf_chan a) in (ret, set_cf_chan c a).

(** ** Adding a request *)

Definition chan_open (c : ofld_chan) : bool :=
  (request c =? MAC_AX_OFLD_REQ_CREATED) || (request c =? MAC_AX_OFLD_REQ_CLEANED).

(** [if (!ofld_info->buf)]: the buffer is allocated on first use; its contents do
    not matter. *)
Definition chan_buf (max : Z) (c : ofld_chan) (ok : bool) : option ofld_chan :=
  match buf c with
  | Some _ => Some c
  | None => if ok then Some (mkChan (request c) (h2c c) (Some (replicate (Z.to_nat max) 0)) 0 (last_req c) max max 0 0)
            else None
  end.

(** Bytes go to [buf_wptr], which moves with the two sizes. *)
Definition chan_put (l : list Z) (c : ofld_chan) : res ofld_chan :=
  match buf c with
  | None => Oob
  | Some b =>
      b ← wr b (wptr c) l;
      mret (mkChan (request c) (h2c c) (Some b) (wptr c + zlen l) (last_req c) (buf_size c)
              (u32 (avl_buf_size c - zlen l)) (u32 (used_size c + zlen l)) (req_num c))
  end.

(** [if (req_num != 0) last_req->ls = 0; last_req = buf_wptr]: [ls] is the
    highest bit of the second byte. *)
Definition chan_mark (c : ofld_chan) : res ofld_chan :=
  c' ← (if req_num c =? 0 then mret c
        else match buf c, last_req c with
             | Some b, Some p => x ← rd b (p + 1); b ← wr b (p + 1) [Z.land x 127]; mret (set_buf (Some b) c)
             | _, _ => Oob
             end);
  mret (set_last_req (Some (wptr c')) c').

(** [req_num] is an [u32], but an [u16] for configuration steps. *)
Definition chan_count (wrap : Z -> Z) (c : ofld_chan) : ofld_chan := set_req_num (wrap (req_num c + 1)) c.

Record mac_ax_write_req := mkWriteReq {
  w_value_len : Z; w_polling : Z; w_mask_en : Z; w_ofld_id : Z; w_entry_num : Z; w_offset : Z }.
Record mac_ax_read_req := mkReadReq { r_value_len : Z; r_ofld_id : Z; r_entry_num : Z; r_offset : Z }.
Record mac_ax_conf_ofld_req := mkConfReq {
  c_device : Z; c_hioe_op : Z; c_inst_type : Z; c_data_mode : Z; c_register_addr : Z;
  c_byte_data_h : Z; c_byte_data_l : Z }.

Definition WRITE_REQ_LEN := 8.
Definition READ_REQ_LEN := 8.
Definition CONF_REQ_LEN := 16.

(** The two words of a write request; [req->ls] is 1. *)
Definition write_req_words (r : mac_ax_write_req) : list Z :=
  le32 (Z.lor (Z.lor (Z.lor (Z.lor (Z.lor (SET_WORD (w_value_len r) 2047 0) (SET_WORD (w_ofld_id r) 255 16))
                                   (SET_WORD (w_entry_num r) 255 24)) (w_polling r)) (w_mask_en r)) 1) ++
  le32 (SET_WORD (w_offset r) 65535 0).
Definition read_req_words (r : mac_ax_read_req) : list Z :=
  le32 (Z.lor (Z.lor (Z.lor (SET_WORD (r_value_len r) 2047 0) (SET_WORD (r_ofld_id r) 255 16))
                (SET_WORD (r_entry_num r) 255 24)) 1) ++
  le32 (SET_WORD (r_offset r) 65535 0).
Definition conf_req_words (r : mac_ax_conf_ofld_req) : list Z :=
  le32 (SET_WORD (c_device r) 255 0) ++
  le32 (Z.lor (Z.lor (SET_WORD (c_hioe_op r) 255 0) (SET_WORD (c_inst_type r) 255 8)) (SET_WORD (c_data_mode r) 255 24)) ++
  le32 (c_register_addr r) ++
  le32 (Z.lor (SET_WORD (c_byte_data_h r) 65535 0) (SET_WORD (c_byte_data_l r) 65535 16)).

Definition mac_add_write_request (req : mac_ax_write_req) (value mask : option (list Z)) (a : adapter) :
    res (Z * adapter) :=
  let c := wr_chan a in
  if negb (chan_open c) then mret (MACPROCERR, a) else
  let '(ok, a) := match buf c with None => next_malloc a | Some _ => (true, a) end in
  match chan_buf WRITE_OFLD_MAX_LEN c ok with
  | None => mret (MACNPTR, a)
  | Some c =>
      let data_len := WRITE_REQ_LEN + w_value_len req + (if w_mask_en req =? 1 then w_value_len req else 0) in
      if avl_buf_size c <? data_len then mret (MACNOBUF, set_wr_chan c a) else
      match value with
      | None => mret (MACNPTR, set_wr_chan c a)
      | Some value =>
          if (w_mask_en req =? 1) && bool_decide (mask = None) then mret (MACNPTR, set_wr_chan c a) else
          let '(ret, c) := cnv_chan_state MAC_AX_OFLD_REQ_CREATED c in
          if negb (ret =? MACSUCCESS) then mret (MACPROCERR, set_wr_chan c a) else
          c ← chan_mark c;
          c ← chan_put (write_req_words req) c;
          v ← rd_n value 0 (w_value_len req);
          c ← chan_put v c;
          c ← (if w_mask_en req =? 1 then
                 m ← rd_n (default [] mask) 0 (w_value_len req); chan_put m c
               else mret c);
          mret (MACSUCCESS, set_wr_chan (chan_count u32 c) a)
      end
  end.

Definition mac_add_read_request (req : mac_ax_read_req) (a : adapter) : res (Z * adapter) :=
  let c := rd_chan a in
  if negb (chan_open c) then mret (MACPROCERR, a) else
  let '(ok, a) := match buf c with None => next_malloc a | Some _ => (true, a) end in
  match chan_buf READ_OFLD_MAX_LEN c ok with
  | None => mret (MACNPTR, a)
  | Some c =>
      if avl_buf_size c <? READ_REQ_LEN then mret (MACNOBUF, set_rd_chan c a) else
      let '(ret, c) := cnv_chan_state MAC_AX_OFLD_REQ_CREATED c in
      if negb (ret =? MACSUCCESS) then mret (MACPROCERR, set_rd_chan c a) else
      c ← chan_mark c;
      c ← chan_put (read_req_words req) c;
      mret (MACSUCCESS, set_rd_chan (chan_count u32 c) a)
  end.

Definition mac_add_conf_request (req : mac_ax_conf_ofld_req) (a : adapter) : res (Z * adapter) :=
  if negb (fwdl_rdy a) then mret (MACNOFW, a) else
  let c := cf_chan a in
  if negb (chan_open c) then mret (MACPROCERR, a) else
  let '(ok, a) := match buf c with None => next_malloc a | Some _ => (true, a) end in
  match chan_buf CONF_OFLD_MAX_LEN c ok with
  | None => mret (MACNPTR, a)
  | Some c =>
      if avl_buf_size c <? CONF_REQ_LEN then mret (MACNOBUF, set_cf_chan c a) else
      let '(ret, c) := cnv_chan_state MAC_AX_OFLD_REQ_CREATED c in
      if negb (ret =? MACSUCCESS) then mret (MACPROCERR, set_cf_chan c a) else
      c ← chan_put (conf_req_words req) c;
      mret (MACSUCCESS, set_cf_chan (chan_count u16 c) a)
  end.

(** ** Sending *)

(** The checks of [mac_write_ofld], [mac_read_ofld] and [mac_conf_ofld], and the
    two state changes. *)
Definition chan_start (max : Z) (c : ofld_chan) : Z * ofld_chan :=
  if max <? used_size c + FWCMD_HDR_LEN then (MACBUFSZ, c) else
  if negb (h2c c =? MAC_AX_OFLD_H2C_IDLE) then (MACPROCERR, c) else
  if negb (request c =? MAC_AX_OFLD_REQ_CREATED) then (MACPROCERR, c) else
  let '(ret, c) := cnv_chan_state MAC_AX_OFLD_REQ_H2C_SENT c in
  if negb (ret =? MACSUCCESS) then (MACPROCERR, c) else
  (MACSUCCESS, set_h2c MAC_AX_OFLD_H2C_SENDING c).

Definition chan_tx_failed (c : ofld_chan) : ofld_chan :=
  set_h2c MAC_AX_OFLD_H2C_IDLE (set_request MAC_AX_OFLD_REQ_IDLE c).

(** The contents sent: [PLTFM_MEMCPY(buf, ofld_info->buf, used_size)]. *)
Definition chan_bytes (c : ofld_chan) : res (list Z) := rd_n (default [] (buf c)) 0 (used_size c).

(** [agg]: [h2c_agg_enqueue] takes the command, which returns at once. *)
Definition mac_write_ofld (agg : bool) (a : adapter) : res (Z * adapter) :=
  if negb (fwdl_rdy a) then mret (MACNOFW, a) else
  let '(ret, c) := chan_start READ_OFLD_MAX_LEN (wr_chan a) in
  let a := set_wr_chan c a in
  if negb (ret =? MACSUCCESS) then mret (ret, a) else
  let '(o, a) := next_outcome a in
  match o with
  | H2cNoBuf => mret (MACNPTR, a)
  | H2cPutFail _ => mret (MACNOBUF, a)
  | H2cErr ret => _ ← chan_bytes (wr_chan a); mret (Zpos ret, a)
  | H2cTxErr ret =>
      _ ← chan_bytes (wr_chan a);
      mret (if agg then (MACSUCCESS, a) else (Zpos ret, upd_wr chan_tx_failed a))
  | H2cSent reply early =>
      payload ← chan_bytes (wr_chan a);
      if agg then mret (MACSUCCESS, a) else
      let a := transmit FWCMD_H2C_FUNC_WRITE_OFLD payload reply early a in
      let '(ret, c) := cnv_chan_state MAC_AX_OFLD_REQ_IDLE (wr_chan a) in
      mret (if ret =? MACSUCCESS then MACSUCCESS else MACPROCERR, set_wr_chan c a)
  end.

Definition mac_read_ofld (a : adapter) : res (Z * adapter) :=
  if negb (fwdl_rdy a) then mret (MACNOFW, a) else
  let '(ret, c) := chan_start READ_OFLD_MAX_LEN (rd_chan a) in
  let a := set_rd_chan c a in
  if negb (ret =? MACSUCCESS) then mret (ret, a) else
  let '(o, a) := next_outcome a in
  match o with
  | H2cNoBuf => mret (MACNPTR, a)
  | H2cPutFail _ => mret (MACNOBUF, a)
  | H2cErr ret => _ ← chan_bytes (rd_chan a); mret (Zpos ret, a)
  | H2cTxErr ret => _ ← chan_bytes (rd_chan a); mret (Zpos ret, upd_rd chan_tx_failed a)
  | H2cSent reply early =>
      payload ← chan_bytes (rd_chan a);
      let a := transmit FWCMD_H2C_FUNC_READ_OFLD payload reply early a in
      let '(ret, c) := cnv_chan_state MAC_AX_OFLD_REQ_IDLE (rd_chan a) in
      mret (if ret =? MACSUCCESS then MACSUCCESS else MACPROCERR, set_rd_chan c a)
  end.

Definition mac_conf_ofld (a : adapter) : res (Z * adapter) :=
  if negb (fwdl_rdy a) then mret (MACNOFW, a) else
  let '(ret, c) := chan_start CONF_OFLD_MAX_LEN (cf_chan a) in
  let a := set_cf_chan c a in
  if negb (ret =? MACSUCCESS) then mret (ret, a) else
  let '(o, a) := next_outcome a in
  match o with
  | H2cNoBuf => mret (MACNPTR, a)
  | H2cPutFail _ => mret (MACNOBUF, a)
  | H2cErr ret => _ ← chan_bytes (cf_chan a); mret (Zpos ret, a)
  | H2cTxErr ret => _ ← chan_bytes (cf_chan a); mret (Zpos ret, upd_cf chan_tx_failed a)
  | H2cSent reply early =>
      payload ← chan_bytes (cf_chan a);
      let a := transmit FWCMD_H2C_FUNC_CONF_OFLD
                 (le32 (SET_WORD (req_num (cf_chan a)) 65535 0) ++ payload) reply early a in
      let '(ret, c) := cnv_chan_state MAC_AX_OFLD_REQ_IDLE (cf_chan a) in
      mret (if ret =? MACSUCCESS then MACSUCCESS else MACPROCERR, set_cf_chan c a)
  end.
