(* ===== verification/FwReqThm.v ===== *)
(** * Lists of register accesses: what the firmware gets

    The buffer always holds the requests accepted since it was cleared, byte for
    byte, and a command carries just these.  Nothing is written outside the
    buffer. *)

From S2P Require Import Prelude IeBuf FwOfld FwReq.

(** ** What the buffer holds *)

Notation MAXLEN := 2000.

(** The buffer starts with [enc]; pointer and sizes agree with it. *)
Definition chan_rep (c : ofld_chan) (enc : list Z) : Prop :=
  match buf c with
  | None => enc = [] /\ used_size c = 0
  | Some b => (exists rest, b = enc ++ rest /\ zlen b = MAXLEN) /\ wptr c = zlen enc /\
              used_size c = zlen enc /\ avl_buf_size c = MAXLEN - zlen enc
  end.

(** The last request starts inside the contents and has no [ls] bit. *)
Definition last_at (c : ofld_chan) (enc : list Z) : Prop :=
  exists pre x0 x1 post, last_req c = Some (zlen pre) /\ enc = pre ++ x0 :: x1 :: post /\ 0 <= x1 < 128.
Definition last_ok (c : ofld_chan) (enc : list Z) : Prop := req_num c <> 0 -> last_at c enc.

Lemma chan_rep_len c enc : chan_rep c enc -> 0 <= zlen enc <= MAXLEN.
Proof.
  unfold chan_rep. destruct (buf c) as [b|].
  - intros ((rest & -> & Hb) & _). zl.
  - intros [-> _]. zl.
Qed.

(** What the steps of one request leave alone. *)
Definition same_side (c c' : ofld_chan) : Prop :=
  request c' = request c /\ h2c c' = h2c c /\ req_num c' = req_num c.

Lemma chan_put_rep c enc l :
  chan_rep c enc -> is_Some (buf c) -> zlen enc + zlen l <= MAXLEN ->
  exists c', chan_put l c = Ok c' /\ chan_rep c' (enc ++ l) /\ is_Some (buf c') /\ same_side c c' /\
    last_req c' = last_req c.
Proof.
  intros Hr [b Hb] Hl. unfold chan_rep in Hr. rewrite Hb in Hr.
  destruct Hr as ((rest & -> & Hlen) & Hw & Hu & Ha). unfold chan_put. rewrite Hb.
  destruct (at_off_split rest 0 (zlen l)) as (mid & (pre & post & -> & Hpre) & Hmid); [zl..|].
  symmetry in Hpre. apply zlen_0 in Hpre as ->. cbn [app] in *.
  rewrite (wr_at enc mid post l) by (done || lia). rewrite bind_Ok. eexists. split; [reflexivity|].
  split; [|split; [by eexists|done]]. unfold chan_rep. cbn -[zlen].
  split; [exists post; rewrite <- app_assoc; split; [done|]; zl|].
  pose proof (zlen_nonneg enc). pose proof (zlen_nonneg l). rewrite zlen_app, !u32_small by lia. lia.
Qed.

Lemma chan_mark_rep c enc :
  chan_rep c enc -> is_Some (buf c) -> last_ok c enc ->
  exists c', chan_mark c = Ok c' /\ chan_rep c' enc /\ is_Some (buf c') /\ same_side c c' /\
    last_req c' = Some (zlen enc).
Proof.
  intros Hr Hsome Hlast. unfold chan_mark.
  destruct Hsome as [b Hb]. pose proof Hr as Hr'. unfold chan_rep in Hr'. rewrite Hb in Hr'.
  destruct Hr' as ((rest & E & Hlen) & Hw & Hu & Ha).
  assert (Hc : (if req_num c =? 0 then mret c
    else match buf c, last_req c with
         | Some b, Some p => x ← rd b (p + 1); b ← wr b (p + 1) [Z.land x 127]; mret (set_buf (Some b) c)
         | _, _ => Oob end) = Ok (set_buf (Some b) c)).
  { destruct (Z.eqb_spec (req_num c) 0) as [_|Hn].
    - destruct c; cbn in *. by subst.
    - destruct (Hlast Hn) as (pre & x0 & x1 & post & E1 & E2 & Hx). rewrite Hb, E1. subst enc b.
      rewrite <- !app_assoc. cbn [app]. rewrite (rd_app_r pre (zlen pre) 1) by lia. cbn [rd].
      change (rd (x0 :: x1 :: post ++ rest) 1) with (Ok x1). rewrite bind_Ok.
      change 127 with (Z.ones 7). rewrite Z.land_ones, Z.mod_small by lia.
      replace (pre ++ x0 :: x1 :: post ++ rest) with ((pre ++ [x0]) ++ [x1] ++ post ++ rest) by (by rewrite <- app_assoc).
      rewrite wr_at by (zl || done). done. }
  rewrite Hc, bind_Ok. eexists. split; [reflexivity|].
  split; [unfold chan_rep; cbn -[zlen]; eauto 10|]. split; [by eexists|]. split; [done|]. cbn. by rewrite Hw.
Qed.

(** ** The words of a request *)

(** The fields have the widths of the struct's bit fields. *)
Definition write_req_ok (r : mac_ax_write_req) : Prop :=
  0 <= w_value_len r < 2048 /\ 0 <= w_polling r < 2 /\ 0 <= w_mask_en r < 2.

#[export] Instance write_req_ok_dec r : Decision (write_req_ok r).
Proof. unfold write_req_ok. apply _. Defined.

Lemma testbit_SET_WORD_low v n k : 0 <= n <= k -> Z.testbit (SET_WORD v (Z.ones n) 0) k = false.
Proof.
  intros Hn. unfold SET_WORD. rewrite Z.shiftl_0_r, Z.land_spec, Z.ones_spec_high by lia.
  apply andb_false_r.
Qed.

Lemma testbit_SET_WORD_high v msk sh k : 0 <= k < sh -> Z.testbit (SET_WORD v msk sh) k = false.
Proof. intros Hk. unfold SET_WORD. apply Z.shiftl_spec_low. lia. Qed.

Lemma testbit_flag v k : 0 <= v < 2 -> 0 < k -> Z.testbit v k = false.
Proof.
  intros Hv Hk. assert (v = 0 \/ v = 1) as [-> | ->] by lia; [apply Z.testbit_0_l|].
  change 1 with (2 ^ 0). apply Z.pow2_bits_false. lia.
Qed.

(** Bits 11 to 15 of the first word: the flags [polling], [mask_en] and [ls]
    would be bits 13, 14 and 15. *)
Lemma write_req_flags r k :
  write_req_ok r -> 11 <= k < 16 ->
  Z.testbit (Z.lor (Z.lor (Z.lor (Z.lor (Z.lor (SET_WORD (w_value_len r) 2047 0) (SET_WORD (w_ofld_id r) 255 16))
    (SET_WORD (w_entry_num r) 255 24)) (w_polling r)) (w_mask_en r)) 1) k = false.
Proof.
  intros (Hv & Hp & Hm) Hk. rewrite !Z.lor_spec. change 2047 with (Z.ones 11).
  rewrite testbit_SET_WORD_low, !testbit_SET_WORD_high, !testbit_flag by lia. done.
Qed.

Lemma second_byte w : Z.testbit w 15 = false -> 0 <= u8 (Z.shiftr w 8) < 128.
Proof.
  intros Hb. rewrite Z.testbit_false in Hb by lia. rewrite Z.shiftr_div_pow2 by lia. unfold u8. lia.
Qed.

Lemma write_words_shape r : write_req_ok r -> zlen (write_req_words r) = 8 /\
  exists x0 x1 post, write_req_words r = x0 :: x1 :: post /\ 0 <= x1 < 128.
Proof.
  intros Hr. split; [done|]. unfold write_req_words, le32 at 1. cbn [app].
  do 3 eexists. split; [reflexivity|]. apply second_byte, write_req_flags; [done|lia].
Qed.

Lemma read_words_shape r : zlen (read_req_words r) = 8 /\
  exists x0 x1 post, read_req_words r = x0 :: x1 :: post /\ 0 <= x1 < 128.
Proof.
  split; [done|]. unfold read_req_words, le32 at 1. cbn [app].
  do 3 eexists. split; [reflexivity|]. apply second_byte. rewrite !Z.lor_spec. change 2047 with (Z.ones 11).
  rewrite testbit_SET_WORD_low, !testbit_SET_WORD_high, !testbit_flag by lia. done.
Qed.

(** ** One request *)

(** A new record at the end of the contents. *)
Lemma chan_record_rep c enc words x0 x1 post :
  chan_rep c enc -> is_Some (buf c) -> last_ok c enc -> zlen enc + zlen words <= MAXLEN ->
  words = x0 :: x1 :: post -> 0 <= x1 < 128 ->
  exists c', (c ← chan_mark c; chan_put words c) = Ok c' /\ chan_rep c' (enc ++ words) /\ is_Some (buf c') /\
    same_side c c' /\ (forall c2 l, last_req c2 = last_req c' -> last_at c2 ((enc ++ words) ++ l)).
Proof.
  intros Hr Hb Hl Hlen -> Hx. destruct (chan_mark_rep c enc Hr Hb Hl) as (c1 & E1 & R1 & B1 & S1 & L1).
  rewrite E1, bind_Ok. destruct (chan_put_rep c1 enc (x0 :: x1 :: post) R1 B1 Hlen) as (c2 & E2 & R2 & B2 & S2 & L2).
  exists c2. split; [done|]. split; [done|]. split; [done|]. split; [unfold same_side in *; intuition congruence|].
  intros c3 l E3. exists enc, x0, x1, (post ++ l). rewrite <- app_assoc. split; [congruence|done].
Qed.

Lemma chan_buf_rep c enc ok c' :
  chan_rep c enc -> last_ok c enc -> chan_buf MAXLEN c ok = Some c' ->
  chan_rep c' enc /\ is_Some (buf c') /\ last_ok c' enc /\ request c' = request c /\ h2c c' = h2c c.
Proof.
  unfold chan_buf. intros Hr Hl E. destruct (buf c) as [b|] eqn:Hb.
  - injection E as <-. rewrite Hb. done.
  - destruct ok; [|done]. injection E as <-. unfold chan_rep in Hr. rewrite Hb in Hr. destruct Hr as [-> _].
    split; [|split; [by eexists|split; [by intros []|done]]]. cbn -[zlen Z.to_nat]. split; [|done].
    by eexists.
Qed.

Lemma cnv_rep dest c st c' :
  cnv_chan_state dest c = (st, c') -> (forall enc, chan_rep c enc -> chan_rep c' enc) /\
  (forall enc, last_ok c enc -> last_ok c' enc) /\ buf c' = buf c /\
  (st = MACSUCCESS -> request c' = dest) /\ (st <> MACSUCCESS -> c' = c).
Proof. unfold cnv_chan_state. destruct (cnv_allowed _ _); intros [= <- <-]; done. Qed.

(** The bytes of a write request with its value and its mask. *)
Definition write_bytes (r : mac_ax_write_req) (value mask : option (list Z)) : list Z :=
  write_req_words r ++ take (Z.to_nat (w_value_len r)) (default [] value) ++
  (if w_mask_en r =? 1 then take (Z.to_nat (w_value_len r)) (default [] mask) else []).

(** The caller's arrays are as long as the request says. *)
Definition args_ok (r : mac_ax_write_req) (value mask : option (list Z)) : Prop :=
  write_req_ok r /\ (forall v, value = Some v -> w_value_len r <= zlen v) /\
  (forall m, mask = Some m -> w_mask_en r = 1 -> w_value_len r <= zlen m).

Lemma rd_n_take v n : 0 <= n -> n <= zlen v -> rd_n v 0 n = Ok (take (Z.to_nat n) v) /\ zlen (take (Z.to_nat n) v) = n.
Proof.
  intros Hn Hv. split; [|unfold zlen in *; rewrite length_take; lia].
  unfold rd_n. destruct (Z.eqb_spec n 0) as [->|]; [done|].
  replace (_ || _ || _) with false by lia. done.
Qed.

(** The channel of the result, and the rest of the adapter. *)
Definition frame_wr (a a' : adapter) : Prop :=
  sent a' = sent a /\ inbox a' = inbox a /\ outcomes a' = outcomes a /\ fwdl_rdy a' = fwdl_rdy a.

Lemma add_write_tail c enc req v m :
  args_ok req (Some v) (Some m) -> chan_rep c enc -> is_Some (buf c) -> last_ok c enc ->
  zlen enc + 8 + w_value_len req + (if w_mask_en req =? 1 then w_value_len req else 0) <= MAXLEN ->
  exists c',
    (c ← chan_mark c; c ← chan_put (write_req_words req) c; v ← rd_n v 0 (w_value_len req); c ← chan_put v c;
     (if w_mask_en req =? 1 then m ← rd_n m 0 (w_value_len req); chan_put m c else mret c)) = Ok c' /\
    chan_rep c' (enc ++ write_bytes req (Some v) (Some m)) /\ last_at c' (enc ++ write_bytes req (Some v) (Some m)).
Proof.
  intros (Hok & Hv & Hm) Hr Hb Hl Hlen. pose proof Hok as (Hvl & _).
  destruct (write_words_shape req Hok) as (W8 & x0 & x1 & post & Ew & Hx). specialize (Hv v eq_refl).
  destruct (chan_record_rep c enc (write_req_words req) x0 x1 post) as (c1 & E1 & R1 & B1 & S1 & L1); try done.
  { destruct (_ =? 1); lia. }
  destruct (chan_mark c) as [c0| |]; [|done..]. rewrite bind_Ok in E1. rewrite !bind_Ok, E1, bind_Ok.
  destruct (rd_n_take v (w_value_len req)) as [Ev Zv]; [lia..|]. rewrite Ev, bind_Ok.
  destruct (chan_put_rep c1 _ (take (Z.to_nat (w_value_len req)) v) R1 B1) as (c2 & E2 & R2 & B2 & S2 & L2).
  { rewrite zlen_app, W8, Zv. destruct (_ =? 1); lia. }
  rewrite E2, bind_Ok. unfold write_bytes. cbn [default].
  destruct (Z.eqb_spec (w_mask_en req) 1) as [Hm1|_].
  - specialize (Hm m eq_refl Hm1). destruct (rd_n_take m (w_value_len req)) as [Em Zm]; [lia..|]. rewrite Em, bind_Ok.
    destruct (chan_put_rep c2 _ (take (Z.to_nat (w_value_len req)) m) R2 B2) as (c3 & E3 & R3 & B3 & S3 & L3).
    { rewrite !zlen_app, W8, Zv, Zm. lia. }
    exists c3. split; [done|]. rewrite <- !app_assoc in R3. split; [done|].
    rewrite app_assoc. apply L1. congruence.
  - exists c2. split; [done|]. rewrite <- !app_assoc in R2. rewrite app_nil_r. split; [done|].
    rewrite app_assoc. apply L1. congruence.
Qed.

(** Adding a request never writes outside the buffer; when it succeeds the
    contents grow by the request, otherwise they stay. *)
Lemma add_write_rep req value mask a enc :
  args_ok req value mask -> chan_rep (wr_chan a) enc -> last_ok (wr_chan a) enc ->
  exists st a', mac_add_write_request req value mask a = Ok (st, a') /\ frame_wr a a' /\
    let enc' := if st =? MACSUCCESS then enc ++ write_bytes req value mask else enc in
    chan_rep (wr_chan a') enc' /\ last_ok (wr_chan a') enc'.
Proof.
  intros Ha Hr Hl. unfold mac_add_write_request.
  destruct (negb (chan_open (wr_chan a))); [by do 2 eexists|].
  destruct (match buf (wr_chan a) with Some _ => (true, a) | None => next_malloc a end) as [ok b] eqn:Em.
  assert (Hb : frame_wr a b /\ wr_chan b = wr_chan a).
  { destruct (buf (wr_chan a)); [by injection Em as <- <-|].
    unfold next_malloc in Em. destruct (mallocs a); by injection Em as <- <-. }
  destruct Hb as [Hfr Hwr].
  destruct (chan_buf WRITE_OFLD_MAX_LEN (wr_chan a) ok) as [c|] eqn:Ec.
  2:{ do 2 eexists. split; [reflexivity|]. rewrite Hwr. done. }
  destruct (chan_buf_rep _ enc _ _ Hr Hl Ec) as (Rc & Bc & Lc & Qc & _).
  assert (Hset : forall st, st <> MACSUCCESS -> forall c', chan_rep c' enc -> last_ok c' enc -> exists st0 a',
    (mret (st, set_wr_chan c' b) : res (Z * adapter)) = Ok (st0, a') /\ frame_wr a a' /\
    let enc' := if st0 =? MACSUCCESS then enc ++ write_bytes req value mask else enc in
    chan_rep (wr_chan a') enc' /\ last_ok (wr_chan a') enc').
  { intros st Hst c' R L. do 2 eexists. split; [reflexivity|]. split; [exact Hfr|]. cbn [wr_chan set_wr_chan].
    rewrite (proj2 (Z.eqb_neq _ _) Hst). done. }
  destruct (Z.ltb_spec (avl_buf_size c) (WRITE_REQ_LEN + w_value_len req + (if w_mask_en req =? 1 then w_value_len req else 0)))
    as [_|Hav]; [by apply Hset|].
  destruct value as [v|]; [|by apply Hset].
  destruct ((w_mask_en req =? 1) && bool_decide (mask = None)) eqn:Emask; [by apply Hset|].
  destruct (cnv_chan_state MAC_AX_OFLD_REQ_CREATED c) as [st c1] eqn:Ecnv.
  destruct (cnv_rep _ _ _ _ Ecnv) as (C1 & C2 & C3 & C4 & C5).
  destruct (negb (st =? MACSUCCESS)); [by apply Hset; auto|].
  assert (Hargs : args_ok req (Some v) (Some (default [] mask))).
  { destruct Ha as (H1 & H2 & H3). split; [done|]. split; [done|]. intros m [= <-] Hm1.
    destruct mask as [m'|]; [by apply H3|]. rewrite Hm1 in Emask. done. }
  destruct (add_write_tail c1 enc req v (default [] mask)) as (c2 & E2 & R2 & L2); [done|auto|by rewrite C3|auto| |].
  { destruct Bc as [bb Hbb]. unfold chan_rep in Rc. rewrite Hbb in Rc. destruct Rc as (_ & _ & _ & Rc).
    unfold WRITE_REQ_LEN in Hav. lia. }
  assert (Ewb : write_bytes req (Some v) mask = write_bytes req (Some v) (Some (default [] mask))).
  { unfold write_bytes. by destruct mask. }
  exists MACSUCCESS, (set_wr_chan (chan_count u32 c2) b). split; [|split; [exact Hfr|]].
  - apply bind_Ok_inv in E2 as (c3 & -> & E2). rewrite bind_Ok. apply bind_Ok_inv in E2 as (c4 & -> & E2).
    rewrite bind_Ok. apply bind_Ok_inv in E2 as (w & -> & E2). rewrite bind_Ok.
    apply bind_Ok_inv in E2 as (c5 & -> & E2). rewrite bind_Ok.
    rewrite E2. done.
  - cbn [wr_chan set_wr_chan]. rewrite Ewb. split; [exact R2|].
    intros _. exact L2.
Qed.

(** The other two kinds of request. *)
Lemma add_read_rep req a enc :
  chan_rep (rd_chan a) enc -> last_ok (rd_chan a) enc ->
  exists st a', mac_add_read_request req a = Ok (st, a') /\
    let enc' := if st =? MACSUCCESS then enc ++ read_req_words req else enc in
    chan_rep (rd_chan a') enc' /\ last_ok (rd_chan a') enc'.
Proof.
  intros Hr Hl. unfold mac_add_read_request.
  destruct (negb (chan_open (rd_chan a))); [by do 2 eexists|].
  destruct (match buf (rd_chan a) with Some _ => (true, a) | None => next_malloc a end) as [ok b] eqn:Em.
  assert (Hwr : rd_chan b = rd_chan a).
  { destruct (buf (rd_chan a)); [by injection Em as <- <-|].
    unfold next_malloc in Em. destruct (mallocs a); by injection Em as <- <-. }
  destruct (chan_buf READ_OFLD_MAX_LEN (rd_chan a) ok) as [c|] eqn:Ec.
  2:{ do 2 eexists. split; [reflexivity|]. rewrite Hwr. done. }
  destruct (chan_buf_rep _ enc _ _ Hr Hl Ec) as (Rc & Bc & Lc & Qc & _).
  destruct (Z.ltb_spec (avl_buf_size c) READ_REQ_LEN) as [_|Hav]; [by do 2 eexists|].
  destruct (cnv_chan_state MAC_AX_OFLD_REQ_CREATED c) as [st c1] eqn:Ecnv.
  destruct (cnv_rep _ _ _ _ Ecnv) as (C1 & C2 & C3 & C4 & C5).
  destruct (negb (st =? MACSUCCESS)); [do 2 eexists; split; [reflexivity|]; split; [by apply C1|by apply C2]|].
  destruct (read_words_shape req) as (W8 & x0 & x1 & post & Ew & Hx).
  destruct (chan_record_rep c1 enc (read_req_words req) x0 x1 post) as (c2 & E2 & R2 & B2 & S2 & L2);
    [auto|by rewrite C3|auto| |done|done|].
  { destruct Bc as [bb Hbb]. unfold chan_rep in Rc. rewrite Hbb in Rc. destruct Rc as (_ & _ & _ & Rc).
    unfold READ_REQ_LEN in Hav. lia. }
  exists MACSUCCESS, (set_rd_chan (chan_count u32 c2) b). split.
  - apply bind_Ok_inv in E2 as (c3 & -> & E2). rewrite bind_Ok, E2. done.
  - split; [exact R2|]. intros _. rewrite <- (app_nil_r (enc ++ _)). by apply L2.
Qed.

Lemma add_conf_rep req a enc :
  chan_rep (cf_chan a) enc ->
  exists st a', mac_add_conf_request req a = Ok (st, a') /\
    chan_rep (cf_chan a') (if st =? MACSUCCESS then enc ++ conf_req_words req else enc).
Proof.
  intros Hr. unfold mac_add_conf_request.
  destruct (negb (fwdl_rdy a)); [by do 2 eexists|].
  destruct (negb (chan_open (cf_chan a))); [by do 2 eexists|].
  destruct (match buf (cf_chan a) with Some _ => (true, a) | None => next_malloc a end) as [ok b] eqn:Em.
  assert (Hwr : cf_chan b = cf_chan a).
  { destruct (buf (cf_chan a)); [by injection Em as <- <-|].
    unfold next_malloc in Em. destruct (mallocs a); by injection Em as <- <-. }
  destruct (chan_buf CONF_OFLD_MAX_LEN (cf_chan a) ok) as [c|] eqn:Ec.
  2:{ do 2 eexists. split; [reflexivity|]. rewrite Hwr. done. }
  assert (Hc : chan_rep c enc /\ is_Some (buf c)).
  { unfold chan_buf in Ec. destruct (buf (cf_chan a)) as [b0|] eqn:Hb; [injection Ec as <-; by rewrite Hb|].
    destruct ok; [|done]. injection Ec as <-. unfold chan_rep in Hr. rewrite Hb in Hr. destruct Hr as [-> _].
    split; [|by eexists]. split; [by eexists|done]. }
  destruct Hc as [Rc Bc].
  destruct (Z.ltb_spec (avl_buf_size c) CONF_REQ_LEN) as [_|Hav]; [by do 2 eexists|].
  destruct (cnv_chan_state MAC_AX_OFLD_REQ_CREATED c) as [st c1] eqn:Ecnv.
  destruct (cnv_rep _ _ _ _ Ecnv) as (C1 & C2 & C3 & C4 & C5).
  destruct (negb (st =? MACSUCCESS)); [do 2 eexists; split; [reflexivity|]; by apply C1|].
  destruct (chan_put_rep c1 enc (conf_req_words req)) as (c2 & E2 & R2 & B2 & S2 & L2); [auto|by rewrite C3| |].
  { destruct Bc as [bb Hbb]. unfold chan_rep in Rc. rewrite Hbb in Rc. destruct Rc as (_ & _ & _ & Rc).
    unfold CONF_REQ_LEN in Hav. change (zlen (conf_req_words req)) with 16. lia. }
  rewrite E2, bind_Ok. exists MACSUCCESS, (set_cf_chan (chan_count u16 c2) b). done.
Qed.

(** ** Sending *)

(** The firmware's messages change only the state of the command. *)
Lemma c2h_core m a :
  set_h2c 0 (wr_chan (c2h_hdl m a)) = set_h2c 0 (wr_chan a) /\ sent (c2h_hdl m a) = sent a.
Proof.
  destruct m as [f|f r|op len id c]; cbn [c2h_hdl].
  - unfold c2h_fwofld_rcv_ack_hdl. repeat case_if; done.
  - unfold c2h_fwofld_done_ack_hdl. repeat case_if; done.
  - unfold c2h_pkt_ofld_rsp_hdl, next_malloc. destruct (mallocs a) as [|[] ?]; repeat case_if; done.
Qed.

Lemma deliver_core n a :
  set_h2c 0 (wr_chan (deliver n a)) = set_h2c 0 (wr_chan a) /\ sent (deliver n a) = sent a.
Proof.
  revert a. induction n as [|n IH]; intros a; cbn [deliver]; [done|].
  destruct (inbox a) as [|m l]; [done|]. destruct (IH (c2h_hdl m (set_inbox l a))) as [-> ->].
  apply (c2h_core m (set_inbox l a)).
Qed.

Lemma core_rep c c' enc : set_h2c 0 c' = set_h2c 0 c -> chan_rep c enc -> last_ok c enc ->
  chan_rep c' enc /\ last_ok c' enc /\ request c' = request c.
Proof.
  intros E Hr Hl. destruct c, c'. cbn in E. injection E as -> -> -> -> -> -> -> ->. done.
Qed.

Lemma chan_start_spec max c st c' :
  chan_start max c = (st, c') ->
  (st = MACSUCCESS -> used_size c + 8 <= max /\ request c' = MAC_AX_OFLD_REQ_H2C_SENT) /\
  forall enc, chan_rep c enc -> last_ok c enc -> chan_rep c' enc /\ last_ok c' enc.
Proof.
  unfold chan_start. intros E. destruct (Z.ltb_spec max (used_size c + FWCMD_HDR_LEN)); [by injection E as <- <-|].
  destruct (negb (h2c c =? MAC_AX_OFLD_H2C_IDLE)); [by injection E as <- <-|].
  destruct (Z.eqb_spec (request c) MAC_AX_OFLD_REQ_CREATED) as [Hq|]; cbn [negb] in E; [|by injection E as <- <-].
  unfold cnv_chan_state in E. rewrite Hq in E. injection E as <- <-. done.
Qed.

Lemma chan_bytes_rep c enc : chan_rep c enc -> chan_bytes c = Ok enc.
Proof.
  unfold chan_rep, chan_bytes. destruct (buf c) as [b|]; cbn [default].
  - intros ((rest & -> & _) & _ & -> & _). apply at_off_rd_n; [apply at_off_0|done].
  - by intros [-> ->].
Qed.

(** Payloads of the write commands sent so far. *)
Definition write_cmds (a : adapter) : list (list Z) :=
  map snd (List.filter (fun x => fst x =? FWCMD_H2C_FUNC_WRITE_OFLD) (sent a)).

Lemma write_ofld_spec agg a enc :
  chan_rep (wr_chan a) enc -> last_ok (wr_chan a) enc ->
  exists st a', mac_write_ofld agg a = Ok (st, a') /\ chan_rep (wr_chan a') enc /\ last_ok (wr_chan a') enc /\
    write_cmds a' = write_cmds a ++ (if (st =? MACSUCCESS) && negb agg then [enc] else []) /\
    (st = MACSUCCESS -> zlen enc <= 1992).
Proof.
  intros Hr Hl. unfold mac_write_ofld.
  assert (Hno : forall st a', st <> MACSUCCESS -> chan_rep (wr_chan a') enc -> last_ok (wr_chan a') enc -> sent a' = sent a ->
    exists st0 a0, (mret (st, a') : res (Z * adapter)) = Ok (st0, a0) /\ chan_rep (wr_chan a0) enc /\ last_ok (wr_chan a0) enc /\
    write_cmds a0 = write_cmds a ++ (if (st0 =? MACSUCCESS) && negb agg then [enc] else []) /\
    (st0 = MACSUCCESS -> zlen enc <= 1992)).
  { intros st a' Hst R L Es. do 2 eexists. split; [reflexivity|]. rewrite (proj2 (Z.eqb_neq _ _) Hst). cbn [andb].
    rewrite app_nil_r. unfold write_cmds. rewrite Es. done. }
  destruct (negb (fwdl_rdy a)); [by apply Hno|].
  destruct (chan_start READ_OFLD_MAX_LEN (wr_chan a)) as [st c] eqn:Es.
  destruct (chan_start_spec _ _ _ _ Es) as [Hs1 Hs2]. destruct (Hs2 enc Hr Hl) as [Rc Lc].
  destruct (Z.eqb_spec st MACSUCCESS) as [->|Hst]; cbn [negb]; [|by apply Hno].
  destruct (Hs1 eq_refl) as [Hlen Hq].
  assert (Hlen' : zlen enc <= 1992).
  { unfold chan_rep in Hr. unfold READ_OFLD_MAX_LEN in Hlen. destruct (buf (wr_chan a)); [lia|].
    destruct Hr as [-> _]. rewrite zlen_nil. lia. }
  destruct (next_outcome (set_wr_chan c a)) as [o b] eqn:Eo.
  assert (Hb : wr_chan b = c /\ sent b = sent a).
  { unfold next_outcome in Eo. destruct (outcomes _); injection Eo as <- <-; done. }
  destruct Hb as [Hwb Hsb].
  destruct o as [|n|ret|ret|reply early]; rewrite ?Hwb, ?(chan_bytes_rep c enc Rc), ?bind_Ok.
  - apply Hno; rewrite ?Hwb; done.
  - apply Hno; rewrite ?Hwb; done.
  - apply Hno; rewrite ?Hwb; done.
  - destruct agg.
    + do 2 eexists. split; [reflexivity|]. rewrite Hwb. cbn. rewrite app_nil_r. unfold write_cmds. rewrite Hsb. done.
    + apply Hno; cbn [wr_chan upd_wr set_wr_chan]; rewrite ?Hwb; done.
  - destruct agg.
    + do 2 eexists. split; [reflexivity|]. rewrite Hwb. cbn. rewrite app_nil_r. unfold write_cmds. rewrite Hsb. done.
    + unfold transmit. match goal with |- context [deliver early ?s] => destruct (deliver_core early s) as [D1 D2]; set (d := deliver early s) in * end.
      destruct (core_rep c (wr_chan d) enc) as (R & L & Q); [by rewrite D1; cbn; rewrite Hwb|done|done|].
      unfold cnv_chan_state. rewrite Q, Hq. do 2 eexists. split; [reflexivity|]. split; [exact R|]. split; [exact L|].
      split; [|done]. unfold write_cmds. cbn [sent set_wr_chan]. rewrite D2. cbn [sent set_inbox set_sent].
      rewrite Hsb, List.filter_app, map_app. done.
Qed.

(** ** Runs *)

(** The calls, messages that arrive, and a reset of the state. *)
Inductive wr_op :=
  | WAdd (req : mac_ax_write_req) (value mask : option (list Z))
  | WClear
  | WSend (agg : bool)
  | WMove (n : nat)
  | WReset.

Definition wr_do (op : wr_op) (a : adapter) : res (Z * adapter) :=
  match op with
  | WAdd req value mask => mac_add_write_request req value mask a
  | WClear => mret (mac_clear_write_request a)
  | WSend agg => mac_write_ofld agg a
  | WMove n => mret (MACSUCCESS, deliver n a)
  | WReset => mret (mac_reset_fwofld_state FW_OFLD_OP_WRITE_OFLD a)
  end.

(** What should happen: the requests accepted since the buffer was cleared, and
    the commands sent. *)
Definition spec_do (op : wr_op) (st : Z) (s : list (list Z) * list (list Z)) : list (list Z) * list (list Z) :=
  let '(reqs, log) := s in
  if negb (st =? MACSUCCESS) then s else
  match op with
  | WAdd req value mask => (reqs ++ [write_bytes req value mask], log)
  | WClear => ([], log)
  | WSend agg => (reqs, if agg then log else log ++ [concat reqs])
  | _ => s
  end.

Fixpoint wr_run (ops : list wr_op) (a : adapter) (s : list (list Z) * list (list Z)) :
    res (adapter * (list (list Z) * list (list Z))) :=
  match ops with
  | [] => mret (a, s)
  | op :: ops => '(st, a) ← wr_do op a; wr_run ops a (spec_do op st s)
  end.

Definition wr_op_ok (op : wr_op) : Prop :=
  match op with WAdd req value mask => args_ok req value mask | _ => True end.

(** The abstract state and the adapter agree. *)
Record wr_rel (a0 a : adapter) (s : list (list Z) * list (list Z)) : Prop := {
  wl_rep : chan_rep (wr_chan a) (concat (fst s));
  wl_last : last_ok (wr_chan a) (concat (fst s));
  wl_sent : write_cmds a = write_cmds a0 ++ snd s;
  wl_size : Forall (fun p => zlen p <= 1992) (snd s)
}.

Lemma wr_do_rel a0 op a s :
  wr_op_ok op -> wr_rel a0 a s -> exists st a', wr_do op a = Ok (st, a') /\ wr_rel a0 a' (spec_do op st s).
Proof.
  destruct s as [reqs log]. intros Hop [R L S Z]. cbn [fst snd] in *. destruct op as [req value mask| |agg|n|]; cbn [wr_do].
  - destruct (add_write_rep req value mask a (concat reqs) Hop R L) as (st & a' & E & (F & _) & R' & L').
    exists st, a'. split; [done|]. unfold spec_do. destruct (st =? MACSUCCESS); cbn [negb] in *;
      (constructor; cbn [fst snd]; [| |unfold write_cmds in *; by rewrite F|done]);
      rewrite ?concat_app; cbn [concat]; rewrite ?app_nil_r; done.
  - unfold mac_clear_write_request, clear_chan. destruct (request (wr_chan a) =? _); [by do 2 eexists|].
    unfold cnv_chan_state. destruct (cnv_allowed _ _); cbn [negb]; [|by do 2 eexists].
    do 2 eexists. split; [reflexivity|]. constructor; try done. by intros [].
  - destruct (write_ofld_spec agg a (concat reqs) R L) as (st & a' & E & R' & L' & S' & Z').
    exists st, a'. split; [done|]. unfold spec_do. destruct (Z.eqb_spec st MACSUCCESS) as [->|]; cbn [negb andb] in *.
    + destruct agg; constructor; cbn [fst snd negb] in *; rewrite ?S', ?S, ?app_nil_r, <- ?app_assoc; try done.
      apply Forall_app. split; [done|]. constructor; [by apply Z'|constructor].
    + constructor; cbn [fst snd]; rewrite ?S', ?S, ?app_nil_r; done.
  - destruct (deliver_core n a) as [D1 D2]. do 2 eexists. split; [reflexivity|].
    destruct (core_rep _ _ (concat reqs) D1) as (R' & L' & _); [done..|].
    constructor; cbn [fst snd]; try done. unfold write_cmds in *. by rewrite D2.
  - do 2 eexists. split; [reflexivity|]. by constructor.
Qed.

(** C34: In every sequence of clearing, adding, sending, firmware messages and
    resets, the write-request buffer of 2000 bytes is never overrun and holds
    the requests accepted since it was cleared, and each command sent carries
    exactly these, in order, in at most 1992 bytes. *)
Theorem write_requests_refine ops a :
  buf (wr_chan a) = None -> used_size (wr_chan a) = 0 -> req_num (wr_chan a) = 0 -> Forall wr_op_ok ops ->
  exists a' reqs log, wr_run ops a ([], []) = Ok (a', (reqs, log)) /\
    write_cmds a' = write_cmds a ++ log /\ Forall (fun p => zlen p <= 1992) log /\
    (forall b, buf (wr_chan a') = Some b -> zlen b = 2000 /\ used_size (wr_chan a') = zlen (concat reqs) /\
       take (Z.to_nat (used_size (wr_chan a'))) b = concat reqs).
Proof.
  intros Hb Hu Hn Hops.
  assert (Hrel : wr_rel a a ([], [])).
  { constructor; cbn [fst snd concat]; [by unfold chan_rep; rewrite Hb|by intros []|by rewrite app_nil_r|done]. }
  revert Hrel. generalize (@nil (list Z), @nil (list Z)) as s. generalize a at 2 3. induction Hops as [|op ops Hop _ IH]; intros b s Hrel.
  - cbn [wr_run]. destruct Hrel as [R L S Z], s as [reqs log]. exists b, reqs, log. split; [done|]. split; [done|].
    split; [done|]. intros bb Hbb. cbn [fst] in R. unfold chan_rep in R. rewrite Hbb in R.
    destruct R as ((rest & -> & Hl) & _ & -> & _). split; [done|]. split; [done|]. rewrite zlen_to_nat. apply take_app_length.
  - destruct (wr_do_rel a op b s Hop Hrel) as (st & b' & E & Hrel'). cbn [wr_run]. rewrite E, bind_Ok. by apply IH.
Qed.

(** Two writes, the second with a mask, are collected and sent. *)
Lemma write_requests_refine_witness :
  let ops := [WClear; WAdd (mkWriteReq 2 0 0 7 1 16) (Some [17; 34; 0]) None;
              WAdd (mkWriteReq 1 1 1 7 2 20) (Some [51]) (Some [15]); WSend false] in
  let a := mac_8852b_adapter [H2cSent (fun f _ => [RecAck f; DoneAck f 0]) 1] [] [] in
  exists a' reqs log, wr_run ops a ([], []) = Ok (a', (reqs, log)) /\
    write_cmds a' = write_cmds a ++ log /\ Forall (fun p => zlen p <= 1992) log /\
    (forall b, buf (wr_chan a') = Some b -> zlen b = 2000 /\ used_size (wr_chan a') = zlen (concat reqs) /\
       take (Z.to_nat (used_size (wr_chan a'))) b = concat reqs).
Proof.
  intros ops a. apply (write_requests_refine ops a); [reflexivity..|].
  assert (Hargs : forall r v m, write_req_ok r -> w_value_len r <= zlen (default [] v) ->
    w_value_len r <= zlen (default [] m) \/ w_mask_en r = 0 -> args_ok r v m).
  { intros r v m Hr Hv Hm. split; [done|]. split; [by intros x ->|]. intros x -> Hx. cbn in Hm. lia. }
  unfold ops. repeat (apply Forall_cons; split); try done; apply Hargs; cbv; intuition (discriminate || auto).
Defined.

Example write_run_sends :
  let ops := [WClear; WAdd (mkWriteReq 2 0 0 7 1 16) (Some [17; 34; 0]) None;
              WAdd (mkWriteReq 1 1 1 7 2 20) (Some [51]) (Some [15]); WSend false] in
  let a := mac_8852b_adapter [H2cSent (fun f _ => [RecAck f; DoneAck f 0]) 1] [] [] in
  match wr_run ops a ([], []) with
  | Ok (a', _) => write_cmds a' = [[3; 0; 7; 1; 16; 0; 0; 0; 17; 34; 1; 0; 7; 2; 20; 0; 0; 0; 51; 15]]
  | _ => False
  end.
Proof. vm_compute. reflexivity. Qed.

(** The flags of a write request are lost: they are or-ed into bit 0 of the
    length, and the bits 13 to 15 where the firmware looks for them are 0. *)
Theorem write_flags_lost r :
  write_req_ok r ->
  exists w rest, write_req_words r = le32 w ++ rest /\
    Z.land w 2047 = Z.lor (w_value_len r) 1 /\
    Z.testbit w 13 = false /\ Z.testbit w 14 = false /\ Z.testbit w 15 = false.
Proof.
  intros Hr. do 2 eexists. split; [reflexivity|]. split.
  - destruct Hr as (Hv & Hp & Hm). apply Z.bits_inj'. intros k Hk. change 2047 with (Z.ones 11).
    rewrite Z.land_spec, !Z.lor_spec. destruct (Z.lt_ge_cases k 11).
    + rewrite Z.ones_spec_low, andb_true_r, (testbit_SET_WORD_high _ _ 16), (testbit_SET_WORD_high _ _ 24) by lia.
      unfold SET_WORD. rewrite Z.shiftl_0_r, Z.land_spec, Z.ones_spec_low, andb_true_r, !orb_false_r by lia.
      destruct (Z.eq_dec k 0) as [->|]; [by rewrite !orb_true_r|].
      rewrite (testbit_flag (w_polling r)), (testbit_flag (w_mask_en r)) by lia. by rewrite !orb_false_r.
    + rewrite Z.ones_spec_high, andb_false_r by lia. symmetry. apply orb_false_iff.
      split; [|apply testbit_flag; lia]. apply Z.bits_above_log2; [lia|].
      destruct (Z.eq_dec (w_value_len r) 0) as [->|]; [cbn; lia|].
      apply Z.log2_lt_pow2; [lia|].
      apply Z.lt_le_trans with (2 ^ 11); [lia|apply Z.pow_le_mono_r; lia].
  - repeat split; apply write_req_flags; (done || lia).
Qed.

(** At length 2 the firmware reads length 3. *)
Lemma write_flags_lost_witness :
  exists w rest, write_req_words (mkWriteReq 2 1 1 7 1 16) = le32 w ++ rest /\
    Z.land w 2047 = Z.lor 2 1 /\ Z.testbit w 13 = false /\ Z.testbit w 14 = false /\ Z.testbit w 15 = false.
Proof. apply (write_flags_lost (mkWriteReq 2 1 1 7 1 16)). unfold write_req_ok. cbn. lia. Defined.
