(* ===== verification/FwOfldInv.v ===== *)
(** * The invariant of packet offloads

    A firmware that answers in order, one command at a time, keeps the bitmap of
    identifiers, the two counters and the state of the command in step, also
    when its answers come late or not at all. *)

From S2P Require Import Prelude IeBuf FwOfld.

(** ** The bitmap as a set *)

Lemma set_bitmap_alter bm i :
  0 <= i -> mac_pkt_ofld_set_bitmap bm i = alter (byte_set_bit i) (Z.to_nat (i / 8)) bm.
Proof.
  intros Hi. unfold mac_pkt_ofld_set_bitmap, byte_set_bit, BIT.
  rewrite Z.shiftr_div_pow2 by lia. change (2 ^ 3) with 8. change 7 with (Z.ones 3).
  rewrite Z.land_ones by lia. done.
Qed.

Lemma unset_bitmap_alter bm i :
  0 <= i -> mac_pkt_ofld_unset_bitmap bm i = alter (byte_clr_bit i) (Z.to_nat (i / 8)) bm.
Proof.
  intros Hi. unfold mac_pkt_ofld_unset_bitmap, byte_clr_bit, BIT.
  rewrite Z.shiftr_div_pow2 by lia. change (2 ^ 3) with 8. change 7 with (Z.ones 3).
  rewrite Z.land_ones by lia. done.
Qed.

Lemma get_bitmap_bit bm i : 0 <= i -> (mac_pkt_ofld_get_bitmap bm i =? 0) = negb (bit_in bm i).
Proof.
  intros Hi. unfold mac_pkt_ofld_get_bitmap, bit_in. change 7 with (Z.ones 3).
  rewrite Z.land_ones by lia. change (2 ^ 3) with 8.
  pose proof (Z.mod_pos_bound i 8). rewrite (z_true_land_BIT _ (i mod 8)) by lia.
  by destruct (Z.testbit _ _).
Qed.

Lemma bit_in_set_bitmap bm i x :
  length bm = 32%nat -> byte i -> byte x ->
  bit_in (mac_pkt_ofld_set_bitmap bm i) x = bit_in bm x || (i =? x).
Proof.
  intros Hl Hi Hx. unfold byte in *. rewrite set_bitmap_alter by lia. apply bit_in_set; lia.
Qed.

Lemma bit_in_unset_bitmap bm i x :
  byte i -> byte x -> bit_in (mac_pkt_ofld_unset_bitmap bm i) x = bit_in bm x && negb (i =? x).
Proof. intros Hi Hx. unfold byte in *. rewrite unset_bitmap_alter by lia. apply bit_in_clr; lia. Qed.

(** ** The number of identifiers in use *)

Definition ids_used (bm : list Z) : list Z := List.filter (bit_in bm) (seqZ 0 256).

Lemma ids_used_in bm x : List.In x (ids_used bm) <-> byte x /\ bit_in bm x = true.
Proof.
  unfold ids_used. rewrite List.filter_In, <- list_elem_of_In, elem_of_seqZ. unfold byte.
  split; intros [? ?]; (split; [lia|done]).
Qed.

Lemma NoDup_ids_used bm : List.NoDup (ids_used bm).
Proof. apply List.NoDup_filter, NoDup_ListNoDup, NoDup_seqZ. Qed.

(** Two duplicate-free lists with the same elements are equally long. *)
Lemma ids_count l1 l2 : List.NoDup l1 -> List.NoDup l2 -> (forall x : Z, List.In x l1 <-> List.In x l2) ->
  length l1 = length l2.
Proof.
  intros N1 N2 E. apply Nat.le_antisymm; apply List.NoDup_incl_length; auto; intros x Hx; by apply E.
Qed.

Lemma ids_used_bound bm : (length (ids_used bm) <= 256)%nat.
Proof.
  unfold ids_used. etransitivity; [apply List.filter_length_le|]. rewrite length_seqZ. lia.
Qed.

Lemma ids_used_full bm : (length (ids_used bm) < 256)%nat -> exists x, byte x /\ bit_in bm x = false.
Proof.
  intros Hlt. destruct (existsb (fun x => negb (bit_in bm x)) (seqZ 0 256)) eqn:E.
  - apply existsb_exists in E as (x & Hx & Hb). exists x.
    apply list_elem_of_In, elem_of_seqZ in Hx. unfold byte. split; [lia|]. by destruct (bit_in bm x).
  - exfalso. assert (Hall : forall x, List.In x (seqZ 0 256) -> List.In x (ids_used bm)).
    { intros x Hx. apply List.filter_In. split; [done|].
      destruct (bit_in bm x) eqn:Hb; [done|]. exfalso.
      assert (existsb (fun x => negb (bit_in bm x)) (seqZ 0 256) = true); [|congruence].
      apply existsb_exists. exists x. by rewrite Hb. }
    assert (length (seqZ 0 256) <= length (ids_used bm))%nat as Hle.
    { apply List.NoDup_incl_length; [apply NoDup_ListNoDup, NoDup_seqZ|exact Hall]. }
    rewrite length_seqZ in Hle. lia.
Qed.

#[global] Opaque ids_used.

Lemma len_cons {A} (x : A) l : S (length l) = length (x :: l).
Proof. reflexivity. Qed.

Lemma ids_used_set bm i :
  length bm = 32%nat -> byte i -> bit_in bm i = false ->
  length (ids_used (mac_pkt_ofld_set_bitmap bm i)) = S (length (ids_used bm)).
Proof.
  intros Hl Hi Hb. rewrite (len_cons i).
  apply ids_count; [apply NoDup_ids_used | |].
  - constructor; [|apply NoDup_ids_used]. rewrite ids_used_in. intros [_ ?]. congruence.
  - intros x. cbn [List.In]. rewrite !ids_used_in. split.
    + intros [Hx Hbx]. rewrite bit_in_set_bitmap in Hbx by done.
      destruct (Z.eqb_spec i x); [by left|]. right. rewrite orb_false_r in Hbx. done.
    + intros [->|[Hx Hbx]]; rewrite bit_in_set_bitmap by done.
      * rewrite Z.eqb_refl, orb_true_r. done.
      * by rewrite Hbx.
Qed.

Lemma ids_used_unset bm i :
  byte i -> bit_in bm i = true ->
  S (length (ids_used (mac_pkt_ofld_unset_bitmap bm i))) = length (ids_used bm).
Proof.
  intros Hi Hb. rewrite (len_cons i).
  apply ids_count; [|apply NoDup_ids_used|].
  - constructor; [|apply NoDup_ids_used]. rewrite ids_used_in, bit_in_unset_bitmap by done.
    rewrite Z.eqb_refl, andb_false_r. intros [_ ?]. done.
  - intros x. cbn [List.In]. rewrite !ids_used_in. split.
    + intros [->|[Hx Hbx]]; [done|]. rewrite bit_in_unset_bitmap in Hbx by done.
      by apply andb_true_iff in Hbx as [? _].
    + intros [Hx Hbx]. destruct (Z.eq_dec i x); [by left|]. right. split; [done|].
      rewrite bit_in_unset_bitmap, Hbx by done. by rewrite (proj2 (Z.eqb_neq i x)).
Qed.

(** ** Firmware that answers in order *)

Notation FP := FWCMD_H2C_FUNC_PACKET_OFLD.

(** What may come back for one command, in this order: the reception, the
    response with a length that is not zero when the firmware did what was
    asked, and the completion.  The answer may stop at any point. *)
Inductive fw_reply (op id : Z) : list c2h -> Prop :=
  | FrNone : fw_reply op id []
  | FrAck : fw_reply op id [RecAck FP]
  | FrRsp len c : fw_reply op id [RecAck FP; PktOfldRsp op len id c]
  | FrDone len c ret : (ret = MACSUCCESS -> len <> 0) ->
      fw_reply op id [RecAck FP; PktOfldRsp op len id c; DoneAck FP ret]
  | FrFail ret : ret <> MACSUCCESS -> fw_reply op id [RecAck FP; DoneAck FP ret].

Definition pkt_op (op : Z) : Prop := op = PKT_OFLD_OP_ADD \/ op = PKT_OFLD_OP_DEL \/ op = PKT_OFLD_OP_READ.

Definition outcome_ok (o : h2c_outcome) : Prop :=
  match o with
  | H2cSent reply _ =>
      (forall op id len pkt, pkt_op op -> byte id -> fw_reply op id (reply FP (pkt_ofld_dword id op len ++ pkt))) /\
      (forall payload, reply FUNC_GENERAL_PKT payload = [])
  | _ => True
  end.

(** ** Phases of a command *)

(** What the response does to the bitmap. *)
Definition applied (op id len : Z) (bm : list Z) : list Z :=
  if len =? 0 then bm
  else if op =? PKT_OFLD_OP_ADD then mac_pkt_ofld_set_bitmap bm id
  else if op =? PKT_OFLD_OP_DEL then mac_pkt_ofld_unset_bitmap bm id
  else bm.

(** A packet is added under a free identifier and deleted under a used one. *)
Definition legal (op id : Z) (bm : list Z) : Prop :=
  pkt_op op /\ byte id /\ (op = PKT_OFLD_OP_ADD -> bit_in bm id = false) /\
  (op = PKT_OFLD_OP_DEL -> bit_in bm id = true).

Definition settled (s : Z) : Prop :=
  s = MAC_AX_OFLD_H2C_IDLE \/ s = MAC_AX_OFLD_H2C_DONE \/ s = MAC_AX_OFLD_H2C_ERROR.

(** The command [op] on [id] was issued with the bitmap [bm0]. *)
Inductive phase (op id : Z) (bm0 : list Z) (a : adapter) : Prop :=
  | PhSend : legal op id bm0 -> pkt_ofld a = MAC_AX_OFLD_H2C_SENDING -> fw_reply op id (inbox a) ->
      id_bitmap a = bm0 -> phase op id bm0 a
  | PhRcvd : legal op id bm0 -> pkt_ofld a = MAC_AX_OFLD_H2C_RCVD -> fw_reply op id (RecAck FP :: inbox a) ->
      id_bitmap a = bm0 -> phase op id bm0 a
  | PhRsp len : pkt_ofld a = MAC_AX_OFLD_H2C_RCVD -> id_bitmap a = applied op id len bm0 ->
      (inbox a = [] \/ exists ret, (ret = MACSUCCESS -> len <> 0) /\ inbox a = [DoneAck FP ret]) -> phase op id bm0 a
  | PhEnd : settled (pkt_ofld a) -> inbox a = [] ->
      (pkt_ofld a <> MAC_AX_OFLD_H2C_ERROR -> id_bitmap a = applied op id 1 bm0) -> phase op id bm0 a.

Record base_inv (a : adapter) : Prop := {
  bi_len : length (id_bitmap a) = 32%nat;
  bi_used : used_id_count a = Z.of_nat (length (ids_used (id_bitmap a)));
  bi_free : free_id_count a = 256 - used_id_count a;
  bi_out : Forall outcome_ok (outcomes a)
}.

Definition ofld_inv (a : adapter) : Prop :=
  base_inv a /\ exists op id bm0, pkt_op op /\ byte id /\ phase op id bm0 a.

Lemma phase_end_inv a : base_inv a -> settled (pkt_ofld a) -> inbox a = [] -> ofld_inv a.
Proof.
  intros Hb Hs Hi. split; [done|]. exists PKT_OFLD_OP_READ, 0, (id_bitmap a).
  split; [by do 2 right|]. split; [unfold byte; lia|]. apply PhEnd; done.
Qed.

Lemma length_set_bitmap bm i : length (mac_pkt_ofld_set_bitmap bm i) = length bm.
Proof. apply length_alter. Qed.
Lemma length_unset_bitmap bm i : length (mac_pkt_ofld_unset_bitmap bm i) = length bm.
Proof. apply length_alter. Qed.

(** ** A response keeps the counters in step *)

Lemma rsp_base op len id c a :
  base_inv a -> legal op id (id_bitmap a) -> base_inv (c2h_pkt_ofld_rsp_hdl op len id c a).
Proof.
  intros [Hl Hu Hf Ho] (Hop & Hid & Ha & Hd). pose proof (ids_used_bound (id_bitmap a)) as Hbd.
  unfold c2h_pkt_ofld_rsp_hdl. destruct (len =? 0); [done|].
  destruct Hop as [->|[->| ->]]; cbn -[u16 ids_used].
  - pose proof (ids_used_set (id_bitmap a) id Hl Hid (Ha eq_refl)) as Hs.
    pose proof (ids_used_bound (mac_pkt_ofld_set_bitmap (id_bitmap a) id)).
    constructor; cbn -[u16 ids_used]; rewrite ?length_set_bitmap, ?u16_small by lia; auto; lia.
  - pose proof (ids_used_unset (id_bitmap a) id Hid (Hd eq_refl)) as Hs.
    constructor; cbn -[u16 ids_used]; rewrite ?length_unset_bitmap, ?u16_small by lia; auto; lia.
  - unfold next_malloc. destruct (mallocs a) as [|[] ?]; constructor; done.
Qed.

Lemma rsp_bitmap op len id c a :
  pkt_op op -> id_bitmap (c2h_pkt_ofld_rsp_hdl op len id c a) = applied op id len (id_bitmap a) /\
  pkt_ofld (c2h_pkt_ofld_rsp_hdl op len id c a) = pkt_ofld a /\
  inbox (c2h_pkt_ofld_rsp_hdl op len id c a) = inbox a.
Proof.
  intros Hop. unfold c2h_pkt_ofld_rsp_hdl, applied. destruct (len =? 0); [done|].
  destruct Hop as [->|[->| ->]]; cbn; [done..|].
  unfold next_malloc. destruct (mallocs a) as [|[] ?]; done.
Qed.

(** ** A message of the firmware *)

Lemma ack_fields a :
  let a' := c2h_fwofld_rcv_ack_hdl FP a in
  pkt_ofld a' = ack_state (pkt_ofld a) /\ id_bitmap a' = id_bitmap a /\ inbox a' = inbox a /\
  (base_inv a -> base_inv a').
Proof. cbn. repeat (split; [done|]). intros []. by constructor. Qed.

Lemma done_fields ret a :
  let a' := c2h_fwofld_done_ack_hdl FP ret a in
  (pkt_ofld a = MAC_AX_OFLD_H2C_RCVD -> settled (pkt_ofld a') /\ (pkt_ofld a' <> MAC_AX_OFLD_H2C_ERROR -> ret = MACSUCCESS)) /\
  id_bitmap a' = id_bitmap a /\ inbox a' = inbox a /\ (base_inv a -> base_inv a').
Proof.
  cbn. split.
  - intros ->. unfold done_state. cbn. destruct (Z.eqb_spec ret MACSUCCESS) as [->|].
    + split; [|done]. destruct (last_op a =? PKT_OFLD_OP_READ); [right; by left | by left].
    + split; [by do 2 right|]. done.
  - repeat (split; [done|]). intros []. by constructor.
Qed.

Lemma base_set_inbox l a : base_inv a -> base_inv (set_inbox l a).
Proof. intros []. by constructor. Qed.

Lemma step_phase op id bm0 a m l :
  base_inv a -> phase op id bm0 a -> inbox a = m :: l ->
  base_inv (c2h_hdl m (set_inbox l a)) /\ phase op id bm0 (c2h_hdl m (set_inbox l a)).
Proof.
  intros Hb Hph Hi. apply (base_set_inbox l) in Hb. set (b := set_inbox l a) in *.
  assert (Hbb : id_bitmap b = id_bitmap a) by done. assert (Hbi : inbox b = l) by done.
  assert (Hbp : pkt_ofld b = pkt_ofld a) by done. clearbody b.
  destruct Hph as [HL Hp Hr Hm|HL Hp Hr Hm|len Hp Hm Hr|Hs Hr Hm].
  - rewrite Hi in Hr. assert (m = RecAck FP) as -> by (by inversion Hr). cbn [c2h_hdl].
    destruct (ack_fields b) as (P1 & P2 & P3 & P4). split; [by apply P4|].
    apply PhRcvd; [done| | |congruence].
    + rewrite P1, Hbp, Hp. done.
    + rewrite P3, Hbi. done.
  - rewrite Hi in Hr. inversion Hr; subst.
    + cbn [c2h_hdl]. destruct HL as (? & ? & ? & ?). rewrite <- Hbb in *.
      destruct (rsp_bitmap op len id c b) as (P1 & P2 & P3); [done|]. split; [by apply rsp_base|].
      apply (PhRsp _ _ _ _ len); [congruence|congruence|]. left. congruence.
    + cbn [c2h_hdl]. destruct HL as (? & ? & ? & ?). rewrite <- Hbb in *.
      destruct (rsp_bitmap op len id c b) as (P1 & P2 & P3); [done|]. split; [by apply rsp_base|].
      apply (PhRsp _ _ _ _ len); [congruence|congruence|]. right. exists ret. split; [done|congruence].
    + cbn [c2h_hdl]. destruct (done_fields ret b) as (P1 & P2 & P3 & P4). split; [by apply P4|].
      destruct P1 as [P1 P1']; [congruence|]. apply PhEnd; [done|congruence|]. intros Hne. exfalso. auto.
  - destruct Hr as [Hr|(ret & Hret & Hr)]; rewrite Hi in Hr; [done|]. injection Hr as -> ->.
    cbn [c2h_hdl]. destruct (done_fields ret b) as (P1 & P2 & P3 & P4). split; [by apply P4|].
    destruct P1 as [P1 P1']; [congruence|]. apply PhEnd; [done|congruence|]. intros Hne.
    rewrite P2, Hbb, Hm. unfold applied. apply P1', Hret in Hne. by rewrite (proj2 (Z.eqb_neq len 0)).
  - congruence.
Qed.

Lemma deliver_phase n op id bm0 a :
  base_inv a -> phase op id bm0 a -> base_inv (deliver n a) /\ phase op id bm0 (deliver n a).
Proof.
  revert a. induction n as [|n IH]; intros a Hb Hp; cbn [deliver]; [done|].
  destruct (inbox a) as [|m l] eqn:E; [done|].
  destruct (step_phase op id bm0 a m l Hb Hp E). by apply IH.
Qed.

(** ** Identifiers that cannot be handed out *)

Definition is_del_rsp (x : Z) (m : c2h) : bool :=
  match m with PktOfldRsp op _ id _ => (op =? PKT_OFLD_OP_DEL) && (id =? x) | _ => false end.

(** The bit is set and no deletion is on its way. *)
Definition taken (a : adapter) (x : Z) : Prop :=
  byte x /\ bit_in (id_bitmap a) x = true /\ existsb (is_del_rsp x) (inbox a) = false.

Definition sane_msg (m : c2h) : Prop := match m with PktOfldRsp op _ id _ => pkt_op op /\ byte id | _ => True end.

Lemma taken_step a m l x :
  length (id_bitmap a) = 32%nat -> sane_msg m -> inbox a = m :: l -> taken a x -> taken (c2h_hdl m (set_inbox l a)) x.
Proof.
  intros Hl Hm Hi (Hx & Hb & Hd). rewrite Hi in Hd. cbn in Hd. apply orb_false_iff in Hd as [Hd1 Hd2].
  destruct m as [f|f r|op len id c]; cbn [c2h_hdl].
  - unfold c2h_fwofld_rcv_ack_hdl. repeat case_if; done.
  - unfold c2h_fwofld_done_ack_hdl. repeat case_if; done.
  - destruct Hm as [Hop Hid]. destruct (rsp_bitmap op len id c (set_inbox l a) Hop) as (P1 & _ & P3).
    unfold taken. rewrite P1, P3. split; [done|]. split; [|done].
    unfold applied. cbn [id_bitmap set_inbox]. destruct (len =? 0); [done|].
    destruct Hop as [->|[->| ->]]; cbn -[bit_in mac_pkt_ofld_set_bitmap mac_pkt_ofld_unset_bitmap].
    + rewrite bit_in_set_bitmap, Hb by done. done.
    + cbn in Hd1. rewrite bit_in_unset_bitmap, Hb, Hd1 by done. done.
    + done.
Qed.

Lemma phase_sane op id bm0 a m l : phase op id bm0 a -> inbox a = m :: l -> sane_msg m.
Proof.
  intros Hph Hi. destruct Hph as [(? & ? & _) _ Hr _|(? & ? & _) _ Hr _|len _ _ Hr|_ Hr _].
  - rewrite Hi in Hr. by inversion Hr.
  - rewrite Hi in Hr. by inversion Hr.
  - destruct Hr as [Hr|(ret & _ & Hr)]; rewrite Hi in Hr; [done|]. by injection Hr as -> ->.
  - congruence.
Qed.

Lemma deliver_taken n op id bm0 a x :
  base_inv a -> phase op id bm0 a -> taken a x -> taken (deliver n a) x.
Proof.
  revert a. induction n as [|n IH]; intros a Hb Hp Ht; cbn [deliver]; [done|].
  destruct (inbox a) as [|m l] eqn:E; [done|].
  destruct (step_phase op id bm0 a m l Hb Hp E). apply IH; [done..|].
  apply taken_step; [apply Hb | exact (phase_sane op id bm0 a m l Hp E) | done | done].
Qed.

Lemma deliver_inv n a :
  ofld_inv a -> ofld_inv (deliver n a) /\ forall x, taken a x -> taken (deliver n a) x.
Proof.
  intros (Hb & op & id & bm0 & Hop & Hid & Hp). destruct (deliver_phase n op id bm0 a Hb Hp).
  split; [split; [done|by exists op, id, bm0]|]. intros x. by eapply deliver_taken.
Qed.

(** ** Sending *)

Lemma idle_inbox a : ofld_inv a -> pkt_ofld a = MAC_AX_OFLD_H2C_IDLE -> inbox a = [].
Proof.
  intros (_ & op & id & bm0 & _ & _ & Hp) Hi.
  destruct Hp as [_ Hp|_ Hp|len Hp|]; [rewrite Hi in Hp; discriminate Hp..|done].
Qed.

(** Fields that only the oracle's own state differs in. *)
Definition same_ofld (a b : adapter) : Prop :=
  pkt_ofld b = pkt_ofld a /\ id_bitmap b = id_bitmap a /\ inbox b = inbox a /\ last_op b = last_op a.

Lemma next_outcome_ok a o a' :
  next_outcome a = (o, a') -> base_inv a -> outcome_ok o /\ base_inv a' /\ same_ofld a a'.
Proof.
  unfold next_outcome. intros H Hb. destruct (outcomes a) as [|o' l] eqn:E; injection H as <- <-.
  - split; [|done]. split; [constructor|done].
  - destruct Hb as [? ? ? Ho]. rewrite E in Ho. apply Forall_cons in Ho as [? ?].
    split; [done|]. split; [by constructor|done].
Qed.

Lemma reply_no_del op id r x :
  fw_reply op id r -> (op = PKT_OFLD_OP_DEL -> x <> id) -> existsb (is_del_rsp x) r = false.
Proof.
  intros Hr Hx. assert (E : (op =? PKT_OFLD_OP_DEL) && (id =? x) = false).
  { destruct (Z.eqb_spec op PKT_OFLD_OP_DEL), (Z.eqb_spec id x); auto. exfalso. apply Hx; congruence. }
  destruct Hr; cbn; rewrite ?E; done.
Qed.

Lemma base_fields a b :
  id_bitmap b = id_bitmap a -> used_id_count b = used_id_count a -> free_id_count b = free_id_count a ->
  outcomes b = outcomes a -> base_inv a -> base_inv b.
Proof. intros E1 E2 E3 E4 []. constructor; congruence. Qed.

Lemma phase_fields op id bm0 a b :
  pkt_ofld b = pkt_ofld a -> id_bitmap b = id_bitmap a -> inbox b = inbox a ->
  phase op id bm0 a -> phase op id bm0 b.
Proof.
  intros E1 E2 E3 []; [apply PhSend|apply PhRcvd|eapply PhRsp|apply PhEnd]; rewrite ?E1, ?E2, ?E3; eauto.
Qed.

Lemma send_ok op id len pkt reply early a :
  base_inv a -> legal op id (id_bitmap a) -> pkt_ofld a = MAC_AX_OFLD_H2C_SENDING -> inbox a = [] ->
  outcome_ok (H2cSent reply early) ->
  let a' := set_last_op op (transmit FP (pkt_ofld_dword id op len ++ pkt) reply early a) in
  base_inv a' /\ phase op id (id_bitmap a) a' /\
  (forall x, (op = PKT_OFLD_OP_DEL -> x <> id) -> taken a x -> taken a' x).
Proof.
  intros Hb HL Hp Hi [Ho _] a'. destruct HL as (Hop & Hid & HL).
  specialize (Ho op id len pkt Hop Hid). set (payload := pkt_ofld_dword id op len ++ pkt) in *.
  set (s := set_inbox (inbox a ++ reply FP payload) (set_sent (sent a ++ [(FP, payload)]) a)).
  assert (Hs : base_inv s) by (eapply base_fields; [..|exact Hb]; done).
  assert (Hin : inbox s = reply FP payload) by (unfold s; cbn; by rewrite Hi).
  assert (Hph : phase op id (id_bitmap a) s).
  { apply PhSend; [done|done| |done]. by rewrite Hin. }
  destruct (deliver_phase early _ _ _ s Hs Hph) as [H1 H2]. split; [|split].
  - eapply base_fields; [..|exact H1]; done.
  - eapply phase_fields; [..|exact H2]; done.
  - intros x Hx (Hbx & Hbit & _). apply (deliver_taken early op id (id_bitmap a) s x Hs Hph).
    split; [done|]. split; [done|]. rewrite Hin. by eapply reply_no_del.
Qed.

(** ** Waiting *)

Lemma deliver_last_op n a : last_op (deliver n a) = last_op a.
Proof.
  revert a. induction n as [|n IH]; intros a; cbn [deliver]; [done|].
  destruct (inbox a) as [|m q]; [done|]. rewrite IH. destruct m; cbn [c2h_hdl].
  - unfold c2h_fwofld_rcv_ack_hdl. repeat case_if; done.
  - unfold c2h_fwofld_done_ack_hdl. repeat case_if; done.
  - unfold c2h_pkt_ofld_rsp_hdl. repeat case_if; try done. unfold next_malloc.
    destruct (mallocs _) as [|[] ?]; done.
Qed.

Lemma chk_loop_ok n op id bm0 a st a' :
  chk_loop n a = (st, a') -> base_inv a -> phase op id bm0 a ->
  base_inv a' /\ phase op id bm0 a' /\ last_op a' = last_op a /\ (forall x, taken a x -> taken a' x) /\
  (st = RTW_HAL_STATUS_SUCCESS -> mac_check_fwofld_done FW_OFLD_OP_PACKET_OFLD a' = MACSUCCESS).
Proof.
  revert a. induction n as [|n IH]; intros a E Hb Hp; cbn [chk_loop] in E.
  - injection E as <- <-. repeat (split; [done|]). discriminate.
  - destruct (Z.eqb_spec (mac_check_fwofld_done FW_OFLD_OP_PACKET_OFLD a) MACSUCCESS) as [Hc|].
    + injection E as <- <-. by repeat (split; [done|]).
    + assert (Hsl : base_inv (sleep a) /\ phase op id bm0 (sleep a) /\ last_op (sleep a) = last_op a /\
                    (forall x, taken a x -> taken (sleep a) x)).
      { unfold sleep. destruct (moves a) as [|k l]; [done|]. set (b := set_moves l a).
        assert (Hbb : base_inv b) by (eapply base_fields; [..|exact Hb]; done).
        assert (Hbp : phase op id bm0 b) by (eapply phase_fields; [..|exact Hp]; done).
        destruct (deliver_phase k op id bm0 b Hbb Hbp). repeat (split; [done|]). split.
        - unfold b. by rewrite deliver_last_op.
        - intros x Hx. by apply (deliver_taken k op id bm0 b x Hbb Hbp). }
      destruct Hsl as (S1 & S2 & S3 & S4). destruct (IH _ E S1 S2) as (I1 & I2 & I3 & I4 & I5).
      repeat (split; [done || congruence|]). split; [auto|done].
Qed.

(** ** The operations of the HAL *)

Lemma alloc_loop_spec n bm i :
  0 <= i ->
  let r := alloc_loop n bm i in
  i <= r <= i + Z.of_nat n /\ (forall j, i <= j < r -> bit_in bm j = true) /\
  (r < i + Z.of_nat n -> bit_in bm r = false).
Proof.
  revert i. induction n as [|n IH]; intros i Hi; cbn [alloc_loop]; [cbn; split; [lia|]; split; lia|].
  rewrite get_bitmap_bit by lia. destruct (bit_in bm i) eqn:E; cbn [negb].
  - destruct (IH (i + 1)) as (H1 & H2 & H3); [lia|]. cbn zeta. split; [lia|]. split; [|intros; apply H3; lia].
    intros j Hj. destruct (Z.eq_dec j i) as [->|]; [done|]. apply H2. lia.
  - cbn zeta. split; [lia|]. split; [intros j ?; lia|done].
Qed.

(** The identifier chosen is free: also the last one, which is only chosen when
    all others are taken. *)
Lemma alloc_free a :
  base_inv a -> free_id_count a <> 0 ->
  let r := alloc_loop (Z.to_nat (PKT_OFLD_MAX_COUNT - 1)) (id_bitmap a) 0 in
  byte r /\ bit_in (id_bitmap a) r = false.
Proof.
  intros [Hl Hu Hf _] Hnz r. unfold PKT_OFLD_MAX_COUNT in r.
  destruct (alloc_loop_spec (Z.to_nat (256 - 1)) (id_bitmap a) 0) as (H1 & H2 & H3); [lia|]. fold r in H1, H2, H3.
  split; [unfold byte; lia|]. destruct (Z.eq_dec r 255) as [Hr|]; [|apply H3; lia].
  destruct (ids_used_full (id_bitmap a)) as (x & Hx & Hbx).
  { pose proof (ids_used_bound (id_bitmap a)). lia. }
  unfold byte in Hx. destruct (Z.eq_dec x 255) as [->|]; [by rewrite Hr|]. rewrite H2 in Hbx; [done|lia].
Qed.

(** A command that does not go out leaves the state idle or, when building it
    failed, sending. *)
Lemma unsent_inv op id a b :
  base_inv b -> legal op id (id_bitmap a) -> same_ofld a b -> pkt_ofld a = MAC_AX_OFLD_H2C_SENDING -> inbox a = [] ->
  ofld_inv b.
Proof.
  intros Hb HL (E1 & E2 & E3 & E4) Hp Hi. split; [done|]. exists op, id, (id_bitmap a).
  pose proof HL as (Hop & Hid & _). repeat (split; [done|]).
  apply PhSend; [done|congruence| |done]. rewrite E3, Hi. constructor.
Qed.

Definition kept (a b : adapter) : Prop := forall x, taken a x -> taken b x.
Lemma kept_fields a b : id_bitmap b = id_bitmap a -> inbox b = inbox a -> kept a b.
Proof. intros E1 E2 x. unfold taken. by rewrite E1, E2. Qed.
Lemma kept_refl a : kept a a.
Proof. by intros x. Qed.

(** A run that ends here without success. *)
Ltac failed E :=
  injection E as <- <- <- || injection E as <- <-;
  split; [done|]; split; [first [done | apply kept_refl]|]; let Q := fresh in intros Q; first [discriminate Q | done].

Lemma mac_add_ok pkt len id a st id' a' :
  mac_add_pkt_ofld pkt len id a = (st, id', a') -> ofld_inv a ->
  ofld_inv a' /\ kept a a' /\
  (st = MACSUCCESS -> byte id' /\ bit_in (id_bitmap a) id' = false /\ last_op a' = PKT_OFLD_OP_ADD /\
     base_inv a' /\ phase PKT_OFLD_OP_ADD id' (id_bitmap a) a').
Proof.
  intros E Hinv. unfold mac_add_pkt_ofld in E.
  destruct (negb (fwdl_rdy a)); [failed E|].
  destruct (Z.eqb_spec (free_id_count a) 0) as [|Hfree]; [failed E|].
  destruct (Z.eqb_spec (pkt_ofld a) MAC_AX_OFLD_H2C_IDLE) as [Hidle|]; cbn [negb] in E; [|failed E].
  pose proof (idle_inbox a Hinv Hidle) as Hin. destruct Hinv as [Hb _].
  destruct (alloc_free a Hb Hfree) as [Hr Hbit]. cbn [id_bitmap set_pkt_ofld] in E.
  set (r := alloc_loop _ (id_bitmap a) 0) in *. rewrite (u8_small r Hr) in E.
  set (s := set_pkt_ofld MAC_AX_OFLD_H2C_SENDING a) in *.
  assert (Hs : base_inv s) by (eapply base_fields; [..|exact Hb]; done).
  assert (HL : legal PKT_OFLD_OP_ADD r (id_bitmap s)) by (split; [by left|]; split; [done|]; by split).
  destruct (next_outcome s) as [o b] eqn:En. destruct (next_outcome_ok _ _ _ En Hs) as (Ho & Hbb & Hsame).
  pose proof Hsame as (E1 & E2 & E3 & E4).
  assert (Hun : ofld_inv b) by (by eapply (unsent_inv PKT_OFLD_OP_ADD r s b)).
  assert (Hk : kept a b) by (apply kept_fields; done).
  destruct o as [|[|n]|ret|ret|reply early]; try (failed E).
  - injection E as <- <- <-. split; [|split; [by apply kept_fields|done]].
    apply phase_end_inv; [eapply base_fields; [..|exact Hbb]; done | by left | cbn; rewrite E3; exact Hin].
  - injection E as <- <- <-.
    destruct (send_ok PKT_OFLD_OP_ADD r len (take (Z.to_nat len) pkt) reply early b) as (S1 & S2 & S3);
      [done| by rewrite E2 | by rewrite E1 | by rewrite E3 | done |].
    assert (Hbm : id_bitmap b = id_bitmap a) by done. rewrite Hbm in S2.
    split; [|split].
    + split; [done|]. exists PKT_OFLD_OP_ADD, r, (id_bitmap a). split; [by left|done].
    + intros x Hx. apply S3; [discriminate|]. by apply Hk.
    + done.
Qed.

Lemma hal_add_inv pkt len id a st id' a' :
  _hal_mac_add_pkt_ofld pkt len id a = (st, id', a') -> ofld_inv a ->
  ofld_inv a' /\ kept a a' /\ (st = RTW_HAL_STATUS_SUCCESS -> ~ taken a id' /\ taken a' id').
Proof.
  intros E Hinv. unfold _hal_mac_add_pkt_ofld in E.
  destruct (negb (mac_ok a)); [failed E|].
  destruct (mac_add_pkt_ofld pkt len id a) as [[st1 id1] b] eqn:Ea.
  destruct (mac_add_ok _ _ _ _ _ _ _ Ea Hinv) as (H1 & H2 & H3).
  destruct (Z.eqb_spec st1 MACSUCCESS) as [->|]; cbn [negb] in E; [|failed E].
  destruct H3 as (Hid & Hfree & Hop & Hbb & Hph); [done|]. unfold _hal_mac_chk_pkt_ofld in E.
  destruct (negb (mac_ok b)); [failed E|].
  destruct (chk_loop POLLING_HALMAC_CNT b) as [st2 c] eqn:Ec. injection E as <- <- <-.
  destruct (chk_loop_ok _ _ _ _ _ _ _ Ec Hbb Hph) as (C1 & C2 & C3 & C4 & C5).
  split; [split; [done|]; exists PKT_OFLD_OP_ADD, id1, (id_bitmap a); split; [by left|done]|].
  split; [intros x Hx; by apply C4, H2|]. intros Hst. specialize (C5 Hst). split.
  - intros (_ & Ht & _). congruence.
  - assert (Hi : pkt_ofld c = MAC_AX_OFLD_H2C_IDLE).
    { unfold mac_check_fwofld_done in C5. rewrite C3, Hop in C5. cbn in C5.
      destruct (Z.eqb_spec (pkt_ofld c) MAC_AX_OFLD_H2C_IDLE); [done|discriminate C5]. }
    destruct C2 as [_ C2|_ C2|n C2|C2 C2' C2'']; [rewrite Hi in C2; discriminate C2..|].
    split; [done|]. rewrite C2', C2'' by (rewrite Hi; discriminate). split; [|done].
    unfold applied. cbn -[bit_in mac_pkt_ofld_set_bitmap].
    destruct Hinv as [Hb _]. rewrite bit_in_set_bitmap, Z.eqb_refl, orb_true_r by (apply Hb || done). done.
Qed.

Lemma cmd_ok op id a st a' :
  pkt_ofld_cmd op id a = (st, a') -> ofld_inv a -> legal op id (id_bitmap a) ->
  ofld_inv a' /\ (forall x, (op = PKT_OFLD_OP_DEL -> x <> id) -> taken a x -> taken a' x) /\
  (st <> MACSUCCESS -> kept a a') /\
  (st = MACSUCCESS -> base_inv a' /\ phase op id (id_bitmap a) a').
Proof.
  intros E Hinv HL. unfold pkt_ofld_cmd in E.
  destruct (Z.eqb_spec (pkt_ofld a) MAC_AX_OFLD_H2C_IDLE) as [Hidle|]; cbn [negb] in E;
    [|injection E as <- <-; split; [done|]; split; [done|]; split; [by intros _ x|discriminate]].
  pose proof (idle_inbox a Hinv Hidle) as Hin. destruct Hinv as [Hb _].
  set (s := set_pkt_ofld MAC_AX_OFLD_H2C_SENDING a) in *.
  assert (Hs : base_inv s) by (eapply base_fields; [..|exact Hb]; done).
  destruct (next_outcome s) as [o b] eqn:En. destruct (next_outcome_ok _ _ _ En Hs) as (Ho & Hbb & Hsame).
  pose proof Hsame as (E1 & E2 & E3 & E4).
  assert (Hun : ofld_inv b) by (by eapply (unsent_inv op id s b)).
  assert (Hk : kept a b) by (apply kept_fields; done).
  destruct o as [|n|ret|ret|reply early];
    try (injection E as <- <-; split; [done|]; split; [intros x _; apply Hk|]; split; [done|discriminate]).
  - injection E as <- <-. assert (Hk' : kept a (set_pkt_ofld MAC_AX_OFLD_H2C_IDLE b)) by (by apply kept_fields).
    split; [|split; [intros x _; apply Hk'|split; [done|discriminate]]].
    apply phase_end_inv; [eapply base_fields; [..|exact Hbb]; done | by left | cbn; rewrite E3; exact Hin].
  - injection E as <- <-.
    destruct (send_ok op id 0 [] reply early b) as (S1 & S2 & S3);
      [done| by rewrite E2 | by rewrite E1 | by rewrite E3 | done |].
    rewrite app_nil_r in S1, S2, S3. rewrite E2 in S2. pose proof HL as (Hop & Hid & _).
    split; [|split; [|split]].
    + split; [done|]. by exists op, id, (id_bitmap a).
    + intros x Hx Ht. apply S3; [done|]. by apply Hk.
    + done.
    + done.
Qed.

Lemma hal_del_inv id a st a' :
  _hal_mac_del_pkt_ofld id a = (st, a') -> 0 <= id -> ofld_inv a ->
  ofld_inv a' /\ (forall x, x <> id -> taken a x -> taken a' x) /\ (st <> RTW_HAL_STATUS_SUCCESS -> kept a a').
Proof.
  intros E Hid Hinv. unfold _hal_mac_del_pkt_ofld in E.
  destruct (negb (mac_ok a)); [injection E as <- <-; split; [done|]; split; [done|]; first [done | intros _; apply kept_refl]|].
  destruct (mac_del_pkt_ofld id a) as [st1 b] eqn:Ea.
  assert (Hdel : ofld_inv b /\ (forall x, x <> id -> taken a x -> taken b x) /\ (st1 <> MACSUCCESS -> kept a b)).
  { unfold mac_del_pkt_ofld in Ea.
    destruct (negb (fwdl_rdy a)); [injection Ea as <- <-; split; [done|]; split; [done|]; first [done | intros _; apply kept_refl]|].
    destruct (id =? _); [injection Ea as <- <-; split; [done|]; split; [done|]; first [done | intros _; apply kept_refl]|].
    rewrite get_bitmap_bit in Ea by lia.
    destruct (bit_in (id_bitmap a) id) eqn:Hbit; cbn [negb] in Ea; [|injection Ea as <- <-; split; [done|]; split; [done|]; first [done | intros _; apply kept_refl]].
    destruct (used_id_count a =? 0); [injection Ea as <- <-; split; [done|]; split; [done|]; first [done | intros _; apply kept_refl]|].
    assert (Hby : byte id).
    { unfold byte. split; [done|]. destruct (Z.lt_ge_cases id 256); [done|]. exfalso.
      unfold bit_in in Hbit. destruct Hinv as [[Hl _ _ _] _]. rewrite nth_overflow, Z.testbit_0_l in Hbit by lia. done. }
    destruct (cmd_ok _ _ _ _ _ Ea Hinv) as (C1 & C2 & C3 & _).
    { split; [right; by left|]. split; [done|]. by split. }
    split; [done|]. split; [|done]. intros x Hx. apply C2. done. }
  destruct Hdel as (D1 & D2 & D3).
  destruct (Z.eqb_spec st1 MACSUCCESS) as [->|]; cbn [negb] in E; [|injection E as <- <-; split; [done|]; split; [done|auto]].
  unfold _hal_mac_chk_pkt_ofld in E. destruct (negb (mac_ok b)); [injection E as <- <-; split; [done|]; split; [done|]; first [done | intros _; apply kept_refl]|].
  destruct (chk_loop POLLING_HALMAC_CNT b) as [st2 c] eqn:Ec. injection E as <- <-.
  destruct D1 as (Hb & op & i & bm0 & Hop & Hi & Hph).
  destruct (chk_loop_ok _ _ _ _ _ _ _ Ec Hb Hph) as (C1 & C2 & C3 & C4 & C5).
  split; [split; [done|by exists op, i, bm0]|]. split; [|done]. intros x Hx Ht. by apply C4, D2.
Qed.

Lemma hal_update_inv macid ids a st a' :
  rtw_hal_mac_pkt_update_ids macid ids a = (st, a') -> ofld_inv a -> ofld_inv a' /\ kept a a'.
Proof.
  intros E Hinv. unfold rtw_hal_mac_pkt_update_ids, mac_general_pkt_ids in E.
  destruct (negb (fwdl_rdy a)); [injection E as <- <-; split; [done|apply kept_refl]|].
  destruct (next_outcome a) as [o b] eqn:En. destruct Hinv as (Hb & op & i & bm0 & Hop & Hi & Hph).
  destruct (next_outcome_ok _ _ _ En Hb) as (Ho & Hbb & E1 & E2 & E3 & E4).
  assert (Hph' : phase op i bm0 b) by (eapply phase_fields; [..|exact Hph]; done).
  assert (Hib : ofld_inv b) by (split; [done|by exists op, i, bm0]).
  assert (Hk : kept a b) by (by apply kept_fields).
  destruct o as [|n|ret|ret|reply early]; try (injection E as <- <-; done).
  destruct Ho as [_ Ho]. unfold transmit in E. rewrite Ho, app_nil_r in E. injection E as <- <-.
  match goal with |- context [deliver early ?s] => set (q := s) end.
  assert (Hq : ofld_inv q).
  { split; [eapply base_fields; [..|exact Hbb]; done|]. exists op, i, bm0. split; [done|]. split; [done|].
    eapply phase_fields; [..|exact Hph']; done. }
  destruct (deliver_inv early q Hq) as [D1 D2]. split; [done|]. intros x Hx. apply D2.
  apply (kept_fields b q); [done|done|]. by apply Hk.
Qed.
