(* ===== verification/PktOfld.v ===== *)
(** * Packets offloaded per station (src/phl/phl_pkt_ofld.c)

    For every station there is an entry with one record per type of packet: the
    identifier the firmware knows the packet by, and the requests that need it.
    The first request builds the packet and hands it to the HAL, the last
    cancellation takes it back.

    The HAL is an interface ([HalOfld]); the requests carry a name that is only
    printed and is left out. *)

From S2P Require Import Prelude PhlDef IeBuf FwOfld.

Definition NOT_USED := 255.
Definition NULL_PACKET_LEN := 24.
Definition MAC_HDR_LEN := 24.
Definition TYPE_DATA_FRAME := 8.
Definition TYPE_ACTION_FRAME := 208.
Definition TYPE_NULL_FRAME := 72.
Definition SAQ_ACTION_LEN := 4.
Definition ACT_TYPE_SA_QUERY := 8.
Definition LLC_LEN := 8.
Definition AUTH_1X_HDR_LEN := 4.
Definition LIB1X_EAPOL_VER := 1.
Definition LIB1X_TYPE_EAPOL_KEY := 3.
Definition EAPOLMSG_HDR_LEN := 95.
Definition EAPOLKEY_KEYDESC_TYPE_RSN := 2.
Definition EAPOLKEY_KEYMIC := BIT 8.
Definition EAPOLKEY_SECURE := BIT 9.

Definition PKT_TYPE_NULL_DATA := 2.
Definition PKT_TYPE_ARP_RSP := 5.
Definition PKT_TYPE_NDP := 6.
Definition PKT_TYPE_EAPOL_KEY := 7.
Definition PKT_TYPE_SA_QUERY := 8.
Definition PKT_TYPE_REALWOW_KAPKT := 9.
Definition PKT_TYPE_REALWOW_ACK := 10.
Definition PKT_TYPE_REALWOW_WP := 11.
Definition PKT_OFLD_TYPE_MAX := 12.

Definition PHL_RTYPE_STATION := 1.

(** ** The interface of the HAL *)

(** [HAL_PKT_OFLD_ADD], [HAL_PKT_OFLD_DEL] and [rtw_hal_pkt_update_ids], with the
    state of the HAL. *)
Class HalOfld (H : Type) := {
  hal_pkt_add : list Z -> Z -> Z -> H -> Z * Z * H;
  hal_pkt_del : Z -> H -> Z * H;
  hal_pkt_update_ids : Z -> list Z -> H -> Z * H
}.

(** ** State *)

(** [req_q] holds the tokens of the requests, the newest first. *)
Record pkt_ofld_info := mkInfo { i_id : Z; req_q : list Z; req_cnt : Z }.
Record pkt_ofld_entry := mkEntry { e_macid : Z; pkt_info : list pkt_ofld_info }.

(** [o_mallocs] are the outcomes of the next allocations; [o_sta] gives the role
    type of the station of an identifier, [None] when there is no station. *)
Record pkt_ofld_obj := mkOfld {
  entry_q : list pkt_ofld_entry; entry_cnt : Z; cur_seq : Z;
  o_mallocs : list bool; o_sta : Z -> option Z }.

Definition set_entry_q (q : list pkt_ofld_entry) (o : pkt_ofld_obj) : pkt_ofld_obj :=
  mkOfld q (entry_cnt o) (cur_seq o) (o_mallocs o) (o_sta o).
Definition set_entry_cnt (n : Z) (o : pkt_ofld_obj) : pkt_ofld_obj :=
  mkOfld (entry_q o) n (cur_seq o) (o_mallocs o) (o_sta o).
Definition set_cur_seq (n : Z) (o : pkt_ofld_obj) : pkt_ofld_obj :=
  mkOfld (entry_q o) (entry_cnt o) n (o_mallocs o) (o_sta o).
Definition set_o_mallocs (l : list bool) (o : pkt_ofld_obj) : pkt_ofld_obj :=
  mkOfld (entry_q o) (entry_cnt o) (cur_seq o) l (o_sta o).

Definition os_mem_alloc (o : pkt_ofld_obj) : bool * pkt_ofld_obj :=
  match o_mallocs o with
  | [] => (true, o)
  | x :: l => (x, set_o_mallocs l o)
  end.

Definition _phl_pkt_ofld_is_pkt_ofld (i : pkt_ofld_info) : bool := negb (i_id i =? NOT_USED).

(** ** Requests *)

(** The request and its name are two allocations; the sequence number is used
    up by the first. *)
Definition _phl_pkt_ofld_gen_req (o : pkt_ofld_obj) : option Z * pkt_ofld_obj :=
  let '(ok, o) := os_mem_alloc o in
  if negb ok then (None, o) else
  let token := cur_seq o in
  let o := set_cur_seq (u32 (cur_seq o + 1)) o in
  let '(ok, o) := os_mem_alloc o in
  if ok : bool then (Some token, o) else (None, o).

Fixpoint del_token (t : Z) (q : list Z) : list Z :=
  match q with
  | [] => []
  | x :: q => if x =? t then q else x :: del_token t q
  end.

Definition _phl_pkt_ofld_del_req (t : Z) (i : pkt_ofld_info) : pkt_ofld_info :=
  mkInfo (i_id i) (del_token t (req_q i)) (u32 (req_cnt i - 1)).

Definition _phl_pkt_ofld_get_req (i : pkt_ofld_info) (token : Z) : bool := existsb (Z.eqb token) (req_q i).

Definition _phl_pkt_ofld_add_req (t : Z) (i : pkt_ofld_info) : pkt_ofld_info :=
  mkInfo (i_id i) (t :: req_q i) (u32 (req_cnt i + 1)).

(** Each of the requests is deleted. *)
Definition _phl_pkt_ofld_del_all_req (i : pkt_ofld_info) : pkt_ofld_info :=
  foldl (fun i t => _phl_pkt_ofld_del_req t i) i (req_q i).

(** ** Building packets *)

Definition WriteLE1Byte (b : list Z) (p v : Z) : res (list Z) := wr b p [u8 v].
Definition WriteLE2Byte (b : list Z) (p v : Z) : res (list Z) := wr b p (le16 (u16 v)).
Definition WriteBE2Byte (b : list Z) (p v : Z) : res (list Z) := wr b p (be16 (u16 v)).
(** [SET_BITS_TO_LE_2BYTE(b + p, off, 1, val)] *)
Definition SET_BIT_TO_LE_2BYTE (b : list Z) (p off val : Z) : res (list Z) :=
  x ← RTW_GET_LE16 b p;
  WriteLE2Byte b p (Z.lor (Z.land x (Z.lnot (BIT off))) (Z.shiftl (Z.land val 1) off)).
(** [_os_mem_cpy(d, b + p, src, n)] *)
Definition mem_cpy (b : list Z) (p : Z) (src : list Z) (n : Z) : res (list Z) :=
  l ← rd_n src 0 n; wr b p l.

Definition zero_buf (len : Z) : list Z := replicate (Z.to_nat len) 0.

(** The header of a frame: type and subtype, to-DS and protection bits, the
    three addresses, duration and sequence. *)
Definition pkt_hdr (b : list Z) (frame_type : Z) (to_ds : bool) (sec_hdr : Z) (a1 a2 a3 : list Z) : res (list Z) :=
  b ← WriteLE2Byte b 0 0;
  b ← WriteLE1Byte b 0 frame_type;
  b ← (if to_ds then SET_BIT_TO_LE_2BYTE b 0 8 1 else mret b);
  b ← (if negb (sec_hdr =? 0) then SET_BIT_TO_LE_2BYTE b 0 14 1 else mret b);
  b ← mem_cpy b 4 a1 6;
  b ← mem_cpy b 10 a2 6;
  b ← mem_cpy b 16 a3 6;
  b ← WriteLE2Byte b 2 0;
  WriteLE2Byte b 22 0.

(** What a caller passes for each type of packet.  The last three give the
    object that starts with the pattern, and the size the caller claims. *)
Inductive ofld_buf :=
  | NullInfo (a1 a2 a3 : list Z)
  | ArpRspInfo (a1 a2 a3 host_ipv4_addr remote_ipv4_addr : list Z) (sec_hdr : Z)
  | NaInfo (a1 a2 a3 : list Z) (sec_hdr : Z)
  | EapolKeyInfo (a1 a2 a3 : list Z) (sec_hdr key_desc_ver : Z)
  | SaQueryInfo (a1 a2 a3 : list Z) (sec_hdr : Z)
  | KapktInfo (info : list Z) (keep_alive_pkt_size : Z)
  | AckInfo (info : list Z) (ack_ptrn_size : Z)
  | WpInfo (info : list Z) (wakeup_ptrn_size : Z).

(** The role of the station is read without a check that there is one. *)
Definition _phl_pkt_ofld_construct_null_data (role : option Z) (a1 a2 a3 : list Z) : res (list Z) :=
  match role with
  | None => Oob
  | Some ty =>
      b ← WriteLE2Byte (zero_buf NULL_PACKET_LEN) 0 0;
      b ← WriteLE1Byte b 0 TYPE_NULL_FRAME;
      b ← SET_BIT_TO_LE_2BYTE b 0 12 0;
      b ← (if ty =? PHL_RTYPE_STATION then
             b ← SET_BIT_TO_LE_2BYTE b 0 8 1;
             b ← mem_cpy b 4 a1 6;
             b ← mem_cpy b 10 a2 6;
             mem_cpy b 16 a3 6
           else mret b);
      b ← WriteLE2Byte b 2 0;
      WriteLE2Byte b 22 0
  end.

Definition _phl_pkt_ofld_construct_na (a1 a2 a3 : list Z) (sec_hdr : Z) : res (list Z) :=
  let len := MAC_HDR_LEN + sec_hdr + 8 + 72 in
  b ← pkt_hdr (zero_buf len) TYPE_DATA_FRAME true sec_hdr a1 a2 a3;
  let p := MAC_HDR_LEN + sec_hdr in
  b ← mem_cpy b p [170; 170; 3; 0; 0; 0; 134; 221] 8;
  b ← mem_cpy b (p + 8) [96; 0; 0; 0] 4;
  b ← mem_cpy b (p + 12) [0; 32; 58; 255] 4;
  b ← wr b (p + 16) (zero_buf 32);
  b ← mem_cpy b (p + 48) [136; 0; 0; 0; 96; 0; 0; 0] 8;
  b ← wr b (p + 56) (zero_buf 16);
  b ← WriteLE1Byte b (p + 72) 2;
  b ← WriteLE1Byte b (p + 73) 1;
  wr b (p + 74) (zero_buf 6).

Definition _phl_pkt_ofld_construct_arp_rsp (a1 a2 a3 host_ipv4_addr remote_ipv4_addr : list Z) (sec_hdr : Z) :
    res (list Z) :=
  let len := MAC_HDR_LEN + sec_hdr + 8 + 28 in
  b ← pkt_hdr (zero_buf len) TYPE_DATA_FRAME true sec_hdr a1 a2 a3;
  let p := MAC_HDR_LEN + sec_hdr in
  b ← mem_cpy b p [170; 170; 3; 0; 0; 0; 8; 6] 8;
  let p := p + 8 in
  b ← WriteLE2Byte b p 256;
  b ← WriteLE2Byte b (p + 2) 8;
  b ← WriteLE1Byte b (p + 4) 6;
  b ← WriteLE1Byte b (p + 5) 4;
  b ← WriteLE2Byte b (p + 6) 512;
  b ← mem_cpy b (p + 8) a2 6;
  b ← mem_cpy b (p + 14) host_ipv4_addr 4;
  b ← mem_cpy b (p + 18) a1 6;
  mem_cpy b (p + 24) remote_ipv4_addr 4.

Definition _phl_pkt_ofld_construct_eapol_key_data (a1 a2 a3 : list Z) (sec_hdr key_desc_ver : Z) : res (list Z) :=
  let len := MAC_HDR_LEN + sec_hdr + LLC_LEN + AUTH_1X_HDR_LEN + EAPOLMSG_HDR_LEN in
  b ← pkt_hdr (zero_buf len) TYPE_DATA_FRAME true sec_hdr a1 a2 a3;
  let p := MAC_HDR_LEN + sec_hdr in
  b ← mem_cpy b p [170; 170; 3] 3;
  b ← mem_cpy b (p + 3) [0; 0; 0] 3;
  b ← mem_cpy b (p + 6) [136; 142] 2;
  let p := p + LLC_LEN in
  b ← WriteLE1Byte b p LIB1X_EAPOL_VER;
  b ← WriteLE1Byte b (p + 1) LIB1X_TYPE_EAPOL_KEY;
  b ← WriteBE2Byte b (p + 2) EAPOLMSG_HDR_LEN;
  let p := p + AUTH_1X_HDR_LEN in
  b ← WriteLE1Byte b p EAPOLKEY_KEYDESC_TYPE_RSN;
  WriteBE2Byte b (p + 1) (Z.lor (Z.lor EAPOLKEY_SECURE EAPOLKEY_KEYMIC) key_desc_ver).

Definition _phl_pkt_ofld_construct_sa_query_pkt (a1 a2 a3 : list Z) (sec_hdr : Z) : res (list Z) :=
  let len := MAC_HDR_LEN + sec_hdr + SAQ_ACTION_LEN in
  b ← pkt_hdr (zero_buf len) TYPE_ACTION_FRAME false sec_hdr a1 a2 a3;
  let p := MAC_HDR_LEN + sec_hdr in
  b ← WriteLE1Byte b p ACT_TYPE_SA_QUERY;
  WriteLE1Byte b (p + 1) 1.

(** The three RealWoW packets: the first bytes of the caller's struct. *)
Definition construct_realwow (info : list Z) (size : Z) : res (list Z) :=
  mem_cpy (zero_buf size) 0 info size.
Definition _phl_pkt_ofld_construct_realwow_kapkt := construct_realwow.
Definition _phl_pkt_ofld_construct_realwow_ack := construct_realwow.
Definition _phl_pkt_ofld_construct_realwow_wp := construct_realwow.

(** A packet needs its buffer; [None] is [RTW_PHL_STATUS_RESOURCE]. *)
Definition with_buf (o : pkt_ofld_obj) (m : res (list Z)) : res (rtw_phl_status * list Z * pkt_ofld_obj) :=
  let '(ok, o) := os_mem_alloc o in
  if negb ok then mret (RTW_PHL_STATUS_RESOURCE, [], o)
  else b ← m; mret (RTW_PHL_STATUS_SUCCESS, b, o).

(** The status, the packet and the object.  The caller's buffer is cast to what
    the type asks for; another buffer is an access outside of it. *)
Definition _phl_pkt_ofld_construct_packet (o : pkt_ofld_obj) (macid type : Z) (buf : ofld_buf) :
    res (rtw_phl_status * list Z * pkt_ofld_obj) :=
  if type =? PKT_TYPE_NULL_DATA then
    match o_sta o macid, buf with
    | None, _ => Oob
    | role, NullInfo a1 a2 a3 => with_buf o (_phl_pkt_ofld_construct_null_data role a1 a2 a3)
    | _, _ => Oob
    end
  else if type =? PKT_TYPE_ARP_RSP then
    match buf with
    | ArpRspInfo a1 a2 a3 hip rip s => with_buf o (_phl_pkt_ofld_construct_arp_rsp a1 a2 a3 hip rip s)
    | _ => Oob end
  else if type =? PKT_TYPE_NDP then
    match buf with
    | NaInfo a1 a2 a3 s => with_buf o (_phl_pkt_ofld_construct_na a1 a2 a3 s)
    | _ => Oob end
  else if type =? PKT_TYPE_EAPOL_KEY then
    match buf with
    | EapolKeyInfo a1 a2 a3 s v => with_buf o (_phl_pkt_ofld_construct_eapol_key_data a1 a2 a3 s v)
    | _ => Oob end
  else if type =? PKT_TYPE_SA_QUERY then
    match buf with
    | SaQueryInfo a1 a2 a3 s => with_buf o (_phl_pkt_ofld_construct_sa_query_pkt a1 a2 a3 s)
    | _ => Oob end
  else if type =? PKT_TYPE_REALWOW_KAPKT then
    match buf with
    | KapktInfo info n => with_buf o (_phl_pkt_ofld_construct_realwow_kapkt info n)
    | _ => Oob end
  else if type =? PKT_TYPE_REALWOW_ACK then
    match buf with
    | AckInfo info n => with_buf o (_phl_pkt_ofld_construct_realwow_ack info n)
    | _ => Oob end
  else if type =? PKT_TYPE_REALWOW_WP then
    match buf with
    | WpInfo info n => with_buf o (_phl_pkt_ofld_construct_realwow_wp info n)
    | _ => Oob end
  else mret (RTW_PHL_STATUS_FAILURE, [], o).

(** ** Entries *)

Definition info0 : pkt_ofld_info := mkInfo NOT_USED [] 0.

Definition _phl_pkt_ofld_init_entry (macid : Z) : pkt_ofld_entry :=
  mkEntry macid (replicate (Z.to_nat PKT_OFLD_TYPE_MAX) info0).

Definition has_macid (macid : Z) (e : pkt_ofld_entry) : bool := e_macid e =? macid.

Definition _phl_pkt_ofld_is_entry_exist (o : pkt_ofld_obj) (macid : Z) : bool :=
  existsb (has_macid macid) (entry_q o).

(** The position of the first entry of the station. *)
Definition _phl_pkt_ofld_get_entry (o : pkt_ofld_obj) (macid : Z) : option (nat * pkt_ofld_entry) :=
  list_find (fun e => has_macid macid e) (entry_q o).

Definition _phl_pkt_ofld_reset_entry (e : pkt_ofld_entry) : pkt_ofld_entry :=
  mkEntry (e_macid e)
    (map (fun i => _phl_pkt_ofld_del_all_req (mkInfo NOT_USED (req_q i) (req_cnt i))) (pkt_info e)).

Definition _phl_pkt_ofld_del_entry (n : nat) (o : pkt_ofld_obj) : pkt_ofld_obj :=
  set_entry_cnt (u32 (entry_cnt o - 1)) (set_entry_q (delete n (entry_q o)) o).

Definition entry_ids (e : pkt_ofld_entry) : list Z := map i_id (pkt_info e).

Section Ops.
Context {H : Type} `{HalOfld H}.

(** A failed deletion is only logged. *)
Fixpoint del_ofld_loop (l : list pkt_ofld_info) (h : H) : H :=
  match l with
  | [] => h
  | i :: l => del_ofld_loop l (if _phl_pkt_ofld_is_pkt_ofld i then snd (hal_pkt_del (i_id i) h) else h)
  end.
Definition _phl_pkt_ofld_del_ofld_type (e : pkt_ofld_entry) (h : H) : H := del_ofld_loop (pkt_info e) h.

Definition _phl_pkt_ofld_add_entry (macid : Z) (o : pkt_ofld_obj) (h : H) : pkt_ofld_obj * H :=
  let e := _phl_pkt_ofld_init_entry macid in
  let o := set_entry_cnt (u32 (entry_cnt o + 1)) (set_entry_q (e :: entry_q o) o) in
  (o, snd (hal_pkt_update_ids (e_macid e) (entry_ids e) h)).

Definition put_info (n : nat) (e : pkt_ofld_entry) (t : nat) (i : pkt_ofld_info) (o : pkt_ofld_obj) : pkt_ofld_obj :=
  set_entry_q (<[n := mkEntry (e_macid e) (<[t := i]> (pkt_info e))]> (entry_q o)) o.

(** The status, the record of the type, the object and the HAL. *)
Definition _phl_pkt_ofld_req_type (o : pkt_ofld_obj) (e : pkt_ofld_entry) (t : nat) (i : pkt_ofld_info)
    (buf : ofld_buf) (h : H) : res (rtw_phl_status * pkt_ofld_info * pkt_ofld_obj * H) :=
  if _phl_pkt_ofld_is_pkt_ofld i then mret (RTW_PHL_STATUS_SUCCESS, i, o, h) else
  '(status, pkt, o) ← _phl_pkt_ofld_construct_packet o (e_macid e) (Z.of_nat t) buf;
  match status with
  | RTW_PHL_STATUS_SUCCESS =>
      let '(hst, id, h) := hal_pkt_add pkt (zlen pkt) (i_id i) h in
      if negb (hst =? RTW_HAL_STATUS_SUCCESS)
      then mret (RTW_PHL_STATUS_FAILURE, mkInfo NOT_USED (req_q i) (req_cnt i), o, h) else
      let i := mkInfo id (req_q i) (req_cnt i) in
      let '(hst, h) := hal_pkt_update_ids (e_macid e) (map i_id (<[t := i]> (pkt_info e))) h in
      if negb (hst =? RTW_HAL_STATUS_SUCCESS)
      then mret (RTW_PHL_STATUS_FAILURE, mkInfo NOT_USED (req_q i) (req_cnt i), o, h)
      else mret (RTW_PHL_STATUS_SUCCESS, i, o, h)
  | _ => mret (RTW_PHL_STATUS_FAILURE, i, o, h)
  end.

(** The status, the record and the HAL. *)
Definition _phl_pkt_ofld_cancel_type (i : pkt_ofld_info) (h : H) : rtw_phl_status * pkt_ofld_info * H :=
  if negb (_phl_pkt_ofld_is_pkt_ofld i) then (RTW_PHL_STATUS_FAILURE, i, h) else
  if negb (u32 (req_cnt i - 1) =? 0) then (RTW_PHL_STATUS_SUCCESS, i, h) else
  let '(hst, h) := hal_pkt_del (i_id i) h in
  if negb (hst =? RTW_HAL_STATUS_SUCCESS) then (RTW_PHL_STATUS_FAILURE, i, h)
  else (RTW_PHL_STATUS_SUCCESS, mkInfo NOT_USED (req_q i) (req_cnt i), h).

(** ** The calls of other modules, each under the object's mutex *)

Definition phl_pkt_ofld_init (malloc_ok : bool) (o_sta : Z -> option Z) : rtw_phl_status * option pkt_ofld_obj :=
  if malloc_ok then (RTW_PHL_STATUS_SUCCESS, Some (mkOfld [] 0 0 [] o_sta)) else (RTW_PHL_STATUS_RESOURCE, None).

(** What is left of the object before it is freed. *)
Definition phl_pkt_ofld_deinit (o : pkt_ofld_obj) : pkt_ofld_obj :=
  foldl (fun o _ => _phl_pkt_ofld_del_entry 0 o) (set_entry_q (map _phl_pkt_ofld_reset_entry (entry_q o)) o) (entry_q o).

Definition phl_pkt_ofld_reset_all_entry (o : pkt_ofld_obj) : pkt_ofld_obj :=
  set_entry_q (map _phl_pkt_ofld_reset_entry (entry_q o)) o.

Definition phl_pkt_ofld_add_entry (macid : Z) (o : pkt_ofld_obj) (h : H) : rtw_phl_status * pkt_ofld_obj * H :=
  if _phl_pkt_ofld_is_entry_exist o macid then (RTW_PHL_STATUS_FAILURE, o, h) else
  let '(ok, o) := os_mem_alloc o in
  if negb ok then (RTW_PHL_STATUS_RESOURCE, o, h) else
  let '(o, h) := _phl_pkt_ofld_add_entry macid o h in
  (RTW_PHL_STATUS_SUCCESS, o, h).

Definition phl_pkt_ofld_del_entry (macid : Z) (o : pkt_ofld_obj) (h : H) : rtw_phl_status * pkt_ofld_obj * H :=
  match _phl_pkt_ofld_get_entry o macid with
  | None => (RTW_PHL_STATUS_FAILURE, o, h)
  | Some (n, e) =>
      let h := _phl_pkt_ofld_del_ofld_type e h in
      let o := set_entry_q (<[n := _phl_pkt_ofld_reset_entry e]> (entry_q o)) o in
      (RTW_PHL_STATUS_SUCCESS, _phl_pkt_ofld_del_entry n o, h)
  end.

(** The status, the token on success, the object and the HAL. *)
Definition phl_pkt_ofld_request (macid type : Z) (buf : ofld_buf) (o : pkt_ofld_obj) (h : H) :
    res (rtw_phl_status * option Z * pkt_ofld_obj * H) :=
  match _phl_pkt_ofld_get_entry o macid with
  | None => mret (RTW_PHL_STATUS_FAILURE, None, o, h)
  | Some (n, e) =>
      let '(req, o) := _phl_pkt_ofld_gen_req o in
      match req with
      | None => mret (RTW_PHL_STATUS_RESOURCE, None, o, h)
      | Some tok =>
          match pkt_info e !! Z.to_nat type with
          | None => Oob
          | Some i =>
              let t := Z.to_nat type in
              let i := _phl_pkt_ofld_add_req tok i in
              let e := mkEntry (e_macid e) (<[t := i]> (pkt_info e)) in
              '(status, i, o, h) ← _phl_pkt_ofld_req_type o e t i buf h;
              match status with
              | RTW_PHL_STATUS_SUCCESS => mret (RTW_PHL_STATUS_SUCCESS, Some tok, put_info n e t i o, h)
              | _ => mret (RTW_PHL_STATUS_FAILURE, None, put_info n e t (_phl_pkt_ofld_del_req tok i) o, h)
              end
          end
      end
  end.

Definition phl_pkt_ofld_cancel (macid type token : Z) (o : pkt_ofld_obj) (h : H) :
    res (rtw_phl_status * pkt_ofld_obj * H) :=
  match _phl_pkt_ofld_get_entry o macid with
  | None => mret (RTW_PHL_STATUS_FAILURE, o, h)
  | Some (n, e) =>
      match pkt_info e !! Z.to_nat type with
      | None => Oob
      | Some i =>
          if negb (_phl_pkt_ofld_get_req i token) then mret (RTW_PHL_STATUS_FAILURE, o, h) else
          let '(status, i, h) := _phl_pkt_ofld_cancel_type i h in
          match status with
          | RTW_PHL_STATUS_SUCCESS =>
              mret (RTW_PHL_STATUS_SUCCESS, put_info n e (Z.to_nat type) (_phl_pkt_ofld_del_req token i) o, h)
          | _ => mret (RTW_PHL_STATUS_FAILURE, put_info n e (Z.to_nat type) i o, h)
          end
      end
  end.

(** When there is no entry the status code is returned as the identifier. *)
Definition phl_pkt_ofld_get_id (macid type : Z) (o : pkt_ofld_obj) : res Z :=
  match _phl_pkt_ofld_get_entry o macid with
  | None => mret 1
  | Some (_, e) => match pkt_info e !! Z.to_nat type with Some i => mret (i_id i) | None => Oob end
  end.
End Ops.
