(* ===== verification/PktOfldInv.v ===== *)
(** * The invariant of offloaded packets, for any HAL that keeps its promises *)

From S2P Require Import Prelude PhlDef IeBuf FwOfld PktOfld.

(** ** What a HAL promises *)

(** [hal_taken]: identifiers the HAL does not hand out again; [hal_move]: what
    may happen in the HAL between two calls. *)
Class HalOfldOk (H : Type) `{HalOfld H} := {
  hal_inv : H -> Prop;
  hal_taken : H -> Z -> Prop;
  hal_move : H -> H -> Prop;
  hal_add_ok pkt len id h st id' h' :
    hal_pkt_add pkt len id h = (st, id', h') -> hal_inv h ->
    hal_inv h' /\ (forall x, hal_taken h x -> hal_taken h' x) /\
    (st = RTW_HAL_STATUS_SUCCESS -> ~ hal_taken h id' /\ hal_taken h' id');
  hal_del_ok id h st h' :
    hal_pkt_del id h = (st, h') -> hal_taken h id -> hal_inv h ->
    hal_inv h' /\ (forall x, x <> id -> hal_taken h x -> hal_taken h' x) /\
    (st <> RTW_HAL_STATUS_SUCCESS -> forall x, hal_taken h x -> hal_taken h' x);
  hal_update_ok macid ids h st h' :
    hal_pkt_update_ids macid ids h = (st, h') -> hal_inv h ->
    hal_inv h' /\ (forall x, hal_taken h x -> hal_taken h' x);
  hal_move_ok h h' : hal_move h h' -> hal_inv h ->
    hal_inv h' /\ (forall x, hal_taken h x -> hal_taken h' x)
}.

(** ** Identifiers in use *)

Definition one (i : pkt_ofld_info) : list Z := if i_id i =? NOT_USED then [] else [i_id i].
Definition live_ids (e : pkt_ofld_entry) : list Z := concat (map one (pkt_info e)).
Definition all_ids (q : list pkt_ofld_entry) : list Z := concat (map live_ids q).

Lemma concat_map_insert {A B} (f : A -> list B) (l : list A) n x y :
  l !! n = Some x ->
  exists rest, concat (map f l) ≡ₚ f x ++ rest /\ concat (map f (<[n := y]> l)) ≡ₚ f y ++ rest.
Proof.
  intros Hn. exists (concat (map f (take n l)) ++ concat (map f (drop (S n) l))).
  assert (Hlt : (n < length l)%nat) by (by eapply lookup_lt_Some).
  rewrite (insert_take_drop l n y Hlt). rewrite <- (take_drop_middle l n x Hn) at 1.
  rewrite !map_app, !concat_app. simpl. split; solve_Permutation.
Qed.

Lemma all_ids_put q n e t i i' :
  q !! n = Some e -> pkt_info e !! t = Some i ->
  exists rest, all_ids q ≡ₚ one i ++ rest /\
    all_ids (<[n := mkEntry (e_macid e) (<[t := i']> (pkt_info e))]> q) ≡ₚ one i' ++ rest.
Proof.
  intros Hn Ht. set (e' := mkEntry (e_macid e) (<[t := i']> (pkt_info e))).
  destruct (concat_map_insert live_ids q n e e' Hn) as (r1 & P1 & P2).
  destruct (concat_map_insert one (pkt_info e) t i i' Ht) as (r2 & P3 & P4).
  exists (r2 ++ r1). unfold all_ids. split.
  - rewrite P1. unfold live_ids at 1. rewrite P3. by rewrite app_assoc.
  - rewrite P2. unfold live_ids at 1, e'. cbn [pkt_info]. rewrite P4. by rewrite app_assoc.
Qed.

Lemma all_ids_delete q n e : q !! n = Some e -> all_ids q ≡ₚ live_ids e ++ all_ids (delete n q).
Proof.
  intros Hn. unfold all_ids. rewrite <- (take_drop_middle q n e Hn) at 1.
  rewrite delete_take_drop, !map_app, !concat_app. simpl. solve_Permutation.
Qed.

(** ** The invariant *)

Definition info_ok (i : pkt_ofld_info) : Prop :=
  req_cnt i = u32 (zlen (req_q i)) /\ (i_id i <> NOT_USED -> req_q i <> []).

Record entry_ok (e : pkt_ofld_entry) : Prop := {
  eo_len : length (pkt_info e) = 12%nat;
  eo_info : Forall info_ok (pkt_info e)
}.

Record obj_ok (o : pkt_ofld_obj) : Prop := {
  oo_entries : Forall entry_ok (entry_q o);
  oo_macid : NoDup (map e_macid (entry_q o));
  oo_cnt : entry_cnt o = u32 (zlen (entry_q o))
}.

Lemma u32_idem_add x y : u32 (u32 x + y) = u32 (x + y).
Proof. unfold u32. apply Z.add_mod_idemp_l. lia. Qed.
Lemma u32_idem_sub x y : u32 (u32 x - y) = u32 (x - y).
Proof. unfold u32. apply Zminus_mod_idemp_l. Qed.

Lemma add_req_ok t i : info_ok i -> info_ok (_phl_pkt_ofld_add_req t i).
Proof.
  intros [Hc _]. split; cbn; [|done]. rewrite Hc, u32_idem_add. f_equal. rewrite zlen_cons. lia.
Qed.

Lemma del_token_length t q : existsb (Z.eqb t) q = true -> zlen (del_token t q) = zlen q - 1.
Proof.
  induction q as [|x q IH]; cbn [existsb del_token]; [done|].
  rewrite (Z.eqb_sym x t), zlen_cons. destruct (t =? x); cbn [orb].
  - lia.
  - intros E. rewrite zlen_cons, IH by done. lia.
Qed.

(** What remains of the invariant's second half after a deletion is the caller's
    to show. *)
Lemma del_req_ok t i :
  req_cnt i = u32 (zlen (req_q i)) -> existsb (Z.eqb t) (req_q i) = true ->
  (i_id i <> NOT_USED -> del_token t (req_q i) <> []) -> info_ok (_phl_pkt_ofld_del_req t i).
Proof.
  intros Hc Ht Hn. split; cbn; [|done]. by rewrite Hc, u32_idem_sub, del_token_length.
Qed.

Lemma del_all_req_ok i :
  req_cnt i = u32 (zlen (req_q i)) ->
  _phl_pkt_ofld_del_all_req i = mkInfo (i_id i) [] (u32 0).
Proof.
  unfold _phl_pkt_ofld_del_all_req. destruct i as [id q n]. cbn. revert n.
  induction q as [|t q IH]; intros n Hc; cbn.
  - by rewrite Hc.
  - unfold _phl_pkt_ofld_del_req. cbn. rewrite Z.eqb_refl. apply IH.
    rewrite Hc, zlen_cons, u32_idem_sub. f_equal. lia.
Qed.

Lemma reset_info_eq i :
  info_ok i -> _phl_pkt_ofld_del_all_req (mkInfo NOT_USED (req_q i) (req_cnt i)) = info0.
Proof. intros [Hc _]. by rewrite del_all_req_ok. Qed.

(** A reset entry is like a new one. *)
Lemma reset_entry_eq e : entry_ok e -> _phl_pkt_ofld_reset_entry e = _phl_pkt_ofld_init_entry (e_macid e).
Proof.
  intros [Hl Hi]. unfold _phl_pkt_ofld_reset_entry, _phl_pkt_ofld_init_entry. f_equal.
  change (Z.to_nat PKT_OFLD_TYPE_MAX) with 12%nat. rewrite <- Hl. clear Hl.
  induction Hi as [|i l Hi _ IH]; [done|]. cbn [map length replicate]. by rewrite reset_info_eq, IH by done.
Qed.

Lemma init_entry_ok m : entry_ok (_phl_pkt_ofld_init_entry m).
Proof. constructor; [done|]. cbn. repeat constructor; done. Qed.

Lemma init_entry_ids m : live_ids (_phl_pkt_ofld_init_entry m) = [].
Proof. reflexivity. Qed.

Lemma reset_all_eq q :
  Forall entry_ok q -> map _phl_pkt_ofld_reset_entry q = map (fun e => _phl_pkt_ofld_init_entry (e_macid e)) q.
Proof.
  induction 1 as [|e q He _ IH]; [done|]. cbn [map]. by rewrite reset_entry_eq, IH by done.
Qed.

Lemma reset_all_ids q : Forall entry_ok q -> all_ids (map _phl_pkt_ofld_reset_entry q) = [].
Proof.
  intros Hq. rewrite reset_all_eq by done. unfold all_ids. rewrite map_map.
  induction Hq as [|e q He _ IH]; [done|]. cbn [map concat]. by rewrite init_entry_ids, IH.
Qed.

(** ** Lookups and updates *)

Lemma get_entry_Some o m n e :
  _phl_pkt_ofld_get_entry o m = Some (n, e) -> entry_q o !! n = Some e /\ e_macid e = m.
Proof.
  unfold _phl_pkt_ofld_get_entry. intros E. apply list_find_Some in E as (H1 & H2 & _).
  split; [done|]. unfold has_macid in H2. destruct (Z.eqb_spec (e_macid e) m); [done|].
  by apply Is_true_true in H2.
Qed.

Lemma map_macid_insert q n e (l : list pkt_ofld_info) :
  q !! n = Some e -> map e_macid (<[n := mkEntry (e_macid e) l]> q) = map e_macid q.
Proof.
  revert n. induction q as [|x q IH]; intros [|n] Hn; cbn in Hn |- *; [done..| |].
  - by injection Hn as ->.
  - by rewrite IH.
Qed.

Lemma put_info_ok o n e t i' :
  obj_ok o -> entry_q o !! n = Some e -> info_ok i' -> obj_ok (put_info n e t i' o).
Proof.
  intros [He Hm Hc] Hn Hi. constructor; cbn.
  - apply Forall_insert; [done|]. rewrite Forall_lookup in He. destruct (He n e Hn) as [Hl Hf].
    constructor; cbn; [by rewrite length_insert|]. by apply Forall_insert.
  - by rewrite map_macid_insert.
  - unfold zlen. by rewrite length_insert.
Qed.

Lemma entry_info o n e t i :
  obj_ok o -> entry_q o !! n = Some e -> pkt_info e !! t = Some i -> info_ok i.
Proof.
  intros [He _ _] Hn Ht. rewrite Forall_lookup in He. destruct (He n e Hn) as [_ Hf].
  rewrite Forall_lookup in Hf. by eapply Hf.
Qed.

(** The object apart from the oracle and the sequence number. *)
Definition same_entries (o o' : pkt_ofld_obj) : Prop := entry_q o' = entry_q o /\ entry_cnt o' = entry_cnt o.

Lemma same_obj_ok o o' : same_entries o o' -> obj_ok o -> obj_ok o'.
Proof. intros [E1 E2] []. constructor; rewrite ?E1, ?E2; done. Qed.

Lemma alloc_same o b o' : os_mem_alloc o = (b, o') -> same_entries o o'.
Proof. unfold os_mem_alloc. destruct (o_mallocs o); intros [= <- <-]; done. Qed.

Lemma gen_req_same o r o' : _phl_pkt_ofld_gen_req o = (r, o') -> same_entries o o'.
Proof.
  unfold _phl_pkt_ofld_gen_req. destruct (os_mem_alloc o) as [b1 o1] eqn:E1. apply alloc_same in E1 as [A1 A2].
  destruct b1; cbn [negb]; [|intros [= <- <-]; done].
  destruct (os_mem_alloc _) as [b2 o2] eqn:E2. apply alloc_same in E2 as [B1 B2].
  destruct b2; intros [= <- <-]; split; cbn in *; congruence.
Qed.

Lemma with_buf_same o m st pkt o' : with_buf o m = Ok (st, pkt, o') -> same_entries o o'.
Proof.
  unfold with_buf. destruct (os_mem_alloc o) as [b o1] eqn:E. apply alloc_same in E.
  destruct b; cbn [negb]; intros Hr.
  - apply bind_Ok_inv in Hr as (x & _ & Hr). injection Hr as <- <- <-. done.
  - injection Hr as <- <- <-. done.
Qed.

Lemma construct_same o m t b st pkt o' :
  _phl_pkt_ofld_construct_packet o m t b = Ok (st, pkt, o') -> same_entries o o'.
Proof.
  unfold _phl_pkt_ofld_construct_packet. intros E.
  repeat match type of E with
         | (if ?c then _ else _) = _ => destruct c
         | match ?c with Some _ => _ | None => _ end = _ => destruct c
         | match ?c with NullInfo _ _ _ => _ | _ => _ end = _ => destruct c
         end; try discriminate E; try (by eapply with_buf_same).
  injection E as <- <- <-. done.
Qed.

(** ** Every operation keeps the invariant *)

Section Ops.
Context {H : Type} `{HalOfldOk H}.

Record state_ok (o : pkt_ofld_obj) (h : H) : Prop := {
  so_obj : obj_ok o;
  so_hal : hal_inv h;
  so_nodup : NoDup (all_ids (entry_q o));
  so_taken : forall x, x ∈ all_ids (entry_q o) -> hal_taken h x
}.

Lemma state_ok_same o o' h : same_entries o o' -> state_ok o h -> state_ok o' h.
Proof.
  intros [E1 E2] [? ? ? ?]. constructor; rewrite ?E1; try done. by apply (same_obj_ok o o').
Qed.

(** The records that a step may leave: same identifiers, one fewer, one new. *)
Lemma put_state_ok o h h' n e t i i' :
  state_ok o h -> hal_inv h' -> (forall x, (one i' = [] -> x ∉ one i) -> hal_taken h x -> hal_taken h' x) ->
  entry_q o !! n = Some e -> pkt_info e !! t = Some i -> info_ok i' ->
  (one i' = [] \/ one i' = one i \/ exists x, one i' = [x] /\ ~ hal_taken h x /\ hal_taken h' x) ->
  state_ok (put_info n e t i' o) h'.
Proof.
  intros [Ho Hh Hn Ht] Hh' Hk En Et Hi Hc.
  destruct (all_ids_put (entry_q o) n e t i i' En Et) as (rest & P1 & P2).
  rewrite P1 in Hn. apply NoDup_app in Hn as (N1 & N2 & N3).
  assert (Hrest : forall x, x ∈ rest -> hal_taken h' x).
  { intros x Hx. apply Hk; [intros _ Hin; by apply (N2 x)|]. apply Ht. rewrite P1. set_solver. }
  constructor; [by apply put_info_ok|done| |]; cbn [entry_q put_info set_entry_q].
  - rewrite P2. destruct Hc as [-> |[-> |(x & -> & Hx & _)]]; [done| |].
    + by apply NoDup_app.
    + apply NoDup_cons. split; [|done]. intros Hin. apply Hx, Ht. rewrite P1. set_solver.
  - intros x Hx. rewrite P2 in Hx. apply elem_of_app in Hx as [Hx|Hx]; [|auto].
    destruct Hc as [E|[E|(y & E & _ & Hy)]]; rewrite E in Hx.
    + by apply not_elem_of_nil in Hx.
    + apply Hk; [|apply Ht; rewrite P1; set_solver]. intros E'. rewrite E' in E. rewrite <- E in Hx.
      by apply not_elem_of_nil in Hx.
    + apply list_elem_of_singleton in Hx as ->. done.
Qed.

Lemma one_not_used q n : one (mkInfo NOT_USED q n) = [].
Proof. reflexivity. Qed.
Lemma one_live i : _phl_pkt_ofld_is_pkt_ofld i = false -> one i = [].
Proof. unfold _phl_pkt_ofld_is_pkt_ofld, one. by destruct (i_id i =? NOT_USED). Qed.

Lemma req_type_ok o e t i b h st i' o' h' :
  _phl_pkt_ofld_req_type o e t i b h = Ok (st, i', o', h') -> hal_inv h ->
  same_entries o o' /\ hal_inv h' /\ (forall x, hal_taken h x -> hal_taken h' x) /\
  req_q i' = req_q i /\ req_cnt i' = req_cnt i /\
  (st <> RTW_PHL_STATUS_SUCCESS -> one i' = []) /\
  (one i' = [] \/ one i' = one i \/ exists x, one i' = [x] /\ ~ hal_taken h x /\ hal_taken h' x).
Proof.
  unfold _phl_pkt_ofld_req_type. intros E Hh. destruct (_phl_pkt_ofld_is_pkt_ofld i) eqn:Hp.
  { injection E as <- <- <- <-. repeat (split; [done|]). right. by left. }
  apply one_live in Hp. apply bind_Ok_inv in E as ([[st1 pkt] o1] & Ec & E). apply construct_same in Ec.
  destruct st1; try (injection E as <- <- <- <-; repeat (split; [done|]); by left).
  destruct (hal_pkt_add pkt (zlen pkt) (i_id i) h) as [[hst id] h1] eqn:Ea.
  destruct (hal_add_ok _ _ _ _ _ _ _ Ea Hh) as (A1 & A2 & A3).
  destruct (Z.eqb_spec hst RTW_HAL_STATUS_SUCCESS) as [Hs|]; cbn [negb] in E;
    [|injection E as <- <- <- <-; repeat (split; [done|]); by left].
  destruct (A3 Hs) as [A4 A5].
  destruct (hal_pkt_update_ids _ _ h1) as [hst2 h2] eqn:Eu. destruct (hal_update_ok _ _ _ _ _ Eu A1) as (U1 & U2).
  assert (Hk : forall x, hal_taken h x -> hal_taken h2 x) by auto.
  destruct (hst2 =? RTW_HAL_STATUS_SUCCESS); cbn [negb] in E; injection E as <- <- <- <-.
  - repeat (split; [done|]). unfold one. cbn. destruct (id =? NOT_USED); [by left|]. right. right. exists id. auto.
  - repeat (split; [done|]). by left.
Qed.

Lemma del_head t q : del_token t (t :: q) = q.
Proof. cbn. by rewrite Z.eqb_refl. Qed.

Lemma one_id i i' : i_id i' = i_id i -> one i' = one i.
Proof. unfold one. by intros ->. Qed.

Lemma request_ok m ty b o h st tok o' h' :
  phl_pkt_ofld_request m ty b o h = Ok (st, tok, o', h') -> state_ok o h -> state_ok o' h'.
Proof.
  unfold phl_pkt_ofld_request. intros E Hs.
  destruct (_phl_pkt_ofld_get_entry o m) as [[n e]|] eqn:Eg; [|by injection E as <- <- <- <-].
  apply get_entry_Some in Eg as [En _].
  destruct (_phl_pkt_ofld_gen_req o) as [r o1] eqn:Er. apply gen_req_same in Er as Sr.
  assert (Hs1 : state_ok o1 h) by (by apply (state_ok_same o)).
  destruct r as [t|]; [|by injection E as <- <- <- <-].
  destruct (pkt_info e !! Z.to_nat ty) as [i|] eqn:Ei; [|discriminate E].
  assert (En1 : entry_q o1 !! n = Some e) by (destruct Sr as [-> _]; done).
  apply bind_Ok_inv in E as ([[[st1 i1] o2] h1] & Eq & E).
  destruct (req_type_ok _ _ _ _ _ _ _ _ _ _ Eq (so_hal o1 h Hs1)) as (R1 & R2 & R3 & R4 & R5 & R6 & R7).
  assert (Hs2 : state_ok o2 h) by (by apply (state_ok_same o1)).
  assert (En2 : entry_q o2 !! n = Some e) by (destruct R1 as [-> _]; done).
  pose proof (entry_info o1 n e _ i (so_obj o1 h Hs1) En1 Ei) as Hi.
  pose proof (add_req_ok t i Hi) as [Hi1 _].
  assert (Hput : forall j, put_info n (mkEntry (e_macid e) (<[Z.to_nat ty := _phl_pkt_ofld_add_req t i]> (pkt_info e)))
                    (Z.to_nat ty) j o2 = put_info n e (Z.to_nat ty) j o2).
  { intros j. unfold put_info. cbn. by rewrite list_insert_insert_eq. }
  assert (Hok : forall j, info_ok j -> one j = [] \/ i_id j = i_id i1 -> state_ok (put_info n e (Z.to_nat ty) j o2) h1).
  { intros j Hj Hid. eapply put_state_ok with (i := i); eauto.
    destruct Hid as [?|Hid]; [by left|]. rewrite (one_id _ _ Hid).
    destruct R7 as [?|[?|?]]; [by left| |by do 2 right]. right. left. etransitivity; [eassumption|]. by apply one_id. }
  assert (Hfail : one i1 = [] -> state_ok (put_info n e (Z.to_nat ty) (_phl_pkt_ofld_del_req t i1) o2) h1).
  { intros R. apply Hok; [|by right]. apply del_req_ok; rewrite ?R4, ?R5; [by rewrite Hi1|cbn; by rewrite Z.eqb_refl|].
    intros Hne. exfalso. unfold one in R. destruct (Z.eqb_spec (i_id i1) NOT_USED); done. }
  destruct st1; injection E as <- <- <- <-; rewrite Hput; try (apply Hfail, R6; discriminate).
  apply Hok; [|by right]. split; [by rewrite R5, R4|]. rewrite R4. done.
Qed.

Lemma cancel_type_ok i h st i' h' :
  _phl_pkt_ofld_cancel_type i h = (st, i', h') -> hal_inv h -> (forall x, x ∈ one i -> hal_taken h x) -> info_ok i ->
  hal_inv h' /\ (forall x, (one i' = [] -> x ∉ one i) -> hal_taken h x -> hal_taken h' x) /\
  (one i' = [] \/ one i' = one i) /\ req_q i' = req_q i /\ req_cnt i' = req_cnt i /\
  (st <> RTW_PHL_STATUS_SUCCESS -> i' = i) /\
  (st = RTW_PHL_STATUS_SUCCESS -> i_id i' <> NOT_USED -> u32 (zlen (req_q i) - 1) <> 0).
Proof.
  unfold _phl_pkt_ofld_cancel_type. intros E Hh Ht Hi.
  destruct (_phl_pkt_ofld_is_pkt_ofld i) eqn:Hp; cbn [negb] in E;
    [|injection E as <- <- <-; split_and!; try done; by right].
  destruct (Z.eqb_spec (u32 (req_cnt i - 1)) 0) as [Hz|Hz]; cbn [negb] in E.
  - destruct (hal_pkt_del (i_id i) h) as [hst h1] eqn:Ed.
    assert (Ho : one i = [i_id i]) by (unfold one; unfold _phl_pkt_ofld_is_pkt_ofld in Hp; by destruct (i_id i =? NOT_USED)).
    destruct (hal_del_ok _ _ _ _ Ed) as (D1 & D2 & D3); [apply Ht; rewrite Ho; set_solver|done|].
    destruct (Z.eqb_spec hst RTW_HAL_STATUS_SUCCESS) as [->|Hf]; cbn [negb] in E; injection E as <- <- <-.
    + split; [done|]. split; [|split; [by left|done]]. intros x Hx. apply D2. intros ->. apply Hx; [done|].
      rewrite Ho. set_solver.
    + split; [done|]. split; [intros x _; by apply D3|]. split; [by right|]. done.
  - injection E as <- <- <-. destruct Hi as [Hc _]. split_and!; try done; [by right|].
    intros _ _ Hq. apply Hz. by rewrite Hc, u32_idem_sub.
Qed.

Lemma cancel_ok m ty tok o h st o' h' :
  phl_pkt_ofld_cancel m ty tok o h = Ok (st, o', h') -> state_ok o h -> state_ok o' h'.
Proof.
  unfold phl_pkt_ofld_cancel. intros E Hs.
  destruct (_phl_pkt_ofld_get_entry o m) as [[n e]|] eqn:Eg; [|by injection E as <- <- <-].
  apply get_entry_Some in Eg as [En _].
  destruct (pkt_info e !! Z.to_nat ty) as [i|] eqn:Ei; [|discriminate E].
  destruct (_phl_pkt_ofld_get_req i tok) eqn:Er; cbn [negb] in E; [|by injection E as <- <- <-].
  destruct (_phl_pkt_ofld_cancel_type i h) as [[st1 i1] h1] eqn:Ec.
  pose proof (entry_info o n e _ i (so_obj o h Hs) En Ei) as Hi.
  destruct (all_ids_put (entry_q o) n e _ i i En Ei) as (rest & P1 & _).
  destruct (cancel_type_ok _ _ _ _ _ Ec (so_hal o h Hs)) as (C1 & C2 & C3 & C4 & C5 & C6 & C7); [|done|].
  { intros x Hx. apply (so_taken o h Hs). rewrite P1. set_solver. }
  assert (Hok : forall j, info_ok j -> one j = one i1 -> state_ok (put_info n e (Z.to_nat ty) j o) h1).
  { intros j Hj Hid. eapply put_state_ok with (i := i); eauto; rewrite Hid; [exact C2|].
    destruct C3; [by left|right; by left]. }
  destruct st1; injection E as <- <- <-; try (rewrite C6 by discriminate; rewrite C6 in Hok by discriminate; by apply Hok).
  apply Hok; [|done]. pose proof Hi as [Hc _]. apply del_req_ok; rewrite ?C4, ?C5; [done|done|].
  intros Hne Hq. apply (C7 eq_refl Hne). rewrite <- (del_token_length tok) by done. by rewrite Hq.
Qed.

Lemma add_entry_ok m o h st o' h' :
  phl_pkt_ofld_add_entry m o h = (st, o', h') -> state_ok o h -> state_ok o' h'.
Proof.
  unfold phl_pkt_ofld_add_entry. intros E Hs.
  destruct (_phl_pkt_ofld_is_entry_exist o m) eqn:Ee; [by injection E as <- <- <-|].
  destruct (os_mem_alloc o) as [b o1] eqn:Ea. apply alloc_same in Ea as Sa.
  assert (Hs1 : state_ok o1 h) by (by apply (state_ok_same o)).
  destruct b; cbn [negb] in E; [|by injection E as <- <- <-].
  unfold _phl_pkt_ofld_add_entry in E.
  destruct (hal_pkt_update_ids _ _ h) as [hst h1] eqn:Eu. cbn in E. injection E as <- <- <-.
  destruct Hs1 as [[He Hm Hc] Hh Hn Ht]. destruct (hal_update_ok _ _ _ _ _ Eu Hh) as (U1 & U2).
  constructor; [constructor|done| |]; cbn -[u32].
  - constructor; [apply init_entry_ok|done].
  - apply NoDup_cons. split; [|done]. destruct Sa as [-> _]. intros Hin.
    apply list_elem_of_In, List.in_map_iff in Hin as (e & <- & Hin).
    assert (existsb (has_macid (e_macid e)) (entry_q o) = true); [|unfold _phl_pkt_ofld_is_entry_exist in Ee; congruence].
    apply existsb_exists. exists e. split; [done|]. apply Z.eqb_refl.
  - rewrite Hc, u32_idem_add. f_equal. rewrite zlen_cons. lia.
  - exact Hn.
  - intros x Hx. apply U2, Ht, Hx.
Qed.

Lemma del_loop_ok l h :
  hal_inv h -> NoDup (concat (map one l)) -> (forall x, x ∈ concat (map one l) -> hal_taken h x) ->
  hal_inv (del_ofld_loop l h) /\
  (forall x, x ∉ concat (map one l) -> hal_taken h x -> hal_taken (del_ofld_loop l h) x).
Proof.
  revert h. induction l as [|i l IH]; intros h Hh Hn Ht; [done|]. cbn [map concat del_ofld_loop] in *.
  apply NoDup_app in Hn as (N1 & N2 & N3).
  destruct (_phl_pkt_ofld_is_pkt_ofld i) eqn:Hp.
  - assert (Ho : one i = [i_id i]) by (unfold one; unfold _phl_pkt_ofld_is_pkt_ofld in Hp; by destruct (i_id i =? NOT_USED)).
    rewrite Ho in *. destruct (hal_pkt_del (i_id i) h) as [hst h1] eqn:Ed. cbn [snd].
    destruct (hal_del_ok _ _ _ _ Ed) as (D1 & D2 & _); [apply Ht; set_solver|done|].
    destruct (IH h1 D1 N3) as [I1 I2].
    { intros x Hx. apply D2; [|apply Ht; set_solver]. intros ->. apply (N2 (i_id i)); set_solver. }
    split; [done|]. intros x Hx Htx. apply I2; [set_solver|]. apply D2; [set_solver|done].
  - rewrite (one_live i Hp) in *. destruct (IH h Hh N3) as [I1 I2]; [set_solver|]. split; [done|]. set_solver.
Qed.

Lemma delete_insert_same {A} (l : list A) n x : delete n (<[n := x]> l) = delete n l.
Proof. revert n. induction l as [|y l IH]; intros [|n]; cbn; [done..|]. f_equal. apply IH. Qed.

Lemma length_delete_eq {A} (l : list A) n x : l !! n = Some x -> zlen (delete n l) = zlen l - 1.
Proof.
  intros Hn. unfold zlen. rewrite length_delete by eauto. apply lookup_lt_Some in Hn. lia.
Qed.

Lemma NoDup_map_delete {A B} (f : A -> B) (l : list A) n : NoDup (map f l) -> NoDup (map f (delete n l)).
Proof.
  revert n. induction l as [|x l IH]; intros [|n] Hn; cbn in *; [done..| |].
  - by apply NoDup_cons in Hn as [_ ?].
  - apply NoDup_cons in Hn as [Hx Hl]. apply NoDup_cons. split; [|by apply IH].
    intros Hin. apply Hx. apply list_elem_of_In, List.in_map_iff in Hin as (y & <- & Hy).
    apply list_elem_of_In, List.in_map. apply list_elem_of_In in Hy. apply list_elem_of_In.
    clear -Hy. revert n Hy. induction l as [|z l IH]; intros [|n] Hy; cbn in *; set_solver.
Qed.

Lemma del_entry_ok m o h st o' h' :
  phl_pkt_ofld_del_entry m o h = (st, o', h') -> state_ok o h -> state_ok o' h'.
Proof.
  unfold phl_pkt_ofld_del_entry. intros E Hs.
  destruct (_phl_pkt_ofld_get_entry o m) as [[n e]|] eqn:Eg; [|by injection E as <- <- <-].
  apply get_entry_Some in Eg as [En _]. injection E as <- <- <-. destruct Hs as [[He Hm Hc] Hh Hn Ht].
  pose proof (all_ids_delete (entry_q o) n e En) as P. rewrite P in Hn. apply NoDup_app in Hn as (N1 & N2 & N3).
  destruct (del_loop_ok (pkt_info e) h Hh N1) as [D1 D2].
  { intros x Hx. apply Ht. rewrite P. apply elem_of_app. by left. }
  constructor; [constructor|exact D1| |]; cbn -[u32]; rewrite delete_insert_same.
  - by apply Forall_delete.
  - by apply NoDup_map_delete.
  - rewrite Hc, u32_idem_sub. f_equal. by erewrite length_delete_eq.
  - exact N3.
  - intros x Hx. apply D2; [|apply Ht; rewrite P; apply elem_of_app; by right]. intros Hx'. by apply (N2 x).
Qed.

Lemma reset_all_ok o h : state_ok o h -> state_ok (phl_pkt_ofld_reset_all_entry o) h.
Proof.
  intros [[He Hm Hc] Hh Hn Ht].
  constructor; [constructor|done| |]; cbn [entry_q phl_pkt_ofld_reset_all_entry set_entry_q entry_cnt].
  - rewrite reset_all_eq by done. apply Forall_map, Forall_true. intros e. apply init_entry_ok.
  - rewrite reset_all_eq by done. by rewrite map_map.
  - unfold zlen. by rewrite length_map.
  - rewrite reset_all_ids by done. constructor.
  - rewrite reset_all_ids by done. intros x Hx. by apply not_elem_of_nil in Hx.
Qed.

(** ** Runs *)

(** Calls of any module in any order, and the HAL moving on by itself. *)
Inductive ofld_step : pkt_ofld_obj * H -> pkt_ofld_obj * H -> Prop :=
  | StAddEntry m o h st o' h' : phl_pkt_ofld_add_entry m o h = (st, o', h') -> ofld_step (o, h) (o', h')
  | StDelEntry m o h st o' h' : phl_pkt_ofld_del_entry m o h = (st, o', h') -> ofld_step (o, h) (o', h')
  | StRequest m ty b o h st tok o' h' :
      phl_pkt_ofld_request m ty b o h = Ok (st, tok, o', h') -> ofld_step (o, h) (o', h')
  | StCancel m ty tok o h st o' h' :
      phl_pkt_ofld_cancel m ty tok o h = Ok (st, o', h') -> ofld_step (o, h) (o', h')
  | StReset o h : ofld_step (o, h) (phl_pkt_ofld_reset_all_entry o, h)
  | StMove o h h' : hal_move h h' -> ofld_step (o, h) (o, h').

Lemma step_ok s s' : ofld_step s s' -> state_ok (fst s) (snd s) -> state_ok (fst s') (snd s').
Proof.
  intros [m o h st o' h' E|m o h st o' h' E|m ty b o h st tok o' h' E|m ty tok o h st o' h' E|o h|o h h' E] Hs; cbn in *.
  - by eapply add_entry_ok.
  - by eapply del_entry_ok.
  - by eapply request_ok.
  - by eapply cancel_ok.
  - by apply reset_all_ok.
  - destruct Hs as [Ho Hh Hn Ht]. destruct (hal_move_ok _ _ E Hh). constructor; auto.
Qed.

Lemma reach_ok s s' : rtc ofld_step s s' -> state_ok (fst s) (snd s) -> state_ok (fst s') (snd s').
Proof. induction 1 as [|s1 s2 s3 Hst _ IH]; [done|]. intros Hs. apply IH. by eapply step_ok. Qed.

Lemma init_state_ok ml sta h : hal_inv h -> state_ok (mkOfld [] 0 0 ml sta) h.
Proof.
  intros Hh. constructor; [constructor|done| |]; cbn; try done; try constructor.
  intros x Hx. by apply not_elem_of_nil in Hx.
Qed.
End Ops.
