(* ===== verification/PktOfldThm.v ===== *)
(** * Packet offload: the PHL on top of the MAC layer

    The MAC layer keeps the promises the PHL relies on, when the firmware answers
    in order.  Then what the two layers record about a packet agrees in every
    run; a command that cannot be built, and the last identifier, break what the
    PHL means to do. *)

From S2P Require Import Prelude PhlDef IeBuf FwOfld FwOfldInv PktOfld PktOfldInv.

(** ** The HAL over the MAC layer *)

#[export] Instance mac_hal_ofld : HalOfld adapter := {
  hal_pkt_add := _hal_mac_add_pkt_ofld;
  hal_pkt_del := _hal_mac_del_pkt_ofld;
  hal_pkt_update_ids := rtw_hal_mac_pkt_update_ids
}.

#[export] Program Instance mac_hal_ofld_ok : HalOfldOk adapter := {
  hal_inv := ofld_inv;
  hal_taken := taken;
  hal_move a b := exists n, b = deliver n a
}.
Next Obligation.
  intros pkt len id h st id' h' E Hi. destruct (hal_add_inv _ _ _ _ _ _ _ E Hi) as (H1 & H2 & H3).
  split; [done|]. split; [done|]. intros Hst. by apply H3.
Qed.
Next Obligation.
  intros id h st h' E Ht Hi. destruct (hal_del_inv _ _ _ _ E) as (H1 & H2 & H3); [|done|auto].
  destruct Ht as [Hb _]. unfold byte in Hb. lia.
Qed.
Next Obligation. intros macid ids h st h' E Hi. by eapply hal_update_inv. Qed.
Next Obligation. intros h h' [n ->] Hi. by apply deliver_inv. Qed.

(** ** A firmware that does what it is asked *)

(** The identifier and the operation are read back from the command. *)
Definition fw_answer (func : Z) (payload : list Z) : list c2h :=
  if func =? FP then
    [RecAck FP; PktOfldRsp (Z.land (nth 1 payload 0) 7) 1 (nth 0 payload 0) []; DoneAck FP MACSUCCESS]
  else [].

Lemma dword_id id op len : byte id -> u8 (Z.lor (Z.lor (SET_WORD id 255 0) (SET_WORD op 7 8)) (SET_WORD len 65535 16)) = id.
Proof.
  intros Hid. unfold u8, byte in *. change 256 with (2 ^ 8). rewrite <- Z.land_ones by lia. apply Z.bits_inj'. intros k Hk.
  rewrite Z.land_spec, !Z.lor_spec. unfold SET_WORD. change 255 with (Z.ones 8). rewrite Z.shiftl_0_r, Z.land_spec.
  destruct (Z.lt_ge_cases k 8).
  - rewrite Z.ones_spec_low, !Z.shiftl_spec_low by lia. by rewrite !andb_true_r, !orb_false_r.
  - rewrite !Z.ones_spec_high, !andb_false_r by lia. symmetry. destruct (Z.eq_dec id 0) as [->|]; [apply Z.testbit_0_l|].
    apply Z.bits_above_log2; [lia|]. apply Z.lt_le_trans with 8; [|lia]. apply Z.log2_lt_pow2; lia.
Qed.

Lemma dword_op id op len : 0 <= op < 8 ->
  Z.land (u8 (Z.shiftr (Z.lor (Z.lor (SET_WORD id 255 0) (SET_WORD op 7 8)) (SET_WORD len 65535 16)) 8)) 7 = op.
Proof.
  intros Hop. unfold u8. change 256 with (2 ^ 8). rewrite <- Z.land_ones by lia. rewrite <- Z.land_assoc.
  change (Z.land (Z.ones 8) 7) with (Z.ones 3). apply Z.bits_inj'. intros k Hk.
  rewrite Z.land_spec, Z.shiftr_spec, !Z.lor_spec by lia. unfold SET_WORD. change 255 with (Z.ones 8). change 7 with (Z.ones 3).
  rewrite Z.shiftl_0_r, Z.land_spec, Z.ones_spec_high, andb_false_r by lia. cbn [orb].
  rewrite Z.shiftl_spec, Z.land_spec by lia. replace (k + 8 - 8) with k by lia.
  destruct (Z.lt_ge_cases k 3).
  - rewrite Z.ones_spec_low, Z.shiftl_spec_low by lia. by rewrite !andb_true_r, orb_false_r.
  - rewrite !Z.ones_spec_high, !andb_false_r by lia. symmetry. destruct (Z.eq_dec op 0) as [->|]; [apply Z.testbit_0_l|].
    apply Z.bits_above_log2; [lia|]. apply Z.lt_le_trans with 3; [|lia]. apply Z.log2_lt_pow2; lia.
Qed.

Lemma fw_answer_eq op id len pkt : pkt_op op -> byte id ->
  fw_answer FP (pkt_ofld_dword id op len ++ pkt) = [RecAck FP; PktOfldRsp op 1 id []; DoneAck FP MACSUCCESS].
Proof.
  intros Hop Hid. unfold fw_answer. cbn [Z.eqb]. unfold pkt_ofld_dword, le32. cbn [app nth].
  rewrite dword_id by done. rewrite dword_op by (destruct Hop as [->|[->| ->]]; cbv; intuition discriminate). done.
Qed.

Lemma fw_answer_ok early : outcome_ok (H2cSent fw_answer early).
Proof.
  split; [|done]. intros op id len pkt Hop Hid. rewrite fw_answer_eq by done. by constructor.
Qed.

Lemma adapter0_inv outs mv ml : Forall outcome_ok outs -> ofld_inv (mac_8852b_adapter outs mv ml).
Proof.
  intros Ho. apply phase_end_inv; [by constructor|by left|done].
Qed.

(** ** Identifiers of packets *)

(** The commands of the MAC layer in any order, with messages arriving between
    them. *)
Inductive fw_step : adapter -> adapter -> Prop :=
  | FwAdd pkt len id a st id' a' : _hal_mac_add_pkt_ofld pkt len id a = (st, id', a') -> fw_step a a'
  | FwDel id a st a' : 0 <= id -> _hal_mac_del_pkt_ofld id a = (st, a') -> fw_step a a'
  | FwRead id a st a' : 0 <= id -> _hal_mac_read_pkt_ofld id a = (st, a') -> fw_step a a'
  | FwGet a st a' : _hal_mac_get_pkt_ofld a = (st, a') -> fw_step a a'
  | FwUpdate macid ids a st a' : rtw_hal_mac_pkt_update_ids macid ids a = (st, a') -> fw_step a a'
  | FwMsgs n a : fw_step a (deliver n a).

Lemma hal_get_inv a st a' : _hal_mac_get_pkt_ofld a = (st, a') -> ofld_inv a -> ofld_inv a'.
Proof.
  unfold _hal_mac_get_pkt_ofld. intros E Hinv. destruct (negb (mac_ok a)); [by injection E as <- <-|].
  unfold mac_pkt_ofld_packet in E.
  destruct (Z.eqb_spec (pkt_ofld a) MAC_AX_OFLD_H2C_DONE) as [Hd|]; cbn [negb] in E; [|by injection E as <- <-].
  destruct (next_malloc a) as [ok b] eqn:Em.
  assert (Hb : same_ofld a b /\ used_id_count b = used_id_count a /\ free_id_count b = free_id_count a /\ outcomes b = outcomes a).
  { unfold next_malloc in Em. destruct (mallocs a); by injection Em as <- <-. }
  destruct Hb as ((E1 & E2 & E3 & E4) & E5 & E6 & E7). destruct Hinv as (Hb & op & id & bm0 & Hop & Hid & Hp).
  assert (Hbb : base_inv b) by (by eapply base_fields). assert (Hpb : phase op id bm0 b) by (by eapply phase_fields).
  destruct (negb ok); injection E as <- <-; [split; [done|by exists op, id, bm0]|].
  apply phase_end_inv; [by eapply base_fields; [..|exact Hbb]|by left|].
  destruct Hpb as [_ Hp'|_ Hp'|len Hp'|]; [rewrite E1, Hd in Hp'; discriminate Hp'..|done].
Qed.

Lemma hal_read_inv id a st a' : 0 <= id -> _hal_mac_read_pkt_ofld id a = (st, a') -> ofld_inv a -> ofld_inv a'.
Proof.
  intros Hid. unfold _hal_mac_read_pkt_ofld. intros E Hinv. destruct (negb (mac_ok a)); [by injection E as <- <-|].
  destruct (mac_read_pkt_ofld id a) as [st1 b] eqn:Er.
  assert (Hb : ofld_inv b).
  { unfold mac_read_pkt_ofld in Er. destruct (negb (fwdl_rdy a)); [by injection Er as <- <-|].
    destruct (Z.eqb_spec id (PKT_OFLD_MAX_COUNT - 1)); [by injection Er as <- <-|].
    rewrite get_bitmap_bit in Er by done. destruct (bit_in (id_bitmap a) id) eqn:Hbit; cbn [negb] in Er; [|by injection Er as <- <-].
    destruct (cmd_ok _ _ _ _ _ Er Hinv) as (C1 & _); [|done].
    split; [by do 2 right|]. split; [|done].
    unfold byte. split; [done|]. destruct (Z.lt_ge_cases id 256); [done|]. exfalso.
    unfold bit_in in Hbit. destruct Hinv as [[Hl _ _ _] _]. rewrite nth_overflow, Z.testbit_0_l in Hbit by lia. done. }
  destruct (negb (st1 =? MACSUCCESS)); [by injection E as <- <-|].
  unfold _hal_mac_chk_pkt_ofld in E. destruct (negb (mac_ok b)); [by injection E as <- <-|].
  destruct (chk_loop POLLING_HALMAC_CNT b) as [st2 c] eqn:Ec.
  assert (Hc : ofld_inv c).
  { destruct Hb as (Hb & op & i & bm0 & Hop & Hi & Hp). destruct (chk_loop_ok _ _ _ _ _ _ _ Ec Hb Hp) as (C1 & C2 & _).
    split; [done|by exists op, i, bm0]. }
  destruct (negb (st2 =? MACSUCCESS)); [by injection E as <- <-|].
  destruct (_hal_mac_get_pkt_ofld c) as [st3 d] eqn:Eg. injection E as <- <-. by eapply hal_get_inv.
Qed.

Lemma fw_step_inv a a' : fw_step a a' -> ofld_inv a -> ofld_inv a'.
Proof.
  intros [pkt len id h st id' h' E|id h st h' Hid E|id h st h' Hid E|h st h' E|macid ids h st h' E|n h] Hi.
  - by eapply hal_add_inv.
  - by eapply hal_del_inv.
  - by eapply hal_read_inv.
  - by eapply hal_get_inv.
  - by eapply hal_update_inv.
  - by apply deliver_inv.
Qed.

(** From the initial adapter, in every sequence of packet commands and
    firmware messages, used_id_count is the number of identifiers set in the
    bitmap, free_id_count is 256 minus it, and no message is on its way when
    the state is idle. *)
Theorem ofld_ids_invariant outs mv ml a :
  Forall outcome_ok outs -> rtc fw_step (mac_8852b_adapter outs mv ml) a ->
  used_id_count a = Z.of_nat (length (ids_used (id_bitmap a))) /\
  free_id_count a = PKT_OFLD_MAX_COUNT - used_id_count a /\
  (pkt_ofld a = MAC_AX_OFLD_H2C_IDLE -> inbox a = []).
Proof.
  intros Ho Hr. assert (Hi : ofld_inv a).
  { apply (adapter0_inv outs mv ml) in Ho. revert Ho. clear -Hr. induction Hr as [|x y z Hst _ IH]; [done|].
    intros Hx. apply IH. by eapply fw_step_inv. }
  pose proof Hi as [[_ Hu Hf _] _]. split; [done|]. split; [done|]. by apply idle_inbox.
Qed.

(** C31: In every run of station entries, requests, cancellations, deletions
    and resets over the MAC layer, with a firmware that answers commands in
    order, late, or not at all, the identifiers of offloaded packets are
    pairwise distinct and taken in the MAC layer's bitmap, every offloaded
    packet has a request, no station has two entries, and the counters are the
    lengths of their queues. *)
Theorem pkt_ids_distinct sta ml a o' a' :
  ofld_inv a -> rtc ofld_step (mkOfld [] 0 0 ml sta, a) (o', a') ->
  NoDup (all_ids (entry_q o')) /\
  (forall x, x ∈ all_ids (entry_q o') -> bit_in (id_bitmap a') x = true) /\
  Forall entry_ok (entry_q o') /\ NoDup (map e_macid (entry_q o')) /\ entry_cnt o' = u32 (zlen (entry_q o')).
Proof.
  intros Hi Hr. apply reach_ok in Hr as [[He Hm Hc] _ Hn Ht]; cbn [fst snd] in *; [|by apply init_state_ok].
  split; [done|]. split; [|done]. intros x Hx. by destruct (Ht x Hx) as (_ & ? & _).
Qed.

(** A firmware that answers every command, and a wait that sees the answer. *)
Definition good_adapter : adapter := mac_8852b_adapter (replicate 16 (H2cSent fw_answer 0)) (replicate 16 3%nat) [].

Lemma good_outs : Forall outcome_ok (replicate 16 (H2cSent fw_answer 0)).
Proof. apply Forall_replicate, fw_answer_ok. Qed.

Lemma good_inv : ofld_inv good_adapter.
Proof. apply adapter0_inv, good_outs. Qed.

Definition mac1 : list Z := [2; 0; 0; 0; 0; 1].
Definition mac2 : list Z := [2; 0; 0; 0; 0; 2].

(** An ARP response and an SA query of station 3, a null frame of station 4. *)
Lemma pkt_ids_distinct_witness :
  exists o' a', rtc ofld_step (mkOfld [] 0 0 [] (fun _ => Some PHL_RTYPE_STATION), good_adapter) (o', a') /\
    all_ids (entry_q o') = [2; 0; 1] /\ NoDup (all_ids (entry_q o')).
Proof.
  eexists _, _.
  match goal with |- ?P /\ _ => assert (Hr : P) end.
  { eapply rtc_l; [eapply (StAddEntry 3); vm_compute; reflexivity|].
    eapply rtc_l; [eapply (StRequest 3 PKT_TYPE_ARP_RSP (ArpRspInfo mac1 mac2 mac1 [10; 0; 0; 2] [10; 0; 0; 1] 8));
                   vm_compute; reflexivity|].
    eapply rtc_l; [eapply (StRequest 3 PKT_TYPE_SA_QUERY (SaQueryInfo mac1 mac2 mac1 8)); vm_compute; reflexivity|].
    eapply rtc_l; [eapply (StAddEntry 4); vm_compute; reflexivity|].
    eapply rtc_l; [eapply (StRequest 4 PKT_TYPE_NULL_DATA (NullInfo mac1 mac2 mac1)); vm_compute; reflexivity|].
    apply rtc_refl. }
  split; [exact Hr|]. split; [vm_compute; reflexivity|].
  exact (proj1 (pkt_ids_distinct _ _ _ _ _ good_inv Hr)).
Defined.

(** A packet is added, read back and deleted. *)
Lemma ofld_ids_invariant_witness :
  exists a, rtc fw_step good_adapter a /\ id_bitmap a = 1 :: replicate 31 0 /\
    used_id_count a = Z.of_nat (length (ids_used (id_bitmap a))).
Proof.
  eexists.
  match goal with |- ?P /\ _ => assert (Hr : P) end.
  { eapply rtc_l; [eapply (FwAdd [1; 2] 2 0); vm_compute; reflexivity|].
    eapply rtc_l; [eapply (FwAdd [3] 1 0); vm_compute; reflexivity|].
    eapply rtc_l; [eapply (FwDel 1); [lia|vm_compute; reflexivity]|].
    eapply rtc_l; [eapply (FwRead 0); [lia|vm_compute; reflexivity]|].
    apply rtc_refl. }
  split; [exact Hr|]. split; [vm_compute; reflexivity|].
  exact (proj1 (ofld_ids_invariant _ _ _ _ good_outs Hr)).
Defined.
