(* ===== verification/PktOfldErr.v ===== *)
(** * Packet offload: undoing requests, and what goes wrong

    A request that is cancelled leaves the entries as they were, for any HAL.
    With the MAC layer as the HAL: a command that could not be built blocks every
    later one; the last identifier cannot be told from "no identifier". *)

From S2P Require Import Prelude PhlDef IeBuf FwOfld FwOfldInv PktOfld PktOfldInv PktOfldThm.

(** ** Request and cancel *)

Section RoundTrip.
Context {H : Type} `{HalOfld H}.

Lemma alloc_sta o ok o' : os_mem_alloc o = (ok, o') -> o_sta o' = o_sta o.
Proof. unfold os_mem_alloc. destruct (o_mallocs o); intros [= <- <-]; done. Qed.

Lemma gen_req_sta o r o' : _phl_pkt_ofld_gen_req o = (r, o') -> o_sta o' = o_sta o.
Proof.
  unfold _phl_pkt_ofld_gen_req. destruct (os_mem_alloc o) as [b1 o1] eqn:E1. apply alloc_sta in E1.
  destruct b1; cbn [negb]; [|by intros [= <- <-]].
  destruct (os_mem_alloc _) as [b2 o2] eqn:E2. apply alloc_sta in E2. destruct b2; intros [= <- <-]; by rewrite E2.
Qed.

(** What a successful request does. *)
Lemma request_inv m ty b o h tok o' h' :
  phl_pkt_ofld_request m ty b o h = Ok (RTW_PHL_STATUS_SUCCESS, Some tok, o', h') ->
  exists n e i id, _phl_pkt_ofld_get_entry o m = Some (n, e) /\ pkt_info e !! Z.to_nat ty = Some i /\
    entry_q o' = <[n := mkEntry (e_macid e) (<[Z.to_nat ty := mkInfo id (tok :: req_q i) (u32 (req_cnt i + 1))]> (pkt_info e))]> (entry_q o) /\
    entry_cnt o' = entry_cnt o /\ (i_id i <> NOT_USED -> id = i_id i /\ h' = h) /\
    (i_id i = NOT_USED -> exists pkt h1, hal_pkt_add pkt (zlen pkt) NOT_USED h = (RTW_HAL_STATUS_SUCCESS, id, h1) /\
       hal_pkt_update_ids (e_macid e)
         (map i_id (<[Z.to_nat ty := mkInfo id (tok :: req_q i) (u32 (req_cnt i + 1))]> (pkt_info e))) h1 = (RTW_HAL_STATUS_SUCCESS, h') /\
       exists o2 o3, _phl_pkt_ofld_construct_packet o2 (e_macid e) (Z.of_nat (Z.to_nat ty)) b = Ok (RTW_PHL_STATUS_SUCCESS, pkt, o3) /\
         o_sta o2 = o_sta o).
Proof.
  unfold phl_pkt_ofld_request. intros E. destruct (_phl_pkt_ofld_get_entry o m) as [[n e]|]; [|done].
  destruct (_phl_pkt_ofld_gen_req o) as [[t|] o1] eqn:Eg; [|done]. pose proof (gen_req_sta _ _ _ Eg) as Hsta.
  apply gen_req_same in Eg as [Q1 C1].
  destruct (pkt_info e !! Z.to_nat ty) as [i|] eqn:Ei; [|done].
  apply bind_Ok_inv in E as ([[[st i2] o2] h2] & Eq & E).
  destruct st; try discriminate E. injection E as <- <- <-.
  exists n, e, i, (i_id i2). split; [done|]. split; [done|].
  unfold _phl_pkt_ofld_req_type in Eq. destruct (_phl_pkt_ofld_is_pkt_ofld _) eqn:Eu.
  - injection Eq as <- <- <-. cbn [put_info entry_q set_entry_q e_macid pkt_info entry_cnt _phl_pkt_ofld_add_req i_id] in *.
    rewrite list_insert_insert_eq, Q1, C1. split; [done|]. split; [done|]. split; [done|]. intros Hn.
    unfold _phl_pkt_ofld_is_pkt_ofld in Eu. cbn in Eu. rewrite Hn in Eu. done.
  - apply bind_Ok_inv in Eq as ([[st pkt] o3] & Ec & Eq). pose proof (construct_same _ _ _ _ _ _ _ Ec) as [Q2 C2].
    destruct st; try discriminate Eq.
    destruct (hal_pkt_add pkt _ _ h) as [[hst id] h3] eqn:Ea.
    destruct (Z.eqb_spec hst RTW_HAL_STATUS_SUCCESS) as [->|]; cbn [negb] in Eq; [|discriminate Eq].
    destruct (hal_pkt_update_ids _ _ h3) as [hst2 h4] eqn:Eup.
    destruct (Z.eqb_spec hst2 RTW_HAL_STATUS_SUCCESS) as [->|]; cbn [negb] in Eq; [|discriminate Eq].
    injection Eq as <- <- <-. cbn [put_info entry_q set_entry_q e_macid pkt_info entry_cnt _phl_pkt_ofld_add_req i_id req_q req_cnt] in *.
    rewrite list_insert_insert_eq, Q2, C2, Q1, C1.
    assert (Hn : i_id i = NOT_USED).
    { unfold _phl_pkt_ofld_is_pkt_ofld in Eu. cbn in Eu. by destruct (Z.eqb_spec (i_id i) NOT_USED). }
    split; [done|]. split; [done|]. split; [done|]. intros _. rewrite Hn in Ea. exists pkt, h3.
    rewrite list_insert_insert_eq in Eup. split; [done|]. split; [done|]. by exists o1, o3.
Qed.

(** The entry and the record are found again. *)
Lemma get_entry_insert o o' m n e l :
  _phl_pkt_ofld_get_entry o m = Some (n, e) -> entry_q o' = <[n := mkEntry (e_macid e) l]> (entry_q o) ->
  _phl_pkt_ofld_get_entry o' m = Some (n, mkEntry (e_macid e) l).
Proof.
  unfold _phl_pkt_ofld_get_entry. intros E ->. apply list_find_Some in E as (E1 & E2 & E3). apply list_find_Some.
  split; [apply list_lookup_insert_eq; by eapply lookup_lt_Some|]. split; [exact E2|].
  intros k x Hk Hlt. rewrite list_lookup_insert_ne in Hk by lia. by apply (E3 k).
Qed.

(** For any HAL, cancelling a request that succeeded leaves the entries
    of all stations as they were before the request. *)
Theorem request_cancel_roundtrip m ty b o h tok o1 h1 o2 h2 :
  obj_ok o ->
  (forall e i, e ∈ entry_q o -> i ∈ pkt_info e -> (i_id i = NOT_USED -> req_q i = []) /\ zlen (req_q i) < 2 ^ 32 - 1) ->
  phl_pkt_ofld_request m ty b o h = Ok (RTW_PHL_STATUS_SUCCESS, Some tok, o1, h1) ->
  phl_pkt_ofld_cancel m ty tok o1 h1 = Ok (RTW_PHL_STATUS_SUCCESS, o2, h2) ->
  entry_q o2 = entry_q o /\ entry_cnt o2 = entry_cnt o.
Proof.
  intros Hok Hfew Er Ec. apply request_inv in Er as (n & e & i & id & Eg & Ei & Eq & Ecnt & Hlive & _).
  pose proof (get_entry_Some _ _ _ _ Eg) as [En _].
  destruct (Hfew e i) as [Hidle Hlen]; [by eapply list_elem_of_lookup_2..|].
  destruct (entry_info o n e _ i Hok En Ei) as [Hc Hq].
  pose proof (get_entry_insert _ _ _ _ _ _ Eg Eq) as Eg1.
  unfold phl_pkt_ofld_cancel in Ec. rewrite Eg1 in Ec. cbn [pkt_info e_macid] in Ec.
  rewrite list_lookup_insert_eq in Ec by (by eapply lookup_lt_Some).
  unfold _phl_pkt_ofld_get_req in Ec. cbn [req_q existsb] in Ec. rewrite Z.eqb_refl in Ec. cbn [orb negb] in Ec.
  assert (Hz : u32 (u32 (req_cnt i + 1) - 1) = zlen (req_q i)).
  { pose proof (zlen_nonneg (req_q i)). rewrite Hc, (u32_small (zlen (req_q i))) by lia.
    rewrite (u32_small (zlen (req_q i) + 1)), u32_small by lia. lia. }
  destruct (_phl_pkt_ofld_cancel_type _ h1) as [[st i1] h3] eqn:Et.
  destruct st; try discriminate Ec. injection Ec as <- <-.
  assert (Hi1 : _phl_pkt_ofld_del_req tok i1 = i).
  { assert (i1 = mkInfo (i_id i) (tok :: req_q i) (u32 (req_cnt i + 1))) as ->.
    { unfold _phl_pkt_ofld_cancel_type in Et. destruct (negb (_phl_pkt_ofld_is_pkt_ofld _)); [discriminate Et|].
      cbn [req_cnt i_id req_q] in Et. rewrite Hz in Et.
      destruct (Z.eqb_spec (zlen (req_q i)) 0) as [E0|E0]; cbn [negb] in Et.
      - destruct (hal_pkt_del id h1) as [hst h4]. destruct (negb _); [discriminate Et|]. injection Et as <- _.
        destruct (Z.eq_dec (i_id i) NOT_USED) as [->|Hn]; [done|]. by apply Hq in Hn; apply zlen_0 in E0.
      - injection Et as <- _. destruct (Z.eq_dec (i_id i) NOT_USED) as [Hn|Hn].
        + rewrite (Hidle Hn) in E0. done.
        + by destruct (Hlive Hn) as [-> _]. }
    unfold _phl_pkt_ofld_del_req. cbn [i_id req_q req_cnt]. rewrite del_head, Hz.
    destruct i as [id0 q0 c0]. cbn [i_id req_q req_cnt] in *. rewrite Hc, u32_small; [done|].
    pose proof (zlen_nonneg q0). lia. }
  cbn [put_info entry_q set_entry_q entry_cnt e_macid pkt_info]. rewrite Hi1, Eq, !list_insert_insert_eq, (list_insert_id _ _ i Ei).
  split; [|done]. destruct e. by apply list_insert_id.
Qed.
End RoundTrip.

Definition demo_obj : pkt_ofld_obj := mkOfld [_phl_pkt_ofld_init_entry 3] 1 0 [] (fun _ => Some PHL_RTYPE_STATION).
Definition demo_arp : ofld_buf := ArpRspInfo mac1 mac2 mac1 [10; 0; 0; 2] [10; 0; 0; 1] 8.

Lemma demo_obj_ok : obj_ok demo_obj.
Proof.
  constructor; [|apply NoDup_singleton|done]. constructor; [apply init_entry_ok|constructor].
Qed.

Lemma demo_few e i : e ∈ entry_q demo_obj -> i ∈ pkt_info e ->
  (i_id i = NOT_USED -> req_q i = []) /\ zlen (req_q i) < 2 ^ 32 - 1.
Proof.
  intros He Hi. apply list_elem_of_singleton in He as ->. apply elem_of_replicate in Hi as [-> _].
  split; [done|]. vm_compute. reflexivity.
Qed.

(** The packet is offloaded in between. *)
Lemma request_cancel_roundtrip_witness :
  exists tok o1 a1 o2 a2,
    phl_pkt_ofld_request 3 PKT_TYPE_ARP_RSP demo_arp demo_obj good_adapter = Ok (RTW_PHL_STATUS_SUCCESS, Some tok, o1, a1) /\
    entry_q o1 <> entry_q demo_obj /\
    phl_pkt_ofld_cancel 3 PKT_TYPE_ARP_RSP tok o1 a1 = Ok (RTW_PHL_STATUS_SUCCESS, o2, a2) /\
    entry_q o2 = entry_q demo_obj.
Proof.
  eexists _, _, _, _, _.
  match goal with |- ?P /\ ?Q /\ ?R /\ _ =>
    assert (H1 : P) by (vm_compute; reflexivity); assert (H3 : R) by (vm_compute; reflexivity) end.
  split; [exact H1|]. split; [vm_compute; discriminate|]. split; [exact H3|].
  refine (proj1 (request_cancel_roundtrip (H := adapter) 3 PKT_TYPE_ARP_RSP demo_arp demo_obj good_adapter _ _ _ _ _
    demo_obj_ok demo_few H1 H3)).
Defined.

(** ** A command that cannot be built *)

Definition build_fails (o : h2c_outcome) : bool :=
  match o with H2cNoBuf | H2cPutFail _ | H2cErr _ => true | _ => false end.

(** The state waits for an answer that will not come. *)
Definition stuck (a : adapter) : Prop :=
  (pkt_ofld a = MAC_AX_OFLD_H2C_SENDING \/ pkt_ofld a = MAC_AX_OFLD_H2C_RCVD \/ pkt_ofld a = MAC_AX_OFLD_H2C_ERROR) /\
  inbox a = [] /\ Forall outcome_ok (outcomes a).

Lemma stuck_not_idle a : stuck a -> (pkt_ofld a =? MAC_AX_OFLD_H2C_IDLE) = false.
Proof. intros ([->|[->| ->]] & _); done. Qed.

Lemma stuck_add pkt len id a :
  stuck a -> exists st, _hal_mac_add_pkt_ofld pkt len id a = (st, id, a) /\ st <> RTW_HAL_STATUS_SUCCESS.
Proof.
  intros Hs. unfold _hal_mac_add_pkt_ofld. destruct (negb (mac_ok a)); [by eexists|].
  unfold mac_add_pkt_ofld. destruct (negb (fwdl_rdy a)); [by eexists|].
  destruct (free_id_count a =? 0); [by eexists|]. rewrite stuck_not_idle by done. by eexists.
Qed.

Lemma stuck_del id a :
  stuck a -> exists st, _hal_mac_del_pkt_ofld id a = (st, a) /\ st <> RTW_HAL_STATUS_SUCCESS.
Proof.
  intros Hs. unfold _hal_mac_del_pkt_ofld. destruct (negb (mac_ok a)); [by eexists|].
  unfold mac_del_pkt_ofld. destruct (negb (fwdl_rdy a)); [by eexists|].
  destruct (id =? _); [by eexists|]. destruct (mac_pkt_ofld_get_bitmap _ _ =? 0); [by eexists|].
  destruct (used_id_count a =? 0); [by eexists|]. unfold pkt_ofld_cmd. rewrite stuck_not_idle by done. by eexists.
Qed.

Lemma deliver_nil n a : inbox a = [] -> deliver n a = a.
Proof. intros E. destruct n; cbn [deliver]; [done|]. by rewrite E. Qed.

Lemma stuck_update macid ids a st a' : rtw_hal_mac_pkt_update_ids macid ids a = (st, a') -> stuck a -> stuck a'.
Proof.
  intros E (Hp & Hi & Ho). unfold rtw_hal_mac_pkt_update_ids, mac_general_pkt_ids in E.
  destruct (negb (fwdl_rdy a)); [by injection E as <- <-|].
  destruct (next_outcome a) as [o b] eqn:En.
  assert (Hb : stuck b /\ outcome_ok o).
  { unfold next_outcome in En. destruct (outcomes a) as [|o' l] eqn:El; injection En as <- <-; unfold stuck; cbn.
    - rewrite El. split; [done|]. split; [constructor|done].
    - apply Forall_cons in Ho as [? ?]. done. }
  destruct Hb as [Hb Hok]. destruct o as [|n|ret|ret|reply early]; try (injection E as <- <-; done).
  unfold transmit in E. destruct Hok as [_ Hrep]. rewrite Hrep, app_nil_r in E.
  destruct Hb as (Hpb & Hib & Hob). rewrite deliver_nil in E by exact Hib. injection E as <- <-. done.
Qed.

Lemma stuck_del_loop l a : stuck a -> stuck (del_ofld_loop l a).
Proof.
  revert a. induction l as [|i l IH]; intros a Hs; cbn [del_ofld_loop]; [done|]. apply IH.
  destruct (_phl_pkt_ofld_is_pkt_ofld i); [|done]. change (hal_pkt_del (i_id i) a) with (_hal_mac_del_pkt_ofld (i_id i) a).
  destruct (stuck_del (i_id i) a Hs) as (st & -> & _). done.
Qed.

Lemma stuck_req_type o e t i b a r :
  _phl_pkt_ofld_req_type o e t i b a = Ok r -> stuck a ->
  stuck (snd r) /\ (i_id i = NOT_USED -> fst (fst (fst r)) <> RTW_PHL_STATUS_SUCCESS).
Proof.
  unfold _phl_pkt_ofld_req_type. intros E Hs. destruct (_phl_pkt_ofld_is_pkt_ofld i) eqn:Eu.
  - injection E as <-. split; [done|]. intros Hn. unfold _phl_pkt_ofld_is_pkt_ofld in Eu. by rewrite Hn in Eu.
  - apply bind_Ok_inv in E as ([[st pkt] o2] & _ & E). destruct st; try (injection E as <-; done).
    change (hal_pkt_add pkt (zlen pkt) (i_id i) a) with (_hal_mac_add_pkt_ofld pkt (zlen pkt) (i_id i) a) in E.
    destruct (stuck_add pkt (zlen pkt) (i_id i) a Hs) as (st & Ea & Hst). rewrite Ea in E.
    rewrite (proj2 (Z.eqb_neq _ _) Hst) in E. injection E as <-. done.
Qed.

Lemma stuck_request m ty b o a st tok o' a' :
  phl_pkt_ofld_request m ty b o a = Ok (st, tok, o', a') -> stuck a ->
  stuck a' /\ forall n e i, _phl_pkt_ofld_get_entry o m = Some (n, e) -> pkt_info e !! Z.to_nat ty = Some i ->
    i_id i = NOT_USED -> st <> RTW_PHL_STATUS_SUCCESS.
Proof.
  unfold phl_pkt_ofld_request. intros E Hs. destruct (_phl_pkt_ofld_get_entry o m) as [[n e]|]; [|by injection E as <- <- <- <-].
  destruct (_phl_pkt_ofld_gen_req o) as [[t|] o1]; [|by injection E as <- <- <- <-].
  destruct (pkt_info e !! Z.to_nat ty) as [i|] eqn:Ei; [|done].
  apply bind_Ok_inv in E as ([[[st2 i2] o2] h2] & Eq & E). destruct (stuck_req_type _ _ _ _ _ _ _ Eq Hs) as [S1 S2].
  cbn [fst snd] in *. split.
  - destruct st2; injection E as <- <- <- <-; done.
  - intros n0 e0 i0 [= <- <-] Hi Hn. assert (i0 = i) as -> by congruence. specialize (S2 Hn).
    destruct st2; injection E as <- <- <- <-; done.
Qed.

Lemma stuck_cancel m ty tok o a st o' a' :
  phl_pkt_ofld_cancel m ty tok o a = Ok (st, o', a') -> stuck a -> stuck a'.
Proof.
  unfold phl_pkt_ofld_cancel. intros E Hs. destruct (_phl_pkt_ofld_get_entry o m) as [[n e]|]; [|by injection E as <- <- <-].
  destruct (pkt_info e !! Z.to_nat ty) as [i|]; [|done].
  destruct (negb (_phl_pkt_ofld_get_req i tok)); [by injection E as <- <- <-|].
  destruct (_phl_pkt_ofld_cancel_type i a) as [[st1 i1] h1] eqn:Ec.
  assert (h1 = a) as ->; [|by destruct st1; injection E as <- <- <-].
  unfold _phl_pkt_ofld_cancel_type in Ec. destruct (negb (_phl_pkt_ofld_is_pkt_ofld i)); [by injection Ec|].
  destruct (negb (u32 (req_cnt i - 1) =? 0)); [by injection Ec|].
  change (hal_pkt_del (i_id i) a) with (_hal_mac_del_pkt_ofld (i_id i) a) in Ec.
  destruct (stuck_del (i_id i) a Hs) as (hst & Ed & Hst). rewrite Ed in Ec.
  rewrite (proj2 (Z.eqb_neq _ _) Hst) in Ec. by injection Ec.
Qed.

Lemma stuck_step s s' : ofld_step s s' -> stuck (snd s) -> stuck (snd s').
Proof.
  intros [m o h st o' h' E|m o h st o' h' E|m ty b o h st tok o' h' E|m ty tok o h st o' h' E|o h|o h h' E] Hs; cbn [snd] in *.
  - unfold phl_pkt_ofld_add_entry in E. destruct (_phl_pkt_ofld_is_entry_exist o m); [by injection E as <- <- <-|].
    destruct (os_mem_alloc o) as [[] o1]; cbn [negb] in E; [|by injection E as <- <- <-].
    unfold _phl_pkt_ofld_add_entry in E. cbn zeta in E. injection E as <- <- <-.
    match goal with |- stuck (snd ?x) => destruct x as [st1 a1] eqn:Eu end. by eapply stuck_update.
  - unfold phl_pkt_ofld_del_entry in E. destruct (_phl_pkt_ofld_get_entry o m) as [[n e]|]; injection E as <- <- <-; [|done].
    by apply stuck_del_loop.
  - by eapply stuck_request.
  - by eapply stuck_cancel.
  - done.
  - destruct E as [n ->]. rewrite deliver_nil; [done|apply Hs].
Qed.

(** When the command of an addition cannot be built the addition fails
    and the state stays SENDING: whatever calls follow, no request for a new
    packet of any station succeeds any more. *)
Theorem build_failure_blocks pkt len id a out outs st id1 a1 o o' a' m ty n e i b st' tok o'' a'' :
  mac_ok a = true -> fwdl_rdy a = true -> pkt_ofld a = MAC_AX_OFLD_H2C_IDLE -> inbox a = [] -> free_id_count a <> 0 ->
  outcomes a = out :: outs -> build_fails out = true -> Forall outcome_ok outs ->
  _hal_mac_add_pkt_ofld pkt len id a = (st, id1, a1) ->
  rtc ofld_step (o, a1) (o', a') ->
  _phl_pkt_ofld_get_entry o' m = Some (n, e) -> pkt_info e !! Z.to_nat ty = Some i -> i_id i = NOT_USED ->
  phl_pkt_ofld_request m ty b o' a' = Ok (st', tok, o'', a'') ->
  st = RTW_HAL_STATUS_FAILURE /\ st' <> RTW_PHL_STATUS_SUCCESS.
Proof.
  intros Hm Hf Hp Hin Hfree Hout Hbf Hok Ea Hr Hg Hi Hn Hreq.
  assert (Hs : st = RTW_HAL_STATUS_FAILURE /\ stuck a1).
  { unfold _hal_mac_add_pkt_ofld, mac_add_pkt_ofld, next_outcome in Ea.
    rewrite Hm, Hf, Hp, (proj2 (Z.eqb_neq _ _) Hfree) in Ea. cbn [negb outcomes set_pkt_ofld] in Ea. rewrite Hout in Ea.
    assert (Hst : stuck (set_outcomes outs (set_pkt_ofld MAC_AX_OFLD_H2C_SENDING a))) by (split; [by left|done]).
    destruct out as [|[|k]|ret|ret|reply early]; try discriminate Hbf; injection Ea as <- <- <-; done. }
  destruct Hs as [-> Hs]. split; [done|].
  assert (Hs' : stuck a').
  { change a1 with (snd (o, a1)) in Hs. change a' with (snd (o', a')). revert Hs. clear -Hr.
    induction Hr as [|x y z Hst _ IH]; [done|]. intros Hx. apply IH. by eapply stuck_step. }
  by eapply stuck_request.
Qed.

(** There is no buffer for the first command; a station and a request follow. *)
Lemma build_failure_blocks_witness :
  exists st id1 a1 o' a' st' tok o'' a'',
    _hal_mac_add_pkt_ofld [1; 2] 2 NOT_USED (mac_8852b_adapter [H2cNoBuf; H2cSent fw_answer 0] [3%nat] []) = (st, id1, a1) /\
    rtc ofld_step (demo_obj, a1) (o', a') /\
    phl_pkt_ofld_request 3 PKT_TYPE_ARP_RSP demo_arp o' a' = Ok (st', tok, o'', a'') /\
    st = RTW_HAL_STATUS_FAILURE /\ st' <> RTW_PHL_STATUS_SUCCESS.
Proof.
  eexists _, _, _, _, _, _, _, _, _.
  match goal with |- ?P /\ ?Q /\ ?R /\ _ =>
    assert (H1 : P) by (vm_compute; reflexivity);
    assert (H2 : Q) by (eapply rtc_l; [eapply (StAddEntry 4); vm_compute; reflexivity|apply rtc_refl]);
    assert (H3 : R) by (vm_compute; reflexivity) end.
  split; [exact H1|]. split; [exact H2|]. split; [exact H3|].
  eapply (build_failure_blocks [1; 2] 2 NOT_USED (mac_8852b_adapter [H2cNoBuf; H2cSent fw_answer 0] [3%nat] [])
            _ _ _ _ _ demo_obj _ _ 3 PKT_TYPE_ARP_RSP);
    [done|done|done|done|done|reflexivity|done| |exact H1|exact H2|reflexivity|reflexivity|reflexivity|exact H3].
  constructor; [apply fw_answer_ok|constructor].
Defined.

(** ** The last identifier *)

Lemma hal_add_id pkt len id a id' a' :
  _hal_mac_add_pkt_ofld pkt len id a = (RTW_HAL_STATUS_SUCCESS, id', a') ->
  id' = u8 (alloc_loop (Z.to_nat (PKT_OFLD_MAX_COUNT - 1)) (id_bitmap a) 0).
Proof.
  unfold _hal_mac_add_pkt_ofld. intros E. destruct (negb (mac_ok a)); [discriminate E|].
  destruct (mac_add_pkt_ofld pkt len id a) as [[st i] b] eqn:Ea.
  destruct (Z.eqb_spec st MACSUCCESS) as [->|]; cbn [negb] in E; [|discriminate E].
  assert (id' = i) as ->. { destruct (_hal_mac_chk_pkt_ofld b) as [st2 c]. by injection E as _ ->. }
  clear E. unfold mac_add_pkt_ofld in Ea. destruct (negb (fwdl_rdy a)); [discriminate Ea|].
  destruct (free_id_count a =? 0); [discriminate Ea|]. destruct (negb (pkt_ofld a =? _)); [discriminate Ea|].
  destruct (next_outcome _) as [o c]. destruct o as [|[|k]|ret|ret|reply early]; try discriminate Ea.
  by injection Ea as <- _.
Qed.

Lemma alloc_full bm :
  (forall x, 0 <= x < 255 -> bit_in bm x = true) -> alloc_loop (Z.to_nat (PKT_OFLD_MAX_COUNT - 1)) bm 0 = 255.
Proof.
  intros Hall. destruct (alloc_loop_spec (Z.to_nat (PKT_OFLD_MAX_COUNT - 1)) bm 0) as (H1 & H2 & H3); [lia|].
  set (r := alloc_loop _ bm 0) in *. unfold PKT_OFLD_MAX_COUNT in *.
  destruct (Z.eq_dec r 255) as [|Hr]; [done|]. rewrite Hall in H3 by lia. lia.
Qed.

(** When all other identifiers are taken the last one is handed out: the packet is
    in the firmware, but the PHL records no identifier and cannot cancel it. *)
Theorem last_id_lost m ty b o a tok o' a' n e i :
  ofld_inv a -> (forall x, 0 <= x < 255 -> bit_in (id_bitmap a) x = true) ->
  _phl_pkt_ofld_get_entry o m = Some (n, e) -> pkt_info e !! Z.to_nat ty = Some i -> i_id i = NOT_USED ->
  phl_pkt_ofld_request m ty b o a = Ok (RTW_PHL_STATUS_SUCCESS, Some tok, o', a') ->
  bit_in (id_bitmap a') 255 = true /\ phl_pkt_ofld_get_id m ty o' = Ok NOT_USED /\
  phl_pkt_ofld_cancel m ty tok o' a' = Ok (RTW_PHL_STATUS_FAILURE, o', a').
Proof.
  intros Hinv Hall Hg Hi Hn Hr. apply request_inv in Hr as (n' & e' & i' & id & Hg' & Hi' & Eq & _ & _ & Hadd).
  assert (n' = n /\ e' = e) as [-> ->] by (split; congruence). assert (i' = i) as -> by congruence.
  destruct (Hadd Hn) as (pkt & a1 & Ea & Eu & _).
  change (_hal_mac_add_pkt_ofld pkt (zlen pkt) NOT_USED a = (RTW_HAL_STATUS_SUCCESS, id, a1)) in Ea.
  pose proof (hal_add_id _ _ _ _ _ _ Ea) as Hid. rewrite alloc_full in Hid by done. change (u8 255) with NOT_USED in Hid. subst id.
  destruct (hal_add_inv _ _ _ _ _ _ _ Ea Hinv) as (I1 & _ & I3). destruct (I3 eq_refl) as [_ T1].
  destruct (hal_update_inv _ _ _ _ _ Eu I1) as [_ K]. split; [by destruct (K _ T1) as (_ & ? & _)|].
  pose proof (get_entry_insert _ _ _ _ _ _ Hg Eq) as Hg1. unfold phl_pkt_ofld_get_id, phl_pkt_ofld_cancel. rewrite Hg1.
  cbn [pkt_info e_macid]. rewrite list_lookup_insert_eq by (by eapply lookup_lt_Some). split; [done|].
  unfold _phl_pkt_ofld_get_req. cbn [req_q existsb]. rewrite Z.eqb_refl. cbn [orb negb].
  unfold _phl_pkt_ofld_cancel_type, _phl_pkt_ofld_is_pkt_ofld. cbn [i_id].
  change (NOT_USED =? NOT_USED) with true. cbn [negb]. unfold put_info. cbn [e_macid pkt_info]. rewrite list_insert_insert_eq.
  apply get_entry_Some in Hg1 as [Hg1 _]. rewrite list_insert_id by exact Hg1. by destruct o'.
Qed.

(** All identifiers but the last are in use. *)
Definition full_adapter : adapter :=
  mkAdapter true true MAC_AX_OFLD_H2C_IDLE MAC_AX_OFLD_H2C_IDLE chan0 chan0 chan0 PKT_OFLD_OP_ADD
    1 255 (replicate 31 255 ++ [127]) None [] (replicate 2 (H2cSent fw_answer 0)) [3%nat] [] [].

Lemma full_inv : ofld_inv full_adapter.
Proof.
  apply phase_end_inv; [|by left|done]. constructor; try done.
  apply (Forall_replicate outcome_ok 2), fw_answer_ok.
Qed.

Lemma full_bits x : 0 <= x < 255 -> bit_in (id_bitmap full_adapter) x = true.
Proof.
  intros Hx. assert (Hall : forallb (bit_in (id_bitmap full_adapter)) (seqZ 0 255) = true) by (vm_compute; reflexivity).
  rewrite forallb_forall in Hall. apply Hall, list_elem_of_In, elem_of_seqZ. lia.
Qed.

Lemma last_id_lost_witness :
  exists tok o' a', phl_pkt_ofld_request 3 PKT_TYPE_ARP_RSP demo_arp demo_obj full_adapter = Ok (RTW_PHL_STATUS_SUCCESS, Some tok, o', a') /\
    phl_pkt_ofld_get_id 3 PKT_TYPE_ARP_RSP o' = Ok NOT_USED /\
    phl_pkt_ofld_cancel 3 PKT_TYPE_ARP_RSP tok o' a' = Ok (RTW_PHL_STATUS_FAILURE, o', a').
Proof.
  eexists _, _, _. match goal with |- ?P /\ _ => assert (H1 : P) by (vm_compute; reflexivity) end.
  split; [exact H1|].
  exact (proj2 (last_id_lost 3 PKT_TYPE_ARP_RSP demo_arp demo_obj full_adapter _ _ _ 0%nat (_phl_pkt_ofld_init_entry 3) info0
    full_inv full_bits eq_refl eq_refl eq_refl H1)).
Defined.
