(* ===== verification/PktFrame.v ===== *)
(** * The packets that are offloaded

    Every packet built by src/phl/phl_pkt_ofld.c is the frame its fields say, byte
    for byte, and is built inside its buffer. *)

From S2P Require Import Prelude PhlDef IeBuf FwOfld PktOfld.

(** ** What the packets should be *)

(** Frame control with the to-DS and protection bits, no duration, the
    addresses, no sequence number. *)
Definition mac_hdr (frame_type : Z) (to_ds : bool) (sec_hdr : Z) (a1 a2 a3 : list Z) : list Z :=
  [frame_type; (if to_ds then 1 else 0) + (if sec_hdr =? 0 then 0 else 64); 0; 0] ++ a1 ++ a2 ++ a3 ++ [0; 0].

Definition frame (role : option Z) (buf : ofld_buf) : list Z :=
  match buf with
  | NullInfo a1 a2 a3 =>
      if bool_decide (role = Some PHL_RTYPE_STATION) then [72; 1; 0; 0] ++ a1 ++ a2 ++ a3 ++ [0; 0]
      else 72 :: zeros 23
  | ArpRspInfo a1 a2 a3 hip rip s =>
      mac_hdr TYPE_DATA_FRAME true s a1 a2 a3 ++ zeros s ++
      [170; 170; 3; 0; 0; 0; 8; 6] ++ [0; 1; 8; 0; 6; 4; 0; 2] ++ a2 ++ hip ++ a1 ++ rip
  | NaInfo a1 a2 a3 s =>
      mac_hdr TYPE_DATA_FRAME true s a1 a2 a3 ++ zeros s ++
      [170; 170; 3; 0; 0; 0; 134; 221] ++ [96; 0; 0; 0; 0; 32; 58; 255] ++ zeros 32 ++
      [136; 0; 0; 0; 96; 0; 0; 0] ++ zeros 16 ++ [2; 1] ++ zeros 6
  | EapolKeyInfo a1 a2 a3 s v =>
      mac_hdr TYPE_DATA_FRAME true s a1 a2 a3 ++ zeros s ++
      [170; 170; 3; 0; 0; 0; 136; 142] ++ [1; 3; 0; 95; 2] ++ be16 (u16 (Z.lor 768 v)) ++ zeros 92
  | SaQueryInfo a1 a2 a3 s => mac_hdr TYPE_ACTION_FRAME false s a1 a2 a3 ++ zeros s ++ [8; 1; 0; 0]
  | KapktInfo info n | AckInfo info n | WpInfo info n => take (Z.to_nat n) info
  end.

(** The type that goes with the caller's buffer. *)
Definition buf_type (buf : ofld_buf) : Z :=
  match buf with
  | NullInfo _ _ _ => PKT_TYPE_NULL_DATA
  | ArpRspInfo _ _ _ _ _ _ => PKT_TYPE_ARP_RSP
  | NaInfo _ _ _ _ => PKT_TYPE_NDP
  | EapolKeyInfo _ _ _ _ _ => PKT_TYPE_EAPOL_KEY
  | SaQueryInfo _ _ _ _ => PKT_TYPE_SA_QUERY
  | KapktInfo _ _ => PKT_TYPE_REALWOW_KAPKT
  | AckInfo _ _ => PKT_TYPE_REALWOW_ACK
  | WpInfo _ _ => PKT_TYPE_REALWOW_WP
  end.

Definition addrs_ok (a1 a2 a3 : list Z) : Prop := length a1 = 6%nat /\ length a2 = 6%nat /\ length a3 = 6%nat.

(** Arrays of the declared sizes, and patterns inside the caller's struct. *)
Definition buf_ok (buf : ofld_buf) : Prop :=
  match buf with
  | NullInfo a1 a2 a3 => addrs_ok a1 a2 a3
  | ArpRspInfo a1 a2 a3 hip rip s => addrs_ok a1 a2 a3 /\ length hip = 4%nat /\ length rip = 4%nat /\ 0 <= s
  | NaInfo a1 a2 a3 s | SaQueryInfo a1 a2 a3 s | EapolKeyInfo a1 a2 a3 s _ => addrs_ok a1 a2 a3 /\ 0 <= s
  | KapktInfo info n | AckInfo info n | WpInfo info n => 0 <= n <= zlen info
  end.

(** ** Writing in a part of the buffer *)

Lemma wr_app_l b c i l b' : 0 <= i -> wr b i l = Ok b' -> wr (b ++ c) i l = Ok (b' ++ c).
Proof.
  intros Hi. unfold wr. destruct (zlen l =? 0); [by intros [= ->]|].
  destruct (Z.ltb_spec i 0); [lia|]. cbn [orb]. destruct (Z.ltb_spec (zlen b) (i + zlen l)); [done|]. intros [= <-].
  pose proof (zlen_nonneg c). pose proof (zlen_nonneg l).
  rewrite (proj2 (Z.ltb_ge (zlen (b ++ c)) (i + zlen l))) by (rewrite zlen_app; lia). f_equal.
  rewrite <- !app_assoc. rewrite take_app_le, drop_app_le by (unfold zlen in *; lia). done.
Qed.

Lemma wr_app_r a b q i l b' : q = zlen a + i -> 0 <= i -> wr b i l = Ok b' -> wr (a ++ b) q l = Ok (a ++ b').
Proof.
  intros -> Hi. pose proof (zlen_nonneg a). unfold wr. destruct (zlen l =? 0); [by intros [= ->]|].
  destruct (Z.ltb_spec i 0); [lia|]. destruct (Z.ltb_spec (zlen a + i) 0); [lia|]. cbn [orb].
  destruct (Z.ltb_spec (zlen b) (i + zlen l)); [done|]. intros [= <-]. pose proof (zlen_nonneg l).
  rewrite (proj2 (Z.ltb_ge (zlen (a ++ b)) (zlen a + i + zlen l))) by (rewrite zlen_app; lia). f_equal.
  rewrite take_app_ge, drop_app_ge by (unfold zlen in *; lia). rewrite <- app_assoc.
  f_equal. f_equal; [f_equal|f_equal; f_equal]; unfold zlen in *; lia.
Qed.

Lemma mem_cpy_all b p l n : zlen l = n -> mem_cpy b p l n = wr b p l.
Proof. intros <-. unfold mem_cpy. rewrite (at_off_rd_n l 0 l) by (apply at_off_refl || done). done. Qed.

(** A list of six or four symbolic bytes. *)
Ltac six l H := destruct l as [|? [|? [|? [|? [|? [|? [|? l]]]]]]]; try discriminate H; clear H.
Ltac four l H := destruct l as [|? [|? [|? [|? [|? l]]]]]; try discriminate H; clear H.

(** The next accesses, all in the first part of the buffer. *)
Ltac acc_l :=
  first
  [ rewrite mem_cpy_all by done
  | match goal with |- context [wr (?b ++ ?c) ?i ?l] =>
      erewrite (wr_app_l b c i l) by first [lia | vm_compute; reflexivity] end
  | match goal with |- context [rd (?b ++ ?c) ?i] =>
      let x := fresh in let E := fresh in
      eassert (E : rd (b ++ c) i = Ok _) by (vm_compute; reflexivity); rewrite E; clear E end ];
  rewrite ?bind_Ok.

(** The next write, at offset [i] of the part after [a]. *)
Ltac acc_r a i :=
  rewrite ?mem_cpy_all by done;
  match goal with |- context [wr (a ++ ?b) ?q ?l] =>
    erewrite (wr_app_r a b q i l) by first [lia | vm_compute; reflexivity] end; rewrite ?bind_Ok.

Lemma pkt_hdr_spec rest ft to_ds s a1 a2 a3 :
  ft = TYPE_DATA_FRAME \/ ft = TYPE_ACTION_FRAME -> addrs_ok a1 a2 a3 ->
  pkt_hdr (zeros 24 ++ rest) ft to_ds s a1 a2 a3 = Ok (mac_hdr ft to_ds s a1 a2 a3 ++ rest).
Proof.
  intros Hft (H1 & H2 & H3). six a1 H1. six a2 H2. six a3 H3.
  unfold pkt_hdr, mac_hdr, SET_BIT_TO_LE_2BYTE, RTW_GET_LE16, WriteLE2Byte, WriteLE1Byte.
  destruct Hft as [-> | ->], to_ds, (s =? 0); cbn [negb];
    repeat (rewrite ?bind_Ok; acc_l); reflexivity.
Qed.

(** ** The packets *)

Lemma zero_buf_split s n : 0 <= s -> 0 <= n -> zero_buf (24 + s + n) = zeros 24 ++ zeros s ++ zeros n.
Proof. intros Hs Hn. change (zero_buf (24 + s + n)) with (zeros (24 + s + n)). by rewrite app_assoc, !zeros_app by lia. Qed.

Lemma zlen_mac_hdr ft td s a1 a2 a3 : addrs_ok a1 a2 a3 -> zlen (mac_hdr ft td s a1 a2 a3) = 24.
Proof. intros (H1 & H2 & H3). unfold mac_hdr, zlen. rewrite !length_app, H1, H2, H3. done. Qed.

(** Past the header and the space for the security header. *)
Lemma zlen_front ft td s a1 a2 a3 : addrs_ok a1 a2 a3 -> 0 <= s -> zlen (mac_hdr ft td s a1 a2 a3 ++ zeros s) = 24 + s.
Proof. intros Ha Hs. rewrite zlen_app, zlen_mac_hdr, zlen_zeros by done. done. Qed.

Lemma arp_rsp_spec a1 a2 a3 hip rip s :
  buf_ok (ArpRspInfo a1 a2 a3 hip rip s) ->
  _phl_pkt_ofld_construct_arp_rsp a1 a2 a3 hip rip s = Ok (frame None (ArpRspInfo a1 a2 a3 hip rip s)).
Proof.
  intros (Ha & H4 & H5 & Hs). unfold _phl_pkt_ofld_construct_arp_rsp, MAC_HDR_LEN.
  replace (24 + s + 8 + 28) with (24 + s + 36) by lia. rewrite zero_buf_split by lia.
  rewrite pkt_hdr_spec by (done || by left). rewrite bind_Ok. cbn [frame]. rewrite !(app_assoc (mac_hdr _ _ _ _ _ _)).
  pose proof (zlen_front TYPE_DATA_FRAME true s a1 a2 a3 Ha Hs) as Hz.
  set (front := mac_hdr TYPE_DATA_FRAME true s a1 a2 a3 ++ zeros s) in *. clearbody front.
  destruct Ha as (H1 & H2 & H3). six a1 H1. six a2 H2. four hip H4. four rip H5.
  unfold WriteLE2Byte, WriteLE1Byte.
  acc_r front 0. acc_r front 8. acc_r front 10. acc_r front 12. acc_r front 13. acc_r front 14.
  acc_r front 16. acc_r front 22. acc_r front 26. acc_r front 32. reflexivity.
Qed.

Lemma na_spec a1 a2 a3 s :
  buf_ok (NaInfo a1 a2 a3 s) -> _phl_pkt_ofld_construct_na a1 a2 a3 s = Ok (frame None (NaInfo a1 a2 a3 s)).
Proof.
  intros (Ha & Hs). unfold _phl_pkt_ofld_construct_na, MAC_HDR_LEN.
  replace (24 + s + 8 + 72) with (24 + s + 80) by lia. rewrite zero_buf_split by lia.
  rewrite pkt_hdr_spec by (done || by left). rewrite bind_Ok. cbn [frame]. rewrite !(app_assoc (mac_hdr _ _ _ _ _ _)).
  pose proof (zlen_front TYPE_DATA_FRAME true s a1 a2 a3 Ha Hs) as Hz.
  set (front := mac_hdr TYPE_DATA_FRAME true s a1 a2 a3 ++ zeros s) in *. clearbody front.
  unfold WriteLE2Byte, WriteLE1Byte.
  acc_r front 0. acc_r front 8. acc_r front 12. acc_r front 16. acc_r front 48. acc_r front 56.
  acc_r front 72. acc_r front 73. acc_r front 74. reflexivity.
Qed.

Lemma eapol_key_spec a1 a2 a3 s v :
  buf_ok (EapolKeyInfo a1 a2 a3 s v) ->
  _phl_pkt_ofld_construct_eapol_key_data a1 a2 a3 s v = Ok (frame None (EapolKeyInfo a1 a2 a3 s v)).
Proof.
  intros (Ha & Hs). unfold _phl_pkt_ofld_construct_eapol_key_data, MAC_HDR_LEN, LLC_LEN, AUTH_1X_HDR_LEN.
  replace (24 + s + 8 + 4 + EAPOLMSG_HDR_LEN) with (24 + s + 107) by (unfold EAPOLMSG_HDR_LEN; lia).
  rewrite zero_buf_split by lia.
  rewrite pkt_hdr_spec by (done || by left). rewrite bind_Ok. cbn [frame]. rewrite !(app_assoc (mac_hdr _ _ _ _ _ _)).
  pose proof (zlen_front TYPE_DATA_FRAME true s a1 a2 a3 Ha Hs) as Hz.
  set (front := mac_hdr TYPE_DATA_FRAME true s a1 a2 a3 ++ zeros s) in *. clearbody front.
  unfold WriteBE2Byte, WriteLE1Byte. change (Z.lor EAPOLKEY_SECURE EAPOLKEY_KEYMIC) with 768.
  set (w := be16 (u16 (Z.lor 768 v))). assert (Hw : exists x y, w = [x; y]) by (by do 2 eexists).
  destruct Hw as (x & y & ->).
  acc_r front 0. acc_r front 3. acc_r front 6. acc_r front 8. acc_r front 9. acc_r front 10.
  acc_r front 12. acc_r front 13. reflexivity.
Qed.

Lemma sa_query_spec a1 a2 a3 s :
  buf_ok (SaQueryInfo a1 a2 a3 s) ->
  _phl_pkt_ofld_construct_sa_query_pkt a1 a2 a3 s = Ok (frame None (SaQueryInfo a1 a2 a3 s)).
Proof.
  intros (Ha & Hs). unfold _phl_pkt_ofld_construct_sa_query_pkt, MAC_HDR_LEN, SAQ_ACTION_LEN.
  rewrite zero_buf_split by lia. rewrite pkt_hdr_spec by (done || by right). rewrite bind_Ok.
  cbn [frame]. rewrite !(app_assoc (mac_hdr _ _ _ _ _ _)).
  pose proof (zlen_front TYPE_ACTION_FRAME false s a1 a2 a3 Ha Hs) as Hz.
  set (front := mac_hdr TYPE_ACTION_FRAME false s a1 a2 a3 ++ zeros s) in *. clearbody front.
  unfold WriteLE1Byte. acc_r front 0. acc_r front 1. reflexivity.
Qed.

Lemma null_data_spec ty a1 a2 a3 :
  addrs_ok a1 a2 a3 -> _phl_pkt_ofld_construct_null_data (Some ty) a1 a2 a3 = Ok (frame (Some ty) (NullInfo a1 a2 a3)).
Proof.
  intros (H1 & H2 & H3). six a1 H1. six a2 H2. six a3 H3. unfold _phl_pkt_ofld_construct_null_data. cbn [frame].
  destruct (Z.eqb_spec ty PHL_RTYPE_STATION) as [->|Hn].
  - reflexivity.
  - rewrite bool_decide_false by congruence. reflexivity.
Qed.

Lemma realwow_spec info n : 0 <= n <= zlen info -> construct_realwow info n = Ok (take (Z.to_nat n) info).
Proof.
  intros Hn. unfold construct_realwow, mem_cpy.
  assert (Hr : at_off info 0 (take (Z.to_nat n) info)).
  { exists [], (drop (Z.to_nat n) info). cbn [app]. rewrite take_drop. done. }
  assert (Hl : zlen (take (Z.to_nat n) info) = n) by (unfold zlen in *; rewrite length_take; lia).
  rewrite (at_off_rd_n _ _ _ n Hr) by done. rewrite bind_Ok.
  pose proof (wr_at [] (zero_buf n) [] (take (Z.to_nat n) info) 0) as Hw. cbn [app] in Hw. rewrite !app_nil_r in Hw.
  apply Hw; [done|]. rewrite Hl. symmetry. apply zlen_zeros. lia.
Qed.

(** C33: Every packet the driver builds for the firmware (null data, ARP
    response, neighbour advertisement, EAPOL key, SA query and the three
    RealWoW patterns) equals, byte for byte and for any security header
    length, the frame given as a concatenation of its fields, and is built
    inside its buffer. *)
Theorem packet_frame o macid buf role :
  o_sta o macid = Some role -> buf_ok buf ->
  _phl_pkt_ofld_construct_packet o macid (buf_type buf) buf =
    (let '(ok, o') := os_mem_alloc o in
     if ok : bool then Ok (RTW_PHL_STATUS_SUCCESS, frame (Some role) buf, o') else Ok (RTW_PHL_STATUS_RESOURCE, [], o')).
Proof.
  intros Hs Hb. unfold _phl_pkt_ofld_construct_packet, with_buf. destruct buf; cbn [buf_type];
    unfold PKT_TYPE_NULL_DATA, PKT_TYPE_ARP_RSP, PKT_TYPE_NDP, PKT_TYPE_EAPOL_KEY, PKT_TYPE_SA_QUERY,
      PKT_TYPE_REALWOW_KAPKT, PKT_TYPE_REALWOW_ACK, PKT_TYPE_REALWOW_WP; cbn [Z.eqb Pos.eqb]; rewrite ?Hs;
    destruct (os_mem_alloc o) as [[] o']; cbn [negb]; try reflexivity;
    unfold _phl_pkt_ofld_construct_realwow_kapkt, _phl_pkt_ofld_construct_realwow_ack, _phl_pkt_ofld_construct_realwow_wp;
    rewrite ?null_data_spec, ?arp_rsp_spec, ?na_spec, ?eapol_key_spec, ?sa_query_spec, ?realwow_spec by done; reflexivity.
Qed.

(** An EAPOL key frame over a protected link. *)
Lemma packet_frame_witness :
  exists pkt o', _phl_pkt_ofld_construct_packet (mkOfld [] 0 0 [] (fun _ => Some PHL_RTYPE_STATION)) 3 PKT_TYPE_EAPOL_KEY
    (EapolKeyInfo [1; 1; 1; 1; 1; 1] [2; 2; 2; 2; 2; 2] [1; 1; 1; 1; 1; 1] 8 2) = Ok (RTW_PHL_STATUS_SUCCESS, pkt, o') /\
    take 4 pkt = [8; 65; 0; 0] /\ zlen pkt = 139.
Proof.
  eexists _, _. split.
  - etransitivity; [eapply (packet_frame _ 3 (EapolKeyInfo _ _ _ 8 2)); [reflexivity|]|reflexivity].
    split; [done|lia].
  - vm_compute. done.
Defined.
