(* ===== verification/PktSend.v ===== *)
(** * Packet offload: what reaches the firmware

    A request for a packet that is not offloaded yet sends the firmware one command
    with the identifier and the frame, and one with the identifiers of the
    station. *)

From S2P Require Import Prelude PhlDef IeBuf FwOfld FwReqThm FwOfldInv PktOfld PktOfldInv PktOfldThm PktOfldErr PktFrame.

Lemma transmit_sent f p reply early a : sent (transmit f p reply early a) = sent a ++ [(f, p)].
Proof. unfold transmit. by rewrite (proj2 (deliver_core _ _)). Qed.

Lemma next_outcome_sent a o a' : next_outcome a = (o, a') -> sent a' = sent a.
Proof. unfold next_outcome. destruct (outcomes a); intros [= <- <-]; done. Qed.

Lemma chk_loop_sent n a st a' : chk_loop n a = (st, a') -> sent a' = sent a.
Proof.
  revert a. induction n as [|n IH]; intros a E; cbn [chk_loop] in E; [by injection E as <- <-|].
  destruct (_ =? _); [by injection E as <- <-|]. rewrite (IH _ E). unfold sleep.
  destruct (moves a); [done|]. by rewrite (proj2 (deliver_core _ _)).
Qed.

(** A successful addition sends the packet under the identifier it returns. *)
Lemma hal_add_sent pkt id a id' a' :
  _hal_mac_add_pkt_ofld pkt (zlen pkt) id a = (RTW_HAL_STATUS_SUCCESS, id', a') ->
  sent a' = sent a ++ [(FP, pkt_ofld_dword id' PKT_OFLD_OP_ADD (zlen pkt) ++ pkt)].
Proof.
  unfold _hal_mac_add_pkt_ofld. intros E. destruct (negb (mac_ok a)); [discriminate E|].
  destruct (mac_add_pkt_ofld pkt (zlen pkt) id a) as [[st i] b] eqn:Ea.
  destruct (Z.eqb_spec st MACSUCCESS) as [->|]; cbn [negb] in E; [|discriminate E].
  unfold _hal_mac_chk_pkt_ofld in E. destruct (negb (mac_ok b)); [discriminate E|].
  destruct (chk_loop POLLING_HALMAC_CNT b) as [st c] eqn:Ec. injection E as -> -> ->. rewrite (chk_loop_sent _ _ _ _ Ec).
  unfold mac_add_pkt_ofld in Ea. destruct (negb (fwdl_rdy a)); [discriminate Ea|].
  destruct (free_id_count a =? 0); [discriminate Ea|]. destruct (negb (pkt_ofld a =? _)); [discriminate Ea|].
  destruct (next_outcome _) as [o d] eqn:En. apply next_outcome_sent in En.
  destruct o as [|[|k]|ret|ret|reply early]; try discriminate Ea. injection Ea as <- <-.
  cbn [sent set_last_op]. rewrite transmit_sent, En. rewrite zlen_to_nat, firstn_all. done.
Qed.

(** What the identifiers of a station's packets look like in their command. *)
Definition ids_cmd (macid : Z) (ids : list Z) : list Z :=
  le32 (Z.lor (Z.lor (Z.lor (SET_WORD (u8 macid) 255 0) (SET_WORD (nth 0 ids 0) 255 8))
                  (SET_WORD (nth 1 ids 0) 255 16)) (SET_WORD (nth 2 ids 0) 255 24)) ++
  le32 (Z.lor (Z.lor (Z.lor (SET_WORD (nth 3 ids 0) 255 0) (SET_WORD (nth 4 ids 0) 255 8))
                  (SET_WORD 0 255 16)) (SET_WORD 0 255 24)).

Lemma hal_update_sent macid ids a a' :
  rtw_hal_mac_pkt_update_ids macid ids a = (RTW_HAL_STATUS_SUCCESS, a') ->
  sent a' = sent a ++ [(FUNC_GENERAL_PKT, ids_cmd macid ids)].
Proof.
  unfold rtw_hal_mac_pkt_update_ids, mac_general_pkt_ids. intros E.
  destruct (negb (fwdl_rdy a)); [discriminate E|].
  destruct (next_outcome a) as [o b] eqn:En. apply next_outcome_sent in En.
  destruct o as [|n|ret|ret|reply early]; try discriminate E. cbn [Z.eqb negb MACSUCCESS] in E.
  injection E as <-. rewrite transmit_sent, En. done.
Qed.

(** C32: A successful request for a packet that is not offloaded yet sends the
    firmware exactly two commands: the frame the caller's fields describe
    under the identifier that is recorded, and the identifiers of the
    station's packets. *)
Theorem request_sends_frame m b o a tok o' a' n e i role :
  _phl_pkt_ofld_get_entry o m = Some (n, e) -> pkt_info e !! Z.to_nat (buf_type b) = Some i -> i_id i = NOT_USED ->
  o_sta o m = Some role -> buf_ok b ->
  phl_pkt_ofld_request m (buf_type b) b o a = Ok (RTW_PHL_STATUS_SUCCESS, Some tok, o', a') ->
  exists id ids, phl_pkt_ofld_get_id m (buf_type b) o' = Ok id /\
    (exists n' e', _phl_pkt_ofld_get_entry o' m = Some (n', e') /\ ids = entry_ids e') /\
    sent a' = sent a ++
      [(FP, pkt_ofld_dword id PKT_OFLD_OP_ADD (zlen (frame (Some role) b)) ++ frame (Some role) b);
       (FUNC_GENERAL_PKT, ids_cmd m ids)].
Proof.
  intros Hg Hi Hn Hs Hb Hr. apply request_inv in Hr as (n' & e' & i' & id & Hg' & Hi' & Eq & _ & _ & Hadd).
  assert (n' = n /\ e' = e) as [-> ->] by (split; congruence). assert (i' = i) as -> by congruence.
  destruct (Hadd Hn) as (pkt & a1 & Ea & Eu & o2 & o3 & Ec & Es).
  pose proof (get_entry_Some _ _ _ _ Hg) as [_ Hm]. rewrite Hm in Ec, Eu.
  rewrite Z2Nat.id in Ec by (destruct b; discriminate).
  rewrite (packet_frame o2 m b role) in Ec by (rewrite ?Es; done).
  assert (pkt = frame (Some role) b) as -> by (by destruct (os_mem_alloc o2) as [[] ?]; injection Ec).
  pose proof (get_entry_insert _ _ _ _ _ _ Hg Eq) as Hg1.
  do 2 eexists. split; [|split; [do 2 eexists; split; [exact Hg1|reflexivity]|]].
  - unfold phl_pkt_ofld_get_id. rewrite Hg1. cbn [pkt_info]. rewrite list_lookup_insert_eq by (by eapply lookup_lt_Some).
    reflexivity.
  - cbn [i_id]. rewrite (hal_update_sent _ _ _ _ Eu), (hal_add_sent _ _ _ _ _ Ea), <- app_assoc. done.
Qed.

(** An ARP response of station 3. *)
Lemma request_sends_frame_witness :
  exists tok o' a', phl_pkt_ofld_request 3 PKT_TYPE_ARP_RSP demo_arp demo_obj good_adapter = Ok (RTW_PHL_STATUS_SUCCESS, Some tok, o', a') /\
    sent a' = [(FP, pkt_ofld_dword 0 PKT_OFLD_OP_ADD 68 ++ frame (Some PHL_RTYPE_STATION) demo_arp);
               (FUNC_GENERAL_PKT, [3; 255; 255; 255; 255; 255; 0; 0])].
Proof.
  eexists _, _, _. match goal with |- ?P /\ _ => assert (H1 : P) by (vm_compute; reflexivity) end.
  split; [exact H1|].
  destruct (request_sends_frame 3 demo_arp demo_obj good_adapter _ _ _ 0%nat (_phl_pkt_ofld_init_entry 3) info0 PHL_RTYPE_STATION
    eq_refl eq_refl eq_refl eq_refl ltac:(repeat split; cbn; lia) H1) as (id & ids & Hid & (n' & e' & He & ->) & Hs).
  rewrite Hs. vm_compute in Hid. injection Hid as <-. vm_compute in He. injection He as <- <-. vm_compute. reflexivity.
Defined.

(** ** An answer that comes in time *)

(** The answer to an addition, in the order it comes. *)
Definition add_answer (id : Z) : list c2h := [RecAck FP; PktOfldRsp PKT_OFLD_OP_ADD 1 id []; DoneAck FP MACSUCCESS].

(** What of the adapter matters while the answer comes in. *)
Record adding (id : Z) (bm : list Z) (k : nat) (a : adapter) : Prop := {
  ad_inbox : inbox a = drop k (add_answer id);
  ad_state : pkt_ofld a = nth k [MAC_AX_OFLD_H2C_SENDING; MAC_AX_OFLD_H2C_RCVD; MAC_AX_OFLD_H2C_RCVD] MAC_AX_OFLD_H2C_IDLE;
  ad_bits : id_bitmap a = if (2 <=? k)%nat then mac_pkt_ofld_set_bitmap bm id else bm
}.

Lemma adding_step id bm k a m l :
  adding id bm k a -> last_op a <> PKT_OFLD_OP_READ \/ (k < 2)%nat -> inbox a = m :: l ->
  adding id bm (S k) (c2h_hdl m (set_inbox l a)) /\ last_op (c2h_hdl m (set_inbox l a)) = last_op a.
Proof.
  intros [Hi Hs Hb] Hop E. rewrite E in Hi. destruct k as [|[|[|k]]]; cbn in Hi; rewrite ?drop_nil in Hi; try discriminate Hi; injection Hi as -> ->.
  - split; [|done]. constructor; cbn; [done|by rewrite Hs|done].
  - split; [|done]. constructor; [done|done|]. cbn in Hb |- *. by rewrite Hb.
  - split; [|done]. constructor; [done| |done]. cbn. rewrite Hs. cbn. destruct Hop as [Hop|Hop]; [|lia]. by rewrite (proj2 (Z.eqb_neq _ _) Hop).
Qed.

Lemma adding_deliver n id bm k a :
  adding id bm k a -> last_op a <> PKT_OFLD_OP_READ \/ (k + n < 3)%nat -> (k <= 3)%nat -> adding id bm (k + n `min` (3 - k)) (deliver n a).
Proof.
  revert k a. induction n as [|n IH]; intros k a Ha Hop Hk; cbn [deliver]; [by rewrite Nat.add_0_r|].
  destruct (inbox a) as [|m l] eqn:E.
  - assert (k = 3)%nat as ->; [|done]. destruct Ha as [Hi _ _]. rewrite E in Hi.
    destruct k as [|[|[|k]]]; cbn in Hi; [done..|lia].
  - destruct (adding_step _ _ _ _ _ _ Ha ltac:(destruct Hop; [by left|right; lia]) E) as [Ha' Hop'].
    assert (k < 3)%nat by (destruct Ha as [Hi _ _]; rewrite E in Hi; destruct k as [|[|[|k]]]; cbn in Hi; [lia..|by rewrite drop_nil in Hi]).
    replace (k + S n `min` (3 - k))%nat with (S k + n `min` (3 - S k))%nat by lia. apply IH; [done|rewrite Hop'; destruct Hop; [by left|right; lia]|lia].
Qed.

Lemma adding_fields id bm k a b :
  inbox b = inbox a -> pkt_ofld b = pkt_ofld a -> id_bitmap b = id_bitmap a -> adding id bm k a -> adding id bm k b.
Proof. intros E1 E2 E3 []. constructor; congruence. Qed.

(** A wait ends as soon as the whole answer is there. *)
Lemma adding_wait n id bm j k ms a :
  adding id bm j a -> last_op a = PKT_OFLD_OP_ADD -> (j <= 3)%nat -> moves a = k :: ms -> (3 <= j + k)%nat ->
  exists a', chk_loop (S (S n)) a = (RTW_HAL_STATUS_SUCCESS, a') /\ adding id bm 3 a'.
Proof.
  intros Ha Hop Hj Hm Hk.
  assert (Hdone : forall b, adding id bm 3 b -> last_op b = PKT_OFLD_OP_ADD ->
    mac_check_fwofld_done FW_OFLD_OP_PACKET_OFLD b =? MACSUCCESS = true).
  { intros b [_ Hs _] Hb. unfold mac_check_fwofld_done. rewrite Hb, Hs. done. }
  assert (Hfull : adding id bm 3 (deliver k (set_moves ms a))).
  { replace 3%nat with (j + k `min` (3 - j))%nat by lia. apply adding_deliver; [|left; cbn; by rewrite Hop|done].
    by eapply adding_fields; [..|exact Ha]. }
  destruct (Nat.eq_dec j 3%nat) as [->|Hne].
  - exists a. cbn [chk_loop]. rewrite Hdone by done. done.
  - exists (deliver k (set_moves ms a)). cbn [chk_loop].
    assert (mac_check_fwofld_done FW_OFLD_OP_PACKET_OFLD a =? MACSUCCESS = false) as ->.
    { unfold mac_check_fwofld_done. rewrite Hop. destruct Ha as [_ Hs _]. rewrite Hs.
      destruct j as [|[|[|j]]]; [done..|lia]. }
    unfold sleep. rewrite Hm, Hdone; [done|done|]. by rewrite deliver_last_op.
Qed.

Lemma deliver_env n a : mac_ok (deliver n a) = mac_ok a /\ moves (deliver n a) = moves a.
Proof.
  revert a. induction n as [|n IH]; intros a; cbn [deliver]; [done|].
  destruct (inbox a) as [|m l]; [done|]. destruct (IH (c2h_hdl m (set_inbox l a))) as [-> ->].
  destruct m as [f|f ret|op len i c]; cbn [c2h_hdl].
  - unfold c2h_fwofld_rcv_ack_hdl. repeat case_if; done.
  - unfold c2h_fwofld_done_ack_hdl. repeat case_if; done.
  - unfold c2h_pkt_ofld_rsp_hdl, next_malloc. destruct (mallocs _) as [|[] ?]; repeat case_if; done.
Qed.

(** An addition that is sent while an identifier is free and whose answer
    arrives within the wait succeeds with the lowest free identifier, which is
    then taken, and leaves the state idle; also when parts of the answer
    arrive before the command returns. *)
Theorem add_completes pkt len id a early outs k ms :
  mac_ok a = true -> fwdl_rdy a = true -> ofld_inv a -> pkt_ofld a = MAC_AX_OFLD_H2C_IDLE -> free_id_count a <> 0 ->
  outcomes a = H2cSent fw_answer early :: outs -> moves a = k :: ms -> (3 <= early + k)%nat ->
  last_op a <> PKT_OFLD_OP_READ \/ (early < 3)%nat ->
  exists id' a', _hal_mac_add_pkt_ofld pkt len id a = (RTW_HAL_STATUS_SUCCESS, id', a') /\
    byte id' /\ bit_in (id_bitmap a) id' = false /\ (forall x, 0 <= x < id' -> bit_in (id_bitmap a) x = true) /\
    id_bitmap a' = mac_pkt_ofld_set_bitmap (id_bitmap a) id' /\ pkt_ofld a' = MAC_AX_OFLD_H2C_IDLE.
Proof.
  intros Hmac Hfw Hinv Hidle Hfree Hout Hmv Hsum Hop. pose proof (idle_inbox a Hinv Hidle) as Hin.
  destruct (alloc_free a (proj1 Hinv) Hfree) as [Hby Hbit].
  destruct (alloc_loop_spec (Z.to_nat (PKT_OFLD_MAX_COUNT - 1)) (id_bitmap a) 0) as (_ & Hlow & _); [lia|].
  set (r := alloc_loop _ (id_bitmap a) 0) in *.
  unfold _hal_mac_add_pkt_ofld, mac_add_pkt_ofld, next_outcome.
  rewrite Hmac, Hfw, Hidle, (proj2 (Z.eqb_neq _ _) Hfree). cbn [negb outcomes set_pkt_ofld id_bitmap]. rewrite Hout.
  fold r. rewrite u8_small by done. unfold transmit. rewrite fw_answer_eq by (done || by left).
  match goal with |- context [deliver early ?x] => set (s := x) end.
  assert (Hs : adding r (id_bitmap a) 0 s).
  { constructor; [|done|done]. cbn. by rewrite Hin. }
  pose proof (adding_deliver early r (id_bitmap a) 0 s Hs Hop ltac:(lia)) as Hd.
  set (d := set_last_op PKT_OFLD_OP_ADD (deliver early s)).
  destruct (deliver_env early s) as [Em Ev]. change (mac_ok d = mac_ok a) in Em. change (moves d = moves a) in Ev.
  destruct (adding_wait 98 r (id_bitmap a) (early `min` 3) k ms d) as (a' & Ec & [_ Hst Hbm]);
    [by eapply adding_fields; [..|exact Hd]|done|lia|congruence|lia|].
  exists r, a'. split; [|done].
  change (negb (MAC_AX_OFLD_H2C_IDLE =? MAC_AX_OFLD_H2C_IDLE)) with false. cbv iota beta.
  change (negb (MACSUCCESS =? MACSUCCESS)) with false. unfold _hal_mac_chk_pkt_ofld. rewrite Em, Hmac. cbn [negb].
  unfold POLLING_HALMAC_CNT. by rewrite Ec.
Qed.

(** The first two messages come before the command returns. *)
Lemma add_completes_witness :
  exists id' a', _hal_mac_add_pkt_ofld [1; 2; 3] 3 0 (mac_8852b_adapter [H2cSent fw_answer 2] [1%nat] []) =
    (RTW_HAL_STATUS_SUCCESS, id', a') /\ byte id' /\ pkt_ofld a' = MAC_AX_OFLD_H2C_IDLE.
Proof.
  destruct (add_completes [1; 2; 3] 3 0 (mac_8852b_adapter [H2cSent fw_answer 2] [1%nat] []) 2 [] 1 []) as (id' & a' & E & Hb & _ & _ & _ & Hi);
    [done|done|apply adapter0_inv; constructor; [apply fw_answer_ok|constructor]|done|done|done|done|lia|left; discriminate|].
  exists id', a'. done.
Defined.

(** An answer that is complete before [last_op] is written is judged by the
    operation before: after a read, the addition ends in [MAC_AX_OFLD_H2C_DONE],
    the wait fails, and so does every command until the state is reset. *)
Example early_answer_lost :
  let a := set_last_op PKT_OFLD_OP_READ (mac_8852b_adapter [H2cSent fw_answer 3; H2cSent fw_answer 0] [3%nat] []) in
  let '(st, id, a1) := _hal_mac_add_pkt_ofld [1] 1 NOT_USED a in
  let '(st2, _, _) := _hal_mac_add_pkt_ofld [2] 1 NOT_USED a1 in
  st = RTW_HAL_STATUS_FAILURE /\ bit_in (id_bitmap a1) id = true /\ pkt_ofld a1 = MAC_AX_OFLD_H2C_DONE /\
  st2 = RTW_HAL_STATUS_FAILURE.
Proof. vm_compute. done. Qed.
