(* ===== verification/SerMac.v ===== *)
(** * Error recovery in the MAC layer
    (src/phl/hal_g6/mac/mac_ax/ser.c, src/phl/hal_g6/hal_ser.c, the wrappers
    of src/phl/hal_g6/hal_api_mac.c)

    Driver and firmware exchange error codes through two mailboxes.  The
    firmware reports in [HALT_C2H] and raises [HALT_C2H_CTRL], which the driver
    clears; the driver writes [HALT_H2C] and raises [HALT_H2C_CTRL], which the
    firmware clears.  The MAC layer follows the handshake in [fw_rst] and
    refuses a recovery step that is out of turn; the chip layer turns an error
    code into the notification the recovery module acts on.

    The firmware runs beside the driver: [fw_acts] says what it does before
    each register poll.  The DMA functions of the bus are outside; [dma_rets]
    are their results. *)

From S2P Require Import Prelude PhlQueue PhlDef FwOfld.

(** ** Constants *)

Definition MACPOLLTO : Z := 12.
Definition MACFUNCINPUT : Z := 46.
Definition MACLV1STEPERR : Z := 71.

(** [enum mac_ax_err_info]: what the firmware reports, *)
Definition MAC_AX_ERR_L0_ERR_CMAC0 : Z := 0x0001.
Definition MAC_AX_ERR_L0_PROMOTE_TO_L1 : Z := 0x0010.
Definition MAC_AX_ERR_L1_ERR_DMAC : Z := 0x1000.
Definition MAC_AX_ERR_L1_RESET_DISABLE_DMAC_DONE : Z := 0x1001.
Definition MAC_AX_ERR_L1_RESET_RECOVERY_DONE : Z := 0x1002.
Definition MAC_AX_ERR_L1_PROMOTE_TO_L2 : Z := 0x1010.
Definition MAC_AX_ERR_L1_RCVY_STOP_DONE : Z := 0x1011.
Definition MAC_AX_ERR_L2_ERR_AH_DMA : Z := 0x2000.
Definition MAC_AX_ERR_L2_ERR_APB_SA_TO_HCI_WCMAC : Z := 0x2219.
Definition MAC_AX_ERR_CPU_EXCEPTION : Z := 0x3000.
Definition MAC_AX_ERR_ASSERTION : Z := 0x4000.
Definition MAC_AX_GET_ERR_MAX : Z := 0x4001.
Definition MAC_AX_DUMP_SHAREBUFF_INDICATOR : Z := 0x80000000.
(** and what the driver answers. *)
Definition MAC_AX_ERR_L1_DISABLE_EN : Z := 0x0001.
Definition MAC_AX_ERR_L1_RCVY_EN : Z := 0x0002.
Definition MAC_AX_ERR_L1_RCVY_STOP_REQ : Z := 0x0003.
Definition MAC_AX_ERR_L1_RCVY_START_REQ : Z := 0x0004.
Definition MAC_AX_ERR_L0_CFG_NOTIFY : Z := 0x0010.
Definition MAC_AX_ERR_L0_CFG_DIS_NOTIFY : Z := 0x0011.
Definition MAC_AX_ERR_L0_CFG_HANDSHAKE : Z := 0x0012.
Definition MAC_AX_ERR_L0_RCVY_EN : Z := 0x0013.
Definition MAC_AX_SET_ERR_MAX : Z := 0x0014.

Definition MAC_AX_FW_RESET_IDLE : Z := 0.
Definition MAC_AX_FW_RESET_RECV : Z := 1.
Definition MAC_AX_FW_RESET_RECV_DONE : Z := 2.
Definition MAC_AX_FW_RESET_PROCESS : Z := 3.
Definition MAC_AX_L2_DIS : Z := 0.
Definition MAC_AX_L2_EN : Z := 1.
Definition MAC_AX_SER_CTRL_SRT : Z := 0.
Definition MAC_AX_SER_CTRL_STOP : Z := 1.
Definition MAC_AX_SER_CTRL_ERR : Z := 2.

Definition MAC_SET_ERR_DLY_CNT : nat := 200.
Definition MAC_SER_STOP_DLY_CNT : nat := 200.
Definition B_AX_HALT_H2C_TRIGGER : Z := BIT 0.
Definition DBG_SENARIO_SH : Z := 28.
Definition CPU_EXCEPTION : Z := 2.
Definition ASSERTION : Z := 3.
Definition FW_ST_MSK : Z := 0xFFFF.
Definition FW_ST_SH : Z := 8.
Definition FW_ST_ERR_IN : Z := 0x11.

Definition MAC_AX_LV1_RCVY_STEP_1 : Z := 0.
Definition MAC_AX_LV1_RCVY_STEP_2 : Z := 1.

(** [enum RTW_PHL_SER_NOTIFY_EVENT]. *)
Definition RTW_PHL_SER_L0_RESET : Z := 0.
Definition RTW_PHL_SER_PAUSE_TRX : Z := 1.
Definition RTW_PHL_SER_DO_RECOVERY : Z := 2.
Definition RTW_PHL_SER_READY : Z := 3.
Definition RTW_PHL_SER_L2_RESET : Z := 4.
Definition RTW_PHL_SER_EVENT_CHK : Z := 5.
Definition RTW_PHL_SER_DUMP_FW_LOG : Z := 6.
Definition RTW_PHL_SER_LOG_ONLY : Z := 7.
Definition RTW_PHL_SER_MAX : Z := 8.

(** [enum RTW_PHL_SER_RCVY_STEP]. *)
Definition RTW_PHL_SER_L1_DISABLE_EN : Z := 0x0001.
Definition RTW_PHL_SER_L1_RCVY_EN : Z := 0x0002.
Definition RTW_PHL_SER_L0_CFG_NOTIFY : Z := 0x0010.
Definition RTW_PHL_SER_L0_CFG_DIS_NOTIFY : Z := 0x0011.
Definition RTW_PHL_SER_L0_CFG_HANDSHAKE : Z := 0x0012.
Definition RTW_PHL_SER_L0_RCVY_EN : Z := 0x0013.

(** ** State *)

(** The firmware takes the driver's code, reports a code of its own or changes
    its status register. *)
Inductive fw_act := FwTake | FwReport (code : Z) | FwStatus (udm0 : Z).

Record mac_ser := mkMacSer {
  fw_rst : Z; l2_st : Z; ser_ctrl_st : Z;
  r_halt_h2c : Z; r_halt_h2c_ctrl : Z; r_halt_c2h : Z; r_halt_c2h_ctrl : Z; r_udm0 : Z;
  fw_acts : list (list fw_act); dma_rets : list Z }.

Definition set_fw_rst v m := mkMacSer v (l2_st m) (ser_ctrl_st m) (r_halt_h2c m) (r_halt_h2c_ctrl m)
  (r_halt_c2h m) (r_halt_c2h_ctrl m) (r_udm0 m) (fw_acts m) (dma_rets m).
Definition set_l2_st v m := mkMacSer (fw_rst m) v (ser_ctrl_st m) (r_halt_h2c m) (r_halt_h2c_ctrl m)
  (r_halt_c2h m) (r_halt_c2h_ctrl m) (r_udm0 m) (fw_acts m) (dma_rets m).
Definition set_ser_ctrl_st v m := mkMacSer (fw_rst m) (l2_st m) v (r_halt_h2c m) (r_halt_h2c_ctrl m)
  (r_halt_c2h m) (r_halt_c2h_ctrl m) (r_udm0 m) (fw_acts m) (dma_rets m).
Definition set_halt_h2c v c m := mkMacSer (fw_rst m) (l2_st m) (ser_ctrl_st m) v c
  (r_halt_c2h m) (r_halt_c2h_ctrl m) (r_udm0 m) (fw_acts m) (dma_rets m).
Definition set_halt_c2h v c m := mkMacSer (fw_rst m) (l2_st m) (ser_ctrl_st m) (r_halt_h2c m) (r_halt_h2c_ctrl m)
  v c (r_udm0 m) (fw_acts m) (dma_rets m).
Definition set_udm0 v m := mkMacSer (fw_rst m) (l2_st m) (ser_ctrl_st m) (r_halt_h2c m) (r_halt_h2c_ctrl m)
  (r_halt_c2h m) (r_halt_c2h_ctrl m) v (fw_acts m) (dma_rets m).
Definition set_fw_acts v m := mkMacSer (fw_rst m) (l2_st m) (ser_ctrl_st m) (r_halt_h2c m) (r_halt_h2c_ctrl m)
  (r_halt_c2h m) (r_halt_c2h_ctrl m) (r_udm0 m) v (dma_rets m).
Definition set_dma_rets v m := mkMacSer (fw_rst m) (l2_st m) (ser_ctrl_st m) (r_halt_h2c m) (r_halt_h2c_ctrl m)
  (r_halt_c2h m) (r_halt_c2h_ctrl m) (r_udm0 m) (fw_acts m) v.

(** ** The firmware *)

Definition fw_do (m : mac_ser) (a : fw_act) : mac_ser :=
  match a with
  | FwTake => set_halt_h2c (r_halt_h2c m) 0 m
  | FwReport code => set_halt_c2h code 1 m
  | FwStatus v => set_udm0 v m
  end.

(** Its work before the next poll; none if nothing is planned. *)
Definition fw_turn (m : mac_ser) : mac_ser :=
  match fw_acts m with
  | [] => m
  | acts :: rest => foldl fw_do (set_fw_acts rest m) acts
  end.

(** [while (--cnt) { if (done) break; delay; }]: at most [n] reads. *)
Fixpoint poll_reg (n : nat) (done : mac_ser -> bool) (m : mac_ser) : bool * mac_ser :=
  match n with
  | O => (false, m)
  | S n => let m := fw_turn m in if done m then (true, m) else poll_reg n done m
  end.

(** ** Mailboxes *)

Definition mac_set_err_status (err : Z) (m : mac_ser) : Z * mac_ser :=
  if MAC_AX_SET_ERR_MAX <? err then (MACFUNCINPUT, m)
  else
    let '(ok, m) := poll_reg (MAC_SET_ERR_DLY_CNT - 1) (fun m => r_halt_h2c_ctrl m =? 0) m in
    if negb ok then (MACPOLLTO, m)
    else
      let m := if err =? MAC_AX_ERR_L1_DISABLE_EN then set_fw_rst MAC_AX_FW_RESET_RECV_DONE m else m in
      (MACSUCCESS, set_halt_h2c err B_AX_HALT_H2C_TRIGGER m).

Definition fw_rst_next (err fw_rst : Z) : Z :=
  if (err =? MAC_AX_ERR_L1_ERR_DMAC) || (err =? MAC_AX_ERR_L0_PROMOTE_TO_L1) then MAC_AX_FW_RESET_RECV
  else if err =? MAC_AX_ERR_L1_RESET_DISABLE_DMAC_DONE then MAC_AX_FW_RESET_PROCESS
  else if err =? MAC_AX_ERR_L1_RESET_RECOVERY_DONE then MAC_AX_FW_RESET_IDLE
  else fw_rst.

Definition dbg_mode (m : mac_ser) : bool := z_true (Z.land (r_udm0 m) 1).

(** [err] is the value [*err] has at the call; the dumps only print. *)
Definition mac_get_err_status (err : Z) (m : mac_ser) : (Z * Z) * mac_ser :=
  let m := set_l2_st MAC_AX_L2_DIS m in
  let '(ok, m) := poll_reg (MAC_SET_ERR_DLY_CNT - 1) (fun m => z_true (r_halt_c2h_ctrl m)) m in
  if negb ok then ((MACPOLLTO, err), set_l2_st MAC_AX_L2_EN m)
  else
    let err := r_halt_c2h m in
    let m := set_halt_c2h err 0 m in
    let m := set_fw_rst (fw_rst_next err (fw_rst m)) m in
    let error_senario := Z.shiftr err DBG_SENARIO_SH in
    let err := if negb (dbg_mode m) then
                 if error_senario =? CPU_EXCEPTION then MAC_AX_ERR_CPU_EXCEPTION
                 else if error_senario =? ASSERTION then MAC_AX_ERR_ASSERTION else err
               else err in
    let err := if dbg_mode m && z_true error_senario then MAC_AX_DUMP_SHAREBUFF_INDICATOR else err in
    ((MACSUCCESS, err), set_l2_st MAC_AX_L2_EN m).

(** ** Recovery steps (the PCIe branch) *)

Definition ask_dma (m : mac_ser) : Z * mac_ser :=
  (default MACSUCCESS (head (dma_rets m)), set_dma_rets (tail (dma_rets m)) m).

Definition mac_lv1_rcvy (step : Z) (m : mac_ser) : Z * mac_ser :=
  if step =? MAC_AX_LV1_RCVY_STEP_1 then
    if negb (fw_rst m =? MAC_AX_FW_RESET_RECV) then (MACPROCERR, m) else ask_dma m
  else if step =? MAC_AX_LV1_RCVY_STEP_2 then
    if negb (fw_rst m =? MAC_AX_FW_RESET_PROCESS) then (MACPROCERR, m) else ask_dma m
  else (MACLV1STEPERR, m).

(** ** Starting and stopping recovery *)

(** [enum mac_ax_func_sw]; the early cut of the chip does not support it. *)
Inductive mac_ax_func_sw := MAC_AX_FUNC_DIS | MAC_AX_FUNC_EN | MAC_AX_FUNC_DEF.

Definition mac_ser_ctrl (cav : bool) (sw : mac_ax_func_sw) (m : mac_ser) : Z * mac_ser :=
  if cav then (MACSUCCESS, m)
  else
    match (match sw with
           | MAC_AX_FUNC_EN => Some (MAC_AX_ERR_L1_RCVY_START_REQ, MAC_AX_SER_CTRL_SRT)
           | MAC_AX_FUNC_DIS => Some (MAC_AX_ERR_L1_RCVY_STOP_REQ, MAC_AX_SER_CTRL_STOP)
           | MAC_AX_FUNC_DEF => None
           end) with
    | None => (MACFUNCINPUT, set_ser_ctrl_st MAC_AX_SER_CTRL_ERR m)
    | Some (err_info, st) =>
        let '(ret, m) := mac_set_err_status err_info (set_ser_ctrl_st st m) in
        if negb (ret =? MACSUCCESS) then (ret, set_ser_ctrl_st MAC_AX_SER_CTRL_ERR m)
        else
          let '(ok, m) := poll_reg MAC_SET_ERR_DLY_CNT
                            (fun m => negb (z_true (Z.land (r_halt_h2c_ctrl m) B_AX_HALT_H2C_TRIGGER))) m in
          if negb ok then (MACPOLLTO, set_ser_ctrl_st MAC_AX_SER_CTRL_ERR m)
          else match sw with
               | MAC_AX_FUNC_EN => (MACSUCCESS, m)
               | _ =>
                   let '(ok, m) := poll_reg MAC_SER_STOP_DLY_CNT
                     (fun m => negb (Z.land (Z.shiftr (r_udm0 m) FW_ST_SH) FW_ST_MSK =? FW_ST_ERR_IN)) m in
                   if negb ok then (MACPOLLTO, set_ser_ctrl_st MAC_AX_SER_CTRL_ERR m) else (ret, m)
               end
    end.

(** ** The chip layer *)

(** [rtw_hal_mac_ser_get_error_status]: [*err] is written on success. *)
Definition rtw_hal_mac_ser_get_error_status (err : Z) (m : mac_ser) : (bool * Z) * mac_ser :=
  let '((mac_err, err_info), m) := mac_get_err_status 0 m in
  if negb (mac_err =? MACSUCCESS) then ((false, err), m) else ((true, err_info), m).

Definition ser_notify_of (err : Z) : Z :=
  if (err =? MAC_AX_ERR_L1_ERR_DMAC) || (err =? MAC_AX_ERR_L0_PROMOTE_TO_L1) then RTW_PHL_SER_PAUSE_TRX
  else if err =? MAC_AX_ERR_L1_RESET_DISABLE_DMAC_DONE then RTW_PHL_SER_DO_RECOVERY
  else if err =? MAC_AX_ERR_L1_RESET_RECOVERY_DONE then RTW_PHL_SER_READY
  else if err <? MAC_AX_ERR_L0_PROMOTE_TO_L1 then RTW_PHL_SER_L0_RESET
  else if err =? MAC_AX_DUMP_SHAREBUFF_INDICATOR then RTW_PHL_SER_DUMP_FW_LOG
  else if err =? MAC_AX_ERR_L2_ERR_APB_SA_TO_HCI_WCMAC then RTW_PHL_SER_LOG_ONLY
  else if (err =? MAC_AX_ERR_L1_PROMOTE_TO_L2) || ((MAC_AX_ERR_L2_ERR_AH_DMA <=? err) && (err <=? MAC_AX_GET_ERR_MAX))
  then RTW_PHL_SER_L2_RESET
  else RTW_PHL_SER_L2_RESET.

(** The notification and the code. *)
Definition rtw_hal_ser_get_error_status (err : Z) (m : mac_ser) : (Z * Z) * mac_ser :=
  let '((_, err), m) := rtw_hal_mac_ser_get_error_status err m in ((ser_notify_of err, err), m).

(** [true] is [RTW_HAL_STATUS_SUCCESS]. *)
Definition rtw_hal_mac_ser_set_error_status (err : Z) (m : mac_ser) : bool * mac_ser :=
  let err_info :=
    if err =? RTW_PHL_SER_L1_DISABLE_EN then MAC_AX_ERR_L1_DISABLE_EN
    else if err =? RTW_PHL_SER_L1_RCVY_EN then MAC_AX_ERR_L1_RCVY_EN
    else if err =? RTW_PHL_SER_L0_CFG_NOTIFY then MAC_AX_ERR_L0_CFG_NOTIFY
    else if err =? RTW_PHL_SER_L0_CFG_DIS_NOTIFY then MAC_AX_ERR_L0_CFG_DIS_NOTIFY
    else if err =? RTW_PHL_SER_L0_CFG_HANDSHAKE then MAC_AX_ERR_L0_CFG_HANDSHAKE
    else if err =? RTW_PHL_SER_L0_RCVY_EN then MAC_AX_ERR_L0_RCVY_EN
    else 0 in
  let '(mac_err, m) := mac_set_err_status err_info m in (mac_err =? MACSUCCESS, m).
Definition rtw_hal_ser_set_error_status := rtw_hal_mac_ser_set_error_status.

Definition rtw_hal_mac_lv1_rcvy (step : Z) (m : mac_ser) : bool * mac_ser :=
  let '(mac_err, m) := mac_lv1_rcvy step m in (mac_err =? MACSUCCESS, m).
Definition rtw_hal_lv1_rcvy := rtw_hal_mac_lv1_rcvy.

Definition rtw_hal_mac_ser_ctrl (cav en : bool) (m : mac_ser) : bool * mac_ser :=
  let '(mac_err, m) := mac_ser_ctrl cav (if en then MAC_AX_FUNC_EN else MAC_AX_FUNC_DIS) m in
  (mac_err =? MACSUCCESS, m).
Definition rtw_hal_ser_ctrl := rtw_hal_mac_ser_ctrl.
