(* ===== verification/SerCmd.v ===== *)
(** * The error recovery module (src/phl/phl_cmd_ser.c)

    A mandatory module of the dispatcher.  The firmware reports an error (M1);
    the module pauses the data path and answers (M2); the firmware stops its
    own data path and says so (M3); the module restarts the hardware and answers
    (M4); the firmware reports it is ready (M5) and the module resumes
    transmission.  If a step fails, or the firmware asks for it (M9), recovery
    is given up: "L2", which needs a restart from above.

    The module's state is [cmd_ser]; [ser_sys] adds what it works on: the data
    path ([DataPath]), the MAC layer ([SerMac]), the messages the dispatcher
    has accepted from it, and a log of its other calls.  A recovery step of the
    hardware that the data path controller asks for is answered by the MAC
    layer.  Whether the dispatcher accepts a message, whether an interrupt is
    pending and its mask are inputs ([ser_env]). *)

From S2P Require Import Prelude PhlQueue PhlDef DispState DispEngine DataPath DispCtrl FwOfld SerMac.

(** ** Constants *)

Definition CMD_SER_SRC_INT : Z := BIT 0.
Definition CMD_SER_SRC_POLL : Z := BIT 1.
Definition CMD_SER_SRC_INT_NOTIFY : Z := BIT 2.

Definition CMD_SER_NOT_OCCUR : Z := 0.
Definition CMD_SER_M1 : Z := BIT 0.
Definition CMD_SER_M2 : Z := BIT 1.
Definition CMD_SER_M3 : Z := BIT 2.
Definition CMD_SER_M4 : Z := BIT 3.
Definition CMD_SER_M5 : Z := BIT 4.
Definition CMD_SER_M9 : Z := BIT 5.

Definition CMD_SER_FW_TIMEOUT : Z := 1000.
Definition CMD_SER_POLLING_INTERVAL : Z := 10.
Definition CMD_SER_USB_POLLING_INTERVAL_IDL : Z := 1000.
Definition CMD_SER_USB_POLLING_INTERVAL_ACT : Z := 10.
Definition CMD_SER_LOG_SIZE : nat := 10.

Definition MSG_EVT_SER_L1 : Z := 8.
Definition MSG_EVT_SER_L2 : Z := 9.
Definition MSG_EVT_DUMP_PLE_BUFFER : Z := 19.
Definition MSG_EVT_SER_IO_TIMER_EXPIRE : Z := 41.
Definition MSG_EVT_SER_FW_TIMER_EXPIRE : Z := 42.
Definition MSG_EVT_SER_M9_L2_RESET : Z := 45.
Definition MSG_EVT_SER_EVENT_CHK : Z := 46.
Definition MSG_EVT_SER_POLLING_CHK : Z := 47.

Definition RTW_PHL_SER_HANDSHAKE_MODE : Z := 2.
Definition RTW_PHL_EN_HCI_INT : Z := 3.
Definition RTW_PHL_DIS_HCI_INT : Z := 4.
Definition RTW_PHL_CLR_HCI_INT : Z := 5.

Definition RTW_HCI_PCIE : Z := BIT 0.
Definition RTW_HCI_USB : Z := BIT 1.
Definition RTW_HCI_SDIO : Z := BIT 2.

Definition BK_MODL_OP_INPUT_CMD : Z := 2.
Definition BK_MODL_OP_STATE : Z := 3.
Definition HW_BAND_0 : Z := 0.

Definition IS_MSG_IN_PRE_PHASE (msg_id : Z) : bool := z_true (Z.land msg_id (Z.shiftl MSG_INDC_PRE_PHASE 24)).

(** ** State *)

Record sts_l2 := mkSts { sl_idx : Z; sl_log : Z }.

(** [sr_timer]: the interval the timer is set to, if it is; [sr_stslist] links
    elements of [sr_stsl2] by index; [sr_l2_hdlr]: whether the handler of the
    core is set. *)
Record cmd_ser := mkSer {
  sr_state : Z; sr_evtsrc : Z; sr_poll_cnt : Z; sr_timer : option Z;
  sr_stslist : phl_queue nat; sr_stsl2 : list sts_l2; sr_bserl2 : bool; sr_l2_hdlr : bool }.

Definition set_sr_state v c := mkSer v (sr_evtsrc c) (sr_poll_cnt c) (sr_timer c) (sr_stslist c) (sr_stsl2 c) (sr_bserl2 c) (sr_l2_hdlr c).
Definition set_sr_evtsrc v c := mkSer (sr_state c) v (sr_poll_cnt c) (sr_timer c) (sr_stslist c) (sr_stsl2 c) (sr_bserl2 c) (sr_l2_hdlr c).
Definition set_sr_poll_cnt v c := mkSer (sr_state c) (sr_evtsrc c) v (sr_timer c) (sr_stslist c) (sr_stsl2 c) (sr_bserl2 c) (sr_l2_hdlr c).
Definition set_sr_timer v c := mkSer (sr_state c) (sr_evtsrc c) (sr_poll_cnt c) v (sr_stslist c) (sr_stsl2 c) (sr_bserl2 c) (sr_l2_hdlr c).
Definition set_sr_log q l c := mkSer (sr_state c) (sr_evtsrc c) (sr_poll_cnt c) (sr_timer c) q l (sr_bserl2 c) (sr_l2_hdlr c).
Definition set_sr_bserl2 v c := mkSer (sr_state c) (sr_evtsrc c) (sr_poll_cnt c) (sr_timer c) (sr_stslist c) (sr_stsl2 c) v (sr_l2_hdlr c).
Definition set_sr_l2_hdlr v c := mkSer (sr_state c) (sr_evtsrc c) (sr_poll_cnt c) (sr_timer c) (sr_stslist c) (sr_stsl2 c) (sr_bserl2 c) v.

(** Calls that leave the module: the hub, interrupt configuration and
    clearing, the watchdog reset, the core's L2 handler, resuming pending
    messages of a band. *)
Inductive ser_event :=
| SvHub (msg : phl_msg) | SvInt (int_type : Z) | SvClrInt | SvWdt | SvL2Hdlr | SvClrPending (band : Z).

Record ser_env := mkSenv { se_send : list bool; se_recog : list bool; se_c2h : list bool; se_mask : list Z }.

(** [ss_queue]: messages to the module the dispatcher has accepted, in order. *)
Record ser_sys := mkSys {
  ss_ser : cmd_ser; ss_dp : dp_info; ss_mac : mac_ser; ss_queue : list phl_msg;
  ss_stats : list Z; ss_env : ser_env; ss_log : list ser_event }.

Definition upd_ser (f : cmd_ser -> cmd_ser) s := mkSys (f (ss_ser s)) (ss_dp s) (ss_mac s) (ss_queue s) (ss_stats s) (ss_env s) (ss_log s).
Definition set_ss_dp v s := mkSys (ss_ser s) v (ss_mac s) (ss_queue s) (ss_stats s) (ss_env s) (ss_log s).
Definition set_ss_mac v s := mkSys (ss_ser s) (ss_dp s) v (ss_queue s) (ss_stats s) (ss_env s) (ss_log s).
Definition set_ss_queue v s := mkSys (ss_ser s) (ss_dp s) (ss_mac s) v (ss_stats s) (ss_env s) (ss_log s).
Definition set_ss_stats v s := mkSys (ss_ser s) (ss_dp s) (ss_mac s) (ss_queue s) v (ss_env s) (ss_log s).
Definition set_ss_env v s := mkSys (ss_ser s) (ss_dp s) (ss_mac s) (ss_queue s) (ss_stats s) v (ss_log s).
Definition ser_emit e s := mkSys (ss_ser s) (ss_dp s) (ss_mac s) (ss_queue s) (ss_stats s) (ss_env s) (ss_log s ++ [e]).

Definition ask_accept (s : ser_sys) : bool * ser_sys :=
  let e := ss_env s in
  (default true (head (se_send e)), set_ss_env (mkSenv (tail (se_send e)) (se_recog e) (se_c2h e) (se_mask e)) s).
Definition ask_recog (s : ser_sys) : bool * ser_sys :=
  let e := ss_env s in
  (default false (head (se_recog e)), set_ss_env (mkSenv (se_send e) (tail (se_recog e)) (se_c2h e) (se_mask e)) s).
Definition ask_c2h (s : ser_sys) : bool * ser_sys :=
  let e := ss_env s in
  (default false (head (se_c2h e)), set_ss_env (mkSenv (se_send e) (se_recog e) (tail (se_c2h e)) (se_mask e)) s).
Definition ask_mask (s : ser_sys) : Z * ser_sys :=
  let e := ss_env s in
  (default 0 (head (se_mask e)), set_ss_env (mkSenv (se_send e) (se_recog e) (se_c2h e) (tail (se_mask e))) s).

(** ** Neighbours *)

Definition ser_msg (mdl evt : Z) : phl_msg :=
  mkMsg (SET_MSG_EVT_ID_FIELD (SET_MSG_MDL_ID_FIELD 0 mdl) evt) HW_BAND_0 0 0 0 0 0.

(** [phl_disp_eng_send_msg] with an empty attribute. *)
Definition send_dispr (msg : phl_msg) (s : ser_sys) : rtw_phl_status * ser_sys :=
  let '(ok, s) := ask_accept s in
  if ok then (RTW_PHL_STATUS_SUCCESS, set_ss_queue (ss_queue s ++ [msg]) s) else (RTW_PHL_STATUS_FAILURE, s).

(** [_os_set_timer] and [_os_cancel_timer]. *)
Definition set_timer (ms : Z) (s : ser_sys) : ser_sys := upd_ser (set_sr_timer (Some ms)) s.
Definition cancel_timer (s : ser_sys) : ser_sys := upd_ser (set_sr_timer None) s.

(** The recovery step a command of the data controller makes the chip take. *)
Definition lv1_step (cmd : phl_data_ctrl_cmd) : option Z :=
  match cmd with
  | PHL_DATA_CTL_HW_TRX_PAUSE => Some RTW_PHL_SER_LV1_RCVY_STEP_1
  | PHL_DATA_CTL_HW_TRX_RST_RESUME => Some RTW_PHL_SER_LV1_SER_RCVY_STEP_2
  | _ => None
  end.

Definition give_hal (ok : bool) (i : dp_info) : dp_info :=
  let e := denv i in
  set_denv (mkEnv (e_sched e) (ok :: e_hal e) (e_send e) (e_steps e) (e_idle e) (e_allowed e)) i.

(** [ctl.id = PHL_MDL_SER; ctl.cmd = cmd; phl_data_ctrler(phl_info, &ctl, NULL)]. *)
Definition ser_ctl (cmd : phl_data_ctrl_cmd) (s : ser_sys) : rtw_phl_status * ser_sys :=
  let s := match lv1_step cmd with
           | Some step =>
               let '(ok, m) := rtw_hal_lv1_rcvy step (ss_mac s) in
               set_ss_dp (give_hal ok (ss_dp s)) (set_ss_mac m s)
           | None => s
           end in
  let '(sts, i) := phl_data_ctrler cmd PHL_MDL_SER zero_msg (ss_dp s) in (sts, set_ss_dp i s).

Definition ser_set_error (err : Z) (s : ser_sys) : ser_sys :=
  set_ss_mac (snd (rtw_hal_ser_set_error_status err (ss_mac s))) s.

(** ** Sending to the module *)

Definition phl_ser_send_msg (notify : Z) (s : ser_sys) : rtw_phl_status * ser_sys :=
  match (if notify =? RTW_PHL_SER_PAUSE_TRX then Some MSG_EVT_SER_M1_PAUSE_TRX
         else if notify =? RTW_PHL_SER_DO_RECOVERY then Some MSG_EVT_SER_M3_DO_RECOV
         else if notify =? RTW_PHL_SER_READY then Some MSG_EVT_SER_M5_READY
         else if notify =? RTW_PHL_SER_L2_RESET then Some MSG_EVT_SER_M9_L2_RESET
         else if notify =? RTW_PHL_SER_EVENT_CHK then Some MSG_EVT_SER_EVENT_CHK
         else None) with
  | None => (RTW_PHL_STATUS_FAILURE, s)
  | Some event => send_dispr (ser_msg PHL_MDL_SER event) s
  end.

Definition phl_fw_watchdog_timeout_notify := phl_ser_send_msg RTW_PHL_SER_L2_RESET.
Definition rtw_phl_ser_l2_notify := phl_ser_send_msg RTW_PHL_SER_L2_RESET.

(** [rtw_phl_interrupt_handler] of phl_init.c: the bits that do something. *)
Definition rtw_phl_interrupt_handler (s : ser_sys) : rtw_phl_status * ser_sys :=
  let '(int_hdler_msk, s) := ask_mask s in
  if int_hdler_msk =? 0 then (RTW_PHL_STATUS_FAILURE, s)
  else
    let s := if z_true (Z.land int_hdler_msk (BIT 1)) then set_ss_dp (snd (schedule Rx (ss_dp s))) s else s in
    let s := if z_true (Z.land int_hdler_msk (BIT 4)) then snd (phl_ser_send_msg RTW_PHL_SER_EVENT_CHK s) else s in
    let s := if z_true (Z.land int_hdler_msk (BIT 5)) then snd (phl_fw_watchdog_timeout_notify s) else s in
    let s := if z_true (Z.land int_hdler_msk (BIT 6)) then snd (phl_ser_send_msg RTW_PHL_SER_EVENT_CHK s) else s in
    let '(phl_status, i) := schedule Tx (ss_dp s) in (phl_status, set_ss_dp i s).

(** ** Status and notifications *)

Definition _ser_int_ntfy_ctrl (int_type : Z) (s : ser_sys) : ser_sys :=
  if RTW_PHL_CLR_HCI_INT =? int_type then ser_emit SvClrInt s else ser_emit (SvInt int_type) s.

(** The status, what was notified, and the state. *)
Definition _ser_event_notify (s : ser_sys) : (rtw_phl_status * Z) * ser_sys :=
  let '((notify, err), m) := rtw_hal_ser_get_error_status 0 (ss_mac s) in
  let s := set_ss_mac m s in
  let s := set_ss_stats (alter (fun n => u64 (n + 1)) (Z.to_nat notify) (ss_stats s)) s in
  if notify =? RTW_PHL_SER_L0_RESET then ((RTW_PHL_STATUS_SUCCESS, notify), s)
  else if notify =? RTW_PHL_SER_LOG_ONLY then ((RTW_PHL_STATUS_SUCCESS, notify), s)
  else if notify =? RTW_PHL_SER_DUMP_FW_LOG
  then ((RTW_PHL_STATUS_SUCCESS, notify), ser_emit (SvHub (ser_msg PHL_MDL_PHY_MGNT MSG_EVT_DUMP_PLE_BUFFER)) s)
  else let '(sts, s) := phl_ser_send_msg notify s in ((sts, notify), s).

Definition _ser_set_status (v : Z) (s : ser_sys) : ser_sys :=
  upd_ser (fun c => set_sr_state (Z.lor (sr_state c) v) c) s.
Definition _ser_clear_status (v : Z) (s : ser_sys) : ser_sys :=
  upd_ser (fun c => set_sr_state (Z.land (sr_state c) (Z.lnot v)) c) s.

Definition evtsrc_is (src : Z) (s : ser_sys) : bool := src =? sr_evtsrc (ss_ser s).

Definition _ser_reset_status (s : ser_sys) : ser_sys :=
  let s := upd_ser (set_sr_state CMD_SER_NOT_OCCUR) s in
  if evtsrc_is CMD_SER_SRC_POLL s
  then set_timer CMD_SER_USB_POLLING_INTERVAL_IDL (upd_ser (set_sr_poll_cnt 0) s)
  else if evtsrc_is CMD_SER_SRC_INT_NOTIFY s then _ser_int_ntfy_ctrl RTW_PHL_EN_HCI_INT s
  else s.

Definition _ser_l1_notify (s : ser_sys) : ser_sys := ser_emit (SvHub (ser_msg PHL_MDL_SER MSG_EVT_SER_L1)) s.

(** The oldest log entry takes the state and goes to the end. *)
Definition log_rotate (c : cmd_ser) : cmd_ser :=
  match pq_pop (sr_stslist c) _first with
  | (Some k, q) =>
      set_sr_log (pq_push q k _tail)
        (alter (fun e => mkSts (u8 (sl_idx e + Z.of_nat CMD_SER_LOG_SIZE)) (sr_state c)) k (sr_stsl2 c)) c
  | (None, q) => c
  end.

Definition _ser_l2_notify (s : ser_sys) : ser_sys :=
  let s := upd_ser log_rotate (ser_emit SvWdt s) in
  let s := upd_ser (set_sr_bserl2 true) s in
  let s := if sr_l2_hdlr (ss_ser s) then ser_emit SvL2Hdlr s else s in
  let s := ser_emit (SvClrPending HW_BAND_0) s in
  ser_emit (SvHub (ser_msg PHL_MDL_SER MSG_EVT_SER_L2)) s.

Definition _ser_m2_notify (s : ser_sys) : ser_sys :=
  let s := if evtsrc_is CMD_SER_SRC_INT_NOTIFY s then _ser_int_ntfy_ctrl RTW_PHL_SER_HANDSHAKE_MODE s else s in
  ser_set_error RTW_PHL_SER_L1_DISABLE_EN (_ser_set_status CMD_SER_M2 (_ser_clear_status CMD_SER_M1 s)).

Definition _ser_m3_m5_waiting (s : ser_sys) : ser_sys :=
  let '(cnt, intvl) := if evtsrc_is CMD_SER_SRC_POLL s
                       then (CMD_SER_POLLING_INTERVAL, CMD_SER_USB_POLLING_INTERVAL_ACT)
                       else (0, CMD_SER_FW_TIMEOUT) in
  set_timer intvl (upd_ser (set_sr_poll_cnt cnt) s).

Definition _ser_m4_notify (s : ser_sys) : ser_sys :=
  let s := if evtsrc_is CMD_SER_SRC_INT_NOTIFY s then _ser_int_ntfy_ctrl RTW_PHL_SER_HANDSHAKE_MODE s else s in
  ser_set_error RTW_PHL_SER_L1_RCVY_EN (_ser_set_status CMD_SER_M4 (_ser_clear_status CMD_SER_M3 s)).

Definition ser_test (bit : Z) (s : ser_sys) : bool := TEST_STATUS_FLAG (sr_state (ss_ser s)) bit.

Definition _ser_poll_timer_cb (s : ser_sys) : ser_sys :=
  let wait_evt := if 0 <? sr_poll_cnt (ss_ser s) then MSG_EVT_SER_POLLING_CHK else MSG_EVT_SER_FW_TIMER_EXPIRE in
  let evt := if ser_test CMD_SER_M1 s then MSG_EVT_SER_IO_TIMER_EXPIRE
             else if ser_test CMD_SER_M2 s then wait_evt
             else if ser_test CMD_SER_M4 s then wait_evt
             else MSG_EVT_SER_POLLING_CHK in
  let nextmsg := ser_msg PHL_MDL_SER evt in
  if z_true (MSG_EVT_ID_FIELD (msg_id nextmsg)) then snd (send_dispr nextmsg s) else s.

(** ** The steps of recovery *)

(** [goto err] of the two functions below. *)
Definition ser_give_up (s : ser_sys) : ser_sys := _ser_reset_status (_ser_l2_notify s).

Definition ser_try (ok : rtw_phl_status -> bool) (cmd : phl_data_ctrl_cmd) (k : ser_sys -> ser_sys) (s : ser_sys) : ser_sys :=
  let '(sts, s) := ser_ctl cmd s in if ok sts then k s else ser_give_up s.

Definition is_success (sts : rtw_phl_status) : bool := bool_decide (sts = RTW_PHL_STATUS_SUCCESS).
(** [RTW_WKARD_SER_L1_EXPIRE] is defined. *)
Definition is_success_or_timeout (sts : rtw_phl_status) : bool :=
  negb (negb (bool_decide (sts = RTW_PHL_STATUS_SUCCESS)) && negb (bool_decide (sts = RTW_PHL_STATUS_CMD_TIMEOUT))).

Definition _ser_m1_pause_trx (s : ser_sys) : ser_sys :=
  ser_try is_success PHL_DATA_CTL_SW_TX_PAUSE (
  ser_try is_success PHL_DATA_CTL_HW_TRX_PAUSE (
  ser_try is_success_or_timeout PHL_DATA_CTL_SW_RX_PAUSE (
  ser_try is_success PHL_DATA_CTL_SW_TX_RESET (
  ser_try is_success PHL_DATA_CTL_SW_RX_RESET (fun s =>
  _ser_m3_m5_waiting (_ser_m2_notify s)))))) s.

Definition _ser_m3_reset_hw_trx (s : ser_sys) : ser_sys :=
  ser_try is_success PHL_DATA_CTL_HW_TRX_RST_RESUME (
  ser_try is_success PHL_DATA_CTL_SW_RX_RESUME (fun s =>
  _ser_m3_m5_waiting (_ser_m4_notify s))) s.

(** ** Messages *)

Definition _ser_fail_ev_hdlr (s : ser_sys) : phl_mdl_ret_code * ser_sys :=
  if negb (evtsrc_is CMD_SER_SRC_POLL s) then (MDL_RET_SUCCESS, s)
  else (MDL_RET_SUCCESS, set_timer CMD_SER_USB_POLLING_INTERVAL_IDL s).

Definition _ser_hdl_external_evt (s : ser_sys) : phl_mdl_ret_code * ser_sys :=
  if sr_bserl2 (ss_ser s) then (MDL_RET_FAIL, s)
  else if z_true (sr_state (ss_ser s)) then (MDL_RET_PENDING, s)
  else (MDL_RET_IGNORE, s).

Definition _ser_msg_hdl_polling_chk (s : ser_sys) : ser_sys :=
  if negb (evtsrc_is CMD_SER_SRC_POLL s) then s
  else
    let '(recog, s) := ask_recog s in
    if recog then snd (rtw_phl_interrupt_handler s)
    else if 0 <? sr_poll_cnt (ss_ser s)
    then set_timer CMD_SER_USB_POLLING_INTERVAL_ACT (upd_ser (fun c => set_sr_poll_cnt (sr_poll_cnt c - 1) c) s)
    else set_timer CMD_SER_USB_POLLING_INTERVAL_IDL s.

Definition _ser_msg_hdl_evt_chk (s : ser_sys) : rtw_phl_status * ser_sys :=
  if evtsrc_is CMD_SER_SRC_INT s then let '((psts, _), s) := _ser_event_notify s in (psts, s)
  else if evtsrc_is CMD_SER_SRC_POLL s then let '((psts, _), s) := _ser_event_notify s in (psts, s)
  else if evtsrc_is CMD_SER_SRC_INT_NOTIFY s then
    let '(halted, s) := ask_c2h s in
    if halted then
      let '((psts, notify), s) := _ser_event_notify s in
      (psts, if (notify =? RTW_PHL_SER_L0_RESET) || (notify =? RTW_PHL_SER_L2_RESET)
             then _ser_int_ntfy_ctrl RTW_PHL_EN_HCI_INT s else s)
    else (RTW_PHL_STATUS_FAILURE, _ser_int_ntfy_ctrl RTW_PHL_EN_HCI_INT s)
  else (RTW_PHL_STATUS_FAILURE, s).

Definition _ser_msg_hdl_m1 (s : ser_sys) : ser_sys :=
  let s := if evtsrc_is CMD_SER_SRC_POLL s then cancel_timer s
           else if evtsrc_is CMD_SER_SRC_INT_NOTIFY s then _ser_int_ntfy_ctrl RTW_PHL_DIS_HCI_INT s else s in
  _ser_m1_pause_trx (_ser_l1_notify (_ser_set_status CMD_SER_M1 s)).

Definition _ser_msg_hdl_fw_expire (s : ser_sys) : ser_sys :=
  let s := if evtsrc_is CMD_SER_SRC_POLL s
           then set_timer CMD_SER_USB_POLLING_INTERVAL_IDL (_ser_set_status CMD_SER_M9 s) else s in
  upd_ser (set_sr_bserl2 true) s.

Definition _ser_msg_hdl_m3 (s : ser_sys) : ser_sys :=
  let s := if evtsrc_is CMD_SER_SRC_INT_NOTIFY s then _ser_int_ntfy_ctrl RTW_PHL_CLR_HCI_INT s else s in
  _ser_m3_reset_hw_trx (_ser_set_status CMD_SER_M3 (_ser_clear_status CMD_SER_M2 (cancel_timer s))).

Definition _ser_msg_hdl_m5 (s : ser_sys) : ser_sys :=
  let s := _ser_set_status CMD_SER_M5 (_ser_clear_status CMD_SER_M4 (cancel_timer s)) in
  let s := snd (ser_ctl PHL_DATA_CTL_SW_TX_RESUME s) in
  ser_emit (SvClrPending HW_BAND_0) (_ser_reset_status s).

Definition _ser_msg_hdl_m9 (s : ser_sys) : ser_sys :=
  let s := _ser_set_status CMD_SER_M9 (cancel_timer s) in
  let s := if CMD_SER_NOT_OCCUR <? sr_state (ss_ser s)
           then snd (ser_ctl PHL_DATA_CTL_SW_RX_RESUME (snd (ser_ctl PHL_DATA_CTL_SW_TX_RESUME s))) else s in
  _ser_reset_status (_ser_l2_notify s).

Definition _ser_hdl_internal_evt (evt : Z) (s : ser_sys) : phl_mdl_ret_code * ser_sys :=
  (MDL_RET_SUCCESS,
   if evt =? MSG_EVT_SER_POLLING_CHK then _ser_msg_hdl_polling_chk s
   else if evt =? MSG_EVT_SER_EVENT_CHK then snd (_ser_msg_hdl_evt_chk s)
   else if evt =? MSG_EVT_SER_M1_PAUSE_TRX then _ser_msg_hdl_m1 s
   else if evt =? MSG_EVT_SER_IO_TIMER_EXPIRE then s
   else if evt =? MSG_EVT_SER_FW_TIMER_EXPIRE then _ser_msg_hdl_fw_expire s
   else if evt =? MSG_EVT_SER_M3_DO_RECOV then _ser_msg_hdl_m3 s
   else if evt =? MSG_EVT_SER_M5_READY then _ser_msg_hdl_m5 s
   else if evt =? MSG_EVT_SER_M9_L2_RESET then _ser_msg_hdl_m9 s
   else s).

Definition _phl_ser_mdl_msg_hdlr (msg : phl_msg) (s : ser_sys) : phl_mdl_ret_code * ser_sys :=
  if IS_MSG_FAIL (msg_id msg) then _ser_fail_ev_hdlr s
  else if MSG_MDL_ID_FIELD (msg_id msg) =? PHL_MDL_SER then
    if IS_MSG_IN_PRE_PHASE (msg_id msg) then _ser_hdl_internal_evt (MSG_EVT_ID_FIELD (msg_id msg)) s
    else (MDL_RET_IGNORE, s)
  else _ser_hdl_external_evt s.

(** ** Life cycle *)

(** [alloc]: whether the allocation succeeds; the dispatcher always passes a
    place for the handle. *)
Definition _phl_ser_mdl_init (hci_type : Z) (alloc : bool) : phl_mdl_ret_code * option cmd_ser :=
  if negb alloc then (MDL_RET_FAIL, None)
  else
    let evtsrc := if hci_type =? RTW_HCI_PCIE then CMD_SER_SRC_INT
                  else if hci_type =? RTW_HCI_USB then CMD_SER_SRC_POLL
                  else if hci_type =? RTW_HCI_SDIO then CMD_SER_SRC_INT_NOTIFY else 0 in
    let ids := seq 0 CMD_SER_LOG_SIZE in
    let c := mkSer 0 0 0 None pq_init (map (fun k => mkSts (Z.of_nat k) 0) ids) false false in
    let c := foldl (fun c k => set_sr_log (pq_push (sr_stslist c) k _tail) (sr_stsl2 c) c) c ids in
    (MDL_RET_SUCCESS, Some (set_sr_evtsrc evtsrc c)).

Definition _phl_ser_mdl_deinit (s : ser_sys) : ser_sys := cancel_timer s.

Definition _phl_ser_mdl_start (s : ser_sys) : phl_mdl_ret_code * ser_sys :=
  let s := if evtsrc_is CMD_SER_SRC_POLL s then ser_set_error RTW_PHL_SER_L0_CFG_DIS_NOTIFY s else s in
  (MDL_RET_SUCCESS, _ser_reset_status s).

Definition _phl_ser_mdl_stop (s : ser_sys) : phl_mdl_ret_code * ser_sys := (MDL_RET_SUCCESS, cancel_timer s).

(** [inbuf]: whether the buffer is given. *)
Definition _phl_ser_mdl_set_info (op_code : Z) (inbuf : bool) (s : ser_sys) : phl_mdl_ret_code * ser_sys :=
  if op_code =? BK_MODL_OP_INPUT_CMD
  then (MDL_RET_SUCCESS, if inbuf then upd_ser (set_sr_l2_hdlr true) s else s)
  else (MDL_RET_IGNORE, s).

(** The byte copied to the caller, if any. *)
Definition _phl_ser_mdl_query_info (op_code : Z) (s : ser_sys) : phl_mdl_ret_code * option Z :=
  if op_code =? BK_MODL_OP_STATE then (MDL_RET_SUCCESS, Some (sr_state (ss_ser s))) else (MDL_RET_IGNORE, None).

Definition ser_ops : phl_bk_module_ops := mkOps true true true true true true true.

Definition phl_register_ser_module (alloc_ok : bool) (e : phl_cmd_dispatch_engine) :
    rtw_phl_status * phl_cmd_dispatch_engine :=
  phl_disp_eng_register_module e HW_BAND_0 PHL_MDL_SER (Some ser_ops) alloc_ok.

(** [found]: whether the dispatcher passes the query to the module. *)
Definition phl_ser_inprogress (found : bool) (s : ser_sys) : bool :=
  if found then
    match _phl_ser_mdl_query_info BK_MODL_OP_STATE s with
    | (MDL_RET_SUCCESS, Some state) => z_true state
    | _ => false
    end
  else false.
