(* ===== verification/SerInv.v ===== *)
(** * Error recovery: what the module holds

    The steps of recovery seen from the data path: which directions the module
    holds paused, and how this goes with its state in every run. *)

From S2P Require Import Prelude PhlQueue PhlDef DispState DispEngine DataPath DataPathThm DispCtrl FwOfld SerMac SerCmd.

(** ** Pauses a command leaves alone *)

(** The module with bit [b] holds direction [x]. *)
Definition held (b : Z) (x : dir) (i : dp_info) : bool := Z.testbit (pause_id (dp_of x i)) b.

Lemma poll_id n x y : forall i, pause_id (dp_of y (snd (poll_pause n x i))) = pause_id (dp_of y i).
Proof.
  induction n as [|n IH]; intros i; [done|]. cbn.
  destruct (default (2, 2)%nat (head (e_steps (denv i)))) as [t r].
  set (k := iter_hdl r Rx _).
  assert (pause_id (dp_of y k) = pause_id (dp_of y i)) as Ek by (unfold k; rewrite !iter_id; by destruct y).
  pose proof (is_pause_same x y k) as [_ Hs _ _]. destruct (is_pause x k) as [[] k']; cbn [snd] in *; [congruence|].
  rewrite IH. congruence.
Qed.

Lemma hold_id x y m i : pause_id (dp_of y (hold x m i)) =
  if decide (y = x) then Z.lor (pause_id (dp_of y i)) m else pause_id (dp_of y i).
Proof. unfold hold. rewrite dp_of_upd. by case_decide. Qed.

Lemma schedule_id x y i : pause_id (dp_of y (snd (schedule x i))) = pause_id (dp_of y i).
Proof. by destruct (schedule_same y x i). Qed.

(** Pausing fails and holds nothing new, or holds the direction. *)
Lemma sw_pause_id x id i : let '(st, j) := sw_pause x id i in
  (st = RTW_PHL_STATUS_FAILURE /\ forall y, pause_id (dp_of y j) = pause_id (dp_of y i)) \/
  ((st = RTW_PHL_STATUS_SUCCESS \/ st = RTW_PHL_STATUS_CMD_TIMEOUT) /\
   forall y, pause_id (dp_of y j) =
     if decide (y = x) then Z.lor (pause_id (dp_of y i)) (_phl_get_ctrl_mdl id) else pause_id (dp_of y i)).
Proof.
  unfold sw_pause. destruct (PHL_TX_STATUS_SW_PAUSE =? _); [right; auto using hold_id|].
  destruct (PHL_TX_STATUS_STOP_INPROGRESS =? _); [right; auto using hold_id|].
  assert (forall y, pause_id (dp_of y (req_stop x i)) = pause_id (dp_of y i)) as Er
    by (intros y; unfold req_stop; rewrite dp_of_upd; by case_decide).
  pose proof (fun y => schedule_id x y (req_stop x i)) as Es.
  destruct (schedule x (req_stop x i)) as [st j]. cbn [snd] in Es.
  destruct st; try (left; split; [done|]; intros y; by rewrite Es, Er).
  pose proof (fun y => poll_id (poll_cnt x) x y j) as Ep. destruct (poll_pause (poll_cnt x) x j) as [b k].
  cbn [snd] in Ep. right. split; [destruct b; auto|]. intros y. rewrite hold_id, Ep, Es, Er. done.
Qed.

Lemma sw_resume_id x id i y : pause_id (dp_of y (snd (sw_resume x id i))) =
  if decide (y = x) then
    if TEST_STATUS_FLAG (pause_id (dp_of x i)) (_phl_get_ctrl_mdl id)
    then Z.land (pause_id (dp_of x i)) (Z.lnot (_phl_get_ctrl_mdl id)) else pause_id (dp_of x i)
  else pause_id (dp_of y i).
Proof.
  unfold sw_resume. destruct (TEST_STATUS_FLAG _ _); cbn [negb].
  - set (j := upd_dp x _ i).
    assert (pause_id (dp_of y j) = if decide (y = x) then Z.land (pause_id (dp_of x i)) (Z.lnot (_phl_get_ctrl_mdl id))
      else pause_id (dp_of y i)) as Ej by (unfold j; rewrite dp_of_upd; case_decide; by subst).
    destruct (DATA_CTRL_MDL_NONE =? _); cbn [negb]; [|exact Ej]. rewrite schedule_id. unfold trx_resume. rewrite dp_of_upd.
    rewrite <- Ej. by case_decide.
  - cbn [snd]. case_decide; by subst.
Qed.

Lemma hw_id i y :
  pause_id (dp_of y (snd (_phl_hw_trx_pause i))) = pause_id (dp_of y i) /\
  pause_id (dp_of y (snd (_phl_hw_trx_rst_resume i))) = pause_id (dp_of y i).
Proof. unfold _phl_hw_trx_pause, _phl_hw_trx_rst_resume, ask_hal. destruct (default true _), y; done. Qed.

Lemma report_id msg c st i y : pause_id (dp_of y (report msg c st i)) = pause_id (dp_of y i).
Proof. unfold report. case_match; [by destruct y|done]. Qed.

(** A command of a module leaves the pauses of the others. *)
Section Others.
Context (b id : Z) (Hb : Z.testbit (_phl_get_ctrl_mdl id) b = false).

Lemma other_pause x y i : held b y (snd (sw_pause x id i)) = held b y i.
Proof.
  pose proof (sw_pause_id x id i) as H. destruct (sw_pause x id i) as [st j]. cbn [snd]. unfold held.
  destruct H as [[_ E]|[_ E]]; rewrite E; [done|]. case_decide; [|done]. by rewrite Z.lor_spec, Hb, orb_false_r.
Qed.

Lemma other_resume x y i : 0 <= b -> held b y (snd (sw_resume x id i)) = held b y i.
Proof.
  intros H0. unfold held. rewrite sw_resume_id. case_decide; [subst|done]. case_match; [|done].
  by rewrite Z.land_spec, Z.lnot_spec, Hb, andb_true_r by done.
Qed.

Lemma other_then err r k y h :
  held b y (snd r) = h -> (forall i, held b y i = h -> held b y (snd (k i)) = h) ->
  (forall s i, held b y (err s i) = held b y i) -> held b y (snd (then_step err r k)) = h.
Proof. destruct r as [s i]. cbn. intros Hr Hk He. case_bool_decide; [by apply Hk|cbn; by rewrite He]. Qed.

Lemma other_cmd cmd msg i y : 0 <= b -> held b y (snd (phl_data_ctrler cmd id msg i)) = held b y i.
Proof.
  intros H0. destruct (hw_id i y) as [E1 E2].
  destruct cmd; cbn [phl_data_ctrler]; unfold _phl_sw_tx_pause, _phl_sw_rx_pause, _phl_sw_tx_resume, _phl_sw_rx_resume;
    try apply other_pause; try (by apply other_resume); try done; try (unfold held; congruence);
    try (unfold held, _phl_sw_tx_rst, _phl_sw_rx_rst; by destruct y).
  - apply other_then; [apply other_pause| |done]. intros j Hj.
    apply other_then; [by rewrite (other_pause Rx)|done|done].
  - apply other_then; [by apply other_resume| |done]. intros j Hj.
    apply other_then; [by rewrite (other_resume Rx)|done|done].
  - apply other_then; [apply other_pause| |intros; unfold held, report_poll; by rewrite report_id]. intros j Hj.
    apply other_then; [unfold held; destruct (hw_id j y) as [-> _]; exact Hj| |intros; unfold held; by rewrite report_id].
    intros k Hk. apply other_then; [by rewrite (other_pause Rx)| |intros; unfold held, report_poll; by rewrite report_id].
    intros l Hl. rewrite <- Hl. by destruct y.
  - apply other_then; [by apply other_resume| |intros; unfold held; by rewrite report_id]. intros j Hj.
    apply other_then; [unfold held; destruct (hw_id j y) as [_ ->]; exact Hj| |intros; unfold held; by rewrite report_id].
    intros k Hk. apply other_then; [by rewrite (other_resume Tx)|done|intros; unfold held; by rewrite report_id].
Qed.
End Others.

(** What other modules and the handlers do to the data path while error
    recovery does nothing. *)
Definition not_ser (_ : phl_data_ctrl_cmd) (id : Z) : Prop := id <> PHL_MDL_SER.

Lemma not_ser_bit id : id <> PHL_MDL_SER -> Z.testbit (_phl_get_ctrl_mdl id) 1 = false.
Proof. intros H. unfold _phl_get_ctrl_mdl. repeat case_match; try done. by apply Z.eqb_eq in H1. Qed.

Definition ser_held : dir -> dp_info -> bool := held 1.

Lemma dp_step_held x i j : dp_step not_ser i j -> ser_held x j = ser_held x i.
Proof.
  intros H. unfold ser_held. destruct H as [y i|cmd id msg e i HA|y v i|y f i].
  - unfold held. by rewrite step_id.
  - rewrite other_cmd by (by apply not_ser_bit || lia). by destruct x.
  - by destruct x, y.
  - unfold held, _phl_req_pwr_cb. case_match; [by destruct (req_pwr_same x y false i) as [_ -> _ _]|].
    rewrite schedule_id. by destruct (req_pwr_same x y false i) as [_ -> _ _].
Qed.

(** ** The module's own commands *)

Lemma ser_bit : _phl_get_ctrl_mdl PHL_MDL_SER = BIT 1.
Proof. done. Qed.

Lemma give_hal_held ok x i : ser_held x (give_hal ok i) = ser_held x i.
Proof. by destruct x. Qed.

(** A command changes the data path and takes results of the DMA functions. *)
Record ser_same (s s' : ser_sys) : Prop := {
  sm_ser : ss_ser s' = ss_ser s; sm_queue : ss_queue s' = ss_queue s; sm_stats : ss_stats s' = ss_stats s;
  sm_env : ss_env s' = ss_env s; sm_log : ss_log s' = ss_log s;
  sm_mac : exists l, ss_mac s' = set_dma_rets l (ss_mac s) }.

Lemma dma_eta m : set_dma_rets (dma_rets m) m = m.
Proof. by destruct m. Qed.

Lemma ser_same_refl s : ser_same s s.
Proof. split; try done. exists (dma_rets (ss_mac s)). by rewrite dma_eta. Qed.
Lemma ser_same_trans s t u : ser_same s t -> ser_same t u -> ser_same s u.
Proof. intros [? ? ? ? ? [l El]] [? ? ? ? ? [l' El']]. split; try congruence. exists l'. by rewrite El', El. Qed.

Lemma lv1_mac step m : exists l, snd (rtw_hal_lv1_rcvy step m) = set_dma_rets l m.
Proof.
  unfold rtw_hal_lv1_rcvy, rtw_hal_mac_lv1_rcvy, mac_lv1_rcvy, ask_dma.
  pose proof (eq_sym (dma_eta m)).
  repeat case_match; simplify_eq; cbn [snd]; eauto.
Qed.

Lemma ctl_same cmd s : ser_same s (snd (ser_ctl cmd s)).
Proof.
  unfold ser_ctl. destruct (lv1_step cmd) as [step|].
  - destruct (lv1_mac step (ss_mac s)) as [l El]. destruct (rtw_hal_lv1_rcvy step (ss_mac s)) as [ok m].
    cbn [snd] in El. destruct (phl_data_ctrler _ _ _ _). split; try done. exists l. exact El.
  - destruct (phl_data_ctrler _ _ _ _). split; try done. exists (dma_rets (ss_mac s)). symmetry. apply dma_eta.
Qed.

(** The command on the data path. *)
Lemma ctl_dp cmd s : exists i, (forall x, ser_held x i = ser_held x (ss_dp s)) /\
  fst (ser_ctl cmd s) = fst (phl_data_ctrler cmd PHL_MDL_SER zero_msg i) /\
  ss_dp (snd (ser_ctl cmd s)) = snd (phl_data_ctrler cmd PHL_MDL_SER zero_msg i).
Proof.
  unfold ser_ctl. destruct (lv1_step cmd) as [step|].
  - destruct (rtw_hal_lv1_rcvy step (ss_mac s)) as [ok m]. exists (give_hal ok (ss_dp s)).
    split; [intros x; apply give_hal_held|]. cbn. by destruct (phl_data_ctrler _ _ _ _).
  - exists (ss_dp s). split; [done|]. by destruct (phl_data_ctrler _ _ _ _).
Qed.

Definition pause_cmd (x : dir) := match x with Tx => PHL_DATA_CTL_SW_TX_PAUSE | Rx => PHL_DATA_CTL_SW_RX_PAUSE end.
Definition resume_cmd (x : dir) := match x with Tx => PHL_DATA_CTL_SW_TX_RESUME | Rx => PHL_DATA_CTL_SW_RX_RESUME end.

Lemma ctl_pause x s : let '(st, s') := ser_ctl (pause_cmd x) s in
  (st = RTW_PHL_STATUS_FAILURE /\ forall y, ser_held y (ss_dp s') = ser_held y (ss_dp s)) \/
  ((st = RTW_PHL_STATUS_SUCCESS \/ st = RTW_PHL_STATUS_CMD_TIMEOUT) /\
   forall y, ser_held y (ss_dp s') = if decide (y = x) then true else ser_held y (ss_dp s)).
Proof.
  destruct (ctl_dp (pause_cmd x) s) as (i & Hi & E1 & E2). destruct (ser_ctl _ s) as [st s'].
  cbn [fst snd] in *. subst st. rewrite E2.
  assert (phl_data_ctrler (pause_cmd x) PHL_MDL_SER zero_msg i = sw_pause x PHL_MDL_SER i) as -> by (by destruct x).
  pose proof (sw_pause_id x PHL_MDL_SER i) as H. destruct (sw_pause x PHL_MDL_SER i) as [st j]. cbn [fst snd].
  destruct H as [[-> E]|[Hst E]]; [left|right]; (split; [done|]); intros y;
    rewrite <- Hi; unfold ser_held, held; rewrite E; [done|]. case_decide; [|done].
  rewrite Z.lor_spec, ser_bit. by rewrite orb_true_r.
Qed.

Lemma ctl_resume x s y : ser_held y (ss_dp (snd (ser_ctl (resume_cmd x) s))) =
  if decide (y = x) then false else ser_held y (ss_dp s).
Proof.
  destruct (ctl_dp (resume_cmd x) s) as (i & Hi & _ & E2). rewrite E2, <- Hi.
  assert (phl_data_ctrler (resume_cmd x) PHL_MDL_SER zero_msg i = sw_resume x PHL_MDL_SER i) as -> by (by destruct x).
  unfold ser_held, held. rewrite sw_resume_id, ser_bit. case_decide; [subst|done].
  destruct (TEST_STATUS_FLAG _ _) eqn:E.
  - rewrite Z.land_spec, Z.lnot_spec by lia. by rewrite andb_false_r.
  - by rewrite test_flag_bit in E by lia.
Qed.

(** Hardware steps and resets. *)
Definition holds_none (cmd : phl_data_ctrl_cmd) : bool :=
  match cmd with
  | PHL_DATA_CTL_HW_TRX_RST_RESUME | PHL_DATA_CTL_HW_TRX_PAUSE | PHL_DATA_CTL_SW_TX_RESET | PHL_DATA_CTL_SW_RX_RESET => true
  | _ => false
  end.

Lemma ctl_none cmd s y : holds_none cmd = true -> ser_held y (ss_dp (snd (ser_ctl cmd s))) = ser_held y (ss_dp s).
Proof.
  intros H. destruct (ctl_dp cmd s) as (i & Hi & _ & E2). rewrite E2, <- Hi. unfold ser_held, held.
  destruct (hw_id i y) as [E3 E4]. destruct cmd; try done; cbn [phl_data_ctrler]; rewrite ?E3, ?E4; try done;
    unfold _phl_sw_tx_rst, _phl_sw_rx_rst; by destruct y.
Qed.

(** ** Outcomes of the handlers *)

Lemma try_cases ok cmd k s : exists st s1, ser_ctl cmd s = (st, s1) /\ ser_same s s1 /\
  (ok st = true /\ ser_try ok cmd k s = k s1 \/ ok st = false /\ ser_try ok cmd k s = ser_give_up s1).
Proof.
  pose proof (ctl_same cmd s) as H. unfold ser_try. destruct (ser_ctl cmd s) as [st s1]. exists st, s1.
  split; [done|]. split; [done|]. destruct (ok st); auto.
Qed.

Lemma is_success_true st : is_success st = true -> st = RTW_PHL_STATUS_SUCCESS.
Proof. apply bool_decide_eq_true_1. Qed.
Lemma or_timeout_false st : is_success_or_timeout st = true -> st <> RTW_PHL_STATUS_FAILURE.
Proof. intros H ->. done. Qed.

(** The state does not count and the parts the module does not write are kept. *)
Record ser_frame (s s' : ser_sys) : Prop := {
  sf_src : sr_evtsrc (ss_ser s') = sr_evtsrc (ss_ser s); sf_queue : ss_queue s' = ss_queue s;
  sf_hdlr : sr_l2_hdlr (ss_ser s') = sr_l2_hdlr (ss_ser s); sf_env : ss_env s' = ss_env s;
  sf_poll : sr_evtsrc (ss_ser s) = CMD_SER_SRC_INT -> sr_poll_cnt (ss_ser s) = 0 -> sr_poll_cnt (ss_ser s') = 0;
  sf_log : exists l, ss_log s' = ss_log s ++ l }.

Lemma frame_same s s' : ser_same s s' -> ser_frame s s'.
Proof. intros [E1 E2 E3 E4 E5 _]. split; try congruence. exists []. by rewrite app_nil_r, E5. Qed.

#[export] Instance ser_frame_trans : Transitive ser_frame.
Proof.
  intros s t u [? ? ? ? P [l Hl]] [? ? ? ? P' [l' Hl']]. split; try congruence.
  { intros H1 H2. apply P'; [congruence|auto]. }
  exists (l ++ l'). by rewrite Hl', Hl, app_assoc.
Qed.
#[export] Instance ser_frame_refl : Reflexive ser_frame.
Proof. intros s. split; try done. exists []. by rewrite app_nil_r. Qed.

Lemma frame_upd f s : (forall c, sr_evtsrc (f c) = sr_evtsrc c /\ sr_l2_hdlr (f c) = sr_l2_hdlr c /\ sr_poll_cnt (f c) = sr_poll_cnt c) ->
  ser_frame s (upd_ser f s).
Proof. intros H. destruct (H (ss_ser s)) as (E1 & E2 & E3). split; try done; [cbn; congruence|]. exists []. by rewrite app_nil_r. Qed.
Lemma frame_poll v s : (sr_evtsrc (ss_ser s) = CMD_SER_SRC_INT -> v = 0) -> ser_frame s (upd_ser (set_sr_poll_cnt v) s).
Proof. intros H. split; try done; [by intros ->%H|]. exists []. by rewrite app_nil_r. Qed.
Lemma frame_emit e s : ser_frame s (ser_emit e s).
Proof. split; try done. by exists [e]. Qed.
Lemma frame_ntfy v s : ser_frame s (_ser_int_ntfy_ctrl v s).
Proof. unfold _ser_int_ntfy_ctrl. case_match; apply frame_emit. Qed.
Lemma frame_if b s t u : ser_frame s t -> ser_frame s u -> ser_frame s (if b : bool then t else u).
Proof. by destruct b. Qed.
Lemma frame_rotate s : ser_frame s (upd_ser log_rotate s).
Proof. apply frame_upd. intros c. unfold log_rotate. by destruct (pq_pop _ _) as [[k|] q]. Qed.
Lemma frame_set_error v s : ser_frame s (ser_set_error v s).
Proof. split; try done. exists []. by rewrite app_nil_r. Qed.

(** Pending messages of the band were told to resume on the way. *)
Definition resumed (s s' : ser_sys) : Prop := exists l, ss_log s' = ss_log s ++ l /\ SvClrPending HW_BAND_0 ∈ l.

Lemma resumed_after s t u : ser_frame s t -> resumed t u -> resumed s u.
Proof. intros [_ _ _ _ _ [l Hl]] (l' & Hl' & Hin). exists (l ++ l'). rewrite Hl', Hl, app_assoc. split; [done|set_solver]. Qed.
Lemma resumed_before s t u : resumed s t -> ser_frame t u -> resumed s u.
Proof. intros (l & Hl & Hin) [_ _ _ _ _ [l' Hl']]. exists (l ++ l'). rewrite Hl', Hl, app_assoc. split; [done|set_solver]. Qed.

(** Giving up. *)
Record gave_up (s s' : ser_sys) : Prop := {
  gu_frame : ser_frame s s'; gu_state : sr_state (ss_ser s') = 0; gu_l2 : sr_bserl2 (ss_ser s') = true;
  gu_dp : ss_dp s' = ss_dp s; gu_mac : ss_mac s' = ss_mac s; gu_resumed : resumed s s';
  gu_told : SvHub (ser_msg PHL_MDL_SER MSG_EVT_SER_L2) ∈ ss_log s' }.

Lemma rotate_keeps c : sr_state (log_rotate c) = sr_state c /\ sr_timer (log_rotate c) = sr_timer c /\
  sr_bserl2 (log_rotate c) = sr_bserl2 c /\ sr_poll_cnt (log_rotate c) = sr_poll_cnt c.
Proof. unfold log_rotate. by destruct (pq_pop _ _) as [[k|] q]. Qed.

Lemma reset_spec s : let s' := _ser_reset_status s in ser_frame s s' /\ sr_state (ss_ser s') = 0 /\
  sr_bserl2 (ss_ser s') = sr_bserl2 (ss_ser s) /\ ss_dp s' = ss_dp s /\ ss_mac s' = ss_mac s.
Proof.
  unfold _ser_reset_status. cbv zeta. set (t := upd_ser _ s).
  assert (ser_frame s t) as Ht by (by apply frame_upd). destruct (evtsrc_is _ t).
  - split; [|done]. etransitivity; [|by apply frame_upd]. etransitivity; [exact Ht|]. by apply frame_poll.
  - destruct (evtsrc_is _ t); [|done]. split; [etransitivity; [exact Ht|apply frame_ntfy]|].
    unfold _ser_int_ntfy_ctrl. by destruct (_ =? _).
Qed.

Lemma l2_notify_spec s : let s' := _ser_l2_notify s in ser_frame s s' /\ sr_bserl2 (ss_ser s') = true /\
  ss_dp s' = ss_dp s /\ ss_mac s' = ss_mac s /\ sr_timer (ss_ser s') = sr_timer (ss_ser s) /\
  resumed s s' /\ SvHub (ser_msg PHL_MDL_SER MSG_EVT_SER_L2) ∈ ss_log s'.
Proof.
  unfold _ser_l2_notify. cbv zeta. set (t := upd_ser (set_sr_bserl2 true) _).
  assert (ser_frame s t) as Ht.
  { unfold t. etransitivity; [|by apply frame_upd]. etransitivity; [|apply frame_rotate]. apply frame_emit. }
  assert (sr_timer (ss_ser t) = sr_timer (ss_ser s)) as Et by apply rotate_keeps.
  assert (forall u, ser_frame s u -> ser_frame s (ser_emit (SvHub (ser_msg PHL_MDL_SER MSG_EVT_SER_L2)) (ser_emit (SvClrPending HW_BAND_0) u)))
    as Hu by (intros u Hu; do 2 (etransitivity; [|apply frame_emit]); done).
  destruct (sr_l2_hdlr (ss_ser t)); (split; [apply Hu; first [exact Ht|(etransitivity; [exact Ht|apply frame_emit])]|]);
    (split; [done|]; split; [done|]; split; [done|]; split; [exact Et|]; split; [|cbn; set_solver]).
  1: apply (resumed_after s (ser_emit SvL2Hdlr t)); [etransitivity; [exact Ht|apply frame_emit]|].
  2: apply (resumed_after s t); [exact Ht|].
  all: eapply resumed_before; [|apply frame_emit]; eexists; split; [reflexivity|set_solver].
Qed.

Lemma give_up_spec s : gave_up s (ser_give_up s).
Proof.
  unfold ser_give_up. destruct (l2_notify_spec s) as (H1 & H2 & H3 & H4 & _ & H5 & H6).
  destruct (reset_spec (_ser_l2_notify s)) as (K1 & K2 & K3 & K4 & K5).
  pose proof (sf_log _ _ K1) as [l Hl].
  split; try congruence; [by etransitivity|by eapply resumed_before|rewrite Hl; set_solver].
Qed.

(** Waiting for the firmware's next report after the answer [step]. *)
Definition wait_intvl (src : Z) : Z :=
  if CMD_SER_SRC_POLL =? src then CMD_SER_USB_POLLING_INTERVAL_ACT else CMD_SER_FW_TIMEOUT.

Record waits (step state : Z) (s s' : ser_sys) : Prop := {
  wt_frame : ser_frame s s'; wt_state : sr_state (ss_ser s') = state;
  wt_timer : sr_timer (ss_ser s') = Some (wait_intvl (sr_evtsrc (ss_ser s)));
  wt_l2 : sr_bserl2 (ss_ser s') = sr_bserl2 (ss_ser s);
  wt_mac : exists l, ss_mac s' = snd (rtw_hal_ser_set_error_status step (set_dma_rets l (ss_mac s))) }.

Record fails (s s' : ser_sys) : Prop := {
  fl_frame : ser_frame s s'; fl_state : sr_state (ss_ser s') = 0; fl_l2 : sr_bserl2 (ss_ser s') = true;
  fl_resumed : resumed s s';
  fl_mac : exists l, ss_mac s' = set_dma_rets l (ss_mac s) }.

Lemma fails_after s t s' : ser_frame s t -> (exists l, ss_mac t = set_dma_rets l (ss_mac s)) -> gave_up t s' -> fails s s'.
Proof. intros Hf [l Hl] [G1 G2 G3 G4 G5 G6 G7]. split; try done; [by etransitivity|by eapply resumed_after|]. exists l. congruence. Qed.

(** The common end of M2 and M4. *)
Lemma answer_spec clr set step s (f := fun s => _ser_m3_m5_waiting (ser_set_error step
    (_ser_set_status set (_ser_clear_status clr
      (if evtsrc_is CMD_SER_SRC_INT_NOTIFY s then _ser_int_ntfy_ctrl RTW_PHL_SER_HANDSHAKE_MODE s else s))))) :
  ss_dp (f s) = ss_dp s /\
  waits step (Z.lor (Z.land (sr_state (ss_ser s)) (Z.lnot clr)) set) s (f s).
Proof.
  unfold f. clear f. set (t := if evtsrc_is _ s then _ else s).
  assert (ser_frame s t) as Ht by (unfold t; apply frame_if; [apply frame_ntfy|done]).
  assert (ss_ser t = ss_ser s /\ ss_mac t = ss_mac s /\ ss_dp t = ss_dp s) as (E1 & E2 & E3).
  { unfold t, _ser_int_ntfy_ctrl. by destruct (evtsrc_is _ s). }
  clearbody t. set (u := ser_set_error step _).
  assert (ser_frame s u) as Hu.
  { etransitivity; [exact Ht|]. etransitivity; [|apply frame_set_error].
    etransitivity; [|by apply frame_upd]. by apply frame_upd. }
  assert (sr_evtsrc (ss_ser u) = sr_evtsrc (ss_ser s)) as Eu by (by destruct Hu).
  unfold _ser_m3_m5_waiting. unfold evtsrc_is. rewrite Eu.
  split; [by destruct (_ =? _)|]. unfold wait_intvl. split.
  - etransitivity; [exact Hu|]. destruct (Z.eqb_spec CMD_SER_SRC_POLL (sr_evtsrc (ss_ser s))) as [Ep|];
      (etransitivity; [|by apply frame_upd]); apply frame_poll; rewrite Eu; [by rewrite <- Ep|done].
  - assert (sr_state (ss_ser u) = Z.lor (Z.land (sr_state (ss_ser s)) (Z.lnot clr)) set) as <- by (cbn; by rewrite E1).
    by destruct (_ =? _).
  - unfold wait_intvl. by destruct (_ =? _).
  - assert (sr_bserl2 (ss_ser u) = sr_bserl2 (ss_ser s)) as <- by (cbn; by rewrite E1). by destruct (_ =? _).
  - exists (dma_rets (ss_mac s)). rewrite dma_eta, <- E2. by destruct (_ =? _).
Qed.

Lemma hw_step_ok cmd step s s1 : lv1_step cmd = Some step -> ser_ctl cmd s = (RTW_PHL_STATUS_SUCCESS, s1) ->
  fw_rst (ss_mac s) = (if step =? 0 then MAC_AX_FW_RESET_RECV else MAC_AX_FW_RESET_PROCESS) /\
  is_hw_trx_pause (ss_dp s1) = (step =? 0).
Proof.
  intros Hs. unfold ser_ctl. rewrite Hs.
  assert (step = 0 \/ step = 1) as Hstep by (destruct cmd; try discriminate Hs; injection Hs as <-; auto).
  destruct (rtw_hal_lv1_rcvy step (ss_mac s)) as [ok m] eqn:Em.
  assert (ok = true -> fw_rst (ss_mac s) = (if step =? 0 then MAC_AX_FW_RESET_RECV else MAC_AX_FW_RESET_PROCESS)) as Hok.
  { revert Em. unfold rtw_hal_lv1_rcvy, rtw_hal_mac_lv1_rcvy, mac_lv1_rcvy.
    destruct Hstep as [-> | ->]; cbn [Z.eqb MAC_AX_LV1_RCVY_STEP_1 MAC_AX_LV1_RCVY_STEP_2 Pos.eqb];
      destruct (Z.eqb_spec (fw_rst (ss_mac s)) MAC_AX_FW_RESET_RECV);
      destruct (Z.eqb_spec (fw_rst (ss_mac s)) MAC_AX_FW_RESET_PROCESS); cbn [negb]; try done;
      intros E Et; subst; by simplify_eq. }
  destruct cmd; simplify_eq/=; unfold _phl_hw_trx_rst_resume, _phl_hw_trx_pause, ask_hal, give_hal; cbn;
    (destruct ok; cbn; [|done]); intros [= <-]; (split; [by apply Hok|done]).
Qed.

Lemma same_fw s s' : ser_same s s' -> fw_rst (ss_mac s') = fw_rst (ss_mac s).
Proof. intros [_ _ _ _ _ [l ->]]. done. Qed.

(** Commands without a step of the chip leave the hardware flag. *)
Lemma ctl_hw cmd s : lv1_step cmd = None ->
  cmd <> PHL_DATA_CTL_TRX_PAUSE_W_RST -> cmd <> PHL_DATA_CTL_TRX_RESUME_W_RST ->
  cmd <> PHL_DATA_CTL_TRX_SW_PAUSE -> cmd <> PHL_DATA_CTL_TRX_SW_RESUME ->
  is_hw_trx_pause (ss_dp (snd (ser_ctl cmd s))) = is_hw_trx_pause (ss_dp s).
Proof.
  intros Hc H1 H2 H3 H4. unfold ser_ctl. rewrite Hc.
  assert (forall x, is_hw_trx_pause (snd (sw_resume x PHL_MDL_SER (ss_dp s))) = is_hw_trx_pause (ss_dp s)) as Hr.
  { intros x. unfold sw_resume, schedule, ask_sched. repeat case_match; by destruct x. }
  assert (is_hw_trx_pause (snd (phl_data_ctrler cmd PHL_MDL_SER zero_msg (ss_dp s))) = is_hw_trx_pause (ss_dp s)) as H.
  { destruct cmd; try done; cbn [phl_data_ctrler]; try apply Hr; by destruct (sw_pause_hw Tx PHL_MDL_SER (ss_dp s)),
      (sw_pause_hw Rx PHL_MDL_SER (ss_dp s)). }
  by destruct (phl_data_ctrler _ _ _ _).
Qed.

Lemma waits_after step st s t u s' : ser_frame s t -> ss_mac t = ss_mac s -> sr_bserl2 (ss_ser t) = sr_bserl2 (ss_ser s) ->
  ser_same t u -> waits step st u s' -> waits step st s s'.
Proof.
  intros Hf Em El Hs [W1 W2 W3 W4 [l W5]]. pose proof (frame_same _ _ Hs) as Hu.
  assert (sr_evtsrc (ss_ser u) = sr_evtsrc (ss_ser s)) as Eu by (destruct Hf, Hu; congruence).
  split; [by do 2 (etransitivity; [eassumption|])|done|congruence|destruct Hs; congruence|].
  exists l. rewrite W5, <- Em. destruct Hs as [_ _ _ _ _ [l' ->]]. done.
Qed.

(** A pause that counts as taken. *)
Lemma pause_taken x s st s1 : ser_ctl (pause_cmd x) s = (st, s1) -> st <> RTW_PHL_STATUS_FAILURE ->
  forall y, ser_held y (ss_dp s1) = if decide (y = x) then true else ser_held y (ss_dp s).
Proof. intros E Hn. pose proof (ctl_pause x s) as H. rewrite E in H. by destruct H as [[? _]|[_ H]]. Qed.

(** One command of a chain that started in [t]: [s1] is the state after it,
    [E] what it did and [K] that it succeeded; the other case is a failure. *)
Ltac ser_step t T s1 E K :=
  match goal with
  | |- context [ser_try ?ok ?cmd ?k ?s0] =>
      let st := fresh "st" in let S := fresh "S" in
      destruct (try_cases ok cmd k s0) as (st & s1 & E & S & [[K ->]|[K ->]]);
      assert (ser_same t s1) by (eapply ser_same_trans; [exact T|exact S]);
      clear T S; match goal with H : ser_same t s1 |- _ => rename H into T end;
      [|right; auto]
  end.

(** M1: the module waits, holding both directions, or gives up. *)
Lemma m1_spec s (s' := _ser_msg_hdl_m1 s) :
  (waits RTW_PHL_SER_L1_DISABLE_EN (Z.lor (Z.land (Z.lor (sr_state (ss_ser s)) CMD_SER_M1) (Z.lnot CMD_SER_M1)) CMD_SER_M2) s s' /\
   (forall x, ser_held x (ss_dp s') = true) /\ is_hw_trx_pause (ss_dp s') = true /\
   fw_rst (ss_mac s) = MAC_AX_FW_RESET_RECV) \/
  fails s s'.
Proof.
  unfold s', _ser_msg_hdl_m1. clear s'. cbv zeta. set (t := _ser_l1_notify _).
  assert (ser_frame s t) as Hf.
  { unfold t, _ser_l1_notify, _ser_set_status. etransitivity; [|apply frame_emit]. etransitivity; [|by apply frame_upd].
    apply frame_if; [by apply frame_upd|]. apply frame_if; [apply frame_ntfy|done]. }
  assert (ss_mac t = ss_mac s /\ ss_dp t = ss_dp s /\ sr_bserl2 (ss_ser t) = sr_bserl2 (ss_ser s) /\
    sr_state (ss_ser t) = Z.lor (sr_state (ss_ser s)) CMD_SER_M1) as (Em & Ed & El & Es).
  { unfold t, _ser_int_ntfy_ctrl. destruct (evtsrc_is CMD_SER_SRC_POLL s); [done|]. by destruct (evtsrc_is _ s). }
  clearbody t.
  assert (forall u, ser_same t u -> fails s (ser_give_up u)) as Hfail.
  { intros u Hu. eapply fails_after; [|exists (dma_rets (ss_mac u))|apply give_up_spec].
    - etransitivity; [exact Hf|by apply frame_same].
    - destruct Hu as [_ _ _ _ _ [l ->]]. by rewrite Em. }
  assert (ser_same t t) as T0 by apply ser_same_refl. unfold _ser_m1_pause_trx.
  ser_step t T0 s1 E1 K1. ser_step t T0 s2 E2 K2. ser_step t T0 s3 E3 K3. ser_step t T0 s4 E4 K4. ser_step t T0 s5 E5 K5.
  left. destruct (answer_spec CMD_SER_M1 CMD_SER_M2 RTW_PHL_SER_L1_DISABLE_EN s5) as [Ed' [W1 W2 W3 W4 [l W5]]].
  change (_ser_m3_m5_waiting (_ser_m2_notify s5)) with (_ser_m3_m5_waiting (ser_set_error RTW_PHL_SER_L1_DISABLE_EN
    (_ser_set_status CMD_SER_M2 (_ser_clear_status CMD_SER_M1
      (if evtsrc_is CMD_SER_SRC_INT_NOTIFY s5 then _ser_int_ntfy_ctrl RTW_PHL_SER_HANDSHAKE_MODE s5 else s5))))).
  set (s' := _ser_m3_m5_waiting _) in *. clearbody s'.
  apply is_success_true in K1, K2, K4, K5. apply or_timeout_false in K3. subst.
  destruct (hw_step_ok PHL_DATA_CTL_HW_TRX_PAUSE 0 s1 s2 eq_refl E2) as [Hfw Hhw].
  pose proof (ctl_none _ s1 Tx (eq_refl : holds_none PHL_DATA_CTL_HW_TRX_PAUSE = true)) as N2.
  pose proof (pause_taken Tx _ _ _ E1 ltac:(done) Tx) as P1. pose proof (pause_taken Rx _ _ _ E3 K3) as P3.
  pose proof (fun y => ctl_none _ s3 y (eq_refl : holds_none PHL_DATA_CTL_SW_TX_RESET = true)) as N4.
  pose proof (fun y => ctl_none _ s4 y (eq_refl : holds_none PHL_DATA_CTL_SW_RX_RESET = true)) as N5.
  pose proof (ctl_hw PHL_DATA_CTL_SW_RX_PAUSE s2 eq_refl ltac:(done) ltac:(done) ltac:(done) ltac:(done)) as H3.
  pose proof (ctl_hw PHL_DATA_CTL_SW_TX_RESET s3 eq_refl ltac:(done) ltac:(done) ltac:(done) ltac:(done)) as H4.
  pose proof (ctl_hw PHL_DATA_CTL_SW_RX_RESET s4 eq_refl ltac:(done) ltac:(done) ltac:(done) ltac:(done)) as H5.
  pose proof (same_fw _ _ (ctl_same PHL_DATA_CTL_SW_TX_PAUSE t)) as F1.
  rewrite E1 in F1. rewrite E2 in N2. rewrite E3 in H3. rewrite E4 in N4, H4. rewrite E5 in N5, H5. cbn [snd] in *.
  split; [eapply (waits_after _ _ s t s5); try done; split; [done| |done|done|by exists l]; rewrite W2, (sm_ser _ _ T0), Es; done|].
  split; [|split; [by rewrite Ed', H5, H4, H3, Hhw|rewrite <- Em, <- F1; exact Hfw]].
  intros x. rewrite Ed', N5, N4, P3.
  destruct x; [etransitivity; [exact N2|exact P1]|done].
Qed.

(** M3: reception is given back and the module waits, or it gives up. *)
Lemma m3_spec s (s' := _ser_msg_hdl_m3 s) :
  (waits RTW_PHL_SER_L1_RCVY_EN
     (Z.lor (Z.land (Z.lor (Z.land (sr_state (ss_ser s)) (Z.lnot CMD_SER_M2)) CMD_SER_M3) (Z.lnot CMD_SER_M3)) CMD_SER_M4) s s' /\
   ser_held Tx (ss_dp s') = ser_held Tx (ss_dp s) /\ ser_held Rx (ss_dp s') = false /\
   is_hw_trx_pause (ss_dp s') = false /\ fw_rst (ss_mac s) = MAC_AX_FW_RESET_PROCESS) \/
  fails s s'.
Proof.
  unfold s', _ser_msg_hdl_m3. clear s'. cbv zeta. set (t := _ser_set_status CMD_SER_M3 _).
  assert (ser_frame s t) as Hf.
  { unfold t, _ser_set_status, _ser_clear_status, cancel_timer. do 3 (etransitivity; [|by apply frame_upd]).
    apply frame_if; [apply frame_ntfy|done]. }
  assert (ss_mac t = ss_mac s /\ ss_dp t = ss_dp s /\ sr_bserl2 (ss_ser t) = sr_bserl2 (ss_ser s) /\
    sr_state (ss_ser t) = Z.lor (Z.land (sr_state (ss_ser s)) (Z.lnot CMD_SER_M2)) CMD_SER_M3) as (Em & Ed & El & Es).
  { unfold t, _ser_int_ntfy_ctrl. by destruct (evtsrc_is _ s). }
  clearbody t.
  assert (forall u, ser_same t u -> fails s (ser_give_up u)) as Hfail.
  { intros u Hu. eapply fails_after; [|exists (dma_rets (ss_mac u))|apply give_up_spec].
    - etransitivity; [exact Hf|by apply frame_same].
    - destruct Hu as [_ _ _ _ _ [l ->]]. by rewrite Em. }
  assert (ser_same t t) as T0 by apply ser_same_refl. unfold _ser_m3_reset_hw_trx.
  ser_step t T0 s1 E1 K1. ser_step t T0 s2 E2 K2. left.
  destruct (answer_spec CMD_SER_M3 CMD_SER_M4 RTW_PHL_SER_L1_RCVY_EN s2) as [Ed' [W1 W2 W3 W4 [l W5]]].
  change (_ser_m3_m5_waiting (_ser_m4_notify s2)) with (_ser_m3_m5_waiting (ser_set_error RTW_PHL_SER_L1_RCVY_EN
    (_ser_set_status CMD_SER_M4 (_ser_clear_status CMD_SER_M3
      (if evtsrc_is CMD_SER_SRC_INT_NOTIFY s2 then _ser_int_ntfy_ctrl RTW_PHL_SER_HANDSHAKE_MODE s2 else s2))))).
  set (s' := _ser_m3_m5_waiting _) in *. clearbody s'.
  apply is_success_true in K1, K2. subst.
  destruct (hw_step_ok PHL_DATA_CTL_HW_TRX_RST_RESUME 1 t s1 eq_refl E1) as [Hfw Hhw].
  pose proof (fun y => ctl_none _ t y (eq_refl : holds_none PHL_DATA_CTL_HW_TRX_RST_RESUME = true)) as N1.
  pose proof (ctl_resume Rx s1) as P2.
  pose proof (ctl_hw PHL_DATA_CTL_SW_RX_RESUME s1 eq_refl ltac:(done) ltac:(done) ltac:(done) ltac:(done)) as H2.
  cbn [resume_cmd] in P2. rewrite E1 in N1. rewrite E2 in P2, H2. cbn [snd] in *.
  split; [eapply (waits_after _ _ s t s2); try done; split; [done| |done|done|by exists l]; rewrite W2, (sm_ser _ _ T0), Es; done|].
  split; [by rewrite Ed', (P2 Tx), N1, Ed|]. split; [by rewrite Ed', (P2 Rx)|].
  split; [by rewrite Ed', H2, Hhw|by rewrite <- Em].
Qed.

(** M5 and M9 always end with the state cleared. *)
Lemma m5_spec s (s' := _ser_msg_hdl_m5 s) :
  ser_frame s s' /\ sr_state (ss_ser s') = 0 /\ sr_bserl2 (ss_ser s') = sr_bserl2 (ss_ser s) /\
  ser_held Tx (ss_dp s') = false /\ ser_held Rx (ss_dp s') = ser_held Rx (ss_dp s) /\
  is_hw_trx_pause (ss_dp s') = is_hw_trx_pause (ss_dp s) /\
  (exists l, ss_mac s' = set_dma_rets l (ss_mac s)) /\ resumed s s'.
Proof.
  unfold s', _ser_msg_hdl_m5. clear s'. cbv zeta. set (t := _ser_set_status CMD_SER_M5 _).
  assert (ser_frame s t) as Hf.
  { unfold t, _ser_set_status, _ser_clear_status, cancel_timer. by do 3 (etransitivity; [|by apply frame_upd]). }
  set (u := snd (ser_ctl _ t)). pose proof (ctl_same PHL_DATA_CTL_SW_TX_RESUME t : ser_same t u) as Hs.
  pose proof (ctl_resume Tx t : forall y, ser_held y (ss_dp u) = _) as Hr.
  pose proof (ctl_hw PHL_DATA_CTL_SW_TX_RESUME t eq_refl ltac:(done) ltac:(done) ltac:(done) ltac:(done)
    : is_hw_trx_pause (ss_dp u) = is_hw_trx_pause (ss_dp t)) as Hh.
  clearbody u. destruct (reset_spec u) as (K1 & K2 & K3 & K4 & K5).
  split; [etransitivity; [|apply frame_emit]; etransitivity; [exact Hf|]; etransitivity; [by apply frame_same|done]|].
  split; [exact K2|]. split; [cbn; rewrite K3, (sm_ser _ _ Hs); done|]. cbn [ser_emit ss_dp ss_mac ss_log]. rewrite K4, K5.
  split; [apply (Hr Tx)|]. split; [rewrite (Hr Rx); done|]. split; [by rewrite Hh|].
  split; [apply (sm_mac _ _ Hs)|].
  apply (resumed_after s (_ser_reset_status u)); [|eexists; split; [reflexivity|set_solver]].
  etransitivity; [exact Hf|]. etransitivity; [by apply frame_same|done].
Qed.

Lemma set_m9_pos st : 0 <= st -> CMD_SER_NOT_OCCUR <? Z.lor st CMD_SER_M9 = true.
Proof.
  intros H. apply Z.ltb_lt. assert (Z.lor st CMD_SER_M9 <> 0) as Hn by (intros E%Z.lor_eq_0_iff; by destruct E).
  assert (0 <= Z.lor st CMD_SER_M9) by (by apply Z.lor_nonneg). unfold CMD_SER_NOT_OCCUR. lia.
Qed.

Definition resume_both (t : ser_sys) : ser_sys :=
  snd (ser_ctl PHL_DATA_CTL_SW_RX_RESUME (snd (ser_ctl PHL_DATA_CTL_SW_TX_RESUME t))).

Lemma resume_both_spec t : ser_same t (resume_both t) /\ (forall x, ser_held x (ss_dp (resume_both t)) = false) /\
  is_hw_trx_pause (ss_dp (resume_both t)) = is_hw_trx_pause (ss_dp t).
Proof.
  unfold resume_both. set (u := snd (ser_ctl PHL_DATA_CTL_SW_TX_RESUME t)).
  split; [eapply ser_same_trans; [apply (ctl_same PHL_DATA_CTL_SW_TX_RESUME)|apply ctl_same]|].
  split; [|transitivity (is_hw_trx_pause (ss_dp u)); by apply ctl_hw].
  intros x. rewrite (ctl_resume Rx u). destruct x; [apply (ctl_resume Tx t)|done].
Qed.

Lemma m9_eq s : 0 <= sr_state (ss_ser s) ->
  _ser_msg_hdl_m9 s = ser_give_up (resume_both (_ser_set_status CMD_SER_M9 (cancel_timer s))).
Proof.
  intros H0. unfold _ser_msg_hdl_m9. cbv zeta.
  assert (sr_state (ss_ser (_ser_set_status CMD_SER_M9 (cancel_timer s))) = Z.lor (sr_state (ss_ser s)) CMD_SER_M9) as E
    by reflexivity.
  rewrite E, set_m9_pos by exact H0. unfold ser_give_up, resume_both. reflexivity.
Qed.

Lemma m9_spec s (s' := _ser_msg_hdl_m9 s) : 0 <= sr_state (ss_ser s) ->
  ser_frame s s' /\ sr_state (ss_ser s') = 0 /\ sr_bserl2 (ss_ser s') = true /\
  (forall x, ser_held x (ss_dp s') = false) /\ is_hw_trx_pause (ss_dp s') = is_hw_trx_pause (ss_dp s) /\
  (exists l, ss_mac s' = set_dma_rets l (ss_mac s)) /\ resumed s s' /\
  SvHub (ser_msg PHL_MDL_SER MSG_EVT_SER_L2) ∈ ss_log s'.
Proof.
  intros H0. unfold s'. clear s'. rewrite m9_eq by done. set (t := _ser_set_status CMD_SER_M9 _).
  assert (ser_frame s t) as Hf.
  { unfold t, _ser_set_status, cancel_timer. by do 2 (etransitivity; [|by apply frame_upd]). }
  assert (ss_dp t = ss_dp s /\ ss_mac t = ss_mac s) as [<- <-] by done. clearbody t.
  destruct (resume_both_spec t) as (Hs & Hr & Hh). destruct (give_up_spec (resume_both t)) as [G1 G2 G3 G4 G5 G6 G7].
  split; [etransitivity; [exact Hf|]; etransitivity; [by apply frame_same|exact G1]|].
  split; [exact G2|]. split; [exact G3|]. rewrite G4, G5. split; [exact Hr|]. split; [exact Hh|].
  split; [apply (sm_mac _ _ Hs)|]. split; [|done]. eapply resumed_after; [|exact G6].
  etransitivity; [exact Hf|by apply frame_same].
Qed.
