(* ===== verification/SerThm.v ===== *)
(** * Error recovery: theorems *)

From S2P Require Import Prelude PhlQueue PhlDef DispState DispEngine DataPath DataPathThm DispCtrl FwOfld SerMac SerCmd SerInv.

(** ** Runs *)

(** Messages of any kind reach the module in any order, its timer expires,
    interrupts come, the core asks for a reset or sets its handler, the other
    modules and the handlers use the data path, the firmware acts, the
    dispatcher takes messages, and all outcomes are open. *)
Inductive ser_step : ser_sys -> ser_sys -> Prop :=
| sst_msg msg s : ser_step s (snd (_phl_ser_mdl_msg_hdlr msg s))
| sst_timer s : sr_timer (ss_ser s) <> None -> ser_step s (_ser_poll_timer_cb (cancel_timer s))
| sst_int s : ser_step s (snd (rtw_phl_interrupt_handler s))
| sst_l2 s : ser_step s (snd (rtw_phl_ser_l2_notify s))
| sst_info op given s : ser_step s (snd (_phl_ser_mdl_set_info op given s))
| sst_data i s : dp_step not_ser (ss_dp s) i -> ser_step s (set_ss_dp i s)
| sst_fw a s : ser_step s (set_ss_mac (fw_do (ss_mac s) a) s)
| sst_ctrl cav en s : ser_step s (set_ss_mac (snd (rtw_hal_ser_ctrl cav en (ss_mac s))) s)
| sst_queue q s : ser_step s (set_ss_queue q s)
| sst_open e acts dma s : ser_step s (set_ss_mac (set_fw_acts acts (set_dma_rets dma (ss_mac s))) (set_ss_env e s)).

Definition mac0 : mac_ser := mkMacSer MAC_AX_FW_RESET_IDLE MAC_AX_L2_EN MAC_AX_SER_CTRL_SRT 0 0 0 0 0 [] [].

(** The module after its start, on a bus. *)
Definition ser0 (hci_type : Z) : ser_sys :=
  snd (_phl_ser_mdl_start (mkSys (default (mkSer 0 0 0 None pq_init [] false false) (snd (_phl_ser_mdl_init hci_type true)))
    dp0 mac0 [] (replicate 8 0) (mkSenv [] [] [] []) [])).

(** ** What the state says about the data path *)

Definition ser_states : list Z := [0; 2; 8; 10; 32; 34; 40; 42].

Record ser_inv (s : ser_sys) : Prop := {
  si_state : sr_state (ss_ser s) ∈ ser_states;
  si_m2 : Z.testbit (sr_state (ss_ser s)) 1 = true -> forall x, ser_held x (ss_dp s) = true;
  si_m4 : Z.testbit (sr_state (ss_ser s)) 3 = true -> Z.testbit (sr_state (ss_ser s)) 1 = false ->
          ser_held Rx (ss_dp s) = false;
  si_paths : paths_ok (ss_dp s) }.

(** A step that keeps the state and what is held. *)
Lemma inv_keep s s' : sr_state (ss_ser s') = sr_state (ss_ser s) -> (forall x, ser_held x (ss_dp s') = ser_held x (ss_dp s)) ->
  (paths_ok (ss_dp s) -> paths_ok (ss_dp s')) -> ser_inv s -> ser_inv s'.
Proof.
  intros E Hh Hp [I1 I2 I3 I4]. split; rewrite ?E, ?Hh; auto. intros H x. rewrite Hh. by apply I2.
Qed.

Lemma dp_keep s s' : ss_ser s' = ss_ser s -> ss_dp s' = ss_dp s -> ser_inv s -> ser_inv s'.
Proof. intros E1 E2. apply inv_keep; [by rewrite E1|intros x; by rewrite E2|by rewrite E2]. Qed.

(** Sending changes the queue. *)
Lemma send_keep msg s : let s' := snd (send_dispr msg s) in ss_ser s' = ss_ser s /\ ss_dp s' = ss_dp s /\ ss_mac s' = ss_mac s.
Proof. unfold send_dispr, ask_accept. by destruct (default true _). Qed.
Lemma ser_send_keep v s : let s' := snd (phl_ser_send_msg v s) in ss_ser s' = ss_ser s /\ ss_dp s' = ss_dp s /\ ss_mac s' = ss_mac s.
Proof. unfold phl_ser_send_msg. case_match; [apply send_keep|done]. Qed.

Lemma event_keep s : let s' := snd (_ser_event_notify s) in ss_ser s' = ss_ser s /\ ss_dp s' = ss_dp s.
Proof.
  unfold _ser_event_notify. destruct (rtw_hal_ser_get_error_status 0 (ss_mac s)) as [[n e] m]. cbv zeta.
  set (t := set_ss_stats _ _). assert (ss_ser t = ss_ser s /\ ss_dp t = ss_dp s) as [E1 E2] by done. clearbody t.
  destruct (_ =? _); [done|]. destruct (_ =? _); [done|]. destruct (_ =? _); [done|].
  destruct (ser_send_keep n t) as (E3 & E4 & _). destruct (phl_ser_send_msg n t) as [st u]. cbn [snd] in *. split; congruence.
Qed.

Lemma evt_chk_keep s : let s' := snd (_ser_msg_hdl_evt_chk s) in ss_ser s' = ss_ser s /\ ss_dp s' = ss_dp s.
Proof.
  assert (forall t, ss_ser (snd (let '((psts, _), u) := _ser_event_notify t in (psts, u))) = ss_ser t /\
    ss_dp (snd (let '((psts, _), u) := _ser_event_notify t in (psts, u))) = ss_dp t) as Hn.
  { intros t. pose proof (event_keep t) as H. by destruct (_ser_event_notify t) as [[]]. }
  unfold _ser_msg_hdl_evt_chk, ask_c2h, _ser_int_ntfy_ctrl.
  destruct (evtsrc_is _ s); [apply Hn|]. destruct (evtsrc_is _ s); [apply Hn|]. destruct (evtsrc_is _ s); [|done].
  destruct (default false _); [|done]. set (t := set_ss_env _ s). pose proof (event_keep t) as H.
  destruct (_ser_event_notify t) as [[st n] u]. cbn [snd] in *. by destruct (_ || _).
Qed.

Lemma int_keep s : let s' := snd (rtw_phl_interrupt_handler s) in ss_ser s' = ss_ser s /\
  (forall x, same_ctl x (ss_dp s) (ss_dp s')).
Proof.
  unfold rtw_phl_interrupt_handler, ask_mask. set (t := set_ss_env _ s).
  assert (ss_ser t = ss_ser s /\ ss_dp t = ss_dp s) as [E1 E2] by done. clearbody t. generalize (default 0 (head (se_mask (ss_env s)))) as v.
  intros v. destruct (v =? 0); [split; [done|]; intros x; cbn; by rewrite E2|]. cbv zeta.
  set (t1 := if z_true (Z.land v (BIT 1)) then _ else t).
  assert (ss_ser t1 = ss_ser s /\ forall x, same_ctl x (ss_dp s) (ss_dp t1)) as H1.
  { unfold t1. destruct (z_true _); cbn; rewrite <- E2; (split; [done|]); intros x; [apply schedule_same|done]. }
  clearbody t1.
  assert (forall b n u, ss_ser u = ss_ser s /\ (forall x, same_ctl x (ss_dp s) (ss_dp u)) ->
    ss_ser (if b : bool then snd (phl_ser_send_msg n u) else u) = ss_ser s /\
    forall x, same_ctl x (ss_dp s) (ss_dp (if b then snd (phl_ser_send_msg n u) else u))) as Hs.
  { intros b n u [K1 K2]. destruct b; [|done]. destruct (ser_send_keep n u) as (-> & -> & _). done. }
  unfold phl_fw_watchdog_timeout_notify. set (t4 := if z_true (Z.land v (BIT 6)) then _ else _).
  assert (ss_ser t4 = ss_ser s /\ forall x, same_ctl x (ss_dp s) (ss_dp t4)) as H4 by (unfold t4; by apply Hs, Hs, Hs).
  clearbody t4. pose proof (fun x => schedule_same x Tx (ss_dp t4)) as Hx. destruct (schedule Tx (ss_dp t4)) as [st i].
  destruct H4 as [H5 H6]. split; [exact H5|]. intros x. etransitivity; [apply H6|apply Hx].
Qed.

Lemma m2_dp u : ss_dp (_ser_m3_m5_waiting (_ser_m2_notify u)) = ss_dp u.
Proof. apply (answer_spec CMD_SER_M1 CMD_SER_M2 RTW_PHL_SER_L1_DISABLE_EN u). Qed.
Lemma m4_dp u : ss_dp (_ser_m3_m5_waiting (_ser_m4_notify u)) = ss_dp u.
Proof. apply (answer_spec CMD_SER_M3 CMD_SER_M4 RTW_PHL_SER_L1_RCVY_EN u). Qed.

(** A property of the data path that the module's commands keep is kept by all
    its handlers. *)
Section Commands.
Context (P : dp_info -> Prop).
Hypothesis HP : forall cmd s, P (ss_dp s) -> P (ss_dp (snd (ser_ctl cmd s))).

Lemma try_dp ok cmd k s : (forall u, P (ss_dp u) -> P (ss_dp (k u))) -> P (ss_dp s) -> P (ss_dp (ser_try ok cmd k s)).
Proof.
  intros Hk Hs. unfold ser_try. pose proof (HP cmd s Hs) as H. destruct (ser_ctl cmd s) as [st u]. cbn [snd] in H.
  destruct (ok st); [by apply Hk|]. by rewrite (gu_dp _ _ (give_up_spec u)).
Qed.

Lemma m1_dp s : P (ss_dp s) -> P (ss_dp (_ser_msg_hdl_m1 s)).
Proof.
  intros Hs. unfold _ser_msg_hdl_m1, _ser_m1_pause_trx. repeat (apply try_dp; [intros ? ?|try assumption]).
  - by rewrite m2_dp.
  - unfold _ser_int_ntfy_ctrl. destruct (evtsrc_is CMD_SER_SRC_POLL s); [done|]. by destruct (evtsrc_is _ s).
Qed.

Lemma m3_dp s : P (ss_dp s) -> P (ss_dp (_ser_msg_hdl_m3 s)).
Proof.
  intros Hs. unfold _ser_msg_hdl_m3, _ser_m3_reset_hw_trx. repeat (apply try_dp; [intros ? ?|try assumption]).
  - by rewrite m4_dp.
  - unfold _ser_int_ntfy_ctrl. by destruct (evtsrc_is _ s).
Qed.

Lemma m5_dp s : P (ss_dp s) -> P (ss_dp (_ser_msg_hdl_m5 s)).
Proof.
  intros Hs. unfold _ser_msg_hdl_m5. cbn [ser_emit ss_dp]. destruct (reset_spec (snd (ser_ctl PHL_DATA_CTL_SW_TX_RESUME
    (_ser_set_status CMD_SER_M5 (_ser_clear_status CMD_SER_M4 (cancel_timer s)))))) as (_ & _ & _ & -> & _).
  by apply HP.
Qed.

Lemma m9_dp s : 0 <= sr_state (ss_ser s) -> P (ss_dp s) -> P (ss_dp (_ser_msg_hdl_m9 s)).
Proof. intros H0 Hs. rewrite m9_eq by done. rewrite (gu_dp _ _ (give_up_spec _)). by apply HP, HP. Qed.
End Commands.

Lemma ctl_paths cmd s : paths_ok (ss_dp s) -> paths_ok (ss_dp (snd (ser_ctl cmd s))).
Proof.
  intros H. assert (forall i, paths_ok i -> paths_ok (snd (phl_data_ctrler cmd PHL_MDL_SER zero_msg i))) as Hc
    by (intros i; by apply (stable_ctrler _ _ paths_ok_stable)).
  unfold ser_ctl. destruct (lv1_step cmd).
  - destruct (rtw_hal_lv1_rcvy _ _) as [ok m]. specialize (Hc (give_hal ok (ss_dp s))).
    destruct (phl_data_ctrler _ _ _ _). apply Hc. intros x. specialize (H x). by destruct x.
  - specialize (Hc (ss_dp s) H). by destruct (phl_data_ctrler _ _ _ _).
Qed.

(** The states after the handlers, bit by bit. *)
Ltac all_states := cbv zeta; apply (bool_decide_unpack _); vm_compute; exact I.

Lemma states_m1 st : st ∈ ser_states ->
  let v := Z.lor (Z.land (Z.lor st CMD_SER_M1) (Z.lnot CMD_SER_M1)) CMD_SER_M2 in v ∈ ser_states /\ Z.testbit v 1 = true.
Proof. revert st. apply Forall_forall. all_states. Qed.
Lemma states_m3 st : st ∈ ser_states ->
  let v := Z.lor (Z.land (Z.lor (Z.land st (Z.lnot CMD_SER_M2)) CMD_SER_M3) (Z.lnot CMD_SER_M3)) CMD_SER_M4 in
  v ∈ ser_states /\ Z.testbit v 1 = false.
Proof. revert st. apply Forall_forall. all_states. Qed.
Lemma states_m9 st : st ∈ ser_states -> Z.lor st CMD_SER_M9 ∈ ser_states /\
  Z.testbit (Z.lor st CMD_SER_M9) 1 = Z.testbit st 1 /\ Z.testbit (Z.lor st CMD_SER_M9) 3 = Z.testbit st 3.
Proof. revert st. apply Forall_forall. all_states. Qed.
Lemma states_nonneg st : st ∈ ser_states -> 0 <= st.
Proof. revert st. apply Forall_forall. all_states. Qed.

Lemma inv_m1 s : ser_inv s -> ser_inv (_ser_msg_hdl_m1 s).
Proof.
  intros [I1 I2 I3 I4]. destruct (states_m1 _ I1) as [S1 S2].
  pose proof (m1_dp paths_ok ctl_paths s I4) as Hp.
  destruct (m1_spec s) as [(W & Hh & _)|F].
  - pose proof (wt_state _ _ _ _ W) as E. split; [by rewrite E|done| |done]. intros _. by rewrite E, S2.
  - pose proof (fl_state _ _ F) as E. split; [rewrite E; by left|by rewrite E|by rewrite E|done].
Qed.

Lemma inv_m3 s : ser_inv s -> ser_inv (_ser_msg_hdl_m3 s).
Proof.
  intros [I1 I2 I3 I4]. destruct (states_m3 _ I1) as [S1 S2].
  pose proof (m3_dp paths_ok ctl_paths s I4) as Hp.
  destruct (m3_spec s) as [(W & _ & Hh & _)|F].
  - pose proof (wt_state _ _ _ _ W) as E. split; [by rewrite E| |done|done]. by rewrite E, S2.
  - pose proof (fl_state _ _ F) as E. split; [rewrite E; by left|by rewrite E|by rewrite E|done].
Qed.

Lemma ser_inv_idle s : sr_state (ss_ser s) = 0 -> paths_ok (ss_dp s) -> ser_inv s.
Proof. intros E Hp. split; [rewrite E; by left|by rewrite E|by rewrite E|done]. Qed.

Lemma inv_expire s : ser_inv s -> ser_inv (_ser_msg_hdl_fw_expire s).
Proof.
  intros I. unfold _ser_msg_hdl_fw_expire. destruct (evtsrc_is _ s); [|by apply (inv_keep s)].
  destruct I as [I1 I2 I3 I4]. destruct (states_m9 _ I1) as (S1 & S2 & S3).
  split; cbn [upd_ser set_timer ss_ser ss_dp set_sr_bserl2 set_sr_timer sr_state _ser_set_status set_sr_state];
    rewrite ?S2, ?S3; done.
Qed.

Lemma inv_polling s : ser_inv s -> ser_inv (_ser_msg_hdl_polling_chk s).
Proof.
  intros I. unfold _ser_msg_hdl_polling_chk, ask_recog. destruct (negb _); [done|].
  set (t := set_ss_env _ s). assert (ser_inv t) as It by (by apply (dp_keep s)).
  destruct (default false _); [|destruct (0 <? _); by apply (inv_keep t)].
  destruct (int_keep t) as [E1 E2]. apply (inv_keep t); [by rewrite E1| | |done].
  - intros x. unfold ser_held, held. by destruct (E2 x) as [_ -> _ _].
  - intros Hp x. exact (path_ok_same x _ _ (E2 x) (Hp x)).
Qed.

Lemma inv_msg msg s : ser_inv s -> ser_inv (snd (_phl_ser_mdl_msg_hdlr msg s)).
Proof.
  intros I. unfold _phl_ser_mdl_msg_hdlr, _ser_fail_ev_hdlr, _ser_hdl_external_evt.
  destruct (IS_MSG_FAIL _); [destruct (negb _); by apply (inv_keep s)|].
  destruct (MSG_MDL_ID_FIELD _ =? _); [|destruct (sr_bserl2 _); [done|]; by destruct (z_true _)].
  destruct (IS_MSG_IN_PRE_PHASE _); [|done]. unfold _ser_hdl_internal_evt. cbn [snd].
  pose proof (si_paths _ I) as Hp. pose proof (states_nonneg _ (si_state _ I)) as H0.
  destruct (_ =? _); [by apply inv_polling|].
  destruct (_ =? _); [destruct (evt_chk_keep s); by apply (dp_keep s)|].
  destruct (_ =? _); [by apply inv_m1|]. destruct (_ =? _); [done|]. destruct (_ =? _); [by apply inv_expire|].
  destruct (_ =? _); [by apply inv_m3|].
  destruct (_ =? _); [apply ser_inv_idle; [apply m5_spec|by apply m5_dp; [apply ctl_paths|]]|].
  destruct (_ =? _); [apply ser_inv_idle; [by apply m9_spec|by apply m9_dp; [apply ctl_paths| |]]|done].
Qed.

Lemma dp_step_paths i j : dp_step not_ser i j -> paths_ok i -> paths_ok j.
Proof. intros H. by apply (stable_run not_ser _ _ paths_ok_stable); [|apply rtc_once]. Qed.

Lemma ser_inv_step s s' : ser_step s s' -> ser_inv s -> ser_inv s'.
Proof.
  intros H I. destruct H as [msg s|s _|s|s|op given s|i s Hd|a s|cav en s|q s|e acts dma s].
  - by apply inv_msg.
  - unfold _ser_poll_timer_cb. cbv zeta. set (m := ser_msg _ _). destruct (z_true _); [|by apply (inv_keep s)].
    destruct (send_keep m (cancel_timer s)) as (E1 & E2 & _). apply (inv_keep s); rewrite ?E1, ?E2; done.
  - destruct (int_keep s) as [E1 E2]. apply (inv_keep s); [by rewrite E1| | |done].
    + intros x. unfold ser_held, held. by destruct (E2 x) as [_ -> _ _].
    + intros Hp x. exact (path_ok_same x _ _ (E2 x) (Hp x)).
  - destruct (ser_send_keep RTW_PHL_SER_L2_RESET s) as (E1 & E2 & _). by apply (dp_keep s).
  - unfold _phl_ser_mdl_set_info. destruct (_ =? _); [|done]. destruct given; by apply (inv_keep s).
  - apply (inv_keep s); [done|intros x; by apply dp_step_held|by apply dp_step_paths|done].
  - by apply (dp_keep s).
  - by apply (dp_keep s).
  - by apply (dp_keep s).
  - by apply (dp_keep s).
Qed.

Lemma ser0_inv hci : ser_inv (ser0 hci).
Proof.
  assert (paths_ok dp0) as Hp by (intros []; split; try done; cbn; by intros ?).
  unfold ser0, _phl_ser_mdl_start. cbn [snd]. set (t := if evtsrc_is _ _ then _ else _).
  assert (ss_dp t = dp0) as Et by (unfold t; by destruct (evtsrc_is _ _)).
  destruct (reset_spec t) as (_ & E & _ & Ed & _). apply ser_inv_idle; [done|]. by rewrite Ed, Et.
Qed.

Lemma run_inv hci s : rtc ser_step (ser0 hci) s -> ser_inv s.
Proof.
  assert (forall a b, rtc ser_step a b -> ser_inv a -> ser_inv b) as H.
  { intros a b H. induction H as [|a c b Hs _ IH]; [done|]. intros Ha. by apply IH, (ser_inv_step a). }
  intros Hr. by apply (H (ser0 hci)), ser0_inv.
Qed.

(** C40: In every state the recovery module can reach, whatever messages it
    gets and whatever other modules do to the data path: its state is one of a
    fixed set; in M2 it holds both directions and they are stopped or
    stopping; in M4 without M2 it does not hold reception. *)
Theorem ser_state_holds hci s : rtc ser_step (ser0 hci) s ->
  sr_state (ss_ser s) ∈ ser_states /\
  (ser_test CMD_SER_M2 s = true -> forall x, ser_held x (ss_dp s) = true /\ halting x (ss_dp s)) /\
  (ser_test CMD_SER_M4 s = true -> ser_test CMD_SER_M2 s = false -> ser_held Rx (ss_dp s) = false).
Proof.
  intros [I1 I2 I3 I4]%run_inv. split; [done|]. unfold ser_test, CMD_SER_M2, CMD_SER_M4. rewrite !test_flag_bit by lia.
  split; [|done]. intros H x. split; [by apply I2|]. apply (proj1 (I4 x)). intros E.
  pose proof (I2 H x) as Hx. unfold ser_held, held in Hx. by rewrite E in Hx.
Qed.

(** ** Giving up is final, and ends with everyone told *)

(** What a step may do to the state: leave it, go on with recovery, or end it
    and resume pending messages; the sign that recovery was given up stays. *)
Definition step_ok (s s' : ser_sys) : Prop :=
  (sr_bserl2 (ss_ser s) = true -> sr_bserl2 (ss_ser s') = true) /\
  (sr_state (ss_ser s') = sr_state (ss_ser s) \/ sr_state (ss_ser s') <> 0 \/ resumed s s').

Lemma ok_same s s' : ss_ser s' = ss_ser s -> step_ok s s'.
Proof. intros E. unfold step_ok. rewrite E. auto. Qed.

Lemma states_m1_pos st : st ∈ ser_states -> Z.lor (Z.land (Z.lor st CMD_SER_M1) (Z.lnot CMD_SER_M1)) CMD_SER_M2 <> 0.
Proof. intros H%states_m1 E. cbv zeta in H. rewrite E in H. by destruct H. Qed.
Lemma states_m3_pos st : st ∈ ser_states ->
  Z.lor (Z.land (Z.lor (Z.land st (Z.lnot CMD_SER_M2)) CMD_SER_M3) (Z.lnot CMD_SER_M3)) CMD_SER_M4 <> 0.
Proof. revert st. apply Forall_forall. all_states. Qed.

Lemma msg_ok msg s : ser_inv s -> step_ok s (snd (_phl_ser_mdl_msg_hdlr msg s)).
Proof.
  intros I. unfold _phl_ser_mdl_msg_hdlr, _ser_fail_ev_hdlr, _ser_hdl_external_evt.
  destruct (IS_MSG_FAIL _); [destruct (negb _); by split; auto|].
  destruct (MSG_MDL_ID_FIELD _ =? _); [|destruct (sr_bserl2 _); [by apply ok_same|]; destruct (z_true _); by apply ok_same].
  destruct (IS_MSG_IN_PRE_PHASE _); [|by apply ok_same]. unfold _ser_hdl_internal_evt. cbn [snd].
  destruct (_ =? _).
  { unfold _ser_msg_hdl_polling_chk, ask_recog. destruct (negb _); [by apply ok_same|]. set (t := set_ss_env _ s).
    destruct (default false _); [|destruct (0 <? _); by split; auto].
    apply ok_same. by destruct (int_keep t) as [-> _]. }
  destruct (_ =? _); [apply ok_same, evt_chk_keep|].
  destruct (_ =? _).
  { destruct (m1_spec s) as [(W & _)|F].
    - split; [by rewrite (wt_l2 _ _ _ _ W)|]. right. left. rewrite (wt_state _ _ _ _ W). apply states_m1_pos, I.
    - split; [by rewrite (fl_l2 _ _ F)|]. right. right. apply F. }
  destruct (_ =? _); [by apply ok_same|].
  destruct (_ =? _).
  { unfold _ser_msg_hdl_fw_expire. destruct (evtsrc_is _ s); split; auto. right. left. cbn.
    intros E%Z.lor_eq_0_iff. by destruct E. }
  destruct (_ =? _).
  { destruct (m3_spec s) as [(W & _)|F].
    - split; [by rewrite (wt_l2 _ _ _ _ W)|]. right. left. rewrite (wt_state _ _ _ _ W). apply states_m3_pos, I.
    - split; [by rewrite (fl_l2 _ _ F)|]. right. right. apply F. }
  destruct (_ =? _); [destruct (m5_spec s) as (_ & _ & E & _ & _ & _ & _ & R); split; [by rewrite E|auto]|].
  destruct (_ =? _); [|by apply ok_same].
  destruct (m9_spec s (states_nonneg _ (si_state _ I))) as (_ & _ & E & _ & _ & _ & R & _). split; [by rewrite E|auto].
Qed.

Lemma any_step_ok s s' : ser_inv s -> ser_step s s' -> step_ok s s'.
Proof.
  intros I H. destruct H as [msg s|s _|s|s|op given s|i s Hd|a s|cav en s|q s|e acts dma s]; try (by apply ok_same).
  - by apply msg_ok.
  - unfold _ser_poll_timer_cb. cbv zeta. set (m := ser_msg _ _). destruct (z_true _); [|by split; auto].
    destruct (send_keep m (cancel_timer s)) as (E1 & _). unfold step_ok. rewrite E1. auto.
  - apply ok_same, int_keep.
  - apply ok_same. apply (ser_send_keep RTW_PHL_SER_L2_RESET s).
  - unfold _phl_ser_mdl_set_info. destruct (_ =? _); [|by apply ok_same]. destruct given; by split; auto.
Qed.

(** Once recovery has been given up, in every later state of every run
    every message of another module is refused. *)
Theorem ser_l2_final hci s s' msg :
  rtc ser_step (ser0 hci) s -> sr_bserl2 (ss_ser s) = true -> rtc ser_step s s' ->
  IS_MSG_FAIL (msg_id msg) = false -> MSG_MDL_ID_FIELD (msg_id msg) <> PHL_MDL_SER ->
  sr_bserl2 (ss_ser s') = true /\ _phl_ser_mdl_msg_hdlr msg s' = (MDL_RET_FAIL, s').
Proof.
  intros Hr Hl Hs Hf Hm. apply run_inv in Hr.
  assert (sr_bserl2 (ss_ser s') = true) as E.
  { induction Hs as [|s t s' Hst _ IH]; [done|]. apply IH; [by apply (ser_inv_step s)|by apply (any_step_ok s t)]. }
  split; [done|]. unfold _phl_ser_mdl_msg_hdlr, _ser_hdl_external_evt. rewrite Hf, E.
  by destruct (Z.eqb_spec (MSG_MDL_ID_FIELD (msg_id msg)) PHL_MDL_SER).
Qed.

(** A message of another module that comes during recovery is answered
    pending, and whatever step ends the recovery, well or badly, tells the
    dispatcher to resume pending messages. *)
Theorem ser_resumes_pending hci s s' msg :
  rtc ser_step (ser0 hci) s -> sr_bserl2 (ss_ser s) = false -> sr_state (ss_ser s) <> 0 ->
  IS_MSG_FAIL (msg_id msg) = false -> MSG_MDL_ID_FIELD (msg_id msg) <> PHL_MDL_SER ->
  _phl_ser_mdl_msg_hdlr msg s = (MDL_RET_PENDING, s) /\
  (ser_step s s' -> sr_state (ss_ser s') = 0 ->
   exists l, ss_log s' = ss_log s ++ l /\ SvClrPending HW_BAND_0 ∈ l).
Proof.
  intros Hr%run_inv Hl Hn Hf Hm. split.
  - unfold _phl_ser_mdl_msg_hdlr, _ser_hdl_external_evt, z_true. rewrite Hf, Hl.
    destruct (Z.eqb_spec (MSG_MDL_ID_FIELD (msg_id msg)) PHL_MDL_SER); [done|].
    by destruct (Z.eqb_spec (sr_state (ss_ser s)) 0).
  - intros Hs E. destruct (any_step_ok s s' Hr Hs) as [_ [H|[H|H]]]; [congruence|done|exact H].
Qed.

(** The message that gives recovery up (M9), in every reachable state: the
    module ends idle, holds no direction any more, is marked as given up and
    has told the hub and the dispatcher; the hardware stays as it was. *)
Theorem ser_m9_releases hci s : rtc ser_step (ser0 hci) s ->
  let s' := _ser_msg_hdl_m9 s in
  sr_state (ss_ser s') = 0 /\ sr_bserl2 (ss_ser s') = true /\ (forall x, ser_held x (ss_dp s') = false) /\
  is_hw_trx_pause (ss_dp s') = is_hw_trx_pause (ss_dp s) /\
  resumed s s' /\ SvHub (ser_msg PHL_MDL_SER MSG_EVT_SER_L2) ∈ ss_log s'.
Proof.
  intros Hr%run_inv. destruct (m9_spec s (states_nonneg _ (si_state _ Hr))) as (_ & H1 & H2 & H3 & H4 & _ & H5 & H6). done.
Qed.

(** ** Runs *)

(** A message as the module gets it in its phase. *)
Definition pre (m : phl_msg) : phl_msg := set_msg_id (SET_MSG_INDC_FIELD (msg_id m) MSG_INDC_PRE_PHASE) m.
Definition evt (e : Z) : phl_msg := pre (ser_msg PHL_MDL_SER e).
Definition hdl (e : Z) (s : ser_sys) : ser_sys := snd (_phl_ser_mdl_msg_hdlr (evt e) s).
Definition report_code (code : Z) (s : ser_sys) : ser_sys := set_ss_mac (fw_do (ss_mac s) (FwReport code)) s.
Definition take_code (s : ser_sys) : ser_sys := set_ss_mac (fw_do (ss_mac s) FwTake) s.

(** An error is reported and the module waits. *)
Definition run_m1 : ser_sys := hdl MSG_EVT_SER_M1_PAUSE_TRX (hdl MSG_EVT_SER_EVENT_CHK (report_code MAC_AX_ERR_L1_ERR_DMAC (ser0 RTW_HCI_PCIE))).
Definition ext_msg : phl_msg := pre (ser_msg PHL_MDL_POWER_MGNT MSG_EVT_PHY_ON).

Lemma run_m1_reach : rtc ser_step (ser0 RTW_HCI_PCIE) run_m1.
Proof. eapply rtc_l; [apply (sst_fw (FwReport MAC_AX_ERR_L1_ERR_DMAC))|]. eapply rtc_l; [apply sst_msg|]. apply rtc_once, sst_msg. Qed.

Lemma ser_state_holds_witness :
  ser_test CMD_SER_M2 run_m1 = true /\ ser_held Rx (ss_dp run_m1) = true /\ halting Rx (ss_dp run_m1).
Proof.
  destruct (ser_state_holds RTW_HCI_PCIE run_m1 run_m1_reach) as (_ & H & _).
  assert (ser_test CMD_SER_M2 run_m1 = true) as E by (vm_compute; reflexivity). split; [exact E|apply (H E)].
Defined.

Lemma ser_resumes_pending_witness :
  _phl_ser_mdl_msg_hdlr ext_msg run_m1 = (MDL_RET_PENDING, run_m1) /\
  resumed run_m1 (hdl MSG_EVT_SER_M9_L2_RESET run_m1).
Proof.
  destruct (ser_resumes_pending RTW_HCI_PCIE run_m1 (hdl MSG_EVT_SER_M9_L2_RESET run_m1) ext_msg run_m1_reach
    ltac:(vm_compute; reflexivity) ltac:(vm_compute; discriminate) ltac:(vm_compute; reflexivity) ltac:(vm_compute; discriminate)) as [H1 H2].
  split; [exact H1|]. apply H2; [apply sst_msg|vm_compute; reflexivity].
Defined.

Lemma ser_m9_releases_witness :
  ser_held Tx (ss_dp run_m1) = true /\ ser_held Tx (ss_dp (_ser_msg_hdl_m9 run_m1)) = false.
Proof.
  destruct (ser_m9_releases RTW_HCI_PCIE run_m1 run_m1_reach) as (_ & _ & H & _). split; [vm_compute; reflexivity|apply (H Tx)].
Defined.

Lemma ser_l2_final_witness :
  let s := hdl MSG_EVT_SER_M9_L2_RESET run_m1 in
  let s' := hdl MSG_EVT_SER_M5_READY s in
  sr_state (ss_ser s') = 0 /\ _phl_ser_mdl_msg_hdlr ext_msg s' = (MDL_RET_FAIL, s').
Proof.
  intros s s'. split; [vm_compute; reflexivity|].
  apply (ser_l2_final RTW_HCI_PCIE s s' ext_msg); [eapply rtc_r; [apply run_m1_reach|apply sst_msg]|vm_compute; reflexivity|
    apply rtc_once, sst_msg|vm_compute; reflexivity|vm_compute; discriminate].
Defined.
