(* ===== verification/SerFlow.v ===== *)
(** * Error recovery: the whole handshake, and its timeout

    The recovery module, the chip layer and the MAC layer together, on the bus
    of this device (PCIe: the firmware's reports come by interrupt). *)

From S2P Require Import Prelude PhlQueue PhlDef DispState DispEngine DataPath DataPathThm DispCtrl FwOfld SerMac SerCmd SerInv SerThm.

(** ** The mailboxes *)

(** Polling writes no register by itself. *)
Lemma poll_idle n done_ m : fw_acts m = [] -> snd (poll_reg n done_ m) = m /\
  (fst (poll_reg n done_ m) = (if n is O then false else done_ m)).
Proof.
  intros E. assert (fw_turn m = m) as Et by (unfold fw_turn; by rewrite E).
  induction n as [|n IH]; [done|]. cbn. rewrite Et. destruct (done_ m) eqn:Ed; [done|].
  destruct IH as [IH1 IH2]. split; [done|]. rewrite IH2. by destruct n.
Qed.

(** The end of a poll: the condition holds in the state that is left. *)
Lemma poll_true_done n done_ : forall m m', poll_reg n done_ m = (true, m') -> done_ m' = true.
Proof.
  induction n as [|n IH]; intros m m'; [done|]. cbn. destruct (done_ (fw_turn m)) eqn:E; [by intros [= <-]|apply IH].
Qed.

(** Only the firmware moves while the driver polls. *)
Inductive fw_run : mac_ser -> mac_ser -> Prop :=
| fr_refl m : fw_run m m
| fr_turn m m' : fw_run (fw_turn m) m' -> fw_run m m'.

Lemma poll_runs n done_ : forall m, fw_run m (snd (poll_reg n done_ m)).
Proof.
  induction n as [|n IH]; intros m; [constructor|]. cbn. apply fr_turn. destruct (done_ _); [constructor|apply IH].
Qed.

(** Writing a code to the firmware's mailbox, whatever the firmware does
    meanwhile, succeeds only after the firmware has taken the code before, and
    then the code and its trigger stand there; in every other case the driver
    touches neither the mailbox nor the handshake, so no code is overwritten. *)
Theorem mac_set_err_safe err m :
  0 <= err ->
  let '(ret, m') := mac_set_err_status err m in
  (ret = MACSUCCESS -> exists m1, fw_run m m1 /\ r_halt_h2c_ctrl m1 = 0 /\ err <= MAC_AX_SET_ERR_MAX /\
     r_halt_h2c m' = err /\ r_halt_h2c_ctrl m' = B_AX_HALT_H2C_TRIGGER /\
     fw_rst m' = (if err =? MAC_AX_ERR_L1_DISABLE_EN then MAC_AX_FW_RESET_RECV_DONE else fw_rst m1) /\
     r_halt_c2h m' = r_halt_c2h m1 /\ r_halt_c2h_ctrl m' = r_halt_c2h_ctrl m1) /\
  (ret <> MACSUCCESS -> fw_run m m' /\ (ret = MACFUNCINPUT /\ MAC_AX_SET_ERR_MAX < err \/ ret = MACPOLLTO)).
Proof.
  intros H0. unfold mac_set_err_status. destruct (Z.ltb_spec MAC_AX_SET_ERR_MAX err) as [Hm|Hm].
  - split; [done|]. intros _. split; [constructor|by left].
  - pose proof (poll_runs (MAC_SET_ERR_DLY_CNT - 1) (fun m => r_halt_h2c_ctrl m =? 0) m) as Hr.
    pose proof (poll_true_done (MAC_SET_ERR_DLY_CNT - 1) (fun m => r_halt_h2c_ctrl m =? 0) m) as Hd.
    destruct (poll_reg _ _ m) as [[] m1]; cbn [negb snd] in *.
    + split; [|done]. intros _. exists m1. specialize (Hd m1 eq_refl). apply Z.eqb_eq in Hd.
      split; [done|]. split; [done|]. split; [done|]. by destruct (err =? MAC_AX_ERR_L1_DISABLE_EN).
    + split; [done|]. intros _. split; [done|by right].
Qed.

(** ** A report is served *)

(** The interrupt's message is handled, then the message it leads to. *)
Definition ser_serve (s : ser_sys) : ser_sys :=
  let s := snd (_phl_ser_mdl_msg_hdlr (pre (ser_msg PHL_MDL_SER MSG_EVT_SER_EVENT_CHK)) s) in
  match ss_queue s with
  | m :: q => snd (_phl_ser_mdl_msg_hdlr (pre m) (set_ss_queue q s))
  | [] => s
  end.

(** The firmware has reported [code] and taken the driver's last answer. *)
Definition reports (code : Z) (s : ser_sys) : Prop :=
  r_halt_c2h (ss_mac s) = code /\ r_halt_c2h_ctrl (ss_mac s) <> 0 /\ r_halt_h2c_ctrl (ss_mac s) = 0 /\ fw_acts (ss_mac s) = [].

(** On PCIe, nothing waiting, and a dispatcher that accepts messages. *)
Definition ready (s : ser_sys) : Prop :=
  sr_evtsrc (ss_ser s) = CMD_SER_SRC_INT /\ ss_queue s = [] /\ se_send (ss_env s) = [].

(** Between reports: the other modules use the data path and send messages,
    the firmware acts. *)
Inductive quiet_step : ser_sys -> ser_sys -> Prop :=
| qs_data i s : dp_step not_ser (ss_dp s) i -> quiet_step s (set_ss_dp i s)
| qs_ext msg s : MSG_MDL_ID_FIELD (msg_id msg) <> PHL_MDL_SER -> quiet_step s (snd (_phl_ser_mdl_msg_hdlr msg s))
| qs_fw a s : quiet_step s (set_ss_mac (fw_do (ss_mac s) a) s)
| qs_open e acts dma s : se_send e = [] -> quiet_step s (set_ss_mac (set_fw_acts acts (set_dma_rets dma (ss_mac s))) (set_ss_env e s)).

Record quiet (s s' : ser_sys) : Prop := {
  qt_ser : ss_ser s' = ss_ser s; qt_queue : ss_queue s' = ss_queue s; qt_ready : ready s -> ready s';
  qt_held : forall x, ser_held x (ss_dp s') = ser_held x (ss_dp s); qt_fw : fw_rst (ss_mac s') = fw_rst (ss_mac s) }.

Lemma ext_same msg s : sr_evtsrc (ss_ser s) = CMD_SER_SRC_INT -> MSG_MDL_ID_FIELD (msg_id msg) <> PHL_MDL_SER ->
  snd (_phl_ser_mdl_msg_hdlr msg s) = s.
Proof.
  intros Hs Hm. unfold _phl_ser_mdl_msg_hdlr, _ser_fail_ev_hdlr, _ser_hdl_external_evt, evtsrc_is. rewrite Hs.
  destruct (IS_MSG_FAIL _); [done|]. destruct (Z.eqb_spec (MSG_MDL_ID_FIELD (msg_id msg)) PHL_MDL_SER); [done|].
  destruct (sr_bserl2 _); [done|]. by destruct (z_true _).
Qed.

Lemma quiet_run s s' : sr_evtsrc (ss_ser s) = CMD_SER_SRC_INT -> rtc quiet_step s s' -> quiet s s'.
Proof.
  intros Hs H. induction H as [s|s t s' Hst _ IH]; [by split|].
  assert (quiet s t) as [Q1 Q2 Q3 Q4 Q5].
  { destruct Hst as [i s Hd|msg s Hm|a s|e acts dma s He].
    - split; try done. intros x. by apply dp_step_held.
    - by rewrite (ext_same msg s Hs Hm).
    - split; try done. by destruct a.
    - split; try done. by intros (H1 & H2 & _). }
  destruct IH as [R1 R2 R3 R4 R5]; [by rewrite Q1|].
  split; [congruence|congruence|auto|intros x; by rewrite R4|congruence].
Qed.

(** ** The handshake *)

Definition heard (code : Z) (m : mac_ser) : mac_ser :=
  set_l2_st MAC_AX_L2_EN (set_fw_rst (fw_rst_next code (fw_rst m)) (set_halt_c2h code 0 (set_l2_st MAC_AX_L2_DIS m))).

Lemma get_status code m : r_halt_c2h m = code -> r_halt_c2h_ctrl m <> 0 -> fw_acts m = [] -> 0 <= code < 2 ^ 28 ->
  rtw_hal_ser_get_error_status 0 m = ((ser_notify_of code, code), heard code m).
Proof.
  intros <- Hc Ha Hr. unfold rtw_hal_ser_get_error_status, rtw_hal_mac_ser_get_error_status, mac_get_err_status. cbv zeta.
  set (m0 := set_l2_st MAC_AX_L2_DIS m).
  destruct (poll_idle (MAC_SET_ERR_DLY_CNT - 1) (fun m => z_true (r_halt_c2h_ctrl m)) m0 Ha) as [E1 E2].
  destruct (poll_reg _ _ m0) as [ok m1]. cbn [fst snd] in *. subst m1.
  assert (ok = true) as -> by (subst ok; cbn; unfold z_true; by destruct (Z.eqb_spec (r_halt_c2h_ctrl m) 0)).
  cbn [negb]. assert (Z.shiftr (r_halt_c2h m0) DBG_SENARIO_SH = 0) as ->.
  { unfold DBG_SENARIO_SH. rewrite Z.shiftr_div_pow2 by lia. apply Z.div_small. exact Hr. }
  cbn [z_true Z.eqb CPU_EXCEPTION ASSERTION negb]. rewrite andb_false_r.
  assert (forall b : bool, (if negb b then r_halt_c2h m0 else r_halt_c2h m0) = r_halt_c2h m0) as -> by (by intros []).
  done.
Qed.

Lemma answer_free step m : r_halt_h2c_ctrl m = 0 -> fw_acts m = [] -> step = 1 \/ step = 2 ->
  snd (rtw_hal_ser_set_error_status step m) =
  set_halt_h2c step 1 (if step =? 1 then set_fw_rst MAC_AX_FW_RESET_RECV_DONE m else m).
Proof.
  intros Hc Ha Hs. unfold rtw_hal_ser_set_error_status, rtw_hal_mac_ser_set_error_status, mac_set_err_status.
  destruct (poll_idle (MAC_SET_ERR_DLY_CNT - 1) (fun m => r_halt_h2c_ctrl m =? 0) m Ha) as [E1 E2].
  destruct (poll_reg _ _ m) as [ok m1]. cbn [fst snd] in *. subst m1.
  assert (ok = true) as -> by (subst ok; cbn; by rewrite Hc). by destruct Hs as [-> | ->].
Qed.

(** A report of the handshake is handled as its event. *)
Definition event_of (code : Z) : Z :=
  if (code =? MAC_AX_ERR_L1_ERR_DMAC) || (code =? MAC_AX_ERR_L0_PROMOTE_TO_L1) then MSG_EVT_SER_M1_PAUSE_TRX
  else if code =? MAC_AX_ERR_L1_RESET_DISABLE_DMAC_DONE then MSG_EVT_SER_M3_DO_RECOV else MSG_EVT_SER_M5_READY.

Definition handshake : list Z :=
  [MAC_AX_ERR_L1_ERR_DMAC; MAC_AX_ERR_L0_PROMOTE_TO_L1; MAC_AX_ERR_L1_RESET_DISABLE_DMAC_DONE; MAC_AX_ERR_L1_RESET_RECOVERY_DONE].

Lemma send_notify code t : code ∈ handshake ->
  (ser_notify_of code =? RTW_PHL_SER_L0_RESET) = false /\ (ser_notify_of code =? RTW_PHL_SER_LOG_ONLY) = false /\
  (ser_notify_of code =? RTW_PHL_SER_DUMP_FW_LOG) = false /\
  phl_ser_send_msg (ser_notify_of code) t = send_dispr (ser_msg PHL_MDL_SER (event_of code)) t.
Proof. unfold handshake. set_unfold. intros H. repeat destruct H as [->|H]; try done; subst; done. Qed.

Lemma serve_eq code s :
  ready s -> reports code s ->
  code ∈ handshake ->
  exists s1, ss_ser s1 = ss_ser s /\ ss_dp s1 = ss_dp s /\ ss_log s1 = ss_log s /\ ss_queue s1 = [] /\
    se_send (ss_env s1) = [] /\ ss_mac s1 = heard code (ss_mac s) /\
    ser_serve s = snd (_ser_hdl_internal_evt (event_of code) s1).
Proof.
  intros (R1 & R2 & R3) (C1 & C2 & C3 & C4) Hin.
  assert (0 <= code < 2 ^ 28) as Hrange by (revert code C1 Hin; intros code _; revert code; apply Forall_forall; all_states).
  pose proof (get_status code (ss_mac s) C1 C2 C4 Hrange) as Eg.
  set (s1 := set_ss_env (mkSenv [] (se_recog (ss_env s)) (se_c2h (ss_env s)) (se_mask (ss_env s)))
    (set_ss_stats (alter (fun n => u64 (n + 1)) (Z.to_nat (ser_notify_of code)) (ss_stats s)) (set_ss_mac (heard code (ss_mac s)) s))).
  exists s1. do 3 (split; [done|]). split; [exact R2|]. split; [done|]. split; [done|]. unfold ser_serve.
  set (chk := _phl_ser_mdl_msg_hdlr (pre (ser_msg PHL_MDL_SER MSG_EVT_SER_EVENT_CHK)) s).
  assert (snd chk = set_ss_queue [ser_msg PHL_MDL_SER (event_of code)] s1) as ->.
  { unfold chk, _phl_ser_mdl_msg_hdlr. replace (IS_MSG_FAIL _) with false by (vm_compute; reflexivity).
    replace (MSG_MDL_ID_FIELD _ =? PHL_MDL_SER) with true by (vm_compute; reflexivity).
    replace (IS_MSG_IN_PRE_PHASE _) with true by (vm_compute; reflexivity).
    replace (MSG_EVT_ID_FIELD _) with MSG_EVT_SER_EVENT_CHK by (vm_compute; reflexivity).
    cbn [_ser_hdl_internal_evt snd Z.eqb MSG_EVT_SER_EVENT_CHK MSG_EVT_SER_POLLING_CHK Pos.eqb].
    unfold _ser_msg_hdl_evt_chk, evtsrc_is. rewrite R1. cbn [Z.eqb CMD_SER_SRC_INT]. rewrite Z.eqb_refl.
    unfold _ser_event_notify. rewrite Eg. cbv zeta.
    destruct (send_notify code (set_ss_stats (alter (fun n => u64 (n + 1)) (Z.to_nat (ser_notify_of code))
      (ss_stats (set_ss_mac (heard code (ss_mac s)) s))) (set_ss_mac (heard code (ss_mac s)) s)) Hin) as (-> & -> & -> & ->).
    unfold send_dispr, ask_accept. cbn [set_ss_stats set_ss_mac ss_env]. rewrite R3. cbn [head default fmap option_fmap].
    cbn. unfold s1, set_ss_queue. cbn. by rewrite R2. }
  cbn [ss_queue set_ss_queue]. assert (set_ss_queue [] (set_ss_queue [ser_msg PHL_MDL_SER (event_of code)] s1) = s1) as ->.
  { unfold s1, set_ss_queue, set_ss_env, set_ss_stats, set_ss_mac. cbn. by rewrite R2. }
  unfold _phl_ser_mdl_msg_hdlr.
  assert (IS_MSG_FAIL (msg_id (pre (ser_msg PHL_MDL_SER (event_of code)))) = false /\
    MSG_MDL_ID_FIELD (msg_id (pre (ser_msg PHL_MDL_SER (event_of code)))) = PHL_MDL_SER /\
    IS_MSG_IN_PRE_PHASE (msg_id (pre (ser_msg PHL_MDL_SER (event_of code)))) = true /\
    MSG_EVT_ID_FIELD (msg_id (pre (ser_msg PHL_MDL_SER (event_of code)))) = event_of code) as (-> & -> & -> & ->).
  { clear -Hin. revert code Hin. apply Forall_forall. all_states. }
  done.
Qed.

(** The three states of the handshake. *)
Record in_m2 (s : ser_sys) : Prop := {
  m2_state : sr_state (ss_ser s) = CMD_SER_M2; m2_timer : sr_timer (ss_ser s) = Some CMD_SER_FW_TIMEOUT;
  m2_held : forall x, ser_held x (ss_dp s) = true; m2_hw : is_hw_trx_pause (ss_dp s) = true;
  m2_told : r_halt_h2c (ss_mac s) = MAC_AX_ERR_L1_DISABLE_EN /\ r_halt_h2c_ctrl (ss_mac s) = 1;
  m2_fw : fw_rst (ss_mac s) = MAC_AX_FW_RESET_RECV_DONE }.

Record in_m4 (s : ser_sys) : Prop := {
  m4_state : sr_state (ss_ser s) = CMD_SER_M4; m4_timer : sr_timer (ss_ser s) = Some CMD_SER_FW_TIMEOUT;
  m4_tx : ser_held Tx (ss_dp s) = true; m4_rx : ser_held Rx (ss_dp s) = false; m4_hw : is_hw_trx_pause (ss_dp s) = false;
  m4_told : r_halt_h2c (ss_mac s) = MAC_AX_ERR_L1_RCVY_EN /\ r_halt_h2c_ctrl (ss_mac s) = 1;
  m4_fw : fw_rst (ss_mac s) = MAC_AX_FW_RESET_PROCESS }.

Record recovered (s s' : ser_sys) : Prop := {
  rc_state : sr_state (ss_ser s') = CMD_SER_NOT_OCCUR; rc_l2 : sr_bserl2 (ss_ser s') = false;
  rc_timer : sr_timer (ss_ser s') = None; rc_held : forall x, ser_held x (ss_dp s') = false;
  rc_resumed : resumed s s'; rc_fw : fw_rst (ss_mac s') = MAC_AX_FW_RESET_IDLE }.

Lemma ready_frame s s' : ser_frame s s' -> ready s -> ready s'.
Proof. intros [E1 E2 _ E3 _ _] (R1 & R2 & R3). unfold ready. by rewrite E1, E2, E3. Qed.

Lemma serve_ready s s1 : ready s -> ss_ser s1 = ss_ser s -> ss_queue s1 = [] -> se_send (ss_env s1) = [] -> ready s1.
Proof. intros (R1 & _) E1 E2 E3. unfold ready. by rewrite E1. Qed.

Lemma serve_m1 code s : ready s -> reports code s -> code = MAC_AX_ERR_L1_ERR_DMAC \/ code = MAC_AX_ERR_L0_PROMOTE_TO_L1 ->
  sr_state (ss_ser s) = CMD_SER_NOT_OCCUR -> sr_bserl2 (ss_ser (ser_serve s)) = false ->
  in_m2 (ser_serve s) /\ ready (ser_serve s).
Proof.
  intros HR HC Hc Hst Hl. destruct (serve_eq code s HR HC) as (s1 & E1 & E2 & E3 & E4 & E5 & E6 & Es).
  { destruct Hc as [-> | ->]; all_states. }
  assert (ready s1) as HR1 by (by apply (serve_ready s)).
  assert (ser_serve s = _ser_msg_hdl_m1 s1) as Em by (rewrite Es; by destruct Hc as [-> | ->]).
  rewrite Em in *. destruct (m1_spec s1) as [([W1 W2 W3 W4 [l W5]] & Hh & Hw & Hf)|F]; [|by rewrite (fl_l2 _ _ F) in Hl].
  split; [|by apply (ready_frame s1)]. destruct HR1 as (R1 & _). destruct HC as (C1 & C2 & C3 & C4).
  assert (ss_mac (_ser_msg_hdl_m1 s1) = set_halt_h2c 1 1 (set_fw_rst MAC_AX_FW_RESET_RECV_DONE (set_dma_rets l (ss_mac s1)))) as Ea.
  { rewrite W5. rewrite answer_free; [done|by rewrite E6|by rewrite E6|by left]. }
  split; try done; [by rewrite W2, E1, Hst|by rewrite W3, R1|by rewrite Ea|by rewrite Ea].
Qed.

Lemma serve_m3 s : ready s -> reports MAC_AX_ERR_L1_RESET_DISABLE_DMAC_DONE s ->
  sr_state (ss_ser s) = CMD_SER_M2 -> ser_held Tx (ss_dp s) = true -> sr_bserl2 (ss_ser (ser_serve s)) = false ->
  in_m4 (ser_serve s) /\ ready (ser_serve s).
Proof.
  intros HR HC Hst Htx Hl. destruct (serve_eq _ s HR HC) as (s1 & E1 & E2 & E3 & E4 & E5 & E6 & Es); [all_states|].
  assert (ready s1) as HR1 by (by apply (serve_ready s)).
  assert (ser_serve s = _ser_msg_hdl_m3 s1) as Em by (by rewrite Es).
  rewrite Em in *. destruct (m3_spec s1) as [([W1 W2 W3 W4 [l W5]] & Ht & Hr & Hw & Hf)|F]; [|by rewrite (fl_l2 _ _ F) in Hl].
  split; [|by apply (ready_frame s1)]. destruct HR1 as (R1 & _). destruct HC as (C1 & C2 & C3 & C4).
  assert (ss_mac (_ser_msg_hdl_m3 s1) = set_halt_h2c 2 1 (set_dma_rets l (ss_mac s1))) as Ea.
  { rewrite W5. rewrite answer_free; [done|by rewrite E6|by rewrite E6|by right]. }
  split; try done; [by rewrite W2, E1, Hst|by rewrite W3, R1|by rewrite Ht, E2|by rewrite Ea|by rewrite Ea].
Qed.

Lemma reset_timer s : sr_evtsrc (ss_ser s) = CMD_SER_SRC_INT -> sr_timer (ss_ser (_ser_reset_status s)) = sr_timer (ss_ser s).
Proof. intros Hs. unfold _ser_reset_status, evtsrc_is. cbn [upd_ser ss_ser set_sr_state sr_evtsrc]. by rewrite Hs. Qed.

Lemma m5_timer s : sr_evtsrc (ss_ser s) = CMD_SER_SRC_INT -> sr_timer (ss_ser (_ser_msg_hdl_m5 s)) = None.
Proof.
  intros Hs. unfold _ser_msg_hdl_m5. cbv zeta. set (t := _ser_set_status CMD_SER_M5 _).
  pose proof (sm_ser _ _ (ctl_same PHL_DATA_CTL_SW_TX_RESUME t)) as E. set (u := snd _) in *. clearbody u.
  change (sr_timer (ss_ser (_ser_reset_status u)) = None). by rewrite reset_timer, E by (by rewrite E).
Qed.

Lemma serve_m5 s : ready s -> reports MAC_AX_ERR_L1_RESET_RECOVERY_DONE s ->
  ser_held Rx (ss_dp s) = false -> sr_bserl2 (ss_ser s) = false -> recovered s (ser_serve s).
Proof.
  intros HR HC Hrx Hl. destruct (serve_eq _ s HR HC) as (s1 & E1 & E2 & E3 & E4 & E5 & E6 & Es); [all_states|].
  assert (ser_serve s = _ser_msg_hdl_m5 s1) as -> by (by rewrite Es).
  destruct (m5_spec s1) as (_ & M1 & M2 & M3 & M4 & _ & [l M5] & M6).
  split; [done|by rewrite M2, E1|apply m5_timer; rewrite E1; apply HR|intros []; [done|by rewrite M4, E2]|
    unfold resumed; by rewrite <- E3|by rewrite M5, E6].
Qed.

(** C39: A whole error recovery on PCIe through three layers: after the
    firmware's first report the module waits with both directions held, the
    hardware paused, a timeout armed and the firmware told to stop; after the
    second reception is released, the hardware runs and the firmware is told
    to recover; after the third the module is idle, holds nothing, pending
    messages are resumed and the MAC layer is back in its initial state -
    whatever other modules do to the data path in between, provided the module
    did not give up after the first two reports. *)
Theorem ser_recovers code s0 s1 s2 :
  ready s0 -> sr_state (ss_ser s0) = CMD_SER_NOT_OCCUR ->
  code = MAC_AX_ERR_L1_ERR_DMAC \/ code = MAC_AX_ERR_L0_PROMOTE_TO_L1 -> reports code s0 ->
  sr_bserl2 (ss_ser (ser_serve s0)) = false ->
  rtc quiet_step (ser_serve s0) s1 -> reports MAC_AX_ERR_L1_RESET_DISABLE_DMAC_DONE s1 ->
  sr_bserl2 (ss_ser (ser_serve s1)) = false ->
  rtc quiet_step (ser_serve s1) s2 -> reports MAC_AX_ERR_L1_RESET_RECOVERY_DONE s2 ->
  in_m2 (ser_serve s0) /\ in_m4 (ser_serve s1) /\ recovered s2 (ser_serve s2).
Proof.
  intros R0 St Hc C0 L0 Q1 C1 L1 Q2 C2.
  destruct (serve_m1 code s0 R0 C0 Hc St L0) as [M2 RA].
  apply quiet_run in Q1 as [Q1s Q1q Q1r Q1h Q1f]; [|apply RA].
  destruct (serve_m3 s1 (Q1r RA) C1) as [M4 RB]; [rewrite Q1s; apply M2|rewrite Q1h; apply M2|done|].
  apply quiet_run in Q2 as [Q2s Q2q Q2r Q2h Q2f]; [|apply RB].
  split; [done|]. split; [done|]. apply serve_m5; [auto|done|rewrite Q2h; apply M4|by rewrite Q2s].
Qed.

(** ** No wait is unwatched *)

(** Runs on PCIe with a dispatcher that accepts every message and delivers
    what it has accepted, in any order. *)
Inductive watch_step : ser_sys -> ser_sys -> Prop :=
| ws_deliver l1 m l2 s : ss_queue s = l1 ++ m :: l2 ->
    watch_step s (snd (_phl_ser_mdl_msg_hdlr (pre m) (set_ss_queue (l1 ++ l2) s)))
| ws_ext msg s : MSG_MDL_ID_FIELD (msg_id msg) <> PHL_MDL_SER -> watch_step s (snd (_phl_ser_mdl_msg_hdlr msg s))
| ws_timer s : sr_timer (ss_ser s) <> None -> watch_step s (_ser_poll_timer_cb (cancel_timer s))
| ws_int s : watch_step s (snd (rtw_phl_interrupt_handler s))
| ws_l2 s : watch_step s (snd (rtw_phl_ser_l2_notify s))
| ws_data i s : dp_step not_ser (ss_dp s) i -> watch_step s (set_ss_dp i s)
| ws_fw a s : watch_step s (set_ss_mac (fw_do (ss_mac s) a) s)
| ws_open e acts dma s : se_send e = [] -> watch_step s (set_ss_mac (set_fw_acts acts (set_dma_rets dma (ss_mac s))) (set_ss_env e s)).

Definition expire_id : Z := msg_id (ser_msg PHL_MDL_SER MSG_EVT_SER_FW_TIMER_EXPIRE).

(** The message of the timeout has been sent and not yet handled. *)
Definition expire_sent (s : ser_sys) : Prop := exists m, m ∈ ss_queue s /\ msg_id m = expire_id.

Definition waiting (s : ser_sys) : bool := ser_test CMD_SER_M2 s || ser_test CMD_SER_M4 s.

Record watched (s : ser_sys) : Prop := {
  wa_src : sr_evtsrc (ss_ser s) = CMD_SER_SRC_INT; wa_send : se_send (ss_env s) = [];
  wa_poll : sr_poll_cnt (ss_ser s) = 0; wa_inv : ser_inv s;
  wa_watch : waiting s = true -> sr_bserl2 (ss_ser s) = false -> sr_timer (ss_ser s) <> None \/ expire_sent s }.

(** A step that leaves the module's record and only adds to the queue. *)
Lemma watched_keep s s' : ss_ser s' = ss_ser s -> (forall m, m ∈ ss_queue s -> m ∈ ss_queue s') ->
  se_send (ss_env s') = [] -> ser_inv s' -> watched s -> watched s'.
Proof.
  intros E Hq He Hi [W1 W2 W3 W4 W5]. split; rewrite ?E; try done. unfold waiting, ser_test. rewrite E. intros H1 H2.
  destruct (W5 H1 H2) as [H|(m & Hm & Em)]; [by left|right; exists m; auto].
Qed.

Lemma send_queue msg s : se_send (ss_env s) = [] ->
  snd (send_dispr msg s) = set_ss_queue (ss_queue s ++ [msg]) (set_ss_env (mkSenv [] (se_recog (ss_env s)) (se_c2h (ss_env s)) (se_mask (ss_env s))) s).
Proof. intros E. unfold send_dispr, ask_accept. by rewrite E. Qed.

Lemma ser_send_queue v s : se_send (ss_env s) = [] -> let s' := snd (phl_ser_send_msg v s) in
  ss_ser s' = ss_ser s /\ (forall m, m ∈ ss_queue s -> m ∈ ss_queue s') /\ se_send (ss_env s') = [].
Proof.
  intros E. unfold phl_ser_send_msg. case_match; [|done]. rewrite send_queue by done. cbn. set_solver.
Qed.

Lemma int_queue s : se_send (ss_env s) = [] -> let s' := snd (rtw_phl_interrupt_handler s) in
  ss_ser s' = ss_ser s /\ (forall m, m ∈ ss_queue s -> m ∈ ss_queue s') /\ se_send (ss_env s') = [].
Proof.
  intros E. unfold rtw_phl_interrupt_handler, ask_mask. set (t := set_ss_env _ s).
  assert (ss_ser t = ss_ser s /\ (forall m, m ∈ ss_queue s -> m ∈ ss_queue t) /\ se_send (ss_env t) = []) as Ht by done.
  clearbody t. generalize (default 0 (head (se_mask (ss_env s)))) as v. intros v. destruct (v =? 0); [exact Ht|]. cbv zeta.
  set (t1 := if z_true (Z.land v (BIT 1)) then _ else t).
  assert (ss_ser t1 = ss_ser s /\ (forall m, m ∈ ss_queue s -> m ∈ ss_queue t1) /\ se_send (ss_env t1) = []) as H1
    by (unfold t1; by destruct (z_true _)).
  clearbody t1.
  assert (forall b n u, ss_ser u = ss_ser s /\ (forall m, m ∈ ss_queue s -> m ∈ ss_queue u) /\ se_send (ss_env u) = [] ->
    let w := if b : bool then snd (phl_ser_send_msg n u) else u in
    ss_ser w = ss_ser s /\ (forall m, m ∈ ss_queue s -> m ∈ ss_queue w) /\ se_send (ss_env w) = []) as Hs.
  { intros b n u (K1 & K2 & K3). destruct b; [|done]. cbv zeta. destruct (ser_send_queue n u K3) as (-> & L2 & L3). auto. }
  unfold phl_fw_watchdog_timeout_notify. set (t4 := if z_true (Z.land v (BIT 6)) then _ else _).
  assert (ss_ser t4 = ss_ser s /\ (forall m, m ∈ ss_queue s -> m ∈ ss_queue t4) /\ se_send (ss_env t4) = []) as H4
    by (unfold t4; apply Hs, Hs, Hs; exact H1).
  clearbody t4. by destruct (schedule Tx (ss_dp t4)).
Qed.

Lemma evt_chk_queue s : sr_evtsrc (ss_ser s) = CMD_SER_SRC_INT -> se_send (ss_env s) = [] ->
  let s' := snd (_ser_msg_hdl_evt_chk s) in
  ss_ser s' = ss_ser s /\ (forall m, m ∈ ss_queue s -> m ∈ ss_queue s') /\ se_send (ss_env s') = [].
Proof.
  intros Hs He. unfold _ser_msg_hdl_evt_chk, evtsrc_is. rewrite Hs, Z.eqb_refl. unfold _ser_event_notify.
  destruct (rtw_hal_ser_get_error_status 0 (ss_mac s)) as [[n e] m]. cbv zeta. set (t := set_ss_stats _ _).
  assert (ss_ser t = ss_ser s /\ (forall m, m ∈ ss_queue s -> m ∈ ss_queue t) /\ se_send (ss_env t) = []) as (T1 & T2 & T3) by done.
  clearbody t. destruct (_ =? _); [done|]. destruct (_ =? _); [done|]. destruct (_ =? _); [done|].
  destruct (ser_send_queue n t T3) as (U1 & U2 & U3). destruct (phl_ser_send_msg n t) as [st u]. cbn [snd] in *.
  split; [congruence|]. auto.
Qed.

Lemma states_waits s : sr_state (ss_ser s) = 0 -> waiting s = false.
Proof. unfold waiting, ser_test. by intros ->. Qed.

(** Handlers of recovery steps end with the timer set, or idle. *)
Lemma watched_after s s' : ser_frame s s' -> ser_inv s' -> watched s ->
  sr_state (ss_ser s') = 0 \/ sr_timer (ss_ser s') <> None -> watched s'.
Proof.
  intros [F1 F2 F3 F4 F5 F6] Hi [W1 W2 W3 W4 W5] Ho. split; [congruence|congruence|auto|done|].
  intros Hw _. destruct Ho as [E|E]; [by rewrite (states_waits _ E) in Hw|by left].
Qed.

Lemma expire_route s : snd (_phl_ser_mdl_msg_hdlr (pre (ser_msg PHL_MDL_SER MSG_EVT_SER_FW_TIMER_EXPIRE)) s) =
  _ser_msg_hdl_fw_expire s.
Proof. reflexivity. Qed.

Lemma route_id m m' s : msg_id m = msg_id m' -> _phl_ser_mdl_msg_hdlr m s = _phl_ser_mdl_msg_hdlr m' s.
Proof. intros E. unfold _phl_ser_mdl_msg_hdlr. by rewrite E. Qed.

(** A message that is not the timeout's. *)
Lemma watched_other msg s : watched s -> watched (snd (_phl_ser_mdl_msg_hdlr msg s)).
Proof.
  intros W. pose proof W as [W1 W2 W3 W4 W5]. pose proof (inv_msg msg s W4) as Hi. revert Hi.
  unfold _phl_ser_mdl_msg_hdlr, _ser_fail_ev_hdlr, _ser_hdl_external_evt, evtsrc_is. rewrite W1.
  destruct (IS_MSG_FAIL _); [by intros _|]. destruct (MSG_MDL_ID_FIELD _ =? _);
    [|intros _; destruct (sr_bserl2 _); [done|]; by destruct (z_true _)].
  destruct (IS_MSG_IN_PRE_PHASE _); [|by intros _]. unfold _ser_hdl_internal_evt. cbn [snd].
  assert (_ser_msg_hdl_polling_chk s = s) as -> by (unfold _ser_msg_hdl_polling_chk, evtsrc_is; by rewrite W1).
  destruct (_ =? _); [done|].
  destruct (_ =? _); [intros Hi; destruct (evt_chk_queue s W1 W2) as (E1 & E2 & E3); by apply (watched_keep s)|].
  destruct (_ =? _).
  { intros Hi. destruct (m1_spec s) as [([F _ T _ _] & _)|[F E _ _ _]].
    - apply (watched_after s); try done. right. by rewrite T.
    - apply (watched_after s); try done. by left. }
  destruct (_ =? _); [done|]. destruct (_ =? _).
  { intros Hi. unfold _ser_msg_hdl_fw_expire, evtsrc_is in *. rewrite W1 in *. by split. }
  destruct (_ =? _).
  { intros Hi. destruct (m3_spec s) as [([F _ T _ _] & _)|[F E _ _ _]].
    - apply (watched_after s); try done. right. by rewrite T.
    - apply (watched_after s); try done. by left. }
  destruct (_ =? _); [intros Hi; destruct (m5_spec s) as (F & E & _); apply (watched_after s); auto|].
  destruct (_ =? _); [|done]. intros Hi.
  destruct (m9_spec s (states_nonneg _ (si_state _ W4))) as (F & E & _). apply (watched_after s); auto.
Qed.

(** Taking a message from the queue, if it is not the timeout's. *)
Lemma watched_take l1 m l2 s : ss_queue s = l1 ++ m :: l2 -> msg_id m <> expire_id -> watched s ->
  watched (set_ss_queue (l1 ++ l2) s).
Proof.
  intros Hq Hm [W1 W2 W3 W4 W5]. split; try done; [by apply (dp_keep s)|]. intros H1 H2.
  destruct (W5 H1 H2) as [H|(m' & Hm' & Em)]; [by left|]. right. exists m'. split; [|done]. cbn.
  rewrite Hq in Hm'. apply elem_of_app in Hm' as [?|Hm']; [set_solver|]. apply elem_of_cons in Hm' as [->|?]; [done|set_solver].
Qed.

Lemma watch_step_ok s s' : watch_step s s' -> watched s -> watched s'.
Proof.
  intros Hst W. pose proof W as [W1 W2 W3 W4 W5]. destruct Hst as [l1 m l2 s Hq|msg s Hm|s Ht|s|s|i s Hd|a s|e acts dma s He].
  - destruct (decide (msg_id m = expire_id)) as [Em|Em]; [|by apply watched_other, (watched_take l1 m l2)].
    rewrite (route_id _ (pre (ser_msg PHL_MDL_SER MSG_EVT_SER_FW_TIMER_EXPIRE))) by (cbn; by rewrite Em).
    rewrite expire_route. set (t := set_ss_queue _ s).
    assert (ser_inv (_ser_msg_hdl_fw_expire t)) as Hi by (by apply inv_expire, (dp_keep s)).
    unfold _ser_msg_hdl_fw_expire, evtsrc_is in *. cbn [t set_ss_queue ss_ser] in *. rewrite W1 in *. by split.
  - by apply watched_other.
  - pose proof (ser_inv_step _ _ (sst_timer s Ht) W4) as Hi. revert Hi. unfold _ser_poll_timer_cb. cbv zeta.
    set (evt := if ser_test CMD_SER_M1 _ then _ else _). set (m := ser_msg PHL_MDL_SER evt).
    assert (ser_test CMD_SER_M1 s = false) as HM1.
    { unfold ser_test, CMD_SER_M1. rewrite test_flag_bit by lia. generalize (si_state _ W4).
      generalize (sr_state (ss_ser s)). apply Forall_forall. all_states. }
    assert (waiting s = true -> evt = MSG_EVT_SER_FW_TIMER_EXPIRE) as Hevt.
    { unfold evt, waiting, ser_test in *. cbn [cancel_timer upd_ser ss_ser set_sr_timer sr_state sr_poll_cnt] in *.
      rewrite HM1, W3. by destruct (TEST_STATUS_FLAG _ CMD_SER_M2), (TEST_STATUS_FLAG _ CMD_SER_M4). }
    assert (z_true (MSG_EVT_ID_FIELD (msg_id m)) = true) as ->.
    { unfold m, evt. repeat case_match; reflexivity. }
    rewrite send_queue by done. intros Hi. split; try done. intros H1 _. right. exists m.
    split; [cbn; set_solver|]. unfold m. by rewrite Hevt.
  - destruct (int_queue s W2) as (E1 & E2 & E3). apply (watched_keep s); try done. by apply (ser_inv_step s); [constructor|].
  - destruct (ser_send_queue RTW_PHL_SER_L2_RESET s W2) as (E1 & E2 & E3). apply (watched_keep s); try done.
    by apply (ser_inv_step s); [constructor|].
  - apply (watched_keep s); try done. by apply (ser_inv_step s); [constructor|].
  - apply (watched_keep s); try done. by apply (ser_inv_step s); [constructor|].
  - apply (watched_keep s); try done. by apply (ser_inv_step s); [constructor|].
Qed.

(** On PCIe, with a dispatcher that accepts and delivers messages, in
    every run: as long as the recovery module waits for the firmware and has
    not given up, its timer is armed or the timer's message is on its way, so
    a firmware that never answers is noticed. *)
Theorem ser_timeout_watch s : rtc watch_step (ser0 RTW_HCI_PCIE) s ->
  waiting s = true -> sr_bserl2 (ss_ser s) = false -> sr_timer (ss_ser s) <> None \/ expire_sent s.
Proof.
  intros Hr. assert (watched s) as W; [|apply W].
  assert (watched (ser0 RTW_HCI_PCIE)) as W0.
  { split; [reflexivity|reflexivity|reflexivity|apply ser0_inv|vm_compute; discriminate]. }
  revert W0. induction Hr as [|a b c Hs _ IH]; [done|]. intros Wa. by apply IH, (watch_step_ok a).
Qed.

(** ** Runs *)

Lemma mac_set_err_safe_witness :
  fst (mac_set_err_status MAC_AX_ERR_L1_DISABLE_EN mac0) = MACSUCCESS /\
  (let m := snd (mac_set_err_status MAC_AX_ERR_L1_DISABLE_EN mac0) in
   fw_run m (snd (mac_set_err_status MAC_AX_ERR_L1_RCVY_EN m))).
Proof.
  split; [vm_compute; reflexivity|]. intros m.
  pose proof (mac_set_err_safe MAC_AX_ERR_L1_RCVY_EN m ltac:(vm_compute; discriminate)) as H.
  destruct (mac_set_err_status MAC_AX_ERR_L1_RCVY_EN m) as [ret m'] eqn:E.
  assert (ret = MACPOLLTO) as -> by (change ret with (fst (ret, m')); rewrite <- E; vm_compute; reflexivity).
  apply H. discriminate.
Defined.

(** The three reports, with the firmware taking the answers in between. *)
Definition run_0 : ser_sys := report_code MAC_AX_ERR_L1_ERR_DMAC (ser0 RTW_HCI_PCIE).
Definition run_1 : ser_sys := report_code MAC_AX_ERR_L1_RESET_DISABLE_DMAC_DONE (take_code (ser_serve run_0)).
Definition run_2 : ser_sys := report_code MAC_AX_ERR_L1_RESET_RECOVERY_DONE (take_code (ser_serve run_1)).

Lemma reports_next code s : rtc quiet_step s (report_code code (take_code s)).
Proof. eapply rtc_l; [apply (qs_fw FwTake)|]. apply rtc_once, (qs_fw (FwReport code)). Qed.

Lemma ser_recovers_witness : sr_state (ss_ser (ser_serve run_2)) = 0 /\ sr_bserl2 (ss_ser (ser_serve run_2)) = false /\
  ser_held Tx (ss_dp (ser_serve run_2)) = false.
Proof.
  destruct (ser_recovers MAC_AX_ERR_L1_ERR_DMAC run_0 run_1 run_2) as (_ & _ & [R1 R2 _ R3 _ _]).
  - repeat split; vm_compute; reflexivity.
  - vm_compute; reflexivity.
  - left; reflexivity.
  - repeat split; vm_compute; (reflexivity || discriminate).
  - vm_compute; reflexivity.
  - apply reports_next.
  - repeat split; vm_compute; (reflexivity || discriminate).
  - vm_compute; reflexivity.
  - apply reports_next.
  - repeat split; vm_compute; (reflexivity || discriminate).
  - split; [exact R1|]. split; [exact R2|apply R3].
Defined.

(** The firmware's first report arrives by interrupt and its messages are
    delivered. *)
Definition watch_1 : ser_sys := snd (rtw_phl_interrupt_handler
  (set_ss_mac (set_fw_acts [] (set_dma_rets [] (ss_mac run_0))) (set_ss_env (mkSenv [] [] [] [BIT 4]) run_0))).
Definition watch_2 : ser_sys := hdl MSG_EVT_SER_EVENT_CHK (set_ss_queue [] watch_1).
Definition watch_3 : ser_sys := hdl MSG_EVT_SER_M1_PAUSE_TRX (set_ss_queue [] watch_2).

Lemma watch_3_reach : rtc watch_step (ser0 RTW_HCI_PCIE) watch_3.
Proof.
  eapply rtc_l; [apply (ws_fw (FwReport MAC_AX_ERR_L1_ERR_DMAC))|].
  eapply rtc_l; [by apply (ws_open (mkSenv [] [] [] [BIT 4]) [] [])|].
  eapply rtc_l; [apply ws_int|].
  eapply rtc_l; [apply (ws_deliver [] (ser_msg PHL_MDL_SER MSG_EVT_SER_EVENT_CHK) [] watch_1); vm_compute; reflexivity|].
  apply rtc_once. unfold watch_3, hdl, evt.
  apply (ws_deliver [] (ser_msg PHL_MDL_SER MSG_EVT_SER_M1_PAUSE_TRX) [] watch_2); vm_compute; reflexivity.
Qed.

Lemma ser_timeout_watch_witness : waiting watch_3 = true /\ (sr_timer (ss_ser watch_3) <> None \/ expire_sent watch_3).
Proof.
  split; [vm_compute; reflexivity|].
  apply (ser_timeout_watch watch_3 watch_3_reach); vm_compute; reflexivity.
Defined.

(** ** Flaws of the flow *)

(** The timeout's message does not look at the state.  The timer fires, the
    firmware answers after all and recovery completes, then the message is
    handled: the module counts as given up, and every message of the other
    modules is refused from then on. *)
Lemma late_expiry_gives_up :
  let s1 := _ser_poll_timer_cb (cancel_timer (ser_serve run_0)) in
  let s2 := hdl MSG_EVT_SER_M3_DO_RECOV (hdl MSG_EVT_SER_EVENT_CHK (report_code MAC_AX_ERR_L1_RESET_DISABLE_DMAC_DONE (take_code s1))) in
  let s3 := hdl MSG_EVT_SER_M5_READY (hdl MSG_EVT_SER_EVENT_CHK (report_code MAC_AX_ERR_L1_RESET_RECOVERY_DONE (take_code s2))) in
  let s4 := hdl MSG_EVT_SER_FW_TIMER_EXPIRE s3 in
  sr_state (ss_ser s3) = 0 /\ sr_bserl2 (ss_ser s3) = false /\ ser_held Tx (ss_dp s3) = false /\
  expire_sent s3 /\ sr_state (ss_ser s4) = 0 /\ sr_bserl2 (ss_ser s4) = true /\
  fst (_phl_ser_mdl_msg_hdlr ext_msg s4) = MDL_RET_FAIL.
Proof.
  cbv zeta. do 3 (split; [vm_compute; reflexivity|]). split; [|vm_compute; auto].
  exists (ser_msg PHL_MDL_SER MSG_EVT_SER_FW_TIMER_EXPIRE). split; [|reflexivity].
  match goal with |- ?m ∈ ?q => let q' := eval vm_compute in q in change (m ∈ q') end. by left.
Qed.

(** When the chip fails to stop, M1 gives up and goes idle, but keeps
    transmission paused in its name. *)
Lemma failed_m1_keeps_tx :
  let s := ser_serve (set_ss_mac (set_dma_rets [1] (ss_mac run_0)) run_0) in
  sr_state (ss_ser s) = 0 /\ sr_bserl2 (ss_ser s) = true /\ ser_held Tx (ss_dp s) = true.
Proof. vm_compute. auto. Qed.

(** On USB a report that is only logged ends the polling: the timer is not set
    again and nothing is on its way. *)
Lemma log_only_ends_polling :
  let s0 := ser0 RTW_HCI_USB in
  let s1 := _ser_poll_timer_cb (cancel_timer (report_code MAC_AX_ERR_L2_ERR_APB_SA_TO_HCI_WCMAC s0)) in
  let s2 := hdl MSG_EVT_SER_POLLING_CHK (set_ss_queue [] (set_ss_env (mkSenv [] [true] [] [BIT 4]) s1)) in
  let s3 := hdl MSG_EVT_SER_EVENT_CHK (set_ss_queue [] s2) in
  sr_timer (ss_ser s0) = Some CMD_SER_USB_POLLING_INTERVAL_IDL /\
  map msg_id (ss_queue s1) = [msg_id (ser_msg PHL_MDL_SER MSG_EVT_SER_POLLING_CHK)] /\
  map msg_id (ss_queue s2) = [msg_id (ser_msg PHL_MDL_SER MSG_EVT_SER_EVENT_CHK)] /\
  sr_timer (ss_ser s3) = None /\ ss_queue s3 = [].
Proof. vm_compute. auto. Qed.

(** The firmware's confirmation of a stop request is taken for a fatal error. *)
Lemma stop_done_resets : ser_notify_of MAC_AX_ERR_L1_RCVY_STOP_DONE = RTW_PHL_SER_L2_RESET.
Proof. reflexivity. Qed.

(** The log marks used entries by an index of ten or more; the index is a byte
    and comes back below ten. *)
Lemma log_index_wraps :
  let c := Nat.iter 260 log_rotate (ss_ser (ser0 RTW_HCI_PCIE)) in sl_idx <$> (sr_stsl2 c !! 0%nat) = Some 4.
Proof. vm_compute. reflexivity. Qed.
