(* ===== verification/SecRc4.v ===== *)
(** * Software encryption: the stream cipher, the checksum and WEP

    src/core/rtw_security.c: the RC4 stream cipher ([arcfour_init],
    [arcfour_byte], [arcfour_encrypt]), the table-driven CRC-32 ([crc32_init],
    [getcrc32], [rtw_calc_crc32]) and the two WEP routines that combine them.

    The table and its flag are static variables of the file: they are the
    record [crc_glob], threaded through the routines that use it.  A frame is a
    byte buffer; an access outside it is [Oob] (IeBuf.v).  The ciphers write
    over the bytes they read, one byte after the other, so they are functions
    from the bytes read to the bytes written. *)

From S2P Require Import Prelude IeBuf.

(** ** Constants of src/include/rtw_security.h *)

Definition _NO_PRIVACY_ : Z := 0.
Definition _WEP40_ : Z := 1.
Definition _TKIP_ : Z := 2.
Definition _AES_ : Z := 4.
Definition _WEP104_ : Z := 5.
Definition _GCMP_ : Z := 7.
Definition _CCMP_256_ : Z := 0x14.
Definition _GCMP_256_ : Z := 0x17.
Definition WEP_KEYS : Z := 4.
Definition CRC32_POLY : Z := 0x04c11db7.
Definition WIFI_FW_AUTH_STATE : Z := 0x00000200.

(** ** RC4 *)

Record arc4context := mkArc4 { a4_x : Z; a4_y : Z; a4_state : list Z }.

(** [state[i]] for an index already reduced modulo 256. *)
Definition st_get (state : list Z) (i : Z) : Z := nth (Z.to_nat i) state 0.
Definition st_set (state : list Z) (i v : Z) : list Z := <[Z.to_nat i := u8 v]> state.

(** One turn of the key schedule's second loop. *)
Definition arcfour_init_turn (key : list Z) (key_len counter : Z)
    (s : list Z * Z * Z) : res (list Z * Z * Z) :=
  let '(state, stateindex, keyindex) := s in
  let t := st_get state counter in
  k ← rd key keyindex;
  let stateindex := Z.land (u32 (stateindex + k + t)) 255 in
  let u := st_get state stateindex in
  let state := st_set state stateindex t in
  let state := st_set state counter u in
  let keyindex := u32 (keyindex + 1) in
  mret (state, stateindex, if keyindex >=? key_len then 0 else keyindex).

Fixpoint arcfour_init_loop (key : list Z) (key_len : Z) (cs : list Z)
    (s : list Z * Z * Z) : res (list Z * Z * Z) :=
  match cs with
  | [] => mret s
  | c :: cs => s ← arcfour_init_turn key key_len c s; arcfour_init_loop key key_len cs s
  end.

(** The values of a [u8] in order: the loop counters and the initial state. *)
Definition range256 : list Z := map Z.of_nat (seq 0 256).

Definition arcfour_init (key : list Z) (key_len : Z) : res arc4context :=
  s ← arcfour_init_loop key key_len range256 (range256, 0, 0);
  mret (mkArc4 0 0 s.1.1).

Definition arcfour_byte (c : arc4context) : Z * arc4context :=
  let state := a4_state c in
  let x := Z.land (u32 (a4_x c + 1)) 255 in
  let sx := st_get state x in
  let y := Z.land (u32 (sx + a4_y c)) 255 in
  let sy := st_get state y in
  let state := st_set state y sx in
  let state := st_set state x sy in
  (st_get state (Z.land (sx + sy) 255), mkArc4 x y state).

(** [dest[i] = src[i] ^ arcfour_byte()] for the bytes of the source. *)
Fixpoint arcfour_encrypt (c : arc4context) (src : list Z) : list Z * arc4context :=
  match src with
  | [] => ([], c)
  | b :: src =>
      let '(k, c) := arcfour_byte c in
      let '(dest, c) := arcfour_encrypt c src in
      (Z.lxor b (u8 k) :: dest, c)
  end.

(** ** CRC-32 *)

Record crc_glob := mkCrc { bcrc32initialized : Z; crc32_table : list Z }.

(** The static variables before the first call. *)
Definition crc_boot : crc_glob := mkCrc 0 (replicate 256 0).

Definition crc32_reverseBit (data : Z) : Z :=
  u8 (Z.lor (u8 (Z.land (Z.shiftl data 7) 0x80))
     (Z.lor (Z.land (Z.shiftl data 5) 0x40)
     (Z.lor (Z.land (Z.shiftl data 3) 0x20)
     (Z.lor (Z.land (Z.shiftl data 1) 0x10)
     (Z.lor (Z.land (Z.shiftr data 1) 0x08)
     (Z.lor (Z.land (Z.shiftr data 3) 0x04)
     (Z.lor (Z.land (Z.shiftr data 5) 0x02)
            (Z.land (Z.shiftr data 7) 0x01)))))))).

Definition crc32_shift (c : Z) : Z :=
  if z_true (Z.land c 0x80000000) then Z.lxor (u32 (Z.shiftl c 1)) CRC32_POLY
  else u32 (Z.shiftl c 1).

(** Byte [i] of a word in memory, lowest address first. *)
Definition byte_of (c i : Z) : Z := Z.land (Z.shiftr c (8 * i)) 255.
Definition of_bytes4 (b0 b1 b2 b3 : Z) : Z :=
  Z.lor b0 (Z.lor (Z.shiftl b1 8) (Z.lor (Z.shiftl b2 16) (Z.shiftl b3 24))).

Definition crc32_entry (i : Z) : Z :=
  let k := crc32_reverseBit (u8 i) in
  let c := Nat.iter 8 crc32_shift (u32 (Z.shiftl k 24)) in
  of_bytes4 (crc32_reverseBit (byte_of c 3)) (crc32_reverseBit (byte_of c 2))
            (crc32_reverseBit (byte_of c 1)) (crc32_reverseBit (byte_of c 0)).

Definition crc32_init (g : crc_glob) : crc_glob :=
  if bcrc32initialized g =? 1 then g else mkCrc 1 (map crc32_entry range256).

Definition crc32_step (table : list Z) (crc b : Z) : Z :=
  Z.lxor (nth (Z.to_nat (Z.land (Z.lxor crc b) 255)) table 0) (Z.shiftr crc 8).

(** [getcrc32(buf, len)] for the [len] bytes of the list (none for [len <= 0]). *)
Definition getcrc32 (g : crc_glob) (buf : list Z) : Z * crc_glob :=
  let g := if bcrc32initialized g =? 0 then crc32_init g else g in
  (u32 (Z.lnot (fold_left (crc32_step (crc32_table g)) buf 0xffffffff)), g).

Definition rtw_calc_crc32 (g : crc_glob) (data : list Z) : Z * crc_glob :=
  let g := if bcrc32initialized g =? 0 then crc32_init g else g in
  (u32 (Z.lnot (fold_left (crc32_step (crc32_table g)) data 0xFFFFFFFF)), g).

(** [crc[4]] after a 32-bit little-endian store. *)
Definition crc_bytes (c : Z) : list Z := [byte_of c 0; byte_of c 1; byte_of c 2; byte_of c 3].

(** ** Keys and frames *)

(** The part of [struct security_priv] the routines read and write; the key
    arrays hold the [skey] bytes of each [union Keytype], and [iv_seq] the
    64-bit value of each of its little-endian entries. *)
Record security_priv := mkSec {
  dot11AuthAlgrthm : Z;
  dot11PrivacyKeyIndex : Z;
  dot11DefKey : list (list Z);
  dot11DefKeylen : list Z;
  dot118021XGrpKeyid : Z;
  dot118021XGrpKey : list (list Z);
  dot118021XGrprxmickey : list (list Z);
  binstallGrpkey : bool;
  busetkipkey : Z;
  bcheck_grpkey : bool;
  hw_decrypted : bool;
  btkip_countermeasure : bool;
  btkip_countermeasure_time : Z;
  iv_seq : list Z
}.

Definition set_hw_decrypted (s : security_priv) (v : bool) : security_priv :=
  mkSec (dot11AuthAlgrthm s) (dot11PrivacyKeyIndex s) (dot11DefKey s) (dot11DefKeylen s)
    (dot118021XGrpKeyid s) (dot118021XGrpKey s) (dot118021XGrprxmickey s) (binstallGrpkey s)
    (busetkipkey s) (bcheck_grpkey s) v (btkip_countermeasure s) (btkip_countermeasure_time s) (iv_seq s).
Definition set_bcheck_grpkey (s : security_priv) (v : bool) : security_priv :=
  mkSec (dot11AuthAlgrthm s) (dot11PrivacyKeyIndex s) (dot11DefKey s) (dot11DefKeylen s)
    (dot118021XGrpKeyid s) (dot118021XGrpKey s) (dot118021XGrprxmickey s) (binstallGrpkey s)
    (busetkipkey s) v (hw_decrypted s) (btkip_countermeasure s) (btkip_countermeasure_time s) (iv_seq s).
Definition set_countermeasure (s : security_priv) (on : bool) (time : Z) : security_priv :=
  mkSec (dot11AuthAlgrthm s) (dot11PrivacyKeyIndex s) (dot11DefKey s) (dot11DefKeylen s)
    (dot118021XGrpKeyid s) (dot118021XGrpKey s) (dot118021XGrprxmickey s) (binstallGrpkey s)
    (busetkipkey s) (bcheck_grpkey s) (hw_decrypted s) on time (iv_seq s).
Definition set_iv_seq (s : security_priv) (i pn : Z) : security_priv :=
  mkSec (dot11AuthAlgrthm s) (dot11PrivacyKeyIndex s) (dot11DefKey s) (dot11DefKeylen s)
    (dot118021XGrpKeyid s) (dot118021XGrpKey s) (dot118021XGrprxmickey s) (binstallGrpkey s)
    (busetkipkey s) (bcheck_grpkey s) (hw_decrypted s) (btkip_countermeasure s)
    (btkip_countermeasure_time s) (<[Z.to_nat i := pn]> (iv_seq s)).

(** An array of the record, indexed. *)
Definition arr {A} (l : list A) (i : Z) : res A :=
  if i <? 0 then Oob else match l !! Z.to_nat i with Some x => Ok x | None => Oob end.

(** [struct pkt_attrib] of a frame to send, and its fragments: one packet
    buffer per request, its memory and its length. *)
Record pkt_attrib := mkPa {
  pa_encrypt : Z; pa_hdrlen : Z; pa_iv_len : Z; pa_icv_len : Z; pa_nr_frags : Z;
  pa_last_txcmdsz : Z; pa_ra : list Z; pa_ta : list Z; pa_UncstKey : list Z
}.

Record pkt_buf := mkBuf { vir_addr : list Z; pb_length : Z }.

(** [struct xmit_frame]; [xf_buf] is the memory from [buf_addr + TXDESC_OFFSET]
    on, used only for the WEP authentication frame. *)
Record xmit_frame := mkXf { xf_attrib : pkt_attrib; xf_txreq : list pkt_buf; xf_buf : list Z }.

(** The part of [struct rx_pkt_attrib]. *)
Record rx_pkt_attrib := mkRa {
  ra_encrypt : Z; ra_hdrlen : Z; ra_iv_len : Z; ra_icv_len : Z; ra_key_index : Z;
  ra_bdecrypted : bool; ra_privacy : bool; ra_priority : Z; ra_qos : bool; ra_seq_num : Z;
  ra_frag_num : Z; ra_mfrag : bool; ra_ra : list Z; ra_ta : list Z
}.

(** [struct recv_frame_hdr]: [rx_data] is the memory from the pointer of that
    name to [rx_end], [rx_tail] the offset of the frame's end in it and [rx_len]
    the frame's length; [rf_psta] is the address of the station found for it.
    [rf_id] names the frame. *)
Record recv_frame := mkRf {
  rf_id : Z; rf_attrib : rx_pkt_attrib; rx_data : list Z; rx_len : Z; rx_tail : Z;
  rf_psta : list Z; rf_keytrack : Z
}.

Definition rf_with_data (f : recv_frame) (d : list Z) : recv_frame :=
  mkRf (rf_id f) (rf_attrib f) d (rx_len f) (rx_tail f) (rf_psta f) (rf_keytrack f).
Definition rf_with_attrib (f : recv_frame) (a : rx_pkt_attrib) : recv_frame :=
  mkRf (rf_id f) a (rx_data f) (rx_len f) (rx_tail f) (rf_psta f) (rf_keytrack f).
Definition rf_with_keytrack (f : recv_frame) (k : Z) : recv_frame :=
  mkRf (rf_id f) (rf_attrib f) (rx_data f) (rx_len f) (rx_tail f) (rf_psta f) k.

(** ** WEP *)

(** Checksum and cipher over one payload of [length] bytes at [p], as the two
    sending routines end: the payload, then the four checksum bytes behind it. *)
Definition seal (g : crc_glob) (key : list Z) (key_len : Z) (b : list Z) (p length : Z)
    : res (list Z * crc_glob) :=
  clear ← rd_n b p (Z.max 0 length);
  let '(crc, g) := getcrc32 g clear in
  c ← arcfour_init key key_len;
  payload ← rd_n b p length;
  let '(out, c) := arcfour_encrypt c payload in
  b ← wr b p out;
  let '(icv, c) := arcfour_encrypt c (crc_bytes crc) in
  b ← wr b (p + length) icv;
  mret (b, g).

(** [u8 wepkey[16]] after the two copies. *)
Definition wep_key (b : list Z) (hdrlen : Z) (key : list Z) (keylength : Z) : res (list Z) :=
  iv ← rd_n b hdrlen 3;
  w ← wr (zeros 16) 0 iv;
  k ← rd_n key 0 keylength;
  wr w 3 k.

Definition wep_encrypt_frag (g : crc_glob) (a : pkt_attrib) (key : list Z) (keylength : Z)
    (b : list Z) (len : Z) : res (list Z * crc_glob) :=
  let length := len - pa_hdrlen a - pa_iv_len a - pa_icv_len a in
  w ← wep_key b (pa_hdrlen a) key keylength;
  seal g w (3 + keylength) b (pa_iv_len a + pa_hdrlen a) length.

(** The loops over the fragments; [n] turns are left, [i] is [curfragnum].  A
    turn works on the packet buffer of request [i]. *)
Fixpoint frag_loop (turn : Z -> xmit_frame -> crc_glob -> res (xmit_frame * crc_glob))
    (n : nat) (i : Z) (xf : xmit_frame) (g : crc_glob) : res (xmit_frame * crc_glob) :=
  match n with
  | O => mret (xf, g)
  | S n => '(xf, g) ← turn i xf g; frag_loop turn n (i + 1) xf g
  end.

Definition on_frag (enc : crc_glob -> list Z -> Z -> res (list Z * crc_glob))
    (i : Z) (xf : xmit_frame) (g : crc_glob) : res (xmit_frame * crc_glob) :=
  pb ← arr (xf_txreq xf) i;
  '(b, g) ← enc g (vir_addr pb) (pb_length pb);
  mret (mkXf (xf_attrib xf) (<[Z.to_nat i := mkBuf b (pb_length pb)]> (xf_txreq xf)) (xf_buf xf), g).

Definition wep_encrypt_turn (key : list Z) (keylength : Z) (auth : bool)
    (i : Z) (xf : xmit_frame) (g : crc_glob) : res (xmit_frame * crc_glob) :=
  let a := xf_attrib xf in
  if negb auth then on_frag (fun g => wep_encrypt_frag g a key keylength) i xf g
  else
    '(b, g) ← wep_encrypt_frag g a key keylength (xf_buf xf) (pa_last_txcmdsz a);
    mret (mkXf a (xf_txreq xf) b, g).

Definition rtw_wep_encrypt (g : crc_glob) (sec : security_priv) (mlme_state : Z)
    (xf : xmit_frame) : res (xmit_frame * crc_glob) :=
  let a := xf_attrib xf in
  if negb (pa_encrypt a =? _WEP40_) && negb (pa_encrypt a =? _WEP104_) then mret (xf, g)
  else
    keylength ← arr (dot11DefKeylen sec) (dot11PrivacyKeyIndex sec);
    key ← arr (dot11DefKey sec) (dot11PrivacyKeyIndex sec);
    frag_loop (wep_encrypt_turn key keylength (z_true (Z.land mlme_state WIFI_FW_AUTH_STATE)))
      (Z.to_nat (pa_nr_frags a)) 0 xf g.

(** Deciphers the [length] bytes at [p] in place. *)
Definition unseal (key : list Z) (key_len : Z) (b : list Z) (p length : Z) : res (list Z) :=
  c ← arcfour_init key key_len;
  payload ← rd_n b p length;
  wr b p (arcfour_encrypt c payload).1.

(** The checksum is computed and stored in a local array that is not read. *)
Definition rtw_wep_decrypt (g : crc_glob) (sec : security_priv) (f : recv_frame)
    : res (recv_frame * crc_glob) :=
  let a := rf_attrib f in
  if (ra_encrypt a =? _WEP40_) || (ra_encrypt a =? _WEP104_) then
    let keyindex := ra_key_index a in
    keylength ← arr (dot11DefKeylen sec) keyindex;
    key ← arr (dot11DefKey sec) keyindex;
    w ← wep_key (rx_data f) (ra_hdrlen a) key keylength;
    let length := rx_len f - ra_hdrlen a - ra_iv_len a in
    let p := ra_iv_len a + ra_hdrlen a in
    b ← unseal w (3 + keylength) (rx_data f) p length;
    clear ← rd_n b p (Z.max 0 (length - 4));
    let '(crc, g) := getcrc32 g clear in
    mret (rf_with_data f b, g)
  else mret (f, g).

(** * Theorems

    The table-driven CRC-32 above against the bit-serial definition of
    the checksum, the errors it detects, the permutation the cipher's state
    remains, and that deciphering undoes enciphering. *)

(** ** Words *)

Definition word32 (x : Z) : Prop := 0 <= x < 2 ^ 32.

(** A number below [2^n] has no bit from [n] on, and conversely. *)
Lemma bits_below n x : 0 <= n -> (0 <= x < 2 ^ n <-> 0 <= x /\ forall i, n <= i -> Z.testbit x i = false).
Proof.
  intros Hn. split.
  - intros Hx. split; [lia|]. intros i Hi. rewrite <- (Z.mod_small x (2 ^ n)) by lia.
    apply Z.mod_pow2_bits_high. lia.
  - intros [H0 H]. split; [done|]. destruct (decide (x = 0)) as [->|]; [lia|].
    apply Z.log2_lt_pow2; [lia|]. destruct (Z_lt_dec (Z.log2 x) n); [done|].
    pose proof (Z.bit_log2 x ltac:(lia)) as E. rewrite H in E by lia. done.
Qed.

Lemma lxor_below n x y : 0 <= n -> 0 <= x < 2 ^ n -> 0 <= y < 2 ^ n -> 0 <= Z.lxor x y < 2 ^ n.
Proof.
  intros Hn. rewrite !(bits_below n) by done. intros [Hx X] [Hy Y]. split.
  - apply Z.lxor_nonneg. tauto.
  - intros i Hi. rewrite Z.lxor_spec, X, Y by done. done.
Qed.

Lemma lxor_byte x y : byte x -> byte y -> byte (Z.lxor x y).
Proof. apply (lxor_below 8). lia. Qed.

Lemma land_255 x : Z.land x 255 = x mod 256.
Proof. apply (Z.land_ones x 8). lia. Qed.

Lemma lxor_cancel a b : Z.lxor (Z.lxor a b) b = a.
Proof. rewrite Z.lxor_assoc, Z.lxor_nilpotent, Z.lxor_0_r. done. Qed.

Lemma lxor_inj_l a b c : Z.lxor a b = Z.lxor a c -> b = c.
Proof.
  intros H. rewrite <- (lxor_cancel b a), <- (lxor_cancel c a).
  rewrite (Z.lxor_comm b), (Z.lxor_comm c). by rewrite H.
Qed.

Lemma u32_lnot x : word32 x -> u32 (Z.lnot x) = Z.lxor x 0xffffffff.
Proof.
  intros Hx. apply Z.bits_inj'. intros i Hi. unfold u32.
  rewrite Z.lxor_spec. change 0xffffffff with (Z.ones 32).
  destruct (Z_lt_dec i 32).
  - rewrite Z.mod_pow2_bits_low, Z.lnot_spec, Z.ones_spec_low by lia. by destruct (Z.testbit x i).
  - rewrite Z.mod_pow2_bits_high, Z.ones_spec_high by lia.
    apply (bits_below 32) in Hx as [_ ->]; [done|lia..].
Qed.

(** ** The reference checksum *)

(** One bit of the message is in the lowest bit of the register. *)
Definition crc_bit (crc : Z) : Z :=
  if Z.odd crc then Z.lxor (Z.shiftr crc 1) 0xEDB88320 else Z.shiftr crc 1.
Definition crc_byte (crc b : Z) : Z := Nat.iter 8 crc_bit (Z.lxor crc b).
Definition crc32_ref (buf : list Z) : Z := Z.lxor (fold_left crc_byte buf 0xffffffff) 0xffffffff.

Lemma odd_lxor a b : Z.odd (Z.lxor a b) = xorb (Z.odd a) (Z.odd b).
Proof. rewrite <- !Z.bit0_odd. apply Z.lxor_spec. Qed.

Lemma lxor_swap a b c d : Z.lxor (Z.lxor a b) (Z.lxor c d) = Z.lxor (Z.lxor a c) (Z.lxor b d).
Proof. rewrite !Z.lxor_assoc. f_equal. rewrite <- !Z.lxor_assoc, (Z.lxor_comm b c). done. Qed.

(** The register is linear in its contents. *)
Lemma crc_bit_lxor a b : crc_bit (Z.lxor a b) = Z.lxor (crc_bit a) (crc_bit b).
Proof.
  unfold crc_bit. rewrite odd_lxor, Z.shiftr_lxor.
  destruct (Z.odd a), (Z.odd b); simpl xorb; cbv iota.
  - rewrite lxor_swap, Z.lxor_nilpotent, Z.lxor_0_r. done.
  - rewrite Z.lxor_assoc, (Z.lxor_comm (Z.shiftr b 1)), <- Z.lxor_assoc. done.
  - rewrite Z.lxor_assoc. done.
  - done.
Qed.

Lemma crc_bits_lxor n a b :
  Nat.iter n crc_bit (Z.lxor a b) = Z.lxor (Nat.iter n crc_bit a) (Nat.iter n crc_bit b).
Proof. induction n; [done|]. rewrite !Nat.iter_succ, IHn. apply crc_bit_lxor. Qed.

Lemma crc_bit_word x : word32 x -> word32 (crc_bit x).
Proof.
  intros Hx. unfold crc_bit, word32 in *. rewrite Z.shiftr_div_pow2 by lia.
  destruct (Z.odd x); [apply lxor_below|]; lia.
Qed.

Lemma crc_bit_zero x : word32 x -> crc_bit x = 0 -> x = 0.
Proof.
  intros Hx. unfold crc_bit, word32 in *. rewrite Z.shiftr_div_pow2 by lia.
  destruct (Z.odd x) eqn:E.
  - intros H%Z.lxor_eq. lia.
  - intros H. assert (x = 0 \/ x = 1) as [->| ->] by lia; done.
Qed.

Lemma crc_bits_word n x : word32 x -> word32 (Nat.iter n crc_bit x).
Proof. intros. apply Nat.iter_ind; [done|]. apply crc_bit_word. Qed.

(** Different registers stay different. *)
Lemma crc_bits_inj n x y : word32 x -> word32 y ->
  Nat.iter n crc_bit x = Nat.iter n crc_bit y -> x = y.
Proof.
  intros Hx Hy. induction n; [done|]. rewrite !Nat.iter_succ. intros H. apply IHn.
  apply Z.lxor_eq, crc_bit_zero.
  - apply (lxor_below 32); [lia|by apply crc_bits_word..].
  - rewrite crc_bit_lxor, H. apply Z.lxor_nilpotent.
Qed.

Lemma crc_byte_word crc b : word32 crc -> byte b -> word32 (crc_byte crc b).
Proof.
  intros Hc Hb. apply crc_bits_word, (lxor_below 32); unfold word32, byte in *; lia.
Qed.

Lemma crc_bits_shift n h : Nat.iter n crc_bit (Z.shiftl h (Z.of_nat n)) = h.
Proof.
  induction n as [|n IH]; [apply Z.shiftl_0_r|]. rewrite Nat.iter_succ_r.
  replace (crc_bit _) with (Z.shiftl h (Z.of_nat n)); [done|].
  rewrite Nat2Z.inj_succ, <- Z.add_1_r, <- Z.shiftl_shiftl by lia.
  set (y := Z.shiftl h (Z.of_nat n)). unfold crc_bit.
  rewrite <- Z.bit0_odd, Z.shiftl_spec_low by lia.
  rewrite Z.shiftr_shiftl_l by lia. by rewrite Z.shiftl_0_r.
Qed.

(** ** The table *)

Definition crc_ready : crc_glob := crc32_init crc_boot.

Lemma crc_table_ok : forallb (fun i => nth (Z.to_nat i) (crc32_table crc_ready) 0 =? Nat.iter 8 crc_bit i)
  range256 = true.
Proof. vm_compute. reflexivity. Qed.

Lemma elem_range256 i : 0 <= i < 256 -> i ∈ range256.
Proof.
  intros Hi. unfold range256. apply list_elem_of_fmap. exists (Z.to_nat i).
  split; [lia|]. apply elem_of_seq. lia.
Qed.

Lemma crc_table_at i : 0 <= i < 256 ->
  nth (Z.to_nat i) (crc32_table crc_ready) 0 = Nat.iter 8 crc_bit i.
Proof.
  intros Hi. pose proof crc_table_ok as H. rewrite forallb_forall in H.
  apply Z.eqb_eq, (H i), list_elem_of_In, elem_range256, Hi.
Qed.

Lemma split_low8 x : x = Z.lxor (Z.land x 255) (Z.shiftl (Z.shiftr x 8) 8).
Proof.
  apply Z.bits_inj'. intros i Hi. rewrite Z.lxor_spec, Z.land_spec.
  change 255 with (Z.ones 8). destruct (Z_lt_dec i 8).
  - rewrite Z.ones_spec_low, Z.shiftl_spec_low by lia. by destruct (Z.testbit x i).
  - rewrite Z.ones_spec_high, Z.shiftl_spec, Z.shiftr_spec by lia.
    rewrite andb_false_r. simpl. f_equal. lia.
Qed.

Lemma crc32_step_ref crc b : byte b ->
  crc32_step (crc32_table crc_ready) crc b = crc_byte crc b.
Proof.
  intros Hb. unfold crc32_step, crc_byte. set (x := Z.lxor crc b).
  rewrite crc_table_at by (rewrite land_255; lia).
  rewrite (split_low8 x) at 2. rewrite crc_bits_lxor. f_equal.
  rewrite (crc_bits_shift 8). unfold x. rewrite Z.shiftr_lxor.
  replace (Z.shiftr b 8) with 0; [by rewrite Z.lxor_0_r|].
  rewrite Z.shiftr_div_pow2 by lia. unfold byte in Hb. lia.
Qed.

Lemma crc_fold_ref buf crc : bytes buf ->
  fold_left (crc32_step (crc32_table crc_ready)) buf crc = fold_left crc_byte buf crc.
Proof.
  revert crc. induction buf as [|b buf IH]; [done|]. intros crc Hb.
  apply Forall_cons in Hb as [Hb Hbuf]. simpl. by rewrite crc32_step_ref, IH.
Qed.

Lemma crc_fold_word buf crc : bytes buf -> word32 crc -> word32 (fold_left crc_byte buf crc).
Proof.
  revert crc. induction buf as [|b buf IH]; [done|]. intros crc [Hb Hbuf]%Forall_cons Hc.
  apply IH; [done|]. by apply crc_byte_word.
Qed.

(** The static variables as the file's functions leave them. *)
Definition crc_ok (g : crc_glob) : Prop := bcrc32initialized g = 0 \/ g = crc_ready.

Lemma crc_enter g : crc_ok g ->
  (if bcrc32initialized g =? 0 then crc32_init g else g) = crc_ready.
Proof.
  intros [H| ->]; [|done]. rewrite H, Z.eqb_refl. unfold crc32_init. by rewrite H.
Qed.

Lemma getcrc32_ref g buf : crc_ok g -> bytes buf -> getcrc32 g buf = (crc32_ref buf, crc_ready).
Proof.
  intros Hg Hb. unfold getcrc32. rewrite crc_enter by done. f_equal.
  rewrite crc_fold_ref by done. apply u32_lnot, crc_fold_word; [done|]. done.
Qed.

(** Both entry points of the table-driven checksum compute the bit-serial
    CRC-32 of the message, whether or not the table has been built, and leave
    the table built. *)
Theorem crc32_equiv g buf : crc_ok g -> bytes buf ->
  getcrc32 g buf = (crc32_ref buf, crc_ready) /\
  rtw_calc_crc32 g buf = (crc32_ref buf, crc_ready).
Proof. intros Hg Hb. split; by apply getcrc32_ref. Qed.

Lemma crc32_ref_word buf : bytes buf -> word32 (crc32_ref buf).
Proof. intros. apply (lxor_below 32); [lia| |lia]. by apply crc_fold_word. Qed.

Lemma crc_fold_inj buf x y : bytes buf -> word32 x -> word32 y ->
  fold_left crc_byte buf x = fold_left crc_byte buf y -> x = y.
Proof.
  revert x y. induction buf as [|b buf IH]; [done|]. intros x y [Hb Hbuf]%Forall_cons Hx Hy H.
  apply IH in H; [|by try apply crc_byte_word..].
  apply crc_bits_inj in H; [|apply (lxor_below 32); unfold word32, byte in *; lia..].
  rewrite (Z.lxor_comm x), (Z.lxor_comm y) in H. by apply lxor_inj_l in H.
Qed.

(** A change of one byte changes the checksum. *)
Lemma crc32_ref_detects pre post x y : bytes pre -> bytes post -> byte x -> byte y ->
  crc32_ref (pre ++ x :: post) = crc32_ref (pre ++ y :: post) -> x = y.
Proof.
  intros Hpre Hpost Hx Hy H. unfold crc32_ref in H.
  rewrite (Z.lxor_comm (fold_left _ (pre ++ x :: post) _)),
          (Z.lxor_comm (fold_left _ (pre ++ y :: post) _)) in H. apply lxor_inj_l in H.
  rewrite !fold_left_app in H. simpl in H.
  assert (word32 (fold_left crc_byte pre 4294967295)) as Hw by (apply crc_fold_word; done).
  apply crc_fold_inj in H; [|by try apply crc_byte_word..].
  apply crc_bits_inj in H; [|apply (lxor_below 32); unfold word32, byte in *; lia..].
  by apply lxor_inj_l in H.
Qed.

(** ** The cipher's state *)

(** A permutation of the 256 byte values, with the two indices in range. *)
Definition arc4_ok (c : arc4context) : Prop :=
  a4_state c ≡ₚ range256 /\ byte (a4_x c) /\ byte (a4_y c).

Lemma range256_bytes : bytes range256.
Proof. by_compute. Qed.

Lemma perm_bytes l : l ≡ₚ range256 -> bytes l.
Proof. intros H. unfold bytes. rewrite H. apply range256_bytes. Qed.

Lemma perm_length l : l ≡ₚ range256 -> length l = 256%nat.
Proof. intros H. rewrite (Permutation_length H). reflexivity. Qed.

Lemma st_get_lookup l i : length l = 256%nat -> byte i -> l !! Z.to_nat i = Some (st_get l i).
Proof.
  intros Hl Hi. destruct (lookup_lt_is_Some_2 l (Z.to_nat i)) as [x Hx]; [unfold byte in Hi; lia|].
  rewrite Hx. f_equal. unfold st_get. symmetry. by apply nth_lookup_Some.
Qed.

Lemma st_get_byte l i : l ≡ₚ range256 -> byte i -> byte (st_get l i).
Proof.
  intros Hl Hi. pose proof (perm_bytes _ Hl) as H. unfold bytes in H.
  rewrite Forall_lookup in H. eapply H, st_get_lookup; [by apply perm_length|done].
Qed.

(** The exchange both loops do. *)
Lemma swap_perm l i j : l ≡ₚ range256 -> byte i -> byte j ->
  st_set (st_set l j (st_get l i)) i (st_get l j) ≡ₚ range256.
Proof.
  intros Hl Hi Hj. unfold st_set. rewrite !u8_small by (by apply st_get_byte).
  pose proof (perm_length _ Hl). rewrite Permutation_insert_swap; [done| |]; by apply st_get_lookup.
Qed.

Lemma land_255_byte x : byte (Z.land x 255).
Proof. rewrite land_255. unfold byte. lia. Qed.

Lemma arcfour_init_loop_perm key key_len cs s s' :
  bytes cs -> s.1.1 ≡ₚ range256 ->
  arcfour_init_loop key key_len cs s = Ok s' -> s'.1.1 ≡ₚ range256.
Proof.
  intros Hcs. revert s. induction Hcs as [|c cs Hc _ IH]; intros [[st si] ki] Hs; simpl.
  - intros [= <-]. done.
  - intros (s1 & H1 & H2)%bind_Ok_inv. apply bind_Ok_inv in H1 as (k & _ & [= <-]).
    eapply IH; [|exact H2]. simpl. apply swap_perm; [done..|apply land_255_byte].
Qed.

Lemma arcfour_init_ok key key_len c : arcfour_init key key_len = Ok c -> arc4_ok c.
Proof.
  unfold arcfour_init. intros (s & Hs & [= <-])%bind_Ok_inv. split; [|split; done].
  eapply arcfour_init_loop_perm; [apply range256_bytes| |exact Hs]. done.
Qed.

Lemma arcfour_byte_ok c : arc4_ok c -> byte (arcfour_byte c).1 /\ arc4_ok (arcfour_byte c).2.
Proof.
  intros (Hp & Hx & Hy). unfold arcfour_byte. simpl.
  assert (forall l, l ≡ₚ range256 -> forall i, byte (st_get l (Z.land i 255))) as Hg.
  { intros l Hl i. apply st_get_byte; [done|]. apply land_255_byte. }
  split; [apply Hg, swap_perm; [done|apply land_255_byte..]|].
  split; [apply swap_perm; [done|apply land_255_byte..]|]. split; apply land_255_byte.
Qed.

Lemma arcfour_encrypt_cons c b src :
  arcfour_encrypt c (b :: src) =
  (Z.lxor b (u8 (arcfour_byte c).1) :: (arcfour_encrypt (arcfour_byte c).2 src).1,
   (arcfour_encrypt (arcfour_byte c).2 src).2).
Proof.
  change (arcfour_encrypt c (b :: src)) with
    (let '(k, c') := arcfour_byte c in
     let '(dest, c'') := arcfour_encrypt c' src in (Z.lxor b (u8 k) :: dest, c'')).
  destruct (arcfour_byte c) as [k c']. cbn [fst snd]. by destruct (arcfour_encrypt c' src).
Qed.

Lemma arcfour_encrypt_ok c src : arc4_ok c -> bytes src ->
  bytes (arcfour_encrypt c src).1 /\ arc4_ok (arcfour_encrypt c src).2.
Proof.
  revert c. induction src as [|b src IH]; intros c Hc Hs; [done|].
  apply Forall_cons in Hs as [Hb Hs]. pose proof (arcfour_byte_ok c Hc) as [Hk Hc'].
  rewrite arcfour_encrypt_cons. destruct (IH _ Hc' Hs) as [H1 H2]. split; [|exact H2].
  constructor; [|exact H1]. rewrite u8_small by done. by apply lxor_byte.
Qed.

(** Initialisation succeeds when the key has the bytes it says. *)
Lemma arcfour_init_loop_total key key_len cs s :
  1 <= key_len < 2 ^ 31 -> key_len <= zlen key -> 0 <= s.2 < key_len ->
  exists s', arcfour_init_loop key key_len cs s = Ok s'.
Proof.
  intros Hk Hl. revert s. induction cs as [|c cs IH]; intros [[st si] ki] Hs; simpl; [by eexists|].
  simpl in Hs. destruct (rd_in key ki) as (x & Hx & _); [lia|]. rewrite Hx, !bind_Ok.
  apply IH. simpl. rewrite u32_small by lia. destruct (_ >=? _) eqn:E; lia.
Qed.

Lemma arcfour_init_total key key_len :
  1 <= key_len < 2 ^ 31 -> key_len <= zlen key ->
  exists c, arcfour_init key key_len = Ok c /\ arc4_ok c.
Proof.
  intros Hk Hl. destruct (arcfour_init_loop_total key key_len range256 (range256, 0, 0)) as [s Hs];
    [done..|simpl; lia|].
  assert (arcfour_init key key_len = Ok (mkArc4 0 0 s.1.1)) as H
    by (unfold arcfour_init; by rewrite Hs).
  eexists. split; [exact H|]. by eapply arcfour_init_ok.
Qed.

(** For every key the schedule ends, and from then on, however many bytes are
    ciphered, the state is a permutation of the 256 byte values with both
    indices in range, so no access of the cipher leaves its array, and every
    byte written is a byte. *)
Theorem rc4_state_permutation key key_len src :
  1 <= key_len < 2 ^ 31 -> key_len <= zlen key -> bytes src ->
  exists c, arcfour_init key key_len = Ok c /\ arc4_ok c /\
    bytes (arcfour_encrypt c src).1 /\ arc4_ok (arcfour_encrypt c src).2.
Proof.
  intros Hk Hl Hs. destruct (arcfour_init_total key key_len Hk Hl) as (c & H & Hc).
  exists c. split; [done|]. split; [done|]. by apply arcfour_encrypt_ok.
Qed.

(** ** Deciphering undoes enciphering *)

Lemma arcfour_length c src : length (arcfour_encrypt c src).1 = length src.
Proof.
  revert c. induction src as [|b src IH]; intros c; [done|].
  rewrite arcfour_encrypt_cons. simpl. by rewrite IH.
Qed.

Lemma arcfour_zlen c src : zlen (arcfour_encrypt c src).1 = zlen src.
Proof. unfold zlen. by rewrite arcfour_length. Qed.

Lemma arcfour_involutive c src :
  arcfour_encrypt c (arcfour_encrypt c src).1 = (src, (arcfour_encrypt c src).2).
Proof.
  revert c. induction src as [|b src IH]; intros c; [done|].
  rewrite (arcfour_encrypt_cons c b src). cbn [fst snd].
  rewrite arcfour_encrypt_cons, IH, lxor_cancel. done.
Qed.

Lemma arcfour_app c l k :
  arcfour_encrypt c (l ++ k) =
  ((arcfour_encrypt c l).1 ++ (arcfour_encrypt (arcfour_encrypt c l).2 k).1,
   (arcfour_encrypt (arcfour_encrypt c l).2 k).2).
Proof.
  revert c. induction l as [|b l IH]; intros c; [simpl; by destruct (arcfour_encrypt c k)|].
  rewrite <- app_comm_cons, !arcfour_encrypt_cons, IH. done.
Qed.

Lemma byte_of_byte c i : byte (byte_of c i).
Proof. apply land_255_byte. Qed.

Lemma crc_bytes_bytes c : bytes (crc_bytes c).
Proof. repeat constructor; apply byte_of_byte. Qed.

(** ** Sealing and unsealing a payload *)

(** The bytes a sealed payload has in the clear: the payload and its checksum. *)
Definition with_crc (payload : list Z) : list Z := payload ++ crc_bytes (crc32_ref payload).

Lemma zlen_with_crc payload : zlen (with_crc payload) = zlen payload + 4.
Proof. unfold with_crc, crc_bytes. zl. Qed.

Lemma rd_n_mid pre l post p n :
  p = zlen pre -> n = zlen l -> rd_n (pre ++ l ++ post) p n = Ok l.
Proof. intros -> ->. apply at_off_rd_n; [|done]. by exists pre, post. Qed.

Lemma wr_mid pre l post k p :
  p = zlen pre -> zlen k = zlen l -> wr (pre ++ l ++ post) p k = Ok (pre ++ k ++ post).
Proof. apply wr_at. Qed.

Lemma seal_spec g key key_len pre payload slack post c :
  crc_ok g -> arcfour_init key key_len = Ok c -> bytes payload -> zlen slack = 4 ->
  seal g key key_len (pre ++ payload ++ slack ++ post) (zlen pre) (zlen payload) =
  Ok (pre ++ (arcfour_encrypt c (with_crc payload)).1 ++ post, crc_ready).
Proof.
  intros Hg Hc Hb Hs. unfold seal. rewrite Z.max_r by (unfold zlen; lia).
  rewrite (rd_n_mid pre payload (slack ++ post)), bind_Ok by done.
  rewrite getcrc32_ref by done. cbv iota beta. rewrite Hc, !bind_Ok.
  unfold with_crc. rewrite arcfour_app.
  pose proof (arcfour_zlen c payload) as Hz.
  destruct (arcfour_encrypt c payload) as [out c']. cbn [fst snd] in *. cbv iota beta.
  rewrite (wr_mid pre payload), bind_Ok by done.
  pose proof (arcfour_zlen c' (crc_bytes (crc32_ref payload))) as Hz'.
  destruct (arcfour_encrypt c' _) as [icv c'']. cbn [fst snd] in *. cbv iota beta.
  rewrite (app_assoc pre out), (wr_mid (pre ++ out) slack) by (rewrite ?Hz'; unfold crc_bytes; zl).
  rewrite bind_Ok, <- !app_assoc. done.
Qed.

Lemma unseal_spec key key_len pre ct post c :
  arcfour_init key key_len = Ok c ->
  unseal key key_len (pre ++ ct ++ post) (zlen pre) (zlen ct) =
  Ok (pre ++ (arcfour_encrypt c ct).1 ++ post).
Proof.
  intros Hc. unfold unseal. rewrite Hc, bind_Ok, rd_n_mid, bind_Ok by done.
  apply wr_mid; [done|]. apply arcfour_zlen.
Qed.

(** What was sealed is unsealed with the same key. *)
Lemma unseal_sealed key key_len pre payload post c :
  arcfour_init key key_len = Ok c ->
  unseal key key_len (pre ++ (arcfour_encrypt c (with_crc payload)).1 ++ post)
    (zlen pre) (zlen payload + 4) = Ok (pre ++ with_crc payload ++ post).
Proof.
  intros Hc. rewrite <- zlen_with_crc, <- (arcfour_zlen c (with_crc payload)), (unseal_spec _ _ _ _ _ c) by done.
  by rewrite arcfour_involutive.
Qed.

(** ** Frames of several fragments *)

Lemma arr_mid {A} (l k : list A) x : arr (l ++ x :: k) (zlen l) = Ok x.
Proof.
  unfold arr. pose proof (zlen_nonneg l). replace (zlen l <? 0) with false by lia.
  rewrite zlen_to_nat, lookup_app_r, Nat.sub_diag by lia. done.
Qed.

(** A loop whose turns rewrite each fragment's buffer rewrites them all, and
    nothing else of the frame. *)
Lemma frag_loop_map turn enc (F : pkt_buf -> list Z) a buf todo : forall before g,
  (forall i xf g, xf_attrib xf = a -> turn i xf g = on_frag enc i xf g) ->
  (forall pb g, pb ∈ todo -> crc_ok g -> enc g (vir_addr pb) (pb_length pb) = Ok (F pb, crc_ready)) ->
  crc_ok g -> todo <> [] ->
  frag_loop turn (length todo) (zlen before) (mkXf a (before ++ todo) buf) g =
  Ok (mkXf a (before ++ map (fun pb => mkBuf (F pb) (pb_length pb)) todo) buf, crc_ready).
Proof.
  induction todo as [|pb todo IH]; intros before g Ht He Hg Hn; [done|].
  cbn [length frag_loop]. rewrite Ht by done. unfold on_frag. cbn [xf_txreq xf_attrib xf_buf].
  rewrite arr_mid, bind_Ok, He, !bind_Ok by (set_solver || done). cbv iota beta.
  rewrite zlen_to_nat, insert_app_r_alt, Nat.sub_diag by lia. cbn [insert list_insert map].
  destruct todo as [|pb' todo]; [done|].
  rewrite !(cons_middle (mkBuf (F pb) (pb_length pb)) before), !(app_assoc before).
  replace (zlen before + 1) with (zlen (before ++ [mkBuf (F pb) (pb_length pb)])) by zl.
  apply IH; [done| |by right|done]. intros. apply He; [set_solver|done].
Qed.

(** A fragment in the clear: header, initialisation vector, payload, the four
    bytes reserved for the checksum, and what else the buffer holds. *)
Record clear_frag := mkCf {
  cf_hdr : list Z; cf_iv : list Z; cf_payload : list Z; cf_slack : list Z; cf_post : list Z
}.

Definition cf_ok (hdrlen iv_len : Z) (cf : clear_frag) : Prop :=
  zlen (cf_hdr cf) = hdrlen /\ zlen (cf_iv cf) = iv_len /\ zlen (cf_slack cf) = 4 /\
  bytes (cf_hdr cf) /\ bytes (cf_iv cf) /\ bytes (cf_payload cf).

#[export] Instance cf_ok_dec h i cf : Decision (cf_ok h i cf).
Proof. unfold cf_ok. apply _. Defined.

(** The buffer handed to the sending routine, the length it is given with, and
    the same frame with its last part [l] in place of payload and checksum. *)
Definition cf_len (cf : clear_frag) : Z :=
  zlen (cf_hdr cf) + zlen (cf_iv cf) + zlen (cf_payload cf) + 4.
Definition cf_with (cf : clear_frag) (l : list Z) : list Z :=
  cf_hdr cf ++ cf_iv cf ++ l ++ cf_post cf.
Definition cf_tx (cf : clear_frag) : pkt_buf :=
  mkBuf (cf_with cf (cf_payload cf ++ cf_slack cf)) (cf_len cf).

(** A buffer that holds the frame's end can be given by its parts. *)
Lemma cf_with_assoc cf l : cf_with cf l = (cf_hdr cf ++ cf_iv cf) ++ l ++ cf_post cf.
Proof. unfold cf_with. by rewrite <- app_assoc. Qed.

(** Sending and receiving one fragment with a key that gives the context [c]. *)
Lemma seal_frag g key key_len cf c hdrlen iv_len :
  crc_ok g -> cf_ok hdrlen iv_len cf -> arcfour_init key key_len = Ok c ->
  seal g key key_len (vir_addr (cf_tx cf)) (iv_len + hdrlen) (zlen (cf_payload cf)) =
  Ok (cf_with cf (arcfour_encrypt c (with_crc (cf_payload cf))).1, crc_ready).
Proof.
  intros Hg (Hh & Hi & Hs & _ & _ & Hb) Hc. unfold cf_tx. simpl. rewrite !cf_with_assoc, <- (app_assoc (cf_payload cf)).
  replace (iv_len + hdrlen) with (zlen (cf_hdr cf ++ cf_iv cf)) by zl. by apply seal_spec.
Qed.

Lemma unseal_frag key key_len cf c hdrlen iv_len :
  cf_ok hdrlen iv_len cf -> arcfour_init key key_len = Ok c ->
  unseal key key_len (cf_with cf (arcfour_encrypt c (with_crc (cf_payload cf))).1)
    (iv_len + hdrlen) (cf_len cf - hdrlen - iv_len) = Ok (cf_with cf (with_crc (cf_payload cf))).
Proof.
  intros (Hh & Hi & Hs & _) Hc. rewrite !cf_with_assoc.
  replace (iv_len + hdrlen) with (zlen (cf_hdr cf ++ cf_iv cf)) by zl.
  replace (cf_len cf - hdrlen - iv_len) with (zlen (cf_payload cf) + 4) by (unfold cf_len; lia).
  by apply unseal_sealed.
Qed.

(** The clear text in front of the checksum. *)
Lemma rd_payload cf hdrlen iv_len n :
  cf_ok hdrlen iv_len cf -> n = cf_len cf - hdrlen - iv_len - 4 ->
  rd_n (cf_with cf (with_crc (cf_payload cf))) (iv_len + hdrlen) (Z.max 0 n) = Ok (cf_payload cf).
Proof.
  intros (Hh & Hi & Hs & _) ->. rewrite cf_with_assoc. unfold with_crc.
  rewrite <- (app_assoc (cf_payload cf)). apply rd_n_mid; unfold cf_len; zl.
Qed.

(** ** WEP *)

Lemma rd_n_front l r p n : 0 <= p -> 0 <= n -> p + n <= zlen l -> rd_n (l ++ r) p n = rd_n l p n.
Proof.
  intros Hp Hn Hl. unfold rd_n. destruct (n =? 0); [done|].
  replace (_ || _ || (zlen (l ++ r) <? p + n)) with false by zl.
  replace (_ || _ || (zlen l <? p + n)) with false by lia.
  unfold zlen in Hl. rewrite drop_app_le, take_app_le by (rewrite ?length_drop; lia). done.
Qed.

(** The key depends on the header's part of the buffer only, fits its array and
    starts the cipher. *)
Lemma wep_key_prefix cf hdrlen iv_len key n l :
  cf_ok hdrlen iv_len cf -> 3 <= iv_len ->
  wep_key (cf_with cf l) hdrlen key n = wep_key (cf_hdr cf ++ cf_iv cf) hdrlen key n.
Proof.
  intros (Hh & Hi & _) H3. unfold wep_key. rewrite cf_with_assoc, rd_n_front by zl. done.
Qed.

Lemma wr_total b i l : 0 <= i -> i + zlen l <= zlen b ->
  exists b', wr b i l = Ok b' /\ zlen b' = zlen b.
Proof.
  intros Hi Hl. unfold wr. destruct (zlen l =? 0); [by eexists|].
  replace (_ || _) with false by lia. eexists. split; [done|].
  pose proof (zlen_nonneg l). rewrite !zlen_app. unfold zlen in *.
  rewrite length_take, length_drop. lia.
Qed.

Lemma wep_key_total b hdrlen key n :
  0 <= hdrlen -> hdrlen + 3 <= zlen b -> 0 <= n <= 13 -> n <= zlen key ->
  exists w c, wep_key b hdrlen key n = Ok w /\ arcfour_init w (3 + n) = Ok c.
Proof.
  intros Hh Hb Hn Hk. unfold wep_key.
  destruct (rd_n_in b hdrlen 3) as (iv & -> & Hiv & _); [lia..|]. rewrite bind_Ok.
  destruct (wr_total (zeros 16) 0 iv) as (w & -> & Hw); [lia|rewrite zlen_zeros; lia|].
  rewrite bind_Ok. rewrite zlen_zeros in Hw by lia.
  destruct (rd_n_in key 0 n) as (k & -> & Hkl & _); [lia..|]. rewrite bind_Ok.
  destruct (wr_total w 3 k) as (w' & -> & Hw'); [lia..|].
  destruct (arcfour_init_total w' (3 + n)) as (c & Hc & _); [lia..|]. by exists w', c.
Qed.

(** The receiver's view of a fragment sent with attributes [a] and key [idx]. *)
Definition rx_matches (a : pkt_attrib) (idx : Z) (cf : clear_frag) (b : list Z) (f : recv_frame) : Prop :=
  rx_data f = b /\ rx_len f = cf_len cf /\
  ra_encrypt (rf_attrib f) = pa_encrypt a /\ ra_hdrlen (rf_attrib f) = pa_hdrlen a /\
  ra_iv_len (rf_attrib f) = pa_iv_len a /\ ra_key_index (rf_attrib f) = idx.

Section wep.
Context (sec : security_priv) (a : pkt_attrib) (key : list Z) (n : Z).
Context (Henc : pa_encrypt a = _WEP40_ \/ pa_encrypt a = _WEP104_).
Context (Hlen : arr (dot11DefKeylen sec) (dot11PrivacyKeyIndex sec) = Ok n).
Context (Hkey : arr (dot11DefKey sec) (dot11PrivacyKeyIndex sec) = Ok key).
Context (Hn : 0 <= n <= 13) (Hkl : n <= zlen key).
Context (Hiv : 3 <= pa_iv_len a) (Hicv : pa_icv_len a = 4).

(** The context of the cipher for a fragment. *)
Lemma wep_context cf : cf_ok (pa_hdrlen a) (pa_iv_len a) cf ->
  exists w c, wep_key (cf_hdr cf ++ cf_iv cf) (pa_hdrlen a) key n = Ok w /\
    arcfour_init w (3 + n) = Ok c.
Proof. intros (Hh & Hi & _). apply wep_key_total; zl. Qed.

(** Both routines on one fragment. *)
Lemma wep_frag_roundtrip cf : cf_ok (pa_hdrlen a) (pa_iv_len a) cf ->
  exists b,
    (forall g, crc_ok g -> wep_encrypt_frag g a key n (vir_addr (cf_tx cf)) (pb_length (cf_tx cf)) =
      Ok (b, crc_ready)) /\
    (forall g f, crc_ok g -> rx_matches a (dot11PrivacyKeyIndex sec) cf b f ->
      rtw_wep_decrypt g sec f =
        Ok (rf_with_data f (cf_with cf (with_crc (cf_payload cf))), crc_ready)).
Proof.
  intros Hcf. destruct (wep_context cf Hcf) as (w & c & Hw & Hc).
  exists (cf_with cf (arcfour_encrypt c (with_crc (cf_payload cf))).1). split.
  - intros g Hg. unfold wep_encrypt_frag. rewrite Hicv.
    rewrite (wep_key_prefix _ _ (pa_iv_len a) _ _ (cf_payload cf ++ cf_slack cf) Hcf Hiv : 
      wep_key (vir_addr (cf_tx cf)) _ _ _ = _), Hw, bind_Ok.
    replace (pb_length _ - _ - _ - _) with (zlen (cf_payload cf)); [by eapply seal_frag|].
    destruct Hcf as (Hh & Hi & _). simpl. unfold cf_len. lia.
  - intros g f Hg (Hd & Hl & He & Hh & Hi & Hx). unfold rtw_wep_decrypt.
    replace (_ || _) with true by (rewrite He; destruct Henc as [-> | ->]; done).
    rewrite Hx, Hlen, Hkey, !bind_Ok, Hd, Hh, Hi, Hl.
    rewrite (wep_key_prefix _ _ (pa_iv_len a)), Hw, bind_Ok by done.
    rewrite (unseal_frag _ _ _ c), bind_Ok by done.
    rewrite rd_payload, bind_Ok by done. destruct Hcf as (_ & _ & _ & _ & _ & Hb).
    rewrite getcrc32_ref by done. done.
Qed.

(** Every fragment of a frame sent with WEP, deciphered with the same key by
    the receiving routine, is the fragment before enciphering with its CRC-32
    behind the payload; header and initialisation vector are untouched. *)
Theorem wep_roundtrip g st xf cfs :
  crc_ok g -> Z.land st WIFI_FW_AUTH_STATE = 0 -> cfs <> [] ->
  Forall (cf_ok (pa_hdrlen a) (pa_iv_len a)) cfs ->
  xf_attrib xf = a -> pa_nr_frags a = zlen cfs -> xf_txreq xf = map cf_tx cfs ->
  exists F, rtw_wep_encrypt g sec st xf =
      Ok (mkXf a (map (fun pb => mkBuf (F pb) (pb_length pb)) (xf_txreq xf)) (xf_buf xf), crc_ready) /\
    forall cf f, cf ∈ cfs -> rx_matches a (dot11PrivacyKeyIndex sec) cf (F (cf_tx cf)) f ->
      rtw_wep_decrypt crc_ready sec f =
        Ok (rf_with_data f (cf_with cf (with_crc (cf_payload cf))), crc_ready).
Proof.
  intros Hg Hst Hne Hcfs Ha Hnr Htx.
  exists (fun pb => match wep_encrypt_frag crc_ready a key n (vir_addr pb) (pb_length pb) with
                    | Ok (b, _) => b | _ => [] end).
  rewrite Forall_forall in Hcfs. split.
  - unfold rtw_wep_encrypt. rewrite Ha.
    replace (_ && _) with false by (destruct Henc as [-> | ->]; done).
    rewrite Hlen, Hkey, !bind_Ok, Hst, Hnr, zlen_to_nat. destruct xf as [a' tx buf]. simpl in *.
    subst a' tx. rewrite <- (length_map cf_tx cfs). apply (frag_loop_map _ (fun g => wep_encrypt_frag g a key n) _ a buf _ []).
    + intros i xf g' E. unfold wep_encrypt_turn. rewrite E. done.
    + intros pb g' (cf & -> & Hin)%list_elem_of_fmap Hg'.
      destruct (wep_frag_roundtrip cf (Hcfs _ Hin)) as (b & Hb & _).
      rewrite (Hb g' Hg'), (Hb crc_ready) by (by right). done.
    + done.
    + by destruct cfs.
  - intros cf f Hin. destruct (wep_frag_roundtrip cf (Hcfs _ Hin)) as (b & Hb & Hd).
    rewrite (Hb crc_ready) by (by right). apply Hd. by right.
Qed.

End wep.

(** ** Witness *)

(** The check value published for the checksum: nine digits, and the table not
    yet built. *)
Lemma crc32_equiv_witness :
  let digits := [49; 50; 51; 52; 53; 54; 55; 56; 57] in
  crc32_ref digits = 0xcbf43926 /\
  getcrc32 crc_boot digits = (crc32_ref digits, crc_ready) /\
  rtw_calc_crc32 crc_boot digits = (crc32_ref digits, crc_ready).
Proof.
  intros digits. split; [vm_compute; reflexivity|].
  apply crc32_equiv; [by left|by_compute].
Defined.
