(* ===== verification/SecTkip.v ===== *)
(** * Software encryption: TKIP

    src/core/rtw_security.c: the Michael message integrity code
    ([rtw_secmicsetkey] to [rtw_seccalctkipmic]), the two key-mixing phases with
    their S-box, [rtw_tkip_encrypt], [rtw_tkip_decrypt], the countermeasure
    timer, and the conversions between packet numbers and initialisation
    vectors.

    The static counters of [rtw_tkip_decrypt] that only feed a log line are left
    out.  The temporal key, the MIC key and the addresses are arrays of a fixed
    size, indexed with constants below it. *)

From S2P Require Import Prelude IeBuf SecRc4.

Definition _SUCCESS : Z := 1.
Definition _FAIL : Z := 0.

(** ** Michael *)

Record mic_data := mkMic { K0 : Z; K1 : Z; mL : Z; mR : Z; mM : Z; nBytesInM : Z }.

Definition ROL32 (A n : Z) : Z :=
  u32 (Z.lor (Z.shiftl A n) (Z.land (Z.shiftr A (32 - n)) (2 ^ n - 1))).
Definition ROR32 (A n : Z) : Z := ROL32 A (32 - n).

(** The four bytes at [p]: [res |= *p++ << (8 * i)]. *)
Definition secmicgetuint32 (p : list Z) : Z :=
  fold_left (fun res '(i, b) => Z.lor res (u32 (Z.shiftl b (8 * i))))
    (zip [0; 1; 2; 3] p) 0.

(** The four bytes written. *)
Definition secmicputuint32 (val : Z) : list Z :=
  [Z.land val 0xff; Z.land (Z.shiftr val 8) 0xff;
   Z.land (Z.shiftr val 16) 0xff; Z.land (Z.shiftr val 24) 0xff].

Definition secmicclear (d : mic_data) : mic_data :=
  mkMic (K0 d) (K1 d) (K0 d) (K1 d) 0 0.

Definition rtw_secmicsetkey (key : list Z) : mic_data :=
  let k0 := secmicgetuint32 (take 4 key) in
  let k1 := secmicgetuint32 (take 4 (drop 4 key)) in
  secmicclear (mkMic k0 k1 0 0 0 0).

(** The mixing of a full word into the two halves. *)
Definition mic_block (L R M : Z) : Z * Z :=
  let L := Z.lxor L M in
  let R := Z.lxor R (ROL32 L 17) in
  let L := u32 (L + R) in
  let R := Z.lxor R (u32 (Z.lor (Z.shiftr (Z.land L 0xff00ff00) 8)
                                (Z.shiftl (Z.land L 0x00ff00ff) 8))) in
  let L := u32 (L + R) in
  let R := Z.lxor R (ROL32 L 3) in
  let L := u32 (L + R) in
  let R := Z.lxor R (ROR32 L 2) in
  let L := u32 (L + R) in
  (L, R).

Definition rtw_secmicappendbyte (d : mic_data) (b : Z) : mic_data :=
  let M := Z.lor (mM d) (u32 (Z.shiftl b (8 * nBytesInM d))) in
  let n := u32 (nBytesInM d + 1) in
  if n >=? 4 then
    let '(L, R) := mic_block (mL d) (mR d) M in mkMic (K0 d) (K1 d) L R 0 0
  else mkMic (K0 d) (K1 d) (mL d) (mR d) M n.

Definition rtw_secmicappend (d : mic_data) (src : list Z) : mic_data :=
  fold_left rtw_secmicappendbyte src d.

(** [while (nBytesInM != 0) rtw_secmicappendbyte(0)]. *)
Fixpoint mic_pad (fuel : nat) (d : mic_data) : res mic_data :=
  if nBytesInM d =? 0 then mret d
  else match fuel with
       | O => Fuel
       | S fuel => mic_pad fuel (rtw_secmicappendbyte d 0)
       end.

(** The code, and the state after it; the padding takes at most three turns. *)
Definition rtw_secgetmic (d : mic_data) : res (list Z * mic_data) :=
  let d := rtw_secmicappend d [0x5a; 0; 0; 0; 0] in
  d ← mic_pad 4 d;
  mret (secmicputuint32 (mL d) ++ secmicputuint32 (mR d), secmicclear d).

(** [header] and [data] are offsets into the frame [b]. *)
Definition rtw_seccalctkipmic (key b : list Z) (header data data_len pri : Z) : res (list Z) :=
  let d := rtw_secmicsetkey key in
  h1 ← rd b (header + 1);
  '(da, sa) ←
    (if z_true (Z.land h1 1) then
       da ← rd_n b (header + 16) 6;
       sa ← (if z_true (Z.land h1 2) then rd_n b (header + 24) 6 else rd_n b (header + 10) 6);
       mret (da, sa)
     else
       da ← rd_n b (header + 4) 6;
       sa ← (if z_true (Z.land h1 2) then rd_n b (header + 16) 6 else rd_n b (header + 10) 6);
       mret (da, sa));
  let d := rtw_secmicappend d da in
  let d := rtw_secmicappend d sa in
  let d := rtw_secmicappend d [u8 pri; 0; 0; 0] in
  payload ← rd_n b data data_len;
  let d := rtw_secmicappend d payload in
  '(mic, _) ← rtw_secgetmic d;
  mret mic.

(** ** Key mixing *)

Definition RotR1 (v : Z) : Z :=
  Z.lxor (Z.land (Z.shiftr v 1) 0x7FFF) (Z.shiftl (Z.land v 1) 15).
Definition Lo8 (v : Z) : Z := u8 (Z.land v 0x00FF).
Definition Hi8 (v : Z) : Z := u8 (Z.land (Z.shiftr v 8) 0x00FF).
Definition Lo16 (v : Z) : Z := u16 (Z.land v 0xFFFF).
Definition Hi16 (v : Z) : Z := u16 (Z.land (Z.shiftr v 16) 0xFFFF).
Definition Mk16 (hi lo : Z) : Z := Z.lxor lo (Z.shiftl (u16 hi) 8).

Definition at_ (l : list Z) (i : Z) : Z := nth (Z.to_nat i) l 0.
Definition TK16 (tk : list Z) (N : Z) : Z := Mk16 (at_ tk (2 * N + 1)) (at_ tk (2 * N)).

Definition Sbox1_0 : list Z :=
  [0xC6A5; 0xF884; 0xEE99; 0xF68D; 0xFF0D; 0xD6BD; 0xDEB1; 0x9154;
   0x6050; 0x0203; 0xCEA9; 0x567D; 0xE719; 0xB562; 0x4DE6; 0xEC9A;
   0x8F45; 0x1F9D; 0x8940; 0xFA87; 0xEF15; 0xB2EB; 0x8EC9; 0xFB0B;
   0x41EC; 0xB367; 0x5FFD; 0x45EA; 0x23BF; 0x53F7; 0xE496; 0x9B5B;
   0x75C2; 0xE11C; 0x3DAE; 0x4C6A; 0x6C5A; 0x7E41; 0xF502; 0x834F;
   0x685C; 0x51F4; 0xD134; 0xF908; 0xE293; 0xAB73; 0x6253; 0x2A3F;
   0x080C; 0x9552; 0x4665; 0x9D5E; 0x3028; 0x37A1; 0x0A0F; 0x2FB5;
   0x0E09; 0x2436; 0x1B9B; 0xDF3D; 0xCD26; 0x4E69; 0x7FCD; 0xEA9F;
   0x121B; 0x1D9E; 0x5874; 0x342E; 0x362D; 0xDCB2; 0xB4EE; 0x5BFB;
   0xA4F6; 0x764D; 0xB761; 0x7DCE; 0x527B; 0xDD3E; 0x5E71; 0x1397;
   0xA6F5; 0xB968; 0x0000; 0xC12C; 0x4060; 0xE31F; 0x79C8; 0xB6ED;
   0xD4BE; 0x8D46; 0x67D9; 0x724B; 0x94DE; 0x98D4; 0xB0E8; 0x854A;
   0xBB6B; 0xC52A; 0x4FE5; 0xED16; 0x86C5; 0x9AD7; 0x6655; 0x1194;
   0x8ACF; 0xE910; 0x0406; 0xFE81; 0xA0F0; 0x7844; 0x25BA; 0x4BE3;
   0xA2F3; 0x5DFE; 0x80C0; 0x058A; 0x3FAD; 0x21BC; 0x7048; 0xF104;
   0x63DF; 0x77C1; 0xAF75; 0x4263; 0x2030; 0xE51A; 0xFD0E; 0xBF6D;
   0x814C; 0x1814; 0x2635; 0xC32F; 0xBEE1; 0x35A2; 0x88CC; 0x2E39;
   0x9357; 0x55F2; 0xFC82; 0x7A47; 0xC8AC; 0xBAE7; 0x322B; 0xE695;
   0xC0A0; 0x1998; 0x9ED1; 0xA37F; 0x4466; 0x547E; 0x3BAB; 0x0B83;
   0x8CCA; 0xC729; 0x6BD3; 0x283C; 0xA779; 0xBCE2; 0x161D; 0xAD76;
   0xDB3B; 0x6456; 0x744E; 0x141E; 0x92DB; 0x0C0A; 0x486C; 0xB8E4;
   0x9F5D; 0xBD6E; 0x43EF; 0xC4A6; 0x39A8; 0x31A4; 0xD337; 0xF28B;
   0xD532; 0x8B43; 0x6E59; 0xDAB7; 0x018C; 0xB164; 0x9CD2; 0x49E0;
   0xD8B4; 0xACFA; 0xF307; 0xCF25; 0xCAAF; 0xF48E; 0x47E9; 0x1018;
   0x6FD5; 0xF088; 0x4A6F; 0x5C72; 0x3824; 0x57F1; 0x73C7; 0x9751;
   0xCB23; 0xA17C; 0xE89C; 0x3E21; 0x96DD; 0x61DC; 0x0D86; 0x0F85;
   0xE090; 0x7C42; 0x71C4; 0xCCAA; 0x90D8; 0x0605; 0xF701; 0x1C12;
   0xC2A3; 0x6A5F; 0xAEF9; 0x69D0; 0x1791; 0x9958; 0x3A27; 0x27B9;
   0xD938; 0xEB13; 0x2BB3; 0x2233; 0xD2BB; 0xA970; 0x0789; 0x33A7;
   0x2DB6; 0x3C22; 0x1592; 0xC920; 0x8749; 0xAAFF; 0x5078; 0xA57A;
   0x038F; 0x59F8; 0x0980; 0x1A17; 0x65DA; 0xD731; 0x84C6; 0xD0B8;
   0x82C3; 0x29B0; 0x5A77; 0x1E11; 0x7BCB; 0xA8FC; 0x6DD6; 0x2C3A].

Definition Sbox1_1 : list Z :=
  [0xA5C6; 0x84F8; 0x99EE; 0x8DF6; 0x0DFF; 0xBDD6; 0xB1DE; 0x5491;
   0x5060; 0x0302; 0xA9CE; 0x7D56; 0x19E7; 0x62B5; 0xE64D; 0x9AEC;
   0x458F; 0x9D1F; 0x4089; 0x87FA; 0x15EF; 0xEBB2; 0xC98E; 0x0BFB;
   0xEC41; 0x67B3; 0xFD5F; 0xEA45; 0xBF23; 0xF753; 0x96E4; 0x5B9B;
   0xC275; 0x1CE1; 0xAE3D; 0x6A4C; 0x5A6C; 0x417E; 0x02F5; 0x4F83;
   0x5C68; 0xF451; 0x34D1; 0x08F9; 0x93E2; 0x73AB; 0x5362; 0x3F2A;
   0x0C08; 0x5295; 0x6546; 0x5E9D; 0x2830; 0xA137; 0x0F0A; 0xB52F;
   0x090E; 0x3624; 0x9B1B; 0x3DDF; 0x26CD; 0x694E; 0xCD7F; 0x9FEA;
   0x1B12; 0x9E1D; 0x7458; 0x2E34; 0x2D36; 0xB2DC; 0xEEB4; 0xFB5B;
   0xF6A4; 0x4D76; 0x61B7; 0xCE7D; 0x7B52; 0x3EDD; 0x715E; 0x9713;
   0xF5A6; 0x68B9; 0x0000; 0x2CC1; 0x6040; 0x1FE3; 0xC879; 0xEDB6;
   0xBED4; 0x468D; 0xD967; 0x4B72; 0xDE94; 0xD498; 0xE8B0; 0x4A85;
   0x6BBB; 0x2AC5; 0xE54F; 0x16ED; 0xC586; 0xD79A; 0x5566; 0x9411;
   0xCF8A; 0x10E9; 0x0604; 0x81FE; 0xF0A0; 0x4478; 0xBA25; 0xE34B;
   0xF3A2; 0xFE5D; 0xC080; 0x8A05; 0xAD3F; 0xBC21; 0x4870; 0x04F1;
   0xDF63; 0xC177; 0x75AF; 0x6342; 0x3020; 0x1AE5; 0x0EFD; 0x6DBF;
   0x4C81; 0x1418; 0x3526; 0x2FC3; 0xE1BE; 0xA235; 0xCC88; 0x392E;
   0x5793; 0xF255; 0x82FC; 0x477A; 0xACC8; 0xE7BA; 0x2B32; 0x95E6;
   0xA0C0; 0x9819; 0xD19E; 0x7FA3; 0x6644; 0x7E54; 0xAB3B; 0x830B;
   0xCA8C; 0x29C7; 0xD36B; 0x3C28; 0x79A7; 0xE2BC; 0x1D16; 0x76AD;
   0x3BDB; 0x5664; 0x4E74; 0x1E14; 0xDB92; 0x0A0C; 0x6C48; 0xE4B8;
   0x5D9F; 0x6EBD; 0xEF43; 0xA6C4; 0xA839; 0xA431; 0x37D3; 0x8BF2;
   0x32D5; 0x438B; 0x596E; 0xB7DA; 0x8C01; 0x64B1; 0xD29C; 0xE049;
   0xB4D8; 0xFAAC; 0x07F3; 0x25CF; 0xAFCA; 0x8EF4; 0xE947; 0x1810;
   0xD56F; 0x88F0; 0x6F4A; 0x725C; 0x2438; 0xF157; 0xC773; 0x5197;
   0x23CB; 0x7CA1; 0x9CE8; 0x213E; 0xDD96; 0xDC61; 0x860D; 0x850F;
   0x90E0; 0x427C; 0xC471; 0xAACC; 0xD890; 0x0506; 0x01F7; 0x121C;
   0xA3C2; 0x5F6A; 0xF9AE; 0xD069; 0x9117; 0x5899; 0x273A; 0xB927;
   0x38D9; 0x13EB; 0xB32B; 0x3322; 0xBBD2; 0x70A9; 0x8907; 0xA733;
   0xB62D; 0x223C; 0x9215; 0x20C9; 0x4987; 0xFFAA; 0x7850; 0x7AA5;
   0x8F03; 0xF859; 0x8009; 0x171A; 0xDA65; 0x31D7; 0xC684; 0xB8D0;
   0xC382; 0xB029; 0x775A; 0x111E; 0xCB7B; 0xFCA8; 0xD66D; 0x3A2C].

Definition _S_ (v : Z) : Z := Z.lxor (at_ Sbox1_0 (Lo8 v)) (at_ Sbox1_1 (Hi8 v)).

Definition PHASE1_LOOP_CNT : Z := 8.

(** The 80 bits of the first phase. *)
Record p1key := mkP1 { p0 : Z; p1 : Z; p2 : Z; p3 : Z; p4 : Z }.

(** [x += y] on a [u16]. *)
Definition add16 (x y : Z) : Z := u16 (x + y).

Definition phase1_turn (tk : list Z) (k : p1key) (i : Z) : p1key :=
  let odd := Z.land i 1 in
  let q0 := add16 (p0 k) (_S_ (Z.lxor (p4 k) (TK16 tk (odd + 0)))) in
  let q1 := add16 (p1 k) (_S_ (Z.lxor q0 (TK16 tk (odd + 2)))) in
  let q2 := add16 (p2 k) (_S_ (Z.lxor q1 (TK16 tk (odd + 4)))) in
  let q3 := add16 (p3 k) (_S_ (Z.lxor q2 (TK16 tk (odd + 6)))) in
  let q4 := add16 (p4 k) (_S_ (Z.lxor q3 (TK16 tk (odd + 0)))) in
  let q4 := add16 q4 (u16 i) in
  mkP1 q0 q1 q2 q3 q4.

Definition phase1_start (ta : list Z) (iv32 : Z) : p1key :=
  mkP1 (Lo16 iv32) (Hi16 iv32) (Mk16 (at_ ta 1) (at_ ta 0))
       (Mk16 (at_ ta 3) (at_ ta 2)) (Mk16 (at_ ta 5) (at_ ta 4)).

Definition phase1 (tk ta : list Z) (iv32 : Z) : p1key :=
  fold_left (phase1_turn tk) (map Z.of_nat (seq 0 (Z.to_nat PHASE1_LOOP_CNT)))
    (phase1_start ta iv32).

(** [PPK[6]], and the two sweeps over it. *)
Record ppkey := mkPpk { k0 : Z; k1 : Z; k2 : Z; k3 : Z; k4 : Z; k5 : Z }.

Definition phase2_start (p : p1key) (iv16 : Z) : ppkey :=
  mkPpk (p0 p) (p1 p) (p2 p) (p3 p) (p4 p) (add16 (p4 p) iv16).

Definition phase2_mix (tk : list Z) (p : ppkey) : ppkey :=
  let q0 := add16 (k0 p) (_S_ (Z.lxor (k5 p) (TK16 tk 0))) in
  let q1 := add16 (k1 p) (_S_ (Z.lxor q0 (TK16 tk 1))) in
  let q2 := add16 (k2 p) (_S_ (Z.lxor q1 (TK16 tk 2))) in
  let q3 := add16 (k3 p) (_S_ (Z.lxor q2 (TK16 tk 3))) in
  let q4 := add16 (k4 p) (_S_ (Z.lxor q3 (TK16 tk 4))) in
  let q5 := add16 (k5 p) (_S_ (Z.lxor q4 (TK16 tk 5))) in
  mkPpk q0 q1 q2 q3 q4 q5.

Definition phase2_sweep (tk : list Z) (p : ppkey) : ppkey :=
  let q0 := add16 (k0 p) (RotR1 (Z.lxor (k5 p) (TK16 tk 6))) in
  let q1 := add16 (k1 p) (RotR1 (Z.lxor q0 (TK16 tk 7))) in
  let q2 := add16 (k2 p) (RotR1 q1) in
  let q3 := add16 (k3 p) (RotR1 q2) in
  let q4 := add16 (k4 p) (RotR1 q3) in
  let q5 := add16 (k5 p) (RotR1 q4) in
  mkPpk q0 q1 q2 q3 q4 q5.

Definition phase2 (tk : list Z) (p : p1key) (iv16 : Z) : list Z :=
  let q := phase2_sweep tk (phase2_mix tk (phase2_start p iv16)) in
  [Hi8 iv16; Z.land (Z.lor (Hi8 iv16) 0x20) 0x7F; Lo8 iv16;
   Lo8 (Z.shiftr (Z.lxor (k5 q) (TK16 tk 0)) 1);
   Lo8 (k0 q); Hi8 (k0 q); Lo8 (k1 q); Hi8 (k1 q); Lo8 (k2 q); Hi8 (k2 q);
   Lo8 (k3 q); Hi8 (k3 q); Lo8 (k4 q); Hi8 (k4 q); Lo8 (k5 q); Hi8 (k5 q)].

(** ** The TKIP routines *)

(** The 48-bit number of the packet whose vector starts at [iv].  The two high
    bytes of the union are not written by the macro; both uses drop them. *)
Definition GET_TKIP_PN (b : list Z) (iv : Z) : res Z :=
  v ← rd_n b iv 8;
  mret (Z.lor (of_bytes4 (at_ v 2) (at_ v 0) (at_ v 4) (at_ v 5))
              (Z.shiftl (Z.lor (at_ v 6) (Z.shiftl (at_ v 7) 8)) 32)).

Definition tkip_rc4key (b tk ta : list Z) (iv : Z) : res (list Z) :=
  pn ← GET_TKIP_PN b iv;
  let pnl := u16 pn in
  let pnh := u32 (Z.shiftr pn 16) in
  mret (phase2 tk (phase1 tk ta pnh) pnl).

Definition IS_MCAST (da : list Z) : bool := z_true (Z.land (at_ da 0) 1).

Definition tkip_encrypt_frag (g : crc_glob) (a : pkt_attrib) (prwskey : list Z)
    (b : list Z) (len : Z) : res (list Z * crc_glob) :=
  let length := len - pa_hdrlen a - pa_iv_len a - pa_icv_len a in
  rc4key ← tkip_rc4key b prwskey (pa_ta a) (pa_hdrlen a);
  seal g rc4key 16 b (pa_iv_len a + pa_hdrlen a) length.

Definition rtw_tkip_encrypt (g : crc_glob) (sec : security_priv) (xf : xmit_frame)
    : res (Z * xmit_frame * crc_glob) :=
  let a := xf_attrib xf in
  if negb (pa_encrypt a =? _TKIP_) then mret (_SUCCESS, xf, g)
  else
    prwskey ← (if IS_MCAST (pa_ra a) then arr (dot118021XGrpKey sec) (dot118021XGrpKeyid sec)
               else mret (pa_UncstKey a));
    '(xf, g) ← frag_loop (on_frag (fun g => tkip_encrypt_frag g a prwskey))
                 (Z.to_nat (pa_nr_frags a)) 0 xf g;
    mret (_SUCCESS, xf, g).

(** The keys of the station a frame comes from. *)
Record sta_keys := mkSk { sk_UncstKey : list Z; sk_tkiprxmickey : list Z }.

(** [crc[3] != payload[length - 1] || ...]: the bytes are read from the last
    one down, up to the first difference. *)
Fixpoint icv_differs (b : list Z) (at_end : Z) (crc_rev : list Z) : res bool :=
  match crc_rev with
  | [] => mret false
  | c :: crc_rev =>
      x ← rd b (at_end - 1);
      if c =? x then icv_differs b (at_end - 1) crc_rev else mret true
  end.

Definition rtw_tkip_decrypt (g : crc_glob) (sec : security_priv)
    (stainfo : list Z -> option sta_keys) (f : recv_frame) : res (Z * recv_frame * crc_glob) :=
  let a := rf_attrib f in
  if negb (ra_encrypt a =? _TKIP_) then mret (_SUCCESS, f, g)
  else match stainfo (ra_ta a) with
  | None => mret (_FAIL, f, g)
  | Some sta =>
      if IS_MCAST (ra_ra a) && negb (binstallGrpkey sec) then mret (_FAIL, f, g)
      else
        prwskey ← (if IS_MCAST (ra_ra a) then arr (dot118021XGrpKey sec) (ra_key_index a)
                   else mret (sk_UncstKey sta));
        let p := ra_iv_len a + ra_hdrlen a in
        let length := rx_len f - ra_hdrlen a - ra_iv_len a in
        rc4key ← tkip_rc4key (rx_data f) prwskey (ra_ta a) (ra_hdrlen a);
        b ← unseal rc4key 16 (rx_data f) p length;
        clear ← rd_n b p (Z.max 0 (length - 4));
        let '(crc, g) := getcrc32 g clear in
        bad ← icv_differs b (p + length) (rev (crc_bytes crc));
        mret (if (bad : bool) then _FAIL else _SUCCESS, rf_with_data f b, g)
  end.

(** ** Countermeasures *)

Section countermeasure.
(** [rtw_get_passing_time_ms]: the milliseconds since a moment. *)
Context (passing_ms : Z -> Z).

Definition rtw_handle_tkip_countermeasure (sec : security_priv) : Z * security_priv :=
  if btkip_countermeasure sec then
    if u32 (passing_ms (btkip_countermeasure_time sec)) >? 60 * 1000 then
      (_SUCCESS, set_countermeasure sec false 0)
    else (_FAIL, sec)
  else (_SUCCESS, sec).

End countermeasure.

(** ** Packet numbers *)

Definition pn_algo (enc_algo : Z) : bool :=
  (enc_algo =? _AES_) || (enc_algo =? _GCMP_) || (enc_algo =? _CCMP_256_) || (enc_algo =? _GCMP_256_).

(** The six bytes written at [pn] and the key id, or [_FAIL] with nothing
    written; [iv] is the offset of the vector. *)
Definition rtw_iv_to_pn (b : list Z) (iv enc_algo : Z) : res (option (list Z * Z)) :=
  if enc_algo =? _TKIP_ then
    v ← rd_n b iv 8;
    mret (Some ([at_ v 2; at_ v 0; at_ v 4; at_ v 5; at_ v 6; at_ v 7], Z.shiftr (at_ v 3) 6))
  else if pn_algo enc_algo then
    v ← rd_n b iv 8;
    mret (Some ([at_ v 0; at_ v 1; at_ v 4; at_ v 5; at_ v 6; at_ v 7], Z.shiftr (at_ v 3) 6))
  else mret None.

(** The eight bytes written at [iv]. *)
Definition rtw_pn_to_iv (pn : list Z) (key_id enc_algo : Z) : option (list Z) :=
  let id := u8 (Z.lor (BIT 5) (Z.shiftl (Z.land key_id 3) 6)) in
  if enc_algo =? _TKIP_ then
    Some [at_ pn 1; Z.land (Z.lor (at_ pn 1) 0x20) 0x7F; at_ pn 0; id;
          at_ pn 2; at_ pn 3; at_ pn 4; at_ pn 5]
  else if pn_algo enc_algo then
    Some [at_ pn 0; at_ pn 1; 0; id; at_ pn 2; at_ pn 3; at_ pn 4; at_ pn 5]
  else None.

(** * Theorems

    The Michael code against its block definition, the uniqueness of the
    per-packet key the mixing functions promise, the round trip through the two
    TKIP routines, the errors the integrity check value catches, and the round
    trip between packet numbers and initialisation vectors. *)

(** ** Published test vectors *)

Example michael_vector :
  match rtw_secgetmic (rtw_secmicappend (rtw_secmicsetkey
    [0x82; 0x92; 0x5c; 0x1c; 0xa1; 0xd1; 0x30; 0xb8]) [0x4d]) with
  | Ok (mic, _) => mic = [0x43; 0x47; 0x21; 0xca; 0x40; 0x63; 0x9b; 0x3f]
  | _ => False
  end.
Proof. vm_compute. reflexivity. Qed.

Example mixing_vector :
  phase2 (map Z.of_nat (seq 0 16))
    (phase1 (map Z.of_nat (seq 0 16)) [0x10; 0x22; 0x33; 0x44; 0x55; 0x66] 0) 0 =
  [0x00; 0x20; 0x00; 0x33; 0xEA; 0x8D; 0x2F; 0x60; 0xCA; 0x6D; 0x13; 0x74; 0x23; 0x4A; 0x66; 0x0B].
Proof. vm_compute. reflexivity. Qed.

(** ** The key mixing is injective *)

Lemma add16_inj_l x x' y : word16 x -> word16 x' -> add16 x y = add16 x' y -> x = x'.
Proof. unfold word16, add16, u16. lia. Qed.

Lemma add16_inj_r x y y' : word16 y -> word16 y' -> add16 x y = add16 x y' -> y = y'.
Proof. unfold word16, add16, u16. lia. Qed.

Lemma add16_word x y : word16 (add16 x y).
Proof. unfold word16, add16, u16. lia. Qed.

#[local] Hint Resolve add16_word : tkip.

Definition p1_ok (p : p1key) : Prop :=
  word16 (p0 p) /\ word16 (p1 p) /\ word16 (p2 p) /\ word16 (p3 p) /\ word16 (p4 p).
Definition ppk_ok (p : ppkey) : Prop :=
  word16 (k0 p) /\ word16 (k1 p) /\ word16 (k2 p) /\ word16 (k3 p) /\ word16 (k4 p) /\ word16 (k5 p).

(** Cancels, from the last assignment of a sweep to the first, what was added. *)
Ltac uncross :=
  repeat match goal with
  | H : add16 ?x ?y = add16 ?x' ?y |- _ => apply add16_inj_l in H; [|solve [auto with tkip]..]
  end.

Lemma phase1_turn_ok tk p i : p1_ok (phase1_turn tk p i).
Proof. repeat split; apply add16_word. Qed.

Lemma phase1_turn_inj tk p p' i : p1_ok p -> p1_ok p' ->
  phase1_turn tk p i = phase1_turn tk p' i -> p = p'.
Proof.
  destruct p as [a0 a1 a2 a3 a4], p' as [b0 b1 b2 b3 b4].
  intros (A0 & A1 & A2 & A3 & A4) (B0 & B1 & B2 & B3 & B4). unfold phase1_turn. simpl in *.
  set (i0 := TK16 _ (_ + 0)). set (i2 := TK16 _ (_ + 2)).
  set (i4 := TK16 _ (_ + 4)). set (i6 := TK16 _ (_ + 6)).
  intros E. injection E as E0 E1 E2 E3 E4.
  rewrite E3 in E4. rewrite E2 in E3. rewrite E1 in E2. rewrite E0 in E1. uncross. subst a4.
  uncross. by subst.
Qed.

Lemma phase1_fold_inj tk cs p p' : p1_ok p -> p1_ok p' ->
  fold_left (phase1_turn tk) cs p = fold_left (phase1_turn tk) cs p' -> p = p'.
Proof.
  revert p p'. induction cs as [|i cs IH]; [done|]. intros p p' Hp Hp' H. simpl in H.
  apply IH in H; [|apply phase1_turn_ok..]. by apply phase1_turn_inj in H.
Qed.

Lemma Mk16_val hi lo : byte hi -> byte lo -> Mk16 hi lo = 256 * hi + lo.
Proof.
  intros Hh Hl. unfold Mk16. rewrite u16_small by (unfold byte in *; lia).
  rewrite Z.lxor_comm, Z.lxor_lor; [by apply lor_shift8|].
  apply Z.bits_inj'. intros n Hn. rewrite Z.land_spec, Z.bits_0.
  destruct (Z_lt_dec n 8); [by rewrite Z.shiftl_spec_low by lia|].
  apply (bits_below 8) in Hl as [_ ->]; [apply andb_false_r|lia..].
Qed.

Definition is_mac (ta : list Z) : Prop := exists a b c d e f,
  ta = [a; b; c; d; e; f] /\ bytes ta.

Lemma phase1_start_ok ta iv32 : is_mac ta -> p1_ok (phase1_start ta iv32).
Proof.
  intros (a & b & c & d & e & f & -> & H). unfold bytes in H.
  rewrite !Forall_cons in H. destruct H as (Ha & Hb & Hc & Hd & He & Hf & _).
  repeat split; simpl p0; simpl p1; unfold phase1_start, at_; simpl;
    rewrite ?Mk16_val by done; unfold Lo16, Hi16, u16, byte in *; lia.
Qed.

Lemma phase1_start_inj ta ta' iv iv' : is_mac ta -> is_mac ta' -> word32 iv -> word32 iv' ->
  phase1_start ta iv = phase1_start ta' iv' -> ta = ta' /\ iv = iv'.
Proof.
  intros (a & b & c & d & e & f & -> & H) (a' & b' & c' & d' & e' & f' & -> & H') Hi Hi'.
  unfold bytes in *. rewrite !Forall_cons in H, H'.
  destruct H as (Ha & Hb & Hc & Hd & He & Hf & _), H' as (Ha' & Hb' & Hc' & Hd' & He' & Hf' & _).
  unfold phase1_start, at_. simpl. rewrite !Mk16_val by done.
  unfold Lo16, Hi16, u16. change 0xFFFF with (Z.ones 16). rewrite !Z.land_ones, !Z.shiftr_div_pow2 by lia.
  unfold word32, byte in *. intros [= E0 E1 E2 E3 E4]. split; [|lia].
  repeat f_equal; lia.
Qed.

Lemma fold_ok tk cs p : cs <> [] -> p1_ok (fold_left (phase1_turn tk) cs p).
Proof.
  revert p. induction cs as [|i cs IH]; [done|]. intros p _. simpl.
  destruct cs as [|j cs]; [apply phase1_turn_ok|]. by apply IH.
Qed.

Lemma phase1_ok tk ta iv : p1_ok (phase1 tk ta iv).
Proof. by apply fold_ok. Qed.

Lemma phase1_inj tk ta ta' iv iv' : is_mac ta -> is_mac ta' -> word32 iv -> word32 iv' ->
  phase1 tk ta iv = phase1 tk ta' iv' -> ta = ta' /\ iv = iv'.
Proof.
  intros Ht Ht' Hi Hi'. unfold phase1. generalize (map Z.of_nat (seq 0 (Z.to_nat PHASE1_LOOP_CNT))).
  intros cs H. apply phase1_fold_inj in H; [|by apply phase1_start_ok..].
  by apply phase1_start_inj.
Qed.

Lemma phase2_mix_inj tk p p' : ppk_ok p -> ppk_ok p' -> phase2_mix tk p = phase2_mix tk p' -> p = p'.
Proof.
  destruct p as [a0 a1 a2 a3 a4 a5], p' as [b0 b1 b2 b3 b4 b5].
  intros (A0 & A1 & A2 & A3 & A4 & A5) (B0 & B1 & B2 & B3 & B4 & B5). unfold phase2_mix. simpl in *.
  intros E. injection E as E0 E1 E2 E3 E4 E5.
  rewrite E4 in E5. rewrite E3 in E4. rewrite E2 in E3. rewrite E1 in E2. rewrite E0 in E1.
  uncross. subst a5. uncross. by subst.
Qed.

Lemma phase2_sweep_inj tk p p' : ppk_ok p -> ppk_ok p' ->
  phase2_sweep tk p = phase2_sweep tk p' -> p = p'.
Proof.
  destruct p as [a0 a1 a2 a3 a4 a5], p' as [b0 b1 b2 b3 b4 b5].
  intros (A0 & A1 & A2 & A3 & A4 & A5) (B0 & B1 & B2 & B3 & B4 & B5). unfold phase2_sweep. simpl in *.
  intros E. injection E as E0 E1 E2 E3 E4 E5.
  rewrite E4 in E5. rewrite E3 in E4. rewrite E2 in E3. rewrite E1 in E2. rewrite E0 in E1.
  uncross. subst a5. uncross. by subst.
Qed.

Lemma phase2_mix_ok tk p : ppk_ok (phase2_mix tk p).
Proof. repeat split; apply add16_word. Qed.
Lemma phase2_sweep_ok tk p : ppk_ok (phase2_sweep tk p).
Proof. repeat split; apply add16_word. Qed.
Lemma phase2_start_ok p iv16 : p1_ok p -> ppk_ok (phase2_start p iv16).
Proof. intros (H0 & H1 & H2 & H3 & H4). repeat split; try apply add16_word; done || apply H0 || apply H1 || apply H2 || apply H3 || apply H4. Qed.

Lemma halves_inj x y : word16 x -> word16 y -> Lo8 x = Lo8 y -> Hi8 x = Hi8 y -> x = y.
Proof.
  unfold Lo8, Hi8, u8. change 0x00FF with (Z.ones 8).
  rewrite !Z.land_ones, !Z.shiftr_div_pow2 by lia. unfold word16. lia.
Qed.

Lemma phase2_inj tk p p' iv iv' : p1_ok p -> p1_ok p' -> word16 iv -> word16 iv' ->
  phase2 tk p iv = phase2 tk p' iv' -> p = p' /\ iv = iv'.
Proof.
  intros Hp Hp' Hi Hi' H. unfold phase2 in H.
  set (q := phase2_sweep tk (phase2_mix tk (phase2_start p iv))) in H.
  set (q' := phase2_sweep tk (phase2_mix tk (phase2_start p' iv'))) in H.
  assert (ppk_ok q) as Hq by apply phase2_sweep_ok.
  assert (ppk_ok q') as Hq' by apply phase2_sweep_ok.
  assert (q = q') as E.
  { clearbody q q'. destruct Hq as (Q0 & Q1 & Q2 & Q3 & Q4 & Q5), Hq' as (R0 & R1 & R2 & R3 & R4 & R5).
    injection H as _ _ _ _ L0 H0 L1 H1 L2 H2 L3 H3 L4 H4 L5 H5.
    destruct q, q'. simpl in *. f_equal; by apply halves_inj. }
  subst q q'. apply phase2_sweep_inj in E; [|apply phase2_mix_ok..].
  apply phase2_mix_inj in E; [|by apply phase2_start_ok..].
  destruct p as [a0 a1 a2 a3 a4], p' as [b0 b1 b2 b3 b4]. unfold phase2_start in E. simpl in E.
  injection E as -> -> -> -> -> E. split; [done|]. by apply add16_inj_r in E.
Qed.

(** C18: For a fixed temporal key, two packets with a different transmitter
    address or a different 48-bit number never get the same RC4 key: the
    mixing of both phases is injective. *)
Theorem tkip_key_unique tk ta ta' iv32 iv32' iv16 iv16' :
  is_mac ta -> is_mac ta' -> word32 iv32 -> word32 iv32' -> word16 iv16 -> word16 iv16' ->
  phase2 tk (phase1 tk ta iv32) iv16 = phase2 tk (phase1 tk ta' iv32') iv16' ->
  ta = ta' /\ iv32 = iv32' /\ iv16 = iv16'.
Proof.
  intros Ht Ht' Hi Hi' Hj Hj' H.
  apply phase2_inj in H as [H ->]; [|by try apply phase1_ok..].
  by apply phase1_inj in H as [-> ->].
Qed.

(** ** Michael *)

Lemma lor_shift_add a b k : 0 <= k -> 0 <= a < 2 ^ k -> Z.lor a (Z.shiftl b k) = a + 2 ^ k * b.
Proof.
  intros Hk Ha. rewrite <- Z.lxor_lor, <- Z.add_nocarry_lxor.
  1: rewrite Z.shiftl_mul_pow2 by lia; lia.
  all: apply Z.bits_inj'; intros n Hn; rewrite Z.land_spec, Z.bits_0.
  all: destruct (Z_lt_dec n k); [rewrite Z.shiftl_spec_low by lia; apply andb_false_r|].
  all: apply (bits_below k) in Ha as [_ ->]; [done|lia..].
Qed.

(** Words of a message, least significant byte first. *)
Definition le_word (b0 b1 b2 b3 : Z) : Z := b0 + 2 ^ 8 * b1 + 2 ^ 16 * b2 + 2 ^ 24 * b3.

Fixpoint words (l : list Z) : list Z :=
  match l with
  | b0 :: b1 :: b2 :: b3 :: l => le_word b0 b1 b2 b3 :: words l
  | _ => []
  end.

(** The message, 0x5a, and four to seven zeros up to a multiple of four. *)
Definition michael_pad (msg : list Z) : list Z :=
  msg ++ 0x5a :: zeros (4 + (3 - zlen msg) mod 4).

Definition michael_blocks (ws : list Z) (s : Z * Z) : Z * Z :=
  fold_left (fun s w => mic_block s.1 s.2 w) ws s.

(** Michael as the standard defines it: the words of the padded message mixed
    one after the other into the two key words. *)
Definition michael_ref (key msg : list Z) : list Z :=
  let s := michael_blocks (words (michael_pad msg)) (at_ (words key) 0, at_ (words key) 1) in
  secmicputuint32 s.1 ++ secmicputuint32 s.2.

Lemma shift_u32 b i : byte b -> 0 <= i < 4 -> u32 (Z.shiftl b (8 * i)) = Z.shiftl b (8 * i).
Proof.
  intros Hb Hi. apply u32_small. rewrite Z.shiftl_mul_pow2 by lia. unfold byte in Hb.
  assert (i = 0 \/ i = 1 \/ i = 2 \/ i = 3) as [->|[->|[->| ->]]] by lia; lia.
Qed.

(** The accumulator after four bytes. *)
Lemma accumulate b0 b1 b2 b3 : bytes [b0; b1; b2; b3] ->
  Z.lor (Z.lor (Z.lor (Z.lor 0 (Z.shiftl b0 (8 * 0))) (Z.shiftl b1 (8 * 1)))
    (Z.shiftl b2 (8 * 2))) (Z.shiftl b3 (8 * 3)) = le_word b0 b1 b2 b3.
Proof.
  unfold bytes. rewrite !Forall_cons. intros (H0 & H1 & H2 & H3 & _). unfold byte in *.
  change (8 * 0) with 0. change (8 * 1) with 8. change (8 * 2) with 16. change (8 * 3) with 24.
  rewrite Z.lor_0_l, Z.shiftl_0_r. rewrite (lor_shift_add b0) by lia.
  rewrite (lor_shift_add (_ + _)) by lia. rewrite lor_shift_add by lia. done.
Qed.

Definition mic_start (L R : Z) (d : mic_data) : mic_data := mkMic (K0 d) (K1 d) L R 0 0.

#[local] Opaque mic_block.

Lemma append_word d b0 b1 b2 b3 : nBytesInM d = 0 -> mM d = 0 -> bytes [b0; b1; b2; b3] ->
  rtw_secmicappend d [b0; b1; b2; b3] =
  let s := mic_block (mL d) (mR d) (le_word b0 b1 b2 b3) in mic_start s.1 s.2 d.
Proof.
  destruct d as [k0 k1 l r m n]. simpl. intros -> -> Hb. rewrite <- accumulate by done.
  unfold bytes in Hb. rewrite !Forall_cons in Hb. destruct Hb as (H0 & H1 & H2 & H3 & _).
  unfold rtw_secmicappend, rtw_secmicappendbyte. cbn [fold_left nBytesInM mM mL mR K0 K1].
  change (u32 (0 + 1) >=? 4) with false. cbn iota. cbn [nBytesInM mM mL mR K0 K1].
  change (u32 (u32 (0 + 1) + 1) >=? 4) with false. cbn iota. cbn [nBytesInM mM mL mR K0 K1].
  change (u32 (u32 (u32 (0 + 1) + 1) + 1) >=? 4) with false. cbn iota. cbn [nBytesInM mM mL mR K0 K1].
  change (u32 (u32 (u32 (u32 (0 + 1) + 1) + 1) + 1) >=? 4) with true. cbn iota.
  change (u32 (u32 (u32 (0 + 1) + 1) + 1)) with 3. change (u32 (u32 (0 + 1) + 1)) with 2.
  change (u32 (0 + 1)) with 1. rewrite !shift_u32 by (done || lia).
  unfold mic_start. simpl K0. simpl K1. by destruct (mic_block _ _ _).
Qed.

Lemma append_app d l k : rtw_secmicappend d (l ++ k) = rtw_secmicappend (rtw_secmicappend d l) k.
Proof. apply fold_left_app. Qed.

(** Whole words leave the accumulator empty. *)
Lemma append_words n : forall l d, length l = (4 * n)%nat -> bytes l -> nBytesInM d = 0 -> mM d = 0 ->
  rtw_secmicappend d l =
  let s := michael_blocks (words l) (mL d, mR d) in mic_start s.1 s.2 d.
Proof.
  induction n as [|n IH]; intros l d Hl Hb Hn Hm.
  - destruct l; [|simpl in Hl; lia]. destruct d; simpl in *. by subst.
  - destruct l as [|b0 [|b1 [|b2 [|b3 l]]]]; try (simpl in Hl; lia).
    change (b0 :: b1 :: b2 :: b3 :: l) with ([b0; b1; b2; b3] ++ l) in Hb |- *.
    apply Forall_app in Hb as [Hb Hb']. rewrite append_app, append_word by done. cbv zeta.
    rewrite IH; [|simpl in Hl; lia|done..]. simpl. unfold michael_blocks. simpl.
    by destruct (mic_block _ _ _).
Qed.

(** The number of bytes waiting counts the message modulo four. *)
Lemma append_count l : forall d, 0 <= nBytesInM d < 4 ->
  nBytesInM (rtw_secmicappend d l) = (nBytesInM d + zlen l) mod 4.
Proof.
  induction l as [|b l IH]; intros d Hd; [simpl; rewrite zlen_nil; lia|].
  simpl. assert (nBytesInM (rtw_secmicappendbyte d b) = (nBytesInM d + 1) mod 4) as E.
  { unfold rtw_secmicappendbyte. rewrite u32_small by lia. destruct (_ >=? 4) eqn:G.
    - destruct (mic_block _ _ _). simpl. lia.
    - simpl. lia. }
  rewrite IH by (rewrite E; lia). rewrite E, zlen_cons. lia.
Qed.

(** The padding loop ends, after appending zeros up to a whole word. *)
Lemma mic_pad_zeros fuel d : 0 <= nBytesInM d < 4 -> (- nBytesInM d) mod 4 < Z.of_nat fuel + 1 ->
  mic_pad fuel d = Ok (rtw_secmicappend d (zeros ((- nBytesInM d) mod 4))).
Proof.
  revert d. induction fuel as [|fuel IH]; intros d Hd Hf; simpl.
  - destruct (Z.eqb_spec (nBytesInM d) 0) as [E|E]; [by rewrite E|lia].
  - destruct (Z.eqb_spec (nBytesInM d) 0) as [E|E]; [by rewrite E|].
    pose proof (append_count [0] d Hd) as Hc. change (rtw_secmicappend d [0]) with (rtw_secmicappendbyte d 0) in Hc.
    change (zlen [0]) with 1 in Hc. rewrite IH by (rewrite Hc; lia).
    replace ((- nBytesInM d) mod 4) with (1 + (- nBytesInM (rtw_secmicappendbyte d 0)) mod 4)
      by (rewrite Hc; lia).
    rewrite <- zeros_app by lia. rewrite append_app. done.
Qed.

Lemma zeros_bytes n : bytes (zeros n).
Proof. apply Forall_replicate. done. Qed.

Lemma michael_pad_length msg : exists n, length (michael_pad msg) = (4 * n)%nat.
Proof.
  exists (Z.to_nat (zlen (michael_pad msg) / 4)). unfold michael_pad, zlen.
  rewrite length_app. cbn [length]. unfold zeros. rewrite length_replicate. lia.
Qed.

(** The code of any message, with the accumulator filled byte by byte in pieces
    of any size, is Michael of the message; the padding loop ends, and the
    state is reset to the empty message. *)
Lemma secgetmic_ref d msg : bytes msg -> nBytesInM d = 0 -> mM d = 0 ->
  rtw_secgetmic (rtw_secmicappend d msg) =
  let s := michael_blocks (words (michael_pad msg)) (mL d, mR d) in
  Ok (secmicputuint32 s.1 ++ secmicputuint32 s.2, secmicclear d).
Proof.
  intros Hb Hn Hm. unfold rtw_secgetmic. rewrite <- append_app.
  assert (nBytesInM (rtw_secmicappend d (msg ++ [0x5a; 0; 0; 0; 0])) = (zlen msg + 5) mod 4) as E.
  { rewrite append_count by lia. rewrite Hn, zlen_app. done. }
  rewrite mic_pad_zeros by (rewrite E; lia). rewrite bind_Ok, <- append_app.
  replace ((msg ++ [0x5a; 0; 0; 0; 0]) ++ _) with (michael_pad msg).
  - destruct (michael_pad_length msg) as [n Hl]. rewrite (append_words n) by
      (done || (apply Forall_app; split; [done|]; constructor; [done|apply zeros_bytes])).
    done.
  - rewrite <- app_assoc. unfold michael_pad. f_equal. rewrite E.
    replace ((3 - zlen msg) mod 4) with ((- ((zlen msg + 5) mod 4)) mod 4) by lia.
    rewrite <- zeros_app by lia. done.
Qed.

Lemma secmicgetuint32_word b0 b1 b2 b3 : bytes [b0; b1; b2; b3] ->
  secmicgetuint32 [b0; b1; b2; b3] = le_word b0 b1 b2 b3.
Proof.
  intros Hb. rewrite <- accumulate by done. unfold bytes in Hb. rewrite !Forall_cons in Hb.
  destruct Hb as (H0 & H1 & H2 & H3 & _). unfold secmicgetuint32. cbn [zip zip_with fold_left].
  rewrite !shift_u32 by (done || lia). done.
Qed.

Lemma length_8 {A} (l : list A) : zlen l = 8 -> exists a b c d e f g h, l = [a; b; c; d; e; f; g; h].
Proof.
  unfold zlen. intros H. do 8 (destruct l as [|? l]; [simpl in H; lia|]).
  destruct l; [|simpl in H; lia]. eauto 10.
Qed.

Lemma michael_refines key msg : bytes key -> zlen key = 8 -> bytes msg ->
  rtw_secgetmic (rtw_secmicappend (rtw_secmicsetkey key) msg) =
  Ok (michael_ref key msg, rtw_secmicsetkey key).
Proof.
  intros Hk Hl Hm. rewrite secgetmic_ref by done. unfold michael_ref. cbv zeta.
  destruct (length_8 key Hl) as (a & b & c & d & e & f & g & h & ->).
  unfold rtw_secmicsetkey. cbn [take drop]. apply (Forall_app _ [a; b; c; d] [e; f; g; h]) in Hk as [H1 H2].
  rewrite !secmicgetuint32_word by done. done.
Qed.

(** Where a header keeps the destination and the source address. *)
Definition da_off (h1 : Z) : Z := if z_true (Z.land h1 1) then 16 else 4.
Definition sa_off (h1 : Z) : Z :=
  if z_true (Z.land h1 2) then (if z_true (Z.land h1 1) then 24 else 16) else 10.

(** The integrity code of a frame is Michael, as the standard defines it
    on words, of destination, source, priority and payload, whichever of the
    four address layouts the header selects; the padding loop ends and the
    routine returns for every payload. *)
Theorem tkip_mic_refines key b header data pri h1 da sa payload :
  bytes key -> zlen key = 8 -> bytes b -> rd b (header + 1) = Ok h1 ->
  at_off b (header + da_off h1) da -> zlen da = 6 ->
  at_off b (header + sa_off h1) sa -> zlen sa = 6 ->
  at_off b data payload ->
  rtw_seccalctkipmic key b header data (zlen payload) pri =
  Ok (michael_ref key (da ++ sa ++ [u8 pri; 0; 0; 0] ++ payload)).
Proof.
  intros Hk Hl Hb Hh Hda Hdl Hsa Hsl Hp.
  assert (bytes (da ++ sa ++ [u8 pri; 0; 0; 0] ++ payload)) as Hm.
  { pose proof (at_off_bytes _ _ _ Hb Hda). pose proof (at_off_bytes _ _ _ Hb Hsa).
    pose proof (at_off_bytes _ _ _ Hb Hp). unfold bytes in *. rewrite !Forall_app. split_and!; try done.
    repeat constructor; unfold byte, u8; lia. }
  apply at_off_rd_n with (n := 6) in Hda; [|lia]. apply at_off_rd_n with (n := 6) in Hsa; [|lia].
  apply at_off_rd_n with (n := zlen payload) in Hp; [|done].
  unfold rtw_seccalctkipmic. rewrite Hh, bind_Ok. unfold da_off, sa_off in *.
  pose proof (michael_refines key _ Hk Hl Hm) as M. rewrite !append_app in M.
  destruct (z_true (Z.land h1 1)), (z_true (Z.land h1 2));
    rewrite Hda, bind_Ok, Hsa, !bind_Ok; cbv beta iota; rewrite Hp, bind_Ok, M, bind_Ok; done.
Qed.

(** ** The TKIP routines *)

(** The check reads the checksum where it lies and compares all of it. *)
Lemma icv_differs_spec pre l post k : length l = length k ->
  icv_differs (pre ++ l ++ post) (zlen pre + zlen l) (rev k) = Ok (negb (bool_decide (l = k))).
Proof.
  revert k post. induction l as [|x l IH] using rev_ind; intros k post Hk.
  { destruct k; [done|]. simpl in Hk. lia. }
  destruct k as [|y k _] using rev_ind; [rewrite length_app in Hk; simpl in Hk; lia|].
  rewrite !length_app in Hk. rewrite rev_unit. simpl icv_differs.
  rewrite zlen_app. change (zlen [x]) with 1.
  replace (zlen pre + (zlen l + 1) - 1) with (zlen (pre ++ l) + 0) by zl.
  replace (pre ++ (l ++ [x]) ++ post) with ((pre ++ l) ++ x :: post) by (by rewrite <- !app_assoc).
  rewrite rd_app_r by done. change (rd (x :: post) 0) with (Ok x). rewrite bind_Ok.
  destruct (Z.eqb_spec y x) as [->|N].
  - rewrite Z.add_0_r, <- app_assoc, zlen_app, (IH k (x :: post)) by (simpl in Hk; lia).
    do 2 f_equal. apply bool_decide_ext. split; [by intros ->|]. by intros [? _]%app_inj_2.
  - rewrite bool_decide_false; [done|]. intros [_ [= E]]%app_inj_2; done.
Qed.

(** The stream does not depend on the text: a change of one enciphered byte
    changes the same byte of the clear text and no other. *)
Lemma arcfour_flip c text u x v y :
  arc4_ok c -> (arcfour_encrypt c text).1 = u ++ x :: v -> bytes (arcfour_encrypt c text).1 ->
  byte y -> y <> x ->
  exists A p B p', text = A ++ p :: B /\ (arcfour_encrypt c (u ++ y :: v)).1 = A ++ p' :: B /\
    p <> p' /\ byte p' /\ (bytes text -> byte p).
Proof.
  intros Hc Hu Hb Hy Hne. pose proof (arcfour_involutive c text) as I. rewrite Hu in *.
  apply (f_equal fst) in I. rewrite arcfour_app, arcfour_encrypt_cons in I. cbn [fst snd] in I.
  apply Forall_app in Hb as [Hbu Hbv]. destruct (arcfour_encrypt_ok c u Hc Hbu) as [_ Hc'].
  destruct (arcfour_byte_ok _ Hc') as [Hk _]. set (k := (arcfour_byte (arcfour_encrypt c u).2).1) in *.
  rewrite (u8_small k Hk) in I.
  exists (arcfour_encrypt c u).1, (Z.lxor x k).
  exists (arcfour_encrypt (arcfour_byte (arcfour_encrypt c u).2).2 v).1, (Z.lxor y k).
  split; [by rewrite I|]. split.
  { rewrite arcfour_app, arcfour_encrypt_cons. cbn [fst snd]. fold k. by rewrite (u8_small k Hk). }
  split_and!.
  - rewrite !(Z.lxor_comm _ k). intros E%lxor_inj_l. done.
  - by apply lxor_byte.
  - rewrite <- I. unfold bytes. rewrite Forall_app, Forall_cons. tauto.
Qed.

Lemma crc_bytes_inj x y : word32 x -> word32 y -> crc_bytes x = crc_bytes y -> x = y.
Proof.
  unfold crc_bytes, byte_of, word32. rewrite !land_255, !Z.shiftr_div_pow2 by lia.
  intros Hx Hy [= E0 E1 E2 E3]. change (8 * 0) with 0 in *. change (8 * 1) with 8 in *.
  change (8 * 2) with 16 in *. change (8 * 3) with 24 in *. lia.
Qed.

(** A payload with its checksum, one byte changed, is not a payload with its
    checksum. *)
Lemma one_byte_change payload A p B p' :
  bytes payload -> with_crc payload = A ++ p :: B -> p <> p' -> byte p' ->
  exists clear icv, A ++ p' :: B = clear ++ icv /\ zlen icv = 4 /\ bytes clear /\
    icv <> crc_bytes (crc32_ref clear).
Proof.
  intros Hb E Hne Hp'. unfold with_crc in E. pose proof E as E'.
  apply app_eq_inv in E' as [(k & E1 & E2)|(k & E1 & E2)].
  - destruct k as [|q k].
    + simpl in E2. rewrite app_nil_r in E1. subst A.
      exists payload, (p' :: B). split; [done|].
      pose proof (f_equal length E2) as HL. simpl in HL.
      split; [unfold zlen; simpl; lia|]. split; [done|]. rewrite <- E2. by intros [= ->].
    + injection E2 as <- ->. exists (A ++ p' :: k), (crc_bytes (crc32_ref payload)).
      split; [by rewrite <- app_assoc|]. split; [done|]. subst payload.
      apply Forall_app in Hb as [HA Hpk]. apply Forall_cons in Hpk as [Hp Hk].
      split; [by apply Forall_app; split; [|constructor]|].
      intros H%crc_bytes_inj.
      * apply crc32_ref_detects in H; done.
      * apply crc32_ref_word. by apply Forall_app; split; [|constructor].
      * apply crc32_ref_word. by apply Forall_app; split; [|constructor].
  - subst A. exists payload, (k ++ p' :: B). split; [by rewrite <- app_assoc|].
    pose proof (f_equal length E2) as HL. rewrite length_app in HL. simpl in HL.
    split; [unfold zlen; rewrite length_app; simpl; lia|]. split; [done|].
    rewrite E2. by intros [= ->]%app_inv_head.
Qed.

Section tkip.
Context (a : pkt_attrib) (tk ta : list Z).
Context (Hiv : 8 <= pa_iv_len a).

Lemma tkip_key_prefix cf l : cf_ok (pa_hdrlen a) (pa_iv_len a) cf ->
  tkip_rc4key (cf_with cf l) tk ta (pa_hdrlen a) =
  tkip_rc4key (cf_hdr cf ++ cf_iv cf) tk ta (pa_hdrlen a).
Proof.
  intros (Hh & Hi & _). unfold tkip_rc4key, GET_TKIP_PN.
  rewrite cf_with_assoc, rd_n_front by zl. done.
Qed.

Lemma tkip_context cf : cf_ok (pa_hdrlen a) (pa_iv_len a) cf ->
  exists w c, tkip_rc4key (cf_hdr cf ++ cf_iv cf) tk ta (pa_hdrlen a) = Ok w /\
    arcfour_init w 16 = Ok c /\ arc4_ok c.
Proof.
  intros (Hh & Hi & _). unfold tkip_rc4key, GET_TKIP_PN.
  destruct (rd_n_in (cf_hdr cf ++ cf_iv cf) (pa_hdrlen a) 8) as (v & -> & _); [zl..|].
  rewrite !bind_Ok. set (pn := Z.lor _ _). clearbody pn.
  set (key := phase2 _ _ _). assert (zlen key = 16) as Hk by reflexivity. clearbody key.
  destruct (arcfour_init_total key 16) as (c & Hc & Hok); [lia..|]. exists key, c. done.
Qed.

Lemma tkip_encrypt_frag_spec g cf w c : crc_ok g -> cf_ok (pa_hdrlen a) (pa_iv_len a) cf ->
  pa_icv_len a = 4 -> pa_ta a = ta ->
  tkip_rc4key (cf_hdr cf ++ cf_iv cf) tk ta (pa_hdrlen a) = Ok w -> arcfour_init w 16 = Ok c ->
  tkip_encrypt_frag g a tk (vir_addr (cf_tx cf)) (pb_length (cf_tx cf)) =
  Ok (cf_with cf (arcfour_encrypt c (with_crc (cf_payload cf))).1, crc_ready).
Proof.
  intros Hg Hcf Hicv Hta Hw Hc. unfold tkip_encrypt_frag. rewrite Hicv, Hta.
  rewrite (tkip_key_prefix cf (cf_payload cf ++ cf_slack cf) Hcf :
    tkip_rc4key (vir_addr (cf_tx cf)) _ _ _ = _), Hw, bind_Ok.
  replace (pb_length _ - _ - _ - _) with (zlen (cf_payload cf)); [by eapply seal_frag|].
  destruct Hcf as (Hh & Hi & _). simpl. unfold cf_len. lia.
Qed.

(** What the receiving routine does with the frame's last part [ct], whoever
    wrote it: it succeeds exactly when the deciphered checksum is the CRC-32 of
    the deciphered payload. *)
Lemma tkip_decrypt_spec sec stainfo sta g cf ct f w c clear icv :
  crc_ok g -> cf_ok (pa_hdrlen a) (pa_iv_len a) cf ->
  rx_matches a (ra_key_index (rf_attrib f)) cf (cf_with cf ct) f ->
  pa_encrypt a = _TKIP_ -> ra_ta (rf_attrib f) = ta -> stainfo ta = Some sta ->
  (if IS_MCAST (ra_ra (rf_attrib f)) then
     binstallGrpkey sec = true /\ arr (dot118021XGrpKey sec) (ra_key_index (rf_attrib f)) = Ok tk
   else sk_UncstKey sta = tk) ->
  tkip_rc4key (cf_hdr cf ++ cf_iv cf) tk ta (pa_hdrlen a) = Ok w -> arcfour_init w 16 = Ok c ->
  zlen ct = zlen (cf_payload cf) + 4 -> (arcfour_encrypt c ct).1 = clear ++ icv -> zlen icv = 4 ->
  bytes clear ->
  rtw_tkip_decrypt g sec stainfo f =
  Ok (if bool_decide (icv = crc_bytes (crc32_ref clear)) then _SUCCESS else _FAIL,
      rf_with_data f (cf_with cf (clear ++ icv)), crc_ready).
Proof.
  intros Hg Hcf (Hd & Hl & He & Hh & Hi & _) Henc Hta Hsta Hkey Hw Hc Hct Hcl Hicv Hb.
  unfold rtw_tkip_decrypt. rewrite He, Henc, Z.eqb_refl, Hta, Hsta. cbn [negb].
  pose proof Hcf as (Ch & Ci & Cs & _).
  assert (zlen clear = zlen (cf_payload cf)) as Hz.
  { pose proof (arcfour_zlen c ct) as E. rewrite Hcl in E. zl. }
  replace (IS_MCAST _ && _) with false
    by (destruct (IS_MCAST _); [destruct Hkey as [-> _]|]; done).
  replace (if IS_MCAST _ then _ else _) with (Ok tk)
    by (destruct (IS_MCAST _); [by destruct Hkey as [_ ->] | by rewrite Hkey]).
  rewrite bind_Ok, Hd, Hl, Hh, Hi, tkip_key_prefix, Hw, bind_Ok by done.
  rewrite !cf_with_assoc.
  replace (pa_iv_len a + pa_hdrlen a) with (zlen (cf_hdr cf ++ cf_iv cf)) by zl.
  replace (cf_len cf - pa_hdrlen a - pa_iv_len a) with (zlen ct) by (unfold cf_len; lia).
  rewrite (unseal_spec _ _ _ _ _ c), bind_Ok, Hcl by done.
  rewrite <- (app_assoc clear icv). rewrite rd_n_mid, bind_Ok by zl.
  rewrite getcrc32_ref by done. cbv iota beta.
  rewrite (app_assoc (cf_hdr cf ++ cf_iv cf) clear).
  replace (zlen (cf_hdr cf ++ cf_iv cf) + zlen ct)
    with (zlen ((cf_hdr cf ++ cf_iv cf) ++ clear) + zlen icv) by zl.
  rewrite icv_differs_spec, bind_Ok by (unfold zlen in Hicv; simpl; lia).
  rewrite <- !app_assoc. by destruct (bool_decide _).
Qed.

(** The receiver knows the station and has the key [tk] for the frame. *)
Definition tkip_peer (sec : security_priv) (stainfo : list Z -> option sta_keys) (f : recv_frame) : Prop :=
  ra_ta (rf_attrib f) = ta /\ exists sta, stainfo ta = Some sta /\
  if IS_MCAST (ra_ra (rf_attrib f)) then
    binstallGrpkey sec = true /\ arr (dot118021XGrpKey sec) (ra_key_index (rf_attrib f)) = Ok tk
  else sk_UncstKey sta = tk.

Context (Henc : pa_encrypt a = _TKIP_) (Hicv : pa_icv_len a = 4) (Hta : pa_ta a = ta).

(** One fragment: what is sent, that it is received, and that a change of any
    one enciphered byte is noticed. *)
Lemma tkip_frag cf : cf_ok (pa_hdrlen a) (pa_iv_len a) cf ->
  exists ct,
    (forall g, crc_ok g -> tkip_encrypt_frag g a tk (vir_addr (cf_tx cf)) (pb_length (cf_tx cf)) =
      Ok (cf_with cf ct, crc_ready)) /\
    (forall sec stainfo f, tkip_peer sec stainfo f ->
      rx_matches a (ra_key_index (rf_attrib f)) cf (cf_with cf ct) f ->
      rtw_tkip_decrypt crc_ready sec stainfo f =
        Ok (_SUCCESS, rf_with_data f (cf_with cf (with_crc (cf_payload cf))), crc_ready)) /\
    (forall sec stainfo f u x v y, tkip_peer sec stainfo f ->
      ct = u ++ x :: v -> byte y -> y <> x ->
      rx_matches a (ra_key_index (rf_attrib f)) cf (cf_with cf (u ++ y :: v)) f ->
      exists f', rtw_tkip_decrypt crc_ready sec stainfo f = Ok (_FAIL, f', crc_ready)).
Proof.
  intros Hcf. destruct (tkip_context cf Hcf) as (w & c & Hw & Hc & Hok).
  pose proof Hcf as (_ & _ & _ & _ & _ & Hb).
  pose proof (arcfour_encrypt_ok c (with_crc (cf_payload cf)) Hok) as [Hct _].
  { apply Forall_app. split; [done|apply crc_bytes_bytes]. }
  exists (arcfour_encrypt c (with_crc (cf_payload cf))).1. split; [|split].
  - intros g Hg. by eapply tkip_encrypt_frag_spec.
  - intros sec stainfo f (Hf & sta & Hs & Hk) Hm.
    rewrite (tkip_decrypt_spec _ _ _ crc_ready cf _ f w c (cf_payload cf)
      (crc_bytes (crc32_ref (cf_payload cf))) (or_intror eq_refl) Hcf Hm Henc Hf Hs Hk Hw Hc).
    + rewrite bool_decide_true by done. done.
    + by rewrite arcfour_zlen, zlen_with_crc.
    + by rewrite arcfour_involutive.
    + done.
    + done.
  - intros sec stainfo f u x v y (Hf & sta & Hs & Hk) Hu Hy Hne Hm.
    destruct (arcfour_flip c (with_crc (cf_payload cf)) u x v y Hok Hu Hct Hy Hne)
      as (A & p & B & p' & HA & HA' & Hp & Hp' & Hbs).
    pose proof (f_equal zlen Hu) as Hz. rewrite arcfour_zlen, zlen_with_crc in Hz.
    destruct (one_byte_change (cf_payload cf) A p B p') as (clear & icv & E & Hi & Hbc & Hd); [done..|].
    rewrite (tkip_decrypt_spec _ _ _ crc_ready cf _ f w c clear icv (or_intror eq_refl)
      Hcf Hm Henc Hf Hs Hk Hw Hc).
    + rewrite bool_decide_false by done. by eexists.
    + rewrite Hz. zl.
    + by rewrite HA', E.
    + done.
    + done.
Qed.

End tkip.

(** The frame after the sending routine: each fragment rewritten on its own. *)
Lemma tkip_encrypt_frame g sec xf cfs a tk :
  crc_ok g -> 8 <= pa_iv_len a -> pa_encrypt a = _TKIP_ -> pa_icv_len a = 4 ->
  (if IS_MCAST (pa_ra a) then arr (dot118021XGrpKey sec) (dot118021XGrpKeyid sec)
   else Ok (pa_UncstKey a)) = Ok tk ->
  cfs <> [] -> Forall (cf_ok (pa_hdrlen a) (pa_iv_len a)) cfs ->
  xf_attrib xf = a -> pa_nr_frags a = zlen cfs -> xf_txreq xf = map cf_tx cfs ->
  exists F, rtw_tkip_encrypt g sec xf =
      Ok (_SUCCESS, mkXf a (map (fun pb => mkBuf (F pb) (pb_length pb)) (xf_txreq xf)) (xf_buf xf), crc_ready) /\
    forall cf, cf ∈ cfs ->
      tkip_encrypt_frag crc_ready a tk (vir_addr (cf_tx cf)) (pb_length (cf_tx cf)) = Ok (F (cf_tx cf), crc_ready).
Proof.
  intros Hg Hiv Henc Hicv Hkey Hne Hcfs Ha Hnr Htx. rewrite Forall_forall in Hcfs.
  exists (fun pb => match tkip_encrypt_frag crc_ready a tk (vir_addr pb) (pb_length pb) with
                    | Ok (b, _) => b | _ => [] end).
  split.
  - unfold rtw_tkip_encrypt. rewrite Ha, Henc, Z.eqb_refl. cbn [negb].
    replace (if IS_MCAST _ then _ else mret _) with (Ok tk). rewrite bind_Ok, Hnr, zlen_to_nat.
    destruct xf as [a' tx buf]. cbn [xf_attrib xf_txreq xf_buf] in *. subst a' tx.
    rewrite <- (length_map cf_tx cfs).
    epose proof (frag_loop_map (on_frag (fun g => tkip_encrypt_frag g a tk)) _
      (fun pb => match tkip_encrypt_frag crc_ready a tk (vir_addr pb) (pb_length pb) with
                 | Ok (b, _) => b | _ => [] end) a buf (map cf_tx cfs) [] g
      (fun _ _ _ _ => eq_refl) _ Hg _) as HL.
    rewrite zlen_nil in HL. cbn [app] in HL. rewrite HL. done.
    Unshelve. 2: by destruct cfs.
    intros pb g' (cf & -> & Hin)%list_elem_of_fmap Hg'.
    destruct (tkip_frag a tk (pa_ta a) Hiv Henc Hicv eq_refl cf (Hcfs _ Hin)) as (ct & Hct & _).
    rewrite (Hct g' Hg'), (Hct crc_ready) by (by right). done.
  - intros cf Hin.
    destruct (tkip_frag a tk (pa_ta a) Hiv Henc Hicv eq_refl cf (Hcfs _ Hin)) as (ct & Hct & _).
    rewrite (Hct crc_ready) by (by right). done.
Qed.

(** C17: Every fragment of a frame sent with TKIP is accepted by a receiver
    that has the key and deciphered to the fragment that was sent with its
    CRC-32 behind the payload; and if any one enciphered byte was changed on
    the way, the receiving routine reports failure. *)
Theorem tkip_roundtrip g sec xf cfs a tk :
  crc_ok g -> 8 <= pa_iv_len a -> pa_encrypt a = _TKIP_ -> pa_icv_len a = 4 ->
  (if IS_MCAST (pa_ra a) then arr (dot118021XGrpKey sec) (dot118021XGrpKeyid sec)
   else Ok (pa_UncstKey a)) = Ok tk ->
  cfs <> [] -> Forall (cf_ok (pa_hdrlen a) (pa_iv_len a)) cfs ->
  xf_attrib xf = a -> pa_nr_frags a = zlen cfs -> xf_txreq xf = map cf_tx cfs ->
  exists F, rtw_tkip_encrypt g sec xf =
      Ok (_SUCCESS, mkXf a (map (fun pb => mkBuf (F pb) (pb_length pb)) (xf_txreq xf)) (xf_buf xf), crc_ready) /\
    forall cf, cf ∈ cfs -> exists ct, F (cf_tx cf) = cf_with cf ct /\
      (forall rsec stainfo f, tkip_peer tk (pa_ta a) rsec stainfo f ->
        rx_matches a (ra_key_index (rf_attrib f)) cf (cf_with cf ct) f ->
        rtw_tkip_decrypt crc_ready rsec stainfo f =
          Ok (_SUCCESS, rf_with_data f (cf_with cf (with_crc (cf_payload cf))), crc_ready)) /\
      (forall rsec stainfo f u x v y, tkip_peer tk (pa_ta a) rsec stainfo f ->
        ct = u ++ x :: v -> byte y -> y <> x ->
        rx_matches a (ra_key_index (rf_attrib f)) cf (cf_with cf (u ++ y :: v)) f ->
        exists f', rtw_tkip_decrypt crc_ready rsec stainfo f = Ok (_FAIL, f', crc_ready)).
Proof.
  intros Hg Hiv Henc Hicv Hkey Hne Hcfs Ha Hnr Htx.
  destruct (tkip_encrypt_frame g sec xf cfs a tk) as (F & HF & He); [done..|].
  exists F. split; [done|]. intros cf Hin. rewrite Forall_forall in Hcfs.
  destruct (tkip_frag a tk (pa_ta a) Hiv Henc Hicv eq_refl cf (Hcfs _ Hin)) as (ct & Hct & Hok & Hbad).
  exists ct. specialize (He cf Hin). rewrite (Hct crc_ready) in He by (by right).
  split; [congruence|]. split; [exact Hok|exact Hbad].
Qed.

(** ** Packet numbers *)

Definition pn_cipher (enc : Z) : Prop :=
  enc = _TKIP_ \/ enc = _AES_ \/ enc = _GCMP_ \/ enc = _CCMP_256_ \/ enc = _GCMP_256_.

#[export] Instance pn_cipher_dec enc : Decision (pn_cipher enc).
Proof. unfold pn_cipher. apply _. Defined.

(** The vector written for a packet number reads back as the same number and
    key id at any place of a frame, for every cipher that has packet numbers;
    any other cipher is refused by both routines. *)
Theorem pn_iv_roundtrip enc pn key_id pre post :
  (pn_cipher enc -> zlen pn = 6 -> 0 <= key_id < 4 ->
   exists iv, rtw_pn_to_iv pn key_id enc = Some iv /\ zlen iv = 8 /\
     rtw_iv_to_pn (pre ++ iv ++ post) (zlen pre) enc = Ok (Some (pn, key_id))) /\
  (~ pn_cipher enc -> rtw_pn_to_iv pn key_id enc = None /\
     rtw_iv_to_pn (pre ++ post) (zlen pre) enc = Ok None).
Proof.
  split.
  - intros Henc Hl Hid. unfold zlen in Hl.
    do 6 (destruct pn as [|? pn]; [simpl in Hl; lia|]). destruct pn; [|simpl in Hl; lia].
    assert (Z.shiftr (u8 (Z.lor (BIT 5) (Z.shiftl (Z.land key_id 3) 6))) 6 = key_id) as Hk.
    { assert (key_id = 0 \/ key_id = 1 \/ key_id = 2 \/ key_id = 3) as [->|[->|[->| ->]]] by lia; done. }
    unfold rtw_pn_to_iv, rtw_iv_to_pn. set (id := u8 _) in *. clearbody id.
    destruct Henc as [->|[->|[->|[->| ->]]]];
      (eexists; split; [reflexivity|]; split; [done|];
       rewrite rd_n_mid by done; rewrite <- Hk; reflexivity).
  - intros Hn. unfold rtw_pn_to_iv, rtw_iv_to_pn, pn_algo.
    replace (enc =? _TKIP_) with false by (symmetry; apply Z.eqb_neq; unfold pn_cipher in Hn; tauto).
    replace (_ || _ || _ || _) with false; [done|].
    symmetry. rewrite !orb_false_iff, !Z.eqb_neq. unfold pn_cipher in Hn. tauto.
Qed.

(** ** Countermeasures *)

(** While countermeasures are on, association is refused for sixty seconds and
    allowed afterwards, which also ends them. *)
Lemma countermeasure_spec passing sec :
  let r := rtw_handle_tkip_countermeasure passing sec in
  (btkip_countermeasure sec = false -> r = (_SUCCESS, sec)) /\
  (btkip_countermeasure sec = true -> u32 (passing (btkip_countermeasure_time sec)) <= 60000 -> r = (_FAIL, sec)) /\
  (btkip_countermeasure sec = true -> 60000 < u32 (passing (btkip_countermeasure_time sec)) ->
    r.1 = _SUCCESS /\ btkip_countermeasure r.2 = false /\ btkip_countermeasure_time r.2 = 0).
Proof.
  unfold rtw_handle_tkip_countermeasure. split_and!; intros ->; [done|..]; intros H.
  - replace (_ >? 60 * 1000) with false by lia. done.
  - replace (_ >? 60 * 1000) with true by lia. done.
Qed.

(** ** Witnesses *)

(** A station's address, a temporal key, and a frame to it: header (to the
    distribution system), extended vector, payload and eight spare bytes. *)
Definition ex_ta : list Z := [2; 0x22; 0x33; 0x44; 0x55; 0x66].
Definition ex_tk : list Z := map Z.of_nat (seq 0 16).
Definition ex_hdr : list Z :=
  [0x08; 0x41; 0; 0] ++ [4; 1; 1; 1; 1; 1] ++ ex_ta ++ [6; 2; 2; 2; 2; 2] ++ [0x10; 0].
Definition ex_frag (n : Z) : clear_frag :=
  mkCf ex_hdr [0; 0x20; n; 0x20; 0; 0; 0; 0] [0xaa; 0xaa; 3; 0; 0; 0; 8; 0; n] [0; 0; 0; 0] [0; 0].
Definition ex_attrib : pkt_attrib :=
  mkPa _TKIP_ 24 8 4 2 0 [4; 1; 1; 1; 1; 1] ex_ta ex_tk.
Definition ex_sec : security_priv :=
  mkSec 2 0 (replicate 6 (zeros 32)) (replicate 6 0) 1 (replicate 6 (zeros 32)) (replicate 6 (zeros 32))
    true 1 false false false 0 [0; 0; 0; 0].

Lemma tkip_key_unique_witness :
  is_mac ex_ta /\ word32 1 /\ word16 7 /\ (ex_ta = ex_ta /\ 1 = 1 /\ 7 = 7).
Proof.
  assert (is_mac ex_ta) as Hm by (do 6 eexists; split; [reflexivity|by_compute]).
  split; [exact Hm|]. split; [unfold word32; lia|]. split; [unfold word16; lia|].
  apply (tkip_key_unique ex_tk ex_ta ex_ta 1 1 7 7 Hm Hm);
    first [unfold word32; lia | unfold word16; lia | reflexivity].
Defined.

Lemma tkip_mic_refines_witness :
  let b := ex_hdr ++ [0; 0x20; 7; 0x20; 0; 0; 0; 0] ++ [0xaa; 0xaa; 3; 0; 0; 0; 8; 0; 7] in
  rtw_seccalctkipmic (take 8 ex_tk) b 0 32 9 0 =
  Ok (michael_ref (take 8 ex_tk)
    ([6; 2; 2; 2; 2; 2] ++ ex_ta ++ [u8 0; 0; 0; 0] ++ [0xaa; 0xaa; 3; 0; 0; 0; 8; 0; 7])).
Proof.
  intros b. apply (tkip_mic_refines (take 8 ex_tk) b 0 32 0 0x41 [6; 2; 2; 2; 2; 2] ex_ta
    [0xaa; 0xaa; 3; 0; 0; 0; 8; 0; 7]); first [reflexivity | by_compute | idtac].
  - exists (take 16 b), (drop 22 b). split; reflexivity.
  - exists (take 10 b), (drop 16 b). split; reflexivity.
  - exists (take 32 b), []. split; reflexivity.
Defined.

Lemma tkip_roundtrip_witness :
  let cfs := [ex_frag 1; ex_frag 2] in
  exists F, rtw_tkip_encrypt crc_boot ex_sec (mkXf ex_attrib (map cf_tx cfs) []) =
      Ok (_SUCCESS, mkXf ex_attrib (map (fun pb => mkBuf (F pb) (pb_length pb)) (map cf_tx cfs)) [], crc_ready) /\
    forall cf, cf ∈ cfs -> exists ct, F (cf_tx cf) = cf_with cf ct /\
      (forall rsec stainfo f, tkip_peer ex_tk ex_ta rsec stainfo f ->
        rx_matches ex_attrib (ra_key_index (rf_attrib f)) cf (cf_with cf ct) f ->
        rtw_tkip_decrypt crc_ready rsec stainfo f =
          Ok (_SUCCESS, rf_with_data f (cf_with cf (with_crc (cf_payload cf))), crc_ready)) /\
      (forall rsec stainfo f u x v y, tkip_peer ex_tk ex_ta rsec stainfo f ->
        ct = u ++ x :: v -> byte y -> y <> x ->
        rx_matches ex_attrib (ra_key_index (rf_attrib f)) cf (cf_with cf (u ++ y :: v)) f ->
        exists f', rtw_tkip_decrypt crc_ready rsec stainfo f = Ok (_FAIL, f', crc_ready)).
Proof.
  intros cfs. apply (tkip_roundtrip crc_boot ex_sec (mkXf ex_attrib (map cf_tx cfs) []) cfs ex_attrib ex_tk).
  - by left.
  - simpl. lia.
  - reflexivity.
  - reflexivity.
  - reflexivity.
  - done.
  - by_compute.
  - reflexivity.
  - reflexivity.
  - reflexivity.
Defined.
