(* ===== verification/SecRecv.v ===== *)
(** * Receive security checks

    src/core/rtw_recv.c: what a received data frame passes before its payload is
    used: software decryption ([decryptor], with the CCMP and GCMP routines of
    src/core/rtw_security.c), the Michael check ([recvframe_chkmic]) and the
    report of its failure ([rtw_handle_tkip_mic_err] of
    src/os_dep/linux/recv_linux.c), the 802.1X port ([portctrl]), the replay
    checks ([recv_ucast_pn_decache], [recv_bcast_pn_decache]) and the duplicate
    check ([recv_decache]).

    Mesh, TDLS and WAPI are configured out.  The CCMP and GCMP transforms are
    vendored code (src/core/crypto): they are parameters. *)

From S2P Require Import Prelude IeBuf SecRc4 SecTkip.

Definition dot11AuthAlgrthm_8021X : Z := 2.
Definition LLC_HEADER_SIZE : Z := 6.
Definition WIFI_DATA : Z := 8.

(** ** State *)

(** What [struct sta_info] keeps for a station's received frames: its keys,
    [hw_decrypted], [ieee8021x_blocked], the caches of [struct sta_recv_priv],
    the duplicate counter, the fragments waiting and the key generation. *)
Record rx_sta := mkSta {
  st_keys : sta_keys; st_hw_decrypted : bool; st_blocked : bool;
  st_tid_rxseq : list Z; st_iv : list (list Z); st_last_tid : Z;
  st_bmc_tid_rxseq : list Z; st_nonqos_rxseq : Z; st_nonqos_bmc_rxseq : Z;
  st_duplicate_cnt : Z; st_defrag_q : list recv_frame; st_keytrack : Z
}.

(** The adapter: keys, the checksum's static variables, the station entry that
    stands for the adapter itself, the stations by address, the time of the last Michael failure, the failures reported to
    the upper layer (station, group or not), and the frames freed. *)
Record rx_world := mkRw {
  rw_sec : security_priv; rw_crc : crc_glob; rw_self : list Z; rw_stas : gmap (list Z) rx_sta;
  rw_last_mic_err_time : Z; rw_mic_reports : list (list Z * bool); rw_freed : list Z
}.

Definition rw_with_sec (w : rx_world) (s : security_priv) : rx_world :=
  mkRw s (rw_crc w) (rw_self w) (rw_stas w) (rw_last_mic_err_time w) (rw_mic_reports w) (rw_freed w).
Definition rw_with_crc (w : rx_world) (g : crc_glob) : rx_world :=
  mkRw (rw_sec w) g (rw_self w) (rw_stas w) (rw_last_mic_err_time w) (rw_mic_reports w) (rw_freed w).
Definition rw_with_stas (w : rx_world) (m : gmap (list Z) rx_sta) : rx_world :=
  mkRw (rw_sec w) (rw_crc w) (rw_self w) m (rw_last_mic_err_time w) (rw_mic_reports w) (rw_freed w).

Definition sta_set_hw (v : bool) (s : rx_sta) : rx_sta :=
  mkSta (st_keys s) v (st_blocked s) (st_tid_rxseq s) (st_iv s) (st_last_tid s)
    (st_bmc_tid_rxseq s) (st_nonqos_rxseq s) (st_nonqos_bmc_rxseq s) (st_duplicate_cnt s)
    (st_defrag_q s) (st_keytrack s).

(** [rtw_get_stainfo]: the station with an address; a group address names the
    adapter's own entry, which may be the entry of a station. *)
Definition sta_addr (w : rx_world) (a : list Z) : list Z := if IS_MCAST a then rw_self w else a.
Definition rtw_get_stainfo (w : rx_world) (a : list Z) : option rx_sta := rw_stas w !! sta_addr w a.

Definition ra_with_key_index (a : rx_pkt_attrib) (k : Z) : rx_pkt_attrib :=
  mkRa (ra_encrypt a) (ra_hdrlen a) (ra_iv_len a) (ra_icv_len a) k (ra_bdecrypted a)
    (ra_privacy a) (ra_priority a) (ra_qos a) (ra_seq_num a) (ra_frag_num a) (ra_mfrag a)
    (ra_ra a) (ra_ta a).
Definition ra_with_bdecrypted (a : rx_pkt_attrib) (v : bool) : rx_pkt_attrib :=
  mkRa (ra_encrypt a) (ra_hdrlen a) (ra_iv_len a) (ra_icv_len a) (ra_key_index a) v
    (ra_privacy a) (ra_priority a) (ra_qos a) (ra_seq_num a) (ra_frag_num a) (ra_mfrag a)
    (ra_ra a) (ra_ta a).

(** ** CCMP and GCMP around the vendored transforms *)

Section recv.
(** [_rtw_ccmp_decrypt], [_rtw_gcmp_decrypt]: key, key length, header length,
    frame and its length to the result and the frame's memory; and the two
    enciphering transforms. *)
Context (_rtw_ccmp_decrypt _rtw_gcmp_decrypt : list Z -> Z -> Z -> list Z -> Z -> res (Z * list Z)).
Context (_rtw_ccmp_encrypt _rtw_gcmp_encrypt : list Z -> Z -> Z -> list Z -> Z -> res (list Z)).
(** [pmlmeinfo->key_index], [MLME_IS_STA], the clock and its frequency. *)
Context (mlme_key_index : Z) (mlme_is_sta : bool) (now HZ : Z).

Definition cipher_encrypt (xform : list Z -> Z -> Z -> list Z -> Z -> res (list Z))
    (g : crc_glob) (sec : security_priv) (prwskeylen : Z) (xf : xmit_frame)
    : res (Z * xmit_frame * crc_glob) :=
  let a := xf_attrib xf in
  prwskey ← (if IS_MCAST (pa_ra a) then arr (dot118021XGrpKey sec) (dot118021XGrpKeyid sec)
             else mret (pa_UncstKey a));
  '(xf, g) ← frag_loop (on_frag (fun g b len =>
       let plen := len - pa_hdrlen a - pa_iv_len a - pa_icv_len a in
       b ← xform prwskey prwskeylen (pa_hdrlen a) b plen; mret (b, g)))
     (Z.to_nat (pa_nr_frags a)) 0 xf g;
  mret (_SUCCESS, xf, g).

Definition rtw_aes_encrypt (g : crc_glob) (sec : security_priv) (xf : xmit_frame)
    : res (Z * xmit_frame * crc_glob) :=
  let e := pa_encrypt (xf_attrib xf) in
  if negb (e =? _AES_) && negb (e =? _CCMP_256_) then mret (_SUCCESS, xf, g)
  else cipher_encrypt _rtw_ccmp_encrypt g sec (if e =? _CCMP_256_ then 32 else 16) xf.

Definition rtw_gcmp_encrypt (g : crc_glob) (sec : security_priv) (xf : xmit_frame)
    : res (Z * xmit_frame * crc_glob) :=
  let e := pa_encrypt (xf_attrib xf) in
  if negb (e =? _GCMP_) && negb (e =? _GCMP_256_) then mret (_SUCCESS, xf, g)
  else cipher_encrypt _rtw_gcmp_encrypt g sec (if e =? _GCMP_256_ then 32 else 16) xf.

Definition cipher_decrypt (xform : list Z -> Z -> Z -> list Z -> Z -> res (Z * list Z))
    (sec : security_priv) (stainfo : list Z -> option sta_keys) (keylen : Z) (f : recv_frame)
    : res (Z * recv_frame) :=
  let a := rf_attrib f in
  match stainfo (ra_ta a) with
  | None => mret (_FAIL, f)
  | Some sta =>
      if IS_MCAST (ra_ra a) && negb (binstallGrpkey sec) then mret (_FAIL, f)
      else if IS_MCAST (ra_ra a) && negb (dot118021XGrpKeyid sec =? ra_key_index a) then
        mret (_FAIL, f)
      else
        prwskey ← (if IS_MCAST (ra_ra a) then arr (dot118021XGrpKey sec) (ra_key_index a)
                   else mret (sk_UncstKey sta));
        '(r, b) ← xform prwskey keylen (ra_hdrlen a) (rx_data f) (rx_len f);
        mret (r, rf_with_data f b)
  end.

Definition rtw_aes_decrypt (sec : security_priv) (stainfo : list Z -> option sta_keys)
    (f : recv_frame) : res (Z * recv_frame) :=
  let e := ra_encrypt (rf_attrib f) in
  if (e =? _AES_) || (e =? _CCMP_256_) then
    cipher_decrypt _rtw_ccmp_decrypt sec stainfo (if e =? _CCMP_256_ then 32 else 16) f
  else mret (_SUCCESS, f).

Definition rtw_gcmp_decrypt (sec : security_priv) (stainfo : list Z -> option sta_keys)
    (f : recv_frame) : res (Z * recv_frame) :=
  let e := ra_encrypt (rf_attrib f) in
  if (e =? _GCMP_) || (e =? _GCMP_256_) then
    cipher_decrypt _rtw_gcmp_decrypt sec stainfo (if e =? _GCMP_256_ then 32 else 16) f
  else mret (_SUCCESS, f).

(** ** Decryption *)

(** The switch over the cipher. *)
Definition sw_decrypt (w : rx_world) (f : recv_frame) : res (Z * recv_frame * rx_world) :=
  let e := ra_encrypt (rf_attrib f) in
  let stainfo a := st_keys <$> rtw_get_stainfo w a in
  if (e =? _WEP40_) || (e =? _WEP104_) then
    '(f, g) ← rtw_wep_decrypt (rw_crc w) (rw_sec w) f;
    mret (_SUCCESS, f, rw_with_crc w g)
  else if e =? _TKIP_ then
    '(r, f, g) ← rtw_tkip_decrypt (rw_crc w) (rw_sec w) stainfo f;
    mret (r, f, rw_with_crc w g)
  else if (e =? _AES_) || (e =? _CCMP_256_) then
    '(r, f) ← rtw_aes_decrypt (rw_sec w) stainfo f; mret (r, f, w)
  else if (e =? _GCMP_) || (e =? _GCMP_256_) then
    '(r, f) ← rtw_gcmp_decrypt (rw_sec w) stainfo f; mret (r, f, w)
  else mret (_SUCCESS, f, w).

(** [GetFrameType] of the frame. *)
Definition frame_type (f : recv_frame) : res Z :=
  fc ← RTW_GET_LE16 (rx_data f) 0; mret (Z.land fc (Z.lor (BIT 3) (BIT 2))).

(** The key index the frame names, for an enciphered frame. *)
Definition set_key_index (sec : security_priv) (f : recv_frame) : res recv_frame :=
  let a := rf_attrib f in
  if ra_encrypt a >? 0 then
    x ← rd (rx_data f) (ra_hdrlen a + 3);
    let k := Z.land (Z.shiftr x 6) 3 in
    let k := if k >? WEP_KEYS then
               (if (ra_encrypt a =? _WEP40_) || (ra_encrypt a =? _WEP104_)
                then u8 (dot11PrivacyKeyIndex sec) else u8 (dot118021XGrpKeyid sec))
             else k in
    mret (rf_with_attrib f (ra_with_key_index a k))
  else mret f.

(** The frame, and whether it is returned ([false] for [NULL]). *)
Definition decryptor (w : rx_world) (f : recv_frame) : res (bool * recv_frame * rx_world) :=
  f ← set_key_index (rw_sec w) f;
  let a := rf_attrib f in
  '(r, f, w) ←
    (if z_true (ra_encrypt a) && negb (ra_bdecrypted a) then
       t ← frame_type f;
       let w := if t =? WIFI_DATA then
                  if IS_MCAST (ra_ra a) then rw_with_sec w (set_hw_decrypted (rw_sec w) false)
                  else rw_with_stas w (alter (sta_set_hw false) (rf_psta f) (rw_stas w))
                else w in
       sw_decrypt w f
     else if ra_bdecrypted a && (ra_encrypt a >? 0)
             && ((busetkipkey (rw_sec w) =? 1) || negb (ra_encrypt a =? _TKIP_)) then
       let w := rw_with_sec w (set_hw_decrypted (rw_sec w) true) in
       mret (_SUCCESS, f, rw_with_stas w (alter (sta_set_hw true) (rf_psta f) (rw_stas w)))
     else mret (_SUCCESS, f, w));
  if r =? _FAIL then mret (false, f, w)
  else mret (true, rf_with_attrib f (ra_with_bdecrypted (rf_attrib f) true), w).

(** ** The Michael check *)

(** [rtw_handle_tkip_mic_err]: the second failure within sixty seconds of the
    first starts the countermeasures. *)
Definition rtw_handle_tkip_mic_err (w : rx_world) (sta : list Z) (bgroup : bool) : rx_world :=
  let '(sec, last) :=
    if rw_last_mic_err_time w =? 0 then (rw_sec w, now)
    else if u64 (now - rw_last_mic_err_time w) <? 60 * HZ then
      (set_countermeasure (rw_sec w) true now, 0)
    else (rw_sec w, now) in
  mkRw sec (rw_crc w) (rw_self w) (rw_stas w) last (rw_mic_reports w ++ [(sta, bgroup)]) (rw_freed w).

Definition recvframe_pull_tail (f : recv_frame) (sz : Z) : recv_frame :=
  if rx_tail f - sz <? 0 then f
  else mkRf (rf_id f) (rf_attrib f) (rx_data f) (u32 (rx_len f - sz)) (rx_tail f - sz)
         (rf_psta f) (rf_keytrack f).

Definition recvframe_chkmic (w : rx_world) (f : recv_frame) : res (Z * recv_frame * rx_world) :=
  let a := rf_attrib f in
  let sec := rw_sec w in
  if negb (ra_encrypt a =? _TKIP_) then mret (_SUCCESS, f, w)
  else match rtw_get_stainfo w (ra_ta a) with
  | None => mret (_SUCCESS, recvframe_pull_tail f 8, w)
  | Some sta =>
      if IS_MCAST (ra_ra a) && negb (binstallGrpkey sec) then mret (_FAIL, f, w)
      else
        mickey ← (if IS_MCAST (ra_ra a) then
                    k ← arr (dot118021XGrprxmickey sec) (ra_key_index a); mret (take 8 k)
                  else mret (take 8 (sk_tkiprxmickey (st_keys sta))));
        let datalen := u32 (rx_len f - ra_hdrlen a - ra_iv_len a - ra_icv_len a - 8) in
        let payload := ra_hdrlen a + ra_iv_len a in
        miccode ← rtw_seccalctkipmic mickey (rx_data f) 0 payload datalen (ra_priority a);
        pframemic ← rd_n (rx_data f) (payload + datalen) 8;
        if negb (bool_decide (miccode = pframemic)) then
          let brpt_micerror := negb (IS_MCAST (ra_ra a) && negb (ra_key_index a =? mlme_key_index)) in
          let w := if ra_bdecrypted a && brpt_micerror
                   then rtw_handle_tkip_mic_err w (ra_ta a) (IS_MCAST (ra_ra a)) else w in
          mret (_FAIL, recvframe_pull_tail f 8, w)
        else
          let w := if negb (bcheck_grpkey sec) && IS_MCAST (ra_ra a)
                   then rw_with_sec w (set_bcheck_grpkey sec true) else w in
          mret (_SUCCESS, recvframe_pull_tail f 8, w)
  end.

(** ** The port *)

(** Whether the frame is returned. *)
Definition portctrl (w : rx_world) (f : recv_frame) : res bool :=
  let a := rf_attrib f in
  if dot11AuthAlgrthm (rw_sec w) =? dot11AuthAlgrthm_8021X then
    match rtw_get_stainfo w (ra_ta a) with
    | Some sta =>
        if st_blocked sta then
          t ← RTW_GET_BE16 (rx_data f) (ra_hdrlen a + ra_iv_len a + LLC_HEADER_SIZE);
          mret (t =? 0x888e)
        else mret true
    | None => mret true
    end
  else mret true.

(** ** Replays and duplicates *)

Definition PN_LESS_CHK (a b : Z) : bool := z_true (Z.land (u64 (a - b)) 0x800000000000).
Definition VALID_PN_CHK (new old : Z) : bool := (old =? 0) || PN_LESS_CHK old new.

(** [RTW_GET_LE64] of [pn[8]], whose last two bytes stay zero. *)
Definition pn_val (pn : list Z) : Z :=
  fold_right (fun b acc => Z.lor b (Z.shiftl acc 8)) 0 pn.

Definition has_pn (e : Z) : bool :=
  (e =? _TKIP_) || (e =? _AES_) || (e =? _GCMP_) || (e =? _CCMP_256_) || (e =? _GCMP_256_).

(** A failed [rtw_iv_to_pn] leaves [pn] as it was. *)
Definition iv_pn (b : list Z) (iv enc : Z) : res (Z * Z) :=
  o ← rtw_iv_to_pn b iv enc;
  match o with Some (pn, id) => mret (pn_val pn, id) | None => mret (0, 0) end.

Definition recv_ucast_pn_decache (sta : rx_sta) (f : recv_frame) : res (Z * rx_sta) :=
  let a := rf_attrib f in
  let tid := ra_priority a in
  if tid >? 15 then mret (_FAIL, sta)
  else if has_pn (ra_encrypt a) then
    '(pkt_pn, _) ← iv_pn (rx_data f) (ra_hdrlen a) (ra_encrypt a);
    iv ← arr (st_iv sta) tid;
    '(curr_pn, _) ← iv_pn iv 0 (ra_encrypt a);
    if negb (VALID_PN_CHK pkt_pn curr_pn) then mret (_SUCCESS, sta)
    else
      iv ← rd_n (rx_data f) (ra_hdrlen a) 8;
      mret (_SUCCESS,
        mkSta (st_keys sta) (st_hw_decrypted sta) (st_blocked sta) (st_tid_rxseq sta)
          (<[Z.to_nat tid := iv]> (st_iv sta)) tid (st_bmc_tid_rxseq sta) (st_nonqos_rxseq sta)
          (st_nonqos_bmc_rxseq sta) (st_duplicate_cnt sta) (st_defrag_q sta) (st_keytrack sta))
  else mret (_SUCCESS, sta).

Definition recv_bcast_pn_decache (sec : security_priv) (f : recv_frame) : res (Z * security_priv) :=
  let a := rf_attrib f in
  if has_pn (ra_encrypt a) && mlme_is_sta then
    '(pkt_pn, key_id) ← iv_pn (rx_data f) (ra_hdrlen a) (ra_encrypt a);
    curr_pn ← arr (iv_seq sec) key_id;
    if negb (VALID_PN_CHK pkt_pn curr_pn) then mret (_FAIL, sec)
    else mret (_SUCCESS, set_iv_seq sec key_id pkt_pn)
  else mret (_SUCCESS, sec).

(** The sequence number last seen, and its update. *)
Inductive rxseq_slot := SlotBmcTid | SlotTid | SlotNonqosBmc | SlotNonqos.

Definition slot_of (a : rx_pkt_attrib) : rxseq_slot :=
  if ra_qos a then if IS_MCAST (ra_ra a) then SlotBmcTid else SlotTid
  else if IS_MCAST (ra_ra a) then SlotNonqosBmc else SlotNonqos.

Definition slot_get (s : rx_sta) (tid : Z) (k : rxseq_slot) : res Z :=
  match k with
  | SlotBmcTid => arr (st_bmc_tid_rxseq s) tid
  | SlotTid => arr (st_tid_rxseq s) tid
  | SlotNonqosBmc => mret (st_nonqos_bmc_rxseq s)
  | SlotNonqos => mret (st_nonqos_rxseq s)
  end.

Definition slot_set (s : rx_sta) (tid : Z) (k : rxseq_slot) (v : Z) : rx_sta :=
  let upd (l : list Z) := <[Z.to_nat tid := v]> l in
  mkSta (st_keys s) (st_hw_decrypted s) (st_blocked s)
    (match k with SlotTid => upd (st_tid_rxseq s) | _ => st_tid_rxseq s end)
    (st_iv s) (st_last_tid s)
    (match k with SlotBmcTid => upd (st_bmc_tid_rxseq s) | _ => st_bmc_tid_rxseq s end)
    (match k with SlotNonqos => v | _ => st_nonqos_rxseq s end)
    (match k with SlotNonqosBmc => v | _ => st_nonqos_bmc_rxseq s end)
    (st_duplicate_cnt s) (st_defrag_q s) (st_keytrack s).

Definition sta_count_dup (s : rx_sta) : rx_sta :=
  mkSta (st_keys s) (st_hw_decrypted s) (st_blocked s) (st_tid_rxseq s) (st_iv s) (st_last_tid s)
    (st_bmc_tid_rxseq s) (st_nonqos_rxseq s) (st_nonqos_bmc_rxseq s) (u32 (st_duplicate_cnt s + 1))
    (st_defrag_q s) (st_keytrack s).

Definition recv_decache (sta : rx_sta) (f : recv_frame) : res (Z * rx_sta) :=
  let a := rf_attrib f in
  let tid := ra_priority a in
  let seq_ctrl := u16 (Z.lor (Z.shiftl (Z.land (ra_seq_num a) 0xffff) 4) (Z.land (ra_frag_num a) 0xf)) in
  if tid >? 15 then mret (_FAIL, sta)
  else
    prxseq ← slot_get sta tid (slot_of a);
    if seq_ctrl =? prxseq then mret (_FAIL, sta_count_dup sta)
    else mret (_SUCCESS, slot_set sta tid (slot_of a) seq_ctrl).

End recv.

(** * Theorems

    Replays of group-addressed frames, duplicates, the Michael check and the
    countermeasures its failures start, and the 802.1X port. *)

(** ** Packet numbers *)

Lemma pn_val_bound pn : bytes pn -> 0 <= pn_val pn < 2 ^ (8 * zlen pn).
Proof.
  induction 1 as [|b pn Hb _ IH]; [done|]. simpl. fold (pn_val pn).
  rewrite lor_shift_add by (unfold byte in Hb; lia). rewrite zlen_cons.
  pose proof (zlen_nonneg pn).
  replace (8 * (1 + zlen pn)) with (8 + 8 * zlen pn) by lia. rewrite Z.pow_add_r by lia.
  unfold byte in Hb. change (2 ^ 8) with 256 in *. nia.
Qed.

Lemma PN_LESS_spec a b : PN_LESS_CHK a b = ((u64 (a - b) / 2 ^ 47) mod 2 =? 1).
Proof.
  unfold PN_LESS_CHK. change 0x800000000000 with (BIT 47). rewrite z_true_land_BIT by lia.
  apply eq_true_iff_eq. rewrite Z.testbit_true by lia. by rewrite Z.eqb_eq.
Qed.

(** Below 2^47 the serial comparison is the comparison of the numbers. *)
Lemma VALID_PN_lt new old : 0 <= new < 2 ^ 47 -> 0 <= old < 2 ^ 47 ->
  VALID_PN_CHK new old = (old =? 0) || (old <? new).
Proof.
  intros Hn Ho. unfold VALID_PN_CHK. rewrite PN_LESS_spec. f_equal.
  apply eq_true_iff_eq. rewrite Z.eqb_eq, Z.ltb_lt. unfold u64.
  destruct (Z_lt_dec old new).
  - replace ((old - new) mod 2 ^ 64) with (2 ^ 64 + (old - new)) by lia. lia.
  - rewrite Z.mod_small by lia. lia.
Qed.

(** ** Group-addressed replays *)

Section replay.
Context (is_sta : bool).

(** The replay check over a sequence of frames: the frames let through, and the
    counters after them. *)
Fixpoint bcast_run (sec : security_priv) (fs : list recv_frame)
    : res (list recv_frame * security_priv) :=
  match fs with
  | [] => mret ([], sec)
  | f :: fs =>
      '(r, sec) ← recv_bcast_pn_decache is_sta sec f;
      '(acc, sec) ← bcast_run sec fs;
      mret (if r =? _SUCCESS then f :: acc else acc, sec)
  end.

(** The packet number and the key identifier of a frame whose cipher has one. *)
Definition pn_of (f : recv_frame) : option (Z * Z) :=
  let a := rf_attrib f in
  if has_pn (ra_encrypt a) then
    match iv_pn (rx_data f) (ra_hdrlen a) (ra_encrypt a) with Ok x => Some x | _ => None end
  else None.

(** A frame is long enough for the vector its cipher asks for, and the number in
    it is below 2^47. *)
Definition pn_frame (f : recv_frame) : Prop :=
  has_pn (ra_encrypt (rf_attrib f)) = true ->
  exists pn id, pn_of f = Some (pn, id) /\ 0 <= pn < 2 ^ 47 /\ 0 <= id < 4.

(** What a replay check lets through: a number above the last one of its key, or
    any number while there is no last one. *)
Fixpoint fresh_only (last : Z -> Z) (l : list (Z * Z)) : list (Z * Z) :=
  match l with
  | [] => []
  | (pn, id) :: l =>
      if (last id =? 0) || (last id <? pn)
      then (pn, id) :: fresh_only (fun k => if id =? k then pn else last k) l
      else fresh_only last l
  end.

(** Above the last number, or zero after zero. *)
Definition pn_after (a b : Z) : Prop := a < b \/ (a = 0 /\ b = 0).

Definition seq_ok (sec : security_priv) : Prop :=
  length (iv_seq sec) = 4%nat /\ Forall (fun x => 0 <= x < 2 ^ 47) (iv_seq sec).

(** The number last let through for a key. *)
Definition seq_at (sec : security_priv) (k : Z) : Z := at_ (iv_seq sec) k.

Lemma seq_at_lookup sec k : seq_ok sec -> 0 <= k < 4 -> arr (iv_seq sec) k = Ok (seq_at sec k).
Proof.
  intros [Hl _] Hk. unfold arr, seq_at, at_. replace (k <? 0) with false by lia.
  destruct (lookup_lt_is_Some_2 (iv_seq sec) (Z.to_nat k)) as [x Hx]; [lia|].
  rewrite Hx. by rewrite (nth_lookup_Some _ _ _ _ Hx).
Qed.

Lemma seq_at_set sec k k' pn : seq_ok sec -> 0 <= k < 4 -> 0 <= k' < 4 ->
  seq_at (set_iv_seq sec k pn) k' = if k =? k' then pn else seq_at sec k'.
Proof.
  intros [Hl _] Hk Hk'. unfold seq_at, at_. simpl. rewrite !nth_lookup.
  destruct (Z.eqb_spec k k') as [->|N].
  - rewrite list_lookup_insert_eq by lia. done.
  - rewrite list_lookup_insert_ne by lia. done.
Qed.

Lemma seq_ok_set sec k pn : seq_ok sec -> 0 <= pn < 2 ^ 47 -> seq_ok (set_iv_seq sec k pn).
Proof.
  intros [Hl Hf] Hp. split; simpl; [by rewrite length_insert|].
  by apply Forall_insert.
Qed.

Lemma seq_at_range sec k : seq_ok sec -> 0 <= k < 4 -> 0 <= seq_at sec k < 2 ^ 47.
Proof.
  intros Hs Hk. pose proof (seq_at_lookup sec k Hs Hk) as H. destruct Hs as [_ Hf].
  unfold arr in H. replace (k <? 0) with false in H by lia.
  destruct (_ !! _) eqn:E; [|done]. injection H as <-. rewrite Forall_lookup in Hf. by eapply Hf.
Qed.

(** The numbers of one key. *)
Definition of_key (k : Z) (l : list (Z * Z)) : list Z :=
  map fst (filter (fun p => p.2 = k) l).

Lemma fresh_only_ext last last' l : (forall k, 0 <= k < 4 -> last k = last' k) ->
  Forall (fun x => 0 <= x.2 < 4) l -> fresh_only last l = fresh_only last' l.
Proof.
  intros H Hl. revert last last' H. induction Hl as [|[pn id] l Hid _ IH]; intros last last' H; [done|].
  simpl in *. rewrite (H id Hid). destruct (_ || _); [|by apply IH].
  f_equal. apply IH. intros k Hk. destruct (id =? k); auto.
Qed.

Lemma fresh_only_sorted l : Forall (fun x => 0 <= x.1) l -> forall last k, 0 <= last k ->
  StronglySorted pn_after (last k :: of_key k (fresh_only last l)).
Proof.
  induction 1 as [|[pn id] l Hp _ IH]; intros last k Hk; [repeat constructor|]. simpl in *.
  destruct (_ || _) eqn:E; [|by apply IH].
  specialize (IH (fun k => if id =? k then pn else last k) k). simpl in IH.
  unfold of_key in *. rewrite filter_cons. simpl. destruct (Z.eqb_spec id k) as [->|N].
  - rewrite decide_True by done. simpl. specialize (IH Hp). constructor; [done|].
    assert (pn_after (last k) pn) as Hlt.
    { unfold pn_after. apply orb_true_iff in E as [E|E]; lia. }
    constructor; [done|]. apply StronglySorted_inv in IH as [_ IH].
    eapply Forall_impl; [exact IH|]. unfold pn_after in *. simpl. lia.
  - rewrite decide_False by done. by apply IH.
Qed.

Context (Hsta : is_sta = true).

Lemma bcast_step sec f pn id : seq_ok sec -> pn_of f = Some (pn, id) ->
  0 <= pn < 2 ^ 47 -> 0 <= id < 4 ->
  recv_bcast_pn_decache is_sta sec f =
    Ok (if (seq_at sec id =? 0) || (seq_at sec id <? pn)
        then (_SUCCESS, set_iv_seq sec id pn) else (_FAIL, sec)).
Proof.
  intros Hs Hp Hpn Hid. unfold pn_of in Hp. unfold recv_bcast_pn_decache.
  destruct (has_pn _); [|done]. destruct (iv_pn _ _ _) as [x| |]; try done.
  injection Hp as ->. rewrite Hsta, bind_Ok. simpl andb. cbv beta iota.
  rewrite seq_at_lookup, bind_Ok by done. pose proof (seq_at_range sec id Hs Hid).
  rewrite VALID_PN_lt by lia. by destruct (_ || _).
Qed.

(** A frame of another cipher passes. *)
Lemma bcast_other sec f : has_pn (ra_encrypt (rf_attrib f)) = false ->
  recv_bcast_pn_decache is_sta sec f = Ok (_SUCCESS, sec).
Proof. unfold recv_bcast_pn_decache. by intros ->. Qed.

Lemma pn_of_range fs : Forall pn_frame fs ->
  Forall (fun x => 0 <= x.1 /\ 0 <= x.2 < 4) (omap pn_of fs).
Proof.
  induction 1 as [|f fs Hf _ IH]; [constructor|]. cbn [omap list_omap].
  destruct (pn_of f) as [[pn id]|] eqn:E; [|done]. constructor; [|done].
  unfold pn_frame in Hf. unfold pn_of in E, Hf. destruct (has_pn _); [|done].
  destruct Hf as (pn' & id' & H & ? & ?); [done|]. rewrite E in H. injection H as -> ->. simpl. lia.
Qed.

Lemma bcast_run_spec sec fs : seq_ok sec -> Forall pn_frame fs ->
  exists acc sec', bcast_run sec fs = Ok (acc, sec') /\ seq_ok sec' /\
    omap pn_of acc = fresh_only (seq_at sec) (omap pn_of fs) /\
    filter (fun f => pn_of f = None) acc = filter (fun f => pn_of f = None) fs.
Proof.
  intros Hs Hf.
  revert sec Hs. induction Hf as [|f fs Hf Hfs IH]; intros sec Hs; [by exists [], sec|].
  cbn [bcast_run]. cbn [omap list_omap]. rewrite filter_cons.
  destruct (pn_of f) as [[pn id]|] eqn:Ep.
  - destruct Hf as (pn' & id' & E & Hpn & Hid); [unfold pn_of in Ep; by destruct (has_pn _)|].
    rewrite Ep in E. injection E as <- <-. rewrite (decide_False (P := Some _ = None)) by done.
    rewrite (bcast_step sec f pn id), bind_Ok by done. cbn [fresh_only].
    destruct (_ || _); cbv beta iota.
    + destruct (IH (set_iv_seq sec id pn)) as (acc & sec' & -> & Hs' & HA & HF); [by apply seq_ok_set|].
      rewrite bind_Ok. exists (f :: acc), sec'. split; [done|]. split; [done|].
      cbn [omap list_omap]. rewrite filter_cons, Ep, (decide_False (P := Some _ = None)) by done.
      split; [|done]. f_equal. fold (omap pn_of acc). rewrite HA. apply fresh_only_ext.
      * intros k Hk. by rewrite seq_at_set.
      * eapply Forall_impl; [by apply pn_of_range|]. simpl. tauto.
    + destruct (IH sec Hs) as (acc & sec' & -> & Hs' & HA & HF). rewrite bind_Ok. by exists acc, sec'.
  - rewrite bcast_other, bind_Ok; cycle 1.
    { destruct (has_pn _) eqn:E; [|done]. destruct (Hf E) as (pn & id & E' & _). congruence. }
    cbv beta iota. destruct (IH sec Hs) as (acc & sec' & -> & Hs' & HA & HF).
    rewrite bind_Ok. exists (f :: acc), sec'. split; [done|]. split; [done|].
    cbn [omap list_omap]. rewrite filter_cons, Ep, !(decide_True (P := @None (Z * Z) = None)) by done.
    split; [done|]. by rewrite HF.
Qed.

(** C21: In a station, with counters below 2^47, of any sequence of group-
    addressed frames that are long enough for their packet numbers and have
    them below 2^47, the replay check lets through exactly those whose number
    is above the last one let through under their key, or whose key has no
    last number but zero; so for each key the numbers let through increase
    strictly, except that zero may come again as long as nothing but zero has
    come. Frames of ciphers without packet numbers pass unchecked. The check
    always returns. *)
Theorem bcast_no_replay sec fs : seq_ok sec -> Forall pn_frame fs ->
  exists acc sec', bcast_run sec fs = Ok (acc, sec') /\ seq_ok sec' /\
    omap pn_of acc = fresh_only (seq_at sec) (omap pn_of fs) /\
    filter (fun f => pn_of f = None) acc = filter (fun f => pn_of f = None) fs /\
    forall k, 0 <= k < 4 -> StronglySorted pn_after (seq_at sec k :: of_key k (omap pn_of acc)).
Proof.
  intros Hs Hf. destruct (bcast_run_spec sec fs Hs Hf) as (acc & sec' & Hr & Hs' & HA & HF).
  exists acc, sec'. split_and!; try done.
  intros k Hk. rewrite HA. apply fresh_only_sorted; [|by apply seq_at_range].
  eapply Forall_impl; [by apply pn_of_range|]. simpl. tauto.
Qed.

(** The number last let through is refused when it comes again, and a number
    below it too. *)
Lemma bcast_replay_refused sec f pn id : seq_ok sec -> has_pn (ra_encrypt (rf_attrib f)) = true ->
  iv_pn (rx_data f) (ra_hdrlen (rf_attrib f)) (ra_encrypt (rf_attrib f)) = Ok (pn, id) ->
  0 <= id < 4 -> 0 <= pn <= seq_at sec id -> seq_at sec id <> 0 ->
  recv_bcast_pn_decache is_sta sec f = Ok (_FAIL, sec).
Proof.
  intros Hs He Hp Hid Hpn Hnz. unfold recv_bcast_pn_decache.
  rewrite He, Hsta, Hp, bind_Ok. simpl andb. cbv beta iota.
  rewrite seq_at_lookup, bind_Ok by done. pose proof (seq_at_range sec id Hs Hid).
  rewrite VALID_PN_lt by lia. replace (_ || _) with false by lia. done.
Qed.

End replay.

(** The check of a frame addressed to the station itself never refuses a frame
    with a valid traffic identifier: a replayed number is let through. *)
Lemma ucast_replay_passes sta f r sta' :
  recv_ucast_pn_decache sta f = Ok (r, sta') -> ra_priority (rf_attrib f) <= 15 -> r = _SUCCESS.
Proof.
  unfold recv_ucast_pn_decache. intros H Hp. replace (_ >? 15) with false in H by lia.
  destruct (has_pn _); [|by injection H].
  apply bind_Ok_inv in H as ([pn id] & _ & H). apply bind_Ok_inv in H as (iv & _ & H).
  apply bind_Ok_inv in H as ([cur id'] & _ & H). destruct (negb _); [by injection H|].
  apply bind_Ok_inv in H as (iv' & _ & H). by injection H.
Qed.

(** ** Duplicates *)

Definition sta_ok (s : rx_sta) : Prop :=
  length (st_tid_rxseq s) = 16%nat /\ length (st_bmc_tid_rxseq s) = 16%nat.

Lemma arr_in {A} (l : list A) i : 0 <= i < zlen l -> exists x, arr l i = Ok x.
Proof.
  intros Hi. unfold arr. replace (i <? 0) with false by lia.
  destruct (lookup_lt_is_Some_2 l (Z.to_nat i)) as [x ->]; [unfold zlen in Hi; lia|]. by exists x.
Qed.

Lemma slot_get_set s tid k v : sta_ok s -> 0 <= tid <= 15 -> slot_get (slot_set s tid k v) tid k = Ok v.
Proof.
  intros [H1 H2] Ht. destruct k; try done; simpl; unfold arr; replace (tid <? 0) with false by lia.
  all: rewrite list_lookup_insert_eq by lia; done.
Qed.

Lemma slot_get_total s tid k : sta_ok s -> 0 <= tid <= 15 -> exists v, slot_get s tid k = Ok v.
Proof.
  intros [H1 H2] Ht. destruct k; simpl; try (by eexists); apply arr_in; unfold zlen; lia.
Qed.

(** A frame that passes the duplicate check is refused when it comes again, and
    counted; a retransmission with other numbers in between is not looked for. *)
Lemma duplicate_refused sta f : sta_ok sta -> 0 <= ra_priority (rf_attrib f) <= 15 ->
  exists r sta', recv_decache sta f = Ok (r, sta') /\
    (r = _SUCCESS -> exists sta'', recv_decache sta' f = Ok (_FAIL, sta'') /\
       st_duplicate_cnt sta'' = u32 (st_duplicate_cnt sta' + 1)).
Proof.
  intros Hs Ht. unfold recv_decache. set (seq := u16 _).
  replace (_ >? 15) with false by lia.
  destruct (slot_get_total sta (ra_priority (rf_attrib f)) (slot_of (rf_attrib f)) Hs Ht) as [v Hv].
  rewrite Hv, bind_Ok. destruct (Z.eqb_spec seq v).
  - by do 2 eexists.
  - do 2 eexists. split; [done|]. intros _. rewrite slot_get_set, bind_Ok, Z.eqb_refl by done.
    by eexists.
Qed.

(** ** The Michael check *)

Section chkmic.
Context (key_index now HZ : Z).

(** For a frame of a known station whose lengths are consistent, the check
    passes exactly when the eight bytes behind the payload are Michael of the
    frame's addresses, priority and payload under the key for it; a failure of
    a deciphered frame is reported unless its group key index is stale. *)
Theorem chkmic_sound w f sta mickey h1 da sa payload mic :
  let a := rf_attrib f in
  ra_encrypt a = _TKIP_ -> rtw_get_stainfo w (ra_ta a) = Some sta ->
  (if IS_MCAST (ra_ra a) then binstallGrpkey (rw_sec w) = true /\
      exists k, arr (dot118021XGrprxmickey (rw_sec w)) (ra_key_index a) = Ok k /\ mickey = take 8 k
   else mickey = take 8 (sk_tkiprxmickey (st_keys sta))) ->
  bytes mickey -> zlen mickey = 8 -> bytes (rx_data f) -> rd (rx_data f) 1 = Ok h1 ->
  at_off (rx_data f) (da_off h1) da -> zlen da = 6 ->
  at_off (rx_data f) (sa_off h1) sa -> zlen sa = 6 ->
  at_off (rx_data f) (ra_hdrlen a + ra_iv_len a) (payload ++ mic) -> zlen mic = 8 ->
  rx_len f = ra_hdrlen a + ra_iv_len a + zlen payload + 8 + ra_icv_len a -> rx_len f < 2 ^ 32 ->
  0 <= ra_hdrlen a -> 0 <= ra_iv_len a -> 0 <= ra_icv_len a ->
  exists w', recvframe_chkmic key_index now HZ w f =
    Ok (if bool_decide (mic = michael_ref mickey (da ++ sa ++ [u8 (ra_priority a); 0; 0; 0] ++ payload))
        then _SUCCESS else _FAIL, recvframe_pull_tail f 8, w').
Proof.
  intros a He Hsta Hkey Hmb Hml Hb Hh1 Hda Hdl Hsa Hsl Hpl Hml' Hlen H32 H0 H1 H2.
  unfold recvframe_chkmic. fold a. rewrite He, Z.eqb_refl, Hsta. cbn [negb].
  replace (IS_MCAST (ra_ra a) && _) with false
    by (destruct (IS_MCAST _); [destruct Hkey as [-> _]|]; done).
  replace (if IS_MCAST (ra_ra a) then _ else _) with (Ok mickey)
    by (destruct (IS_MCAST _); [by destruct Hkey as (_ & k & -> & ->)|by rewrite Hkey]).
  rewrite bind_Ok.
  replace (u32 (_ - _ - _ - _ - 8)) with (zlen payload).
  2:{ rewrite u32_small; [lia|]. pose proof (zlen_nonneg payload). lia. }
  apply at_off_app in Hpl as [Hp Hm].
  rewrite (tkip_mic_refines mickey (rx_data f) 0 _ _ h1 da sa payload), bind_Ok by done.
  rewrite (at_off_rd_n _ _ mic), bind_Ok by done.
  rewrite (bool_decide_ext (michael_ref _ _ = mic) (mic = michael_ref mickey (da ++ sa ++ [u8 (ra_priority a); 0; 0; 0] ++ payload))) by done.
  case_bool_decide; cbn [negb]; by eexists.
Qed.

End chkmic.

(** Two Michael failures within sixty seconds start the countermeasures: for
    sixty seconds from the second, association is refused. *)
Theorem mic_failures_block t1 t2 HZ w sta sta' b b' passing :
  0 < t1 -> t1 <= t2 < 2 ^ 64 -> t2 - t1 < 60 * HZ -> rw_last_mic_err_time w = 0 ->
  let w' := rtw_handle_tkip_mic_err t2 HZ (rtw_handle_tkip_mic_err t1 HZ w sta b) sta' b' in
  btkip_countermeasure (rw_sec w') = true /\ rw_last_mic_err_time w' = 0 /\
  rw_mic_reports w' = rw_mic_reports w ++ [(sta, b); (sta', b')] /\
  (u32 (passing t2) <= 60000 -> rtw_handle_tkip_countermeasure passing (rw_sec w') = (_FAIL, rw_sec w')).
Proof.
  intros H1 H2 Hd Hl. unfold rtw_handle_tkip_mic_err. rewrite Hl. cbn [Z.eqb rw_last_mic_err_time].
  replace (t1 =? 0) with false by lia. unfold u64. rewrite Z.mod_small by lia.
  replace (t2 - t1 <? 60 * HZ) with true by lia. cbn. rewrite <- app_assoc. split_and!; try done.
  intros Hp. unfold rtw_handle_tkip_countermeasure. cbn.
  replace (_ >? 60000) with false by lia. done.
Qed.

(** ** The port *)

(** While a station is blocked, only its EAPOL frames come through. *)
Lemma port_blocked w f sta : dot11AuthAlgrthm (rw_sec w) = dot11AuthAlgrthm_8021X ->
  rtw_get_stainfo w (ra_ta (rf_attrib f)) = Some sta -> st_blocked sta = true ->
  portctrl w f = Ok true ->
  RTW_GET_BE16 (rx_data f) (ra_hdrlen (rf_attrib f) + ra_iv_len (rf_attrib f) + LLC_HEADER_SIZE) = Ok 0x888e.
Proof.
  intros Ha Hs Hb. unfold portctrl. rewrite Ha, Hs, Hb. simpl.
  intros (t & -> & [= E])%bind_Ok_inv. apply Z.eqb_eq in E. by subst.
Qed.

(** ** Witness *)

(** CCMP frames with the numbers 0, 0, 5, 5, 0 and 9 under key 1, and one of WEP:
    the second 5 and the last 0 are replays. *)
Definition ex_pn_frame (e n : Z) : recv_frame :=
  mkRf n (mkRa e 4 8 8 1 true true 0 true 0 0 false [1; 0; 0; 0; 0; 0] [2; 0; 0; 0; 0; 0])
    ([8; 2; 0; 0] ++ [n; 0; 0; 0x60; 0; 0; 0; 0]) 12 12 [] 0.

Definition ex_rsec : security_priv :=
  mkSec 2 0 [] [] 1 [] [] true 1 false false false 0 [0; 0; 0; 0].

Lemma ex_pn_frames_ok : Forall pn_frame (ex_pn_frame _WEP40_ 7 :: map (ex_pn_frame _AES_) [0; 0; 5; 5; 0; 9]).
Proof.
  constructor; [intros [=]|]. apply Forall_map, Forall_forall. intros n Hn _. exists n, 1. simpl.
  repeat (apply list_elem_of_In in Hn as [<-|Hn%list_elem_of_In] || (destruct Hn as [<-|Hn]) ||
    (apply elem_of_cons in Hn as [->|Hn])); try (split; [vm_compute; reflexivity|lia]).
  by apply elem_of_nil in Hn.
Qed.

Lemma bcast_no_replay_witness :
  let fs := ex_pn_frame _WEP40_ 7 :: map (ex_pn_frame _AES_) [0; 0; 5; 5; 0; 9] in
  (exists acc sec', bcast_run true ex_rsec fs = Ok (acc, sec') /\
     map (fun f => at_ (rx_data f) 4) acc = [7; 0; 0; 5; 9]) /\
  exists acc sec', bcast_run true ex_rsec fs = Ok (acc, sec') /\ seq_ok sec' /\
    omap pn_of acc = fresh_only (seq_at ex_rsec) (omap pn_of fs) /\
    filter (fun f => pn_of f = None) acc = filter (fun f => pn_of f = None) fs /\
    forall k, 0 <= k < 4 -> StronglySorted pn_after (seq_at ex_rsec k :: of_key k (omap pn_of acc)).
Proof.
  intros fs. split; [eexists _, _; split; vm_compute; reflexivity|].
  apply (bcast_no_replay true eq_refl); [|exact ex_pn_frames_ok].
  split; [reflexivity|]. by_compute.
Defined.
