(* ===== verification/SecDefrag.v ===== *)
(** * Receive: reassembly and the data path in front of the upper layer

    src/core/rtw_recv.c: the fragments of a station ([recvframe_chk_defrag],
    [recvframe_defrag]), the pointer operations of src/include/rtw_recv.h they
    use, the size of a received frame's buffer ([core_alloc_recvframe_pkt]), and
    the order of the checks ([rtw_core_rx_data_pre_process]) with what
    [rtw_core_rx_process] does with its result.

    A frame of a queue is the frame itself; the frames given back to the pool
    are the identities in [rw_freed], in order.  Statistics are left out. *)

From S2P Require Import Prelude IeBuf SecRc4 SecTkip SecRecv.

Inductive core_rx :=
  | CORE_RX_CONTINUE | CORE_RX_DONE | CORE_RX_DROP | CORE_RX_FAIL
  | CORE_RX_GO_SHORTCUT | CORE_RX_DEFRAG.

#[export] Instance core_rx_eq_dec : EqDecision core_rx.
Proof. solve_decision. Defined.

(** ** Pointer operations *)

Definition recvframe_pull (f : recv_frame) (sz : Z) : recv_frame :=
  if sz >? rx_tail f then f
  else mkRf (rf_id f) (rf_attrib f) (drop (Z.to_nat sz) (rx_data f)) (u32 (rx_len f - sz))
         (rx_tail f - sz) (rf_psta f) (rf_keytrack f).

Definition recvframe_put (f : recv_frame) (sz : Z) : recv_frame :=
  if rx_tail f + sz >? zlen (rx_data f) then f
  else mkRf (rf_id f) (rf_attrib f) (rx_data f) (u32 (rx_len f + sz))
         (rx_tail f + sz) (rf_psta f) (rf_keytrack f).

(** Bytes allocated for a received frame, before alignment. *)
Definition core_alloc_sz (length : Z) (more_frag : bool) (frag_num : Z) : Z :=
  if more_frag && (frag_num =? 0) then if length <=? 1650 then 1664 else u32 (length + 14)
  else u32 (length + 14).

(** ** Reassembly *)

Definition CCMPH_2_PN (ch : Z) : Z :=
  Z.lor (Z.land ch 0xffff) (Z.shiftr (Z.land ch 0xffffffff00000000) 16).

Definition pn_consecutive_cipher (e : Z) : bool :=
  (e =? _AES_) || (e =? _CCMP_256_) || (e =? _GCMP_) || (e =? _GCMP_256_).

(** [CCMPH_2_PN(le64_to_cpu( *(u64 * )(pdata + hdrlen)))]. *)
Definition frame_pn (f : recv_frame) : res Z :=
  v ← rd_n (rx_data f) (ra_hdrlen (rf_attrib f)) 8; mret (CCMPH_2_PN (pn_val v)).

Definition ra_with_icv_len (a : rx_pkt_attrib) (n : Z) : rx_pkt_attrib :=
  mkRa (ra_encrypt a) (ra_hdrlen a) (ra_iv_len a) n (ra_key_index a) (ra_bdecrypted a)
    (ra_privacy a) (ra_priority a) (ra_qos a) (ra_seq_num a) (ra_frag_num a) (ra_mfrag a)
    (ra_ra a) (ra_ta a).

(** The payload of [nf] behind the payload of [pf]: the copy comes before the
    check of [recvframe_put]. *)
Definition defrag_append (pf nf : recv_frame) : res recv_frame :=
  let nf := recvframe_pull nf (u8 (ra_hdrlen (rf_attrib nf) + ra_iv_len (rf_attrib nf))) in
  let pf := recvframe_pull_tail pf (ra_icv_len (rf_attrib pf)) in
  src ← rd_n (rx_data nf) 0 (rx_len nf);
  d ← wr (rx_data pf) (rx_tail pf) src;
  let pf := recvframe_put (rf_with_data pf d) (rx_len nf) in
  mret (rf_with_attrib pf (ra_with_icv_len (rf_attrib pf) (ra_icv_len (rf_attrib nf)))).

(** The fragments after the first; [None] when a check fails. *)
Fixpoint defrag_loop (pf : recv_frame) (curfragnum cur_pn : Z) (q : list recv_frame)
    : res (option recv_frame) :=
  match q with
  | [] => mret (Some pf)
  | nf :: q =>
      o ← (if pn_consecutive_cipher (ra_encrypt (rf_attrib nf)) then
             pkt_pn ← frame_pn nf;
             mret (if pkt_pn =? u64 (cur_pn + 1) then Some pkt_pn else None)
           else mret (Some cur_pn));
      match o with
      | None => mret None
      | Some cur_pn =>
          if negb (rf_keytrack pf =? rf_keytrack nf) then mret None
          else if negb (curfragnum =? ra_frag_num (rf_attrib nf)) then mret None
          else pf ← defrag_append pf nf; defrag_loop pf (u8 (curfragnum + 1)) cur_pn q
      end
  end.

(** The reassembled frame, or [NULL], and the frames freed in order.  The queue
    is empty afterwards. *)
Definition recvframe_defrag (q : list recv_frame) : res (option recv_frame * list Z) :=
  match q with
  | [] => Oob
  | pf :: rest =>
      cur_pn ← (if pn_consecutive_cipher (ra_encrypt (rf_attrib pf)) then frame_pn pf else mret 0);
      if negb (0 =? ra_frag_num (rf_attrib pf)) then mret (None, map rf_id (pf :: rest))
      else
        o ← defrag_loop pf 1 cur_pn rest;
        match o with
        | None => mret (None, map rf_id (pf :: rest))
        | Some f => mret (Some f, map rf_id rest)
        end
  end.

(** ** The queue of a station *)

Definition sta_set_defrag_q (q : list recv_frame) (s : rx_sta) : rx_sta :=
  mkSta (st_keys s) (st_hw_decrypted s) (st_blocked s) (st_tid_rxseq s) (st_iv s) (st_last_tid s)
    (st_bmc_tid_rxseq s) (st_nonqos_rxseq s) (st_nonqos_bmc_rxseq s) (st_duplicate_cnt s)
    q (st_keytrack s).

Definition rw_set_q (w : rx_world) (k : list Z) (q : list recv_frame) : rx_world :=
  rw_with_stas w (alter (sta_set_defrag_q q) k (rw_stas w)).
Definition rw_free (w : rx_world) (ids : list Z) : rx_world :=
  mkRw (rw_sec w) (rw_crc w) (rw_self w) (rw_stas w) (rw_last_mic_err_time w) (rw_mic_reports w)
    (rw_freed w ++ ids).

(** The station whose queue a frame uses: [psta] and [pdefrag_q]. *)
Definition defrag_station (w : rx_world) (f : recv_frame) : res (option (list Z * rx_sta)) :=
  let k := sta_addr w (ra_ta (rf_attrib f)) in
  match rw_stas w !! k with
  | Some s => mret (Some (k, s))
  | None =>
      t ← frame_type f;
      mret (if u8 t =? WIFI_DATA then None else (fun s => (rw_self w, s)) <$> rw_stas w !! rw_self w)
  end.

(** The result, [*pprecv_frame] after the call, and the adapter.  The drop of a
    group-addressed fragment is the value [ret] has before the two branches for
    fragments assign it again. *)
Definition recvframe_chk_defrag (w : rx_world) (f : recv_frame)
    : res (core_rx * option recv_frame * rx_world) :=
  let ismfrag := ra_mfrag (rf_attrib f) in
  let fragnum := ra_frag_num (rf_attrib f) in
  st ← defrag_station w f;
  let whole := negb ismfrag && (fragnum =? 0) in
  let ret := if whole then CORE_RX_CONTINUE
             else if IS_MCAST (ra_ra (rf_attrib f)) then CORE_RX_DROP else CORE_RX_CONTINUE in
  let f := match st with
           | Some (_, s) => if whole then f else rf_with_keytrack f (st_keytrack s)
           | None => f
           end in
  if ismfrag then
    match st with
    | Some (k, s) =>
        let '(q, w) := if (fragnum =? 0) && negb (bool_decide (st_defrag_q s = []))
                       then ([], rw_free w (map rf_id (st_defrag_q s)))
                       else (st_defrag_q s, w) in
        mret (CORE_RX_DEFRAG, Some f, rw_set_q w k (q ++ [f]))
    | None => mret (CORE_RX_DROP, Some f, w)
    end
  else if negb (fragnum =? 0) then
    match st with
    | Some (k, s) =>
        '(o, freed) ← recvframe_defrag (st_defrag_q s ++ [f]);
        let w := rw_free (rw_set_q w k []) freed in
        mret (match o with None => CORE_RX_DROP | Some _ => CORE_RX_CONTINUE end, o, w)
    | None => mret (CORE_RX_DROP, Some f, w)
    end
  else mret (ret, Some f, w).

(** ** The checks in order *)

Section process.
Context (_rtw_ccmp_decrypt _rtw_gcmp_decrypt : list Z -> Z -> Z -> list Z -> Z -> res (Z * list Z)).
Context (mlme_key_index now HZ : Z).

Definition rtw_core_rx_data_pre_process (w : rx_world) (f : recv_frame)
    : res (core_rx * option recv_frame * rx_world) :=
  '(ok, f, w) ← decryptor _rtw_ccmp_decrypt _rtw_gcmp_decrypt w f;
  if negb ok then mret (CORE_RX_DROP, Some f, w)
  else
    '(ret, o, w) ← recvframe_chk_defrag w f;
    match ret, o with
    | CORE_RX_CONTINUE, Some f =>
        '(r, f, w) ← (if ra_privacy (rf_attrib f) then recvframe_chkmic mlme_key_index now HZ w f
                      else mret (_SUCCESS, f, w));
        if r =? _FAIL then mret (CORE_RX_DROP, Some f, w)
        else
          ok ← portctrl w f;
          mret (if (ok : bool) then CORE_RX_CONTINUE else CORE_RX_DROP, Some f, w)
    | _, _ => mret (ret, o, w)
    end.

(** What becomes of one frame: handed on, kept in a queue, or freed. *)
Definition rx_process_one (w : rx_world) (f : recv_frame) : res (option recv_frame * rx_world) :=
  '(ret, o, w) ← rtw_core_rx_data_pre_process w f;
  match ret with
  | CORE_RX_DEFRAG => mret (None, w)
  | CORE_RX_CONTINUE => mret (o, w)
  | _ => mret (None, match o with Some f => rw_free w [rf_id f] | None => w end)
  end.

Fixpoint rx_process_all (w : rx_world) (fs : list recv_frame) : res (list recv_frame * rx_world) :=
  match fs with
  | [] => mret ([], w)
  | f :: fs =>
      '(o, w) ← rx_process_one w f;
      '(out, w) ← rx_process_all w fs;
      mret (option_list o ++ out, w)
  end.
End process.

(** * Theorems

    The reassembled frame, the checks it has passed, the room the first
    fragment's buffer must have, what becomes of group-addressed fragments, and
    the conservation of frames through the whole receive path. *)

(** ** The parts of a fragment *)

Record frag_parts := mkFp {
  fp_hdr : list Z; fp_iv : list Z; fp_payload : list Z; fp_icv : list Z; fp_slack : list Z
}.

Definition fp_front (p : frag_parts) : list Z := fp_hdr p ++ fp_iv p ++ fp_payload p.
Definition fp_len (p : frag_parts) : Z := zlen (fp_front p) + zlen (fp_icv p).

(** The frame has these parts, and its buffer ends behind [fp_slack]. *)
Definition fp_wf (f : recv_frame) (p : frag_parts) : Prop :=
  rx_data f = fp_front p ++ fp_icv p ++ fp_slack p /\
  rx_len f = fp_len p /\ rx_tail f = fp_len p /\
  ra_hdrlen (rf_attrib f) = zlen (fp_hdr p) /\ ra_iv_len (rf_attrib f) = zlen (fp_iv p) /\
  ra_icv_len (rf_attrib f) = zlen (fp_icv p) /\
  zlen (fp_hdr p) + zlen (fp_iv p) < 256 /\ zlen (rx_data f) < 2 ^ 31.

(** A fragment's payload and check value behind another's payload. *)
Definition fp_merge (p q : frag_parts) : frag_parts :=
  mkFp (fp_hdr p) (fp_iv p) (fp_payload p ++ fp_payload q) (fp_icv q)
    (drop (length (fp_payload q ++ fp_icv q)) (fp_icv p ++ fp_slack p)).

(** The room left behind the payload. *)
Definition fp_room (p q : frag_parts) : Prop :=
  zlen (fp_payload q) + zlen (fp_icv q) <= zlen (fp_icv p) + zlen (fp_slack p).

(** What identifies a frame, apart from its memory. *)
Definition same_frame (f f' : recv_frame) : Prop :=
  rf_id f' = rf_id f /\ rf_keytrack f' = rf_keytrack f /\ rf_psta f' = rf_psta f /\
  ra_frag_num (rf_attrib f') = ra_frag_num (rf_attrib f) /\
  ra_encrypt (rf_attrib f') = ra_encrypt (rf_attrib f) /\
  ra_ta (rf_attrib f') = ra_ta (rf_attrib f) /\ ra_ra (rf_attrib f') = ra_ra (rf_attrib f).

#[export] Instance same_frame_refl : Reflexive same_frame.
Proof. intros f. repeat split. Qed.
#[export] Instance same_frame_trans : Transitive same_frame.
Proof. unfold same_frame. intros f g h ? ?. intuition congruence. Qed.

(** The source of the copy: payload and check value of the second fragment. *)
Lemma pull_spec f p : fp_wf f p ->
  let g := recvframe_pull f (u8 (ra_hdrlen (rf_attrib f) + ra_iv_len (rf_attrib f))) in
  rd_n (rx_data g) 0 (rx_len g) = Ok (fp_payload p ++ fp_icv p) /\
  rx_len g = zlen (fp_payload p ++ fp_icv p) /\ rf_attrib g = rf_attrib f.
Proof.
  intros (Hd & Hl & Ht & Hh & Hi & Hv & Hs & HM). unfold recvframe_pull.
  rewrite Hh, Hi. unfold u8. rewrite Z.mod_small by zl.
  unfold fp_len, fp_front in *. rewrite Hd, Hl, Ht in *.
  replace (_ >? _) with false by zl. cbv zeta. cbn [rx_data rx_len rf_attrib].
  rewrite u32_small by zl.
  replace (zlen (fp_hdr p ++ fp_iv p ++ fp_payload p) + zlen (fp_icv p) - (zlen (fp_hdr p) + zlen (fp_iv p)))
    with (zlen (fp_payload p ++ fp_icv p)) by zl.
  split; [|done].
  replace (Z.to_nat (zlen (fp_hdr p) + zlen (fp_iv p))) with (length (fp_hdr p ++ fp_iv p))
    by (rewrite length_app; unfold zlen; lia).
  rewrite (app_assoc (fp_hdr p)), <- (app_assoc (fp_hdr p ++ fp_iv p)), drop_app_length, app_assoc.
  apply at_off_rd_n; [|done]. apply at_off_0.
Qed.

Lemma pull_tail_spec f p : fp_wf f p ->
  let g := recvframe_pull_tail f (ra_icv_len (rf_attrib f)) in
  rx_tail g = zlen (fp_front p) /\ rx_len g = zlen (fp_front p) /\ rx_data g = rx_data f /\
  rf_attrib g = rf_attrib f /\ rf_id g = rf_id f /\ rf_psta g = rf_psta f /\ rf_keytrack g = rf_keytrack f.
Proof.
  intros (Hd & Hl & Ht & Hh & Hi & Hv & Hs & HM). unfold recvframe_pull_tail.
  rewrite Hv, Ht, Hl. unfold fp_len. rewrite Hd in HM. replace (_ <? 0) with false by zl. simpl.
  rewrite u32_small by zl. split_and!; done || lia.
Qed.

Lemma defrag_append_spec f p nf q : fp_wf f p -> fp_wf nf q -> fp_room p q ->
  exists f', defrag_append f nf = Ok f' /\ fp_wf f' (fp_merge p q) /\ same_frame f f'.
Proof.
  intros Hf Hn Hr. unfold defrag_append. cbv zeta.
  pose proof (pull_spec nf q Hn) as (Hsrc & Hsl & Hsa). cbv zeta in *.
  pose proof (pull_tail_spec f p Hf) as (Gt & Gl & Gd & Ga & Gi & Gp & Gk). cbv zeta in *.
  rewrite Hsrc, bind_Ok, Gd, Gt, Hsl, Hsa.
  destruct Hf as (Hd & Hl & Ht & Hh & Hi & Hv & Hs & HM).
  set (new := fp_payload q ++ fp_icv q) in *. set (old := fp_icv p ++ fp_slack p).
  assert (zlen new <= zlen old) as Hle by (unfold new, old, fp_room in *; zl).
  assert (rx_data f = fp_front p ++ take (length new) old ++ drop (length new) old) as Hsplit
    by (by rewrite take_drop, Hd).
  rewrite Hsplit, (wr_mid _ _ _ new), bind_Ok; [|done|unfold zlen in *; rewrite length_take; lia].
  unfold recvframe_put. cbn [rx_tail rx_data rx_len rf_with_data rf_attrib rf_id rf_psta rf_keytrack].
  rewrite Gt, Gl.
  replace (_ >? _) with false by zl. eexists. split; [reflexivity|].
  assert (zlen (fp_front p) + zlen new <= zlen (rx_data f)) as Hb by (rewrite Hd; fold old; zl).
  split.
  - unfold fp_wf, rf_with_attrib. cbn. rewrite Ga, u32_small by zl.
    destruct Hn as (_ & _ & _ & _ & _ & Hnv & _).
    assert (fp_front (fp_merge p q) = fp_front p ++ fp_payload q) as Hfr.
    { unfold fp_front, fp_merge. simpl. by rewrite <- !app_assoc. }
    unfold fp_len. rewrite Hfr. split_and!; try done.
    + unfold new, old, fp_front. by rewrite <- !app_assoc.
    + unfold new. simpl fp_icv. zl.
    + unfold new. simpl fp_icv. zl.
    + replace (zlen (fp_front p ++ new ++ drop (length new) old)) with (zlen (rx_data f)); [done|].
      rewrite Hd. fold old. unfold zlen in *. rewrite !length_app, length_drop. lia.
  - unfold same_frame, rf_with_attrib. cbn. by rewrite Ga.
Qed.

(** Without room the copy leaves the buffer: the check of [recvframe_put] comes
    after it. *)
Lemma defrag_append_overflow f p nf q : fp_wf f p -> fp_wf nf q -> ~ fp_room p q ->
  defrag_append f nf = Oob.
Proof.
  intros Hf Hn Hr. unfold defrag_append. cbv zeta.
  pose proof (pull_spec nf q Hn) as (Hsrc & Hsl & Hsa). cbv zeta in *.
  pose proof (pull_tail_spec f p Hf) as (Gt & Gl & Gd & _). cbv zeta in *.
  rewrite Hsrc, bind_Ok, Gd, Gt. destruct Hf as (Hd & _). unfold wr, fp_room in *. rewrite Hd.
  replace (zlen (fp_payload q ++ fp_icv q) =? 0) with false by zl.
  replace (_ || _) with true by zl. done.
Qed.

(** ** The reassembled frame *)

(** Every fragment fits behind those before it. *)
Fixpoint fp_rooms (p : frag_parts) (qs : list frag_parts) : Prop :=
  match qs with
  | [] => True
  | q :: qs => fp_room p q /\ fp_rooms (fp_merge p q) qs
  end.

Definition fp_merges (p : frag_parts) (qs : list frag_parts) : frag_parts := fold_left fp_merge qs p.

Lemma fp_merges_parts qs : forall p,
  fp_hdr (fp_merges p qs) = fp_hdr p /\ fp_iv (fp_merges p qs) = fp_iv p /\
  fp_payload (fp_merges p qs) = fp_payload p ++ concat (map fp_payload qs).
Proof.
  induction qs as [|q qs IH]; intros p; simpl; [by rewrite app_nil_r|].
  destruct (IH (fp_merge p q)) as (-> & -> & ->). simpl. by rewrite <- app_assoc.
Qed.

(** The checks of one fragment after the first, as the [i]-th of its queue. *)
Definition frag_follows (f0 : recv_frame) (pn0 : Z) (i : Z) (f : recv_frame) : Prop :=
  rf_keytrack f = rf_keytrack f0 /\ ra_frag_num (rf_attrib f) = i /\
  (pn_consecutive_cipher (ra_encrypt (rf_attrib f)) = true -> frame_pn f = Ok (pn0 + i)).

Fixpoint frags_follow (f0 : recv_frame) (pn0 i : Z) (fs : list recv_frame) : Prop :=
  match fs with
  | [] => True
  | f :: fs => frag_follows f0 pn0 i f /\ frags_follow f0 pn0 (i + 1) fs
  end.

(** All fragments of the queue are enciphered alike. *)
Definition one_cipher (fs : list recv_frame) (e : bool) : Prop :=
  Forall (fun f => pn_consecutive_cipher (ra_encrypt (rf_attrib f)) = e) fs.

Lemma defrag_loop_merges f0 pn0 e fs ps : Forall2 fp_wf fs ps -> forall pf p i cur,
  fp_wf pf p -> same_frame f0 pf -> frags_follow f0 pn0 i fs -> fp_rooms p ps -> one_cipher fs e ->
  (e = true -> cur = pn0 + i - 1) -> 0 <= pn0 -> 1 <= i -> i + zlen fs <= 256 -> pn0 + 256 < 2 ^ 64 ->
  exists f', defrag_loop pf i cur fs = Ok (Some f') /\ fp_wf f' (fp_merges p ps) /\ same_frame f0 f'.
Proof.
  induction 1 as [|f q fs ps Hfq Hrest IH]; intros pf p i cur Hpf Hsf Hfl Hro Hec Hcur H0 H1 Hi Hpn.
  - by exists pf.
  - destruct Hfl as [(Hk & Hn & Hp) Hfl]. destruct Hro as [Hr Hro].
    apply Forall_cons in Hec as [He Hec]. cbn [defrag_loop].
    replace (if pn_consecutive_cipher _ then _ else _)
      with (Ok (Some (if e then pn0 + i else cur))).
    2:{ rewrite He. destruct e; [|done]. rewrite Hp, bind_Ok by done. rewrite (Hcur eq_refl).
        unfold u64. rewrite Z.mod_small by zl. replace (pn0 + i - 1 + 1) with (pn0 + i) by lia.
        by rewrite Z.eqb_refl. }
    rewrite bind_Ok. destruct Hsf as (Sid & Skt & Srest) eqn:E. clear E.
    rewrite Skt, Hk, Z.eqb_refl, Hn, Z.eqb_refl. cbn [negb].
    destruct (defrag_append_spec pf p f q Hpf Hfq Hr) as (pf' & -> & Hpf' & Hs'). rewrite bind_Ok.
    rewrite zlen_cons in Hi. pose proof (zlen_nonneg fs).
    destruct fs as [|f2 fs].
    + inversion Hrest; subst. exists pf'. split; [done|]. split; [done|]. etransitivity; [|exact Hs']. done.
    + rewrite zlen_cons in *. pose proof (zlen_nonneg fs). unfold u8. rewrite Z.mod_small by lia.
      eapply IH; try done; try lia.
      * etransitivity; [|exact Hs']. done.
      * intros ->. lia.
Qed.

(** C22: The fragments of one frame, numbered from zero, of one key
    generation, with consecutive packet numbers under CCMP and GCMP, are
    reassembled when every one fits the first one's buffer: header and vector
    of the first, the payloads in order; the other fragments are freed. *)
Theorem defrag_reassembles f0 fs p0 ps e pn0 :
  fp_wf f0 p0 -> Forall2 fp_wf fs ps -> ra_frag_num (rf_attrib f0) = 0 ->
  one_cipher (f0 :: fs) e -> (e = true -> frame_pn f0 = Ok pn0) -> 0 <= pn0 < 2 ^ 48 ->
  frags_follow f0 pn0 1 fs -> fp_rooms p0 ps -> zlen fs <= 15 ->
  exists f' p', recvframe_defrag (f0 :: fs) = Ok (Some f', map rf_id fs) /\
    fp_wf f' p' /\ same_frame f0 f' /\ fp_hdr p' = fp_hdr p0 /\ fp_iv p' = fp_iv p0 /\
    fp_payload p' = fp_payload p0 ++ concat (map fp_payload ps).
Proof.
  intros Hw Hws Hn Hec Hp Hpn Hfl Hro Hlen. apply Forall_cons in Hec as [He Hec].
  unfold recvframe_defrag. rewrite He, Hn.
  destruct (defrag_loop_merges f0 pn0 e fs ps Hws f0 p0 1 (if e then pn0 else 0))
    as (f' & Hf' & Hwf & Hsf); try done; try lia.
  { intros ->. lia. }
  exists f', (fp_merges p0 ps). destruct (fp_merges_parts ps p0) as (Eh & Ei & Ep).
  split; [|done]. destruct e.
  - rewrite (Hp eq_refl), bind_Ok. cbn [Z.eqb negb]. by rewrite Hf'.
  - rewrite bind_Ok. cbn [Z.eqb negb]. by rewrite Hf'.
Qed.

(** ** What a reassembled frame has passed *)

Lemma defrag_append_same pf nf pf' : defrag_append pf nf = Ok pf' -> same_frame pf pf'.
Proof.
  unfold defrag_append. intros (src & _ & H)%bind_Ok_inv. apply bind_Ok_inv in H as (d & _ & [= <-]).
  unfold recvframe_put, recvframe_pull_tail, same_frame, rf_with_attrib, rf_with_data.
  repeat (case_match; simpl; try done).
Qed.

Lemma frag_follows_same f0 f1 pn0 i fs : same_frame f0 f1 ->
  frags_follow f1 pn0 i fs -> frags_follow f0 pn0 i fs.
Proof.
  intros (_ & Hk & _). revert i. induction fs as [|f fs IH]; intros i; [done|].
  intros [(H1 & H2 & H3) Hf]. split; [|by apply IH]. unfold frag_follows. by rewrite <- Hk.
Qed.

Lemma defrag_loop_sound fs : forall pf pn0 i cur e f',
  one_cipher fs e -> (e = true -> cur = pn0 + i - 1) -> 0 <= pn0 < 2 ^ 48 -> 1 <= i -> i + zlen fs <= 256 ->
  defrag_loop pf i cur fs = Ok (Some f') -> frags_follow pf pn0 i fs /\ rf_id f' = rf_id pf.
Proof.
  induction fs as [|f fs IH]; intros pf pn0 i cur e f' Hec Hcur Hpn H1 Hi H.
  - simpl in H. injection H as <-. done.
  - apply Forall_cons in Hec as [He Hec]. cbn [defrag_loop] in H.
    rewrite zlen_cons in Hi. pose proof (zlen_nonneg fs).
    apply bind_Ok_inv in H as (o & Ho & H). destruct o as [cur'|]; [|done].
    destruct (Z.eqb_spec (rf_keytrack pf) (rf_keytrack f)) as [Hk|]; [|done].
    destruct (Z.eqb_spec i (ra_frag_num (rf_attrib f))) as [Hn|]; [|done]. cbn [negb] in H.
    apply bind_Ok_inv in H as (pf' & Ha & H). apply defrag_append_same in Ha.
    assert (e = true -> frame_pn f = Ok (pn0 + i) /\ cur' = pn0 + i) as Hp.
    { intros ->. rewrite He in Ho. apply bind_Ok_inv in Ho as (pkt & Hpkt & Ho).
      rewrite (Hcur eq_refl) in Ho. unfold u64 in Ho. rewrite Z.mod_small in Ho by lia.
      destruct (Z.eqb_spec pkt (pn0 + i - 1 + 1)) as [->|]; [|done]. injection Ho as <-.
      rewrite Hpkt. split; [f_equal|]; lia. }
    assert (frag_follows pf pn0 i f) as Hff.
    { split; [done|]. split; [done|]. rewrite He. intros ->. by apply Hp. }
    destruct fs as [|f2 fs].
    + simpl in H. injection H as <-. split; [done|]. by destruct Ha.
    + rewrite zlen_cons in *. pose proof (zlen_nonneg fs). unfold u8 in H. rewrite Z.mod_small in H by lia.
      apply (IH pf' pn0 (i + 1) cur' e) in H as [Hf Hid]; [|done| |lia..].
      2:{ intros ->. destruct (Hp eq_refl). lia. }
      split; [|destruct Ha; congruence]. split; [done|]. by eapply frag_follows_same.
Qed.

(** C19: With one cipher in use, a reassembled frame has passed every check:
    its fragments are numbered from zero without a gap, belong to one key
    generation, and under CCMP and GCMP have consecutive packet numbers; it is
    the first fragment, and exactly the others are freed. *)
Theorem defrag_checked f0 fs f' freed e pn0 :
  one_cipher (f0 :: fs) e -> (e = true -> frame_pn f0 = Ok pn0) -> 0 <= pn0 < 2 ^ 48 ->
  zlen fs <= 255 -> recvframe_defrag (f0 :: fs) = Ok (Some f', freed) ->
  ra_frag_num (rf_attrib f0) = 0 /\ frags_follow f0 pn0 1 fs /\
  rf_id f' = rf_id f0 /\ freed = map rf_id fs.
Proof.
  intros Hec Hp Hpn Hl H. apply Forall_cons in Hec as [He Hec]. unfold recvframe_defrag in H.
  apply bind_Ok_inv in H as (cur & Hc & H).
  destruct (Z.eqb_spec 0 (ra_frag_num (rf_attrib f0))) as [Hn|]; [|done]. cbn [negb] in H.
  apply bind_Ok_inv in H as (o & Hloop & H). destruct o as [g|]; [|done]. injection H as <- <-.
  apply (defrag_loop_sound fs f0 pn0 1 cur e) in Hloop as [Hf Hid]; [done|done| |lia..].
  intros ->. rewrite He, (Hp eq_refl) in Hc. injection Hc as <-. lia.
Qed.

(** ** Room for the fragments *)

(** C30: Two fragments that pass every check leave the buffer of the first
    when their payloads do not fit it; the buffer allocated for a first
    fragment of up to 1650 bytes has 1664. *)
Theorem defrag_overflow f0 p0 f1 p1 : fp_wf f0 p0 -> fp_wf f1 p1 ->
  ra_frag_num (rf_attrib f0) = 0 -> ra_frag_num (rf_attrib f1) = 1 ->
  rf_keytrack f1 = rf_keytrack f0 ->
  pn_consecutive_cipher (ra_encrypt (rf_attrib f0)) = false ->
  pn_consecutive_cipher (ra_encrypt (rf_attrib f1)) = false ->
  zlen (rx_data f0) <= core_alloc_sz (rx_len f0) true 0 -> rx_len f0 <= 1650 ->
  1664 < zlen (fp_front p0) + zlen (fp_payload p1) + zlen (fp_icv p1) ->
  recvframe_defrag [f0; f1] = Oob.
Proof.
  intros Hw0 Hw1 Hn0 Hn1 Hk He0 He1 Hsz Hl Hbig. unfold recvframe_defrag.
  rewrite He0, Hn0, bind_Ok. cbn [Z.eqb negb defrag_loop]. rewrite He1, bind_Ok, Hk, Z.eqb_refl, Hn1.
  cbn [negb Z.eqb]. change (1 =? 1) with true. cbn [negb].
  rewrite (defrag_append_overflow f0 p0 f1 p1); [done..|].
  unfold fp_room. unfold core_alloc_sz in Hsz. cbn [andb Z.eqb] in Hsz.
  replace (rx_len f0 <=? 1650) with true in Hsz by lia. destruct Hw0 as (Hd & _). rewrite Hd in Hsz. zl.
Qed.

(** ** Group-addressed fragments *)

(** A fragment addressed to a group, from a station with an entry, is not
    dropped: it is put in the station's queue like any other, and the last one
    is handed on when the queue reassembles. *)
Theorem group_fragments_reassembled w f s :
  IS_MCAST (ra_ra (rf_attrib f)) = true ->
  rw_stas w !! sta_addr w (ra_ta (rf_attrib f)) = Some s ->
  let f' := rf_with_keytrack f (st_keytrack s) in
  (ra_mfrag (rf_attrib f) = true -> exists q w',
     recvframe_chk_defrag w f = Ok (CORE_RX_DEFRAG, Some f', w') /\
     st_defrag_q <$> rw_stas w' !! sta_addr w (ra_ta (rf_attrib f)) = Some (q ++ [f'])) /\
  (ra_mfrag (rf_attrib f) = false -> ra_frag_num (rf_attrib f) <> 0 -> forall g freed,
     recvframe_defrag (st_defrag_q s ++ [f']) = Ok (Some g, freed) -> exists w',
     recvframe_chk_defrag w f = Ok (CORE_RX_CONTINUE, Some g, w')).
Proof.
  intros Hm Hs f'. unfold recvframe_chk_defrag, defrag_station. rewrite Hs, bind_Ok. split.
  - intros Hf. rewrite Hf. cbn [negb andb]. fold f'.
    destruct (_ && negb _); cbv iota beta.
    + exists [], (rw_set_q (rw_free w (map rf_id (st_defrag_q s))) (sta_addr w (ra_ta (rf_attrib f))) ([] ++ [f'])).
      split; [done|]. simpl. rewrite lookup_alter_eq, Hs. done.
    + exists (st_defrag_q s), (rw_set_q w (sta_addr w (ra_ta (rf_attrib f))) (st_defrag_q s ++ [f'])).
      split; [done|]. simpl. rewrite lookup_alter_eq, Hs. done.
  - intros Hf Hn g freed Hd. rewrite Hf. destruct (Z.eqb_spec (ra_frag_num (rf_attrib f)) 0); [done|].
    cbn [negb andb]. fold f'. rewrite Hd, bind_Ok. by eexists.
Qed.

(** ** Conservation *)

(** The frames the queues hold. *)
Definition held_of (m : gmap (list Z) rx_sta) : list Z :=
  map_to_list m ≫= fun p => map rf_id (st_defrag_q p.2).

(** Every frame the receive path has: in a queue, or freed. *)
Definition kept (w : rx_world) : list Z := held_of (rw_stas w) ++ rw_freed w.

Lemma held_lookup m k s : m !! k = Some s ->
  held_of m ≡ₚ map rf_id (st_defrag_q s) ++ held_of (delete k m).
Proof. intros H. unfold held_of. rewrite <- (map_to_list_delete m k s H). done. Qed.

Lemma held_alter m k s g : m !! k = Some s ->
  held_of (alter g k m) ≡ₚ map rf_id (st_defrag_q (g s)) ++ held_of (delete k m).
Proof.
  intros H. rewrite (held_lookup _ k (g s)).
  - by rewrite delete_alter_eq.
  - by rewrite lookup_alter_eq, H.
Qed.

Lemma held_alter_same m k g : (forall s, st_defrag_q (g s) = st_defrag_q s) ->
  held_of (alter g k m) ≡ₚ held_of m.
Proof.
  intros Hg. destruct (m !! k) as [s|] eqn:E.
  - rewrite (held_alter _ _ s) by done. rewrite Hg. by rewrite <- held_lookup.
  - by rewrite alter_id by (rewrite E; done).
Qed.

(** Takes a successful computation apart, one step at a time. *)
Ltac res_inv :=
  repeat (let H := fresh "R" in
  match goal with
  | E : _ ≫= _ = Ok _ |- _ => apply bind_Ok_inv in E as (? & H & E); cbv beta in E
  | E : mret _ = Ok _ |- _ => injection E; clear E; intros
  | E : Ok _ = Ok _ |- _ => injection E; clear E; intros
  | E : Oob = Ok _ |- _ => discriminate E
  | E : Fuel = Ok _ |- _ => discriminate E
  | E : (_, _) = (_, _) |- _ => injection E; clear E; intros
  | p : (_ * _)%type |- _ => destruct p
  | E : (let '(_, _) := ?x in _) = Ok _ |- _ => destruct x
  | E : (if ?b then _ else _) = Ok _ |- _ => destruct b
  | E : match ?o with Some _ => _ | None => _ end = Ok _ |- _ => destruct o
  end); subst.

Lemma wep_decrypt_keeps g sec f f' g' : rtw_wep_decrypt g sec f = Ok (f', g') ->
  rf_id f' = rf_id f.
Proof. unfold rtw_wep_decrypt. intros H. cbv zeta in H. res_inv; done. Qed.

Lemma tkip_decrypt_keeps g sec st f r f' g' : rtw_tkip_decrypt g sec st f = Ok (r, f', g') ->
  rf_id f' = rf_id f.
Proof. unfold rtw_tkip_decrypt. intros H. cbv zeta in H. res_inv; done. Qed.

Lemma cipher_decrypt_keeps x sec st n f r f' : cipher_decrypt x sec st n f = Ok (r, f') ->
  rf_id f' = rf_id f.
Proof. unfold cipher_decrypt. intros H. cbv zeta in H. res_inv; done. Qed.

(** Only the keys, the checksum's table and [hw_decrypted] may change. *)
Definition same_queues (w w' : rx_world) : Prop :=
  rw_freed w' = rw_freed w /\ held_of (rw_stas w') ≡ₚ held_of (rw_stas w).

#[export] Instance same_queues_refl : Reflexive same_queues.
Proof. intros w. split; done. Qed.
#[export] Instance same_queues_trans : Transitive same_queues.
Proof. intros u v w [E1 H1] [E2 H2]. split; [congruence|]. by rewrite H2. Qed.

Lemma same_queues_kept w w' : same_queues w w' -> kept w' ≡ₚ kept w.
Proof. intros [H1 H2]. unfold kept. by rewrite H1, H2. Qed.

Section conserve.
Context (ccmp gcmp : list Z -> Z -> Z -> list Z -> Z -> res (Z * list Z)).
Context (key_index now HZ : Z).

Lemma sw_decrypt_keeps w f r f' w' : sw_decrypt ccmp gcmp w f = Ok (r, f', w') ->
  rf_id f' = rf_id f /\ same_queues w w'.
Proof.
  unfold sw_decrypt, rtw_aes_decrypt, rtw_gcmp_decrypt. intros H. cbv zeta in H.
  destruct (_ || _); [|destruct (_ =? _TKIP_); [|destruct (_ || _); [|destruct (_ || _)]]].
  - res_inv. split; [by eapply wep_decrypt_keeps|done].
  - res_inv. split; [by eapply tkip_decrypt_keeps|done].
  - res_inv. split; [by eapply cipher_decrypt_keeps|done].
  - res_inv. split; [by eapply cipher_decrypt_keeps|done].
  - res_inv. done.
Qed.

Lemma set_key_index_keeps sec f f' : set_key_index sec f = Ok f' -> rf_id f' = rf_id f.
Proof. unfold set_key_index. intros H. cbv zeta in H. res_inv; done. Qed.

Lemma alter_hw_queues w v k : same_queues w (rw_with_stas w (alter (sta_set_hw v) k (rw_stas w))).
Proof. split; [done|]. by apply held_alter_same. Qed.

Lemma decryptor_keeps w f b f' w' : decryptor ccmp gcmp w f = Ok (b, f', w') ->
  rf_id f' = rf_id f /\ same_queues w w'.
Proof.
  unfold decryptor. intros (f1 & H1 & H)%bind_Ok_inv. apply set_key_index_keeps in H1. rewrite <- H1.
  cbv zeta in H. apply bind_Ok_inv in H as ([[r f2] w2] & H2 & H).
  assert (rf_id f2 = rf_id f1 /\ same_queues w w2) as [Hid Hq].
  { destruct (z_true _ && _).
    - apply bind_Ok_inv in H2 as (t & _ & H2). apply sw_decrypt_keeps in H2 as [Hid Hq].
      split; [done|]. etransitivity; [|exact Hq]. destruct (t =? WIFI_DATA); [|done].
      destruct (IS_MCAST _); [done|apply alter_hw_queues].
    - destruct (_ && _ && _); injection H2 as <- <- <-; [|done]. split; [done|].
      apply (alter_hw_queues (rw_with_sec w _)). }
  destruct (r =? _FAIL); injection H as <- <- <-; done.
Qed.

Lemma mic_err_queues w sta b : same_queues w (rtw_handle_tkip_mic_err now HZ w sta b).
Proof. unfold rtw_handle_tkip_mic_err. repeat case_match; simplify_eq; done. Qed.

Lemma pull_tail_id f n : rf_id (recvframe_pull_tail f n) = rf_id f.
Proof. unfold recvframe_pull_tail. by case_match. Qed.

Lemma chkmic_keeps w f r f' w' : recvframe_chkmic key_index now HZ w f = Ok (r, f', w') ->
  rf_id f' = rf_id f /\ same_queues w w'.
Proof.
  unfold recvframe_chkmic. cbv zeta. intros H.
  destruct (negb _); [by injection H as <- <- <-|].
  destruct (rtw_get_stainfo _ _) as [s|]; [|injection H as <- <- <-; by rewrite pull_tail_id].
  destruct (_ && _); [by injection H as <- <- <-|].
  apply bind_Ok_inv in H as (mk & _ & H). apply bind_Ok_inv in H as (mic & _ & H).
  apply bind_Ok_inv in H as (pm & _ & H).
  destruct (negb _); injection H as <- <- <-; rewrite pull_tail_id; (split; [done|]).
  - destruct (_ && _); [apply mic_err_queues|done].
  - by destruct (_ && _).
Qed.

Lemma defrag_freed q o freed : recvframe_defrag q = Ok (o, freed) ->
  map rf_id (option_list o) ++ freed ≡ₚ map rf_id q.
Proof.
  destruct q as [|pf rest]; [done|]. unfold recvframe_defrag.
  intros (cur & _ & H)%bind_Ok_inv. destruct (negb _); [by injection H as <- <-|].
  apply bind_Ok_inv in H as (g & Hl & H). destruct g as [g|]; injection H as <- <-; [|done].
  simpl. assert (rf_id g = rf_id pf) as ->; [|done].
  revert Hl. generalize 1 at 1 as i. revert pf cur. induction rest as [|f rest IH]; intros pf cur i Hl.
  - by injection Hl as <-.
  - cbn [defrag_loop] in Hl. apply bind_Ok_inv in Hl as (o & _ & Hl). destruct o as [c|]; [|done].
    destruct (negb _); [done|]. destruct (negb _); [done|].
    apply bind_Ok_inv in Hl as (pf' & Ha & Hl). apply IH in Hl. rewrite Hl.
    by destruct (defrag_append_same _ _ _ Ha).
Qed.

(** The reassembly neither loses a frame nor has one twice. *)
Lemma chk_defrag_keeps w f ret o w' : recvframe_chk_defrag w f = Ok (ret, o, w') ->
  (if bool_decide (ret = CORE_RX_DEFRAG) then [] else map rf_id (option_list o)) ++ kept w' ≡ₚ
  rf_id f :: kept w.
Proof.
  unfold recvframe_chk_defrag. intros (st & Hst & H)%bind_Ok_inv. cbv zeta in H.
  assert (match st with Some (k, s) => rw_stas w !! k = Some s | None => True end) as Hk.
  { unfold defrag_station in Hst. destruct (rw_stas w !! _) eqn:E; [by injection Hst as <-|].
    apply bind_Ok_inv in Hst as (t & _ & Hst). injection Hst as <-.
    destruct (_ =? WIFI_DATA); [done|]. by destruct (rw_stas w !! rw_self w) eqn:E2. }
  set (whole := negb (ra_mfrag _) && _) in *.
  set (f1 := match st with Some (_, s) => _ | None => f end) in *.
  assert (rf_id f1 = rf_id f) as Hf1 by (unfold f1; destruct st as [[k s]|]; [by destruct whole|done]).
  clearbody f1.
  destruct (ra_mfrag _).
  - destruct st as [[k s]|].
    + unfold kept. destruct (_ && negb _) eqn:E; cbv iota beta in H; injection H as <- <- <-;
        cbn [option_list map app bool_decide]; rewrite bool_decide_true by done; simpl;
        rewrite (held_alter _ _ s), (held_lookup (rw_stas w) k s) by done; simpl;
        rewrite ?map_app; simpl; rewrite Hf1; solve_Permutation.
    + injection H as <- <- <-. simpl. by rewrite Hf1.
  - destruct (negb (_ =? 0)) eqn:E.
    + destruct st as [[k s]|]; [|injection H as <- <- <-; simpl; by rewrite Hf1].
      apply bind_Ok_inv in H as ([g freed] & Hd & H). injection H as <- <- <-.
      apply defrag_freed in Hd. rewrite bool_decide_false by (by destruct g).
      unfold kept. simpl. rewrite (held_alter _ _ s), (held_lookup (rw_stas w) k s) by done. simpl.
      rewrite map_app in Hd. simpl in Hd. rewrite Hf1 in Hd.
      transitivity ((map rf_id (option_list g) ++ freed) ++ held_of (delete k (rw_stas w)) ++ rw_freed w);
        [solve_Permutation|]. rewrite Hd. solve_Permutation.
    + injection H as <- <- <-. clearbody whole.
      rewrite bool_decide_false by (by destruct whole, (IS_MCAST (ra_ra (rf_attrib f)))).
      simpl. by rewrite Hf1.
Qed.

(** One frame more: it is handed on, kept in a queue or freed, and so is each
    frame the queues held. *)
Lemma process_one_keeps w f o w' : rx_process_one ccmp gcmp key_index now HZ w f = Ok (o, w') ->
  map rf_id (option_list o) ++ kept w' ≡ₚ rf_id f :: kept w.
Proof.
  unfold rx_process_one, rtw_core_rx_data_pre_process. intros ([[ret o1] w1] & H1 & H)%bind_Ok_inv.
  apply bind_Ok_inv in H1 as ([[b f1] w2] & Hd & H1).
  apply decryptor_keeps in Hd as [Hid Hq]. apply same_queues_kept in Hq. rewrite <- Hid, <- Hq.
  assert (forall g (u : rx_world), kept (rw_free u [g]) ≡ₚ g :: kept u) as Hfree.
  { intros g u. unfold kept. simpl. solve_Permutation. }
  destruct b; cbn [negb] in H1; [|injection H1 as <- <- <-; injection H as <- <-; apply Hfree].
  apply bind_Ok_inv in H1 as ([[r2 o2] w3] & Hc & H1). apply chk_defrag_keeps in Hc.
  destruct (decide (r2 = CORE_RX_CONTINUE)) as [->|Hne].
  - rewrite bool_decide_false in Hc by done. destruct o2 as [f2|].
    + apply bind_Ok_inv in H1 as ([[r f3] w4] & Hm & H1).
      assert (rf_id f3 = rf_id f2 /\ kept w4 ≡ₚ kept w3) as [Hid3 Hk3].
      { destruct (ra_privacy _); [|by injection Hm as <- <- <-].
        apply chkmic_keeps in Hm as [? Hq']. split; [done|by apply same_queues_kept]. }
      simpl in Hc. rewrite <- Hid3, <- Hk3 in Hc.
      destruct (r =? _FAIL); [injection H1 as <- <- <-; injection H as <- <-; simpl; by rewrite Hfree|].
      apply bind_Ok_inv in H1 as (ok & _ & H1). injection H1 as <- <- <-.
      destruct ok; injection H as <- <-; simpl; by rewrite ?Hfree.
    + injection H1 as <- <- <-. injection H as <- <-. done.
  - assert (ret = r2 /\ o1 = o2 /\ w1 = w3) as (-> & -> & ->)
      by (destruct r2; try done; by injection H1 as <- <- <-).
    destruct r2; try done; injection H as <- <-; simpl in *; try done;
      destruct o2; simpl in *; by rewrite ?Hfree.
Qed.

(** A frame that is not a fragment, deciphered by the hardware or in the clear,
    not TKIP, and long enough for its headers. *)
Definition whole_frame (f : recv_frame) : Prop :=
  let a := rf_attrib f in
  ra_mfrag a = false /\ ra_frag_num a = 0 /\ (ra_encrypt a = 0 \/ ra_bdecrypted a = true) /\
  ra_encrypt a <> _TKIP_ /\ 0 <= ra_encrypt a /\ 0 <= ra_hdrlen a /\ 0 <= ra_iv_len a /\
  (0 < ra_encrypt a -> 1 <= ra_iv_len a) /\
  ra_hdrlen a + ra_iv_len a + 8 <= zlen (rx_data f).

#[export] Instance whole_frame_dec f : Decision (whole_frame f).
Proof. unfold whole_frame. cbv zeta. apply _. Defined.

Lemma rd_total b i : 0 <= i < zlen b -> exists x, rd b i = Ok x.
Proof. intros H. destruct (rd_in b i H) as (x & Hx & _). by exists x. Qed.

Lemma get_be16_total b i : 0 <= i -> i + 2 <= zlen b -> exists x, RTW_GET_BE16 b i = Ok x.
Proof.
  intros H0 H. unfold RTW_GET_BE16. destruct (rd_total b i) as [x ->]; [lia|].
  destruct (rd_total b (i + 1)) as [y ->]; [lia|]. rewrite !bind_Ok. by eexists.
Qed.

Lemma get_le16_total b i : 0 <= i -> i + 2 <= zlen b -> exists x, RTW_GET_LE16 b i = Ok x.
Proof.
  intros H0 H. unfold RTW_GET_LE16. destruct (rd_total b (i + 1)) as [y ->]; [lia|].
  destruct (rd_total b i) as [x ->]; [lia|]. rewrite !bind_Ok. by eexists.
Qed.

Lemma set_key_index_total sec f : whole_frame f ->
  exists k, set_key_index sec f = Ok (rf_with_attrib f (ra_with_key_index (rf_attrib f) k)).
Proof.
  intros (_ & _ & _ & _ & He & Hh & Hi & Hp & Hl). unfold set_key_index. cbv zeta.
  destruct (Z.gtb_spec (ra_encrypt (rf_attrib f)) 0).
  - destruct (rd_total (rx_data f) (ra_hdrlen (rf_attrib f) + 3)) as [x ->]; [lia|].
    rewrite bind_Ok. by eexists.
  - exists (ra_key_index (rf_attrib f)). by destruct f as [? [] ? ? ? ? ?].
Qed.

Lemma chk_defrag_whole w f : ra_mfrag (rf_attrib f) = false -> ra_frag_num (rf_attrib f) = 0 ->
  2 <= zlen (rx_data f) -> recvframe_chk_defrag w f = Ok (CORE_RX_CONTINUE, Some f, w).
Proof.
  intros Hm Hn Hl. unfold recvframe_chk_defrag. cbv zeta. rewrite Hm, Hn. cbn [negb andb Z.eqb].
  assert (exists st, defrag_station w f = Ok st) as [st ->].
  { unfold defrag_station. destruct (rw_stas w !! _); [by eexists|]. unfold frame_type.
    destruct (get_le16_total (rx_data f) 0) as [x ->]; [lia..|]. rewrite !bind_Ok. by eexists. }
  rewrite bind_Ok. by destruct st as [[k s]|].
Qed.

Lemma portctrl_total w f :
  let a := rf_attrib f in 0 <= ra_hdrlen a -> 0 <= ra_iv_len a ->
  ra_hdrlen a + ra_iv_len a + 8 <= zlen (rx_data f) -> exists b, portctrl w f = Ok b.
Proof.
  intros a H0 H1 H2. unfold portctrl. fold a. cbv zeta.
  destruct (_ =? _); [|by eexists]. destruct (rtw_get_stainfo _ _) as [s|]; [|by eexists].
  destruct (st_blocked s); [|by eexists].
  destruct (get_be16_total (rx_data f) (ra_hdrlen a + ra_iv_len a + LLC_HEADER_SIZE)) as [x ->];
    [unfold LLC_HEADER_SIZE; lia..|]. rewrite bind_Ok. by eexists.
Qed.

(** Such a frame is decided: every access of its checks is inside its buffer. *)
Lemma process_one_total w f : whole_frame f ->
  exists o w', rx_process_one ccmp gcmp key_index now HZ w f = Ok (o, w').
Proof.
  intros Hw. destruct (set_key_index_total (rw_sec w) f Hw) as [k Hk].
  destruct Hw as (Hm & Hn & Hd & Ht & He & Hh & Hi & Hp & Hl).
  set (g := rf_with_attrib f (ra_with_bdecrypted (ra_with_key_index (rf_attrib f) k) true)).
  assert (exists w1, decryptor ccmp gcmp w f = Ok (true, g, w1)) as [w1 Hdec].
  { unfold decryptor. rewrite Hk, bind_Ok. cbv zeta.
    cbn [rf_attrib rf_with_attrib ra_with_key_index ra_encrypt ra_bdecrypted].
    replace (z_true _ && _) with false
      by (destruct Hd as [-> | ->]; [done|by rewrite andb_false_r]).
    destruct (_ && _ && _); rewrite bind_Ok; by eexists. }
  assert (recvframe_chkmic key_index now HZ w1 g = Ok (_SUCCESS, g, w1)) as Hmic.
  { unfold recvframe_chkmic. cbv zeta. cbn [rf_attrib g rf_with_attrib ra_encrypt ra_with_bdecrypted ra_with_key_index].
    replace (_ =? _TKIP_) with false by (symmetry; by apply Z.eqb_neq). done. }
  destruct (portctrl_total w1 g Hh Hi Hl) as [b Hport].
  unfold rx_process_one, rtw_core_rx_data_pre_process. rewrite Hdec, bind_Ok. cbn [negb].
  rewrite chk_defrag_whole, bind_Ok by (done || simpl; lia). rewrite Hmic.
  destruct (ra_privacy (rf_attrib g)); rewrite bind_Ok; cbn [Z.eqb _SUCCESS _FAIL];
    change (_SUCCESS =? _FAIL) with false; cbv iota beta; rewrite Hport, !bind_Ok;
    destruct b; by do 2 eexists.
Qed.

(** C20: Over any sequence of received frames, the frames handed on, those in
    the stations' queues and those freed are together exactly the frames
    received and those there were; and frames that are not fragments and need
    no software decryption are always decided. *)
Theorem rx_frames_conserved w fs :
  (forall out w', rx_process_all ccmp gcmp key_index now HZ w fs = Ok (out, w') ->
     map rf_id out ++ kept w' ≡ₚ map rf_id fs ++ kept w) /\
  (Forall whole_frame fs -> exists out w',
     rx_process_all ccmp gcmp key_index now HZ w fs = Ok (out, w')).
Proof.
  split.
  - revert w. induction fs as [|f fs IH]; intros w out w' H; [by injection H as <- <-|].
    cbn [rx_process_all] in H. apply bind_Ok_inv in H as ([o w1] & H1 & H).
    apply bind_Ok_inv in H as ([out1 w2] & H2 & H). injection H as <- <-.
    apply process_one_keeps in H1. apply IH in H2. rewrite map_app, <- app_assoc, H2. simpl.
    rewrite (Permutation_middle _ (kept w) (rf_id f)), <- H1. solve_Permutation.
  - intros Hf. revert w. induction Hf as [|f fs Hf _ IH]; intros w; [by do 2 eexists|].
    cbn [rx_process_all]. destruct (process_one_total w f Hf) as (o & w1 & ->). rewrite bind_Ok.
    destruct (IH w1) as (out & w2 & ->). rewrite bind_Ok. by do 2 eexists.
Qed.

End conserve.

(** ** Witnesses *)

(** Three CCMP fragments of one frame: numbers [n], packet numbers [16 + n]. *)
Definition ex_parts (n : Z) : frag_parts :=
  mkFp [8; 2; 0; 0] [16 + n; 0; 0; 0x20; 0; 0; 0; 0] [n; n; n] [0xee; 0xee] (zeros 20).
Definition ex_fragment (e : Z) (n : Z) (ra : list Z) : recv_frame :=
  let p := ex_parts n in
  mkRf n (mkRa e 4 8 2 0 true true 0 true 1 n (n <? 2) ra [2; 0; 0; 0; 0; 0])
    (fp_front p ++ fp_icv p ++ fp_slack p) (fp_len p) (fp_len p) [2; 0; 0; 0; 0; 0] 7.

Lemma ex_fragment_wf e n ra : fp_wf (ex_fragment e n ra) (ex_parts n).
Proof. repeat split. Qed.

Lemma ex_chain : frags_follow (ex_fragment _AES_ 0 []) 16 1
  [ex_fragment _AES_ 1 []; ex_fragment _AES_ 2 []].
Proof. repeat split. Qed.

Lemma defrag_reassembles_witness :
  exists f' p', recvframe_defrag [ex_fragment _AES_ 0 []; ex_fragment _AES_ 1 []; ex_fragment _AES_ 2 []] =
      Ok (Some f', [1; 2]) /\
    fp_wf f' p' /\ same_frame (ex_fragment _AES_ 0 []) f' /\ fp_hdr p' = [8; 2; 0; 0] /\
    fp_iv p' = [16; 0; 0; 0x20; 0; 0; 0; 0] /\ fp_payload p' = [0; 0; 0; 1; 1; 1; 2; 2; 2].
Proof.
  apply (defrag_reassembles (ex_fragment _AES_ 0 []) [ex_fragment _AES_ 1 []; ex_fragment _AES_ 2 []]
    (ex_parts 0) [ex_parts 1; ex_parts 2] true 16).
  - apply ex_fragment_wf.
  - repeat constructor; apply ex_fragment_wf.
  - reflexivity.
  - repeat constructor.
  - intros _. reflexivity.
  - lia.
  - apply ex_chain.
  - repeat split; vm_compute; discriminate.
  - vm_compute. discriminate.
Defined.

Lemma defrag_checked_witness :
  exists f', recvframe_defrag [ex_fragment _AES_ 0 []; ex_fragment _AES_ 1 []; ex_fragment _AES_ 2 []] =
      Ok (Some f', [1; 2]) /\
    (ra_frag_num (rf_attrib (ex_fragment _AES_ 0 [])) = 0 /\
     frags_follow (ex_fragment _AES_ 0 []) 16 1 [ex_fragment _AES_ 1 []; ex_fragment _AES_ 2 []] /\
     rf_id f' = 0 /\ [1; 2] = [1; 2]).
Proof.
  eexists. split; [vm_compute; reflexivity|].
  apply (defrag_checked (ex_fragment _AES_ 0 []) [ex_fragment _AES_ 1 []; ex_fragment _AES_ 2 []]
    _ [1; 2] true 16).
  - repeat constructor.
  - intros _. reflexivity.
  - lia.
  - vm_compute. discriminate.
  - vm_compute. reflexivity.
Defined.

(** Two fragments of 1000 bytes each, the first in the buffer allocated for it. *)
Definition ex_big_parts (slack : Z) : frag_parts :=
  mkFp [8; 2; 0; 0] [] (zeros 996) [] (zeros slack).
Definition ex_big (n slack : Z) : recv_frame :=
  let p := ex_big_parts slack in
  mkRf n (mkRa 0 4 0 0 0 false false 0 true 1 n (n =? 0) [4; 0; 0; 0; 0; 0] [2; 0; 0; 0; 0; 0])
    (fp_front p ++ fp_icv p ++ fp_slack p) (fp_len p) (fp_len p) [2; 0; 0; 0; 0; 0] 7.

Lemma ex_big_wf n slack : 0 <= slack <= 10000 -> fp_wf (ex_big n slack) (ex_big_parts slack).
Proof.
  intros Hs. split; [reflexivity|]. split_and!; try reflexivity.
  change (rx_data (ex_big n slack)) with ([8; 2; 0; 0] ++ zeros 996 ++ zeros slack).
  rewrite !zlen_app, !zlen_zeros by lia. change (zlen [8; 2; 0; 0]) with 4. lia.
Qed.

Lemma defrag_overflow_witness :
  zlen (rx_data (ex_big 0 664)) = core_alloc_sz 1000 true 0 /\
  recvframe_defrag [ex_big 0 664; ex_big 1 14] = Oob.
Proof.
  split; [vm_compute; reflexivity|].
  apply (defrag_overflow (ex_big 0 664) (ex_big_parts 664) (ex_big 1 14) (ex_big_parts 14));
    first [apply ex_big_wf; lia | reflexivity | vm_compute; discriminate | vm_compute; reflexivity].
Defined.

(** A group-addressed fragment from a known station. *)
Definition ex_sta : rx_sta :=
  mkSta (mkSk [] []) true false [] [] 0 [] 0 0 0 [] 7.
Definition ex_world : rx_world :=
  mkRw (mkSec 0 0 [] [] 0 [] [] false 0 false false false 0 []) crc_boot [2; 9; 9; 9; 9; 9]
    {[ [2; 0; 0; 0; 0; 0] := ex_sta ]} 0 [] [].

Lemma group_fragments_reassembled_witness :
  let f := ex_fragment 0 0 [0xff; 0xff; 0xff; 0xff; 0xff; 0xff] in
  exists q w', recvframe_chk_defrag ex_world f =
      Ok (CORE_RX_DEFRAG, Some (rf_with_keytrack f (st_keytrack ex_sta)), w') /\
    st_defrag_q <$> rw_stas w' !! [2; 0; 0; 0; 0; 0] = Some (q ++ [rf_with_keytrack f (st_keytrack ex_sta)]).
Proof.
  intros f. destruct (group_fragments_reassembled ex_world f ex_sta) as [H _].
  - reflexivity.
  - reflexivity.
  - apply H. reflexivity.
Defined.

(** A whole frame, and a fragment that replaces the one waiting. *)
Lemma rx_frames_conserved_witness :
  let fs := [ex_fragment 0 0 [2; 1; 1; 1; 1; 1]; ex_fragment 0 0 [2; 1; 1; 1; 1; 1]] in
  let run := rx_process_all (fun _ _ _ b _ => Ok (_SUCCESS, b)) (fun _ _ _ b _ => Ok (_SUCCESS, b))
    0 0 250 ex_world fs in
  exists out w', run = Ok (out, w') /\ map rf_id out ++ kept w' ≡ₚ [0; 0].
Proof.
  intros fs run.
  destruct (rx_frames_conserved (fun _ _ _ b _ => Ok (_SUCCESS, b)) (fun _ _ _ b _ => Ok (_SUCCESS, b))
    0 0 250 ex_world fs) as [H _].
  assert (exists r, run = Ok r) as [[out w'] Hr] by (eexists; vm_compute; reflexivity).
  exists out, w'. split; [exact Hr|]. exact (H out w' Hr).
Defined.
