(* ===== verification/RxMsdu.v ===== *)
(** * Receive: aggregates and the conversion to Ethernet

    src/core/rtw_recv.c: what becomes of a frame that has passed the checks of
    SecDefrag.v: the subframes of an A-MSDU ([amsdu_to_msdu], with the check of
    their addresses [validate_amsdu_content]), the decision about the LLC header
    ([rtw_recv_llc_parse]), the header that replaces the 802.11 header
    ([wlanhdr_to_ethhdr]); the packet made of a subframe
    ([rtw_os_alloc_msdu_pkt] of src/os_dep/linux/recv_linux.c), and what an
    access point forwards ([rtw_ap_rx_msdu_act_check] of src/core/rtw_ap.c).

    Mesh, WDS and the receive shortcut are configured out.  A packet is its
    bytes; whether memory for one can be had is an input. *)

From S2P Require Import Prelude IeBuf SecRc4 SecTkip SecRecv SecDefrag.

Definition ETH_HLEN : Z := 14.
Definition ETH_ALEN : Z := 6.
Definition SNAP_SIZE : Z := 6.
Definition ETH_P_AARP : Z := 0x80F3.
Definition ETH_P_IPX : Z := 0x8137.
Definition MAX_SUBFRAME_COUNT : Z := 64.
Definition rtw_rfc1042_header : list Z := [0xaa; 0xaa; 0x03; 0x00; 0x00; 0x00].
Definition rtw_bridge_tunnel_header : list Z := [0xaa; 0xaa; 0x03; 0x00; 0x00; 0xf8].

Inductive rtw_rx_llc_hdl := RTW_RX_LLC_KEEP | RTW_RX_LLC_REMOVE | RTW_RX_LLC_VLAN.

Definition RTW_RX_MSDU_ACT_NONE : Z := 0.
Definition RTW_RX_MSDU_ACT_INDICATE : Z := 1.
Definition RTW_RX_MSDU_ACT_FORWARD : Z := 2.

(** ** The LLC header *)

(** The MSDU is at [p]. *)
Definition rtw_recv_llc_parse (b : list Z) (p msdu_len : Z) : res rtw_rx_llc_hdl :=
  if msdu_len <? 8 then mret RTW_RX_LLC_KEEP
  else
    eth_type ← RTW_GET_BE16 b (p + SNAP_SIZE);
    rfc1042 ← memcmp b p rtw_rfc1042_header SNAP_SIZE;
    bridge ← memcmp b p rtw_bridge_tunnel_header SNAP_SIZE;
    mret (if (rfc1042 && negb (eth_type =? ETH_P_AARP) && negb (eth_type =? ETH_P_IPX)) || bridge
          then RTW_RX_LLC_REMOVE else RTW_RX_LLC_KEEP).

(** ** The packet of a subframe *)

(** [da] and [sa] are the addresses' bytes, the MSDU is at [p].  The bytes are
    the same whether they are copied or the frame's own memory is used. *)
Definition rtw_os_alloc_msdu_pkt (b da sa : list Z) (p msdu_len : Z) (llc_hdl : rtw_rx_llc_hdl)
    : res (list Z) :=
  msdu ← rd_n b p msdu_len;
  mret (match llc_hdl with
        | RTW_RX_LLC_KEEP => da ++ sa ++ be16 (u16 msdu_len) ++ msdu
        | _ => da ++ sa ++ drop (Z.to_nat SNAP_SIZE) msdu
        end).

(** ** The decision of an access point *)

Section ap.
(** The own address, the stations, how many are associated; whether group
    frames are sent to each station on its own, and to how many; whether a frame
    to send can be had. *)
Context (mac_addr : list Z) (is_peer : list Z -> bool) (asoc_list_cnt : Z).
Context (b2u_list : list Z -> option Z) (alloc_xmitframe : bool).

Definition rtw_ap_rx_msdu_act_check (da sa : list Z) : Z :=
  let is_da_bmc := IS_MCAST da in
  let is_da_self := negb is_da_bmc && bool_decide (da = mac_addr) in
  if bool_decide (sa = mac_addr) then 0
  else if negb is_da_bmc && is_da_self then RTW_RX_MSDU_ACT_INDICATE
  else
    let act := if is_da_bmc then RTW_RX_MSDU_ACT_INDICATE
               else if is_peer da then 0 else RTW_RX_MSDU_ACT_INDICATE in
    if asoc_list_cnt <=? 1 then act
    else
      match (if is_da_bmc then b2u_list da else None) with
      | Some n => if 0 <? n then Z.lor act RTW_RX_MSDU_ACT_FORWARD else act
      | None => if alloc_xmitframe then Z.lor act RTW_RX_MSDU_ACT_FORWARD else act
      end.
End ap.

(** ** The subframes of an aggregate *)

(** The attributes of the frame the conversion uses, besides those of
    [rx_pkt_attrib]. *)
Record msdu_attrib := mkMa { ma_to_fr_ds : Z; ma_amsdu : bool; ma_dst : list Z; ma_src : list Z }.

Section amsdu.
(** [registrypriv.amsdu_mode == RTW_AMSDU_MODE_NON_SPP] and
    [dot11PrivacyAlgrthm]. *)
Context (non_spp : bool) (dot11PrivacyAlgrthm : Z).
(** What is done with an MSDU, by its addresses, and whether there is memory for
    the packet of a subframe, by its number. *)
Context (act_check : list Z -> list Z -> Z) (have_pkt : Z -> bool).

Definition validate_amsdu_content (ma : msdu_attrib) (a : rx_pkt_attrib) (da sa : list Z) : bool :=
  if non_spp && negb (dot11PrivacyAlgrthm =? _NO_PRIVACY_) then
    negb (((ma_to_fr_ds ma =? 1) && negb (bool_decide (da = ra_ra a))) ||
          ((ma_to_fr_ds ma =? 2) && negb (bool_decide (sa = ra_ta a))) ||
          bool_decide (da = rtw_rfc1042_header))
  else true.

(** The packets indicated and those forwarded, each in order. *)
Definition msdu_out : Type := list (list Z) * list (list Z).

(** What is done with a subframe's packet. *)
Definition msdu_dispose (act : Z) (pkt : list Z) (out : msdu_out) : msdu_out :=
  (if z_true (Z.land act RTW_RX_MSDU_ACT_INDICATE) then out.1 ++ [pkt] else out.1,
   if z_true (Z.land act RTW_RX_MSDU_ACT_FORWARD) then out.2 ++ [pkt] else out.2).

(** [move_to_next]: the offset and length behind a subframe of [n] bytes, or
    [None] when the loop is left; [nr] subframes are kept for the upper layer. *)
Definition amsdu_next (pdata a_len n nr : Z) : option (Z * Z) :=
  let pdata := pdata + ETH_HLEN in
  let a_len := a_len - ETH_HLEN in
  if nr >=? MAX_SUBFRAME_COUNT then None
  else
    let pdata := pdata + n in
    let a_len := a_len - n in
    if negb (a_len =? 0) then
      let padding_len := 4 - Z.land (n + ETH_HLEN) 3 in
      let padding_len := if padding_len =? 4 then 0 else padding_len in
      if a_len <? padding_len then None else Some (pdata + padding_len, a_len - padding_len)
    else Some (pdata, a_len).

(** The loop; [k] numbers the subframes looked at. *)
Fixpoint amsdu_loop (fuel : nat) (ma : msdu_attrib) (a : rx_pkt_attrib) (b : list Z)
    (k pdata a_len : Z) (out : msdu_out) : res msdu_out :=
  if negb (a_len >? ETH_HLEN) then mret out
  else match fuel with
  | O => Fuel
  | S fuel =>
      n ← RTW_GET_BE16 b (pdata + 12);
      if a_len <? ETH_HLEN + n then mret out
      else
        da ← rd_n b pdata ETH_ALEN;
        sa ← rd_n b (pdata + ETH_ALEN) ETH_ALEN;
        if negb (validate_amsdu_content ma a da sa) then mret out
        else
          llc_hdl ← rtw_recv_llc_parse b (pdata + ETH_HLEN) n;
          let act := act_check da sa in
          o ← (if act =? 0 then mret (Some out)
               else if have_pkt k then
                 pkt ← rtw_os_alloc_msdu_pkt b da sa (pdata + ETH_HLEN) n llc_hdl;
                 mret (Some (msdu_dispose act pkt out))
               else mret None);
          match o with
          | None => mret out
          | Some out =>
              match amsdu_next pdata a_len n (zlen out.1) with
              | None => mret out
              | Some (pdata, a_len) => amsdu_loop fuel ma a b (k + 1) pdata a_len out
              end
          end
  end.

(** The packets of an aggregate; the frame itself is freed. *)
Definition amsdu_to_msdu (ma : msdu_attrib) (f : recv_frame) : res msdu_out :=
  let a := rf_attrib f in
  let f := recvframe_pull f (ra_hdrlen a) in
  let f := if ra_iv_len a >? 0 then recvframe_pull f (ra_iv_len a) else f in
  let f := if z_true (ra_encrypt a) then recvframe_pull_tail f (ra_icv_len a) else f in
  amsdu_loop (Z.to_nat (rx_len f)) ma a (rx_data f) 0 0 (rx_len f) ([], []).

(** ** A frame with one MSDU *)

(** [None] when the frame is too short for the header. *)
Definition wlanhdr_to_ethhdr (ma : msdu_attrib) (f : recv_frame) (llc_hdl : rtw_rx_llc_hdl)
    : res (option recv_frame) :=
  let a := rf_attrib f in
  let f := if z_true (ra_encrypt a) then recvframe_pull_tail f (ra_icv_len a) else f in
  let remove := match llc_hdl with RTW_RX_LLC_KEEP => false | _ => true end in
  let rmv_len := ra_hdrlen a + ra_iv_len a + (if remove then SNAP_SIZE else 0) in
  let len := u16 (rx_len f - rmv_len) in
  let sz := rmv_len - 14 + (if remove then 2 else 0) in
  if sz >? rx_tail f then mret None
  else
    let f := recvframe_pull f sz in
    d ← wr (rx_data f) 0 (ma_dst ma);
    d ← wr d ETH_ALEN (ma_src ma);
    d ← (if remove then mret d else wr d 12 (be16 len));
    mret (Some (rf_with_data f d)).

(** The packet indicated and the packet forwarded, or [None] for a drop. *)
Definition core_rx_process_msdu (ma : msdu_attrib) (f : recv_frame) : res (option msdu_out) :=
  let a := rf_attrib f in
  let msdu := ra_hdrlen a + ra_iv_len a in
  let msdu_len := u16 (rx_len f - ra_hdrlen a - ra_iv_len a -
                       (if z_true (ra_encrypt a) then ra_icv_len a else 0)) in
  llc_hdl ← rtw_recv_llc_parse (rx_data f) msdu msdu_len;
  let act := act_check (ma_dst ma) (ma_src ma) in
  if act =? 0 then mret None
  else
    o ← wlanhdr_to_ethhdr ma f llc_hdl;
    match o with
    | None => mret None
    | Some f =>
        pkt ← rd_n (rx_data f) 0 (rx_len f);
        mret (Some (msdu_dispose act pkt ([], [])))
    end.

Definition rtw_core_rx_data_post_process (ma : msdu_attrib) (f : recv_frame) : res (option msdu_out) :=
  if ma_amsdu ma then out ← amsdu_to_msdu ma f; mret (Some out)
  else core_rx_process_msdu ma f.

End amsdu.

(** * Theorems

    Any aggregate is taken apart without leaving its buffer; the subframes a
    sender put into it are delivered in order as Ethernet packets; and a frame
    with one MSDU becomes the same Ethernet packet as a subframe with it. *)

(** ** The packet of an MSDU *)

(** The handling of an MSDU by its bytes. *)
Definition llc_of (msdu : list Z) : rtw_rx_llc_hdl :=
  if zlen msdu <? 8 then RTW_RX_LLC_KEEP
  else
    let t := 256 * at_ msdu 6 + at_ msdu 7 in
    let head := take 6 msdu in
    if (bool_decide (head = rtw_rfc1042_header) && negb (t =? ETH_P_AARP) && negb (t =? ETH_P_IPX))
       || bool_decide (head = rtw_bridge_tunnel_header)
    then RTW_RX_LLC_REMOVE else RTW_RX_LLC_KEEP.

(** The Ethernet packet: with the LLC header removed the EtherType behind it
    follows the addresses, otherwise the length does. *)
Definition eth_packet (da sa msdu : list Z) : list Z :=
  match llc_of msdu with
  | RTW_RX_LLC_KEEP => da ++ sa ++ be16 (zlen msdu) ++ msdu
  | _ => da ++ sa ++ drop 6 msdu
  end.

Lemma at_off_take b p l n : at_off b p l -> 0 <= n <= zlen l -> at_off b p (take (Z.to_nat n) l).
Proof. intros H Hn. rewrite <- (take_drop (Z.to_nat n) l) in H. by apply at_off_app in H as [H _]. Qed.

Lemma zlen_take {A} (l : list A) n : 0 <= n <= zlen l -> zlen (take (Z.to_nat n) l) = n.
Proof. intros H. unfold zlen in *. rewrite length_take. lia. Qed.

Lemma memcmp_at b p l k n : at_off b p l -> 0 <= n <= zlen l -> n = zlen k ->
  memcmp b p k n = Ok (bool_decide (take (Z.to_nat n) l = k)).
Proof.
  intros H Hn ->. unfold memcmp. rewrite (at_off_rd_n b p (take (Z.to_nat (zlen k)) l)), bind_Ok.
  - rewrite (at_off_rd_n k 0 k), bind_Ok by (try apply at_off_refl; done). done.
  - by apply at_off_take.
  - by rewrite zlen_take.
Qed.

Lemma rd_at b p l i : at_off b p l -> 0 <= i < zlen l -> rd b (p + i) = Ok (at_ l i).
Proof.
  intros (pre & post & -> & ->) Hi. rewrite rd_app_r by lia. unfold rd, at_.
  replace (i <? 0) with false by lia. rewrite lookup_app_l by (unfold zlen in Hi; lia).
  destruct (lookup_lt_is_Some_2 l (Z.to_nat i)) as [x Hx]; [unfold zlen in Hi; lia|].
  by rewrite Hx, (nth_lookup_Some _ _ _ _ Hx).
Qed.

Lemma at_byte l i : bytes l -> 0 <= i < zlen l -> byte (at_ l i).
Proof.
  intros Hb Hi. pose proof (rd_at l 0 l i (at_off_refl l) Hi) as H.
  destruct (rd_byte l (0 + i) Hb) as (x & Hx & Hxb); [lia|]. rewrite Hx in H. by injection H as <-.
Qed.

Lemma be16_get b p l i : bytes l -> at_off b p l -> 0 <= i -> i + 2 <= zlen l ->
  RTW_GET_BE16 b (p + i) = Ok (256 * at_ l i + at_ l (i + 1)).
Proof.
  intros Hb H Hi Hl. unfold RTW_GET_BE16. rewrite (rd_at b p l i) by (done || lia). rewrite bind_Ok.
  replace (p + i + 1) with (p + (i + 1)) by lia. rewrite (rd_at b p l (i + 1)) by (done || lia).
  rewrite bind_Ok. pose proof (at_byte l i Hb ltac:(lia)) as B0.
  pose proof (at_byte l (i + 1) Hb ltac:(lia)) as B1.
  rewrite lor_shift8 by done. unfold u16, mret, res_ret. unfold byte in *. f_equal. lia.
Qed.

Lemma llc_parse_spec b p msdu : at_off b p msdu -> bytes msdu ->
  rtw_recv_llc_parse b p (zlen msdu) = Ok (llc_of msdu).
Proof.
  intros H Hb. unfold rtw_recv_llc_parse, llc_of. destruct (Z.ltb_spec (zlen msdu) 8); [done|].
  rewrite (be16_get b p msdu) by (done || unfold SNAP_SIZE; lia). rewrite bind_Ok.
  rewrite !(memcmp_at b p msdu), !bind_Ok by (done || unfold SNAP_SIZE; lia). done.
Qed.

Lemma alloc_msdu_spec b p da sa msdu : at_off b p msdu -> word16 (zlen msdu) ->
  rtw_os_alloc_msdu_pkt b da sa p (zlen msdu) (llc_of msdu) = Ok (eth_packet da sa msdu).
Proof.
  intros H Hw. unfold rtw_os_alloc_msdu_pkt, eth_packet.
  rewrite (at_off_rd_n b p msdu), bind_Ok by done. rewrite u16_small by done.
  by destruct (llc_of msdu).
Qed.

(** ** Aggregates *)

Record subframe := mkSub { sf_da : list Z; sf_sa : list Z; sf_msdu : list Z }.

Definition sf_wf (s : subframe) : Prop :=
  zlen (sf_da s) = 6 /\ zlen (sf_sa s) = 6 /\ word16 (zlen (sf_msdu s)) /\
  bytes (sf_da s) /\ bytes (sf_sa s) /\ bytes (sf_msdu s).

#[export] Instance sf_wf_dec s : Decision (sf_wf s).
Proof. unfold sf_wf, word16. apply _. Defined.

Definition sf_enc (s : subframe) : list Z := sf_da s ++ sf_sa s ++ be16 (zlen (sf_msdu s)) ++ sf_msdu s.
(** Bytes that fill a subframe up to a multiple of four. *)
Definition sf_pad (s : subframe) : Z := (- (14 + zlen (sf_msdu s))) mod 4.
Definition sf_eth (s : subframe) : list Z := eth_packet (sf_da s) (sf_sa s) (sf_msdu s).

(** Every subframe but the last is padded. *)
Fixpoint amsdu_enc (ss : list subframe) : list Z :=
  match ss with
  | [] => []
  | [s] => sf_enc s
  | s :: ss => sf_enc s ++ zeros (sf_pad s) ++ amsdu_enc ss
  end.

Lemma zlen_sf_enc s : sf_wf s -> zlen (sf_enc s) = 14 + zlen (sf_msdu s).
Proof. intros (H1 & H2 & _). unfold sf_enc, be16. zl. Qed.

Lemma land_3 x : Z.land x 3 = x mod 4.
Proof. apply (Z.land_ones x 2). lia. Qed.

(** The step behind a subframe. *)
Lemma amsdu_next_spec s pdata a_len nr : sf_wf s -> zlen (sf_enc s) + sf_pad s <= a_len -> nr < 64 ->
  sf_pad s = 0 \/ zlen (sf_enc s) < a_len ->
  amsdu_next pdata a_len (zlen (sf_msdu s)) nr =
  Some (pdata + zlen (sf_enc s) + (if zlen (sf_enc s) =? a_len then 0 else sf_pad s),
        a_len - zlen (sf_enc s) - (if zlen (sf_enc s) =? a_len then 0 else sf_pad s)).
Proof.
  intros Hs Hl Hn Hp. rewrite zlen_sf_enc in * by done. unfold amsdu_next, MAX_SUBFRAME_COUNT, ETH_HLEN, sf_pad in *.
  replace (nr >=? 64) with false by lia. rewrite land_3.
  destruct (Z.eqb_spec (14 + zlen (sf_msdu s)) a_len) as [E|E].
  - replace (a_len - 14 - zlen (sf_msdu s) =? 0) with true by lia. simpl. f_equal. f_equal; lia.
  - replace (a_len - 14 - zlen (sf_msdu s) =? 0) with false by lia. simpl.
    assert ((if 4 - (zlen (sf_msdu s) + 14) mod 4 =? 4 then 0 else 4 - (zlen (sf_msdu s) + 14) mod 4) =
      (- (14 + zlen (sf_msdu s))) mod 4) as -> by (destruct (_ =? 4) eqn:E4; lia).
    replace (_ <? _) with false by lia. f_equal. f_equal; lia.
Qed.

Lemma amsdu_enc_cons s s2 ss : amsdu_enc (s :: s2 :: ss) = sf_enc s ++ zeros (sf_pad s) ++ amsdu_enc (s2 :: ss).
Proof. reflexivity. Qed.

Lemma amsdu_enc_long s ss : sf_wf s -> 14 <= zlen (amsdu_enc (s :: ss)).
Proof.
  intros Hs. pose proof (zlen_sf_enc s Hs). pose proof (zlen_nonneg (sf_msdu s)).
  destruct ss as [|s2 ss]; [cbn [amsdu_enc]; lia|]. rewrite amsdu_enc_cons, !zlen_app.
  pose proof (zlen_nonneg (zeros (sf_pad s))). pose proof (zlen_nonneg (amsdu_enc (s2 :: ss))). lia.
Qed.

Lemma amsdu_enc_count ss : Forall sf_wf ss -> (length ss <= length (amsdu_enc ss))%nat.
Proof.
  induction 1 as [|s ss Hs Hg IH]; [done|]. pose proof (zlen_sf_enc s Hs). pose proof (zlen_nonneg (sf_msdu s)).
  unfold zlen in *. destruct ss as [|s2 ss]; [cbn [amsdu_enc length]; lia|].
  rewrite amsdu_enc_cons, !length_app. cbn [length] in *. lia.
Qed.

Section delivers.
Context (non_spp : bool) (priv : Z) (act : list Z -> list Z -> Z) (have_pkt : Z -> bool).
Context (ma : msdu_attrib) (a : rx_pkt_attrib).

(** What becomes of subframe [k]: [None] when the loop is left there. *)
Definition sub_turn (k : Z) (s : subframe) (out : msdu_out) : option msdu_out :=
  if negb (validate_amsdu_content non_spp priv ma a (sf_da s) (sf_sa s)) then None
  else
    let act := act (sf_da s) (sf_sa s) in
    if act =? 0 then Some out
    else if have_pkt k then Some (msdu_dispose act (sf_eth s) out) else None.

(** What becomes of the subframes a sender put together: each is disposed of in
    order, until one has a refused content, there is no memory for its packet, or
    [MAX_SUBFRAME_COUNT] are kept; an empty last one is looked at only if there
    are [more] bytes behind it. *)
Fixpoint deliver_subs (more : bool) (k : Z) (ss : list subframe) (out : msdu_out) : msdu_out :=
  match ss with
  | [] => out
  | s :: ss =>
      if (zlen (sf_msdu s) =? 0) && bool_decide (ss = []) && negb more then out
      else match sub_turn k s out with
      | None => out
      | Some out => if zlen out.1 >=? MAX_SUBFRAME_COUNT then out else deliver_subs more (k + 1) ss out
      end
  end.

(** One turn of the loop over an encoded subframe. *)
Lemma amsdu_turn fuel b k pdata a_len out s :
  sf_wf s -> at_off b pdata (sf_enc s) -> zlen (sf_enc s) <= a_len -> 14 < a_len ->
  amsdu_loop non_spp priv act have_pkt (S fuel) ma a b k pdata a_len out =
  match sub_turn k s out with
  | None => Ok out
  | Some out =>
      match amsdu_next pdata a_len (zlen (sf_msdu s)) (zlen out.1) with
      | None => Ok out
      | Some (pdata', a_len') => amsdu_loop non_spp priv act have_pkt fuel ma a b (k + 1) pdata' a_len' out
      end
  end.
Proof.
  intros Hs Hat Hl Hpos. pose proof Hs as (H1 & H2 & H3 & _ & _ & H6).
  rewrite zlen_sf_enc in Hl by done. cbn [amsdu_loop]. unfold ETH_HLEN, sub_turn.
  replace (a_len >? 14) with true by lia. cbn [negb].
  unfold sf_enc in Hat. apply at_off_app in Hat as [Hda Hat]. apply at_off_app in Hat as [Hsa Hat].
  apply at_off_app in Hat as [Hn Hm]. rewrite H1, H2 in *. change (zlen (be16 _)) with 2 in Hm.
  replace (pdata + 6 + 6) with (pdata + 12) in Hn by lia.
  replace (pdata + 6 + 6 + 2) with (pdata + 14) in Hm by lia.
  rewrite (be16_at b (pdata + 12) _ H3 Hn), bind_Ok.
  replace (a_len <? 14 + zlen (sf_msdu s)) with false by lia.
  rewrite (at_off_rd_n b pdata (sf_da s)), bind_Ok by done.
  rewrite (at_off_rd_n b (pdata + ETH_ALEN) (sf_sa s)), bind_Ok by done.
  destruct (validate_amsdu_content _ _ _ _ _ _); cbn [negb]; [|done].
  rewrite (llc_parse_spec b _ (sf_msdu s)), bind_Ok by done.
  cbv zeta. destruct (act _ _ =? 0); [by rewrite bind_Ok|]. destruct (have_pkt k); [|done].
  by rewrite alloc_msdu_spec, !bind_Ok by done.
Qed.

Lemma amsdu_loop_short fuel b k pdata a_len out : a_len <= 14 ->
  amsdu_loop non_spp priv act have_pkt fuel ma a b k pdata a_len out = Ok out.
Proof.
  intros H. destruct fuel; cbn [amsdu_loop]; unfold ETH_HLEN;
    by replace (a_len >? 14) with false by lia.
Qed.

(** The step behind the last subframe ends the loop. *)
Lemma amsdu_last fuel b k pdata (tail : list Z) out s : sf_wf s -> zlen tail <= 14 ->
  match amsdu_next pdata (zlen (sf_enc s) + zlen tail) (zlen (sf_msdu s)) (zlen out.1) with
  | None => Ok out
  | Some (p, l) => amsdu_loop non_spp priv act have_pkt fuel ma a b k p l out
  end = Ok out.
Proof.
  intros Hs Ht. pose proof (zlen_nonneg tail). destruct (amsdu_next _ _ _ _) as [[p' l']|] eqn:E; [|done].
  rewrite amsdu_loop_short; [done|]. unfold amsdu_next in E. rewrite zlen_sf_enc in * by done.
  pose proof (land_3 (zlen (sf_msdu s) + ETH_HLEN)). repeat case_match; simplify_eq; unfold ETH_HLEN in *; lia.
Qed.

(** The loop does with an encoding what [deliver_subs] says, whatever up to
    fourteen bytes follow. *)
Lemma amsdu_loop_delivers ss : forall fuel b k pdata out (tail : list Z),
  Forall sf_wf ss -> at_off b pdata (amsdu_enc ss) -> zlen tail <= 14 -> (length ss <= fuel)%nat ->
  amsdu_loop non_spp priv act have_pkt fuel ma a b k pdata (zlen (amsdu_enc ss) + zlen tail) out =
  Ok (deliver_subs (negb (bool_decide (tail = []))) k ss out).
Proof.
  induction ss as [|s ss IH]; intros fuel b k pdata out tail Hg Hat Ht Hf.
  { apply amsdu_loop_short. change (zlen (amsdu_enc [])) with 0. lia. }
  apply Forall_cons in Hg as [Hs Hg]. destruct fuel as [|fuel]; [simpl in Hf; lia|].
  pose proof (zlen_nonneg tail). pose proof (zlen_nonneg (sf_msdu s)). pose proof (zlen_sf_enc s Hs).
  cbn [deliver_subs]. destruct ss as [|s2 ss].
  - cbn [amsdu_enc] in *. rewrite bool_decide_true by done. rewrite andb_true_r, negb_involutive.
    destruct (Z.eqb_spec (zlen (sf_msdu s)) 0) as [E|E]; cbn [andb].
    + destruct (bool_decide_reflect (tail = [])) as [->|Hne].
      { apply amsdu_loop_short. change (zlen (@nil Z)) with 0. lia. }
      assert (0 < zlen tail) by (destruct tail; [done|zl]).
      rewrite (amsdu_turn _ _ _ _ _ _ s) by (done || lia).
      destruct (sub_turn k s out) as [o|]; [|done]. rewrite amsdu_last by done. by destruct (_ >=? _).
    + rewrite (amsdu_turn _ _ _ _ _ _ s) by (done || lia).
      destruct (sub_turn k s out) as [o|]; [|done]. rewrite amsdu_last by done. by destruct (_ >=? _).
  - rewrite amsdu_enc_cons in *. apply at_off_app in Hat as [Hat1 Hat]. apply at_off_app in Hat as [_ Hat2].
    assert (0 <= sf_pad s < 4) as Hpad by (unfold sf_pad; lia). rewrite zlen_zeros in Hat2 by lia.
    assert (14 <= zlen (amsdu_enc (s2 :: ss))) as Hlong.
    { apply Forall_cons in Hg as [Hs2 _]. by apply amsdu_enc_long. }
    rewrite bool_decide_false by done. rewrite andb_false_r. cbn [andb].
    rewrite !zlen_app, zlen_zeros by lia. rewrite (amsdu_turn _ _ _ _ _ _ s) by (done || lia).
    destruct (sub_turn k s out) as [o|]; [|done]. destruct (Z.geb_spec (zlen o.1) MAX_SUBFRAME_COUNT) as [Hm|Hm].
    { unfold amsdu_next. by replace (zlen o.1 >=? MAX_SUBFRAME_COUNT) with true by lia. }
    unfold MAX_SUBFRAME_COUNT in Hm. rewrite amsdu_next_spec by (done || lia || (right; lia)).
    replace (zlen (sf_enc s) =? _) with false by lia.
    replace (zlen (sf_enc s) + (sf_pad s + zlen (amsdu_enc (s2 :: ss))) + zlen tail - zlen (sf_enc s) - sf_pad s)
      with (zlen (amsdu_enc (s2 :: ss)) + zlen tail) by lia.
    apply IH; try done. simpl in *. lia.
Qed.

(** Subframes that are all indicated and not empty, as many as are kept. *)
Definition sub_good (s : subframe) : Prop :=
  sf_wf s /\ 0 < zlen (sf_msdu s) /\
  validate_amsdu_content non_spp priv ma a (sf_da s) (sf_sa s) = true /\
  act (sf_da s) (sf_sa s) = RTW_RX_MSDU_ACT_INDICATE.

Lemma deliver_all more ss : forall k out, Forall sub_good ss -> (forall i, have_pkt i = true) ->
  zlen out.1 + zlen ss <= MAX_SUBFRAME_COUNT -> deliver_subs more k ss out = (out.1 ++ map sf_eth ss, out.2).
Proof.
  induction ss as [|s ss IH]; intros k out Hg Hp Hc; [by rewrite app_nil_r; destruct out|].
  apply Forall_cons in Hg as [(Hs & Hpos & Hv & Ha) Hg]. cbn [deliver_subs map].
  replace (zlen (sf_msdu s) =? 0) with false by lia. cbn [andb]. unfold sub_turn. rewrite Hv, Ha, Hp. cbn [negb].
  change (RTW_RX_MSDU_ACT_INDICATE =? 0) with false. cbv iota.
  change (msdu_dispose RTW_RX_MSDU_ACT_INDICATE (sf_eth s) out) with (out.1 ++ [sf_eth s], out.2).
  rewrite zlen_cons in Hc. pose proof (zlen_nonneg ss). cbn [fst snd]. rewrite zlen_app. change (zlen [sf_eth s]) with 1.
  destruct (Z.geb_spec (zlen out.1 + 1) MAX_SUBFRAME_COUNT).
  - assert (ss = []) as -> by (apply zlen_0; lia). done.
  - rewrite IH; [|done|done|cbn [fst]; rewrite zlen_app; change (zlen [sf_eth s]) with 1; lia].
    cbn [fst snd]. by rewrite <- app_assoc.
Qed.
End delivers.

(** ** From the frame to its aggregate *)

Lemma pull_front f l r n : n = zlen l -> rx_data f = l ++ r -> n <= rx_tail f -> n <= rx_len f < 2 ^ 32 ->
  recvframe_pull f n =
  mkRf (rf_id f) (rf_attrib f) r (rx_len f - n) (rx_tail f - n) (rf_psta f) (rf_keytrack f).
Proof.
  intros -> Hd Ht Hl. pose proof (zlen_nonneg l). unfold recvframe_pull.
  replace (_ >? _) with false by lia. rewrite Hd, u32_small by lia. unfold zlen at 1.
  by rewrite Nat2Z.id, drop_app_length.
Qed.

(** The check value behind a frame of [n] bytes goes when the frame is protected. *)
Lemma trim_spec f g (v : list Z) n : ra_icv_len (rf_attrib f) = zlen v ->
  z_true (ra_encrypt (rf_attrib f)) = true \/ v = [] ->
  rx_len g = n + zlen v -> rx_tail g = n + zlen v -> 0 <= n -> n + zlen v < 2 ^ 31 ->
  let t := if z_true (ra_encrypt (rf_attrib f)) then recvframe_pull_tail g (ra_icv_len (rf_attrib f)) else g in
  rx_len t = n /\ rx_tail t = n /\ rx_data t = rx_data g /\ rf_attrib t = rf_attrib g.
Proof.
  intros Hv He Hl Ht Hn HM. cbv zeta. pose proof (zlen_nonneg v). unfold recvframe_pull_tail.
  rewrite Hv, Ht, Hl. replace (_ <? 0) with false by lia.
  destruct (z_true _); cbn [rx_len rx_data rx_tail rf_attrib].
  - rewrite u32_small by lia. repeat split; lia.
  - destruct He as [He | ->]; [done|]. change (zlen (@nil Z)) with 0 in *. repeat split; lia.
Qed.

(** The aggregate is what is left of a frame behind its header and initialization
    vector, and before its check value when it is protected. *)
Lemma amsdu_frame non_spp priv act have_pkt ma f p :
  fp_wf f p -> z_true (ra_encrypt (rf_attrib f)) = true \/ fp_icv p = [] ->
  amsdu_to_msdu non_spp priv act have_pkt ma f =
  amsdu_loop non_spp priv act have_pkt (length (fp_payload p)) ma (rf_attrib f)
    (fp_payload p ++ fp_icv p ++ fp_slack p) 0 0 (zlen (fp_payload p)) ([], []).
Proof.
  intros (Hd & Hl & Ht & Hh & Hi & Hv & Hs & HM) He. unfold amsdu_to_msdu. cbv zeta.
  unfold fp_len, fp_front in *. rewrite Hd in HM.
  rewrite (pull_front f (fp_hdr p) (fp_iv p ++ fp_payload p ++ fp_icv p ++ fp_slack p))
    by (rewrite ?Hd, <- ?app_assoc; done || zl).
  set (g := mkRf _ _ _ _ _ _ _).
  assert ((if ra_iv_len (rf_attrib f) >? 0 then recvframe_pull g (ra_iv_len (rf_attrib f)) else g) =
    mkRf (rf_id f) (rf_attrib f) (fp_payload p ++ fp_icv p ++ fp_slack p)
      (zlen (fp_payload p) + zlen (fp_icv p)) (zlen (fp_payload p) + zlen (fp_icv p)) (rf_psta f) (rf_keytrack f)) as ->.
  { rewrite Hi. destruct (Z.gtb_spec (zlen (fp_iv p)) 0) as [E|E].
    - rewrite (pull_front g (fp_iv p) (fp_payload p ++ fp_icv p ++ fp_slack p)) by (done || unfold g; cbn; zl).
      unfold g. cbn [rx_len rx_tail rf_id rf_attrib rf_psta rf_keytrack]. f_equal; zl.
    - assert (fp_iv p = []) as E0 by (destruct (fp_iv p); [done|exfalso; zl]).
      unfold g. rewrite E0 in *. f_equal; zl. }
  clear g. set (g := mkRf _ _ _ _ _ _ _).
  destruct (trim_spec f g (fp_icv p) (zlen (fp_payload p))) as (-> & _ & -> & _); try done; try zl.
  unfold zlen at 1. by rewrite Nat2Z.id.
Qed.

(** ** A single MSDU *)

Lemma split_last {A} (l : list A) n : 0 <= n <= zlen l -> exists x y, l = x ++ y /\ zlen y = n.
Proof.
  intros H. exists (take (length l - Z.to_nat n) l), (drop (length l - Z.to_nat n) l).
  rewrite take_drop. split; [done|]. unfold zlen in *. rewrite length_drop. lia.
Qed.

(** The header in front of the MSDU [m] is overwritten: [y] is where the addresses
    (and the length) go. *)
Lemma eth_header (y l r da sa : list Z) : zlen da = 6 -> zlen sa = 6 -> 12 <= zlen y ->
  exists d, wr (y ++ l ++ r) 0 da = Ok d /\ wr d 6 sa = Ok (da ++ sa ++ drop 12 y ++ l ++ r).
Proof.
  intros H1 H2 H3.
  assert (exists a b, y = a ++ b ++ drop 12 y /\ zlen a = 6 /\ zlen b = 6) as (a & b & Hy & Ha & Hb).
  { exists (take 6 y), (take 6 (drop 6 y)). unfold zlen in *. rewrite !length_take, length_drop.
    split; [|lia]. change (drop 12 y) with (drop (6 + 6) y). by rewrite <- drop_drop, !take_drop. }
  set (k := drop 12 y) in *. clearbody k. subst y. rewrite <- !app_assoc.
  pose proof (wr_mid [] a (b ++ k ++ l ++ r) da 0 eq_refl ltac:(lia)) as W. cbn [app] in W.
  eexists. split; [exact W|]. by apply (wr_mid da b); lia.
Qed.

Lemma zlen_drop {A} (l : list A) n : (n <= length l)%nat -> zlen (drop n l) = zlen l - Z.of_nat n.
Proof. intros H. unfold zlen. rewrite length_drop. lia. Qed.

Lemma wlanhdr_spec ma f p h :
  fp_wf f p -> z_true (ra_encrypt (rf_attrib f)) = true \/ fp_icv p = [] ->
  zlen (ma_dst ma) = 6 -> zlen (ma_src ma) = 6 -> 14 <= zlen (fp_hdr p) + zlen (fp_iv p) ->
  word16 (zlen (fp_payload p)) -> (h <> RTW_RX_LLC_KEEP -> 6 <= zlen (fp_payload p)) ->
  exists g, wlanhdr_to_ethhdr ma f h = Ok (Some g) /\
    rd_n (rx_data g) 0 (rx_len g) = Ok match h with
      | RTW_RX_LLC_KEEP => ma_dst ma ++ ma_src ma ++ be16 (zlen (fp_payload p)) ++ fp_payload p
      | _ => ma_dst ma ++ ma_src ma ++ drop 6 (fp_payload p)
      end.
Proof.
  intros (Hd & Hl & Ht & Hh & Hi & Hv & Hs & HM) He H1 H2 H3 Hw Hlong.
  unfold wlanhdr_to_ethhdr. cbv zeta. unfold fp_len in *. rewrite Hd in HM.
  destruct (trim_spec f f (fp_icv p) (zlen (fp_front p)) Hv He Hl Ht) as (T1 & T2 & T3 & T4); [zl|zl|].
  set (t := if z_true _ then _ else _) in *. clearbody t. unfold SNAP_SIZE, ETH_ALEN. rewrite Hh, Hi.
  set (cut := match h with RTW_RX_LLC_KEEP => 14 | _ => 6 end).
  destruct (split_last (fp_hdr p ++ fp_iv p) cut) as (x & y & Exy & Hy); [unfold cut; destruct h; zl|].
  assert (rx_data t = x ++ y ++ fp_payload p ++ fp_icv p ++ fp_slack p) as Hdt.
  { rewrite T3, Hd. unfold fp_front. rewrite !app_assoc, Exy. by rewrite <- !app_assoc. }
  assert (zlen x + cut = zlen (fp_hdr p) + zlen (fp_iv p)) as Hx.
  { rewrite <- Hy, <- !zlen_app. by rewrite Exy. }
  unfold fp_front in T1, T2. rewrite !zlen_app in T1, T2. unfold fp_front in HM.
  pose proof (zlen_nonneg (fp_payload p)). rewrite !zlen_app in HM.
  pose proof (zlen_nonneg (fp_icv p ++ fp_slack p)) as Hrest. rewrite zlen_app in Hrest.
  destruct h; unfold cut in *; [|specialize (Hlong ltac:(done))..].
  { replace (_ >? _) with false by lia.
    rewrite (pull_front t x (y ++ fp_payload p ++ fp_icv p ++ fp_slack p)) by (done || lia).
    cbn [rx_data rx_len].
    destruct (eth_header y (fp_payload p) (fp_icv p ++ fp_slack p) (ma_dst ma) (ma_src ma)) as (d & -> & W);
      [done|done|lia|].
    rewrite bind_Ok, W, bind_Ok.
    replace (u16 _) with (zlen (fp_payload p)) by (rewrite u16_small; [lia|unfold word16 in *; lia]).
    rewrite (app_assoc (ma_dst ma)), (wr_mid (ma_dst ma ++ ma_src ma) (drop 12 y)), bind_Ok
      by (try change (zlen (be16 _)) with 2; rewrite ?zlen_app, ?zlen_drop by (unfold zlen in *; lia); lia).
    eexists. split; [done|]. cbn [rx_data rx_len rf_with_data].
    rewrite <- !app_assoc. set (k := be16 _). rewrite (app_assoc k), (app_assoc (ma_src ma)), (app_assoc (ma_dst ma)).
    apply at_off_rd_n; [apply at_off_0|]. rewrite !zlen_app. change (zlen k) with 2. lia. }
  all: replace (_ >? _) with false by lia.
  all: rewrite (pull_front t x (y ++ fp_payload p ++ fp_icv p ++ fp_slack p)) by (done || lia).
  all: cbn [rx_data rx_len].
  all: destruct (eth_header (y ++ take 6 (fp_payload p)) (drop 6 (fp_payload p)) (fp_icv p ++ fp_slack p)
      (ma_dst ma) (ma_src ma)) as (d & W0 & W); [done|done|unfold zlen in *; rewrite length_app, length_take; lia|].
  all: rewrite <- !app_assoc in W0.
  all: rewrite (app_assoc (take 6 _)), take_drop in W0.
  all: rewrite W0, bind_Ok, W, !bind_Ok.
  all: eexists.
  all: split; [done|].
  all: cbn [rx_data rx_len rf_with_data].
  all: rewrite drop_ge by (unfold zlen in *; rewrite length_app, length_take; lia).
  all: cbn [app].
  all: rewrite (app_assoc (ma_src ma)), (app_assoc (ma_dst ma)).
  all: apply at_off_rd_n; [apply at_off_0|].
  all: unfold zlen in *.
  all: rewrite !length_app, length_drop.
  all: lia.
Qed.

(** ** Safety *)

Lemma memcmp_total b p k n : 0 <= p -> 0 <= n <= zlen k -> p + n <= zlen b -> exists t, memcmp b p k n = Ok t.
Proof.
  intros H1 H2 H3. unfold memcmp. destruct (rd_n_in b p n) as (x & -> & _); [lia..|].
  destruct (rd_n_in k 0 n) as (y & -> & _); [lia..|]. rewrite !bind_Ok. by eexists.
Qed.

Lemma be16_total b p : 0 <= p -> p + 2 <= zlen b -> exists n, RTW_GET_BE16 b p = Ok n /\ 0 <= n < 65536.
Proof.
  intros H1 H2. unfold RTW_GET_BE16. destruct (rd_in b p) as (x & -> & _); [lia|].
  destruct (rd_in b (p + 1)) as (y & -> & _); [lia|].
  rewrite !bind_Ok. eexists. split; [done|]. unfold u16. lia.
Qed.

Lemma llc_parse_total b p n : 0 <= p -> p + n <= zlen b -> exists h, rtw_recv_llc_parse b p n = Ok h.
Proof.
  intros H1 H2. unfold rtw_recv_llc_parse. destruct (Z.ltb_spec n 8); [by eexists|]. unfold SNAP_SIZE.
  destruct (be16_total b (p + 6)) as (t & -> & _); [lia..|].
  destruct (memcmp_total b p rtw_rfc1042_header 6) as [r ->]; [lia|done|lia|].
  destruct (memcmp_total b p rtw_bridge_tunnel_header 6) as [q ->]; [lia|done|lia|].
  rewrite !bind_Ok. by eexists.
Qed.

(** A packet for the upper layer: two addresses that passed the check, and the
    rest. *)
Definition good_pkt non_spp priv ma a (pkt : list Z) : Prop :=
  exists da sa rest, pkt = da ++ sa ++ rest /\ zlen da = 6 /\ zlen sa = 6 /\
    validate_amsdu_content non_spp priv ma a da sa = true.

Lemma amsdu_next_bounds pdata a_len n nr p' l' : amsdu_next pdata a_len n nr = Some (p', l') ->
  0 <= n -> 14 + n <= a_len ->
  nr < 64 /\ pdata + 14 <= p' /\ p' + l' = pdata + a_len /\ 0 <= l' <= a_len - 14.
Proof.
  unfold amsdu_next, MAX_SUBFRAME_COUNT, ETH_HLEN. rewrite land_3. intros H Hn Hl.
  destruct (Z.geb_spec nr 64); [done|]. repeat case_match; simplify_eq; lia.
Qed.

Lemma alloc_msdu_total b da sa p n h : 0 <= p -> 0 <= n -> p + n <= zlen b ->
  exists rest, rtw_os_alloc_msdu_pkt b da sa p n h = Ok (da ++ sa ++ rest).
Proof.
  intros H1 H2 H3. unfold rtw_os_alloc_msdu_pkt. destruct (rd_n_in b p n) as (x & -> & _); [lia..|].
  rewrite bind_Ok. destruct h; by eexists.
Qed.

Lemma msdu_dispose_spec (P : list Z -> Prop) act pkt out : P pkt -> Forall P out.1 /\ Forall P out.2 ->
  Forall P (msdu_dispose act pkt out).1 /\ Forall P (msdu_dispose act pkt out).2 /\
  zlen (msdu_dispose act pkt out).1 <= zlen out.1 + 1.
Proof.
  intros Hp [H1 H2]. unfold msdu_dispose. cbn [fst snd].
  assert (zlen (out.1 ++ [pkt]) = zlen out.1 + 1) by (by rewrite zlen_app).
  split_and!; [case_match..|case_match; lia]; rewrite ?Forall_app, ?Forall_singleton; done.
Qed.

Lemma amsdu_loop_safe non_spp priv act have_pkt ma a b fuel : forall k pdata a_len out,
  0 <= pdata -> pdata + a_len <= zlen b -> a_len < Z.of_nat fuel + 14 -> zlen out.1 <= 63 ->
  Forall (good_pkt non_spp priv ma a) out.1 /\ Forall (good_pkt non_spp priv ma a) out.2 ->
  exists out', amsdu_loop non_spp priv act have_pkt fuel ma a b k pdata a_len out = Ok out' /\
    zlen out'.1 <= 64 /\
    Forall (good_pkt non_spp priv ma a) out'.1 /\ Forall (good_pkt non_spp priv ma a) out'.2.
Proof.
  induction fuel as [|fuel IH]; intros k pdata a_len out Hp Hb Hf Hn Hg.
  { exists out. rewrite amsdu_loop_short by lia. repeat split; [lia|apply Hg..]. }
  assert (zlen out.1 <= 64) as Hn' by lia.
  cbn [amsdu_loop]. unfold ETH_HLEN, ETH_ALEN in *.
  destruct (Z.gtb_spec a_len 14); cbn [negb]; [|by exists out].
  destruct (be16_total b (pdata + 12)) as (n & -> & Hn0); [lia..|]. rewrite bind_Ok.
  destruct (Z.ltb_spec a_len (14 + n)); [by exists out|].
  destruct (rd_n_in b pdata 6) as (da & -> & Hda & _); [lia..|].
  destruct (rd_n_in b (pdata + 6) 6) as (sa & -> & Hsa & _); [lia..|]. rewrite !bind_Ok.
  destruct (validate_amsdu_content _ _ _ _ _ _) eqn:Hv; cbn [negb]; [|by exists out].
  destruct (llc_parse_total b (pdata + 14) n) as [h ->]; [lia..|]. rewrite bind_Ok. cbv zeta.
  assert (forall out1, zlen out1.1 <= 64 ->
    Forall (good_pkt non_spp priv ma a) out1.1 /\ Forall (good_pkt non_spp priv ma a) out1.2 ->
    exists out', match amsdu_next pdata a_len n (zlen out1.1) with
      | Some (p', l') => amsdu_loop non_spp priv act have_pkt fuel ma a b (k + 1) p' l' out1
      | None => mret out1 end = Ok out' /\ zlen out'.1 <= 64 /\
    Forall (good_pkt non_spp priv ma a) out'.1 /\ Forall (good_pkt non_spp priv ma a) out'.2) as Hnext.
  { intros out1 L1 G1. destruct (amsdu_next _ _ _ _) as [[p' l']|] eqn:E; [|by exists out1].
    apply amsdu_next_bounds in E; [|lia..]. apply IH; lia || done. }
  destruct (act da sa =? 0); [by apply Hnext|]. destruct (have_pkt k); [|by exists out].
  destruct (alloc_msdu_total b da sa (pdata + 14) n h) as [rest ->]; [lia..|]. rewrite !bind_Ok.
  destruct (msdu_dispose_spec (good_pkt non_spp priv ma a) (act da sa) (da ++ sa ++ rest) out) as (G1 & G2 & G3);
    [by exists da, sa, rest|done|].
  apply Hnext; [lia|done].
Qed.

(** The buffer of a frame covers the bytes the frame counts. *)
Definition rf_ok (f : recv_frame) : Prop :=
  0 <= rx_len f /\ rx_tail f = rx_len f /\ rx_len f <= zlen (rx_data f) < 2 ^ 31.

#[export] Instance rf_ok_dec f : Decision (rf_ok f).
Proof. unfold rf_ok. apply _. Defined.

Lemma pull_ok f n : rf_ok f -> 0 <= n -> rf_ok (recvframe_pull f n).
Proof.
  unfold rf_ok, recvframe_pull. intros (H1 & H2 & H3) Hn. rewrite H2.
  destruct (Z.gtb_spec n (rx_len f)); [done|]. cbn [rx_data rx_len rx_tail].
  rewrite u32_small by lia. unfold zlen in *. rewrite length_drop. lia.
Qed.

Lemma pull_tail_ok f n : rf_ok f -> 0 <= n -> rf_ok (recvframe_pull_tail f n).
Proof.
  unfold rf_ok, recvframe_pull_tail. intros (H1 & H2 & H3) Hn. rewrite H2.
  destruct (Z.ltb_spec (rx_len f - n) 0); [done|]. cbn [rx_data rx_len rx_tail]. rewrite u32_small by lia. lia.
Qed.

(** C25: Whatever bytes an aggregate has, amsdu_to_msdu reads nothing outside
    the frame's buffer and ends; at most MAX_SUBFRAME_COUNT packets are kept
    for the upper layer, and every packet indicated or forwarded has addresses
    that passed validate_amsdu_content. *)
Theorem amsdu_bounds non_spp priv act have_pkt ma f : rf_ok f ->
  0 <= ra_hdrlen (rf_attrib f) -> 0 <= ra_icv_len (rf_attrib f) ->
  exists out, amsdu_to_msdu non_spp priv act have_pkt ma f = Ok out /\ zlen out.1 <= MAX_SUBFRAME_COUNT /\
    Forall (good_pkt non_spp priv ma (rf_attrib f)) out.1 /\ Forall (good_pkt non_spp priv ma (rf_attrib f)) out.2.
Proof.
  intros Hf Hh Hv. unfold amsdu_to_msdu. cbv zeta.
  pose proof (pull_ok f _ Hf Hh) as Hg. set (g := recvframe_pull f _) in *.
  assert (rf_ok (if ra_iv_len (rf_attrib f) >? 0 then recvframe_pull g (ra_iv_len (rf_attrib f)) else g)) as Hg2.
  { destruct (Z.gtb_spec (ra_iv_len (rf_attrib f)) 0); [|done]. apply pull_ok; [done|lia]. }
  set (g2 := if ra_iv_len _ >? 0 then _ else _) in *.
  assert (rf_ok (if z_true (ra_encrypt (rf_attrib f)) then recvframe_pull_tail g2 (ra_icv_len (rf_attrib f)) else g2)) as Hg3.
  { destruct (z_true _); [|done]. by apply pull_tail_ok. }
  set (g3 := if z_true _ then _ else _) in *. destruct Hg3 as (H1 & _ & H3).
  apply amsdu_loop_safe; [lia..|done|by split].
Qed.

(** C23: An aggregate of subframes with any addresses and MSDUs, with up to
    fourteen stray bytes behind it, is disposed of subframe by subframe in the
    order of the sender: each becomes the Ethernet packet of its addresses and
    MSDU (without the LLC header, or behind its length) and goes where the
    decision for its addresses says (to the upper layer, on to a station,
    both, or nowhere), until one is refused by the content check, one finds no
    memory, or 64 are kept for the upper layer; an empty subframe at the end,
    with nothing behind it, is not looked at. If all pass the check, are for
    the upper layer only and not empty, memory is there and they are at most
    64, the upper layer gets exactly one packet per subframe, in order. *)
Theorem amsdu_delivers non_spp priv act have_pkt ma f p ss tail :
  fp_wf f p -> z_true (ra_encrypt (rf_attrib f)) = true \/ fp_icv p = [] ->
  fp_payload p = amsdu_enc ss ++ tail -> zlen tail <= 14 -> Forall sf_wf ss ->
  amsdu_to_msdu non_spp priv act have_pkt ma f =
    Ok (deliver_subs non_spp priv act have_pkt ma (rf_attrib f) (negb (bool_decide (tail = []))) 0 ss ([], [])) /\
  (Forall (sub_good non_spp priv act ma (rf_attrib f)) ss -> (forall i, have_pkt i = true) ->
   zlen ss <= MAX_SUBFRAME_COUNT ->
   amsdu_to_msdu non_spp priv act have_pkt ma f = Ok (map sf_eth ss, [])).
Proof.
  intros Hw He Hp Ht Hg.
  assert (amsdu_to_msdu non_spp priv act have_pkt ma f =
    Ok (deliver_subs non_spp priv act have_pkt ma (rf_attrib f) (negb (bool_decide (tail = []))) 0 ss ([], []))) as H.
  { rewrite (amsdu_frame _ _ _ _ _ f p) by done. rewrite Hp, zlen_app. apply amsdu_loop_delivers; try done.
    - rewrite <- !app_assoc. apply at_off_0.
    - rewrite length_app. pose proof (amsdu_enc_count ss Hg). lia. }
  split; [exact H|]. intros Hall Hpk Hn. rewrite H, deliver_all by done. done.
Qed.

(** A frame with one MSDU becomes the Ethernet packet a subframe with the same
    addresses and MSDU would be, whatever is decided about it. *)
Lemma msdu_process act ma f p :
  fp_wf f p -> z_true (ra_encrypt (rf_attrib f)) = true \/ fp_icv p = [] ->
  zlen (ma_dst ma) = 6 -> zlen (ma_src ma) = 6 -> 14 <= zlen (fp_hdr p) + zlen (fp_iv p) ->
  word16 (zlen (fp_payload p)) -> bytes (fp_payload p) ->
  core_rx_process_msdu act ma f =
  Ok (if act (ma_dst ma) (ma_src ma) =? 0 then None
      else Some (msdu_dispose (act (ma_dst ma) (ma_src ma))
                   (eth_packet (ma_dst ma) (ma_src ma) (fp_payload p)) ([], []))).
Proof.
  intros Hw He H1 H2 H3 H16 Hb. unfold core_rx_process_msdu. cbv zeta.
  destruct (wlanhdr_spec ma f p (llc_of (fp_payload p))) as (g & Hg & Hr); try done.
  { unfold llc_of. destruct (Z.ltb_spec (zlen (fp_payload p)) 8); [done|lia]. }
  destruct Hw as (Hd & Hl & Ht & Hh & Hi & Hv & Hs & HM).
  assert (at_off (rx_data f) (zlen (fp_hdr p) + zlen (fp_iv p)) (fp_payload p)) as Hat.
  { rewrite Hd. unfold fp_front. exists (fp_hdr p ++ fp_iv p), (fp_icv p ++ fp_slack p).
    rewrite zlen_app, <- !app_assoc. done. }
  assert (u16 (rx_len f - zlen (fp_hdr p) - zlen (fp_iv p) -
    (if z_true (ra_encrypt (rf_attrib f)) then ra_icv_len (rf_attrib f) else 0)) = zlen (fp_payload p)) as Hu.
  { rewrite Hl, Hv. unfold fp_len, fp_front. rewrite !zlen_app. unfold word16 in *.
    destruct (z_true _); [|destruct He as [He | ->]; [done|]; change (zlen (@nil Z)) with 0];
      rewrite u16_small by lia; lia. }
  rewrite Hh, Hi, Hu, (llc_parse_spec _ _ (fp_payload p)), bind_Ok by done.
  destruct (act _ _ =? 0); [done|].
  rewrite Hg, bind_Ok, Hr, bind_Ok. unfold eth_packet. by destruct (llc_of _).
Qed.

(** A frame with one MSDU is delivered as the Ethernet packet a subframe with
    the same addresses and MSDU would be. *)
Theorem msdu_delivers act ma f p :
  fp_wf f p -> z_true (ra_encrypt (rf_attrib f)) = true \/ fp_icv p = [] ->
  zlen (ma_dst ma) = 6 -> zlen (ma_src ma) = 6 -> 14 <= zlen (fp_hdr p) + zlen (fp_iv p) ->
  word16 (zlen (fp_payload p)) -> bytes (fp_payload p) ->
  act (ma_dst ma) (ma_src ma) = RTW_RX_MSDU_ACT_INDICATE ->
  core_rx_process_msdu act ma f = Ok (Some ([eth_packet (ma_dst ma) (ma_src ma) (fp_payload p)], [])).
Proof. intros Hw He H1 H2 H3 H16 Hb Ha. rewrite (msdu_process _ _ _ p) by done. by rewrite Ha. Qed.

(** C24: An ordinary MSDU whose frame is flagged as an aggregate on its way
    (the flag is not protected) begins with the LLC header of RFC 1042; in a
    protected network, with the adapter's amsdu_mode NON_SPP (the default), it
    is read as an aggregate with that header for the first destination, and
    nothing of it is delivered. *)
Theorem amsdu_injection_dropped priv act have_pkt ma f p rest :
  fp_wf f p -> z_true (ra_encrypt (rf_attrib f)) = true \/ fp_icv p = [] ->
  fp_payload p = rtw_rfc1042_header ++ rest -> priv <> _NO_PRIVACY_ ->
  amsdu_to_msdu true priv act have_pkt ma f = Ok ([], []).
Proof.
  intros Hw He Hp Hpriv. rewrite (amsdu_frame _ _ _ _ _ f p), Hp by done.
  pose proof (zlen_nonneg rest). pose proof (zlen_nonneg (fp_icv p ++ fp_slack p)).
  set (b := (rtw_rfc1042_header ++ rest) ++ fp_icv p ++ fp_slack p).
  rewrite zlen_app, length_app. cbn [length Nat.add amsdu_loop rtw_rfc1042_header].
  change (zlen rtw_rfc1042_header) with 6. unfold ETH_HLEN, ETH_ALEN.
  destruct (Z.gtb_spec (6 + zlen rest) 14); cbn [negb]; [|done]. rewrite !Z.add_0_l.
  assert (zlen b = 6 + zlen rest + zlen (fp_icv p ++ fp_slack p)) as Hb by (unfold b; by rewrite !zlen_app).
  destruct (be16_total b 12) as (n & -> & _); [lia..|]. rewrite bind_Ok. destruct (_ <? _); [done|].
  destruct (rd_n_in b 6 6) as (sa & Hsa & _); [lia..|].
  rewrite (at_off_rd_n b 0 rtw_rfc1042_header), Hsa, !bind_Ok
    by (unfold b; rewrite <- ?app_assoc; done || apply at_off_0).
  replace (validate_amsdu_content _ _ _ _ _ _) with false; [done|]. unfold validate_amsdu_content.
  replace (priv =? _NO_PRIVACY_) with false by lia. cbn [negb andb].
  rewrite (bool_decide_eq_true_2 (rtw_rfc1042_header = rtw_rfc1042_header)), orb_true_r by done. done.
Qed.

(** ** Witnesses *)

(** A CCMP-protected frame for one's own address, and what is in it: an IPv4
    packet behind its LLC header, and two bytes without one. *)
Definition ex_da : list Z := [4; 0; 0; 0; 0; 1].
Definition ex_sa : list Z := [2; 0; 0; 0; 0; 9].
Definition ex_ip : list Z := rtw_rfc1042_header ++ [8; 0; 0x45; 1].
Definition ex_subs : list subframe := [mkSub ex_da ex_sa ex_ip; mkSub ex_da ex_sa [7; 7]].
Definition ex_msdu_parts (payload : list Z) : frag_parts :=
  mkFp (zeros 24) [16; 0; 0; 0x20; 0; 0; 0; 0] payload (zeros 8) [1; 2; 3].
Definition ex_msdu_frame (payload : list Z) : recv_frame :=
  let p := ex_msdu_parts payload in
  mkRf 1 (mkRa _AES_ 24 8 8 0 true true 0 true 1 0 false ex_da [2; 0; 0; 0; 0; 0])
    (fp_front p ++ fp_icv p ++ fp_slack p) (fp_len p) (fp_len p) [2; 0; 0; 0; 0; 0] 7.
Definition ex_ma : msdu_attrib := mkMa 1 true ex_da ex_sa.
Definition ex_act (da sa : list Z) : Z := RTW_RX_MSDU_ACT_INDICATE.

(** The second subframe cannot be allocated. *)
Definition ex_mem (k : Z) : bool := k =? 0.

Lemma amsdu_delivers_witness :
  let f := ex_msdu_frame (amsdu_enc ex_subs ++ [0; 0]) in
  amsdu_to_msdu true _AES_ ex_act (fun _ => true) ex_ma f =
    Ok ([ex_da ++ ex_sa ++ [8; 0; 0x45; 1]; ex_da ++ ex_sa ++ [0; 2; 7; 7]], []) /\
  amsdu_to_msdu true _AES_ ex_act ex_mem ex_ma f = Ok ([ex_da ++ ex_sa ++ [8; 0; 0x45; 1]], []).
Proof.
  intros f. assert (forall have, let a := rf_attrib f in
    amsdu_to_msdu true _AES_ ex_act have ex_ma f =
      Ok (deliver_subs true _AES_ ex_act have ex_ma a true 0 ex_subs ([], [])) /\
    (Forall (sub_good true _AES_ ex_act ex_ma a) ex_subs -> (forall i, have i = true) ->
     zlen ex_subs <= MAX_SUBFRAME_COUNT ->
     amsdu_to_msdu true _AES_ ex_act have ex_ma f = Ok (map sf_eth ex_subs, []))) as H.
  { intros have a. apply (amsdu_delivers true _AES_ ex_act have ex_ma f
      (ex_msdu_parts (amsdu_enc ex_subs ++ [0; 0])) ex_subs [0; 0]).
    - repeat split.
    - left. reflexivity.
    - reflexivity.
    - vm_compute. discriminate.
    - repeat constructor; vm_compute; done. }
  split.
  - apply (H (fun _ => true)); [|done|vm_compute; discriminate].
    repeat constructor; vm_compute; done.
  - apply (H ex_mem).
Defined.

Lemma amsdu_bounds_witness :
  exists out, amsdu_to_msdu true _AES_ ex_act (fun _ => true) ex_ma (ex_msdu_frame (amsdu_enc ex_subs ++ zeros 15)) =
      Ok out /\ zlen out.1 <= MAX_SUBFRAME_COUNT /\
    Forall (good_pkt true _AES_ ex_ma (rf_attrib (ex_msdu_frame []))) out.1 /\
    Forall (good_pkt true _AES_ ex_ma (rf_attrib (ex_msdu_frame []))) out.2.
Proof.
  apply (amsdu_bounds true _AES_ ex_act (fun _ => true) ex_ma (ex_msdu_frame (amsdu_enc ex_subs ++ zeros 15))).
  - repeat split; vm_compute; discriminate.
  - vm_compute. discriminate.
  - vm_compute. discriminate.
Defined.

Lemma amsdu_injection_dropped_witness :
  amsdu_to_msdu true _AES_ ex_act (fun _ => true) ex_ma (ex_msdu_frame (ex_ip ++ zeros 8 ++ sf_enc (mkSub ex_da ex_sa ex_ip))) =
  Ok ([], []).
Proof.
  apply (amsdu_injection_dropped _AES_ ex_act (fun _ => true) ex_ma _
    (ex_msdu_parts (ex_ip ++ zeros 8 ++ sf_enc (mkSub ex_da ex_sa ex_ip)))
    ([8; 0; 0x45; 1] ++ zeros 8 ++ sf_enc (mkSub ex_da ex_sa ex_ip))).
  - repeat split.
  - left. reflexivity.
  - reflexivity.
  - discriminate.
Defined.

Lemma msdu_delivers_witness :
  core_rx_process_msdu ex_act ex_ma (ex_msdu_frame ex_ip) =
  Ok (Some ([ex_da ++ ex_sa ++ [8; 0; 0x45; 1]], [])).
Proof.
  apply (msdu_delivers ex_act ex_ma _ (ex_msdu_parts ex_ip)); try done.
  - by left.
  - repeat constructor; done.
Defined.
