(* ===== verification/RxValid.v ===== *)
(** * Receive: validation of headers and protected management frames

    src/core/rtw_recv.c: the first checks a received frame meets
    ([validate_recv_frame]): data frames by the adapter's mode
    ([rtw_sta_rx_data_validate_hdr], [rtw_ap_rx_data_validate_hdr] of
    src/core/rtw_ap.c, the ad hoc and test-mode routines) and by what protects
    them ([validate_recv_data_frame]), management frames by 802.11w
    ([validate_mgmt_protect], with [rtw_bip_verify] of src/core/rtw_security.c)
    and control frames ([validate_recv_ctrl_frame], with PS-Poll).

    Mesh, TDLS, WDS, WAPI, WNM and the FPGA test build are configured out.  What
    goes on in other parts of the driver is an event. *)

From S2P Require Import Prelude IeBuf SecRc4 SecTkip SecRecv SecDefrag RxMsdu.

Definition RTW_RX_HANDLED : Z := 2.
Definition WLAN_HDR_A3_LEN : Z := 24.
Definition WLAN_HDR_A3_QOS_LEN : Z := 26.
Definition dot11AuthAlgrthm_Open : Z := 0.
Definition dot11AuthAlgrthm_Shared : Z := 1.
Definition dot11AuthAlgrthm_Auto : Z := 3.
Definition dot11AuthAlgrthm_WAPI : Z := 4.
Definition _SMS4_ : Z := 0x06.
Definition _BIP_CMAC_128_ : Z := 0x20.
Definition _BIP_GMAC_128_ : Z := 0x21.
Definition _BIP_GMAC_256_ : Z := 0x22.
Definition _BIP_CMAC_256_ : Z := 0x23.
Definition _MME_IE_ : Z := 76.
Definition BIP_AAD_SIZE : Z := 20.

(** States of the adapter ([fw_state]) and of a station ([sta->state]). *)
Definition WIFI_ASOC_STATE : Z := 0x00000001.
Definition WIFI_SLEEP_STATE : Z := 0x00000004.
Definition WIFI_STATION_STATE : Z := 0x00000008.
Definition WIFI_AP_STATE : Z := 0x00000010.
Definition WIFI_ADHOC_STATE : Z := 0x00000020.
Definition WIFI_ADHOC_MASTER_STATE : Z := 0x00000040.
Definition WIFI_UNDER_LINKING : Z := 0x00000080.
Definition WIFI_STA_ALIVE_CHK_STATE : Z := 0x00000400.
Definition WIFI_MP_STATE : Z := 0x00010000.

Definition WLAN_STA_MFP : Z := BIT 10.
Definition WLAN_STA_AMSDU_DISABLE : Z := BIT 18.

(** Frame types and subtypes ([enum WIFI_FRAME_TYPE], [WIFI_FRAME_SUBTYPE]). *)
Definition WIFI_MGT_TYPE : Z := 0.
Definition WIFI_CTRL_TYPE : Z := BIT 2.
Definition WIFI_DATA_TYPE : Z := BIT 3.
Definition WIFI_QOS_DATA_TYPE : Z := Z.lor (BIT 7) (BIT 3).
Definition WIFI_DISASSOC : Z := Z.lor (Z.lor (BIT 7) (BIT 5)) WIFI_MGT_TYPE.
Definition WIFI_DEAUTH : Z := Z.lor (Z.lor (BIT 7) (BIT 6)) WIFI_MGT_TYPE.
Definition WIFI_ACTION : Z := Z.lor (Z.lor (Z.lor (BIT 7) (BIT 6)) (BIT 4)) WIFI_MGT_TYPE.
Definition WIFI_BAR : Z := Z.lor (BIT 7) WIFI_CTRL_TYPE.
Definition WIFI_PSPOLL : Z := Z.lor (Z.lor (BIT 7) (BIT 5)) WIFI_CTRL_TYPE.

(** ** The header's fields *)

Definition fc_bit (b : list Z) (bit : Z) : res bool :=
  fc ← RTW_GET_LE16 b 0; mret (z_true (Z.land fc (BIT bit))).
Definition GetToDs (b : list Z) : res bool := fc_bit b 8.
Definition GetFrDs (b : list Z) : res bool := fc_bit b 9.
Definition GetMFrag (b : list Z) : res bool := fc_bit b 10.
Definition GetPwrMgt (b : list Z) : res bool := fc_bit b 12.
Definition GetMData (b : list Z) : res bool := fc_bit b 13.
Definition GetPrivacy (b : list Z) : res bool := fc_bit b 14.
Definition GetOrder (b : list Z) : res bool := fc_bit b 15.

Definition get_tofr_ds (b : list Z) : res Z :=
  to_ds ← GetToDs b; fr_ds ← GetFrDs b;
  mret ((if (to_ds : bool) then 2 else 0) + (if (fr_ds : bool) then 1 else 0)).
Definition GetFrameType (b : list Z) : res Z :=
  fc ← RTW_GET_LE16 b 0; mret (Z.land fc (Z.lor (BIT 3) (BIT 2))).
Definition get_frame_sub_type (b : list Z) : res Z :=
  fc ← RTW_GET_LE16 b 0; mret (Z.land fc 0xfc).
Definition GetSequence (b : list Z) : res Z := x ← RTW_GET_LE16 b 22; mret (Z.shiftr x 4).
Definition GetFragNum (b : list Z) : res Z := x ← RTW_GET_LE16 b 22; mret (Z.land x 0x0f).
Definition GetAid (b : list Z) : res Z := x ← RTW_GET_LE16 b 2; mret (Z.land x 0x3fff).

(** Fields of the QoS control at [qc]. *)
Definition GetPriority (b : list Z) (qc : Z) : res Z := x ← RTW_GET_LE16 b qc; mret (Z.land x 15).
Definition GetAckpolicy (b : list Z) (qc : Z) : res Z :=
  x ← RTW_GET_LE16 b qc; mret (Z.land (Z.shiftr x 5) 3).
Definition GetAMsdu (b : list Z) (qc : Z) : res bool :=
  x ← RTW_GET_LE16 b qc; mret (Z.land (Z.shiftr x 7) 1 =? 1).

(** The address at an offset: [A1] is [GetAddr1Ptr], and so on. *)
Definition A1 : Z := 4.
Definition A2 : Z := 10.
Definition A3 : Z := 16.
Definition A4 : Z := 24.
Definition get_addr (b : list Z) (at_off : Z) : res (list Z) := rd_n b at_off ETH_ALEN.

(** ** State *)

(** The attributes besides [rx_pkt_attrib] and [msdu_attrib]. *)
Record rv_attrib := mkRv {
  rv_ma : msdu_attrib; rv_bssid : list Z; rv_pw_save : bool; rv_mdata : bool; rv_order : bool;
  rv_ack_policy : Z; rv_pkt_len : Z
}.

(** What the checks read and change of a station for power saving: [state],
    [aid], [qos_option], [qos_info], the four [uapsd_*] masks, the frames kept
    for it ([sleep_q], by number), their counters, and [expire_to]. *)
Record ps_sta := mkPs {
  ps_state : Z; ps_aid : Z; ps_qos_option : Z; ps_qos_info : Z;
  ps_uapsd_bk : Z; ps_uapsd_vi : Z; ps_uapsd_vo : Z; ps_uapsd_be : Z;
  ps_sleep_q : list Z; ps_sleepq_len : Z; ps_sleepq_ac_len : Z; ps_expire_to : Z
}.

(** What is done outside: deauthentication and SA query frames issued, statistics
    of data, control and management frames, a frame for the management
    dispatcher, block-ack requests, a lost test packet, a drop counted; for power
    saving a station stopped, woken, served, answered with null data; a kept
    frame sent with its More Data bit; the beacon's TIM updated. *)
Inductive rv_event :=
| RvDeauth (a : list Z) | RvSaQuery (sta : list Z) | RvCount (sta : list Z)
| RvCtrlPkt (sta : list Z) | RvMgntPkt (sta : list Z) | RvMgt (id : Z) | RvBar (sta : list Z)
| RvPktLoss | RvDrop
| RvStopXmit (sta : list Z) | RvWakeup (sta : list Z) | RvDeliver (sta : list Z)
| RvQosNull (sta : list Z) (tid : Z) | RvNull (sta : list Z)
| RvSend (id : Z) (mdata : bool) | RvUpdateTim.

(** The world of SecRecv.v; the stations' power-save records; the two bitmaps of
    association identifiers; the last times of deauthentication in the two
    functions that remember it; the last packet number of a group management
    frame; and the events so far. *)
Record rv_state := mkRvs {
  rs_world : rx_world; rs_ps : gmap (list Z) ps_sta; rs_tim : gset Z; rs_dz : gset Z;
  rs_deauth_ap2sta : Z; rs_deauth_sta : Z; rs_ipn : Z; rs_events : list rv_event
}.

Definition rs_with_world (w : rx_world) (s : rv_state) : rv_state :=
  mkRvs w (rs_ps s) (rs_tim s) (rs_dz s) (rs_deauth_ap2sta s) (rs_deauth_sta s) (rs_ipn s) (rs_events s).
Definition rs_with_ps (m : gmap (list Z) ps_sta) (s : rv_state) : rv_state :=
  mkRvs (rs_world s) m (rs_tim s) (rs_dz s) (rs_deauth_ap2sta s) (rs_deauth_sta s) (rs_ipn s) (rs_events s).
Definition rs_with_tim (t : gset Z) (s : rv_state) : rv_state :=
  mkRvs (rs_world s) (rs_ps s) t (rs_dz s) (rs_deauth_ap2sta s) (rs_deauth_sta s) (rs_ipn s) (rs_events s).
Definition rs_with_deauth_ap2sta (n : Z) (s : rv_state) : rv_state :=
  mkRvs (rs_world s) (rs_ps s) (rs_tim s) (rs_dz s) n (rs_deauth_sta s) (rs_ipn s) (rs_events s).
Definition rs_with_deauth_sta (n : Z) (s : rv_state) : rv_state :=
  mkRvs (rs_world s) (rs_ps s) (rs_tim s) (rs_dz s) (rs_deauth_ap2sta s) n (rs_ipn s) (rs_events s).
Definition rs_with_ipn (n : Z) (s : rv_state) : rv_state :=
  mkRvs (rs_world s) (rs_ps s) (rs_tim s) (rs_dz s) (rs_deauth_ap2sta s) (rs_deauth_sta s) n (rs_events s).
Definition emit (e : rv_event) (s : rv_state) : rv_state :=
  mkRvs (rs_world s) (rs_ps s) (rs_tim s) (rs_dz s) (rs_deauth_ap2sta s) (rs_deauth_sta s) (rs_ipn s)
    (rs_events s ++ [e]).

(** A frame under validation. *)
Record rv_frame := mkVf { vf : recv_frame; va : rv_attrib }.

Definition v_data (v : rv_frame) : list Z := rx_data (vf v).
Definition v_attr (v : rv_frame) : rx_pkt_attrib := rf_attrib (vf v).
Definition v_tofr (v : rv_frame) : Z := ma_to_fr_ds (rv_ma (va v)).
Definition v_amsdu (v : rv_frame) : bool := ma_amsdu (rv_ma (va v)).
Definition v_dst (v : rv_frame) : list Z := ma_dst (rv_ma (va v)).
Definition v_src (v : rv_frame) : list Z := ma_src (rv_ma (va v)).

Definition v_set_attr (v : rv_frame) (a : rx_pkt_attrib) : rv_frame := mkVf (rf_with_attrib (vf v) a) (va v).
Definition v_set_psta (v : rv_frame) (k : list Z) : rv_frame :=
  let f := vf v in
  mkVf (mkRf (rf_id f) (rf_attrib f) (rx_data f) (rx_len f) (rx_tail f) k (rf_keytrack f)) (va v).
Definition v_set_amsdu (v : rv_frame) (b : bool) : rv_frame :=
  let m := rv_ma (va v) in
  mkVf (vf v) (mkRv (mkMa (ma_to_fr_ds m) b (ma_dst m) (ma_src m)) (rv_bssid (va v)) (rv_pw_save (va v))
    (rv_mdata (va v)) (rv_order (va v)) (rv_ack_policy (va v)) (rv_pkt_len (va v))).
Definition v_set_ra_ta (v : rv_frame) (ra ta : list Z) : rv_frame :=
  let a := v_attr v in
  v_set_attr v (mkRa (ra_encrypt a) (ra_hdrlen a) (ra_iv_len a) (ra_icv_len a) (ra_key_index a) (ra_bdecrypted a)
    (ra_privacy a) (ra_priority a) (ra_qos a) (ra_seq_num a) (ra_frag_num a) (ra_mfrag a) ra ta).
Definition v_set_dst_src_bssid (v : rv_frame) (dst src bssid : list Z) : rv_frame :=
  let m := rv_ma (va v) in
  mkVf (vf v) (mkRv (mkMa (ma_to_fr_ds m) (ma_amsdu m) dst src) bssid (rv_pw_save (va v)) (rv_mdata (va v))
    (rv_order (va v)) (rv_ack_policy (va v)) (rv_pkt_len (va v))).
Definition v_set_qc (v : rv_frame) (priority hdrlen ack_policy : Z) : rv_frame :=
  let a := v_attr v in
  mkVf (rf_with_attrib (vf v)
    (mkRa (ra_encrypt a) hdrlen (ra_iv_len a) (ra_icv_len a) (ra_key_index a) (ra_bdecrypted a)
      (ra_privacy a) priority (ra_qos a) (ra_seq_num a) (ra_frag_num a) (ra_mfrag a) (ra_ra a) (ra_ta a)))
    (mkRv (rv_ma (va v)) (rv_bssid (va v)) (rv_pw_save (va v)) (rv_mdata (va v)) (rv_order (va v))
      ack_policy (rv_pkt_len (va v))).
Definition v_set_enc (v : rv_frame) (encrypt iv_len icv_len : Z) : rv_frame :=
  let a := v_attr v in
  v_set_attr v (mkRa encrypt (ra_hdrlen a) iv_len icv_len (ra_key_index a) (ra_bdecrypted a)
    (ra_privacy a) (ra_priority a) (ra_qos a) (ra_seq_num a) (ra_frag_num a) (ra_mfrag a) (ra_ra a) (ra_ta a)).

(** The adapter, as the checks read it: [fw_state], its address and BSSID, a
    detected radar, [mp_mode]; the ciphers of [security_priv]; [expire_to] of
    [sta_priv]; of a station its [flags], [dot118021XPrivacy] and
    [bpairwise_key_installed]; and the key for group management frames. *)
Record rv_adapter := mkAd {
  fw_state : Z; mac_addr : list Z; get_bssid : list Z; radar_detected : bool; mp_mode : Z;
  dot11PrivacyAlgrthm : Z; dot118021XGrpPrivacy : Z; sta_expire_to : Z;
  sta_flags : list Z -> Z; sta_privacy : list Z -> Z; bpairwise_key_installed : list Z -> bool;
  binstallBIPkey : bool; dot11wCipher : Z; dot11wBIPKeyid : Z; dot11wBIPKey : list (list Z)
}.

(** [GET_ENCRY_ALGO]; another authentication algorithm leaves the value. *)
Definition GET_ENCRY_ALGO (ad : rv_adapter) (auth : Z) (sta : list Z) (encry_algo : Z) (bmcst : bool) : Z :=
  if (auth =? dot11AuthAlgrthm_Open) || (auth =? dot11AuthAlgrthm_Shared) || (auth =? dot11AuthAlgrthm_Auto)
     || (auth =? dot11AuthAlgrthm_WAPI)
  then u8 (dot11PrivacyAlgrthm ad)
  else if auth =? dot11AuthAlgrthm_8021X then
    if bmcst then u8 (dot118021XGrpPrivacy ad) else u8 (sta_privacy ad sta)
  else encry_algo.

(** [iv_len] and [icv_len]. *)
Definition SET_ICE_IV_LEN (encrypt : Z) : Z * Z :=
  if (encrypt =? _WEP40_) || (encrypt =? _WEP104_) then (4, 4)
  else if encrypt =? _TKIP_ then (8, 4)
  else if encrypt =? _AES_ then (8, 8)
  else if (encrypt =? _GCMP_) || (encrypt =? _GCMP_256_) then (8, 16)
  else if encrypt =? _CCMP_256_ then (8, 16)
  else if encrypt =? _SMS4_ then (18, 16)
  else (0, 0).

Section valid.
Context (ad : rv_adapter) (now : Z) (passing_ms : Z -> Z).

Definition check_fwstate (state : Z) : bool := z_true (Z.land (fw_state ad) state).
Definition MLME_IS_STA : bool := check_fwstate WIFI_STATION_STATE.
Definition MLME_IS_AP : bool := check_fwstate WIFI_AP_STATE.

(** [rtw_get_stainfo] as a pointer: the key of the station's entry. *)
Definition find_sta (s : rv_state) (a : list Z) : option (list Z) :=
  match rtw_get_stainfo (rs_world s) a with Some _ => Some (sta_addr (rs_world s) a) | None => None end.

Definition take_ra_ta (v : rv_frame) : res rv_frame :=
  ra ← get_addr (v_data v) A1; ta ← get_addr (v_data v) A2; mret (v_set_ra_ta v ra ta).
Definition take_dst_src_bssid (v : rv_frame) (dst src bssid : Z) : res rv_frame :=
  dst ← get_addr (v_data v) dst; src ← get_addr (v_data v) src; bssid ← get_addr (v_data v) bssid;
  mret (v_set_dst_src_bssid v dst src bssid).

(** The result, [*psta], the frame and the state. *)
Definition hdr_result : Type := Z * option (list Z) * rv_frame * rv_state.

(** ** Ad hoc and test mode *)

Definition sta2sta_data_frame (v : rv_frame) (s : rv_state) : res hdr_result :=
  let psta r v sta_addr :=
    match find_sta s sta_addr with
    | Some k => mret (r, Some k, v, s)
    | None =>
        mret (_FAIL, None, v,
          if (mp_mode ad =? 1) && check_fwstate WIFI_MP_STATE then emit RvPktLoss s else s)
    end in
  if check_fwstate WIFI_ADHOC_STATE || check_fwstate WIFI_ADHOC_MASTER_STATE then
    if bool_decide (mac_addr ad = v_src v) then mret (_FAIL, None, v, s)
    else if negb (bool_decide (mac_addr ad = v_dst v)) && negb (IS_MCAST (v_dst v)) then
      mret (_FAIL, None, v, s)
    else if bool_decide (rv_bssid (va v) = zeros 6) || bool_decide (get_bssid ad = zeros 6)
            || negb (bool_decide (rv_bssid (va v) = get_bssid ad)) then mret (_FAIL, None, v, s)
    else psta _SUCCESS v (ra_ta (v_attr v))
  else if check_fwstate WIFI_MP_STATE then
    v ← take_dst_src_bssid v A1 A2 A3; v ← take_ra_ta v;
    psta _SUCCESS v (get_bssid ad)
  else psta _FAIL v (ra_ta (v_attr v)).

(** What both test-mode branches do. *)
Definition mp_data_frame (v : rv_frame) (s : rv_state) : res hdr_result :=
  v ← take_dst_src_bssid v A1 A2 A3; v ← take_ra_ta v;
  match find_sta s (rv_bssid (va v)) with
  | Some k => mret (_SUCCESS, Some k, v, s)
  | None => mret (_FAIL, None, v, s)
  end.

Definition ap2sta_data_frame (v : rv_frame) (s : rv_state) : res hdr_result :=
  if check_fwstate WIFI_MP_STATE && check_fwstate WIFI_ASOC_STATE then mp_data_frame v s
  else if bool_decide (mac_addr ad = v_dst v) && negb (IS_MCAST (v_dst v)) then
    match find_sta s (ra_ta (v_attr v)) with
    | Some k => mret (_FAIL, Some k, v, s)
    | None =>
        let t := rs_deauth_ap2sta s in
        mret (_FAIL, None, v,
          if (passing_ms t >? 10000) || (t =? 0)
          then emit (RvDeauth (rv_bssid (va v))) (rs_with_deauth_ap2sta now s) else s)
    end
  else mret (_FAIL, None, v, s).

Definition sta2ap_data_frame (v : rv_frame) (s : rv_state) : res hdr_result :=
  if check_fwstate WIFI_MP_STATE && check_fwstate WIFI_ASOC_STATE then mp_data_frame v s
  else if negb (bool_decide (ra_ra (v_attr v) = mac_addr ad)) then mret (RTW_RX_HANDLED, None, v, s)
  else mret (RTW_RX_HANDLED, None, v, emit (RvDeauth (v_src v)) s).

(** The switch of [validate_recv_data_frame] for these modes. *)
Definition other_rx_data_validate_hdr (v : rv_frame) (s : rv_state) : res hdr_result :=
  let t := v_tofr v in
  if t =? 0 then v ← take_ra_ta v; v ← take_dst_src_bssid v A1 A2 A3; sta2sta_data_frame v s
  else if t =? 1 then v ← take_ra_ta v; v ← take_dst_src_bssid v A1 A3 A2; ap2sta_data_frame v s
  else if t =? 2 then v ← take_ra_ta v; v ← take_dst_src_bssid v A3 A2 A1; sta2ap_data_frame v s
  else mret (_FAIL, None, v, s).

(** ** A station *)

Definition rtw_sta_rx_data_validate_hdr (v : rv_frame) (s : rv_state) : res hdr_result :=
  let whdr := v_data v in
  a1 ← get_addr whdr A1;
  let is_ra_bmc := IS_MCAST a1 in
  if v_tofr v =? 0 then
    v ← take_ra_ta v; v ← take_dst_src_bssid v A1 A2 A3;
    if negb (bool_decide (rv_bssid (va v) = v_src v)) then mret (_FAIL, None, v, s)
    else
      a2 ← get_addr whdr A2;
      match find_sta s a2 with
      | Some k => mret (_SUCCESS, Some k, v, s)
      | None => mret (_FAIL, None, v, s)
      end
  else if negb (z_true (Z.land (fw_state ad) (Z.lor WIFI_ASOC_STATE WIFI_UNDER_LINKING))) then
    a2 ← get_addr whdr A2;
    let t := rs_deauth_sta s in
    mret (_FAIL, None, v,
      if negb is_ra_bmc && ((passing_ms t >? 10000) || (t =? 0))
      then emit (RvDeauth a2) (rs_with_deauth_sta now s) else s)
  else
    v ← take_ra_ta v;
    o ← (if v_tofr v =? 1 then v ← take_dst_src_bssid v A1 A3 A2; mret (Some v)
         else if v_tofr v =? 3 then v ← take_dst_src_bssid v A3 A4 A2; mret (Some v)
         else mret None);
    match o with
    | None => mret (RTW_RX_HANDLED, None, v, s)
    | Some v =>
        if negb (v_amsdu v) && bool_decide (mac_addr ad = v_src v) then mret (_FAIL, None, v, s)
        else match find_sta s (ra_ta (v_attr v)) with
        | None =>
            mret (_FAIL, None, v,
              if negb is_ra_bmc && negb (radar_detected ad) then emit (RvDeauth (ra_ta (v_attr v))) s else s)
        | Some k =>
            t ← get_frame_sub_type whdr;
            if z_true (Z.land t (BIT 6)) then mret (RTW_RX_HANDLED, Some k, v, emit (RvCount k) s)
            else mret (_SUCCESS, Some k, v, s)
        end
    end.

(** ** An access point *)

Definition ps_of (s : rv_state) (k : list Z) : res ps_sta :=
  match rs_ps s !! k with Some p => Ok p | None => Oob end.
Definition sleeping (p : ps_sta) : bool := z_true (Z.land (ps_state p) WIFI_SLEEP_STATE).

(** The delivery mask of a priority's access category. *)
Definition uapsd_of (p : ps_sta) (priority : Z) : Z :=
  if (priority =? 1) || (priority =? 2) then ps_uapsd_bk p
  else if (priority =? 4) || (priority =? 5) then ps_uapsd_vi p
  else if (priority =? 6) || (priority =? 7) then ps_uapsd_vo p
  else ps_uapsd_be p.

Definition process_pwrbit_data (v : rv_frame) (k : list Z) (s : rv_state) : res rv_state :=
  pwrbit ← GetPwrMgt (v_data v);
  p ← ps_of s k;
  mret (if (pwrbit : bool) then if sleeping p then s else emit (RvStopXmit k) s
        else if sleeping p then emit (RvWakeup k) s else s).

(** The priority is the one the frame's attributes hold when it is called. *)
Definition process_wmmps_data (v : rv_frame) (k : list Z) (s : rv_state) : res rv_state :=
  p ← ps_of s k;
  mret (if (ps_qos_option p =? 0) || (Z.land (ps_qos_info p) 0xf =? 0) then s
        else if sleeping p && z_true (Z.land (uapsd_of p (ra_priority (v_attr v))) (BIT 1)) then
          if ps_sleepq_ac_len p >? 0 then emit (RvDeliver k) s
          else emit (RvQosNull k (ra_priority (v_attr v))) s
        else s).

Definition rtw_ap_rx_data_validate_hdr (v : rv_frame) (s : rv_state) : res hdr_result :=
  let whdr := v_data v in
  if negb (check_fwstate WIFI_ASOC_STATE) then mret (_FAIL, None, v, s)
  else
    if negb ((v_tofr v =? 2) || (v_tofr v =? 3)) then mret (RTW_RX_HANDLED, None, v, s)
    else
      a1 ← get_addr whdr A1;
      if (v_tofr v =? 2) && IS_MCAST a1 then mret (_FAIL, None, v, s)
      else
      let is_ra_bmc := IS_MCAST a1 in
      v ← take_ra_ta v;
      v ← (if v_tofr v =? 2 then take_dst_src_bssid v A3 A2 A1
           else
             dst ← get_addr whdr A3; src ← get_addr whdr A4;
             mret (v_set_dst_src_bssid v dst src (if is_ra_bmc then rv_bssid (va v) else a1)));
      match find_sta s (ra_ta (v_attr v)) with
      | None =>
          mret (RTW_RX_HANDLED, None, v,
            if negb is_ra_bmc && negb (radar_detected ad) then emit (RvDeauth (ra_ta (v_attr v))) s else s)
      | Some k =>
          s ← process_pwrbit_data v k s;
          t ← get_frame_sub_type whdr;
          s ← (if Z.land t WIFI_QOS_DATA_TYPE =? WIFI_QOS_DATA_TYPE then process_wmmps_data v k s else mret s);
          if z_true (Z.land t (BIT 6)) then mret (RTW_RX_HANDLED, Some k, v, emit (RvCount k) s)
          else mret (_SUCCESS, Some k, v, s)
      end.

(** ** Data frames *)

(** [ether_type] of the frame's body. *)
Definition body_ether_type (v : rv_frame) : res Z :=
  let a := v_attr v in RTW_GET_BE16 (v_data v) (ra_hdrlen a + ra_iv_len a + LLC_HEADER_SIZE).

(** What is dropped because it is not protected, and EAPOL an access point would
    forward before the handshake is done. *)
Definition plaintext_check (sta : list Z) (auth : Z) (v : rv_frame) : res Z :=
  let a := v_attr v in
  if dot11PrivacyAlgrthm ad =? _NO_PRIVACY_ then mret _SUCCESS
  else if IS_MCAST (ra_ra a) then mret (if ra_privacy a then _SUCCESS else _FAIL)
  else
    ether_type ← body_ether_type v;
    if auth =? dot11AuthAlgrthm_8021X then
      if negb (ra_privacy a) && negb (ether_type =? 0x888e) then mret _FAIL
      else if negb (ra_privacy a) && v_amsdu v then mret _FAIL
      else if (ether_type =? 0x888e) && MLME_IS_AP && (sta_privacy ad sta =? _NO_PRIVACY_)
              && negb (bool_decide (mac_addr ad = v_dst v)) then mret _FAIL
      else mret _SUCCESS
    else mret (if ra_privacy a then _SUCCESS else _FAIL).

(** The duplicate and replay checks, by the station's entry. *)
Definition data_decache (k : list Z) (v : rv_frame) (s : rv_state) : res (Z * rv_state) :=
  let w := rs_world s in
  match rw_stas w !! k with
  | None => Oob
  | Some sta =>
      '(r, sta) ← recv_decache sta (vf v);
      let w := rw_with_stas w (<[k := sta]> (rw_stas w)) in
      if r =? _FAIL then mret (_FAIL, rs_with_world w s)
      else if negb (IS_MCAST (ra_ra (v_attr v))) then
        '(r, sta) ← recv_ucast_pn_decache sta (vf v);
        mret (r, rs_with_world (rw_with_stas w (<[k := sta]> (rw_stas w))) s)
      else
        '(r, sec) ← recv_bcast_pn_decache MLME_IS_STA (rw_sec w) (vf v);
        mret (r, rs_with_world (rw_with_sec w sec) s)
  end.

(** The checks behind those of the header: station [k] has been found. *)
Definition data_frame_checks (k : list Z) (a4_shift : Z) (v : rv_frame) (s : rv_state)
    : res (Z * rv_frame * rv_state) :=
  if z_true (Z.land (sta_flags ad k) WLAN_STA_AMSDU_DISABLE) && v_amsdu v then mret (_FAIL, v, s)
  else
    let v := v_set_psta v k in
    let qc := WLAN_HDR_A3_LEN + a4_shift in
    let order_len := if rv_order (va v) then 4 else 0 in
    v ← (if ra_qos (v_attr v) then
           priority ← GetPriority (v_data v) qc; ack_policy ← GetAckpolicy (v_data v) qc;
           mret (v_set_qc v priority (WLAN_HDR_A3_QOS_LEN + a4_shift + order_len) ack_policy)
         else mret (v_set_qc v 0 (WLAN_HDR_A3_LEN + a4_shift + order_len) 0));
    '(r, s) ← data_decache k v s;
    if r =? _FAIL then mret (_FAIL, v, s)
    else
      let auth := dot11AuthAlgrthm (rw_sec (rs_world s)) in
      let a := v_attr v in
      let v := if ra_privacy a then
                 let e := GET_ENCRY_ALGO ad auth k (ra_encrypt a) (IS_MCAST (ra_ra a)) in
                 let '(iv_len, icv_len) := SET_ICE_IV_LEN e in v_set_enc v e iv_len icv_len
               else v_set_enc v 0 0 0 in
      r ← plaintext_check k auth v;
      mret (r, v, s).

Definition validate_recv_data_frame (v : rv_frame) (s : rv_state) : res (Z * rv_frame * rv_state) :=
  let a4_shift := if v_tofr v =? 3 then ETH_ALEN else 0 in
  amsdu ← (if ra_qos (v_attr v) then GetAMsdu (v_data v) (WLAN_HDR_A3_LEN + a4_shift) else mret false);
  let v := v_set_amsdu v amsdu in
  '(r, psta, v, s) ← (if MLME_IS_AP then rtw_ap_rx_data_validate_hdr v s
                      else if MLME_IS_STA then rtw_sta_rx_data_validate_hdr v s
                      else other_rx_data_validate_hdr v s);
  if (r =? _FAIL) || (r =? RTW_RX_HANDLED) then mret (r, v, s)
  else match psta with
  | None => mret (_FAIL, v, s)
  | Some k => data_frame_checks k a4_shift v s
  end.

(** ** PS-Poll *)

Definition ps_set_state (p : ps_sta) (st expire_to : Z) : ps_sta :=
  mkPs st (ps_aid p) (ps_qos_option p) (ps_qos_info p) (ps_uapsd_bk p) (ps_uapsd_vi p) (ps_uapsd_vo p)
    (ps_uapsd_be p) (ps_sleep_q p) (ps_sleepq_len p) (ps_sleepq_ac_len p) expire_to.
Definition ps_set_q (p : ps_sta) (q : list Z) (len : Z) : ps_sta :=
  mkPs (ps_state p) (ps_aid p) (ps_qos_option p) (ps_qos_info p) (ps_uapsd_bk p) (ps_uapsd_vi p) (ps_uapsd_vo p)
    (ps_uapsd_be p) q len (ps_sleepq_ac_len p) (ps_expire_to p).
Definition set_ps (k : list Z) (p : ps_sta) (s : rv_state) : rv_state := rs_with_ps (<[k := p]> (rs_ps s)) s.

(** Without a frame to send: null data if the beacon announces one. *)
Definition pspoll_empty (k : list Z) (p : ps_sta) (s : rv_state) : rv_state :=
  if bool_decide (ps_aid p ∈ rs_tim s) then
    let s := if ps_sleepq_len p =? 0 then emit (RvNull k) s else set_ps k (ps_set_q p (ps_sleep_q p) 0) s in
    emit RvUpdateTim (rs_with_tim (rs_tim s ∖ {[ps_aid p]}) s)
  else s.

Definition rtw_proccess_pspoll (v : rv_frame) (k : list Z) (s : rv_state) : res (Z * rv_state) :=
  aid ← GetAid (v_data v);
  p ← ps_of s k;
  if negb (ps_aid p =? aid) then mret (_FAIL, s)
  else if z_true (Z.land (uapsd_of p (ra_priority (v_attr v))) (BIT 0)) then mret (_FAIL, s)
  else
    let p := if z_true (Z.land (ps_state p) WIFI_STA_ALIVE_CHK_STATE)
             then ps_set_state p (Z.lxor (ps_state p) WIFI_STA_ALIVE_CHK_STATE) (sta_expire_to ad) else p in
    let s := set_ps k p s in
    if sleeping p && bool_decide (ps_aid p ∈ rs_dz s) then
      match ps_sleep_q p with
      | id :: q =>
          let len := u32 (ps_sleepq_len p - 1) in
          let s := emit (RvSend id (len >? 0)) (set_ps k (ps_set_q p q len) s) in
          mret (_SUCCESS, if len =? 0 then emit RvUpdateTim (rs_with_tim (rs_tim s ∖ {[ps_aid p]}) s) else s)
      | [] => mret (_SUCCESS, pspoll_empty k p s)
      end
    else mret (_SUCCESS, s).

(** Never [_SUCCESS]: a control frame goes no further. *)
Definition validate_recv_ctrl_frame (v : rv_frame) (s : rv_state) : res (Z * rv_state) :=
  t ← GetFrameType (v_data v);
  if negb (t =? WIFI_CTRL_TYPE) then mret (_FAIL, s)
  else
    a1 ← get_addr (v_data v) A1;
    if negb (bool_decide (a1 = mac_addr ad)) then mret (_FAIL, s)
    else
      a2 ← get_addr (v_data v) A2;
      match find_sta s a2 with
      | None => mret (_FAIL, s)
      | Some k =>
          let s := emit (RvCtrlPkt k) s in
          st ← get_frame_sub_type (v_data v);
          if st =? WIFI_PSPOLL then '(_, s) ← rtw_proccess_pspoll v k s; mret (_FAIL, s)
          else if st =? WIFI_BAR then mret (_FAIL, emit (RvBar k) s)
          else mret (_FAIL, s)
      end.

(** ** Group management frames (BIP) *)

Section mgmt.
(** The vendored routines: CMAC by key, key length and data; GMAC by header and
    its frame's length besides; the frame ciphers; and whether memory of a size
    can be had. *)
Context (_bip_ccmp_protect : list Z -> Z -> list Z -> option (list Z)).
Context (_bip_gcmp_protect : list Z -> Z -> list Z -> Z -> list Z -> option (list Z)).
Context (_rtw_ccmp_decrypt _rtw_gcmp_decrypt : list Z -> Z -> Z -> list Z -> Z -> res (Z * list Z)).
Context (have_mem : Z -> bool).

Definition rtw_calculate_bip_mic (gmcs : Z) (whdr : list Z) (len : Z) (key data : list Z) : option (list Z) :=
  if gmcs =? _BIP_CMAC_128_ then _bip_ccmp_protect key 16 data
  else if gmcs =? _BIP_CMAC_256_ then _bip_ccmp_protect key 32 data
  else if gmcs =? _BIP_GMAC_128_ then _bip_gcmp_protect whdr len key 16 data
  else if gmcs =? _BIP_GMAC_256_ then _bip_gcmp_protect whdr len key 32 data
  else None.

(** The data the check value is computed of: the header's fields without what
    may change, the body and the element with its check value zero. *)
Definition bip_aad (b : list Z) (flen mic_len : Z) : res (list Z) :=
  body ← rd_n b WLAN_HDR_A3_LEN (flen - WLAN_HDR_A3_LEN - mic_len);
  fc ← RTW_GET_LE16 b 0;
  let fc := Z.ldiff (Z.ldiff (Z.ldiff fc (BIT 11)) (BIT 12)) (BIT 13) in
  addrs ← rd_n b 4 18;
  mret (le16 fc ++ addrs ++ body ++ zeros mic_len).

(** The result and [*ipn]. *)
Definition rtw_bip_verify (gmcs pkt_len : Z) (b : list Z) (flen : Z) (key : list Z) (keyid ipn : Z)
    (bdecrypted : bool) : res (Z * Z) :=
  let mic_len := if gmcs =? _BIP_CMAC_128_ then 8 else 16 in
  if (flen <? WLAN_HDR_A3_LEN) || (flen - WLAN_HDR_A3_LEN <? mic_len) then mret (RTW_RX_HANDLED, ipn)
  else
    let mme := flen - (if mic_len =? 8 then 18 else 26) in
    id ← rd b mme;
    if negb (id =? _MME_IE_) then mret (RTW_RX_HANDLED, ipn)
    else
      pkt_keyid ← RTW_GET_LE16 b (mme + 2);
      if negb (pkt_keyid =? keyid) then mret (_FAIL, ipn)
      else
        pn ← rd_n b (mme + 4) 6;
        let pkt_ipn := pn_val pn in
        if pkt_ipn <=? ipn then mret (_FAIL, ipn)
        else if bdecrypted then mret (_SUCCESS, pkt_ipn)
        else if negb (have_mem (flen - WLAN_HDR_A3_LEN + BIP_AAD_SIZE)) then mret (_FAIL, ipn)
        else
          aad ← bip_aad b flen mic_len;
          match rtw_calculate_bip_mic gmcs b pkt_len key aad with
          | None => mret (_FAIL, ipn)
          | Some mic =>
              m ← rd_n b (flen - mic_len) mic_len;
              mret (if bool_decide (take (Z.to_nat mic_len) mic = m) then (_SUCCESS, pkt_ipn) else (_FAIL, ipn))
          end.

(** ** Management frames *)

Definition CATEGORY_IS_GROUP_PRIVACY (cat : Z) : bool := (cat =? 13) || (cat =? 14).
Definition CATEGORY_IS_NON_ROBUST (cat : Z) : bool :=
  (cat =? 4) || (cat =? 7) || (cat =? 11) || (cat =? 15) || (cat =? 21) || (cat =? 0x7f).
Definition CATEGORY_IS_ROBUST (cat : Z) : bool := negb (CATEGORY_IS_NON_ROBUST cat).

Definition bip_verify (v : rv_frame) (s : rv_state) : res (Z * rv_state) :=
  igtk ← arr (dot11wBIPKey ad) (dot11wBIPKeyid ad);
  '(ret, ipn) ← rtw_bip_verify (dot11wCipher ad) (rv_pkt_len (va v)) (v_data v) (rx_len (vf v)) igtk
                  (u16 (dot11wBIPKeyid ad)) (rs_ipn s) (ra_bdecrypted (v_attr v));
  mret (if (ret =? _FAIL) || (ret =? RTW_RX_HANDLED) then _FAIL else _SUCCESS, rs_with_ipn ipn s).

(** An unprotected frame of station [k], which does management frame
    protection. *)
Definition mgmt_plain (k : list Z) (subtype : Z) (is_bmc : bool) (v : rv_frame) (s : rv_state)
    : res (Z * rv_state) :=
  category ← (if subtype =? WIFI_ACTION then rd (v_data v) WLAN_HDR_A3_LEN else mret 0xFF);
  let leave := (subtype =? WIFI_DEAUTH) || (subtype =? WIFI_DISASSOC) in
  if is_bmc then
    if (subtype =? WIFI_ACTION) && CATEGORY_IS_GROUP_PRIVACY category then mret (_FAIL, s)
    else if (subtype =? WIFI_ACTION) && CATEGORY_IS_ROBUST category then bip_verify v s
    else if leave then bip_verify v s
    else mret (_SUCCESS, s)
  else if leave then
    reason ← RTW_GET_LE16 (v_data v) WLAN_HDR_A3_LEN;
    mret (_FAIL, if (reason =? 6) || (reason =? 7) then emit (RvSaQuery k) s else s)
  else if (subtype =? WIFI_ACTION) && CATEGORY_IS_ROBUST category && bpairwise_key_installed ad k then
    mret (_FAIL, s)
  else mret (_SUCCESS, s).

(** A protected frame with the attributes it is deciphered by: the cipher of
    station [k] and the lengths. *)
Definition mgmt_cipher_frame (k : list Z) (v : rv_frame) : rv_frame :=
  let a := v_attr v in
  let e := u8 (sta_privacy ad k) in
  let '(iv_len, icv_len) := SET_ICE_IV_LEN e in
  v_set_attr v (mkRa e WLAN_HDR_A3_LEN iv_len icv_len (ra_key_index a) (ra_bdecrypted a) (ra_privacy a)
    (ra_priority a) (ra_qos a) (ra_seq_num a) (ra_frag_num a) (ra_mfrag a) (ra_ra a) (ra_ta a)).

(** It is deciphered in place, and its body moved over the initialization
    vector. *)
Definition mgmt_decrypt (k : list Z) (v : rv_frame) (s : rv_state) : res (Z * rv_frame * rv_state) :=
  let '(iv_len, icv_len) := SET_ICE_IV_LEN (u8 (sta_privacy ad k)) in
  v ← take_ra_ta (mgmt_cipher_frame k v);
  let data_len := u32 (rv_pkt_len (va v) - WLAN_HDR_A3_LEN - iv_len - icv_len) in
  if negb (have_mem data_len) then mret (_FAIL, v, s)
  else
    '(ok, f, w) ← decryptor _rtw_ccmp_decrypt _rtw_gcmp_decrypt (rs_world s) (vf v);
    body ← rd_n (rx_data f) (WLAN_HDR_A3_LEN + iv_len) data_len;
    d ← wr (rx_data f) WLAN_HDR_A3_LEN body;
    let va' := va v in
    let v := mkVf (rf_with_data f d) (mkRv (rv_ma va') (rv_bssid va') (rv_pw_save va') (rv_mdata va')
               (rv_order va') (rv_ack_policy va') (u16 (rv_pkt_len va' - iv_len - icv_len))) in
    mret (if (ok : bool) then _SUCCESS else _FAIL, v, rs_with_world w s).

Definition has_mfp (psta : option (list Z)) : option (list Z) :=
  match psta with
  | Some k => if z_true (Z.land (sta_flags ad k) WLAN_STA_MFP) then Some k else None
  | None => None
  end.

Definition validate_mgmt_protect (psta : option (list Z)) (v : rv_frame) (s : rv_state)
    : res (Z * rv_frame * rv_state) :=
  if negb (binstallBIPkey ad) then mret (_SUCCESS, v, s)
  else
    subtype ← get_frame_sub_type (v_data v);
    a1 ← get_addr (v_data v) A1;
    if negb (ra_privacy (v_attr v)) then
      match has_mfp psta with
      | None => mret (_SUCCESS, v, s)
      | Some k => '(r, s) ← mgmt_plain k subtype (IS_MCAST a1) v s; mret (r, v, s)
      end
    else match has_mfp psta with
    | None => mret (_FAIL, v, s)
    | Some k => mgmt_decrypt k v s
    end.

(** What fails a check is dropped as silently as what is kept as a fragment. *)
Definition validate_recv_mgnt_frame (v : rv_frame) (s : rv_state) : res (Z * rv_frame * rv_state) :=
  a2 ← get_addr (v_data v) A2;
  let psta := find_sta s a2 in
  let v := v_set_psta v (match psta with Some k => k | None => [] end) in
  '(r, v, s) ← validate_mgmt_protect psta v s;
  if r =? _FAIL then mret (_SUCCESS, v, s)
  else
    '(ret, o, w) ← recvframe_chk_defrag (rs_world s) (vf v);
    let s := rs_with_world w s in
    match ret, o with
    | CORE_RX_CONTINUE, Some f =>
        let s := match psta with Some k => emit (RvMgntPkt k) s | None => s end in
        mret (_SUCCESS, v, emit (RvMgt (rf_id f)) s)
    | _, _ => mret (_SUCCESS, v, s)
    end.

(** ** Any frame *)

(** The attributes read from the header. *)
Definition take_header (v : rv_frame) : res rv_frame :=
  let b := v_data v in
  let a := v_attr v in
  let m := rv_ma (va v) in
  to_fr_ds ← get_tofr_ds b; frag_num ← GetFragNum b; seq_num ← GetSequence b;
  pw_save ← GetPwrMgt b; mfrag ← GetMFrag b; mdata ← GetMData b; privacy ← GetPrivacy b; order ← GetOrder b;
  mret (mkVf (rf_with_attrib (vf v)
      (mkRa (ra_encrypt a) (ra_hdrlen a) (ra_iv_len a) (ra_icv_len a) (ra_key_index a) (ra_bdecrypted a)
        privacy (ra_priority a) (ra_qos a) seq_num frag_num mfrag (ra_ra a) (ra_ta a)))
    (mkRv (mkMa to_fr_ds (ma_amsdu m) (ma_dst m) (ma_src m)) (rv_bssid (va v)) pw_save mdata order
      (rv_ack_policy (va v)) (rv_pkt_len (va v)))).

Definition v_set_qos (v : rv_frame) (qos : bool) : rv_frame :=
  let a := v_attr v in
  v_set_attr v (mkRa (ra_encrypt a) (ra_hdrlen a) (ra_iv_len a) (ra_icv_len a) (ra_key_index a) (ra_bdecrypted a)
    (ra_privacy a) (ra_priority a) qos (ra_seq_num a) (ra_frag_num a) (ra_mfrag a) (ra_ra a) (ra_ta a)).

Definition validate_recv_frame (v : rv_frame) (s : rv_state) : res (Z * rv_frame * rv_state) :=
  b0 ← rd (v_data v) 0;
  if negb (Z.land b0 0x3 =? 0) then mret (_FAIL, v, s)
  else
    type ← GetFrameType (v_data v);
    subtype ← get_frame_sub_type (v_data v);
    v ← take_header v;
    if type =? WIFI_MGT_TYPE then '(_, v, s) ← validate_recv_mgnt_frame v s; mret (_FAIL, v, s)
    else if type =? WIFI_CTRL_TYPE then '(_, s) ← validate_recv_ctrl_frame v s; mret (_FAIL, v, s)
    else if type =? WIFI_DATA_TYPE then
      '(r, v, s) ← validate_recv_data_frame (v_set_qos v (z_true (Z.land subtype (BIT 7)))) s;
      mret (r, v, if r =? _FAIL then emit RvDrop s else s)
    else mret (_FAIL, v, s).

(** [rtw_list_delete] of [rtw_free_recvframe]: the frame leaves the queue it is
    in. *)
Definition rw_unlink (w : rx_world) (id : Z) : rx_world :=
  rw_with_stas w ((fun sta => sta_set_defrag_q (filter (fun f => rf_id f <> id) (st_defrag_q sta)) sta) <$> rw_stas w).

(** The part of [rtw_core_rx_process] for one frame: a frame that is not for the
    next stage is freed. *)
Definition rx_validate (v : rv_frame) (s : rv_state) : res (option rv_frame * rv_state) :=
  '(r, v, s) ← validate_recv_frame v s;
  if r =? _SUCCESS then mret (Some v, s)
  else mret (None, rs_with_world (rw_free (rw_unlink (rs_world s) (rf_id (vf v))) [rf_id (vf v)]) s).

End mgmt.
End valid.

(** * Theorems

    Which data frames pass: addressed and sent as the mode demands, and, where
    there is a cipher, protected or with the type of EAPOL; which management frames do; packet
    numbers of group management frames; and what becomes of fragments. *)

(** ** What the header's checks leave alone *)

(** The same memory and the same attributes, but the addresses. *)
Definition same_fields (v v' : rv_frame) : Prop :=
  rx_len (vf v') = rx_len (vf v) /\ rf_id (vf v') = rf_id (vf v) /\ v_data v' = v_data v /\
  v_tofr v' = v_tofr v /\ v_amsdu v' = v_amsdu v /\ rv_order (va v') = rv_order (va v) /\
  ra_privacy (v_attr v') = ra_privacy (v_attr v) /\ ra_qos (v_attr v') = ra_qos (v_attr v) /\
  ra_mfrag (v_attr v') = ra_mfrag (v_attr v) /\ ra_frag_num (v_attr v') = ra_frag_num (v_attr v).

#[export] Instance same_fields_refl : Reflexive same_fields.
Proof. intros v. repeat split. Qed.
#[export] Instance same_fields_trans : Transitive same_fields.
Proof. unfold same_fields. intros u v w ? ?. intuition congruence. Qed.

Lemma take_ra_ta_inv v v' : take_ra_ta v = Ok v' ->
  same_fields v v' /\ va v' = va v /\ get_addr (v_data v) A1 = Ok (ra_ra (v_attr v')) /\
  get_addr (v_data v) A2 = Ok (ra_ta (v_attr v')).
Proof. unfold take_ra_ta. intros H. res_inv. repeat split; done. Qed.

Lemma take_dsb_inv v v' d x b : take_dst_src_bssid v d x b = Ok v' ->
  same_fields v v' /\ v_attr v' = v_attr v /\ get_addr (v_data v) d = Ok (v_dst v') /\
  get_addr (v_data v) x = Ok (v_src v') /\ get_addr (v_data v) b = Ok (rv_bssid (va v')).
Proof. unfold take_dst_src_bssid. intros H. res_inv. repeat split; done. Qed.

(** [res_inv] that remembers the cases. *)
Ltac rv_inv :=
  repeat (let H := fresh "R" in
  match goal with
  | E : _ ≫= _ = Ok _ |- _ => apply bind_Ok_inv in E as (? & H & E); cbv beta in E
  | E : mret _ = Ok _ |- _ => injection E; clear E; intros
  | E : Ok _ = Ok _ |- _ => injection E; clear E; intros
  | E : Oob = Ok _ |- _ => discriminate E
  | E : (_, _) = (_, _) |- _ => injection E; clear E; intros
  | p : (_ * _)%type |- _ => destruct p
  | E : (let '(_, _) := ?x in _) = Ok _ |- _ => destruct x
  | E : (if ?b then _ else _) = Ok _ |- _ => destruct b eqn:?
  | E : match ?o with Some _ => _ | None => _ end = Ok _ |- _ => destruct o eqn:?
  | E : take_ra_ta _ = Ok _ |- _ => apply take_ra_ta_inv in E as (? & ? & ? & ?)
  | E : take_dst_src_bssid _ _ _ _ = Ok _ |- _ => apply take_dsb_inv in E as (? & ? & ? & ? & ?)
  end); simplify_eq; try done.

Lemma set_dsb_fields v d x b : same_fields v (v_set_dst_src_bssid v d x b).
Proof. repeat split. Qed.

Lemma set_dsb_attr v d x b : v_attr (v_set_dst_src_bssid v d x b) = v_attr v.
Proof. reflexivity. Qed.
Lemma set_dsb_dst v d x b : v_dst (v_set_dst_src_bssid v d x b) = d.
Proof. reflexivity. Qed.
Lemma set_dsb_src v d x b : v_src (v_set_dst_src_bssid v d x b) = x.
Proof. reflexivity. Qed.

Lemma set_amsdu_keeps v b : v_data (v_set_amsdu v b) = v_data v /\ v_attr (v_set_amsdu v b) = v_attr v /\
  vf (v_set_amsdu v b) = vf v /\ v_tofr (v_set_amsdu v b) = v_tofr v /\ v_amsdu (v_set_amsdu v b) = b.
Proof. repeat split. Qed.

Ltac same := repeat match goal with
  | |- same_fields ?u (v_set_dst_src_bssid ?v _ _ _) => transitivity v; [|apply set_dsb_fields]
  | H : same_fields ?u ?v |- same_fields ?u ?w => transitivity v; [exact H|clear H]
  | |- same_fields ?u ?u => reflexivity
  end.

Section header.
Context (ad : rv_adapter) (now : Z) (passing_ms : Z -> Z).

(** The header's checks touch no key, station or queue. *)
Definition hdr_keeps (v : rv_frame) (s : rv_state) (v' : rv_frame) (s' : rv_state) : Prop :=
  same_fields v v' /\ rs_world s' = rs_world s /\ rs_ps s' = rs_ps s.

Ltac hdr_ok := intros H; rv_inv; (split; [same|]); repeat case_match; done.

Lemma sta_hdr_keeps v s r k v' s' : rtw_sta_rx_data_validate_hdr ad now passing_ms v s = Ok (r, k, v', s') ->
  hdr_keeps v s v' s'.
Proof. unfold rtw_sta_rx_data_validate_hdr. cbv zeta. hdr_ok. Qed.

Lemma process_pwrbit_keeps v k s s' : process_pwrbit_data v k s = Ok s' ->
  rs_world s' = rs_world s /\ rs_ps s' = rs_ps s.
Proof. unfold process_pwrbit_data. intros H. rv_inv. repeat case_match; done. Qed.

Lemma process_wmmps_keeps v k s s' : process_wmmps_data v k s = Ok s' ->
  rs_world s' = rs_world s /\ rs_ps s' = rs_ps s.
Proof. unfold process_wmmps_data. intros H. rv_inv. repeat case_match; done. Qed.

Lemma ap_hdr_keeps v s r k v' s' : rtw_ap_rx_data_validate_hdr ad v s = Ok (r, k, v', s') ->
  hdr_keeps v s v' s'.
Proof.
  unfold rtw_ap_rx_data_validate_hdr. cbv zeta. intros H. rv_inv.
  all: repeat match goal with
  | H : process_pwrbit_data _ _ _ = Ok _ |- _ => apply process_pwrbit_keeps in H as [? ?]
  | H : process_wmmps_data _ _ _ = Ok _ |- _ => apply process_wmmps_keeps in H as [? ?]
  end.
  all: (split; [same|]); repeat case_match; simpl; try split; try congruence.
Qed.

Lemma mp_keeps v s r k v' s' : mp_data_frame v s = Ok (r, k, v', s') -> hdr_keeps v s v' s'.
Proof. unfold mp_data_frame. hdr_ok. Qed.

Lemma other_hdr_keeps v s r k v' s' :
  other_rx_data_validate_hdr ad now passing_ms v s = Ok (r, k, v', s') -> hdr_keeps v s v' s'.
Proof.
  unfold other_rx_data_validate_hdr, sta2sta_data_frame, ap2sta_data_frame, sta2ap_data_frame.
  cbv zeta. intros H. rv_inv.
  all: repeat match goal with H : mp_data_frame _ _ = Ok _ |- _ => apply mp_keeps in H as (? & ? & ?) end.
  all: (split; [same|]); repeat case_match; simpl; try split; try congruence.
Qed.

Definition hdr_ret (r : Z) : Prop := r = _SUCCESS \/ r = _FAIL \/ r = RTW_RX_HANDLED.

Lemma sta_hdr_ret v s r k v' s' : rtw_sta_rx_data_validate_hdr ad now passing_ms v s = Ok (r, k, v', s') -> hdr_ret r.
Proof. unfold rtw_sta_rx_data_validate_hdr, hdr_ret. cbv zeta. intros H. rv_inv; tauto. Qed.
Lemma ap_hdr_ret v s r k v' s' : rtw_ap_rx_data_validate_hdr ad v s = Ok (r, k, v', s') -> hdr_ret r.
Proof. unfold rtw_ap_rx_data_validate_hdr, hdr_ret. cbv zeta. intros H. rv_inv; tauto. Qed.

(** ** What a header that passes says *)

(** The transmitter is a known station, and its address and the receiver's are
    the header's. *)
Definition from_station (v : rv_frame) (s : rv_state) (v' : rv_frame) (k : list Z) : Prop :=
  get_addr (v_data v) A1 = Ok (ra_ra (v_attr v')) /\ get_addr (v_data v) A2 = Ok (ra_ta (v_attr v')) /\
  find_sta s (ra_ta (v_attr v')) = Some k.

(** In a station: from the access point to the stations, or between them when
    source and BSSID agree; linked, and not an echo of an own frame. *)
Definition sta_header (v v' : rv_frame) : Prop :=
  exists d x, (v_tofr v, d, x) ∈ [(0, A1, A2); (1, A1, A3); (3, A3, A4)] /\
    get_addr (v_data v) d = Ok (v_dst v') /\ get_addr (v_data v) x = Ok (v_src v') /\
    (v_tofr v = 0 -> get_addr (v_data v) A3 = Ok (v_src v')).

Definition linked : Prop := Z.land (fw_state ad) (Z.lor WIFI_ASOC_STATE WIFI_UNDER_LINKING) <> 0.

Lemma linked_true : negb (z_true (Z.land (fw_state ad) (Z.lor WIFI_ASOC_STATE WIFI_UNDER_LINKING))) = false -> linked.
Proof. unfold linked, z_true. intros H E. by rewrite E in H. Qed.

Lemma not_echo v v' : negb (v_amsdu v') && bool_decide (mac_addr ad = v_src v') = false -> v_amsdu v' = v_amsdu v ->
  v_amsdu v = true \/ v_src v' <> mac_addr ad.
Proof.
  intros H E. rewrite E in H. destruct (v_amsdu v); [by left|]. right. simpl in H.
  apply bool_decide_eq_false in H. congruence.
Qed.

Ltac fields := repeat match goal with
  H : same_fields _ _ |- _ => destruct H as (? & ? & ? & ? & ? & ? & ? & ? & ? & ?) end.

Lemma sta_hdr_sound v s k v' s' : rtw_sta_rx_data_validate_hdr ad now passing_ms v s = Ok (_SUCCESS, k, v', s') ->
  exists k', k = Some k' /\ from_station v s v' k' /\ sta_header v v' /\
    (v_tofr v <> 0 -> linked /\ (v_amsdu v = true \/ v_src v' <> mac_addr ad)).
Proof.
  unfold rtw_sta_rx_data_validate_hdr, from_station, sta_header, linked. cbv zeta. intros H. rv_inv.
  all: eexists; (split; [done|]); fields; apply Z.eqb_eq in Heqb || apply Z.eqb_eq in Heqb1 || apply Z.eqb_eq in Heqb2.
  all: (split; [split_and!; congruence|]); split.
  - exists A1, A2. rewrite Heqb. split_and!; try congruence; [set_solver|].
    intros _. apply negb_false_iff, bool_decide_eq_true in Heqb0. congruence.
  - intros Hne. lia.
  - exists A1, A3. split_and!; try congruence. replace (v_tofr v) with 1 by congruence. set_solver.
  - intros _. split; [by apply linked_true|]. eapply not_echo; [done|congruence].
  - exists A3, A4. split_and!; try congruence. replace (v_tofr v) with 3 by congruence. set_solver.
  - intros _. split; [by apply linked_true|]. eapply not_echo; [done|congruence].
Qed.

(** In an access point: to it from a station or, with four addresses, from a
    relay. *)
Definition ap_header (v v' : rv_frame) : Prop :=
  (v_tofr v = 2 /\ IS_MCAST (ra_ra (v_attr v')) = false /\ get_addr (v_data v) A2 = Ok (v_src v') \/
   v_tofr v = 3 /\ get_addr (v_data v) A4 = Ok (v_src v')) /\
  get_addr (v_data v) A3 = Ok (v_dst v').

Lemma ap_hdr_sound v s k v' s' : rtw_ap_rx_data_validate_hdr ad v s = Ok (_SUCCESS, k, v', s') ->
  exists k', k = Some k' /\ from_station v s v' k' /\ ap_header v v' /\ Z.land (fw_state ad) WIFI_ASOC_STATE <> 0.
Proof.
  intros H0. pose proof (ap_hdr_keeps _ _ _ _ _ _ H0) as [Hk _]. revert H0.
  unfold rtw_ap_rx_data_validate_hdr, from_station, ap_header. cbv zeta. intros H. rv_inv.
  all: eexists; (split; [done|]); fields.
  all: assert (Z.land (fw_state ad) WIFI_ASOC_STATE <> 0) by
    (intros E; unfold check_fwstate, z_true in *; rewrite E in *; done).
  all: rewrite ?set_dsb_attr, ?set_dsb_dst, ?set_dsb_src in *.
  all: (split; [split_and!; congruence|]); split; [|done].
  1, 2: split; [left|congruence]; apply Z.eqb_eq in Heqb2; split_and!; [congruence| |congruence].
  1, 2: replace (v_tofr v) with 2 in Heqb1 by congruence; simpl in Heqb1; congruence.
  all: split; [right|congruence]; split; [|congruence].
  all: apply Z.eqb_neq in Heqb2; apply negb_false_iff, orb_true_iff in Heqb0 as [E%Z.eqb_eq|E%Z.eqb_eq]; congruence.
Qed.

(** ** The checks behind the header *)

Lemma decache_auth k v s r s' : data_decache ad k v s = Ok (r, s') ->
  dot11AuthAlgrthm (rw_sec (rs_world s')) = dot11AuthAlgrthm (rw_sec (rs_world s)).
Proof.
  unfold data_decache, recv_bcast_pn_decache. cbv zeta. intros H. rv_inv.
Qed.

(** A frame that passes keeps its header and addresses; the station is entered,
    and the cipher of an unprotected frame is none. *)
Lemma checks_sound k a4 v s v' s' : data_frame_checks ad k a4 v s = Ok (_SUCCESS, v', s') ->
  same_fields v v' /\ rv_ma (va v') = rv_ma (va v) /\ rv_bssid (va v') = rv_bssid (va v) /\
  ra_ra (v_attr v') = ra_ra (v_attr v) /\ ra_ta (v_attr v') = ra_ta (v_attr v) /\ rf_psta (vf v') = k /\
  (0 <= a4 -> WLAN_HDR_A3_LEN <= ra_hdrlen (v_attr v')) /\
  plaintext_check ad k (dot11AuthAlgrthm (rw_sec (rs_world s))) v' = Ok _SUCCESS /\
  (ra_privacy (v_attr v') = false ->
   ra_encrypt (v_attr v') = 0 /\ ra_iv_len (v_attr v') = 0 /\ ra_icv_len (v_attr v') = 0).
Proof.
  unfold data_frame_checks. cbv zeta. intros H. rv_inv.
  all: match goal with H : data_decache _ _ _ _ = Ok _ |- _ => apply decache_auth in H as E end.
  all: rewrite E in *; repeat case_match; simplify_eq; split_and!; try done.
  all: intros Hp; first [exfalso; cbn in *; congruence|cbn; unfold WLAN_HDR_A3_QOS_LEN, WLAN_HDR_A3_LEN; lia].
Qed.

(** What holds of a data frame that passes, in each mode. *)
Definition header_ok (v v' : rv_frame) : Prop :=
  if MLME_IS_AP ad then ap_header v v' /\ Z.land (fw_state ad) WIFI_ASOC_STATE <> 0
  else if MLME_IS_STA ad then
    sta_header v v' /\ (v_tofr v <> 0 -> linked /\ (v_amsdu v' = true \/ v_src v' <> mac_addr ad))
  else True.

Lemma data_frame_sound v s v' s' : validate_recv_data_frame ad now passing_ms v s = Ok (_SUCCESS, v', s') ->
  v_data v' = v_data v /\ rf_id (vf v') = rf_id (vf v) /\ rx_len (vf v') = rx_len (vf v) /\
  ra_privacy (v_attr v') = ra_privacy (v_attr v) /\ ra_mfrag (v_attr v') = ra_mfrag (v_attr v) /\
  ra_frag_num (v_attr v') = ra_frag_num (v_attr v) /\
  (MLME_IS_AP ad || MLME_IS_STA ad = true -> from_station v s v' (rf_psta (vf v'))) /\ header_ok v v' /\
  WLAN_HDR_A3_LEN <= ra_hdrlen (v_attr v') /\
  plaintext_check ad (rf_psta (vf v')) (dot11AuthAlgrthm (rw_sec (rs_world s))) v' = Ok _SUCCESS /\
  (ra_privacy (v_attr v') = false ->
   ra_encrypt (v_attr v') = 0 /\ ra_iv_len (v_attr v') = 0 /\ ra_icv_len (v_attr v') = 0).
Proof.
  unfold validate_recv_data_frame. cbv zeta. intros H. apply bind_Ok_inv in H as (am & Ham & H).
  apply bind_Ok_inv in H as ([[[r psta] v1] s1] & Hh & H). cbv beta iota in H.
  destruct ((r =? _FAIL) || (r =? RTW_RX_HANDLED)) eqn:Er.
  { injection H as -> _ _. discriminate Er. }
  assert (hdr_keeps (v_set_amsdu v am) s v1 s1) as (Hf & Hw & _).
  { destruct (MLME_IS_AP ad), (MLME_IS_STA ad);
      eauto using ap_hdr_keeps, sta_hdr_keeps, other_hdr_keeps. }
  destruct psta as [k|]; [|by injection H]. apply checks_sound in H as (Hs & Hma & Hbs & Hra & Hta & Hk & Hlen & Hp & He).
  rewrite Hw in Hp. subst k. unfold header_ok.
  assert (MLME_IS_AP ad || MLME_IS_STA ad = true -> r = _SUCCESS) as Hr.
  { intros Hm. assert (hdr_ret r) as [->|[->| ->]]; [|done..].
    destruct (MLME_IS_AP ad), (MLME_IS_STA ad); eauto using ap_hdr_ret, sta_hdr_ret. done. }
  assert (v_dst v' = v_dst v1 /\ v_src v' = v_src v1) as [Hd Hx] by (unfold v_dst, v_src; by rewrite Hma).
  destruct Hf as (F1 & F2 & F3 & F4 & F5 & F6 & F7 & F8 & F9 & F10).
  destruct Hs as (G1 & G2 & G3 & G4 & G5 & G6 & G7 & G8 & G9 & G10).
  pose proof (set_amsdu_keeps v am) as (E1 & E2 & E3 & E4 & Ha).
  rewrite ?E1, ?E2, ?E3, ?E4 in *.
  split_and!; try congruence; [| |apply Hlen; by destruct (_ =? 3)|exact He].
  all: destruct (MLME_IS_AP ad); [|destruct (MLME_IS_STA ad); [|done]]; rewrite Hr in Hh by done.
  - intros _. apply ap_hdr_sound in Hh as (k & [= <-] & Hs & _). unfold from_station in *.
    rewrite E1, Hra, Hta in *. exact Hs.
  - intros _. apply sta_hdr_sound in Hh as (k & [= <-] & Hs & _). unfold from_station in *.
    rewrite E1, Hra, Hta in *. exact Hs.
  - apply ap_hdr_sound in Hh as (k & _ & _ & Hs & Hl). unfold ap_header in *.
    rewrite E1, E4, Hra, Hd, Hx in *. by split.
  - apply sta_hdr_sound in Hh as (k & _ & _ & Hs & Hl). unfold sta_header in *.
    rewrite E1, E4, Hd, Hx in *. split; [done|]. intros Ht. destruct (Hl Ht) as [? [?|?]]; split; auto; left; congruence.
Qed.

End header.

(** ** Data frames that pass *)

Section frames.
Context (ad : rv_adapter) (now : Z) (passing_ms : Z -> Z).
Context (cmac : list Z -> Z -> list Z -> option (list Z)).
Context (gmac : list Z -> Z -> list Z -> Z -> list Z -> option (list Z)).
Context (ccmp gcmp : list Z -> Z -> Z -> list Z -> Z -> res (Z * list Z)) (have_mem : Z -> bool).

Lemma take_header_inv v v' : take_header v = Ok v' ->
  v_data v' = v_data v /\ rf_id (vf v') = rf_id (vf v) /\ rx_len (vf v') = rx_len (vf v) /\
  get_tofr_ds (v_data v) = Ok (v_tofr v') /\ GetPrivacy (v_data v) = Ok (ra_privacy (v_attr v')) /\
  GetMFrag (v_data v) = Ok (ra_mfrag (v_attr v')) /\ GetFragNum (v_data v) = Ok (ra_frag_num (v_attr v')) /\
  GetSequence (v_data v) = Ok (ra_seq_num (v_attr v')) /\
  ra_encrypt (v_attr v') = ra_encrypt (v_attr v) /\ ra_ta (v_attr v') = ra_ta (v_attr v).
Proof. unfold take_header. cbv zeta. intros H. rv_inv. Qed.

(** Only a data frame leaves [rx_validate], with the header's attributes. *)
Lemma rx_validate_inv v s v' s' :
  rx_validate ad now passing_ms cmac gmac ccmp gcmp have_mem v s = Ok (Some v', s') ->
  exists v1, validate_recv_data_frame ad now passing_ms v1 s = Ok (_SUCCESS, v', s') /\
    v_data v1 = v_data v /\ rf_id (vf v1) = rf_id (vf v) /\ rx_len (vf v1) = rx_len (vf v) /\
    get_tofr_ds (v_data v) = Ok (v_tofr v1) /\ GetPrivacy (v_data v) = Ok (ra_privacy (v_attr v1)) /\
    GetMFrag (v_data v) = Ok (ra_mfrag (v_attr v1)) /\ GetFragNum (v_data v) = Ok (ra_frag_num (v_attr v1)).
Proof.
  unfold rx_validate, validate_recv_frame. intros H. apply bind_Ok_inv in H as ([[r w] t] & H & Hr).
  cbv beta iota in Hr. destruct (Z.eqb_spec r _SUCCESS) as [->|]; [|done]. injection Hr as -> ->.
  apply bind_Ok_inv in H as (b0 & _ & H). cbv beta in H.
  destruct (negb _); [done|]. apply bind_Ok_inv in H as (ty & _ & H). apply bind_Ok_inv in H as (st & _ & H).
  apply bind_Ok_inv in H as (v1 & Hv1 & H). cbv beta in H. apply take_header_inv in Hv1 as (E1 & E2 & E3 & E4 & E5 & E6 & E7 & _).
  destruct (ty =? WIFI_MGT_TYPE).
  { apply bind_Ok_inv in H as ([[? ?] ?] & _ & H). done. }
  destruct (ty =? WIFI_CTRL_TYPE).
  { apply bind_Ok_inv in H as ([? ?] & _ & H). done. }
  destruct (ty =? WIFI_DATA_TYPE); [|done].
  apply bind_Ok_inv in H as ([[r v2] s2] & H & Hr). cbv beta iota in Hr. injection Hr as -> -> Hs.
  cbn in Hs. subst s2. eexists. split; [exact H|]. repeat split; assumption.
Qed.

(** The frame's header passed the checks of the adapter's mode. *)
Theorem data_frame_accepted v s v' s' :
  rx_validate ad now passing_ms cmac gmac ccmp gcmp have_mem v s = Ok (Some v', s') ->
  exists v1, v_data v1 = v_data v /\ get_tofr_ds (v_data v) = Ok (v_tofr v1) /\ header_ok ad v1 v' /\
    (MLME_IS_AP ad || MLME_IS_STA ad = true -> from_station v1 s v' (rf_psta (vf v'))).
Proof.
  intros H. apply rx_validate_inv in H as (v1 & H & E1 & _ & _ & E4 & _).
  apply data_frame_sound in H as (_ & _ & _ & _ & _ & _ & Hs & Hh & _). by exists v1.
Qed.

(** An unprotected frame that passes where there is a cipher is for one receiver
    and has EAPOL's type where an LLC header would have it. *)
Lemma plaintext_sound v s v' s' :
  rx_validate ad now passing_ms cmac gmac ccmp gcmp have_mem v s = Ok (Some v', s') ->
  dot11PrivacyAlgrthm ad <> _NO_PRIVACY_ -> GetPrivacy (v_data v) = Ok false ->
  IS_MCAST (ra_ra (v_attr v')) = false /\ dot11AuthAlgrthm (rw_sec (rs_world s)) = dot11AuthAlgrthm_8021X /\
  v_amsdu v' = false /\ body_ether_type v' = Ok 0x888e /\ ra_privacy (v_attr v') = false /\
  ra_encrypt (v_attr v') = 0 /\ ra_iv_len (v_attr v') = 0 /\ ra_icv_len (v_attr v') = 0.
Proof.
  intros H Hc Hp. apply rx_validate_inv in H as (v1 & H & E1 & _ & _ & _ & E5 & _).
  apply data_frame_sound in H as (D & _ & _ & P & _ & _ & _ & _ & _ & Hpl & He).
  assert (ra_privacy (v_attr v') = false) as Hp' by congruence. destruct (He Hp') as (X1 & X2 & X3).
  unfold plaintext_check in Hpl. cbv zeta in Hpl. rewrite Hp' in Hpl.
  replace (dot11PrivacyAlgrthm ad =? _NO_PRIVACY_) with false in Hpl by lia.
  destruct (IS_MCAST _); [done|]. apply bind_Ok_inv in Hpl as (t & Ht & Hpl). cbn [negb andb] in Hpl.
  destruct (Z.eqb_spec (dot11AuthAlgrthm (rw_sec (rs_world s))) dot11AuthAlgrthm_8021X); [|done].
  destruct (Z.eqb_spec t 0x888e) as [->|]; [|done]. cbn [negb] in Hpl.
  destruct (v_amsdu v'); [done|]. repeat split; done.
Qed.

(** An unprotected whole frame passes the next stage as it is. *)
Lemma pre_process_plain ki clock HZ w f r o w' :
  rtw_core_rx_data_pre_process ccmp gcmp ki clock HZ w f = Ok (r, o, w') ->
  ra_encrypt (rf_attrib f) = 0 -> ra_privacy (rf_attrib f) = false -> ra_mfrag (rf_attrib f) = false ->
  ra_frag_num (rf_attrib f) = 0 ->
  o = Some (rf_with_attrib f (ra_with_bdecrypted (rf_attrib f) true)).
Proof.
  unfold rtw_core_rx_data_pre_process, decryptor, set_key_index, recvframe_chk_defrag. cbv zeta.
  intros H He Hp Hm Hn. rewrite He in H. cbn -[defrag_station portctrl] in H. rewrite ?He in H.
  cbn -[defrag_station portctrl] in H. rewrite ?andb_false_r in H. cbn -[defrag_station portctrl] in H.
  rewrite ?Hm, ?Hn in H. cbn -[defrag_station portctrl] in H.
  apply bind_Ok_inv in H as ([[r1 o1] w1] & Hd & H). cbv beta iota in H.
  apply bind_Ok_inv in Hd as (st & _ & Hd). injection Hd as <- <- <-.
  assert (match st with Some (_, _) | _ => rf_with_attrib f (ra_with_bdecrypted (rf_attrib f) true) end =
    rf_with_attrib f (ra_with_bdecrypted (rf_attrib f) true)) as E by (by destruct st as [[? ?]|]).
  rewrite E in H. cbn [rf_attrib rf_with_attrib ra_privacy ra_with_bdecrypted] in H. rewrite Hp, bind_Ok in H.
  cbn -[portctrl] in H. apply bind_Ok_inv in H as (ok & _ & H). by injection H.
Qed.

Lemma get_addr_len b i x : get_addr b i = Ok x -> zlen x = 6.
Proof.
  unfold get_addr, rd_n, ETH_ALEN. cbn [Z.eqb]. destruct (_ || _ || _) eqn:E; [done|]. intros [= <-].
  unfold zlen in *. rewrite length_take, length_drop. lia.
Qed.

Lemma fp_at_off f p : fp_wf f p -> fp_iv p = [] -> at_off (rx_data f) (zlen (fp_hdr p)) (fp_payload p).
Proof.
  intros (-> & _) E. unfold fp_front. rewrite E. exists (fp_hdr p), (fp_icv p ++ fp_slack p).
  by rewrite <- !app_assoc.
Qed.

(** What the upper layer can get of a frame [v] that is not protected: a packet
    of EtherType EAPOL; or, of an MSDU without an LLC header that is removed, the
    packet that has its length in front of it, of which only the bytes 6 and 7
    are sure to be those of EAPOL. *)
Definition eapol_type : list Z := [0x88; 0x8e].
Definition eapol_pkt (dst src msdu pkt : list Z) : Prop :=
  exists llc body, llc ∈ [rtw_rfc1042_header; rtw_bridge_tunnel_header] /\
    msdu = llc ++ eapol_type ++ body /\ pkt = dst ++ src ++ eapol_type ++ body.
Definition length_pkt (dst src msdu pkt : list Z) : Prop :=
  llc_of msdu = RTW_RX_LLC_KEEP /\ pkt = dst ++ src ++ be16 (zlen msdu) ++ msdu /\
  (8 <= zlen msdu -> exists llc body, zlen llc = 6 /\ msdu = llc ++ eapol_type ++ body).

Lemma split_8 {A} (l : list A) (x y : A) : 8 <= zlen l -> l !! 6%nat = Some x -> l !! 7%nat = Some y ->
  l = take 6 l ++ [x; y] ++ drop 8 l /\ zlen (take 6 l) = 6 /\ drop 6 l = [x; y] ++ drop 8 l.
Proof.
  intros Hl H6 H7. assert (drop 6 l = [x; y] ++ drop 8 l) as E.
  { rewrite (drop_S _ _ _ H6), (drop_S _ _ _ H7). done. }
  split; [|split; [|exact E]].
  - by rewrite <- E, take_drop.
  - unfold zlen in *. rewrite length_take. lia.
Qed.

(** Where the checks found the type. *)
Lemma body_type_bytes v p : fp_wf (vf v) p -> fp_iv p = [] -> ra_iv_len (v_attr v) = 0 ->
  bytes (fp_payload p) -> body_ether_type v = Ok 0x888e -> 8 <= zlen (fp_payload p) ->
  at_ (fp_payload p) 6 = 0x88 /\ at_ (fp_payload p) 7 = 0x8e.
Proof.
  intros Hw I2 E2 Hb Ht H8. pose proof Hw as (_ & _ & _ & W4 & _). fold (v_attr v) in W4.
  unfold body_ether_type in Ht. cbv zeta in Ht. rewrite E2, Z.add_0_r, W4 in Ht. unfold v_data, LLC_HEADER_SIZE in Ht.
  rewrite (be16_get _ _ (fp_payload p)) in Ht by (done || lia || exact (fp_at_off _ _ Hw I2)).
  pose proof (at_byte _ 6 Hb ltac:(lia)) as B6. pose proof (at_byte _ 7 Hb ltac:(lia)) as B7.
  change (6 + 1) with 7 in Ht. injection Ht as Ht. unfold byte in *. lia.
Qed.

(** The packet of an MSDU with the bytes of EAPOL's type where the type is. *)
Lemma eapol_cases dst src msdu : (8 <= zlen msdu -> at_ msdu 6 = 0x88 /\ at_ msdu 7 = 0x8e) ->
  eapol_pkt dst src msdu (eth_packet dst src msdu) \/ length_pkt dst src msdu (eth_packet dst src msdu).
Proof.
  intros H. unfold eth_packet. destruct (Z_lt_dec (zlen msdu) 8) as [Hs|Hl].
  { right. assert (llc_of msdu = RTW_RX_LLC_KEEP) as E by (unfold llc_of; by replace (zlen msdu <? 8) with true by lia).
    rewrite E. split; [done|]. split; [done|]. lia. }
  assert (exists x y, msdu !! 6%nat = Some x /\ msdu !! 7%nat = Some y) as (x & y & H6 & H7).
  { unfold zlen in Hl. destruct (lookup_lt_is_Some_2 msdu 6) as [x ?]; [lia|].
    destruct (lookup_lt_is_Some_2 msdu 7) as [y ?]; [lia|]. by exists x, y. }
  assert (x = 0x88 /\ y = 0x8e) as [-> ->].
  { specialize (H ltac:(lia)). unfold at_ in H. change (Z.to_nat 6) with 6%nat in H. change (Z.to_nat 7) with 7%nat in H.
    rewrite (nth_lookup_Some _ _ _ _ H6), (nth_lookup_Some _ _ _ _ H7) in H. exact H. }
  destruct (split_8 msdu 0x88 0x8e ltac:(lia) H6 H7) as (E1 & E2 & E3).
  destruct (llc_of msdu) eqn:El.
  - right. split; [done|]. split; [done|]. intros _. by exists (take 6 msdu), (drop 8 msdu).
  - left. unfold llc_of in El. replace (zlen msdu <? 8) with false in El by lia.
    exists (take 6 msdu), (drop 8 msdu). split; [|split; [exact E1|by rewrite E3]].
    destruct (_ || _) eqn:Eo; [|done].
    apply orb_true_iff in Eo as [Eo|Eo]; rewrite ?andb_true_iff in Eo; rewrite ?bool_decide_eq_true in Eo;
      set_solver.
  - exfalso. unfold llc_of in El. repeat case_match; done.
Qed.

(** C26: In a station or access point of a network with a cipher, what the
    upper layer gets of a whole received frame that was not protected is a
    packet with the frame's own addresses, and either its EtherType is that of
    EAPOL, or its MSDU did not begin with an LLC header that is removed: then
    it is the whole MSDU behind its length, and only bytes 6 and 7 of the
    MSDU, if it has them, are those of EAPOL. *)
Theorem plaintext_confined non_spp act have_pkt ki clock HZ v s v' s' p f r w out :
  rx_validate ad now passing_ms cmac gmac ccmp gcmp have_mem v s = Ok (Some v', s') ->
  MLME_IS_AP ad || MLME_IS_STA ad = true -> dot11PrivacyAlgrthm ad <> _NO_PRIVACY_ ->
  GetPrivacy (v_data v) = Ok false -> GetMFrag (v_data v) = Ok false -> GetFragNum (v_data v) = Ok 0 ->
  fp_wf (vf v') p -> bytes (fp_payload p) -> word16 (zlen (fp_payload p)) ->
  rtw_core_rx_data_pre_process ccmp gcmp ki clock HZ (rs_world s') (vf v') = Ok (r, Some f, w) ->
  rtw_core_rx_data_post_process non_spp (dot11PrivacyAlgrthm ad) act have_pkt (rv_ma (va v')) f = Ok (Some out) ->
  Forall (fun pkt => eapol_pkt (v_dst v') (v_src v') (fp_payload p) pkt \/
    length_pkt (v_dst v') (v_src v') (fp_payload p) pkt) (out.1 ++ out.2).
Proof.
  intros H Hm Hc Hp Hf Hn Hw Hb H16 Hpre Hpost.
  pose proof (plaintext_sound _ _ _ _ H Hc Hp) as (_ & _ & Ha & Ht & Hp' & E1 & E2 & E3).
  apply rx_validate_inv in H as (v1 & H & _ & _ & _ & _ & _ & F1 & F2).
  apply data_frame_sound in H as (_ & _ & _ & _ & G1 & G2 & _ & Hh & Hlen & _).
  assert (ra_mfrag (v_attr v') = false /\ ra_frag_num (v_attr v') = 0) as [M1 M2] by (split; congruence).
  eapply pre_process_plain in Hpre; [|done..]. injection Hpre as ->.
  assert (zlen (v_dst v') = 6 /\ zlen (v_src v') = 6) as [L1 L2].
  { unfold header_ok in Hh. destruct (MLME_IS_AP ad).
    - destruct Hh as [[[(_ & _ & ?)|(_ & ?)] ?] _]; split; eauto using get_addr_len.
    - destruct (MLME_IS_STA ad); [|done]. destruct Hh as [(? & ? & _ & ? & ? & _) _]; split; eauto using get_addr_len. }
  pose proof Hw as (W1 & W2 & W3 & W4 & W5 & W6 & W7 & W8). fold (v_attr v') in *.
  assert (fp_icv p = []) as I by (apply zlen_0; congruence).
  assert (fp_iv p = []) as I2 by (apply zlen_0; congruence).
  unfold rtw_core_rx_data_post_process in Hpost. fold (v_amsdu v') in Hpost. rewrite Ha in Hpost.
  erewrite (msdu_process _ _ _ p) in Hpost; [| |by right|exact L1|exact L2|unfold WLAN_HDR_A3_LEN in *; zl|done..].
  - fold (v_dst v') (v_src v') in Hpost. destruct (act _ _ =? 0); [done|]. injection Hpost as <-.
    pose proof (eapol_cases (v_dst v') (v_src v') (fp_payload p)) as Hok. cbv beta in Hok.
    specialize (Hok ltac:(intros H8; by apply (body_type_bytes v' p))).
    apply Forall_app. edestruct (msdu_dispose_spec
      (fun pkt => eapol_pkt (v_dst v') (v_src v') (fp_payload p) pkt \/ length_pkt (v_dst v') (v_src v') (fp_payload p) pkt)
      (act (v_dst v') (v_src v')) _ ([], []) Hok) as (? & ? & _); [by split|by split].
  - repeat split; assumption.
Qed.

End frames.

(** ** Group management frames *)

Section bip.
Context (cmac : list Z -> Z -> list Z -> option (list Z)).
Context (gmac : list Z -> Z -> list Z -> Z -> list Z -> option (list Z)) (have_mem : Z -> bool).

Definition bip_mic_len (gmcs : Z) : Z := if gmcs =? _BIP_CMAC_128_ then 8 else 16.

(** The management MIC element: key identifier, packet number, check value. *)
Definition mme_enc (keyid : Z) (pn mic : list Z) : list Z :=
  [_MME_IE_; 8 + zlen mic] ++ le16 keyid ++ pn ++ mic.

(** The frame: frame control, duration, three addresses, sequence control, body
    and element. *)
Definition bip_frame (fc dur seq : Z) (addrs body : list Z) (keyid : Z) (pn mic : list Z) : list Z :=
  le16 fc ++ le16 dur ++ addrs ++ le16 seq ++ body ++ mme_enc keyid pn mic.

(** The data its check value is computed of, from the fields. *)
Definition bip_data (gmcs fc : Z) (addrs body : list Z) (keyid : Z) (pn : list Z) : list Z :=
  le16 (Z.ldiff (Z.ldiff (Z.ldiff fc (BIT 11)) (BIT 12)) (BIT 13)) ++ addrs ++ body ++
  mme_enc keyid pn (zeros (bip_mic_len gmcs)).

(** The check value expected, as long as the frame carries. *)
Definition bip_mic (gmcs : Z) (whdr : list Z) (pkt_len : Z) (key : list Z) (data : list Z) : option (list Z) :=
  take (Z.to_nat (bip_mic_len gmcs)) <$> rtw_calculate_bip_mic cmac gmac gmcs whdr pkt_len key data.

Lemma le16_two v : zlen (le16 v) = 2.
Proof. reflexivity. Qed.

(** Where the parts are. *)
Lemma bip_layout fc dur seq addrs body keyid pn mic post : zlen addrs = 18 -> zlen pn = 6 ->
  let b := bip_frame fc dur seq addrs body keyid pn mic ++ post in
  at_off b (24 + zlen body) [_MME_IE_; 8 + zlen mic] /\ at_off b (24 + zlen body + 2) (le16 keyid) /\
  at_off b (24 + zlen body + 4) pn /\ at_off b (24 + zlen body + 10) mic /\
  at_off b 0 (le16 fc) /\ at_off b 4 addrs /\
  at_off b 24 (body ++ [_MME_IE_; 8 + zlen mic] ++ le16 keyid ++ pn).
Proof.
  intros Ha Hp. cbv zeta. pose proof (at_off_0 (bip_frame fc dur seq addrs body keyid pn mic) post) as H.
  revert H. generalize (bip_frame fc dur seq addrs body keyid pn mic ++ post). intros b H.
  unfold bip_frame, mme_enc in H. repeat (apply at_off_app in H as [? H]).
  rewrite !le16_two, Ha, Hp in *. change (zlen [_MME_IE_; 8 + zlen mic]) with 2 in *.
  rewrite !Z.add_0_l in *. change (2 + 2 + 18 + 2) with 24 in *. change (2 + 2) with 4 in *.
  replace (24 + zlen body + 2 + 2 + 6) with (24 + zlen body + 10) in * by lia.
  replace (24 + zlen body + 2 + 2) with (24 + zlen body + 4) in * by lia.
  split_and!; try assumption.
  repeat (apply at_off_app; split); rewrite ?le16_two;
    change (zlen [_MME_IE_; 8 + zlen mic]) with 2; try assumption.
  by replace (24 + zlen body + 2 + 2) with (24 + zlen body + 4) by lia.
Qed.

(** C28: A group management frame built from its fields, wherever it lies in
    its buffer, is accepted by rtw_bip_verify exactly if it names the key in
    use, its packet number is above the last accepted one, and either the
    hardware marked it as deciphered or memory for the computation is there
    and its check value is the one computed of its fields without those that
    may change; only then the last packet number becomes its own. *)
Theorem bip_verify_spec gmcs pkt_len fc dur seq addrs body keyid pn mic post key id ipn hw :
  zlen addrs = 18 -> zlen pn = 6 -> zlen mic = bip_mic_len gmcs -> word16 keyid -> word16 fc ->
  let b := bip_frame fc dur seq addrs body keyid pn mic in
  let ok := (keyid =? id) && (pn_val pn >? ipn) &&
    (hw || have_mem (zlen b - WLAN_HDR_A3_LEN + BIP_AAD_SIZE) &&
           bool_decide (bip_mic gmcs (b ++ post) pkt_len key (bip_data gmcs fc addrs body keyid pn) = Some mic)) in
  rtw_bip_verify cmac gmac have_mem gmcs pkt_len (b ++ post) (zlen b) key id ipn hw =
  Ok (if ok then (_SUCCESS, pn_val pn) else (_FAIL, ipn)).
Proof.
  intros Ha Hpn Hmic Hk Hf. cbv zeta. set (b := bip_frame _ _ _ _ _ _ _ _).
  assert (bip_mic_len gmcs = 8 \/ bip_mic_len gmcs = 16) as HM by (unfold bip_mic_len; destruct (_ =? _); auto).
  assert (zlen b = 24 + zlen body + 10 + bip_mic_len gmcs) as Hl.
  { unfold b, bip_frame, mme_enc. rewrite !zlen_app, !le16_two. zl. }
  destruct (bip_layout fc dur seq addrs body keyid pn mic post Ha Hpn) as (P1 & P2 & P3 & P4 & P5 & P6 & P7).
  fold b in P1, P2, P3, P4, P5, P6, P7. pose proof (zlen_nonneg body).
  unfold rtw_bip_verify. fold (bip_mic_len gmcs). cbv zeta. unfold WLAN_HDR_A3_LEN.
  replace ((zlen b <? 24) || _) with false by lia.
  replace (zlen b - (if bip_mic_len gmcs =? 8 then 18 else 26)) with (24 + zlen body)
    by (destruct HM as [E|E]; rewrite E in *; cbn [Z.eqb Pos.eqb]; lia).
  replace (rd _ (24 + zlen body)) with (Ok _MME_IE_ : res Z) by (by apply at_off_cons in P1 as [-> _]). rewrite bind_Ok. change (negb (_MME_IE_ =? _MME_IE_)) with false. cbv iota.
  rewrite (le16_at _ _ _ Hk P2), bind_Ok. destruct (Z.eqb_spec keyid id) as [->|]; cbn [negb andb]; [|done].
  rewrite (at_off_rd_n _ _ pn 6 P3), bind_Ok by lia.
  destruct (Z.gtb_spec (pn_val pn) ipn) as [Hgt|Hle]; cbn [andb].
  2: { by replace (pn_val pn <=? ipn) with true by lia. }
  replace (pn_val pn <=? ipn) with false by lia. destruct hw; cbn [negb orb andb]; [done|].
  destruct (have_mem _); cbn [negb andb]; [|done].
  assert (bip_aad (b ++ post) (zlen b) (bip_mic_len gmcs) = Ok (bip_data gmcs fc addrs body id pn)) as ->.
  { unfold bip_aad, WLAN_HDR_A3_LEN.
    rewrite (at_off_rd_n _ _ _ (zlen b - 24 - bip_mic_len gmcs) P7), bind_Ok by (rewrite !zlen_app, le16_two; zl).
    rewrite (le16_at _ _ _ Hf P5), bind_Ok. rewrite (at_off_rd_n _ _ addrs 18 P6), bind_Ok by lia.
    unfold bip_data, mme_enc. rewrite zlen_zeros by lia. rewrite Hmic. by rewrite <- !app_assoc. }
  rewrite bind_Ok. unfold bip_mic.
  destruct (rtw_calculate_bip_mic _ _ _ _ _ _ _) as [m|]; cbn [fmap option_fmap option_map].
  2: { by rewrite bool_decide_eq_false_2. }
  rewrite (at_off_rd_n _ _ mic), bind_Ok; [|by replace (zlen b - bip_mic_len gmcs) with (24 + zlen body + 10) by lia|done].
  destruct (bool_decide_reflect (take (Z.to_nat (bip_mic_len gmcs)) m = mic)) as [->|Hne].
  - by rewrite bool_decide_eq_true_2.
  - by rewrite bool_decide_eq_false_2 by congruence.
Qed.

Lemma bip_verify_moves gmcs pkt_len b flen key id ipn hw r ipn' :
  rtw_bip_verify cmac gmac have_mem gmcs pkt_len b flen key id ipn hw = Ok (r, ipn') ->
  r = _SUCCESS /\ ipn < ipn' \/ (r = _FAIL \/ r = RTW_RX_HANDLED) /\ ipn' = ipn.
Proof.
  unfold rtw_bip_verify. cbv zeta. intros H. rv_inv; try (right; tauto).
  - left. split; [done|lia].
  - destruct (bool_decide _); simplify_eq; [left; split; [done|lia]|right; tauto].
Qed.

(** A received group management frame: cipher, length, memory, key in use, and
    whether the hardware has checked it. *)
Record bip_rx := mkBip { br_gmcs : Z; br_pkt_len : Z; br_data : list Z; br_flen : Z; br_key : list Z; br_id : Z; br_hw : bool }.

(** The packet numbers accepted in a sequence of frames. *)
Fixpoint bip_run (ipn : Z) (fs : list bip_rx) : res (list Z) :=
  match fs with
  | [] => mret []
  | f :: fs =>
      '(r, ipn) ← rtw_bip_verify cmac gmac have_mem (br_gmcs f) (br_pkt_len f) (br_data f) (br_flen f)
                    (br_key f) (br_id f) ipn (br_hw f);
      acc ← bip_run ipn fs;
      mret (if r =? _SUCCESS then ipn :: acc else acc)
  end.

(** The packet numbers of the group management frames that are accepted
    increase strictly, whatever frames arrive: none is accepted twice. *)
Theorem bip_no_replay ipn fs acc : bip_run ipn fs = Ok acc -> StronglySorted Z.lt (ipn :: acc).
Proof.
  revert ipn acc. induction fs as [|f fs IH]; intros ipn acc H; cbn [bip_run] in H.
  { injection H as <-. repeat constructor. }
  apply bind_Ok_inv in H as ([r ipn'] & Hv & H). cbv beta iota in H.
  apply bind_Ok_inv in H as (acc' & Hr & H). apply IH in Hr. injection H as <-.
  destruct (bip_verify_moves _ _ _ _ _ _ _ _ _ _ Hv) as [[-> Hlt]|[Hne ->]].
  - rewrite Z.eqb_refl. constructor; [done|]. constructor; [done|].
    apply StronglySorted_inv in Hr as [_ Hr]. eapply Forall_impl; [exact Hr|]. simpl. lia.
  - by destruct Hne as [-> | ->].
Qed.
End bip.

(** ** Protected management frames *)

Section mgmt_frames.
Context (ad : rv_adapter).
Context (cmac : list Z -> Z -> list Z -> option (list Z)).
Context (gmac : list Z -> Z -> list Z -> Z -> list Z -> option (list Z)).
Context (ccmp gcmp : list Z -> Z -> Z -> list Z -> Z -> res (Z * list Z)) (have_mem : Z -> bool).

(** A group frame whose check value was verified now. *)
Definition bip_verified (v : rv_frame) (s : rv_state) : Prop :=
  exists igtk ipn, arr (dot11wBIPKey ad) (dot11wBIPKeyid ad) = Ok igtk /\ rs_ipn s < ipn /\
    rtw_bip_verify cmac gmac have_mem (dot11wCipher ad) (rv_pkt_len (va v)) (v_data v) (rx_len (vf v)) igtk
      (u16 (dot11wBIPKeyid ad)) (rs_ipn s) (ra_bdecrypted (v_attr v)) = Ok (_SUCCESS, ipn).

Lemma bip_verify_ok v s s' : bip_verify ad cmac gmac have_mem v s = Ok (_SUCCESS, s') -> bip_verified v s.
Proof.
  unfold bip_verify. intros H. apply bind_Ok_inv in H as (k & Hk & H).
  apply bind_Ok_inv in H as ([r ipn] & Hv & H). cbv beta iota in H.
  pose proof (bip_verify_moves _ _ _ _ _ _ _ _ _ _ _ _ _ Hv) as Hm.
  destruct Hm as [[-> Hlt]|[[-> | ->] ->]]; [by exists k, ipn|done..].
Qed.

(** The routine and the key length of a cipher of 802.11w stations. *)
Definition xform_of (e : Z) : option ((list Z -> Z -> Z -> list Z -> Z -> res (Z * list Z)) * Z) :=
  if e =? _AES_ then Some (ccmp, 16)
  else if e =? _CCMP_256_ then Some (ccmp, 32)
  else if e =? _GCMP_ then Some (gcmp, 16)
  else if e =? _GCMP_256_ then Some (gcmp, 32)
  else None.

(** The key of a frame from [ta] to [ra] that names group key [i]. *)
Definition key_for (w : rx_world) (ra ta : list Z) (i : Z) (key : list Z) : Prop :=
  exists sta, rtw_get_stainfo w ta = Some sta /\
    if IS_MCAST ra
    then binstallGrpkey (rw_sec w) = true /\ dot118021XGrpKeyid (rw_sec w) = i /\
         arr (dot118021XGrpKey (rw_sec w)) i = Ok key
    else key = sk_UncstKey (st_keys sta).

Lemma sw_decrypt_keyed w f r f' w' x n : sw_decrypt ccmp gcmp w f = Ok (r, f', w') -> r <> _FAIL ->
  let a := rf_attrib f in
  xform_of (ra_encrypt a) = Some (x, n) ->
  exists key, key_for w (ra_ra a) (ra_ta a) (ra_key_index a) key /\
    x key n (ra_hdrlen a) (rx_data f) (rx_len f) = Ok (r, rx_data f').
Proof.
  intros H Hr a Hx.
  assert (cipher_decrypt x (rw_sec w) (fun a => st_keys <$> rtw_get_stainfo w a) n f = Ok (r, f')) as Hc.
  { unfold xform_of in Hx. unfold sw_decrypt, rtw_aes_decrypt, rtw_gcmp_decrypt in H. fold a in H. cbv zeta in H.
    destruct (Z.eqb_spec (ra_encrypt a) _AES_) as [E|N1]; [|destruct (Z.eqb_spec (ra_encrypt a) _CCMP_256_) as [E|N2];
      [|destruct (Z.eqb_spec (ra_encrypt a) _GCMP_) as [E|N3];
        [|destruct (Z.eqb_spec (ra_encrypt a) _GCMP_256_) as [E|N4]; [|done]]]];
      rewrite E in H; cbn -[cipher_decrypt] in H; apply bind_Ok_inv in H as ([r1 f1] & H & E1);
      injection E1 as -> -> _; injection Hx as <- <-; exact H. }
  unfold cipher_decrypt in Hc. cbv zeta in Hc. fold a in Hc. unfold key_for.
  destruct (rtw_get_stainfo w (ra_ta a)) as [sta|]; cbn [fmap option_fmap option_map] in Hc; [|by injection Hc as ? _].
  destruct (IS_MCAST (ra_ra a)); cbn [andb] in Hc.
  - destruct (binstallGrpkey (rw_sec w)); cbn [negb] in Hc; [|by injection Hc as ? _].
    destruct (Z.eqb_spec (dot118021XGrpKeyid (rw_sec w)) (ra_key_index a)); cbn [negb] in Hc; [|by injection Hc as ? _].
    apply bind_Ok_inv in Hc as (key & Hk & Hc). apply bind_Ok_inv in Hc as ([r1 b] & Hx' & Hc).
    injection Hc as -> <-. exists key. split; [|exact Hx']. by exists sta.
  - apply bind_Ok_inv in Hc as (key & [= <-] & Hc). apply bind_Ok_inv in Hc as ([r1 b] & Hx' & Hc).
    injection Hc as -> <-. eexists. split; [|exact Hx']. by exists sta.
Qed.

(** The group key a protected frame names. *)
Definition named_key (b : list Z) : res Z := x ← rd b (WLAN_HDR_A3_LEN + 3); mret (Z.land (Z.shiftr x 6) 3).

(** The body of the deciphered memory [b] moved over the initialization vector. *)
Definition body_moved (e pkt_len : Z) (b d : list Z) : Prop :=
  let '(iv_len, icv_len) := SET_ICE_IV_LEN e in
  exists body, rd_n b (WLAN_HDR_A3_LEN + iv_len) (u32 (pkt_len - WLAN_HDR_A3_LEN - iv_len - icv_len)) = Ok body /\
    wr b WLAN_HDR_A3_LEN body = Ok d.

(** The decryptor accepts the frame, from [ta] to [ra], under the cipher of
    station [k]; unless the hardware has deciphered it before, the cipher's
    routine accepted the frame's bytes under the key for it, and the memory [d]
    left is what it made of them. *)
Definition deciphered (k ra ta : list Z) (v : rv_frame) (s : rv_state) (d : list Z) : Prop :=
  let e := u8 (sta_privacy ad k) in
  (exists v1 f w, take_ra_ta (mgmt_cipher_frame ad k v) = Ok v1 /\
     decryptor ccmp gcmp (rs_world s) (vf v1) = Ok (true, f, w)) /\
  (ra_bdecrypted (v_attr v) = false -> forall x n, xform_of e = Some (x, n) ->
   exists i key r b, named_key (v_data v) = Ok i /\ key_for (rs_world s) ra ta i key /\
     x key n WLAN_HDR_A3_LEN (v_data v) (rx_len (vf v)) = Ok (r, b) /\ r <> _FAIL /\
     body_moved e (rv_pkt_len (va v)) b d).

(** What [mgmt_cipher_frame] and [take_ra_ta] make of a frame. *)
Lemma cipher_frame_attr k v v1 : take_ra_ta (mgmt_cipher_frame ad k v) = Ok v1 ->
  va v1 = va v /\ v_data v1 = v_data v /\ rx_len (vf v1) = rx_len (vf v) /\ ra_encrypt (v_attr v1) = u8 (sta_privacy ad k) /\
  ra_hdrlen (v_attr v1) = WLAN_HDR_A3_LEN /\ ra_bdecrypted (v_attr v1) = ra_bdecrypted (v_attr v) /\
  get_addr (v_data v) A1 = Ok (ra_ra (v_attr v1)) /\ get_addr (v_data v) A2 = Ok (ra_ta (v_attr v1)).
Proof.
  unfold take_ra_ta, mgmt_cipher_frame. destruct (SET_ICE_IV_LEN _) as [iv icv]. intros H. res_inv.
  repeat split; assumption.
Qed.

Lemma decryptor_keyed w f f' w' x n : decryptor ccmp gcmp w f = Ok (true, f', w') ->
  let a := rf_attrib f in
  ra_bdecrypted a = false -> ra_hdrlen a = WLAN_HDR_A3_LEN -> xform_of (ra_encrypt a) = Some (x, n) ->
  GetFrameType (rx_data f) = Ok WIFI_MGT_TYPE ->
  exists i key r, named_key (rx_data f) = Ok i /\ key_for w (ra_ra a) (ra_ta a) i key /\
    x key n WLAN_HDR_A3_LEN (rx_data f) (rx_len f) = Ok (r, rx_data f') /\ r <> _FAIL.
Proof.
  intros H a Hb Hh Hx Ht. unfold decryptor in H. apply bind_Ok_inv in H as (f1 & Hf & H). cbv beta zeta in H.
  assert (0 < ra_encrypt a) as He.
  { unfold xform_of in Hx. repeat (case_match; [by (match goal with E : (_ =? _) = true |- _ =>
      apply Z.eqb_eq in E; rewrite E end)|]). done. }
  unfold set_key_index in Hf. fold a in Hf. cbv zeta in Hf. replace (ra_encrypt a >? 0) with true in Hf by lia.
  apply bind_Ok_inv in Hf as (c & Hc & Hf). cbv beta in Hf. injection Hf as <-. rewrite Hh in Hc.
  assert (0 <= Z.land (Z.shiftr c 6) 3 < 4) as Hk.
  { change 3 with (Z.ones 2). rewrite Z.land_ones by lia. apply Z.mod_pos_bound. lia. }
  replace (Z.land (Z.shiftr c 6) 3 >? WEP_KEYS) with false in H by (unfold WEP_KEYS; lia). cbv iota in H.
  set (f1 := rf_with_attrib f _) in H. apply bind_Ok_inv in H as ([[r f2] w2] & H & E). cbv beta iota in E.
  change (ra_bdecrypted (rf_attrib f1)) with (ra_bdecrypted a) in H.
  change (ra_encrypt (rf_attrib f1)) with (ra_encrypt a) in H. rewrite Hb in H.
  replace (z_true (ra_encrypt a)) with true in H by (unfold z_true; lia). cbn [negb andb] in H.
  unfold frame_type in H. change (rx_data f1) with (rx_data f) in H. unfold GetFrameType in Ht.
  rewrite Ht, bind_Ok in H. change (WIFI_MGT_TYPE =? WIFI_DATA) with false in H. cbv iota zeta in H.
  destruct (Z.eqb_spec r _FAIL) as [|Hne]; [done|]. injection E as <- _.
  apply (sw_decrypt_keyed _ _ _ _ _ x n) in H as (key & HK & Hr); [|exact Hne|exact Hx].
  exists (Z.land (Z.shiftr c 6) 3), key, r. unfold named_key. rewrite Hc, bind_Ok.
  split; [done|]. split; [exact HK|]. split; [|exact Hne].
  change (ra_hdrlen (rf_attrib f1)) with (ra_hdrlen a) in Hr. by rewrite Hh in Hr.
Qed.

Lemma mgmt_decrypt_ok k v s v' s' a1 a2 : mgmt_decrypt ad ccmp gcmp have_mem k v s = Ok (_SUCCESS, v', s') ->
  get_addr (v_data v) A1 = Ok a1 -> get_addr (v_data v) A2 = Ok a2 -> GetFrameType (v_data v) = Ok WIFI_MGT_TYPE ->
  deciphered k a1 a2 v s (v_data v').
Proof.
  unfold mgmt_decrypt, deciphered, body_moved. intros H H1 H2 Ht.
  destruct (SET_ICE_IV_LEN (u8 (sta_privacy ad k))) as [iv icv].
  apply bind_Ok_inv in H as (v1 & Hv1 & H). cbv beta zeta in H. destruct (negb _); [done|].
  apply bind_Ok_inv in H as ([[ok f] w] & Hd & H). cbv beta iota in H.
  apply bind_Ok_inv in H as (body & Hbo & H). apply bind_Ok_inv in H as (d & Hwr & H). injection H as Hok <- _.
  destruct ok; [|done]. split; [by exists v1, f, w|]. intros Hb x n Hx.
  apply cipher_frame_attr in Hv1 as (E0 & E1 & E2 & E3 & E4 & E5 & E6 & E7).
  rewrite H1 in E6. injection E6 as ->. rewrite H2 in E7. injection E7 as ->.
  destruct (decryptor_keyed _ _ _ _ x n Hd) as (i & key & r & Hi & HK & Hr & Hne);
    fold (v_attr v1) (v_data v1); try congruence.
  fold (v_attr v1) (v_data v1) in Hi, HK, Hr. rewrite E1 in Hi, Hr. rewrite E2 in Hr. rewrite E0 in Hbo.
  exists i, key, r, (rx_data f). split_and!; try assumption. by exists body.
Qed.

(** Frames a station with management frame protection must not accept in the
    clear: it leaves, or it acts and there is a key. *)
Definition must_protect (k : list Z) (t : Z) (v : rv_frame) : Prop :=
  t = WIFI_DEAUTH \/ t = WIFI_DISASSOC \/
  t = WIFI_ACTION /\ bpairwise_key_installed ad k = true /\
    exists c, rd (v_data v) WLAN_HDR_A3_LEN = Ok c /\ CATEGORY_IS_ROBUST c = true.

Lemma mgmt_plain_ok k t bmc v s s' : must_protect k t v ->
  mgmt_plain ad cmac gmac have_mem k t bmc v s = Ok (_SUCCESS, s') -> bmc = true /\ bip_verified v s.
Proof.
  intros Hm H. unfold mgmt_plain in H. apply bind_Ok_inv in H as (c & Hc & H). cbv beta zeta in H.
  destruct Hm as [->|[->|(-> & Hk & c' & Hc' & Hr)]].
  - change (WIFI_DEAUTH =? WIFI_ACTION) with false in H. cbn [andb] in H.
    change ((WIFI_DEAUTH =? WIFI_DEAUTH) || _) with true in H. cbv iota in H.
    destruct bmc; [|by apply bind_Ok_inv in H as (? & _ & H)]. split; [done|]. eapply bip_verify_ok; exact H.
  - change (WIFI_DISASSOC =? WIFI_ACTION) with false in H. cbn [andb] in H.
    change ((WIFI_DISASSOC =? WIFI_DEAUTH) || (WIFI_DISASSOC =? WIFI_DISASSOC)) with true in H. cbv iota in H.
    destruct bmc; [|by apply bind_Ok_inv in H as (? & _ & H)]. split; [done|]. eapply bip_verify_ok; exact H.
  - change (WIFI_ACTION =? WIFI_ACTION) with true in *. cbv iota in Hc. assert (c = c') as -> by congruence.
    change ((WIFI_ACTION =? WIFI_DEAUTH) || (WIFI_ACTION =? WIFI_DISASSOC)) with false in H.
    rewrite Hr, Hk in H. cbn [andb] in H. cbv iota in H. destruct bmc; [|done]. split; [done|].
    destruct (CATEGORY_IS_GROUP_PRIVACY c'); [done|]. eapply bip_verify_ok; exact H.
Qed.

(** The checks themselves hand nothing to the management dispatcher. *)
Lemma bip_verify_quiet v s r s' : bip_verify ad cmac gmac have_mem v s = Ok (r, s') ->
  rs_events s' = rs_events s /\ (r = _FAIL \/ r = _SUCCESS).
Proof. unfold bip_verify. intros H. rv_inv. split; [done|]. case_match; auto. Qed.

Lemma mgmt_plain_quiet k t bmc v s r s' : mgmt_plain ad cmac gmac have_mem k t bmc v s = Ok (r, s') ->
  (r = _FAIL \/ r = _SUCCESS) /\ forall id, RvMgt id ∈ rs_events s' -> RvMgt id ∈ rs_events s.
Proof.
  unfold mgmt_plain. cbv zeta. intros H. rv_inv; try (split; [tauto|done]).
  all: try match goal with H : bip_verify _ _ _ _ _ _ = Ok _ |- _ => apply bip_verify_quiet in H as [-> ?]; by split end.
  all: split; [tauto|]; intros id; case_match; [|done]; unfold emit.
  all: cbn; rewrite elem_of_app, list_elem_of_singleton; intros [?|?]; done.
Qed.

Lemma mgmt_decrypt_quiet k v s r v' s' : mgmt_decrypt ad ccmp gcmp have_mem k v s = Ok (r, v', s') ->
  (r = _FAIL \/ r = _SUCCESS) /\ rs_events s' = rs_events s.
Proof.
  unfold mgmt_decrypt. cbv zeta. destruct (SET_ICE_IV_LEN (u8 (sta_privacy ad k))) as [iv icv]. intros H.
  rv_inv; split; try done; try tauto. case_match; auto.
Qed.

(** Their type is that of a management frame. *)
Lemma must_protect_type k t v : must_protect k t v -> get_frame_sub_type (v_data v) = Ok t ->
  GetFrameType (v_data v) = Ok WIFI_MGT_TYPE.
Proof.
  unfold get_frame_sub_type, GetFrameType. intros Hm (fc & -> & [= E])%bind_Ok_inv. rewrite bind_Ok.
  assert (Z.land t 12 = 0) as Ht by (destruct Hm as [->|[->|[-> _]]]; reflexivity).
  change (Ok (Z.land fc 12) = Ok 0). f_equal. rewrite <- Ht, <- E, <- Z.land_assoc. done.
Qed.

(** C27: With a key for group management frames installed, a deauthentication
    or disassociation from a station that does management frame protection,
    and a robust action frame once its pairwise key is there, reaches the
    management dispatcher only if, unprotected, it is for a group and was
    verified as a group management frame with a fresh packet number, or,
    protected, the decryptor accepted this very frame under the station's
    cipher. Unless the hardware marked it as deciphered, that means for CCMP
    and GCMP: the cipher's routine accepted the frame's bytes under the
    station's key (for a group: under the installed group key that the frame
    names), and its output, moved over the initialization vector, is what the
    frame then holds. *)
Theorem mgmt_frames_protected v s r v' s' a1 a2 k t id :
  validate_recv_mgnt_frame ad cmac gmac ccmp gcmp have_mem v s = Ok (r, v', s') ->
  binstallBIPkey ad = true -> get_addr (v_data v) A1 = Ok a1 -> get_addr (v_data v) A2 = Ok a2 ->
  find_sta s a2 = Some k -> Z.land (sta_flags ad k) WLAN_STA_MFP <> 0 ->
  get_frame_sub_type (v_data v) = Ok t -> must_protect k t v ->
  RvMgt id ∈ rs_events s' -> RvMgt id ∉ rs_events s ->
  if ra_privacy (v_attr v) then deciphered k a1 a2 (v_set_psta v k) s (v_data v') else IS_MCAST a1 = true /\ bip_verified v s.
Proof.
  unfold validate_recv_mgnt_frame. intros H Hbip H1 H2 Hk Hmfp Ht Hm Hin Hnin.
  rewrite H2, bind_Ok in H. cbv zeta in H. rewrite Hk in H.
  apply bind_Ok_inv in H as ([[r1 v1] s1] & Hp & H). cbv beta iota in H.
  unfold validate_mgmt_protect, has_mfp in Hp. rewrite Hbip in Hp. cbn [negb] in Hp.
  change (v_data (v_set_psta v k)) with (v_data v) in Hp. rewrite Ht, H1, !bind_Ok in Hp.
  replace (z_true (Z.land (sta_flags ad k) WLAN_STA_MFP)) with true in Hp by (unfold z_true; lia).
  change (ra_privacy (v_attr (v_set_psta v k))) with (ra_privacy (v_attr v)) in Hp.
  destruct (ra_privacy (v_attr v)); cbn [negb] in Hp.
  - pose proof (mgmt_decrypt_quiet _ _ _ _ _ _ Hp) as [[-> | ->] Hq].
    { injection H as _ _ <-. by rewrite Hq in Hin. }
    pose proof (must_protect_type _ _ _ Hm Ht) as Hty.
    assert (v' = v1) as ->.
    { change (_SUCCESS =? _FAIL) with false in H. cbv iota in H.
      apply bind_Ok_inv in H as ([[[] []] ?] & _ & H); by injection H. }
    apply (mgmt_decrypt_ok _ _ _ _ _ a1 a2 Hp); assumption.
  - apply bind_Ok_inv in Hp as ([r2 s2] & Hp & E). cbv beta iota in E. injection E as -> _ ->.
    pose proof (mgmt_plain_quiet _ _ _ _ _ _ _ Hp) as [[-> | ->] Hq].
    { injection H as _ _ <-. by apply Hq in Hin. }
    by apply (mgmt_plain_ok _ _ _ _ _ _ Hm) in Hp.
Qed.
End mgmt_frames.

(** ** Fragments of management frames *)

Lemma le16_total b p : 0 <= p -> p + 2 <= zlen b -> exists n, RTW_GET_LE16 b p = Ok n.
Proof.
  intros H1 H2. unfold RTW_GET_LE16. destruct (rd_in b (p + 1)) as (x & -> & _); [lia|].
  destruct (rd_in b p) as (y & -> & _); [lia|]. rewrite !bind_Ok. by eexists.
Qed.

Lemma take_header_total v : 24 <= zlen (v_data v) -> exists v', take_header v = Ok v'.
Proof.
  intros Hl. destruct (le16_total (v_data v) 0) as (fc & Hfc); [lia..|].
  destruct (le16_total (v_data v) 22) as (sc & Hsc); [lia..|].
  unfold take_header, get_tofr_ds, GetToDs, GetFrDs, GetPwrMgt, GetMFrag, GetMData, GetPrivacy, GetOrder, fc_bit,
    GetFragNum, GetSequence. cbv zeta. rewrite Hfc, Hsc, !bind_Ok. by eexists.
Qed.

(** The defragmenter frees a last fragment that comes alone. *)
Lemma mgnt_fragment_freed ad cmac gmac ccmp gcmp have_mem v s k sta :
  binstallBIPkey ad = false -> 24 <= zlen (v_data v) -> ra_encrypt (v_attr v) = 0 ->
  ra_mfrag (v_attr v) = false -> ra_frag_num (v_attr v) <> 0 ->
  defrag_station (rs_world s) (vf v) = Ok (Some (k, sta)) -> st_defrag_q sta = [] ->
  exists v' s', validate_recv_mgnt_frame ad cmac gmac ccmp gcmp have_mem v s = Ok (_SUCCESS, v', s') /\
    rf_id (vf v') = rf_id (vf v) /\ rw_freed (rs_world s') = rw_freed (rs_world s) ++ [rf_id (vf v)].
Proof.
  intros Hb Hl He Hm Hn Hst Hq. unfold validate_recv_mgnt_frame, get_addr.
  destruct (rd_n_in (v_data v) A2 ETH_ALEN) as (a2 & -> & _); [unfold A2, ETH_ALEN; lia..|].
  rewrite bind_Ok. cbv zeta. set (v1 := v_set_psta v _).
  unfold validate_mgmt_protect. rewrite Hb. cbn [negb]. rewrite bind_Ok. cbv iota beta.
  change (_SUCCESS =? _FAIL) with false. cbv iota. unfold recvframe_chk_defrag. cbv zeta.
  change (defrag_station (rs_world s) (vf v1)) with (defrag_station (rs_world s) (vf v)). rewrite Hst, bind_Ok.
  change (rf_attrib (vf v1)) with (v_attr v). rewrite Hm. cbn [negb andb].
  replace (ra_frag_num (v_attr v) =? 0) with false by lia. cbn [negb]. rewrite Hq. cbn [app].
  set (f := rf_with_keytrack (vf v1) _). unfold recvframe_defrag.
  change (rf_attrib f) with (v_attr v). rewrite He. change (pn_consecutive_cipher 0) with false. cbv iota.
  rewrite bind_Ok. replace (0 =? ra_frag_num (v_attr v)) with false by lia. cbn [negb]. rewrite !bind_Ok.
  eexists _, _. split; [reflexivity|]. split; done.
Qed.

(** C29: A management frame that says it is the last fragment of several, when
    no other fragment is kept in the queue it belongs to (of its sender, or
    for group frames of the broadcast station) and no key for management
    frames is installed, is freed twice by the receive path, which returns its
    buffer to the PHL twice. *)
Theorem mgnt_fragment_freed_twice ad now passing_ms cmac gmac ccmp gcmp have_mem v s k sta b0 n :
  binstallBIPkey ad = false -> 24 <= zlen (v_data v) ->
  rd (v_data v) 0 = Ok b0 -> Z.land b0 3 = 0 -> GetFrameType (v_data v) = Ok WIFI_MGT_TYPE ->
  GetMFrag (v_data v) = Ok false -> GetFragNum (v_data v) = Ok n -> n <> 0 -> ra_encrypt (v_attr v) = 0 ->
  defrag_station (rs_world s) (vf v) = Ok (Some (k, sta)) -> st_defrag_q sta = [] ->
  exists s', rx_validate ad now passing_ms cmac gmac ccmp gcmp have_mem v s = Ok (None, s') /\
    rw_freed (rs_world s') = rw_freed (rs_world s) ++ [rf_id (vf v); rf_id (vf v)].
Proof.
  intros Hbip Hl Hb0 Hv Ht Hm Hn Hn0 He Hst Hq.
  unfold rx_validate, validate_recv_frame. rewrite Hb0, bind_Ok, Hv. cbn [Z.eqb negb]. rewrite Ht, bind_Ok.
  destruct (le16_total (v_data v) 0) as (fc & Hfc); [lia..|].
  unfold get_frame_sub_type at 1. rewrite Hfc, !bind_Ok.
  destruct (take_header_total v Hl) as (v1 & Hv1). rewrite Hv1, bind_Ok.
  apply take_header_inv in Hv1 as (E1 & E2 & _ & _ & _ & E6 & E7 & _ & E8 & E9).
  change (WIFI_MGT_TYPE =? WIFI_MGT_TYPE) with true. cbv iota.
  destruct (mgnt_fragment_freed ad cmac gmac ccmp gcmp have_mem v1 s k sta) as (v2 & s2 & -> & I1 & I2);
    try congruence.
  { unfold defrag_station, frame_type in *. fold (v_attr v1) (v_data v1). fold (v_attr v) (v_data v) in Hst.
    by rewrite E9, E1. }
  rewrite !bind_Ok. change (_FAIL =? _SUCCESS) with false. cbv iota. eexists. split; [reflexivity|].
  cbn [rs_world rs_with_world rw_free rw_freed rw_unlink rw_with_stas]. rewrite I2, I1, E2. by rewrite <- app_assoc.
Qed.

(** ** Examples

    A station of a network with a cipher, the access point [ex_ap], and a frame
    from it in the clear. *)

Definition ex_me : list Z := [4; 0; 0; 0; 0; 1].
Definition ex_ap : list Z := [2; 0; 0; 0; 0; 0].
Definition ex_all : list Z := [255; 255; 255; 255; 255; 255].
Definition ex_ad (bip : bool) : rv_adapter :=
  mkAd (Z.lor WIFI_STATION_STATE WIFI_ASOC_STATE) ex_me ex_ap false 0 _AES_ _AES_ 10
    (fun _ => WLAN_STA_MFP) (fun _ => _AES_) (fun _ => true) bip _BIP_CMAC_128_ 0 [[1; 2; 3]].
Definition ex_peer : rx_sta :=
  mkSta (mkSk [] []) true true (replicate 17 0) [] 0 (replicate 17 0) 0 0 0 [] 7.
Definition ex_rs : rv_state :=
  mkRvs (mkRw (mkSec dot11AuthAlgrthm_8021X 0 [] [] 0 [] [] false 0 false false false 0 [0; 0; 0; 0])
           crc_boot [4; 9; 9; 9; 9; 9] {[ ex_ap := ex_peer; [4; 9; 9; 9; 9; 9] := ex_peer ]} 0 [] []) ∅ ∅ ∅ 0 0 4 [].
Definition ex_rx (a1 : list Z) (fc0 fc1 seq0 : Z) (payload : list Z) : rv_frame :=
  let b := [fc0; fc1; 0; 0] ++ a1 ++ ex_ap ++ ex_ap ++ [seq0; 0] ++ payload in
  mkVf (mkRf 5 (mkRa 0 0 0 0 0 false false 0 false 0 0 false [] []) b (zlen b) (zlen b) [] 0)
    (mkRv (mkMa 0 false [] []) [] false false false 0 (zlen b)).
Definition ex_eapol : list Z := rtw_rfc1042_header ++ [0x88; 0x8e; 1; 2; 3].
Definition ex_eapol_rx : rv_frame := ex_rx ex_me 8 2 16 ex_eapol.

(** A toy check value for the examples. *)
Definition ex_cmac (key : list Z) (len : Z) (data : list Z) : option (list Z) :=
  Some (replicate 16 (foldr Z.lxor 0 (key ++ data))).
Definition ex_gmac (_ : list Z) (_ : Z) (_ : list Z) (_ : Z) (_ : list Z) : option (list Z) := None.
Definition ex_dec (_ : list Z) (_ _ : Z) (b : list Z) (_ : Z) : res (Z * list Z) := Ok (_SUCCESS, b).
Definition ex_val (bip : bool) (v : rv_frame) : res (option rv_frame * rv_state) :=
  rx_validate (ex_ad bip) 0 (fun _ => 0) ex_cmac ex_gmac ex_dec ex_dec (fun _ => true) v ex_rs.
Definition ex_ok : rv_frame := match ex_val false ex_eapol_rx with Ok (Some v, _) => v | _ => ex_eapol_rx end.
Definition ex_ok_s : rv_state := match ex_val false ex_eapol_rx with Ok (_, s) => s | _ => ex_rs end.

Lemma ex_eapol_passes : rx_validate (ex_ad false) 0 (fun _ => 0) ex_cmac ex_gmac ex_dec ex_dec (fun _ => true)
  ex_eapol_rx ex_rs = Ok (Some ex_ok, ex_ok_s).
Proof. vm_compute. reflexivity. Qed.

Lemma data_frame_accepted_witness :
  exists v1, v_data v1 = v_data ex_eapol_rx /\ get_tofr_ds (v_data ex_eapol_rx) = Ok (v_tofr v1) /\
    header_ok (ex_ad false) v1 ex_ok /\
    (MLME_IS_AP (ex_ad false) || MLME_IS_STA (ex_ad false) = true -> from_station v1 ex_rs ex_ok (rf_psta (vf ex_ok))).
Proof.
  apply (data_frame_accepted (ex_ad false) 0 (fun _ => 0) ex_cmac ex_gmac ex_dec ex_dec (fun _ => true)
    ex_eapol_rx ex_rs ex_ok ex_ok_s).
  apply ex_eapol_passes.
Defined.

(** What validation leaves of a frame in the clear, and what is handed over. *)
Definition ex_valid (v : rv_frame) : rv_frame := match ex_val false v with Ok (Some v, _) => v | _ => v end.
Definition ex_valid_s (v : rv_frame) : rv_state := match ex_val false v with Ok (_, s) => s | _ => ex_rs end.
Definition ex_clear (v : rv_frame) : recv_frame :=
  rf_with_attrib (vf (ex_valid v)) (ra_with_bdecrypted (v_attr (ex_valid v)) true).

(** An MSDU with another LLC header, and EAPOL's type behind it. *)
Definition ex_other : list Z := [0x42; 0x42; 3; 0; 0; 0; 0x88; 0x8e; 1; 2].

Lemma plaintext_confined_witness :
  let ok msdu pkt := eapol_pkt ex_me ex_ap msdu pkt \/ length_pkt ex_me ex_ap msdu pkt in
  Forall (ok ex_eapol) [ex_me ++ ex_ap ++ [0x88; 0x8e; 1; 2; 3]] /\
  Forall (ok ex_other) [ex_me ++ ex_ap ++ [0; 10] ++ ex_other].
Proof.
  intros ok. split; subst ok.
  all: match goal with |- Forall _ [ex_me ++ ex_ap ++ ?p] => set (pkt := ex_me ++ ex_ap ++ p) end.
  1: set (msdu := ex_eapol).
  2: set (msdu := ex_other).
  all: apply (plaintext_confined (ex_ad false) 0 (fun _ => 0) ex_cmac ex_gmac ex_dec ex_dec (fun _ => true)
    true ex_act (fun _ => true) 0 0 1 (ex_rx ex_me 8 2 16 msdu) ex_rs (ex_valid (ex_rx ex_me 8 2 16 msdu))
    (ex_valid_s (ex_rx ex_me 8 2 16 msdu))
    (mkFp (take 24 (v_data (ex_rx ex_me 8 2 16 msdu))) [] msdu [] [])
    (ex_clear (ex_rx ex_me 8 2 16 msdu)) CORE_RX_CONTINUE (rs_world (ex_valid_s (ex_rx ex_me 8 2 16 msdu))) ([pkt], [])).
  all: try (vm_compute; reflexivity).
  all: try (vm_compute; discriminate).
  all: try (repeat split; fail).
  all: try (vm_compute; repeat constructor; discriminate).
  all: vm_compute; split; [discriminate|reflexivity].
Defined.

(** Deauthentications of all stations, the numbers 5, 4 and 6. *)
Definition ex_pn (n : Z) : list Z := [n; 0; 0; 0; 0; 0].
Definition ex_addrs : list Z := ex_all ++ ex_ap ++ ex_ap.
Definition ex_mic (n : Z) : list Z :=
  default [] (bip_mic ex_cmac ex_gmac _BIP_CMAC_128_ [] 0 [1; 2; 3]
    (bip_data _BIP_CMAC_128_ 0xc0 ex_addrs [7; 0] 0 (ex_pn n))).
Definition ex_deauth (n : Z) : list Z := bip_frame 0xc0 0 0 ex_addrs [7; 0] 0 (ex_pn n) (ex_mic n).
Definition ex_bip (n : Z) : bip_rx := mkBip _BIP_CMAC_128_ 44 (ex_deauth n) 44 [1; 2; 3] 0 false.

(** One verified here; one with another check value, which only the hardware can
    have verified. *)
Lemma bip_verify_spec_witness :
  let verify pn mic := rtw_bip_verify ex_cmac ex_gmac (fun _ => true) _BIP_CMAC_128_ 44
    (bip_frame 0xc0 0 0 ex_addrs [7; 0] 0 (ex_pn pn) mic ++ [0]) 44 [1; 2; 3] 0 4 in
  verify 5 (ex_mic 5) false = Ok (_SUCCESS, 5) /\ verify 4 (ex_mic 4) false = Ok (_FAIL, 4) /\
  verify 5 (zeros 8) false = Ok (_FAIL, 4) /\ verify 5 (zeros 8) true = Ok (_SUCCESS, 5).
Proof.
  pose proof (fun n mic hw H => bip_verify_spec ex_cmac ex_gmac (fun _ => true) _BIP_CMAC_128_ 44 0xc0 0 0 ex_addrs
    [7; 0] 0 (ex_pn n) mic [0] [1; 2; 3] 0 4 hw eq_refl eq_refl H (ltac:(by split)) (ltac:(by split))) as H.
  split_and!.
  - exact (H 5 (ex_mic 5) false eq_refl).
  - exact (H 4 (ex_mic 4) false eq_refl).
  - exact (H 5 (zeros 8) false eq_refl).
  - exact (H 5 (zeros 8) true eq_refl).
Defined.

Lemma bip_no_replay_witness :
  bip_run ex_cmac ex_gmac (fun _ => true) 4 [ex_bip 5; ex_bip 4; ex_bip 6] = Ok [5; 6] /\
  StronglySorted Z.lt [4; 5; 6].
Proof.
  assert (bip_run ex_cmac ex_gmac (fun _ => true) 4 [ex_bip 5; ex_bip 4; ex_bip 6] = Ok [5; 6]) as E
    by (vm_compute; reflexivity).
  split; [exact E|].
  apply (bip_no_replay ex_cmac ex_gmac (fun _ => true) 4 [ex_bip 5; ex_bip 4; ex_bip 6]). exact E.
Defined.

Definition ex_deauth_rx : rv_frame := ex_rx ex_all 0xc0 0 0 (drop 24 (ex_deauth 5)).

(** A toy CCMP: the last byte is the sum of the key. *)
Definition ex_ccmp (key : list Z) (n hdrlen : Z) (b : list Z) (len : Z) : res (Z * list Z) :=
  mret (if at_ b (len - 1) =? foldr Z.lxor 0 key then _SUCCESS else _FAIL, b).

(** A protected deauthentication for the station, with its reason code behind
    the initialization vector. *)
Definition ex_prot (mic : Z) : rv_frame :=
  v_set_attr (ex_rx ex_me 0xc0 0x40 0 ([1; 0; 0; 0x20; 0; 0; 0; 0; 7; 0] ++ [0; 0; 0; 0; 0; 0; 0; mic]))
    (mkRa 0 0 0 0 0 false true 0 false 0 0 false [] []).
Definition ex_mgnt (v : rv_frame) : res (Z * rv_frame * rv_state) :=
  validate_recv_mgnt_frame (ex_ad true) ex_cmac ex_gmac ex_ccmp ex_dec (fun _ => true) v ex_rs.

(** One for a group, verified; and a protected one. With another last byte it is
    not handed on. *)
Lemma mgmt_frames_protected_witness :
  (IS_MCAST ex_all = true /\ bip_verified (ex_ad true) ex_cmac ex_gmac (fun _ => true) ex_deauth_rx ex_rs) /\
  (exists d, deciphered (ex_ad true) ex_ccmp ex_dec ex_ap ex_me ex_ap (v_set_psta (ex_prot 0) ex_ap) ex_rs d) /\
  exists v' s', ex_mgnt (ex_prot 1) = Ok (_SUCCESS, v', s') /\ rs_events s' = [].
Proof.
  assert (exists v' s', ex_mgnt ex_deauth_rx = Ok (_SUCCESS, v', s') /\ rs_events s' = [RvMgntPkt ex_ap; RvMgt 5])
    as (v1 & s1 & H1 & E1) by (eexists _, _; split; vm_compute; reflexivity).
  assert (exists v' s', ex_mgnt (ex_prot 0) = Ok (_SUCCESS, v', s') /\ rs_events s' = [RvMgntPkt ex_ap; RvMgt 5])
    as (v2 & s2 & H2 & E2) by (eexists _, _; split; vm_compute; reflexivity).
  split; [|split; [exists (v_data v2)|eexists _, _; split; vm_compute; reflexivity]].
  1: apply (mgmt_frames_protected (ex_ad true) ex_cmac ex_gmac ex_ccmp ex_dec (fun _ => true)
    ex_deauth_rx ex_rs _SUCCESS v1 s1 ex_all ex_ap ex_ap WIFI_DEAUTH 5 H1).
  10: apply (mgmt_frames_protected (ex_ad true) ex_cmac ex_gmac ex_ccmp ex_dec (fun _ => true)
    (ex_prot 0) ex_rs _SUCCESS v2 s2 ex_me ex_ap ex_ap WIFI_DEAUTH 5 H2).
  all: try (vm_compute; reflexivity).
  all: try (vm_compute; discriminate).
  all: try (left; reflexivity).
  all: try apply not_elem_of_nil.
  all: rewrite ?E1, ?E2; apply list_elem_of_further, list_elem_of_here.
Defined.

(** An action frame that says it is fragment 1, of which there are no others. *)
Definition ex_frag1 : rv_frame := ex_rx ex_me 0xd0 0 1 [4; 0].

Lemma mgnt_fragment_freed_twice_witness :
  exists s', ex_val false ex_frag1 = Ok (None, s') /\ rw_freed (rs_world s') = [5; 5].
Proof.
  apply (mgnt_fragment_freed_twice (ex_ad false) 0 (fun _ => 0) ex_cmac ex_gmac ex_dec ex_dec (fun _ => true)
    ex_frag1 ex_rs [4; 9; 9; 9; 9; 9] ex_peer 0xd0 1); try (vm_compute; reflexivity); try (vm_compute; discriminate).
Defined.
